(* ===== verification/_CoqProject ===== *)
-Q . S2P
Prelude.v
JsLib.v
JsNumber.v
BigNum.v
Types.v
SourceFilters.v
Fills.v
Orders.v
Constants.v
GasSchedule.v
PathModel.v
Optimizer.v
Simulation.v
QuoteInfo.v
FeeCalculator.v
PairUtils.v
TokenGraph.v
Caches.v
BridgeSources.v
Sampler.v
SamplerOperations.v
Tokens.v
PoolTables.v
BalancerPools.v
SlippageModel.v
QuoteReport.v
RfqClient.v
RfqValidator.v
MarketOps.v
Quotes.v
SwapQuoter.v
Orderbook.v
OrderFeed.v
TransformERC20.v
QuoteConsumer.v
RequestParsing.v
ServiceUtils.v
Pricing.v
GasEstimation.v
SwapService.v
SwapHandlers.v
MetaTransactions.v
HttpLayer.v
RpcSubprovider.v
SraHandlers.v
Config.v
Server.v
Process.v
RfqWorker.v
QuoterSetup.v
SwapStack.v
