(* ===== verification/Prelude.v ===== *)
(** * The 0x API, verified

    The program quotes token swaps.  It samples liquidity sources through a
    contract, asks RFQ makers for quotes, finds the best route through both,
    turns the route into on-chain orders, computes the amounts, prices and fees
    of a quote, and encodes the transaction that settles it; it also keeps an
    order book, serves meta-transactions, and runs the workers that feed its
    caches.  This development models the TypeScript under [src/src/] as it is
    written and proves what makes it correct.  File names below are relative to
    [src/src/]; MOU abbreviates [asset-swapper/utils/market_operation_utils/].

    ** How the parts interact

    A request is parsed ([utils/parse_utils.ts], [handlers/swap_handlers.ts]) and
    handed to the swap service ([services/swap_service.ts]), which turns it into
    options of the swap quoter ([asset-swapper/swap_quoter.ts]).  The quoter asks
    the order book for limit orders and the market operations ([MOU/index.ts])
    for a route: these sample the pair ([MOU/sampler.ts],
    [MOU/sampler_operations.ts], the tables of [MOU/constants.ts] and the caches
    of [MOU/pools_cache/]), give the samples to the optimizer
    ([MOU/path_optimizer.ts], around an external router), ask makers for RFQ
    quotes against the first route, validate these ([services/
    postgres_rfqt_firm_quote_validator.ts]) and route again.  The route is a path
    ([MOU/path.ts]) of fills and orders; the quote info ([asset-swapper/utils/
    quote_info.ts]) simulates the orders for the best and the worst case, and the
    consumer ([asset-swapper/quote_consumers/]) encodes the quote.  The service
    adds fees, gas and prices, checks the answer, and the handler answers and
    publishes a report.  Meta-transactions wrap the same service.  Beside them
    stand the order book and its feed, the worker that stores the balances of
    makers, the error handling of the servers, the configuration and the start-up.

    ** The values

    Amounts are [BigNumber]s of a third-party library.  [BigNum] states its
    documented behaviour as the class [BigNumberLib]: a decimal denotes a value
    of [ext] (a rational, an infinity or NaN), sums and products are exact, a
    division rounds half up at [DECIMAL_PLACES], and so on; every theorem about
    amounts is proved against the class.  [Concrete.QBigNumber] implements it,
    so the class is inhabited and the witnesses compute.  [fin a q] says that the
    decimal [a] is finite and denotes [q]; [int a z] (in [Fills]) that it is the
    integer [z].  JavaScript numbers ([JsNumber]) are binary64: every operation
    is the exact one followed by [round64].  A [throw] is a value of [result];
    [Throw TypeError] is reading a field of [undefined].  Strings are ASCII.
    Promises that the code awaits are sequenced as results; what a call of a
    third party answers is an argument or a class.

    ** The files

    Values and data:
    - [Prelude]: the result monad, lists, insertion-ordered maps, sums, tactics;
      [JsLib]: the language's operations on arrays and strings; [JsNumber],
      [BigNum]: the two kinds of numbers.
    - [Types]: the data of [asset-swapper/types.ts] and [MOU/types.ts].
    - [PairUtils] ([utils/pair_utils.ts]), [SourceFilters]
      ([MOU/source_filters.ts]), [TokenGraph]
      ([asset-swapper/utils/token_adjacency_graph.ts]).
    - [Constants], [GasSchedule], [Tokens], [PoolTables] ([MOU/constants.ts],
      [MOU/curve.ts]): sources, gas, tokens and pools of every chain.

    Sampling:
    - [Caches] ([MOU/pools_cache/], [utils/result_cache.ts], the caches of
      reserves, c-tokens and gas prices): expiry and refresh, Modules
      [PoolsCache], [SwapInfoCache], [ResultCache], [GasPriceUtils] and others;
      [BalancerPools] (the Balancer caches and their subgraph): what is fetched
      and kept.
    - [BridgeSources] ([MOU/bridge_source_utils.ts]): the pools of a pair, over
      the class [BridgeTables] of the tables, whose instance is
      [PoolTables.chainTables].
    - [Sampler] ([MOU/sampler.ts], [MOU/sampler_contract_operation.ts],
      [samplers/]): amounts and batches, over the class [SamplerContract];
      [SamplerOperations] ([MOU/sampler_operations.ts]): every operation.

    Routing and quotes:
    - [Fills] ([MOU/fills.ts], [MOU/rate_utils.ts], [MOU/comparison_price.ts],
      [asset-swapper/utils/utils.ts]), [Orders] ([MOU/orders.ts]), [PathModel]
      ([MOU/path.ts], state [Path.t]), [Optimizer] ([MOU/path_optimizer.ts]).
    - [Simulation] ([asset-swapper/utils/quote_simulation.ts]), [QuoteInfo]
      ([asset-swapper/utils/quote_info.ts]), [QuoteReport]
      ([quote_report_generator.ts]), [SlippageModel]
      ([utils/slippage_model_manager.ts], [utils/slippage_model_fill_adjustor.ts]).
    - [RfqClient] ([utils/rfq_client.ts] and its mappers), [RfqValidator] (the
      validation of firm quotes, the blocked addresses).
    - [MarketOps] ([MOU/index.ts]), [SwapQuoter] ([asset-swapper/swap_quoter.ts]).
    - [Quotes] (the quote types, the class [IPath]), [TransformERC20],
      [QuoteConsumer] ([asset-swapper/quote_consumers/]): a call is kept as its
      method and structured arguments.

    The service:
    - [RequestParsing], [ServiceUtils], [Pricing], [GasEstimation],
      [FeeCalculator] ([utils/fee_calculator.ts]), [SwapService], [SwapHandlers],
      [MetaTransactions] (service and handlers).
    - [Orderbook] ([services/orderbook_service.ts], [utils/order_utils.ts]),
      [OrderFeed] ([services/websocket_service.ts], the handlers that post),
      [SraHandlers] (the handlers that read).
    - [RfqWorker]: the worker of balances with the contract it reads, and the last
      look of a maker.
    - [HttpLayer] ([utils/schema_utils.ts], [errors.ts], [middleware/]),
      [RpcSubprovider] ([rpc_subprovider.ts]), [Config] ([config.ts]), [Server]
      ([runners/], [routers/]), [Process] ([index.ts], [app.ts], [ormconfig.ts],
      [sentry.ts]).
    - [QuoterSetup] ([options.ts], [asset-swapper/constants.ts], the constructors
      of the quoter and of the service, [MOU/bancor_service.ts]).
    - [SwapStack]: the endpoint of quotes, composed of all of the above.

    ** Interfaces

    Where components meet, the client is proved against a class and the other
    component implements it: [IPath] with [IPathLaws] ([Path]), [FillAdjustor]
    (the slippage model and the identity), [Orderbook] (the no-op order book and
    the database one), [RfqFirmQuoteValidator] (the database one), [Quoter] with
    [QuoterLaws] (the swap quoter), [ISwapService] (the swap service),
    [IMetaTransactionService], [BridgeTables] (the tables of each chain).  What
    stands outside the repository is a class or a parameter with documented laws
    only: [BigNumberLib], [OrderDatabase], [AffiliateEncoding], [Node],
    [RevertDecoder], [SamplerContract], [RfqApi].  The router is a parameter of
    which nothing is assumed.

    ** What the theorems show

    - Composition: the endpoint of quotes never uses a source that its request
      excludes, and its errors are those of the API; the quoter implements the
      contract that the service relies on.
    - Sampling: amounts never decrease up to the amount of the request, each answer
      reaches the operation that asked, each sample is of a source that was asked
      for; every enabled source whose pools stand in tables is sampled, but the one
      without a table on its chain, and those whose pools are found at run time
      are sampled for the pairs that the caches know; the caches keep the largest pools and load both directions
      of a pair.
    - Routing: the fills rebuilt from a route are bounded by the samples, the
      optimizer returns the better path, the second routing and the RFQ phase keep
      the restrictions of the request, and failures of makers do not fail a quote.
    - Paths and amounts: one order, or pair of orders, settles each fill with its
      amounts; slippage multiplies one amount by one less or plus the slippage,
      rounded against the user ([near]: the factor is a double); filling orders
      takes exactly the smaller of the amount and the orders; the worst case is
      the best case moved by the slippage in the same way.
    - Calldata: every route enforces the worst case; the transformations of a sell
      cover the amount exactly and return every token; fees go through the
      transformer.
    - Prices and fees: the guaranteed price is kept with a fee that is not gasless,
      the answered quote is checked, transfers pay each recipient what it is
      charged, the amount of a meta-transaction is the sum of what is swapped and
      what is charged, and the call of a v1 meta-transaction makes these transfers.
    - Order book and feed: pages are sorted, rows round trip, updates reach the
      subscribers unless one of them breaks the update by its request id, silent
      clients are closed.
    - Workers and configuration: refreshes converge however they interleave, the
      worker ends at its tenth failure, balances are those of the contract and
      worth nothing when they are too old, a variable is read exactly as the value
      of its text, if that is one of its type.
    - Around the handlers ([HttpLayer], [RpcSubprovider], [Server], [Process]): each
      error has its status and code, addresses are normalised once, routes are
      served in their order, the order book exactly with a database.
    - Set-up ([QuoterSetup]): a service always gets a quoter for its chain, with the
      sampler's code where the chain needs it; merging the layers of options gives
      the options that [SwapService] is modelled with.

    Some theorems state defects, and say so: among them the merge of disjoint
    filters that allows every source, cached swaps that are refreshed only while
    they are fresh, blocked addresses that are never updated after a failure, the
    log of expired orders that never logs, orders whose position in a query is
    taken for the buffer of their expiry, request ids that silence the feed, and
    negative fee shares that overpay.

    ** Bounds and termination

    No model uses fuel: the loops of the code are structural recursions here, and
    chunking recurses on the length of the rest.  Polling loops and timers are step
    relations or folds over the events they meet.  Hypotheses bound integers passed
    through JavaScript numbers by [2^53] (times by [2^52]), where they are exact.
    Amounts are unbounded decimals, as in the code.

    ** Not modelled

    Libraries (Express, the database driver, Kafka, axios, the JSON schema
    validator, ABI encoders) and what only wraps them: column declarations of
    entities, migrations, metrics, logging, error reporting.  The OpenAPI schemas
    are data for the validator.  Of the Solidity contracts only the one that
    [RfqWorker] reads is modelled.  What is left of the TypeScript beside these is
    imports, overload signatures and comments. *)

From Stdlib Require Export ZArith QArith Qpower Qround Qabs Qminmax Lqa Lia.
From stdpp Require Export base strings gmap numbers.
From stdpp Require Export list.

#[global] Open Scope Z_scope.
#[global] Open Scope list_scope.

#[global] Instance Qle_preorder : PreOrder Qle.
Proof. split; [exact Qle_refl | exact Qle_trans]. Qed.
#[global] Instance Qlt_transitive : Transitive Qlt := Qlt_trans.

(** ** Errors: a JavaScript [throw] is a value of [result]. *)
Module ValidationErrorCodes.
Inductive t : Type :=
| RequiredField | IncorrectFormat | ValueOutOfRange | UnsupportedOption | InvalidOrder | InternalError
| FieldInvalid.
#[global] Instance t_eq_dec : EqDecision t.
Proof. solve_decision. Defined.
End ValidationErrorCodes.

(** An item of a [ValidationError]; its optional description is left out. *)
Record ValidationErrorItem : Type := {
  field : string;
  code : ValidationErrorCodes.t;
  reason : string;
}.
#[global] Instance ValidationErrorItem_eq_dec : EqDecision ValidationErrorItem.
Proof. solve_decision. Defined.

(** [Error], the type errors of the language, and the errors of the API, which
    are classes of their own; [ApiError] is one without arguments that matter. *)
Inductive js_error : Type :=
| Error (message : string)
| TypeError
| ValidationError (validationErrors : list ValidationErrorItem)
| InternalServerError (message : string)
| ApiError (name : string)
| RevertError (name : string).

Inductive result (A : Type) : Type :=
| Ok (a : A)
| Throw (e : js_error).
Arguments Ok {A} a.
Arguments Throw {A} e.

#[global] Instance js_error_eq_dec : EqDecision js_error.
Proof. solve_decision. Defined.

#[global] Instance result_ret : MRet result := @Ok.
#[global] Instance result_bind : MBind result :=
  λ A B f m, match m with Ok a => f a | Throw e => Throw e end.
#[global] Instance result_fmap : FMap result :=
  λ A B f m, match m with Ok a => Ok (f a) | Throw e => Throw e end.

Definition is_ok {A} (r : result A) : bool :=
  match r with Ok _ => true | Throw _ => false end.

(** [throw_unless c e]: continue when the guard holds. *)
Definition throw_unless (c : bool) (e : js_error) : result unit :=
  if c then Ok tt else Throw e.

#[global] Instance Ok_inj {A} : Inj (=) (=) (@Ok A).
Proof. by intros x y [= ->]. Qed.

Lemma result_bind_ok {A B} (m : result A) (f : A → result B) b :
  m ≫= f = Ok b ↔ ∃ a, m = Ok a ∧ f a = Ok b.
Proof. destruct m; simpl; naive_solver. Qed.

Lemma result_fmap_ok {A B} (m : result A) (f : A → B) b :
  f <$> m = Ok b ↔ ∃ a, m = Ok a ∧ b = f a.
Proof. destruct m; simpl; naive_solver. Qed.

(** A traversal succeeds exactly when every element does, elementwise. *)
Lemma mapM_ok {A B} (f : A → result B) (l : list A) (k : list B) :
  mapM f l = Ok k ↔ Forall2 (λ a b, f a = Ok b) l k.
Proof.
  revert k. induction l as [|a l IH]; intros k; simpl.
  - split; [intros [= <-]; constructor | by inversion 1].
  - rewrite result_bind_ok. split.
    + intros (b & Hb & (k' & Hk & [= <-])%result_bind_ok).
      constructor; [done | by apply IH].
    + inversion 1 as [|? b ? k' Hb Hk]; subst. exists b. split; [done|].
      apply result_bind_ok. exists k'. split; [by apply IH | done].
Qed.

Lemma mapM_ok_length {A B} (f : A → result B) l k :
  mapM f l = Ok k → length k = length l.
Proof. intros H%mapM_ok. symmetry. by eapply Forall2_length. Qed.

Lemma mapM_total {A B} (f : A → result B) (g : A → B) l :
  Forall (λ a, f a = Ok (g a)) l → mapM f l = Ok (g <$> l).
Proof.
  intros H. apply mapM_ok, Forall2_fmap_r. induction H; by constructor.
Qed.

Lemma mapM_all_ok {A B} (f : A → result B) (l : list A) :
  (∀ a, a ∈ l → ∃ b, f a = Ok b) → ∃ k, mapM f l = Ok k.
Proof.
  intros H. induction l as [|a l IH]; [by eexists|].
  destruct (H a) as [b Hb]; [set_solver|].
  destruct IH as [k Hk]; [set_solver|].
  exists (b :: k). simpl. by rewrite Hb; simpl; rewrite Hk.
Qed.

(** A traversal with the index of every element ([Array.prototype.map]). *)
Lemma mapM_imap_ok {A B} (f : nat → A → result B) (l : list A) (k : list B) :
  mapM (λ '(i, x), f i x) (imap pair l) = Ok k →
  length k = length l ∧
  ∀ i x, l !! i = Some x → ∃ y, k !! i = Some y ∧ f i x = Ok y.
Proof.
  intros H%mapM_ok. split; [apply Forall2_length in H; by rewrite length_imap in H|].
  intros i x Hx. eapply Forall2_lookup_l in H as (y & Hy & Hf);
    [|rewrite list_lookup_imap, Hx; reflexivity]. by exists y.
Qed.

(** ** Generic list helpers shared by the components. *)

(** [Array.prototype.includes] / [some] / [every] on types with decidable
    equality. *)
Definition includes {A} `{EqDecision A} (l : list A) (x : A) : bool :=
  bool_decide (x ∈ l).

Lemma includes_true {A} `{EqDecision A} (l : list A) x :
  includes l x = true ↔ x ∈ l.
Proof. apply bool_decide_eq_true. Qed.

Lemma includes_false {A} `{EqDecision A} (l : list A) x :
  includes l x = false ↔ x ∉ l.
Proof. apply bool_decide_eq_false. Qed.

Lemma includes_app {A} `{EqDecision A} (l k : list A) x :
  includes (l ++ k) x = includes l x || includes k x.
Proof.
  apply eq_bool_prop_intro. rewrite orb_True, !Is_true_true, !includes_true.
  by rewrite elem_of_app.
Qed.

(** lodash [_.uniq] (first occurrence of every element, in order). *)
Fixpoint uniq_from {A} `{EqDecision A} (seen : list A) (l : list A) : list A :=
  match l with
  | [] => []
  | x :: l' =>
      if includes seen x then uniq_from seen l'
      else x :: uniq_from (x :: seen) l'
  end.
Definition uniq {A} `{EqDecision A} (l : list A) : list A := uniq_from [] l.

Lemma elem_of_uniq_from {A} `{EqDecision A} (seen l : list A) x :
  x ∈ uniq_from seen l ↔ x ∈ l ∧ x ∉ seen.
Proof.
  revert seen. induction l as [|y l IH]; intros seen; simpl; [set_solver|].
  destruct (includes seen y) eqn:E;
    [apply includes_true in E | apply includes_false in E].
  - rewrite IH. set_solver.
  - rewrite elem_of_cons, IH. destruct (decide (x = y)); set_solver.
Qed.

Lemma elem_of_uniq {A} `{EqDecision A} (l : list A) x : x ∈ uniq l ↔ x ∈ l.
Proof. unfold uniq. rewrite elem_of_uniq_from. set_solver. Qed.

Lemma NoDup_uniq_from {A} `{EqDecision A} (seen l : list A) :
  NoDup (uniq_from seen l).
Proof.
  revert seen. induction l as [|y l IH]; intros seen; simpl; [constructor|].
  destruct (includes seen y); [done|]. constructor; [|done].
  rewrite elem_of_uniq_from. set_solver.
Qed.

Lemma NoDup_uniq {A} `{EqDecision A} (l : list A) : NoDup (uniq l).
Proof. apply NoDup_uniq_from. Qed.

Lemma uniq_length {A} `{EqDecision A} (l : list A) : (length (uniq l) <= length l)%nat.
Proof.
  unfold uniq. generalize (@nil A). induction l as [|x l IH]; intros seen; simpl; [lia|].
  destruct (includes seen x); simpl; [by etrans; [apply IH|lia]|]. by apply le_n_S.
Qed.

Lemma includes_uniq {A} `{EqDecision A} (l : list A) x :
  includes (uniq l) x = includes l x.
Proof. apply bool_decide_ext, elem_of_uniq. Qed.

Lemma uniq_nil {A} `{EqDecision A} (l : list A) : uniq l = [] ↔ l = [].
Proof.
  split; [|by intros ->]. intros E. destruct l as [|x l]; [done|].
  exfalso. assert (x ∈ uniq (x :: l)) as Hx by (apply elem_of_uniq; set_solver).
  rewrite E in Hx. set_solver.
Qed.

Lemma Forall2_elem_l {A B} (P : A → B → Prop) l k x :
  Forall2 P l k → x ∈ l → ∃ y, y ∈ k ∧ P x y.
Proof.
  induction 1 as [|a b l k Hab _ IH]; [set_solver|].
  rewrite elem_of_cons. intros [->|Hx]; [exists b; set_solver|].
  destruct (IH Hx) as (y & ? & ?). exists y. set_solver.
Qed.

(** [Array.prototype.filter] with a boolean predicate. *)
Fixpoint bfilter {A} (p : A → bool) (l : list A) : list A :=
  match l with
  | [] => []
  | x :: l' => if p x then x :: bfilter p l' else bfilter p l'
  end.

Lemma elem_of_bfilter {A} (p : A → bool) l x :
  x ∈ bfilter p l ↔ x ∈ l ∧ p x = true.
Proof.
  induction l as [|y l IH]; simpl; [set_solver|].
  rewrite elem_of_cons. destruct (p y) eqn:E; rewrite ?elem_of_cons, IH.
  - split; [intros [->|[]] | intros [[->|] ?]]; auto.
  - split; [intros [] | intros [[->|] ?]]; [auto | congruence | auto].
Qed.

Lemma Forall2_impl_bfilter {A C} (p : A → bool) (P Q : A → C → Prop) l k :
  Forall2 P (bfilter p l) k → (∀ x y, P x y → p x = true → Q x y) → Forall2 Q (bfilter p l) k.
Proof.
  intros H HPQ. assert (Forall (λ x, p x = true) (bfilter p l)) as Hp.
  { apply Forall_forall. intros x Hx. by apply elem_of_bfilter in Hx as [_ ?]. }
  induction H; [constructor|]. apply Forall_cons in Hp as [? ?]. constructor; auto.
Qed.

Lemma bfilter_app {A} (p : A → bool) l k :
  bfilter p (l ++ k) = bfilter p l ++ bfilter p k.
Proof. induction l as [|x l IH]; simpl; [done|]. destruct (p x); simpl; by rewrite IH. Qed.

Lemma bfilter_sublist {A} (p : A → bool) l : bfilter p l `sublist_of` l.
Proof.
  induction l as [|x l IH]; simpl; [constructor|].
  destruct (p x); by constructor.
Qed.

Lemma bfilter_Forall {A} (p : A → bool) l : Forall (λ x, p x = true) (bfilter p l).
Proof. apply Forall_forall. intros x Hx. by apply elem_of_bfilter in Hx as [_ ?]. Qed.

Lemma bfilter_all {A} (p : A → bool) l :
  Forall (λ x, p x = true) l → bfilter p l = l.
Proof. induction 1 as [|x l Hx _ IH]; simpl; [done|]. by rewrite Hx, IH. Qed.

Lemma bfilter_none {A} (p : A → bool) l :
  Forall (λ x, p x = false) l → bfilter p l = [].
Proof. induction 1 as [|x l Hx _ IH]; simpl; [done|]. by rewrite Hx, IH. Qed.

(** Splitting a list by a predicate and its complement loses nothing. *)
Lemma bfilter_fmap {A C} (p : C → bool) (f : A → C) l :
  bfilter p (f <$> l) = f <$> bfilter (λ x, p (f x)) l.
Proof. induction l as [|x l IH]; [done|]. cbn [fmap list_fmap bfilter]. rewrite IH. by destruct (p _). Qed.

Lemma bfilter_ext {A} (p q : A → bool) l : (∀ x, p x = q x) → bfilter p l = bfilter q l.
Proof. intros H. induction l as [|x l IH]; [done|]. cbn [bfilter]. by rewrite H, IH. Qed.

Lemma bfilter_bfilter {A} (p q : A → bool) l :
  (∀ x, p x = true → q x = true) → bfilter p (bfilter q l) = bfilter p l.
Proof.
  intros H. induction l as [|x l IH]; [done|]. simpl. destruct (q x) eqn:Eq; simpl; rewrite IH.
  - done.
  - destruct (p x) eqn:Ep; [by rewrite (H _ Ep) in Eq|done].
Qed.

#[global] Instance bfilter_perm {A} (p : A → bool) : Proper ((≡ₚ) ==> (≡ₚ)) (bfilter p).
Proof.
  induction 1 as [|x l k _ IH|x y l|l1 l2 l3 _ IH1 _ IH2]; simpl; [done|..].
  - destruct (p x); by rewrite IH.
  - destruct (p x), (p y); try done. apply Permutation_swap.
  - by etrans.
Qed.

Lemma bfilter_partition_length {A} (p : A → bool) l :
  (length (bfilter p l) + length (bfilter (λ x, negb (p x)) l) = length l)%nat.
Proof. induction l as [|x l IH]; simpl; [done|]. destruct (p x); simpl; lia. Qed.

(** ** Asynchronous calls: a state is threaded through; what a call changed
    before it throws stays changed. *)
Definition Async (S A : Type) : Type := S → result A * S.
#[global] Instance Async_ret S : MRet (Async S) := λ A a s, (Ok a, s).
#[global] Instance Async_bind S : MBind (Async S) := λ A B f m s,
  let '(r, s) := m s in match r with Ok a => f a s | Throw e => (Throw e, s) end.
(** A step without effects. *)
Definition lift {S A} (r : result A) : Async S A := λ s, (r, s).
(** [try { m } catch (e) { handler }]. *)
Definition try_catch {S A} (m : Async S A) (handler : js_error → Async S A) : Async S A := λ s,
  let '(r, s) := m s in match r with Ok a => (Ok a, s) | Throw e => handler e s end.

Lemma async_bind_ok {S A B} (m : Async S A) (f : A → Async S B) s b s' :
  (m ≫= f) s = (Ok b, s') ↔ ∃ a s1, m s = (Ok a, s1) ∧ f a s1 = (Ok b, s').
Proof.
  unfold mbind, Async_bind. destruct (m s) as [[a|e] s1]; split.
  - intros H. by exists a, s1.
  - by intros (a' & s2 & [= <- <-] & H).
  - done.
  - by intros (a' & s2 & H & _).
Qed.

Lemma lift_ok {S A} (r : result A) (s : S) a s' : lift r s = (Ok a, s') ↔ r = Ok a ∧ s' = s.
Proof. unfold lift. split; [by intros [= -> ->] | by intros [-> ->]]. Qed.

Lemma async_ret_ok {S A} (a : A) (s : S) a' s' : (mret a : Async S A) s = (Ok a', s') ↔ a' = a ∧ s' = s.
Proof. unfold mret, Async_ret. split; [by intros [= -> ->] | by intros [-> ->]]. Qed.

(** ** Insertion-ordered maps ([Map], and objects keyed by strings): association
    lists without duplicate keys.  [assoc_update m k f] is [m.set(k, f(m.get(k)))]. *)
Section Assoc.
Context {K V : Type} `{EqDecision K}.
Implicit Types (m : list (K * V)) (k : K).

Fixpoint assoc_get m k : option V :=
  match m with
  | [] => None
  | (k', v) :: m' => if bool_decide (k' = k) then Some v else assoc_get m' k
  end.

Fixpoint assoc_update m k (f : option V → V) : list (K * V) :=
  match m with
  | [] => [(k, f None)]
  | (k', v) :: m' =>
      if bool_decide (k' = k) then (k', f (Some v)) :: m' else (k', v) :: assoc_update m' k f
  end.

Lemma assoc_get_update m k f : assoc_get (assoc_update m k f) k = Some (f (assoc_get m k)).
Proof.
  induction m as [|[k' v] m IH]; simpl; [by rewrite bool_decide_eq_true_2|].
  destruct (bool_decide (k' = k)) eqn:E; simpl; by rewrite E.
Qed.

Lemma assoc_get_update_ne m k k' f : k' ≠ k → assoc_get (assoc_update m k f) k' = assoc_get m k'.
Proof.
  intros Hne. induction m as [|[k0 v] m IH]; simpl.
  - by rewrite bool_decide_eq_false_2 by congruence.
  - destruct (bool_decide (k0 = k)) eqn:E; simpl; [|by rewrite IH].
    apply bool_decide_eq_true in E as ->. by rewrite !bool_decide_eq_false_2 by congruence.
Qed.

Lemma assoc_update_keys m k f :
  (assoc_update m k f).*1 = if bool_decide (k ∈ m.*1) then m.*1 else m.*1 ++ [k].
Proof.
  induction m as [|[k' v] m IH]; [done|]. cbn [assoc_update].
  destruct (decide (k' = k)) as [->|E].
  - rewrite (bool_decide_eq_true_2 (k = k)), !fmap_cons by done. cbn [fst].
    by rewrite bool_decide_eq_true_2 by set_solver.
  - rewrite (bool_decide_eq_false_2 (k' = k)), !fmap_cons by done. cbn [fst].
    rewrite IH, (bool_decide_ext (k ∈ k' :: m.*1) (k ∈ m.*1)) by set_solver.
    by destruct (bool_decide (k ∈ m.*1)).
Qed.

Lemma assoc_update_elem m k f k' : k' ∈ (assoc_update m k f).*1 ↔ k' = k ∨ k' ∈ m.*1.
Proof. rewrite assoc_update_keys. case_bool_decide; set_solver. Qed.

Lemma assoc_update_NoDup m k f : NoDup m.*1 → NoDup (assoc_update m k f).*1.
Proof.
  intros H. rewrite assoc_update_keys. case_bool_decide; [done|].
  apply NoDup_app. split_and!; [done | set_solver | apply NoDup_singleton].
Qed.

Lemma assoc_update_Forall (P Q : K * V → Prop) m k f :
  Forall P m → NoDup m.*1 →
  (∀ e, e ∈ m → e.1 ≠ k → P e → Q e) →
  (k ∉ m.*1 → Q (k, f None)) →
  (∀ v, (k, v) ∈ m → P (k, v) → Q (k, f (Some v))) →
  Forall Q (assoc_update m k f).
Proof.
  intros HP. induction HP as [|[k' v] m Hv HP IH]; intros Hnd He Hnone Hsome; simpl.
  { constructor; [apply Hnone; set_solver | constructor]. }
  rewrite fmap_cons in Hnd. apply NoDup_cons in Hnd as [Hk' Hnd]. cbn [fst] in Hk'.
  destruct (decide (k' = k)) as [->|Hne].
  - rewrite bool_decide_eq_true_2 by done. constructor; [apply Hsome; set_solver|].
    apply Forall_forall. intros e Hem. rewrite Forall_forall in HP.
    apply He; [set_solver | | by apply HP].
    intros <-. apply Hk'. by apply (list_elem_of_fmap_2 fst).
  - rewrite bool_decide_eq_false_2 by done. constructor; [apply He; set_solver|].
    apply IH; [done | set_solver | | set_solver].
    intros Hk. apply Hnone. rewrite fmap_cons. set_solver.
Qed.
End Assoc.

(** ** Sums of rationals. *)
Definition Qsum (l : list Q) : Q := foldr Qplus 0%Q l.

Lemma Qsum_cons x l : Qsum (x :: l) = (x + Qsum l)%Q.
Proof. done. Qed.

Lemma Qsum_app l k : (Qsum (l ++ k) == Qsum l + Qsum k)%Q.
Proof. induction l as [|x l IH]; simpl; [change (Qsum []) with 0%Q; lra|]. rewrite IH. lra. Qed.

Lemma Qsum_nonneg l : Forall (λ x, 0 <= x)%Q l → (0 <= Qsum l)%Q.
Proof. induction 1 as [|x l Hx _ IH]; simpl; [lra|]. lra. Qed.

(** ** Tactics of the development. *)

(** A lookup that an empty string skips. *)
Lemma unless_empty (a : string) (P : Prop) {D : Decision P} {D' : Decision (a ≠ ""%string ∧ P)} :
  (if String.eqb a ""%string then false else bool_decide P) = bool_decide (a ≠ ""%string ∧ P).
Proof.
  apply eq_true_iff_eq. rewrite bool_decide_eq_true.
  destruct (String.eqb_spec a ""%string); [naive_solver|]. rewrite bool_decide_eq_true. naive_solver.
Qed.

(** A decided proposition as a boolean test. *)
Lemma decide_if {A} (P : Prop) {D : Decision P} (b : bool) (x y : A) :
  (b = true ↔ P) → (if decide P then x else y) = if b then x else y.
Proof. intros H. destruct (decide P), b; naive_solver. Qed.

(** Case analysis on every [if]/[match] scrutinee of the goal, naming the
    equation. *)
Ltac case_if :=
  match goal with
  | |- context [if ?c then _ else _] => let E := fresh "E" in destruct c eqn:E
  end.

Ltac case_all :=
  repeat match goal with
  | |- context [match ?c with _ => _ end] => destruct c eqn:?; simplify_eq/=; try done
  end.

(** Peel a successful monadic computation in hypothesis [H]. *)
Ltac ok_inv H :=
  repeat match type of H with
  | (_ ≫= _) = Ok _ =>
      let a := fresh "a" in let E := fresh "E" in
      apply result_bind_ok in H as (a & E & H)
  | (_ <$> _) = Ok _ =>
      let a := fresh "a" in let E := fresh "E" in
      apply result_fmap_ok in H as (a & E & H)
  end.

(** Decide a closed decidable goal by evaluation. *)
Ltac decide_now := apply (bool_decide_eq_true_1 _); vm_compute; reflexivity.

Create HintDb amounts.
