(* ===== verification/JsLib.v ===== *)
(** * The language's own operations on arrays and strings

    [Array.prototype.slice] and [sort], [String.prototype.toLowerCase] and
    [split], [parseInt] in base ten and the decimal form of an integer.  Integers
    are [Z]; what a component passes through a [number] is in [JsNumber].
    Strings are ASCII, as addresses, hashes and token symbols are. *)

From Stdlib Require Import Ascii Sorted DecimalString DecimalZ DecimalFacts.
From S2P Require Import Prelude.

(** ** [slice] *)

(** A bound below zero counts from the end. *)
Definition slice_bound (len i : Z) : Z :=
  if (i <? 0)%Z then Z.max (len + i) 0 else Z.min i len.

Definition slice {A} (l : list A) (first last : Z) : list A :=
  let len := Z.of_nat (length l) in
  let first := slice_bound len first in
  let last := slice_bound len last in
  take (Z.to_nat (last - first)) (drop (Z.to_nat first) l).

Lemma slice_nonneg {A} (l : list A) (i n : nat) :
  slice l (Z.of_nat i) (Z.of_nat (i + n)) = take n (drop i l).
Proof.
  unfold slice, slice_bound.
  destruct (Z.ltb_spec (Z.of_nat i) 0), (Z.ltb_spec (Z.of_nat (i + n)) 0); try lia.
  destruct (decide (i <= length l)%nat) as [Hi|Hi].
  - replace (Z.to_nat (Z.min (Z.of_nat i) (Z.of_nat (length l)))) with i by lia.
    destruct (decide (i + n <= length l)%nat).
    + f_equal. lia.
    + rewrite !take_ge; [done | rewrite length_drop; lia | rewrite length_drop; lia].
  - rewrite (drop_ge l i) by lia. rewrite take_nil.
    replace (Z.to_nat (_ - _)) with 0%nat by lia. by rewrite take_0.
Qed.

(** ** [sort] *)

Section Sort.
Context {A : Type}.
(** The comparator, with [null] and [NaN] read as zero. *)
Variable cmp : A → A → Z.

Fixpoint insert_sorted (x : A) (l : list A) : list A :=
  match l with
  | [] => [x]
  | y :: l' => if (cmp y x <=? 0)%Z then y :: insert_sorted x l' else x :: l
  end.

(** The stable sort of the language: every element goes behind those that do
    not compare after it. *)
Definition sort (l : list A) : list A := fold_left (λ sorted x, insert_sorted x sorted) l [].

Lemma insert_sorted_perm x l : insert_sorted x l ≡ₚ x :: l.
Proof.
  induction l as [|y l IH]; [done|]. simpl. destruct (_ <=? _)%Z; [|done].
  rewrite IH. apply Permutation_swap.
Qed.

Lemma sort_perm_acc l acc : fold_left (λ sorted x, insert_sorted x sorted) l acc ≡ₚ l ++ acc.
Proof.
  revert acc. induction l as [|x l IH]; intros acc; [done|]. simpl.
  rewrite IH, insert_sorted_perm. symmetry. apply Permutation_middle.
Qed.

Lemma sort_perm l : sort l ≡ₚ l.
Proof. unfold sort. by rewrite sort_perm_acc, app_nil_r. Qed.

(** A comparator that orders the elements of a class: total and transitive. *)
Record comparator_on (P : A → Prop) : Prop := {
  cmp_total x y : P x → P y → (cmp x y <= 0 ∨ cmp y x <= 0)%Z;
  cmp_trans x y z : P x → P y → P z → (cmp x y <= 0 → cmp y z <= 0 → cmp x z <= 0)%Z;
}.

Lemma insert_sorted_sorted P x l :
  comparator_on P → P x → Forall P l → StronglySorted (λ a b, (cmp a b <= 0)%Z) l →
  StronglySorted (λ a b, (cmp a b <= 0)%Z) (insert_sorted x l).
Proof.
  intros [Htot Htr] Hx Hl Hs. induction Hs as [|y l Hs IH Hy]; simpl; [repeat constructor|].
  apply Forall_cons in Hl as [Py Hl]. destruct (Z.leb_spec (cmp y x) 0) as [E|E].
  - constructor; [by apply IH|]. rewrite insert_sorted_perm. by constructor.
  - assert (cmp x y <= 0)%Z as Hxy by (destruct (Htot x y Hx Py); lia).
    repeat (constructor; try done). rewrite Forall_forall in Hl, Hy. apply Forall_forall.
    intros z Hz. eapply Htr; [done | exact Py | by apply Hl | done | by apply Hy].
Qed.

Lemma sort_sorted P l :
  comparator_on P → Forall P l → StronglySorted (λ a b, (cmp a b <= 0)%Z) (sort l).
Proof.
  intros Hc Hl. unfold sort.
  assert (∀ acc, Forall P acc → StronglySorted (λ a b, (cmp a b <= 0)%Z) acc →
    StronglySorted (λ a b, (cmp a b <= 0)%Z) (fold_left (λ sorted x, insert_sorted x sorted) l acc)) as H.
  { induction Hl as [|x l Hx Hl IH]; intros acc Ha Hs; [done|]. simpl. apply IH.
    - rewrite insert_sorted_perm. by constructor.
    - by eapply insert_sorted_sorted. }
  apply H; constructor.
Qed.
End Sort.

(** ** Strings *)

Definition lower_ascii (c : ascii) : ascii :=
  let n := nat_of_ascii c in
  if (65 <=? n)%nat && (n <=? 90)%nat then ascii_of_nat (n + 32) else c.

Fixpoint toLowerCase (s : string) : string :=
  match s with
  | EmptyString => EmptyString
  | String c s' => String (lower_ascii c) (toLowerCase s')
  end.

(** [s.split(c)] for a one-character separator. *)
Fixpoint split_on (c : ascii) (s : string) : list string :=
  match s with
  | EmptyString => [EmptyString]
  | String a s' =>
      if Ascii.eqb a c then EmptyString :: split_on c s'
      else match split_on c s' with
           | h :: t => String a h :: t
           | [] => []
           end
  end.

Fixpoint has_char (c : ascii) (s : string) : bool :=
  match s with
  | EmptyString => false
  | String a s' => Ascii.eqb a c || has_char c s'
  end.

Lemma lower_ascii_idem c : lower_ascii (lower_ascii c) = lower_ascii c.
Proof. by destruct c as [[] [] [] [] [] [] [] []]. Qed.

Lemma toLowerCase_idem s : toLowerCase (toLowerCase s) = toLowerCase s.
Proof. induction s as [|c s IH]; simpl; [done|]. by rewrite lower_ascii_idem, IH. Qed.

Lemma split_on_cons c a s :
  split_on c (String a s) =
  if Ascii.eqb a c then EmptyString :: split_on c s
  else match split_on c s with h :: t => String a h :: t | [] => [] end.
Proof. done. Qed.

Lemma append_cons a s t : String a s +:+ t = String a (s +:+ t).
Proof. done. Qed.

Lemma split_on_free c s : has_char c s = false → split_on c s = [s].
Proof.
  induction s as [|a s IH]; simpl; [done|]. intros [-> H]%orb_false_iff. by rewrite IH.
Qed.

Lemma split_on_app c s t :
  has_char c s = false → split_on c (s +:+ String c t) = s :: split_on c t.
Proof.
  induction s as [|a s IH]; intros H.
  - change (EmptyString +:+ String c t) with (String c t). by rewrite split_on_cons, Ascii.eqb_refl.
  - simpl in H. apply orb_false_iff in H as [Ha H]. by rewrite append_cons, split_on_cons, Ha, IH.
Qed.

(** ** Integers as strings *)

(** The decimal form of an integer: of [number]s below 10^21 and of the
    integers of [BigNumber]. *)
Definition string_of_Z (z : Z) : string := NilZero.string_of_int (Z.to_int z).

Definition is_digit (c : ascii) : bool :=
  let n := Ascii.nat_of_ascii c in (Nat.leb 48 n && Nat.leb n 57)%nat.

(** Tab to carriage return, and the space. *)
Definition is_space (c : ascii) : bool :=
  let n := Ascii.nat_of_ascii c in (Nat.leb 9 n && Nat.leb n 13)%nat || Nat.eqb n 32.

Fixpoint skip_spaces (s : string) : string :=
  match s with String c s' => if is_space c then skip_spaces s' else s | EmptyString => s end.

Fixpoint digit_prefix (s : string) : string :=
  match s with
  | String c s' => if is_digit c then String c (digit_prefix s') else EmptyString
  | EmptyString => EmptyString
  end.

Definition parse_digits (s : string) : option Z :=
  match NilZero.uint_of_string (digit_prefix s) with
  | Some Decimal.Nil | None => None
  | Some d => Some (Z.of_uint d)
  end.

(** [parseInt(s, 10)], exact for what a number holds exactly; [None] is [NaN]. *)
Definition parseInt (s : string) : option Z :=
  match skip_spaces s with
  | String c s' =>
      if Ascii.eqb c "-"%char then Z.opp <$> parse_digits s'
      else if Ascii.eqb c "+"%char then parse_digits s' else parse_digits (String c s')
  | EmptyString => None
  end.

Lemma digit_prefix_uint d : digit_prefix (NilEmpty.string_of_uint d) = NilEmpty.string_of_uint d.
Proof. induction d; simpl; [done|..]; by f_equal. Qed.

Lemma parse_digits_uint d :
  d ≠ Decimal.Nil → parse_digits (NilZero.string_of_uint d) = Some (Z.of_uint d).
Proof.
  intros Hd. unfold parse_digits.
  assert (digit_prefix (NilZero.string_of_uint d) = NilZero.string_of_uint d) as ->.
  { destruct d; try done; apply digit_prefix_uint. }
  rewrite NilZero.usu by done. by destruct d.
Qed.

(** The decimal form of a natural starts with a digit. *)
Lemma string_of_uint_head d :
  ∃ c s, NilZero.string_of_uint d = String c s ∧ is_space c = false ∧ c ≠ "-"%char ∧ c ≠ "+"%char.
Proof. destruct d; (eexists _, _; split; [reflexivity|done]). Qed.

Lemma to_int_nonnil z d : Z.to_int z = Decimal.Pos d ∨ Z.to_int z = Decimal.Neg d → d ≠ Decimal.Nil.
Proof.
  intros H ->. pose proof (DecimalZ.to_of (Z.to_int z)) as E. rewrite DecimalZ.of_to in E.
  destruct H as [H|H]; rewrite H in E; discriminate E.
Qed.

Lemma parseInt_string_of_Z z : parseInt (string_of_Z z) = Some z.
Proof.
  unfold string_of_Z. rewrite <- (DecimalZ.of_to z) at 2.
  destruct (Z.to_int z) as [d|d] eqn:E; simpl.
  - assert (d ≠ Decimal.Nil) as Hd by (apply (to_int_nonnil z); by left).
    pose proof (parse_digits_uint d Hd) as Hp.
    destruct (string_of_uint_head d) as (c & s & Es & Hs & H1 & H2). rewrite Es in *.
    unfold parseInt. simpl. rewrite Hs. apply Ascii.eqb_neq in H1, H2. by rewrite H1, H2.
  - unfold parseInt. simpl. rewrite parse_digits_uint; [done|].
    apply (to_int_nonnil z). by right.
Qed.

Lemma has_char_cons c a s : has_char c (String a s) = Ascii.eqb a c || has_char c s.
Proof. done. Qed.

(** The decimal form has no separator in it. *)
Lemma string_of_Z_free c z : is_digit c = false → c ≠ "-"%char → has_char c (string_of_Z z) = false.
Proof.
  intros Hc Hm. unfold string_of_Z.
  assert (∀ d, has_char c (NilEmpty.string_of_uint d) = false) as He.
  { induction d as [|d IH|d IH|d IH|d IH|d IH|d IH|d IH|d IH|d IH|d IH]; [done|..].
    all: cbn [NilEmpty.string_of_uint]; rewrite has_char_cons, IH, orb_false_r.
    all: match goal with |- Ascii.eqb ?a ?b = false => by destruct (Ascii.eqb_spec a b) as [<-|] end. }
  assert (∀ d, has_char c (NilZero.string_of_uint d) = false) as Hz.
  { intros d. destruct d; try apply He. change (Ascii.eqb "0" c || false = false). rewrite orb_false_r.
    by destruct (Ascii.eqb_spec "0" c) as [<-|]. }
  destruct (Z.to_int z) as [d|d]; [apply Hz|].
  change (Ascii.eqb "-" c || has_char c (NilZero.string_of_uint d) = false).
  rewrite Hz, orb_false_r. by destruct (Ascii.eqb_spec "-" c) as [<-|].
Qed.
