(* ===== verification/JsNumber.v ===== *)
(** * JavaScript numbers

    The [number] type of the language: IEEE-754 binary64.  A finite number is
    kept as the rational it denotes (the two zeros are identified: no division
    by a [number] zero occurs in the modelled code), and every arithmetic
    operation is the exact rational operation followed by [round64],
    round-to-nearest, ties-to-even, with gradual underflow and overflow to
    infinity.  The extended rationals [ext] are shared with the arbitrary
    precision decimals of [BigNum]. *)

From S2P Require Import Prelude.

Inductive ext : Type :=
| ENaN
| EInf (negative : bool)
| EFin (q : Q).

(** Equality up to the representation of rationals. *)
Inductive ext_eq : ext → ext → Prop :=
| ext_eq_nan : ext_eq ENaN ENaN
| ext_eq_inf s : ext_eq (EInf s) (EInf s)
| ext_eq_fin p q : (p == q)%Q → ext_eq (EFin p) (EFin q).

Lemma ext_eq_unfold x y :
  ext_eq x y ↔
  match x, y with
  | ENaN, ENaN => True
  | EInf a, EInf b => a = b
  | EFin p, EFin q => (p == q)%Q
  | _, _ => False
  end.
Proof.
  split; [by destruct 1|]. destruct x, y; try done; intros H; subst; by constructor.
Qed.

Lemma ext_eq_fin_iff p q : ext_eq (EFin p) (EFin q) ↔ (p == q)%Q.
Proof. apply ext_eq_unfold. Qed.

#[global] Instance ext_eq_equivalence : Equivalence ext_eq.
Proof.
  split.
  - intros []; by constructor.
  - intros ? ? []; constructor. by symmetry.
  - intros ? ? ? [] Hz; inversion Hz; subst; constructor. by etrans.
Qed.

#[global] Instance EFin_proper : Proper (Qeq ==> ext_eq) EFin.
Proof. intros p q H. by constructor. Qed.

(** ** Powers of two and the binary logarithm of a positive rational. *)
Section Rounding.
Local Open Scope Q_scope.

Definition pow2 (e : Z) : Q := 2 ^ e.

Lemma pow2_pos e : 0 < pow2 e.
Proof. apply Qpower_0_lt. lra. Qed.

Lemma pow2_add a b : pow2 (a + b) == pow2 a * pow2 b.
Proof. apply Qpower_plus. lra. Qed.

Lemma pow2_nonneg_Z e : (0 <= e)%Z → pow2 e == inject_Z (2 ^ e).
Proof. intros H. unfold pow2. rewrite Zpower_Qpower by done. reflexivity. Qed.

Lemma pow2_le a b : (a <= b)%Z → pow2 a <= pow2 b.
Proof.
  intros H. replace b with (a + (b - a))%Z by lia. rewrite pow2_add.
  rewrite (pow2_nonneg_Z (b - a)) by lia.
  pose proof (pow2_pos a). assert (1 <= inject_Z (2 ^ (b - a))).
  { change 1 with (inject_Z 1). rewrite <- Zle_Qle.
    pose proof (Z.pow_pos_nonneg 2 (b - a)). lia. }
  nra.
Qed.

Lemma pow2_lt_inv a b : pow2 a < pow2 b → (a < b)%Z.
Proof.
  intros H. destruct (Z.lt_ge_cases a b) as [|Hge]; [done|].
  pose proof (pow2_le _ _ Hge). lra.
Qed.

Lemma pow2_cancel e : pow2 e * pow2 (- e) == 1.
Proof. rewrite <- pow2_add. by replace (e + - e)%Z with 0%Z by lia. Qed.

Definition ilog2 (q : Q) : Z :=
  let e := (Z.log2 (Qnum q) - Z.log2 (Zpos (Qden q)))%Z in
  if Qle_bool (pow2 e) q then e else (e - 1)%Z.

Lemma ilog2_spec q : 0 < q → pow2 (ilog2 q) <= q < pow2 (ilog2 q + 1).
Proof.
  intros Hq. unfold ilog2.
  assert (0 < Qnum q)%Z as Hn by (unfold Qlt in Hq; simpl in Hq; lia).
  pose proof (Z.log2_spec _ Hn) as [Hn1 Hn2].
  pose proof (Z.log2_spec (Zpos (Qden q)) ltac:(lia)) as [Hd1 Hd2].
  pose proof (Z.log2_nonneg (Qnum q)). pose proof (Z.log2_nonneg (Zpos (Qden q))).
  set (a := Z.log2 (Qnum q)) in *. set (b := Z.log2 (Zpos (Qden q))) in *.
  assert (q * inject_Z (Zpos (Qden q)) == inject_Z (Qnum q)) as Hqd.
  { unfold Qeq, inject_Z. simpl. lia. }
  rewrite Zle_Qle, <- pow2_nonneg_Z in Hn1, Hd1 by lia.
  rewrite Zlt_Qlt, <- pow2_nonneg_Z in Hn2, Hd2 by lia.
  set (n := inject_Z (Qnum q)) in *. set (d := inject_Z (Zpos (Qden q))) in *.
  pose proof (pow2_pos b) as Pb. pose proof (pow2_pos a) as Pa.
  assert (pow2 (a - b) * pow2 b == pow2 a) as Eab.
  { rewrite <- pow2_add. by replace (a - b + b)%Z with a by lia. }
  rewrite <- !Z.add_1_r in *.
  rewrite pow2_add in Hn2, Hd2. change (pow2 1) with 2 in *.
  destruct (Qle_bool (pow2 (a - b)) q) eqn:E.
  - apply Qle_bool_iff in E. split; [done|].
    rewrite pow2_add. change (pow2 1) with 2.
    pose proof (pow2_pos (a - b)). nra.
  - assert (q < pow2 (a - b)) as E'.
    { apply Qnot_le_lt. intros C. apply Qle_bool_iff in C. congruence. }
    split.
    + replace (a - b)%Z with (a - b - 1 + 1)%Z in E', Eab by lia.
      rewrite pow2_add in Eab. change (pow2 1) with 2 in *.
      pose proof (pow2_pos (a - b - 1)). nra.
    + by replace (a - b - 1 + 1)%Z with (a - b)%Z by lia.
Qed.

Lemma ilog2_mono x y : 0 < x → x <= y → (ilog2 x <= ilog2 y)%Z.
Proof.
  intros Hx Hxy. pose proof (ilog2_spec x Hx). pose proof (ilog2_spec y ltac:(lra)).
  assert (pow2 (ilog2 x) < pow2 (ilog2 y + 1)) as Hl%pow2_lt_inv by lra. lia.
Qed.

Lemma ilog2_ge k x : pow2 k <= x → (k <= ilog2 x)%Z.
Proof.
  intros H. pose proof (pow2_pos k). pose proof (ilog2_spec x ltac:(lra)).
  assert (pow2 k < pow2 (ilog2 x + 1)) as H'%pow2_lt_inv by lra. lia.
Qed.

(** ** Rounding a rational to an integer, ties to even. *)
Definition rne (q : Q) : Z :=
  let f := Qfloor q in
  let d := q - inject_Z f in
  if negb (Qle_bool (1 # 2) d) then f
  else if negb (Qle_bool d (1 # 2)) then (f + 1)%Z
  else if Z.even f then f else (f + 1)%Z.

Lemma Qfloor_bounds q : inject_Z (Qfloor q) <= q < inject_Z (Qfloor q) + 1.
Proof.
  split; [apply Qfloor_le|]. pose proof (Qlt_floor q) as H.
  rewrite inject_Z_plus in H. exact H.
Qed.

Lemma Qle_bool_false x y : Qle_bool x y = false ↔ y < x.
Proof.
  split.
  - intros E. apply Qnot_le_lt. intros C. apply Qle_bool_iff in C. congruence.
  - intros H. destruct (Qle_bool x y) eqn:E; [|done].
    apply Qle_bool_iff in E. lra.
Qed.

Lemma rne_cases q : rne q = Qfloor q ∨ rne q = (Qfloor q + 1)%Z.
Proof. unfold rne. repeat case_if; auto. Qed.

Lemma rne_mono x y : x <= y → (rne x <= rne y)%Z.
Proof.
  intros H. pose proof (Qfloor_resp_le _ _ H) as Hf.
  destruct (Z.eq_dec (Qfloor x) (Qfloor y)) as [E|NE].
  - unfold rne. rewrite E. set (f := Qfloor y).
    destruct (Qle_bool (1 # 2) (x - inject_Z f)) eqn:A;
      destruct (Qle_bool (1 # 2) (y - inject_Z f)) eqn:B; simpl;
      destruct (Qle_bool (x - inject_Z f) (1 # 2)) eqn:C;
      destruct (Qle_bool (y - inject_Z f) (1 # 2)) eqn:D; simpl;
      try (destruct (Z.even f)); try lia;
      rewrite ?Qle_bool_iff, ?Qle_bool_false in *; exfalso; lra.
  - destruct (rne_cases x) as [->| ->], (rne_cases y) as [->| ->]; lia.
Qed.

Lemma rne_inject_Z z : rne (inject_Z z) = z.
Proof.
  unfold rne. rewrite Qfloor_Z.
  assert (inject_Z z - inject_Z z == 0) as E by lra.
  destruct (Qle_bool (1 # 2) (inject_Z z - inject_Z z)) eqn:A; [|done].
  apply Qle_bool_iff in A. lra.
Qed.

Lemma rne_comp x y : x == y → rne x = rne y.
Proof. intros H. apply Z.le_antisymm; apply rne_mono; lra. Qed.

Lemma rne_dist q : Qabs (inject_Z (rne q) - q) <= 1 # 2.
Proof.
  pose proof (Qfloor_bounds q) as [H1 H2]. apply Qabs_Qle_condition.
  unfold rne. set (f := Qfloor q) in *.
  destruct (Qle_bool (1 # 2) (q - inject_Z f)) eqn:A;
    destruct (Qle_bool (q - inject_Z f) (1 # 2)) eqn:B; simpl;
    rewrite ?Qle_bool_iff, ?Qle_bool_false in *;
    try destruct (Z.even f); rewrite ?inject_Z_plus; change (inject_Z 1) with 1; lra.
Qed.
(** ** Rounding to binary64: 53 significant bits, exponents from -1074. *)
Definition ulp_exp (a : Q) : Z := Z.max (ilog2 a - 52) (-1074).

Definition round_mag (a : Q) : Q :=
  inject_Z (rne (a * pow2 (- ulp_exp a))) * pow2 (ulp_exp a).

Lemma ulp_exp_mono x y : 0 < x → x <= y → (ulp_exp x <= ulp_exp y)%Z.
Proof. intros H1 H2. pose proof (ilog2_mono x y H1 H2). unfold ulp_exp. lia. Qed.

Lemma scale_le a b e : a <= b → a * pow2 e <= b * pow2 e.
Proof. intros H. pose proof (pow2_pos e). nra. Qed.

(** A power of two inside the exponent range bounds the rounded value as it
    bounds the exact one. *)
Lemma round_mag_le_pow2 a k :
  0 < a → a <= pow2 k → (-1074 <= k)%Z → round_mag a <= pow2 k.
Proof.
  intros Ha Hk Hmin. unfold round_mag. set (e := ulp_exp a).
  assert (e <= k)%Z as He.
  { pose proof (ilog2_spec a Ha) as [Hl _].
    assert (pow2 (ilog2 a) < pow2 (k + 1)) as H%pow2_lt_inv.
    { rewrite pow2_add. change (pow2 1) with 2. pose proof (pow2_pos k). lra. }
    unfold e, ulp_exp. lia. }
  replace (pow2 k) with (pow2 (k - e + e)) by (f_equal; lia).
  rewrite pow2_add. apply scale_le. rewrite (pow2_nonneg_Z (k - e)) by lia.
  rewrite <- Zle_Qle, <- (rne_inject_Z (2 ^ (k - e))). apply rne_mono.
  rewrite <- (pow2_nonneg_Z (k - e)) by lia. unfold Z.sub. rewrite pow2_add.
  by apply scale_le.
Qed.

Lemma round_mag_ge_pow2 a k :
  pow2 k <= a → (-1074 <= k)%Z → pow2 k <= round_mag a.
Proof.
  intros Hk Hmin. pose proof (pow2_pos k).
  assert (0 < a) as Ha by lra. pose proof (ilog2_ge k a Hk) as Hl.
  assert (∃ j, (k <= j)%Z ∧ (ulp_exp a <= j)%Z ∧ pow2 j <= a) as (j & Hkj & Hej & Hj).
  { unfold ulp_exp. destruct (Z.le_ge_cases (ilog2 a - 52) (-1074)).
    - exists k. repeat split; [lia|lia|done].
    - exists (ilog2 a). repeat split; [lia|lia|]. by apply ilog2_spec. }
  transitivity (pow2 j); [by apply pow2_le|].
  unfold round_mag. set (e := ulp_exp a) in *.
  replace (pow2 j) with (pow2 (j - e + e)) by (f_equal; lia).
  rewrite pow2_add. apply scale_le. rewrite (pow2_nonneg_Z (j - e)) by lia.
  rewrite <- Zle_Qle, <- (rne_inject_Z (2 ^ (j - e))). apply rne_mono.
  rewrite <- (pow2_nonneg_Z (j - e)) by lia. unfold Z.sub. rewrite pow2_add.
  by apply scale_le.
Qed.

Lemma round_mag_nonneg a : 0 < a → 0 <= round_mag a.
Proof.
  intros Ha. unfold round_mag. pose proof (pow2_pos (ulp_exp a)).
  pose proof (pow2_pos (- ulp_exp a)).
  assert (0 <= inject_Z (rne (a * pow2 (- ulp_exp a)))); [|nra].
  change 0 with (inject_Z 0). rewrite <- Zle_Qle, <- (rne_inject_Z 0).
  apply rne_mono. change (inject_Z 0) with 0. nra.
Qed.

Lemma round_mag_mono x y : 0 < x → x <= y → round_mag x <= round_mag y.
Proof.
  intros Hx Hxy. pose proof (ulp_exp_mono x y Hx Hxy) as He.
  destruct (Z.eq_dec (ulp_exp x) (ulp_exp y)) as [E|NE].
  - unfold round_mag. rewrite E. apply scale_le. rewrite <- Zle_Qle.
    apply rne_mono, scale_le, Hxy.
  - assert (ilog2 x < ilog2 y)%Z as Hl.
    { pose proof (ilog2_mono x y Hx Hxy). unfold ulp_exp in *.
      destruct (Z.eq_dec (ilog2 x) (ilog2 y)) as [E2|]; [rewrite E2 in NE; lia | lia]. }
    pose proof (ilog2_spec x Hx). pose proof (ilog2_spec y ltac:(lra)).
    transitivity (pow2 (ilog2 y)).
    + apply round_mag_le_pow2; [done| |unfold ulp_exp in *; lia].
      transitivity (pow2 (ilog2 x + 1)); [lra | apply pow2_le; lia].
    + apply round_mag_ge_pow2; [lra | unfold ulp_exp in *; lia].
Qed.

(** A value with 53 significant bits and an exponent in range is exact. *)
Lemma round_mag_dyadic m k :
  (0 < m <= 2 ^ 53)%Z → (-1074 <= k)%Z →
  round_mag (inject_Z m * pow2 k) == inject_Z m * pow2 k.
Proof.
  intros Hm Hk. set (a := inject_Z m * pow2 k). unfold round_mag. set (e := ulp_exp a).
  pose proof (pow2_pos k) as Hpk.
  assert (0 < inject_Z m) as Hp by (change 0 with (inject_Z 0); rewrite <- Zlt_Qlt; lia).
  assert (0 < a) as Ha by (unfold a; nra).
  pose proof (ilog2_spec a Ha) as [Hl _].
  assert (a <= pow2 (53 + k)) as Hle.
  { rewrite pow2_add. apply Qmult_le_compat_r; [|lra].
    rewrite (pow2_nonneg_Z 53), <- Zle_Qle by lia. lia. }
  assert (∃ z, a * pow2 (- e) == inject_Z z) as [z Hz].
  { destruct (Z.le_gt_cases e k) as [Hek|Hek].
    - exists (m * 2 ^ (k - e))%Z. rewrite inject_Z_mult, <- (pow2_nonneg_Z (k - e)) by lia.
      unfold a. rewrite <- Qmult_assoc, <- pow2_add. by replace (k + - e)%Z with (k - e)%Z by lia.
    - assert (¬ a < pow2 (53 + k)) as Hnlt.
      { intros H. assert (pow2 (ilog2 a) < pow2 (53 + k)) as Hx%pow2_lt_inv by lra.
        unfold e, ulp_exp in Hek. lia. }
      assert (a == pow2 (53 + k)) as E by lra.
      assert (e = k + 1)%Z as ->.
      { assert (pow2 (ilog2 a) < pow2 (53 + k + 1)) as Hx%pow2_lt_inv.
        { rewrite (pow2_add (53 + k) 1). change (pow2 1) with 2. pose proof (pow2_pos (53 + k)). lra. }
        unfold e, ulp_exp in *. lia. }
      exists (2 ^ 52)%Z. rewrite E, <- pow2_add, <- (pow2_nonneg_Z 52) by lia.
      by replace (53 + k + - (k + 1))%Z with 52%Z by lia. }
  rewrite (rne_comp _ _ Hz), rne_inject_Z, <- Hz, <- Qmult_assoc.
  rewrite (Qmult_comm (pow2 (- e))), pow2_cancel. lra.
Qed.

(** Integers up to 2^53 are exact. *)
Lemma round_mag_Z n : (0 < n <= 2 ^ 53)%Z → round_mag (inject_Z n) == inject_Z n.
Proof.
  intros Hn. pose proof (round_mag_dyadic n 0 Hn ltac:(lia)) as H.
  assert (inject_Z n * pow2 0 == inject_Z n) as E by (change (pow2 0) with 1; lra).
  transitivity (inject_Z n * pow2 0); [|exact E].
  transitivity (round_mag (inject_Z n * pow2 0)); [|exact H].
  assert (0 < inject_Z n) by (change 0 with (inject_Z 0); rewrite <- Zlt_Qlt; lia).
  apply Qle_antisym; apply round_mag_mono; lra.
Qed.

(** A rounded value is zero or has 53 significant bits. *)
Lemma round_mag_shape a :
  0 < a → ∃ m, round_mag a == inject_Z m * pow2 (ulp_exp a) ∧ (0 <= m <= 2 ^ 53)%Z.
Proof.
  intros Ha. set (e := ulp_exp a). exists (rne (a * pow2 (- e))). split; [reflexivity|].
  pose proof (pow2_pos (- e)). pose proof (ilog2_spec a Ha) as [_ Hu]. split.
  - rewrite <- (rne_inject_Z 0). apply rne_mono. change (inject_Z 0) with 0. nra.
  - rewrite <- (rne_inject_Z (2 ^ 53)). apply rne_mono.
    rewrite <- (pow2_nonneg_Z 53) by lia.
    transitivity (pow2 (ilog2 a + 1) * pow2 (- e)); [apply Qmult_le_compat_r; lra|].
    rewrite <- pow2_add. apply pow2_le. unfold e, ulp_exp. lia.
Qed.

Lemma round_mag_idem a : 0 < a → 0 < round_mag a → round_mag (round_mag a) == round_mag a.
Proof.
  intros Ha Hr. destruct (round_mag_shape a Ha) as (m & E & Hm).
  assert (m ≠ 0)%Z as Hm0.
  { intros ->. change (inject_Z 0) with 0 in E. lra. }
  assert (round_mag (round_mag a) == round_mag (inject_Z m * pow2 (ulp_exp a))) as ->.
  { apply Qle_antisym; apply round_mag_mono; lra. }
  rewrite E. apply round_mag_dyadic; [lia | unfold ulp_exp; lia].
Qed.

Definition Qlt_bool (x y : Q) : bool := negb (Qle_bool y x).

Lemma Qlt_bool_iff x y : Qlt_bool x y = true ↔ x < y.
Proof. unfold Qlt_bool. rewrite negb_true_iff. apply Qle_bool_false. Qed.

Lemma Qlt_bool_false x y : Qlt_bool x y = false ↔ y <= x.
Proof. unfold Qlt_bool. rewrite negb_false_iff. apply Qle_bool_iff. Qed.

Definition round64 (q : Q) : ext :=
  if Qeq_bool q 0 then EFin 0
  else
    let r := round_mag (Qabs q) in
    if Qle_bool (pow2 1024) r then EInf (Qlt_bool q 0)
    else EFin (Qred (if Qlt_bool q 0 then - r else r)).

(** The three shapes a rounding can take. *)
Lemma round64_cases q :
  (q == 0 ∧ round64 q = EFin 0)
  ∨ (0 < q ∧ round_mag q < pow2 1024 ∧ ext_eq (round64 q) (EFin (round_mag q)))
  ∨ (0 < q ∧ pow2 1024 <= round_mag q ∧ round64 q = EInf false)
  ∨ (q < 0 ∧ round_mag (- q) < pow2 1024 ∧ ext_eq (round64 q) (EFin (- round_mag (- q))))
  ∨ (q < 0 ∧ pow2 1024 <= round_mag (- q) ∧ round64 q = EInf true).
Proof.
  unfold round64. destruct (Qeq_bool q 0) eqn:E0.
  { left. split; [by apply Qeq_bool_eq | done]. }
  apply Qeq_bool_neq in E0. destruct (Qlt_le_dec q 0) as [Hneg|Hpos].
  - assert (Qlt_bool q 0 = true) as -> by by apply Qlt_bool_iff.
    replace (Qabs q) with (- q) by (destruct q as [[] ?]; unfold Qlt in Hneg; simpl in *; done || lia).
    do 3 right. destruct (Qle_bool (pow2 1024) (round_mag (- q))) eqn:E.
    + apply Qle_bool_iff in E. by right.
    + apply Qle_bool_false in E. left. split_and!; try done. apply ext_eq_fin_iff, Qred_correct.
  - assert (Qlt_bool q 0 = false) as -> by by apply Qlt_bool_false.
    replace (Qabs q) with q by (destruct q as [[] ?]; unfold Qle in Hpos; simpl in *; done || lia).
    assert (0 < q) by lra. right. destruct (Qle_bool (pow2 1024) (round_mag q)) eqn:E.
    + apply Qle_bool_iff in E. right. by left.
    + apply Qle_bool_false in E. left. split_and!; try done. apply ext_eq_fin_iff, Qred_correct.
Qed.

Lemma round_mag_comp x y : 0 < x → x == y → round_mag x == round_mag y.
Proof. intros Hx Hxy. apply Qle_antisym; apply round_mag_mono; lra. Qed.

#[global] Instance round64_proper : Proper (Qeq ==> ext_eq) round64.
Proof.
  intros x y Hxy.
  destruct (round64_cases x) as [(A & ->)|[(A & B & ->)|[(A & B & ->)|[(A & B & ->)|(A & B & ->)]]]];
    destruct (round64_cases y) as [(C & ->)|[(C & D & ->)|[(C & D & ->)|[(C & D & ->)|(C & D & ->)]]]];
    apply ext_eq_unfold; try lra; try done.
  all: first
    [ pose proof (round_mag_comp x y A Hxy)
    | pose proof (round_mag_comp (- x) (- y) ltac:(lra) ltac:(lra)) ]; lra.
Qed.

(** Rounding is monotone on values that stay finite. *)
Lemma round64_mono x y a b :
  x <= y → ext_eq (round64 x) (EFin a) → ext_eq (round64 y) (EFin b) → a <= b.
Proof.
  intros Hxy.
  destruct (round64_cases x) as [(A & ->)|[(A & B & ->)|[(A & B & ->)|[(A & B & ->)|(A & B & ->)]]]];
    destruct (round64_cases y) as [(C & ->)|[(C & D & ->)|[(C & D & ->)|[(C & D & ->)|(C & D & ->)]]]];
    rewrite !ext_eq_unfold; intros Ha Hb; try lra; try done.
  - pose proof (round_mag_nonneg y C). lra.
  - pose proof (round_mag_mono x y A Hxy). lra.
  - pose proof (round_mag_nonneg (- x) ltac:(lra)). lra.
  - pose proof (round_mag_nonneg (- x) ltac:(lra)). pose proof (round_mag_nonneg y C). lra.
  - pose proof (round_mag_mono (- y) (- x) ltac:(lra) ltac:(lra)). lra.
Qed.

(** A magnitude below a power of two in range rounds to a finite value below
    the same power of two, and the same above. *)
Lemma round64_le_pow2 q k :
  0 <= q <= pow2 k → (-1074 <= k <= 1023)%Z →
  ∃ r, ext_eq (round64 q) (EFin r) ∧ 0 <= r <= pow2 k.
Proof.
  intros [H0 Hk] Hr. pose proof (pow2_pos k).
  assert (pow2 k < pow2 1024) as Hlt.
  { pose proof (pow2_le (k + 1) 1024 ltac:(lia)) as Hp. rewrite pow2_add in Hp.
    change (pow2 1) with 2 in Hp. lra. }
  destruct (round64_cases q) as [(A & E)|[(A & B & E)|[(A & B & E)|[(A & B & E)|(A & B & E)]]]];
    try lra.
  - exists 0. rewrite E. split; [reflexivity | lra].
  - exists (round_mag q). split; [exact E|]. split; [by apply round_mag_nonneg|].
    apply round_mag_le_pow2; [done..|lia].
  - pose proof (round_mag_le_pow2 q k A Hk ltac:(lia)). lra.
Qed.

(** Below a power of two, rounding moves a value by at most half a unit in the
    last of its 53 bits. *)
Lemma round_mag_close a k :
  0 < a <= pow2 k → (-1022 <= k)%Z → Qabs (round_mag a - a) <= pow2 (k - 53).
Proof.
  intros [Ha Hle] Hk. unfold round_mag. set (e := ulp_exp a).
  assert (e <= k - 52)%Z as He.
  { pose proof (ilog2_spec a Ha) as [Hl _].
    assert (pow2 (ilog2 a) < pow2 (k + 1)) as H%pow2_lt_inv.
    { rewrite pow2_add. change (pow2 1) with 2. pose proof (pow2_pos k). lra. }
    unfold e, ulp_exp. lia. }
  pose proof (rne_dist (a * pow2 (- e))) as Hd%Qabs_Qle_condition.
  pose proof (pow2_pos e) as Hp. pose proof (pow2_cancel e) as Hc.
  assert ((a * pow2 (- e)) * pow2 e == a) as Ea by (rewrite <- Qmult_assoc, (Qmult_comm _ (pow2 e)), Hc; lra).
  assert ((1 # 2) * pow2 e <= pow2 (k - 53)) as Hu.
  { change (1 # 2) with (pow2 (-1)). rewrite <- pow2_add. apply pow2_le. lia. }
  set (x := a * pow2 (- e)) in *. set (n := inject_Z (rne x)) in *.
  apply Qabs_Qle_condition. split; nra.
Qed.

Lemma round64_close q k r :
  0 <= q <= pow2 k → (-1022 <= k)%Z →
  ext_eq (round64 q) (EFin r) → Qabs (r - q) <= pow2 (k - 53).
Proof.
  intros Hq Hk. pose proof (pow2_pos (k - 53)).
  destruct (round64_cases q) as [(A & ->)|[(A & B & ->)|[(A & B & ->)|[(A & B & ->)|(A & B & ->)]]]];
    rewrite ext_eq_unfold; intros E; try lra; try done.
  - apply Qabs_Qle_condition. lra.
  - rewrite <- E. apply round_mag_close; [lra | done].
Qed.

Lemma round64_ge_pow2 q k r :
  pow2 k <= q → (-1074 <= k)%Z → ext_eq (round64 q) (EFin r) → pow2 k <= r.
Proof.
  intros Hk Hr. pose proof (pow2_pos k).
  destruct (round64_cases q) as [(A & ->)|[(A & B & ->)|[(A & B & ->)|[(A & B & ->)|(A & B & ->)]]]];
    rewrite ext_eq_unfold; intros E; try lra; try done.
  pose proof (round_mag_ge_pow2 q k Hk Hr). lra.
Qed.

Lemma round64_Z n :
  (Z.abs n <= 2 ^ 53)%Z → ext_eq (round64 (inject_Z n)) (EFin (inject_Z n)).
Proof.
  intros Hn.
  assert (∀ m, (0 < m <= 2 ^ 53)%Z → inject_Z m < pow2 1024) as Hb.
  { intros m Hm. rewrite (pow2_nonneg_Z 1024), <- Zlt_Qlt by lia. lia. }
  destruct (round64_cases (inject_Z n)) as
    [(A & ->)|[(A & B & ->)|[(A & B & ->)|[(A & B & ->)|(A & B & ->)]]]].
  - apply ext_eq_fin_iff. lra.
  - apply ext_eq_fin_iff. change 0 with (inject_Z 0) in A. rewrite <- Zlt_Qlt in A.
    apply round_mag_Z. lia.
  - exfalso. change 0 with (inject_Z 0) in A. rewrite <- Zlt_Qlt in A.
    rewrite round_mag_Z in B by lia. specialize (Hb n ltac:(lia)). lra.
  - apply ext_eq_fin_iff. change 0 with (inject_Z 0) in A. rewrite <- Zlt_Qlt in A.
    rewrite <- inject_Z_opp, round_mag_Z by lia. rewrite inject_Z_opp. lra.
  - exfalso. change 0 with (inject_Z 0) in A. rewrite <- Zlt_Qlt in A.
    rewrite <- inject_Z_opp, round_mag_Z in B by lia. specialize (Hb (- n)%Z ltac:(lia)). lra.
Qed.
End Rounding.

(** ** Exact operations on the extended rationals. *)
Section Ext.
Local Open Scope Q_scope.

Definition ext_opp (x : ext) : ext :=
  match x with ENaN => ENaN | EInf s => EInf (negb s) | EFin p => EFin (- p) end.

Definition ext_add (x y : ext) : ext :=
  match x, y with
  | ENaN, _ | _, ENaN => ENaN
  | EInf s, EInf t => if Bool.eqb s t then EInf s else ENaN
  | EInf s, EFin _ | EFin _, EInf s => EInf s
  | EFin p, EFin q => EFin (Qred (p + q))
  end.

Definition ext_sub (x y : ext) : ext := ext_add x (ext_opp y).

Definition ext_mul (x y : ext) : ext :=
  match x, y with
  | ENaN, _ | _, ENaN => ENaN
  | EInf s, EInf t => EInf (xorb s t)
  | EInf s, EFin p | EFin p, EInf s =>
      if Qeq_bool p 0 then ENaN else EInf (xorb s (Qlt_bool p 0))
  | EFin p, EFin q => EFin (Qred (p * q))
  end.

Definition ext_abs (x : ext) : ext :=
  match x with ENaN => ENaN | EInf _ => EInf false | EFin p => EFin (Qabs p) end.

(** Comparisons are false on NaN, as in the language. *)
Definition ext_le (x y : ext) : bool :=
  match x, y with
  | ENaN, _ | _, ENaN => false
  | EInf true, _ | _, EInf false => true
  | EInf false, _ | _, EInf true => false
  | EFin p, EFin q => Qle_bool p q
  end.

Definition ext_eqb (x y : ext) : bool :=
  match x, y with
  | EInf s, EInf t => Bool.eqb s t
  | EFin p, EFin q => Qeq_bool p q
  | _, _ => false
  end.

Definition ext_lt (x y : ext) : bool := ext_le x y && negb (ext_eqb x y).

Definition ext_is_nan (x : ext) : bool := match x with ENaN => true | _ => false end.
Definition ext_is_finite (x : ext) : bool := match x with EFin _ => true | _ => false end.

#[global] Instance Qlt_bool_proper : Proper (Qeq ==> Qeq ==> eq) Qlt_bool.
Proof.
  intros p p' Hp q q' Hq. apply eq_true_iff_eq. rewrite !Qlt_bool_iff. by rewrite Hp, Hq.
Qed.
#[global] Instance Qle_bool_proper : Proper (Qeq ==> Qeq ==> eq) Qle_bool.
Proof.
  intros p p' Hp q q' Hq. apply eq_true_iff_eq. rewrite !Qle_bool_iff. by rewrite Hp, Hq.
Qed.
#[global] Instance Qeq_bool_proper : Proper (Qeq ==> Qeq ==> eq) Qeq_bool.
Proof.
  intros p p' Hp q q' Hq. apply eq_true_iff_eq. rewrite !Qeq_bool_iff. by rewrite Hp, Hq.
Qed.

Local Ltac ext_proper :=
  repeat match goal with H : ext_eq _ _ |- _ => destruct H end;
  simpl; try reflexivity; try apply ext_eq_fin_iff; rewrite ?Qred_correct;
  repeat match goal with
  | H : (?p == ?q)%Q |- _ =>
      try (replace (Qlt_bool p 0) with (Qlt_bool q 0) by (by rewrite H));
      rewrite H; clear H
  end;
  reflexivity.

#[global] Instance ext_opp_proper : Proper (ext_eq ==> ext_eq) ext_opp.
Proof. intros x x' Hx. ext_proper. Qed.
#[global] Instance ext_add_proper : Proper (ext_eq ==> ext_eq ==> ext_eq) ext_add.
Proof. intros x x' Hx y y' Hy. ext_proper. Qed.
#[global] Instance ext_sub_proper : Proper (ext_eq ==> ext_eq ==> ext_eq) ext_sub.
Proof. intros x x' Hx y y' Hy. unfold ext_sub. by rewrite Hx, Hy. Qed.
#[global] Instance ext_mul_proper : Proper (ext_eq ==> ext_eq ==> ext_eq) ext_mul.
Proof. intros x x' Hx y y' Hy. ext_proper. Qed.
#[global] Instance ext_abs_proper : Proper (ext_eq ==> ext_eq) ext_abs.
Proof. intros x x' Hx. ext_proper. Qed.
#[global] Instance ext_le_proper : Proper (ext_eq ==> ext_eq ==> eq) ext_le.
Proof. intros x x' Hx y y' Hy. ext_proper. Qed.
#[global] Instance ext_eqb_proper : Proper (ext_eq ==> ext_eq ==> eq) ext_eqb.
Proof. intros x x' Hx y y' Hy. ext_proper. Qed.
#[global] Instance ext_lt_proper : Proper (ext_eq ==> ext_eq ==> eq) ext_lt.
Proof. intros x x' Hx y y' Hy. unfold ext_lt. by rewrite Hx, Hy. Qed.
End Ext.

(** ** [number] arithmetic. *)
Notation number := ext (only parsing).

Definition ext_round64 (x : ext) : number :=
  match x with EFin q => round64 q | _ => x end.

#[global] Instance ext_round64_proper : Proper (ext_eq ==> ext_eq) ext_round64.
Proof.
  intros ? ? []; simpl; [done..|]. by apply round64_proper.
Qed.

Definition n_Z (z : Z) : number := round64 (inject_Z z).
Definition n_add (x y : number) : number := ext_round64 (ext_add x y).
Definition n_sub (x y : number) : number := ext_round64 (ext_sub x y).
Definition n_mul (x y : number) : number := ext_round64 (ext_mul x y).
(** Division by a non-zero finite number. *)
Definition n_div (x y : number) : number :=
  match x, y with
  | EFin p, EFin q => if Qeq_bool q 0 then
                        (if Qeq_bool p 0 then ENaN else EInf (Qlt_bool p 0))
                      else round64 (p / q)
  | ENaN, _ | _, ENaN => ENaN
  | EInf _, EInf _ => ENaN
  | EFin _, EInf _ => EFin 0
  | EInf s, EFin q => EInf (xorb s (Qlt_bool q 0))
  end.
(** [Math.ceil]. *)
Definition n_ceil (x : number) : number :=
  match x with EFin q => EFin (inject_Z (Qceiling q)) | _ => x end.
(** A number is falsy when it is zero or NaN. *)
Definition n_truthy (x : number) : bool :=
  match x with ENaN => false | EInf _ => true | EFin q => negb (Qeq_bool q 0) end.

(** The values a [number] variable can hold. *)
Definition is_number (x : number) : Prop := ext_eq (ext_round64 x) x.

Lemma ext_round64_number x : is_number (ext_round64 x).
Proof.
  unfold is_number. destruct x as [|s|q]; simpl; [reflexivity..|].
  destruct (round64_cases q) as [(A & E)|[(A & B & E)|[(A & B & E)|[(A & B & E)|(A & B & E)]]]];
    rewrite E; simpl; try reflexivity.
  - pose proof (round_mag_nonneg q A).
    destruct (round64_cases (round_mag q))
      as [(C & F)|[(C & D & F)|[(C & D & F)|[(C & D & F)|(C & D & F)]]]]; rewrite F; try lra.
    + apply ext_eq_fin_iff. lra.
    + apply ext_eq_fin_iff. by apply round_mag_idem.
    + rewrite (round_mag_idem q A C) in D. lra.
  - pose proof (round_mag_nonneg (- q) ltac:(lra)).
    destruct (round64_cases (- round_mag (- q)))
      as [(C & F)|[(C & D & F)|[(C & D & F)|[(C & D & F)|(C & D & F)]]]]; rewrite F; try lra.
    + apply ext_eq_fin_iff. lra.
    + apply ext_eq_fin_iff. rewrite (round_mag_comp _ (round_mag (- q))) by lra.
      rewrite round_mag_idem by lra. reflexivity.
    + rewrite (round_mag_comp _ (round_mag (- q))), round_mag_idem in D by lra. lra.
Qed.

Lemma n_Z_number z : is_number (n_Z z).
Proof. apply (ext_round64_number (EFin (inject_Z z))). Qed.

#[global] Instance is_number_proper : Proper (ext_eq ==> iff) is_number.
Proof. intros x y H. unfold is_number. by rewrite H. Qed.

Lemma n_Z_fin z : (Z.abs z <= 2 ^ 53)%Z → ext_eq (n_Z z) (EFin (inject_Z z)).
Proof. apply round64_Z. Qed.

Lemma n_sub_fin x y p q :
  ext_eq x (EFin p) → ext_eq y (EFin q) → ext_eq (n_sub x y) (round64 (p - q)).
Proof.
  intros Hx Hy. unfold n_sub. rewrite Hx, Hy. simpl. by rewrite Qred_correct.
Qed.

Lemma n_add_fin x y p q :
  ext_eq x (EFin p) → ext_eq y (EFin q) → ext_eq (n_add x y) (round64 (p + q)).
Proof.
  intros Hx Hy. unfold n_add. rewrite Hx, Hy. simpl. by rewrite Qred_correct.
Qed.

(** Equality up to the rounding of numbers between 0 and 2. *)
Definition near (x y : Q) : Prop := (Qabs (x - y) <= pow2 (-51))%Q.

Lemma near_of x y k :
  (k <= -51)%Z → (Qabs (x - y) <= pow2 k)%Q → near x y.
Proof. intros Hk H. unfold near. eapply Qle_trans; [exact H | by apply pow2_le]. Qed.

(** [1 - s] and [1 + s] stay where they should for a slippage in [0, 1], and
    are within one rounding of it. *)
Lemma n_one_minus s q :
  ext_eq s (EFin q) → (0 <= q <= 1)%Q →
  ∃ r, ext_eq (n_sub (n_Z 1) s) (EFin r) ∧ (0 <= r <= 1)%Q ∧ (Qabs (r - (1 - q)) <= pow2 (-53))%Q.
Proof.
  intros Hs Hq. pose proof (n_sub_fin _ _ _ _ (n_Z_fin 1 ltac:(lia)) Hs) as E.
  change (inject_Z 1) with 1%Q in E.
  assert (0 <= 1 - q <= pow2 0)%Q as Hb0 by (change (pow2 0) with 1%Q; lra).
  destruct (round64_le_pow2 (1 - q) 0 Hb0 ltac:(lia)) as (r & Hr & Hb).
  exists r. split; [by rewrite E|]. split; [exact Hb|].
  exact (round64_close _ 0 _ Hb0 ltac:(lia) Hr).
Qed.

Lemma n_one_plus s q :
  ext_eq s (EFin q) → (0 <= q <= 1)%Q →
  ∃ r, ext_eq (n_add (n_Z 1) s) (EFin r) ∧ (1 <= r <= 2)%Q ∧ (Qabs (r - (1 + q)) <= pow2 (-52))%Q.
Proof.
  intros Hs Hq. pose proof (n_add_fin _ _ _ _ (n_Z_fin 1 ltac:(lia)) Hs) as E.
  change (inject_Z 1) with 1%Q in E.
  assert (0 <= 1 + q <= pow2 1)%Q as Hb0 by (change (pow2 1) with 2%Q; lra).
  destruct (round64_le_pow2 (1 + q) 1 Hb0 ltac:(lia)) as (r & Hr & Hb).
  exists r. split; [by rewrite E|]. change (pow2 1) with 2%Q in Hb.
  split; [split; [|lra] | exact (round64_close _ 1 _ Hb0 ltac:(lia) Hr)].
  change 1%Q with (pow2 0). eapply round64_ge_pow2; [|lia|exact Hr].
  change (pow2 0) with 1%Q. lra.
Qed.

Lemma ext_eqb_fin x q : ext_eqb x (EFin q) = true → ext_eq x (EFin q).
Proof. destruct x; simpl; try done. intros H%Qeq_bool_iff. by apply ext_eq_fin_iff. Qed.

(** ** Integers held in a number *)
Definition n_int (n : number) (z : Z) : Prop := ext_eq n (EFin (inject_Z z)).

Lemma n_int_Z z : (Z.abs z <= 2 ^ 53)%Z → n_int (n_Z z) z.
Proof. apply n_Z_fin. Qed.

Lemma n_int_add x y a b :
  n_int x a → n_int y b → (Z.abs (a + b) <= 2 ^ 53)%Z → n_int (n_add x y) (a + b).
Proof.
  intros Hx Hy Hb. unfold n_int. rewrite (n_add_fin _ _ _ _ Hx Hy), <- inject_Z_plus.
  by apply round64_Z.
Qed.

Lemma n_int_sub x y a b :
  n_int x a → n_int y b → (Z.abs (a - b) <= 2 ^ 53)%Z → n_int (n_sub x y) (a - b).
Proof.
  intros Hx Hy Hb. unfold n_int. rewrite (n_sub_fin _ _ _ _ Hx Hy).
  unfold Qminus. rewrite <- inject_Z_opp, <- inject_Z_plus. by apply round64_Z.
Qed.

Lemma n_int_mul x y a b :
  n_int x a → n_int y b → (Z.abs (a * b) <= 2 ^ 53)%Z → n_int (n_mul x y) (a * b).
Proof.
  unfold n_int, n_mul. intros Hx Hy Hb. rewrite Hx, Hy. simpl.
  rewrite Qred_correct, <- inject_Z_mult. by apply round64_Z.
Qed.

Lemma n_int_lt x y a b : n_int x a → n_int y b → ext_lt x y = bool_decide (a < b)%Z.
Proof.
  unfold n_int. intros Hx Hy. rewrite Hx, Hy. unfold ext_lt. simpl.
  apply eq_true_iff_eq. rewrite bool_decide_eq_true, andb_true_iff, negb_true_iff, Qle_bool_iff.
  rewrite <- not_true_iff_false, Qeq_bool_iff, (Zlt_Qlt a b). split; [intros [? ?]; lra | split; lra].
Qed.

Lemma n_int_eqb x y a b : n_int x a → n_int y b → ext_eqb x y = bool_decide (a = b).
Proof.
  unfold n_int. intros Hx Hy. rewrite Hx, Hy. simpl. apply eq_true_iff_eq.
  by rewrite bool_decide_eq_true, Qeq_bool_iff, inject_Z_injective.
Qed.

(** How a sort reads the number that its comparator returns. *)
Definition n_sign (n : number) : Z :=
  match n with
  | ENaN => 0
  | EInf negative => if negative : bool then -1 else 1
  | EFin q => if Qlt_bool 0 q then 1 else if Qlt_bool q 0 then -1 else 0
  end.

Lemma round64_nonfinite q :
  match round64 q with ENaN => False | EInf true => (q < 0)%Q | EInf false => (0 < q)%Q | EFin _ => True end.
Proof.
  destruct (round64_cases q) as [(A & ->)|[(A & C & E)|[(A & C & ->)|[(A & C & E)|(A & C & ->)]]]]; try done.
  all: apply ext_eq_unfold in E; by destruct (round64 q).
Qed.

Lemma n_sign_round q : (q <= 0)%Q → (n_sign (round64 q) <= 0)%Z.
Proof.
  intros Hq. pose proof (round64_nonfinite q) as Hn. destruct (round64 q) as [|[]|r] eqn:E; simpl; try lia; [lra|].
  assert (ext_eq (round64 q) (EFin r)) as H by (by rewrite E).
  pose proof (round64_mono q 0 r 0 Hq H (round64_Z 0 ltac:(lia))) as Hr.
  destruct (Qlt_bool 0 r) eqn:F; [apply Qlt_bool_iff in F; lra|]. destruct (Qlt_bool r 0); lia.
Qed.

Lemma n_sign_round_pos q : (pow2 (-1074) <= q)%Q → (0 < n_sign (round64 q))%Z.
Proof.
  intros Hq. pose proof (pow2_pos (-1074)) as Hp. pose proof (round64_nonfinite q) as Hn.
  destruct (round64 q) as [|[]|r] eqn:E; simpl; try lia; [lra|].
  assert (ext_eq (round64 q) (EFin r)) as H by (by rewrite E).
  pose proof (round64_ge_pow2 q (-1074) r Hq ltac:(lia) H) as Hr.
  assert (Qlt_bool 0 r = true) as -> by (apply Qlt_bool_iff; lra). lia.
Qed.

Lemma n_sign_proper x y : ext_eq x y → n_sign x = n_sign y.
Proof.
  intros H. apply ext_eq_unfold in H. destruct x as [|s|p], y as [|s'|q]; try done; unfold n_sign; [by subst|].
  assert (Qlt_bool 0 p = Qlt_bool 0 q) as -> by (by rewrite H).
  assert (Qlt_bool p 0 = Qlt_bool q 0) as -> by (by rewrite H). done.
Qed.

(** Exactness of an integer expression on numbers, up to the bounds. *)
Ltac n_int_expr :=
  repeat first [ apply n_int_sub | apply n_int_add | apply n_int_mul | apply n_int_Z ].

#[global] Arguments round64 q : simpl never.
#[global] Arguments n_Z z : simpl never.
#[global] Arguments n_add x y : simpl never.
#[global] Arguments n_sub x y : simpl never.
#[global] Arguments n_mul x y : simpl never.
#[global] Arguments n_div x y : simpl never.
