(* ===== verification/BigNum.v ===== *)
(** * The decimal library

    Amounts are [BigNumber]s, the arbitrary precision decimals of the package
    [@0x/utils] (bignumber.js), which is not part of the repository.  It is a
    parameter of the whole development: the class [BigNumberLib] lists the
    operations the repository calls and the documented behaviour it relies
    on, through the value [val] a number denotes.  [fin a q] says that [a] is
    finite and denotes [q]; the lemmas below compute with it.  [QBigNumber] is
    a concrete implementation of the interface, used to evaluate the model on
    examples. *)

From S2P Require Import Prelude JsNumber.

Inductive rounding_mode : Type :=
| ROUND_UP | ROUND_DOWN | ROUND_CEIL | ROUND_FLOOR | ROUND_HALF_UP.

Section Rounding.
Local Open Scope Q_scope.

Definition round_int (rm : rounding_mode) (q : Q) : Z :=
  match rm with
  | ROUND_CEIL => Qceiling q
  | ROUND_FLOOR => Qfloor q
  | ROUND_DOWN => if Qle_bool 0 q then Qfloor q else Qceiling q
  | ROUND_UP => if Qle_bool 0 q then Qceiling q else Qfloor q
  | ROUND_HALF_UP =>
      if Qle_bool 0 q then Qfloor (q + (1 # 2)) else Qceiling (q - (1 # 2))
  end.

Definition pow10 (n : nat) : Q := inject_Z (10 ^ Z.of_nat n).

(** Rounding to [dp] decimal places. *)
Definition round_dp (dp : nat) (rm : rounding_mode) (q : Q) : Q :=
  inject_Z (round_int rm (q * pow10 dp)) / pow10 dp.

Lemma pow10_pos n : 0 < pow10 n.
Proof.
  unfold pow10. change 0 with (inject_Z 0). rewrite <- Zlt_Qlt. lia.
Qed.

Lemma Qceiling_bounds q : inject_Z (Qceiling q) - 1 < q <= inject_Z (Qceiling q).
Proof.
  split; [|apply Qle_ceiling]. pose proof (Qceiling_lt q) as H.
  unfold Z.sub in H. rewrite inject_Z_plus in H. exact H.
Qed.

Lemma Qle_inject_floor z q : inject_Z z <= q → (z <= Qfloor q)%Z.
Proof.
  intros H. rewrite <- (Qfloor_Z z). by apply Qfloor_resp_le.
Qed.

Lemma Qle_inject_ceiling z q : q <= inject_Z z → (Qceiling q <= z)%Z.
Proof.
  intros H. rewrite <- (Qceiling_Z z). by apply Qceiling_resp_le.
Qed.

#[global] Instance round_int_proper rm : Proper (Qeq ==> eq) (round_int rm).
Proof.
  intros p q H. unfold round_int.
  assert (Qle_bool 0 p = Qle_bool 0 q) as -> by (by rewrite H).
  destruct rm; try case_if; first [apply Qfloor_comp | apply Qceiling_comp]; by rewrite H.
Qed.

Lemma round_int_Z rm z : round_int rm (inject_Z z) = z.
Proof.
  destruct rm; unfold round_int; try case_if; rewrite ?Qfloor_Z, ?Qceiling_Z; try done.
  - apply Z.le_antisymm.
    + pose proof (Qfloor_le (inject_Z z + (1 # 2))) as H.
      assert (inject_Z (Qfloor (inject_Z z + (1 # 2))) < inject_Z (z + 1)) as H1.
      { rewrite inject_Z_plus. change (inject_Z 1) with 1. lra. }
      rewrite <- Zlt_Qlt in H1. lia.
    + apply Qle_inject_floor. lra.
  - apply Z.le_antisymm.
    + apply Qle_inject_ceiling. lra.
    + pose proof (Qle_ceiling (inject_Z z - (1 # 2))) as H.
      assert (inject_Z (z - 1) < inject_Z (Qceiling (inject_Z z - (1 # 2)))) as H1.
      { unfold Z.sub. rewrite inject_Z_plus. change (inject_Z (- (1))) with (-1). lra. }
      rewrite <- Zlt_Qlt in H1. lia.
Qed.

Lemma round_int_mono rm p q : p <= q → (round_int rm p <= round_int rm q)%Z.
Proof.
  intros H. unfold round_int.
  assert (p < 0 → 0 <= q → (Qceiling p <= Qfloor q)%Z) as Hs.
  { intros Hp Hq. transitivity 0%Z.
    - apply Qle_inject_ceiling. change (inject_Z 0) with 0. lra.
    - apply Qle_inject_floor. exact Hq. }
  assert (Qfloor p <= Qfloor q)%Z by (by apply Qfloor_resp_le).
  assert (Qceiling p <= Qceiling q)%Z by (by apply Qceiling_resp_le).
  destruct rm; try done;
    destruct (Qle_bool 0 p) eqn:A; destruct (Qle_bool 0 q) eqn:B;
    rewrite ?Qle_bool_iff, ?Qle_bool_false in *; try done; try lra.
  - pose proof (Qfloor_le p). pose proof (Qle_ceiling q).
    rewrite Zle_Qle. lra.
  - by apply Hs.
  - apply Qfloor_resp_le. lra.
  - transitivity 0%Z.
    + apply Qle_inject_ceiling. change (inject_Z 0) with 0. lra.
    + apply Qle_inject_floor. change (inject_Z 0) with 0. lra.
  - apply Qceiling_resp_le. lra.
Qed.

(** Every mode is within one of the exact value; half-up within a half. *)
Lemma round_int_dist rm q : inject_Z (round_int rm q) - 1 < q < inject_Z (round_int rm q) + 1.
Proof.
  pose proof (Qfloor_bounds q). pose proof (Qceiling_bounds q).
  pose proof (Qfloor_bounds (q + (1 # 2))). pose proof (Qceiling_bounds (q - (1 # 2))).
  unfold round_int. destruct rm; try case_if; lra.
Qed.

Lemma round_half_up_dist q : Qabs (inject_Z (round_int ROUND_HALF_UP q) - q) <= 1 # 2.
Proof.
  apply Qabs_Qle_condition. pose proof (Qfloor_bounds (q + (1 # 2))).
  pose proof (Qceiling_bounds (q - (1 # 2))). unfold round_int. case_if; lra.
Qed.

Lemma round_floor_bounds q :
  inject_Z (round_int ROUND_FLOOR q) <= q < inject_Z (round_int ROUND_FLOOR q) + 1.
Proof. apply Qfloor_bounds. Qed.

Lemma round_ceil_bounds q :
  inject_Z (round_int ROUND_CEIL q) - 1 < q <= inject_Z (round_int ROUND_CEIL q).
Proof. apply Qceiling_bounds. Qed.

(** Towards zero never grows, away from zero never shrinks, a non-negative
    value. *)
Lemma round_down_bounds q :
  0 <= q → 0 <= inject_Z (round_int ROUND_DOWN q) <= q.
Proof.
  intros H. unfold round_int. rewrite (proj2 (Qle_bool_iff _ _) H).
  split; [|apply Qfloor_le]. change 0 with (inject_Z 0). rewrite <- Zle_Qle.
  by apply Qle_inject_floor.
Qed.

Lemma round_up_bounds q : 0 <= q → q <= inject_Z (round_int ROUND_UP q).
Proof.
  intros H. unfold round_int. rewrite (proj2 (Qle_bool_iff _ _) H). apply Qle_ceiling.
Qed.

Lemma round_int_nonneg rm q : 0 <= q → 0 <= inject_Z (round_int rm q).
Proof.
  intros H. change 0 with (inject_Z 0). rewrite <- Zle_Qle, <- (round_int_Z rm 0).
  by apply round_int_mono.
Qed.

#[global] Instance round_dp_proper dp rm : Proper (Qeq ==> Qeq) (round_dp dp rm).
Proof. intros p q H. unfold round_dp. by rewrite H. Qed.

Lemma round_dp_Z dp rm z : round_dp dp rm (inject_Z z) == inject_Z z.
Proof.
  unfold round_dp, pow10. rewrite <- inject_Z_mult, round_int_Z, inject_Z_mult.
  field. pose proof (pow10_pos dp) as H. unfold pow10 in H. lra.
Qed.

Lemma round_dp_mono dp rm p q : p <= q → round_dp dp rm p <= round_dp dp rm q.
Proof.
  intros H. unfold round_dp. pose proof (pow10_pos dp).
  apply Qmult_le_compat_r.
  - rewrite <- Zle_Qle. apply round_int_mono. nra.
  - apply Qlt_le_weak, Qinv_lt_0_compat; done.
Qed.

Lemma round_dp_between dp rm a b q :
  inject_Z a <= q <= inject_Z b → inject_Z a <= round_dp dp rm q <= inject_Z b.
Proof.
  intros [Ha Hb]. split.
  - rewrite <- (round_dp_Z dp rm a). by apply round_dp_mono.
  - rewrite <- (round_dp_Z dp rm b). by apply round_dp_mono.
Qed.

Lemma round_dp_nonneg dp rm q : 0 <= q → 0 <= round_dp dp rm q.
Proof.
  intros H. rewrite <- (round_dp_Z dp rm 0). by apply round_dp_mono.
Qed.

(** The division error: half a unit in the last decimal place. *)
Lemma round_dp_dist dp q :
  Qabs (round_dp dp ROUND_HALF_UP q - q) <= (1 # 2) / pow10 dp.
Proof.
  pose proof (pow10_pos dp) as Hp. pose proof (round_half_up_dist (q * pow10 dp)) as H.
  apply Qabs_Qle_condition in H. apply Qabs_Qle_condition. unfold round_dp.
  set (n := inject_Z (round_int ROUND_HALF_UP (q * pow10 dp))) in *.
  assert (n / pow10 dp - q == (n - q * pow10 dp) / pow10 dp) as -> by (field; lra).
  split.
  - assert (- ((1 # 2) / pow10 dp) == (- (1 # 2)) / pow10 dp) as -> by (field; lra).
    apply Qle_shift_div_l; [done|]. field_simplify; lra.
  - apply Qle_shift_div_r; [done|]. field_simplify; [lra|lra].
Qed.
End Rounding.

#[global] Arguments round_int rm q : simpl never.
#[global] Arguments round_dp dp rm q : simpl never.
#[global] Arguments pow10 n : simpl never.

(** ** The interface to the decimal library. *)
Class BigNumberLib := {
  BN : Type;
  (** the configured [DECIMAL_PLACES] of a division *)
  DECIMAL_PLACES : nat;
  (** the value a decimal denotes *)
  val : BN → ext;
  (** [isNegative()]: the sign bit, also set on negative zero *)
  isNegative : BN → bool;

  (** [new BigNumber(n)] for an integer literal and for a [number] *)
  of_Z : Z → BN;
  of_number : number → BN;
  plus : BN → BN → BN;
  minus : BN → BN → BN;
  times : BN → BN → BN;
  div : BN → BN → BN;
  dividedToIntegerBy : BN → BN → BN;
  pow : BN → Z → BN;
  absoluteValue : BN → BN;
  integerValue : rounding_mode → BN → BN;
  decimalPlaces : nat → rounding_mode → BN → BN;
  toNumber : BN → number;
  isEqualTo : BN → BN → bool;
  lt : BN → BN → bool;
  lte : BN → BN → bool;
  (** the variadic [BigNumber.sum], [BigNumber.min], [BigNumber.max] *)
  bn_sum : list BN → BN;
  bn_min : list BN → BN;
  bn_max : list BN → BN;

  val_of_Z z : ext_eq (val (of_Z z)) (EFin (inject_Z z));
  (** a [number] is read through its shortest decimal form, which reads back
      as the same number; integers are exact *)
  val_of_number_fin n q :
    is_number n → ext_eq n (EFin q) →
    ∃ q', ext_eq (val (of_number n)) (EFin q') ∧ ext_eq (round64 q') (EFin q);
  val_of_number_Z n z :
    (Z.abs z <= 2 ^ 53)%Z → ext_eq n (EFin (inject_Z z)) →
    ext_eq (val (of_number n)) (EFin (inject_Z z));
  val_of_number_nonfin n :
    ext_is_finite n = false → ext_eq (val (of_number n)) n;

  val_plus a b : ext_eq (val (plus a b)) (ext_add (val a) (val b));
  val_minus a b : ext_eq (val (minus a b)) (ext_sub (val a) (val b));
  val_times a b : ext_eq (val (times a b)) (ext_mul (val a) (val b));

  (** division rounds half-up at [DECIMAL_PLACES]; by zero it is infinite *)
  val_div_fin a b p q :
    ext_eq (val a) (EFin p) → ext_eq (val b) (EFin q) → ¬ (q == 0)%Q →
    ext_eq (val (div a b)) (EFin (round_dp DECIMAL_PLACES ROUND_HALF_UP (p / q)));
  val_div_zero a b p q :
    ext_eq (val a) (EFin p) → ext_eq (val b) (EFin q) → (q == 0)%Q → ¬ (p == 0)%Q →
    ext_eq (val (div a b)) (EInf (xorb (isNegative a) (isNegative b)));
  val_div_zero_zero a b p q :
    ext_eq (val a) (EFin p) → ext_eq (val b) (EFin q) → (q == 0)%Q → (p == 0)%Q →
    ext_eq (val (div a b)) ENaN;
  val_div_nan a b : val a = ENaN ∨ val b = ENaN → ext_eq (val (div a b)) ENaN;
  isNegative_fin a p :
    ext_eq (val a) (EFin p) → ¬ (p == 0)%Q → isNegative a = Qlt_bool p 0;
  isNegative_of_Z z : (0 <= z)%Z → isNegative (of_Z z) = false;

  val_idiv a b p q :
    ext_eq (val a) (EFin p) → ext_eq (val b) (EFin q) → ¬ (q == 0)%Q →
    ext_eq (val (dividedToIntegerBy a b)) (EFin (inject_Z (round_int ROUND_DOWN (p / q))));
  val_pow a n p :
    ext_eq (val a) (EFin p) → (0 <= n)%Z → ext_eq (val (pow a n)) (EFin (p ^ n));
  val_pow_inv a p :
    ext_eq (val a) (EFin p) → ¬ (p == 0)%Q →
    ext_eq (val (pow a (-1))) (EFin (round_dp DECIMAL_PLACES ROUND_HALF_UP (/ p)));
  val_absoluteValue a : ext_eq (val (absoluteValue a)) (ext_abs (val a));

  val_integerValue rm a p :
    ext_eq (val a) (EFin p) → ext_eq (val (integerValue rm a)) (EFin (inject_Z (round_int rm p)));
  val_integerValue_nonfin rm a :
    ext_is_finite (val a) = false → ext_eq (val (integerValue rm a)) (val a);
  val_decimalPlaces dp rm a p :
    ext_eq (val a) (EFin p) → ext_eq (val (decimalPlaces dp rm a)) (EFin (round_dp dp rm p));
  val_toNumber a : ext_eq (toNumber a) (ext_round64 (val a));

  eq_val a b : isEqualTo a b = ext_eqb (val a) (val b);
  lt_val a b : lt a b = ext_lt (val a) (val b);
  lte_val a b : lte a b = ext_le (val a) (val b);

  val_sum_nil : ext_eq (val (bn_sum [])) ENaN;
  val_sum_one a : ext_eq (val (bn_sum [a])) (val a);
  val_sum_snoc a l b :
    ext_eq (val (bn_sum ((a :: l) ++ [b]))) (ext_add (val (bn_sum (a :: l))) (val b));
  (** the extremum of a non-empty list without NaN is one of its elements *)
  bn_min_spec l :
    l ≠ [] → Forall (λ a, ext_is_nan (val a) = false) l →
    (∃ a, a ∈ l ∧ ext_eq (val (bn_min l)) (val a)) ∧
    Forall (λ a, ext_le (val (bn_min l)) (val a) = true) l;
  bn_max_spec l :
    l ≠ [] → Forall (λ a, ext_is_nan (val a) = false) l →
    (∃ a, a ∈ l ∧ ext_eq (val (bn_max l)) (val a)) ∧
    Forall (λ a, ext_le (val a) (val (bn_max l)) = true) l;
  bn_min_nan l : Exists (λ a, ext_is_nan (val a) = true) l → ext_eq (val (bn_min l)) ENaN;
  bn_max_nan l : Exists (λ a, ext_is_nan (val a) = true) l → ext_eq (val (bn_max l)) ENaN;
}.

Section Derived.
Context {B : BigNumberLib}.

Definition gt (a b : BN) : bool := lt b a.
Definition gte (a b : BN) : bool := lte b a.
Definition isZero (a : BN) : bool := isEqualTo a (of_Z 0).
Definition isFinite (a : BN) : bool := ext_is_finite (val a).
(** [BigNumber.min(a, b)] and [BigNumber.max(a, b)]. *)
Definition min2 (a b : BN) : BN := bn_min [a; b].
Definition max2 (a b : BN) : BN := bn_max [a; b].

(** [fin a q]: the decimal [a] is finite and denotes [q]. *)
Definition fin (a : BN) (q : Q) : Prop := ext_eq (val a) (EFin q).

#[global] Instance fin_proper a : Proper (Qeq ==> iff) (fin a).
Proof. intros p q H. unfold fin. by rewrite H. Qed.

Lemma fin_eq a p q : fin a p → (p == q)%Q → fin a q.
Proof. intros H <-. exact H. Qed.

Lemma fin_inj a p q : fin a p → fin a q → (p == q)%Q.
Proof. unfold fin. intros H1 H2. rewrite H1 in H2. by apply ext_eq_fin_iff. Qed.

Lemma fin_Z z : fin (of_Z z) (inject_Z z).
Proof. apply val_of_Z. Qed.

Lemma fin_plus a b p q : fin a p → fin b q → fin (plus a b) (p + q).
Proof. unfold fin. intros Ha Hb. rewrite val_plus, Ha, Hb. simpl. by rewrite Qred_correct. Qed.

Lemma fin_minus a b p q : fin a p → fin b q → fin (minus a b) (p - q).
Proof. unfold fin. intros Ha Hb. rewrite val_minus, Ha, Hb. simpl. by rewrite Qred_correct. Qed.

Lemma fin_times a b p q : fin a p → fin b q → fin (times a b) (p * q).
Proof. unfold fin. intros Ha Hb. rewrite val_times, Ha, Hb. simpl. by rewrite Qred_correct. Qed.

Definition rdiv (p q : Q) : Q := round_dp DECIMAL_PLACES ROUND_HALF_UP (p / q).

Lemma fin_div a b p q :
  fin a p → fin b q → ¬ (q == 0)%Q → fin (div a b) (rdiv p q).
Proof. apply val_div_fin. Qed.

Lemma fin_idiv a b p q :
  fin a p → fin b q → ¬ (q == 0)%Q →
  fin (dividedToIntegerBy a b) (inject_Z (round_int ROUND_DOWN (p / q))).
Proof. apply val_idiv. Qed.

Lemma fin_integerValue rm a p :
  fin a p → fin (integerValue rm a) (inject_Z (round_int rm p)).
Proof. apply val_integerValue. Qed.

Lemma fin_decimalPlaces dp rm a p : fin a p → fin (decimalPlaces dp rm a) (round_dp dp rm p).
Proof. apply val_decimalPlaces. Qed.

Lemma fin_absoluteValue a p : fin a p → fin (absoluteValue a) (Qabs p).
Proof. unfold fin. intros Ha. by rewrite val_absoluteValue, Ha. Qed.

Lemma fin_pow a n p : fin a p → (0 <= n)%Z → fin (pow a n) (p ^ n).
Proof. apply val_pow. Qed.

Lemma eq_fin a b p q : fin a p → fin b q → isEqualTo a b = true ↔ (p == q)%Q.
Proof.
  unfold fin. intros Ha Hb. rewrite eq_val, Ha, Hb. simpl. apply Qeq_bool_iff.
Qed.

Lemma lte_fin a b p q : fin a p → fin b q → lte a b = true ↔ (p <= q)%Q.
Proof.
  unfold fin. intros Ha Hb. rewrite lte_val, Ha, Hb. simpl. apply Qle_bool_iff.
Qed.

Lemma lt_fin a b p q : fin a p → fin b q → lt a b = true ↔ (p < q)%Q.
Proof.
  unfold fin. intros Ha Hb. rewrite lt_val, Ha, Hb. unfold ext_lt; simpl.
  rewrite andb_true_iff, negb_true_iff, Qle_bool_iff.
  rewrite <- not_true_iff_false, Qeq_bool_iff. split; [intros [? ?]; lra | split; lra].
Qed.

Lemma lte_fin_false a b p q : fin a p → fin b q → lte a b = false ↔ (q < p)%Q.
Proof.
  intros Ha Hb. rewrite <- not_true_iff_false, (lte_fin a b p q) by done. lra.
Qed.

Lemma lt_fin_false a b p q : fin a p → fin b q → lt a b = false ↔ (q <= p)%Q.
Proof.
  intros Ha Hb. rewrite <- not_true_iff_false, (lt_fin a b p q) by done. lra.
Qed.

Lemma eq_fin_false a b p q : fin a p → fin b q → isEqualTo a b = false ↔ ¬ (p == q)%Q.
Proof. intros Ha Hb. by rewrite <- not_true_iff_false, (eq_fin a b p q). Qed.

Lemma isZero_fin a p : fin a p → isZero a = true ↔ (p == 0)%Q.
Proof. intros Ha. apply (eq_fin a (of_Z 0) p 0 Ha (fin_Z 0)). Qed.

Lemma isZero_fin_false a p : fin a p → isZero a = false ↔ ¬ (p == 0)%Q.
Proof. intros Ha. by rewrite <- not_true_iff_false, (isZero_fin a p). Qed.

Lemma isEqualTo_Z a z : isEqualTo a (of_Z z) = true → fin a (inject_Z z).
Proof.
  rewrite eq_val. unfold fin. rewrite (val_of_Z z). destruct (val a); simpl; try done.
  intros H%Qeq_bool_iff. by constructor.
Qed.

Lemma isFinite_fin a p : fin a p → isFinite a = true.
Proof. unfold fin, isFinite. intros Ha. apply ext_eq_unfold in Ha. by destruct (val a). Qed.

Lemma fin_not_nan a p : fin a p → ext_is_nan (val a) = false.
Proof. unfold fin. intros Ha. apply ext_eq_unfold in Ha. by destruct (val a). Qed.

Lemma fin_max2 a b p q : fin a p → fin b q → fin (max2 a b) (Qmax p q).
Proof.
  intros Ha Hb. unfold max2.
  destruct (bn_max_spec [a; b]) as [(c & Hc & Hv) Hall]; [done| |].
  { repeat constructor; eapply fin_not_nan; eauto. }
  rewrite !Forall_cons in Hall. destruct Hall as (H1 & H2 & _).
  unfold fin in *. rewrite Ha in H1. rewrite Hb in H2.
  destruct (Q.max_spec p q) as [[? E]|[? E]]; rewrite E;
    rewrite !elem_of_cons, elem_of_nil in Hc; destruct Hc as [->|[->|[]]];
    rewrite ?Ha, ?Hb in Hv; rewrite Hv in *; simpl in *;
    rewrite ?Qle_bool_iff in *; apply ext_eq_fin_iff; lra.
Qed.

Lemma fin_min2 a b p q : fin a p → fin b q → fin (min2 a b) (Qmin p q).
Proof.
  intros Ha Hb. unfold min2.
  destruct (bn_min_spec [a; b]) as [(c & Hc & Hv) Hall]; [done| |].
  { repeat constructor; eapply fin_not_nan; eauto. }
  rewrite !Forall_cons in Hall. destruct Hall as (H1 & H2 & _).
  unfold fin in *. rewrite Ha in H1. rewrite Hb in H2.
  destruct (Q.min_spec p q) as [[? E]|[? E]]; rewrite E;
    rewrite !elem_of_cons, elem_of_nil in Hc; destruct Hc as [->|[->|[]]];
    rewrite ?Ha, ?Hb in Hv; rewrite Hv in *; simpl in *;
    rewrite ?Qle_bool_iff in *; apply ext_eq_fin_iff; lra.
Qed.

(** Integers are exact as numbers, so a decimal made from a number between two
    integers stays between them, and reads back as the number. *)
Lemma fin_of_number_read n q a b :
  is_number n → ext_eq n (EFin q) →
  (Z.abs a <= 2 ^ 53)%Z → (Z.abs b <= 2 ^ 53)%Z →
  (inject_Z a <= q <= inject_Z b)%Q →
  ∃ r, fin (of_number n) r ∧ (inject_Z a <= r <= inject_Z b)%Q ∧ ext_eq (round64 r) (EFin q).
Proof.
  intros Hn Hq Ha Hb Hr.
  assert (∀ z, (Z.abs z <= 2 ^ 53)%Z → (q == inject_Z z)%Q →
    fin (of_number n) (inject_Z z) ∧ ext_eq (round64 (inject_Z z)) (EFin q)) as Hz.
  { intros z Hz E. split; [|by rewrite E; apply round64_Z].
    apply val_of_number_Z; [done|]. by rewrite Hq, E. }
  destruct (Qeq_dec q (inject_Z a)) as [E|Na].
  { exists (inject_Z a). destruct (Hz a Ha E). split_and!; [done | lra | lra | done]. }
  destruct (Qeq_dec q (inject_Z b)) as [E|Nb].
  { exists (inject_Z b). destruct (Hz b Hb E). split_and!; [done | lra | lra | done]. }
  destruct (val_of_number_fin n q Hn Hq) as (r & Hr1 & Hr2). exists r. split; [exact Hr1|].
  split; [split|exact Hr2]; apply Qnot_lt_le; intros Hlt.
  - pose proof (round64_mono r (inject_Z a) q (inject_Z a) ltac:(lra) Hr2 (round64_Z a Ha)).
    apply Na. lra.
  - pose proof (round64_mono (inject_Z b) r (inject_Z b) q ltac:(lra) (round64_Z b Hb) Hr2).
    apply Nb. lra.
Qed.

Lemma fin_of_number_between n q a b :
  is_number n → ext_eq n (EFin q) →
  (Z.abs a <= 2 ^ 53)%Z → (Z.abs b <= 2 ^ 53)%Z →
  (inject_Z a <= q <= inject_Z b)%Q →
  ∃ r, fin (of_number n) r ∧ (inject_Z a <= r <= inject_Z b)%Q.
Proof.
  intros Hn Hq Ha Hb Hr. destruct (fin_of_number_read n q a b Hn Hq Ha Hb Hr) as (r & ? & ? & _).
  by exists r.
Qed.

(** The decimals made of [1 - s] and [1 + s], for a slippage [s] in [0, 1]. *)
Lemma fin_one_minus s q :
  ext_eq s (EFin q) → (0 <= q <= 1)%Q →
  ∃ r, fin (of_number (n_sub (n_Z 1) s)) r ∧ (0 <= r <= 1)%Q ∧ near r (1 - q).
Proof.
  intros Hs Hq. destruct (n_one_minus s q Hs Hq) as (x & Hx & Hb & Hd).
  destruct (fin_of_number_read _ x 0 1 (ext_round64_number _) Hx) as (r & Hr & Hrb & Hrd);
    [lia | lia | exact Hb |].
  exists r. split; [exact Hr|]. split; [exact Hrb|]. apply (near_of _ _ (-52)); [lia|].
  pose proof (round64_close r 0 x Hrb ltac:(lia) Hrd) as H1%Qabs_Qle_condition.
  apply Qabs_Qle_condition in Hd. apply Qabs_Qle_condition.
  change (0 - 53)%Z with (-53)%Z in H1. change (pow2 (-52)) with (pow2 (-53 + 1)).
  rewrite pow2_add. change (pow2 1) with 2%Q. lra.
Qed.

Lemma fin_one_plus s q :
  ext_eq s (EFin q) → (0 <= q <= 1)%Q →
  ∃ r, fin (of_number (n_add (n_Z 1) s)) r ∧ (1 <= r <= 2)%Q ∧ near r (1 + q).
Proof.
  intros Hs Hq. destruct (n_one_plus s q Hs Hq) as (x & Hx & Hb & Hd).
  destruct (fin_of_number_read _ x 1 2 (ext_round64_number _) Hx) as (r & Hr & Hrb & Hrd);
    [lia | lia | exact Hb |]. change (inject_Z 1) with 1%Q in Hrb. change (inject_Z 2) with 2%Q in Hrb.
  exists r. split; [exact Hr|]. split; [exact Hrb|]. apply (near_of _ _ (-51)); [lia|].
  assert (0 <= r <= pow2 1)%Q as Hr0 by (change (pow2 1) with 2%Q; lra).
  pose proof (round64_close r 1 x Hr0 ltac:(lia) Hrd) as H1%Qabs_Qle_condition.
  apply Qabs_Qle_condition in Hd. apply Qabs_Qle_condition.
  change (1 - 53)%Z with (-52)%Z in H1. change (pow2 (-51)) with (pow2 (-52 + 1)).
  rewrite pow2_add. change (pow2 1) with 2%Q. lra.
Qed.

Lemma isEqualTo_fin a b p q : fin a p → fin b q → isEqualTo a b = Qeq_bool p q.
Proof.
  intros Ha Hb. apply eq_true_iff_eq. by rewrite (eq_fin a b p q), Qeq_bool_iff.
Qed.

(** The variadic sum of finite decimals. *)
Lemma fin_bn_sum l qs : l ≠ [] → Forall2 fin l qs → fin (bn_sum l) (Qsum qs).
Proof.
  intros Hne H. destruct l as [|a l]; [done|]. clear Hne.
  revert qs H. induction l as [|b l IH] using rev_ind; intros qs H.
  - inversion H as [|? q ? ? Hq Hr]; subst. inversion Hr; subst.
    unfold fin in *. rewrite val_sum_one, Hq. apply ext_eq_fin_iff.
    change (Qsum [q]) with (q + 0)%Q. lra.
  - rewrite app_comm_cons in H. apply Forall2_app_inv_l in H as (qs1 & qs2 & H1 & H2 & ->).
    inversion H2 as [|? q ? ? Hq Hr]; subst. inversion Hr; subst.
    specialize (IH _ H1). unfold fin in *. rewrite app_comm_cons, val_sum_snoc, IH, Hq.
    simpl. apply ext_eq_fin_iff. rewrite Qred_correct, Qsum_app.
    change (Qsum [q]) with (q + 0)%Q. lra.
Qed.
(** The amounts of an insertion-ordered map sum to [x]; updating one entry by
    [y] moves the sum by [y]. *)
Definition assoc_sum {K V} (amount : V → BN) (m : list (K * V)) (x : Q) : Prop :=
  ∃ qs, Forall2 (λ e q, fin (amount e.2) q) m qs ∧ (Qsum qs == x)%Q.

Lemma assoc_sum_nil {K V} (amount : V → BN) : assoc_sum amount ([] : list (K * V)) 0.
Proof. exists []. split; [constructor | reflexivity]. Qed.

Lemma assoc_sum_eq {K V} (amount : V → BN) (m : list (K * V)) x y :
  assoc_sum amount m x → (x == y)%Q → assoc_sum amount m y.
Proof. intros (qs & Hqs & Hx) E. exists qs. split; [done|]. by rewrite Hx. Qed.

Lemma assoc_update_sum {K V} `{EqDecision K} (amount : V → BN) (m : list (K * V)) k f x y :
  assoc_sum amount m x → fin (amount (f None)) y →
  (∀ v q, fin (amount v) q → fin (amount (f (Some v))) (q + y)) →
  assoc_sum amount (assoc_update m k f) (x + y).
Proof.
  intros (qs & Hqs & Hx) Hn Hs. revert x Hx. induction Hqs as [|[k' w] q m qs Hw Hqs IH]; intros x Hx.
  - exists [y]. split; [by repeat constructor|].
    change (Qsum []) with 0%Q in Hx. change (Qsum [y]) with (y + 0)%Q. lra.
  - rewrite Qsum_cons in Hx. simpl. case_if.
    + exists ((q + y)%Q :: qs). split; [constructor; [by apply Hs | done]|].
      rewrite Qsum_cons. lra.
    + destruct (IH (Qsum qs)) as (qs' & Hqs' & Hs'); [reflexivity|].
      exists (q :: qs'). split; [by constructor|]. rewrite Qsum_cons. lra.
Qed.
End Derived.

#[export] Hint Resolve fin_Z fin_plus fin_minus fin_times fin_div fin_idiv fin_integerValue
  fin_absoluteValue fin_max2 fin_min2 : amounts.

(** ** A concrete implementation, for evaluating the model: a decimal is its
    value, with positive zeros and 78 decimal places (the configuration of
    [@0x/utils]). *)
Module Concrete.

Definition q_div (x y : ext) : ext :=
  match x, y with
  | ENaN, _ | _, ENaN => ENaN
  | EFin p, EFin q =>
      if Qeq_bool q 0 then
        (if Qeq_bool p 0 then ENaN else EInf (Qlt_bool p 0))
      else EFin (Qred (round_dp 78 ROUND_HALF_UP (p / q)))
  | EFin _, EInf _ => EFin 0
  | EInf s, EFin q => EInf (xorb s (Qlt_bool q 0))
  | EInf _, EInf _ => ENaN
  end.

Definition q_negative (x : ext) : bool :=
  match x with ENaN => false | EInf s => s | EFin p => Qlt_bool p 0 end.

Definition q_idiv (x y : ext) : ext :=
  match x, y with
  | EFin p, EFin q =>
      if Qeq_bool q 0 then q_div x y
      else EFin (inject_Z (round_int ROUND_DOWN (p / q)))
  | _, _ => q_div x y
  end.

Definition q_pow (x : ext) (n : Z) : ext :=
  match x with
  | EFin p =>
      if Z.leb 0 n then EFin (Qred (p ^ n))
      else q_div (EFin 1) (EFin (p ^ (- n)))
  | _ => x
  end.

Definition q_round (rm : rounding_mode) (x : ext) : ext :=
  match x with EFin p => EFin (inject_Z (round_int rm p)) | _ => x end.

Definition q_decimalPlaces (dp : nat) (rm : rounding_mode) (x : ext) : ext :=
  match x with EFin p => EFin (Qred (round_dp dp rm p)) | _ => x end.

Definition pick (better : ext → ext → bool) (m b : ext) : ext :=
  if ext_is_nan m || ext_is_nan b then ENaN else if better b m then b else m.

Definition extremum (better : ext → ext → bool) (l : list ext) : ext :=
  match l with [] => ENaN | a :: l' => fold_left (pick better) l' a end.

Definition q_sum (l : list ext) : ext :=
  match l with [] => ENaN | a :: l' => fold_left ext_add l' a end.

Lemma ext_le_refl x : ext_is_nan x = false → ext_le x x = true.
Proof. destruct x as [|[]|p]; simpl; try done. intros _. apply Qle_bool_iff. lra. Qed.

Lemma ext_le_trans x y z : ext_le x y = true → ext_le y z = true → ext_le x z = true.
Proof.
  destruct x as [|[]|p], y as [|[]|q], z as [|[]|r]; simpl; try done.
  rewrite !Qle_bool_iff. lra.
Qed.

Lemma ext_lt_false x y :
  ext_is_nan x = false → ext_is_nan y = false → ext_lt x y = false → ext_le y x = true.
Proof.
  unfold ext_lt. destruct x as [|[]|p], y as [|[]|q]; simpl; try done. intros _ _.
  destruct (Qle_bool p q) eqn:E; simpl.
  - rewrite negb_false_iff, Qeq_bool_iff, Qle_bool_iff. lra.
  - intros _. apply Qle_bool_false in E. apply Qle_bool_iff. lra.
Qed.

Lemma ext_lt_le x y : ext_lt x y = true → ext_le x y = true.
Proof. unfold ext_lt. by intros [? _]%andb_true_iff. Qed.

Section Extremum.
  Variable better : ext → ext → bool.
  Variable le : ext → ext → bool.
  Hypothesis le_refl : ∀ x, ext_is_nan x = false → le x x = true.
  Hypothesis le_trans : ∀ x y z, le x y = true → le y z = true → le x z = true.
  Hypothesis better_le : ∀ x y, better x y = true → le x y = true.
  Hypothesis better_false :
    ∀ x y, ext_is_nan x = false → ext_is_nan y = false → better x y = false → le y x = true.

Lemma pick_fold_spec l a :
    Forall (λ x, ext_is_nan x = false) (a :: l) →
    fold_left (pick better) l a ∈ a :: l ∧
    Forall (λ x, le (fold_left (pick better) l a) x = true) (a :: l).
  Proof using All.
    revert a. induction l as [|b l IH]; intros a Hn.
    - rewrite Forall_cons in Hn. destruct Hn as [Ha _].
      split; [simpl; set_solver|]. repeat constructor. simpl. by apply le_refl.
    - rewrite !Forall_cons in Hn. destruct Hn as (Ha & Hb & Hl). simpl.
      destruct (IH (pick better a b)) as [Hin Hall].
      { apply Forall_cons. split; [|done]. unfold pick. rewrite Ha, Hb. simpl.
        by case_if. }
      rewrite Forall_cons in Hall. destruct Hall as [Hm Hall].
      assert (le (pick better a b) a = true ∧ le (pick better a b) b = true
              ∧ (pick better a b = a ∨ pick better a b = b)) as (H1 & H2 & H3).
      { unfold pick. rewrite Ha, Hb. simpl. case_if; auto. }
      split.
      + rewrite !elem_of_cons. apply elem_of_cons in Hin as [-> | Hin]; [|auto].
        destruct H3 as [-> | ->]; auto.
      + rewrite !Forall_cons. split_and!; eauto.
  Qed.

Lemma extremum_spec l :
    l ≠ [] → Forall (λ x, ext_is_nan x = false) l →
    (∃ a, a ∈ l ∧ ext_eq (extremum better l) a) ∧
    Forall (λ a, le (extremum better l) a = true) l.
  Proof using All.
    intros Hne Hn. destruct l as [|a l]; [done|].
    destruct (pick_fold_spec l a Hn) as [? ?]. split; [|done].
    eexists. split; [done | reflexivity].
  Qed.
End Extremum.

Lemma pick_nan_l better l : fold_left (pick better) l ENaN = ENaN.
Proof. induction l; simpl; done. Qed.

Lemma extremum_nan better l :
  Exists (λ a, ext_is_nan a = true) l → ext_eq (extremum better l) ENaN.
Proof.
  assert (∀ l a, ext_is_nan a = true ∨ Exists (λ x, ext_is_nan x = true) l →
    fold_left (pick better) l a = ENaN) as H.
  { clear l. induction l as [|b l IH]; intros a [Ha|He]; simpl.
    - by destruct a.
    - by inversion He.
    - destruct a; try done. apply pick_nan_l.
    - apply IH. apply Exists_cons in He as [Hb|He]; [|by right].
      left. unfold pick. rewrite Hb, orb_true_r. done. }
  intros He. destruct l as [|a l]; [by inversion He|].
  apply Exists_cons in He as [Ha|He]; simpl; rewrite H; auto; reflexivity.
Qed.

Lemma Qeq_bool_false x y : ¬ (x == y)%Q → Qeq_bool x y = false.
Proof. intros H. apply not_true_iff_false. by rewrite Qeq_bool_iff. Qed.

#[export] Program Instance QBigNumber : BigNumberLib := {|
  BN := ext;
  DECIMAL_PLACES := 78;
  val := id;
  isNegative := q_negative;
  of_Z z := EFin (inject_Z z);
  of_number := id;
  plus := ext_add;
  minus := ext_sub;
  times := ext_mul;
  div := q_div;
  dividedToIntegerBy := q_idiv;
  pow := q_pow;
  absoluteValue := ext_abs;
  integerValue := q_round;
  decimalPlaces := q_decimalPlaces;
  toNumber := ext_round64;
  isEqualTo := ext_eqb;
  lt := ext_lt;
  lte := ext_le;
  bn_sum := q_sum;
  bn_min := extremum ext_lt;
  bn_max := extremum (λ x y, ext_lt y x);
|}.
Solve All Obligations with (unfold id; try done; try reflexivity).
Next Obligation.
  unfold id. intros n q Hn Hq. exists q. split; [done|]. unfold is_number in Hn.
  rewrite Hq in Hn. exact Hn.
Qed.
Next Obligation.
  unfold id. intros a b p q Ha Hb Hq. inversion Ha; inversion Hb; subst; simpl.
  match goal with H : (_ == q)%Q |- _ => rename H into Eq end.
  match goal with H : (_ == p)%Q |- _ => rename H into Ep end.
  rewrite Qeq_bool_false by (by rewrite Eq).
  apply ext_eq_fin_iff. rewrite Qred_correct. by rewrite Ep, Eq.
Qed.
Next Obligation.
  unfold id. intros a b p q Ha Hb Hq Hp. inversion Ha; inversion Hb; subst; simpl.
  match goal with H : (_ == q)%Q |- _ => rename H into Eq end.
  match goal with H : (_ == p)%Q |- _ => rename H into Ep end.
  rewrite (proj2 (Qeq_bool_iff _ _)) by (by rewrite Eq).
  rewrite Qeq_bool_false by (by rewrite Ep).
  replace (Qlt_bool p1 0) with false; [by rewrite xorb_false_r|].
  symmetry. apply Qlt_bool_false. lra.
Qed.
Next Obligation.
  unfold id. intros a b p q Ha Hb Hq Hp. inversion Ha; inversion Hb; subst; simpl.
  match goal with H : (_ == q)%Q |- _ => rename H into Eq end.
  match goal with H : (_ == p)%Q |- _ => rename H into Ep end.
  rewrite (proj2 (Qeq_bool_iff _ _)) by (by rewrite Eq).
  rewrite (proj2 (Qeq_bool_iff _ _)) by (by rewrite Ep). reflexivity.
Qed.
Next Obligation.
  unfold id. intros a b [-> | ->]; simpl; [reflexivity|]. destruct a; reflexivity.
Qed.
Next Obligation.
  unfold id. intros a p Ha _. inversion Ha; subst; simpl.
  match goal with H : (_ == p)%Q |- _ => by rewrite H end.
Qed.
Next Obligation.
  intros z Hz. simpl. apply Qlt_bool_false. change 0%Q with (inject_Z 0).
  by rewrite <- Zle_Qle.
Qed.
Next Obligation.
  unfold id. intros a b p q Ha Hb Hq. inversion Ha; inversion Hb; subst; simpl.
  match goal with H : (_ == q)%Q |- _ => rename H into Eq end.
  match goal with H : (_ == p)%Q |- _ => rename H into Ep end.
  rewrite Qeq_bool_false by (by rewrite Eq).
  apply ext_eq_fin_iff. rewrite (round_int_proper ROUND_DOWN _ (p / q)%Q); [reflexivity|].
  by rewrite Ep, Eq.
Qed.
Next Obligation.
  unfold id. intros a n p Ha Hn. inversion Ha; subst. unfold q_pow.
  rewrite (proj2 (Z.leb_le 0 n) Hn). apply ext_eq_fin_iff. rewrite Qred_correct.
  match goal with H : (_ == p)%Q |- _ => by rewrite H end.
Qed.
Next Obligation.
  unfold id. intros a p Ha Hp. inversion Ha; subst. simpl.
  match goal with H : (_ == p)%Q |- _ => rename H into Ep end.
  rewrite Qeq_bool_false by (by rewrite Ep). apply ext_eq_fin_iff.
  rewrite Qred_correct, Ep. unfold Qdiv. by rewrite Qmult_1_l.
Qed.
Next Obligation.
  unfold id. intros rm a p Ha. inversion Ha; subst. simpl. apply ext_eq_fin_iff.
  match goal with H : (_ == p)%Q |- _ => by rewrite H end.
Qed.
Next Obligation. unfold id. intros rm [] H; done || reflexivity. Qed.
Next Obligation.
  unfold id. intros dp rm a p Ha. inversion Ha; subst. simpl. apply ext_eq_fin_iff.
  rewrite Qred_correct. match goal with H : (_ == p)%Q |- _ => by rewrite H end.
Qed.
Next Obligation.
  unfold id. intros a l b. simpl. by rewrite fold_left_app.
Qed.
Next Obligation.
  unfold id. intros l Hne Hn.
  apply (extremum_spec ext_lt ext_le ext_le_refl ext_le_trans); [| |done..].
  - apply ext_lt_le.
  - intros x y Hx Hy. by apply ext_lt_false.
Qed.
Next Obligation.
  unfold id. intros l Hne Hn.
  apply (extremum_spec (λ x y, ext_lt y x) (λ x y, ext_le y x)); [| | | |done..].
  - apply ext_le_refl.
  - intros x y z H1 H2. by eapply ext_le_trans.
  - intros x y. apply ext_lt_le.
  - intros x y Hx Hy. by apply ext_lt_false.
Qed.
Next Obligation. apply extremum_nan. Qed.
Next Obligation. apply extremum_nan. Qed.
End Concrete.



(** Evaluate a closed statement [fin a q] of the concrete library. *)
Ltac fin_now := vm_compute; constructor; reflexivity.
