(* ===== verification/Types.v ===== *)
(** * Data of the asset swapper

    The types of [asset-swapper/types.ts] and of
    [market_operation_utils/types.ts]: liquidity sources with their bit flags,
    fill data, fills, samples, native orders and optimized orders. *)

From S2P Require Import Prelude JsNumber BigNum.

Module ERC20BridgeSource.

(** The enumeration [ERC20BridgeSource], in declaration order. *)
Inductive t : Type :=
| Native | Uniswap | UniswapV2 | Curve | Balancer | BalancerV2 | Bancor
| MakerPsm | MStable | Mooniswap | MultiHop | Shell | SushiSwap | Dodo
| DodoV2 | CryptoCom | KyberDmm | Component | Saddle | UniswapV3 | CurveV2
| Lido | ShibaSwap | AaveV2 | AaveV3 | Compound | Synapse | BancorV3
| Synthetix | WOOFi | PancakeSwap | PancakeSwapV2 | BiSwap | MDex
| KnightSwap | BakerySwap | Nerve | Belt | Ellipsis | ApeSwap | ACryptos
| QuickSwap | Dfyn | WaultSwap | FirebirdOneSwap | IronSwap | MeshSwap
| Dystopia | Pangolin | TraderJoe | Platypus | GMX | UbeSwap | MobiusMoney
| SpiritSwap | SpookySwap | Beethovenx | MorpheusSwap | Yoshi | Velodrome.

(** [Object.values(ERC20BridgeSource)]. *)
Definition values : list t :=
  [Native; Uniswap; UniswapV2; Curve; Balancer; BalancerV2; Bancor;
   MakerPsm; MStable; Mooniswap; MultiHop; Shell; SushiSwap; Dodo; DodoV2;
   CryptoCom; KyberDmm; Component; Saddle; UniswapV3; CurveV2; Lido;
   ShibaSwap; AaveV2; AaveV3; Compound; Synapse; BancorV3; Synthetix;
   WOOFi; PancakeSwap; PancakeSwapV2; BiSwap; MDex; KnightSwap;
   BakerySwap; Nerve; Belt; Ellipsis; ApeSwap; ACryptos; QuickSwap; Dfyn;
   WaultSwap; FirebirdOneSwap; IronSwap; MeshSwap; Dystopia; Pangolin;
   TraderJoe; Platypus; GMX; UbeSwap; MobiusMoney; SpiritSwap; SpookySwap;
   Beethovenx; MorpheusSwap; Yoshi; Velodrome].

(** The string value of a member. *)
Definition to_string (s : t) : string :=
  match s with
  | Native => "Native"
  | Uniswap => "Uniswap"
  | UniswapV2 => "Uniswap_V2"
  | Curve => "Curve"
  | Balancer => "Balancer"
  | BalancerV2 => "Balancer_V2"
  | Bancor => "Bancor"
  | MakerPsm => "MakerPsm"
  | MStable => "mStable"
  | Mooniswap => "Mooniswap"
  | MultiHop => "MultiHop"
  | Shell => "Shell"
  | SushiSwap => "SushiSwap"
  | Dodo => "DODO"
  | DodoV2 => "DODO_V2"
  | CryptoCom => "CryptoCom"
  | KyberDmm => "KyberDMM"
  | Component => "Component"
  | Saddle => "Saddle"
  | UniswapV3 => "Uniswap_V3"
  | CurveV2 => "Curve_V2"
  | Lido => "Lido"
  | ShibaSwap => "ShibaSwap"
  | AaveV2 => "Aave_V2"
  | AaveV3 => "Aave_V3"
  | Compound => "Compound"
  | Synapse => "Synapse"
  | BancorV3 => "BancorV3"
  | Synthetix => "Synthetix"
  | WOOFi => "WOOFi"
  | PancakeSwap => "PancakeSwap"
  | PancakeSwapV2 => "PancakeSwap_V2"
  | BiSwap => "BiSwap"
  | MDex => "MDex"
  | KnightSwap => "KnightSwap"
  | BakerySwap => "BakerySwap"
  | Nerve => "Nerve"
  | Belt => "Belt"
  | Ellipsis => "Ellipsis"
  | ApeSwap => "ApeSwap"
  | ACryptos => "ACryptoS"
  | QuickSwap => "QuickSwap"
  | Dfyn => "Dfyn"
  | WaultSwap => "WaultSwap"
  | FirebirdOneSwap => "FirebirdOneSwap"
  | IronSwap => "IronSwap"
  | MeshSwap => "MeshSwap"
  | Dystopia => "Dystopia"
  | Pangolin => "Pangolin"
  | TraderJoe => "TraderJoe"
  | Platypus => "Platypus"
  | GMX => "GMX"
  | UbeSwap => "UbeSwap"
  | MobiusMoney => "MobiusMoney"
  | SpiritSwap => "SpiritSwap"
  | SpookySwap => "SpookySwap"
  | Beethovenx => "Beethovenx"
  | MorpheusSwap => "MorpheusSwap"
  | Yoshi => "Yoshi"
  | Velodrome => "Velodrome"
  end.

(** Position in the enumeration: the decidable equality goes through it. *)
Definition index (s : t) : nat :=
  match s with
  | Native => 0 | Uniswap => 1 | UniswapV2 => 2 | Curve => 3 | Balancer => 4
  | BalancerV2 => 5 | Bancor => 6 | MakerPsm => 7 | MStable => 8
  | Mooniswap => 9 | MultiHop => 10 | Shell => 11 | SushiSwap => 12
  | Dodo => 13 | DodoV2 => 14 | CryptoCom => 15 | KyberDmm => 16
  | Component => 17 | Saddle => 18 | UniswapV3 => 19 | CurveV2 => 20
  | Lido => 21 | ShibaSwap => 22 | AaveV2 => 23 | AaveV3 => 24
  | Compound => 25 | Synapse => 26 | BancorV3 => 27 | Synthetix => 28
  | WOOFi => 29 | PancakeSwap => 30 | PancakeSwapV2 => 31 | BiSwap => 32
  | MDex => 33 | KnightSwap => 34 | BakerySwap => 35 | Nerve => 36
  | Belt => 37 | Ellipsis => 38 | ApeSwap => 39 | ACryptos => 40
  | QuickSwap => 41 | Dfyn => 42 | WaultSwap => 43 | FirebirdOneSwap => 44
  | IronSwap => 45 | MeshSwap => 46 | Dystopia => 47 | Pangolin => 48
  | TraderJoe => 49 | Platypus => 50 | GMX => 51 | UbeSwap => 52
  | MobiusMoney => 53 | SpiritSwap => 54 | SpookySwap => 55
  | Beethovenx => 56 | MorpheusSwap => 57 | Yoshi => 58 | Velodrome => 59
  end.

Lemma values_index s : values !! index s = Some s.
Proof. by destruct s. Qed.

Lemma index_inj s1 s2 : index s1 = index s2 → s1 = s2.
Proof.
  intros E. pose proof (values_index s1) as H1. rewrite E, values_index in H1. congruence.
Qed.

#[global] Instance t_eq_dec : EqDecision t.
Proof.
  refine (λ s1 s2, match decide (index s1 = index s2) with
                   | left E => left (index_inj _ _ E)
                   | right N => right _
                   end).
  congruence.
Defined.

#[global] Instance t_countable : Countable t.
Proof.
  refine (inj_countable index (λ i, values !! i) _). apply values_index.
Defined.

Lemma elem_of_values s : s ∈ values.
Proof. apply list_elem_of_lookup. eexists. apply values_index. Qed.

Lemma values_NoDup : NoDup values.
Proof. apply (bool_decide_unpack _). vm_compute. exact I. Qed.

Lemma to_string_inj s1 s2 : to_string s1 = to_string s2 → s1 = s2.
Proof.
  assert (∀ s, list_find (λ s', to_string s = to_string s') values = Some (index s, s)) as H.
  { intros s. by destruct s. }
  intros E. pose proof (H s1) as H1. rewrite E, H in H1. congruence.
Qed.
End ERC20BridgeSource.

Notation ERC20BridgeSource := ERC20BridgeSource.t.

(** The chains of [@0x/contract-addresses] the repository names. *)
Module ChainId.
Inductive t : Type :=
| Mainnet | Goerli | Ganache | BSC | Polygon | PolygonMumbai | Avalanche | Fantom
| Celo | Optimism | Arbitrum.
#[global] Instance t_eq_dec : EqDecision t.
Proof. solve_decision. Defined.
End ChainId.
Notation ChainId := ChainId.t.

(** The two market operations. *)
Inductive MarketOperation : Type := Sell | Buy.
#[global] Instance MarketOperation_eq_dec : EqDecision MarketOperation.
Proof. solve_decision. Defined.

Definition isSell (side : MarketOperation) : bool :=
  match side with Sell => true | Buy => false end.

Module FillQuoteTransformerOrderType.
(** The order kinds of the FillQuoteTransformer. *)
Inductive t : Type := Bridge | Limit | Rfq | Otc.
#[global] Instance t_eq_dec : EqDecision t.
Proof. solve_decision. Defined.
End FillQuoteTransformerOrderType.
Notation FillQuoteTransformerOrderType := FillQuoteTransformerOrderType.t.

Record Signature : Type := { sig_v : Z; sig_r : string; sig_s : string }.
#[global] Instance Signature_eq_dec : EqDecision Signature.
Proof. solve_decision. Defined.

(** ** Bit flags of the sources ([SOURCE_FLAGS]). *)
Definition source_flag (s : ERC20BridgeSource) : Z :=
  match s with
  | ERC20BridgeSource.Native => 0
  | _ => Z.shiftl 1 (Z.of_nat (3 + ERC20BridgeSource.index s))
  end.
Definition RfqOrder_flag : Z := Z.shiftl 1 0.
Definition LimitOrder_flag : Z := Z.shiftl 1 1.
Definition OtcOrder_flag : Z := Z.shiftl 1 2.

Lemma testbit_shiftl_1 i n : (0 <= i)%Z → Z.testbit (Z.shiftl 1 i) n = Z.eqb n i.
Proof.
  intros Hi. rewrite Z.shiftl_1_l, Z.pow2_bits_eqb by done. apply Z.eqb_sym.
Qed.

Lemma source_flag_testbit s s' :
  s' ≠ ERC20BridgeSource.Native →
  Z.testbit (source_flag s) (Z.of_nat (3 + ERC20BridgeSource.index s'))
  = bool_decide (s = s').
Proof.
  intros Hs'. destruct (decide (s = ERC20BridgeSource.Native)) as [->|Hs].
  - rewrite bool_decide_eq_false_2 by done. apply Z.testbit_0_l.
  - assert (source_flag s = Z.shiftl 1 (Z.of_nat (3 + ERC20BridgeSource.index s))) as ->
      by (by destruct s).
    rewrite testbit_shiftl_1 by lia. apply eq_true_iff_eq.
    rewrite Z.eqb_eq, bool_decide_eq_true. split; [|by intros ->].
    intros E. apply ERC20BridgeSource.index_inj. lia.
Qed.

Lemma native_flag_testbit i s' :
  (0 <= i < 3)%Z →
  Z.testbit (Z.shiftl 1 i) (Z.of_nat (3 + ERC20BridgeSource.index s')) = false.
Proof. intros Hi. rewrite testbit_shiftl_1 by lia. apply Z.eqb_neq. lia. Qed.

Section WithBigNumber.
Context {B : BigNumberLib}.

(** The fields of a 0x order (limit, RFQ or OTC) the repository reads.  Only
    limit orders carry a taker token fee. *)
Record OrderFields : Type := {
  order_makerToken : string;
  order_takerToken : string;
  order_makerAmount : BN;
  order_takerAmount : BN;
  order_takerTokenFeeAmount : BN;
  order_maker : string;
  order_expiry : BN;
}.

(** [SignedNativeOrder & NativeOrderFillableAmountFields]. *)
Record NativeOrderWithFillableAmounts : Type := {
  native_order : OrderFields;
  native_type : FillQuoteTransformerOrderType;
  native_signature : Signature;
  fillableMakerAmount : BN;
  fillableTakerAmount : BN;
  fillableTakerFeeAmount : BN;
}.

Record CurveInfo : Type := {
  curve_exchangeFunctionSelector : string;
  curve_sellQuoteFunctionSelector : string;
  curve_buyQuoteFunctionSelector : string;
  curve_poolAddress : string;
  curve_tokens : list string;
  curve_metaTokens : option (list string);
  curve_gasSchedule : number;
}.

Record BalancerBatchSwapStep : Type := {
  step_poolId : string;
  step_assetInIndex : Z;
  step_assetOutIndex : Z;
  step_amount : BN;
  step_userData : string;
}.

Record PathAmount : Type := {
  pa_path : string;
  pa_inputAmount : BN;
  pa_gasUsed : number;
}.

Record AaveV3L2EncodedParameter : Type := {
  l2_inputAmount : BN;
  l2_parameter : string;
}.

(** The union of the [FillData] interfaces.  The fields that the samplers leave
    out are options: [None] is [undefined]. *)
Inductive FillData : Type :=
| FDEmpty
| FDNative (o : NativeOrderWithFillableAmounts)
| FDCurve (fromTokenIdx toTokenIdx : Z) (pool : CurveInfo)
| FDBalancer (poolAddress : string)
| FDBalancerV2Batch (vault : string) (swapSteps : list BalancerBatchSwapStep)
    (assets : list string) (chainId : ChainId)
| FDUniswapV2 (tokenAddressPath : list string) (router : string)
| FDShell (poolAddress : string)
| FDBancor (path : list string) (networkAddress : string)
| FDMooniswap (poolAddress : string)
| FDDodo (poolAddress : string) (isSellBase : bool) (helperAddress : option string)
| FDGenericRouter (router : string)
| FDMultiHop (firstHopSource secondHopSource : option (ERC20BridgeSource * FillData))
    (intermediateToken : string)
| FDMakerPsm (psmAddress gemTokenAddress takerToken : string) (isSellOperation : bool)
| FDTickDEXMultiPath (tokenAddressPath : list string) (router : string)
    (pathAmounts : list PathAmount)
| FDFinalTickDEXMultiPath (router : string) (tokenAddressPath : list string)
    (path : string) (gasUsed : number)
| FDKyberDmm (tokenAddressPath : list string) (router : string) (poolsPath : list string)
| FDLido (stEthTokenAddress wstEthTokenAddress takerToken makerToken : string)
| FDAaveV2 (lendingPool aToken : string) (underlyingToken takerToken : option string)
| FDAaveV3 (lendingPool aToken : string) (underlyingToken takerToken : option string)
    (l2EncodedParams : list AaveV3L2EncodedParameter)
| FDCompound (cToken takerToken makerToken : string)
| FDGMX (router reader vault : string) (tokenAddressPath : list string)
| FDPlatypus (router : string) (pool tokenAddressPath : list string)
| FDWOOFi (router takerToken makerToken : string) (chainId : ChainId)
| FDVelodrome (router : string) (stable : bool)
| FDSynthetix (synthetix takerTokenSymbolBytes32 makerTokenSymbolBytes32 : string)
    (chainId : ChainId).

(** A sample of the sampler contract. *)
Record DexSample : Type := {
  sample_source : ERC20BridgeSource;
  sample_fillData : FillData;
  sample_input : BN;
  sample_output : BN;
}.

Record FeeInfo : Type := { est_gas : number; est_fee : BN }.
Definition FeeEstimate : Type := FillData → FeeInfo.
Definition FeeSchedule : Type := ERC20BridgeSource → FeeEstimate.
(** A gas estimate reads fields of the fill data: it throws on data of another
    shape. *)
Definition GasEstimate : Type := FillData → result number.
Definition GasSchedule : Type := ERC20BridgeSource → GasEstimate.
Definition ExchangeProxyOverhead : Type := Z → BN.

Record FillBase : Type := {
  base_input : BN;
  base_output : BN;
  base_adjustedOutput : BN;
  base_gas : number;
}.

(** A node on a fill path. *)
Record Fill : Type := {
  fill_source : ERC20BridgeSource;
  fill_type : FillQuoteTransformerOrderType;
  fill_fillData : FillData;
  fill_sourcePathId : string;
  fill_flags : Z;
  fill_input : BN;
  fill_output : BN;
  fill_adjustedOutput : BN;
  fill_gas : number;
}.

(** An optimized order, bridge or native. *)
Record OptimizedOrder : Type := {
  opt_source : ERC20BridgeSource;
  opt_fillData : FillData;
  opt_type : FillQuoteTransformerOrderType;
  opt_makerToken : string;
  opt_takerToken : string;
  opt_makerAmount : BN;
  opt_takerAmount : BN;
  opt_fill : FillBase;
}.

Record TwoHopOrder : Type := {
  firstHopOrder : OptimizedOrder;
  secondHopOrder : OptimizedOrder;
}.

Record OptimizedOrdersByType : Type := {
  nativeOrders : list OptimizedOrder;
  twoHopOrders : list TwoHopOrder;
  bridgeOrders : list OptimizedOrder;
}.

Record PathContext : Type := {
  ctx_side : MarketOperation;
  ctx_inputToken : string;
  ctx_outputToken : string;
}.

(** [ZERO_AMOUNT] and [MAX_UINT256]. *)
Definition ZERO_AMOUNT : BN := of_Z 0.
Definition MAX_UINT256 : BN := minus (pow (of_Z 2) 256) (of_Z 1).

Lemma fin_ZERO : fin ZERO_AMOUNT 0.
Proof. apply (fin_Z 0). Qed.

Lemma fin_MAX_UINT256 : fin MAX_UINT256 (inject_Z (2 ^ 256 - 1)).
Proof.
  unfold MAX_UINT256. eapply fin_eq.
  - apply fin_minus; [apply fin_pow; [apply (fin_Z 2) | lia] | apply (fin_Z 1)].
  - rewrite <- Zpower_Qpower by lia. unfold Z.sub. by rewrite inject_Z_plus.
Qed.
End WithBigNumber.

#[export] Hint Resolve fin_ZERO fin_MAX_UINT256 : amounts.
