(* ===== verification/SourceFilters.v ===== *)
(** * Source filters ([market_operation_utils/source_filters.ts])

    The immutable filter of liquidity sources: a list of valid sources (empty
    means "all"), a list of excluded ones and a list of included ones (empty
    means "no restriction").  Every builder method goes through the
    constructor, which removes duplicates. *)

From S2P Require Import Prelude Types.

Module SourceFilters.

Record t : Type := make {
  _validSources : list ERC20BridgeSource;
  _excludedSources : list ERC20BridgeSource;
  _includedSources : list ERC20BridgeSource;
}.

(** [constructor(validSources, excludedSources, includedSources)]. *)
Definition new (validSources excludedSources includedSources : list ERC20BridgeSource) : t :=
  {| _validSources := uniq validSources;
     _excludedSources := uniq excludedSources;
     _includedSources := uniq includedSources |}.

Definition empty : t := new [] [] [].

Definition all : t := new ERC20BridgeSource.values [] [].

Definition non_empty {A} (l : list A) : bool := match l with [] => false | _ => true end.

Definition isAllowed (f : t) (source : ERC20BridgeSource) : bool :=
  if non_empty (_validSources f) && negb (includes (_validSources f) source) then false
  else if includes (_excludedSources f) source then false
  else if non_empty (_includedSources f) && negb (includes (_includedSources f) source) then false
  else true.

Definition areAnyAllowed (f : t) (sources : list ERC20BridgeSource) : bool :=
  existsb (isAllowed f) sources.

Definition areAllAllowed (f : t) (sources : list ERC20BridgeSource) : bool :=
  forallb (isAllowed f) sources.

Definition getAllowed (f : t) (sources : list ERC20BridgeSource) : list ERC20BridgeSource :=
  bfilter (isAllowed f) sources.

(** The getter [sources]. *)
Definition sources (f : t) : list ERC20BridgeSource :=
  bfilter (isAllowed f) (_validSources f).

(** A single source argument is passed as a singleton list. *)
Definition exclude (f : t) (sources : list ERC20BridgeSource) : t :=
  new (_validSources f) (_excludedSources f ++ sources) (_includedSources f).

Definition validate (f : t) (sources : list ERC20BridgeSource) : t :=
  new (_validSources f ++ sources) (_excludedSources f) (_includedSources f).

Definition include (f : t) (sources : list ERC20BridgeSource) : t :=
  new (_validSources f) (_excludedSources f) (_includedSources f ++ sources).

Definition merge (f other : t) : t :=
  let validSources :=
    if negb (non_empty (_validSources f)) then _validSources other
    else if non_empty (_validSources other)
         then bfilter (includes (_validSources other)) (_validSources f)
         else _validSources f in
  new validSources
    (_excludedSources f ++ _excludedSources other)
    (_includedSources f ++ _includedSources other).

(** ** Lemmas *)

(** [s] passes the optional white list [l]. *)
Definition passes (l : list ERC20BridgeSource) (s : ERC20BridgeSource) : Prop :=
  l = [] ∨ s ∈ l.

Lemma passes_uniq l s : passes (uniq l) s ↔ passes l s.
Proof. unfold passes. by rewrite uniq_nil, elem_of_uniq. Qed.

Lemma non_empty_true {A} (l : list A) : non_empty l = true ↔ l ≠ [].
Proof. by destruct l. Qed.

Lemma whitelist_test l s :
  non_empty l && negb (includes l s) = false ↔ passes l s.
Proof.
  unfold passes. rewrite andb_false_iff, negb_false_iff, includes_true.
  destruct l; simpl; naive_solver.
Qed.

Lemma isAllowed_iff f s :
  isAllowed f s = true ↔
  passes (_validSources f) s ∧ s ∉ _excludedSources f ∧ passes (_includedSources f) s.
Proof.
  rewrite <- !whitelist_test, <- includes_false. unfold isAllowed.
  repeat case_if; naive_solver.
Qed.

Lemma isAllowed_new v e i s :
  isAllowed (new v e i) s = true ↔ passes v s ∧ s ∉ e ∧ passes i s.
Proof. rewrite isAllowed_iff. simpl. by rewrite !passes_uniq, elem_of_uniq. Qed.

Lemma sources_spec f s :
  s ∈ sources f ↔ s ∈ _validSources f ∧ isAllowed f s = true.
Proof. apply elem_of_bfilter. Qed.

(** The valid sources of a merge are the intersection, unless one side is
    unrestricted. *)
Lemma merge_valid_passes f g s :
  (_validSources f = [] ∨ _validSources g = [] ∨
   ∃ s', s' ∈ _validSources f ∧ s' ∈ _validSources g) →
  passes (_validSources (merge f g)) s ↔
  passes (_validSources f) s ∧ passes (_validSources g) s.
Proof.
  intros Hov. unfold merge. simpl. rewrite passes_uniq. unfold passes.
  destruct (_validSources f) as [|a vf] eqn:Ef; simpl; [naive_solver|].
  destruct (_validSources g) as [|b vg] eqn:Eg; simpl; [naive_solver|].
  destruct Hov as [?|[?|(s' & H1 & H2)]]; [done..|].
  set (l := if includes (b :: vg) a then _ else _).
  assert (∀ x, x ∈ l ↔ x ∈ a :: vf ∧ x ∈ b :: vg) as Hl.
  { intros x. unfold l.
    change (if includes (b :: vg) a then a :: bfilter (includes (b :: vg)) vf
            else bfilter (includes (b :: vg)) vf)
      with (bfilter (includes (b :: vg)) (a :: vf)).
    by rewrite elem_of_bfilter, includes_true. }
  rewrite Hl. split; [|naive_solver].
  intros [E|[? ?]]; [|auto]. exfalso. assert (s' ∈ l) as Hs' by (by apply Hl).
  rewrite E in Hs'. by apply elem_of_nil in Hs'.
Qed.

Lemma quote_filter_isAllowed chain excludedSources includedSources s :
  _includedSources chain = [] →
  isAllowed (merge chain (include (exclude empty excludedSources) includedSources)) s = true
  ↔ isAllowed chain s = true ∧ s ∉ excludedSources ∧
    (includedSources = [] ∨ s ∈ includedSources).
Proof.
  intros Hi. unfold merge. rewrite isAllowed_new, isAllowed_iff, Hi. simpl.
  rewrite elem_of_app, !elem_of_uniq, passes_uniq. unfold passes.
  destruct (_validSources chain); simpl; naive_solver.
Qed.

(** The filter of a request as the quoter builds it. *)
Lemma request_filter_isAllowed chain excludedSources includedSources s :
  _includedSources chain = [] →
  isAllowed (merge chain (new [] excludedSources includedSources)) s = true
  ↔ isAllowed chain s = true ∧ s ∉ excludedSources ∧
    (includedSources = [] ∨ s ∈ includedSources).
Proof.
  destruct chain as [v e i]. simpl. intros ->. unfold merge. rewrite isAllowed_new, isAllowed_iff. simpl.
  rewrite elem_of_app, !elem_of_uniq, passes_uniq. unfold passes.
  destruct v; simpl; naive_solver.
Qed.

(** ** Properties *)

(** The quote filter the market utilities build: the chain's valid sources
    merged with the request's excluded and included sources allow a source
    exactly when the chain supports it, the request does not exclude it and
    the request's inclusion list, when given, has it. *)
Theorem quote_filter_allows chain excludedSources includedSources s :
  _includedSources chain = [] →
  isAllowed (merge chain (include (exclude empty excludedSources) includedSources)) s = true
  ↔ isAllowed chain s = true ∧ s ∉ excludedSources ∧
    (includedSources = [] ∨ s ∈ includedSources).
Proof. apply quote_filter_isAllowed. Qed.

(** The filter getter lists every allowed valid source once. *)
Theorem sources_NoDup_allowed v e i :
  NoDup (sources (new v e i)) ∧
  (∀ s, s ∈ sources (new v e i) ↔ s ∈ v ∧ s ∉ e ∧ (i = [] ∨ s ∈ i)).
Proof.
  split.
  - eapply sublist_NoDup; [apply NoDup_uniq | apply bfilter_sublist].
  - intros s. rewrite sources_spec, isAllowed_new. simpl. rewrite elem_of_uniq.
    unfold passes. naive_solver.
Qed.

(** Merging filters is the conjunction of the two, provided their valid
    sources overlap (or one is unrestricted) and at most one of them has an
    inclusion list. *)
Theorem merge_conj f g s :
  (_validSources f = [] ∨ _validSources g = [] ∨
   ∃ s', s' ∈ _validSources f ∧ s' ∈ _validSources g) →
  (_includedSources f = [] ∨ _includedSources g = []) →
  isAllowed (merge f g) s = isAllowed f s && isAllowed g s.
Proof.
  intros Hv Hi. apply eq_true_iff_eq. rewrite andb_true_iff, !isAllowed_iff.
  rewrite merge_valid_passes by done. unfold merge; simpl.
  rewrite elem_of_uniq, elem_of_app, passes_uniq. unfold passes.
  rewrite app_nil, elem_of_app.
  destruct Hi as [-> | ->]; [set_unfold; naive_solver|].
  rewrite elem_of_nil. naive_solver.
Qed.

(** Without the overlap the merge is not the conjunction: an empty
    intersection is read as "no restriction", and every source that neither
    filter excludes becomes allowed. *)
Theorem merge_disjoint_allows_all f g s :
  _validSources f ≠ [] → _validSources g ≠ [] →
  (∀ s', s' ∈ _validSources f → s' ∉ _validSources g) →
  _includedSources f = [] → _includedSources g = [] →
  isAllowed (merge f g) s = true ↔ s ∉ _excludedSources f ∧ s ∉ _excludedSources g.
Proof.
  intros Hf Hg Hd Hif Hig. rewrite isAllowed_iff. unfold merge; simpl.
  rewrite Hif, Hig, elem_of_uniq, elem_of_app, !passes_uniq.
  rewrite (proj2 (non_empty_true _) Hf), (proj2 (non_empty_true _) Hg). simpl.
  rewrite (bfilter_none (includes _)).
  - unfold passes. naive_solver.
  - apply Forall_forall. intros x Hx. apply includes_false. by apply Hd.
Qed.

(** ** Witnesses *)
Lemma quote_filter_allows_witness :
  _includedSources (new [ERC20BridgeSource.UniswapV2; ERC20BridgeSource.Curve] [] []) = [] ∧
  (isAllowed (merge (new [ERC20BridgeSource.UniswapV2; ERC20BridgeSource.Curve] [] [])
     (include (exclude empty [ERC20BridgeSource.Curve]) [])) ERC20BridgeSource.UniswapV2 = true
   ↔ isAllowed (new [ERC20BridgeSource.UniswapV2; ERC20BridgeSource.Curve] [] [])
       ERC20BridgeSource.UniswapV2 = true
     ∧ ERC20BridgeSource.UniswapV2 ∉ [ERC20BridgeSource.Curve] ∧
     (@nil ERC20BridgeSource = [] ∨ ERC20BridgeSource.UniswapV2 ∈ @nil ERC20BridgeSource)).
Proof. split; [reflexivity | apply quote_filter_allows; reflexivity]. Defined.

Lemma merge_conj_witness :
  isAllowed (merge (new [ERC20BridgeSource.UniswapV2; ERC20BridgeSource.Curve] [] [])
               (new [ERC20BridgeSource.Curve] [] [ERC20BridgeSource.Curve])) ERC20BridgeSource.Curve
  = isAllowed (new [ERC20BridgeSource.UniswapV2; ERC20BridgeSource.Curve] [] []) ERC20BridgeSource.Curve
    && isAllowed (new [ERC20BridgeSource.Curve] [] [ERC20BridgeSource.Curve]) ERC20BridgeSource.Curve.
Proof.
  apply merge_conj.
  - right; right. exists ERC20BridgeSource.Curve.
    split; decide_now.
  - left. reflexivity.
Defined.

Lemma merge_disjoint_allows_all_witness :
  isAllowed (merge (new [ERC20BridgeSource.UniswapV2] [] [])
               (new [ERC20BridgeSource.Curve] [] [])) ERC20BridgeSource.Lido = true.
Proof.
  apply merge_disjoint_allows_all.
  - discriminate.
  - discriminate.
  - intros s' Hs. vm_compute in Hs. apply list_elem_of_singleton in Hs. subst s'.
    decide_now.
  - reflexivity.
  - reflexivity.
  - split; decide_now.
Defined.
End SourceFilters.
