(* ===== verification/Fills.v ===== *)
(** * Fills, rates and native order amounts

    [market_operation_utils/fills.ts], [rate_utils.ts],
    [asset-swapper/utils/utils.ts] and the comparison price given to market
    makers ([comparison_price.ts]). *)

From S2P Require Import Prelude JsNumber BigNum Types.

Section Fills.
Context {B : BigNumberLib}.

(** ** [asset-swapper/utils/utils.ts] *)

Definition getNativeAdjustedMakerFillAmount (order : OrderFields) (takerFillAmount : BN) : BN :=
  integerValue ROUND_FLOOR
    (div (times takerFillAmount (order_makerAmount order)) (order_takerAmount order)).

Definition getNativeAdjustedTakerFillAmount (order : OrderFields) (makerFillAmount : BN) : BN :=
  integerValue ROUND_CEIL
    (div (times makerFillAmount (order_takerAmount order)) (order_makerAmount order)).

Definition getNativeAdjustedTakerFeeAmount (order : OrderFields) (takerFillAmount : BN) : BN :=
  integerValue ROUND_FLOOR
    (div (times takerFillAmount (order_takerTokenFeeAmount order)) (order_takerAmount order)).

(** [NativeOrderFillableAmountFields]. *)
Record FillableAmounts : Type := {
  fa_maker : BN;
  fa_taker : BN;
  fa_takerFee : BN;
}.

Definition EMPTY_FILLABLE_AMOUNTS : FillableAmounts :=
  {| fa_maker := ZERO_AMOUNT; fa_taker := ZERO_AMOUNT; fa_takerFee := ZERO_AMOUNT |}.

Definition isLimit (type : FillQuoteTransformerOrderType) : bool :=
  match type with FillQuoteTransformerOrderType.Limit => true | _ => false end.

Definition getNativeAdjustedFillableAmountsFromTakerAmount
    (order : OrderFields) (type : FillQuoteTransformerOrderType)
    (takerFillableAmount : BN) : FillableAmounts :=
  if isZero takerFillableAmount then EMPTY_FILLABLE_AMOUNTS
  else {| fa_taker := takerFillableAmount;
          fa_maker := getNativeAdjustedMakerFillAmount order takerFillableAmount;
          fa_takerFee := if isLimit type
                         then getNativeAdjustedTakerFeeAmount order takerFillableAmount
                         else ZERO_AMOUNT |}.

Definition getNativeAdjustedFillableAmountsFromMakerAmount
    (order : OrderFields) (type : FillQuoteTransformerOrderType)
    (makerFillableAmount : BN) : FillableAmounts :=
  if isZero makerFillableAmount then EMPTY_FILLABLE_AMOUNTS
  else
    let takerFillableAmount := getNativeAdjustedTakerFillAmount order makerFillableAmount in
    {| fa_maker := makerFillableAmount;
       fa_taker := takerFillableAmount;
       fa_takerFee := if isLimit type
                      then getNativeAdjustedTakerFeeAmount order takerFillableAmount
                      else ZERO_AMOUNT |}.

(** ** [rate_utils.ts] *)

Definition getCompleteRate (side : MarketOperation) (input output targetInput : BN) : BN :=
  if isZero input || isZero output || isZero targetInput then ZERO_AMOUNT
  else match side with
       | Sell => div output targetInput
       | Buy => times (div input output) (div input targetInput)
       end.

Definition getRate (side : MarketOperation) (input output : BN) : BN :=
  if isZero input || isZero output then ZERO_AMOUNT
  else match side with
       | Sell => div output input
       | Buy => div input output
       end.

(** ** [fills.ts] *)

Definition ethToOutputAmount
    (input output ethAmount inputAmountPerEth outputAmountPerEth : BN) : BN :=
  if negb (isZero outputAmountPerEth)
  then integerValue ROUND_HALF_UP (times outputAmountPerEth ethAmount)
  else times (times inputAmountPerEth ethAmount) (dividedToIntegerBy output input).

Definition adjustOutput (side : MarketOperation) (output penalty : BN) : BN :=
  match side with Sell => minus output penalty | Buy => plus output penalty end.

(** [SOURCE_FLAGS[toNativeSourceFlagKey(type)]]. *)
Definition native_source_flag (type : FillQuoteTransformerOrderType) : Z :=
  match type with
  | FillQuoteTransformerOrderType.Limit => LimitOrder_flag
  | FillQuoteTransformerOrderType.Rfq => RfqOrder_flag
  | FillQuoteTransformerOrderType.Otc => OtcOrder_flag
  | FillQuoteTransformerOrderType.Bridge => LimitOrder_flag
  end.

(** The input and output of a native order seen from the side of the quote. *)
Definition nativeOrderToNormalizedAmounts
    (side : MarketOperation) (nativeOrder : NativeOrderWithFillableAmounts) : BN * BN :=
  let makerAmount := fillableMakerAmount nativeOrder in
  let takerAmount := plus (fillableTakerAmount nativeOrder) (fillableTakerFeeAmount nativeOrder) in
  match side with
  | Sell => (takerAmount, makerAmount)
  | Buy => (makerAmount, takerAmount)
  end.

(** [sourcePathId] is the value [hexUtils.random()] returns in this call. *)
Definition nativeOrderToFill
    (sourcePathId : string) (side : MarketOperation) (order : NativeOrderWithFillableAmounts)
    (targetInput outputAmountPerEth inputAmountPerEth : BN) (fees : FeeSchedule)
    (filterNegativeAdjustedRateOrders : bool) : option Fill :=
  let makerAmount := fillableMakerAmount order in
  let takerAmount := plus (fillableTakerAmount order) (fillableTakerFeeAmount order) in
  let input := match side with Sell => takerAmount | Buy => makerAmount end in
  let output := match side with Sell => makerAmount | Buy => takerAmount end in
  let est := fees ERC20BridgeSource.Native (FDNative order) in
  let outputPenalty :=
    ethToOutputAmount input output (est_fee est) inputAmountPerEth outputAmountPerEth in
  let clippedInput := min2 targetInput input in
  let clippedOutput := times (div clippedInput input) output in
  let adjustedOutput :=
    match side with
    | Sell => minus clippedOutput outputPenalty
    | Buy => plus clippedOutput outputPenalty
    end in
  let adjustedRate :=
    match side with
    | Sell => div adjustedOutput clippedInput
    | Buy => div clippedInput adjustedOutput
    end in
  if filterNegativeAdjustedRateOrders && lte adjustedRate (of_Z 0) then None
  else Some {| fill_sourcePathId := sourcePathId;
               fill_adjustedOutput := adjustedOutput;
               fill_input := clippedInput;
               fill_output := clippedOutput;
               fill_flags := native_source_flag (native_type order);
               fill_source := ERC20BridgeSource.Native;
               fill_type := native_type order;
               fill_fillData := FDNative order;
               fill_gas := est_gas est |}.

Definition dexSampleToFill
    (sourcePathId : string) (side : MarketOperation) (sample : DexSample)
    (outputAmountPerEth inputAmountPerEth : BN) (fees : FeeSchedule) : Fill :=
  let input := sample_input sample in
  let output := sample_output sample in
  let est := fees (sample_source sample) (sample_fillData sample) in
  let penalty :=
    ethToOutputAmount input output (est_fee est) inputAmountPerEth outputAmountPerEth in
  {| fill_sourcePathId := sourcePathId;
     fill_input := input;
     fill_output := output;
     fill_adjustedOutput := adjustOutput side output penalty;
     fill_source := sample_source sample;
     fill_fillData := sample_fillData sample;
     fill_type := FillQuoteTransformerOrderType.Bridge;
     fill_flags := source_flag (sample_source sample);
     fill_gas := est_gas est |}.

(** The hops are read with [fillData.firstHopSource.source]: a missing hop is
    a [TypeError]. *)
Definition twoHopSampleToFill
    (side : MarketOperation) (twoHopSample : DexSample)
    (outputAmountPerEth : BN) (multihopFeeEstimate : FeeEstimate) : result Fill :=
  match sample_fillData twoHopSample with
  | FDMultiHop (Some (firstHop, _)) (Some (secondHop, _)) _ =>
      let flags := Z.lor (Z.lor (source_flag ERC20BridgeSource.MultiHop) (source_flag firstHop))
                     (source_flag secondHop) in
      let sourcePenalty :=
        integerValue ROUND_HALF_UP
          (times outputAmountPerEth
             (est_fee (multihopFeeEstimate (sample_fillData twoHopSample)))) in
      Ok {| fill_source := sample_source twoHopSample;
            fill_fillData := sample_fillData twoHopSample;
            fill_input := sample_input twoHopSample;
            fill_output := sample_output twoHopSample;
            fill_flags := flags;
            fill_type := FillQuoteTransformerOrderType.Bridge;
            fill_adjustedOutput := adjustOutput side (sample_output twoHopSample) sourcePenalty;
            fill_sourcePathId :=
              ERC20BridgeSource.to_string ERC20BridgeSource.MultiHop +:+ "-" +:+
              ERC20BridgeSource.to_string firstHop +:+ "-" +:+
              ERC20BridgeSource.to_string secondHop;
            fill_gas := n_Z 0 |}
  | _ => Throw TypeError
  end.

(** ** [comparison_price.ts] *)

(** The fields of [MarketSideLiquidity] the comparison price reads. *)
Record LiquidityRates : Type := {
  liq_side : MarketOperation;
  liq_outputAmountPerEth : BN;
  liq_inputAmountPerEth : BN;
  liq_makerTokenDecimals : number;
  liq_takerTokenDecimals : number;
}.

Definition COMPARISON_PRICE_DECIMALS : nat := 10.

(** [toUnitAmount] is [Web3Wrapper.toUnitAmount], a parameter.  The fee
    estimate and the overhead may throw: the exception is swallowed and no
    price is returned. *)
Definition getComparisonPrices
    (toUnitAmount : BN → number → BN)
    (adjustedRate amount : BN) (marketSideLiquidity : LiquidityRates)
    (nativeOrderFee : result BN) (exchangeProxyOverhead : Z → result BN) : option BN :=
  match (fillFeeInEth ← nativeOrderFee;
         exchangeProxyOverheadInEth ← exchangeProxyOverhead RfqOrder_flag;
         mret (plus fillFeeInEth exchangeProxyOverheadInEth)) with
  | Throw _ => None
  | Ok feeInEth =>
      let m := marketSideLiquidity in
      let feePenalty :=
        if negb (isZero (liq_outputAmountPerEth m))
        then times (liq_outputAmountPerEth m) feeInEth
        else times (times (liq_inputAmountPerEth m) feeInEth)
               (match liq_side m with Sell => adjustedRate | Buy => pow adjustedRate (-1) end) in
      let orderMakerAmount :=
        match liq_side m with
        | Sell => plus (times adjustedRate amount) feePenalty
        | Buy => amount
        end in
      let orderTakerAmount :=
        match liq_side m with
        | Sell => amount
        | Buy => minus (div amount adjustedRate) feePenalty
        end in
      if gt orderTakerAmount (of_Z 0) && gt orderMakerAmount (of_Z 0) then
        let optimalMakerUnitAmount :=
          toUnitAmount (integerValue ROUND_UP orderMakerAmount) (liq_makerTokenDecimals m) in
        let optimalTakerUnitAmount :=
          toUnitAmount (integerValue ROUND_DOWN orderTakerAmount) (liq_takerTokenDecimals m) in
        Some (decimalPlaces COMPARISON_PRICE_DECIMALS ROUND_HALF_UP
                (div optimalMakerUnitAmount optimalTakerUnitAmount))
      else None
  end.
End Fills.

(** ** Integer arithmetic behind the decimal divisions *)

Section IntegerDivision.
Local Open Scope Q_scope.

Lemma Qdiv_inject_floor n d :
  (0 < d)%Z → inject_Z (n / d) <= inject_Z n / inject_Z d <= inject_Z (n / d) + 1 - 1 / inject_Z d.
Proof.
  intros Hd. assert (0 < inject_Z d) as Hd' by (change 0 with (inject_Z 0); by rewrite <- Zlt_Qlt).
  pose proof (Z.div_mod n d ltac:(lia)) as E. pose proof (Z.mod_pos_bound n d Hd) as Hm.
  assert (inject_Z n / inject_Z d == inject_Z (n / d) + inject_Z (n mod d) / inject_Z d) as ->.
  { rewrite E at 1. rewrite inject_Z_plus, inject_Z_mult. field. lra. }
  assert (0 <= inject_Z (n mod d)) as H0 by (change 0 with (inject_Z 0); rewrite <- Zle_Qle; lia).
  assert (inject_Z (n mod d) <= inject_Z d - 1) as H1.
  { change 1 with (inject_Z 1). unfold Qminus. rewrite <- inject_Z_opp, <- inject_Z_plus, <- Zle_Qle. lia. }
  split.
  - assert (0 <= inject_Z (n mod d) / inject_Z d); [|lra].
    apply Qle_shift_div_l; lra.
  - assert (inject_Z (n mod d) / inject_Z d <= 1 - 1 / inject_Z d); [|lra].
    apply Qle_shift_div_r; [done|]. field_simplify; lra.
Qed.

(** A quotient rounded at [dp] decimals has the integer part of the exact one
    as long as the divisor stays below 10^dp. *)
Lemma floor_round_dp dp n d :
  (0 < d <= 10 ^ Z.of_nat dp)%Z →
  round_int ROUND_FLOOR (round_dp dp ROUND_HALF_UP (inject_Z n / inject_Z d)) = (n / d)%Z.
Proof.
  intros Hd. pose proof (Qdiv_inject_floor n d ltac:(lia)) as [H1 H2].
  pose proof (round_dp_mono dp ROUND_HALF_UP _ _ H1) as H3. rewrite round_dp_Z in H3.
  pose proof (round_dp_dist dp (inject_Z n / inject_Z d)) as H4.
  apply Qabs_Qle_condition in H4.
  assert (0 < inject_Z d) as Hd' by (change 0 with (inject_Z 0); rewrite <- Zlt_Qlt; lia).
  assert ((1 # 2) / pow10 dp < 1 / inject_Z d) as H5.
  { pose proof (pow10_pos dp) as Hp. apply Qlt_shift_div_l; [done|].
    assert ((1 # 2) / pow10 dp * inject_Z d == (1 # 2) * inject_Z d / pow10 dp) as -> by (field; lra).
    apply Qlt_shift_div_r; [done|].
    assert (inject_Z d <= pow10 dp) by (unfold pow10; rewrite <- Zle_Qle; lia). lra. }
  apply Z.le_antisymm.
  - assert (inject_Z (Qfloor (round_dp dp ROUND_HALF_UP (inject_Z n / inject_Z d)))
            < inject_Z (n / d + 1)) as H6.
    { pose proof (Qfloor_le (round_dp dp ROUND_HALF_UP (inject_Z n / inject_Z d))).
      rewrite inject_Z_plus. change (inject_Z 1) with 1. lra. }
    rewrite <- Zlt_Qlt in H6. unfold round_int. lia.
  - by apply Qle_inject_floor.
Qed.

Lemma Qopp_div_inject n d : - (inject_Z n / inject_Z d) == inject_Z (- n) / inject_Z d.
Proof. rewrite inject_Z_opp. unfold Qdiv. lra. Qed.

Lemma ceil_round_dp dp n d :
  (0 < d <= 10 ^ Z.of_nat dp)%Z →
  round_int ROUND_CEIL (round_dp dp ROUND_HALF_UP (inject_Z n / inject_Z d)) = (- (- n / d))%Z.
Proof.
  intros Hd. rewrite <- (floor_round_dp dp (- n) d Hd).
  change (round_int ROUND_CEIL ?x) with (- Qfloor (- x))%Z.
  change (round_int ROUND_FLOOR ?x) with (Qfloor x).
  f_equal. apply Qfloor_comp. rewrite <- Qopp_div_inject.
  set (q := inject_Z n / inject_Z d). unfold round_dp.
  assert (inject_Z (round_int ROUND_HALF_UP (- q * pow10 dp))
          == - inject_Z (round_int ROUND_HALF_UP (q * pow10 dp))) as ->.
  2: { unfold Qdiv. lra. }
  rewrite <- inject_Z_opp. f_equiv.
  assert (- q * pow10 dp == - (q * pow10 dp)) as -> by lra.
  set (x := q * pow10 dp). unfold round_int.
  destruct (Qlt_le_dec x 0) as [Hx|Hx]; [|destruct (Qlt_le_dec 0 x) as [Hx2|Hx2]].
  - rewrite (proj2 (Qle_bool_iff 0 (- x))), (proj2 (Qle_bool_false 0 x)) by lra.
    unfold Qceiling. rewrite Z.opp_involutive. apply Qfloor_comp. lra.
  - rewrite (proj2 (Qle_bool_false 0 (- x))), (proj2 (Qle_bool_iff 0 x)) by lra.
    unfold Qceiling. f_equal. apply Qfloor_comp. lra.
  - rewrite (proj2 (Qle_bool_iff 0 (- x))), (proj2 (Qle_bool_iff 0 x)) by lra.
    assert (x == 0) as E by lra.
    rewrite (Qfloor_comp (- x + (1 # 2)) (1 # 2)), (Qfloor_comp (x + (1 # 2)) (1 # 2)) by lra.
    reflexivity.
Qed.
End IntegerDivision.

Section Facts.
Context {B : BigNumberLib}.

(** [int a z]: the decimal [a] is the integer [z]. *)
Definition int (a : BN) (z : Z) : Prop := fin a (inject_Z z).

(** Rounding a non-negative decimal towards and away from zero. *)
Lemma int_round_down x q : fin x q → (0 <= q)%Q → int (integerValue ROUND_DOWN x) (Qfloor q).
Proof.
  intros Hx Hq. pose proof (fin_integerValue ROUND_DOWN x q Hx) as H. unfold int in *.
  unfold round_int in H. by rewrite (proj2 (Qle_bool_iff 0 q) Hq) in H.
Qed.

Lemma int_round_up x q : fin x q → (0 <= q)%Q → int (integerValue ROUND_UP x) (Qceiling q).
Proof.
  intros Hx Hq. pose proof (fin_integerValue ROUND_UP x q Hx) as H. unfold int in *.
  unfold round_int in H. by rewrite (proj2 (Qle_bool_iff 0 q) Hq) in H.
Qed.

Lemma int_nonzero z : z ≠ 0%Z → ¬ (inject_Z z == 0)%Q.
Proof. intros H E. change 0%Q with (inject_Z 0) in E. apply (proj1 (inject_Z_injective _ _)) in E. lia. Qed.

Lemma int_times a b x y : int a x → int b y → int (times a b) (x * y).
Proof. unfold int. intros Ha Hb. rewrite inject_Z_mult. by apply fin_times. Qed.

Lemma int_plus a b x y : int a x → int b y → int (plus a b) (x + y).
Proof. unfold int. intros Ha Hb. rewrite inject_Z_plus. by apply fin_plus. Qed.

Lemma int_minus a b x y : int a x → int b y → int (minus a b) (x - y).
Proof.
  unfold int. intros Ha Hb. unfold Z.sub. rewrite inject_Z_plus, inject_Z_opp.
  by apply fin_minus.
Qed.

Lemma int_integerValue rm a z : int a z → int (integerValue rm a) z.
Proof.
  intros H. unfold int. rewrite <- (round_int_Z rm z) at 1. by apply fin_integerValue.
Qed.

Lemma int_floor_div a b x y :
  int a x → int b y → (0 < y <= 10 ^ Z.of_nat DECIMAL_PLACES)%Z →
  int (integerValue ROUND_FLOOR (div a b)) (x / y).
Proof.
  intros Ha Hb Hy. unfold int. rewrite <- (floor_round_dp DECIMAL_PLACES x y Hy).
  apply fin_integerValue, fin_div; [done..|]. apply int_nonzero. lia.
Qed.

Lemma int_ceil_div a b x y :
  int a x → int b y → (0 < y <= 10 ^ Z.of_nat DECIMAL_PLACES)%Z →
  int (integerValue ROUND_CEIL (div a b)) (- (- x / y)).
Proof.
  intros Ha Hb Hy. unfold int. rewrite <- (ceil_round_dp DECIMAL_PLACES x y Hy).
  apply fin_integerValue, fin_div; [done..|]. apply int_nonzero. lia.
Qed.

(** An order whose amounts are positive integers within the precision of a
    decimal division (the amounts of the protocol are 128-bit, the library
    keeps 78 decimal places). *)
Record order_ok (o : OrderFields) (m t f : Z) : Prop := {
  ok_maker : int (order_makerAmount o) m;
  ok_taker : int (order_takerAmount o) t;
  ok_fee : int (order_takerTokenFeeAmount o) f;
  ok_m : (0 < m <= 10 ^ Z.of_nat DECIMAL_PLACES)%Z;
  ok_t : (0 < t <= 10 ^ Z.of_nat DECIMAL_PLACES)%Z;
  ok_f : (0 <= f)%Z;
}.

Lemma makerFill_int o m t f a x :
  order_ok o m t f → int a x → int (getNativeAdjustedMakerFillAmount o a) (x * m / t).
Proof. intros [] Hx. apply int_floor_div; [by apply int_times | done..]. Qed.

Lemma takerFill_int o m t f a x :
  order_ok o m t f → int a x → int (getNativeAdjustedTakerFillAmount o a) (- (- (x * t) / m)).
Proof. intros [] Hx. apply int_ceil_div; [by apply int_times | done..]. Qed.

Lemma takerFee_int o m t f a x :
  order_ok o m t f → int a x → int (getNativeAdjustedTakerFeeAmount o a) (x * f / t).
Proof. intros [] Hx. apply int_floor_div; [by apply int_times | done..]. Qed.

(** The decimal computation of the fillable amounts of a native order is the
    integer computation of the protocol: the maker amount is the floor of the
    pro-rata amount, the taker amount its ceiling, the fee a floor; asking
    back the taker amount of the maker amount obtained for [x] never exceeds
    [x], and no amount exceeds the order's. *)
Theorem native_amounts_are_integer_prorata o m t f a x :
  order_ok o m t f → int a x → (0 <= x <= t)%Z →
  int (getNativeAdjustedMakerFillAmount o a) (x * m / t) ∧
  int (getNativeAdjustedTakerFeeAmount o a) (x * f / t) ∧
  (0 <= x * m / t <= m)%Z ∧ (0 <= x * f / t <= f)%Z ∧
  ∃ y, int (getNativeAdjustedTakerFillAmount o (getNativeAdjustedMakerFillAmount o a)) y
       ∧ (0 <= y <= x)%Z ∧ (x * m / t * t <= y * m)%Z.
Proof.
  intros Ho Hx Hr. pose proof (ok_m _ _ _ _ Ho). pose proof (ok_t _ _ _ _ Ho).
  pose proof (ok_f _ _ _ _ Ho).
  split; [by apply (makerFill_int o m t f)|]. split; [by apply (takerFee_int o m t f)|].
  split; [split; [apply Z.div_pos; nia | apply Z.div_le_upper_bound; nia]|].
  split; [split; [apply Z.div_pos; nia | apply Z.div_le_upper_bound; nia]|].
  set (k := (x * m / t)%Z). assert (0 <= k)%Z by (apply Z.div_pos; nia).
  assert (k * t <= x * m)%Z by (pose proof (Z.mul_div_le (x * m) t); nia).
  eexists. split; [apply (takerFill_int o m t f); [done|]; by apply (makerFill_int o m t f)|].
  fold k. pose proof (Z.div_mod (- (k * t)) m ltac:(lia)) as E.
  pose proof (Z.mod_pos_bound (- (k * t)) m ltac:(lia)). nia.
Qed.

(** A zero fillable amount makes an order unfillable on every side; a
    non-zero one is kept on its own side and the fee is charged to limit
    orders only. *)
Lemma fillable_amounts_from_taker o type a x :
  fin a x →
  let fa := getNativeAdjustedFillableAmountsFromTakerAmount o type a in
  ((x == 0)%Q → fa = EMPTY_FILLABLE_AMOUNTS) ∧
  (¬ (x == 0)%Q → fa_taker fa = a ∧ fa_maker fa = getNativeAdjustedMakerFillAmount o a ∧
     (type ≠ FillQuoteTransformerOrderType.Limit → fa_takerFee fa = ZERO_AMOUNT)).
Proof.
  intros Ha fa. unfold fa, getNativeAdjustedFillableAmountsFromTakerAmount. split; intros Hx.
  - by rewrite (proj2 (isZero_fin a x Ha)).
  - rewrite (proj2 (isZero_fin_false a x Ha)) by done. simpl.
    split_and!; try done. by destruct type.
Qed.
End Facts.
#[export] Hint Resolve int_plus int_minus int_times : amounts.

(** ** Concrete amounts *)
Import Concrete.

Definition ex_order : OrderFields :=
  {| order_makerToken := "0xm"; order_takerToken := "0xt"; order_makerAmount := of_Z 1000;
     order_takerAmount := of_Z 300; order_takerTokenFeeAmount := of_Z 7; order_maker := "0xmaker";
     order_expiry := of_Z 99 |}.

Lemma native_amounts_are_integer_prorata_witness :
  int (getNativeAdjustedMakerFillAmount ex_order (of_Z 100)) 333 ∧
  ∃ y, int (getNativeAdjustedTakerFillAmount ex_order
              (getNativeAdjustedMakerFillAmount ex_order (of_Z 100))) y ∧ (0 <= y <= 100)%Z.
Proof.
  destruct (native_amounts_are_integer_prorata ex_order 1000 300 7 (of_Z 100) 100)
    as (H1 & _ & _ & _ & y & Hy & Hr & _).
  - split; try (apply (fin_Z (B := QBigNumber))); vm_compute; intuition congruence.
  - apply (fin_Z (B := QBigNumber)).
  - lia.
  - split; [exact H1|]. exists y. split; [exact Hy | exact Hr].
Defined.
