(* ===== verification/Orders.v ===== *)
(** * Optimized orders ([market_operation_utils/orders.ts])

    From the fills of a path to the orders that are settled on chain: the
    bridge source identifiers, the ABI data of every bridge, the orders of a
    native, a bridge and a two-hop fill. *)

From S2P Require Import Prelude JsNumber BigNum Types.

(** The protocols of [@0x/protocol-utils] the repository encodes. *)
Inductive BridgeProtocol : Type :=
| BP_Balancer | BP_BalancerV2Batch | BP_Bancor | BP_Curve | BP_CryptoCom
| BP_Dodo | BP_MakerPsm | BP_Mooniswap | BP_MStable | BP_Shell
| BP_UniswapV2 | BP_Uniswap | BP_DodoV2 | BP_Nerve | BP_UniswapV3
| BP_KyberDmm | BP_CurveV2 | BP_Lido | BP_AaveV2 | BP_AaveV3 | BP_Compound
| BP_GMX | BP_Platypus | BP_BancorV3 | BP_Solidly | BP_Synthetix | BP_WOOFi.

Module AbiType.
(** The ABI types of the bridge encoders. *)
Inductive t : Type :=
| address | bool_t | bytes | bytes4 | bytes32 | int128 | uint256
| array (elt : t) | tuple (components : list t).
End AbiType.

Module Errors.
Definition NoBridgeForSource : js_error := Error "NO_BRIDGE_FOR_SOURCE".
Definition InvalidOrderToEncode : js_error := Error "Invalid order to encode for Bridge Data".
Definition NoUniswapV3Paths : js_error := Error "No Uniswap V3 paths".
Definition BridgeOrderNotNative : js_error := Error "BridgeOrder is not a Native Order".
End Errors.

Section Orders.
Context {B : BigNumberLib}.

(** JavaScript values handed to an ABI encoder. *)
Inductive AbiValue : Type :=
| VString (s : string)
| VBool (b : bool)
| VNumber (z : Z)
| VAmount (a : BN)
| VArray (l : list AbiValue)
| VTuple (l : list AbiValue).

(** [encodeBridgeSourceId] and [AbiEncoder.create(schema).encode(values)]. *)
Variable encodeBridgeSourceId : BridgeProtocol → string → string.
Variable abi_encode : list AbiType.t → list AbiValue → string.

Definition getErc20BridgeSourceToBridgeSource (source : ERC20BridgeSource) : result string :=
  match source with
  | ERC20BridgeSource.Balancer => Ok (encodeBridgeSourceId BP_Balancer "Balancer")
  | ERC20BridgeSource.BalancerV2 => Ok (encodeBridgeSourceId BP_BalancerV2Batch "BalancerV2")
  | ERC20BridgeSource.Bancor => Ok (encodeBridgeSourceId BP_Bancor "Bancor")
  | ERC20BridgeSource.Curve => Ok (encodeBridgeSourceId BP_Curve "Curve")
  | ERC20BridgeSource.CryptoCom => Ok (encodeBridgeSourceId BP_CryptoCom "CryptoCom")
  | ERC20BridgeSource.Dodo => Ok (encodeBridgeSourceId BP_Dodo "Dodo")
  | ERC20BridgeSource.MakerPsm => Ok (encodeBridgeSourceId BP_MakerPsm "MakerPsm")
  | ERC20BridgeSource.Mooniswap => Ok (encodeBridgeSourceId BP_Mooniswap "Mooniswap")
  | ERC20BridgeSource.MStable => Ok (encodeBridgeSourceId BP_MStable "MStable")
  | ERC20BridgeSource.Shell => Ok (encodeBridgeSourceId BP_Shell "Shell")
  | ERC20BridgeSource.SushiSwap => Ok (encodeBridgeSourceId BP_UniswapV2 "SushiSwap")
  | ERC20BridgeSource.Uniswap => Ok (encodeBridgeSourceId BP_Uniswap "Uniswap")
  | ERC20BridgeSource.UniswapV2 => Ok (encodeBridgeSourceId BP_UniswapV2 "UniswapV2")
  | ERC20BridgeSource.DodoV2 => Ok (encodeBridgeSourceId BP_DodoV2 "DodoV2")
  | ERC20BridgeSource.PancakeSwap => Ok (encodeBridgeSourceId BP_UniswapV2 "PancakeSwap")
  | ERC20BridgeSource.PancakeSwapV2 => Ok (encodeBridgeSourceId BP_UniswapV2 "PancakeSwapV2")
  | ERC20BridgeSource.BakerySwap => Ok (encodeBridgeSourceId BP_UniswapV2 "BakerySwap")
  | ERC20BridgeSource.Nerve => Ok (encodeBridgeSourceId BP_Nerve "Nerve")
  | ERC20BridgeSource.Synapse => Ok (encodeBridgeSourceId BP_Nerve "Synapse")
  | ERC20BridgeSource.Belt => Ok (encodeBridgeSourceId BP_Curve "Belt")
  | ERC20BridgeSource.Ellipsis => Ok (encodeBridgeSourceId BP_Curve "Ellipsis")
  | ERC20BridgeSource.Component => Ok (encodeBridgeSourceId BP_Shell "Component")
  | ERC20BridgeSource.Saddle => Ok (encodeBridgeSourceId BP_Nerve "Saddle")
  | ERC20BridgeSource.ApeSwap => Ok (encodeBridgeSourceId BP_UniswapV2 "ApeSwap")
  | ERC20BridgeSource.UniswapV3 => Ok (encodeBridgeSourceId BP_UniswapV3 "UniswapV3")
  | ERC20BridgeSource.KyberDmm => Ok (encodeBridgeSourceId BP_KyberDmm "KyberDmm")
  | ERC20BridgeSource.QuickSwap => Ok (encodeBridgeSourceId BP_UniswapV2 "QuickSwap")
  | ERC20BridgeSource.Dfyn => Ok (encodeBridgeSourceId BP_UniswapV2 "Dfyn")
  | ERC20BridgeSource.CurveV2 => Ok (encodeBridgeSourceId BP_CurveV2 "CurveV2")
  | ERC20BridgeSource.WaultSwap => Ok (encodeBridgeSourceId BP_UniswapV2 "WaultSwap")
  | ERC20BridgeSource.FirebirdOneSwap => Ok (encodeBridgeSourceId BP_Nerve "FirebirdOneSwap")
  | ERC20BridgeSource.Lido => Ok (encodeBridgeSourceId BP_Lido "Lido")
  | ERC20BridgeSource.ShibaSwap => Ok (encodeBridgeSourceId BP_UniswapV2 "ShibaSwap")
  | ERC20BridgeSource.IronSwap => Ok (encodeBridgeSourceId BP_Nerve "IronSwap")
  | ERC20BridgeSource.ACryptos => Ok (encodeBridgeSourceId BP_Curve "ACryptoS")
  | ERC20BridgeSource.Pangolin => Ok (encodeBridgeSourceId BP_UniswapV2 "Pangolin")
  | ERC20BridgeSource.TraderJoe => Ok (encodeBridgeSourceId BP_UniswapV2 "TraderJoe")
  | ERC20BridgeSource.UbeSwap => Ok (encodeBridgeSourceId BP_UniswapV2 "UbeSwap")
  | ERC20BridgeSource.Beethovenx => Ok (encodeBridgeSourceId BP_BalancerV2Batch "Beethovenx")
  | ERC20BridgeSource.SpiritSwap => Ok (encodeBridgeSourceId BP_UniswapV2 "SpiritSwap")
  | ERC20BridgeSource.SpookySwap => Ok (encodeBridgeSourceId BP_UniswapV2 "SpookySwap")
  | ERC20BridgeSource.MorpheusSwap => Ok (encodeBridgeSourceId BP_UniswapV2 "MorpheusSwap")
  | ERC20BridgeSource.Yoshi => Ok (encodeBridgeSourceId BP_UniswapV2 "Yoshi")
  | ERC20BridgeSource.AaveV2 => Ok (encodeBridgeSourceId BP_AaveV2 "AaveV2")
  | ERC20BridgeSource.AaveV3 => Ok (encodeBridgeSourceId BP_AaveV3 "AaveV3")
  | ERC20BridgeSource.Compound => Ok (encodeBridgeSourceId BP_Compound "Compound")
  | ERC20BridgeSource.MobiusMoney => Ok (encodeBridgeSourceId BP_Nerve "MobiusMoney")
  | ERC20BridgeSource.BiSwap => Ok (encodeBridgeSourceId BP_UniswapV2 "BiSwap")
  | ERC20BridgeSource.MDex => Ok (encodeBridgeSourceId BP_UniswapV2 "MDex")
  | ERC20BridgeSource.KnightSwap => Ok (encodeBridgeSourceId BP_UniswapV2 "KnightSwap")
  | ERC20BridgeSource.GMX => Ok (encodeBridgeSourceId BP_GMX "GMX")
  | ERC20BridgeSource.Platypus => Ok (encodeBridgeSourceId BP_Platypus "Platypus")
  | ERC20BridgeSource.MeshSwap => Ok (encodeBridgeSourceId BP_UniswapV2 "MeshSwap")
  | ERC20BridgeSource.BancorV3 => Ok (encodeBridgeSourceId BP_BancorV3 "BancorV3")
  | ERC20BridgeSource.Velodrome => Ok (encodeBridgeSourceId BP_Solidly "Velodrome")
  | ERC20BridgeSource.Dystopia => Ok (encodeBridgeSourceId BP_Solidly "Dystopia")
  | ERC20BridgeSource.Synthetix => Ok (encodeBridgeSourceId BP_Synthetix "Synthetix")
  | ERC20BridgeSource.WOOFi => Ok (encodeBridgeSourceId BP_WOOFi "WOOFi")
  | ERC20BridgeSource.Native | ERC20BridgeSource.MultiHop => Throw Errors.NoBridgeForSource
  end.

Definition poolEncoder : list AbiType.t := [AbiType.address].
Definition curveEncoder : list AbiType.t :=
  [AbiType.address; AbiType.bytes4; AbiType.int128; AbiType.int128].
Definition makerPsmEncoder : list AbiType.t := [AbiType.address; AbiType.address].
Definition balancerV2BatchEncoder : list AbiType.t :=
  [AbiType.address;
   AbiType.array (AbiType.tuple
     [AbiType.bytes32; AbiType.uint256; AbiType.uint256; AbiType.uint256; AbiType.bytes]);
   AbiType.array AbiType.address].
Definition routerAddressPathEncoder : list AbiType.t :=
  [AbiType.address; AbiType.array AbiType.address].

Definition BRIDGE_ENCODERS (source : ERC20BridgeSource) : option (list AbiType.t) :=
  match source with
  | ERC20BridgeSource.Curve | ERC20BridgeSource.CurveV2 | ERC20BridgeSource.Nerve
  | ERC20BridgeSource.Synapse | ERC20BridgeSource.Belt | ERC20BridgeSource.Ellipsis
  | ERC20BridgeSource.Saddle | ERC20BridgeSource.FirebirdOneSwap
  | ERC20BridgeSource.IronSwap | ERC20BridgeSource.ACryptos
  | ERC20BridgeSource.MobiusMoney =>
      Some curveEncoder
  | ERC20BridgeSource.Bancor | ERC20BridgeSource.BancorV3
  | ERC20BridgeSource.UniswapV2 | ERC20BridgeSource.SushiSwap
  | ERC20BridgeSource.CryptoCom | ERC20BridgeSource.ShibaSwap
  | ERC20BridgeSource.Pangolin | ERC20BridgeSource.TraderJoe
  | ERC20BridgeSource.SpiritSwap | ERC20BridgeSource.SpookySwap
  | ERC20BridgeSource.MorpheusSwap | ERC20BridgeSource.BiSwap
  | ERC20BridgeSource.MDex | ERC20BridgeSource.KnightSwap | ERC20BridgeSource.Yoshi
  | ERC20BridgeSource.MeshSwap | ERC20BridgeSource.UbeSwap
  | ERC20BridgeSource.PancakeSwap | ERC20BridgeSource.PancakeSwapV2
  | ERC20BridgeSource.BakerySwap | ERC20BridgeSource.ApeSwap
  | ERC20BridgeSource.WaultSwap | ERC20BridgeSource.QuickSwap
  | ERC20BridgeSource.Dfyn =>
      Some routerAddressPathEncoder
  | ERC20BridgeSource.Shell | ERC20BridgeSource.Component
  | ERC20BridgeSource.Mooniswap | ERC20BridgeSource.MStable
  | ERC20BridgeSource.Balancer | ERC20BridgeSource.Uniswap =>
      Some poolEncoder
  | ERC20BridgeSource.Dodo =>
      Some [AbiType.address; AbiType.address; AbiType.bool_t]
  | ERC20BridgeSource.DodoV2 =>
      Some [AbiType.address; AbiType.bool_t]
  | ERC20BridgeSource.GMX =>
      Some [AbiType.address; AbiType.address; AbiType.address; AbiType.array AbiType.address]
  | ERC20BridgeSource.Platypus =>
      Some [AbiType.address; AbiType.array AbiType.address; AbiType.array AbiType.address]
  | ERC20BridgeSource.MakerPsm =>
      Some makerPsmEncoder
  | ERC20BridgeSource.BalancerV2 | ERC20BridgeSource.Beethovenx =>
      Some balancerV2BatchEncoder
  | ERC20BridgeSource.UniswapV3 =>
      Some [AbiType.address; AbiType.bytes]
  | ERC20BridgeSource.KyberDmm =>
      Some [AbiType.address; AbiType.array AbiType.address; AbiType.array AbiType.address]
  | ERC20BridgeSource.Lido =>
      Some [AbiType.address; AbiType.address]
  | ERC20BridgeSource.AaveV2 =>
      Some [AbiType.address; AbiType.address]
  | ERC20BridgeSource.AaveV3 =>
      Some [AbiType.address; AbiType.address; AbiType.bytes32]
  | ERC20BridgeSource.Compound =>
      Some [AbiType.address]
  | ERC20BridgeSource.Velodrome | ERC20BridgeSource.Dystopia =>
      Some [AbiType.address; AbiType.bool_t]
  | ERC20BridgeSource.Synthetix =>
      Some [AbiType.address; AbiType.bytes32; AbiType.bytes32]
  | ERC20BridgeSource.WOOFi =>
      Some [AbiType.address]
  | ERC20BridgeSource.Native | ERC20BridgeSource.MultiHop =>
      None
  end.

Definition swapStep_value (st : BalancerBatchSwapStep) : AbiValue :=
  VTuple [VString (step_poolId st); VNumber (step_assetInIndex st);
          VNumber (step_assetOutIndex st); VAmount (step_amount st);
          VString (step_userData st)].

Definition VStrings (l : list string) : AbiValue := VArray (VString <$> l).

(** The values each case of the switch passes to its encoder.  The casts of
    the source ([order.fillData as XFillData]) hold when the fill data has the
    shape of the source; on another shape a field is [undefined] and the
    encoder throws. *)
Definition bridge_values (order : OptimizedOrder) : result (list AbiValue) :=
  match opt_source order with
  | ERC20BridgeSource.Curve | ERC20BridgeSource.CurveV2 | ERC20BridgeSource.Nerve
  | ERC20BridgeSource.Synapse | ERC20BridgeSource.Belt | ERC20BridgeSource.Ellipsis
  | ERC20BridgeSource.Saddle | ERC20BridgeSource.FirebirdOneSwap
  | ERC20BridgeSource.IronSwap | ERC20BridgeSource.ACryptos
  | ERC20BridgeSource.MobiusMoney =>
      match opt_fillData order with
      | FDCurve fromTokenIdx toTokenIdx pool =>
          Ok [VString (curve_poolAddress pool); VString (curve_exchangeFunctionSelector pool);
              VNumber fromTokenIdx; VNumber toTokenIdx]
      | _ => Throw TypeError
      end
  | ERC20BridgeSource.Balancer =>
      match opt_fillData order with
      | FDBalancer poolAddress =>
          Ok [VString poolAddress]
      | _ => Throw TypeError
      end
  | ERC20BridgeSource.Beethovenx | ERC20BridgeSource.BalancerV2 =>
      match opt_fillData order with
      | FDBalancerV2Batch vault swapSteps assets _ =>
          Ok [VString vault; VArray (swapStep_value <$> swapSteps); VStrings assets]
      | _ => Throw TypeError
      end
  | ERC20BridgeSource.Bancor =>
      match opt_fillData order with
      | FDBancor path networkAddress =>
          Ok [VString networkAddress; VStrings path]
      | _ => Throw TypeError
      end
  | ERC20BridgeSource.UniswapV2 | ERC20BridgeSource.SushiSwap
  | ERC20BridgeSource.CryptoCom | ERC20BridgeSource.PancakeSwap
  | ERC20BridgeSource.PancakeSwapV2 | ERC20BridgeSource.BakerySwap
  | ERC20BridgeSource.ApeSwap | ERC20BridgeSource.QuickSwap
  | ERC20BridgeSource.Dfyn | ERC20BridgeSource.WaultSwap
  | ERC20BridgeSource.ShibaSwap | ERC20BridgeSource.Pangolin
  | ERC20BridgeSource.TraderJoe | ERC20BridgeSource.UbeSwap
  | ERC20BridgeSource.SpiritSwap | ERC20BridgeSource.SpookySwap
  | ERC20BridgeSource.MorpheusSwap | ERC20BridgeSource.BiSwap
  | ERC20BridgeSource.MDex | ERC20BridgeSource.KnightSwap | ERC20BridgeSource.Yoshi
  | ERC20BridgeSource.MeshSwap =>
      match opt_fillData order with
      | FDUniswapV2 tokenAddressPath router =>
          Ok [VString router; VStrings tokenAddressPath]
      | _ => Throw TypeError
      end
  | ERC20BridgeSource.Mooniswap =>
      match opt_fillData order with
      | FDMooniswap poolAddress =>
          Ok [VString poolAddress]
      | _ => Throw TypeError
      end
  | ERC20BridgeSource.Dodo =>
      match opt_fillData order with
      | FDDodo poolAddress isSellBase (Some helperAddress) =>
          Ok [VString helperAddress; VString poolAddress; VBool isSellBase]
      | _ => Throw TypeError
      end
  | ERC20BridgeSource.DodoV2 =>
      match opt_fillData order with
      | FDDodo poolAddress isSellBase _ =>
          Ok [VString poolAddress; VBool isSellBase]
      | _ => Throw TypeError
      end
  | ERC20BridgeSource.Shell | ERC20BridgeSource.Component =>
      match opt_fillData order with
      | FDShell poolAddress =>
          Ok [VString poolAddress]
      | _ => Throw TypeError
      end
  | ERC20BridgeSource.Uniswap =>
      match opt_fillData order with
      | FDGenericRouter router =>
          Ok [VString router]
      | _ => Throw TypeError
      end
  | ERC20BridgeSource.MStable =>
      match opt_fillData order with
      | FDGenericRouter router =>
          Ok [VString router]
      | _ => Throw TypeError
      end
  | ERC20BridgeSource.MakerPsm =>
      match opt_fillData order with
      | FDMakerPsm psmAddress gemTokenAddress _ _ =>
          Ok [VString psmAddress; VString gemTokenAddress]
      | _ => Throw TypeError
      end
  | ERC20BridgeSource.UniswapV3 =>
      match opt_fillData order with
      | FDFinalTickDEXMultiPath router _ path _ =>
          Ok [VString router; VString path]
      | _ => Throw TypeError
      end
  | ERC20BridgeSource.KyberDmm =>
      match opt_fillData order with
      | FDKyberDmm tokenAddressPath router poolsPath =>
          Ok [VString router; VStrings poolsPath; VStrings tokenAddressPath]
      | _ => Throw TypeError
      end
  | ERC20BridgeSource.Lido =>
      match opt_fillData order with
      | FDLido stEthTokenAddress wstEthTokenAddress _ _ =>
          Ok [VString stEthTokenAddress; VString wstEthTokenAddress]
      | _ => Throw TypeError
      end
  | ERC20BridgeSource.AaveV3 =>
      match opt_fillData order with
      | FDAaveV3 lendingPool aToken _ _ l2EncodedParams =>
          match list_find (λ l, Is_true (isEqualTo (l2_inputAmount l) (opt_makerAmount order)
                                 || isEqualTo (l2_inputAmount l) (opt_takerAmount order)))
                  l2EncodedParams with
          | None => Throw Errors.InvalidOrderToEncode
          | Some (_, l) => Ok [VString lendingPool; VString aToken; VString (l2_parameter l)]
          end
      | _ => Throw TypeError
      end
  | ERC20BridgeSource.AaveV2 =>
      match opt_fillData order with
      | FDAaveV2 lendingPool aToken _ _ =>
          Ok [VString lendingPool; VString aToken]
      | _ => Throw TypeError
      end
  | ERC20BridgeSource.Compound =>
      match opt_fillData order with
      | FDCompound cToken _ _ =>
          Ok [VString cToken]
      | _ => Throw TypeError
      end
  | ERC20BridgeSource.GMX =>
      match opt_fillData order with
      | FDGMX router reader vault tokenAddressPath =>
          Ok [VString router; VString reader; VString vault; VStrings tokenAddressPath]
      | _ => Throw TypeError
      end
  | ERC20BridgeSource.Platypus =>
      match opt_fillData order with
      | FDPlatypus router pool tokenAddressPath =>
          Ok [VString router; VStrings pool; VStrings tokenAddressPath]
      | _ => Throw TypeError
      end
  | ERC20BridgeSource.BancorV3 =>
      match opt_fillData order with
      | FDBancor path networkAddress =>
          Ok [VString networkAddress; VStrings path]
      | _ => Throw TypeError
      end
  | ERC20BridgeSource.Dystopia | ERC20BridgeSource.Velodrome =>
      match opt_fillData order with
      | FDVelodrome router stable =>
          Ok [VString router; VBool stable]
      | _ => Throw TypeError
      end
  | ERC20BridgeSource.Synthetix =>
      match opt_fillData order with
      | FDSynthetix synthetix takerTokenSymbolBytes32 makerTokenSymbolBytes32 _ =>
          Ok [VString synthetix; VString takerTokenSymbolBytes32; VString makerTokenSymbolBytes32]
      | _ => Throw TypeError
      end
  | ERC20BridgeSource.WOOFi =>
      match opt_fillData order with
      | FDWOOFi router _ _ _ =>
          Ok [VString router]
      | _ => Throw TypeError
      end
  | ERC20BridgeSource.Native | ERC20BridgeSource.MultiHop => Throw Errors.NoBridgeForSource
  end.

Definition createBridgeDataForBridgeOrder (order : OptimizedOrder) : result string :=
  match opt_source order with
  | ERC20BridgeSource.MultiHop | ERC20BridgeSource.Native => Throw Errors.InvalidOrderToEncode
  | source =>
      match BRIDGE_ENCODERS source with
      | None => Throw Errors.NoBridgeForSource
      | Some encoder => values ← bridge_values order; mret (abi_encode encoder values)
      end
  end.

(** ** Orders of the fills *)

Definition toFillBase (fill : Fill) : FillBase :=
  {| base_input := fill_input fill;
     base_output := fill_output fill;
     base_adjustedOutput := fill_adjustedOutput fill;
     base_gas := fill_gas fill |}.

(** [[makerAmount, takerAmount]]. *)
Definition getFillTokenAmounts (fill : Fill) (side : MarketOperation) : BN * BN :=
  (match side with
   | Sell => integerValue ROUND_DOWN (fill_output fill)
   | Buy => fill_input fill
   end,
   match side with
   | Sell => fill_input fill
   | Buy => integerValue ROUND_UP (fill_output fill)
   end).

Definition createNativeOptimizedOrder (fill : Fill) (side : MarketOperation)
    : result OptimizedOrder :=
  match fill_fillData fill with
  | FDNative o =>
      let amounts := getFillTokenAmounts fill side in
      match fill_type fill with
      | FillQuoteTransformerOrderType.Bridge => Throw Errors.BridgeOrderNotNative
      | type =>
          Ok {| opt_type := type;
                opt_source := ERC20BridgeSource.Native;
                opt_makerToken := order_makerToken (native_order o);
                opt_takerToken := order_takerToken (native_order o);
                opt_makerAmount := amounts.1;
                opt_takerAmount := amounts.2;
                opt_fillData := fill_fillData fill;
                opt_fill := toFillBase fill |}
      end
  | _ => Throw TypeError
  end.

Definition getBestUniswapV3PathAmountForInputAmount
    (fillDataPathAmounts : list PathAmount) (inputAmount : BN) : result PathAmount :=
  match fillDataPathAmounts with
  | [] => Throw Errors.NoUniswapV3Paths
  | _ =>
      let pathAmounts :=
        bfilter (λ p, negb (bool_decide (pa_path p = "0x"%string))) fillDataPathAmounts in
      match list_find (λ p, Is_true (gte (pa_inputAmount p) inputAmount)) pathAmounts with
      | Some (_, pathAmount) => Ok pathAmount
      | None =>
          (* [undefined] when every path was filtered out: the caller
             destructures it *)
          match last pathAmounts with
          | Some pathAmount => Ok pathAmount
          | None => Throw TypeError
          end
      end
  end.

Definition createFinalBridgeOrderFillDataFromCollapsedFill (fill : Fill) : result FillData :=
  match fill_source fill with
  | ERC20BridgeSource.UniswapV3 =>
      match fill_fillData fill with
      | FDTickDEXMultiPath tokenAddressPath router pathAmounts =>
          best ← getBestUniswapV3PathAmountForInputAmount pathAmounts (fill_input fill);
          mret (FDFinalTickDEXMultiPath router tokenAddressPath (pa_path best) (pa_gasUsed best))
      | _ => Throw TypeError
      end
  | _ => Ok (fill_fillData fill)
  end.

Definition createBridgeOrder (fill : Fill) (makerToken takerToken : string)
    (side : MarketOperation) : result OptimizedOrder :=
  let amounts := getFillTokenAmounts fill side in
  fillData ← createFinalBridgeOrderFillDataFromCollapsedFill fill;
  mret {| opt_type := FillQuoteTransformerOrderType.Bridge;
          opt_source := fill_source fill;
          opt_makerToken := makerToken;
          opt_takerToken := takerToken;
          opt_makerAmount := amounts.1;
          opt_takerAmount := amounts.2;
          opt_fillData := fillData;
          opt_fill := toFillBase fill |}.

(** [[makerToken, takerToken]]. *)
Definition getMakerTakerTokens (pathContext : PathContext) : string * string :=
  match ctx_side pathContext with
  | Sell => (ctx_outputToken pathContext, ctx_inputToken pathContext)
  | Buy => (ctx_inputToken pathContext, ctx_outputToken pathContext)
  end.

Definition hopFill (source : ERC20BridgeSource) (fillData : FillData)
    (input output adjustedOutput : BN) : Fill :=
  {| fill_sourcePathId := "";
     fill_source := source;
     fill_type := FillQuoteTransformerOrderType.Bridge;
     fill_input := input;
     fill_output := output;
     fill_adjustedOutput := adjustedOutput;
     fill_fillData := fillData;
     fill_flags := 0;
     fill_gas := n_Z 1 |}.

Definition createOrdersFromTwoHopSample (sample : Fill) (pathContext : PathContext)
    : result TwoHopOrder :=
  let side := ctx_side pathContext in
  let '(makerToken, takerToken) := getMakerTakerTokens pathContext in
  match fill_fillData sample with
  | FDMultiHop (Some (firstSource, firstData)) (Some (secondSource, secondData))
      intermediateToken =>
      let firstHopFill :=
        match side with
        | Sell => hopFill firstSource firstData (fill_input sample) ZERO_AMOUNT ZERO_AMOUNT
        | Buy => hopFill firstSource firstData ZERO_AMOUNT (fill_output sample) (fill_output sample)
        end in
      let secondHopFill :=
        match side with
        | Sell => hopFill secondSource secondData MAX_UINT256 (fill_output sample) (fill_output sample)
        | Buy => hopFill secondSource secondData (fill_input sample) MAX_UINT256 MAX_UINT256
        end in
      first ← createBridgeOrder firstHopFill intermediateToken takerToken side;
      second ← createBridgeOrder secondHopFill makerToken intermediateToken side;
      mret {| firstHopOrder := first; secondHopOrder := second |}
  | _ => Throw TypeError
  end.
End Orders.

Section Shapes.
Context {B : BigNumberLib}.

(** ** Shapes of fill data

    [has_shape s fd]: [fd] is the fill data the sampler attaches to samples of
    source [s]. *)
Definition is_FDCurve (fd : FillData) := match fd with FDCurve _ _ _ => true | _ => false end.
Definition is_FDUniswapV2 (fd : FillData) := match fd with FDUniswapV2 _ _ => true | _ => false end.
Definition is_FDShell (fd : FillData) := match fd with FDShell _ => true | _ => false end.
Definition is_FDGenericRouter (fd : FillData) :=
  match fd with FDGenericRouter _ => true | _ => false end.
Definition is_FDBalancerV2Batch (fd : FillData) :=
  match fd with FDBalancerV2Batch _ _ _ _ => true | _ => false end.
Definition is_FDBancor (fd : FillData) := match fd with FDBancor _ _ => true | _ => false end.
Definition is_FDDodo (fd : FillData) := match fd with FDDodo _ _ _ => true | _ => false end.
Definition is_FDVelodrome (fd : FillData) := match fd with FDVelodrome _ _ => true | _ => false end.

Definition has_shape (source : ERC20BridgeSource) (fd : FillData) : bool :=
  match source with
  | ERC20BridgeSource.Native => match fd with FDNative _ => true | _ => false end
  | ERC20BridgeSource.MultiHop =>
      match fd with FDMultiHop (Some _) (Some _) _ => true | _ => false end
  | ERC20BridgeSource.Curve | ERC20BridgeSource.CurveV2 | ERC20BridgeSource.Nerve
  | ERC20BridgeSource.Synapse | ERC20BridgeSource.Belt | ERC20BridgeSource.Ellipsis
  | ERC20BridgeSource.Saddle | ERC20BridgeSource.FirebirdOneSwap
  | ERC20BridgeSource.IronSwap | ERC20BridgeSource.ACryptos
  | ERC20BridgeSource.MobiusMoney => is_FDCurve fd
  | ERC20BridgeSource.Bancor | ERC20BridgeSource.BancorV3 => is_FDBancor fd
  | ERC20BridgeSource.Shell | ERC20BridgeSource.Component => is_FDShell fd
  | ERC20BridgeSource.Mooniswap => match fd with FDMooniswap _ => true | _ => false end
  | ERC20BridgeSource.MStable | ERC20BridgeSource.Uniswap => is_FDGenericRouter fd
  | ERC20BridgeSource.Balancer => match fd with FDBalancer _ => true | _ => false end
  | ERC20BridgeSource.BalancerV2 | ERC20BridgeSource.Beethovenx => is_FDBalancerV2Batch fd
  | ERC20BridgeSource.Dodo => match fd with FDDodo _ _ (Some _) => true | _ => false end
  | ERC20BridgeSource.DodoV2 => is_FDDodo fd
  | ERC20BridgeSource.GMX => match fd with FDGMX _ _ _ _ => true | _ => false end
  | ERC20BridgeSource.Platypus => match fd with FDPlatypus _ _ _ => true | _ => false end
  | ERC20BridgeSource.MakerPsm => match fd with FDMakerPsm _ _ _ _ => true | _ => false end
  | ERC20BridgeSource.UniswapV3 =>
      match fd with FDTickDEXMultiPath _ _ _ | FDFinalTickDEXMultiPath _ _ _ _ => true | _ => false end
  | ERC20BridgeSource.KyberDmm => match fd with FDKyberDmm _ _ _ => true | _ => false end
  | ERC20BridgeSource.Lido => match fd with FDLido _ _ _ _ => true | _ => false end
  | ERC20BridgeSource.AaveV2 => match fd with FDAaveV2 _ _ _ _ => true | _ => false end
  | ERC20BridgeSource.AaveV3 => match fd with FDAaveV3 _ _ _ _ _ => true | _ => false end
  | ERC20BridgeSource.Compound => match fd with FDCompound _ _ _ => true | _ => false end
  | ERC20BridgeSource.Velodrome | ERC20BridgeSource.Dystopia => is_FDVelodrome fd
  | ERC20BridgeSource.Synthetix => match fd with FDSynthetix _ _ _ _ => true | _ => false end
  | ERC20BridgeSource.WOOFi => match fd with FDWOOFi _ _ _ _ => true | _ => false end
  | _ => is_FDUniswapV2 fd
  end.

(** What a sampler attaches: a tick path is finalised only when it is made
    into an order. *)
Definition is_final_tick (fd : FillData) : bool :=
  match fd with FDFinalTickDEXMultiPath _ _ _ _ => true | _ => false end.
Definition sampled_shape (source : ERC20BridgeSource) (fd : FillData) : bool :=
  has_shape source fd && negb (is_final_tick fd).

(** [typed t v]: the value [v] is accepted by the ABI type [t]. *)
Fixpoint typed (t : AbiType.t) (v : AbiValue) {struct t} : bool :=
  match t, v with
  | AbiType.address, VString _ | AbiType.bytes, VString _ | AbiType.bytes4, VString _
  | AbiType.bytes32, VString _ => true
  | AbiType.bool_t, VBool _ => true
  | AbiType.int128, VNumber _ | AbiType.uint256, VNumber _ | AbiType.uint256, VAmount _ => true
  | AbiType.array t', VArray l => forallb (typed t') l
  | AbiType.tuple ts, VTuple l =>
      (fix all2 (ts : list AbiType.t) (l : list AbiValue) {struct ts} : bool :=
         match ts, l with
         | [], [] => true
         | t' :: ts', v' :: l' => typed t' v' && all2 ts' l'
         | _, _ => false
         end) ts l
  | _, _ => false
  end.

Fixpoint typed_all (ts : list AbiType.t) (vs : list AbiValue) : bool :=
  match ts, vs with
  | [], [] => true
  | t :: ts', v :: vs' => typed t v && typed_all ts' vs'
  | _, _ => false
  end.

Lemma typed_VStrings l : typed (AbiType.array AbiType.address) (VStrings l) = true.
Proof. simpl. by induction l. Qed.

Lemma typed_swapSteps l :
  typed (AbiType.array (AbiType.tuple
     [AbiType.bytes32; AbiType.uint256; AbiType.uint256; AbiType.uint256; AbiType.bytes]))
    (VArray (swapStep_value <$> l)) = true.
Proof. simpl. induction l as [|s l IH]; simpl; [done|]. exact IH. Qed.

(** The Aave V3 bridge needs the L2 parameter encoded for the amount of the
    order. *)
Definition aave_param_found (o : OptimizedOrder) : bool :=
  match opt_fillData o with
  | FDAaveV3 _ _ _ _ ps =>
      existsb (λ l, isEqualTo (l2_inputAmount l) (opt_makerAmount o)
                    || isEqualTo (l2_inputAmount l) (opt_takerAmount o)) ps
  | _ => true
  end.

Definition is_final (fd : FillData) : bool :=
  match fd with FDTickDEXMultiPath _ _ _ => false | _ => true end.

Lemma list_find_existsb {A} (p : A → bool) l :
  existsb p l = true → ∃ i x, list_find (λ y, Is_true (p y)) l = Some (i, x).
Proof.
  induction l as [|x l IH]; simpl; [done|]. destruct (p x) eqn:E; simpl.
  - intros _. by exists 0%nat, x.
  - intros (i & y & Hy)%IH. exists (S i), y. by rewrite Hy.
Qed.

(** Every bridge source has an identifier, an ABI schema and a case that
    feeds the schema with values of its types: an order of any bridge source
    whose fill data has the shape of its source encodes, and what is encoded is
    well typed.  The two pseudo sources are refused. *)
Theorem bridge_data_well_typed encodeBridgeSourceId abi_encode (o : OptimizedOrder) :
  let s := opt_source o in
  match s with
  | ERC20BridgeSource.Native | ERC20BridgeSource.MultiHop =>
      getErc20BridgeSourceToBridgeSource encodeBridgeSourceId s = Throw Errors.NoBridgeForSource ∧
      createBridgeDataForBridgeOrder abi_encode o = Throw Errors.InvalidOrderToEncode
  | _ =>
      is_ok (getErc20BridgeSourceToBridgeSource encodeBridgeSourceId s) = true ∧
      (has_shape s (opt_fillData o) && is_final (opt_fillData o) && aave_param_found o = true →
       ∃ schema values, BRIDGE_ENCODERS s = Some schema ∧ bridge_values o = Ok values ∧
         typed_all schema values = true ∧
         createBridgeDataForBridgeOrder abi_encode o = Ok (abi_encode schema values))
  end.
Proof.
  destruct o as [s fd type mk tk ma ta fb].
  simpl. destruct s; try (split; reflexivity); (split; [reflexivity|]);
    unfold aave_param_found; simpl; destruct fd as [| | | | | | | | | ? ? [|]| | | | | | | | | | | | | | |];
    simpl; try discriminate.
  all: try (intros _; do 2 eexists; split_and!; [reflexivity | reflexivity | | reflexivity];
            unfold routerAddressPathEncoder, balancerV2BatchEncoder; cbn [typed_all];
            by rewrite ?typed_swapSteps, ?typed_VStrings).
  intros (i & l & Hl)%list_find_existsb. unfold createBridgeDataForBridgeOrder, bridge_values. simpl.
  rewrite Hl. do 2 eexists. split_and!; reflexivity.
Qed.

(** The Uniswap V3 path of an order is the first one, in the given order, that
    is not empty and was sampled for at least the input; when none is large
    enough, the last one that is not empty. *)
Theorem best_uniswap_path_spec paths x best :
  getBestUniswapV3PathAmountForInputAmount paths x = Ok best →
  let usable := bfilter (λ p, negb (bool_decide (pa_path p = "0x"%string))) paths in
  pa_path best ≠ "0x"%string ∧
  ∃ pre post, usable = pre ++ best :: post ∧
    Forall (λ p, lte x (pa_inputAmount p) = false) pre ∧
    (lte x (pa_inputAmount best) = true ∨ post = [] ∧ lte x (pa_inputAmount best) = false).
Proof.
  intros H usable. unfold getBestUniswapV3PathAmountForInputAmount, gte in H.
  assert (best ∈ usable → pa_path best ≠ "0x"%string) as Hpath.
  { intros [_ Hn]%elem_of_bfilter. apply negb_true_iff, bool_decide_eq_false in Hn. done. }
  destruct paths as [|p0 paths']; [done|]. set (paths := p0 :: paths') in *.
  fold usable in H. destruct (list_find _ usable) as [[i p]|] eqn:E.
  - injection H as ->. apply list_find_Some in E as (Hi & Hp & Hpre).
    split; [apply Hpath; by eapply list_elem_of_lookup_2|].
    exists (take i usable), (drop (S i) usable). split_and!.
    + by rewrite take_drop_middle.
    + apply Forall_lookup. intros j y Hj%lookup_take_Some. destruct Hj as [Hj Hlt].
      apply not_true_iff_false. intros Ht. by eapply Hpre; [..|apply Is_true_true].
    + left. by apply Is_true_true.
  - apply list_find_None in E. destruct (last usable) as [q|] eqn:El; [|done].
    injection H as ->. apply last_Some in El as [pre Epre].
    split; [apply Hpath; rewrite Epre; set_solver|].
    exists pre, []. rewrite Epre in E. apply Forall_app in E as [Hpre Hq]. split_and!.
    + done.
    + eapply Forall_impl; [exact Hpre|]. intros y Hy. apply not_true_iff_false.
      intros ?. by apply Hy, Is_true_true.
    + right. split; [done|]. apply Forall_cons in Hq as [Hq _]. apply not_true_iff_false.
      intros ?. by apply Hq, Is_true_true.
Qed.

(** A two-hop fill settles as two bridge orders that chain through the
    intermediate token: the first leaves the taker token, the second delivers
    the maker token; the exact amount of the fill bounds the outer leg on each
    side and the open amount of the inner leg is zero or [MAX_UINT256]. *)
Theorem two_hop_orders_chain f ctx s1 fd1 s2 fd2 mid th :
  fill_fillData f = FDMultiHop (Some (s1, fd1)) (Some (s2, fd2)) mid →
  createOrdersFromTwoHopSample f ctx = Ok th →
  let (makerToken, takerToken) := getMakerTakerTokens ctx in
  let a := firstHopOrder th in let b := secondHopOrder th in
  opt_source a = s1 ∧ opt_source b = s2 ∧
  opt_takerToken a = takerToken ∧ opt_makerToken a = mid ∧
  opt_takerToken b = mid ∧ opt_makerToken b = makerToken ∧
  opt_type a = FillQuoteTransformerOrderType.Bridge ∧
  opt_type b = FillQuoteTransformerOrderType.Bridge ∧
  match ctx_side ctx with
  | Sell => opt_takerAmount a = fill_input f ∧ opt_makerAmount a = integerValue ROUND_DOWN ZERO_AMOUNT ∧
            opt_takerAmount b = MAX_UINT256 ∧ opt_makerAmount b = integerValue ROUND_DOWN (fill_output f)
  | Buy => opt_takerAmount a = integerValue ROUND_UP (fill_output f) ∧ opt_makerAmount a = ZERO_AMOUNT ∧
           opt_takerAmount b = integerValue ROUND_UP MAX_UINT256 ∧ opt_makerAmount b = fill_input f
  end.
Proof.
  intros Hfd H. unfold createOrdersFromTwoHopSample in H. rewrite Hfd in H.
  destruct (getMakerTakerTokens ctx) as [mk tk]. ok_inv H. injection H as <-.
  unfold createBridgeOrder in *. ok_inv E. injection E as <-. ok_inv E0. injection E0 as <-.
  destruct (ctx_side ctx); simpl; done.
Qed.
End Shapes.

(** ** Concrete orders *)
Import Concrete.

Definition ex_aave_order : OptimizedOrder :=
  {| opt_source := ERC20BridgeSource.AaveV3;
     opt_fillData := FDAaveV3 "0xpool" "0xa" None None
       [{| l2_inputAmount := of_Z 5; l2_parameter := "0x05" |};
        {| l2_inputAmount := of_Z 7; l2_parameter := "0x07" |}];
     opt_type := FillQuoteTransformerOrderType.Bridge;
     opt_makerToken := "0xu"; opt_takerToken := "0xa";
     opt_makerAmount := of_Z 7; opt_takerAmount := of_Z 9;
     opt_fill := {| base_input := of_Z 7; base_output := of_Z 9;
                    base_adjustedOutput := of_Z 9; base_gas := n_Z 1 |} |}.

Lemma bridge_data_well_typed_witness :
  ∃ schema values, BRIDGE_ENCODERS ERC20BridgeSource.AaveV3 = Some schema ∧
    bridge_values ex_aave_order = Ok values ∧ typed_all schema values = true ∧
    createBridgeDataForBridgeOrder (λ _ _, "0xdata"%string) ex_aave_order = Ok "0xdata"%string.
Proof.
  apply (bridge_data_well_typed (λ _ s, s) (λ _ _, "0xdata"%string) ex_aave_order).
  reflexivity.
Defined.

Definition ex_paths : list PathAmount :=
  [{| pa_path := "0x"; pa_inputAmount := of_Z 1; pa_gasUsed := n_Z 0 |};
   {| pa_path := "0xa"; pa_inputAmount := of_Z 10; pa_gasUsed := n_Z 1 |};
   {| pa_path := "0xb"; pa_inputAmount := of_Z 20; pa_gasUsed := n_Z 2 |}].

Lemma best_uniswap_path_spec_witness :
  ∃ best, getBestUniswapV3PathAmountForInputAmount ex_paths (of_Z 15) = Ok best ∧
    pa_path best = "0xb"%string ∧ pa_path best ≠ "0x"%string.
Proof.
  eexists. split; [reflexivity|]. split; [reflexivity|].
  refine (proj1 (best_uniswap_path_spec ex_paths (of_Z 15) _ _)). reflexivity.
Defined.

Definition ex_hop_fill : Fill :=
  {| fill_source := ERC20BridgeSource.MultiHop; fill_type := FillQuoteTransformerOrderType.Bridge;
     fill_fillData := FDMultiHop (Some (ERC20BridgeSource.Mooniswap, FDMooniswap "0x1"))
                        (Some (ERC20BridgeSource.Shell, FDShell "0x2")) "0xmid";
     fill_sourcePathId := "h"; fill_flags := source_flag ERC20BridgeSource.MultiHop;
     fill_input := of_Z 100; fill_output := of_Z 250; fill_adjustedOutput := of_Z 240;
     fill_gas := n_Z 0 |}.

Definition ex_ctx : PathContext :=
  {| ctx_side := Sell; ctx_inputToken := "0xin"; ctx_outputToken := "0xout" |}.

Lemma two_hop_orders_chain_witness :
  ∃ th, createOrdersFromTwoHopSample ex_hop_fill ex_ctx = Ok th ∧
    opt_source (firstHopOrder th) = ERC20BridgeSource.Mooniswap ∧
    opt_makerToken (firstHopOrder th) = "0xmid"%string.
Proof.
  eexists. split; [reflexivity|].
  edestruct (two_hop_orders_chain ex_hop_fill ex_ctx) as (H1 & _ & _ & H2 & _);
    [reflexivity | reflexivity | split; [exact H1 | exact H2]].
Defined.
