(* ===== verification/Constants.v ===== *)
(** * Chain tables and the gas schedule ([market_operation_utils/constants.ts])

    Which sources a chain may use for sells, buys, fee quotes and VIP routes,
    and the gas a fill of every source costs. *)

From S2P Require Import Prelude JsNumber BigNum Types SourceFilters Orders.

(** ** Per-chain tables *)

(** [valueByChainId(rest, defaultValue)]: the entries of [rest] override the
    default, a later entry an earlier one. *)
Definition valueByChainId {A} (rest : list (ChainId * A)) (defaultValue : A) (chainId : ChainId) : A :=
  match list_find (λ e, e.1 = chainId) (rev rest) with
  | Some (_, (_, v)) => v
  | None => defaultValue
  end.

(** Valid sources for a market sell. *)
Definition SELL_SOURCE_FILTER_BY_CHAIN_ID (chainId : ChainId) : SourceFilters.t :=
  match chainId with
  | ChainId.Mainnet => SourceFilters.new
      [ERC20BridgeSource.Native; ERC20BridgeSource.Uniswap; ERC20BridgeSource.UniswapV2;
       ERC20BridgeSource.Curve; ERC20BridgeSource.Balancer; ERC20BridgeSource.BalancerV2;
       ERC20BridgeSource.Bancor; ERC20BridgeSource.BancorV3; ERC20BridgeSource.MStable;
       ERC20BridgeSource.SushiSwap; ERC20BridgeSource.Shell; ERC20BridgeSource.MultiHop;
       ERC20BridgeSource.Dodo; ERC20BridgeSource.DodoV2; ERC20BridgeSource.CryptoCom;
       ERC20BridgeSource.Lido; ERC20BridgeSource.MakerPsm; ERC20BridgeSource.KyberDmm;
       ERC20BridgeSource.Component; ERC20BridgeSource.Saddle; ERC20BridgeSource.UniswapV3;
       ERC20BridgeSource.CurveV2; ERC20BridgeSource.ShibaSwap; ERC20BridgeSource.Synapse;
       ERC20BridgeSource.Synthetix; ERC20BridgeSource.AaveV2; ERC20BridgeSource.Compound] [] []
  | ChainId.Goerli => SourceFilters.new
      [ERC20BridgeSource.Native; ERC20BridgeSource.SushiSwap; ERC20BridgeSource.Uniswap;
       ERC20BridgeSource.UniswapV2; ERC20BridgeSource.UniswapV3; ERC20BridgeSource.MultiHop] [] []
  | ChainId.Ganache => SourceFilters.new
      [ERC20BridgeSource.Native] [] []
  | ChainId.BSC => SourceFilters.new
      [ERC20BridgeSource.BakerySwap; ERC20BridgeSource.Belt; ERC20BridgeSource.Dodo;
       ERC20BridgeSource.DodoV2; ERC20BridgeSource.Ellipsis; ERC20BridgeSource.Mooniswap;
       ERC20BridgeSource.MultiHop; ERC20BridgeSource.Nerve; ERC20BridgeSource.Synapse;
       ERC20BridgeSource.PancakeSwap; ERC20BridgeSource.PancakeSwapV2;
       ERC20BridgeSource.SushiSwap; ERC20BridgeSource.ApeSwap; ERC20BridgeSource.WaultSwap;
       ERC20BridgeSource.FirebirdOneSwap; ERC20BridgeSource.ACryptos; ERC20BridgeSource.KyberDmm;
       ERC20BridgeSource.BiSwap; ERC20BridgeSource.MDex; ERC20BridgeSource.KnightSwap;
       ERC20BridgeSource.WOOFi] [] []
  | ChainId.Polygon => SourceFilters.new
      [ERC20BridgeSource.Native; ERC20BridgeSource.SushiSwap; ERC20BridgeSource.QuickSwap;
       ERC20BridgeSource.Dfyn; ERC20BridgeSource.MStable; ERC20BridgeSource.Curve;
       ERC20BridgeSource.DodoV2; ERC20BridgeSource.Dodo; ERC20BridgeSource.CurveV2;
       ERC20BridgeSource.WaultSwap; ERC20BridgeSource.ApeSwap; ERC20BridgeSource.FirebirdOneSwap;
       ERC20BridgeSource.BalancerV2; ERC20BridgeSource.KyberDmm; ERC20BridgeSource.MultiHop;
       ERC20BridgeSource.IronSwap; ERC20BridgeSource.AaveV2; ERC20BridgeSource.UniswapV3;
       ERC20BridgeSource.Synapse; ERC20BridgeSource.MeshSwap; ERC20BridgeSource.WOOFi;
       ERC20BridgeSource.AaveV3] [] []
  | ChainId.PolygonMumbai => SourceFilters.new
      [ERC20BridgeSource.Native; ERC20BridgeSource.UniswapV3] [] []
  | ChainId.Avalanche => SourceFilters.new
      [ERC20BridgeSource.MultiHop; ERC20BridgeSource.Pangolin; ERC20BridgeSource.TraderJoe;
       ERC20BridgeSource.SushiSwap; ERC20BridgeSource.Curve; ERC20BridgeSource.CurveV2;
       ERC20BridgeSource.KyberDmm; ERC20BridgeSource.AaveV2; ERC20BridgeSource.Synapse;
       ERC20BridgeSource.GMX; ERC20BridgeSource.Platypus; ERC20BridgeSource.WOOFi;
       ERC20BridgeSource.AaveV3] [] []
  | ChainId.Fantom => SourceFilters.new
      [ERC20BridgeSource.MultiHop; ERC20BridgeSource.Beethovenx; ERC20BridgeSource.Curve;
       ERC20BridgeSource.CurveV2; ERC20BridgeSource.MorpheusSwap; ERC20BridgeSource.SpiritSwap;
       ERC20BridgeSource.SpookySwap; ERC20BridgeSource.SushiSwap; ERC20BridgeSource.Synapse;
       ERC20BridgeSource.Yoshi; ERC20BridgeSource.WOOFi] [] []
  | ChainId.Celo => SourceFilters.new
      [ERC20BridgeSource.UbeSwap; ERC20BridgeSource.SushiSwap; ERC20BridgeSource.MultiHop;
       ERC20BridgeSource.MobiusMoney] [] []
  | ChainId.Optimism => SourceFilters.new
      [ERC20BridgeSource.UniswapV3; ERC20BridgeSource.Synapse; ERC20BridgeSource.Curve;
       ERC20BridgeSource.CurveV2; ERC20BridgeSource.MultiHop; ERC20BridgeSource.Saddle;
       ERC20BridgeSource.Velodrome; ERC20BridgeSource.Synthetix; ERC20BridgeSource.Beethovenx;
       ERC20BridgeSource.AaveV3; ERC20BridgeSource.WOOFi] [] []
  | ChainId.Arbitrum => SourceFilters.new
      [ERC20BridgeSource.UniswapV3; ERC20BridgeSource.SushiSwap; ERC20BridgeSource.BalancerV2;
       ERC20BridgeSource.Synapse; ERC20BridgeSource.CurveV2; ERC20BridgeSource.GMX;
       ERC20BridgeSource.MultiHop; ERC20BridgeSource.Saddle; ERC20BridgeSource.AaveV3;
       ERC20BridgeSource.WOOFi] [] []
  end.

(** Valid sources for a market buy. *)
Definition BUY_SOURCE_FILTER_BY_CHAIN_ID (chainId : ChainId) : SourceFilters.t :=
  match chainId with
  | ChainId.Mainnet => SourceFilters.new
      [ERC20BridgeSource.Native; ERC20BridgeSource.Uniswap; ERC20BridgeSource.UniswapV2;
       ERC20BridgeSource.Curve; ERC20BridgeSource.Balancer; ERC20BridgeSource.BalancerV2;
       ERC20BridgeSource.BancorV3; ERC20BridgeSource.MStable; ERC20BridgeSource.Shell;
       ERC20BridgeSource.SushiSwap; ERC20BridgeSource.MultiHop; ERC20BridgeSource.Dodo;
       ERC20BridgeSource.DodoV2; ERC20BridgeSource.Lido; ERC20BridgeSource.CryptoCom;
       ERC20BridgeSource.MakerPsm; ERC20BridgeSource.KyberDmm; ERC20BridgeSource.Component;
       ERC20BridgeSource.Saddle; ERC20BridgeSource.UniswapV3; ERC20BridgeSource.CurveV2;
       ERC20BridgeSource.ShibaSwap; ERC20BridgeSource.Synapse; ERC20BridgeSource.Synthetix;
       ERC20BridgeSource.AaveV2; ERC20BridgeSource.Compound] [] []
  | ChainId.Goerli => SourceFilters.new
      [ERC20BridgeSource.Native; ERC20BridgeSource.SushiSwap; ERC20BridgeSource.Uniswap;
       ERC20BridgeSource.UniswapV2; ERC20BridgeSource.UniswapV3; ERC20BridgeSource.MultiHop] [] []
  | ChainId.Ganache => SourceFilters.new
      [ERC20BridgeSource.Native] [] []
  | ChainId.BSC => SourceFilters.new
      [ERC20BridgeSource.BakerySwap; ERC20BridgeSource.Belt; ERC20BridgeSource.Dodo;
       ERC20BridgeSource.DodoV2; ERC20BridgeSource.Ellipsis; ERC20BridgeSource.Mooniswap;
       ERC20BridgeSource.MultiHop; ERC20BridgeSource.Nerve; ERC20BridgeSource.Synapse;
       ERC20BridgeSource.PancakeSwap; ERC20BridgeSource.PancakeSwapV2;
       ERC20BridgeSource.SushiSwap; ERC20BridgeSource.ApeSwap; ERC20BridgeSource.WaultSwap;
       ERC20BridgeSource.FirebirdOneSwap; ERC20BridgeSource.ACryptos; ERC20BridgeSource.KyberDmm;
       ERC20BridgeSource.BiSwap; ERC20BridgeSource.MDex; ERC20BridgeSource.KnightSwap;
       ERC20BridgeSource.WOOFi] [] []
  | ChainId.Polygon => SourceFilters.new
      [ERC20BridgeSource.Native; ERC20BridgeSource.SushiSwap; ERC20BridgeSource.QuickSwap;
       ERC20BridgeSource.Dfyn; ERC20BridgeSource.MStable; ERC20BridgeSource.Curve;
       ERC20BridgeSource.DodoV2; ERC20BridgeSource.Dodo; ERC20BridgeSource.CurveV2;
       ERC20BridgeSource.WaultSwap; ERC20BridgeSource.ApeSwap; ERC20BridgeSource.FirebirdOneSwap;
       ERC20BridgeSource.BalancerV2; ERC20BridgeSource.KyberDmm; ERC20BridgeSource.MultiHop;
       ERC20BridgeSource.IronSwap; ERC20BridgeSource.AaveV2; ERC20BridgeSource.UniswapV3;
       ERC20BridgeSource.Synapse; ERC20BridgeSource.MeshSwap; ERC20BridgeSource.WOOFi;
       ERC20BridgeSource.AaveV3] [] []
  | ChainId.PolygonMumbai => SourceFilters.new
      [ERC20BridgeSource.Native; ERC20BridgeSource.UniswapV3] [] []
  | ChainId.Avalanche => SourceFilters.new
      [ERC20BridgeSource.MultiHop; ERC20BridgeSource.Pangolin; ERC20BridgeSource.TraderJoe;
       ERC20BridgeSource.SushiSwap; ERC20BridgeSource.Curve; ERC20BridgeSource.CurveV2;
       ERC20BridgeSource.KyberDmm; ERC20BridgeSource.AaveV2; ERC20BridgeSource.Synapse;
       ERC20BridgeSource.GMX; ERC20BridgeSource.Platypus; ERC20BridgeSource.WOOFi;
       ERC20BridgeSource.AaveV3] [] []
  | ChainId.Fantom => SourceFilters.new
      [ERC20BridgeSource.MultiHop; ERC20BridgeSource.Beethovenx; ERC20BridgeSource.Curve;
       ERC20BridgeSource.CurveV2; ERC20BridgeSource.MorpheusSwap; ERC20BridgeSource.SpiritSwap;
       ERC20BridgeSource.SpookySwap; ERC20BridgeSource.SushiSwap; ERC20BridgeSource.Synapse;
       ERC20BridgeSource.Yoshi; ERC20BridgeSource.WOOFi] [] []
  | ChainId.Celo => SourceFilters.new
      [ERC20BridgeSource.UbeSwap; ERC20BridgeSource.SushiSwap; ERC20BridgeSource.MultiHop;
       ERC20BridgeSource.MobiusMoney] [] []
  | ChainId.Optimism => SourceFilters.new
      [ERC20BridgeSource.UniswapV3; ERC20BridgeSource.Synapse; ERC20BridgeSource.Curve;
       ERC20BridgeSource.CurveV2; ERC20BridgeSource.MultiHop; ERC20BridgeSource.Saddle;
       ERC20BridgeSource.Velodrome; ERC20BridgeSource.Synthetix; ERC20BridgeSource.Beethovenx;
       ERC20BridgeSource.AaveV3; ERC20BridgeSource.WOOFi] [] []
  | ChainId.Arbitrum => SourceFilters.new
      [ERC20BridgeSource.UniswapV3; ERC20BridgeSource.SushiSwap; ERC20BridgeSource.BalancerV2;
       ERC20BridgeSource.Synapse; ERC20BridgeSource.CurveV2; ERC20BridgeSource.GMX;
       ERC20BridgeSource.MultiHop; ERC20BridgeSource.Saddle; ERC20BridgeSource.AaveV3;
       ERC20BridgeSource.WOOFi] [] []
  end.

(** Sources polled for the price of the fee token. *)
Definition FEE_QUOTE_SOURCES_BY_CHAIN_ID : ChainId → list ERC20BridgeSource :=
  valueByChainId
    [(ChainId.Mainnet,
      [ERC20BridgeSource.UniswapV2; ERC20BridgeSource.SushiSwap; ERC20BridgeSource.UniswapV3;
       ERC20BridgeSource.Lido]);
     (ChainId.BSC,
      [ERC20BridgeSource.PancakeSwap; ERC20BridgeSource.Mooniswap; ERC20BridgeSource.SushiSwap]);
     (ChainId.Goerli,
      [ERC20BridgeSource.UniswapV2; ERC20BridgeSource.SushiSwap]);
     (ChainId.PolygonMumbai,
      [ERC20BridgeSource.UniswapV3]);
     (ChainId.Polygon,
      [ERC20BridgeSource.QuickSwap; ERC20BridgeSource.SushiSwap; ERC20BridgeSource.UniswapV3]);
     (ChainId.Avalanche,
      [ERC20BridgeSource.Pangolin; ERC20BridgeSource.TraderJoe; ERC20BridgeSource.SushiSwap]);
     (ChainId.Fantom,
      [ERC20BridgeSource.SpiritSwap; ERC20BridgeSource.SpookySwap; ERC20BridgeSource.SushiSwap]);
     (ChainId.Celo,
      [ERC20BridgeSource.UbeSwap; ERC20BridgeSource.SushiSwap]);
     (ChainId.Optimism,
      [ERC20BridgeSource.UniswapV3]);
     (ChainId.Arbitrum,
      [ERC20BridgeSource.UniswapV3; ERC20BridgeSource.SushiSwap])] [].

(** Sources the exchange proxy settles without the transformer; the set is a list here, since only membership is asked. *)
Definition VIP_ERC20_BRIDGE_SOURCES_BY_CHAIN_ID : ChainId → list ERC20BridgeSource :=
  valueByChainId
    [(ChainId.Mainnet,
      [ERC20BridgeSource.UniswapV2; ERC20BridgeSource.SushiSwap; ERC20BridgeSource.UniswapV3;
       ERC20BridgeSource.Curve; ERC20BridgeSource.Native]);
     (ChainId.BSC,
      [ERC20BridgeSource.PancakeSwap; ERC20BridgeSource.PancakeSwapV2;
       ERC20BridgeSource.BakerySwap; ERC20BridgeSource.SushiSwap; ERC20BridgeSource.ApeSwap;
       ERC20BridgeSource.Native])] [].


(** ** Coherence of the tables *)

(** What settling an order of source [s] needs: the pseudo sources are
    settled apart, a bridge needs its identifier and its ABI schema. *)
Definition settleable (encodeBridgeSourceId : BridgeProtocol → string → string)
    (s : ERC20BridgeSource) : bool :=
  match s with
  | ERC20BridgeSource.Native | ERC20BridgeSource.MultiHop => true
  | _ => is_ok (getErc20BridgeSourceToBridgeSource encodeBridgeSourceId s)
         && match BRIDGE_ENCODERS s with Some _ => true | None => false end
  end.

Lemma forallb_elem {A} (p : A → bool) l : forallb p l = true → ∀ x, x ∈ l → p x = true.
Proof.
  induction l as [|y l IH]; simpl; [set_solver|].
  intros [Hy Hl]%andb_true_iff x [->|Hx]%elem_of_cons; auto.
Qed.

(** On every chain: a source that can be bought from can be sold to, the fee
    token is priced with sources that are valid for sells, every valid source
    can be settled, and every VIP source but the pseudo source of native
    orders is valid for sells. *)
Theorem chain_tables_coherent encodeBridgeSourceId chainId :
  let sell := SourceFilters.sources (SELL_SOURCE_FILTER_BY_CHAIN_ID chainId) in
  let buy := SourceFilters.sources (BUY_SOURCE_FILTER_BY_CHAIN_ID chainId) in
  (∀ s, s ∈ buy → s ∈ sell) ∧
  (∀ s, s ∈ FEE_QUOTE_SOURCES_BY_CHAIN_ID chainId → s ∈ sell) ∧
  (∀ s, s ∈ VIP_ERC20_BRIDGE_SOURCES_BY_CHAIN_ID chainId →
        s = ERC20BridgeSource.Native ∨ s ∈ sell) ∧
  (∀ s, s ∈ sell → settleable encodeBridgeSourceId s = true).
Proof.
  intros sell buy. split_and!.
  - intros s Hs. apply includes_true. revert s Hs. apply forallb_elem. by destruct chainId.
  - intros s Hs. apply includes_true. revert s Hs. apply forallb_elem. by destruct chainId.
  - intros s Hs.
    assert (bool_decide (s = ERC20BridgeSource.Native) || includes sell s = true) as H.
    { revert s Hs. apply (forallb_elem (λ s, bool_decide (s = ERC20BridgeSource.Native)
        || includes sell s)). by destruct chainId. }
    apply orb_true_iff in H as [H|H]; [left; by apply bool_decide_eq_true in H|].
    right. by apply includes_true.
  - apply forallb_elem. by destruct chainId.
Qed.

Lemma chain_tables_coherent_witness :
  ERC20BridgeSource.KyberDmm
  ∈ SourceFilters.sources (SELL_SOURCE_FILTER_BY_CHAIN_ID ChainId.Polygon).
Proof.
  apply (proj1 (chain_tables_coherent (λ _ s, s) ChainId.Polygon)). decide_now.
Defined.
