(* ===== verification/GasSchedule.v ===== *)
(** * The gas schedule ([market_operation_utils/constants.ts])

    The gas a fill of every source costs, as the default fee schedule reads it
    from the fill data. *)

From S2P Require Import Prelude JsNumber BigNum Types Orders.

Module BSC_TOKENS.
Definition BUSD := "0xe9e7cea3dedca5984780bafc599bd69add087d56"%string.
End BSC_TOKENS.
Module AVALANCHE_TOKENS.
Definition nUSDC := "0xb97ef9ef8734c71904d8002f8b6bc66dd9c48a6e"%string.
End AVALANCHE_TOKENS.
Module FANTOM_TOKENS.
Definition USDC := "0x04068da6c83afcfa0e13ba15a6696662335d5b75"%string.
End FANTOM_TOKENS.
Module POLYGON_TOKENS.
Definition USDC := "0x2791bca1f2de4661ed88a30c99a7a9449aa84174"%string.
End POLYGON_TOKENS.
Module ARBITRUM_TOKENS.
Definition USDC := "0xff970a61a04b1ca14834a43f5de4533ebddb5cc8"%string.
End ARBITRUM_TOKENS.
Module OPTIMISM_TOKENS.
Definition USDC := "0x7f5c764cbc14f9669b88837ca1490cca17c31607"%string.
End OPTIMISM_TOKENS.

Section GasSchedule.
Context {B : BigNumberLib}.

(** [parseBytes32String] of [@ethersproject/strings] and the wrapped ether of
    mainnet ([getContractAddressesForChainOrThrow]). *)
Variable parseBytes32String : string → string.
Variable wethAddress : string.

(** Property reads on fill data: [None] is [undefined]. *)
Definition fd_tokenAddressPath (fd : FillData) : option (list string) :=
  match fd with
  | FDUniswapV2 p _ | FDTickDEXMultiPath p _ _ | FDFinalTickDEXMultiPath _ p _ _
  | FDKyberDmm p _ _ | FDGMX _ _ _ p | FDPlatypus _ _ p => Some p
  | _ => None
  end.
Definition fd_swapSteps (fd : FillData) : option (list BalancerBatchSwapStep) :=
  match fd with FDBalancerV2Batch _ steps _ _ => Some steps | _ => None end.
Definition fd_takerToken (fd : FillData) : option string :=
  match fd with
  | FDAaveV2 _ _ _ t | FDAaveV3 _ _ _ t _ => t
  | FDMakerPsm _ _ t _ | FDLido _ _ t _ | FDCompound _ t _ | FDWOOFi _ t _ _ => Some t
  | _ => None
  end.
Definition fd_makerToken (fd : FillData) : option string :=
  match fd with FDLido _ _ _ m | FDCompound _ _ m | FDWOOFi _ _ m _ => Some m | _ => None end.
Definition fd_gemTokenAddress (fd : FillData) : option string :=
  match fd with FDMakerPsm _ g _ _ => Some g | _ => None end.
Definition fd_underlyingToken (fd : FillData) : option string :=
  match fd with FDAaveV2 _ _ u _ | FDAaveV3 _ _ u _ _ => u | _ => None end.
Definition fd_stEthTokenAddress (fd : FillData) : option string :=
  match fd with FDLido s _ _ _ => Some s | _ => None end.
Definition fd_cToken (fd : FillData) : option string :=
  match fd with FDCompound c _ _ => Some c | _ => None end.
Definition fd_chainId (fd : FillData) : option ChainId :=
  match fd with
  | FDBalancerV2Batch _ _ _ c | FDWOOFi _ _ _ c | FDSynthetix _ _ _ c => Some c
  | _ => None
  end.
Definition fd_isSellBase (fd : FillData) : bool :=
  match fd with FDDodo _ b _ => b | _ => false end.

Definition n_len {A} (l : list A) : number := n_Z (Z.of_nat (length l)).

(** [base + (path.length - 2) * perHop] when the path has more than two
    tokens. *)
Definition path_gas (base perHop : Z) (path : list string) : number :=
  if (2 <? length path)%nat
  then n_add (n_Z base) (n_mul (n_sub (n_len path) (n_Z 2)) (n_Z perHop))
  else n_Z base.

(** [base + (steps.length - 1) * perStep]. *)
Definition steps_gas (base perStep : Z) (steps : list BalancerBatchSwapStep) : number :=
  n_add (n_Z base) (n_mul (n_sub (n_len steps) (n_Z 1)) (n_Z perStep)).

Definition with_field {A} (o : option A) (f : A → number) : result number :=
  match o with Some a => Ok (f a) | None => Throw TypeError end.

Definition uniswapV2CloneGasSchedule (fd : FillData) : result number :=
  with_field (fd_tokenAddressPath fd) (path_gas 90000 60000).

Definition pool_gasSchedule (fd : FillData) : result number :=
  match fd with FDCurve _ _ pool => Ok (curve_gasSchedule pool) | _ => Throw TypeError end.

Definition PROTOCOL_FEE_MULTIPLIER : BN := of_Z 0.

Definition native_type_gas (type : FillQuoteTransformerOrderType) : number :=
  match type with
  | FillQuoteTransformerOrderType.Limit =>
      toNumber (plus PROTOCOL_FEE_MULTIPLIER (of_number (n_Z 100000)))
  | FillQuoteTransformerOrderType.Rfq | FillQuoteTransformerOrderType.Bridge => n_Z 100000
  | FillQuoteTransformerOrderType.Otc => n_Z 85000
  end.
Definition native_gas (fd : FillData) : result number :=
  match fd with
  | FDNative o => Ok (native_type_gas (native_type o))
  | _ => Ok (n_Z 100000)
  end.

Definition makerPsm_gas (fd : FillData) : result number :=
  Ok (if bool_decide (fd_takerToken fd = fd_gemTokenAddress fd) then n_Z 210000 else n_Z 290000).

(** The gas the sampled Uniswap V3 paths used: the entry in the middle of
    those that report a positive amount, zero when none does. *)
Definition medianGasUsed (pathAmounts : list PathAmount) : number :=
  let pathAmountsWithGasUsed := bfilter (λ p, ext_lt (n_Z 0) (pa_gasUsed p)) pathAmounts in
  match pathAmountsWithGasUsed !! (length pathAmountsWithGasUsed / 2)%nat with
  | Some p => pa_gasUsed p
  | None => n_Z 0
  end.

(** [isFinalPathFillData] asks for a non-empty [path]; the array [path] of
    Bancor data is truthy too, and its [gasUsed] is [undefined]. *)
Definition uniswapV3_gas (fd : FillData) : result number :=
  let base := n_Z 34000 in
  gas ←
    (match fd with
     | FDFinalTickDEXMultiPath _ _ path gasUsed =>
         if bool_decide (path = ""%string) then Throw TypeError else Ok (n_add base gasUsed)
     | FDTickDEXMultiPath _ _ pathAmounts => Ok (n_add base (medianGasUsed pathAmounts))
     | FDBancor _ _ => Ok ENaN
     | _ => Throw TypeError
     end);
  if ext_eqb gas base then with_field (fd_tokenAddressPath fd) (path_gas 100000 32000) else mret gas.

Definition lido_gas (fd : FillData) : result number :=
  Ok (if bool_decide (fd_takerToken fd = Some wethAddress) then n_Z 226000
      else if bool_decide (fd_takerToken fd = fd_stEthTokenAddress fd) then n_Z 120000
      else n_Z 95000).

Definition aave_gas (fd : FillData) : result number :=
  Ok (if bool_decide (fd_takerToken fd = fd_underlyingToken fd) then n_Z 400000 else n_Z 300000).

Definition compound_gas (fd : FillData) : result number :=
  Ok (if bool_decide (fd_takerToken fd = fd_cToken fd)
      then (if bool_decide (fd_makerToken fd = Some wethAddress) then n_Z 120000 else n_Z 150000)
      else (if bool_decide (fd_takerToken fd = Some wethAddress) then n_Z 210000 else n_Z 250000)).

Definition synthetix_gas (fd : FillData) : result number :=
  match fd with
  | FDSynthetix _ takerTokenSymbolBytes32 makerTokenSymbolBytes32 chainId =>
      let makerTokenSymbol := parseBytes32String makerTokenSymbolBytes32 in
      let takerTokenSymbol := parseBytes32String takerTokenSymbolBytes32 in
      let isEither (s : string) :=
        bool_decide (takerTokenSymbol = s) || bool_decide (makerTokenSymbol = s) in
      Ok (if bool_decide (chainId = ChainId.Mainnet) then
            (if isEither "sBTC"%string then n_Z 800000
             else if isEither "sETH"%string then n_Z 700000 else n_Z 580000)
          else if isEither "sUSD"%string then n_Z 480000 else n_Z 580000)
  | _ => Throw TypeError
  end.

Definition woofi_gas (fd : FillData) : result number :=
  let quoteTokenAddresses :=
    [BSC_TOKENS.BUSD; AVALANCHE_TOKENS.nUSDC; FANTOM_TOKENS.USDC; POLYGON_TOKENS.USDC;
     ARBITRUM_TOKENS.USDC; OPTIMISM_TOKENS.USDC] in
  let isQuote (o : option string) :=
    match o with Some t => includes quoteTokenAddresses t | None => false end in
  let hasQuoteToken := isQuote (fd_takerToken fd) || isQuote (fd_makerToken fd) in
  Ok (match fd_chainId fd with
      | Some ChainId.BSC => if hasQuoteToken then n_Z 550000 else n_Z 1000000
      | Some ChainId.Avalanche => if hasQuoteToken then n_Z 300000 else n_Z 550000
      | Some ChainId.Polygon => if hasQuoteToken then n_Z 500000 else n_Z 700000
      | _ => if hasQuoteToken then n_Z 400000 else n_Z 600000
      end).

Definition beethovenx_gas (fd : FillData) : result number :=
  if bool_decide (fd_chainId fd = Some ChainId.Fantom)
  then with_field (fd_swapSteps fd) (steps_gas 125000 50000)
  else with_field (fd_swapSteps fd) (steps_gas 305000 100000).

Definition bancor_gas (fd : FillData) : result number :=
  match fd with FDBancor path _ => Ok (path_gas 200000 60000 path) | _ => Throw TypeError end.

(** The entries of the table that do not recurse. *)
Definition single_gas (source : ERC20BridgeSource) (fd : FillData) : result number :=
  match source with
  | ERC20BridgeSource.Native => native_gas fd
  | ERC20BridgeSource.Uniswap => Ok (n_Z 90000)
  | ERC20BridgeSource.Curve | ERC20BridgeSource.CurveV2 | ERC20BridgeSource.Nerve
  | ERC20BridgeSource.Synapse | ERC20BridgeSource.Belt | ERC20BridgeSource.Ellipsis
  | ERC20BridgeSource.Saddle | ERC20BridgeSource.IronSwap
  | ERC20BridgeSource.FirebirdOneSwap | ERC20BridgeSource.MobiusMoney
  | ERC20BridgeSource.ACryptos => pool_gasSchedule fd
  | ERC20BridgeSource.UniswapV2 | ERC20BridgeSource.SushiSwap | ERC20BridgeSource.CryptoCom
  | ERC20BridgeSource.ShibaSwap | ERC20BridgeSource.BiSwap | ERC20BridgeSource.MDex
  | ERC20BridgeSource.KnightSwap | ERC20BridgeSource.PancakeSwap
  | ERC20BridgeSource.PancakeSwapV2 | ERC20BridgeSource.BakerySwap
  | ERC20BridgeSource.ApeSwap | ERC20BridgeSource.WaultSwap | ERC20BridgeSource.QuickSwap
  | ERC20BridgeSource.Dfyn | ERC20BridgeSource.MeshSwap | ERC20BridgeSource.Pangolin
  | ERC20BridgeSource.TraderJoe | ERC20BridgeSource.UbeSwap
  | ERC20BridgeSource.MorpheusSwap | ERC20BridgeSource.SpiritSwap
  | ERC20BridgeSource.SpookySwap | ERC20BridgeSource.Yoshi => uniswapV2CloneGasSchedule fd
  | ERC20BridgeSource.Balancer => Ok (n_Z 120000)
  | ERC20BridgeSource.BalancerV2 => with_field (fd_swapSteps fd) (steps_gas 140000 80000)
  | ERC20BridgeSource.MStable => Ok (n_Z 200000)
  | ERC20BridgeSource.MakerPsm => makerPsm_gas fd
  | ERC20BridgeSource.Mooniswap => Ok (n_Z 130000)
  | ERC20BridgeSource.Shell => Ok (n_Z 170000)
  | ERC20BridgeSource.Component => Ok (n_Z 188000)
  | ERC20BridgeSource.MultiHop => Throw TypeError
  | ERC20BridgeSource.Dodo => Ok (if fd_isSellBase fd then n_Z 180000 else n_Z 300000)
  | ERC20BridgeSource.DodoV2 => Ok (n_Z 100000)
  | ERC20BridgeSource.Bancor => bancor_gas fd
  | ERC20BridgeSource.BancorV3 => Ok (n_Z 250000)
  | ERC20BridgeSource.KyberDmm => with_field (fd_tokenAddressPath fd) (path_gas 170000 65000)
  | ERC20BridgeSource.UniswapV3 => uniswapV3_gas fd
  | ERC20BridgeSource.Lido => lido_gas fd
  | ERC20BridgeSource.AaveV2 | ERC20BridgeSource.AaveV3 => aave_gas fd
  | ERC20BridgeSource.Compound => compound_gas fd
  | ERC20BridgeSource.Synthetix => synthetix_gas fd
  | ERC20BridgeSource.WOOFi => woofi_gas fd
  | ERC20BridgeSource.GMX => Ok (n_Z 450000)
  | ERC20BridgeSource.Platypus => Ok (n_Z 450000)
  | ERC20BridgeSource.Beethovenx => beethovenx_gas fd
  | ERC20BridgeSource.Velodrome => Ok (n_Z 160000)
  | ERC20BridgeSource.Dystopia => Ok (n_Z 160000)
  end.

(** The whole table: a multi-hop costs its two hops and an overhead. *)
Fixpoint DEFAULT_GAS_SCHEDULE (source : ERC20BridgeSource) (fd : FillData) {struct fd}
    : result number :=
  match source with
  | ERC20BridgeSource.MultiHop =>
      match fd with
      | FDMultiHop (Some (source1, fillData1)) (Some (source2, fillData2)) _ =>
          firstHopGas ← DEFAULT_GAS_SCHEDULE source1 fillData1;
          secondHopGas ← DEFAULT_GAS_SCHEDULE source2 fillData2;
          mret (toNumber (plus (plus (of_number firstHopGas) (of_number secondHopGas))
                            (of_number (n_Z 30000))))
      | _ => Throw TypeError
      end
  | _ => single_gas source fd
  end.

(** The schedule used when no fee schedule is given: the gas, and no fee. *)
Definition DEFAULT_FEE_SCHEDULE (source : ERC20BridgeSource) (fd : FillData) : result FeeInfo :=
  gas ← DEFAULT_GAS_SCHEDULE source fd;
  mret {| est_gas := gas; est_fee := ZERO_AMOUNT |}.

(** ** Bounds *)

(** Fill data within the sizes the sampler produces: token paths and batches
    below 2^20 entries, reported gas amounts integers below 2^40. *)
Definition small_gas (n : number) : Prop := ∃ g, n_int n g ∧ (0 < g <= 2 ^ 40)%Z.
Definition small_list {A} (l : list A) : Prop := (Z.of_nat (length l) <= 2 ^ 20)%Z.

Definition sized (fd : FillData) : Prop :=
  match fd with
  | FDCurve _ _ pool => small_gas (curve_gasSchedule pool)
  | FDBalancerV2Batch _ steps _ _ => small_list steps
  | FDTickDEXMultiPath path _ ps =>
      small_list path ∧ Forall (λ p, small_gas (pa_gasUsed p) ∨ n_int (pa_gasUsed p) 0) ps
  | FDFinalTickDEXMultiPath _ tp path g =>
      small_list tp ∧ path ≠ ""%string ∧ (small_gas g ∨ n_int g 0)
  | FDUniswapV2 path _ | FDBancor path _ | FDKyberDmm path _ _ => small_list path
  | _ => True
  end.

(** [gas_ok r]: the estimate is a positive integer below 2^41. *)
Definition gas_ok (r : result number) : Prop :=
  ∃ n g, r = Ok n ∧ n_int n g ∧ (0 < g <= 2 ^ 41)%Z.

Lemma gas_ok_const z : (0 < z <= 2 ^ 41)%Z → gas_ok (Ok (n_Z z)).
Proof. intros H. exists (n_Z z), z. split_and!; [done | apply n_int_Z; lia | lia..]. Qed.

Lemma path_gas_ok base perHop path :
  (0 < base <= 2 ^ 19)%Z → (0 <= perHop <= 2 ^ 17)%Z → small_list path →
  gas_ok (Ok (path_gas base perHop path)).
Proof.
  intros Hb Hp Hl. unfold path_gas, small_list in *. destruct (Nat.ltb_spec 2 (length path)).
  - exists (n_add (n_Z base) (n_mul (n_sub (n_len path) (n_Z 2)) (n_Z perHop))),
      (base + (Z.of_nat (length path) - 2) * perHop)%Z. split; [done|].
    assert (0 <= (Z.of_nat (length path) - 2) * perHop <= 2 ^ 20 * 2 ^ 17)%Z by nia.
    split; [|lia].
    n_int_expr; lia.
  - apply gas_ok_const. lia.
Qed.

Lemma steps_gas_ok base perStep steps :
  (0 < base <= 2 ^ 19)%Z → (0 <= perStep <= 2 ^ 17)%Z → (perStep < base)%Z → small_list steps →
  gas_ok (Ok (steps_gas base perStep steps)).
Proof.
  intros Hb Hp Hlt Hl. unfold steps_gas, small_list in *.
  exists (n_add (n_Z base) (n_mul (n_sub (n_len steps) (n_Z 1)) (n_Z perStep))),
    (base + (Z.of_nat (length steps) - 1) * perStep)%Z. split; [done|].
  assert (- perStep <= (Z.of_nat (length steps) - 1) * perStep <= 2 ^ 20 * 2 ^ 17)%Z by nia.
  split; [|lia].
  n_int_expr; lia.
Qed.

Lemma base_plus_gas_ok g path :
  small_list path → small_gas g ∨ n_int g 0 →
  gas_ok (let gas := n_add (n_Z 34000) g in
          if ext_eqb gas (n_Z 34000) then Ok (path_gas 100000 32000 path) else Ok gas).
Proof.
  intros Hp Hg.
  assert (∃ z, n_int g z ∧ (0 <= z <= 2 ^ 40)%Z) as (z & Hz & Hr).
  { destruct Hg as [(z & ? & ?)|?]; [exists z | exists 0%Z]; split; [done|lia|done|lia]. }
  assert (n_int (n_add (n_Z 34000) g) (34000 + z)) as Ha.
  { apply n_int_add; [apply n_int_Z; lia | done | lia]. }
  cbv zeta. case_if; [apply path_gas_ok; [lia | lia | done]|].
  exists (n_add (n_Z 34000) g), (34000 + z)%Z. split_and!; [done | done | lia..].
Qed.

Lemma medianGasUsed_ok ps :
  Forall (λ p, small_gas (pa_gasUsed p) ∨ n_int (pa_gasUsed p) 0) ps →
  small_gas (medianGasUsed ps) ∨ n_int (medianGasUsed ps) 0.
Proof.
  intros H. unfold medianGasUsed. set (l := bfilter _ ps).
  destruct (l !! (length l / 2)%nat) as [p|] eqn:E; [|right; apply n_int_Z; lia].
  apply list_elem_of_lookup_2, elem_of_bfilter in E as [E _].
  rewrite Forall_forall in H. by apply H.
Qed.

Lemma gas_ok_if (c : bool) a b : gas_ok (Ok a) → gas_ok (Ok b) → gas_ok (Ok (if c then a else b)).
Proof. by destruct c. Qed.

Ltac gas_const :=
  repeat lazymatch goal with |- gas_ok (Ok (if _ then _ else _)) => apply gas_ok_if end;
  lazymatch goal with |- gas_ok (Ok (n_Z _)) => apply gas_ok_const; lia end.

Lemma pool_gas_ok fd : is_FDCurve fd = true → sized fd → gas_ok (pool_gasSchedule fd).
Proof.
  destruct fd; try done. intros _ (g & Hg & Hr).
  exists (curve_gasSchedule pool), g. split_and!; [done | done | lia..].
Qed.

Lemma uniswapV2_gas_ok fd :
  is_FDUniswapV2 fd = true → sized fd → gas_ok (uniswapV2CloneGasSchedule fd).
Proof. destruct fd; try done. intros _ H. apply path_gas_ok; [lia | lia | done]. Qed.

Lemma balancer_gas_ok base perStep fd :
  (0 < base <= 2 ^ 19)%Z → (0 <= perStep <= 2 ^ 17)%Z → (perStep < base)%Z →
  is_FDBalancerV2Batch fd = true → sized fd →
  gas_ok (with_field (fd_swapSteps fd) (steps_gas base perStep)).
Proof. intros ???. destruct fd; try done. intros _ H'. by apply steps_gas_ok. Qed.

Lemma native_gas_ok fd : gas_ok (native_gas fd).
Proof.
  unfold native_gas, native_type_gas. destruct fd; try gas_const. destruct (native_type o); try gas_const.
  eexists _, 100000%Z. split; [done|]. split; [|lia]. unfold n_int.
  rewrite val_toNumber.
  assert (fin (plus PROTOCOL_FEE_MULTIPLIER (of_number (n_Z 100000))) (inject_Z (0 + 100000))) as H.
  { rewrite inject_Z_plus. apply fin_plus; [apply (fin_Z 0)|].
    apply val_of_number_Z; [lia | apply n_int_Z; lia]. }
  unfold fin in H. rewrite H. simpl. apply round64_Z. lia.
Qed.

Lemma woofi_gas_ok fd : gas_ok (woofi_gas fd).
Proof.
  unfold woofi_gas. set (c := (_ || _)). destruct (fd_chainId fd) as [[]|]; gas_const.
Qed.

Lemma uniswapV3_gas_ok fd :
  has_shape ERC20BridgeSource.UniswapV3 fd = true → sized fd → gas_ok (uniswapV3_gas fd).
Proof.
  destruct fd; try done; intros _; simpl sized.
  - intros [Hp Hps]. exact (base_plus_gas_ok _ _ Hp (medianGasUsed_ok _ Hps)).
  - intros (Hp & Hpath & Hg). unfold uniswapV3_gas. rewrite bool_decide_eq_false_2 by done.
    exact (base_plus_gas_ok _ _ Hp Hg).
Qed.

Lemma single_gas_ok s fd :
  s ≠ ERC20BridgeSource.MultiHop → has_shape s fd = true → sized fd → gas_ok (single_gas s fd).
Proof.
  intros Hs. destruct s; try done; cbn [has_shape single_gas]; intros Hsh Hsz;
    lazymatch goal with
    | |- gas_ok (pool_gasSchedule _) => by apply pool_gas_ok
    | |- gas_ok (uniswapV2CloneGasSchedule _) => by apply uniswapV2_gas_ok
    | |- gas_ok (native_gas _) => apply native_gas_ok
    | |- gas_ok (woofi_gas _) => apply woofi_gas_ok
    | |- gas_ok (uniswapV3_gas _) => by apply uniswapV3_gas_ok
    | |- gas_ok (with_field (fd_swapSteps _) _) => apply balancer_gas_ok; (lia || done)
    | |- gas_ok (with_field (fd_tokenAddressPath _) _) =>
        destruct fd; try done; apply path_gas_ok; (lia || done)
    | |- gas_ok (beethovenx_gas _) =>
        unfold beethovenx_gas; case_if; apply balancer_gas_ok; (lia || done)
    | |- gas_ok (bancor_gas _) => destruct fd; try done; apply path_gas_ok; (lia || done)
    | |- gas_ok (synthetix_gas _) => destruct fd; try done; unfold synthetix_gas; gas_const
    | |- _ => unfold makerPsm_gas, lido_gas, aave_gas, compound_gas; gas_const
    end.
Qed.

Lemma schedule_single s fd :
  s ≠ ERC20BridgeSource.MultiHop → DEFAULT_GAS_SCHEDULE s fd = single_gas s fd.
Proof. intros H. by destruct s, fd. Qed.

(** On the fill data that is sampled an estimate never throws. *)
Lemma single_gas_defined s fd :
  s ≠ ERC20BridgeSource.MultiHop → sampled_shape s fd = true → is_ok (DEFAULT_GAS_SCHEDULE s fd) = true.
Proof.
  unfold sampled_shape. intros Hs [Hsh Hf]%andb_true_iff.
  destruct s; try done; try reflexivity; destruct fd; try discriminate Hsh; try reflexivity; try discriminate Hf.
  - change (is_ok (uniswapV3_gas (FDTickDEXMultiPath tokenAddressPath router pathAmounts)) = true).
    unfold uniswapV3_gas. cbn [mbind result_bind fd_tokenAddressPath with_field]. by case_if.
  - change (is_ok (beethovenx_gas (FDBalancerV2Batch vault swapSteps assets chainId)) = true).
    unfold beethovenx_gas. by case_if.
Qed.

Lemma two_hop_gas_defined s1 fd1 s2 fd2 mid :
  is_ok (DEFAULT_GAS_SCHEDULE s1 fd1) = true → is_ok (DEFAULT_GAS_SCHEDULE s2 fd2) = true →
  is_ok (DEFAULT_GAS_SCHEDULE ERC20BridgeSource.MultiHop (FDMultiHop (Some (s1, fd1)) (Some (s2, fd2)) mid)) = true.
Proof.
  intros H1 H2. simpl. destruct (DEFAULT_GAS_SCHEDULE s1 fd1); [|done].
  by destruct (DEFAULT_GAS_SCHEDULE s2 fd2).
Qed.

(** The gas schedule has an entry for every source: on fill data of the shape
    of the source, the estimate of a single source is a positive integer, and
    a multi-hop costs exactly its two hops plus 30000. *)
Theorem gas_schedule_positive s fd :
  (s ≠ ERC20BridgeSource.MultiHop → has_shape s fd = true → sized fd →
   gas_ok (DEFAULT_GAS_SCHEDULE s fd)) ∧
  (∀ s1 fd1 s2 fd2 mid n1 g1 n2 g2,
     s = ERC20BridgeSource.MultiHop → fd = FDMultiHop (Some (s1, fd1)) (Some (s2, fd2)) mid →
     DEFAULT_GAS_SCHEDULE s1 fd1 = Ok n1 → n_int n1 g1 → (0 < g1 <= 2 ^ 50)%Z →
     DEFAULT_GAS_SCHEDULE s2 fd2 = Ok n2 → n_int n2 g2 → (0 < g2 <= 2 ^ 50)%Z →
     ∃ n, DEFAULT_GAS_SCHEDULE s fd = Ok n ∧ n_int n (g1 + g2 + 30000)).
Proof.
  split.
  - intros Hs Hsh Hsz. rewrite schedule_single by done. by apply single_gas_ok.
  - intros s1 fd1 s2 fd2 mid n1 g1 n2 g2 -> -> H1 Hg1 Hr1 H2 Hg2 Hr2.
    simpl. rewrite H1, H2. simpl. eexists. split; [done|]. unfold n_int. rewrite val_toNumber.
    assert (fin (plus (plus (of_number n1) (of_number n2)) (of_number (n_Z 30000)))
              (inject_Z (g1 + g2 + 30000))) as H.
    { rewrite !inject_Z_plus. repeat apply fin_plus; apply val_of_number_Z;
        try done; try lia. }
    unfold fin in H. rewrite H. simpl. apply round64_Z. lia.
Qed.
End GasSchedule.

(** ** Concrete estimates *)
Import Concrete.

Definition ex_v3 : FillData :=
  FDTickDEXMultiPath ["0xa"; "0xb"]%string "0xr"
    [{| pa_path := "0xp"; pa_inputAmount := of_Z 10; pa_gasUsed := n_Z 120000 |}].

Lemma gas_schedule_positive_witness :
  gas_ok (DEFAULT_GAS_SCHEDULE (λ s, s) "0xweth" ERC20BridgeSource.UniswapV3 ex_v3) ∧
  ∃ n, DEFAULT_GAS_SCHEDULE (λ s, s) "0xweth" ERC20BridgeSource.MultiHop
         (FDMultiHop (Some (ERC20BridgeSource.Balancer, FDBalancer "0x1"))
            (Some (ERC20BridgeSource.Mooniswap, FDMooniswap "0x2")) "0xm") = Ok n ∧
       n_int n (120000 + 130000 + 30000).
Proof.
  split.
  - apply (gas_schedule_positive (λ s, s) "0xweth" ERC20BridgeSource.UniswapV3 ex_v3);
      [done | reflexivity|]. split; [vm_compute; discriminate|].
    apply Forall_cons. split; [|constructor]. left. exists 120000%Z.
    split; [apply n_int_Z|]; lia.
  - eapply (proj2 (gas_schedule_positive (λ s, s) "0xweth" ERC20BridgeSource.MultiHop _));
      [reflexivity | reflexivity | reflexivity | apply n_int_Z; lia | lia | reflexivity
      | apply n_int_Z; lia | lia].
Defined.
