(* ===== verification/PathModel.v ===== *)
(** * Paths ([market_operation_utils/path.ts])

    A path is a list of fills together with the orders they settle to, the
    merged source flags and the size adjusted to the target input.  The
    comparison of two paths decides which route a quote uses; the slipped
    orders are the orders whose amounts the user accepts at worst. *)

From S2P Require Import Prelude JsNumber BigNum Types Fills Orders.

Module Path.
Section Path.
Context {B : BigNumberLib}.

Record PathSize : Type := { size_input : BN; size_output : BN }.

Record PathPenaltyOpts : Type := {
  outputAmountPerEth : BN;
  inputAmountPerEth : BN;
  exchangeProxyOverhead : ExchangeProxyOverhead;
}.

(** The private fields of the class; every one is read-only. *)
Record t : Type := {
  context : PathContext;
  fills : list Fill;
  ordersByType : OptimizedOrdersByType;
  targetInput : BN;
  pathPenaltyOpts : PathPenaltyOpts;
  sourceFlags : Z;
  adjustedSize : PathSize;
}.

(** One step of the reducer of [createAdjustedSize]. *)
Definition addFill (targetInput : BN) (currentSize : PathSize) (fill : Fill) : PathSize :=
  if gt (plus (size_input currentSize) (fill_input fill)) targetInput then
    let remainingInput := minus targetInput (size_input currentSize) in
    let scaledFillOutput := times (fill_output fill) (div remainingInput (fill_input fill)) in
    let penalty := minus (fill_adjustedOutput fill) (fill_output fill) in
    {| size_input := targetInput;
       size_output := plus (plus (size_output currentSize) scaledFillOutput) penalty |}
  else
    {| size_input := plus (size_input currentSize) (fill_input fill);
       size_output := plus (size_output currentSize) (fill_adjustedOutput fill) |}.

Definition createAdjustedSize (targetInput : BN) (fills : list Fill) : PathSize :=
  fold_left (addFill targetInput) fills {| size_input := ZERO_AMOUNT; size_output := ZERO_AMOUNT |}.

Definition mergeSourceFlags (flags : list Z) : Z := fold_left Z.lor flags 0%Z.

Definition isNative (s : ERC20BridgeSource) : bool := bool_decide (s = ERC20BridgeSource.Native).
Definition isMultiHop (s : ERC20BridgeSource) : bool := bool_decide (s = ERC20BridgeSource.MultiHop).

(** [_.omit(fill, 'flags')] removes a field none of the order constructors
    reads. *)
Definition createOrdersByType (fills : list Fill) (context : PathContext)
    : result OptimizedOrdersByType :=
  nativeOrders ←
    mapM (λ fill, createNativeOptimizedOrder fill (ctx_side context))
      (bfilter (λ fill, isNative (fill_source fill)) fills);
  twoHopOrders ←
    mapM (λ fill, createOrdersFromTwoHopSample fill context)
      (bfilter (λ fill, isMultiHop (fill_source fill)) fills);
  let '(makerToken, takerToken) := getMakerTakerTokens context in
  bridgeOrders ←
    mapM (λ fill, createBridgeOrder fill makerToken takerToken (ctx_side context))
      (bfilter (λ fill, negb (isNative (fill_source fill)) && negb (isMultiHop (fill_source fill)))
         fills);
  mret {| nativeOrders := nativeOrders; twoHopOrders := twoHopOrders; bridgeOrders := bridgeOrders |}.

Definition create (context : PathContext) (fills : list Fill) (targetInput : BN)
    (pathPenaltyOpts : PathPenaltyOpts) : result t :=
  let sourceFlags := mergeSourceFlags (fill_flags <$> fills) in
  ordersByType ← createOrdersByType fills context;
  mret {| context := context;
          fills := fills;
          ordersByType := ordersByType;
          targetInput := targetInput;
          pathPenaltyOpts := pathPenaltyOpts;
          sourceFlags := sourceFlags;
          adjustedSize := createAdjustedSize targetInput fills |}.

Definition hasTwoHop (this : t) : bool :=
  Z.ltb 0 (Z.land (sourceFlags this) (source_flag ERC20BridgeSource.MultiHop)).

Definition getOrdersByType (this : t) : OptimizedOrdersByType := ordersByType this.

Definition flatTwoHop (l : list TwoHopOrder) : list OptimizedOrder :=
  flat_map (λ o, [firstHopOrder o; secondHopOrder o]) l.

Definition getOrders (this : t) : list OptimizedOrder :=
  nativeOrders (ordersByType this) ++ bridgeOrders (ordersByType this) ++
  flatTwoHop (twoHopOrders (ordersByType this)).

(** The message of the source also prints the given slippage. *)
Definition checkSlippage (maxSlippage : number) : result unit :=
  if ext_lt maxSlippage (n_Z 0) || ext_lt (n_Z 1) maxSlippage
  then Throw (Error "slippage must be [0, 1]")
  else Ok tt.

Definition with_makerAmount (order : OptimizedOrder) (makerAmount : BN) : OptimizedOrder :=
  {| opt_source := opt_source order; opt_fillData := opt_fillData order;
     opt_type := opt_type order; opt_makerToken := opt_makerToken order;
     opt_takerToken := opt_takerToken order; opt_makerAmount := makerAmount;
     opt_takerAmount := opt_takerAmount order; opt_fill := opt_fill order |}.

Definition with_takerAmount (order : OptimizedOrder) (takerAmount : BN) : OptimizedOrder :=
  {| opt_source := opt_source order; opt_fillData := opt_fillData order;
     opt_type := opt_type order; opt_makerToken := opt_makerToken order;
     opt_takerToken := opt_takerToken order; opt_makerAmount := opt_makerAmount order;
     opt_takerAmount := takerAmount; opt_fill := opt_fill order |}.

Definition createSlipOrderFunction (maxSlippage : number) (side : MarketOperation)
    (order : OptimizedOrder) : OptimizedOrder :=
  if isNative (opt_source order) || ext_eqb maxSlippage (n_Z 0) then order
  else match side with
  | Sell =>
      with_makerAmount order
        (if isEqualTo (opt_makerAmount order) MAX_UINT256 then MAX_UINT256
         else integerValue ROUND_DOWN
                (times (opt_makerAmount order) (of_number (n_sub (n_Z 1) maxSlippage))))
  | Buy =>
      with_takerAmount order
        (if isEqualTo (opt_takerAmount order) MAX_UINT256 then MAX_UINT256
         else integerValue ROUND_UP
                (times (opt_takerAmount order) (of_number (n_add (n_Z 1) maxSlippage))))
  end.

Definition getSlippedOrdersByType (this : t) (maxSlippage : number)
    : result OptimizedOrdersByType :=
  _ ← checkSlippage maxSlippage;
  let slipOrder := createSlipOrderFunction maxSlippage (ctx_side (context this)) in
  mret {| nativeOrders := nativeOrders (getOrdersByType this);
          twoHopOrders :=
            (λ o, {| firstHopOrder := slipOrder (firstHopOrder o);
                     secondHopOrder := slipOrder (secondHopOrder o) |})
            <$> twoHopOrders (getOrdersByType this);
          bridgeOrders := slipOrder <$> bridgeOrders (getOrdersByType this) |}.

Definition getSlippedOrders (this : t) (maxSlippage : number) : result (list OptimizedOrder) :=
  _ ← checkSlippage maxSlippage;
  mret (createSlipOrderFunction maxSlippage (ctx_side (context this)) <$> getOrders this).

Definition getExchangeProxyOverheadAppliedSize (this : t) : PathSize :=
  let input := size_input (adjustedSize this) in
  let output := size_output (adjustedSize this) in
  let opts := pathPenaltyOpts this in
  let gasOverhead := exchangeProxyOverhead opts (sourceFlags this) in
  let pathPenalty :=
    ethToOutputAmount input output gasOverhead (inputAmountPerEth opts) (outputAmountPerEth opts) in
  {| size_input := input;
     size_output :=
       match ctx_side (context this) with
       | Sell => minus output pathPenalty
       | Buy => plus output pathPenalty
       end |}.

Definition adjustedRate (this : t) : BN :=
  let size := getExchangeProxyOverheadAppliedSize this in
  getRate (ctx_side (context this)) (size_input size) (size_output size).

Definition adjustedCompleteRate (this : t) : BN :=
  let size := getExchangeProxyOverheadAppliedSize this in
  getCompleteRate (ctx_side (context this)) (size_input size) (size_output size) (targetInput this).

(** The message of the source also prints the two target inputs. *)
Definition isAdjustedBetterThan (this other : t) : result bool :=
  if negb (isEqualTo (targetInput this) (targetInput other))
  then Throw (Error "Target input mismatch")
  else
    let input := size_input (adjustedSize this) in
    let otherInput := size_input (adjustedSize other) in
    if lt input (targetInput this) || lt otherInput (targetInput this)
    then Ok (gt input otherInput)
    else Ok (gt (adjustedCompleteRate this) (adjustedCompleteRate other)).

(** ** Sizes *)

(** The rational amounts [(input, output, adjustedOutput)] of a fill. *)
Definition fill_amounts (f : Fill) (a : Q * Q * Q) : Prop :=
  fin (fill_input f) a.1.1 ∧ fin (fill_output f) a.1.2 ∧ fin (fill_adjustedOutput f) a.2 ∧
  (0 <= a.1.1)%Q.

Definition total_input (l : list (Q * Q * Q)) : Q := Qsum ((λ a, a.1.1) <$> l).
Definition total_adjusted (l : list (Q * Q * Q)) : Q := Qsum (snd <$> l).

(** A ratio between zero and one stays there after the rounding of the
    division. *)
Lemma rdiv_unit p q : (0 <= p <= q)%Q → (0 < q)%Q → (0 <= rdiv p q <= 1)%Q.
Proof.
  intros Hp Hq. unfold rdiv. apply (round_dp_between _ _ 0 1). split.
  - change (inject_Z 0) with 0%Q. apply Qle_shift_div_l; lra.
  - change (inject_Z 1) with 1%Q. apply Qle_shift_div_r; lra.
Qed.

Lemma addFill_spec T target s I O f a :
  fin target T → fin (size_input s) I → fin (size_output s) O → fill_amounts f a →
  (0 <= I <= T)%Q →
  ∃ I' O', fin (size_input (addFill target s f)) I' ∧ fin (size_output (addFill target s f)) O' ∧
    (I' == Qmin T (I + a.1.1))%Q ∧ (0 <= I')%Q ∧
    ((I + a.1.1 <= T)%Q → (O' == O + a.2)%Q) ∧
    ((0 <= a.1.2)%Q → (O + (a.2 - a.1.2) <= O' <= O + a.2)%Q).
Proof.
  intros HT HI HO (Hi & Ho & Ha & Hnn) Hr. destruct a as [[i o] adj]; simpl in *.
  unfold addFill, gt.
  assert (fin (plus (size_input s) (fill_input f)) (I + i)) as Hs by by apply fin_plus.
  case_if; simpl.
  - apply (lt_fin _ _ _ _ HT Hs) in E. do 2 eexists. split; [exact HT|]. split.
    { apply fin_plus; [apply fin_plus; [exact HO|]|].
      - apply fin_times; [exact Ho|]. apply fin_div; [by apply fin_minus | exact Hi | lra].
      - by apply fin_minus. }
    pose proof (rdiv_unit (T - I) i ltac:(lra) ltac:(lra)) as Hu.
    split_and!; try lra.
    + symmetry. apply Q.min_l. lra.
    + intros Hoo. set (r := rdiv (T - I) i) in *. split; nra.
  - apply (lt_fin_false _ _ _ _ HT Hs) in E. do 2 eexists. split; [exact Hs|].
    split; [by apply fin_plus|]. split_and!; try lra.
    symmetry. apply Q.min_r. lra.
Qed.

Lemma total_input_nonneg fs l : Forall2 fill_amounts fs l → (0 <= total_input l)%Q.
Proof.
  induction 1 as [|f a fs l (? & ? & ? & ?) ? IH]; [apply Qle_refl|].
  change (total_input (a :: l)) with (a.1.1 + total_input l)%Q. lra.
Qed.

Lemma adjusted_fold T target fs l s I O :
  fin target T → Forall2 fill_amounts fs l →
  fin (size_input s) I → fin (size_output s) O → (0 <= I <= T)%Q →
  let s' := fold_left (addFill target) fs s in
  ∃ I' O', fin (size_input s') I' ∧ fin (size_output s') O' ∧
    (I' == Qmin T (I + total_input l))%Q ∧
    ((I + total_input l <= T)%Q → (O' == O + total_adjusted l)%Q) ∧
    (Forall (λ a, (0 <= a.1.2)%Q) l → (O' <= O + total_adjusted l)%Q).
Proof.
  intros HT Hl. revert s I O. induction Hl as [|f a fs l Hf Hl IH]; intros s I O HI HO Hr s'.
  - exists I, O. unfold s'. change (total_input []) with 0%Q.
    change (total_adjusted []) with 0%Q. split_and!; [done|done| |lra..].
    symmetry. transitivity (Qmin T I); [apply Q.min_compat; lra|]. apply Q.min_r. lra.
  - pose proof (total_input_nonneg fs l Hl) as Hnl. destruct (addFill_spec T target s I O f a HT HI HO Hf Hr)
      as (I1 & O1 & HI1 & HO1 & E1 & Hn1 & Hex & Hub).
    assert (I1 <= T)%Q as HI1T by (rewrite E1; apply Q.le_min_l).
    destruct (IH _ I1 O1 HI1 HO1 (conj Hn1 HI1T)) as (I2 & O2 & HI2 & HO2 & E2 & Hex2 & Hub2).
    exists I2, O2. subst s'. change (total_input (a :: l)) with (a.1.1 + total_input l)%Q.
    change (total_adjusted (a :: l)) with (a.2 + total_adjusted l)%Q.
    simpl. split_and!; [done|done| | |].
    + rewrite E2, E1. destruct (Q.min_spec T (I + a.1.1)) as [[? ->]|[? ->]].
      * rewrite !Q.min_l by lra. reflexivity.
      * apply Q.min_compat; lra.
    + intros Hle. rewrite Q.min_r in E1 by lra. rewrite Hex2, Hex by lra. lra.
    + rewrite Forall_cons. intros [H1 H2]. specialize (Hub H1). specialize (Hub2 H2). lra.
Qed.

Lemma create_ok ctx fs target opts p :
  create ctx fs target opts = Ok p →
  ∃ ty, createOrdersByType fs ctx = Ok ty ∧
    p = {| context := ctx; fills := fs; ordersByType := ty; targetInput := target;
           pathPenaltyOpts := opts; sourceFlags := mergeSourceFlags (fill_flags <$> fs);
           adjustedSize := createAdjustedSize target fs |}.
Proof. unfold create. intros H. ok_inv H. injection H as <-. by eexists. Qed.

(** The adjusted size of a path: its input is the routed input capped at the
    target; while the fills fit in the target its output is the sum of the
    penalised outputs, and it never exceeds that sum. *)
Theorem adjusted_size_capped ctx fs target opts p T l :
  create ctx fs target opts = Ok p → fin target T → (0 <= T)%Q → Forall2 fill_amounts fs l →
  ∃ I O, fin (size_input (adjustedSize p)) I ∧ fin (size_output (adjustedSize p)) O ∧
    (I == Qmin T (total_input l))%Q ∧
    ((total_input l <= T)%Q → (O == total_adjusted l)%Q) ∧
    (Forall (λ a, (0 <= a.1.2)%Q) l → (O <= total_adjusted l)%Q).
Proof.
  intros (ty & _ & ->)%create_ok HT HT0 Hl. simpl. unfold createAdjustedSize.
  destruct (adjusted_fold T target fs l {| size_input := ZERO_AMOUNT; size_output := ZERO_AMOUNT |}
    0 0 HT Hl fin_ZERO fin_ZERO ltac:(lra)) as (I & O & HI & HO & E1 & E2 & E3).
  exists I, O. split_and!; [done|done| | |].
  - rewrite E1. apply Q.min_compat; lra.
  - intros H. rewrite E2; lra.
  - intros H. specialize (E3 H). lra.
Qed.

(** ** The order on paths *)

(** The data of a path the comparison reads: target, input and rate. *)
Record path_key (p : t) (T I R : Q) : Prop := {
  key_target : fin (targetInput p) T;
  key_input : fin (size_input (adjustedSize p)) I;
  key_rate : fin (adjustedCompleteRate p) R;
}.

(** The reference order: a path that does not reach the target is compared on
    the input it routes, two complete paths on their complete rate. *)
Definition better (T I R I' R' : Q) : Prop :=
  ((I < T ∨ I' < T) ∧ I' < I)%Q ∨ (T <= I ∧ T <= I' ∧ R' < R)%Q.

Lemma isAdjustedBetterThan_spec p q T I R I' R' :
  path_key p T I R → path_key q T I' R' →
  ∃ b, isAdjustedBetterThan p q = Ok b ∧ (b = true ↔ better T I R I' R').
Proof.
  intros [] []. unfold isAdjustedBetterThan, gt, better.
  rewrite (proj2 (eq_fin (targetInput p) (targetInput q) T T ltac:(done) ltac:(done))) by lra.
  simpl. destruct (lt (size_input (adjustedSize p)) (targetInput p)
                   || lt (size_input (adjustedSize q)) (targetInput p)) eqn:E.
  - eexists. split; [done|]. rewrite orb_true_iff in E.
    rewrite (lt_fin _ _ I T), (lt_fin _ _ I' T) in E by done.
    rewrite (lt_fin _ _ I' I) by done. split; [auto | intros [[_ ?]|?]; lra].
  - eexists. split; [done|]. apply orb_false_iff in E as [E1 E2].
    apply (lt_fin_false _ _ I T) in E1; [|done..]. apply (lt_fin_false _ _ I' T) in E2; [|done..].
    rewrite (lt_fin _ _ R' R) by done. split; [auto | intros [[? ?]|?]; lra].
Qed.

Lemma better_trans T I1 R1 I2 R2 I3 R3 :
  better T I1 R1 I2 R2 → better T I2 R2 I3 R3 → better T I1 R1 I3 R3.
Proof.
  unfold better. intros [[H1 H1']|(H1&H1'&H1'')] [[H2 H2']|(H2&H2'&H2'')];
    try (left; split; lra); right; lra.
Qed.

Lemma better_irrefl T I R : ¬ better T I R I R.
Proof. unfold better. intros [[_ ?]|(_ & _ & ?)]; lra. Qed.

Lemma better_asym T I1 R1 I2 R2 : better T I1 R1 I2 R2 → ¬ better T I2 R2 I1 R1.
Proof. intros H1 H2. exact (better_irrefl _ _ _ (better_trans _ _ _ _ _ _ _ H1 H2)). Qed.

Lemma better_neg_trans T I1 R1 I2 R2 I3 R3 :
  better T I1 R1 I3 R3 → better T I1 R1 I2 R2 ∨ better T I2 R2 I3 R3.
Proof.
  unfold better. intros H.
  destruct (Qlt_le_dec I1 T), (Qlt_le_dec I2 T), (Qlt_le_dec I3 T),
    (Qlt_le_dec I2 I1), (Qlt_le_dec I3 I2), (Qlt_le_dec R2 R1), (Qlt_le_dec R3 R2);
    intuition lra.
Qed.

(** On paths of one target the comparison is a strict weak order (so a maximum
    is well defined); it throws exactly when the targets differ. *)
Theorem isAdjustedBetterThan_strict_weak_order p q r T Ip Rp Iq Rq Ir Rr :
  path_key p T Ip Rp → path_key q T Iq Rq → path_key r T Ir Rr →
  isAdjustedBetterThan p p = Ok false ∧
  (isAdjustedBetterThan p q = Ok true → isAdjustedBetterThan q p = Ok false) ∧
  (isAdjustedBetterThan p q = Ok true → isAdjustedBetterThan q r = Ok true →
   isAdjustedBetterThan p r = Ok true) ∧
  (isAdjustedBetterThan p q = Ok false → isAdjustedBetterThan q r = Ok false →
   isAdjustedBetterThan p r = Ok false) ∧
  (∀ p', is_ok (isAdjustedBetterThan p p') = isEqualTo (targetInput p) (targetInput p')).
Proof.
  intros Hp Hq Hr.
  destruct (isAdjustedBetterThan_spec p p T _ _ _ _ Hp Hp) as (bpp & -> & Hpp).
  destruct (isAdjustedBetterThan_spec p q T _ _ _ _ Hp Hq) as (bpq & -> & Hpq).
  destruct (isAdjustedBetterThan_spec q p T _ _ _ _ Hq Hp) as (bqp & -> & Hqp).
  destruct (isAdjustedBetterThan_spec q r T _ _ _ _ Hq Hr) as (bqr & -> & Hqr).
  destruct (isAdjustedBetterThan_spec p r T _ _ _ _ Hp Hr) as (bpr & -> & Hpr).
  pose proof (better_asym T Ip Rp Iq Rq) as Hasym.
  pose proof (better_trans T Ip Rp Iq Rq Ir Rr) as Htr.
  pose proof (better_neg_trans T Ip Rp Iq Rq Ir Rr) as Hneg.
  pose proof (better_irrefl T Ip Rp) as Hirr.
  split_and!.
  - f_equal. apply not_true_iff_false. by rewrite Hpp.
  - intros [= ->]. f_equal. apply not_true_iff_false. rewrite Hqp. naive_solver.
  - intros [= ->] [= ->]. f_equal. apply Hpr. naive_solver.
  - intros [= ->] [= ->]. f_equal. apply not_true_iff_false. rewrite Hpr. intros Hb.
    destruct (Hneg Hb) as [?%Hpq|?%Hqr]; done.
  - intros p'. unfold isAdjustedBetterThan. destruct (isEqualTo _ _); simpl; [by case_if|done].
Qed.

(** ** Orders of a path *)

Lemma native_order_source f side o :
  createNativeOptimizedOrder f side = Ok o → opt_source o = ERC20BridgeSource.Native.
Proof.
  unfold createNativeOptimizedOrder. destruct (fill_fillData f); try done.
  destruct (fill_type f); by intros [= <-].
Qed.

Lemma createOrdersByType_ok fs ctx ty :
  createOrdersByType fs ctx = Ok ty ↔
  Forall2 (λ f o, createNativeOptimizedOrder f (ctx_side ctx) = Ok o)
    (bfilter (λ f, isNative (fill_source f)) fs) (nativeOrders ty) ∧
  Forall2 (λ f o, createOrdersFromTwoHopSample f ctx = Ok o)
    (bfilter (λ f, isMultiHop (fill_source f)) fs) (twoHopOrders ty) ∧
  Forall2 (λ f o, createBridgeOrder f (getMakerTakerTokens ctx).1 (getMakerTakerTokens ctx).2
                    (ctx_side ctx) = Ok o)
    (bfilter (λ f, negb (isNative (fill_source f)) && negb (isMultiHop (fill_source f))) fs)
    (bridgeOrders ty).
Proof.
  rewrite <- !mapM_ok. unfold createOrdersByType. destruct (getMakerTakerTokens ctx) as [mk tk].
  split.
  - intros H. ok_inv H. injection H as <-. done.
  - destruct ty as [n th b]. simpl. intros (-> & -> & ->). done.
Qed.

Lemma flatTwoHop_fmap (g : OptimizedOrder → OptimizedOrder) l :
  flatTwoHop ((λ o, {| firstHopOrder := g (firstHopOrder o);
                       secondHopOrder := g (secondHopOrder o) |}) <$> l) = g <$> flatTwoHop l.
Proof. induction l as [|o l IH]; simpl; [done|]. do 2 f_equal. exact IH. Qed.

Lemma native_orders_unslipped s side l os :
  Forall2 (λ f o, createNativeOptimizedOrder f side = Ok o) l os →
  createSlipOrderFunction s side <$> os = os.
Proof.
  induction 1 as [|f o fs os Ho _ IH]; simpl; [done|]. f_equal; [|exact IH].
  unfold createSlipOrderFunction. by rewrite (native_order_source _ _ _ Ho).
Qed.

Definition flatten (ty : OptimizedOrdersByType) : list OptimizedOrder :=
  nativeOrders ty ++ bridgeOrders ty ++ flatTwoHop (twoHopOrders ty).

Lemma slipped_agree ctx fs target opts p s :
  create ctx fs target opts = Ok p →
  getSlippedOrders p s = flatten <$> getSlippedOrdersByType p s.
Proof.
  intros (ty & Hty & ->)%create_ok. apply createOrdersByType_ok in Hty as (Hn & _ & _).
  unfold getSlippedOrders, getSlippedOrdersByType. destruct (checkSlippage s); simpl; [|done].
  f_equal. unfold flatten, getOrders, getOrdersByType. simpl.
  rewrite !fmap_app, flatTwoHop_fmap. f_equal.
  by eapply native_orders_unslipped.
Qed.

(** Both ways to ask a path for its slipped orders agree, orders and errors
    alike; native orders are left as they are signed. *)
Theorem slipped_orders_agree ctx fs target opts p s :
  create ctx fs target opts = Ok p →
  getSlippedOrders p s = flatten <$> getSlippedOrdersByType p s ∧
  (∀ ty, getSlippedOrdersByType p s = Ok ty → nativeOrders ty = nativeOrders (ordersByType p)).
Proof.
  intros Hc. split; [by eapply slipped_agree|]. unfold getSlippedOrdersByType.
  destruct (checkSlippage s); simpl; [|done]. by intros ? [= <-].
Qed.

(** [o'] is what is accepted for [o], of maker amount [m] and taker amount [t],
    at a slippage [q] that is not zero: a sell accepts the maker amount less
    the slippage, rounded down, a buy the taker amount with it, rounded up.
    Native orders and amounts that stand for all there is are left alone. *)
Definition worst_case (side : MarketOperation) (q m t : Q) (o o' : OptimizedOrder) : Prop :=
  if isNative (opt_source o) || Qeq_bool q 0 then o' = o
  else match side with
  | Sell =>
      o' = with_makerAmount o (opt_makerAmount o') ∧
      if Qeq_bool m (inject_Z (2 ^ 256 - 1)) then opt_makerAmount o' = MAX_UINT256
      else ∃ r, (0 <= r <= 1)%Q ∧ near r (1 - q) ∧ int (opt_makerAmount o') (Qfloor (m * r))
  | Buy =>
      o' = with_takerAmount o (opt_takerAmount o') ∧
      if Qeq_bool t (inject_Z (2 ^ 256 - 1)) then opt_takerAmount o' = MAX_UINT256
      else ∃ r, (1 <= r <= 2)%Q ∧ near r (1 + q) ∧ int (opt_takerAmount o') (Qceiling (t * r))
  end.

Lemma slip_worst_case s q side o m t :
  ext_eq s (EFin q) → (0 <= q <= 1)%Q →
  fin (opt_makerAmount o) m → fin (opt_takerAmount o) t → (0 <= m)%Q → (0 <= t)%Q →
  worst_case side q m t o (createSlipOrderFunction s side o).
Proof.
  intros Hs Hq Hm Ht Hm0 Ht0. unfold createSlipOrderFunction, worst_case.
  assert (ext_eqb s (n_Z 0) = Qeq_bool q 0) as -> by by rewrite Hs.
  case_if; [done|].
  destruct side; (split; [done|]);
    cbn [opt_makerAmount opt_takerAmount with_makerAmount with_takerAmount].
  - rewrite (isEqualTo_fin _ _ _ _ Hm fin_MAX_UINT256). case_if; [done|].
    destruct (fin_one_minus s q Hs Hq) as (r & Hr & Hb & Hn). exists r. split_and!; try done; [lra|lra|].
    apply int_round_down; [by apply fin_times | nra].
  - rewrite (isEqualTo_fin _ _ _ _ Ht fin_MAX_UINT256). case_if; [done|].
    destruct (fin_one_plus s q Hs Hq) as (r & Hr & Hb & Hn). exists r. split_and!; try done; [lra|lra|].
    apply int_round_up; [by apply fin_times | nra].
Qed.

(** C30. Slippage moves each order against the user, by the slippage: on a sell
    the maker amount is that of the order times [1 - slippage], rounded down,
    on a buy the taker amount is that of the order times [1 + slippage],
    rounded up, with the factor as exact as binary64 numbers are.  Native
    orders, orders at no slippage, and amounts of [MAX_UINT256] stay as they
    are.  Sources, tokens, fill data and the other amount are kept.
    Slippages outside [0, 1] are refused. *)
Theorem slipped_orders_worst_case p s q ms :
  ext_eq s (EFin q) →
  Forall2 (λ o (a : Q * Q), fin (opt_makerAmount o) a.1 ∧ fin (opt_takerAmount o) a.2 ∧
                            (0 <= a.1)%Q ∧ (0 <= a.2)%Q) (getOrders p) ms →
  match getSlippedOrders p s with
  | Ok l => (0 <= q <= 1)%Q ∧ length l = length (getOrders p) ∧
      ∀ i o o' a, getOrders p !! i = Some o → l !! i = Some o' → ms !! i = Some a →
        worst_case (ctx_side (context p)) q a.1 a.2 o o'
  | Throw _ => (q < 0 ∨ 1 < q)%Q
  end.
Proof.
  intros Hs Hl. unfold getSlippedOrders, checkSlippage.
  assert (∀ x y a b, ext_eq x (EFin a) → ext_eq y (EFin b) → ext_lt x y = true ↔ (a < b)%Q) as Hlt.
  { intros x y a b Hx Hy. rewrite Hx, Hy. unfold ext_lt. simpl.
    rewrite andb_true_iff, negb_true_iff, Qle_bool_iff.
    rewrite <- not_true_iff_false, Qeq_bool_iff. split; [intros [? ?]; lra | split; lra]. }
  pose proof (Hlt _ _ _ _ Hs (n_Z_fin 0 ltac:(lia))) as H0.
  pose proof (Hlt _ _ _ _ (n_Z_fin 1 ltac:(lia)) Hs) as H1.
  change (inject_Z 0) with 0%Q in H0. change (inject_Z 1) with 1%Q in H1.
  destruct (ext_lt s (n_Z 0) || ext_lt (n_Z 1) s) eqn:E; simpl.
  - apply orb_true_iff in E as [E|E]; [left; by apply H0 | right; by apply H1].
  - apply orb_false_iff in E as [E0 E1].
    assert (0 <= q <= 1)%Q as Hq.
    { split; apply Qnot_lt_le; [rewrite <- H0, E0 | rewrite <- H1, E1]; done. }
    split; [done|]. split; [apply length_fmap|]. intros i o o' a Ho Ho' Ha.
    rewrite list_lookup_fmap, Ho in Ho'. injection Ho' as <-.
    destruct (Forall2_lookup_lr _ _ _ _ _ _ Hl Ho Ha) as (? & ? & ? & ?).
    by apply (slip_worst_case s q).
Qed.

(** ** Source flags *)

Definition multiHopBit : Z := Z.of_nat (3 + ERC20BridgeSource.index ERC20BridgeSource.MultiHop).

(** The multi-hop bit of a fill is set exactly for multi-hop fills, which the
    constructors of fills establish. *)
Definition flags_ok (f : Fill) : Prop :=
  Z.testbit (fill_flags f) multiHopBit = isMultiHop (fill_source f).

Lemma dexSampleToFill_flags_ok id side s a b fees : flags_ok (dexSampleToFill id side s a b fees).
Proof.
  unfold flags_ok, multiHopBit. simpl fill_flags. simpl fill_source.
  by rewrite source_flag_testbit by done.
Qed.

Lemma nativeOrderToFill_flags_ok id side o x a b fees neg f :
  nativeOrderToFill id side o x a b fees neg = Some f → flags_ok f.
Proof.
  unfold nativeOrderToFill. case_if; [done|]. intros [= <-]. unfold flags_ok, multiHopBit.
  simpl fill_flags. simpl fill_source.
  destruct (native_type o); apply native_flag_testbit; lia.
Qed.

Lemma mergeSourceFlags_testbit l acc n :
  Z.testbit (fold_left Z.lor l acc) n = Z.testbit acc n || existsb (λ x, Z.testbit x n) l.
Proof.
  revert acc. induction l as [|x l IH]; intros acc; simpl; [by rewrite orb_false_r|].
  rewrite IH, Z.lor_spec. by rewrite orb_assoc.
Qed.

Lemma land_bit_pos x n : (0 <= n)%Z → Z.ltb 0 (Z.land x (Z.shiftl 1 n)) = Z.testbit x n.
Proof.
  intros Hn. assert (Z.land x (Z.shiftl 1 n) = if Z.testbit x n then Z.shiftl 1 n else 0) as ->.
  { apply Z.bits_inj'. intros k Hk. rewrite Z.land_spec, testbit_shiftl_1 by done.
    destruct (Z.eqb_spec k n) as [->|Hne].
    - destruct (Z.testbit x n); [by rewrite testbit_shiftl_1, Z.eqb_refl | by rewrite Z.bits_0].
    - rewrite andb_false_r. destruct (Z.testbit x n); [|by rewrite Z.bits_0].
      rewrite testbit_shiftl_1 by done. symmetry. by apply Z.eqb_neq. }
  destruct (Z.testbit x n); [|done]. apply Z.ltb_lt. rewrite Z.shiftl_1_l.
  apply Z.pow_pos_nonneg; lia.
Qed.

Lemma existsb_bfilter {A} (p : A → bool) l : existsb p l = true ↔ bfilter p l ≠ [].
Proof.
  induction l as [|x l IH]; simpl; [done|]. destruct (p x); simpl; [done | exact IH].
Qed.

Lemma existsb_fmap_ext {A C} (p : C → bool) (q : A → bool) (g : A → C) l :
  Forall (λ x, p (g x) = q x) l → existsb p (g <$> l) = existsb q l.
Proof.
  induction 1 as [|x l Hx _ IH]; [done|].
  change (p (g x) || existsb p (g <$> l) = q x || existsb q l). by rewrite Hx, IH.
Qed.

Lemma hasTwoHop_orders ctx fs target opts p :
  create ctx fs target opts = Ok p → Forall flags_ok fs →
  hasTwoHop p = true ↔ twoHopOrders (getOrdersByType p) ≠ [].
Proof.
  intros (ty & Hty & ->)%create_ok Hflags. apply createOrdersByType_ok in Hty as (_ & Ht & _).
  simpl. unfold hasTwoHop. simpl sourceFlags.
    change (source_flag ERC20BridgeSource.MultiHop) with (Z.shiftl 1 multiHopBit).
    rewrite land_bit_pos by done. unfold mergeSourceFlags.
    rewrite mergeSourceFlags_testbit, Z.bits_0. simpl.
    rewrite (existsb_fmap_ext _ (λ f, isMultiHop (fill_source f))) by exact Hflags.
    rewrite existsb_bfilter. apply Forall2_length in Ht.
    rewrite <- !length_zero_iff_nil, Ht. done.
Qed.

(** The source of an order is that of its fill, or of a hop of it. *)
Definition order_of_fill (f : Fill) (o : OptimizedOrder) : Prop :=
  (fill_source f ≠ ERC20BridgeSource.MultiHop ∧ opt_source o = fill_source f) ∨
  (fill_source f = ERC20BridgeSource.MultiHop ∧
   ∃ h1 h2 mid, fill_fillData f = FDMultiHop (Some h1) (Some h2) mid ∧
     (opt_source o = h1.1 ∨ opt_source o = h2.1)).

Lemma bridge_order_source f maker taker side o :
  createBridgeOrder f maker taker side = Ok o → opt_source o = fill_source f.
Proof. unfold createBridgeOrder. intros H. ok_inv H. by apply Ok_inj in H as <-. Qed.

Lemma two_hop_order_sources f ctx th :
  createOrdersFromTwoHopSample f ctx = Ok th →
  ∃ h1 h2 mid, fill_fillData f = FDMultiHop (Some h1) (Some h2) mid ∧
    opt_source (firstHopOrder th) = h1.1 ∧ opt_source (secondHopOrder th) = h2.1.
Proof.
  unfold createOrdersFromTwoHopSample. destruct (getMakerTakerTokens ctx) as [mk tk]. intros H.
  repeat match type of H with context [match ?x with _ => _ end] => destruct x eqn:?; try done end.
  all: ok_inv H; apply Ok_inj in H as <-; eexists _, _, _; split; [reflexivity|].
  all: by split; [eapply (bridge_order_source (hopFill _ _ _ _ _)) | eapply (bridge_order_source (hopFill _ _ _ _ _))].
Qed.

Lemma orders_of_fills ctx fs target opts p :
  create ctx fs target opts = Ok p →
  Forall (λ o, ∃ f, f ∈ fs ∧ order_of_fill f o) (getOrders p).
Proof.
  intros (ty & (Hn & Ht & Hb)%createOrdersByType_ok & ->)%create_ok. unfold getOrders. simpl.
  apply Forall_forall. intros o. rewrite !elem_of_app. intros [Ho|[Ho|Ho]].
  - apply Forall2_flip in Hn; apply (Forall2_elem_l _ _ _ _ Hn) in Ho as (f & [Hf E]%elem_of_bfilter & Hc).
    exists f. split; [done|]. left. pose proof (native_order_source _ _ _ Hc) as ->.
    apply bool_decide_eq_true in E. by rewrite E.
  - apply Forall2_flip in Hb; apply (Forall2_elem_l _ _ _ _ Hb) in Ho as (f & [Hf E]%elem_of_bfilter & Hc).
    exists f. split; [done|]. left. split; [|by eapply bridge_order_source].
    apply andb_true_iff in E as [_ E%negb_true_iff]. by apply bool_decide_eq_false in E.
  - apply list_elem_of_In, in_flat_map in Ho as (th & Hth%list_elem_of_In & Ho%list_elem_of_In).
    apply Forall2_flip in Ht; apply (Forall2_elem_l _ _ _ _ Ht) in Hth as (f & [Hf E%bool_decide_eq_true]%elem_of_bfilter & Hc).
    apply two_hop_order_sources in Hc as (h1 & h2 & mid & Hfd & H1 & H2).
    exists f. split; [done|]. right. split; [done|]. exists h1, h2, mid. split; [done|].
    revert Ho. rewrite !elem_of_cons, elem_of_nil. intros [->|[->|[]]]; auto.
Qed.

(** The amounts, rounded for the side of the request, that an order of a fill
    with this input and output has. *)
Definition has_amounts (side : MarketOperation) (input output : BN) (o : OptimizedOrder) : Prop :=
  match side with
  | Sell => opt_takerAmount o = input ∧ opt_makerAmount o = integerValue ROUND_DOWN output
  | Buy => opt_makerAmount o = input ∧ opt_takerAmount o = integerValue ROUND_UP output
  end.

(** [o] settles the fill [f] of a single source: a native order between its own
    tokens, any other one between those of the request. *)
Definition settles (ctx : PathContext) (f : Fill) (o : OptimizedOrder) : Prop :=
  opt_source o = fill_source f ∧ opt_fill o = toFillBase f ∧
  has_amounts (ctx_side ctx) (fill_input f) (fill_output f) o ∧
  if isNative (fill_source f)
  then opt_type o = fill_type f ∧ opt_fillData o = fill_fillData f ∧
       ∃ n, fill_fillData f = FDNative n ∧
         opt_makerToken o = order_makerToken (native_order n) ∧
         opt_takerToken o = order_takerToken (native_order n)
  else opt_type o = FillQuoteTransformerOrderType.Bridge ∧
       createFinalBridgeOrderFillDataFromCollapsedFill f = Ok (opt_fillData o) ∧
       (opt_makerToken o, opt_takerToken o) = getMakerTakerTokens ctx.

(** [th] settles the two-hop fill [f]: a first order from the taker token to
    the intermediate one and a second one from there to the maker token.  A
    sell gives the first the input and asks nothing of it, and sells all there
    is in the second for the output; a buy asks the input of the second, all
    it needs of the first, and gives the first the output. *)
Definition settles_hops (ctx : PathContext) (f : Fill) (th : TwoHopOrder) : Prop :=
  ∃ s1 d1 s2 d2 mid,
    let '(makerToken, takerToken) := getMakerTakerTokens ctx in
    let a := firstHopOrder th in
    let b := secondHopOrder th in
    let '(in1, out1, in2, out2) :=
      match ctx_side ctx with
      | Sell => (fill_input f, ZERO_AMOUNT, MAX_UINT256, fill_output f)
      | Buy => (ZERO_AMOUNT, fill_output f, fill_input f, MAX_UINT256)
      end in
    fill_fillData f = FDMultiHop (Some (s1, d1)) (Some (s2, d2)) mid ∧
    (opt_source a, opt_makerToken a, opt_takerToken a) = (s1, mid, takerToken) ∧
    (opt_source b, opt_makerToken b, opt_takerToken b) = (s2, makerToken, mid) ∧
    has_amounts (ctx_side ctx) in1 out1 a ∧ has_amounts (ctx_side ctx) in2 out2 b ∧
    opt_fill a = {| base_input := in1; base_output := out1; base_adjustedOutput := out1; base_gas := n_Z 1 |} ∧
    opt_fill b = {| base_input := in2; base_output := out2; base_adjustedOutput := out2; base_gas := n_Z 1 |} ∧
    createFinalBridgeOrderFillDataFromCollapsedFill (hopFill s1 d1 in1 out1 out1) = Ok (opt_fillData a) ∧
    createFinalBridgeOrderFillDataFromCollapsedFill (hopFill s2 d2 in2 out2 out2) = Ok (opt_fillData b).

Lemma native_order_settles ctx f o :
  createNativeOptimizedOrder f (ctx_side ctx) = Ok o →
  fill_source f = ERC20BridgeSource.Native → settles ctx f o.
Proof.
  unfold createNativeOptimizedOrder, settles, has_amounts, getFillTokenAmounts. intros H ->. simpl.
  destruct (fill_fillData f) eqn:E; try done.
  destruct (fill_type f); try done; injection H as <-; destruct (ctx_side ctx);
    split_and!; try done; by exists o0.
Qed.

Lemma bridge_order_amounts f mk tk side o :
  createBridgeOrder f mk tk side = Ok o →
  has_amounts side (fill_input f) (fill_output f) o ∧
  opt_source o = fill_source f ∧ opt_fill o = toFillBase f ∧
  opt_type o = FillQuoteTransformerOrderType.Bridge ∧
  createFinalBridgeOrderFillDataFromCollapsedFill f = Ok (opt_fillData o) ∧
  (opt_makerToken o, opt_takerToken o) = (mk, tk).
Proof.
  unfold createBridgeOrder, has_amounts. intros H. ok_inv H. injection H as <-.
  by destruct side.
Qed.

Lemma bridge_order_settles ctx f o :
  createBridgeOrder f (getMakerTakerTokens ctx).1 (getMakerTakerTokens ctx).2 (ctx_side ctx) = Ok o →
  isNative (fill_source f) = false → settles ctx f o.
Proof.
  intros (Ha & Hs & Hf & Hty & Hd & Htok)%bridge_order_amounts Hne. unfold settles. rewrite Hne.
  rewrite <- surjective_pairing in Htok. done.
Qed.

Lemma two_hop_order_settles ctx f th :
  createOrdersFromTwoHopSample f ctx = Ok th → settles_hops ctx f th.
Proof.
  unfold createOrdersFromTwoHopSample, settles_hops.
  destruct (getMakerTakerTokens ctx) as [mk tk]. intros H.
  destruct (fill_fillData f) eqn:Ef; try done.
  destruct firstHopSource as [[s1 d1]|]; [|done]. destruct secondHopSource as [[s2 d2]|]; [|done].
  exists s1, d1, s2, d2, intermediateToken. ok_inv H. apply Ok_inj in H as <-. simpl.
  apply bridge_order_amounts in E as (Ha & Hsa & Hfa & _ & Hda & Hta).
  apply bridge_order_amounts in E0 as (Hb & Hsb & Hfb & _ & Hdb & Htb).
  injection Hta as Hta1 Hta2. injection Htb as Htb1 Htb2.
  destruct (ctx_side ctx); simpl in *; destruct Ha, Hb; split_and!; try done; congruence.
Qed.

(** C8. A path settles every fill: its native, its other single-source and its
    two-hop fills, in their order, each by exactly one order, or pair of
    orders, with the fill's amounts, tokens, source and fill data; and the
    flag test [hasTwoHop] tells exactly whether there are two-hop orders. *)
Theorem orders_settle_every_fill ctx fs target opts p :
  create ctx fs target opts = Ok p → Forall flags_ok fs →
  let ty := getOrdersByType p in
  Forall2 (settles ctx) (bfilter (λ f, isNative (fill_source f)) fs) (nativeOrders ty) ∧
  Forall2 (settles ctx)
    (bfilter (λ f, negb (isNative (fill_source f)) && negb (isMultiHop (fill_source f))) fs)
    (bridgeOrders ty) ∧
  Forall2 (settles_hops ctx) (bfilter (λ f, isMultiHop (fill_source f)) fs) (twoHopOrders ty) ∧
  (length (nativeOrders ty) + length (bridgeOrders ty) + length (twoHopOrders ty) = length fs)%nat ∧
  getOrders p = nativeOrders ty ++ bridgeOrders ty ++ flatTwoHop (twoHopOrders ty) ∧
  (hasTwoHop p = true ↔ twoHopOrders ty ≠ []).
Proof.
  intros Hc Hflags. pose proof (hasTwoHop_orders _ _ _ _ _ Hc Hflags) as Htwo.
  apply create_ok in Hc as (ty & Hty & ->). simpl. apply createOrdersByType_ok in Hty as (Hn & Ht & Hb).
  split_and!.
  - eapply Forall2_impl_bfilter; [exact Hn|]. intros f o Ho E%bool_decide_eq_true.
    by apply native_order_settles.
  - eapply Forall2_impl_bfilter; [exact Hb|]. intros f o Ho [E%negb_true_iff _]%andb_true_iff.
    by apply bridge_order_settles.
  - eapply Forall2_impl; [exact Ht|]. intros f th. apply two_hop_order_settles.
  - apply Forall2_length in Hn, Ht, Hb. rewrite <- Hn, <- Ht, <- Hb. clear.
    induction fs as [|f fs IH]; simpl; [done|]. unfold isNative, isMultiHop in *.
    destruct (fill_source f); simpl; lia.
  - done.
  - exact Htwo.
Qed.
End Path.
End Path.

(** ** Concrete paths *)
Module PathExamples.
Import Concrete Path.

Definition z (n : Z) : BN := of_Z n.
Definition ctx : PathContext :=
  {| ctx_side := Sell; ctx_inputToken := "0xA"; ctx_outputToken := "0xB" |}.
Definition bridge_fill (input output adjusted : Z) : Fill :=
  {| fill_source := ERC20BridgeSource.UniswapV2; fill_type := FillQuoteTransformerOrderType.Bridge;
     fill_fillData := FDUniswapV2 ["0xA"; "0xB"]%string "0xR";
     fill_sourcePathId := "p";
     fill_flags := source_flag ERC20BridgeSource.UniswapV2;
     fill_input := z input; fill_output := z output; fill_adjustedOutput := z adjusted;
     fill_gas := n_Z 100000 |}.
Definition hop_fill (input output adjusted : Z) : Fill :=
  {| fill_source := ERC20BridgeSource.MultiHop; fill_type := FillQuoteTransformerOrderType.Bridge;
     fill_fillData := FDMultiHop (Some (ERC20BridgeSource.Mooniswap, FDMooniswap "0x1"))
                        (Some (ERC20BridgeSource.Shell, FDShell "0x2")) "0xC";
     fill_sourcePathId := "h";
     fill_flags := source_flag ERC20BridgeSource.MultiHop;
     fill_input := z input; fill_output := z output; fill_adjustedOutput := z adjusted;
     fill_gas := n_Z 0 |}.
Definition opts : PathPenaltyOpts :=
  {| outputAmountPerEth := z 2; inputAmountPerEth := z 1; exchangeProxyOverhead := λ _, z 5 |}.
Definition fills1 : list Fill := [bridge_fill 60 600 590; hop_fill 50 450 430].
Definition amounts1 : list (Q * Q * Q) := [(60, 600, 590); (50, 450, 430)]%Q.
Definition fills2 : list Fill := [bridge_fill 100 900 890].
Definition fills3 : list Fill := [bridge_fill 90 990 980].

Definition path_of (r : result Path.t) : Path.t :=
  match r with
  | Ok p => p
  | Throw _ => {| context := ctx; fills := []; ordersByType := {| nativeOrders := [];
      twoHopOrders := []; bridgeOrders := [] |}; targetInput := z 0; pathPenaltyOpts := opts;
      sourceFlags := 0; adjustedSize := {| size_input := z 0; size_output := z 0 |} |}
  end.
Definition path1 : Path.t := path_of (create ctx fills1 (z 100) opts).
Definition path2 : Path.t := path_of (create ctx fills2 (z 100) opts).
Definition path3 : Path.t := path_of (create ctx fills3 (z 100) opts).
End PathExamples.

Import Concrete Path PathExamples.

Lemma adjusted_size_capped_witness :
  ∃ I O, fin (size_input (adjustedSize path1)) I ∧ fin (size_output (adjustedSize path1)) O ∧
    (I == Qmin 100 (total_input amounts1))%Q ∧
    ((total_input amounts1 <= 100)%Q → (O == total_adjusted amounts1)%Q) ∧
    (Forall (λ a, (0 <= a.1.2)%Q) amounts1 → (O <= total_adjusted amounts1)%Q).
Proof.
  apply (Path.adjusted_size_capped ctx fills1 (z 100) opts).
  - reflexivity.
  - fin_now.
  - vm_compute. discriminate.
  - repeat constructor; try fin_now; vm_compute; try discriminate; reflexivity.
Defined.

Lemma isAdjustedBetterThan_strict_weak_order_witness :
  isAdjustedBetterThan path1 path2 = Ok true ∧ isAdjustedBetterThan path2 path3 = Ok true ∧
  isAdjustedBetterThan path1 path3 = Ok true.
Proof.
  assert (isAdjustedBetterThan path1 path2 = Ok true) as H1 by reflexivity.
  assert (isAdjustedBetterThan path2 path3 = Ok true) as H2 by reflexivity.
  split; [exact H1|]. split; [exact H2|].
  destruct (Path.isAdjustedBetterThan_strict_weak_order path1 path2 path3 100
    100 (92 # 10) 100 (88 # 10) 90 (97 # 10)) as (_ & _ & Htrans & _).
  - split; fin_now.
  - split; fin_now.
  - split; fin_now.
  - exact (Htrans H1 H2).
Defined.

Lemma slipped_orders_agree_witness :
  getSlippedOrders path1 (EFin (1 # 4)) =
  flatten <$> getSlippedOrdersByType path1 (EFin (1 # 4)).
Proof.
  apply (Path.slipped_orders_agree ctx fills1 (z 100) opts path1 (EFin (1 # 4))). reflexivity.
Defined.

Lemma slipped_orders_worst_case_witness :
  match getSlippedOrders path2 (EFin (1 # 4)) with
  | Ok l => ∀ o o', getOrders path2 !! 0%nat = Some o → l !! 0%nat = Some o' →
              opt_takerAmount o' = opt_takerAmount o ∧
              ∃ r, near r (1 - (1 # 4)) ∧ int (opt_makerAmount o') (Qfloor (900 * r))
  | Throw _ => False
  end.
Proof.
  assert (Forall2 (λ o (a : Q * Q), fin (opt_makerAmount o) a.1 ∧ fin (opt_takerAmount o) a.2 ∧
                            (0 <= a.1)%Q ∧ (0 <= a.2)%Q) (getOrders path2) [(900, 100)%Q]) as Hms.
  { repeat constructor; try fin_now; vm_compute; discriminate. }
  pose proof (Path.slipped_orders_worst_case path2 (EFin (1 # 4)) (1 # 4) [(900, 100)%Q]
    ltac:(reflexivity) Hms) as H.
  destruct (getSlippedOrders path2 (EFin (1 # 4))) as [l|e].
  - destruct H as (_ & _ & H). intros o o' Ho Ho'.
    pose proof (H 0%nat o o' _ Ho Ho' eq_refl) as Hw. clear H Ho' Hms. injection Ho as <-.
    destruct Hw as [E (r & _ & Hr & Hm)]. split; [by rewrite E|]. exists r. by split.
  - destruct H; lra.
Defined.

Lemma orders_settle_every_fill_witness :
  hasTwoHop path1 = true ∧
  ∃ o th, bridgeOrders (getOrdersByType path1) = [o] ∧ twoHopOrders (getOrdersByType path1) = [th] ∧
    opt_takerAmount o = z 60 ∧ opt_makerAmount o = integerValue ROUND_DOWN (z 600) ∧
    opt_takerAmount (firstHopOrder th) = z 50 ∧ opt_takerAmount (secondHopOrder th) = MAX_UINT256 ∧
    opt_makerAmount (secondHopOrder th) = integerValue ROUND_DOWN (z 450) ∧
    opt_source (secondHopOrder th) = ERC20BridgeSource.Shell.
Proof.
  destruct (Path.orders_settle_every_fill ctx fills1 (z 100) opts path1) as (_ & Hb & Ht & _ & _ & H).
  - reflexivity.
  - repeat constructor; vm_compute; reflexivity.
  - split; [reflexivity|].
    change (Forall2 (settles ctx) [bridge_fill 60 600 590] (bridgeOrders (getOrdersByType path1))) in Hb.
    change (Forall2 (settles_hops ctx) [hop_fill 50 450 430] (twoHopOrders (getOrdersByType path1))) in Ht.
    apply Forall2_cons_inv_l in Hb as (o & os & (_ & _ & [Ho1 Ho2] & _) & ->%Forall2_nil_inv_l & Eb).
    apply Forall2_cons_inv_l in Ht as (th & ths & (s1 & d1 & s2 & d2 & mid & Hfd & _ & E2 & Ha & Hb2 & _)
      & ->%Forall2_nil_inv_l & Et).
    exists o, th. destruct Ha as [Ha _], Hb2 as [Hb1 Hb2].
    injection E2 as Hs2 _ _. injection Hfd as _ _ <- _ _. split_and!; assumption.
Defined.
