(* ===== verification/Optimizer.v ===== *)
(** * The path optimizer ([market_operation_utils/path_optimizer.ts])

    From the sampled quotes and the native orders of a request to the path a
    quote settles: the serialized curves handed to the neon router, and the
    fills rebuilt from the amounts it routes. *)

From stdpp Require Import pretty.
From S2P Require Import Prelude JsNumber BigNum Types Fills Orders Constants PathModel.

Module PathOptimizer.
Section PathOptimizer.
Context {B : BigNumberLib}.

Definition MIN_NUM_SAMPLE_INPUTS : nat := 3.
Definition ONE_BASE_UNIT : BN := of_Z 1.

(** [SerializedPath] and [OptimizerCapture] of the neon router. *)
Record SerializedPath : Type := {
  sp_ids : list string;
  sp_inputs : list number;
  sp_outputs : list number;
  sp_outputFees : list number;
  sp_isVip : bool;
}.

Record OptimizerCapture : Type := {
  cap_side : MarketOperation;
  cap_targetInput : number;
  cap_pathsIn : list SerializedPath;
}.

(** [DexSample[] | NativeOrderWithFillableAmounts[]]: the second array always
    holds one order. *)
Inductive SamplesOrNativeOrders : Type :=
| Samples (samples : list DexSample)
| NativeOrders (order : NativeOrderWithFillableAmounts).

Record RoutablePath : Type := {
  pathId : string;
  samplesOrNativeOrders : SamplesOrNativeOrders;
  serializedPath : SerializedPath;
}.

Record Route : Type := { inputAmounts : list number; outputAmounts : list number }.
Record NeonRouterOutput : Type := { allSourcesRoute : Route; vipSourcesRoute : Route }.

(** What the native [route] function writes into the four arrays it is given:
    one amount per path. *)
Record RouterArrays : Type := {
  allInputs : nat → number;
  allOutputs : nat → number;
  vipInputs : nat → number;
  vipOutputs : nat → number;
}.

(** The collaborators: the native router, the random identifiers (indexed by
    the path they name), and the numeric value of an order kind in a string. *)
Variable route : OptimizerCapture → nat → result RouterArrays.
Variable hexUtils_random : nat → string.
Variable orderType_string : FillQuoteTransformerOrderType → string.

(** The private fields of the class. *)
Record t : Type := {
  pathContext : PathContext;
  chainId : ChainId;
  feeSchedule : FeeSchedule;
  neonRouterNumSamples : nat;
  adjustFills : MarketOperation → list Fill → list Fill;
  pathPenaltyOpts : Path.PathPenaltyOpts;
  inputAmount : BN;
}.

(** The arrays are allocated with one entry per path, so the four length
    assertions of the source hold. *)
Definition routeFromNeonRouter (optimizerCapture : OptimizerCapture) (numSamples : nat)
    : result NeonRouterOutput :=
  let numPathsIn := length (cap_pathsIn optimizerCapture) in
  arrays ← route optimizerCapture numSamples;
  let read (f : nat → number) := f <$> seq 0 numPathsIn in
  mret {| allSourcesRoute :=
            {| inputAmounts := read (allInputs arrays); outputAmounts := read (allOutputs arrays) |};
          vipSourcesRoute :=
            {| inputAmounts := read (vipInputs arrays); outputAmounts := read (vipOutputs arrays) |} |}.

Section Methods.
Variable this : t.

Definition side : MarketOperation := ctx_side (pathContext this).
Definition outputAmountPerEth : BN := Path.outputAmountPerEth (pathPenaltyOpts this).
Definition inputAmountPerEth : BN := Path.inputAmountPerEth (pathPenaltyOpts this).

(** [.integerValue().toNumber()]. *)
Definition to_int_number (a : BN) : number := toNumber (integerValue ROUND_HALF_UP a).

(** The identifier of the fill is overwritten wherever the fill is used. *)
Definition createFillFromDexSample (sample : DexSample) : option Fill :=
  let fill :=
    dexSampleToFill (hexUtils_random 0) side sample outputAmountPerEth inputAmountPerEth
      (feeSchedule this) in
  head (adjustFills this side [fill]).

Definition with_source (fill : Fill) (source : ERC20BridgeSource) : Fill :=
  {| fill_source := source; fill_type := fill_type fill; fill_fillData := fill_fillData fill;
     fill_sourcePathId := fill_sourcePathId fill; fill_flags := fill_flags fill;
     fill_input := fill_input fill; fill_output := fill_output fill;
     fill_adjustedOutput := fill_adjustedOutput fill; fill_gas := fill_gas fill |}.

Definition createFillFromTwoHopSample (sample : DexSample) : result Fill :=
  let multihopFeeEstimate := feeSchedule this ERC20BridgeSource.MultiHop in
  fill ← twoHopSampleToFill side sample outputAmountPerEth multihopFeeEstimate;
  match sample_fillData sample with
  | FDMultiHop (Some (firstHopSource, _)) (Some (secondHopSource, _)) _ =>
      match head (adjustFills this side [with_source fill firstHopSource]),
            head (adjustFills this side [with_source fill secondHopSource]) with
      | Some adjustedFillFirstHop, Some adjustedFillSecondHop =>
          let firstIsLess :=
            lt (fill_adjustedOutput adjustedFillFirstHop)
               (fill_adjustedOutput adjustedFillSecondHop) in
          mret match side with
               | Sell => if firstIsLess then adjustedFillFirstHop else adjustedFillSecondHop
               | Buy => if firstIsLess then adjustedFillSecondHop else adjustedFillFirstHop
               end
      | _, _ => Throw TypeError
      end
  | _ => Throw TypeError
  end.

(** ** Serialized paths *)

Definition outputFee (f : Fill) : number :=
  to_int_number (absoluteValue (minus (fill_output f) (fill_adjustedOutput f))).

(** Drop the trailing samples whose output is zero or not finite. *)
Fixpoint drop_while {A} (p : A → bool) (l : list A) : list A :=
  match l with
  | [] => []
  | x :: l' => if p x then drop_while p l' else l
  end.
Definition isInvalidOutput (s : DexSample) : bool :=
  isZero (sample_output s) || negb (isFinite (sample_output s)).
Definition singleSourceSamplesWithOutput (samples : list DexSample) : list DexSample :=
  rev (drop_while isInvalidOutput (rev samples)).

(** The reducer over the samples of one source: an adjustor that returns no
    fill makes it read a field of [undefined]. *)
Definition fills_of_samples (samples : list DexSample) : result (list Fill) :=
  mapM (λ s, match createFillFromDexSample s with Some f => Ok f | None => Throw TypeError end)
    samples.

Definition serialize (pathIdx : nat) (isVip : bool) (fs : list Fill) : SerializedPath :=
  {| sp_ids := imap (λ sampleIdx f,
       ERC20BridgeSource.to_string (fill_source f) +:+ "-" +:+ pretty pathIdx +:+ "-" +:+
       pretty sampleIdx) fs;
     sp_inputs := (λ f, to_int_number (fill_input f)) <$> fs;
     sp_outputs := (λ f, to_int_number (fill_output f)) <$> fs;
     sp_outputFees := outputFee <$> fs;
     sp_isVip := isVip |}.

(** The loop over the sources, with the paths already pushed. *)
Fixpoint singleSourceSamplesToRoutablePaths (routablePaths : list RoutablePath)
    (samples : list (list DexSample)) : result (list RoutablePath) :=
  match samples with
  | [] => Ok routablePaths
  | singleSourceSamples :: rest =>
      let withOutput := singleSourceSamplesWithOutput singleSourceSamples in
      if (length singleSourceSamples =? 0)%nat || (length withOutput <? MIN_NUM_SAMPLE_INPUTS)%nat
      then singleSourceSamplesToRoutablePaths routablePaths rest
      else
        let isVip :=
          match head withOutput with
          | Some s => includes (VIP_ERC20_BRIDGE_SOURCES_BY_CHAIN_ID (chainId this)) (sample_source s)
          | None => false
          end in
        fs ← fills_of_samples withOutput;
        singleSourceSamplesToRoutablePaths
          (routablePaths ++
           [{| pathId := hexUtils_random (S (length routablePaths));
               samplesOrNativeOrders := Samples withOutput;
               serializedPath := serialize (length routablePaths) isVip fs |}]) rest
  end.

Definition twoHopSamplesToRoutablePaths (twoHopSamples : list (list DexSample))
    : result (list RoutablePath) :=
  mapM (λ '(i, samples),
      fs ← mapM createFillFromTwoHopSample samples;
      mret {| pathId := "two-hop-" +:+ pretty (i : nat);
              samplesOrNativeOrders := Samples samples;
              serializedPath :=
                {| sp_ids := fill_sourcePathId <$> fs;
                   sp_inputs := (λ f, to_int_number (fill_input f)) <$> fs;
                   sp_outputs := (λ f, to_int_number (fill_output f)) <$> fs;
                   sp_outputFees := outputFee <$> fs;
                   sp_isVip := false |} |})
    (imap pair twoHopSamples).

Inductive SampleOrNativeOrder : Type :=
| ADexSample (s : DexSample)
| ANativeOrder (o : NativeOrderWithFillableAmounts).

Definition calculateOutputFee (x : SampleOrNativeOrder) : BN :=
  match x with
  | ADexSample s =>
      let fee := est_fee (feeSchedule this (sample_source s) (sample_fillData s)) in
      ethToOutputAmount (sample_input s) (sample_output s) fee inputAmountPerEth outputAmountPerEth
  | ANativeOrder o =>
      let '(input, output) := nativeOrderToNormalizedAmounts side o in
      let fee := est_fee (feeSchedule this ERC20BridgeSource.Native (FDNative o)) in
      ethToOutputAmount input output fee inputAmountPerEth outputAmountPerEth
  end.

(** One sample of a native order: the amount scaled to the input of the quote
    and to the position [i] among the samples. *)
Definition native_sample (amount scaleToInput : BN) (i : nat) : BN :=
  let fraction :=
    n_div (n_Z (Z.of_nat i)) (n_sub (n_Z (Z.of_nat (neonRouterNumSamples this))) (n_Z 1)) in
  min2 (times (times amount scaleToInput) (of_number fraction)) amount.

Definition serialize_native (numPaths idx : nat) (nativeOrder : NativeOrderWithFillableAmounts)
    : SerializedPath :=
  let '(normalizedOrderInput, normalizedOrderOutput) :=
    nativeOrderToNormalizedAmounts side nativeOrder in
  let fee := to_int_number (calculateOutputFee (ANativeOrder nativeOrder)) in
  let scaleToInput := min2 (div (inputAmount this) normalizedOrderInput) (of_Z 1) in
  let positions := seq 1 (neonRouterNumSamples this - 1) in
  {| sp_ids := (λ i, ERC20BridgeSource.to_string ERC20BridgeSource.Native +:+ "-" +:+
                     orderType_string (native_type nativeOrder) +:+ "-" +:+ pretty numPaths +:+
                     "-" +:+ pretty idx +:+ "-" +:+ pretty (i : nat)) <$> positions;
     sp_inputs := (λ i, to_int_number (native_sample normalizedOrderInput scaleToInput i)) <$> positions;
     sp_outputs := (λ i, to_int_number (native_sample normalizedOrderOutput scaleToInput i)) <$> positions;
     sp_outputFees := (λ _, fee) <$> positions;
     sp_isVip := negb (isLimit (native_type nativeOrder)) |}.

Definition isDummyOrder (nativeOrder : NativeOrderWithFillableAmounts) : bool :=
  let '(input, output) := nativeOrderToNormalizedAmounts side nativeOrder in
  lte input (of_Z 0) || lte output (of_Z 0).

(** The loop over the orders; every path gets the one identifier drawn before
    the loop. *)
Fixpoint nativeOrdersToRoutablePaths (routablePaths : list RoutablePath) (idx : nat)
    (nativeOrders : list NativeOrderWithFillableAmounts) : list RoutablePath :=
  match nativeOrders with
  | [] => routablePaths
  | nativeOrder :: rest =>
      nativeOrdersToRoutablePaths
        (if isDummyOrder nativeOrder then routablePaths
         else routablePaths ++
              [{| pathId := hexUtils_random 0;
                  samplesOrNativeOrders := NativeOrders nativeOrder;
                  serializedPath := serialize_native (length routablePaths) idx nativeOrder |}])
        (S idx) rest
  end.

(** ** From a route to a path *)

(** The loop over the samples of a source, from the last one: [k] samples are
    left to look at and [fill] is the fill found so far. *)
Fixpoint closestFill (routeSamples : list DexSample) (routeInputCorrected : BN)
    (outputAmount : number) (k : nat) (fill : Fill) : Fill :=
  match k with
  | O => fill
  | S k' =>
      match routeSamples !! k' with
      | None => fill
      | Some sample_k =>
          let fill :=
            if (k' =? 0)%nat then default fill (createFillFromDexSample sample_k) else fill in
          if gt routeInputCorrected (sample_input sample_k) then
            match routeSamples !! (S k') with
            | Some next =>
                default fill (createFillFromDexSample
                  {| sample_source := sample_source next;
                     sample_fillData := sample_fillData next;
                     sample_input := routeInputCorrected;
                     sample_output := integerValue ROUND_HALF_UP (of_number outputAmount) |})
            | None => default fill (createFillFromDexSample sample_k)
            end
          else closestFill routeSamples routeInputCorrected outputAmount k' fill
      end
  end.

Definition scaleOutput (maxSampledOutput output : BN) : BN :=
  max2 (min2 (integerValue ROUND_HALF_UP output) maxSampledOutput) (of_Z 1).

Definition maxSampledOutput (routeSamples : list DexSample) : BN :=
  integerValue ROUND_HALF_UP (bn_max (sample_output <$> routeSamples)).

Definition scaledFill (routeSamples : list DexSample) (id : string) (input : BN) (fill : Fill) : Fill :=
  let m := maxSampledOutput routeSamples in
  {| fill_source := fill_source fill; fill_type := fill_type fill;
     fill_fillData := fill_fillData fill; fill_flags := fill_flags fill; fill_gas := fill_gas fill;
     fill_input := input;
     fill_output := scaleOutput m (fill_output fill);
     fill_adjustedOutput := scaleOutput m (fill_adjustedOutput fill);
     fill_sourcePathId := id |}.

Definition with_sourcePathId (fill : Fill) (id : string) : Fill :=
  {| fill_source := fill_source fill; fill_type := fill_type fill;
     fill_fillData := fill_fillData fill; fill_flags := fill_flags fill; fill_gas := fill_gas fill;
     fill_input := fill_input fill; fill_output := fill_output fill;
     fill_adjustedOutput := fill_adjustedOutput fill; fill_sourcePathId := id |}.

(** One iteration of the loop for a routed path; [None] adds no fill. *)
Definition fillOfRoute (routeInputCorrected : BN) (outputAmount : number) (path : RoutablePath)
    : result (option Fill) :=
  match samplesOrNativeOrders path with
  | NativeOrders order =>
      mret ((λ f, with_sourcePathId f (pathId path)) <$>
            nativeOrderToFill (hexUtils_random 0) side order routeInputCorrected
              outputAmountPerEth inputAmountPerEth (feeSchedule this) false)
  | Samples routeSamples =>
      match last routeSamples with
      | None => Throw TypeError
      | Some current =>
          mret ((λ fill, scaledFill routeSamples (pathId path) routeInputCorrected
                   (closestFill routeSamples routeInputCorrected outputAmount
                      (length routeSamples) fill)) <$> createFillFromDexSample current)
      end
  end.

Definition option_list {A} (o : option A) : list A :=
  match o with Some a => [a] | None => [] end.

(** The loop over the routed amounts: an output that is not finite abandons
    the route, an amount of zero (or NaN) skips the path. *)
Fixpoint fillsOfRoute (precisionErrorScalar : BN)
    (routesAndPath : list (number * number * RoutablePath)) (adjustedFills : list Fill)
    : result (option (list Fill)) :=
  match routesAndPath with
  | [] => Ok (Some adjustedFills)
  | (routeInputAmount, outputAmount, routablePath) :: rest =>
      if negb (ext_is_finite outputAmount) then Ok None
      else if negb (n_truthy routeInputAmount) || negb (n_truthy outputAmount)
      then fillsOfRoute precisionErrorScalar rest adjustedFills
      else
        let routeInputCorrected :=
          min2 (integerValue ROUND_CEIL (times precisionErrorScalar (of_number routeInputAmount)))
               (inputAmount this) in
        fill ← fillOfRoute routeInputCorrected outputAmount routablePath;
        fillsOfRoute precisionErrorScalar rest (adjustedFills ++ option_list fill)
  end.

(** The three arrays have one entry per path, so [_.zip] pads nothing. *)
Definition createPathFromRoute (routablePaths : list RoutablePath) (route : Route)
    : result (option Path.t) :=
  let routesAndPath := zip (zip (inputAmounts route) (outputAmounts route)) routablePaths in
  let totalRoutedAmount := bn_sum (of_number <$> inputAmounts route) in
  let precisionErrorScalar := div (inputAmount this) totalRoutedAmount in
  fills ← fillsOfRoute precisionErrorScalar routesAndPath [];
  match fills with
  | None | Some [] => mret None
  | Some adjustedFills =>
      Some <$> Path.create (pathContext this) adjustedFills (inputAmount this) (pathPenaltyOpts this)
  end.

(** ** Choosing the path *)

Definition isValidTwoHopSample (sample : DexSample) : bool :=
  match sample_fillData sample with
  | FDMultiHop (Some _) (Some _) _ => gt (sample_output sample) ZERO_AMOUNT
  | _ => false
  end.

(** [(allSourcesPath, vipSourcesPath)]. *)
Definition findRoutesAndCreateOptimalPath (samples twoHopSamples : list (list DexSample))
    (nativeOrders : list NativeOrderWithFillableAmounts)
    : result (option (option Path.t * option Path.t)) :=
  if lte (inputAmount this) ONE_BASE_UNIT then Ok None
  else
    let validTwoHopSamples := bfilter isValidTwoHopSample <$> twoHopSamples in
    singleSourceRoutablePaths ← singleSourceSamplesToRoutablePaths [] samples;
    twoHopRoutablePaths ← twoHopSamplesToRoutablePaths validTwoHopSamples;
    let nativeOrderRoutablePaths := nativeOrdersToRoutablePaths [] 0 nativeOrders in
    let allRoutablePaths :=
      singleSourceRoutablePaths ++ twoHopRoutablePaths ++ nativeOrderRoutablePaths in
    let serializedPaths := serializedPath <$> allRoutablePaths in
    match serializedPaths with
    | [] => Ok None
    | _ =>
        let optimizerCapture :=
          {| cap_side := side; cap_targetInput := toNumber (inputAmount this);
             cap_pathsIn := serializedPaths |} in
        routes ← routeFromNeonRouter optimizerCapture (neonRouterNumSamples this);
        allSourcesPath ← createPathFromRoute allRoutablePaths (allSourcesRoute routes);
        vipSourcesPath ← createPathFromRoute allRoutablePaths (vipSourcesRoute routes);
        mret (Some (allSourcesPath, vipSourcesPath))
    end.

Definition findOptimalPathFromSamples (samples twoHopQuotes : list (list DexSample))
    (nativeOrders : list NativeOrderWithFillableAmounts) : result (option Path.t) :=
  paths ← findRoutesAndCreateOptimalPath samples twoHopQuotes nativeOrders;
  match paths with
  | None => mret None
  | Some (None, vipSourcesPath) => mret vipSourcesPath
  | Some (Some allSourcesPath, vipSourcesPath) =>
      match vipSourcesPath with
      | None => mret (Some allSourcesPath)
      | Some vip =>
          vipIsBetter ← Path.isAdjustedBetterThan vip allSourcesPath;
          mret (Some (if vipIsBetter : bool then vip else allSourcesPath))
      end
  end.
End Methods.

(** ** Serialized paths *)

Lemma drop_while_suffix {A} (p : A → bool) l :
  ∃ pre, l = pre ++ drop_while p l ∧ Forall (λ x, p x = true) pre ∧
    (∀ x, head (drop_while p l) = Some x → p x = false).
Proof.
  induction l as [|x l IH]; simpl; [by exists []|]. destruct (p x) eqn:E.
  - destruct IH as (pre & Hl & Hpre & Hh). exists (x :: pre). split_and!.
    + simpl. by rewrite <- Hl.
    + by apply Forall_cons.
    + exact Hh.
  - exists []. split_and!; [done | constructor |]. by intros ? [= <-].
Qed.

Lemma last_head_rev {A} (l : list A) : last l = head (rev l).
Proof.
  destruct l as [|x l] using rev_ind; [done|]. rewrite rev_app_distr. simpl. apply last_snoc.
Qed.

(** The kept samples are the input without a tail of invalid ones, and the
    last kept one is valid. *)
Lemma singleSourceSamplesWithOutput_spec ss :
  ∃ dropped, ss = singleSourceSamplesWithOutput ss ++ dropped ∧
    Forall (λ s, isInvalidOutput s = true) dropped ∧
    (∀ s, last (singleSourceSamplesWithOutput ss) = Some s → isInvalidOutput s = false).
Proof.
  unfold singleSourceSamplesWithOutput.
  destruct (drop_while_suffix isInvalidOutput (rev ss)) as (pre & Hl & Hpre & Hh).
  exists (rev pre). split_and!.
  - by rewrite <- rev_app_distr, <- Hl, rev_involutive.
  - apply Forall_rev in Hpre. by rewrite <- rev_alt in Hpre || exact Hpre.
  - intros s. rewrite last_head_rev, rev_involutive. apply Hh.
Qed.

(** What the router is given for one source. *)
Definition single_source_path (this : t) (samples : list (list DexSample)) (r : RoutablePath) : Prop :=
  ∃ kept dropped, kept ++ dropped ∈ samples ∧ samplesOrNativeOrders r = Samples kept ∧
    Forall (λ s, isInvalidOutput s = true) dropped ∧
    (MIN_NUM_SAMPLE_INPUTS <= length kept)%nat ∧
    (∃ s, last kept = Some s ∧ isInvalidOutput s = false) ∧
    length (sp_ids (serializedPath r)) = length kept ∧
    length (sp_inputs (serializedPath r)) = length kept ∧
    length (sp_outputs (serializedPath r)) = length kept ∧
    length (sp_outputFees (serializedPath r)) = length kept ∧
    (∀ s, head kept = Some s →
       sp_isVip (serializedPath r) =
       includes (VIP_ERC20_BRIDGE_SOURCES_BY_CHAIN_ID (chainId this)) (sample_source s)).

Lemma single_source_loop this all samples acc ps :
  (∀ ss, ss ∈ samples → ss ∈ all) →
  Forall (single_source_path this all) acc →
  singleSourceSamplesToRoutablePaths this acc samples = Ok ps →
  Forall (single_source_path this all) ps ∧ (length ps <= length acc + length samples)%nat.
Proof.
  revert acc. induction samples as [|ss samples IH]; intros acc Hin Hacc H; simpl in H.
  - injection H as <-. split; [done | lia].
  - case_match.
    + destruct (IH acc) as [? ?]; [set_solver | done | done |]. simpl. split; [done | lia].
    + ok_inv H. destruct (singleSourceSamplesWithOutput_spec ss) as (dropped & Hss & Hd & Hlast).
      set (kept := singleSourceSamplesWithOutput ss) in *.
      apply orb_false_iff in H0 as [_ Hlen]. apply Nat.ltb_ge in Hlen.
      apply mapM_ok_length in E.
      apply IH in H as [Hps Hlen2]; [split; [exact Hps|]; rewrite length_app in Hlen2; simpl in *; lia
                                    | set_solver |].
      apply Forall_app. split; [done|]. apply Forall_cons. split; [|constructor].
      exists kept, dropped. rewrite <- Hss.
      split_and!; simpl; rewrite ?length_imap, ?length_fmap; try done; [set_solver| |].
      * destruct (last kept) as [s|] eqn:El; [by eexists; split; [done | apply Hlast]|].
        apply last_None in El. rewrite El in Hlen. unfold MIN_NUM_SAMPLE_INPUTS in Hlen. simpl in Hlen. lia.
      * intros s ->. done.
Qed.

(** The router is given, per source, at most one curve: at least three samples
    (the native router panics on fewer), without the trailing samples that
    could not be filled, with parallel arrays and the VIP flag of the source
    on the chain. *)
Theorem single_source_paths_wellformed this samples ps :
  singleSourceSamplesToRoutablePaths this [] samples = Ok ps →
  Forall (single_source_path this samples) ps ∧ (length ps <= length samples)%nat.
Proof. apply single_source_loop; [done | constructor]. Qed.

(** ** Native orders *)

Lemma fraction_unit (N i : nat) :
  (1 <= i <= N - 1)%nat → (Z.of_nat N <= 2 ^ 53)%Z →
  ∃ r, fin (of_number (n_div (n_Z (Z.of_nat i)) (n_sub (n_Z (Z.of_nat N)) (n_Z 1)))) r ∧
       (0 <= r <= 1)%Q ∧ (i = (N - 1)%nat → (r == 1)%Q).
Proof.
  intros Hi HN. set (a := Z.of_nat i). set (b := (Z.of_nat N - 1)%Z).
  assert (n_int (n_Z a) a) as Ha by (apply n_int_Z; lia).
  assert (n_int (n_sub (n_Z (Z.of_nat N)) (n_Z 1)) b) as Hb by (n_int_expr; lia).
  assert (0 < inject_Z b)%Q as Hb0 by (change 0%Q with (inject_Z 0); rewrite <- Zlt_Qlt; lia).
  assert (0 <= inject_Z a <= inject_Z b)%Q as Hab.
  { change 0%Q with (inject_Z 0). rewrite <- !Zle_Qle. lia. }
  assert (ext_eq (n_div (n_Z a) (n_sub (n_Z (Z.of_nat N)) (n_Z 1)))
            (round64 (inject_Z a / inject_Z b))) as Hdiv.
  { unfold n_int in Ha, Hb. apply ext_eq_unfold in Ha, Hb. unfold n_div.
    destruct (n_Z a) as [| |p]; try done. destruct (n_sub _ _) as [| |q]; try done.
    replace (Qeq_bool q 0) with false by
      (symmetry; apply not_true_iff_false; rewrite Qeq_bool_iff, Hb; lra).
    by rewrite Ha, Hb. }
  destruct (round64_le_pow2 (inject_Z a / inject_Z b) 0) as (r & Hr & Hrb).
  { change (pow2 0) with 1%Q. split; [apply Qle_shift_div_l | apply Qle_shift_div_r]; lra. }
  { lia. }
  change (pow2 0) with 1%Q in Hrb.
  assert (is_number (n_div (n_Z a) (n_sub (n_Z (Z.of_nat N)) (n_Z 1)))) as Hnum.
  { rewrite Hdiv. apply (ext_round64_number (EFin (inject_Z a / inject_Z b))). }
  destruct (fin_of_number_between _ r 0 1 Hnum) as (r' & Hr' & Hb');
    [by rewrite Hdiv | lia | lia | exact Hrb |].
  change (inject_Z 0) with 0%Q in Hb'. change (inject_Z 1) with 1%Q in Hb'.
  exists r'. split; [done|]. split; [done|]. intros Hlast.
  assert (inject_Z a / inject_Z b == 1)%Q as E1.
  { replace a with b by lia. field. lra. }
  assert (fin (of_number (n_div (n_Z a) (n_sub (n_Z (Z.of_nat N)) (n_Z 1)))) (inject_Z 1)) as H1.
  { apply val_of_number_Z; [lia|]. rewrite Hdiv, E1. apply (round64_Z 1). lia. }
  exact (fin_inj _ _ _ Hr' H1).
Qed.

(** The samples of a native order stay within the order, and the last one is
    the order scaled to the input of the quote. *)
Lemma native_sample_bounds this amount scale a c i :
  fin amount a → fin scale c → (0 <= a)%Q → (0 <= c <= 1)%Q →
  (1 <= i <= neonRouterNumSamples this - 1)%nat →
  (Z.of_nat (neonRouterNumSamples this) <= 2 ^ 53)%Z →
  ∃ v, fin (native_sample this amount scale i) v ∧ (0 <= v <= a)%Q ∧
       (i = (neonRouterNumSamples this - 1)%nat → (v == a * c)%Q).
Proof.
  intros Ha Hc Ha0 Hc0 Hi HN. unfold native_sample.
  destruct (fraction_unit _ i Hi HN) as (r & Hr & Hb & Hlast).
  eexists. split; [apply fin_min2; [apply fin_times; [apply fin_times|]|]; eassumption|].
  assert (0 <= a * c * r)%Q by (apply Qmult_le_0_compat; [nra|lra]).
  assert (a * c * r <= a)%Q by (assert (a * c <= a)%Q by nra; assert (0 <= a * c)%Q by nra; nra).
  rewrite Q.min_l by done. split; [done|]. intros Hl. rewrite (Hlast Hl). lra.
Qed.

Definition native_path (this : t) (o : NativeOrderWithFillableAmounts) (r : RoutablePath) : Prop :=
  samplesOrNativeOrders r = NativeOrders o ∧ pathId r = hexUtils_random 0 ∧
  sp_isVip (serializedPath r) = bool_decide (native_type o ≠ FillQuoteTransformerOrderType.Limit) ∧
  length (sp_ids (serializedPath r)) = (neonRouterNumSamples this - 1)%nat ∧
  length (sp_inputs (serializedPath r)) = (neonRouterNumSamples this - 1)%nat ∧
  length (sp_outputs (serializedPath r)) = (neonRouterNumSamples this - 1)%nat ∧
  length (sp_outputFees (serializedPath r)) = (neonRouterNumSamples this - 1)%nat.

Lemma native_loop this orders acc idx :
  ∃ new, nativeOrdersToRoutablePaths this acc idx orders = acc ++ new ∧
    Forall2 (native_path this) (bfilter (λ o, negb (isDummyOrder this o)) orders) new.
Proof.
  revert acc idx. induction orders as [|o orders IH]; intros acc idx; simpl.
  - exists []. by rewrite app_nil_r.
  - destruct (isDummyOrder this o); simpl; [apply IH|].
    destruct (IH (acc ++ [{| pathId := hexUtils_random 0; samplesOrNativeOrders := NativeOrders o;
      serializedPath := serialize_native this (length acc) idx o |}]) (S idx)) as (new & -> & Hnew).
    eexists (_ :: new). rewrite <- app_assoc. split; [done|]. constructor; [|done].
    unfold native_path, serialize_native. simpl.
    destruct (nativeOrderToNormalizedAmounts (side this) o). simpl.
    rewrite !length_fmap, !length_seq. split_and!; try done.
    unfold isLimit. by destruct (native_type o).
Qed.

(** Every native order with a positive input and output becomes one path, in
    order, with exactly one sample less than the router asks for, flagged VIP
    unless it is a limit order; its samples never ask for more than the order
    and end with the order scaled to the quote. *)
Theorem native_paths_within_orders this orders :
  (2 <= neonRouterNumSamples this)%nat → (Z.of_nat (neonRouterNumSamples this) <= 2 ^ 53)%Z →
  Forall2 (native_path this) (bfilter (λ o, negb (isDummyOrder this o)) orders)
    (nativeOrdersToRoutablePaths this [] 0 orders) ∧
  ∀ o n A i out, o ∈ orders → isDummyOrder this o = false →
    nativeOrderToNormalizedAmounts (side this) o = (n, out) →
    fin n i → fin (inputAmount this) A → (0 <= A)%Q →
    let scale := min2 (div (inputAmount this) n) (of_Z 1) in
    ∃ c, fin scale c ∧ (0 <= c <= 1)%Q ∧
      ∀ k, (1 <= k <= neonRouterNumSamples this - 1)%nat →
        ∃ v, fin (native_sample this n scale k) v ∧ (0 <= v <= i)%Q ∧
             (k = (neonRouterNumSamples this - 1)%nat → (v == i * c)%Q).
Proof.
  intros HN2 HN. split.
  - destruct (native_loop this orders [] 0) as (new & -> & H). exact H.
  - intros o n A i out _ Hd Hn Hi HA HA0 scale. unfold isDummyOrder in Hd. rewrite Hn in Hd.
    apply orb_false_iff in Hd as [Hd _]. apply (lte_fin_false _ _ _ _ Hi (fin_Z 0)) in Hd.
    change (inject_Z 0) with 0%Q in Hd.
    assert (0 <= rdiv A i)%Q as Hr.
    { unfold rdiv. apply round_dp_nonneg. apply Qle_shift_div_l; lra. }
    exists (Qmin (rdiv A i) (inject_Z 1)). split.
    { apply fin_min2; [apply fin_div; [done | done | lra] | apply fin_Z]. }
    change (inject_Z 1) with 1%Q.
    assert (0 <= Qmin (rdiv A i) 1 <= 1)%Q as Hc.
    { split; [|apply Q.le_min_r]. apply Q.min_glb; lra. }
    split; [done|]. intros k Hk. eapply native_sample_bounds; try done; try lra.
    apply fin_min2; [apply fin_div; [done | done | lra] | apply (fin_Z 1)].
Qed.

(** ** The fill of a routed amount *)

(** The sample made of [next] at the routed size. *)
Definition resized (next : DexSample) (input : BN) (outputAmount : number) : DexSample :=
  {| sample_source := sample_source next; sample_fillData := sample_fillData next;
     sample_input := input; sample_output := integerValue ROUND_HALF_UP (of_number outputAmount) |}.

(** [x] is beyond the input of [s]. *)
Definition beyond (x : BN) (s : DexSample) : bool := gt x (sample_input s).

Lemma closestFill_step this ss x out k fill :
  (S k <= length ss)%nat →
  (∀ j s, ss !! j = Some s → (S k <= j)%nat → beyond x s = false) →
  let res := closestFill this ss x out (S k) fill in
  (∃ j l next prev, ss !! j = Some l ∧ ss !! S j = Some next ∧ beyond x l = true ∧
     (∀ i t, ss !! i = Some t → (j < i)%nat → beyond x t = false) ∧
     res = default prev (createFillFromDexSample this (resized next x out)))
  ∨ (∃ s prev, last ss = Some s ∧ beyond x s = true ∧
       res = default prev (createFillFromDexSample this s))
  ∨ (∀ j s, ss !! j = Some s → beyond x s = false) ∧
    (∃ s, head ss = Some s ∧ res = default fill (createFillFromDexSample this s)).
Proof.
  revert fill. induction k as [|k IH]; intros fill Hlen Hk res; subst res.
  - destruct ss as [|s ss]; [simpl in Hlen; lia|]. simpl.
    fold (beyond x s). destruct (beyond x s) eqn:Eg.
    + destruct ss as [|next ss]; simpl.
      * right. left. by eexists s, _.
      * left. by eexists 0%nat, s, next, _.
    + right. right. split; [|by exists s]. intros [|j] t Ht; [by injection Ht as <-|].
      by apply (Hk (S j)); [|lia].
  - destruct (lookup_lt_is_Some_2 ss (S k) ltac:(lia)) as [s Es].
    remember (S k) as k1 eqn:Ek. cbn [closestFill]. rewrite Es.
    replace (k1 =? 0)%nat with false by (by rewrite Ek). fold (beyond x s). destruct (beyond x s) eqn:Eg.
    + destruct (ss !! S k1) as [next|] eqn:En.
      * left. by eexists k1, s, next, _.
      * right. left. eexists s, _. split_and!; [|done|done].
        apply lookup_ge_None in En. rewrite last_lookup. by replace (pred (length ss)) with k1 by lia.
    + subst k1. apply IH; [lia|]. intros j t Ht Hj. destruct (decide (j = S k)) as [->|Hne]; [congruence|].
      by apply (Hk j); [|lia].
Qed.

(** The fill data of a routed amount comes from the sample that covers it: the
    one after the last sample it exceeds, resized to the routed amounts; the
    last sample when it exceeds that one; the first sample when it exceeds
    none. *)
Theorem closest_fill_covers this ss x out fill :
  ss ≠ [] →
  let res := closestFill this ss x out (length ss) fill in
  (∃ j l next prev, ss !! j = Some l ∧ ss !! S j = Some next ∧ beyond x l = true ∧
     (∀ i t, ss !! i = Some t → (j < i)%nat → beyond x t = false) ∧
     res = default prev (createFillFromDexSample this (resized next x out)))
  ∨ (∃ s prev, last ss = Some s ∧ beyond x s = true ∧
       res = default prev (createFillFromDexSample this s))
  ∨ (∀ j s, ss !! j = Some s → beyond x s = false) ∧
    (∃ s, head ss = Some s ∧ res = default fill (createFillFromDexSample this s)).
Proof.
  intros Hne. destruct (length ss) as [|k] eqn:El; [by apply length_zero_iff_nil in El|].
  apply closestFill_step; [lia|]. intros j s Hj%lookup_lt_Some Hk. lia.
Qed.

(** ** Bounds of a created path *)

(** A decimal that is a number or an infinity. *)
Definition not_nan (a : BN) : Prop := ext_is_nan (val a) = false.

Lemma scaleOutput_bounds m M a :
  fin m M → not_nan a →
  ∃ o, fin (scaleOutput m a) o ∧ (1 <= o <= Qmax M 1)%Q.
Proof.
  intros Hm Ha. unfold scaleOutput, not_nan in *.
  assert (∀ b, ext_is_nan (val b) = false →
    ext_is_nan (val (integerValue ROUND_HALF_UP b)) = false) as Hint.
  { intros b Hb. destruct (val b) as [|s|q] eqn:E; [done| |].
    - pose proof (val_integerValue_nonfin ROUND_HALF_UP b) as H. rewrite E in H.
      specialize (H eq_refl). apply ext_eq_unfold in H. by destruct (val (integerValue _ b)).
    - eapply fin_not_nan, fin_integerValue. unfold fin. by rewrite E. }
  set (c := integerValue ROUND_HALF_UP a).
  destruct (bn_min_spec [c; m]) as [(x & Hx & Ex) Hall]; [done| |].
  { repeat constructor; [by apply Hint | by eapply fin_not_nan]. }
  rewrite !Forall_cons in Hall. destruct Hall as (Hc & Hmm & _).
  assert (ext_is_nan (val (min2 c m)) = false) as Hmin.
  { unfold min2. destruct (val (bn_min [c; m])); try done. }
  destruct (bn_max_spec [min2 c m; of_Z 1]) as [(y & Hy & Ey) Hall]; [done| |].
  { repeat constructor; [done | eapply fin_not_nan, fin_Z]. }
  rewrite !Forall_cons in Hall. destruct Hall as (H1 & H2 & _).
  change (bn_max [min2 c m; of_Z 1]) with (max2 (min2 c m) (of_Z 1)) in *.
  change (bn_min [c; m]) with (min2 c m) in *.
  pose proof (fin_Z 1) as Hone. unfold fin in *. rewrite Hone in H2. rewrite Hm in Hmm.
  change (inject_Z 1) with 1%Q in *.
  rewrite !elem_of_cons, elem_of_nil in Hy. destruct Hy as [->|[->|[]]].
  - destruct (val (min2 c m)) as [|[]|q] eqn:Eq; try done; rewrite Ey in *; try done.
    simpl in *. rewrite Qle_bool_iff in *. exists q. split; [done|]. split; [done|].
    transitivity M; [done | apply Q.le_max_l].
  - exists 1%Q. split; [by rewrite Ey|]. split; [lra | apply Q.le_max_r].
Qed.

(** A fill of a created path: the amounts of a native order, or a sampled
    source with a usable output within what was sampled. *)
Definition bounded_fill (this : t) (paths : list RoutablePath) (A : Q) (f : Fill) : Prop :=
  ∃ i, fin (fill_input f) i ∧ (i <= A)%Q ∧
    ∃ r, r ∈ paths ∧ fill_sourcePathId f = pathId r ∧
    match samplesOrNativeOrders r with
    | NativeOrders o => fill_source f = ERC20BridgeSource.Native ∧ fill_type f = native_type o
    | Samples ss => ∀ M, fin (maxSampledOutput ss) M →
        (∃ o, fin (fill_output f) o ∧ (1 <= o <= Qmax M 1)%Q) ∧
        (∃ a, fin (fill_adjustedOutput f) a ∧ (1 <= a <= Qmax M 1)%Q)
    end.

Definition fin_sample (s : DexSample) : Prop :=
  ∃ i o, fin (sample_input s) i ∧ fin (sample_output s) o.

(** The assumptions on the inputs of a created path: finite samples and native
    orders, and fills without NaN from the adjustor on finite samples. *)
Record route_inputs (this : t) (paths : list RoutablePath) (A : Q) : Prop := {
  ri_input : fin (inputAmount this) A;
  ri_samples : ∀ r ss s, r ∈ paths → samplesOrNativeOrders r = Samples ss → s ∈ ss →
    fin_sample s;
  ri_fills : ∀ s f, fin_sample s → createFillFromDexSample this s = Some f →
    not_nan (fill_output f) ∧ not_nan (fill_adjustedOutput f);
  ri_native : ∀ r o, r ∈ paths → samplesOrNativeOrders r = NativeOrders o →
    ∃ i, fin (nativeOrderToNormalizedAmounts (side this) o).1 i;
}.

Lemma fillOfRoute_bounded this paths A x X out r f :
  route_inputs this paths A → r ∈ paths → fin x X → (X <= A)%Q →
  is_number out → ext_is_finite out = true →
  fillOfRoute this x out r = Ok (Some f) → bounded_fill this paths A f.
Proof.
  intros Hri Hr Hx HX Hout Hofin. unfold fillOfRoute.
  destruct (samplesOrNativeOrders r) as [ss|o] eqn:Es.
  - destruct (last ss) as [cur|] eqn:El; [|done].
    destruct (createFillFromDexSample this cur) as [f0|] eqn:Ef0; [|done]. intros [= <-].
    exists X. split; [done|]. split; [done|]. exists r. rewrite Es. split_and!; try done.
    assert (ss ≠ []) as Hne by (by intros ->).
    assert (∀ s, s ∈ ss → fin_sample s) as Hss by (intros s Hs; by eapply ri_samples).
    assert (∀ s, s ∈ ss → fin_sample (resized s x out)) as Hres.
    { intros s _. destruct out as [| |oq]; try done.
      destruct (val_of_number_fin (EFin oq) oq Hout) as (o' & Ho' & _); [reflexivity|].
      eexists X, _. split; [exact Hx | apply fin_integerValue; exact Ho']. }
    assert (∀ prev s, fin_sample s → not_nan (fill_output prev) ∧ not_nan (fill_adjustedOutput prev) →
      not_nan (fill_output (default prev (createFillFromDexSample this s))) ∧
      not_nan (fill_adjustedOutput (default prev (createFillFromDexSample this s)))) as Hdef.
    { intros prev s Hs Hp. destruct (createFillFromDexSample this s) eqn:E; [|done].
      by eapply ri_fills. }
    assert (∀ k fill, not_nan (fill_output fill) ∧ not_nan (fill_adjustedOutput fill) →
      not_nan (fill_output (closestFill this ss x out k fill)) ∧
      not_nan (fill_adjustedOutput (closestFill this ss x out k fill))) as Hcl.
    { induction k as [|k IH]; intros fill Hfill; simpl; [done|].
      destruct (ss !! k) as [s|] eqn:Ek; [|done].
      assert (s ∈ ss) as Hs by by eapply list_elem_of_lookup_2.
      set (fill' := if (k =? 0)%nat then _ else _).
      assert (not_nan (fill_output fill') ∧ not_nan (fill_adjustedOutput fill')) as Hf'.
      { unfold fill'. case_match; auto. }
      case_match; [|by apply IH]. destruct (ss !! S k) as [next|] eqn:En; [|auto].
      apply Hdef; [|done]. apply Hres. by eapply list_elem_of_lookup_2. }
    assert (fin_sample cur) as Hcur.
    { apply Hss. rewrite last_lookup in El. by eapply list_elem_of_lookup_2. }
    destruct (Hcl (length ss) f0 (ri_fills _ _ _ Hri _ _ Hcur Ef0)) as [Ho Ha].
    intros M HM. split; by apply scaleOutput_bounds.
  - destruct (nativeOrderToFill _ _ _ _ _ _ _ _) as [f0|] eqn:Ef0; [|done]. intros [= <-].
    destruct (ri_native _ _ _ Hri r o Hr Es) as [i Hi].
    unfold nativeOrderToFill in Ef0. simpl in Ef0. injection Ef0 as <-. simpl.
    unfold nativeOrderToNormalizedAmounts in Hi.
    exists (Qmin X i). split; [destruct (side this); by apply fin_min2|].
    split; [pose proof (Q.le_min_l X i); lra|]. exists r. rewrite Es. done.
Qed.

Lemma fillsOfRoute_bounded this paths A c l acc fs :
  route_inputs this paths A → (∃ q, fin c q) →
  Forall (λ e : number * number * RoutablePath,
    (is_number e.1.1 ∧ ext_is_finite e.1.1 = true) ∧ is_number e.1.2 ∧ e.2 ∈ paths) l →
  Forall (bounded_fill this paths A) acc →
  fillsOfRoute this c l acc = Ok (Some fs) → Forall (bounded_fill this paths A) fs.
Proof.
  intros Hri [q Hq] Hl. revert acc.
  induction Hl as [|[[x out] r] l ((Hn & Hf) & Ho & Hr) _ IH]; intros acc Hacc; simpl.
  - by intros [= <-].
  - destruct (ext_is_finite out) eqn:Hof; [|done]. simpl. case_match; [by apply IH|].
    intros H1. ok_inv H1.
    eapply IH; [|exact H1]. apply Forall_app. split; [done|].
    destruct a as [f|]; [|constructor]. apply Forall_cons. split; [|constructor].
    simpl in *. destruct x as [| |xq]; try done.
    destruct (val_of_number_fin (EFin xq) xq Hn) as (x' & Hx' & _); [reflexivity|].
    pose proof (fin_min2 _ _ _ _ (fin_integerValue ROUND_CEIL _ _ (fin_times _ _ _ _ Hq Hx'))
      (ri_input _ _ _ Hri)) as Hmin.
    eapply fillOfRoute_bounded;
      [done | done | exact Hmin | apply Q.le_min_r | exact Ho | exact Hof | exact E].
Qed.

(** C6. A path rebuilt from a route has at least one fill, aims at the input of
    the quote, and every fill takes at most that input; a fill of a sampled
    source outputs at least one base unit and never more than the largest
    sampled output. *)
Theorem created_path_bounded this paths rt A p :
  route_inputs this paths A →
  Forall (λ n, is_number n ∧ ext_is_finite n = true) (inputAmounts rt) →
  Forall is_number (outputAmounts rt) →
  (∃ q, fin (div (inputAmount this) (bn_sum (of_number <$> inputAmounts rt))) q) →
  createPathFromRoute this paths rt = Ok (Some p) →
  Path.targetInput p = inputAmount this ∧ Path.context p = pathContext this ∧
  Path.fills p ≠ [] ∧ Forall (bounded_fill this paths A) (Path.fills p).
Proof.
  intros Hri Hin Hout Hscale H. unfold createPathFromRoute in H. ok_inv H.
  destruct a as [[|f fs]|]; try done. ok_inv H.
  apply Path.create_ok in E0 as (ty & _ & ->). injection H as ->. simpl.
  split_and!; try done. eapply fillsOfRoute_bounded; [done | exact Hscale | | constructor | exact E].
  apply Forall_forall. intros [[x out] r] Hx. simpl.
  apply elem_of_zip_l in Hx as Hx1. apply elem_of_zip_r in Hx as Hx2.
  apply elem_of_zip_l in Hx1 as Hx3. apply elem_of_zip_r in Hx1 as Hx4.
  rewrite Forall_forall in Hin. rewrite Forall_forall in Hout. auto.
Qed.

(** ** Where the fills come from *)

(** An adjustor changes amounts only. *)
Definition adjustor_keeps (this : t) : Prop :=
  ∀ f f', head (adjustFills this (side this) [f]) = Some f' →
    fill_source f' = fill_source f ∧ fill_fillData f' = fill_fillData f ∧ fill_type f' = fill_type f ∧
    fill_flags f' = fill_flags f.

(** A fill of one of the samples. *)
Definition of_sample (ss : list DexSample) (f : Fill) : Prop :=
  ∃ s, s ∈ ss ∧ fill_source f = sample_source s ∧ fill_fillData f = sample_fillData s ∧
    fill_type f = FillQuoteTransformerOrderType.Bridge ∧ fill_flags f = source_flag (sample_source s).
(** A fill of one of the native orders. *)
Definition of_order (orders : list NativeOrderWithFillableAmounts) (f : Fill) : Prop :=
  ∃ o, o ∈ orders ∧ fill_source f = ERC20BridgeSource.Native ∧ fill_fillData f = FDNative o ∧
    fill_type f = native_type o ∧ fill_flags f = native_source_flag (native_type o).

Lemma sample_fill_of_sample this ss s f :
  adjustor_keeps this → s ∈ ss → createFillFromDexSample this s = Some f → of_sample ss f.
Proof.
  intros Hk Hs (H1 & H2 & H3 & H4)%Hk. exists s. by rewrite H1, H2, H3, H4.
Qed.

Lemma closestFill_of_sample this ss x out k fill :
  adjustor_keeps this → of_sample ss fill → of_sample ss (closestFill this ss x out k fill).
Proof.
  intros Hk. revert fill. induction k as [|k IH]; intros fill Hf; [done|]. cbn [closestFill].
  destruct (ss !! k) as [s|] eqn:Es; [|done].
  assert (∀ s' g, s' ∈ ss → of_sample ss g → of_sample ss (default g (createFillFromDexSample this s'))) as Hd.
  { intros s' g Hs' Hg. destruct (createFillFromDexSample this s') eqn:E; simpl; [|done].
    by eapply sample_fill_of_sample. }
  assert (s ∈ ss) as Hs by (by eapply list_elem_of_lookup_2).
  set (g := if (k =? 0)%nat then _ else fill).
  assert (of_sample ss g) as Hg by (unfold g; case_if; auto).
  case_if; [|by apply IH]. destruct (ss !! S k) as [next|] eqn:En; [|by apply Hd].
  clearbody g.
  destruct (createFillFromDexSample this {| sample_source := sample_source next; sample_fillData := _;
    sample_input := _; sample_output := _ |}) as [f'|] eqn:Ef; cbn [default from_option id]; [|exact Hg].
  apply Hk in Ef as (H1 & H2 & H3 & H4). exists next. rewrite H1, H2, H3, H4.
  split; [by eapply list_elem_of_lookup_2 | done].
Qed.

(** What a routable path can be filled with. *)
Definition path_origin (r : RoutablePath) (f : Fill) : Prop :=
  match samplesOrNativeOrders r with Samples ss => of_sample ss f | NativeOrders o => of_order [o] f end.

Lemma fillOfRoute_origin this r x out f :
  adjustor_keeps this → fillOfRoute this x out r = Ok (Some f) → path_origin r f.
Proof.
  intros Hk. unfold fillOfRoute, path_origin. destruct (samplesOrNativeOrders r) as [ss|o].
  - destruct (last ss) as [s|] eqn:El; [|done]. intros [= H].
    destruct (createFillFromDexSample this s) as [g|] eqn:Eg; [|done]. injection H as <-.
    assert (of_sample ss g) as Hg.
    { eapply sample_fill_of_sample; [done | | done]. by eapply list_elem_of_lookup_2; rewrite <- last_lookup. }
    destruct (closestFill_of_sample this ss x out (length ss) g Hk Hg) as (s' & H1 & H2 & H3 & H4 & H5).
    exists s'. by split_and!.
  - unfold nativeOrderToFill. cbn. intros [= <-]. exists o. split; [by left | done].
Qed.

Lemma fillsOfRoute_origin this (P : Fill → Prop) (paths : list RoutablePath) c l acc fs :
  adjustor_keeps this → (∀ r f, r ∈ paths → path_origin r f → P f) →
  Forall (λ e : number * number * RoutablePath, e.2 ∈ paths) l → Forall P acc →
  fillsOfRoute this c l acc = Ok (Some fs) → Forall P fs.
Proof.
  intros Hk HP Hl. revert acc. induction Hl as [|[[x out] r] l Hr _ IH]; intros acc Hacc; cbn [fillsOfRoute].
  - by intros [= <-].
  - case_if; [done|]. case_if; [by apply IH|]. intros H1.
    apply result_bind_ok in H1 as ([f|] & Ef & H1); (eapply IH; [|exact H1]); apply Forall_app;
      (split; [done|]); [|constructor].
    apply Forall_singleton. apply fillOfRoute_origin in Ef; [|done]. by eapply HP.
Qed.

Lemma created_path_origin this (P : Fill → Prop) paths rt p :
  adjustor_keeps this → (∀ r f, r ∈ paths → path_origin r f → P f) →
  createPathFromRoute this paths rt = Ok (Some p) → Forall P (Path.fills p).
Proof.
  intros Hk HP H. unfold createPathFromRoute in H. ok_inv H. destruct a as [[|f fs]|] eqn:Ea; try done. ok_inv H.
  apply Path.create_ok in E0 as (ty & _ & ->). injection H as ->.
  eapply fillsOfRoute_origin; [done | exact HP | | constructor | exact E].
  apply Forall_forall. intros [[x out] r] Hx. by apply elem_of_zip_r in Hx.
Qed.

(** Every path handed to the router stems from the quotes. *)
Lemma routable_origin this samples twoHops natives p1 p2 r f :
  singleSourceSamplesToRoutablePaths this [] samples = Ok p1 →
  twoHopSamplesToRoutablePaths this (bfilter isValidTwoHopSample <$> twoHops) = Ok p2 →
  r ∈ p1 ++ p2 ++ nativeOrdersToRoutablePaths this [] 0 natives → path_origin r f →
  of_sample (concat samples) f ∨
  of_sample (bfilter isValidTwoHopSample (concat twoHops)) f ∨ of_order natives f.
Proof.
  intros H1 H2. rewrite !elem_of_app. unfold path_origin. intros [Hr|[Hr|Hr]] Hf.
  - apply (single_source_loop this samples) in H1 as [H1 _]; [|done | constructor].
    rewrite Forall_forall in H1. destruct (H1 r Hr) as (kept & dropped & Hin & Hs & _).
    rewrite Hs in Hf. destruct Hf as (s & Hs1 & Hs2). left. exists s. split; [|done].
    apply list_elem_of_In, in_concat. exists (kept ++ dropped).
    split; apply list_elem_of_In; [done | apply elem_of_app; by left].
  - unfold twoHopSamplesToRoutablePaths in H2.
    apply (mapM_imap_ok (λ i samples, fs ← mapM (createFillFromTwoHopSample this) samples; _)) in H2 as [Hlen H2].
    apply list_elem_of_lookup in Hr as [i Hi].
    destruct ((bfilter isValidTwoHopSample <$> twoHops) !! i) as [ss|] eqn:Ess;
      [|apply lookup_ge_None in Ess; apply lookup_lt_Some in Hi; lia].
    destruct (H2 _ _ Ess) as (r' & Hr' & Hb). rewrite Hi in Hr'. injection Hr' as <-. ok_inv Hb. injection Hb as <-.
    cbn in Hf. destruct Hf as (s & Hs1 & Hs2). right. left. exists s. split; [|done].
    rewrite list_lookup_fmap in Ess. destruct (twoHops !! i) as [hs|] eqn:Eh; [|done]. injection Ess as <-.
    apply elem_of_bfilter in Hs1 as [Hs1 Hv]. apply elem_of_bfilter. split; [|done].
    apply list_elem_of_In, in_concat. exists hs. split; apply list_elem_of_In; [by eapply list_elem_of_lookup_2 | done].
  - destruct (native_loop this natives [] 0) as (new & E & Hn). rewrite E in Hr.
    apply Forall2_flip in Hn. eapply Forall2_elem_l in Hr as (o & Ho & Hp); [|exact Hn].
    apply elem_of_bfilter in Ho as [Ho _]. destruct Hp as (Hp & _). rewrite Hp in Hf.
    destruct Hf as (o' & ->%list_elem_of_singleton & Hf). right. right. by exists o.
Qed.

(** The optimal path is created from one of the two routes over the paths of
    the quotes. *)
Lemma optimal_path_route this samples twoHops natives p :
  findOptimalPathFromSamples this samples twoHops natives = Ok (Some p) →
  ∃ p1 p2 rt, singleSourceSamplesToRoutablePaths this [] samples = Ok p1 ∧
    twoHopSamplesToRoutablePaths this (bfilter isValidTwoHopSample <$> twoHops) = Ok p2 ∧
    createPathFromRoute this (p1 ++ p2 ++ nativeOrdersToRoutablePaths this [] 0 natives) rt = Ok (Some p).
Proof.
  intros H. unfold findOptimalPathFromSamples in H. apply result_bind_ok in H as (paths & Hp & H).
  assert (∀ all vip, paths = Some (all, vip) → ∀ q, all = Some q ∨ vip = Some q →
    ∃ p1 p2 rt, singleSourceSamplesToRoutablePaths this [] samples = Ok p1 ∧
      twoHopSamplesToRoutablePaths this (bfilter isValidTwoHopSample <$> twoHops) = Ok p2 ∧
      createPathFromRoute this (p1 ++ p2 ++ nativeOrdersToRoutablePaths this [] 0 natives) rt = Ok (Some q)) as G.
  { intros all vip -> q Hq. unfold findRoutesAndCreateOptimalPath in Hp. destruct (lte (inputAmount this) ONE_BASE_UNIT); [done|].
    apply result_bind_ok in Hp as (p1 & H1 & Hp). apply result_bind_ok in Hp as (p2 & H2 & Hp).
    destruct (serializedPath <$> _); [done|].
    apply result_bind_ok in Hp as (routes & _ & Hp). apply result_bind_ok in Hp as (a & Ha & Hp).
    apply result_bind_ok in Hp as (v & Hv & Hp). injection Hp as -> ->.
    destruct Hq as [-> | ->]; do 3 eexists; (split; [exact H1|]); (split; [exact H2|]); eassumption. }
  destruct paths as [[[all|] vip]|]; [|by injection H as ->; eapply G; [done | right]|done].
  destruct vip as [vip|]; [|injection H as <-; eapply G; [done | by left]].
  apply result_bind_ok in H as (b & _ & H). injection H as <-. destruct b; eapply G; [done | by right | done | by left].
Qed.

(** The optimizer adds no liquidity of its own: a fill of the optimal path is
    one of a sampled source, of a two-hop sample whose hops are both known and
    that outputs something, or of a native order. *)
Lemma optimal_path_origin this samples twoHops natives p :
  adjustor_keeps this →
  findOptimalPathFromSamples this samples twoHops natives = Ok (Some p) →
  Forall (λ f, of_sample (concat samples) f ∨
    of_sample (bfilter isValidTwoHopSample (concat twoHops)) f ∨ of_order natives f) (Path.fills p).
Proof.
  intros Hk (p1 & p2 & rt & H1 & H2 & H)%optimal_path_route.
  eapply created_path_origin; [exact Hk | | exact H]. intros r f Hr Hf. by eapply routable_origin.
Qed.

Lemma optimal_path_created this samples twoHops natives p :
  findOptimalPathFromSamples this samples twoHops natives = Ok (Some p) →
  Path.create (pathContext this) (Path.fills p) (inputAmount this) (pathPenaltyOpts this) = Ok p.
Proof.
  intros (p1 & p2 & rt & _ & _ & H)%optimal_path_route. unfold createPathFromRoute in H. ok_inv H.
  destruct a as [[|f fs]|]; try done. ok_inv H. injection H as Hp'. subst. pose proof E0 as Hc.
  apply Path.create_ok in Hc as (ty & _ & Hp). assert (Path.fills a = f :: fs) as -> by (by rewrite Hp). exact E0.
Qed.

(** The fills carry the flags of their sources. *)
Lemma origin_flags_ok ss os f : of_sample ss f ∨ of_order os f → Path.flags_ok f.
Proof.
  unfold Path.flags_ok, Path.multiHopBit. intros [(s & _ & -> & _ & _ & ->)|(o & _ & -> & _ & _ & ->)].
  - by rewrite source_flag_testbit by done.
  - by destruct (native_type o).
Qed.

(** ** The chosen path *)

(** C7. The optimizer returns the better of its two candidate routes: the path
    over all sources and the path over the VIP sources.  When both exist, no
    error is raised and neither of them is better than the returned one; with
    one candidate it is returned, and quotes of at most one base unit or
    without any routable curve have no path. *)
Theorem optimal_path_is_best this samples twoHop natives A :
  fin (inputAmount this) A →
  let find := findOptimalPathFromSamples this samples twoHop natives in
  ((A <= 1)%Q → find = Ok None) ∧
  match findRoutesAndCreateOptimalPath this samples twoHop natives with
  | Throw e => find = Throw e
  | Ok None => find = Ok None
  | Ok (Some (None, vip)) => find = Ok vip
  | Ok (Some (Some all, None)) => find = Ok (Some all)
  | Ok (Some (Some all, Some vip)) =>
      ∀ Ia Ra Iv Rv, Path.path_key all A Ia Ra → Path.path_key vip A Iv Rv →
      ∃ p, find = Ok (Some p) ∧ (p = all ∨ p = vip) ∧
        Path.isAdjustedBetterThan all p = Ok false ∧ Path.isAdjustedBetterThan vip p = Ok false
  end.
Proof.
  intros HA find. subst find. unfold findOptimalPathFromSamples. split.
  - intros H1. unfold findRoutesAndCreateOptimalPath, ONE_BASE_UNIT.
    by rewrite (proj2 (lte_fin _ _ _ _ HA (fin_Z 1)) H1).
  - destruct (findRoutesAndCreateOptimalPath this samples twoHop natives)
      as [[[[all|] [vip|]]|]|e]; try done.
    intros Ia Ra Iv Rv Ka Kv. simpl.
    destruct (Path.isAdjustedBetterThan_spec vip all A _ _ _ _ Kv Ka) as (b & -> & Hb). simpl.
    destruct (Path.isAdjustedBetterThan_spec all vip A _ _ _ _ Ka Kv) as (b1 & Hav & Hb1).
    destruct (Path.isAdjustedBetterThan_spec vip all A _ _ _ _ Kv Ka) as (b2 & Hva & Hb2).
    destruct (Path.isAdjustedBetterThan_spec all all A _ _ _ _ Ka Ka) as (b3 & Haa & Hb3).
    destruct (Path.isAdjustedBetterThan_spec vip vip A _ _ _ _ Kv Kv) as (b4 & Hvv & Hb4).
    destruct b.
    + exists vip. split; [done|]. split; [auto|]. rewrite Hav, Hvv.
      pose proof (proj1 Hb eq_refl) as Hbet. split; f_equal; apply not_true_iff_false.
      * rewrite Hb1. by apply Path.better_asym.
      * rewrite Hb4. apply Path.better_irrefl.
    + exists all. split; [done|]. split; [auto|]. rewrite Haa, Hva.
      split; f_equal; apply not_true_iff_false.
      * rewrite Hb3. apply Path.better_irrefl.
      * rewrite Hb2, <- Hb. done.
Qed.
End PathOptimizer.
End PathOptimizer.

(** ** A concrete request *)
Module OptimizerExamples.
Import Concrete PathOptimizer.

Definition rnd (n : nat) : string := "0x" +:+ pretty n.
Definition otype (_ : FillQuoteTransformerOrderType) : string := "2".
Definition fees : FeeSchedule := λ _ _, {| est_gas := n_Z 100000; est_fee := of_Z 2 |}.
Definition opts : Path.PathPenaltyOpts :=
  {| Path.outputAmountPerEth := of_Z 3; Path.inputAmountPerEth := of_Z 1;
     Path.exchangeProxyOverhead := λ flags, of_Z (if Z.eqb flags (source_flag ERC20BridgeSource.UniswapV2) then 1 else 4) |}.
Definition this : PathOptimizer.t :=
  {| pathContext := {| ctx_side := Sell; ctx_inputToken := "0xA"; ctx_outputToken := "0xB" |};
     chainId := ChainId.Mainnet; feeSchedule := fees; neonRouterNumSamples := 5;
     adjustFills := λ _ fs, fs; pathPenaltyOpts := opts; inputAmount := of_Z 100 |}.
Definition sample (s : ERC20BridgeSource) (i o : Z) : DexSample :=
  {| sample_source := s; sample_fillData := FDUniswapV2 ["0xA"; "0xB"]%string "0xR";
     sample_input := of_Z i; sample_output := of_Z o |}.
Definition samples : list (list DexSample) :=
  [[sample ERC20BridgeSource.UniswapV2 10 100; sample ERC20BridgeSource.UniswapV2 50 480;
    sample ERC20BridgeSource.UniswapV2 100 900; sample ERC20BridgeSource.UniswapV2 200 0];
   [sample ERC20BridgeSource.MorpheusSwap 10 90; sample ERC20BridgeSource.MorpheusSwap 50 470;
    sample ERC20BridgeSource.MorpheusSwap 100 910]].
Definition order : NativeOrderWithFillableAmounts :=
  {| native_order := ex_order; native_type := FillQuoteTransformerOrderType.Rfq;
     native_signature := {| sig_v := 27; sig_r := "0x1"; sig_s := "0x2" |};
     fillableMakerAmount := of_Z 500; fillableTakerAmount := of_Z 50;
     fillableTakerFeeAmount := of_Z 0 |}.
Definition neon (_ : OptimizerCapture) (_ : nat) : result RouterArrays :=
  Ok {| allInputs := λ i, nth i [n_Z 60; n_Z 40; n_Z 0] (n_Z 0);
        allOutputs := λ i, nth i [n_Z 570; n_Z 380; n_Z 0] (n_Z 0);
        vipInputs := λ i, nth i [n_Z 100; n_Z 0; n_Z 0] (n_Z 0);
        vipOutputs := λ i, nth i [n_Z 900; n_Z 0; n_Z 0] (n_Z 0) |}.
Definition routes : result (option (option Path.t * option Path.t)) :=
  findRoutesAndCreateOptimalPath neon rnd otype this samples [] [order].
End OptimizerExamples.

Import Concrete PathOptimizer OptimizerExamples.

(** A decidable form of [Path.path_key], to evaluate it. *)
Definition has_key (p : Path.t) (T I R : Q) : bool :=
  ext_eqb (val (Path.targetInput p)) (EFin T) &&
  ext_eqb (val (Path.size_input (Path.adjustedSize p))) (EFin I) &&
  ext_eqb (val (Path.adjustedCompleteRate p)) (EFin R).

Lemma has_key_sound p T I R : has_key p T I R = true → Path.path_key p T I R.
Proof. intros [[H1 H2]%andb_true_iff H3]%andb_true_iff. split; by apply ext_eqb_fin. Qed.

Lemma optimal_path_is_best_witness :
  ∃ all vip p, findRoutesAndCreateOptimalPath neon rnd otype this samples [] [order]
               = Ok (Some (Some all, Some vip)) ∧
    findOptimalPathFromSamples neon rnd otype this samples [] [order] = Ok (Some p) ∧
    Path.isAdjustedBetterThan all p = Ok false ∧ Path.isAdjustedBetterThan vip p = Ok false.
Proof.
  assert (fin (inputAmount this) 100) as HA by fin_now.
  pose proof (PathOptimizer.optimal_path_is_best neon rnd otype this samples [] [order] 100 HA)
    as [_ H].
  assert (match routes with
          | Ok (Some (Some all, Some vip)) =>
              has_key all 100 100 (926 # 100) && has_key vip 100 100 (891 # 100)
          | _ => false
          end = true) as K by (vm_compute; reflexivity).
  unfold routes in K.
  destruct (findRoutesAndCreateOptimalPath neon rnd otype this samples [] [order])
    as [[[[all|] [vip|]]|]|e]; try discriminate K.
  apply andb_true_iff in K as [Ka%has_key_sound Kv%has_key_sound].
  destruct (H _ _ _ _ Ka Kv) as (p & Hp & _ & H1 & H2). exists all, vip, p.
  split; [reflexivity|]. split; [exact Hp|]. split; [exact H1 | exact H2].
Defined.

Lemma single_source_paths_wellformed_witness :
  ∃ ps, singleSourceSamplesToRoutablePaths rnd this [] samples = Ok ps ∧
    Forall (single_source_path this samples) ps.
Proof.
  assert (is_ok (singleSourceSamplesToRoutablePaths rnd this [] samples) = true) as K
    by (vm_compute; reflexivity).
  destruct (singleSourceSamplesToRoutablePaths rnd this [] samples) as [ps|e] eqn:E;
    [|discriminate K].
  exists ps. split; [done|]. exact (proj1 (PathOptimizer.single_source_paths_wellformed rnd _ _ _ E)).
Defined.

Lemma native_paths_within_orders_witness :
  Forall2 (native_path rnd this) [order] (nativeOrdersToRoutablePaths rnd otype this [] 0 [order]) ∧
  ∃ c, fin (min2 (div (inputAmount this) (of_Z 50)) (of_Z 1)) c ∧ (0 <= c <= 1)%Q.
Proof.
  destruct (PathOptimizer.native_paths_within_orders rnd otype this [order]) as [H1 H2];
    [vm_compute; lia | vm_compute; discriminate |].
  split; [exact H1|].
  destruct (H2 order (of_Z 50) 100%Q 50%Q (of_Z 500)) as (c & Hc & Hb & _);
    [set_solver | reflexivity | | fin_now | fin_now | lra | exists c; done].
  cbn. unfold nativeOrderToNormalizedAmounts. simpl. reflexivity.
Defined.

Definition curve : list DexSample := default [] (head samples).
Definition some_fill : Fill :=
  {| fill_source := ERC20BridgeSource.Shell; fill_type := FillQuoteTransformerOrderType.Bridge;
     fill_fillData := FDEmpty; fill_sourcePathId := ""; fill_flags := 0;
     fill_input := of_Z 0; fill_output := of_Z 0; fill_adjustedOutput := of_Z 0;
     fill_gas := n_Z 0 |}.

Lemma closest_fill_covers_witness :
  ∃ j next prev, curve !! S j = Some next ∧
    closestFill rnd this curve (of_Z 60) (n_Z 570) 4 some_fill
    = default prev (createFillFromDexSample rnd this (resized next (of_Z 60) (n_Z 570))).
Proof.
  assert (curve ≠ []) as Hne by discriminate.
  destruct (PathOptimizer.closest_fill_covers rnd this curve (of_Z 60) (n_Z 570) some_fill Hne)
    as [H|[H|H]].
  - destruct H as (j & l & next & prev & _ & Hn & _ & _ & Hr). exists j, next, prev.
    split; [exact Hn | exact Hr].
  - exfalso. destruct H as (s & _ & Hs & Hb & _). injection Hs as <-. discriminate Hb.
  - exfalso. destruct H as (H & _). specialize (H 0%nat _ eq_refl). discriminate H.
Defined.

(** The inputs of the created path of this request satisfy [route_inputs]. *)
Definition ex_route : Route :=
  {| inputAmounts := [n_Z 60; n_Z 40; n_Z 0]; outputAmounts := [n_Z 570; n_Z 380; n_Z 0] |}.
Definition ex_paths3 : list RoutablePath :=
  match singleSourceSamplesToRoutablePaths rnd this [] samples with
  | Ok l => l
  | Throw _ => []
  end ++ nativeOrdersToRoutablePaths rnd otype this [] 0 [order].

Lemma ex_route_inputs : route_inputs rnd this ex_paths3 100.
Proof.
  split.
  - fin_now.
  - intros r ss s Hr Hss Hs. unfold ex_paths3 in Hr. apply elem_of_app in Hr as [Hr|Hr].
    + assert (∀ k d, (k ++ d) ∈ samples → s ∈ k → fin_sample s) as Hall.
      { intros k d Hk Hsk. unfold samples in Hk.
        rewrite !elem_of_cons, elem_of_nil in Hk. destruct Hk as [Hk|[Hk|[]]];
          (assert (s ∈ k ++ d) as Hin by (apply elem_of_app; by left)); rewrite Hk in Hin;
          rewrite !elem_of_cons, elem_of_nil in Hin;
          repeat (destruct Hin as [->|Hin]; [do 2 eexists; split; apply fin_Z|]); done. }
      destruct (singleSourceSamplesToRoutablePaths rnd this [] samples) as [ps|] eqn:E; [|set_solver].
      destruct (PathOptimizer.single_source_loop rnd this samples samples [] ps
        ltac:(done) ltac:(constructor) E) as [Hps _].
      rewrite Forall_forall in Hps. destruct (Hps r Hr) as (k & d & Hk & Hs' & _).
      rewrite Hss in Hs'. injection Hs' as ->. by eapply Hall.
    + simpl in Hr. apply list_elem_of_singleton in Hr as ->. discriminate Hss.
  - intros s f (i & o & Hi & Ho) Hf. unfold createFillFromDexSample in Hf. injection Hf as <-.
    split; [exact (fin_not_nan _ _ Ho)|].
    change (not_nan (minus (sample_output s)
      (integerValue ROUND_HALF_UP (times (of_Z 3) (of_Z 2))))).
    eapply fin_not_nan, fin_minus; [exact Ho|].
    apply fin_integerValue, fin_times; apply fin_Z.
  - intros r o Hr Ho. unfold ex_paths3 in Hr. apply elem_of_app in Hr as [Hr|Hr].
    + destruct (singleSourceSamplesToRoutablePaths rnd this [] samples) as [ps|] eqn:E; [|set_solver].
      destruct (PathOptimizer.single_source_loop rnd this samples samples [] ps
        ltac:(done) ltac:(constructor) E) as [Hps _].
      rewrite Forall_forall in Hps. destruct (Hps r Hr) as (k & d & Hk & Hs' & _).
      rewrite Ho in Hs'. discriminate Hs'.
    + simpl in Hr. apply list_elem_of_singleton in Hr as ->. injection Ho as <-.
      exists 50%Q. fin_now.
Qed.

Lemma created_path_bounded_witness :
  ∃ p, createPathFromRoute rnd this ex_paths3 ex_route = Ok (Some p) ∧
    Forall (bounded_fill this ex_paths3 100) (Path.fills p).
Proof.
  assert (match createPathFromRoute rnd this ex_paths3 ex_route with
          | Ok (Some _) => true | _ => false end = true) as K by (vm_compute; reflexivity).
  destruct (createPathFromRoute rnd this ex_paths3 ex_route) as [[p|]|e] eqn:E;
    try discriminate K.
  assert (Forall (λ n, is_number n ∧ ext_is_finite n = true) (inputAmounts ex_route)) as Hin
    by (repeat (apply Forall_cons; split; [split; [apply n_Z_number | vm_compute; reflexivity]|]);
        constructor).
  assert (Forall is_number (outputAmounts ex_route)) as Hout
    by (repeat (apply Forall_cons; split; [apply n_Z_number|]); constructor).
  assert (∃ q, fin (div (inputAmount this) (bn_sum (of_number <$> inputAmounts ex_route))) q) as Hq
    by (exists 1%Q; fin_now).
  pose proof (PathOptimizer.created_path_bounded rnd this ex_paths3 ex_route 100 p
    ex_route_inputs Hin Hout Hq E) as (_ & _ & _ & Hb).
  exists p. split; [reflexivity | exact Hb].
Defined.
