(* ===== verification/Simulation.v ===== *)
(** * Quote simulation and quote info

    [asset-swapper/utils/quote_simulation.ts] fills the orders of a path with
    the amount of the quote, in the best and in the worst case;
    [asset-swapper/utils/quote_info.ts] merges the single-hop result with the
    two-hop orders into the amounts and the source breakdown of a quote. *)

From S2P Require Import Prelude JsNumber BigNum Types Fills Orders PathModel.

Section Simulation.
Context {B : BigNumberLib}.

(** ** [quote_simulation.ts] *)

(** [{ [source: string]: BigNumber }], in insertion order. *)
Definition BySource : Type := list (ERC20BridgeSource * BN).

Definition by_source_update (m : BySource) (s : ERC20BridgeSource) (f : option BN → BN) : BySource :=
  assoc_update m s f.

Record QuoteFillResult : Type := {
  makerAssetAmount : BN;
  takerAssetAmount : BN;
  takerFeeMakerAssetAmount : BN;
  takerFeeTakerAssetAmount : BN;
  totalMakerAssetAmount : BN;
  totalTakerAssetAmount : BN;
  protocolFeeAmount : BN;
  fr_gas : number;
  fillAmountBySource : BySource;
}.

Record IntermediateQuoteFillResult : Type := {
  ir_input : BN;
  ir_output : BN;
  ir_inputFee : BN;
  ir_outputFee : BN;
  ir_protocolFee : BN;
  ir_gas : number;
  inputBySource : BySource;
}.

Definition EMPTY_QUOTE_INTERMEDIATE_FILL_RESULT : IntermediateQuoteFillResult :=
  {| ir_input := ZERO_AMOUNT; ir_output := ZERO_AMOUNT; ir_outputFee := ZERO_AMOUNT;
     ir_inputFee := ZERO_AMOUNT; ir_protocolFee := ZERO_AMOUNT; ir_gas := n_Z 0;
     inputBySource := [] |}.

Record QuoteFillInfoOpts : Type := {
  gasSchedule : GasSchedule;
  protocolFeeMultiplier : option BN;
  opts_slippage : option number;
}.

Record QuoteFillInfo : Type := {
  orders : list OptimizedOrder;
  fillAmount : BN;
  gasPrice : BN;
  qf_side : MarketOperation;
  opts : QuoteFillInfoOpts;
}.

(** [constants.PROTOCOL_FEE_MULTIPLIER] and the defaults the options are
    spread over. *)
Definition DEFAULT_PROTOCOL_FEE_MULTIPLIER : BN := of_Z 0.
Definition get_protocolFeeMultiplier (o : QuoteFillInfoOpts) : BN :=
  default DEFAULT_PROTOCOL_FEE_MULTIPLIER (protocolFeeMultiplier o).
Definition get_slippage (o : QuoteFillInfoOpts) : number := default (n_Z 0) (opts_slippage o).

Record QuoteFillOrderCall : Type := {
  call_order : OptimizedOrder;
  totalOrderInput : BN;
  totalOrderOutput : BN;
  totalOrderInputFee : BN;
  totalOrderOutputFee : BN;
}.

Definition hasProtocolFee (o : OptimizedOrder) : bool := isLimit (opt_type o).

Definition solveForInputFillAmount
    (remainingInput fillableInput totalOrderInput totalOrderInputFee : BN) : BN :=
  let denom := plus totalOrderInput totalOrderInputFee in
  if isEqualTo denom (of_Z 0) then fillableInput
  else min2 fillableInput (div (times remainingInput totalOrderInput) denom).

(** One iteration of the loop of [fillQuoteOrders]: the new totals and the
    remaining input. *)
Definition fillOrder (schedule : GasSchedule) (protocolFeePerFillOrder : BN)
    (result : IntermediateQuoteFillResult) (remainingInput : BN) (fo : QuoteFillOrderCall)
    : Prelude.result (IntermediateQuoteFillResult * BN) :=
  let order := call_order fo in
  let source := opt_source order in
  let fillInput := base_input (opt_fill order) in
  let fillOutput := base_output (opt_fill order) in
  gas ← schedule source (opt_fillData order);
  let filledInput :=
    solveForInputFillAmount remainingInput fillInput (totalOrderInput fo) (totalOrderInputFee fo) in
  let filledOutput := times fillOutput (div filledInput fillInput) in
  let filledInputFee := times (div filledInput (totalOrderInput fo)) (totalOrderInputFee fo) in
  let filledOutputFee := times (div filledOutput (totalOrderOutput fo)) (totalOrderOutputFee fo) in
  let protocolFee := if hasProtocolFee order then protocolFeePerFillOrder else ZERO_AMOUNT in
  mret ({| ir_input := plus (ir_input result) filledInput;
           ir_output := plus (ir_output result) filledOutput;
           ir_inputFee := plus (ir_inputFee result) filledInputFee;
           ir_outputFee := plus (ir_outputFee result) filledOutputFee;
           ir_protocolFee := plus (ir_protocolFee result) protocolFee;
           ir_gas := n_add (ir_gas result) gas;
           inputBySource :=
             by_source_update (inputBySource result) source
               (λ v, plus (default ZERO_AMOUNT v) filledInput) |},
        minus remainingInput (plus filledInput filledInputFee)).

Fixpoint fillLoop (schedule : GasSchedule) (protocolFeePerFillOrder : BN)
    (fillOrders : list QuoteFillOrderCall) (result : IntermediateQuoteFillResult)
    (remainingInput : BN) : Prelude.result IntermediateQuoteFillResult :=
  match fillOrders with
  | [] => Ok result
  | fo :: rest =>
      if lte remainingInput (of_Z 0) then Ok result
      else
        next ← fillOrder schedule protocolFeePerFillOrder result remainingInput fo;
        fillLoop schedule protocolFeePerFillOrder rest next.1 next.2
  end.

Definition fillQuoteOrders (fillOrders : list QuoteFillOrderCall) (inputAmount : BN)
    (protocolFeePerFillOrder : BN) (schedule : GasSchedule)
    : Prelude.result IntermediateQuoteFillResult :=
  fillLoop schedule protocolFeePerFillOrder fillOrders EMPTY_QUOTE_INTERMEDIATE_FILL_RESULT inputAmount.

(** The taker fee a limit order charges for its taker amount. *)
Definition takerFee (o : OptimizedOrder) : result BN :=
  if isLimit (opt_type o) then
    match opt_fillData o with
    | FDNative n => Ok (getNativeAdjustedTakerFeeAmount (native_order n) (opt_takerAmount o))
    | _ => Throw TypeError
    end
  else Ok ZERO_AMOUNT.

Definition createBestCaseFillOrderCall (side : MarketOperation) (o : OptimizedOrder)
    : result QuoteFillOrderCall :=
  fee ← takerFee o;
  mret match side with
       | Sell => {| call_order := o; totalOrderInput := opt_takerAmount o;
                    totalOrderOutput := opt_makerAmount o;
                    totalOrderInputFee := fee; totalOrderOutputFee := ZERO_AMOUNT |}
       | Buy => {| call_order := o; totalOrderInput := opt_makerAmount o;
                   totalOrderOutput := opt_takerAmount o;
                   totalOrderInputFee := ZERO_AMOUNT; totalOrderOutputFee := fee |}
       end.

Definition createBestCaseFillOrderCalls (quoteInfo : QuoteFillInfo)
    : result (list QuoteFillOrderCall) :=
  mapM (createBestCaseFillOrderCall (qf_side quoteInfo)) (orders quoteInfo).

Definition roundInputAmount (amount : BN) (side : MarketOperation) : BN :=
  integerValue (match side with Sell => ROUND_UP | Buy => ROUND_DOWN end) amount.
Definition roundOutputAmount (amount : BN) (side : MarketOperation) : BN :=
  integerValue (match side with Sell => ROUND_DOWN | Buy => ROUND_UP end) amount.

Definition roundIntermediateFillResult (ir : IntermediateQuoteFillResult) (side : MarketOperation)
    : IntermediateQuoteFillResult :=
  {| ir_input := roundInputAmount (ir_input ir) side;
     ir_output := roundOutputAmount (ir_output ir) side;
     ir_inputFee := roundInputAmount (ir_inputFee ir) side;
     ir_outputFee := roundOutputAmount (ir_outputFee ir) side;
     ir_protocolFee := integerValue ROUND_UP (ir_protocolFee ir);
     ir_gas := n_ceil (ir_gas ir);
     inputBySource := prod_map id (λ v, roundInputAmount v side) <$> inputBySource ir |}.

Definition fromIntermediateQuoteFillResult (ir : IntermediateQuoteFillResult)
    (quoteInfo : QuoteFillInfo) : QuoteFillResult :=
  let side := qf_side quoteInfo in
  let _ir := roundIntermediateFillResult ir side in
  match side with
  | Sell =>
      {| makerAssetAmount := ir_output _ir; takerAssetAmount := ir_input _ir;
         takerFeeMakerAssetAmount := ir_outputFee _ir; takerFeeTakerAssetAmount := ir_inputFee _ir;
         totalMakerAssetAmount := plus (ir_output _ir) (ir_outputFee _ir);
         totalTakerAssetAmount := plus (ir_input _ir) (ir_inputFee _ir);
         protocolFeeAmount := ir_protocolFee _ir; fr_gas := ir_gas _ir;
         fillAmountBySource := inputBySource _ir |}
  | Buy =>
      {| makerAssetAmount := ir_input _ir; takerAssetAmount := ir_output _ir;
         takerFeeMakerAssetAmount := ir_inputFee _ir; takerFeeTakerAssetAmount := ir_outputFee _ir;
         totalMakerAssetAmount := plus (ir_input _ir) (ir_inputFee _ir);
         totalTakerAssetAmount := plus (ir_output _ir) (ir_outputFee _ir);
         protocolFeeAmount := ir_protocolFee _ir; fr_gas := ir_gas _ir;
         fillAmountBySource := inputBySource _ir |}
  end.

(** lodash [_.sum]. *)
Definition n_sum (l : list number) : number :=
  match l with [] => n_Z 0 | x :: l' => fold_left n_add l' x end.

Definition getTotalGasUsedByFills (orders : list OptimizedOrder) (schedule : GasSchedule)
    : result number :=
  gases ← mapM (λ order, schedule (opt_source order) (opt_fillData order)) orders;
  mret (n_sum gases).

Definition protocolFeePerFillOrder (quoteInfo : QuoteFillInfo) : BN :=
  times (gasPrice quoteInfo) (get_protocolFeeMultiplier (opts quoteInfo)).

Definition simulateBestCaseFill (quoteInfo : QuoteFillInfo) : result QuoteFillResult :=
  calls ← createBestCaseFillOrderCalls quoteInfo;
  result ← fillQuoteOrders calls (fillAmount quoteInfo) (protocolFeePerFillOrder quoteInfo)
             (gasSchedule (opts quoteInfo));
  mret (fromIntermediateQuoteFillResult result quoteInfo).

(** The output of the worst case. *)
Definition worstOutput (side : MarketOperation) (slippage : number) (output : BN) : BN :=
  match side with
  | Sell => integerValue ROUND_DOWN (times output (of_number (n_sub (n_Z 1) slippage)))
  | Buy => integerValue ROUND_UP (times output (of_number (n_add (n_Z 1) slippage)))
  end.

Definition simulateWorstCaseFill (quoteInfo : QuoteFillInfo) : result QuoteFillResult :=
  let fee := protocolFeePerFillOrder quoteInfo in
  bestCase ← createBestCaseFillOrderCalls quoteInfo;
  result ← fillQuoteOrders bestCase (fillAmount quoteInfo) fee (gasSchedule (opts quoteInfo));
  gas ← getTotalGasUsedByFills (orders quoteInfo) (gasSchedule (opts quoteInfo));
  let count := Z.of_nat (length (bfilter hasProtocolFee (orders quoteInfo))) in
  mret (fromIntermediateQuoteFillResult
    {| ir_input := ir_input result;
       ir_output := worstOutput (qf_side quoteInfo) (get_slippage (opts quoteInfo)) (ir_output result);
       ir_inputFee := ir_inputFee result; ir_outputFee := ir_outputFee result;
       ir_protocolFee := times fee (of_Z count); ir_gas := gas;
       inputBySource := inputBySource result |} quoteInfo).
End Simulation.

(** ** Filling integer orders without taker fees *)

Section Filling.
Context {B : BigNumberLib}.

(** An order call with an integer input, no input fee and finite outputs; the
    total of the order stays within the precision of a division. *)
Record call_amounts (c : QuoteFillOrderCall) (io : Z * Q) : Prop := {
  ca_input : int (base_input (opt_fill (call_order c))) io.1;
  ca_output : fin (base_output (opt_fill (call_order c))) io.2;
  ca_positive : (0 < io.1)%Z ∧ (0 <= io.2)%Q;
  ca_total : ∃ t, int (totalOrderInput c) t ∧ (0 < t)%Z;
  ca_fee : fin (totalOrderInputFee c) 0;
  ca_total_output : ∃ t, fin (totalOrderOutput c) t ∧ ¬ (t == 0)%Q;
  ca_output_fee : ∃ f, fin (totalOrderOutputFee c) f;
}.

Definition total_i (l : list (Z * Q)) : Z := foldr (λ a n, (a.1 + n)%Z) 0%Z l.
Definition total_o (l : list (Z * Q)) : Q := Qsum (snd <$> l).

Lemma int_div_exact a b x y : int a (x * y) → int b y → y ≠ 0%Z → int (div a b) x.
Proof.
  unfold int. intros Ha Hb Hy. apply int_nonzero in Hy.
  eapply fin_eq; [by apply fin_div|]. unfold rdiv. rewrite <- (round_dp_Z DECIMAL_PLACES ROUND_HALF_UP x).
  apply round_dp_proper. rewrite inject_Z_mult. by field.
Qed.

Lemma solve_int r f t fee R i n :
  int r R → int f i → int t n → fin fee 0 → (0 < n)%Z →
  int (solveForInputFillAmount r f t fee) (Z.min i R).
Proof.
  intros Hr Hf Ht Hfee Hn. unfold solveForInputFillAmount.
  assert (int (plus t fee) n) as Hd.
  { unfold int in *. eapply fin_eq; [by apply fin_plus | lra]. }
  case_if.
  - apply (eq_fin _ _ _ _ Hd (fin_Z 0)) in E. apply (proj1 (inject_Z_injective _ _)) in E. lia.
  - pose proof (int_div_exact (times r t) (plus t fee) R n (int_times _ _ _ _ Hr Ht) Hd ltac:(lia)) as Hq.
    unfold int in *. eapply fin_eq; [by apply fin_min2|].
    destruct (Z.min_spec i R) as [[? ->]|[? ->]].
    + apply Q.min_l. rewrite <- Zle_Qle. lia.
    + apply Q.min_r. rewrite <- Zle_Qle. lia.
Qed.

(** The amounts of a map by source sum to [x]. *)
Definition by_source_sum (m : BySource) (x : Q) : Prop := assoc_sum id m x.

Lemma by_source_update_sum m s v x y :
  by_source_sum m x → fin v y →
  by_source_sum (by_source_update m s (λ o, plus (default ZERO_AMOUNT o) v)) (x + y).
Proof.
  intros Hx Hv. apply assoc_update_sum; [done| |].
  - eapply fin_eq; [by apply fin_plus; [apply fin_ZERO|]|]. lra.
  - intros w q Hw. by apply fin_plus.
Qed.

(** The totals of an intermediate result. *)
Record totals (r : IntermediateQuoteFillResult) (I : Z) (O : Q) : Prop := {
  tot_input : int (ir_input r) I;
  tot_output : fin (ir_output r) O;
  tot_inputFee : fin (ir_inputFee r) 0;
  tot_outputFee : ∃ f, fin (ir_outputFee r) f;
  tot_bySource : by_source_sum (inputBySource r) (inject_Z I);
}.

Lemma fillOrder_totals schedule fee r rem c I O R i o r' rem' :
  totals r I O → int rem R → (0 <= R)%Z → call_amounts c (i, o) →
  fillOrder schedule fee r rem c = Ok (r', rem') →
  ∃ O', totals r' (I + Z.min i R) O' ∧ int rem' (R - Z.min i R) ∧
    (O <= O' <= O + o)%Q ∧ ((i <= R)%Z → (O' == O + o)%Q).
Proof.
  intros [] Hrem HR [Hci Hco [Hi Ho] (t & Ht & Htp) Hcf (to & Hto & Hton) (ofee & Hofee)] H.
  simpl in *. unfold fillOrder in H. ok_inv H. injection H as <- <-.
  set (f := solveForInputFillAmount _ _ _ _).
  assert (int f (Z.min i R)) as Hf by (by eapply solve_int).
  set (k := Z.min i R) in *. assert (0 <= k <= i)%Z as Hk by lia.
  pose proof (int_nonzero t ltac:(lia)) as Htn. pose proof (int_nonzero i ltac:(lia)) as Hin.
  assert (fin (div f (base_input (opt_fill (call_order c)))) (rdiv (inject_Z k) (inject_Z i))) as Hratio
    by (by apply fin_div).
  assert (0 <= rdiv (inject_Z k) (inject_Z i) <= 1)%Q as Hru.
  { apply Path.rdiv_unit; change 0%Q with (inject_Z 0); rewrite <- ?Zle_Qle, <- ?Zlt_Qlt; lia. }
  set (ratio := rdiv (inject_Z k) (inject_Z i)) in *.
  assert (fin (times (div f (totalOrderInput c)) (totalOrderInputFee c)) 0) as Hfee.
  { eapply fin_eq; [apply fin_times; [by apply fin_div | exact Hcf] | lra]. }
  destruct tot_outputFee0 as [f0 Hf0].
  exists (O + o * ratio)%Q. split; [split; simpl|split_and!].
  - by apply int_plus.
  - apply fin_plus; [done|]. by apply fin_times.
  - eapply fin_eq; [by apply fin_plus | lra].
  - eexists. apply fin_plus; [exact Hf0|]. apply fin_times; [|exact Hofee].
    apply fin_div; [by apply fin_times | exact Hto | exact Hton].
  - eapply assoc_sum_eq; [by apply by_source_update_sum|]. by rewrite inject_Z_plus.
  - unfold int. eapply fin_eq; [apply fin_minus; [exact Hrem | apply fin_plus; [exact Hf | exact Hfee]]|].
    unfold Z.sub. rewrite inject_Z_plus, inject_Z_opp. lra.
  - nra.
  - nra.
  - intros Hle. assert (k = i) as E1 by lia. assert (ratio == 1)%Q as E2.
    { unfold ratio, rdiv. rewrite E1. change 1%Q with (inject_Z 1).
      rewrite <- (round_dp_Z DECIMAL_PLACES ROUND_HALF_UP 1). apply round_dp_proper. by field. }
    rewrite E2. lra.
Qed.

Lemma total_i_nonneg calls l : Forall2 call_amounts calls l → (0 <= total_i l)%Z.
Proof.
  induction 1 as [|c [i o] calls l [? ? [? ?]] _ IH]; [done|]. simpl in *.
  fold (total_i l). lia.
Qed.

Lemma total_o_nonneg calls l : Forall2 call_amounts calls l → (0 <= total_o l)%Q.
Proof.
  induction 1 as [|c [i o] calls l [? ? [? ?]] _ IH]; [apply Qle_refl|].
  change (total_o ((i, o) :: l)) with (o + total_o l)%Q. simpl in *. lra.
Qed.

Lemma fillLoop_totals schedule fee calls l r rem I O R r' :
  Forall2 call_amounts calls l → totals r I O → int rem R → (0 <= R)%Z →
  fillLoop schedule fee calls r rem = Ok r' →
  ∃ O', totals r' (I + Z.min R (total_i l)) O' ∧ (O <= O' <= O + total_o l)%Q ∧
    ((total_i l <= R)%Z → (O' == O + total_o l)%Q).
Proof.
  intros Hl. revert r rem I O R.
  induction Hl as [|c [i o] calls l Hc Hl IH]; intros r rem I O R Hr Hrem HR H.
  - injection H as <-. exists O. change (total_o []) with 0%Q. change (total_i []) with 0%Z.
    rewrite Z.min_r, Z.add_0_r by lia. split; [done|]. split; [lra|]. intros _. lra.
  - pose proof (total_i_nonneg calls l Hl). pose proof (total_o_nonneg calls l Hl).
    change (total_o ((i, o) :: l)) with (o + total_o l)%Q.
    change (total_i ((i, o) :: l)) with (i + total_i l)%Z.
    pose proof (ca_positive _ _ Hc) as [Hi Ho]. simpl in Hi, Ho.
    simpl in H. destruct (lte rem (of_Z 0)) eqn:Elte.
    + injection H as <-. apply (lte_fin _ _ _ _ Hrem (fin_Z 0)) in Elte.
      rewrite <- Zle_Qle in Elte. exists O. rewrite Z.min_l, (Z.le_antisymm R 0) by lia.
      rewrite Z.add_0_r. split; [done|]. split; [lra|]. intros ?. exfalso. lia.
    + ok_inv H. destruct a as [r1 rem1].
      destruct (fillOrder_totals _ _ _ _ _ _ _ _ _ _ _ _ Hr Hrem HR Hc E)
        as (O1 & Hr1 & Hrem1 & HO1 & Hx1).
      destruct (IH r1 rem1 _ _ _ Hr1 Hrem1 ltac:(lia) H) as (O2 & Hr2 & HO2 & Hx2).
      exists O2. split.
      * replace (I + Z.min R (i + total_i l))%Z
          with (I + Z.min i R + Z.min (R - Z.min i R) (total_i l))%Z by lia. done.
      * split; [lra|]. intros Hle. rewrite Hx2, Hx1 by lia. lra.
Qed.

Lemma empty_totals : totals EMPTY_QUOTE_INTERMEDIATE_FILL_RESULT 0 0.
Proof.
  split; simpl; try apply fin_ZERO; [by exists 0%Q; apply fin_ZERO|].
  apply assoc_sum_nil.
Qed.

Lemma fill_quote_orders_totals schedule fee calls l amount A r :
  Forall2 call_amounts calls l → int amount A → (0 <= A)%Z →
  fillQuoteOrders calls amount fee schedule = Ok r →
  ∃ O, totals r (Z.min A (total_i l)) O ∧ (0 <= O <= total_o l)%Q ∧ ((total_i l <= A)%Z → (O == total_o l)%Q).
Proof.
  intros Hl HA HA0 H.
  destruct (fillLoop_totals _ _ _ _ _ _ _ _ _ _ Hl empty_totals HA HA0 H) as (O & Ht & HO & Hx).
  exists O. rewrite Z.add_0_l in Ht. split_and!; [done | lra | lra |]. intros Hle. rewrite (Hx Hle). lra.
Qed.

(** C25. Filling integer orders without taker fees: the input filled is exactly the
    smaller of the amount and the orders' total, the amounts by source add up
    to it, and the output is at most the orders' total output, and exactly
    that when the amount covers the orders. *)
Theorem fill_quote_orders_exact schedule fee calls l amount A r :
  Forall2 call_amounts calls l → int amount A → (0 <= A)%Z →
  fillQuoteOrders calls amount fee schedule = Ok r →
  ∃ O, int (ir_input r) (Z.min A (total_i l)) ∧ fin (ir_output r) O ∧
    by_source_sum (inputBySource r) (inject_Z (Z.min A (total_i l))) ∧
    fin (ir_inputFee r) 0 ∧ (0 <= O <= total_o l)%Q ∧
    ((total_i l <= A)%Z → (O == total_o l)%Q).
Proof.
  intros Hl HA HA0 H.
  destruct (fill_quote_orders_totals _ _ _ _ _ _ _ Hl HA HA0 H) as (O & [] & HO & Hx).
  exists O. split_and!; try done; by destruct HO.
Qed.
End Filling.

(** ** Worst case against best case *)

Section WorstCase.
Context {B : BigNumberLib}.

Lemma worst_sell_output s q o O :
  fin o O → (0 <= O)%Q → ext_eq s (EFin q) → (0 <= q <= 1)%Q →
  ∃ r, (0 <= r <= 1)%Q ∧ near r (1 - q) ∧ int (worstOutput Sell s o) (Qfloor (O * r)).
Proof.
  intros Ho HO Hs Hq. destruct (fin_one_minus s q Hs Hq) as (r & Hr & Hb & Hn).
  exists r. split; [exact Hb|]. split; [exact Hn|].
  apply int_round_down; [by apply fin_times | nra].
Qed.

Lemma worst_buy_output s q o O :
  fin o O → (0 <= O)%Q → ext_eq s (EFin q) → (0 <= q <= 1)%Q →
  ∃ r, (1 <= r <= 2)%Q ∧ near r (1 + q) ∧ int (worstOutput Buy s o) (Qceiling (O * r)).
Proof.
  intros Ho HO Hs Hq. destruct (fin_one_plus s q Hs Hq) as (r & Hr & Hb & Hn).
  exists r. split; [exact Hb|]. split; [exact Hn|].
  apply int_round_up; [by apply fin_times | nra].
Qed.

(** C26. On integer orders without taker fees the worst case of a quote fills
    the same input from the same sources as its best case, and its output is
    that of the best case moved by the slippage against the user: on a sell
    times [1 - slippage], rounded down, on a buy times [1 + slippage], rounded
    up, where the factor is as exact as binary64 numbers are. *)
Theorem worst_case_bounds_best_case qi q l A best worst :
  ext_eq (get_slippage (opts qi)) (EFin q) → (0 <= q <= 1)%Q →
  int (fillAmount qi) A → (0 <= A)%Z →
  (∀ calls, createBestCaseFillOrderCalls qi = Ok calls → Forall2 call_amounts calls l) →
  simulateBestCaseFill qi = Ok best → simulateWorstCaseFill qi = Ok worst →
  fillAmountBySource worst = fillAmountBySource best ∧
  ∃ O r, (0 <= O <= total_o l)%Q ∧ ((total_i l <= A)%Z → (O == total_o l)%Q) ∧
  match qf_side qi with
  | Sell => takerAssetAmount worst = takerAssetAmount best ∧
            int (takerAssetAmount best) (Z.min A (total_i l)) ∧
            int (makerAssetAmount best) (Qfloor O) ∧
            (0 <= r <= 1)%Q ∧ near r (1 - q) ∧ int (makerAssetAmount worst) (Qfloor (O * r))
  | Buy => makerAssetAmount worst = makerAssetAmount best ∧
           int (makerAssetAmount best) (Z.min A (total_i l)) ∧
           int (takerAssetAmount best) (Qceiling O) ∧
           (1 <= r <= 2)%Q ∧ near r (1 + q) ∧ int (takerAssetAmount worst) (Qceiling (O * r))
  end.
Proof.
  intros Hs Hq HA HA0 Hcalls Hb Hw.
  unfold simulateBestCaseFill in Hb. ok_inv Hb. injection Hb as <-.
  unfold simulateWorstCaseFill in Hw. ok_inv Hw. injection Hw as <-.
  rewrite E in E1. injection E1 as <-. rewrite E0 in E2. injection E2 as <-.
  destruct (fill_quote_orders_totals _ _ _ _ _ _ _ (Hcalls _ E) HA HA0 E0)
    as (O & [Hin Hout _ _] & HO & Hx).
  unfold fromIntermediateQuoteFillResult. split; [by destruct (qf_side qi)|]. exists O.
  destruct (qf_side qi); cbn [takerAssetAmount makerAssetAmount ir_input ir_output].
  - destruct (worst_sell_output _ q _ O Hout ltac:(lra) Hs Hq) as (r & Hr & Hn & Hwr).
    exists r. split; [lra|]. split; [done|]. split_and!; try done; try lra;
      [by apply int_integerValue | apply int_round_down; [done | lra] | by apply int_integerValue].
  - destruct (worst_buy_output _ q _ O Hout ltac:(lra) Hs Hq) as (r & Hr & Hn & Hwr).
    exists r. split; [lra|]. split; [done|]. split_and!; try done; try lra;
      [by apply int_integerValue | apply int_round_up; [done | lra] | by apply int_integerValue].
Qed.
End WorstCase.
