(* ===== verification/QuoteInfo.v ===== *)
(** * Quote info ([asset-swapper/utils/quote_info.ts])

    The best case, the worst case and the source breakdown of a quote, merged
    from the single-hop simulation and from every two-hop order. *)

From S2P Require Import Prelude JsNumber BigNum Types Fills Orders PathModel Simulation.

Section QuoteInfo.
Context {B : BigNumberLib}.

Record SwapQuoteInfo : Type := {
  takerAmount : BN;
  totalTakerAmount : BN;
  makerAmount : BN;
  protocolFeeInWeiAmount : BN;
  gas : number;
  slippage : number;
}.

Record MultiHopFill : Type := {
  mh_amount : BN;
  mh_intermediateToken : string;
  mh_hops : list ERC20BridgeSource;
}.

Record MultiHopBreakdown : Type := {
  mb_proportion : BN;
  mb_intermediateToken : string;
  mb_hops : list ERC20BridgeSource;
}.

Record SwapQuoteSourceBreakdown : Type := {
  singleSource : BySource;
  multihop : list MultiHopBreakdown;
}.

Record QuoteInfo : Type := {
  bestCaseQuoteInfo : SwapQuoteInfo;
  worstCaseQuoteInfo : SwapQuoteInfo;
  sourceBreakdown : SwapQuoteSourceBreakdown;
}.

Definition fillResultsToQuoteInfo (fr : QuoteFillResult) (slippage : number) : SwapQuoteInfo :=
  {| makerAmount := totalMakerAssetAmount fr;
     takerAmount := takerAssetAmount fr;
     totalTakerAmount := totalTakerAssetAmount fr;
     protocolFeeInWeiAmount := protocolFeeAmount fr;
     gas := fr_gas fr;
     slippage := slippage |}.

(** [(bestCaseQuoteInfo, worstCaseQuoteInfo, fillAmountBySource)]. *)
Definition calculateSingleHopQuoteInfo (optimizedOrders : list OptimizedOrder)
    (operation : MarketOperation) (assetFillAmount gasPrice : BN) (schedule : GasSchedule)
    (slippage : number) : result (SwapQuoteInfo * SwapQuoteInfo * BySource) :=
  bestCaseFillResult ← simulateBestCaseFill
    {| gasPrice := gasPrice; orders := optimizedOrders; qf_side := operation;
       fillAmount := assetFillAmount;
       opts := {| gasSchedule := schedule; protocolFeeMultiplier := None; opts_slippage := None |} |};
  worstCaseFillResult ← simulateWorstCaseFill
    {| gasPrice := gasPrice; orders := optimizedOrders; qf_side := operation;
       fillAmount := assetFillAmount;
       opts := {| gasSchedule := schedule; protocolFeeMultiplier := None;
                  opts_slippage := Some slippage |} |};
  mret (fillResultsToQuoteInfo bestCaseFillResult (n_Z 0),
        fillResultsToQuoteInfo worstCaseFillResult slippage,
        fillAmountBySource bestCaseFillResult).

Record TwoHopQuoteInfo : Type := {
  th_best : SwapQuoteInfo;
  th_worst : SwapQuoteInfo;
  multiHopFill : MultiHopFill;
}.

Definition calculateTwoHopQuoteInfo (twoHopOrder : TwoHopOrder) (operation : MarketOperation)
    (schedule : GasSchedule) (slippage : number) : result TwoHopQuoteInfo :=
  let first := firstHopOrder twoHopOrder in
  let second := secondHopOrder twoHopOrder in
  rawGas ← schedule ERC20BridgeSource.MultiHop
    (FDMultiHop (Some (opt_source first, opt_fillData first))
       (Some (opt_source second, opt_fillData second)) "");
  let gas := toNumber (of_number rawGas) in
  let oneMinus := of_number (n_sub (n_Z 1) slippage) in
  let onePlus := of_number (n_add (n_Z 1) slippage) in
  let isSell := isSell operation in
  let worstTaker :=
    if isSell then opt_takerAmount first
    else integerValue ROUND_UP (times (opt_takerAmount first) onePlus) in
  mret {| th_best :=
            {| makerAmount := opt_makerAmount second; takerAmount := opt_takerAmount first;
               totalTakerAmount := opt_takerAmount first;
               protocolFeeInWeiAmount := ZERO_AMOUNT; gas := gas; slippage := n_Z 0 |};
          th_worst :=
            {| makerAmount := if isSell
                              then integerValue ROUND_HALF_UP (times (opt_makerAmount second) oneMinus)
                              else opt_makerAmount second;
               takerAmount := worstTaker; totalTakerAmount := worstTaker;
               protocolFeeInWeiAmount := ZERO_AMOUNT; gas := gas; slippage := slippage |};
          multiHopFill :=
            {| mh_amount := opt_takerAmount first;
               mh_intermediateToken := opt_takerToken second;
               mh_hops := [opt_source first; opt_source second] |} |}.

(** The equality [_.uniq] uses on numbers, NaN being equal to itself. *)
Definition sameValueZero (x y : number) : bool :=
  (ext_is_nan x && ext_is_nan y) || ext_eqb x y.

Definition mergeSwapQuoteInfos (swapQuoteInfos : list SwapQuoteInfo) : result SwapQuoteInfo :=
  match swapQuoteInfos with
  | [] => Throw (Error "swapQuoteInfos.length should be at least one")
  | first :: rest =>
      if forallb (λ info, sameValueZero (slippage first) (slippage info)) rest then
        Ok {| takerAmount := bn_sum (takerAmount <$> swapQuoteInfos);
              totalTakerAmount := bn_sum (totalTakerAmount <$> swapQuoteInfos);
              makerAmount := bn_sum (makerAmount <$> swapQuoteInfos);
              protocolFeeInWeiAmount := bn_sum (protocolFeeInWeiAmount <$> swapQuoteInfos);
              gas := n_sum (gas <$> swapQuoteInfos);
              slippage := slippage first |}
      else Throw (Error "slippages of swapQuoteInfos vary")
  end.

Definition calculateSwapQuoteOrdersBreakdown (fillAmountBySource : BySource)
    (multihopFills : list MultiHopFill) : SwapQuoteSourceBreakdown :=
  let totalFillAmount := bn_sum ((snd <$> fillAmountBySource) ++ (mh_amount <$> multihopFills)) in
  {| singleSource := prod_map id (λ amount, div amount totalFillAmount) <$> fillAmountBySource;
     multihop :=
       (λ fill, {| mb_proportion := div (mh_amount fill) totalFillAmount;
                   mb_intermediateToken := mh_intermediateToken fill;
                   mb_hops := mh_hops fill |}) <$> multihopFills |}.

Definition calculateQuoteInfo (path : Path.t) (operation : MarketOperation)
    (assetFillAmount gasPrice : BN) (schedule : GasSchedule) (slippage : number)
    : result QuoteInfo :=
  let byType := Path.getOrdersByType path in
  let singleHopOrders := nativeOrders byType ++ bridgeOrders byType in
  singleHop ← calculateSingleHopQuoteInfo singleHopOrders operation assetFillAmount gasPrice
                schedule slippage;
  twoHopQuoteInfos ←
    mapM (λ order, calculateTwoHopQuoteInfo order operation schedule slippage)
      (twoHopOrders byType);
  let '(singleBest, singleWorst, fillAmountBySource) := singleHop in
  best ← mergeSwapQuoteInfos (singleBest :: (th_best <$> twoHopQuoteInfos));
  worst ← mergeSwapQuoteInfos (singleWorst :: (th_worst <$> twoHopQuoteInfos));
  mret {| bestCaseQuoteInfo := best;
          worstCaseQuoteInfo := worst;
          sourceBreakdown :=
            calculateSwapQuoteOrdersBreakdown fillAmountBySource (multiHopFill <$> twoHopQuoteInfos) |}.
End QuoteInfo.

Section Facts.
Context {B : BigNumberLib}.

Lemma sameValueZero_refl x : sameValueZero x x = true.
Proof.
  unfold sameValueZero. destruct x as [|s|q]; simpl; [done | by destruct s | by apply Qeq_bool_iff].
Qed.

Lemma merge_same_slippage s infos :
  infos ≠ [] → Forall (λ i, slippage i = s) infos →
  ∃ m, mergeSwapQuoteInfos infos = Ok m ∧ slippage m = s ∧
    makerAmount m = bn_sum (makerAmount <$> infos) ∧
    takerAmount m = bn_sum (takerAmount <$> infos) ∧
    totalTakerAmount m = bn_sum (totalTakerAmount <$> infos).
Proof.
  intros Hne H. destruct infos as [|i infos]; [done|]. rewrite Forall_cons in H.
  destruct H as [Hi H]. simpl. rewrite (proj2 (forallb_forall _ _)).
  - eexists. split; [done|]. done.
  - intros x Hx%list_elem_of_In. rewrite Forall_forall in H. rewrite (H x Hx), Hi.
    apply sameValueZero_refl.
Qed.

Lemma twoHop_slippages orders op schedule s infos :
  mapM (λ order, calculateTwoHopQuoteInfo order op schedule s) orders = Ok infos →
  Forall (λ i, slippage (th_best i) = n_Z 0 ∧ slippage (th_worst i) = s ∧
               makerAmount (th_best i) ∈ (opt_makerAmount ∘ secondHopOrder) <$> orders) infos.
Proof.
  intros H%mapM_ok. induction H as [|o i orders infos Hi _ IH]; constructor.
  - unfold calculateTwoHopQuoteInfo in Hi. ok_inv Hi. injection Hi as <-. simpl. set_solver.
  - eapply Forall_impl; [exact IH|]. intros j (? & ? & ?). set_solver.
Qed.

(** The merged quote info of a path never fails on differing slippages: once
    the simulations of the orders succeed the quote has an info, its best case
    without slippage and its worst case at the requested one, and its amounts
    are the sums over the single-hop result and the two-hop orders. *)
Theorem quote_info_merges path op amount price schedule s single best worst by_source infos :
  calculateSingleHopQuoteInfo
    (nativeOrders (Path.getOrdersByType path) ++ bridgeOrders (Path.getOrdersByType path))
    op amount price schedule s = Ok single →
  single = (best, worst, by_source) →
  mapM (λ order, calculateTwoHopQuoteInfo order op schedule s)
    (twoHopOrders (Path.getOrdersByType path)) = Ok infos →
  ∃ info, calculateQuoteInfo path op amount price schedule s = Ok info ∧
    slippage (bestCaseQuoteInfo info) = n_Z 0 ∧ slippage (worstCaseQuoteInfo info) = s ∧
    makerAmount (bestCaseQuoteInfo info) =
      bn_sum (makerAmount best :: (makerAmount ∘ th_best <$> infos)) ∧
    takerAmount (bestCaseQuoteInfo info) =
      bn_sum (takerAmount best :: (takerAmount ∘ th_best <$> infos)) ∧
    makerAmount (worstCaseQuoteInfo info) =
      bn_sum (makerAmount worst :: (makerAmount ∘ th_worst <$> infos)) ∧
    totalTakerAmount (worstCaseQuoteInfo info) =
      bn_sum (totalTakerAmount worst :: (totalTakerAmount ∘ th_worst <$> infos)).
Proof.
  intros Hsingle -> Hinfos. unfold calculateQuoteInfo. rewrite Hsingle. cbn [mbind result_bind].
  rewrite Hinfos. cbn [mbind result_bind]. cbv beta iota. pose proof (twoHop_slippages _ _ _ _ _ Hinfos) as Hs.
  assert (slippage best = n_Z 0 ∧ slippage worst = s) as [Hb Hw].
  { unfold calculateSingleHopQuoteInfo in Hsingle. ok_inv Hsingle. by injection Hsingle as <- <- _. }
  destruct (merge_same_slippage (n_Z 0) (best :: (th_best <$> infos))) as (b & -> & Hb1 & Hb2 & Hb3 & _);
    [done | |].
  { apply Forall_cons. split; [done|]. apply Forall_fmap. eapply Forall_impl; [exact Hs|]. naive_solver. }
  destruct (merge_same_slippage s (worst :: (th_worst <$> infos))) as (w & -> & Hw1 & Hw2 & _ & Hw3);
    [done | |].
  { apply Forall_cons. split; [done|]. apply Forall_fmap. eapply Forall_impl; [exact Hs|]. naive_solver. }
  eexists. split; [done|]. cbn [bestCaseQuoteInfo worstCaseQuoteInfo].
  rewrite Hb2, Hb3, Hw2, Hw3. simpl. rewrite <- !list_fmap_compose. done.
Qed.

(** ** Proportions *)

Definition proportions (b : SwapQuoteSourceBreakdown) : list BN :=
  (snd <$> singleSource b) ++ (mb_proportion <$> multihop b).

Lemma rdiv_dist p t : (Qabs (rdiv p t - p / t) <= (1 # 2) / pow10 DECIMAL_PLACES)%Q.
Proof. apply round_dp_dist. Qed.

Lemma Qsum_div l t : ¬ (t == 0)%Q → (Qsum ((λ q, q / t) <$> l) == Qsum l / t)%Q.
Proof.
  intros Ht. induction l as [|q l IH]; [change (Qsum []) with 0%Q; unfold Qdiv; simpl; change (Qsum []) with 0%Q; lra|].
  change ((λ q, q / t) <$> q :: l)%Q with (q / t :: ((λ q, q / t) <$> l))%Q.
  rewrite !Qsum_cons, IH. by field.
Qed.

Lemma Qsum_rdiv_dist l t :
  (Qabs (Qsum ((λ q, rdiv q t) <$> l) - Qsum ((λ q, q / t) <$> l)) <=
   inject_Z (Z.of_nat (length l)) * ((1 # 2) / pow10 DECIMAL_PLACES))%Q.
Proof.
  induction l as [|q l IH].
  { change (Qabs (0 - 0) <= 0 * ((1 # 2) / pow10 DECIMAL_PLACES))%Q.
    rewrite Qmult_0_l. discriminate. }
  change ((λ q, rdiv q t) <$> q :: l)%Q with (rdiv q t :: ((λ q, rdiv q t) <$> l))%Q.
  change ((λ q, q / t) <$> q :: l)%Q with (q / t :: ((λ q, q / t) <$> l))%Q.
  rewrite !Qsum_cons. pose proof (rdiv_dist q t) as H. cbn [length].
  rewrite Nat2Z.inj_succ, <- Z.add_1_r, inject_Z_plus. change (inject_Z 1) with 1%Q.
  set (e := ((1 # 2) / pow10 DECIMAL_PLACES)%Q) in *.
  apply Qabs_Qle_condition in H, IH. apply Qabs_Qle_condition. lra.
Qed.

(** The source breakdown of a quote with non-negative fill amounts and a
    positive total: every proportion is between zero and one, and they sum to
    one up to the rounding of the divisions. *)
Theorem breakdown_proportions by_source fills qs :
  Forall2 fin ((snd <$> by_source) ++ (mh_amount <$> fills)) qs →
  Forall (λ q, 0 <= q)%Q qs → (0 < Qsum qs)%Q →
  ∃ ps, Forall2 fin (proportions (calculateSwapQuoteOrdersBreakdown by_source fills)) ps ∧
    Forall (λ p, 0 <= p <= 1)%Q ps ∧ length ps = (length by_source + length fills)%nat ∧
    (Qabs (Qsum ps - 1) <=
     inject_Z (Z.of_nat (length ps)) * ((1 # 2) / pow10 DECIMAL_PLACES))%Q.
Proof.
  intros Hqs Hnn Hpos. set (t := Qsum qs) in *.
  set (amounts := (snd <$> by_source) ++ (mh_amount <$> fills)) in *.
  assert (amounts ≠ []) as Hne.
  { intros E. rewrite E in Hqs. inversion Hqs; subst. unfold t in Hpos. by apply Qlt_irrefl in Hpos. }
  pose proof (fin_bn_sum _ _ Hne Hqs) as Ht. fold t in Ht.
  assert (proportions (calculateSwapQuoteOrdersBreakdown by_source fills)
          = (λ a, div a (bn_sum amounts)) <$> amounts) as ->.
  { unfold proportions, calculateSwapQuoteOrdersBreakdown, amounts. simpl.
    rewrite fmap_app, <- !list_fmap_compose. done. }
  exists ((λ q, rdiv q t) <$> qs). split_and!.
  - apply Forall2_fmap_2. eapply Forall2_impl; [exact Hqs|]. intros a q Ha.
    apply fin_div; [done | done | lra].
  - apply Forall_fmap. clear Hqs Ht. apply Forall_forall. intros q Hq. simpl.
    apply Path.rdiv_unit; [|done]. rewrite Forall_forall in Hnn. split; [by apply Hnn|].
    unfold t. clear -Hq Hnn. induction qs as [|x qs IH]; [set_solver|].
    rewrite Qsum_cons. apply elem_of_cons in Hq as [->|Hq].
    + assert (0 <= Qsum qs)%Q; [|lra]. apply Qsum_nonneg. apply Forall_forall. set_solver.
    + assert (0 <= x)%Q by set_solver. assert (q <= Qsum qs)%Q by (apply IH; set_solver). lra.
  - rewrite length_fmap. apply Forall2_length in Hqs. unfold amounts in Hqs.
    rewrite length_app, !length_fmap in Hqs. lia.
  - rewrite length_fmap. pose proof (Qsum_rdiv_dist qs t) as H.
    rewrite (Qsum_div qs t) in H by lra.
    assert (Qsum qs / t == 1)%Q as E by (fold t; field; lra). by rewrite E in H.
Qed.
End Facts.

(** ** Concrete quotes *)
Module QuoteExamples.
Import Concrete.

Definition schedule : GasSchedule := λ _ _, Ok (n_Z 90000).
Definition bridge_order (maker taker input output : Z) : OptimizedOrder :=
  {| opt_source := ERC20BridgeSource.UniswapV2;
     opt_fillData := FDUniswapV2 ["0xA"; "0xB"]%string "0xR";
     opt_type := FillQuoteTransformerOrderType.Bridge;
     opt_makerToken := "0xB"; opt_takerToken := "0xA";
     opt_makerAmount := of_Z maker; opt_takerAmount := of_Z taker;
     opt_fill := {| base_input := of_Z input; base_output := of_Z output;
                    base_adjustedOutput := of_Z output; base_gas := n_Z 90000 |} |}.
Definition sell_info : QuoteFillInfo :=
  {| orders := [bridge_order 600 60 60 600; bridge_order 450 50 50 450]; fillAmount := of_Z 100;
     gasPrice := of_Z 10; qf_side := Sell;
     opts := {| gasSchedule := schedule; protocolFeeMultiplier := None;
                opts_slippage := Some (EFin (1 # 4)) |} |}.
Definition sell_amounts : list (Z * Q) := [(60%Z, 600%Q); (50%Z, 450%Q)].

Lemma bridge_call_amounts maker i o call :
  createBestCaseFillOrderCall Sell (bridge_order maker i i o) = Ok call →
  (0 < i)%Z → (0 <= o)%Z → maker ≠ 0%Z → call_amounts call (i, inject_Z o).
Proof.
  intros [= <-] Hi Ho Hm. split.
  - exact (fin_Z i).
  - exact (fin_Z o).
  - split; [done|]. change 0%Q with (inject_Z 0). cbn [snd]. by rewrite <- Zle_Qle.
  - exists i. split; [exact (fin_Z i) | done].
  - exact fin_ZERO.
  - exists (inject_Z maker). split; [exact (fin_Z maker) | by apply int_nonzero].
  - exists 0%Q. exact fin_ZERO.
Qed.

Lemma sell_calls calls :
  createBestCaseFillOrderCalls sell_info = Ok calls → Forall2 call_amounts calls sell_amounts.
Proof.
  intros [= <-]. constructor; [|constructor; [|constructor]].
  - by apply (bridge_call_amounts 600 60 600).
  - by apply (bridge_call_amounts 450 50 450).
Qed.

Definition two_hop : TwoHopOrder :=
  {| firstHopOrder := bridge_order 0 300 300 0; secondHopOrder := bridge_order 1001 7 7 1001 |}.

(** A buy of 200, half of it from one source and half of it through two hops,
    each half for 300 of the taker token. *)
Definition buy_ctx : PathContext :=
  {| ctx_side := Buy; ctx_inputToken := "0xB"; ctx_outputToken := "0xA" |}.
Definition buy_path : result Path.t :=
  Path.create buy_ctx [PathExamples.bridge_fill 100 300 300; PathExamples.hop_fill 100 300 300]
    (of_Z 200) PathExamples.opts.
Definition buy_quote : result QuoteInfo :=
  path ← buy_path; calculateQuoteInfo path Buy (of_Z 200) (of_Z 1) schedule (n_Z 0).
End QuoteExamples.

Import Concrete QuoteExamples.

Lemma fill_quote_orders_exact_witness :
  ∃ calls r O, createBestCaseFillOrderCalls sell_info = Ok calls ∧
    fillQuoteOrders calls (of_Z 100) (of_Z 0) schedule = Ok r ∧
    int (ir_input r) 100 ∧ fin (ir_output r) O ∧ (0 <= O <= 1050)%Q.
Proof.
  assert (is_ok (calls ← createBestCaseFillOrderCalls sell_info;
                 fillQuoteOrders calls (of_Z 100) (of_Z 0) schedule) = true) as K
    by (vm_compute; reflexivity).
  destruct (createBestCaseFillOrderCalls sell_info) as [calls|] eqn:Ec; [|discriminate K].
  cbn [mbind result_bind] in K.
  destruct (fillQuoteOrders calls (of_Z 100) (of_Z 0) schedule) as [r|] eqn:Er; [|discriminate K].
  assert (int (of_Z 100) 100) as HA by apply fin_Z.
  destruct (fill_quote_orders_exact schedule (of_Z 0) calls sell_amounts (of_Z 100) 100 r
    (sell_calls _ Ec) HA ltac:(lia) Er) as (O & Hin & Hout & _ & _ & HO & _).
  exists calls, r, O. split; [reflexivity|]. split; [exact Er|]. split; [exact Hin|].
  split; [exact Hout | exact HO].
Defined.

Lemma worst_case_bounds_best_case_witness :
  ∃ best worst, simulateBestCaseFill sell_info = Ok best ∧ simulateWorstCaseFill sell_info = Ok worst ∧
    takerAssetAmount worst = takerAssetAmount best ∧ int (takerAssetAmount best) 100 ∧
    ∃ O r, (0 <= O <= 1050)%Q ∧ int (makerAssetAmount best) (Qfloor O) ∧
      near r (1 - (1 # 4)) ∧ int (makerAssetAmount worst) (Qfloor (O * r)).
Proof.
  assert (is_ok (simulateBestCaseFill sell_info) && is_ok (simulateWorstCaseFill sell_info) = true)
    as K by (vm_compute; reflexivity).
  destruct (simulateBestCaseFill sell_info) as [best|] eqn:Eb; [|discriminate K].
  destruct (simulateWorstCaseFill sell_info) as [worst|] eqn:Ew; [|discriminate K].
  assert (int (fillAmount sell_info) 100) as HA by apply fin_Z.
  assert (ext_eq (EFin (1 # 4)) (EFin (1 # 4))) as Hs by reflexivity.
  destruct (worst_case_bounds_best_case sell_info (1 # 4) sell_amounts 100 best worst
    Hs ltac:(split; discriminate) HA ltac:(lia) sell_calls Eb Ew)
    as (_ & O & r & HO & _ & Ht & Hi & Hm & _ & Hn & Hw).
  exists best, worst. split; [reflexivity|]. split; [reflexivity|]. split; [exact Ht|]. split; [exact Hi|].
  exists O, r. split; [exact HO|]. split; [exact Hm|]. split; [exact Hn | exact Hw].
Defined.

Lemma breakdown_proportions_witness :
  ∃ ps, Forall2 fin (proportions (calculateSwapQuoteOrdersBreakdown
      [(ERC20BridgeSource.UniswapV2, of_Z 60)]
      [{| mh_amount := of_Z 40; mh_intermediateToken := "0xC"; mh_hops := [] |}])) ps ∧
    Forall (λ p, 0 <= p <= 1)%Q ps.
Proof.
  destruct (breakdown_proportions [(ERC20BridgeSource.UniswapV2, of_Z 60)]
      [{| mh_amount := of_Z 40; mh_intermediateToken := "0xC"; mh_hops := [] |}] [60; 40]%Q)
    as (ps & H1 & H2 & _).
  - constructor; [fin_now|]. constructor; [fin_now | constructor].
  - repeat (apply Forall_cons; split; [discriminate|]). constructor.
  - reflexivity.
  - exists ps. split; [exact H1 | exact H2].
Defined.

Lemma quote_info_merges_witness :
  ∃ p info, buy_path = Ok p ∧ calculateQuoteInfo p Buy (of_Z 200) (of_Z 1) schedule (n_Z 0) = Ok info ∧
    slippage (bestCaseQuoteInfo info) = n_Z 0.
Proof.
  assert (match buy_path with
          | Ok p => is_ok (calculateSingleHopQuoteInfo
              (nativeOrders (Path.getOrdersByType p) ++ bridgeOrders (Path.getOrdersByType p))
              Buy (of_Z 200) (of_Z 1) schedule (n_Z 0)) &&
              is_ok (mapM (λ order, calculateTwoHopQuoteInfo order Buy schedule (n_Z 0))
                (twoHopOrders (Path.getOrdersByType p)))
          | Throw _ => false end = true) as K by (vm_compute; reflexivity).
  destruct buy_path as [p|] eqn:Ep; [|discriminate K]. apply andb_true_iff in K as [K1 K2].
  destruct (calculateSingleHopQuoteInfo _ _ _ _ _ _) as [[[b w] m]|] eqn:Es; [|discriminate K1].
  destruct (mapM _ _) as [infos|] eqn:Ei; [|discriminate K2].
  destruct (quote_info_merges p Buy (of_Z 200) (of_Z 1) schedule (n_Z 0) (b, w, m) b w m infos
    Es eq_refl Ei) as (info & Hi & H0 & _).
  exists p, info. split; [reflexivity|]. split; [exact Hi | exact H0].
Defined.

(** The reported worst case of a two-hop sell is not the amount its orders are
    slipped to: the quote info rounds half up, the slipped order rounds down,
    so the report can promise one base unit more than the order guarantees. *)
Theorem two_hop_worst_case_exceeds_slipped_order :
  match calculateTwoHopQuoteInfo two_hop Sell schedule (EFin (1 # 2)) with
  | Ok info =>
      fin (makerAmount (th_worst info)) 501 ∧
      fin (opt_makerAmount (Path.createSlipOrderFunction (EFin (1 # 2)) Sell
             (secondHopOrder two_hop))) 500
  | Throw _ => False
  end.
Proof. split; fin_now. Qed.

(** The breakdown of a buy mixes units: single sources are weighed by the maker
    amount they supply, two-hop fills by the taker amount they cost, so two
    equal halves of this buy are reported as a quarter and three quarters. *)
Theorem buy_breakdown_mixes_units :
  match buy_quote with
  | Ok info => Forall2 fin (proportions (sourceBreakdown info)) [1 # 4; 3 # 4]%Q
  | Throw _ => False
  end.
Proof. vm_compute. repeat (constructor; [constructor; reflexivity|]). constructor. Qed.
