(* ===== verification/FeeCalculator.v ===== *)
(** * Fee calculator ([utils/fee_calculator.ts])

    The integrator, 0x and gas fees of a meta-transaction quote, and the
    on-chain transfers that pay them. *)

From S2P Require Import Prelude JsNumber BigNum Types.

Section FeeCalculator.
Context {B : BigNumberLib}.

(** ** Data ([src/types.ts]) *)

Inductive BillingType : Type := OnChain | OffChain.

(** [feeRecipient: string | null]. *)
Record FeeConfigBase : Type := { c_feeRecipient : option string; c_billingType : BillingType }.

Record VolumeBasedFeeConfig : Type := {
  vc_base : FeeConfigBase;
  vc_volumePercentage : BN;
}.

Record IntegratorShareFeeConfig : Type := {
  sc_base : FeeConfigBase;
  sc_integratorSharePercentage : BN;
}.

Record GasFeeConfig : Type := { gc_base : FeeConfigBase }.

(** The 0x fee is a union told apart by its [type]. *)
Inductive ZeroExFeeConfig : Type :=
| ZVolumeConfig (c : VolumeBasedFeeConfig)
| ZShareConfig (c : IntegratorShareFeeConfig).

Record FeeConfigs : Type := {
  fc_integratorFee : option VolumeBasedFeeConfig;
  fc_zeroExFee : option ZeroExFeeConfig;
  fc_gasFee : option GasFeeConfig;
}.

Record FeeBase : Type := {
  feeToken : string;
  feeAmount : BN;
  feeRecipient : option string;
  billingType : BillingType;
}.

Record VolumeBasedFee : Type := { vf_base : FeeBase; vf_volumePercentage : BN }.
Record IntegratorShareFee : Type := { sf_base : FeeBase; sf_integratorSharePercentage : BN }.
Record GasFee : Type := {
  gf_base : FeeBase;
  gf_gasPrice : BN;
  gf_estimatedGas : BN;
  gf_feeTokenAmountPerWei : BN;
}.

Inductive ZeroExFee : Type :=
| ZVolume (f : VolumeBasedFee)
| ZShare (f : IntegratorShareFee).

Definition zeroEx_base (f : ZeroExFee) : FeeBase :=
  match f with ZVolume v => vf_base v | ZShare s => sf_base s end.

Record Fees : Type := {
  integratorFee : option VolumeBasedFee;
  zeroExFee : option ZeroExFee;
  gasFee : option GasFee;
}.

Record OnChainTransfer : Type := {
  tr_feeToken : string;
  tr_feeAmount : BN;
  tr_feeRecipient : string;
}.

Record OnChainFees : Type := {
  totalOnChainFeeAmount : BN;
  onChainTransfers : list OnChainTransfer;
  onChainTransfersGas : BN;
}.

Definition ZERO : BN := of_Z 0.

(** ** Operations *)

(** The recipient of an on-chain fee: [billingType === 'on-chain'] and a truthy
    (non-null, non-empty) recipient. *)
Definition onChainRecipient (billing : BillingType) (recipient : option string) : option string :=
  match billing, recipient with
  | OnChain, Some r => if String.eqb r "" then None else Some r
  | _, _ => None
  end.

(** ... whose amount is positive: the guard of every transfer. *)
Definition chargedRecipient (billing : BillingType) (recipient : option string) (amount : BN)
    : option string :=
  match onChainRecipient billing recipient with
  | Some r => if gt amount ZERO then Some r else None
  | None => None
  end.
Definition chargedTo (f : FeeBase) : option string :=
  chargedRecipient (billingType f) (feeRecipient f) (feeAmount f).

(** [map.set(recipient, {.., feeAmount: (map.get(recipient)?.feeAmount ?? ZERO) + amount})]. *)
Definition addTransfer (transfers : list (string * OnChainTransfer)) (recipient token : string)
    (amount : BN) : list (string * OnChainTransfer) :=
  assoc_update transfers recipient (λ current,
    {| tr_feeRecipient := recipient; tr_feeToken := token;
       tr_feeAmount := plus (default ZERO (tr_feeAmount <$> current)) amount |}).

(** The part of the integrator fee that is paid out as on-chain 0x share. *)
Definition zeroExFeeAdjustment (fees : Fees) : BN :=
  match zeroExFee fees with
  | Some (ZShare s) =>
      match onChainRecipient (billingType (sf_base s)) (feeRecipient (sf_base s)) with
      | Some _ => feeAmount (sf_base s)
      | None => ZERO
      end
  | _ => ZERO
  end.

Definition transfer_integrator (fees : Fees) (m : list (string * OnChainTransfer)) :=
  match integratorFee fees with
  | Some f =>
      match chargedTo (vf_base f) with
      | Some r => addTransfer m r (feeToken (vf_base f))
                    (minus (feeAmount (vf_base f)) (zeroExFeeAdjustment fees))
      | None => m
      end
  | None => m
  end.

Definition transfer_fee (f : option FeeBase) (m : list (string * OnChainTransfer)) :=
  match f with
  | Some f =>
      match chargedTo f with
      | Some r => addTransfer m r (feeToken f) (feeAmount f)
      | None => m
      end
  | None => m
  end.

(** [feeRecipientToOnChainTransfer]. *)
Definition transferMap (fees : Fees) : list (string * OnChainTransfer) :=
  transfer_fee (gf_base <$> gasFee fees)
    (transfer_fee (zeroEx_base <$> zeroExFee fees) (transfer_integrator fees [])).

Definition _calculateTotalOnChainFees (fees : Fees) (gasPerOnChainTransfer : BN) : OnChainFees :=
  let m := transferMap fees in
  {| onChainTransfersGas :=
       times gasPerOnChainTransfer (of_number (n_Z (Z.of_nat (length m))));
     onChainTransfers := m.*2;
     totalOnChainFeeAmount := fold_left (λ total t, plus total (tr_feeAmount t)) m.*2 ZERO |}.

Definition _calculateIntegratorFee (integratorFeeConfig : option VolumeBasedFeeConfig)
    (sellToken : string) (sellTokenAmount : BN) : option VolumeBasedFee :=
  match integratorFeeConfig with
  | None => None
  | Some c =>
      Some {| vf_base :=
                {| feeToken := sellToken;
                   feeAmount := integerValue ROUND_FLOOR
                     (times sellTokenAmount (vc_volumePercentage c));
                   feeRecipient := c_feeRecipient (vc_base c);
                   billingType := c_billingType (vc_base c) |};
              vf_volumePercentage := vc_volumePercentage c |}
  end.

Definition _calculateZeroExFee (zeroExFeeConfig : option ZeroExFeeConfig) (sellToken : string)
    (sellTokenAmount : BN) (integratorFee : option VolumeBasedFee) : result (option ZeroExFee) :=
  match zeroExFeeConfig with
  | None => Ok None
  | Some (ZVolumeConfig c) =>
      Ok (Some (ZVolume
        {| vf_base :=
             {| feeToken := sellToken;
                feeAmount := integerValue ROUND_FLOOR
                  (times sellTokenAmount (vc_volumePercentage c));
                feeRecipient := c_feeRecipient (vc_base c);
                billingType := c_billingType (vc_base c) |};
           vf_volumePercentage := vc_volumePercentage c |}))
  | Some (ZShareConfig c) =>
      match integratorFee with
      | None => Throw (Error "Integrator fee is undefined")
      | Some f =>
          Ok (Some (ZShare
            {| sf_base :=
                 {| feeToken := sellToken;
                    feeAmount := integerValue ROUND_FLOOR
                      (times (feeAmount (vf_base f)) (sc_integratorSharePercentage c));
                    feeRecipient := c_feeRecipient (sc_base c);
                    billingType := c_billingType (sc_base c) |};
               sf_integratorSharePercentage := sc_integratorSharePercentage c |}))
      end
  end.

(** The distinct recipients the gas fee expects transfers to. *)
Definition feeRecipients (gasFeeConfig : GasFeeConfig) (sellTokenAmountPerWei : BN)
    (integratorFee : option VolumeBasedFee) (zeroExFee : option ZeroExFee) : list string :=
  uniq (option_list (integratorFee ≫= chargedTo ∘ vf_base) ++
        option_list (zeroExFee ≫= chargedTo ∘ zeroEx_base) ++
        option_list (chargedRecipient (c_billingType (gc_base gasFeeConfig))
                       (c_feeRecipient (gc_base gasFeeConfig)) sellTokenAmountPerWei)).

Definition _calculateGasFee (gasFeeConfig : option GasFeeConfig) (sellToken : string)
    (sellTokenAmountPerWei : option BN) (gasPrice quoteGasEstimate gasPerOnChainTransfer : BN)
    (integratorFee : option VolumeBasedFee) (zeroExFee : option ZeroExFee)
    : result (option GasFee) :=
  match gasFeeConfig with
  | None => Ok None
  | Some c =>
      match sellTokenAmountPerWei with
      | None =>
          Throw (Error "Undefined sellTokenAmountPerWei when gas fee config is not undefined")
      | Some perWei =>
          let numOnChainTransfer :=
            Z.of_nat (length (feeRecipients c perWei integratorFee zeroExFee)) in
          let estimatedGas :=
            plus quoteGasEstimate
              (times gasPerOnChainTransfer (of_number (n_Z numOnChainTransfer))) in
          Ok (Some
            {| gf_base :=
                 {| feeToken := sellToken;
                    feeAmount := integerValue ROUND_FLOOR
                      (times (times perWei gasPrice) estimatedGas);
                    feeRecipient := c_feeRecipient (gc_base c);
                    billingType := c_billingType (gc_base c) |};
               gf_feeTokenAmountPerWei := perWei;
               gf_gasPrice := gasPrice;
               gf_estimatedGas := estimatedGas |})
      end
  end.

Record FeeOpts : Type := {
  o_feeConfigs : option FeeConfigs;
  o_sellToken : string;
  o_sellTokenAmount : BN;
  o_sellTokenAmountPerWei : option BN;
  o_gasPrice : BN;
  o_quoteGasEstimate : BN;
  o_gasPerOnChainTransfer : BN;
}.

Definition calculateFees (opts : FeeOpts) : result (option Fees * OnChainFees) :=
  match o_feeConfigs opts with
  | None =>
      Ok (None, {| totalOnChainFeeAmount := ZERO; onChainTransfers := [];
                   onChainTransfersGas := ZERO |})
  | Some feeConfigs =>
      let integratorFee :=
        _calculateIntegratorFee (fc_integratorFee feeConfigs) (o_sellToken opts)
          (o_sellTokenAmount opts) in
      zeroExFee ← _calculateZeroExFee (fc_zeroExFee feeConfigs) (o_sellToken opts)
        (o_sellTokenAmount opts) integratorFee;
      gasFee ← _calculateGasFee (fc_gasFee feeConfigs) (o_sellToken opts)
        (o_sellTokenAmountPerWei opts) (o_gasPrice opts) (o_quoteGasEstimate opts)
        (o_gasPerOnChainTransfer opts) integratorFee zeroExFee;
      let fees := {| integratorFee := integratorFee; zeroExFee := zeroExFee; gasFee := gasFee |} in
      Ok (Some fees, _calculateTotalOnChainFees fees (o_gasPerOnChainTransfer opts))
  end.
End FeeCalculator.

Section Facts.
Context {B : BigNumberLib}.

(** ** What the transfers owe

    A charge is a recipient and a value; [paid r cs] is what [cs] charge to [r]. *)
Definition paid (r : string) (cs : list (string * Q)) : Q :=
  Qsum (bfilter (λ c, bool_decide (c.1 = r)) cs).*2.

Lemma paid_app r cs ds : (paid r (cs ++ ds) == paid r cs + paid r ds)%Q.
Proof. unfold paid. by rewrite bfilter_app, fmap_app, Qsum_app. Qed.

Lemma paid_one r q : (paid r [(r, q)] == q)%Q.
Proof.
  unfold paid. simpl. rewrite bool_decide_eq_true_2 by done.
  change (Qsum _) with (q + 0)%Q. lra.
Qed.

Lemma paid_none r cs : r ∉ cs.*1 → paid r cs = 0%Q.
Proof.
  intros H. unfold paid. rewrite bfilter_none; [done|]. apply Forall_forall. intros c Hc.
  apply bool_decide_eq_false. intros <-. apply H. by apply (list_elem_of_fmap_2 fst).
Qed.

(** The transfers of a map pay exactly the charges. *)
Record settles (m : list (string * OnChainTransfer)) (cs : list (string * Q)) : Prop := {
  st_distinct : NoDup m.*1;
  st_recipients : ∀ r, r ∈ m.*1 ↔ r ∈ cs.*1;
  st_amounts : Forall (λ e, tr_feeRecipient e.2 = e.1 ∧ fin (tr_feeAmount e.2) (paid e.1 cs)) m;
  st_total : assoc_sum tr_feeAmount m (Qsum cs.*2);
}.

Lemma settles_nil : settles [] [].
Proof. split; [constructor | done | constructor | apply assoc_sum_nil]. Qed.

Lemma addTransfer_settles m cs r token a q :
  settles m cs → fin a q → settles (addTransfer m r token a) (cs ++ [(r, q)]).
Proof.
  intros [Hd Hr Ha Ht] Hq. unfold addTransfer. split.
  - by apply assoc_update_NoDup.
  - intros r'. rewrite assoc_update_elem, Hr, fmap_app. set_solver.
  - eapply assoc_update_Forall; [exact Ha | exact Hd | | |].
    + intros [r' t] _ Hne [E Hf]. split; [done|]. eapply fin_eq; [exact Hf|].
      rewrite paid_app, (paid_none _ [(r, q)]); [cbn [fst]; lra|]. set_solver.
    + intros Hnot. rewrite Hr in Hnot. split; [done|]. simpl.
      eapply fin_eq; [apply fin_plus; [apply (fin_Z 0) | exact Hq]|].
      rewrite paid_app, paid_one, (paid_none r cs) by done. change (inject_Z 0) with 0%Q. lra.
    + intros t _ [E Hf]. split; [done|]. cbn [fst snd] in *.
      eapply fin_eq; [apply fin_plus; [exact Hf | exact Hq]|].
      rewrite paid_app, paid_one. lra.
  - eapply assoc_sum_eq; [apply (assoc_update_sum tr_feeAmount m r _ (Qsum cs.*2) q); [exact Ht | |]|].
    + eapply fin_eq; [apply fin_plus; [apply (fin_Z 0) | exact Hq]|]. change (inject_Z 0) with 0%Q. lra.
    + intros t x Hx. by apply fin_plus.
    + rewrite fmap_app, Qsum_app. change (Qsum [(r, q)].*2) with (q + 0)%Q. lra.
Qed.

(** The charge of a fee worth [q], of which [adj] is paid out by another fee. *)
Definition charge (f : option FeeBase) (q : Q) : list (string * Q) :=
  match f ≫= chargedTo with Some r => [(r, q)] | None => [] end.

Lemma charge_one f r q : f ≫= chargedTo = Some r → charge f q = [(r, q)].
Proof. intros H. unfold charge. by rewrite H. Qed.

(** The values of the amounts of a [Fees] object. *)
Record fee_values (fees : Fees) (i z adj g : Q) : Prop := {
  fv_integrator : ∀ f, integratorFee fees = Some f → fin (feeAmount (vf_base f)) i;
  fv_zeroEx : ∀ f, zeroExFee fees = Some f → fin (feeAmount (zeroEx_base f)) z;
  fv_adjustment : fin (zeroExFeeAdjustment fees) adj;
  fv_gas : ∀ f, gasFee fees = Some f → fin (feeAmount (gf_base f)) g;
}.

Definition charges (fees : Fees) (i z adj g : Q) : list (string * Q) :=
  charge (vf_base <$> integratorFee fees) (i - adj) ++
  charge (zeroEx_base <$> zeroExFee fees) z ++ charge (gf_base <$> gasFee fees) g.

Lemma transfer_fee_settles m cs f q :
  settles m cs → (∀ b, f = Some b → fin (feeAmount b) q) →
  settles (transfer_fee f m) (cs ++ charge f q).
Proof.
  intros Hs Hq. unfold transfer_fee, charge. destruct f as [b|]; simpl; [|by rewrite app_nil_r].
  destruct (chargedTo b); [|by rewrite app_nil_r]. by apply addTransfer_settles; [|apply Hq].
Qed.

Lemma transferMap_settles fees i z adj g :
  fee_values fees i z adj g → settles (transferMap fees) (charges fees i z adj g).
Proof.
  intros [Hi Hz Ha Hg]. unfold transferMap, charges. rewrite app_assoc.
  apply transfer_fee_settles; [|intros b Hb; apply fmap_Some in Hb as (f & Hf & ->); by apply Hg].
  apply transfer_fee_settles; [|intros b Hb; apply fmap_Some in Hb as (f & Hf & ->); by apply Hz].
  unfold transfer_integrator, charge. destruct (integratorFee fees) as [f|] eqn:E; simpl;
    [|apply settles_nil].
  destruct (chargedTo (vf_base f)) as [r|]; [|apply settles_nil].
  apply (addTransfer_settles [] []); [apply settles_nil|]. apply fin_minus; auto.
Qed.

Lemma fold_total m x z :
  assoc_sum tr_feeAmount m x → ∀ acc, fin acc z →
  fin (fold_left (λ total t, plus total (tr_feeAmount t)) (m : list (string * OnChainTransfer)).*2 acc) (z + x).
Proof.
  intros (qs & Hqs & Hx). revert x z Hx. induction Hqs as [|[k t] q m qs Hq _ IH]; intros x z Hx acc Hacc.
  - eapply fin_eq; [exact Hacc|]. change (Qsum []) with 0%Q in Hx. lra.
  - rewrite Qsum_cons in Hx. simpl. eapply fin_eq.
    + eapply (IH (Qsum qs)); [reflexivity|]. apply fin_plus; [exact Hacc | exact Hq].
    + lra.
Qed.

Lemma length_as_number {A} (l : list A) :
  (length l <= 3)%nat → fin (of_number (n_Z (Z.of_nat (length l)))) (inject_Z (Z.of_nat (length l))).
Proof. intros H. apply val_of_number_Z; [lia | apply n_Z_fin; lia]. Qed.

Lemma charges_length fees i z adj g : (length (charges fees i z adj g) <= 3)%nat.
Proof.
  unfold charges, charge. rewrite !length_app.
  repeat match goal with |- context [match ?x with _ => _ end] => destruct x end; simpl; lia.
Qed.

Lemma settles_length m cs : settles m cs → (length m <= length cs)%nat.
Proof.
  intros [Hd Hr _ _]. rewrite <- (length_fmap fst m), <- (length_fmap fst cs).
  apply NoDup_incl_length; [by apply NoDup_ListNoDup|]. intros r Hin%list_elem_of_In.
  apply list_elem_of_In. by apply Hr.
Qed.

(** C33. The on-chain transfers settle the fees exactly: one transfer per recipient
    with a positive on-chain fee, worth the sum of the fees charged to it (the
    integrator's less the share it passes on), and their total is the total of
    the charges; the reserved gas is that of the transfers made. *)
Theorem transfers_settle_fees fees per i z adj g p :
  fee_values fees i z adj g → fin per p →
  let fs := _calculateTotalOnChainFees fees per in
  let cs := charges fees i z adj g in
  NoDup (tr_feeRecipient <$> onChainTransfers fs) ∧
  (∀ r, r ∈ tr_feeRecipient <$> onChainTransfers fs ↔ r ∈ cs.*1) ∧
  Forall (λ t, fin (tr_feeAmount t) (paid (tr_feeRecipient t) cs)) (onChainTransfers fs) ∧
  fin (totalOnChainFeeAmount fs) (Qsum cs.*2) ∧
  fin (onChainTransfersGas fs) (p * inject_Z (Z.of_nat (length (onChainTransfers fs)))).
Proof.
  intros Hv Hp fs cs. pose proof (transferMap_settles _ _ _ _ _ Hv) as Hs.
  assert (tr_feeRecipient <$> onChainTransfers fs = (transferMap fees).*1) as ->.
  { destruct Hs as [_ _ Ha _]. unfold fs. simpl. induction Ha as [|[k t] m [E _] _ IH]; [done|].
    rewrite !fmap_cons, IH. by f_equal. }
  pose proof (settles_length _ _ Hs) as Hl. pose proof (charges_length fees i z adj g) as Hl3.
  destruct Hs as [Hd Hr Ha Ht]. split_and!; [done | done | | |].
  - unfold fs. simpl. apply Forall_fmap. eapply Forall_impl; [exact Ha|].
    intros [k t] [E Hf]. simpl in *. by rewrite E.
  - eapply fin_eq; [exact (fold_total _ _ 0 Ht _ (fin_Z 0))|]. apply Qplus_0_l.
  - unfold fs. simpl. rewrite length_fmap. apply fin_times; [exact Hp|].
    apply length_as_number. unfold cs in *. lia.
Qed.

(** ** Whole computations *)

Lemma calculateFees_inv opts fees oc :
  calculateFees opts = Ok (Some fees, oc) →
  ∃ cfg, o_feeConfigs opts = Some cfg ∧
    integratorFee fees = _calculateIntegratorFee (fc_integratorFee cfg) (o_sellToken opts)
                           (o_sellTokenAmount opts) ∧
    _calculateZeroExFee (fc_zeroExFee cfg) (o_sellToken opts) (o_sellTokenAmount opts)
      (integratorFee fees) = Ok (zeroExFee fees) ∧
    _calculateGasFee (fc_gasFee cfg) (o_sellToken opts) (o_sellTokenAmountPerWei opts)
      (o_gasPrice opts) (o_quoteGasEstimate opts) (o_gasPerOnChainTransfer opts)
      (integratorFee fees) (zeroExFee fees) = Ok (gasFee fees) ∧
    oc = _calculateTotalOnChainFees fees (o_gasPerOnChainTransfer opts).
Proof.
  unfold calculateFees. destruct (o_feeConfigs opts) as [cfg|]; [|done]. intros H.
  ok_inv H. injection H as <- <-. exists cfg. cbn [integratorFee zeroExFee gasFee]. auto.
Qed.

(** Fees are computed unless an input they need is missing: the 0x share of an
    integrator fee that is not configured, or the rate a gas fee is converted
    at. *)
Theorem fees_fail_only_on_missing_inputs opts :
  is_ok (calculateFees opts) = false ↔
  ∃ cfg, o_feeConfigs opts = Some cfg ∧
    ((∃ c, fc_zeroExFee cfg = Some (ZShareConfig c) ∧ fc_integratorFee cfg = None) ∨
     (is_Some (fc_gasFee cfg) ∧ o_sellTokenAmountPerWei opts = None)).
Proof.
  unfold calculateFees. destruct (o_feeConfigs opts) as [cfg|]; [|naive_solver].
  unfold _calculateZeroExFee, _calculateGasFee, _calculateIntegratorFee.
  destruct (fc_zeroExFee cfg) as [[c|c]|] eqn:?, (fc_integratorFee cfg) as [ci|] eqn:?,
    (fc_gasFee cfg) as [cg|] eqn:?, (o_sellTokenAmountPerWei opts) as [w|] eqn:?; simpl;
    (split; [intros H; first [discriminate H | exists cfg; split; [done|]; eauto]
            | intros (cfg' & [= <-] & [(c' & Hc & Hi)|[[x Hx] Hw]]); congruence]).
Qed.

Lemma chargedRecipient_pos b r a q x :
  fin a q → chargedRecipient b r a = Some x → (0 < q)%Q.
Proof.
  intros Ha. unfold chargedRecipient. destruct (onChainRecipient b r); [|done].
  unfold gt. destruct (lt ZERO a) eqn:E; [|done]. intros _.
  by apply (lt_fin _ _ _ _ (fin_Z 0) Ha) in E.
Qed.

Lemma chargedRecipient_amount b r a a' q' x :
  chargedRecipient b r a = Some x → fin a' q' → (0 < q')%Q → chargedRecipient b r a' = Some x.
Proof.
  unfold chargedRecipient. intros H Ha' Hq'. destruct (onChainRecipient b r); [|done].
  unfold gt, ZERO in *. destruct (lt (of_Z 0) a); [|done].
  by rewrite (proj2 (lt_fin _ _ _ _ (fin_Z 0) Ha') Hq').
Qed.

Lemma settles_subset m cs (l : list string) :
  settles m cs → (∀ r, r ∈ cs.*1 → r ∈ l) → (length m <= length l)%nat.
Proof.
  intros [Hd Hr _ _] Hsub. rewrite <- (length_fmap fst m).
  apply NoDup_incl_length; [by apply NoDup_ListNoDup|]. intros r Hin%list_elem_of_In.
  apply list_elem_of_In, Hsub. by apply Hr.
Qed.

Lemma elem_of_charge f q r : r ∈ (charge f q).*1 ↔ f ≫= chargedTo = Some r.
Proof. unfold charge. destruct (f ≫= chargedTo); simpl; set_solver. Qed.

Lemma elem_of_option_list {A} (o : option A) x : x ∈ option_list o ↔ o = Some x.
Proof. destruct o; simpl; set_solver. Qed.

(** The gas a gas fee is charged for covers the quote and every on-chain
    transfer that is made, its own included. *)
Theorem gas_fee_covers_transfers opts fees oc gf i z adj g w price quote per e :
  calculateFees opts = Ok (Some fees, oc) → gasFee fees = Some gf →
  fee_values fees i z adj g →
  fin (gf_feeTokenAmountPerWei gf) w → (0 <= w)%Q →
  fin (o_gasPrice opts) price → fin (o_quoteGasEstimate opts) quote →
  fin (o_gasPerOnChainTransfer opts) per → (0 <= per)%Q →
  fin (gf_estimatedGas gf) e →
  (quote + per * inject_Z (Z.of_nat (length (onChainTransfers oc))) <= e)%Q ∧
  (e <= quote + per * 3)%Q.
Proof.
  intros H Hgf Hv Hw Hw0 Hprice Hquote Hper Hper0 He.
  apply calculateFees_inv in H as (cfg & _ & Hi & Hz & Hg & ->).
  pose proof (transferMap_settles _ _ _ _ _ Hv) as Hs.
  unfold _calculateGasFee in Hg. destruct (fc_gasFee cfg) as [c|]; [|congruence].
  destruct (o_sellTokenAmountPerWei opts) as [pw|]; [|discriminate Hg].
  rewrite Hgf in Hg. injection Hg as <-. simpl in *.
  set (l := feeRecipients c pw (integratorFee fees) (zeroExFee fees)) in *.
  assert (length (transferMap fees) <= length l)%nat as Hle.
  { eapply settles_subset; [exact Hs|]. intros r. unfold charges.
    rewrite !fmap_app, !elem_of_app, !elem_of_charge, Hgf. unfold l, feeRecipients.
    rewrite elem_of_uniq, !elem_of_app, !elem_of_option_list. simpl.
    intros [Hc|[Hc|Hc]]; [left | right; left | right; right].
    - by destruct (integratorFee fees).
    - by destruct (zeroExFee fees).
    - unfold chargedTo in Hc. simpl in Hc.
      eapply chargedRecipient_amount; [exact Hc | exact Hw|].
      destruct (Qlt_le_dec 0 w) as [|Hle]; [done|]. exfalso.
      assert (w == 0)%Q as E0 by lra.
      eapply chargedRecipient_pos in Hc; [|by apply fin_integerValue, fin_times; [apply fin_times|]].
      rewrite E0, !Qmult_0_l in Hc. by apply Qlt_irrefl in Hc. }
  assert (length l <= 3)%nat as H3.
  { unfold l, feeRecipients. etrans; [apply uniq_length|]. rewrite !length_app.
    destruct (_ ≫= _), (_ ≫= _), (chargedRecipient _ _ _); simpl; lia. }
  pose proof (fin_plus _ _ _ _ Hquote (fin_times _ _ _ _ Hper (length_as_number l H3))) as Hl.
  rewrite (fin_inj _ _ _ He Hl), length_fmap. 
  assert (inject_Z (Z.of_nat (length (transferMap fees))) <= inject_Z (Z.of_nat (length l)))%Q
    by (rewrite <- Zle_Qle; lia).
  assert (inject_Z (Z.of_nat (length l)) <= 3)%Q by (change 3%Q with (inject_Z 3); rewrite <- Zle_Qle; lia).
  split; nra.
Qed.

Lemma chargedTo_Z b z r :
  fin (feeAmount b) (inject_Z z) → onChainRecipient (billingType b) (feeRecipient b) = Some r →
  chargedTo b = if (0 <? z)%Z then Some r else None.
Proof.
  intros Hf Hr. unfold chargedTo, chargedRecipient. rewrite Hr. unfold gt, ZERO.
  destruct (Z.ltb_spec 0 z) as [Hz|Hz].
  - by rewrite (proj2 (lt_fin _ _ _ _ (fin_Z 0) Hf)) by (by rewrite <- Zlt_Qlt).
  - by rewrite (proj2 (lt_fin_false _ _ _ _ (fin_Z 0) Hf)) by (by rewrite <- Zle_Qle).
Qed.

Lemma floor_between (x : Q) (a : Z) : (0 <= x <= inject_Z a)%Q → (0 <= round_int ROUND_FLOOR x <= a)%Z.
Proof.
  intros [H0 Ha]. split.
  - rewrite <- (round_int_Z ROUND_FLOOR 0). by apply round_int_mono.
  - rewrite <- (round_int_Z ROUND_FLOOR a). by apply round_int_mono.
Qed.

(** What a fee [I] with a share [S] of it charges: the rest of the fee to the
    integrator, and the share. *)
Definition share_charges (ri rs : string) (I S : Z) : list (string * Q) :=
  (if (0 <? I)%Z then [(ri, inject_Z I - inject_Z S)%Q] else []) ++
  (if (0 <? S)%Z then [(rs, inject_Z S)] else []).

Lemma share_charges_sum ri rs I S :
  (0 <= S <= I)%Z → (Qsum (share_charges ri rs I S).*2 == inject_Z I)%Q.
Proof.
  intros HS. unfold share_charges.
  destruct (Z.ltb_spec 0 I), (Z.ltb_spec 0 S); simpl; rewrite ?Qsum_cons; try lia;
    change (Qsum []) with 0%Q.
  - lra.
  - replace S with 0%Z by lia. change (inject_Z 0) with 0%Q. lra.
  - replace I with 0%Z by lia. reflexivity.
Qed.

Lemma share_charges_paid ri rs I S k :
  (0 <= S <= I)%Z →
  (paid k (share_charges ri rs I S) ==
   (if bool_decide (ri = k) then inject_Z I - inject_Z S else 0) +
   (if bool_decide (rs = k) then inject_Z S else 0))%Q.
Proof.
  intros HS. unfold share_charges. rewrite paid_app. unfold paid.
  destruct (Z.ltb_spec 0 I), (Z.ltb_spec 0 S); simpl; try lia; repeat case_bool_decide; simpl;
    rewrite ?Qsum_cons; change (Qsum []) with 0%Q;
    try (replace S with 0%Z by lia); try (replace I with 0%Z by lia); change (inject_Z 0) with 0%Q; lra.
Qed.

(** The 0x share comes out of the integrator fee: what the seller pays on chain
    is the integrator fee alone, whatever the share, split between the
    integrator and 0x (in whole base units, neither part negative). *)
Theorem integrator_share_conserved opts fees oc cfg ci cs ri rs A p s :
  calculateFees opts = Ok (Some fees, oc) → o_feeConfigs opts = Some cfg →
  fc_integratorFee cfg = Some ci → fc_zeroExFee cfg = Some (ZShareConfig cs) →
  fc_gasFee cfg = None →
  onChainRecipient (c_billingType (vc_base ci)) (c_feeRecipient (vc_base ci)) = Some ri →
  onChainRecipient (c_billingType (sc_base cs)) (c_feeRecipient (sc_base cs)) = Some rs →
  fin (o_sellTokenAmount opts) (inject_Z A) → (0 <= A)%Z →
  fin (vc_volumePercentage ci) p → (0 <= p <= 1)%Q →
  fin (sc_integratorSharePercentage cs) s → (0 <= s <= 1)%Q →
  let I := round_int ROUND_FLOOR (inject_Z A * p) in
  let S := round_int ROUND_FLOOR (inject_Z I * s) in
  (0 <= S <= I)%Z ∧ (I <= A)%Z ∧ fin (totalOnChainFeeAmount oc) (inject_Z I) ∧
  Forall (λ t, fin (tr_feeAmount t)
    ((if bool_decide (ri = tr_feeRecipient t) then inject_Z I - inject_Z S else 0) +
     (if bool_decide (rs = tr_feeRecipient t) then inject_Z S else 0))) (onChainTransfers oc).
Proof.
  intros H Hcfg Hci Hcs Hcg Hri Hrs HA HA0 Hp Hp1 Hs Hs1 I S.
  assert (0 <= inject_Z A)%Q by (change 0%Q with (inject_Z 0); by rewrite <- Zle_Qle).
  assert (0 <= I <= A)%Z as HI by (apply floor_between; nra).
  assert (0 <= inject_Z I)%Q by (change 0%Q with (inject_Z 0); rewrite <- Zle_Qle; lia).
  assert (0 <= S <= I)%Z as HS by (apply floor_between; nra).
  assert (0 <= inject_Z S)%Q by (change 0%Q with (inject_Z 0); rewrite <- Zle_Qle; lia).
  apply calculateFees_inv in H as (cfg' & Hcfg' & Hi & Hz & Hg & ->).
  rewrite Hcfg in Hcfg'. injection Hcfg' as <-. rewrite Hci in Hi. rewrite Hcg in Hg.
  injection Hg as Hg. rewrite Hcs, Hi in Hz. cbn [_calculateIntegratorFee _calculateZeroExFee] in Hi, Hz.
  injection Hz as Hz.
  assert (fin (integerValue ROUND_FLOOR (times (o_sellTokenAmount opts) (vc_volumePercentage ci)))
            (inject_Z I)) as HfI by (by apply fin_integerValue, fin_times).
  assert (fin (integerValue ROUND_FLOOR (times (integerValue ROUND_FLOOR
            (times (o_sellTokenAmount opts) (vc_volumePercentage ci))) (sc_integratorSharePercentage cs)))
            (inject_Z S)) as HfS by (by apply fin_integerValue, fin_times).
  assert (fee_values fees (inject_Z I) (inject_Z S) (inject_Z S) 0) as Hv.
  { split; unfold zeroExFeeAdjustment; rewrite ?Hi, <- ?Hz, <- ?Hg; try done; simpl.
    - by intros f [= <-].
    - by intros f [= <-].
    - by rewrite Hrs. }
  pose proof (transferMap_settles _ _ _ _ _ Hv) as Hset.
  assert (charges fees (inject_Z I) (inject_Z S) (inject_Z S) 0 =
    share_charges ri rs I S) as Ec.
  { unfold share_charges, charges, charge. rewrite Hi, <- Hz, <- Hg.
    change ((vf_base <$> Some ?f) ≫= chargedTo) with (chargedTo (vf_base f)).
    change ((zeroEx_base <$> Some ?f) ≫= chargedTo) with (chargedTo (zeroEx_base f)).
    erewrite (chargedTo_Z _ I), (chargedTo_Z _ S) by done.
    change ((gf_base <$> None) ≫= chargedTo) with (@None string).
    rewrite app_nil_r. by destruct (0 <? I)%Z, (0 <? S)%Z. }
  rewrite Ec in Hset. destruct Hset as [_ _ Ha Ht]. split; [exact HS|]. split; [lia|].
  split.
  - eapply fin_eq; [exact (fold_total _ _ 0 Ht _ (fin_Z 0))|].
    rewrite (share_charges_sum _ _ _ _ HS). apply Qplus_0_l.
  - simpl. apply Forall_fmap. eapply Forall_impl; [exact Ha|]. intros [k t] [E Hf]. simpl in *. subst k.
    eapply fin_eq; [exact Hf | by apply share_charges_paid].
Qed.
(** ** Fees of configurations with proper shares *)

(** Percentages are not negative, nor is a share of a fee more than the fee;
    amounts, gas and prices are finite and not negative. *)
Definition nonneg (a : BN) : Prop := ∃ q, fin a q ∧ (0 <= q)%Q.
Definition proper_zeroEx (c : ZeroExFeeConfig) : Prop :=
  match c with
  | ZVolumeConfig c => nonneg (vc_volumePercentage c)
  | ZShareConfig c => ∃ s, fin (sc_integratorSharePercentage c) s ∧ (0 <= s <= 1)%Q
  end.
Record proper_configs (cfg : FeeConfigs) : Prop := {
  pc_integrator : ∀ c, fc_integratorFee cfg = Some c → nonneg (vc_volumePercentage c);
  pc_zeroEx : ∀ c, fc_zeroExFee cfg = Some c → proper_zeroEx c;
}.
Record proper_opts (opts : FeeOpts) : Prop := {
  po_configs : ∀ cfg, o_feeConfigs opts = Some cfg → proper_configs cfg;
  po_amount : nonneg (o_sellTokenAmount opts);
  po_perWei : ∀ w, o_sellTokenAmountPerWei opts = Some w → nonneg w;
  po_gasPrice : nonneg (o_gasPrice opts);
  po_quoteGas : nonneg (o_quoteGasEstimate opts);
  po_transferGas : nonneg (o_gasPerOnChainTransfer opts);
}.

Lemma nonneg_Z z : (0 <= z)%Z → nonneg (of_Z z).
Proof. intros H. exists (inject_Z z). split; [apply fin_Z|]. change 0%Q with (inject_Z 0). by rewrite <- Zle_Qle. Qed.
Lemma nonneg_plus a b : nonneg a → nonneg b → nonneg (plus a b).
Proof. intros (x & Hx & ?) (y & Hy & ?). exists (x + y)%Q. split; [by apply fin_plus | lra]. Qed.
Lemma nonneg_times a b : nonneg a → nonneg b → nonneg (times a b).
Proof. intros (x & Hx & ?) (y & Hy & ?). exists (x * y)%Q. split; [by apply fin_times | nra]. Qed.
Lemma nonneg_floor a : nonneg a → nonneg (integerValue ROUND_FLOOR a).
Proof.
  intros (x & Hx & H). eexists. split; [by apply fin_integerValue|]. by apply round_int_nonneg.
Qed.
#[local] Hint Resolve nonneg_plus nonneg_times nonneg_floor : fees.

(** What the fees of proper options are worth: nothing negative, and no more
    passed on than the integrator fee. *)
Definition nonneg_fees (fees : Fees) : Prop :=
  ∃ i z adj g, fee_values fees i z adj g ∧ (0 <= z)%Q ∧ (0 <= g)%Q ∧ (adj <= i)%Q.

Lemma integrator_nonneg c token amount :
  (∀ c', c = Some c' → nonneg (vc_volumePercentage c')) → nonneg amount →
  ∃ i, (∀ f, _calculateIntegratorFee c token amount = Some f → fin (feeAmount (vf_base f)) i) ∧ (0 <= i)%Q.
Proof.
  intros Hc Ha. destruct c as [c|]; [|exists 0%Q; split; [done | lra]].
  destruct (nonneg_floor _ (nonneg_times _ _ Ha (Hc c eq_refl))) as (i & Hi & H0).
  exists i. split; [by intros f [= <-] | done].
Qed.

(** The amount of the 0x fee, and of the share of the integrator fee. *)
Lemma zeroEx_nonneg c token amount integrator z i :
  (∀ c', c = Some c' → proper_zeroEx c') → nonneg amount →
  (∀ f, integrator = Some f → fin (feeAmount (vf_base f)) i) → (0 <= i)%Q →
  _calculateZeroExFee c token amount integrator = Ok z →
  ∃ q, (∀ f, z = Some f → fin (feeAmount (zeroEx_base f)) q) ∧ (0 <= q)%Q ∧
    (∀ s, z = Some (ZShare s) → (q <= i)%Q ∧ is_Some integrator).
Proof.
  intros Hc Ha Hi Hi0 H. destruct c as [[c|c]|]; simpl in H.
  - injection H as <-. destruct (nonneg_floor _ (nonneg_times _ _ Ha (Hc _ eq_refl))) as (q & Hq & H0).
    exists q. split_and!; [by intros f [= <-] | done | by intros s [=]].
  - destruct integrator as [f|]; [|done]. injection H as <-. destruct (Hc _ eq_refl) as (s & Hs & Hs1).
    pose proof (fin_integerValue ROUND_FLOOR _ _ (fin_times _ _ _ _ (Hi f eq_refl) Hs)) as Hq.
    eexists. split_and!; [intros f' [= <-]; exact Hq | apply round_int_nonneg; nra |].
    intros s' _. split; [|done]. pose proof (round_floor_bounds (i * s)) as [? _]. nra.
  - injection H as <-. exists 0%Q. split_and!; [done | lra | done].
Qed.

Lemma gas_nonneg c opts integrator z g :
  (∀ w, o_sellTokenAmountPerWei opts = Some w → nonneg w) →
  nonneg (o_gasPrice opts) → nonneg (o_quoteGasEstimate opts) → nonneg (o_gasPerOnChainTransfer opts) →
  _calculateGasFee c (o_sellToken opts) (o_sellTokenAmountPerWei opts) (o_gasPrice opts) (o_quoteGasEstimate opts)
    (o_gasPerOnChainTransfer opts) integrator z = Ok g →
  ∃ q, (∀ f, g = Some f → fin (feeAmount (gf_base f)) q) ∧ (0 <= q)%Q.
Proof.
  intros Hw Hp Hq Ht H. unfold _calculateGasFee in H. destruct c as [c|]; [|exists 0%Q; injection H as <-; split; [done | lra]].
  destruct (o_sellTokenAmountPerWei opts) as [w|]; [|done]. injection H as <-.
  set (l := feeRecipients c w integrator z).
  assert (nonneg (of_number (n_Z (Z.of_nat (length l))))) as Hn.
  { eexists. split; [apply length_as_number|]; [|change 0%Q with (inject_Z 0); rewrite <- Zle_Qle; lia].
    unfold l, feeRecipients. etrans; [apply uniq_length|]. rewrite !length_app.
    destruct (_ ≫= _), (_ ≫= _), (chargedRecipient _ _ _); simpl; lia. }
  assert (nonneg (integerValue ROUND_FLOOR (times (times w (o_gasPrice opts)) (plus (o_quoteGasEstimate opts)
    (times (o_gasPerOnChainTransfer opts) (of_number (n_Z (Z.of_nat (length l))))))))) as (q & Hv & H0)
    by auto 8 with fees.
  exists q. split; [by intros f [= <-] | done].
Qed.

Lemma computed_nonneg opts fees oc :
  proper_opts opts → calculateFees opts = Ok (Some fees, oc) → nonneg_fees fees.
Proof.
  intros [Hc Ha Hw Hp Hq Ht] H. apply calculateFees_inv in H as (cfg & Hcfg & Hi & Hz & Hg & ->).
  destruct (Hc cfg Hcfg) as [Hci Hcz].
  destruct (integrator_nonneg _ (o_sellToken opts) _ Hci Ha) as (i & Hfi & Hi0).
  rewrite <- Hi in Hfi.
  destruct (zeroEx_nonneg _ _ _ _ _ _ Hcz Ha Hfi Hi0 Hz) as (z & Hfz & Hz0 & Hshare).
  destruct (gas_nonneg _ _ _ _ _ Hw Hp Hq Ht Hg) as (g & Hfg & Hg0).
  unfold nonneg_fees, zeroExFeeAdjustment. destruct (zeroExFee fees) as [[v|s]|] eqn:E.
  2: { destruct (Hshare s eq_refl) as [Hle _]. specialize (Hfz _ eq_refl).
       destruct (onChainRecipient (billingType (sf_base s)) (feeRecipient (sf_base s))) eqn:Er.
       - exists i, z, z, g. split; [split; unfold zeroExFeeAdjustment; rewrite ?E, ?Er; try done; by intros f [= <-]|].
         split_and!; done.
       - exists i, z, 0%Q, g. split; [split; unfold zeroExFeeAdjustment; rewrite ?E, ?Er; try done; [by intros f [= <-] | apply (fin_Z 0)]|].
         split_and!; done. }
  all: exists i, z, 0%Q, g; split; [split; unfold zeroExFeeAdjustment; rewrite ?E; try done; apply (fin_Z 0)|];
    split_and!; done.
Qed.

(** The transfers are worth what is owed in total, and none is negative. *)
Lemma on_chain_total fees per :
  nonneg_fees fees →
  let oc := _calculateTotalOnChainFees fees per in
  ∃ qs, Forall2 (λ t q, fin (tr_feeAmount t) q) (onChainTransfers oc) qs ∧ Forall (λ q, 0 <= q)%Q qs ∧
    fin (totalOnChainFeeAmount oc) (Qsum qs).
Proof.
  intros (i & z & adj & g & Hv & Hz & Hg & Hadj) oc. pose proof (transferMap_settles _ _ _ _ _ Hv) as [_ _ Ha Ht].
  destruct Ht as (qs & Hqs & Hsum). exists qs. split_and!.
  - unfold oc. simpl. apply Forall2_fmap_l. eapply Forall2_impl; [exact Hqs|]. by intros [k t] q.
  - assert (∀ r, 0 <= paid r (charges fees i z adj g))%Q as Hpaid.
    { intros r. unfold paid. apply Qsum_nonneg. apply Forall_fmap, Forall_forall.
      intros [k q] [Hin _]%elem_of_bfilter. simpl. revert Hin. unfold charges, charge.
      rewrite !elem_of_app.
        repeat match goal with |- context [match ?x with _ => _ end] => destruct x end;
        rewrite ?list_elem_of_singleton, ?elem_of_nil; intros [H|[H|H]]; try done; injection H as -> ->; lra. }
    clear -Hqs Ha Hpaid. induction Hqs as [|[k t] q m qs Hq _ IH]; [constructor|].
    apply Forall_cons in Ha as [[_ Hf] Ha]. constructor; [|by apply IH].
    simpl in *. rewrite (fin_inj _ _ _ Hq Hf). apply Hpaid.
  - eapply fin_eq; [exact (fold_total _ _ 0 (ex_intro _ qs (conj Hqs Hsum)) _ (fin_Z 0))|].
    rewrite Hsum. apply Qplus_0_l.
Qed.
End Facts.

(** ** Concrete fees *)
Module FeeExamples.
Import Concrete.

Definition to (r : string) : FeeConfigBase := {| c_feeRecipient := Some r; c_billingType := OnChain |}.
Definition integrator : VolumeBasedFeeConfig :=
  {| vc_base := to "0x1"; vc_volumePercentage := div (of_Z 1) (of_Z 8) |}.
Definition share : IntegratorShareFeeConfig :=
  {| sc_base := to "0x2"; sc_integratorSharePercentage := div (of_Z 1) (of_Z 4) |}.
Definition configs (gas : option GasFeeConfig) : FeeConfigs :=
  {| fc_integratorFee := Some integrator; fc_zeroExFee := Some (ZShareConfig share);
     fc_gasFee := gas |}.
Definition opts (gas : option GasFeeConfig) : FeeOpts :=
  {| o_feeConfigs := Some (configs gas); o_sellToken := "0xA"; o_sellTokenAmount := of_Z 1000;
     o_sellTokenAmountPerWei := Some (of_Z 2); o_gasPrice := of_Z 5;
     o_quoteGasEstimate := of_Z 300; o_gasPerOnChainTransfer := of_Z 10 |}.
(** Integrator fee 125, of which the share is 31; gas fee 2 * 5 * (300 + 2 * 10). *)
Definition fees : Fees :=
  {| integratorFee := Some {| vf_base := {| feeToken := "0xA"; feeAmount := of_Z 125;
                                            feeRecipient := Some "0x1"%string; billingType := OnChain |};
                              vf_volumePercentage := of_Z 0 |};
     zeroExFee := Some (ZShare {| sf_base := {| feeToken := "0xA"; feeAmount := of_Z 31;
                                                feeRecipient := Some "0x2"%string; billingType := OnChain |};
                                  sf_integratorSharePercentage := of_Z 0 |});
     gasFee := None |}.

Lemma fees_values : fee_values fees 125 31 31 0.
Proof. split; try done; [intros f [= <-] | intros f [= <-] |]; exact (fin_Z _). Qed.
End FeeExamples.

Import Concrete FeeExamples.

Lemma transfers_settle_fees_witness :
  fin (totalOnChainFeeAmount (_calculateTotalOnChainFees fees (of_Z 10)))
    (Qsum (charges fees 125 31 31 0).*2).
Proof.
  pose proof (transfers_settle_fees fees (of_Z 10) 125 31 31 0 10 fees_values (fin_Z 10))
    as (_ & _ & _ & H & _). exact H.
Defined.

Lemma gas_fee_covers_transfers_witness :
  ∃ fs oc, calculateFees (opts (Some {| gc_base := to "0x2" |})) = Ok (Some fs, oc) ∧
    (300 + 10 * inject_Z (Z.of_nat (length (onChainTransfers oc))) <= 320)%Q.
Proof.
  assert (match calculateFees (opts (Some {| gc_base := to "0x2" |})) with
          | Ok (Some fs, _) =>
              match integratorFee fs, zeroExFee fs, gasFee fs with
              | Some i, Some z, Some g =>
                  isEqualTo (feeAmount (vf_base i)) (of_Z 125) &&
                  isEqualTo (feeAmount (zeroEx_base z)) (of_Z 31) &&
                  isEqualTo (zeroExFeeAdjustment fs) (of_Z 31) &&
                  isEqualTo (feeAmount (gf_base g)) (of_Z 3200) &&
                  isEqualTo (gf_feeTokenAmountPerWei g) (of_Z 2) &&
                  isEqualTo (gf_estimatedGas g) (of_Z 320)
              | _, _, _ => false end
          | _ => false end = true) as K by (vm_compute; reflexivity).
  destruct (calculateFees _) as [[[fs|] oc]|] eqn:E; try discriminate K.
  destruct (integratorFee fs) as [i|] eqn:Ei; [|discriminate K].
  destruct (zeroExFee fs) as [z|] eqn:Ez; [|discriminate K].
  destruct (gasFee fs) as [g|] eqn:Eg; [|discriminate K].
  rewrite !andb_true_iff in K. destruct K as [[[[[K1 K2] K3] K4] K5] K6].
  assert (fee_values fs 125 31 31 3200) as Hv.
  { split.
    - intros f Hf. rewrite Ei in Hf. injection Hf as <-. exact (isEqualTo_Z _ _ K1).
    - intros f Hf. rewrite Ez in Hf. injection Hf as <-. exact (isEqualTo_Z _ _ K2).
    - exact (isEqualTo_Z _ _ K3).
    - intros f Hf. rewrite Eg in Hf. injection Hf as <-. exact (isEqualTo_Z _ _ K4). }
  assert (0 <= 2)%Q as H2 by discriminate. assert (0 <= 10)%Q as H10 by discriminate.
  pose proof (gas_fee_covers_transfers _ fs oc g 125 31 31 3200 2 5 300 10 320 E Eg Hv
    (isEqualTo_Z _ _ K5) H2 (fin_Z 5) (fin_Z 300) (fin_Z 10) H10 (isEqualTo_Z _ _ K6)) as [H _].
  exists fs, oc. split; [reflexivity | exact H].
Defined.

Lemma integrator_share_conserved_witness :
  ∃ fs oc, calculateFees (opts None) = Ok (Some fs, oc) ∧ fin (totalOnChainFeeAmount oc) 125.
Proof.
  assert (match calculateFees (opts None) with Ok (Some _, _) => true | _ => false end = true) as K
    by (vm_compute; reflexivity).
  destruct (calculateFees (opts None)) as [[[fs|] oc]|] eqn:E; try discriminate K.
  assert (fin (vc_volumePercentage integrator) (1 # 8)) as Hp by fin_now.
  assert (fin (sc_integratorSharePercentage share) (1 # 4)) as Hs by fin_now.
  assert (0 <= 1 # 8 <= 1)%Q as Hp1 by (split; discriminate).
  assert (0 <= 1 # 4 <= 1)%Q as Hs1 by (split; discriminate).
  assert (0 <= 1000)%Z as HA by discriminate.
  pose proof (integrator_share_conserved (opts None) fs oc (configs None) integrator share "0x1" "0x2"
    1000 (1 # 8) (1 # 4) E eq_refl eq_refl eq_refl eq_refl eq_refl eq_refl (fin_Z 1000) HA Hp Hp1 Hs Hs1)
    as (_ & _ & H & _).
  exists fs, oc. split; [reflexivity | exact H].
Defined.
