(* ===== verification/PairUtils.v ===== *)
(** * Token pair keys ([utils/pair_utils.ts])

    Unordered pairs of tokens as strings. *)

From Stdlib Require Import Ascii.
From S2P Require Import Prelude JsLib.

(** ** The module *)

(** [[a, b].sort()]. *)
Definition sort2 (a b : string) : string * string :=
  if String.leb a b then (a, b) else (b, a).

Definition dash : ascii := "-".

Definition toKey (tokenA tokenB : string) : string :=
  let '(a, b) := sort2 (toLowerCase tokenA) (toLowerCase tokenB) in a +:+ "-" +:+ b.

Definition fromKey (k : string) : result (string * string) :=
  match split_on dash k with
  | [a; b] => Ok (a, b)
  | _ => Throw (Error "")
  end.

Definition toUniqueArray (pairKeys : list string) : result (list (string * string)) :=
  mapM fromKey (uniq pairKeys).

(** ** Facts *)

Lemma lower_ascii_dash c : Ascii.eqb (lower_ascii c) dash = Ascii.eqb c dash.
Proof. by destruct c as [[] [] [] [] [] [] [] []]. Qed.

Lemma has_dash_lower s : has_char dash (toLowerCase s) = has_char dash s.
Proof. induction s as [|c s IH]; [done|]. simpl. by rewrite lower_ascii_dash, IH. Qed.

Lemma dash_append s : "-" +:+ s = String dash s.
Proof. done. Qed.

Lemma leb_antisym_eq a b : String.leb a b = true → String.leb b a = true → a = b.
Proof. apply String.leb_antisym. Qed.

Lemma sort2_comm a b : sort2 a b = sort2 b a.
Proof.
  unfold sort2. destruct (String.leb a b) eqn:E1, (String.leb b a) eqn:E2; try done.
  - by rewrite (leb_antisym_eq _ _ E1 E2).
  - destruct (String.leb_total a b); congruence.
Qed.

Lemma sort2_cases a b : sort2 a b = (a, b) ∨ sort2 a b = (b, a).
Proof. unfold sort2. case_if; auto. Qed.

Lemma toKey_sym a b : toKey a b = toKey b a.
Proof. unfold toKey. by rewrite sort2_comm. Qed.

Lemma toKey_lower a b : toKey (toLowerCase a) b = toKey a b.
Proof. unfold toKey. by rewrite toLowerCase_idem. Qed.

Lemma fromKey_toKey a b :
  has_char dash a = false → has_char dash b = false →
  fromKey (toKey a b) = Ok (sort2 (toLowerCase a) (toLowerCase b)).
Proof.
  intros Ha Hb. unfold fromKey, toKey. rewrite <- has_dash_lower in Ha, Hb.
  destruct (sort2_cases (toLowerCase a) (toLowerCase b)) as [-> | ->];
    (rewrite dash_append, split_on_app by done; by rewrite split_on_free).
Qed.

Lemma pair_keys a b c d :
  has_char dash a = false → has_char dash b = false →
  has_char dash c = false → has_char dash d = false →
  toKey a b = toKey c d ↔
  (toLowerCase a = toLowerCase c ∧ toLowerCase b = toLowerCase d) ∨
  (toLowerCase a = toLowerCase d ∧ toLowerCase b = toLowerCase c).
Proof.
  intros Ha Hb Hc Hd. split.
  - intros E. assert (fromKey (toKey a b) = fromKey (toKey c d)) as E' by congruence.
    rewrite !fromKey_toKey in E' by done. injection E' as E'.
    destruct (sort2_cases (toLowerCase a) (toLowerCase b)) as [H1|H1],
      (sort2_cases (toLowerCase c) (toLowerCase d)) as [H2|H2];
      rewrite H1, H2 in E'; injection E' as ? ?; auto.
  - intros [[E1 E2]|[E1 E2]]; [|rewrite (toKey_sym c d)]; unfold toKey; by rewrite E1, E2.
Qed.

(** Keys are the unordered, case-insensitive pairs: two pairs of tokens share a
    key exactly when they are the same pair up to order and letter case, and a
    key reads back as its pair. *)
Theorem pair_keys_roundtrip a b c d :
  has_char dash a = false → has_char dash b = false →
  has_char dash c = false → has_char dash d = false →
  (∃ p, fromKey (toKey a b) = Ok p ∧
        (p = (toLowerCase a, toLowerCase b) ∨ p = (toLowerCase b, toLowerCase a)) ∧
        toKey p.1 p.2 = toKey a b) ∧
  (toKey a b = toKey c d ↔
   (toLowerCase a = toLowerCase c ∧ toLowerCase b = toLowerCase d) ∨
   (toLowerCase a = toLowerCase d ∧ toLowerCase b = toLowerCase c)).
Proof.
  intros Ha Hb Hc Hd. split.
  - exists (sort2 (toLowerCase a) (toLowerCase b)). split; [by apply fromKey_toKey|].
    destruct (sort2_cases (toLowerCase a) (toLowerCase b)) as [-> | ->]; simpl.
    + split; [by left|]. unfold toKey. by rewrite !toLowerCase_idem.
    + split; [by right|]. rewrite toKey_sym. unfold toKey. by rewrite !toLowerCase_idem.
  - by apply pair_keys.
Qed.

Lemma pair_keys_roundtrip_witness :
  ∃ p, fromKey (toKey "0xBb" "0xaA") = Ok p ∧ toKey p.1 p.2 = toKey "0xaa" "0xbb".
Proof.
  destruct (pair_keys_roundtrip "0xBb" "0xaA" "0xaa" "0xbb" eq_refl eq_refl eq_refl eq_refl)
    as [(p & H1 & _ & H2) H3].
  exists p. split; [exact H1|]. rewrite H2. apply H3. right. split; reflexivity.
Defined.
