(* ===== verification/TokenGraph.v ===== *)
(** * Token adjacency graph ([asset-swapper/utils/token_adjacency_graph.ts])

    Which tokens a two-hop route may go through.  [build] hands the map of the
    builder itself to the graph, so a graph is the state of its builder: what is
    added after [build] is seen by the graph too. *)

From S2P Require Import Prelude JsLib PairUtils.

(** The private fields of [TokenAdjacencyGraph] and of its builder. *)
Record TokenAdjacencyGraph : Type := {
  _graph : gmap string (list string);
  _defaultTokens : list string;
}.

Definition newBuilder (defaultTokens : list string) : TokenAdjacencyGraph :=
  {| _graph := ∅; _defaultTokens := toLowerCase <$> defaultTokens |}.

Definition add (this : TokenAdjacencyGraph) (fromToken toToken : string)
    : result TokenAdjacencyGraph :=
  let fromLower := toLowerCase fromToken in
  let toLower := toLowerCase toToken in
  if String.eqb fromLower toLower
  then Throw (Error "from token must be different from to token")
  else
    let toTokens := default (_defaultTokens this) (_graph this !! fromLower) in
    Ok {| _graph := <[fromLower := if includes toTokens toLower then toTokens
                                   else toTokens ++ [toLower]]> (_graph this);
          _defaultTokens := _defaultTokens this |}.

Definition addBidirectional (this : TokenAdjacencyGraph) (tokenA tokenB : string)
    : result TokenAdjacencyGraph :=
  g ← add this tokenA tokenB; add g tokenB tokenA.

(** The inner loop of [addCompleteSubgraph]: [tokens[i]] with the later ones. *)
Fixpoint addEdges (this : TokenAdjacencyGraph) (token : string) (others : list string)
    : result TokenAdjacencyGraph :=
  match others with
  | [] => Ok this
  | other :: others' => g ← addBidirectional this token other; addEdges g token others'
  end.

Fixpoint addCompleteSubgraph (this : TokenAdjacencyGraph) (tokens : list string)
    : result TokenAdjacencyGraph :=
  match tokens with
  | [] => Ok this
  | token :: tokens' => g ← addEdges this token tokens'; addCompleteSubgraph g tokens'
  end.

Definition build (this : TokenAdjacencyGraph) : TokenAdjacencyGraph := this.
Definition getEmptyGraph : TokenAdjacencyGraph := build (newBuilder []).

Definition getAdjacentTokens (this : TokenAdjacencyGraph) (fromToken : string) : list string :=
  default (_defaultTokens this) (_graph this !! toLowerCase fromToken).

(** lodash [_.union] keeps the first occurrence of every token. *)
Definition getIntermediateTokens (this : TokenAdjacencyGraph) (takerToken makerToken : string)
    : list string :=
  bfilter (λ token, negb (String.eqb token (toLowerCase takerToken)) &&
                    negb (String.eqb token (toLowerCase makerToken)))
    (uniq (getAdjacentTokens this takerToken ++ getAdjacentTokens this makerToken)).

(** ** What a builder does *)

(** One call of [add] that succeeds. *)
Lemma add_adjacent g a b g' :
  add g a b = Ok g' →
  toLowerCase a ≠ toLowerCase b ∧ _defaultTokens g' = _defaultTokens g ∧
  (∀ x y, y ∈ getAdjacentTokens g' x ↔
     y ∈ getAdjacentTokens g x ∨ (toLowerCase x = toLowerCase a ∧ y = toLowerCase b)).
Proof.
  unfold add. case String.eqb_spec; [done|]. intros Hne.
  intros [= <-]. split; [done|]. split; [done|]. intros x y. unfold getAdjacentTokens. simpl.
  destruct (decide (toLowerCase a = toLowerCase x)) as [E|N].
  - rewrite E, lookup_insert, decide_True by done. simpl.
    destruct (includes _ _) eqn:Ei.
    + apply includes_true in Ei. split; [by left|]. intros [?|(_ & ->)]; done.
    + rewrite elem_of_app, list_elem_of_singleton. split; [intros [?| ->]; auto | naive_solver].
  - rewrite lookup_insert_ne by done. split; [by left | intros [?|(? & _)]; congruence].
Qed.

(** [add] fails exactly on a token paired with itself. *)
Lemma add_ok g a b : toLowerCase a ≠ toLowerCase b → ∃ g', add g a b = Ok g'.
Proof. intros H. unfold add. destruct (String.eqb_spec (toLowerCase a) (toLowerCase b)); [done | by eexists]. Qed.

Lemma addBidirectional_adjacent g a b g' :
  addBidirectional g a b = Ok g' →
  toLowerCase a ≠ toLowerCase b ∧
  (∀ x y, y ∈ getAdjacentTokens g' x ↔
     y ∈ getAdjacentTokens g x ∨
     (toLowerCase x = toLowerCase a ∧ y = toLowerCase b) ∨
     (toLowerCase x = toLowerCase b ∧ y = toLowerCase a)).
Proof.
  unfold addBidirectional. intros H. ok_inv H.
  apply add_adjacent in E as (Hne & _ & H1), H as (_ & _ & H2).
  split; [done|]. intros x y. rewrite H2, H1. tauto.
Qed.

Lemma addEdges_adjacent g a l g' :
  addEdges g a l = Ok g' →
  Forall (λ b, toLowerCase a ≠ toLowerCase b) l ∧
  (∀ x y, y ∈ getAdjacentTokens g' x ↔
     y ∈ getAdjacentTokens g x ∨
     ∃ b, b ∈ l ∧ ((toLowerCase x = toLowerCase a ∧ y = toLowerCase b) ∨
                   (toLowerCase x = toLowerCase b ∧ y = toLowerCase a))).
Proof.
  revert g. induction l as [|b l IH]; intros g H; simpl in H.
  - injection H as <-. split; [constructor|]. intros x y. split; [by left|].
    intros [?|(? & Hin & _)]; [done | set_solver].
  - ok_inv H. apply addBidirectional_adjacent in E as [Hne H1]. apply IH in H as [Hf H2].
    split; [by constructor|]. intros x y. rewrite H2, H1. split.
    + intros [[?|?]|(b' & Hb' & ?)]; [by left | right; exists b; set_solver | right; exists b'; set_solver].
    + intros [?|(b' & [->|Hb']%elem_of_cons & ?)]; [auto | auto | right; by exists b'].
Qed.

Lemma addEdges_ok g a l :
  Forall (λ b, toLowerCase a ≠ toLowerCase b) l → ∃ g', addEdges g a l = Ok g'.
Proof.
  intros H. revert g. induction H as [|b l Hb _ IH]; intros g; simpl; [by eexists|].
  unfold addBidirectional. destruct (add_ok g a b Hb) as [g1 ->]. simpl.
  destruct (add_ok g1 b a ltac:(congruence)) as [g2 ->]. simpl. apply IH.
Qed.

Lemma addCompleteSubgraph_ok g l :
  NoDup (toLowerCase <$> l) ↔ is_ok (addCompleteSubgraph g l) = true.
Proof.
  revert g. induction l as [|a l IH]; intros g; [split; [done | constructor]|].
  cbn [addCompleteSubgraph]. rewrite fmap_cons, NoDup_cons.
  assert (toLowerCase a ∉ toLowerCase <$> l ↔ Forall (λ b, toLowerCase a ≠ toLowerCase b) l) as Ha.
  { rewrite Forall_forall. split.
    - intros H b Hb E. apply H. rewrite E. by apply list_elem_of_fmap_2.
    - intros H (b & E & Hb)%list_elem_of_fmap. by apply (H b). }
  rewrite Ha. split.
  - intros [Hf Hn]. destruct (addEdges_ok g a l Hf) as [g' ->]. simpl. by apply IH.
  - destruct (addEdges g a l) as [g'|] eqn:E; [|done]. simpl. intros H.
    split; [by apply addEdges_adjacent in E as [? _] | by apply (IH g')].
Qed.

(** A complete subgraph is added exactly when its tokens differ beyond letter
    case; it then connects every one of them to every other, in both
    directions, keeps what was adjacent, and adds nothing else. *)
Theorem complete_subgraph_adjacency g tokens g' :
  (NoDup (toLowerCase <$> tokens) ↔ is_ok (addCompleteSubgraph g tokens) = true) ∧
  (addCompleteSubgraph g tokens = Ok g' →
   ∀ x y, y ∈ getAdjacentTokens g' x ↔
     y ∈ getAdjacentTokens g x ∨
     (∃ a b, a ∈ tokens ∧ b ∈ tokens ∧ toLowerCase a ≠ toLowerCase b ∧
             toLowerCase x = toLowerCase a ∧ y = toLowerCase b)).
Proof.
  split; [apply addCompleteSubgraph_ok|]. revert g. induction tokens as [|t tokens IH]; intros g H x y.
  - injection H as <-. split; [by left|]. intros [?|(? & ? & Hin & _)]; [done | set_solver].
  - cbn [addCompleteSubgraph] in H. ok_inv H. apply addEdges_adjacent in E as [Hf H1].
    rewrite Forall_forall in Hf. rewrite (IH _ H), H1. split.
    + intros [[?|(b & Hb & [[-> ->]|[-> ->]])]|(a' & b & Ha & Hb & ?)]; [by left | | |].
      * right. exists t, b. specialize (Hf b Hb). set_solver.
      * right. exists b, t. specialize (Hf b Hb). set_solver.
      * right. exists a', b. set_solver.
    + intros [?|(a' & b & Ha & Hb & Hne & Hx & Hy)]; [auto|].
      apply elem_of_cons in Ha as [->|Ha], Hb as [->|Hb]; [done | | |].
      * left. right. exists b. auto.
      * left. right. exists a'. auto.
      * right. exists a', b. auto.
Qed.

(** The intermediate tokens of a pair are the tokens adjacent to either of its
    tokens, without repetition and without the two themselves, whatever the
    letter case of the pair. *)
Theorem intermediate_tokens_spec g taker maker :
  NoDup (getIntermediateTokens g taker maker) ∧
  (∀ t, t ∈ getIntermediateTokens g taker maker ↔
     (t ∈ getAdjacentTokens g taker ∨ t ∈ getAdjacentTokens g maker) ∧
     t ≠ toLowerCase taker ∧ t ≠ toLowerCase maker) ∧
  getIntermediateTokens g (toLowerCase taker) (toLowerCase maker) = getIntermediateTokens g taker maker.
Proof.
  split_and!.
  - eapply sublist_NoDup; [apply NoDup_uniq | apply bfilter_sublist].
  - intros t. unfold getIntermediateTokens.
    rewrite elem_of_bfilter, elem_of_uniq, elem_of_app, andb_true_iff, !negb_true_iff, !String.eqb_neq.
    tauto.
  - unfold getIntermediateTokens, getAdjacentTokens. by rewrite !toLowerCase_idem.
Qed.

Lemma complete_subgraph_adjacency_witness :
  ∃ g', addCompleteSubgraph (newBuilder ["0xD"%string]) ["0xA"; "0xB"; "0xC"]%string = Ok g' ∧
    "0xc"%string ∈ getAdjacentTokens g' "0xA".
Proof.
  destruct (addCompleteSubgraph (newBuilder ["0xD"%string]) ["0xA"; "0xB"; "0xC"]%string) as [g'|] eqn:E;
    [|vm_compute in E; discriminate E].
  exists g'. split; [reflexivity|].
  apply (proj2 (complete_subgraph_adjacency _ _ g') E). right. exists "0xA"%string, "0xC"%string.
  split_and!; [by left | by right; right; left | | reflexivity | reflexivity].
  vm_compute. discriminate.
Defined.
