(* ===== verification/Caches.v ===== *)
(** * Caches

    The caches of the program and the gas price estimation: pools per pair
    ([MOU/pools_cache/pools_cache.ts], [no_op_pools_cache.ts]), swap information per pair
    ([MOU/pools_cache/pair_swaps_cache.ts]), results of a function
    ([utils/result_cache.ts]), the oracle's gas price
    ([asset-swapper/utils/gas_price_utils.ts]), and the reserves of Aave and the
    tokens of Compound ([MOU/aave_reserves_cache.ts],
    [MOU/compound_ctoken_cache.ts]).  Times are milliseconds; what is
    fetched is the result of a request, which may throw. *)

From S2P Require Import Prelude JsLib PairUtils.

(** ** [AbstractPoolsCache] *)
Module PoolsCache.
Section PoolsCache.
Context {Pool : Type}.
Variable pool_id : Pool → string.

Record CacheValue : Type := { expiresAt : Z; pools : list Pool }.
Definition t : Type := gmap string CacheValue.

Definition _getKey (takerToken makerToken : string) : string := takerToken +:+ "-" +:+ makerToken.

Definition _isExpired (now : Z) (value : option CacheValue) : bool :=
  match value with None => true | Some v => (expiresAt v <=? now)%Z end.

Definition _getValue (cache : t) (takerToken makerToken : string) : option CacheValue :=
  cache !! _getKey takerToken makerToken.

Definition getPoolAddressesForPair (cache : t) (takerToken makerToken : string) : list string :=
  match _getValue cache takerToken makerToken with None => [] | Some v => pool_id <$> pools v end.

Definition isFresh (now : Z) (cache : t) (takerToken makerToken : string) : bool :=
  negb (_isExpired now (_getValue cache takerToken makerToken)).

Definition _cachePoolsForPair (cache : t) (takerToken makerToken : string) (pools : list Pool)
    (expiresAt : Z) : t :=
  <[_getKey takerToken makerToken := {| expiresAt := expiresAt; pools := pools |}]> cache.

(** The pools at [now]; a request made then is answered at [done]. *)
Definition _getAndSaveFreshPoolsForPairAsync (_cacheTimeMs now done : Z)
    (fetched : result (list Pool)) (cache : t) (takerToken makerToken : string)
    : result (list Pool) * t :=
  let value := cache !! _getKey takerToken makerToken in
  match value, _isExpired now value with
  | Some v, false => (Ok (pools v), cache)
  | _, _ =>
      match fetched with
      | Throw e => (Throw e, cache)
      | Ok pools =>
          (Ok pools, _cachePoolsForPair cache takerToken makerToken pools (done + _cacheTimeMs))
      end
  end.

(** [Promise.race] with a timeout: an answer that comes later still fills the
    cache. *)
Definition getFreshPoolsForPairAsync (_cacheTimeMs timeoutMs now done : Z)
    (fetched : result (list Pool)) (cache : t) (takerToken makerToken : string)
    : result (list Pool) * t :=
  let r := _getAndSaveFreshPoolsForPairAsync _cacheTimeMs now done fetched cache takerToken makerToken in
  if negb (isFresh now cache takerToken makerToken) && (now + timeoutMs <? done)%Z
  then (Ok [], r.2) else r.

Lemma if_snd {A C} (b : bool) (x y : A) (c : C) : (if b then (x, (y, c).2) else (y, c)).2 = c.
Proof. by destruct b. Qed.

(** A fresh entry is served as it is and kept; a missing or expired one is
    replaced by what is fetched, fresh for the cache time from the answer on,
    even when the caller has timed out; a failing request keeps the cache, and
    other pairs are never touched. *)
Theorem pools_cache_refreshes cacheTime timeoutMs now done fetched cache taker maker :
  (0 < cacheTime)%Z →
  let r := getFreshPoolsForPairAsync cacheTime timeoutMs now done fetched cache taker maker in
  (∀ k, k ≠ _getKey taker maker → r.2 !! k = cache !! k) ∧
  (isFresh now cache taker maker = true →
   r.2 = cache ∧ ∃ v, _getValue cache taker maker = Some v ∧ r.1 = Ok (pools v)) ∧
  (isFresh now cache taker maker = false → ∀ ps, fetched = Ok ps →
   (∀ later, isFresh later r.2 taker maker = true ↔ (later < done + cacheTime)%Z) ∧
   getPoolAddressesForPair r.2 taker maker = pool_id <$> ps ∧
   r.1 = Ok (if (now + timeoutMs <? done)%Z then [] else ps)) ∧
  (isFresh now cache taker maker = false → ∀ e, fetched = Throw e → r.2 = cache).
Proof.
  intros Hct r. unfold r, getFreshPoolsForPairAsync, _getAndSaveFreshPoolsForPairAsync, isFresh,
    getPoolAddressesForPair, _getValue, _cachePoolsForPair, t in *.
  set (k := _getKey taker maker) in *.
  destruct (cache !! k) as [v|] eqn:Ev; cbn [_isExpired negb].
  - destruct (expiresAt v <=? now)%Z eqn:E; cbn [negb andb].
    + destruct fetched as [ps|e]; (split_and!; [|done|..]); try (by destruct (_ <? _)%Z).
      * intros k' Hk'. rewrite if_snd. by rewrite lookup_insert_ne.
      * intros _ ps' [= <-]. rewrite if_snd. rewrite lookup_insert, decide_True by done.
        split_and!; [|done | by destruct (_ <? _)%Z].
        intros later. cbn [_isExpired expiresAt]. rewrite negb_true_iff. lia.
    + split_and!; [done | intros _; split; [done | by exists v] | done | done].
  - destruct fetched as [ps|e]; (split_and!; [|done|..]); try (by destruct (_ <? _)%Z).
    + intros k' Hk'. rewrite if_snd. by rewrite lookup_insert_ne.
    + intros _ ps' [= <-]. rewrite if_snd. rewrite lookup_insert, decide_True by done.
      split_and!; [|done | by destruct (_ <? _)%Z].
      intros later. cbn [_isExpired expiresAt]. rewrite negb_true_iff. lia.
Qed.
End PoolsCache.
End PoolsCache.

(** ** The implementations of the interface [PoolsCache]

    [NoOpPoolsCache] ([MOU/pools_cache/no_op_pools_cache.ts]) and the caches that
    extend [AbstractPoolsCache]. *)
Module IPoolsCache.
Section IPoolsCache.
Context {Pool : Type}.
Variable pool_id : Pool → string.

Inductive t : Type :=
| NoOpPoolsCache
| AbstractPoolsCache (_cache : PoolsCache.t (Pool := Pool)).

Definition getFreshPoolsForPairAsync (_cacheTimeMs timeoutMs now done : Z) (fetched : result (list Pool))
    (this : t) (takerToken makerToken : string) : result (list Pool) * t :=
  match this with
  | NoOpPoolsCache => (Ok [], this)
  | AbstractPoolsCache cache =>
      let r := PoolsCache.getFreshPoolsForPairAsync _cacheTimeMs timeoutMs now done fetched cache takerToken makerToken in
      (r.1, AbstractPoolsCache r.2)
  end.

Definition getPoolAddressesForPair (this : t) (takerToken makerToken : string) : list string :=
  match this with
  | NoOpPoolsCache => []
  | AbstractPoolsCache cache => PoolsCache.getPoolAddressesForPair pool_id cache takerToken makerToken
  end.

Definition isFresh (now : Z) (this : t) (takerToken makerToken : string) : bool :=
  match this with
  | NoOpPoolsCache => true
  | AbstractPoolsCache cache => PoolsCache.isFresh now cache takerToken makerToken
  end.
End IPoolsCache.
End IPoolsCache.

(** ** [SwapInfoCache] *)
Module SwapInfoCache.
Section SwapInfoCache.
Context {BalancerSwaps : Type}.
(** [EMPTY_BALANCER_SWAPS]. *)
Variable EMPTY_BALANCER_SWAPS : BalancerSwaps.

Record CacheValue : Type := { expiresAt : Z; balancerSwaps : BalancerSwaps }.
(** Keys are [JSON.stringify([takerToken, makerToken])]: the pair itself. *)
Definition t : Type := gmap (string * string) CacheValue.

Definition _isExpired (now : Z) (value : CacheValue) : bool := (expiresAt value <=? now)%Z.

Definition getCachedSwapInfoForPair (now : Z) (cache : t) (takerToken makerToken : string)
    (ignoreExpired : bool) : option BalancerSwaps :=
  let value := cache !! (takerToken, makerToken) in
  if ignoreExpired then
    Some (match value with None => EMPTY_BALANCER_SWAPS | Some v => balancerSwaps v end)
  else
    match value with
    | None => None
    | Some v => if _isExpired now v then None else Some (balancerSwaps v)
    end.

Definition isFresh (now : Z) (cache : t) (takerToken makerToken : string) : bool :=
  match getCachedSwapInfoForPair now cache takerToken makerToken false with
  | None => false
  | Some _ => true
  end.

Definition _cacheSwapInfoForPair (cache : t) (takerToken makerToken : string)
    (swapInfo : BalancerSwaps) (expiresAt : Z) : t :=
  <[(takerToken, makerToken) := {| expiresAt := expiresAt; balancerSwaps := swapInfo |}]> cache.

Definition _getAndSaveFreshSwapInfoForPairAsync (_cacheTimeMs now done : Z)
    (fetched : result BalancerSwaps) (cache : t) (takerToken makerToken : string)
    : result BalancerSwaps * t :=
  let value := cache !! (takerToken, makerToken) in
  match value with
  | Some v =>
      if (now <=? expiresAt v)%Z then
        match fetched with
        | Throw e => (Throw e, cache)
        | Ok swapInfo =>
            (Ok swapInfo,
             _cacheSwapInfoForPair cache takerToken makerToken swapInfo (done + _cacheTimeMs))
        end
      else (Ok (balancerSwaps v), cache)
  | None =>
      match fetched with
      | Throw e => (Throw e, cache)
      | Ok swapInfo =>
          (Ok swapInfo,
           _cacheSwapInfoForPair cache takerToken makerToken swapInfo (done + _cacheTimeMs))
      end
  end.

(** The test for a fetch is the wrong way around: a pair that has expired is
    served from the cache at every later request, and never fetched again,
    while a pair that is still valid is fetched. *)
Theorem expired_swaps_never_refreshed cacheTime now done fetched cache taker maker v :
  cache !! (taker, maker) = Some v →
  ((expiresAt v < now)%Z →
   isFresh now cache taker maker = false ∧
   ∀ later, (now <= later)%Z →
     _getAndSaveFreshSwapInfoForPairAsync cacheTime later done fetched cache taker maker =
       (Ok (balancerSwaps v), cache)) ∧
  ((now < expiresAt v)%Z →
   isFresh now cache taker maker = true ∧
   ∀ swaps, fetched = Ok swaps →
     (_getAndSaveFreshSwapInfoForPairAsync cacheTime now done fetched cache taker maker).1 = Ok swaps).
Proof.
  intros Hv. unfold isFresh, getCachedSwapInfoForPair, _getAndSaveFreshSwapInfoForPairAsync, _isExpired.
  rewrite Hv. split; intros H.
  - rewrite (proj2 (Z.leb_le (expiresAt v) now)) by lia. split; [done|]. intros later Hl.
    by rewrite (proj2 (Z.leb_gt later (expiresAt v))) by lia.
  - rewrite (proj2 (Z.leb_gt (expiresAt v) now)) by lia. split; [done|]. intros swaps ->.
    by rewrite (proj2 (Z.leb_le now (expiresAt v))) by lia.
Qed.
End SwapInfoCache.
End SwapInfoCache.

(** ** [createResultCache] *)
Module ResultCache.
Section ResultCache.
Context {T : Type}.
(** [!result]: whether a result is falsy. *)
Variable falsy : T → bool.

Record CachedResult : Type := { timestamp : Z; cached : T }.
(** Arguments are property keys: strings. *)
Definition t : Type := gmap string CachedResult.

Definition needsUpdate (cacheExpiryMs now : Z) (entry : option CachedResult) : bool :=
  match entry with
  | None => true
  | Some e => falsy (cached e) || (timestamp e =? 0)%Z || (timestamp e <? now - cacheExpiryMs)%Z
  end.

(** A call at [now]; the function is answered at [done]. *)
Definition getResultAsync (cacheExpiryMs now done : Z) (fn : result T) (cache : t) (args : string)
    : result CachedResult * t :=
  let entry := cache !! args in
  if needsUpdate cacheExpiryMs now entry then
    match fn with
    | Ok r =>
        let e := {| timestamp := done; cached := r |} in (Ok e, <[args := e]> cache)
    | Throw err =>
        match entry with
        | None => (Throw err, cache)
        | Some e => if falsy (cached e) then (Throw err, cache) else (Ok e, cache)
        end
    end
  else match entry with Some e => (Ok e, cache) | None => (Throw TypeError, cache) end.

(** A result is the function's, or the cached one while it is recent or the
    function fails; a call fails only if the function does and no usable result
    was ever cached; the returned result is what the cache then holds. *)
Theorem result_cache_spec expiry now done fn cache args :
  let r := getResultAsync expiry now done fn cache args in
  (∀ e, r.1 = Ok e → r.2 !! args = Some e ∧
     (fn = Ok (cached e) ∧ timestamp e = done ∨
      cache !! args = Some e ∧ falsy (cached e) = false ∧
      ((now - expiry <= timestamp e)%Z ∨ is_ok fn = false))) ∧
  (∀ err, r.1 = Throw err → fn = Throw err ∧ r.2 = cache ∧
     ∀ e, cache !! args = Some e → falsy (cached e) = true) ∧
  (∀ k, k ≠ args → r.2 !! k = cache !! k).
Proof.
  unfold getResultAsync, t in *. destruct (cache !! args) as [e0|] eqn:E0; cbn [needsUpdate].
  - destruct (falsy (cached e0)) eqn:Ef; cbn [orb].
    + destruct fn as [x|err]; cbn [fst snd]; (split_and!; [| |by intros; rewrite ?lookup_insert_ne]).
      * intros e [= <-]. rewrite lookup_insert, decide_True by done. split; [done|]. by left.
      * done.
      * done.
      * intros err' [= <-]. split_and!; [done | done|]. by intros e [= <-].
    + destruct (_ || _) eqn:Eu.
      * destruct fn as [x|err]; cbn [fst snd]; (split_and!; [| |by intros; rewrite ?lookup_insert_ne]).
        -- intros e [= <-]. rewrite lookup_insert, decide_True by done. split; [done|]. by left.
        -- done.
        -- intros e [= <-]. split; [done|]. right. split_and!; [done | done | by right].
        -- done.
      * cbn [fst snd]. split_and!; [|done|done]. intros e [= <-]. split; [done|]. right.
        split_and!; [done | done|]. left. apply orb_false_iff in Eu as [_ Eu]. lia.
  - destruct fn as [x|err]; cbn [fst snd]; (split_and!; [| |by intros; rewrite ?lookup_insert_ne]).
    + intros e [= <-]. rewrite lookup_insert, decide_True by done. split; [done|]. by left.
    + done.
    + done.
    + intros err' [= <-]. done.
Qed.
End ResultCache.
End ResultCache.

(** ** [GasPriceUtils] *)
Module GasPriceUtils.
Section GasPriceUtils.
Context {GasPrices : Type}.
(** [{...defaultGasPrices, ...estimation}]. *)
Variable spread : GasPrices → GasPrices → GasPrices.

Definition MAX_ERROR_COUNT : Z := 5.
Definition NoGasPriceProvidedOrEstimated : js_error := Error "NO_GAS_PRICE_PROVIDED_OR_ESTIMATED".

Record t : Type := {
  _gasPriceEstimation : option GasPrices;
  _errorCount : Z;
}.
Definition new : t := {| _gasPriceEstimation := None; _errorCount := 0 |}.

(** The oracle's answer, a request or a parse error being a [Throw]. *)
Definition _updateGasPriceFromOracleOrThrow (answer : result GasPrices) (this : t) : result unit * t :=
  match answer with
  | Ok gasInfo => (Ok tt, {| _errorCount := 0; _gasPriceEstimation := Some gasInfo |})
  | Throw _ =>
      let count := (_errorCount this + 1)%Z in
      if (MAX_ERROR_COUNT <? count)%Z ||
         match _gasPriceEstimation this with None => true | Some _ => false end
      then (Throw NoGasPriceProvidedOrEstimated,
            {| _errorCount := 0; _gasPriceEstimation := _gasPriceEstimation this |})
      else (Ok tt, {| _errorCount := count; _gasPriceEstimation := _gasPriceEstimation this |})
  end.

Definition getGasPriceEstimationOrDefault (defaultGasPrices : GasPrices) (this : t) : GasPrices :=
  match _gasPriceEstimation this with
  | None => defaultGasPrices
  | Some e => spread defaultGasPrices e
  end.

Definition getGasPriceEstimationOrThrowAsync (answer : result GasPrices) (this : t)
    : result (option GasPrices) * t :=
  match _gasPriceEstimation this with
  | Some e => (Ok (Some e), this)
  | None =>
      let r := _updateGasPriceFromOracleOrThrow answer this in
      match r.1 with
      | Throw e => (Throw e, r.2)
      | Ok _ => (Ok (_gasPriceEstimation r.2), r.2)
      end
  end.

(** The updates of the heart beat and the requests in between. *)
Inductive step : t → t → Prop :=
| step_beat s answer : step s (_updateGasPriceFromOracleOrThrow answer s).2
| step_get s answer : step s (getGasPriceEstimationOrThrowAsync answer s).2.
Definition reachable (s : t) : Prop := rtc step new s.

Definition wf (s : t) : Prop :=
  (0 <= _errorCount s <= MAX_ERROR_COUNT)%Z ∧ (_gasPriceEstimation s = None → _errorCount s = 0%Z).

Lemma update_wf answer s : wf s → wf (_updateGasPriceFromOracleOrThrow answer s).2.
Proof.
  intros [H1 H2]. unfold _updateGasPriceFromOracleOrThrow, wf, MAX_ERROR_COUNT in *.
  destruct answer; simpl; [split; [lia | done]|].
  destruct (Z.ltb_spec 5 (_errorCount s + 1)); simpl; [split; [lia | done]|].
  destruct (_gasPriceEstimation s) eqn:E; simpl; (split; [lia | done]).
Qed.

Lemma get_wf answer s : wf s → wf (getGasPriceEstimationOrThrowAsync answer s).2.
Proof.
  intros H. unfold getGasPriceEstimationOrThrowAsync. destruct (_gasPriceEstimation s); [done|].
  pose proof (update_wf answer s H). by destruct (_updateGasPriceFromOracleOrThrow answer s) as [[] ?].
Qed.

Lemma reachable_oracle_wf s : reachable s → wf s.
Proof.
  unfold reachable. intros H. assert (wf new) as H0 by (split; [done | done]).
  revert H0. induction H as [|x y z Hs _ IH]; [done|]. intros Hx. apply IH.
  destruct Hs; [by apply update_wf | by apply get_wf].
Qed.

(** [beats] answers in a row. *)
Definition beats (answers : list (result GasPrices)) (s : t) : t :=
  fold_left (λ s a, (_updateGasPriceFromOracleOrThrow a s).2) answers s.

(** The estimate is the last answer of the oracle and is never lost; asking for
    it fails only if the oracle has never answered and does not now; and the
    heart beat tolerates five failures since the last answer, reporting the
    sixth. *)
Theorem gas_price_tolerates_failures s answer e :
  reachable s →
  (0 <= _errorCount s <= MAX_ERROR_COUNT)%Z ∧
  ((getGasPriceEstimationOrThrowAsync answer s).1 = Throw e →
   _gasPriceEstimation s = None ∧ is_ok answer = false) ∧
  (∀ g, _gasPriceEstimation s = Some g → ∃ g', _gasPriceEstimation (_updateGasPriceFromOracleOrThrow answer s).2 = Some g' ∧
     (answer = Ok g' ∨ is_ok answer = false ∧ g' = g)) ∧
  (∀ g, _gasPriceEstimation s = Some g → is_ok answer = false →
     is_ok (_updateGasPriceFromOracleOrThrow answer s).1 = false ↔ _errorCount s = MAX_ERROR_COUNT).
Proof.
  intros [H1 H2]%reachable_oracle_wf. split; [exact H1|].
  unfold getGasPriceEstimationOrThrowAsync, _updateGasPriceFromOracleOrThrow, MAX_ERROR_COUNT in *.
  split_and!.
  - destruct (_gasPriceEstimation s); [done|]. destruct answer; [done|]. by rewrite orb_true_r.
  - intros g Hg. destruct answer as [g'|]; [by exists g'; auto|]. exists g. rewrite Hg.
    destruct (_ || _); simpl; auto.
  - intros g Hg Ha. destruct answer; [done|]. rewrite Hg, orb_false_r.
    destruct (Z.ltb_spec 5 (_errorCount s + 1)); simpl; (split; [intros; try done; lia | intros; try done; lia]).
Qed.
End GasPriceUtils.
End GasPriceUtils.

(** ** [AaveReservesCache] *)
Module AaveReservesCache.

(** [AaveV2Reserve | AaveV3Reserve]: the pool is [pool.lendingPool] of the one
    and [pool.pool] of the other. *)
Record Reserve : Type := { underlyingAsset : string; aTokenId : string; lendingPool : string }.
Definition t : Type := gmap string (list Reserve).

Definition addReserve (memo : t) (reserve : Reserve) : t :=
  let underlying := toLowerCase (underlyingAsset reserve) in
  <[underlying := default [] (memo !! underlying) ++ [reserve]]> memo.

(** The answer of the subgraph replaces the cache; a failing request empties
    it. *)
Definition fetchAndUpdateReservesAsync (answer : result (list Reserve)) (_cache : t) : t :=
  match answer with
  | Ok reserves => fold_left addReserve reserves ∅
  | Throw _ => ∅
  end.

Definition findReserve (_cache : t) (underlying aToken : string) : option Reserve :=
  match _cache !! toLowerCase underlying with
  | None => None
  | Some rs => head (bfilter (λ r, String.eqb (aTokenId r) (toLowerCase aToken)) rs)
  end.

(** Deposits first, then withdrawals. *)
Definition get (_cache : t) (takerToken makerToken : string) : option Reserve :=
  match findReserve _cache takerToken makerToken with
  | Some r => Some r
  | None => findReserve _cache makerToken takerToken
  end.

Lemma addReserve_lookup rs memo k :
  default [] (fold_left addReserve rs memo !! k) =
  default [] (memo !! k) ++ bfilter (λ r, String.eqb (toLowerCase (underlyingAsset r)) k) rs.
Proof.
  revert memo. induction rs as [|r rs IH]; intros memo; simpl; [by rewrite app_nil_r|].
  rewrite IH. unfold addReserve, t in *. case String.eqb_spec; intros E.
  - rewrite E, lookup_insert, decide_True by done. simpl.
    by rewrite <- app_assoc.
  - by rewrite lookup_insert_ne.
Qed.

(** The reserves a pair could use in one direction. *)
Definition usable (underlying aToken : string) (r : Reserve) : bool :=
  String.eqb (toLowerCase (underlyingAsset r)) (toLowerCase underlying) &&
  String.eqb (aTokenId r) (toLowerCase aToken).

Lemma findReserve_updated rs cache u a :
  findReserve (fetchAndUpdateReservesAsync (Ok rs) cache) u a = head (bfilter (usable u a) rs).
Proof.
  unfold findReserve, fetchAndUpdateReservesAsync.
  pose proof (addReserve_lookup rs ∅ (toLowerCase u)) as H. unfold t in *. rewrite lookup_empty in H. simpl in H.
  transitivity (head (bfilter (λ r, String.eqb (aTokenId r) (toLowerCase a))
    (default [] (fold_left addReserve rs ∅ !! toLowerCase u)))).
  { by destruct (_ !! toLowerCase u). }
  etrans; [apply (f_equal (λ l, head (bfilter _ l)) H)|]. f_equal. clear H. induction rs as [|r rs IH]; [done|]. cbn [bfilter]. unfold usable at 1.
  destruct (String.eqb (toLowerCase _) _); cbn [andb]; [|done]. cbn [bfilter]. by rewrite IH.
Qed.

(** After an update the cache answers with the first reserve of the answer that
    deposits the taker token, or else the first that withdraws the maker
    token; after a failed update it answers nothing. *)
Theorem aave_reserve_of_pair answer cache taker maker :
  get (fetchAndUpdateReservesAsync answer cache) taker maker =
  match answer with
  | Throw _ => None
  | Ok rs =>
      match head (bfilter (usable taker maker) rs) with
      | Some r => Some r
      | None => head (bfilter (usable maker taker) rs)
      end
  end.
Proof.
  unfold get. destruct answer as [rs|e]; [by rewrite !findReserve_updated|].
  unfold findReserve, fetchAndUpdateReservesAsync, t. by rewrite !lookup_empty.
Qed.
End AaveReservesCache.

(** ** [CompoundCTokenCache] *)
Module CompoundCTokenCache.

Record CToken : Type := { tokenAddress : string; underlyingAddress : string }.
(** The token and the underlying address of the API; cETH has none. *)
Record CTokenInfo : Type := { token_address : string; underlying_address : option string }.
Definition t : Type := gmap string CToken.

Definition cleanUnderlying (_wethAddress : string) (c : CTokenInfo) : string :=
  match underlying_address c with
  | None | Some EmptyString => _wethAddress
  | Some a => toLowerCase a
  end.

Definition addCToken (_wethAddress : string) (memo : t) (c : CTokenInfo) : t :=
  let underlying := cleanUnderlying _wethAddress c in
  <[underlying := {| tokenAddress := toLowerCase (token_address c);
                     underlyingAddress := underlying |}]> memo.

(** A failing request keeps the cache. *)
Definition fetchAndUpdateCTokensAsync (_wethAddress : string) (answer : result (list CTokenInfo))
    (_cache : t) : t :=
  match answer with
  | Ok cTokens => fold_left (addCToken _wethAddress) cTokens ∅
  | Throw _ => _cache
  end.

Definition findCToken (_cache : t) (underlying cToken : string) : option CToken :=
  match _cache !! toLowerCase underlying with
  | None => None
  | Some c =>
      if String.eqb (toLowerCase cToken) (toLowerCase (tokenAddress c)) then Some c else None
  end.

(** Minting first, then redeeming. *)
Definition get (_cache : t) (takerToken makerToken : string) : option CToken :=
  match findCToken _cache takerToken makerToken with
  | Some c => Some c
  | None => findCToken _cache makerToken takerToken
  end.

(** Every entry is stored under its underlying token. *)
Definition wf (cache : t) : Prop := ∀ k c, cache !! k = Some c → underlyingAddress c = k.

Lemma ctokens_update_wf weth answer cache : wf cache → wf (fetchAndUpdateCTokensAsync weth answer cache).
Proof.
  intros H. destruct answer as [cs|e]; [|done]. unfold fetchAndUpdateCTokensAsync.
  assert (wf ∅) as H0 by (intros k c; unfold t; by rewrite lookup_empty).
  revert H0. generalize (∅ : t). induction cs as [|c cs IH]; intros m Hm; simpl; [done|]. apply IH.
  intros k c' Hk. unfold addCToken, t in *. destruct (decide (cleanUnderlying weth c = k)) as [E|N].
  - rewrite E, lookup_insert, decide_True in Hk by done. injection Hk as <-. done.
  - rewrite lookup_insert_ne in Hk by done. by apply Hm.
Qed.

(** A cToken found for a pair joins its two tokens: one of them is the
    underlying token, the other the cToken. *)
Theorem ctoken_joins_pair cache taker maker c :
  wf cache → get cache taker maker = Some c →
  (toLowerCase taker = underlyingAddress c ∧ toLowerCase maker = toLowerCase (tokenAddress c)) ∨
  (toLowerCase maker = underlyingAddress c ∧ toLowerCase taker = toLowerCase (tokenAddress c)).
Proof.
  intros Hwf. unfold get.
  assert (∀ u x, findCToken cache u x = Some c →
    toLowerCase u = underlyingAddress c ∧ toLowerCase x = toLowerCase (tokenAddress c)) as Hfind.
  { intros u x. unfold findCToken. destruct (cache !! toLowerCase u) as [c'|] eqn:E; [|done].
    case String.eqb_spec; [|done]. intros Hx [= ->]. by rewrite (Hwf _ _ E). }
  destruct (findCToken cache taker maker) as [c'|] eqn:E.
  - intros [= ->]. left. by apply Hfind.
  - intros H. right. by apply Hfind.
Qed.
End CompoundCTokenCache.

(** ** Witnesses *)

Lemma pools_cache_refreshes_witness :
  PoolsCache.isFresh 50 (PoolsCache.getFreshPoolsForPairAsync 100 10 0 20 (Ok ["0xP"%string]) ∅ "0xA" "0xB").2
    "0xA" "0xB" = true.
Proof.
  assert (0 < 100)%Z as H by reflexivity.
  destruct (PoolsCache.pools_cache_refreshes id 100 10 0 20 (Ok ["0xP"%string]) ∅ "0xA" "0xB" H)
    as (_ & _ & H2 & _).
  apply (proj1 (H2 eq_refl ["0xP"%string] eq_refl)). reflexivity.
Defined.

Lemma expired_swaps_never_refreshed_witness :
  SwapInfoCache._getAndSaveFreshSwapInfoForPairAsync 100 60 70 (Ok 2%Z)
    {[("0xA"%string, "0xB"%string) := {| SwapInfoCache.expiresAt := 50; SwapInfoCache.balancerSwaps := 1%Z |}]}
    "0xA" "0xB"
  = (Ok 1%Z, {[("0xA"%string, "0xB"%string) := {| SwapInfoCache.expiresAt := 50; SwapInfoCache.balancerSwaps := 1%Z |}]}).
Proof.
  apply (SwapInfoCache.expired_swaps_never_refreshed 0%Z 100 60 70 (Ok 2%Z) _ "0xA" "0xB"
    {| SwapInfoCache.expiresAt := 50; SwapInfoCache.balancerSwaps := 1%Z |}); [reflexivity | reflexivity | reflexivity].
Defined.

Lemma gas_price_tolerates_failures_witness :
  (0 <= GasPriceUtils._errorCount (GasPriceUtils.new (GasPrices := Z)) <= 5)%Z.
Proof.
  apply (GasPriceUtils.gas_price_tolerates_failures GasPriceUtils.new (Ok 1%Z) TypeError). apply rtc_refl.
Defined.

Lemma ctoken_joins_pair_witness :
  let c := {| CompoundCTokenCache.tokenAddress := "0xc"; CompoundCTokenCache.underlyingAddress := "0xa" |} in
  toLowerCase "0xA" = "0xa"%string ∧ toLowerCase "0xC" = toLowerCase "0xc" ∨
  toLowerCase "0xC" = "0xa"%string ∧ toLowerCase "0xA" = toLowerCase "0xc".
Proof.
  set (cache := CompoundCTokenCache.fetchAndUpdateCTokensAsync "0xweth"
    (Ok [{| CompoundCTokenCache.token_address := "0xC"; CompoundCTokenCache.underlying_address := Some "0xA"%string |}]) ∅).
  apply (CompoundCTokenCache.ctoken_joins_pair cache "0xA" "0xC"
    {| CompoundCTokenCache.tokenAddress := "0xc"; CompoundCTokenCache.underlyingAddress := "0xa" |});
    [|reflexivity].
  apply CompoundCTokenCache.ctokens_update_wf. intros k c. unfold CompoundCTokenCache.t. by rewrite lookup_empty.
Defined.
