(* ===== verification/BridgeSources.v ===== *)
(** * Pools and routers of the bridge sources ([MOU/bridge_source_utils.ts])

    Which pools and routers a source offers for a pair of tokens.  The tables of
    addresses ([MOU/constants.ts], [MOU/curve.ts]) are data: the class
    [BridgeTables], of which nothing is assumed. *)

From S2P Require Import Prelude JsNumber BigNum Types JsLib PairUtils Constants.

Definition NULL_ADDRESS : string := "0x0000000000000000000000000000000000000000".

(** [ShellInfo], the pools of mStable, and [PlatypusInfo]. *)
Record TokenPool : Type := { pool_poolAddress : string; pool_tokens : list string }.

Section Records.
Context {B : BigNumberLib}.
Record PsmInfo : Type := { psmAddress : string; ilkIdentifier : string; psm_gemTokenAddress : string }.
Record LidoInfo : Type := { stEthToken : string; wethToken : string; wstEthToken : string }.
Record DodoConfig : Type := { dodo_registry : string; dodo_helper : string }.
Record UniswapV3Config : Type := { uni3_factory : string; uni3_router : string }.

(** The tables, by their names in the code. *)
Class BridgeTables : Type := {
  UNISWAPV1_ROUTER_BY_CHAIN_ID : ChainId → string;
  (** [UNISWAPV2_ROUTER_BY_CHAIN_ID] and the tables of its forks, by source. *)
  UNISWAPV2_LIKE_ROUTER_BY_CHAIN_ID : ERC20BridgeSource → ChainId → string;
  KYBER_DMM_ROUTER_BY_CHAIN_ID : ChainId → string;
  CURVE_MAINNET_INFOS : list CurveInfo; CURVE_POLYGON_INFOS : list CurveInfo;
  CURVE_FANTOM_INFOS : list CurveInfo; CURVE_AVALANCHE_INFOS : list CurveInfo;
  CURVE_OPTIMISM_INFOS : list CurveInfo;
  CURVE_V2_MAINNET_INFOS : list CurveInfo; CURVE_V2_POLYGON_INFOS : list CurveInfo;
  CURVE_V2_FANTOM_INFOS : list CurveInfo; CURVE_V2_AVALANCHE_INFOS : list CurveInfo;
  CURVE_V2_ARBITRUM_INFOS : list CurveInfo;
  NERVE_BSC_INFOS : list CurveInfo;
  SYNAPSE_MAINNET_INFOS : list CurveInfo; SYNAPSE_OPTIMISM_INFOS : list CurveInfo;
  SYNAPSE_BSC_INFOS : list CurveInfo; SYNAPSE_POLYGON_INFOS : list CurveInfo;
  SYNAPSE_FANTOM_INFOS : list CurveInfo; SYNAPSE_AVALANCHE_INFOS : list CurveInfo;
  SYNAPSE_ARBITRUM_INFOS : list CurveInfo;
  FIREBIRDONESWAP_BSC_INFOS : list CurveInfo; FIREBIRDONESWAP_POLYGON_INFOS : list CurveInfo;
  BELT_BSC_INFOS : list CurveInfo; ELLIPSIS_BSC_INFOS : list CurveInfo;
  SADDLE_MAINNET_INFOS : list CurveInfo; SADDLE_OPTIMISM_INFOS : list CurveInfo;
  SADDLE_ARBITRUM_INFOS : list CurveInfo;
  IRONSWAP_POLYGON_INFOS : list CurveInfo; ACRYPTOS_BSC_INFOS : list CurveInfo;
  MOBIUSMONEY_CELO_INFOS : list CurveInfo;
  SHELL_POOLS_MAINNET : list TokenPool; COMPONENT_POOLS_MAINNET : list TokenPool;
  MSTABLE_POOLS_BY_CHAIN_ID : ChainId → list TokenPool;
  PLATYPUS_AVALANCHE_INFOS : list TokenPool;
  MOONISWAP_REGISTRIES_BY_CHAIN_ID : ChainId → list string;
  BALANCER_V2_VAULT_ADDRESS_BY_CHAIN : ChainId → string;
  DODOV1_CONFIG_BY_CHAIN_ID : ChainId → DodoConfig;
  DODOV2_FACTORIES_BY_CHAIN_ID : ChainId → list string;
  BANCOR_REGISTRY_BY_CHAIN_ID : ChainId → string;
  BANCORV3_NETWORK_BY_CHAIN_ID : ChainId → string;
  BANCORV3_NETWORK_INFO_BY_CHAIN_ID : ChainId → string;
  MAKER_PSM_INFO_BY_CHAIN_ID : ChainId → PsmInfo;
  UNISWAPV3_CONFIG_BY_CHAIN_ID : ChainId → UniswapV3Config;
  LIDO_INFO_BY_CHAIN : ChainId → LidoInfo;
  AAVE_V3_L2_ENCODERS_BY_CHAIN_ID : ChainId → string;
  GMX_ROUTER_BY_CHAIN_ID : ChainId → string;
  GMX_READER_BY_CHAIN_ID : ChainId → string;
  GMX_VAULT_BY_CHAIN_ID : ChainId → string;
  PLATYPUS_ROUTER_BY_CHAIN_ID : ChainId → string;
  DYSTOPIA_ROUTER_BY_CHAIN_ID : ChainId → string;
  VELODROME_ROUTER_BY_CHAIN_ID : ChainId → string;
  SYNTHETIX_READ_PROXY_BY_CHAIN_ID : ChainId → string;
  SYNTHETIX_CURRENCY_KEYS_BY_CHAIN_ID : ChainId → gmap string string;
  WOOFI_ROUTER_BY_CHAIN_ID : ChainId → string;
  WOOFI_SUPPORTED_TOKENS : list string;
  REBASING_TOKENS : list string;
  NATIVE_FEE_TOKEN_BY_CHAIN_ID : ChainId → string;
  MAINNET_TOKENS_WETH : string;
  AVALANCHE_TOKENS_MIM : string;
}.
End Records.

Section BridgeSources.
Context {B : BigNumberLib} `{!BridgeTables}.

Definition isValidAddress (address : string) : bool := negb (String.eqb address NULL_ADDRESS).

Definition MAX_DODOV2_POOLS_QUERIED : nat := 3.
Definition getDodoV2Offsets : list BN := (λ i, of_Z (Z.of_nat i)) <$> seq 0 MAX_DODOV2_POOLS_QUERIED.

(** [[makerToken, takerToken].every((t) => c.tokens.includes(t))]. *)
Definition hasPair (takerToken makerToken : string) (c : TokenPool) : bool :=
  forallb (includes (pool_tokens c)) [makerToken; takerToken].
Definition addressesForPair (pools : list TokenPool) (takerToken makerToken : string) : list string :=
  pool_poolAddress <$> bfilter (hasPair takerToken makerToken) pools.

Definition getShellsForPair (chainId : ChainId) (takerToken makerToken : string) : list string :=
  match chainId with
  | ChainId.Mainnet => addressesForPair SHELL_POOLS_MAINNET takerToken makerToken
  | _ => []
  end.
Definition getComponentForPair (chainId : ChainId) (takerToken makerToken : string) : list string :=
  match chainId with
  | ChainId.Mainnet => addressesForPair COMPONENT_POOLS_MAINNET takerToken makerToken
  | _ => []
  end.
Definition getMStableForPair (chainId : ChainId) (takerToken makerToken : string) : list string :=
  match chainId with
  | ChainId.Mainnet | ChainId.Polygon =>
      addressesForPair (MSTABLE_POOLS_BY_CHAIN_ID chainId) takerToken makerToken
  | _ => []
  end.

(** The filter of every curve-like pool: both tokens, and one of them a meta
    token when the pool has any. *)
Definition isMetaToken (c : CurveInfo) (v : string) : bool :=
  match curve_metaTokens c with None => false | Some l => includes l v end.
Definition servesPair (takerToken makerToken : string) (c : CurveInfo) : bool :=
  forallb (λ t,
    (includes (curve_tokens c) t && match curve_metaTokens c with None => true | Some _ => false end)
    || (includes (curve_tokens c) t &&
        (0 <? length (bfilter (isMetaToken c) [makerToken; takerToken]))%nat))
    [makerToken; takerToken].
Definition infosForPair (infos : list CurveInfo) (takerToken makerToken : string) : list CurveInfo :=
  bfilter (servesPair takerToken makerToken) infos.

Definition getCurveInfosForPair (chainId : ChainId) : string → string → list CurveInfo :=
  match chainId with
  | ChainId.Mainnet => infosForPair CURVE_MAINNET_INFOS
  | ChainId.Polygon => infosForPair CURVE_POLYGON_INFOS
  | ChainId.Fantom => infosForPair CURVE_FANTOM_INFOS
  | ChainId.Avalanche => infosForPair CURVE_AVALANCHE_INFOS
  | ChainId.Optimism => infosForPair CURVE_OPTIMISM_INFOS
  | _ => λ _ _, []
  end.
Definition getCurveV2InfosForPair (chainId : ChainId) : string → string → list CurveInfo :=
  match chainId with
  | ChainId.Mainnet => infosForPair CURVE_V2_MAINNET_INFOS
  | ChainId.Polygon => infosForPair CURVE_V2_POLYGON_INFOS
  | ChainId.Fantom => infosForPair CURVE_V2_FANTOM_INFOS
  | ChainId.Avalanche => infosForPair CURVE_V2_AVALANCHE_INFOS
  | ChainId.Arbitrum => infosForPair CURVE_V2_ARBITRUM_INFOS
  | _ => λ _ _, []
  end.
Definition getNerveInfosForPair (chainId : ChainId) : string → string → list CurveInfo :=
  match chainId with ChainId.BSC => infosForPair NERVE_BSC_INFOS | _ => λ _ _, [] end.
Definition getSynapseInfosForPair (chainId : ChainId) : string → string → list CurveInfo :=
  match chainId with
  | ChainId.Mainnet => infosForPair SYNAPSE_MAINNET_INFOS
  | ChainId.Optimism => infosForPair SYNAPSE_OPTIMISM_INFOS
  | ChainId.BSC => infosForPair SYNAPSE_BSC_INFOS
  | ChainId.Polygon => infosForPair SYNAPSE_POLYGON_INFOS
  | ChainId.Fantom => infosForPair SYNAPSE_FANTOM_INFOS
  | ChainId.Avalanche => infosForPair SYNAPSE_AVALANCHE_INFOS
  | ChainId.Arbitrum => infosForPair SYNAPSE_ARBITRUM_INFOS
  | _ => λ _ _, []
  end.
Definition getFirebirdOneSwapInfosForPair (chainId : ChainId) : string → string → list CurveInfo :=
  match chainId with
  | ChainId.BSC => infosForPair FIREBIRDONESWAP_BSC_INFOS
  | ChainId.Polygon => infosForPair FIREBIRDONESWAP_POLYGON_INFOS
  | _ => λ _ _, []
  end.
Definition getBeltInfosForPair (chainId : ChainId) : string → string → list CurveInfo :=
  match chainId with ChainId.BSC => infosForPair BELT_BSC_INFOS | _ => λ _ _, [] end.
Definition getEllipsisInfosForPair (chainId : ChainId) : string → string → list CurveInfo :=
  match chainId with ChainId.BSC => infosForPair ELLIPSIS_BSC_INFOS | _ => λ _ _, [] end.
Definition getSaddleInfosForPair (chainId : ChainId) : string → string → list CurveInfo :=
  match chainId with
  | ChainId.Mainnet => infosForPair SADDLE_MAINNET_INFOS
  | ChainId.Optimism => infosForPair SADDLE_OPTIMISM_INFOS
  | ChainId.Arbitrum => infosForPair SADDLE_ARBITRUM_INFOS
  | _ => λ _ _, []
  end.
Definition getIronSwapInfosForPair (chainId : ChainId) : string → string → list CurveInfo :=
  match chainId with ChainId.Polygon => infosForPair IRONSWAP_POLYGON_INFOS | _ => λ _ _, [] end.
Definition getAcryptosInfosForPair (chainId : ChainId) : string → string → list CurveInfo :=
  match chainId with ChainId.BSC => infosForPair ACRYPTOS_BSC_INFOS | _ => λ _ _, [] end.
Definition getMobiusMoneyInfoForPair (chainId : ChainId) : string → string → list CurveInfo :=
  match chainId with ChainId.Celo => infosForPair MOBIUSMONEY_CELO_INFOS | _ => λ _ _, [] end.

Definition getPlatypusInfoForPair (chainId : ChainId) (takerToken makerToken : string)
    : list TokenPool :=
  match chainId with
  | ChainId.Avalanche => bfilter (hasPair takerToken makerToken) PLATYPUS_AVALANCHE_INFOS
  | _ => []
  end.

Definition getShellLikeInfosForPair (chainId : ChainId) (takerToken makerToken : string)
    (source : ERC20BridgeSource) : result (list string) :=
  match source with
  | ERC20BridgeSource.Shell => Ok (getShellsForPair chainId takerToken makerToken)
  | ERC20BridgeSource.Component => Ok (getComponentForPair chainId takerToken makerToken)
  | ERC20BridgeSource.MStable => Ok (getMStableForPair chainId takerToken makerToken)
  | _ => Throw (Error "Unknown Shell like source")
  end.

(** [l.indexOf(x)]. *)
Fixpoint indexOf_from (i : Z) (l : list string) (x : string) : Z :=
  match l with
  | [] => -1
  | y :: l' => if String.eqb y x then i else indexOf_from (i + 1) l' x
  end.
Definition indexOf (l : list string) (x : string) : Z := indexOf_from 0 l x.

Record CurveDetailedInfo : Type := {
  detailed_pool : CurveInfo;
  makerTokenIdx : Z;
  takerTokenIdx : Z;
}.

Definition curveLikePools (chainId : ChainId) (takerToken makerToken : string)
    (source : ERC20BridgeSource) : result (list CurveInfo) :=
  match source with
  | ERC20BridgeSource.Curve => Ok (getCurveInfosForPair chainId takerToken makerToken)
  | ERC20BridgeSource.CurveV2 => Ok (getCurveV2InfosForPair chainId takerToken makerToken)
  | ERC20BridgeSource.Nerve => Ok (getNerveInfosForPair chainId takerToken makerToken)
  | ERC20BridgeSource.Synapse => Ok (getSynapseInfosForPair chainId takerToken makerToken)
  | ERC20BridgeSource.Belt => Ok (getBeltInfosForPair chainId takerToken makerToken)
  | ERC20BridgeSource.Ellipsis => Ok (getEllipsisInfosForPair chainId takerToken makerToken)
  | ERC20BridgeSource.Saddle => Ok (getSaddleInfosForPair chainId takerToken makerToken)
  | ERC20BridgeSource.FirebirdOneSwap => Ok (getFirebirdOneSwapInfosForPair chainId takerToken makerToken)
  | ERC20BridgeSource.IronSwap => Ok (getIronSwapInfosForPair chainId takerToken makerToken)
  | ERC20BridgeSource.ACryptos => Ok (getAcryptosInfosForPair chainId takerToken makerToken)
  | ERC20BridgeSource.MobiusMoney => Ok (getMobiusMoneyInfoForPair chainId takerToken makerToken)
  | _ => Throw (Error "Unknown Curve like source")
  end.

Definition getCurveLikeInfosForPair (chainId : ChainId) (takerToken makerToken : string)
    (source : ERC20BridgeSource) : result (list CurveDetailedInfo) :=
  fmap (M := list)
    (λ pool, {| detailed_pool := pool;
                makerTokenIdx := indexOf (curve_tokens pool) makerToken;
                takerTokenIdx := indexOf (curve_tokens pool) takerToken |})
  <$> curveLikePools chainId takerToken makerToken source.

Definition isUniswapV2Like (source : ERC20BridgeSource) : bool :=
  includes [ERC20BridgeSource.UniswapV2; ERC20BridgeSource.SushiSwap; ERC20BridgeSource.CryptoCom;
    ERC20BridgeSource.PancakeSwap; ERC20BridgeSource.PancakeSwapV2; ERC20BridgeSource.BakerySwap;
    ERC20BridgeSource.ApeSwap; ERC20BridgeSource.QuickSwap; ERC20BridgeSource.Dfyn;
    ERC20BridgeSource.WaultSwap; ERC20BridgeSource.ShibaSwap; ERC20BridgeSource.Pangolin;
    ERC20BridgeSource.TraderJoe; ERC20BridgeSource.UbeSwap; ERC20BridgeSource.MorpheusSwap;
    ERC20BridgeSource.SpookySwap; ERC20BridgeSource.SpiritSwap; ERC20BridgeSource.BiSwap;
    ERC20BridgeSource.Yoshi; ERC20BridgeSource.MeshSwap; ERC20BridgeSource.MDex;
    ERC20BridgeSource.KnightSwap] source.

Definition uniswapV2LikeRouterAddress (chainId : ChainId) (source : ERC20BridgeSource)
    : result string :=
  if isUniswapV2Like source then Ok (UNISWAPV2_LIKE_ROUTER_BY_CHAIN_ID source chainId)
  else Throw (Error "Unknown UniswapV2 like source").

Definition BAD_TOKENS_BY_SOURCE (source : ERC20BridgeSource) : list string :=
  match source with
  | ERC20BridgeSource.Uniswap => ["0xb8c77482e45f1f44de1745f52c74426c631bdd52"%string]
  | _ => []
  end.
Definition isBadTokenForSource (token : string) (source : ERC20BridgeSource) : bool :=
  includes (BAD_TOKENS_BY_SOURCE source) (toLowerCase token).

(** ** The pools of a pair *)

Lemma servesPair_iff taker maker c :
  servesPair taker maker c = true ↔
  maker ∈ curve_tokens c ∧ taker ∈ curve_tokens c ∧
  (∀ l, curve_metaTokens c = Some l → maker ∈ l ∨ taker ∈ l).
Proof.
  unfold servesPair, isMetaToken. simpl. rewrite andb_true_r.
  destruct (curve_metaTokens c) as [l|]; simpl.
  - assert ((0 <? length (if includes l maker then maker :: (if includes l taker then [taker] else [])
                          else if includes l taker then [taker] else []))%nat
            = includes l maker || includes l taker) as ->.
    { by destruct (includes l maker), (includes l taker). }
    rewrite !andb_false_r. simpl. rewrite !andb_true_iff, !orb_true_iff, !includes_true.
    split; [intros [[H1 H2] [H3 _]]; split_and!; [done..|] | intros (H1 & H2 & H3)].
    + by intros ? [= <-].
    + specialize (H3 _ eq_refl). tauto.
  - rewrite !andb_true_r, andb_true_iff, !orb_true_iff, !andb_true_iff, !includes_true. naive_solver.
Qed.

Lemma indexOf_from_spec i l x :
  x ∈ l → ∃ k : nat, indexOf_from i l x = (i + Z.of_nat k)%Z ∧ l !! k = Some x ∧ (k < length l)%nat ∧
                   ∀ j, (j < k)%nat → l !! j ≠ Some x.
Proof.
  revert i. induction l as [|y l IH]; intros i Hx; [by apply elem_of_nil in Hx|]. simpl.
  case String.eqb_spec; intros E.
  - exists 0%nat. subst y. simpl. split_and!; [lia | done | lia | lia].
  - apply elem_of_cons in Hx as [->|Hx]; [done|]. destruct (IH (i + 1)%Z Hx) as (k & -> & Hk & Hl & Hf).
    exists (S k). split_and!; [lia | done | simpl; lia |]. intros [|j] Hj; [by intros [= ->]|].
    apply Hf. lia.
Qed.

(** The curve pools of a pair hold both tokens, at the reported indices, which
    differ for different tokens; a pool with meta tokens is only used for a
    pair that contains one of them. *)
Theorem curve_pools_hold_pair chainId taker maker source infos :
  getCurveLikeInfosForPair chainId taker maker source = Ok infos →
  Forall (λ i, ∃ m t : nat,
    makerTokenIdx i = Z.of_nat m ∧ curve_tokens (detailed_pool i) !! m = Some maker ∧
    takerTokenIdx i = Z.of_nat t ∧ curve_tokens (detailed_pool i) !! t = Some taker ∧
    (maker ≠ taker → m ≠ t) ∧
    (∀ l, curve_metaTokens (detailed_pool i) = Some l → maker ∈ l ∨ taker ∈ l)) infos.
Proof.
  intros Hinfos. unfold getCurveLikeInfosForPair in Hinfos.
  apply result_fmap_ok in Hinfos as (x & E & ->).
  apply Forall_fmap, Forall_forall. intros c Hc.
  assert (servesPair taker maker c = true) as Hs.
  { assert (∃ l, x = infosForPair l taker maker) as [l Hl].
    { unfold curveLikePools in E. destruct source; try discriminate E; injection E as <-;
        unfold getCurveInfosForPair, getCurveV2InfosForPair, getNerveInfosForPair,
          getSynapseInfosForPair, getFirebirdOneSwapInfosForPair, getBeltInfosForPair,
          getEllipsisInfosForPair, getSaddleInfosForPair, getIronSwapInfosForPair,
          getAcryptosInfosForPair, getMobiusMoneyInfoForPair;
        destruct chainId; first [exact (ex_intro _ _ eq_refl) | exists []; reflexivity]. }
    rewrite Hl in Hc. unfold infosForPair in Hc. apply elem_of_bfilter in Hc. tauto. }
  apply servesPair_iff in Hs as (Hm & Ht & Hmeta). simpl. unfold indexOf.
  destruct (indexOf_from_spec 0 _ _ Hm) as (m & -> & Hm1 & _).
  destruct (indexOf_from_spec 0 _ _ Ht) as (t & -> & Ht1 & _).
  exists m, t. split_and!; try done; try lia. intros Hne ->. congruence.
Qed.
End BridgeSources.
