(* ===== verification/Sampler.v ===== *)
(** * The sampler ([MOU/sampler.ts], [MOU/sampler_contract_operation.ts])

    The amounts that are sampled, and the batches of calls to the sampler
    contract: every operation encodes a call and interprets its answer.  The
    contract itself, with its ABI encoder, is the class [SamplerContract]. *)

From S2P Require Import Prelude JsNumber BigNum Types Orders.

(** ** The contract *)

(** The return types of the contract's functions. *)
Inductive AbiRet : Type :=
| RAmount | RBool | RString
| RList (r : AbiRet)
| RPair (a b : AbiRet).

Section Sampler.
Context {B : BigNumberLib}.

Fixpoint denote (r : AbiRet) : Type :=
  match r with
  | RAmount => BN
  | RBool => bool
  | RString => string
  | RList r => list (denote r)
  | RPair a b => denote a * denote b
  end.

(** [getABIEncodedTransactionData], [getABIDecodedReturnData], by the name of the
    function, and [batchCall(...).callAsync(...)]: per call, whether it
    succeeded, and its data. *)
Class SamplerContract : Type := {
  encodeInput : string → list AbiValue → string;
  decodeOutput : ∀ r : AbiRet, string → string → result (denote r);
  batchCallAsync : list string → result (list (bool * string));
}.

Definition NULL_BYTES : string := "0x".

(** ** Operations *)

Record BatchedOperation (T : Type) : Type := {
  encodeCall : string;
  handleCallResults : string → result T;
  handleRevert : string → result T;
}.
Arguments encodeCall {T} _.
Arguments handleCallResults {T} _ _.
Arguments handleRevert {T} _ _.

Definition constant {T} (value : T) : BatchedOperation T :=
  {| encodeCall := NULL_BYTES;
     handleCallResults := λ _, Ok value; handleRevert := λ _, Ok value |}.

(** An operation seen as one of [any] result type. *)
Definition op_map {T U} (f : T → U) (op : BatchedOperation T) : BatchedOperation U :=
  {| encodeCall := encodeCall op;
     handleCallResults := λ data, f <$> handleCallResults op data;
     handleRevert := λ data, f <$> handleRevert op data |}.

(** A quote operation of a source.  Its [fillData] is mutated when an answer is
    handled: handling returns the samples and the fill data from then on. *)
Record SourceQuoteOperation : Type := {
  op_source : ERC20BridgeSource;
  op_fillData : FillData;
  op_encodeCall : string;
  op_handleCallResults : string → result (list BN * FillData);
}.

Section Contract.
Context `{SC : !SamplerContract}.

(** [new SamplerContractOperation(...)]: without a callback the answer is the
    list of samples and the fill data stays. *)
Definition SamplerContractOperation (source : ERC20BridgeSource) (fillData : FillData)
    (function : string) (params : list AbiValue)
    (callback : option (string → result (list BN * FillData))) : SourceQuoteOperation :=
  {| op_source := source; op_fillData := fillData;
     op_encodeCall := encodeInput function params;
     op_handleCallResults := λ callResults,
       match callback with
       | Some f => f callResults
       | None =>
           (λ samples, (samples, fillData)) <$>
           decodeOutput (RList RAmount) function callResults
       end |}.

(** A reverted operation has no samples. *)
Definition op_handleRevert (op : SourceQuoteOperation) (_ : string) : list BN * FillData :=
  ([], op_fillData op).

(** The answer [rawSubCallResults[i]] of one operation of a batch. *)
Definition handleSubCall (op : SourceQuoteOperation) (raw : option (bool * string))
    : result (list BN * FillData) :=
  match raw with
  | None => Throw TypeError
  | Some (true, data) => op_handleCallResults op data
  | Some (false, data) => Ok (op_handleRevert op data)
  end.

Definition handleSubCalls (subOps : list SourceQuoteOperation) (raw : list (bool * string))
    : result (list (list BN * FillData)) :=
  mapM (λ '(i, op), handleSubCall op (raw !! (i : nat))) (imap pair subOps).

Definition _createBatch {T} (subOps : list SourceQuoteOperation)
    (resultHandler : list (list BN * FillData) → result T) (revertHandler : T)
    : BatchedOperation T :=
  {| encodeCall := encodeInput "batchCall" [VArray ((λ op, VString (op_encodeCall op)) <$> subOps)];
     handleCallResults := λ callResults,
       raw ← decodeOutput (RList (RPair RBool RString)) "batchCall" callResults;
       results ← handleSubCalls subOps raw;
       resultHandler results;
     handleRevert := λ _, Ok revertHandler |}.

(** ** Running a batch *)

Definition isNoop {T} (op : BatchedOperation T) : bool := String.eqb (encodeCall op) NULL_BYTES.

Definition handleReply {T} (op : BatchedOperation T) (reply : bool * string) : result T :=
  if reply.1 then handleCallResults op reply.2 else handleRevert op reply.2.

(** The last traversal, with [rawCallResultsIdx] as the rest of the answers. *)
Fixpoint handleRawCallResults {T} (ops : list (BatchedOperation T)) (raw : list (bool * string))
    : result (list T) :=
  match ops with
  | [] => Ok []
  | op :: ops' =>
      if isNoop op then
        r ← handleReply op (true, NULL_BYTES);
        rs ← handleRawCallResults ops' raw; Ok (r :: rs)
      else
        match raw with
        | [] => Throw TypeError
        | reply :: raw' =>
            r ← handleReply op reply;
            rs ← handleRawCallResults ops' raw'; Ok (r :: rs)
        end
  end.

Definition executeBatchAsync {T} (ops : list (BatchedOperation T)) : result (list T) :=
  if forallb isNoop ops then mapM (λ op, handleCallResults op NULL_BYTES) ops
  else
    rawCallResults ← batchCallAsync (encodeCall <$> bfilter (λ op, negb (isNoop op)) ops);
    handleRawCallResults ops rawCallResults.

(** The replies given to the operations: an empty one to those without a call,
    the answers of the contract, in order, to the others. *)
Definition replies_for {T} (ops : list (BatchedOperation T)) (answers replies : list (bool * string))
    : Prop :=
  Forall2 (λ op r, isNoop op = true → r = (true, NULL_BYTES)) ops replies ∧
  (bfilter (λ p, negb (isNoop p.1)) (zip ops replies)).*2 = answers.

Lemma handleRaw_replies {T} (ops : list (BatchedOperation T)) raw rs :
  length raw = length (bfilter (λ op, negb (isNoop op)) ops) →
  handleRawCallResults ops raw = Ok rs →
  ∃ replies, replies_for ops raw replies ∧
    Forall2 (λ p r, handleReply p.1 p.2 = Ok r) (zip ops replies) rs.
Proof.
  revert raw rs. induction ops as [|op ops IH]; intros raw rs Hlen H; simpl in H.
  - injection H as <-. destruct raw; [|done]. exists []. split; [split; [constructor | done] | constructor].
  - simpl in Hlen. destruct (isNoop op) eqn:En; simpl in Hlen.
    + ok_inv H. injection H as <-. destruct (IH _ _ Hlen E0) as (replies & [Hr Ha] & Hh).
      exists ((true, NULL_BYTES) :: replies). split; [split|]; simpl.
      * by constructor.
      * by rewrite En.
      * by constructor.
    + destruct raw as [|reply raw]; [done|]. ok_inv H. injection H as <-. injection Hlen as Hlen.
      destruct (IH _ _ Hlen E0) as (replies & [Hr Ha] & Hh).
      exists (reply :: replies). split; [split|]; simpl.
      * constructor; [congruence | done].
      * rewrite En. simpl. f_equal. exact Ha.
      * by constructor.
Qed.

Lemma handleRaw_noops {T} (ops : list (BatchedOperation T)) raw :
  forallb isNoop ops = true →
  handleRawCallResults ops raw = mapM (λ op, handleCallResults op NULL_BYTES) ops.
Proof.
  induction ops as [|op ops IH]; simpl; [done|]. intros [-> H]%andb_true_iff.
  unfold handleReply. simpl. destruct (handleCallResults op NULL_BYTES); simpl; [|done].
  by rewrite (IH H).
Qed.

(** [r] is what [op] makes of some answer. *)
Definition answered {T} (op : BatchedOperation T) (r : T) : Prop :=
  ∃ data, handleCallResults op data = Ok r ∨ handleRevert op data = Ok r.

Lemma executeBatch_answered {T} (ops : list (BatchedOperation T)) rs :
  executeBatchAsync ops = Ok rs → Forall2 answered ops rs.
Proof.
  assert (∀ raw rs, handleRawCallResults ops raw = Ok rs → Forall2 answered ops rs) as G.
  { clear rs. induction ops as [|op ops IH]; intros raw rs H; simpl in H; [injection H as <-; constructor|].
    assert (∀ reply r, handleReply op reply = Ok r → answered op r) as Hr.
    { intros [[] d] r Hr; exists d; [by left | by right]. }
    destruct (isNoop op); [|destruct raw as [|reply raw]; [done|]]; ok_inv H; injection H as <-;
      (constructor; [by eapply Hr | by eapply IH]). }
  unfold executeBatchAsync. destruct (forallb isNoop ops) eqn:En.
  - rewrite <- (handleRaw_noops _ []) by done. apply G.
  - intros H. ok_inv H. by eapply G.
Qed.

Lemma answered_map {T U} (f : T → U) (op : BatchedOperation T) u :
  answered (op_map f op) u → ∃ r, u = f r ∧ answered op r.
Proof.
  intros [d [H|H]]; simpl in H; ok_inv H; subst u; (eexists; split; [reflexivity|]; exists d; auto).
Qed.

(** C23. Only the operations that have a call are sent to the contract, in one call;
    each operation is handed the answer to its own call, successful or
    reverted, and those without a call an empty success.  Nothing is sent when
    no operation has a call. *)
Theorem batch_routes_answers {T} (ops : list (BatchedOperation T)) rs :
  (∀ calls answers, batchCallAsync calls = Ok answers → length answers = length calls) →
  executeBatchAsync ops = Ok rs →
  ∃ answers replies,
    (if forallb isNoop ops then answers = []
     else batchCallAsync (encodeCall <$> bfilter (λ op, negb (isNoop op)) ops) = Ok answers) ∧
    replies_for ops answers replies ∧
    Forall2 (λ p r, handleReply p.1 p.2 = Ok r) (zip ops replies) rs.
Proof.
  intros Hlaw H. unfold executeBatchAsync in H. destruct (forallb isNoop ops) eqn:En.
  - exists []. rewrite <- (handleRaw_noops _ []) in H by done.
    apply handleRaw_replies in H as (replies & Hr & Hh); [by exists replies|].
    rewrite bfilter_none; [done|]. apply Forall_forall. intros op Hop.
    rewrite forallb_forall in En. by rewrite (En op) by (by apply list_elem_of_In).
  - ok_inv H. exists a. apply handleRaw_replies in H as (replies & Hr & Hh); [by exists replies|].
    by rewrite (Hlaw _ _ E), length_fmap.
Qed.
End Contract.

(** ** Sample amounts *)

Definition getSampleAmounts (maxFillAmount : BN) (numSamples : nat) (expBase : number) : list BN :=
  let distribution := (λ i, pow (of_number expBase) (Z.of_nat i)) <$> seq 0 numSamples in
  let distributionSum := bn_sum distribution in
  let stepSizes := (λ d, div d distributionSum) <$> distribution in
  imap (λ i _,
      if (i =? numSamples - 1)%nat then maxFillAmount
      else integerValue ROUND_UP
             (times maxFillAmount (bn_sum (of_Z 0 :: take (S i) stepSizes))))
    stepSizes.

(** The exact distribution: powers of the base. *)
Definition powers (b : Q) (n : nat) : list Q := (λ i : nat, (b ^ Z.of_nat i)%Q) <$> seq 0 n.

Lemma powers_snoc b n : powers b (S n) = powers b n ++ [(b ^ Z.of_nat n)%Q].
Proof. unfold powers. by rewrite seq_S, fmap_app. Qed.

Lemma powers_ge_1 b n : (1 <= b)%Q → Forall (λ x, 1 <= x)%Q (powers b n).
Proof.
  intros Hb. apply Forall_fmap, Forall_forall. intros i _. cbn beta. unfold compose.
  induction i as [|i IH]; [done|]. rewrite Nat2Z.inj_succ, <- Z.add_1_r, Qpower_plus; [|lra].
  change (b ^ 1)%Q with b. set (p := (b ^ Z.of_nat i)%Q) in *. nra.
Qed.

Lemma of_nat_succ_Q n : (inject_Z (Z.of_nat (S n)) == inject_Z (Z.of_nat n) + 1)%Q.
Proof. rewrite Nat2Z.inj_succ, <- Z.add_1_r, inject_Z_plus. reflexivity. Qed.

Lemma of_nat_Q_nonneg n : (0 <= inject_Z (Z.of_nat n))%Q.
Proof. change 0%Q with (inject_Z 0). rewrite <- Zle_Qle. lia. Qed.

Lemma powers_sum_le b n : (1 <= b)%Q → (Qsum (powers b (S n)) <= inject_Z (Z.of_nat (S n)) * b ^ Z.of_nat n)%Q.
Proof.
  intros Hb. induction n as [|n IH]; [vm_compute; discriminate|].
  rewrite powers_snoc, Qsum_app, Qsum_cons. change (Qsum []) with 0%Q.
  pose proof (powers_ge_1 b (S n) Hb) as H1. rewrite powers_snoc in H1.
  apply Forall_app in H1 as [_ H1]. apply Forall_cons in H1 as [H1 _].
  rewrite (of_nat_succ_Q n) in IH. rewrite (of_nat_succ_Q (S n)), (of_nat_succ_Q n).
  rewrite (Nat2Z.inj_succ n), <- Z.add_1_r in *.
  rewrite (Qpower_plus b (Z.of_nat n) 1) in * by lra. change (b ^ 1)%Q with b in *.
  pose proof (of_nat_Q_nonneg n).
  set (p := (b ^ Z.of_nat n)%Q) in *. set (N := inject_Z (Z.of_nat n)) in *.
  assert (p <= p * b)%Q by nra. assert ((N + 1) * p <= (N + 1) * (p * b))%Q by nra. lra.
Qed.

(** The steps of the code are the powers over their sum, rounded. *)
Definition steps (b : Q) (n : nat) : list Q := (λ x, rdiv x (Qsum (powers b n))) <$> powers b n.

Lemma steps_sum_mono (l : list Q) i j :
  Forall (λ x, 0 <= x)%Q l → (i <= j)%nat → (Qsum (take i l) <= Qsum (take j l))%Q.
Proof.
  intros Hl Hij. replace j with (i + (j - i))%nat by lia. rewrite <- (take_take_drop l i (j - i)), Qsum_app.
  assert (0 <= Qsum (take (j - i) (drop i l)))%Q; [|lra].
  by apply Qsum_nonneg, Forall_take, Forall_drop.
Qed.

Lemma rdiv_sum_le (S : Q) (l : list Q) :
  (0 < S)%Q →
  (Qsum ((λ x, rdiv x S) <$> l) <= Qsum l / S + inject_Z (Z.of_nat (length l)) * ((1 # 2) / pow10 DECIMAL_PLACES))%Q.
Proof.
  intros HS. induction l as [|x l IH].
  - change (0 <= 0 / S + 0 * ((1 # 2) / pow10 DECIMAL_PLACES))%Q.
    assert (0 / S == 0)%Q as -> by (field; lra). lra.
  - rewrite fmap_cons, !Qsum_cons. cbn [length]. rewrite of_nat_succ_Q.
    pose proof (round_dp_dist DECIMAL_PLACES (x / S)) as Hd. apply Qabs_Qle_condition in Hd. fold (rdiv x S) in Hd.
    set (e := ((1 # 2) / pow10 DECIMAL_PLACES)%Q) in *.
    assert ((x + Qsum l) / S == x / S + Qsum l / S)%Q as -> by (field; lra). lra.
Qed.

Lemma steps_within_one b n :
  (1 <= b)%Q → (Z.of_nat n * Z.of_nat n <= 10 ^ Z.of_nat DECIMAL_PLACES)%Z →
  (Qsum (take (n - 1) (steps b n)) <= 1)%Q.
Proof.
  intros Hb Hn. destruct n as [|n]; [simpl; lra|]. replace (S n - 1)%nat with n by lia.
  assert (length (powers b n) = n) as Hlen by (unfold powers; by rewrite length_fmap, length_seq).
  unfold steps. rewrite <- fmap_take.
  replace (take n (powers b (S n))) with (powers b n) by (by rewrite powers_snoc, take_app_length').
  pose proof (powers_ge_1 b (S n) Hb) as H1. rewrite powers_snoc in H1.
  apply Forall_app in H1 as [H1 Hlast]. apply Forall_cons in Hlast as [Hlast _].
  pose proof (powers_sum_le b n Hb) as Hle.
  assert (Qsum (powers b (S n)) == Qsum (powers b n) + b ^ Z.of_nat n)%Q as ES.
  { rewrite powers_snoc, Qsum_app, Qsum_cons. change (Qsum []) with 0%Q. lra. }
  assert (0 <= Qsum (powers b n))%Q as H0.
  { apply Qsum_nonneg. eapply Forall_impl; [exact H1|]. simpl. intros; lra. }
  etrans; [apply rdiv_sum_le; lra|].
  rewrite Hlen.
  set (S := Qsum (powers b (S n))) in *. set (P := Qsum (powers b n)) in *.
  set (p := (b ^ Z.of_nat n)%Q) in *. rewrite of_nat_succ_Q in Hle.
  set (D := pow10 DECIMAL_PLACES).
  assert (0 < D)%Q as HD by apply pow10_pos.
  pose proof (of_nat_Q_nonneg n). set (N := inject_Z (Z.of_nat n)) in *.
  assert ((N + 1) * (N + 1) <= D)%Q as HND.
  { unfold N, D, pow10. change 1%Q with (inject_Z 1). rewrite <- inject_Z_plus, <- inject_Z_mult, <- Zle_Qle. lia. }
  assert (P / S == 1 - p / S)%Q as -> by (rewrite ES; field; lra).
  assert (1 / (N + 1) <= p / S)%Q.
  { apply Qle_shift_div_l; [lra|]. apply (Qmult_le_r _ _ (N + 1)); [lra|].
    assert (1 / (N + 1) * S * (N + 1) == S)%Q as -> by (field; lra). lra. }
  assert (N * ((1 # 2) / D) <= 1 / (N + 1))%Q; [|lra].
  assert (N * ((1 # 2) / D) == N * (1 # 2) / D)%Q as -> by (field; lra).
  apply Qle_shift_div_r; [done|]. apply (Qmult_le_r _ _ (N + 1)); [lra|].
  assert (1 / (N + 1) * D * (N + 1) == D)%Q as -> by (field; lra). nra.
Qed.

(** The sampled amounts of an integer amount [A] *)
Definition sampleAmount (A : Z) (b : Q) (n i : nat) : Z :=
  if (i =? n - 1)%nat then A
  else round_int ROUND_UP (inject_Z A * Qsum (0%Q :: take (S i) (steps b n))).

Lemma getSampleAmounts_values maxFillAmount n expBase A b :
  fin maxFillAmount (inject_Z A) → fin (of_number expBase) b → (1 <= b)%Q →
  length (getSampleAmounts maxFillAmount n expBase) = n ∧
  ∀ i a, getSampleAmounts maxFillAmount n expBase !! i = Some a →
    fin a (inject_Z (sampleAmount A b n i)).
Proof.
  intros HA Hb Hb1. unfold getSampleAmounts. split; [by rewrite length_imap, !length_fmap, length_seq|].
  set (dist := (λ i, pow (of_number expBase) (Z.of_nat i)) <$> seq 0 n).
  assert (Forall2 fin dist (powers b n)) as Hdist.
  { unfold dist, powers. apply Forall2_fmap, Forall_Forall2_diag, Forall_forall. intros i _.
    apply fin_pow; [done | lia]. }
  intros i a Hi. rewrite list_lookup_imap in Hi.
  destruct (((λ d, div d (bn_sum dist)) <$> dist) !! i) as [s|] eqn:Es; [|done]. injection Hi as <-.
  assert (i < n)%nat as Hin.
  { apply lookup_lt_Some in Es. unfold dist in Es. by rewrite !length_fmap, length_seq in Es. }
  unfold sampleAmount. destruct (i =? n - 1)%nat; [done|].
  assert (0 < Qsum (powers b n))%Q as HS.
  { destruct n as [|n]; [lia|]. rewrite powers_snoc, Qsum_app, Qsum_cons. change (Qsum []) with 0%Q.
    pose proof (powers_ge_1 b (S n) Hb1) as H1. rewrite powers_snoc in H1.
    apply Forall_app in H1 as [H1 Hlast]. apply Forall_cons in Hlast as [Hlast _].
    assert (0 <= Qsum (powers b n))%Q; [|lra].
    apply Qsum_nonneg. eapply Forall_impl; [exact H1|]. simpl. intros; lra. }
  apply fin_integerValue, fin_times; [done|]. apply fin_bn_sum; [done|].
  constructor; [apply fin_ZERO|]. apply Forall2_take. unfold steps. apply Forall2_fmap.
  eapply Forall2_impl; [exact Hdist|]. intros x y Hxy. simpl. apply fin_div; [done | | lra].
  apply fin_bn_sum; [|done]. intros E.
  rewrite E in Hdist. apply Forall2_nil_inv_l in Hdist. rewrite Hdist in HS. simpl in HS. lra.
Qed.

Lemma steps_nonneg b n : (1 <= b)%Q → Forall (λ x, 0 <= x)%Q (steps b n).
Proof.
  intros Hb. unfold steps. apply Forall_fmap. pose proof (powers_ge_1 b n Hb) as H1.
  assert (0 <= Qsum (powers b n))%Q as H0.
  { apply Qsum_nonneg. eapply Forall_impl; [exact H1|]. simpl. intros; lra. }
  eapply Forall_impl; [exact H1|]. intros x Hx. cbn beta in *. unfold compose, rdiv.
  apply round_dp_nonneg. unfold Qdiv. apply Qmult_le_0_compat; [lra|]. by apply Qinv_le_0_compat.
Qed.

Lemma sampleAmount_bounds A b n i :
  (0 <= A)%Z → (1 <= b)%Q → (Z.of_nat n * Z.of_nat n <= 10 ^ Z.of_nat DECIMAL_PLACES)%Z → (i < n)%nat →
  (0 <= sampleAmount A b n i <= A)%Z.
Proof.
  intros HA Hb Hn Hi. unfold sampleAmount. case Nat.eqb_spec; intros E; [lia|].
  assert (0 <= inject_Z A)%Q as HAq by (change 0%Q with (inject_Z 0); by rewrite <- Zle_Qle).
  pose proof (steps_nonneg b n Hb) as Hs.
  assert (0 <= Qsum (take (S i) (steps b n)) <= 1)%Q as [H0 H1].
  { split; [by apply Qsum_nonneg, Forall_take|].
    etrans; [apply (steps_sum_mono _ (S i) (n - 1)); [done | lia]|]. by apply steps_within_one. }
  rewrite Qsum_cons. set (x := (inject_Z A * (0 + Qsum (take (S i) (steps b n))))%Q).
  assert (inject_Z 0 <= x <= inject_Z A)%Q as [Hx0 HxA] by (unfold x; change (inject_Z 0) with 0%Q; nra).
  apply (round_int_mono ROUND_UP) in Hx0, HxA. by rewrite !round_int_Z in *.
Qed.

Lemma sampleAmount_mono A b n i j :
  (0 <= A)%Z → (1 <= b)%Q → (Z.of_nat n * Z.of_nat n <= 10 ^ Z.of_nat DECIMAL_PLACES)%Z →
  (i <= j)%nat → (j < n)%nat → (sampleAmount A b n i <= sampleAmount A b n j)%Z.
Proof.
  intros HA Hb Hn Hij Hj. unfold sampleAmount at 2. case Nat.eqb_spec; intros Ej.
  - apply sampleAmount_bounds; [done..|lia].
  - unfold sampleAmount. case Nat.eqb_spec; intros Ei; [lia|].
    assert (0 <= inject_Z A)%Q as HAq by (change 0%Q with (inject_Z 0); by rewrite <- Zle_Qle).
    pose proof (steps_sum_mono (steps b n) (S i) (S j) (steps_nonneg b n Hb) ltac:(lia)).
    apply round_int_mono. rewrite !Qsum_cons. nra.
Qed.

(** C24. The sample amounts of an integer amount are as many as asked for, are
    integers that never decrease from zero on, and end with the full amount:
    the rounded step sizes do not add up to more than the whole. *)
Theorem sample_amounts_increasing maxFillAmount n expBase A b :
  fin maxFillAmount (inject_Z A) → (0 <= A)%Z → fin (of_number expBase) b → (1 <= b)%Q →
  (1 <= n)%nat → (Z.of_nat n * Z.of_nat n <= 10 ^ Z.of_nat DECIMAL_PLACES)%Z →
  ∃ zs, Forall2 (λ a z, fin a (inject_Z z)) (getSampleAmounts maxFillAmount n expBase) zs ∧
    length zs = n ∧ last zs = Some A ∧ Forall (λ z, 0 <= z <= A)%Z zs ∧
    ∀ i j x y, (i <= j)%nat → zs !! i = Some x → zs !! j = Some y → (x <= y)%Z.
Proof.
  intros HA HA0 Hb Hb1 Hn HnD. destruct (getSampleAmounts_values maxFillAmount n expBase A b) as [Hlen Hval]; [done..|].
  assert (∀ i z, (sampleAmount A b n <$> seq 0 n) !! i = Some z → z = sampleAmount A b n i ∧ (i < n)%nat) as Hz.
  { intros i z Hz. rewrite list_lookup_fmap in Hz. destruct (seq 0 n !! i) as [k|] eqn:Ek; [|done].
    apply lookup_seq in Ek as [-> Hk]. by injection Hz as <-. }
  exists (sampleAmount A b n <$> seq 0 n). split_and!.
  - apply Forall2_same_length_lookup. split; [by rewrite Hlen, length_fmap, length_seq|].
    intros i a z Ha Hi. apply Hz in Hi as [-> _]. by apply Hval.
  - by rewrite length_fmap, length_seq.
  - rewrite last_lookup, length_fmap, length_seq, list_lookup_fmap, (proj2 (lookup_seq 0 n (pred n) (pred n))) by lia.
    simpl. f_equal. unfold sampleAmount. by rewrite (proj2 (Nat.eqb_eq _ _)) by lia.
  - apply Forall_fmap, Forall_forall. intros i Hi. apply elem_of_seq in Hi. unfold compose.
    apply sampleAmount_bounds; [done..|lia].
  - intros i j x y Hij Hi Hj. apply Hz in Hi as [-> _], Hj as [-> ?]. by apply sampleAmount_mono.
Qed.
End Sampler.
Arguments encodeCall {T} _.
Arguments handleCallResults {T} _ _.
Arguments handleRevert {T} _ _.

(** ** Concrete batches *)
Import Concrete.

#[local] Instance echo_contract : SamplerContract :=
  {| encodeInput := λ function _, function;
     decodeOutput := λ _ _ _, Throw TypeError;
     batchCallAsync := λ calls, Ok ((λ c, (negb (String.eqb c "bad"), c)) <$> calls) |}.

Definition ex_op (call : string) : BatchedOperation string :=
  {| encodeCall := call; handleCallResults := λ d, Ok d; handleRevert := λ _, Ok "reverted"%string |}.

Lemma batch_routes_answers_witness :
  ∃ answers replies,
    batchCallAsync ["a"; "bad"; "b"]%string = Ok answers ∧
    replies_for [ex_op "a"; constant "c"; ex_op "bad"; ex_op "b"]%string answers replies ∧
    Forall2 (λ p r, handleReply p.1 p.2 = Ok r)
      (zip [ex_op "a"; constant "c"; ex_op "bad"; ex_op "b"]%string replies)
      ["a"; "c"; "reverted"; "b"]%string.
Proof.
  apply (batch_routes_answers [ex_op "a"; constant "c"; ex_op "bad"; ex_op "b"]%string
    ["a"; "c"; "reverted"; "b"]%string); [|reflexivity].
  intros calls answers [= <-]. by rewrite length_fmap.
Defined.

Lemma sample_amounts_increasing_witness :
  ∃ zs, Forall2 (λ a z, fin a (inject_Z z)) (getSampleAmounts (of_Z 100) 3 (n_Z 1)) zs ∧
    length zs = 3%nat ∧ last zs = Some 100%Z ∧ Forall (λ z, 0 <= z <= 100)%Z zs ∧
    ∀ i j x y, (i <= j)%nat → zs !! i = Some x → zs !! j = Some y → (x <= y)%Z.
Proof.
  apply (sample_amounts_increasing (of_Z 100) 3 (n_Z 1) 100 (inject_Z 1)).
  - apply fin_Z.
  - lia.
  - fin_now.
  - discriminate.
  - lia.
  - vm_compute. discriminate.
Defined.
