(* ===== verification/SamplerOperations.v ===== *)
(** * Sampler operations ([MOU/sampler_operations.ts], [samplers/uniswapv3_sampler.ts])

    The operations that sample every source for a pair of tokens: which contract
    function is called with which arguments, how its answer is read, and which
    fill data the samples carry from then on.  The operations of the two sides
    are followed by the batches made of them: quotes, two-hop quotes and the
    price of the native token. *)

From S2P Require Import Prelude JsNumber BigNum Types SourceFilters Orders Constants JsLib PairUtils.
From S2P Require Import TokenGraph Caches BridgeSources Sampler.

Section SamplerOperations.
Context {B : BigNumberLib} `{BT : !BridgeTables} `{SC : !SamplerContract}.

(** [formatBytes32String] of [@ethersproject/strings]. *)
Variable formatBytes32String : string → string.

Record BalancerSwapInfo : Type := { assets : list string; swapSteps : list BalancerBatchSwapStep }.
Record BalancerSwaps : Type := {
  swapInfoExactIn : list BalancerSwapInfo;
  swapInfoExactOut : list BalancerSwapInfo;
}.
Definition EMPTY_BALANCER_SWAPS : BalancerSwaps := {| swapInfoExactIn := []; swapInfoExactOut := [] |}.

(** The fields of the class.  A pool of Balancer is kept as its identifier; the
    Bancor service is its [getPaths]. *)
Record t : Type := {
  chainId : ChainId;
  balancerCache : IPoolsCache.t (Pool := string);
  balancerV2Cache : option (SwapInfoCache.t (BalancerSwaps := BalancerSwaps));
  tokenAdjacencyGraph : TokenAdjacencyGraph;
  aaveV2ReservesCache : option AaveReservesCache.t;
  aaveV3ReservesCache : option AaveReservesCache.t;
  compoundCTokenCache : option CompoundCTokenCache.t;
  _bancorService : option (string → string → list (list string));
}.

Definition path_value (l : list string) : AbiValue := VArray (VString <$> l).
Definition amounts_value (l : list BN) : AbiValue := VArray (VAmount <$> l).

Section Operations.
Variable this : t.

(** Uniswap and Mooniswap use ETH, represented by address(0). *)
Definition ethAddress (token : string) : string :=
  if String.eqb token (NATIVE_FEE_TOKEN_BY_CHAIN_ID (chainId this)) then NULL_ADDRESS else token.

(** ** Operations of single values *)

Definition as_batched (op : SourceQuoteOperation) : BatchedOperation (list BN) :=
  {| encodeCall := op_encodeCall op;
     handleCallResults := λ data, fst <$> op_handleCallResults op data;
     handleRevert := λ data, Ok (op_handleRevert op data).1 |}.

Definition getTokenDecimals (tokens : list string) : BatchedOperation (list BN) :=
  as_batched (SamplerContractOperation ERC20BridgeSource.Native FDEmpty "getTokenDecimals"
    [path_value tokens] None).

Definition isAddressContract (address : string) : BatchedOperation bool :=
  {| encodeCall := encodeInput "isContract" [VString address];
     handleCallResults := decodeOutput RBool "isContract";
     handleRevert := λ _, Throw (Error "Invalid address for isAddressContract") |}.

Definition getGasLeft : BatchedOperation BN :=
  {| encodeCall := encodeInput "getGasLeft" [];
     handleCallResults := decodeOutput RAmount "getGasLeft";
     handleRevert := λ _, Throw (Error "Invalid result for getGasLeft") |}.

Definition getBlockNumber : BatchedOperation BN :=
  {| encodeCall := encodeInput "getBlockNumber" [];
     handleCallResults := decodeOutput RAmount "getBlockNumber";
     handleRevert := λ _, Throw (Error "Invalid result for getBlockNumber") |}.

(** The arguments of a limit order: its fields and its signature. *)
Definition order_value (o : OrderFields) : AbiValue :=
  VTuple [VString (order_makerToken o); VString (order_takerToken o); VAmount (order_makerAmount o);
    VAmount (order_takerAmount o); VAmount (order_takerTokenFeeAmount o); VString (order_maker o);
    VAmount (order_expiry o)].
Definition signature_value (s : Signature) : AbiValue :=
  VTuple [VNumber (sig_v s); VString (sig_r s); VString (sig_s s)].

Definition getLimitOrderFillableAmounts (function : string)
    (orders : list (OrderFields * Signature)) (exchangeAddress : string) : BatchedOperation (list BN) :=
  match orders with
  | [] => constant []
  | _ =>
      if match orders with [o] => String.eqb (order_maker o.1) NULL_ADDRESS | _ => false end
      then constant [ZERO_AMOUNT]
      else as_batched (SamplerContractOperation ERC20BridgeSource.Native FDEmpty function
             [VArray (order_value ∘ fst <$> orders); VArray (signature_value ∘ snd <$> orders);
              VString exchangeAddress] None)
  end.
Definition getLimitOrderFillableTakerAmounts :=
  getLimitOrderFillableAmounts "getLimitOrderFillableTakerAssetAmounts".
Definition getLimitOrderFillableMakerAmounts :=
  getLimitOrderFillableAmounts "getLimitOrderFillableMakerAssetAmounts".

(** ** Operations of the sources *)

Definition getKyberDmmSellQuotes (router : string) (tokenAddressPath : list string)
    (takerFillAmounts : list BN) : SourceQuoteOperation :=
  SamplerContractOperation ERC20BridgeSource.KyberDmm FDEmpty "sampleSellsFromKyberDmm"
    [VString router; path_value tokenAddressPath; amounts_value takerFillAmounts]
    (Some (λ callResults,
       '(pools, samples) ← decodeOutput (RPair (RList RString) (RList RAmount))
                             "sampleSellsFromKyberDmm" callResults;
       Ok (samples, FDKyberDmm tokenAddressPath router pools))).

Definition getKyberDmmBuyQuotes (router : string) (tokenAddressPath : list string)
    (makerFillAmounts : list BN) : SourceQuoteOperation :=
  SamplerContractOperation ERC20BridgeSource.KyberDmm FDEmpty "sampleBuysFromKyberDmm"
    [VString router; path_value tokenAddressPath; amounts_value makerFillAmounts]
    (Some (λ callResults,
       '(pools, samples) ← decodeOutput (RPair (RList RString) (RList RAmount))
                             "sampleBuysFromKyberDmm" callResults;
       Ok (samples, FDKyberDmm tokenAddressPath router pools))).

Definition getUniswapSellQuotes (router makerToken takerToken : string)
    (takerFillAmounts : list BN) : SourceQuoteOperation :=
  SamplerContractOperation ERC20BridgeSource.Uniswap (FDGenericRouter router) "sampleSellsFromUniswap"
    [VString router; VString (ethAddress takerToken); VString (ethAddress makerToken);
     amounts_value takerFillAmounts] None.

Definition getUniswapBuyQuotes (router makerToken takerToken : string)
    (makerFillAmounts : list BN) : SourceQuoteOperation :=
  SamplerContractOperation ERC20BridgeSource.Uniswap (FDGenericRouter router) "sampleBuysFromUniswap"
    [VString router; VString (ethAddress takerToken); VString (ethAddress makerToken);
     amounts_value makerFillAmounts] None.

Definition getUniswapV2SellQuotes (router : string) (tokenAddressPath : list string)
    (takerFillAmounts : list BN) (source : ERC20BridgeSource) : SourceQuoteOperation :=
  SamplerContractOperation source (FDUniswapV2 tokenAddressPath router) "sampleSellsFromUniswapV2"
    [VString router; path_value tokenAddressPath; amounts_value takerFillAmounts] None.

Definition getUniswapV2BuyQuotes (router : string) (tokenAddressPath : list string)
    (makerFillAmounts : list BN) (source : ERC20BridgeSource) : SourceQuoteOperation :=
  SamplerContractOperation source (FDUniswapV2 tokenAddressPath router) "sampleBuysFromUniswapV2"
    [VString router; path_value tokenAddressPath; amounts_value makerFillAmounts] None.

Definition curve_value (pool : CurveInfo) : AbiValue :=
  VTuple [VString (curve_poolAddress pool); VString (curve_sellQuoteFunctionSelector pool);
          VString (curve_buyQuoteFunctionSelector pool)].

Definition getCurveSellQuotes (pool : CurveInfo) (fromTokenIdx toTokenIdx : Z)
    (takerFillAmounts : list BN) (source : ERC20BridgeSource) : SourceQuoteOperation :=
  SamplerContractOperation source (FDCurve fromTokenIdx toTokenIdx pool) "sampleSellsFromCurve"
    [curve_value pool; VAmount (of_Z fromTokenIdx); VAmount (of_Z toTokenIdx);
     amounts_value takerFillAmounts] None.

Definition getCurveBuyQuotes (pool : CurveInfo) (fromTokenIdx toTokenIdx : Z)
    (makerFillAmounts : list BN) (source : ERC20BridgeSource) : SourceQuoteOperation :=
  SamplerContractOperation source (FDCurve fromTokenIdx toTokenIdx pool) "sampleBuysFromCurve"
    [curve_value pool; VAmount (of_Z fromTokenIdx); VAmount (of_Z toTokenIdx);
     amounts_value makerFillAmounts] None.

Definition step_value (s : BalancerBatchSwapStep) : AbiValue :=
  VTuple [VString (step_poolId s); VAmount (of_Z (step_assetInIndex s));
          VAmount (of_Z (step_assetOutIndex s)); VAmount (step_amount s); VString (step_userData s)].

(** Samples with a zero are ignored altogether. *)
Definition allNonZero (samples : list BN) : list BN :=
  if forallb (λ v, negb (isZero v)) samples then samples else [].

Definition getBalancerV2MultihopSellQuotes (vault : string) (quoteSwaps fillSwaps : BalancerSwapInfo)
    (takerFillAmounts : list BN) (source : ERC20BridgeSource) : SourceQuoteOperation :=
  let fillData := FDBalancerV2Batch vault (swapSteps fillSwaps) (assets fillSwaps) (chainId this) in
  SamplerContractOperation source fillData "sampleMultihopSellsFromBalancerV2"
    [VString vault; VArray (step_value <$> swapSteps quoteSwaps); path_value (assets quoteSwaps);
     amounts_value takerFillAmounts]
    (Some (λ callResults,
       samples ← decodeOutput (RList RAmount) "sampleMultihopSellsFromBalancerV2" callResults;
       Ok (allNonZero samples, fillData))).

Definition getBalancerV2MultihopBuyQuotes (vault : string) (quoteSwaps fillSwaps : BalancerSwapInfo)
    (makerFillAmounts : list BN) (source : ERC20BridgeSource) : SourceQuoteOperation :=
  let fillData := FDBalancerV2Batch vault (swapSteps fillSwaps) (assets fillSwaps) (chainId this) in
  SamplerContractOperation source fillData "sampleMultihopBuysFromBalancerV2"
    [VString vault; VArray (step_value <$> swapSteps quoteSwaps); path_value (assets quoteSwaps);
     amounts_value makerFillAmounts]
    (Some (λ callResults,
       samples ← decodeOutput (RList RAmount) "sampleMultihopBuysFromBalancerV2" callResults;
       Ok (allNonZero samples, fillData))).

Definition getBalancerSellQuotes (poolAddress makerToken takerToken : string)
    (takerFillAmounts : list BN) (source : ERC20BridgeSource) : SourceQuoteOperation :=
  SamplerContractOperation source (FDBalancer poolAddress) "sampleSellsFromBalancer"
    [VString poolAddress; VString takerToken; VString makerToken; amounts_value takerFillAmounts] None.

Definition getBalancerBuyQuotes (poolAddress makerToken takerToken : string)
    (makerFillAmounts : list BN) (source : ERC20BridgeSource) : SourceQuoteOperation :=
  SamplerContractOperation source (FDBalancer poolAddress) "sampleBuysFromBalancer"
    [VString poolAddress; VString takerToken; VString makerToken; amounts_value makerFillAmounts] None.

Definition getMStableSellQuotes (router makerToken takerToken : string)
    (takerFillAmounts : list BN) : SourceQuoteOperation :=
  SamplerContractOperation ERC20BridgeSource.MStable (FDGenericRouter router) "sampleSellsFromMStable"
    [VString router; VString takerToken; VString makerToken; amounts_value takerFillAmounts] None.

Definition getMStableBuyQuotes (router makerToken takerToken : string)
    (makerFillAmounts : list BN) : SourceQuoteOperation :=
  SamplerContractOperation ERC20BridgeSource.MStable (FDGenericRouter router) "sampleBuysFromMStable"
    [VString router; VString takerToken; VString makerToken; amounts_value makerFillAmounts] None.

Definition bancor_value (registry : string) (paths : list (list string)) : AbiValue :=
  VTuple [VString registry; VArray (path_value <$> paths)].

(** The callback of the two Bancor operations. *)
Definition bancor_callback (function callResults : string) : result (list BN * FillData) :=
  '(networkAddress, (path, samples)) ←
    decodeOutput (RPair RString (RPair (RList RString) (RList RAmount))) function callResults;
  Ok (samples, FDBancor path networkAddress).

Definition getBancorSellQuotes (registry makerToken takerToken : string)
    (takerFillAmounts : list BN) : SourceQuoteOperation :=
  let paths := match _bancorService this with Some getPaths => getPaths takerToken makerToken | None => [] end in
  SamplerContractOperation ERC20BridgeSource.Bancor FDEmpty "sampleSellsFromBancor"
    [bancor_value registry paths; VString takerToken; VString makerToken; amounts_value takerFillAmounts]
    (Some (bancor_callback "sampleSellsFromBancor")).

Definition getBancorBuyQuotes (registry makerToken takerToken : string)
    (makerFillAmounts : list BN) : SourceQuoteOperation :=
  SamplerContractOperation ERC20BridgeSource.Bancor FDEmpty "sampleBuysFromBancor"
    [bancor_value registry []; VString takerToken; VString makerToken; amounts_value makerFillAmounts]
    (Some (bancor_callback "sampleBuysFromBancor")).

Definition getBancorV3SellQuotes (networkAddress networkInfoAddress : string) (path : list string)
    (takerFillAmounts : list BN) : SourceQuoteOperation :=
  SamplerContractOperation ERC20BridgeSource.BancorV3 (FDBancor path networkAddress)
    "sampleSellsFromBancorV3"
    [VString MAINNET_TOKENS_WETH; VString networkInfoAddress; path_value path;
     amounts_value takerFillAmounts] None.

Definition getBancorV3BuyQuotes (networkAddress networkInfoAddress : string) (path : list string)
    (makerFillAmounts : list BN) : SourceQuoteOperation :=
  SamplerContractOperation ERC20BridgeSource.BancorV3 (FDBancor path networkAddress)
    "sampleBuysFromBancorV3"
    [VString MAINNET_TOKENS_WETH; VString networkInfoAddress; path_value path;
     amounts_value makerFillAmounts] None.

Definition mooniswap_callback (function callResults : string) : result (list BN * FillData) :=
  '(poolAddress, samples) ← decodeOutput (RPair RString (RList RAmount)) function callResults;
  Ok (samples, FDMooniswap poolAddress).

Definition getMooniswapSellQuotes (registry makerToken takerToken : string)
    (takerFillAmounts : list BN) : SourceQuoteOperation :=
  SamplerContractOperation ERC20BridgeSource.Mooniswap FDEmpty "sampleSellsFromMooniswap"
    [VString registry; VString (ethAddress takerToken); VString (ethAddress makerToken);
     amounts_value takerFillAmounts]
    (Some (mooniswap_callback "sampleSellsFromMooniswap")).

Definition getMooniswapBuyQuotes (registry makerToken takerToken : string)
    (makerFillAmounts : list BN) : SourceQuoteOperation :=
  SamplerContractOperation ERC20BridgeSource.Mooniswap FDEmpty "sampleBuysFromMooniswap"
    [VString registry; VString (ethAddress takerToken); VString (ethAddress makerToken);
     amounts_value makerFillAmounts]
    (Some (mooniswap_callback "sampleBuysFromMooniswap")).

Definition getShellSellQuotes (poolAddress makerToken takerToken : string)
    (takerFillAmounts : list BN) (source : ERC20BridgeSource) : SourceQuoteOperation :=
  SamplerContractOperation source (FDShell poolAddress) "sampleSellsFromShell"
    [VString poolAddress; VString takerToken; VString makerToken; amounts_value takerFillAmounts] None.

Definition getShellBuyQuotes (poolAddress makerToken takerToken : string)
    (makerFillAmounts : list BN) (source : ERC20BridgeSource) : SourceQuoteOperation :=
  SamplerContractOperation source (FDShell poolAddress) "sampleBuysFromShell"
    [VString poolAddress; VString takerToken; VString makerToken; amounts_value makerFillAmounts] None.

Definition dodo_value (opts : DodoConfig) : AbiValue :=
  VTuple [VString (dodo_registry opts); VString (dodo_helper opts)].

(** DODO V2 fills leave the helper address out. *)
Definition dodo_callback (function : string) (helper : option string) (callResults : string)
    : result (list BN * FillData) :=
  '(isSellBase, (pool, samples)) ←
    decodeOutput (RPair RBool (RPair RString (RList RAmount))) function callResults;
  Ok (samples, FDDodo pool isSellBase helper).

Definition getDODOSellQuotes (opts : DodoConfig) (makerToken takerToken : string)
    (takerFillAmounts : list BN) : SourceQuoteOperation :=
  SamplerContractOperation ERC20BridgeSource.Dodo FDEmpty "sampleSellsFromDODO"
    [dodo_value opts; VString takerToken; VString makerToken; amounts_value takerFillAmounts]
    (Some (dodo_callback "sampleSellsFromDODO" (Some (dodo_helper opts)))).

Definition getDODOBuyQuotes (opts : DodoConfig) (makerToken takerToken : string)
    (makerFillAmounts : list BN) : SourceQuoteOperation :=
  SamplerContractOperation ERC20BridgeSource.Dodo FDEmpty "sampleBuysFromDODO"
    [dodo_value opts; VString takerToken; VString makerToken; amounts_value makerFillAmounts]
    (Some (dodo_callback "sampleBuysFromDODO" (Some (dodo_helper opts)))).

Definition getDODOV2SellQuotes (registry : string) (offset : BN) (makerToken takerToken : string)
    (takerFillAmounts : list BN) : SourceQuoteOperation :=
  SamplerContractOperation ERC20BridgeSource.DodoV2 FDEmpty "sampleSellsFromDODOV2"
    [VString registry; VAmount offset; VString takerToken; VString makerToken;
     amounts_value takerFillAmounts]
    (Some (dodo_callback "sampleSellsFromDODOV2" None)).

(** The answer of a buy is decoded as one of a sell. *)
Definition getDODOV2BuyQuotes (registry : string) (offset : BN) (makerToken takerToken : string)
    (makerFillAmounts : list BN) : SourceQuoteOperation :=
  SamplerContractOperation ERC20BridgeSource.DodoV2 FDEmpty "sampleBuysFromDODOV2"
    [VString registry; VAmount offset; VString takerToken; VString makerToken;
     amounts_value makerFillAmounts]
    (Some (dodo_callback "sampleSellsFromDODOV2" None)).

Definition psm_value (psmInfo : PsmInfo) : AbiValue :=
  VTuple [VString (psmAddress psmInfo); VString (ilkIdentifier psmInfo);
          VString (psm_gemTokenAddress psmInfo)].

Definition getMakerPsmSellQuotes (psmInfo : PsmInfo) (makerToken takerToken : string)
    (takerFillAmounts : list BN) : SourceQuoteOperation :=
  SamplerContractOperation ERC20BridgeSource.MakerPsm
    (FDMakerPsm (psmAddress psmInfo) (psm_gemTokenAddress psmInfo) takerToken true)
    "sampleSellsFromMakerPsm"
    [psm_value psmInfo; VString takerToken; VString makerToken; amounts_value takerFillAmounts] None.

Definition getMakerPsmBuyQuotes (psmInfo : PsmInfo) (makerToken takerToken : string)
    (makerFillAmounts : list BN) : SourceQuoteOperation :=
  SamplerContractOperation ERC20BridgeSource.MakerPsm
    (FDMakerPsm (psmAddress psmInfo) (psm_gemTokenAddress psmInfo) takerToken false)
    "sampleBuysFromMakerPsm"
    [psm_value psmInfo; VString takerToken; VString makerToken; amounts_value makerFillAmounts] None.

Definition lido_value (l : LidoInfo) : AbiValue :=
  VTuple [VString (stEthToken l); VString (wethToken l); VString (wstEthToken l)].

Definition getLidoSellQuotes (lidoInfo : LidoInfo) (makerToken takerToken : string)
    (takerFillAmounts : list BN) : SourceQuoteOperation :=
  SamplerContractOperation ERC20BridgeSource.Lido
    (FDLido (stEthToken lidoInfo) (wstEthToken lidoInfo) takerToken makerToken) "sampleSellsFromLido"
    [lido_value lidoInfo; VString takerToken; VString makerToken; amounts_value takerFillAmounts] None.

Definition getLidoBuyQuotes (lidoInfo : LidoInfo) (makerToken takerToken : string)
    (makerFillAmounts : list BN) : SourceQuoteOperation :=
  SamplerContractOperation ERC20BridgeSource.Lido
    (FDLido (stEthToken lidoInfo) (wstEthToken lidoInfo) takerToken makerToken) "sampleBuysFromLido"
    [lido_value lidoInfo; VString takerToken; VString makerToken; amounts_value makerFillAmounts] None.

(** Entries of an answer with the amounts they were sampled at, [amounts[i]].
    The contract returns at most one entry per amount; an entry without an
    amount is an error here. *)
Definition with_amounts {A C} (f : BN → A → C) (amounts : list BN) (l : list A) : result (list C) :=
  mapM (λ '(i, x), match amounts !! (i : nat) with
                   | Some a => Ok (f a x) | None => Throw TypeError end) (imap pair l).

(** [AaveInfo]. *)
Record AaveInfo : Type := {
  aave_lendingPool : string;
  aave_aToken : string;
  aave_underlyingToken : string;
}.

Definition getAaveV2SellQuotes (aaveInfo : AaveInfo) (makerToken takerToken : string)
    (takerFillAmounts : list BN) : SourceQuoteOperation :=
  SamplerContractOperation ERC20BridgeSource.AaveV2 FDEmpty "sampleSellsFromAaveV2"
    [VString (aave_aToken aaveInfo); VString (aave_underlyingToken aaveInfo); VString takerToken;
     VString makerToken; amounts_value takerFillAmounts]
    (Some (λ callResults,
       samples ← decodeOutput (RList RAmount) "sampleSellsFromAaveV2" callResults;
       Ok (samples, FDAaveV2 (aave_lendingPool aaveInfo) (aave_aToken aaveInfo) None None))).

Definition getAaveV2BuyQuotes (aaveInfo : AaveInfo) (makerToken takerToken : string)
    (makerFillAmounts : list BN) : SourceQuoteOperation :=
  SamplerContractOperation ERC20BridgeSource.AaveV2 FDEmpty "sampleBuysFromAaveV2"
    [VString (aave_aToken aaveInfo); VString (aave_underlyingToken aaveInfo); VString takerToken;
     VString makerToken; amounts_value makerFillAmounts]
    (Some (λ callResults,
       samples ← decodeOutput (RList RAmount) "sampleBuysFromAaveV2" callResults;
       Ok (samples, FDAaveV2 (aave_lendingPool aaveInfo) (aave_aToken aaveInfo) None None))).

(** The callback of the two Aave V3 operations. *)
Definition aaveV3_callback (function : string) (aaveInfo : AaveInfo) (amounts : list BN)
    (callResults : string) : result (list BN * FillData) :=
  '(l2Params, samples) ← decodeOutput (RPair (RList RString) (RList RAmount)) function callResults;
  l2EncodedParams ← with_amounts (λ a p, {| l2_inputAmount := a; l2_parameter := p |}) amounts l2Params;
  Ok (samples, FDAaveV3 (aave_lendingPool aaveInfo) (aave_aToken aaveInfo) None None l2EncodedParams).

Definition getAaveV3SellQuotes (aaveInfo : AaveInfo) (makerToken takerToken : string)
    (takerFillAmounts : list BN) (l2EncoderAddress : string) : SourceQuoteOperation :=
  SamplerContractOperation ERC20BridgeSource.AaveV3 FDEmpty "sampleSellsFromAaveV3"
    [VString l2EncoderAddress; VString (aave_aToken aaveInfo); VString (aave_underlyingToken aaveInfo);
     VString takerToken; VString makerToken; amounts_value takerFillAmounts]
    (Some (aaveV3_callback "sampleSellsFromAaveV3" aaveInfo takerFillAmounts)).

Definition getAaveV3BuyQuotes (aaveInfo : AaveInfo) (makerToken takerToken : string)
    (makerFillAmounts : list BN) (l2EncoderAddress : string) : SourceQuoteOperation :=
  SamplerContractOperation ERC20BridgeSource.AaveV3 FDEmpty "sampleBuysFromAaveV3"
    [VString l2EncoderAddress; VString (aave_aToken aaveInfo); VString (aave_underlyingToken aaveInfo);
     VString takerToken; VString makerToken; amounts_value makerFillAmounts]
    (Some (aaveV3_callback "sampleBuysFromAaveV3" aaveInfo makerFillAmounts)).

Definition getCompoundSellQuotes (cToken makerToken takerToken : string)
    (takerFillAmounts : list BN) : SourceQuoteOperation :=
  SamplerContractOperation ERC20BridgeSource.Compound (FDCompound cToken takerToken makerToken)
    "sampleSellsFromCompound"
    [VString cToken; VString takerToken; VString makerToken; amounts_value takerFillAmounts] None.

Definition getCompoundBuyQuotes (cToken makerToken takerToken : string)
    (makerFillAmounts : list BN) : SourceQuoteOperation :=
  SamplerContractOperation ERC20BridgeSource.Compound (FDCompound cToken takerToken makerToken)
    "sampleBuysFromCompound"
    [VString cToken; VString takerToken; VString makerToken; amounts_value makerFillAmounts] None.

Definition getGMXSellQuotes (router reader vault : string) (tokenAddressPath : list string)
    (takerFillAmounts : list BN) : SourceQuoteOperation :=
  SamplerContractOperation ERC20BridgeSource.GMX (FDGMX router reader vault tokenAddressPath)
    "sampleSellsFromGMX"
    [VString reader; VString vault; path_value tokenAddressPath; amounts_value takerFillAmounts] None.

Definition getGMXBuyQuotes (router reader vault : string) (tokenAddressPath : list string)
    (makerFillAmounts : list BN) : SourceQuoteOperation :=
  SamplerContractOperation ERC20BridgeSource.GMX (FDGMX router reader vault tokenAddressPath)
    "sampleBuysFromGMX"
    [VString reader; VString vault; path_value tokenAddressPath; amounts_value makerFillAmounts] None.

(** [pool] always holds the one address [pool[0]]. *)
Definition getPlatypusSellQuotes (router pool : string) (tokenAddressPath : list string)
    (takerFillAmounts : list BN) : SourceQuoteOperation :=
  SamplerContractOperation ERC20BridgeSource.Platypus (FDPlatypus router [pool] tokenAddressPath)
    "sampleSellsFromPlatypus"
    [VString pool; path_value tokenAddressPath; amounts_value takerFillAmounts] None.

Definition getPlatypusBuyQuotes (router pool : string) (tokenAddressPath : list string)
    (makerFillAmounts : list BN) : SourceQuoteOperation :=
  SamplerContractOperation ERC20BridgeSource.Platypus (FDPlatypus router [pool] tokenAddressPath)
    "sampleBuysFromPlatypus"
    [VString pool; path_value tokenAddressPath; amounts_value makerFillAmounts] None.

Definition velodrome_callback (function router callResults : string) : result (list BN * FillData) :=
  '(isStable, samples) ← decodeOutput (RPair RBool (RList RAmount)) function callResults;
  Ok (samples, FDVelodrome router isStable).

Definition getSolidlySellQuotes (source : ERC20BridgeSource) (router takerToken makerToken : string)
    (takerFillAmounts : list BN) : SourceQuoteOperation :=
  SamplerContractOperation source FDEmpty "sampleSellsFromVelodrome"
    [VString router; VString takerToken; VString makerToken; amounts_value takerFillAmounts]
    (Some (velodrome_callback "sampleSellsFromVelodrome" router)).

Definition getSolidlyBuyQuotes (source : ERC20BridgeSource) (router takerToken makerToken : string)
    (makerFillAmounts : list BN) : SourceQuoteOperation :=
  SamplerContractOperation source FDEmpty "sampleBuysFromVelodrome"
    [VString router; VString takerToken; VString makerToken; amounts_value makerFillAmounts]
    (Some (velodrome_callback "sampleBuysFromVelodrome" router)).

Definition synthetix_callback (function taker32 maker32 callResults : string)
    : result (list BN * FillData) :=
  '(synthetix, samples) ← decodeOutput (RPair RString (RList RAmount)) function callResults;
  Ok (samples, FDSynthetix synthetix taker32 maker32 (chainId this)).

Definition getSynthetixSellQuotes (readProxy takerTokenSymbol makerTokenSymbol : string)
    (takerFillAmounts : list BN) : SourceQuoteOperation :=
  let taker32 := formatBytes32String takerTokenSymbol in
  let maker32 := formatBytes32String makerTokenSymbol in
  SamplerContractOperation ERC20BridgeSource.Synthetix FDEmpty "sampleSellsFromSynthetix"
    [VString readProxy; VString taker32; VString maker32; amounts_value takerFillAmounts]
    (Some (synthetix_callback "sampleSellsFromSynthetix" taker32 maker32)).

Definition getSynthetixBuyQuotes (readProxy takerTokenSymbol makerTokenSymbol : string)
    (makerFillAmounts : list BN) : SourceQuoteOperation :=
  let taker32 := formatBytes32String takerTokenSymbol in
  let maker32 := formatBytes32String makerTokenSymbol in
  SamplerContractOperation ERC20BridgeSource.Synthetix FDEmpty "sampleBuysFromSynthetix"
    [VString readProxy; VString taker32; VString maker32; amounts_value makerFillAmounts]
    (Some (synthetix_callback "sampleBuysFromSynthetix" taker32 maker32)).

Definition getWOOFiSellQuotes (router takerToken makerToken : string)
    (makerFillAmounts : list BN) : SourceQuoteOperation :=
  SamplerContractOperation ERC20BridgeSource.WOOFi (FDWOOFi router takerToken makerToken (chainId this))
    "sampleSellsFromWooPP"
    [VString router; VString takerToken; VString makerToken; amounts_value makerFillAmounts] None.

Definition getWOOFiBuyQuotes (router takerToken makerToken : string)
    (makerFillAmounts : list BN) : SourceQuoteOperation :=
  SamplerContractOperation ERC20BridgeSource.WOOFi (FDWOOFi router takerToken makerToken (chainId this))
    "sampleBuysFromWooPP"
    [VString router; VString takerToken; VString makerToken; amounts_value makerFillAmounts] None.

(** ** Uniswap V3 ([samplers/uniswapv3_sampler.ts]) *)

Definition postProcessSamplerFunctionOutput (amounts : list BN) (paths : list string)
    (gasUsed : list BN) : result (list PathAmount) :=
  mapM (λ '(i, path), match amounts !! (i : nat), gasUsed !! i with
                      | Some a, Some g => Ok {| pa_path := path; pa_inputAmount := a; pa_gasUsed := toNumber g |}
                      | _, _ => Throw TypeError end) (imap pair paths).

Definition createSamplerOperation (samplerMethodName : string) (tokenAddressPath : list string)
    (amounts : list BN) : SourceQuoteOperation :=
  let config := UNISWAPV3_CONFIG_BY_CHAIN_ID (chainId this) in
  SamplerContractOperation ERC20BridgeSource.UniswapV3 FDEmpty samplerMethodName
    [VString (uni3_factory config); path_value tokenAddressPath; amounts_value amounts]
    (Some (λ callResults,
       '(paths, (gasUsed, samples)) ←
         decodeOutput (RPair (RList RString) (RPair (RList RAmount) (RList RAmount)))
           samplerMethodName callResults;
       pathAmounts ← postProcessSamplerFunctionOutput amounts paths gasUsed;
       Ok (samples, FDTickDEXMultiPath tokenAddressPath (uni3_router config) pathAmounts))).
Definition createSampleSellsOperation := createSamplerOperation "sampleSellsFromUniswapV3".
Definition createSampleBuysOperation := createSamplerOperation "sampleBuysFromUniswapV3".

(** ** All sources of a pair *)

Definition tokenPaths (takerToken makerToken : string) (intermediateTokens : list string)
    : list (list string) :=
  [takerToken; makerToken] :: ((λ t, [takerToken; t; makerToken]) <$> intermediateTokens).

Definition anyRebasing (takerToken makerToken : string) : bool :=
  includes REBASING_TOKENS takerToken || includes REBASING_TOKENS makerToken.

(** lodash [_.difference(l, k).length === 0]. *)
Definition _isLidoSupported (takerTokenAddress makerTokenAddress : string) : bool :=
  let lidoInfo := LIDO_INFO_BY_CHAIN (chainId this) in
  if String.eqb (wethToken lidoInfo) NULL_ADDRESS then false
  else
    let takerToken := toLowerCase takerTokenAddress in
    let makerToken := toLowerCase makerTokenAddress in
    let wethToken := toLowerCase (wethToken lidoInfo) in
    let stEthToken := toLowerCase (stEthToken lidoInfo) in
    let wstEthToken := toLowerCase (wstEthToken lidoInfo) in
    if String.eqb takerToken wethToken && String.eqb makerToken stEthToken then true
    else forallb (includes [takerToken; makerToken]) [stEthToken; wstEthToken].

Definition aaveInfo (reserve : AaveReservesCache.Reserve) : AaveInfo :=
  {| aave_lendingPool := AaveReservesCache.lendingPool reserve;
     aave_aToken := AaveReservesCache.aTokenId reserve;
     aave_underlyingToken := AaveReservesCache.underlyingAsset reserve |}.

(** An operation when [o] is there. *)
Definition whenSome {A} (o : option A) (f : A → SourceQuoteOperation) : list SourceQuoteOperation :=
  match o with Some a => [f a] | None => [] end.

Definition reserveOf (cache : option AaveReservesCache.t) (takerToken makerToken : string)
    : option AaveReservesCache.Reserve :=
  match cache with Some c => AaveReservesCache.get c takerToken makerToken | None => None end.
Definition cTokenOf (takerToken makerToken : string) : option CompoundCTokenCache.CToken :=
  match compoundCTokenCache this with
  | Some c => CompoundCTokenCache.get c takerToken makerToken
  | None => None
  end.

(** The cached swaps of a pair, expired or not, when the chain has the vault. *)
Definition balancerV2Swaps (takerToken makerToken : string) : BalancerSwaps :=
  match balancerV2Cache this with
  | None => EMPTY_BALANCER_SWAPS
  | Some cache =>
      if String.eqb (BALANCER_V2_VAULT_ADDRESS_BY_CHAIN (chainId this)) NULL_ADDRESS
      then EMPTY_BALANCER_SWAPS
      else default EMPTY_BALANCER_SWAPS
             (SwapInfoCache.getCachedSwapInfoForPair EMPTY_BALANCER_SWAPS 0 cache takerToken makerToken true)
  end.

Definition synthetixSymbols (takerToken makerToken : string) : option (string * string) :=
  let currencyKeyMap := SYNTHETIX_CURRENCY_KEYS_BY_CHAIN_ID (chainId this) in
  match currencyKeyMap !! toLowerCase takerToken, currencyKeyMap !! toLowerCase makerToken with
  | Some t, Some m => Some (t, m)
  | _, _ => None
  end.

(** The cases of the switch of [_getSellQuoteOperations], from [Dodo] to the default. *)
Definition sellOperationsOf_rest (makerToken takerToken : string) (takerFillAmounts : list BN)
    (intermediateTokens : list string) (source : ERC20BridgeSource)
    : result (list SourceQuoteOperation) :=
  let chain := chainId this in
  match source with
  | ERC20BridgeSource.Dodo =>
      let config := DODOV1_CONFIG_BY_CHAIN_ID chain in
      Ok (if isValidAddress (dodo_registry config)
          then [getDODOSellQuotes config makerToken takerToken takerFillAmounts] else [])
  | ERC20BridgeSource.DodoV2 =>
      Ok (concat ((λ factory,
            (λ offset, getDODOV2SellQuotes factory offset makerToken takerToken takerFillAmounts)
              <$> getDodoV2Offsets) <$> bfilter isValidAddress (DODOV2_FACTORIES_BY_CHAIN_ID chain)))
  | ERC20BridgeSource.Bancor =>
      let registry := BANCOR_REGISTRY_BY_CHAIN_ID chain in
      Ok (if isValidAddress registry
          then [getBancorSellQuotes registry makerToken takerToken takerFillAmounts] else [])
  | ERC20BridgeSource.MakerPsm =>
      let psmInfo := MAKER_PSM_INFO_BY_CHAIN_ID chain in
      Ok (if isValidAddress (psmAddress psmInfo)
          then [getMakerPsmSellQuotes psmInfo makerToken takerToken takerFillAmounts] else [])
  | ERC20BridgeSource.UniswapV3 =>
      let config := UNISWAPV3_CONFIG_BY_CHAIN_ID chain in
      Ok (if anyRebasing takerToken makerToken || negb (isValidAddress (uni3_router config))
             || negb (isValidAddress (uni3_factory config)) then []
          else (λ path, createSampleSellsOperation path takerFillAmounts)
                 <$> tokenPaths takerToken makerToken intermediateTokens)
  | ERC20BridgeSource.Lido =>
      Ok (if _isLidoSupported takerToken makerToken
          then [getLidoSellQuotes (LIDO_INFO_BY_CHAIN chain) makerToken takerToken takerFillAmounts]
          else [])
  | ERC20BridgeSource.AaveV3 =>
      Ok (whenSome (reserveOf (aaveV3ReservesCache this) takerToken makerToken) (λ r,
            getAaveV3SellQuotes (aaveInfo r) makerToken takerToken takerFillAmounts
              (AAVE_V3_L2_ENCODERS_BY_CHAIN_ID chain)))
  | ERC20BridgeSource.AaveV2 =>
      Ok (whenSome (reserveOf (aaveV2ReservesCache this) takerToken makerToken) (λ r,
            getAaveV2SellQuotes (aaveInfo r) makerToken takerToken takerFillAmounts))
  | ERC20BridgeSource.Compound =>
      Ok (whenSome (cTokenOf takerToken makerToken) (λ c,
            getCompoundSellQuotes (CompoundCTokenCache.tokenAddress c) makerToken takerToken
              takerFillAmounts))
  | ERC20BridgeSource.GMX =>
      Ok (if String.eqb takerToken AVALANCHE_TOKENS_MIM || String.eqb makerToken AVALANCHE_TOKENS_MIM
          then []
          else [getGMXSellQuotes (GMX_ROUTER_BY_CHAIN_ID chain) (GMX_READER_BY_CHAIN_ID chain)
                  (GMX_VAULT_BY_CHAIN_ID chain) [takerToken; makerToken] takerFillAmounts])
  | ERC20BridgeSource.Platypus =>
      Ok ((λ pool, getPlatypusSellQuotes (PLATYPUS_ROUTER_BY_CHAIN_ID chain) (pool_poolAddress pool)
                     [takerToken; makerToken] takerFillAmounts)
            <$> getPlatypusInfoForPair chain takerToken makerToken)
  | ERC20BridgeSource.BancorV3 =>
      Ok [getBancorV3SellQuotes (BANCORV3_NETWORK_BY_CHAIN_ID chain)
            (BANCORV3_NETWORK_INFO_BY_CHAIN_ID chain) [takerToken; makerToken] takerFillAmounts]
  | ERC20BridgeSource.Dystopia =>
      Ok [getSolidlySellQuotes source (DYSTOPIA_ROUTER_BY_CHAIN_ID chain) takerToken makerToken
            takerFillAmounts]
  | ERC20BridgeSource.Velodrome =>
      Ok [getSolidlySellQuotes source (VELODROME_ROUTER_BY_CHAIN_ID chain) takerToken makerToken
            takerFillAmounts]
  | ERC20BridgeSource.Synthetix =>
      Ok (whenSome (synthetixSymbols takerToken makerToken) (λ '(taker, maker),
            getSynthetixSellQuotes (SYNTHETIX_READ_PROXY_BY_CHAIN_ID chain) taker maker takerFillAmounts))
  | ERC20BridgeSource.WOOFi =>
      Ok (if includes WOOFI_SUPPORTED_TOKENS takerToken && includes WOOFI_SUPPORTED_TOKENS makerToken
          then [getWOOFiSellQuotes (WOOFI_ROUTER_BY_CHAIN_ID chain) takerToken makerToken takerFillAmounts]
          else [])
  | _ =>
      Throw (Error "Unsupported sell sample source")
  end.

(** One case of the switch of [_getSellQuoteOperations]. *)
Definition sellOperationsOf (makerToken takerToken : string) (takerFillAmounts : list BN)
    (intermediateTokens : list string) (source : ERC20BridgeSource)
    : result (list SourceQuoteOperation) :=
  let chain := chainId this in
  if isBadTokenForSource makerToken source || isBadTokenForSource takerToken source then Ok []
  else match source with
  | ERC20BridgeSource.Uniswap =>
      let router := UNISWAPV1_ROUTER_BY_CHAIN_ID chain in
      Ok (if isValidAddress router
          then [getUniswapSellQuotes router makerToken takerToken takerFillAmounts] else [])
  | ERC20BridgeSource.UniswapV2 | ERC20BridgeSource.SushiSwap | ERC20BridgeSource.CryptoCom
  | ERC20BridgeSource.PancakeSwap | ERC20BridgeSource.PancakeSwapV2 | ERC20BridgeSource.BakerySwap
  | ERC20BridgeSource.ApeSwap | ERC20BridgeSource.QuickSwap | ERC20BridgeSource.Dfyn
  | ERC20BridgeSource.WaultSwap | ERC20BridgeSource.ShibaSwap | ERC20BridgeSource.Pangolin
  | ERC20BridgeSource.TraderJoe | ERC20BridgeSource.UbeSwap | ERC20BridgeSource.SpiritSwap
  | ERC20BridgeSource.SpookySwap | ERC20BridgeSource.Yoshi | ERC20BridgeSource.MorpheusSwap
  | ERC20BridgeSource.BiSwap | ERC20BridgeSource.MDex | ERC20BridgeSource.KnightSwap
  | ERC20BridgeSource.MeshSwap =>
      if anyRebasing takerToken makerToken then Ok []
      else
        uniLikeRouter ← uniswapV2LikeRouterAddress chain source;
        Ok (if isValidAddress uniLikeRouter
            then (λ path, getUniswapV2SellQuotes uniLikeRouter path takerFillAmounts source)
                   <$> tokenPaths takerToken makerToken intermediateTokens
            else [])
  | ERC20BridgeSource.KyberDmm =>
      let router := KYBER_DMM_ROUTER_BY_CHAIN_ID chain in
      Ok (if isValidAddress router
          then [getKyberDmmSellQuotes router [takerToken; makerToken] takerFillAmounts] else [])
  | ERC20BridgeSource.Curve | ERC20BridgeSource.CurveV2 | ERC20BridgeSource.Nerve
  | ERC20BridgeSource.Synapse | ERC20BridgeSource.Belt | ERC20BridgeSource.Ellipsis
  | ERC20BridgeSource.Saddle | ERC20BridgeSource.FirebirdOneSwap | ERC20BridgeSource.IronSwap
  | ERC20BridgeSource.ACryptos | ERC20BridgeSource.MobiusMoney =>
      fmap (M := list) (λ i, getCurveSellQuotes (detailed_pool i) (takerTokenIdx i) (makerTokenIdx i)
                               takerFillAmounts source)
        <$> getCurveLikeInfosForPair chain takerToken makerToken source
  | ERC20BridgeSource.Shell | ERC20BridgeSource.Component =>
      fmap (M := list) (λ pool, getShellSellQuotes pool makerToken takerToken takerFillAmounts source)
        <$> getShellLikeInfosForPair chain takerToken makerToken source
  | ERC20BridgeSource.MStable =>
      fmap (M := list) (λ pool, getMStableSellQuotes pool makerToken takerToken takerFillAmounts)
        <$> getShellLikeInfosForPair chain takerToken makerToken source
  | ERC20BridgeSource.Mooniswap =>
      Ok ((λ registry, getMooniswapSellQuotes registry makerToken takerToken takerFillAmounts)
            <$> bfilter isValidAddress (MOONISWAP_REGISTRIES_BY_CHAIN_ID chain))
  | ERC20BridgeSource.Balancer =>
      Ok ((λ pool, getBalancerSellQuotes pool makerToken takerToken takerFillAmounts
                     ERC20BridgeSource.Balancer)
            <$> IPoolsCache.getPoolAddressesForPair id (balancerCache this) takerToken makerToken)
  | ERC20BridgeSource.Beethovenx | ERC20BridgeSource.BalancerV2 =>
      Ok ((λ swapInfo, getBalancerV2MultihopSellQuotes (BALANCER_V2_VAULT_ADDRESS_BY_CHAIN chain)
                         swapInfo swapInfo takerFillAmounts source)
            <$> swapInfoExactIn (balancerV2Swaps takerToken makerToken))
  | _ => sellOperationsOf_rest makerToken takerToken takerFillAmounts intermediateTokens source
  end.

(** The cases of the switch of [_getBuyQuoteOperations], from [Dodo] to the default. *)
Definition buyOperationsOf_rest (makerToken takerToken : string) (makerFillAmounts : list BN)
    (intermediateTokens : list string) (source : ERC20BridgeSource)
    : result (list SourceQuoteOperation) :=
  let chain := chainId this in
  match source with
  | ERC20BridgeSource.Dodo =>
      let config := DODOV1_CONFIG_BY_CHAIN_ID chain in
      Ok (if isValidAddress (dodo_registry config)
          then [getDODOBuyQuotes config makerToken takerToken makerFillAmounts] else [])
  | ERC20BridgeSource.DodoV2 =>
      Ok (concat ((λ factory,
            (λ offset, getDODOV2BuyQuotes factory offset makerToken takerToken makerFillAmounts)
              <$> getDodoV2Offsets) <$> bfilter isValidAddress (DODOV2_FACTORIES_BY_CHAIN_ID chain)))
  | ERC20BridgeSource.Bancor => Ok []
  | ERC20BridgeSource.MakerPsm =>
      let psmInfo := MAKER_PSM_INFO_BY_CHAIN_ID chain in
      Ok (if isValidAddress (psmAddress psmInfo)
          then [getMakerPsmBuyQuotes psmInfo makerToken takerToken makerFillAmounts] else [])
  | ERC20BridgeSource.UniswapV3 =>
      let config := UNISWAPV3_CONFIG_BY_CHAIN_ID chain in
      Ok (if anyRebasing takerToken makerToken || negb (isValidAddress (uni3_router config))
             || negb (isValidAddress (uni3_factory config)) then []
          else (λ path, createSampleBuysOperation path makerFillAmounts)
                 <$> tokenPaths takerToken makerToken intermediateTokens)
  | ERC20BridgeSource.Lido =>
      Ok (if _isLidoSupported takerToken makerToken
          then [getLidoBuyQuotes (LIDO_INFO_BY_CHAIN chain) makerToken takerToken makerFillAmounts]
          else [])
  | ERC20BridgeSource.AaveV3 =>
      Ok (whenSome (reserveOf (aaveV3ReservesCache this) takerToken makerToken) (λ r,
            getAaveV3BuyQuotes (aaveInfo r) makerToken takerToken makerFillAmounts
              (AAVE_V3_L2_ENCODERS_BY_CHAIN_ID chain)))
  | ERC20BridgeSource.AaveV2 =>
      Ok (whenSome (reserveOf (aaveV2ReservesCache this) takerToken makerToken) (λ r,
            getAaveV2BuyQuotes (aaveInfo r) makerToken takerToken makerFillAmounts))
  | ERC20BridgeSource.Compound =>
      Ok (whenSome (cTokenOf takerToken makerToken) (λ c,
            getCompoundBuyQuotes (CompoundCTokenCache.tokenAddress c) makerToken takerToken
              makerFillAmounts))
  | ERC20BridgeSource.GMX =>
      Ok (if String.eqb takerToken AVALANCHE_TOKENS_MIM || String.eqb makerToken AVALANCHE_TOKENS_MIM
          then []
          else [getGMXBuyQuotes (GMX_ROUTER_BY_CHAIN_ID chain) (GMX_READER_BY_CHAIN_ID chain)
                  (GMX_VAULT_BY_CHAIN_ID chain) [takerToken; makerToken] makerFillAmounts])
  | ERC20BridgeSource.Platypus =>
      Ok ((λ pool, getPlatypusBuyQuotes (PLATYPUS_ROUTER_BY_CHAIN_ID chain) (pool_poolAddress pool)
                     [takerToken; makerToken] makerFillAmounts)
            <$> getPlatypusInfoForPair chain takerToken makerToken)
  | ERC20BridgeSource.BancorV3 =>
      Ok [getBancorV3BuyQuotes (BANCORV3_NETWORK_BY_CHAIN_ID chain)
            (BANCORV3_NETWORK_INFO_BY_CHAIN_ID chain) [takerToken; makerToken] makerFillAmounts]
  | ERC20BridgeSource.Dystopia =>
      Ok [getSolidlyBuyQuotes source (DYSTOPIA_ROUTER_BY_CHAIN_ID chain) takerToken makerToken
            makerFillAmounts]
  | ERC20BridgeSource.Velodrome =>
      Ok [getSolidlyBuyQuotes source (VELODROME_ROUTER_BY_CHAIN_ID chain) takerToken makerToken
            makerFillAmounts]
  | ERC20BridgeSource.Synthetix =>
      Ok (whenSome (synthetixSymbols takerToken makerToken) (λ '(taker, maker),
            getSynthetixBuyQuotes (SYNTHETIX_READ_PROXY_BY_CHAIN_ID chain) taker maker makerFillAmounts))
  | ERC20BridgeSource.WOOFi =>
      Ok (if includes WOOFI_SUPPORTED_TOKENS takerToken && includes WOOFI_SUPPORTED_TOKENS makerToken
          then [getWOOFiBuyQuotes (WOOFI_ROUTER_BY_CHAIN_ID chain) takerToken makerToken makerFillAmounts]
          else [])
  | _ =>
      Throw (Error "Unsupported buy sample source")
  end.

(** One case of the switch of [_getBuyQuoteOperations]. *)
Definition buyOperationsOf (makerToken takerToken : string) (makerFillAmounts : list BN)
    (intermediateTokens : list string) (source : ERC20BridgeSource)
    : result (list SourceQuoteOperation) :=
  let chain := chainId this in
  match source with
  | ERC20BridgeSource.Uniswap =>
      let router := UNISWAPV1_ROUTER_BY_CHAIN_ID chain in
      Ok (if isValidAddress router
          then [getUniswapBuyQuotes router makerToken takerToken makerFillAmounts] else [])
  | ERC20BridgeSource.UniswapV2 | ERC20BridgeSource.SushiSwap | ERC20BridgeSource.CryptoCom
  | ERC20BridgeSource.PancakeSwap | ERC20BridgeSource.PancakeSwapV2 | ERC20BridgeSource.BakerySwap
  | ERC20BridgeSource.ApeSwap | ERC20BridgeSource.QuickSwap | ERC20BridgeSource.Dfyn
  | ERC20BridgeSource.WaultSwap | ERC20BridgeSource.ShibaSwap | ERC20BridgeSource.Pangolin
  | ERC20BridgeSource.TraderJoe | ERC20BridgeSource.UbeSwap | ERC20BridgeSource.SpiritSwap
  | ERC20BridgeSource.SpookySwap | ERC20BridgeSource.Yoshi | ERC20BridgeSource.MorpheusSwap
  | ERC20BridgeSource.BiSwap | ERC20BridgeSource.MDex | ERC20BridgeSource.KnightSwap
  | ERC20BridgeSource.MeshSwap =>
      if anyRebasing takerToken makerToken then Ok []
      else
        uniLikeRouter ← uniswapV2LikeRouterAddress chain source;
        Ok (if isValidAddress uniLikeRouter
            then (λ path, getUniswapV2BuyQuotes uniLikeRouter path makerFillAmounts source)
                   <$> tokenPaths takerToken makerToken intermediateTokens
            else [])
  | ERC20BridgeSource.KyberDmm =>
      let router := KYBER_DMM_ROUTER_BY_CHAIN_ID chain in
      Ok (if isValidAddress router
          then [getKyberDmmBuyQuotes router [takerToken; makerToken] makerFillAmounts] else [])
  | ERC20BridgeSource.Curve | ERC20BridgeSource.CurveV2 | ERC20BridgeSource.Nerve
  | ERC20BridgeSource.Synapse | ERC20BridgeSource.Belt | ERC20BridgeSource.Ellipsis
  | ERC20BridgeSource.Saddle | ERC20BridgeSource.FirebirdOneSwap | ERC20BridgeSource.IronSwap
  | ERC20BridgeSource.ACryptos | ERC20BridgeSource.MobiusMoney =>
      fmap (M := list) (λ i, getCurveBuyQuotes (detailed_pool i) (takerTokenIdx i) (makerTokenIdx i)
                               makerFillAmounts source)
        <$> getCurveLikeInfosForPair chain takerToken makerToken source
  | ERC20BridgeSource.Shell | ERC20BridgeSource.Component =>
      fmap (M := list) (λ pool, getShellBuyQuotes pool makerToken takerToken makerFillAmounts source)
        <$> getShellLikeInfosForPair chain takerToken makerToken source
  | ERC20BridgeSource.MStable =>
      fmap (M := list) (λ pool, getMStableBuyQuotes pool makerToken takerToken makerFillAmounts)
        <$> getShellLikeInfosForPair chain takerToken makerToken source
  | ERC20BridgeSource.Mooniswap =>
      Ok ((λ registry, getMooniswapBuyQuotes registry makerToken takerToken makerFillAmounts)
            <$> bfilter isValidAddress (MOONISWAP_REGISTRIES_BY_CHAIN_ID chain))
  | ERC20BridgeSource.Balancer =>
      Ok ((λ pool, getBalancerBuyQuotes pool makerToken takerToken makerFillAmounts
                     ERC20BridgeSource.Balancer)
            <$> IPoolsCache.getPoolAddressesForPair id (balancerCache this) takerToken makerToken)
  | ERC20BridgeSource.Beethovenx | ERC20BridgeSource.BalancerV2 =>
      let swaps := balancerV2Swaps takerToken makerToken in
      mapM (λ '(i, quoteSwapInfo),
          match swapInfoExactIn swaps !! (i : nat) with
          | Some fillSwapInfo =>
              Ok (getBalancerV2MultihopBuyQuotes (BALANCER_V2_VAULT_ADDRESS_BY_CHAIN chain)
                    quoteSwapInfo fillSwapInfo makerFillAmounts source)
          | None => Throw TypeError
          end) (imap pair (swapInfoExactOut swaps))
  | _ => buyOperationsOf_rest makerToken takerToken makerFillAmounts intermediateTokens source
  end.

Definition _getSellQuoteOperations (sources : list ERC20BridgeSource) (makerToken takerToken : string)
    (takerFillAmounts : list BN) : result (list SourceQuoteOperation) :=
  let intermediateTokens := getIntermediateTokens (tokenAdjacencyGraph this) makerToken takerToken in
  let _sources :=
    SourceFilters.getAllowed
      (SourceFilters.exclude (SELL_SOURCE_FILTER_BY_CHAIN_ID (chainId this))
         [ERC20BridgeSource.MultiHop; ERC20BridgeSource.Native]) sources in
  @concat SourceQuoteOperation <$> mapM (sellOperationsOf makerToken takerToken takerFillAmounts intermediateTokens) _sources.

(** [BATCH_SOURCE_FILTERS] and [TWO_HOP_SOURCE_FILTERS]. *)
Definition BATCH_SOURCE_FILTERS : SourceFilters.t :=
  SourceFilters.exclude SourceFilters.all [ERC20BridgeSource.MultiHop; ERC20BridgeSource.Native].
Definition TWO_HOP_SOURCE_FILTERS : SourceFilters.t :=
  SourceFilters.exclude SourceFilters.all [ERC20BridgeSource.MultiHop; ERC20BridgeSource.Native].

Definition _getBuyQuoteOperations (sources : list ERC20BridgeSource) (makerToken takerToken : string)
    (makerFillAmounts : list BN) : result (list SourceQuoteOperation) :=
  let intermediateTokens := getIntermediateTokens (tokenAdjacencyGraph this) makerToken takerToken in
  let _sources := SourceFilters.getAllowed BATCH_SOURCE_FILTERS sources in
  @concat SourceQuoteOperation <$> mapM (buyOperationsOf makerToken takerToken makerFillAmounts intermediateTokens) _sources.

(** ** Quotes *)

(** The samples of one operation. *)
Definition samplesOf (op : SourceQuoteOperation) (amounts : list BN) (r : list BN * FillData)
    : result (list DexSample) :=
  with_amounts (λ input output, {| sample_source := op_source op; sample_fillData := r.2;
                                   sample_input := input; sample_output := output |}) amounts r.1.

(** The handler shared by the batches of quotes. *)
Definition quotesHandler (subOps : list SourceQuoteOperation) (amounts : list BN)
    (samples : list (list BN * FillData)) : result (list (list DexSample)) :=
  mapM (λ '(i, op), match samples !! (i : nat) with
                    | Some r => samplesOf op amounts r | None => Throw TypeError end) (imap pair subOps).

Definition getSellQuotes (sources : list ERC20BridgeSource) (makerToken takerToken : string)
    (takerFillAmounts : list BN) : result (BatchedOperation (list (list DexSample))) :=
  subOps ← _getSellQuoteOperations sources makerToken takerToken takerFillAmounts;
  Ok (_createBatch subOps (quotesHandler subOps takerFillAmounts) []).

Definition getBuyQuotes (sources : list ERC20BridgeSource) (makerToken takerToken : string)
    (makerFillAmounts : list BN) : result (BatchedOperation (list (list DexSample))) :=
  subOps ← _getBuyQuoteOperations sources makerToken takerToken makerFillAmounts;
  Ok (_createBatch subOps (quotesHandler subOps makerFillAmounts) []).

(** ** Two-hop quotes *)

(** [ops[hop.sourceIndex.toNumber()]]. *)
Definition opAt (ops : list SourceQuoteOperation) (sourceIndex : BN) : option SourceQuoteOperation :=
  head (bfilter (λ p, isEqualTo sourceIndex (of_Z (Z.of_nat p.1))) (imap pair ops)) ≫= λ p, Some p.2.

(** The source and the fill data of a hop, once its answer is handled. *)
Definition hopSource (ops : list SourceQuoteOperation) (hop : BN * string)
    : result (ERC20BridgeSource * FillData) :=
  match opAt ops hop.1 with
  | None => Throw TypeError
  | Some op => r ← op_handleCallResults op hop.2; Ok (op_source op, r.2)
  end.

(** The callback of a two-hop operation; [nothing] tells that the last amount
    means that there is no liquidity, [noAmount] is that amount. *)
Definition twoHop_callback (function : string) (nothing : BN → bool) (noAmount : BN)
    (firstHopOps secondHopOps : list SourceQuoteOperation) (intermediateToken callResults : string)
    : result (list BN * FillData) :=
  '(firstHop, (secondHop, amounts)) ←
    decodeOutput (RPair (RPair RAmount RString) (RPair (RPair RAmount RString) (RList RAmount)))
      function callResults;
  match last amounts with
  | None => Throw TypeError
  | Some a =>
      if nothing a then
        Ok (replicate (length amounts) noAmount, FDMultiHop None None intermediateToken)
      else
        firstHopSource ← hopSource firstHopOps firstHop;
        secondHopSource ← hopSource secondHopOps secondHop;
        Ok (amounts, FDMultiHop (Some firstHopSource) (Some secondHopSource) intermediateToken)
  end.

Definition twoHopOperation (function : string) (nothing : BN → bool) (noAmount : BN)
    (firstHopOps secondHopOps : list SourceQuoteOperation) (count : nat) (intermediateToken : string)
    : SourceQuoteOperation :=
  SamplerContractOperation ERC20BridgeSource.MultiHop (FDMultiHop None None intermediateToken) function
    [VArray ((λ op, VString (op_encodeCall op)) <$> firstHopOps);
     VArray ((λ op, VString (op_encodeCall op)) <$> secondHopOps); VAmount (of_Z (Z.of_nat count))]
    (Some (twoHop_callback function nothing noAmount firstHopOps secondHopOps intermediateToken)).

Definition twoHopSellOperation (_sources : list ERC20BridgeSource) (makerToken takerToken : string)
    (sellAmounts : list BN) (intermediateToken : string) : result SourceQuoteOperation :=
  firstHopOps ← _getSellQuoteOperations _sources intermediateToken takerToken sellAmounts;
  secondHopOps ← _getSellQuoteOperations _sources makerToken intermediateToken
                   (replicate (length sellAmounts) ZERO_AMOUNT);
  Ok (twoHopOperation "sampleTwoHopSell" isZero ZERO_AMOUNT firstHopOps secondHopOps
        (length sellAmounts) intermediateToken).

Definition twoHopBuyOperation (_sources : list ERC20BridgeSource) (makerToken takerToken : string)
    (buyAmounts : list BN) (intermediateToken : string) : result SourceQuoteOperation :=
  firstHopOps ← _getBuyQuoteOperations _sources intermediateToken takerToken
                  (replicate (length buyAmounts) ZERO_AMOUNT);
  secondHopOps ← _getBuyQuoteOperations _sources makerToken intermediateToken buyAmounts;
  Ok (twoHopOperation "sampleTwoHopBuy" (λ a, isEqualTo a MAX_UINT256) MAX_UINT256
        firstHopOps secondHopOps (length buyAmounts) intermediateToken).

(** The batch over the intermediate tokens, shared by both sides. *)
Definition twoHopQuotes
    (operation : list ERC20BridgeSource → string → string → list BN → string → result SourceQuoteOperation)
    (sources : list ERC20BridgeSource) (makerToken takerToken : string) (amounts : list BN)
    : result (BatchedOperation (list (list DexSample))) :=
  let _sources := SourceFilters.getAllowed TWO_HOP_SOURCE_FILTERS sources in
  match _sources with
  | [] => Ok (constant [])
  | _ =>
      let intermediateTokens := getIntermediateTokens (tokenAdjacencyGraph this) makerToken takerToken in
      subOps ← mapM (operation _sources makerToken takerToken amounts) intermediateTokens;
      Ok (_createBatch subOps (quotesHandler subOps amounts) [])
  end.
Definition getTwoHopSellQuotes := twoHopQuotes twoHopSellOperation.
Definition getTwoHopBuyQuotes := twoHopQuotes twoHopBuyOperation.

(** ** The price of the native token *)

(** [prices.sort((a, b) => a.adjustedPrice.comparedTo(b.adjustedPrice))], a stable
    sort: an element goes after those that are not greater. *)
Fixpoint insertPrice (p : BN * BN) (l : list (BN * BN)) : list (BN * BN) :=
  match l with
  | [] => [p]
  | q :: l' => if lte q.1 p.1 then q :: insertPrice p l' else p :: l
  end.
Definition sortPrices (l : list (BN * BN)) : list (BN * BN) :=
  fold_left (λ sorted p, insertPrice p sorted) l [].

(** [(adjustedPrice, price)] of one source. *)
Definition adjustedPriceOf (nativeFillAmount : BN) (feeSchedule : FeeSchedule)
    (op : SourceQuoteOperation) (r : list BN * FillData) : BN * BN :=
  match r.1 with
  | [] => (ZERO_AMOUNT, ZERO_AMOUNT)
  | v :: _ =>
      if isZero v then (ZERO_AMOUNT, ZERO_AMOUNT)
      else
        let price := div v nativeFillAmount in
        let fee := est_fee (feeSchedule (op_source op) r.2) in
        let adjustedNativeAmount := plus nativeFillAmount fee in
        (div v adjustedNativeAmount, price)
  end.

Definition selectPrice (nativeFillAmount : BN) (feeSchedule : FeeSchedule)
    (subOps : list SourceQuoteOperation) (samples : list (list BN * FillData)) : result BN :=
  match samples with
  | [] => Ok ZERO_AMOUNT
  | _ =>
      adjustedPrices ←
        mapM (λ '(i, op), match samples !! (i : nat) with
                          | Some r => Ok (adjustedPriceOf nativeFillAmount feeSchedule op r)
                          | None => Throw TypeError end) (imap pair subOps);
      match last (sortPrices adjustedPrices) with
      | Some p => Ok p.2
      | None => Throw TypeError
      end
  end.

Definition getBestNativeTokenSellRate (sources : list ERC20BridgeSource)
    (makerToken nativeToken : string) (nativeFillAmount : BN) (feeSchedule : FeeSchedule)
    : result (BatchedOperation BN) :=
  if String.eqb (toLowerCase makerToken) (toLowerCase nativeToken) then Ok (constant (of_Z 1))
  else
    subOps ← _getSellQuoteOperations sources makerToken nativeToken [nativeFillAmount];
    Ok (_createBatch subOps (selectPrice nativeFillAmount feeSchedule subOps) ZERO_AMOUNT).

(** ** The fill data of samples *)

(** [op] samples [source], and once an answer is handled its fill data has the
    shape the bridge of the source needs. *)
Definition shaped (source : ERC20BridgeSource) (op : SourceQuoteOperation) : Prop :=
  op_source op = source ∧
  ∀ data samples fd, op_handleCallResults op data = Ok (samples, fd) → sampled_shape source fd = true.

Lemma shaped_plain source fd function params :
  sampled_shape source fd = true → shaped source (SamplerContractOperation source fd function params None).
Proof.
  intros Hs. split; [done|]. intros data samples fd' H. simpl in H. ok_inv H. by injection H as -> ->.
Qed.

Lemma shaped_callback source fd function params (f : string → result (list BN * FillData)) :
  (∀ data samples fd', f data = Ok (samples, fd') → sampled_shape source fd' = true) →
  shaped source (SamplerContractOperation source fd function params (Some f)).
Proof. intros H. by split. Qed.

Lemma uniLike_shape source p r : isUniswapV2Like source = true → sampled_shape source (FDUniswapV2 p r) = true.
Proof. by destruct source. Qed.

(** Invert the answer of a callback. *)
Ltac callback_inv :=
  let data := fresh "data" in let samples := fresh "samples" in
  let fd := fresh "fd" in let H := fresh "H" in
  intros data samples fd H;
  unfold bancor_callback, mooniswap_callback, dodo_callback, aaveV3_callback, velodrome_callback,
    synthetix_callback in H; ok_inv H;
  repeat match goal with p : (_ * _)%type |- _ => destruct p end; ok_inv H; by injection H as <- <-.

(** An operation of [ops] is shaped for its source. *)
Ltac shaped_op :=
  first [ apply shaped_plain; first [reflexivity | by apply uniLike_shape]
        | apply shaped_callback; callback_inv ].

Lemma forall_fmap_shaped {A} source (f : A → SourceQuoteOperation) l :
  (∀ a, shaped source (f a)) → Forall (shaped source) (f <$> l).
Proof. intros H. apply Forall_fmap, Forall_forall. intros a _. apply H. Qed.

Lemma forall_whenSome {A} source (o : option A) (f : A → SourceQuoteOperation) :
  (∀ a, shaped source (f a)) → Forall (shaped source) (whenSome o f).
Proof. intros H. destruct o; simpl; auto. Qed.

Lemma forall_concat_fmap {A C} source (f : A → C → SourceQuoteOperation) la lc :
  (∀ a c, shaped source (f a c)) → Forall (shaped source) (concat (fmap (M := list) (λ a, fmap (M := list) (f a) lc) la)).
Proof.
  intros H. apply Forall_concat, Forall_fmap, Forall_forall. intros a _. apply forall_fmap_shaped, H.
Qed.

(** Every operation of a list of [sellOperationsOf] or [buyOperationsOf]. *)
Ltac shaped_ops :=
  repeat match goal with
  | |- Forall (shaped _) [] => constructor
  | |- Forall (shaped _) [_] => apply Forall_singleton
  | |- Forall (shaped _) (if ?b then _ else _) => destruct b
  | |- Forall (shaped _) (_ <$> _) => apply forall_fmap_shaped; intros ?
  | |- Forall (shaped _) (whenSome _ _) => apply forall_whenSome; intros ?
  | |- Forall (shaped _) (concat _) => apply forall_concat_fmap; intros ? ?
  | |- shaped _ (let '(_, _) := ?p in _) => destruct p
  | |- shaped _ _ => shaped_op
  end.

Lemma sellOperationsOf_shaped maker taker amounts mids source ops :
  sellOperationsOf maker taker amounts mids source = Ok ops → Forall (shaped source) ops.
Proof.
  unfold sellOperationsOf, sellOperationsOf_rest. destruct (_ || _); [by intros [= <-]|]. intros H.
  destruct source; try discriminate H;
    try (destruct (anyRebasing taker maker); [by injection H as <-|]);
    ok_inv H; try (subst ops); try (apply Ok_inj in H as <-); shaped_ops.
Qed.

Lemma buyOperationsOf_shaped maker taker amounts mids source ops :
  buyOperationsOf maker taker amounts mids source = Ok ops → Forall (shaped source) ops.
Proof.
  unfold buyOperationsOf, buyOperationsOf_rest. intros H.
  destruct source; try discriminate H;
    try (destruct (anyRebasing taker maker); [by injection H as <-|]);
    ok_inv H; try (subst ops); try (apply Ok_inj in H as <-); shaped_ops.
  all: apply mapM_imap_ok in H as [Hlen H]; apply Forall_lookup; intros i op Hop;
    destruct (swapInfoExactOut (balancerV2Swaps taker maker) !! i) as [q|] eqn:Eq;
    [| apply lookup_lt_Some in Hop; apply lookup_ge_None in Eq; lia];
    destruct (H _ _ Eq) as (op' & Hop' & Hf); rewrite Hop in Hop'; injection Hop' as <-;
    destruct (swapInfoExactIn _ !! i); [injection Hf as <- | discriminate Hf]; shaped_op.
Qed.

Lemma getAllowed_iff f sources s :
  s ∈ SourceFilters.getAllowed f sources ↔ s ∈ sources ∧ SourceFilters.isAllowed f s = true.
Proof. apply elem_of_bfilter. Qed.

Lemma batch_source_filters_single s :
  SourceFilters.isAllowed BATCH_SOURCE_FILTERS s = true →
  s ≠ ERC20BridgeSource.MultiHop ∧ s ≠ ERC20BridgeSource.Native.
Proof. intros H. split; intros ->; vm_compute in H; discriminate H. Qed.

(** A concatenation of shaped lists, by source. *)
Lemma shaped_concat (P : ERC20BridgeSource → Prop) (f : ERC20BridgeSource → result (list SourceQuoteOperation))
    sources ops :
  (∀ s os, f s = Ok os → Forall (shaped s) os) →
  (∀ s, s ∈ sources → P s) →
  @concat SourceQuoteOperation <$> mapM f sources = Ok ops →
  Forall (λ op, P (op_source op) ∧ shaped (op_source op) op) ops.
Proof.
  intros Hf HP H. ok_inv H. subst ops. apply Forall_concat, Forall_lookup. intros i os Hi.
  apply mapM_ok in E. eapply Forall2_lookup_r in E as (s & Hs & Hos); [|done].
  eapply Forall_impl; [by apply Hf|]. intros op [Hsrc Hshape]. split.
  - rewrite Hsrc. apply HP. by eapply list_elem_of_lookup_2.
  - by rewrite Hsrc.
Qed.

(** What the operations of a pair sample: a requested single source that the
    chain allows. *)
Definition sellable (sources : list ERC20BridgeSource) (s : ERC20BridgeSource) : Prop :=
  s ∈ sources ∧ SourceFilters.isAllowed (SELL_SOURCE_FILTER_BY_CHAIN_ID (chainId this)) s = true ∧
  s ≠ ERC20BridgeSource.MultiHop ∧ s ≠ ERC20BridgeSource.Native.
Definition buyable (sources : list ERC20BridgeSource) (s : ERC20BridgeSource) : Prop :=
  s ∈ sources ∧ s ≠ ERC20BridgeSource.MultiHop ∧ s ≠ ERC20BridgeSource.Native.

Lemma sell_operations_shaped sources maker taker amounts ops :
  _getSellQuoteOperations sources maker taker amounts = Ok ops →
  Forall (λ op, sellable sources (op_source op) ∧ shaped (op_source op) op) ops.
Proof.
  apply shaped_concat; [intros s os; apply sellOperationsOf_shaped|].
  intros s [Hs Ha]%getAllowed_iff. unfold sellable. unfold SourceFilters.exclude in Ha.
  rewrite SourceFilters.isAllowed_new in Ha. destruct Ha as (Hv & Hx & Hi).
  rewrite SourceFilters.isAllowed_iff. set_solver.
Qed.

Lemma buy_operations_shaped sources maker taker amounts ops :
  _getBuyQuoteOperations sources maker taker amounts = Ok ops →
  Forall (λ op, buyable sources (op_source op) ∧ shaped (op_source op) op) ops.
Proof.
  apply shaped_concat; [intros s os; apply buyOperationsOf_shaped|].
  intros s [Hs Ha%batch_source_filters_single]%getAllowed_iff. by split.
Qed.

(** Every source of a chain is supported: the operations always exist. *)
Lemma sell_operations_exist sources maker taker amounts :
  ∃ ops, _getSellQuoteOperations sources maker taker amounts = Ok ops.
Proof.
  unfold _getSellQuoteOperations.
  destruct (mapM_all_ok
    (sellOperationsOf maker taker amounts (getIntermediateTokens (tokenAdjacencyGraph this) maker taker))
    (SourceFilters.getAllowed
       (SourceFilters.exclude (SELL_SOURCE_FILTER_BY_CHAIN_ID (chainId this))
          [ERC20BridgeSource.MultiHop; ERC20BridgeSource.Native]) sources)) as [k ->]; [|by eexists].
  intros s [_ Ha]%getAllowed_iff. unfold SourceFilters.exclude in Ha.
  rewrite SourceFilters.isAllowed_new in Ha. destruct Ha as (_ & Hx & _).
  unfold sellOperationsOf, sellOperationsOf_rest. destruct (_ || _); [by eexists|].
  assert (s ≠ ERC20BridgeSource.MultiHop ∧ s ≠ ERC20BridgeSource.Native) as [H1 H2] by set_solver.
  destruct s; try congruence; try (destruct (anyRebasing _ _)); eexists; reflexivity.
Qed.

(** ** Batches of quotes *)

Lemma with_amounts_ok {A C} (f : BN → A → C) amounts l k :
  with_amounts f amounts l = Ok k →
  length k = length l ∧ (length l <= length amounts)%nat ∧
  ∀ i c, k !! i = Some c → ∃ a x, amounts !! i = Some a ∧ l !! i = Some x ∧ c = f a x.
Proof.
  intros [Hlen H]%mapM_imap_ok.
  assert (∀ i x, l !! i = Some x → ∃ a, amounts !! i = Some a ∧ k !! i = Some (f a x)) as H'.
  { intros i x Hx. destruct (H i x Hx) as (y & Hy & Hf). destruct (amounts !! i) as [a|]; [|done].
    injection Hf as <-. by exists a. }
  split_and!; [done| |].
  - destruct l as [|x l] using rev_ind; [simpl; lia|]. clear IHl.
    destruct (H' (length l) x) as (a & Ha%lookup_lt_Some & _); [by apply list_lookup_middle|].
    rewrite length_app. simpl. lia.
  - intros i c Hc. destruct (l !! i) as [x|] eqn:Ex.
    + destruct (H' i x Ex) as (a & Ha & Hk). rewrite Hc in Hk. injection Hk as ->. by exists a, x.
    + apply lookup_ge_None in Ex. apply lookup_lt_Some in Hc. lia.
Qed.

(** The samples of one operation: of its source, at the amounts in order, with
    one fill data. *)
Definition sampled (op : SourceQuoteOperation) (amounts : list BN) (q : list DexSample) : Prop :=
  sample_input <$> q = take (length q) amounts ∧
  ∃ fd, Forall (λ s, sample_source s = op_source op ∧ sample_fillData s = fd) q ∧
    (q = [] ∨ ∃ data samples, op_handleCallResults op data = Ok (samples, fd) ∧
       sample_output <$> q = samples).

Lemma samplesOf_sampled op raw amounts r q :
  handleSubCall op raw = Ok r → samplesOf op amounts r = Ok q → sampled op amounts q.
Proof.
  intros Hr (Hlen & Hle & Hq)%with_amounts_ok. split.
  - apply list_eq. intros i. rewrite list_lookup_fmap. destruct (q !! i) as [s|] eqn:Es; simpl.
    + destruct (Hq _ _ Es) as (a & x & Ha & _ & ->). simpl. apply lookup_lt_Some in Es.
      by rewrite lookup_take_lt.
    + apply lookup_ge_None in Es. by rewrite lookup_take_ge.
  - exists r.2. split.
    + apply Forall_lookup. intros i s Es. by destruct (Hq _ _ Es) as (a & x & _ & _ & ->).
    + destruct raw as [[[] data]|]; [| |done].
      * right. exists data, r.1. split; [by destruct r|].
        apply list_eq. intros i. rewrite list_lookup_fmap. destruct (q !! i) as [s|] eqn:Es; simpl.
        -- by destruct (Hq _ _ Es) as (a & x & _ & -> & ->).
        -- apply lookup_ge_None in Es. symmetry. apply lookup_ge_None. lia.
      * left. injection Hr as <-. by destruct q.
Qed.

(** The answer of a batch: one list of samples per operation. *)
Lemma batch_sampled subOps amounts none data quotes :
  handleCallResults (_createBatch subOps (quotesHandler subOps amounts) none) data = Ok quotes →
  Forall2 (λ op q, sampled op amounts q) subOps quotes.
Proof.
  intros H. simpl in H. ok_inv H. unfold handleSubCalls in E0.
  apply (mapM_imap_ok (λ i op, handleSubCall op (a !! i))) in E0 as [Hlen0 H0].
  apply (mapM_imap_ok (λ i op, match a0 !! i with Some r => samplesOf op amounts r | None => Throw TypeError end))
    in H as [Hlen H].
  apply Forall2_same_length_lookup. split; [done|]. intros i op q Hop Hq.
  destruct (H0 _ _ Hop) as (r & Hr & Hh). destruct (H _ _ Hop) as (q' & Hq' & Hs).
  rewrite Hq in Hq'. injection Hq' as <-. rewrite Hr in Hs. by eapply samplesOf_sampled.
Qed.

Lemma batch_answered subOps amounts quotes :
  answered (_createBatch subOps (quotesHandler subOps amounts) []) quotes →
  quotes = [] ∨ Forall2 (λ op q, sampled op amounts q) subOps quotes.
Proof.
  intros [data [H|H]]; [right; by eapply batch_sampled | left; by injection H as <-].
Qed.

(** A list of samples whose fill data fits its source, one of [P]. *)
Definition fitting (P : ERC20BridgeSource → Prop) (amounts : list BN) (q : list DexSample) : Prop :=
  sample_input <$> q = take (length q) amounts ∧
  ∃ source fd, Forall (λ s, sample_source s = source ∧ sample_fillData s = fd) q ∧
    (q = [] ∨ P source ∧ sampled_shape source fd = true).

Lemma sampled_fitting (P : ERC20BridgeSource → Prop) op amounts q :
  P (op_source op) ∧ shaped (op_source op) op → sampled op amounts q → fitting P amounts q.
Proof.
  intros [HP [_ Hs]] [Hin (fd & Hall & Hfd)]. split; [done|]. exists (op_source op), fd. split; [done|].
  destruct Hfd as [->|(data & samples & H & _)]; [by left|]. right. split; [done|]. by eapply Hs.
Qed.

Lemma fitting_batch (P : ERC20BridgeSource → Prop) ops amounts quotes :
  Forall (λ op, P (op_source op) ∧ shaped (op_source op) op) ops →
  answered (_createBatch ops (quotesHandler ops amounts) []) quotes →
  Forall (fitting P amounts) quotes.
Proof.
  intros Hops [->|Hq]%batch_answered; [constructor|]. apply Forall_lookup. intros i q Hi.
  eapply Forall2_lookup_r in Hq as (op & Hop & Hs); [|done].
  eapply sampled_fitting; [|done]. rewrite Forall_lookup in Hops. by eapply Hops.
Qed.

Lemma sell_batch_fits sources maker taker amounts batch quotes :
  getSellQuotes sources maker taker amounts = Ok batch → answered batch quotes →
  Forall (fitting (sellable sources) amounts) quotes.
Proof.
  intros H. unfold getSellQuotes in H. ok_inv H. injection H as <-.
  apply fitting_batch. by eapply sell_operations_shaped.
Qed.

Lemma buy_batch_fits sources maker taker amounts batch quotes :
  getBuyQuotes sources maker taker amounts = Ok batch → answered batch quotes →
  Forall (fitting (buyable sources) amounts) quotes.
Proof.
  intros H. unfold getBuyQuotes in H. ok_inv H. injection H as <-.
  apply fitting_batch. by eapply buy_operations_shaped.
Qed.

Lemma sell_quotes_fit sources maker taker amounts :
  ∃ batch, getSellQuotes sources maker taker amounts = Ok batch ∧
    ∀ data quotes, handleCallResults batch data = Ok quotes →
      Forall (fitting (sellable sources) amounts) quotes.
Proof.
  destruct (sell_operations_exist sources maker taker amounts) as [ops Hops].
  assert (∃ batch, getSellQuotes sources maker taker amounts = Ok batch) as [batch Hb].
  { unfold getSellQuotes. rewrite Hops. by eexists. }
  exists batch. split; [done|]. intros data quotes Hq. eapply sell_batch_fits; [done|].
  exists data. by left.
Qed.

(** C22. Quotes can always be asked for, on any chain, for any tokens and sources.
    What is sampled are requested sources that the chain sells through, each
    list of samples of one source at the sample amounts in order, with one fill
    data of the shape that the bridge of the source encodes. *)
Theorem sell_quotes_fit_sources sources maker taker amounts :
  ∃ batch, getSellQuotes sources maker taker amounts = Ok batch ∧
    ∀ data quotes, handleCallResults batch data = Ok quotes →
      Forall (fitting (sellable sources) amounts) quotes.
Proof. apply sell_quotes_fit. Qed.

(** Buys need every exact-out swap of a cached pair to come with its exact-in
    one, which is the one that is executed. *)
Definition swaps_paired (taker maker : string) : Prop :=
  (length (swapInfoExactOut (balancerV2Swaps taker maker)) <=
   length (swapInfoExactIn (balancerV2Swaps taker maker)))%nat.

Lemma buy_operations_exist sources maker taker amounts :
  swaps_paired taker maker → ∃ ops, _getBuyQuoteOperations sources maker taker amounts = Ok ops.
Proof.
  intros Hp. unfold _getBuyQuoteOperations.
  destruct (mapM_all_ok
    (buyOperationsOf maker taker amounts (getIntermediateTokens (tokenAdjacencyGraph this) maker taker))
    (SourceFilters.getAllowed BATCH_SOURCE_FILTERS sources)) as [k ->]; [|by eexists].
  intros s [_ [H1 H2]%batch_source_filters_single]%getAllowed_iff. unfold buyOperationsOf.
  destruct s; try congruence; try (destruct (anyRebasing _ _)); try (eexists; reflexivity);
    (apply mapM_all_ok; intros [i q] Hi; apply elem_of_lookup_imap in Hi as (j & x & [= -> ->] & Hj);
     destruct (swapInfoExactIn (balancerV2Swaps taker maker) !! j) eqn:E; [by eexists|];
     apply lookup_lt_Some in Hj; apply lookup_ge_None in E; unfold swaps_paired in Hp; lia).
Qed.

Lemma buy_quotes_fit sources maker taker amounts :
  swaps_paired taker maker →
  ∃ batch, getBuyQuotes sources maker taker amounts = Ok batch ∧
    ∀ data quotes, handleCallResults batch data = Ok quotes →
      Forall (fitting (buyable sources) amounts) quotes.
Proof.
  intros Hp. destruct (buy_operations_exist sources maker taker amounts Hp) as [ops Hops].
  assert (∃ batch, getBuyQuotes sources maker taker amounts = Ok batch) as [batch Hb].
  { unfold getBuyQuotes. rewrite Hops. by eexists. }
  exists batch. split; [done|]. intros data quotes Hq. eapply buy_batch_fits; [done|].
  exists data. by left.
Qed.

(** Buy quotes exist when the cached swaps of the pair are paired; their samples
    are of requested single sources, at the sample amounts in order, with fill
    data that the bridge of the source encodes. *)
Theorem buy_quotes_fit_sources sources maker taker amounts :
  swaps_paired taker maker →
  ∃ batch, getBuyQuotes sources maker taker amounts = Ok batch ∧
    ∀ data quotes, handleCallResults batch data = Ok quotes →
      Forall (fitting (buyable sources) amounts) quotes.
Proof. apply buy_quotes_fit. Qed.

(** ** Two-hop quotes *)

(** A hop through a source of [P], with the fill data of its bridge. *)
Definition hop_fits (P : ERC20BridgeSource → Prop) (h : ERC20BridgeSource * FillData) : Prop :=
  P h.1 ∧ sampled_shape h.1 h.2 = true.

Lemma opAt_elem ops i op : opAt ops i = Some op → op ∈ ops.
Proof.
  unfold opAt. destruct (bfilter _ _) as [|[j o] l] eqn:E; [done|]. simpl. intros [= ->].
  assert ((j, op) ∈ imap pair ops) as H.
  { eapply elem_of_bfilter. rewrite E. by left. }
  apply elem_of_lookup_imap in H as (k & x & [= -> ->] & Hk). by eapply list_elem_of_lookup_2.
Qed.

Lemma hopSource_fits (P : ERC20BridgeSource → Prop) ops hop h :
  Forall (λ op, P (op_source op) ∧ shaped (op_source op) op) ops → hopSource ops hop = Ok h → hop_fits P h.
Proof.
  intros Hops H. unfold hopSource in H. destruct (opAt ops hop.1) as [op|] eqn:Eo; [|done].
  ok_inv H. injection H as <-. destruct a as [samples fd]. rewrite Forall_forall in Hops.
  destruct (Hops op) as [HP [_ Hs]]; [by eapply opAt_elem|]. split; [done|]. simpl. by eapply Hs.
Qed.

(** A list of two-hop samples: either without liquidity and without hops, or
    both hops are set and fit. *)
Definition two_hop_fitting (P : ERC20BridgeSource → Prop) (noAmount : BN) (mids : list string)
    (amounts : list BN) (q : list DexSample) : Prop :=
  sample_input <$> q = take (length q) amounts ∧
  Forall (λ s, sample_source s = ERC20BridgeSource.MultiHop ∧
    ∃ mid, mid ∈ mids ∧
      (sample_fillData s = FDMultiHop None None mid ∧ sample_output s = noAmount ∨
       ∃ h1 h2, sample_fillData s = FDMultiHop (Some h1) (Some h2) mid ∧ hop_fits P h1 ∧ hop_fits P h2)) q.

Lemma twoHop_sampled P function nothing noAmount ops1 ops2 count mid mids amounts q :
  Forall (λ op, P (op_source op) ∧ shaped (op_source op) op) ops1 →
  Forall (λ op, P (op_source op) ∧ shaped (op_source op) op) ops2 →
  mid ∈ mids → sampled (twoHopOperation function nothing noAmount ops1 ops2 count mid) amounts q →
  two_hop_fitting P noAmount mids amounts q.
Proof.
  intros H1 H2 Hmid [Hin (fd & Hall & Hfd)]. split; [done|].
  destruct Hfd as [->|(data & samples & H & Hout)]; [constructor|]. simpl in H.
  unfold twoHop_callback in H. ok_inv H. destruct a as [firstHop [secondHop as_]]. clear E.
  destruct (last as_) as [a|]; [|done]. apply Forall_forall. intros s Hs.
  assert (sample_output s ∈ samples) as Hos by (rewrite <- Hout; by apply list_elem_of_fmap_2).
  rewrite Forall_forall in Hall. destruct (Hall s Hs) as [Hsrc Hsd]. split; [done|]. exists mid.
  split; [done|]. rewrite Hsd. destruct (nothing a).
  - left. injection H as <- <-. split; [done|]. by apply elem_of_replicate in Hos as [? _].
  - right. ok_inv H. injection H as _ <-. do 2 eexists. split; [done|]. split; [exact (hopSource_fits P _ _ _ H1 E) | exact (hopSource_fits P _ _ _ H2 E0)].
Qed.

(** The two sides share the batch. *)
Lemma two_hop_quotes_fit P noAmount
    (operation : list ERC20BridgeSource → string → string → list BN → string → result SourceQuoteOperation)
    sources maker taker amounts batch quotes :
  let mids := getIntermediateTokens (tokenAdjacencyGraph this) maker taker in
  let _sources := SourceFilters.getAllowed TWO_HOP_SOURCE_FILTERS sources in
  (∀ mid op q, mid ∈ mids → operation _sources maker taker amounts mid = Ok op → sampled op amounts q →
     two_hop_fitting P noAmount mids amounts q) →
  twoHopQuotes operation sources maker taker amounts = Ok batch → answered batch quotes →
  Forall (two_hop_fitting P noAmount mids amounts) quotes.
Proof.
  intros mids _sources Hfit H Ha. unfold twoHopQuotes in H. fold _sources mids in H.
  destruct _sources as [|s0 ss] eqn:Es.
  - apply Ok_inj in H as <-. destruct Ha as [data [Ha|Ha]]; injection Ha as <-; constructor.
  - ok_inv H. injection H as <-. apply batch_answered in Ha as [->|Hq]; [constructor|].
    apply Forall_lookup. intros i q Hi.
    eapply Forall2_lookup_r in Hq as (op & Hop & Hs); [|done]. apply mapM_ok in E.
    eapply Forall2_lookup_r in E as (mid & Hmid & Hop'); [|done].
    eapply Hfit; [by eapply list_elem_of_lookup_2 | exact Hop' | done].
Qed.

Lemma two_hop_quotes_exist
    (operation : list ERC20BridgeSource → string → string → list BN → string → result SourceQuoteOperation)
    sources maker taker amounts :
  let mids := getIntermediateTokens (tokenAdjacencyGraph this) maker taker in
  let _sources := SourceFilters.getAllowed TWO_HOP_SOURCE_FILTERS sources in
  (∀ mid, mid ∈ mids → ∃ op, operation _sources maker taker amounts mid = Ok op) →
  ∃ batch, twoHopQuotes operation sources maker taker amounts = Ok batch.
Proof.
  intros mids _sources Hex. unfold twoHopQuotes. fold _sources mids.
  destruct _sources as [|s0 ss] eqn:Es; [by eexists|].
  destruct (mapM_all_ok _ mids Hex) as [ops ->]. by eexists.
Qed.

(** The two-hop filter only narrows the sources. *)
Lemma two_hop_operands_fit (P Q : ERC20BridgeSource → Prop) (ops : list SourceQuoteOperation) :
  (∀ s, P s → Q s) → Forall (λ op, P (op_source op) ∧ shaped (op_source op) op) ops →
  Forall (λ op, Q (op_source op) ∧ shaped (op_source op) op) ops.
Proof. intros HPQ H. eapply Forall_impl; [exact H|]. intros o [? ?]. auto. Qed.

Lemma two_hop_sell_batch_fits sources maker taker amounts batch quotes :
  getTwoHopSellQuotes sources maker taker amounts = Ok batch → answered batch quotes →
  Forall (two_hop_fitting (sellable sources) ZERO_AMOUNT
            (getIntermediateTokens (tokenAdjacencyGraph this) maker taker) amounts) quotes.
Proof.
  assert (∀ s, sellable (SourceFilters.getAllowed TWO_HOP_SOURCE_FILTERS sources) s → sellable sources s) as Hsub.
  { intros s [[Hs _]%getAllowed_iff Hr]. by split. }
  apply two_hop_quotes_fit. intros mid op q Hmid H Hs. unfold twoHopSellOperation in H. ok_inv H.
  injection H as <-. eapply twoHop_sampled; [| | done | exact Hs];
    (eapply two_hop_operands_fit; [exact Hsub | by eapply sell_operations_shaped]).
Qed.

Lemma two_hop_buy_batch_fits sources maker taker amounts batch quotes :
  getTwoHopBuyQuotes sources maker taker amounts = Ok batch → answered batch quotes →
  Forall (two_hop_fitting (buyable sources) MAX_UINT256
            (getIntermediateTokens (tokenAdjacencyGraph this) maker taker) amounts) quotes.
Proof.
  assert (∀ s, buyable (SourceFilters.getAllowed TWO_HOP_SOURCE_FILTERS sources) s → buyable sources s) as Hsub.
  { intros s [[Hs _]%getAllowed_iff Hr]. by split. }
  apply two_hop_quotes_fit. intros mid op q Hmid H Hs. unfold twoHopBuyOperation in H. ok_inv H.
  injection H as <-. eapply twoHop_sampled; [| | done | exact Hs];
    (eapply two_hop_operands_fit; [exact Hsub | by eapply buy_operations_shaped]).
Qed.

Lemma two_hop_sells_fit sources maker taker amounts :
  let mids := getIntermediateTokens (tokenAdjacencyGraph this) maker taker in
  ∃ batch, getTwoHopSellQuotes sources maker taker amounts = Ok batch ∧
    ∀ data quotes, handleCallResults batch data = Ok quotes →
      Forall (two_hop_fitting (sellable sources) ZERO_AMOUNT mids amounts) quotes.
Proof.
  intros mids. destruct (two_hop_quotes_exist twoHopSellOperation sources maker taker amounts) as [batch Hb].
  - intros mid _. unfold twoHopSellOperation.
    destruct (sell_operations_exist (SourceFilters.getAllowed TWO_HOP_SOURCE_FILTERS sources) mid taker amounts) as [o1 ->].
    destruct (sell_operations_exist (SourceFilters.getAllowed TWO_HOP_SOURCE_FILTERS sources) maker mid
      (replicate (length amounts) ZERO_AMOUNT)) as [o2 ->]. by eexists.
  - exists batch. split; [done|]. intros data quotes Hq. eapply two_hop_sell_batch_fits; [done|].
    exists data. by left.
Qed.

(** Two-hop quotes of a sell exist for every pair and every choice of sources.
    Each list of samples goes through one intermediate token of the pair, and
    either has no output and no hops, or both hops go through requested single
    sources of the chain, with fill data their bridges encode. *)
Theorem two_hop_sell_quotes_fit sources maker taker amounts :
  let mids := getIntermediateTokens (tokenAdjacencyGraph this) maker taker in
  ∃ batch, getTwoHopSellQuotes sources maker taker amounts = Ok batch ∧
    ∀ data quotes, handleCallResults batch data = Ok quotes →
      Forall (two_hop_fitting (sellable sources) ZERO_AMOUNT mids amounts) quotes.
Proof. apply two_hop_sells_fit. Qed.

Lemma two_hop_buys_fit sources maker taker amounts :
  let mids := getIntermediateTokens (tokenAdjacencyGraph this) maker taker in
  (∀ mid, mid ∈ mids → swaps_paired taker mid ∧ swaps_paired mid maker) →
  ∃ batch, getTwoHopBuyQuotes sources maker taker amounts = Ok batch ∧
    ∀ data quotes, handleCallResults batch data = Ok quotes →
      Forall (two_hop_fitting (buyable sources) MAX_UINT256 mids amounts) quotes.
Proof.
  intros mids Hp. destruct (two_hop_quotes_exist twoHopBuyOperation sources maker taker amounts) as [batch Hb].
  - intros mid Hmid. destruct (Hp mid Hmid) as [Hp1 Hp2]. unfold twoHopBuyOperation.
    destruct (buy_operations_exist (SourceFilters.getAllowed TWO_HOP_SOURCE_FILTERS sources) mid taker
      (replicate (length amounts) ZERO_AMOUNT) Hp1) as [o1 ->].
    destruct (buy_operations_exist (SourceFilters.getAllowed TWO_HOP_SOURCE_FILTERS sources) maker mid
      amounts Hp2) as [o2 ->]. by eexists.
  - exists batch. split; [done|]. intros data quotes Hq. eapply two_hop_buy_batch_fits; [done|].
    exists data. by left.
Qed.

(** The same for buys, when the cached swaps of the hops are paired. *)
Theorem two_hop_buy_quotes_fit sources maker taker amounts :
  let mids := getIntermediateTokens (tokenAdjacencyGraph this) maker taker in
  (∀ mid, mid ∈ mids → swaps_paired taker mid ∧ swaps_paired mid maker) →
  ∃ batch, getTwoHopBuyQuotes sources maker taker amounts = Ok batch ∧
    ∀ data quotes, handleCallResults batch data = Ok quotes →
      Forall (two_hop_fitting (buyable sources) MAX_UINT256 mids amounts) quotes.
Proof. apply two_hop_buys_fit. Qed.

(** ** The price of the native token *)

Definition fin_key (p : BN * BN) : Prop := ∃ k, fin p.1 k.
Definition key_le (p q : BN * BN) : Prop := ∀ k l, fin p.1 k → fin q.1 l → (k <= l)%Q.

Lemma key_le_trans p q r : fin_key q → key_le p q → key_le q r → key_le p r.
Proof. intros [b Hb] H1 H2 a c Ha Hc. etrans; [by eapply H1 | by eapply H2]. Qed.

Lemma lte_key p q : fin_key p → fin_key q → lte p.1 q.1 = true → key_le p q.
Proof. intros _ _ H a b Ha Hb. by eapply lte_fin. Qed.

Lemma lte_key_false p q : fin_key p → fin_key q → lte p.1 q.1 = false → key_le q p.
Proof. intros _ _ H b a Hb Ha. apply Qlt_le_weak. by eapply lte_fin_false. Qed.

(** [q] is the last and a greatest element of [l]. *)
Definition last_max (l : list (BN * BN)) : Prop :=
  ∀ q, last l = Some q → Forall (λ p, key_le p q) l.

Lemma insertPrice_elem p l x : x ∈ insertPrice p l ↔ x = p ∨ x ∈ l.
Proof. induction l as [|q l IH]; simpl; [set_solver|]. destruct (lte q.1 p.1); set_solver. Qed.

Lemma insertPrice_last_max p l :
  fin_key p → Forall fin_key l → last_max l → last_max (insertPrice p l).
Proof.
  intros Hp Hl. induction Hl as [|q l Hq Hl IH]; intros Hm; simpl.
  - intros x [= <-]. constructor; [|done]. intros a b Ha Hb. by rewrite (fin_inj _ _ _ Ha Hb).
  - destruct (lte q.1 p.1) eqn:E.
    + intros x Hx. assert (last (insertPrice p l) = Some x) as Hx'.
      { destruct (insertPrice p l) eqn:Ei; [|done]. by destruct l; simpl in Ei; [|destruct (lte _ _)]. }
      assert (last_max l) as Hm'.
      { intros y Hy. destruct l as [|z l']; [done|]. specialize (Hm y Hy). by inversion Hm. }
      pose proof (IH Hm' x Hx') as Hall. constructor; [|done].
      rewrite Forall_forall in Hall. eapply (key_le_trans _ p); [done | by apply lte_key |].
      apply Hall, insertPrice_elem. by left.
    + intros x Hx. change (last (p :: q :: l)) with (last (q :: l)) in Hx. specialize (Hm x Hx).
      constructor; [|done]. apply Forall_cons in Hm as [Hqx _].
      eapply (key_le_trans _ q); [done | by apply lte_key_false | done].
Qed.

Lemma sortPrices_last l :
  l ≠ [] → Forall fin_key l → ∃ q, last (sortPrices l) = Some q ∧ q ∈ l ∧ Forall (λ p, key_le p q) l.
Proof.
  intros Hne Hl.
  assert (∀ acc, Forall fin_key acc → last_max acc →
    last_max (fold_left (λ s p, insertPrice p s) l acc) ∧
    ∀ x, x ∈ fold_left (λ s p, insertPrice p s) l acc ↔ x ∈ l ∨ x ∈ acc) as H.
  { clear Hne. induction Hl as [|p l Hp Hl IH]; intros acc Ha Hm; simpl; [set_solver|].
    destruct (IH (insertPrice p acc)) as [H1 H2].
    - apply Forall_forall. intros x [->|Hx]%insertPrice_elem; [done|]. rewrite Forall_forall in Ha. auto.
    - by apply insertPrice_last_max.
    - split; [done|]. intros x. rewrite H2, insertPrice_elem. set_solver. }
  destruct (H [] (Forall_nil_2 _) ltac:(done)) as [Hm Hin]. fold (sortPrices l) in *.
  destruct (last (sortPrices l)) as [q|] eqn:Eq.
  - exists q. split; [done|]. specialize (Hm q Eq). rewrite Forall_forall in Hm.
    split; [|apply Forall_forall; intros p Hp; apply Hm, Hin; by left].
    apply last_Some in Eq as [l' El]. destruct (Hin q) as [H1 _]. rewrite El in H1.
    destruct H1 as [?|?%not_elem_of_nil]; [set_solver | done | done].
  - apply last_None in Eq. destruct l as [|p l]; [done|]. destruct (Hin p) as [_ H1]. rewrite Eq in H1.
    exfalso. apply (not_elem_of_nil p), H1. left. by left.
Qed.

(** What a source gives for the native amount. *)
Definition gives (r : list BN * FillData) (q : Q) : Prop :=
  (0 <= q)%Q ∧ (r.1 = [] ∧ q = 0%Q ∨ ∃ v l, r.1 = v :: l ∧ fin v q).
Definition feeIs (feeSchedule : FeeSchedule) (op : SourceQuoteOperation) (r : list BN * FillData) (f : Q) : Prop :=
  (0 <= f)%Q ∧ fin (est_fee (feeSchedule (op_source op) r.2)) f.

Lemma rdiv_0 y : ¬ (y == 0)%Q → (rdiv 0 y == 0)%Q.
Proof.
  intros Hy. unfold rdiv. assert (0 / y == inject_Z 0)%Q as E by (change (inject_Z 0) with 0%Q; field; done).
  transitivity (round_dp DECIMAL_PLACES ROUND_HALF_UP (inject_Z 0)); [|apply round_dp_Z].
  apply Qle_antisym; apply round_dp_mono; rewrite E; lra.
Qed.

Lemma adjustedPriceOf_values native feeSchedule op r N q f :
  fin native N → (0 < N)%Q → gives r q → feeIs feeSchedule op r f →
  fin (adjustedPriceOf native feeSchedule op r).1 (rdiv q (N + f)) ∧
  fin (adjustedPriceOf native feeSchedule op r).2 (rdiv q N).
Proof.
  intros HN HN0 [Hq0 Hq] [Hf0 Hf]. unfold adjustedPriceOf.
  assert (fin ZERO_AMOUNT (rdiv 0 (N + f)) ∧ fin ZERO_AMOUNT (rdiv 0 N)) as Hz.
  { split; (eapply fin_eq; [apply fin_ZERO|]); rewrite rdiv_0; lra. }
  destruct Hq as [[-> ->]|(v & l & -> & Hv)]; [done|]. destruct (isZero v) eqn:E; simpl.
  - apply (isZero_fin _ _ Hv) in E. destruct Hz as [H1 H2].
    split; (eapply fin_eq; [apply fin_ZERO|]).
    + assert (fin ZERO_AMOUNT (rdiv q (N + f))) as H.
      { eapply fin_eq; [exact H1|]. unfold rdiv. apply Qle_antisym; apply round_dp_mono; rewrite E; lra. }
      eapply fin_inj; [apply fin_ZERO | exact H].
    + assert (fin ZERO_AMOUNT (rdiv q N)) as H.
      { eapply fin_eq; [exact H2|]. unfold rdiv. apply Qle_antisym; apply round_dp_mono; rewrite E; lra. }
      eapply fin_inj; [apply fin_ZERO | exact H].
  - split; apply fin_div; [done | by apply fin_plus | lra | done | done | lra].
Qed.

(** The selected price is that of a source whose price, after its fee is added
    to the native amount, no other source beats. *)
Theorem native_rate_is_best native feeSchedule subOps samples N :
  fin native N → (0 < N)%Q → samples ≠ [] →
  Forall2 (λ op r, ∃ q f, gives r q ∧ feeIs feeSchedule op r f) subOps samples →
  ∃ p k op r q f, selectPrice native feeSchedule subOps samples = Ok p ∧
    subOps !! k = Some op ∧ samples !! k = Some r ∧ gives r q ∧ feeIs feeSchedule op r f ∧
    fin p (rdiv q N) ∧
    ∀ j op' r' q' f', subOps !! j = Some op' → samples !! j = Some r' →
      gives r' q' → feeIs feeSchedule op' r' f' → (rdiv q' (N + f') <= rdiv q (N + f))%Q.
Proof.
  intros HN HN0 Hne H. set (g := adjustedPriceOf native feeSchedule).
  assert (mapM (λ '(i, op), match samples !! (i : nat) with
                            | Some r => Ok (g op r) | None => Throw TypeError end)
            (imap pair subOps) = Ok (zip_with g subOps samples)) as Hm.
  { apply mapM_ok, Forall2_same_length_lookup.
    pose proof (Forall2_length _ _ _ H) as Hl.
    split; [rewrite length_imap, length_zip_with; lia|]. intros i [j op] p Hi Hp.
    rewrite list_lookup_imap in Hi. destruct (subOps !! i) as [o|] eqn:Eo; [|done]. injection Hi as <- <-.
    rewrite lookup_zip_with, Eo in Hp. simpl in Hp. destruct (samples !! i) as [r|]; [|done].
    by injection Hp as <-. }
  assert (Forall fin_key (zip_with g subOps samples)) as Hk.
  { clear Hm Hne. induction H as [|op r ops rs (q & f & Hq & Hf) _ IH]; simpl; [done|]. constructor; [|done].
    eexists. by eapply adjustedPriceOf_values. }
  assert (zip_with g subOps samples ≠ []) as Hz by (clear Hm Hk; destruct H; [by destruct Hne | discriminate]).
  destruct (sortPrices_last _ Hz Hk) as (p & Hlast & Hp & Hmax).
  apply elem_of_lookup_zip_with in Hp as (k & op & r & -> & Hop & Hr).
  destruct (Forall2_lookup_lr _ _ _ _ _ _ H Hop Hr) as (q & f & Hq & Hf).
  exists (g op r).2, k, op, r, q, f. split_and!; try done.
  - assert (selectPrice native feeSchedule subOps samples =
      (adjustedPrices ← Ok (zip_with g subOps samples);
       match last (sortPrices adjustedPrices) with Some p => Ok p.2 | None => Throw TypeError end)) as ->.
    { rewrite <- Hm. unfold selectPrice, g. by destruct samples. }
    cbn [mbind result_bind]. by rewrite Hlast.
  - by eapply adjustedPriceOf_values.
  - intros j op' r' q' f' Hop' Hr' Hq' Hf'. rewrite Forall_forall in Hmax.
    apply (Hmax (g op' r')); [|by eapply adjustedPriceOf_values..].
    apply elem_of_lookup_zip_with. by exists j, op', r'.
Qed.
End Operations.
End SamplerOperations.

(** ** A concrete market *)
Module SamplerExamples.
Import Concrete.

#[export] Instance ex_tables : BridgeTables :=
  {| UNISWAPV1_ROUTER_BY_CHAIN_ID := λ _, "0x1"; UNISWAPV2_LIKE_ROUTER_BY_CHAIN_ID := λ _ _, "0x2";
     KYBER_DMM_ROUTER_BY_CHAIN_ID := λ _, "";
     CURVE_MAINNET_INFOS := []; CURVE_POLYGON_INFOS := []; CURVE_FANTOM_INFOS := [];
     CURVE_AVALANCHE_INFOS := []; CURVE_OPTIMISM_INFOS := []; CURVE_V2_MAINNET_INFOS := [];
     CURVE_V2_POLYGON_INFOS := []; CURVE_V2_FANTOM_INFOS := []; CURVE_V2_AVALANCHE_INFOS := [];
     CURVE_V2_ARBITRUM_INFOS := []; NERVE_BSC_INFOS := []; SYNAPSE_MAINNET_INFOS := [];
     SYNAPSE_OPTIMISM_INFOS := []; SYNAPSE_BSC_INFOS := []; SYNAPSE_POLYGON_INFOS := [];
     SYNAPSE_FANTOM_INFOS := []; SYNAPSE_AVALANCHE_INFOS := []; SYNAPSE_ARBITRUM_INFOS := [];
     FIREBIRDONESWAP_BSC_INFOS := []; FIREBIRDONESWAP_POLYGON_INFOS := []; BELT_BSC_INFOS := [];
     ELLIPSIS_BSC_INFOS := []; SADDLE_MAINNET_INFOS := []; SADDLE_OPTIMISM_INFOS := [];
     SADDLE_ARBITRUM_INFOS := []; IRONSWAP_POLYGON_INFOS := []; ACRYPTOS_BSC_INFOS := [];
     MOBIUSMONEY_CELO_INFOS := []; SHELL_POOLS_MAINNET := []; COMPONENT_POOLS_MAINNET := [];
     MSTABLE_POOLS_BY_CHAIN_ID := λ _, []; PLATYPUS_AVALANCHE_INFOS := [];
     MOONISWAP_REGISTRIES_BY_CHAIN_ID := λ _, []; BALANCER_V2_VAULT_ADDRESS_BY_CHAIN := λ _, "";
     DODOV1_CONFIG_BY_CHAIN_ID := λ _, {| dodo_registry := ""; dodo_helper := "" |};
     DODOV2_FACTORIES_BY_CHAIN_ID := λ _, []; BANCOR_REGISTRY_BY_CHAIN_ID := λ _, "";
     BANCORV3_NETWORK_BY_CHAIN_ID := λ _, ""; BANCORV3_NETWORK_INFO_BY_CHAIN_ID := λ _, "";
     MAKER_PSM_INFO_BY_CHAIN_ID := λ _, {| psmAddress := ""; ilkIdentifier := ""; psm_gemTokenAddress := "" |};
     UNISWAPV3_CONFIG_BY_CHAIN_ID := λ _, {| uni3_factory := ""; uni3_router := "" |};
     LIDO_INFO_BY_CHAIN := λ _, {| stEthToken := ""; wethToken := ""; wstEthToken := "" |};
     AAVE_V3_L2_ENCODERS_BY_CHAIN_ID := λ _, ""; GMX_ROUTER_BY_CHAIN_ID := λ _, "";
     GMX_READER_BY_CHAIN_ID := λ _, ""; GMX_VAULT_BY_CHAIN_ID := λ _, "";
     PLATYPUS_ROUTER_BY_CHAIN_ID := λ _, ""; DYSTOPIA_ROUTER_BY_CHAIN_ID := λ _, "";
     VELODROME_ROUTER_BY_CHAIN_ID := λ _, ""; SYNTHETIX_READ_PROXY_BY_CHAIN_ID := λ _, "";
     SYNTHETIX_CURRENCY_KEYS_BY_CHAIN_ID := λ _, ∅; WOOFI_ROUTER_BY_CHAIN_ID := λ _, "";
     WOOFI_SUPPORTED_TOKENS := []; REBASING_TOKENS := [];
     NATIVE_FEE_TOKEN_BY_CHAIN_ID := λ _, "0xweth"; MAINNET_TOKENS_WETH := "0xweth";
     AVALANCHE_TOKENS_MIM := "0xmim" |}.

(** A contract whose every pool gives 300, 600 and 900 for three amounts, and
    whose two-hop routes give 950. *)
#[export] Instance ex_contract : SamplerContract :=
  {| encodeInput := λ function args,
       match args with
       | [VArray calls] => if String.eqb function "batchCall" then String.concat "" ((λ _, "b") <$> calls) else function
       | _ => function
       end;
     decodeOutput := λ r function data,
       match r return result (denote r) with
       | RAmount => Ok (of_Z 30000000)
       | RBool => Ok false
       | RList RAmount =>
           Ok (if String.eqb function "getTokenDecimals" then [of_Z 18; of_Z 6] else [of_Z 300; of_Z 600; of_Z 900])
       | RList (RPair RBool RString) => Ok (replicate (String.length data) (true, ""))
       | RPair (RPair RAmount RString) (RPair (RPair RAmount RString) (RList RAmount)) =>
           Ok ((of_Z 0, ""), ((of_Z 0, ""), [of_Z 950]))
       | _ => Throw TypeError
       end;
     batchCallAsync := λ calls, Ok ((λ c, (true, c)) <$> calls) |}.

Definition ex_sampler : t :=
  {| chainId := ChainId.Goerli; balancerCache := IPoolsCache.NoOpPoolsCache; balancerV2Cache := None;
     tokenAdjacencyGraph := {| _graph := ∅; _defaultTokens := ["0xusdc"; "0xweth"] |};
     aaveV2ReservesCache := None; aaveV3ReservesCache := None; compoundCTokenCache := None;
     _bancorService := None |}.
Definition ex_bytes32 (s : string) : string := s.
Definition ex_fees : FeeSchedule := λ _ _, {| est_gas := n_Z 100000; est_fee := of_Z 2 |}.
End SamplerExamples.
Import Concrete SamplerExamples.

Lemma buy_quotes_fit_sources_witness :
  ∃ batch quotes, getBuyQuotes ex_bytes32 ex_sampler [ERC20BridgeSource.UniswapV2; ERC20BridgeSource.SushiSwap]
      "0xa" "0xb" [of_Z 30; of_Z 60; of_Z 100] = Ok batch ∧
    handleCallResults batch "bbbbbb" = Ok quotes ∧
    Forall (fitting (buyable [ERC20BridgeSource.UniswapV2; ERC20BridgeSource.SushiSwap]) [of_Z 30; of_Z 60; of_Z 100]) quotes.
Proof.
  destruct (buy_quotes_fit_sources ex_bytes32 ex_sampler [ERC20BridgeSource.UniswapV2; ERC20BridgeSource.SushiSwap]
    "0xa" "0xb" [of_Z 30; of_Z 60; of_Z 100]) as (batch & Hb & H); [unfold swaps_paired; reflexivity|].
  assert (match getBuyQuotes ex_bytes32 ex_sampler [ERC20BridgeSource.UniswapV2; ERC20BridgeSource.SushiSwap]
      "0xa" "0xb" [of_Z 30; of_Z 60; of_Z 100] with Ok b => is_ok (handleCallResults b "bbbbbb") | _ => false end = true) as K
    by (vm_compute; reflexivity).
  rewrite Hb in K. destruct (handleCallResults batch "bbbbbb") as [quotes|] eqn:Eq; [|discriminate K].
  exists batch, quotes. split; [exact Hb|]. split; [exact Eq|]. exact (H _ _ Eq).
Defined.

Lemma two_hop_buy_quotes_fit_witness :
  ∃ batch quotes, getTwoHopBuyQuotes ex_bytes32 ex_sampler [ERC20BridgeSource.UniswapV2]
      "0xa" "0xb" [of_Z 100] = Ok batch ∧
    handleCallResults batch "bb" = Ok quotes ∧
    Forall (two_hop_fitting (buyable [ERC20BridgeSource.UniswapV2]) MAX_UINT256 ["0xusdc"; "0xweth"]%string
      [of_Z 100]) quotes.
Proof.
  destruct (two_hop_buy_quotes_fit ex_bytes32 ex_sampler [ERC20BridgeSource.UniswapV2]
    "0xa" "0xb" [of_Z 100]) as (batch & Hb & H); [intros mid _; unfold swaps_paired; by split|].
  assert (match getTwoHopBuyQuotes ex_bytes32 ex_sampler [ERC20BridgeSource.UniswapV2]
      "0xa" "0xb" [of_Z 100] with Ok b => is_ok (handleCallResults b "bb") | _ => false end = true) as K
    by (vm_compute; reflexivity).
  rewrite Hb in K. destruct (handleCallResults batch "bb") as [quotes|] eqn:Eq; [|discriminate K].
  exists batch, quotes. split; [exact Hb|]. split; [exact Eq|]. exact (H _ _ Eq).
Defined.

Definition ex_ops : list SourceQuoteOperation :=
  (λ s, SamplerContractOperation s FDEmpty "f" [] None) <$> [ERC20BridgeSource.UniswapV2; ERC20BridgeSource.SushiSwap].

Lemma native_rate_is_best_witness :
  ∃ p q f, selectPrice (of_Z 10) ex_fees ex_ops [([of_Z 900], FDEmpty); ([of_Z 950], FDEmpty)] = Ok p ∧
    fin p (rdiv q (inject_Z 10)) ∧
    (rdiv (inject_Z 950) (inject_Z 10 + inject_Z 2) <= rdiv q (inject_Z 10 + f))%Q.
Proof.
  assert (∀ z, gives ([of_Z z], FDEmpty) (inject_Z z) ↔ (0 <= inject_Z z)%Q) as Hg.
  { intros z. split; [by intros [? _]|]. intros Hz. split; [done|]. right. eexists _, _. split; [done|].
    apply (fin_Z (B := QBigNumber)). }
  assert (∀ op r, feeIs ex_fees op r (inject_Z 2)) as Hf.
  { intros op r. split; [discriminate | apply (fin_Z (B := QBigNumber))]. }
  destruct (native_rate_is_best (of_Z 10) ex_fees ex_ops [([of_Z 900], FDEmpty); ([of_Z 950], FDEmpty)] (inject_Z 10))
    as (p & k & op & r & q & f & Hp & _ & _ & _ & _ & Hfin & Hbest).
  - apply (fin_Z (B := QBigNumber)).
  - reflexivity.
  - discriminate.
  - repeat constructor; eexists _, (inject_Z 2); (split; [by apply Hg | apply Hf]).
  - exists p, q, f. split; [exact Hp|]. split; [exact Hfin|].
    apply (Hbest 1%nat (nth 1 ex_ops (SamplerContractOperation ERC20BridgeSource.Native FDEmpty "f" [] None))
      ([of_Z 950], FDEmpty)); [reflexivity | reflexivity | by apply Hg | apply Hf].
Defined.
