(* ===== verification/Tokens.v ===== *)
(** * Tokens and pools ([market_operation_utils/constants.ts], [curve.ts])

    The addresses that the tables of pools are made of, a Module per object of
    the code; [values] lists those of an object in its order. *)

From S2P Require Import Prelude.

Module MAINNET_TOKENS.
Definition WETH : string := "0xc02aaa39b223fe8d0a0e5c4f27ead9083c756cc2".
Definition DAI : string := "0x6b175474e89094c44da98b954eedeac495271d0f".
Definition USDC : string := "0xa0b86991c6218b36c1d19d4a2e9eb0ce3606eb48".
Definition USDT : string := "0xdac17f958d2ee523a2206206994597c13d831ec7".
Definition sUSD : string := "0x57ab1ec28d129707052df4df418d58a2d46d5f51".
Definition BUSD : string := "0x4fabb145d64652a948d72533023f6e7a623c7c53".
Definition TUSD : string := "0x0000000000085d4780b73119b644ae5ecd22b376".
Definition PAX : string := "0x8e870d67f660d95d5be530380d0ec0bd388289e1".
Definition GUSD : string := "0x056fd409e1d7a124bd7017459dfea2f387b6d5cd".
Definition HUSD : string := "0xdf574c24545e5ffecb9a659c229253d4111d87e1".
Definition mUSD : string := "0xe2f2a5c287993345a840db3b0845fbc70f5935a5".
Definition USDN : string := "0x674c6ad92fd080e4004b2312b45f796a192d27a0".
Definition dUSD : string := "0x5bc25f649fc4e26069ddf4cf4010f9f706c23831".
Definition USDP : string := "0x1456688345527be1f37e9e627da0837d6f08c925".
Definition USX : string := "0x0a5e677a6a24b2f1a2bf4f3bffc443231d2fdec8".
Definition WCUSD : string := "0xad3e3fc59dff318beceaab7d00eb4f68b1ecf195".
Definition WBTC : string := "0x2260fac5e5542a773aa44fbcfedf7c193bc2c599".
Definition RenBTC : string := "0xeb4c2781e4eba804ce9a9803c67d0893436bb27d".
Definition sBTC : string := "0xfe18be6b3bd88a2d2a7f928d00292e7a9963cfc6".
Definition tBTC : string := "0x8daebade922df735c38c80c7ebd708af50815faa".
Definition tBTCv2 : string := "0x18084fba666a33d37592fa2633fd49a74dd93a88".
Definition hBTC : string := "0x0316eb71485b0ab14103307bf65a021042c6d380".
Definition pBTC : string := "0x5228a22e72ccc52d415ecfd199f99d0665e7733b".
Definition bBTC : string := "0x9be89d2a4cd102d8fecc6bf9da793be995c22541".
Definition oBTC : string := "0x8064d9ae6cdf087b1bcd5bdf3531bd5d8c537a68".
Definition aDAI : string := "0x028171bca77440897b824ca71d1c56cac55b68a3".
Definition aUSDC : string := "0xbcca60bb61934080951369a648fb03df4f96263c".
Definition aUSDT : string := "0x3ed3b47dd13ec9a98b44e6204a523e766b225811".
Definition aSUSD : string := "0x6c5024cd4f8a59110119c56f8933403a539555eb".
Definition MKR : string := "0x9f8f72aa9304c8b593d555f12ef6589cc3a579a2".
Definition EURS : string := "0xdb25f211ab05b1c97d595516f45794528a807ad8".
Definition sEUR : string := "0xd71ecff9342a5ced620049e616c5035f1db98620".
Definition sETH : string := "0x5e74c9036fb86bd7ecdcb084a0673efc32ea31cb".
Definition sJPY : string := "0xf6b1c627e95bfc3c1b4c9b825a032ff0fbf3e07d".
Definition sGBP : string := "0x97fe22e7341a0cd8db6f6c021a24dc8f4dad855f".
Definition sAUD : string := "0xf48e200eaf9906362bb1442fca31e0835773b8b4".
Definition sKRW : string := "0x269895a3df4d73b077fc823dd6da1b95f72aaf9b".
Definition sCHF : string := "0x0f83287ff768d1c1e17a42f44d644d7f22e8ee1d".
Definition stETH : string := "0xae7ab96520de3a18e5e111b5eaab095312d7fe84".
Definition wstETH : string := "0x7f39c581f595b53c5cb19bd0b3f8da6c935e2ca0".
Definition LINK : string := "0x514910771af9ca656af840dff83e8264ecf986ca".
Definition MANA : string := "0x0f5d2fb29fb7d3cfee444a200298f468908cc942".
Definition KNC : string := "0xdefa4e8a7bcba345f687a2f1456f5edd9ce97202".
Definition AAVE : string := "0x7fc66500c84a76ad7e9c93437bfc5ac33e2ddae9".
Definition sLINK : string := "0xbbc455cb4f1b9e4bfc4b73970d360c8f032efee6".
Definition yUSD : string := "0x5dbcf33d8c2e976c6b560249878e6f1491bca25c".
Definition ybCRV : string := "0x2994529c0652d127b7842094103715ec5299bbed".
Definition yCRV : string := "0xdf5e0e81dff6faf3a7e52ba697820c5e32d806a8".
Definition ynCRV : string := "0xfcc5c47be19d06bf83eb04298b026f81069ff65b".
Definition bCRV : string := "0x3b3ac5386837dc563660fb6a0937dfaa5924333b".
Definition yDAI : string := "0xacd43e627e64355f1861cec6d3a6688b31a6f952".
Definition yUSDC : string := "0x597ad1e0c13bfe8025993d9e79c69e1c0233522e".
Definition yUSDT : string := "0x2f08119c6f07c006695e079aafc638b8789faf18".
Definition yTUSD : string := "0x37d19d1c4e1fa9dc47bd1ea12f742a0887eda74a".
Definition crETH : string := "0xcbc1065255cbc3ab41a6868c22d1f1c573ab89fd".
Definition ankrETH : string := "0xe95a203b1a91a908f9b9ce46459d101078c2c3cb".
Definition vETH : string := "0x898bad2774eb97cf6b94605677f43b41871410b1".
Definition alETH : string := "0x0100546f2cd4c9d97f798ffc9755e47865ff7ee6".
Definition HT : string := "0x6f259637dcd74c767781e37bc6133cd6a68aa161".
Definition UST : string := "0xa47c8bf37f92abed4a126bda807a7b7498661acd".
Definition STABLEx : string := "0xcd91538b91b4ba7797d39a2f66e63810b50a33d0".
Definition alUSD : string := "0xbc6da0fe9ad5f3b0d58160288917aa56653660e9".
Definition FRAX : string := "0x853d955acef822db058eb8505911ed77f175b99e".
Definition cvxFXS : string := "0xfeef77d3f69374f66429c91d732a244f074bdf74".
Definition FXS : string := "0x3432b6a60d23ca0dfca7761b7ab56459d9c964d0".
Definition OHM : string := "0x383518188c0c6d7730d91b2c03a03c837814a899".
Definition OHMV2 : string := "0x64aa3364f17a4d01c6f1751fd97c2bd3d7e7f1d5".
Definition BTRFLY : string := "0xc0d4ceb216b3ba9c3701b291766fdcba977cec3a".
Definition STG : string := "0xaf5191b0de278c7286d6c7cc6ab6bb8a73ba2cd6".
Definition LUSD : string := "0x5f98805a4e8be255a32880fdec7f6728c6568ba0".
Definition FEI : string := "0x956f47f50a910163d8bf957cf5846d573e7f87ca".
Definition TRIBE : string := "0xc7283b66eb1eb5fb86327f08e1b5816b0720212b".
Definition DSU : string := "0x605d26fbd5be761089281d5cec2ce86eea667109".
Definition ESS : string := "0x24ae124c4cc33d6791f8e8b63520ed7107ac8b3e".
Definition cvxCRV : string := "0x62b9c7356a2dc64a1969e19c23e4f579f9810aa7".
Definition CRV : string := "0xd533a949740bb3306d119cc777fa900ba034cd52".
Definition MIM : string := "0x99d8a9c45b2eca8864373a26d1459e3dff1e17f3".
Definition EURT : string := "0xc581b735a1688071a1746c968e0798d642ede491".
Definition nUSD : string := "0x1b84765de8b7566e4ceaf4d0fd3c5af52d3dde4f".
Definition CVX : string := "0x4e3fbd56cd56c3e72c1403e103b45db9da5b9d2b".
Definition UST_WORMHOLE : string := "0xa693b19d2931d498c5b318df961919bb4aee87a5".
Definition RAI : string := "0x03ab458634910aad20ef5f1c8ee96f1d6ac54919".
Definition DOLA : string := "0x865377367054516e17014ccded1e7d814edc9ce4".
Definition OUSD : string := "0x2a8e1e676ec238d8a992307b495b45b3feaa5e86".
Definition agEUR : string := "0x1a7e4e63778b4f12a199c062f3efdd288afcbce8".
Definition ibEUR : string := "0x96e61422b6a9ba0e068b6c5add4ffabc6a4aae27".
Definition YFI : string := "0x0bc529c00c6401aef6d220be8c6ea1667f6ad93e".
Definition LUSDCRV : string := "0xed279fdd11ca84beef15af5d39bb4d4bee23f0ca".
Definition bLUSD : string := "0xb9d7dddca9a4ac480991865efef82e01273f79c3".
Definition rsr : string := "0x320623b8e4ff03373931769a31fc52a4e78b5d70".
Definition crvFRAX : string := "0x3175df0976dfa876431c2e9ee6bc45b65d3473cc".
Definition cUSDC : string := "0x39aa39c021dfbae8fac545936693ac917d5e7563".
Definition cDAI : string := "0x5d3a536e4d6dbd6114cc1ead35777bab948e3643".
Definition cWBTC : string := "0xccf4429db6322d5c611ee964527d42e5d685dd6a".
Definition values : list string := [WETH; DAI; USDC; USDT; sUSD; BUSD; TUSD; PAX; GUSD; HUSD; mUSD; USDN; dUSD; USDP;
  USX; WCUSD; WBTC; RenBTC; sBTC; tBTC; tBTCv2; hBTC; pBTC; bBTC; oBTC; aDAI; aUSDC; aUSDT; aSUSD; MKR; EURS; sEUR;
    sETH; sJPY; sGBP; sAUD; sKRW; sCHF; stETH; wstETH; LINK; MANA; KNC; AAVE; sLINK; yUSD; ybCRV; yCRV; ynCRV; bCRV;
      yDAI; yUSDC; yUSDT; yTUSD; crETH; ankrETH; vETH; alETH; HT; UST; STABLEx; alUSD; FRAX; cvxFXS; FXS; OHM; OHMV2;
        BTRFLY; STG; LUSD; FEI; TRIBE; DSU; ESS; cvxCRV; CRV; MIM; EURT; nUSD; CVX; UST_WORMHOLE; RAI; DOLA; OUSD;
          agEUR; ibEUR; YFI; LUSDCRV; bLUSD; rsr; crvFRAX; cUSDC; cDAI; cWBTC].
End MAINNET_TOKENS.

Module BSC_TOKENS.
Definition WBNB : string := "0xbb4cdb9cbd36b01bd1cbaebf2de08d9173bc095c".
Definition BUSD : string := "0xe9e7cea3dedca5984780bafc599bd69add087d56".
Definition USDT : string := "0x55d398326f99059ff775485246999027b3197955".
Definition USDC : string := "0x8ac76a51cc950d9822d68b83fe1ad97b32cd580d".
Definition DAI : string := "0x1af3f329e8be154074d8769d1ffa4ee058b1dbc3".
Definition PAX : string := "0xb7f8cd00c5a06c0537e2abff0b58033d02e5e094".
Definition UST : string := "0x23396cf899ca06c4472205fc903bdb4de249d6fc".
Definition VAI : string := "0x4bd17003473389a42daf6a0a729f6fdb328bbbd7".
Definition WEX : string := "0xa9c41a46a6b3531d28d5c32f6633dd2ff05dfb90".
Definition WETH : string := "0x2170ed0880ac9a755fd29b2688956bd959f933f8".
Definition BTCB : string := "0x7130d2a12b9bcbfae4f2634d864a1ee1ce3ead9c".
Definition renBTC : string := "0xfce146bf3146100cfe5db4129cf6c82b0ef4ad8c".
Definition pBTC : string := "0xed28a457a5a76596ac48d87c0f577020f6ea1c4c".
Definition nUSD : string := "0x23b891e5c62e0955ae2bd185990103928ab817b3".
Definition BSW : string := "0x965f527d9159dce6288a2219db51fc6eef120dd1".
Definition WOO : string := "0x4691937a7508860f876c9c0a2a617e7d9e945d4b".
Definition values : list string := [WBNB; BUSD; USDT; USDC; DAI; PAX; UST; VAI; WEX; WETH; BTCB; renBTC; pBTC; nUSD;
  BSW; WOO].
End BSC_TOKENS.

Module POLYGON_TOKENS.
Definition DAI : string := "0x8f3cf7ad23cd3cadbd9735aff958023239c6a063".
Definition USDC : string := "0x2791bca1f2de4661ed88a30c99a7a9449aa84174".
Definition USDT : string := "0xc2132d05d31c914a87c6611c10748aeb04b58e8f".
Definition amDAI : string := "0x27f8d03b3a2196956ed754badc28d73be8830a6e".
Definition amUSDC : string := "0x1a13f4ca1d028320a707d99520abfefca3998b7f".
Definition amUSDT : string := "0x60d55f02a771d515e077c9c2403a1ef324885cec".
Definition WBTC : string := "0x1bfd67037b42cf73acf2047067bd4f2c47d9bfd6".
Definition WMATIC : string := "0x0d500b1d8e8ef31e21c99d1db9a6444d3adf1270".
Definition WETH : string := "0x7ceb23fd6bc0add59e62ac25578270cff1b9f619".
Definition renBTC : string := "0xdbf31df14b66535af65aac99c32e9ea844e14501".
Definition QUICK : string := "0x831753dd7087cac61ab5644b308642cc1c33dc13".
Definition DFYN : string := "0xc168e40227e4ebd8c1cae80f7a55a4f0e6d66c97".
Definition BANANA : string := "0x5d47baba0d66083c52009271faf3f50dcc01023c".
Definition WEXPOLY : string := "0x4c4bf319237d98a30a929a96112effa8da3510eb".
Definition nUSD : string := "0xb6c473756050de474286bed418b77aeac39b02af".
Definition ANY : string := "0x6ab6d61428fde76768d7b45d8bfeec19c6ef91a8".
Definition WOO : string := "0x1b815d120b3ef02039ee11dc2d33de7aa4a8c603".
Definition values : list string := [DAI; USDC; USDT; amDAI; amUSDC; amUSDT; WBTC; WMATIC; WETH; renBTC; QUICK; DFYN;
  BANANA; WEXPOLY; nUSD; ANY; WOO].
End POLYGON_TOKENS.

Module AVALANCHE_TOKENS.
Definition WAVAX : string := "0xb31f66aa3c1e785363f0875a1b74e27b85fd66c7".
Definition WETH : string := "0x49d5c2bdffac6ce2bfdb6640f4f80f226bc10bab".
Definition WBTC : string := "0x50b7545627a5162f82a992c33b87adc75187b218".
Definition BTCb : string := "0x152b9d0fdc40c096757f570a51e494bd4b943e50".
Definition DAI : string := "0xd586e7f844cea2f87f50152665bcbc2c279d8d70".
Definition USDC : string := "0xa7d7079b0fead91f3e65f86e8915cb59c1a4c664".
Definition nUSDC : string := "0xb97ef9ef8734c71904d8002f8b6bc66dd9c48a6e".
Definition USDt : string := "0x9702230a8ea53601f5cd2dc00fdbc13d4df4a8c7".
Definition USDT : string := "0xc7198437980c041c805a1edcba50c1ce5db95118".
Definition aDAI : string := "0x47afa96cdc9fab46904a55a6ad4bf6660b53c38a".
Definition aUSDC : string := "0x46a51127c3ce23fb7ab1de06226147f446e4a857".
Definition aUSDT : string := "0x532e6537fea298397212f09a61e03311686f548e".
Definition nETH : string := "0x19e1ae0ee35c0404f835521146206595d37981ae".
Definition nUSD : string := "0xcfc37a6ab183dd4aed08c204d1c2773c0b1bdf46".
Definition aWETH : string := "0x53f7c5869a859f0aec3d334ee8b4cf01e3492f21".
Definition MIM : string := "0x130966628846bfd36ff31a822705796e8cb8c18d".
Definition MAG : string := "0x1d60109178c48e4a937d8ab71699d8ebb6f7c5de".
Definition sAVAX : string := "0x2b2c81e08f1af8835a78bb2a90ae924ace0ea4be".
Definition UST : string := "0xb599c3590f42f8f995ecfa0f85d2980b76862fc1".
Definition FRAX : string := "0xd24c2ad096400b6fbcd2ad8b24e7acbc21a1da64".
Definition YUSD : string := "0x111111111111ed1d73f860f57b2798b683f2d325".
Definition WOO : string := "0xabc9547b534519ff73921b1fba6e672b5f58d083".
Definition values : list string := [WAVAX; WETH; WBTC; BTCb; DAI; USDC; nUSDC; USDt; USDT; aDAI; aUSDC; aUSDT; nETH;
  nUSD; aWETH; MIM; MAG; sAVAX; UST; FRAX; YUSD; WOO].
End AVALANCHE_TOKENS.

Module CELO_TOKENS.
Definition WCELO : string := "0x471ece3750da237f93b8e339c536989b8978a438".
Definition WETHv1 : string := "0xe919f65739c26a42616b7b8eedc6b5524d1e3ac4".
Definition oWETH : string := "0x122013fd7df1c6f636a5bb8f03108e876548b455".
Definition WBTC : string := "0xbaab46e28388d2779e6e31fd00cf0e5ad95e327b".
Definition cUSD : string := "0x765de816845861e75a25fca122bb6898b8b1282a".
Definition cBTC : string := "0xd629eb00deced2a080b7ec630ef6ac117e614f1b".
Definition cETH : string := "0x2def4285787d58a2f811af24755a8150622f4361".
Definition UBE : string := "0x00be915b9dcf56a3cbe739d9b9c202ca692409ec".
Definition mCELO : string := "0x7d00cd74ff385c955ea3d79e47bf06bd7386387d".
Definition mCUSD : string := "0x918146359264c492bd6934071c6bd31c854edbc3".
Definition mCEUR : string := "0xe273ad7ee11dcfaa87383ad5977ee1504ac07568".
Definition amCUSD : string := "0x64defa3544c695db8c535d289d843a189aa26b98".
Definition MOO : string := "0x17700282592d6917f6a73d0bf8accf4d578c131e".
Definition wBTC : string := "0x2260fac5e5542a773aa44fbcfedf7c193bc2c599".
Definition wETH : string := "0xc02aaa39b223fe8d0a0e5c4f27ead9083c756cc2".
Definition wBTCO : string := "0xbe50a3013a1c94768a1abb78c3cb79ab28fc1ace".
Definition pUSDC : string := "0xcc82628f6a8defa1e2b0ad7ed448bef3647f7941".
Definition cUSDC : string := "0x2a3684e9dc20b857375ea04235f2f7edbe818fa7".
Definition cUSDC_V2 : string := "0xef4229c8c3250c675f21bcefa42f58efbff6002a".
Definition pUSDC_V2 : string := "0x1bfc26ce035c368503fae319cc2596716428ca44".
Definition pUSD : string := "0xeadf4a7168a82d30ba0619e64d5bcf5b30b45226".
Definition pCELO : string := "0x301a61d01a63c8d670c2b8a43f37d12ef181f997".
Definition aaUSDC : string := "0xb70e0a782b058bfdb0d109a3599bec1f19328e36".
Definition asUSDC : string := "0xcd7d7ff64746c1909e44db8e95331f9316478817".
Definition mcUSDT : string := "0xcfffe0c89a779c09df3df5624f54cdf7ef5fdd5d".
Definition mcUSDC : string := "0x93db49be12b864019da9cb147ba75cdc0506190e".
Definition DAI : string := "0x90ca507a5d4458a4c6c6249d186b6dcb02a5bccd".
Definition values : list string := [WCELO; WETHv1; oWETH; WBTC; cUSD; cBTC; cETH; UBE; mCELO; mCUSD; mCEUR; amCUSD;
  MOO; wBTC; wETH; wBTCO; pUSDC; cUSDC; cUSDC_V2; pUSDC_V2; pUSD; pCELO; aaUSDC; asUSDC; mcUSDT; mcUSDC; DAI].
End CELO_TOKENS.

Module FANTOM_TOKENS.
Definition WFTM : string := "0x21be370d5312f44cb42ce377bc9b8a0cef1a4c83".
Definition WETH : string := "0x74b23882a30290451a17c44f4f05243b6b58c76d".
Definition USDC : string := "0x04068da6c83afcfa0e13ba15a6696662335d5b75".
Definition DAI : string := "0x8d11ec38a3eb5e956b052f67da8bdc9bef8abf3e".
Definition fUSDT : string := "0x049d68029688eabf473097a2fc38ef61633a3c7a".
Definition WBTC : string := "0x321162cd933e2be498cd2267a90534a804051b11".
Definition WCRV : string := "0x1e4f97b9f9f913c46f1632781732927b9019c68b".
Definition renBTC : string := "0xdbf31df14b66535af65aac99c32e9ea844e14501".
Definition MIM : string := "0x82f0b8b456c1a451378467398982d4834b6829c1".
Definition nUSD : string := "0xed2a7edd7413021d440b09d654f3b87712abab66".
Definition nETH : string := "0x67c10c397dd0ba417329543c1a40eb48aaa7cd00".
Definition gfUSDT : string := "0x940f41f0ec9ba1a34cf001cc03347ac092f5f6b5".
Definition gUSDC : string := "0xe578c856933d8e1082740bf7661e379aa2a30b26".
Definition gDAI : string := "0x07e6332dd090d287d3489245038daf987955dcfb".
Definition FRAX : string := "0xdc301622e621166bd8e82f2ca0a26c13ad0be355".
Definition gFTM : string := "0x39b3bd37208cbade74d0fcbdbb12d606295b430a".
Definition gETH : string := "0x25c130b2624cf12a4ea30143ef50c5d68cefa22f".
Definition gWBTC : string := "0x38aca5484b8603373acc6961ecd57a6a594510a3".
Definition gCRV : string := "0x690754a168b022331caa2467207c61919b3f8a98".
Definition gMIM : string := "0xc664fc7b8487a3e10824cda768c1d239f2403bbe".
Definition WOO : string := "0x6626c47c00f1d87902fc13eecfac3ed06d5e8d8a".
Definition USDT : string := "0x049d68029688eabf473097a2fc38ef61633a3c7a".
Definition alUSD : string := "0xb67fa6defce4042070eb1ae1511dcd6dcc6a532e".
Definition values : list string := [WFTM; WETH; USDC; DAI; fUSDT; WBTC; WCRV; renBTC; MIM; nUSD; nETH; gfUSDT; gUSDC;
  gDAI; FRAX; gFTM; gETH; gWBTC; gCRV; gMIM; WOO; USDT; alUSD].
End FANTOM_TOKENS.

Module OPTIMISM_TOKENS.
Definition ETH : string := "0xeeeeeeeeeeeeeeeeeeeeeeeeeeeeeeeeeeeeeeee".
Definition WETH : string := "0x4200000000000000000000000000000000000006".
Definition USDC : string := "0x7f5c764cbc14f9669b88837ca1490cca17c31607".
Definition USDT : string := "0x94b008aa00579c1307b0ef2c499ad98a8ce58e58".
Definition DAI : string := "0xda10009cbd5d07dd0cecc66161fc93d7c9000da1".
Definition FRAX : string := "0x2e3d870790dc77a83dd1d18184acc7439a53f475".
Definition WBTC : string := "0x68f180fcce6836688e9084f035309e29bf0a2095".
Definition nETH : string := "0x809dc529f07651bd43a172e8db6f4a7a0d771036".
Definition sWETH : string := "0x121ab82b49b2bc4c7901ca46b8277962b4350204".
Definition sAAVE : string := "0x00b8d5a5e1ac97cb4341c4bc4367443c8776e8d9".
Definition sAVAX : string := "0xb2b42b231c68cbb0b4bf2ffebf57782fd97d3da4".
Definition sBTC : string := "0x298b9b95708152ff6968aafd889c6586e9169f1d".
Definition sETH : string := "0xe405de8f52ba7559f9df3c368500b6e6ae6cee49".
Definition sEUR : string := "0xfbc4198702e81ae77c06d58f81b629bdf36f0a71".
Definition sLINK : string := "0xc5db22719a06418028a40a9b5e9a7c02959d0d08".
Definition sMATIC : string := "0x81ddfac111913d3d5218dea999216323b7cd6356".
Definition sSOL : string := "0x8b2f7ae8ca8ee8428b6d76de88326bb413db2766".
Definition sUNI : string := "0xf5a6115aa582fd1beea22bc93b7dc7a785f60d03".
Definition sUSD : string := "0x8c6f28f2f1a3c87f0f938b96d27520d9751ec8d9".
Definition OP : string := "0x4200000000000000000000000000000000000042".
Definition values : list string := [ETH; WETH; USDC; USDT; DAI; FRAX; WBTC; nETH; sWETH; sAAVE; sAVAX; sBTC; sETH;
  sEUR; sLINK; sMATIC; sSOL; sUNI; sUSD; OP].
End OPTIMISM_TOKENS.

Module ARBITRUM_TOKENS.
Definition ETH : string := "0xeeeeeeeeeeeeeeeeeeeeeeeeeeeeeeeeeeeeeeee".
Definition USDT : string := "0xfd086bc7cd5c481dcc9c85ebe478a1c0b69fcbb9".
Definition USDC : string := "0xff970a61a04b1ca14834a43f5de4533ebddb5cc8".
Definition FRAX : string := "0x17fc002b466eec40dae837fc4be5c67993ddbd6f".
Definition nETH : string := "0x3ea9b0ab55f34fb188824ee288ceaefc63cf908e".
Definition WETH : string := "0x82af49447d8a07e3bd95bd0d56f35241523fbab1".
Definition nUSD : string := "0x2913e812cf0dcca30fb28e6cac3d2dcff4497688".
Definition MIM : string := "0xfea7a6a0b346362bf88a9e4a88416b77a57d6c2a".
Definition WBTC : string := "0x2f2a2543b76a4166549f7aab2e75bef0aefc5b0f".
Definition VST : string := "0x64343594ab9b56e99087bfa6f2335db24c2d1f17".
Definition WOO : string := "0xcafcd85d8ca7ad1e1c6f82f651fa15e33aefd07b".
Definition values : list string := [ETH; USDT; USDC; FRAX; nETH; WETH; nUSD; MIM; WBTC; VST; WOO].
End ARBITRUM_TOKENS.

Module SADDLE_MAINNET_POOLS.
Definition stablesV2 : string := "0xacb83e0633d6605c5001e2ab59ef3c745547c8c7".
Definition alETH : string := "0xa6018520eaacc06c30ff2e1b3ee2c7c22e64196a".
Definition d4 : string := "0xc69ddcd4dfef25d8a793241834d4cc4b3668ead6".
Definition _4Pool : string := "0x101cd330d088634b6f64c2eb4276e63bf1bbfde3".
Definition fraxBP : string := "0x13cc34aa8037f722405285ad2c82fe570bfa2bdc".
Definition frax3Pool : string := "0x8caea59f3bf1f341f89c51607e4919841131e47a".
Definition usx : string := "0x2bff1b48cc01284416e681b099a0cddca0231d72".
Definition susdMetaPoolV3 : string := "0x4568727f50c7246ded8c39214ed6ff3c157f080d".
Definition fraxAlusdMetaPool : string := "0xfb516cf3710fc6901f2266aaeb8834cf5e4e9558".
Definition fraxSusdMetaPool : string := "0x69baa0d7c2e864b74173922ca069ac79d3be1556".
Definition values : list string := [stablesV2; alETH; d4; _4Pool; fraxBP; frax3Pool; usx; susdMetaPoolV3;
  fraxAlusdMetaPool; fraxSusdMetaPool].
End SADDLE_MAINNET_POOLS.

Module SADDLE_OPTIMISM_POOLS.
Definition fraxBP : string := "0xf6c2e0adc659007ba7c48446f5a4e4e94dfe08b5".
Definition values : list string := [fraxBP].
End SADDLE_OPTIMISM_POOLS.

Module SADDLE_ARBITRUM_POOLS.
Definition arbUSDPoolV2 : string := "0xfeea4d1bacb0519e8f952460a70719944fe56ee0".
Definition fraxBP : string := "0x401afbc31ad2a3bc0ed8960d63efcdea749b4849".
Definition values : list string := [arbUSDPoolV2; fraxBP].
End SADDLE_ARBITRUM_POOLS.

Module IRONSWAP_POOLS.
Definition is3usd : string := "0x837503e8a8753ae17fb8c8151b8e6f586defcb57".
Definition values : list string := [is3usd].
End IRONSWAP_POOLS.

Module NERVE_POOLS.
Definition threePool : string := "0x1b3771a66ee31180906972580ade9b81afc5fcdc".
Definition values : list string := [threePool].
End NERVE_POOLS.

Module SYNAPSE_MAINNET_POOLS.
Definition nUSDLP : string := "0x1116898dda4015ed8ddefb84b6e8bc24528af2d8".
Definition values : list string := [nUSDLP].
End SYNAPSE_MAINNET_POOLS.

Module SYNAPSE_OPTIMISM_POOLS.
Definition nETHLP : string := "0xe27bff97ce92c3e1ff7aa9f86781fdd6d48f5ee9".
Definition values : list string := [nETHLP].
End SYNAPSE_OPTIMISM_POOLS.

Module SYNAPSE_BSC_POOLS.
Definition nUSDLP : string := "0x28ec0b36f0819ecb5005cab836f4ed5a2eca4d13".
Definition values : list string := [nUSDLP].
End SYNAPSE_BSC_POOLS.

Module SYNAPSE_POLYGON_POOLS.
Definition nUSDLP : string := "0x85fcd7dd0a1e1a9fcd5fd886ed522de8221c3ee5".
Definition values : list string := [nUSDLP].
End SYNAPSE_POLYGON_POOLS.

Module SYNAPSE_FANTOM_POOLS.
Definition nUSDLP : string := "0x2913e812cf0dcca30fb28e6cac3d2dcff4497688".
Definition nETHLP : string := "0x8d9ba570d6cb60c7e3e0f31343efe75ab8e65fb1".
Definition values : list string := [nUSDLP; nETHLP].
End SYNAPSE_FANTOM_POOLS.

Module SYNAPSE_AVALANCHE_POOLS.
Definition nUSDLP : string := "0xed2a7edd7413021d440b09d654f3b87712abab66".
Definition nETHLP : string := "0x77a7e60555bc18b4be44c181b2575eee46212d44".
Definition values : list string := [nUSDLP; nETHLP].
End SYNAPSE_AVALANCHE_POOLS.

Module SYNAPSE_ARBITRUM_POOLS.
Definition nUSDLP : string := "0x0db3fe3b770c95a0b99d1ed6f2627933466c0dd8".
Definition nETHLP : string := "0xa067668661c84476afcdc6fa5d758c4c01c34352".
Definition values : list string := [nUSDLP; nETHLP].
End SYNAPSE_ARBITRUM_POOLS.

Module FIREBIRDONESWAP_BSC_POOLS.
Definition oneswap : string := "0x01c9475dbd36e46d1961572c8de24b74616bae9e".
Definition values : list string := [oneswap].
End FIREBIRDONESWAP_BSC_POOLS.

Module FIREBIRDONESWAP_POLYGON_POOLS.
Definition oneswap : string := "0x01c9475dbd36e46d1961572c8de24b74616bae9e".
Definition values : list string := [oneswap].
End FIREBIRDONESWAP_POLYGON_POOLS.

Module MOBIUSMONEY_CELO_POOLS.
Definition usdc_optics_v2 : string := "0x9906589ea8fd27504974b7e8201df5bbde986b03".
Definition dai_optics_v2 : string := "0xf3f65dfe0c8c8f2986da0fec159abe6fd4e700b4".
Definition weth_optics_v2 : string := "0x74ef28d635c6c5800dd3cd62d4c4f8752daacb09".
Definition pusdc_optics_v2 : string := "0xcce0d62ce14fb3e4363eb92db37ff3630836c252".
Definition usdc_allbridge_solana : string := "0x63c1914bf00a9b395a2bf89aada55a5615a3656e".
Definition usdc_poly_optics : string := "0xa2f0e57d4ceacf025e81c76f28b9ad6e9fbe8735".
Definition values : list string := [usdc_optics_v2; dai_optics_v2; weth_optics_v2; pusdc_optics_v2;
  usdc_allbridge_solana; usdc_poly_optics].
End MOBIUSMONEY_CELO_POOLS.

Module PLATYPUS_AVALANCHE_POOLS.
Definition usd : string := "0x66357dcace80431aee0a7507e2e361b7e2402370".
Definition yusd : string := "0xc828d995c686aaba78a4ac89dfc8ec0ff4c5be83".
Definition frax : string := "0xb8e567fc23c39c94a1f6359509d7b43d1fbed824".
Definition mim : string := "0x30c30d826be87cd0a4b90855c2f38f7fcfe4eaa7".
Definition sAVAX : string := "0x4658ea7e9960d6158a261104aaa160cc953bb6ba".
Definition values : list string := [usd; yusd; frax; mim; sAVAX].
End PLATYPUS_AVALANCHE_POOLS.

Module CURVE_POOLS.
Definition compound : string := "0xa2b47e3d5c44877cca798226b7b8118f9bfb7a56".
Definition PAX : string := "0x06364f10b501e868329afbc005b3492902d6c763".
Definition sUSD : string := "0xa5407eae9ba41422680e2e00537571bcc53efbfd".
Definition renBTC : string := "0x93054188d876f558f4a66b2ef1d97d16edf0895b".
Definition sBTC : string := "0x7fc77b5c7614e1533320ea6ddc2eb61fa00a9714".
Definition HBTC : string := "0x4ca9b3063ec5866a4b82e437059d2c43d1be596f".
Definition TRI : string := "0xbebc44782c7db0a1a60cb6fe97d0b483032ff1c7".
Definition GUSD : string := "0x4f062658eaaf2c1ccf8c8e36d6824cdf41167956".
Definition HUSD : string := "0x3ef6a01a0f81d6046290f3e2a8c5b843e738e604".
Definition USDN : string := "0x0f9cb53ebe405d49a0bbdbd291a65ff571bc83e1".
Definition mUSD : string := "0x8474ddbe98f5aa3179b3b3f5942d724afcdec9f6".
Definition dUSD : string := "0x8038c01a0390a8c547446a0b2c18fc9aefecc10c".
Definition tBTC : string := "0xc25099792e9349c7dd09759744ea681c7de2cb66".
Definition pBTC : string := "0x7f55dde206dbad629c080068923b36fe9d6bdbef".
Definition bBTC : string := "0x071c661b4deefb59e2a3ddb20db036821eee8f4b".
Definition oBTC : string := "0xd81da8d904b52208541bade1bd6595d8a251f8dd".
Definition UST : string := "0x890f4e345b1daed0367a877a1612f86a1f86985f".
Definition eurs : string := "0x0ce6a5ff5217e38315f87032cf90686c96627caa".
Definition seth : string := "0xc5424b857f758e906013f3555dad202e4bdb4567".
Definition aave : string := "0xdebf20617708857ebe4f679508e7b7863a8a8eee".
Definition steth : string := "0xdc24316b9ae028f1497c275eb9192a3ea0f67022".
Definition saave : string := "0xeb16ae0052ed37f479f7fe63849198df1765a733".
Definition ankreth : string := "0xa96a65c051bf88b4095ee1f2451c2a9d43f53ae2".
Definition USDP : string := "0x42d7025938bec20b69cbae5a77421082407f053a".
Definition ib : string := "0x2dded6da1bf5dbdf597c45fcfaa3194e53ecfeaf".
Definition link : string := "0xf178c0b5bb7e7abf4e12a4838c7b7c5ba2c623c0".
Definition btrflyweth : string := "0xf43b15ab692fde1f9c24a9fce700adcc809d5391".
Definition stgusdc : string := "0x3211c6cbef1429da3d0d58494938299c92ad5860".
Definition TUSD : string := "0xecd5e75afb02efa118af914515d6521aabd189f1".
Definition STABLEx : string := "0x3252efd4ea2d6c78091a1f43982ee2c3659cc3d1".
Definition alUSD : string := "0x43b4fdfd4ff969587185cdb6f0bd875c5fc83f8c".
Definition FRAX : string := "0xd632f22692fac7611d2aa1c0d552930d43caed3b".
Definition LUSD : string := "0xed279fdd11ca84beef15af5d39bb4d4bee23f0ca".
Definition BUSD : string := "0x4807862aa8b2bf68830e4c8dc86d0e9a998e085a".
Definition DSU3CRV : string := "0x6ec80df362d7042c50d4469bcfbc174c9dd9109a".
Definition cvxcrv : string := "0x9d0464996170c6b9e75eed71c68b99ddedf279e8".
Definition cvxfxs : string := "0xd658a338613198204dca1143ac3f01a722b5d94a".
Definition mim : string := "0x5a6a4d54456819380173272a5e8e9b9904bdf41b".
Definition eurt : string := "0xfd5db7463a3ab53fd211b4af195c5bccc1a03890".
Definition ethcrv : string := "0x8301ae4fc9c624d1d396cbdaa1ed877821d7c511".
Definition ethcvx : string := "0xb576491f1e6e5e62f1d8f26062ee822b40b0e0d4".
Definition fei_tri : string := "0x06cb22615ba53e60d67bf6c341a0fd5e718e1655".
Definition rai_tri : string := "0x618788357d0ebd8a37e763adab3bc575d54c2c7d".
Definition DOLA_tri : string := "0xaa5a67c256e27a5d80712c51971408db3370927d".
Definition OUSD_tri : string := "0x87650d7bbfc3a9f10587d7778206671719d9910d".
Definition d3pool : string := "0xbaaa1f5dba42c3389bdbc2c9d2de134f5cd0dc89".
Definition triEURpool : string := "0xb9446c4ef5ebe66268da6700d26f96273de3d571".
Definition ibEURsEUR : string := "0x19b080fe1ffa0553469d20ca36219f17fcf03859".
Definition wethyfi : string := "0xc26b89a667578ec7b3f11b2f98d6fd15c07c54ba".
Definition ycrvcrv : string := "0x453d92c7d4263201c69aacfaf589ed14202d83a4".
Definition bLUSD : string := "0x74ed5d42203806c8cdcf2f04ca5f60dc777b901c".
Definition rsr : string := "0x6a6283ab6e31c2aec3fa08697a8f806b740660b2".
Definition DOLAFRAX : string := "0xe57180685e3348589e9521aa53af0bcd497e884d".
Definition crvfrax : string := "0xdcef968d416a41cdac0ed8702fac8128a64241a2".
Definition values : list string := [compound; PAX; sUSD; renBTC; sBTC; HBTC; TRI; GUSD; HUSD; USDN; mUSD; dUSD; tBTC;
  pBTC; bBTC; oBTC; UST; eurs; seth; aave; steth; saave; ankreth; USDP; ib; link; btrflyweth; stgusdc; TUSD; STABLEx;
    alUSD; FRAX; LUSD; BUSD; DSU3CRV; cvxcrv; cvxfxs; mim; eurt; ethcrv; ethcvx; fei_tri; rai_tri; DOLA_tri;
      OUSD_tri; d3pool; triEURpool; ibEURsEUR; wethyfi; ycrvcrv; bLUSD; rsr; DOLAFRAX; crvfrax].
End CURVE_POOLS.

Module CURVE_V2_POOLS.
Definition tricrypto : string := "0x80466c64868e1ab14a1ddf27a676c3fcbe638fe5".
Definition tricrypto2 : string := "0xd51a44d3fae010294c616388b506acda1bfaae46".
Definition values : list string := [tricrypto; tricrypto2].
End CURVE_V2_POOLS.

Module CURVE_POLYGON_POOLS.
Definition aave : string := "0x445fe580ef8d70ff569ab36e80c647af338db351".
Definition ren : string := "0xc2d95eef97ec6c17551d45e77b590dc1f9117c67".
Definition values : list string := [aave; ren].
End CURVE_POLYGON_POOLS.

Module CURVE_V2_POLYGON_POOLS.
Definition atricrypto3 : string := "0x1d8b86e3d88cdb2d34688e87e72f388cb541b7c8".
Definition values : list string := [atricrypto3].
End CURVE_V2_POLYGON_POOLS.

Module CURVE_AVALANCHE_POOLS.
Definition aave : string := "0x7f90122bf0700f9e7e1f688fe926940e8839f353".
Definition mim : string := "0xaea2e71b631fa93683bcf256a8689dfa0e094fcd".
Definition USDC : string := "0x3a43a5851a3e3e0e25a3c1089670269786be1577".
Definition values : list string := [aave; mim; USDC].
End CURVE_AVALANCHE_POOLS.

Module CURVE_V2_AVALANCHE_POOLS.
Definition atricrypto : string := "0x58e57ca18b7a47112b877e31929798cd3d703b0f".
Definition values : list string := [atricrypto].
End CURVE_V2_AVALANCHE_POOLS.

Module CURVE_FANTOM_POOLS.
Definition fUSDT : string := "0x92d5ebf3593a92888c25c0abef126583d4b5312e".
Definition twoPool : string := "0x27e611fd27b276acbd5ffd632e5eaebec9761e40".
Definition ren : string := "0x3ef6a01a0f81d6046290f3e2a8c5b843e738e604".
Definition tri_v2 : string := "0x2dd7c9371965472e5a5fd28fbe165007c61439e1".
Definition geist : string := "0x0fa949783947bf6c1b171db13aeacbb488845b3f".
Definition FRAX_twoPool : string := "0x7a656b342e14f745e2b164890e88017e27ae7320".
Definition values : list string := [fUSDT; twoPool; ren; tri_v2; geist; FRAX_twoPool].
End CURVE_FANTOM_POOLS.

Module CURVE_V2_FANTOM_POOLS.
Definition tricrypto : string := "0x3a1659ddcf2339be3aea159ca010979fb49155ff".
Definition values : list string := [tricrypto].
End CURVE_V2_FANTOM_POOLS.

Module CURVE_OPTIMISM_POOLS.
Definition tri : string := "0x1337bedc9d22ecbe766df105c9623922a27963ec".
Definition values : list string := [tri].
End CURVE_OPTIMISM_POOLS.

Module CURVE_V2_ARBITRUM_POOLS.
Definition tri : string := "0x960ea3e3c7fb317332d990873d354e18d7645590".
Definition twoPool : string := "0x7f90122bf0700f9e7e1f688fe926940e8839f353".
Definition vstFrax : string := "0x59bf0545fca0e5ad48e13da269facd2e8c886ba4".
Definition MIM : string := "0x30df229cefa463e991e29d42db0bae2e122b2ac7".
Definition fraxBP : string := "0xc9b8a3fdecb9d5b218d02555a8baf332e5b740d5".
Definition values : list string := [tri; twoPool; vstFrax; MIM; fraxBP].
End CURVE_V2_ARBITRUM_POOLS.

Module BELT_POOLS.
Definition vPool : string := "0xf16d312d119c13dd27fd0dc814b0bcdcaaa62dfd".
Definition values : list string := [vPool].
End BELT_POOLS.

Module ELLIPSIS_POOLS.
Definition threePool : string := "0x160caed03795365f3a589f10c379ffa7d75d4e76".
Definition values : list string := [threePool].
End ELLIPSIS_POOLS.

Module ACRYPTOS_POOLS.
Definition acs4usd : string := "0xb3f0c9ea1f05e312093fdb031e789a756659b0ac".
Definition acs4vai : string := "0x191409d5a4effe25b0f4240557ba2192d18a191e".
Definition acs4ust : string := "0x99c92765efc472a9709ced86310d64c4573c4b77".
Definition acs3btc : string := "0xbe7caa236544d1b9a0e7f91e94b9f5bfd3b5ca81".
Definition values : list string := [acs4usd; acs4vai; acs4ust; acs3btc].
End ACRYPTOS_POOLS.
