(* ===== verification/PoolTables.v ===== *)
(** * The tables of the chains ([market_operation_utils/constants.ts], [curve.ts])

    The literal tables of pools, routers and tokens per chain, as the code has
    them (Module [Tables]), and what makes them usable together with the code
    that reads them.  An object with computed keys keeps one value per key, the
    last one written, at the place of the first ([object_values]).

    Contract addresses of [@0x/contract-addresses] ([etherToken]) and the byte
    string of [@ethersproject/strings] are parameters. *)

From S2P Require Import Prelude JsLib JsNumber BigNum Types SourceFilters Orders Constants PairUtils TokenGraph Caches.
From S2P Require Import BridgeSources Sampler SamplerOperations Tokens.

Module CurveFunctionSelectors.
Definition None : string := "0x00000000".
Definition exchange : string := "0x3df02124".
Definition exchange_underlying : string := "0xa6417ed6".
Definition get_dy_underlying : string := "0x07211ef7".
Definition get_dx_underlying : string := "0x0e71d1b9".
Definition get_dy : string := "0x5e0d443f".
Definition get_dx : string := "0x67df02ca".
Definition get_dy_uint256 : string := "0x556d6e9f".
Definition exchange_underlying_uint256 : string := "0x65b2489b".
Definition exchange_v2 : string := "0x5b41b908".
Definition exchange_underlying_v2 : string := "0x65b2489b".
Definition get_dy_v2 : string := "0x556d6e9f".
Definition get_dy_underlying_v2 : string := "0x85f11d1e".
Definition swap : string := "0x91695586".
Definition calculateSwap : string := "0xa95b089f".
Definition calculateSwapUnderlying : string := "0x75d8e3e4".
Definition swapUnderlying : string := "0x78e0fae8".
End CurveFunctionSelectors.

(** [Object.values({ [key]: value, ... })] for keys that are not array indices. *)
Definition object_values {A} (entries : list (string * A)) : list A :=
  snd <$> fold_left (λ m '(k, v), assoc_update m k (λ _, v)) entries [].

Module Tables.

Definition CURVE_TRI_POOL_MAINNET_TOKENS : list string := [MAINNET_TOKENS.DAI; MAINNET_TOKENS.USDC;
  MAINNET_TOKENS.USDT].

Definition CURVE_TRI_BTC_POOL_TOKEN : list string := [MAINNET_TOKENS.RenBTC; MAINNET_TOKENS.WBTC;
  MAINNET_TOKENS.sBTC].

Definition CURVE_POLYGON_ATRICRYPTO_UNDERLYING_TOKENS : list string := [POLYGON_TOKENS.DAI; POLYGON_TOKENS.USDC;
  POLYGON_TOKENS.USDT].

Definition CURVE_POLYGON_ATRICRYPTO_TOKENS : list string := [POLYGON_TOKENS.amDAI; POLYGON_TOKENS.amUSDC;
  POLYGON_TOKENS.amUSDT].

Definition CURVE_FANTOM_TWO_POOL_TOKENS : list string := [FANTOM_TOKENS.DAI; FANTOM_TOKENS.USDC].

Definition CURVE_ARBITRUM_TWO_POOL_TOKENS : list string := [ARBITRUM_TOKENS.USDC; ARBITRUM_TOKENS.USDT].

Definition ACRYPTOS_ACS4USD_POOL_BSC_TOKENS : list string := [BSC_TOKENS.BUSD; BSC_TOKENS.USDT; BSC_TOKENS.DAI;
  BSC_TOKENS.USDC].

Definition createCurveExchangePool (tokens : list string) (pool : string) (gasSchedule : number)
    : CurveInfo :=
  {| curve_exchangeFunctionSelector := CurveFunctionSelectors.exchange;
     curve_sellQuoteFunctionSelector := CurveFunctionSelectors.get_dy;
     curve_buyQuoteFunctionSelector := CurveFunctionSelectors.None;
     curve_poolAddress := pool; curve_tokens := tokens;
     curve_metaTokens := None; curve_gasSchedule := gasSchedule |}.

Definition createCurveExchangeUnderlyingPool (tokens : list string) (pool : string) (gasSchedule : number)
    : CurveInfo :=
  {| curve_exchangeFunctionSelector := CurveFunctionSelectors.exchange_underlying;
     curve_sellQuoteFunctionSelector := CurveFunctionSelectors.get_dy_underlying;
     curve_buyQuoteFunctionSelector := CurveFunctionSelectors.None;
     curve_poolAddress := pool; curve_tokens := tokens;
     curve_metaTokens := None; curve_gasSchedule := gasSchedule |}.

Definition createCurveMetaTriPool (tokens : list string) (pool : string) (gasSchedule : number)
    : CurveInfo :=
  {| curve_exchangeFunctionSelector := CurveFunctionSelectors.exchange_underlying;
     curve_sellQuoteFunctionSelector := CurveFunctionSelectors.get_dy_underlying;
     curve_buyQuoteFunctionSelector := CurveFunctionSelectors.None;
     curve_poolAddress := pool; curve_tokens := tokens ++ CURVE_TRI_POOL_MAINNET_TOKENS;
     curve_metaTokens := Some tokens; curve_gasSchedule := gasSchedule |}.

Definition createCurveMetaTriBtcPool (tokens : list string) (pool : string) (gasSchedule : number)
    : CurveInfo :=
  {| curve_exchangeFunctionSelector := CurveFunctionSelectors.exchange_underlying;
     curve_sellQuoteFunctionSelector := CurveFunctionSelectors.get_dy_underlying;
     curve_buyQuoteFunctionSelector := CurveFunctionSelectors.None;
     curve_poolAddress := pool; curve_tokens := tokens ++ CURVE_TRI_BTC_POOL_TOKEN;
     curve_metaTokens := Some tokens; curve_gasSchedule := gasSchedule |}.

Definition createCurveMetaTwoPoolFantom (tokens : list string) (pool : string) (gasSchedule : number)
    : CurveInfo :=
  {| curve_exchangeFunctionSelector := CurveFunctionSelectors.exchange_underlying;
     curve_sellQuoteFunctionSelector := CurveFunctionSelectors.get_dy_underlying;
     curve_buyQuoteFunctionSelector := CurveFunctionSelectors.None;
     curve_poolAddress := pool; curve_tokens := tokens ++ CURVE_FANTOM_TWO_POOL_TOKENS;
     curve_metaTokens := Some tokens; curve_gasSchedule := gasSchedule |}.

Definition createCurveMetaTwoPoolArbitrum (tokens : list string) (pool : string) (gasSchedule : number)
    : CurveInfo :=
  {| curve_exchangeFunctionSelector := CurveFunctionSelectors.exchange_underlying;
     curve_sellQuoteFunctionSelector := CurveFunctionSelectors.get_dy_underlying;
     curve_buyQuoteFunctionSelector := CurveFunctionSelectors.None;
     curve_poolAddress := pool; curve_tokens := tokens ++ CURVE_ARBITRUM_TWO_POOL_TOKENS;
     curve_metaTokens := Some tokens; curve_gasSchedule := gasSchedule |}.

Definition createCurveExchangeV2Pool (tokens : list string) (pool : string) (gasSchedule : number)
    : CurveInfo :=
  {| curve_exchangeFunctionSelector := CurveFunctionSelectors.exchange_v2;
     curve_sellQuoteFunctionSelector := CurveFunctionSelectors.get_dy_v2;
     curve_buyQuoteFunctionSelector := CurveFunctionSelectors.None;
     curve_poolAddress := pool; curve_tokens := tokens;
     curve_metaTokens := None; curve_gasSchedule := gasSchedule |}.

Definition createCurveV2MetaTriPool (tokens : list string) (pool : string) (gasSchedule : number)
    : CurveInfo :=
  {| curve_exchangeFunctionSelector := CurveFunctionSelectors.exchange_underlying_v2;
     curve_sellQuoteFunctionSelector := CurveFunctionSelectors.get_dy_underlying_v2;
     curve_buyQuoteFunctionSelector := CurveFunctionSelectors.None;
     curve_poolAddress := pool; curve_tokens := CURVE_POLYGON_ATRICRYPTO_UNDERLYING_TOKENS ++ tokens;
     curve_metaTokens := Some tokens; curve_gasSchedule := gasSchedule |}.

Definition createCurveFactoryCryptoExchangePool (tokens : list string) (pool : string) (gasSchedule : number)
    : CurveInfo :=
  {| curve_exchangeFunctionSelector := CurveFunctionSelectors.exchange_underlying_uint256;
     curve_sellQuoteFunctionSelector := CurveFunctionSelectors.get_dy_uint256;
     curve_buyQuoteFunctionSelector := CurveFunctionSelectors.None;
     curve_poolAddress := pool; curve_tokens := tokens;
     curve_metaTokens := None; curve_gasSchedule := gasSchedule |}.

Definition createAcryptosMetaUsdPool (tokens : list string) (pool : string) (gasSchedule : number)
    : CurveInfo :=
  {| curve_exchangeFunctionSelector := CurveFunctionSelectors.exchange_underlying;
     curve_sellQuoteFunctionSelector := CurveFunctionSelectors.get_dy_underlying;
     curve_buyQuoteFunctionSelector := CurveFunctionSelectors.None;
     curve_poolAddress := pool; curve_tokens := tokens ++ ACRYPTOS_ACS4USD_POOL_BSC_TOKENS;
     curve_metaTokens := Some tokens; curve_gasSchedule := gasSchedule |}.

Definition MOBIUSMONEY_CELO_SHARED : CurveInfo :=
  {| curve_exchangeFunctionSelector := CurveFunctionSelectors.swap;
     curve_sellQuoteFunctionSelector := CurveFunctionSelectors.calculateSwap;
     curve_buyQuoteFunctionSelector := CurveFunctionSelectors.None;
     curve_poolAddress := NULL_ADDRESS; curve_tokens := []; curve_metaTokens := None;
     curve_gasSchedule := n_Z 150000 |}.

Definition createSaddleSwapPool (tokens : list string) (pool : string) (gasSchedule : number)
    : CurveInfo :=
  {| curve_exchangeFunctionSelector := CurveFunctionSelectors.swap;
     curve_sellQuoteFunctionSelector := CurveFunctionSelectors.calculateSwap;
     curve_buyQuoteFunctionSelector := CurveFunctionSelectors.None;
     curve_poolAddress := pool; curve_tokens := tokens;
     curve_metaTokens := None; curve_gasSchedule := gasSchedule |}.

Definition createSaddleMetaSwapPool (tokens : list string) (pool : string) (gasSchedule : number)
    : CurveInfo :=
  {| curve_exchangeFunctionSelector := CurveFunctionSelectors.swapUnderlying;
     curve_sellQuoteFunctionSelector := CurveFunctionSelectors.calculateSwapUnderlying;
     curve_buyQuoteFunctionSelector := CurveFunctionSelectors.None;
     curve_poolAddress := pool; curve_tokens := tokens;
     curve_metaTokens := Some [hd "" tokens]; curve_gasSchedule := gasSchedule |}.

(** [{ ...shared, poolAddress, tokens }]. *)
Definition with_pool (shared : CurveInfo) (pool : string) (tokens : list string) : CurveInfo :=
  {| curve_exchangeFunctionSelector := curve_exchangeFunctionSelector shared;
     curve_sellQuoteFunctionSelector := curve_sellQuoteFunctionSelector shared;
     curve_buyQuoteFunctionSelector := curve_buyQuoteFunctionSelector shared;
     curve_poolAddress := pool; curve_tokens := tokens; curve_metaTokens := curve_metaTokens shared;
     curve_gasSchedule := curve_gasSchedule shared |}.

(** [{ ...info, sellQuoteFunctionSelector, exchangeFunctionSelector }]. *)
Definition with_selectors (info : CurveInfo) (sellQuote exchange : string) : CurveInfo :=
  {| curve_exchangeFunctionSelector := exchange; curve_sellQuoteFunctionSelector := sellQuote;
     curve_buyQuoteFunctionSelector := curve_buyQuoteFunctionSelector info;
     curve_poolAddress := curve_poolAddress info; curve_tokens := curve_tokens info;
     curve_metaTokens := curve_metaTokens info; curve_gasSchedule := curve_gasSchedule info |}.

Definition CURVE_MAINNET_INFOS : list CurveInfo := object_values
  [(CURVE_POOLS.compound,
    createCurveExchangeUnderlyingPool [MAINNET_TOKENS.DAI; MAINNET_TOKENS.USDC] CURVE_POOLS.compound (n_Z 587000));
   (CURVE_POOLS.PAX,
    createCurveExchangeUnderlyingPool
      [MAINNET_TOKENS.DAI; MAINNET_TOKENS.USDC; MAINNET_TOKENS.USDT; MAINNET_TOKENS.PAX]
      CURVE_POOLS.PAX (n_Z 742000));
   (CURVE_POOLS.sUSD,
    createCurveExchangeUnderlyingPool
      [MAINNET_TOKENS.DAI; MAINNET_TOKENS.USDC; MAINNET_TOKENS.USDT; MAINNET_TOKENS.sUSD]
      CURVE_POOLS.sUSD (n_Z 302000));
   (CURVE_POOLS.renBTC,
    createCurveExchangePool [MAINNET_TOKENS.RenBTC; MAINNET_TOKENS.WBTC] CURVE_POOLS.renBTC (n_Z 171000));
   (CURVE_POOLS.sBTC,
    createCurveExchangePool
      [MAINNET_TOKENS.RenBTC; MAINNET_TOKENS.WBTC; MAINNET_TOKENS.sBTC]
      CURVE_POOLS.sBTC (n_Z 327000));
   (CURVE_POOLS.HBTC,
    createCurveExchangePool [MAINNET_TOKENS.hBTC; MAINNET_TOKENS.WBTC] CURVE_POOLS.HBTC (n_Z 210000));
   (CURVE_POOLS.TRI,
    createCurveExchangePool
      [MAINNET_TOKENS.DAI; MAINNET_TOKENS.USDC; MAINNET_TOKENS.USDT]
      CURVE_POOLS.TRI (n_Z 176000));
   (CURVE_POOLS.GUSD,
    createCurveMetaTriPool [MAINNET_TOKENS.GUSD] CURVE_POOLS.GUSD (n_Z 411000));
   (CURVE_POOLS.HUSD,
    createCurveMetaTriPool [MAINNET_TOKENS.HUSD] CURVE_POOLS.HUSD (n_Z 396000));
   (CURVE_POOLS.USDN,
    createCurveMetaTriPool [MAINNET_TOKENS.USDN] CURVE_POOLS.USDN (n_Z 398000));
   (CURVE_POOLS.mUSD,
    createCurveMetaTriPool [MAINNET_TOKENS.mUSD] CURVE_POOLS.mUSD (n_Z 385000));
   (CURVE_POOLS.dUSD,
    createCurveMetaTriPool [MAINNET_TOKENS.dUSD] CURVE_POOLS.dUSD (n_Z 371000));
   (CURVE_POOLS.tBTC,
    createCurveMetaTriBtcPool [MAINNET_TOKENS.tBTC] CURVE_POOLS.tBTC (n_Z 482000));
   (CURVE_POOLS.pBTC,
    createCurveMetaTriBtcPool [MAINNET_TOKENS.pBTC] CURVE_POOLS.pBTC (n_Z 503000));
   (CURVE_POOLS.bBTC,
    createCurveMetaTriBtcPool [MAINNET_TOKENS.bBTC] CURVE_POOLS.bBTC (n_Z 497000));
   (CURVE_POOLS.oBTC,
    createCurveMetaTriBtcPool [MAINNET_TOKENS.oBTC] CURVE_POOLS.oBTC (n_Z 488000));
   (CURVE_POOLS.UST,
    createCurveMetaTriPool [MAINNET_TOKENS.UST] CURVE_POOLS.UST (n_Z 340000));
   (CURVE_POOLS.eurs,
    createCurveExchangePool [MAINNET_TOKENS.EURS; MAINNET_TOKENS.sEUR] CURVE_POOLS.eurs (n_Z 320000));
   (CURVE_POOLS.eurt,
    createCurveExchangePool [MAINNET_TOKENS.EURT; MAINNET_TOKENS.sEUR] CURVE_POOLS.eurt (n_Z 320000));
   (CURVE_POOLS.aave,
    createCurveExchangeUnderlyingPool
      [MAINNET_TOKENS.DAI; MAINNET_TOKENS.USDC; MAINNET_TOKENS.USDT]
      CURVE_POOLS.aave (n_Z 580000));
   (CURVE_POOLS.aave,
    createCurveExchangePool
      [MAINNET_TOKENS.aDAI; MAINNET_TOKENS.aUSDC; MAINNET_TOKENS.aUSDT]
      CURVE_POOLS.aave (n_Z 580000));
   (CURVE_POOLS.saave,
    createCurveExchangeUnderlyingPool [MAINNET_TOKENS.DAI; MAINNET_TOKENS.sUSD] CURVE_POOLS.saave (n_Z 580000));
   (CURVE_POOLS.saave,
    createCurveExchangePool [MAINNET_TOKENS.aDAI; MAINNET_TOKENS.aSUSD] CURVE_POOLS.saave (n_Z 580000));
   (CURVE_POOLS.USDP,
    createCurveMetaTriPool [MAINNET_TOKENS.USDP] CURVE_POOLS.USDP (n_Z 374000));
   (CURVE_POOLS.link,
    createCurveExchangePool [MAINNET_TOKENS.LINK; MAINNET_TOKENS.sLINK] CURVE_POOLS.link (n_Z 319000));
   (CURVE_POOLS.TUSD,
    createCurveMetaTriPool [MAINNET_TOKENS.TUSD] CURVE_POOLS.TUSD (n_Z 404000));
   (CURVE_POOLS.STABLEx,
    createCurveMetaTriPool [MAINNET_TOKENS.STABLEx] CURVE_POOLS.STABLEx (n_Z 397000));
   (CURVE_POOLS.alUSD,
    createCurveMetaTriPool [MAINNET_TOKENS.alUSD] CURVE_POOLS.alUSD (n_Z 387000));
   (CURVE_POOLS.FRAX,
    createCurveMetaTriPool [MAINNET_TOKENS.FRAX] CURVE_POOLS.FRAX (n_Z 387000));
   (CURVE_POOLS.LUSD,
    createCurveMetaTriPool [MAINNET_TOKENS.LUSD] CURVE_POOLS.LUSD (n_Z 387000));
   (CURVE_POOLS.BUSD,
    createCurveMetaTriPool [MAINNET_TOKENS.BUSD] CURVE_POOLS.BUSD (n_Z 387000));
   (CURVE_POOLS.steth,
    createCurveExchangePool [MAINNET_TOKENS.WETH; MAINNET_TOKENS.stETH] CURVE_POOLS.steth (n_Z 151000));
   (CURVE_POOLS.seth,
    createCurveExchangePool [MAINNET_TOKENS.WETH; MAINNET_TOKENS.sETH] CURVE_POOLS.seth (n_Z 187000));
   (CURVE_POOLS.ankreth,
    createCurveExchangePool [MAINNET_TOKENS.WETH; MAINNET_TOKENS.ankrETH] CURVE_POOLS.ankreth (n_Z 125000));
   (CURVE_POOLS.DSU3CRV,
    createCurveMetaTriPool [MAINNET_TOKENS.DSU] CURVE_POOLS.DSU3CRV (n_Z 387000));
   (CURVE_POOLS.mim,
    createCurveMetaTriPool [MAINNET_TOKENS.MIM] CURVE_POOLS.mim (n_Z 300000));
   (CURVE_POOLS.cvxcrv,
    createCurveExchangePool [MAINNET_TOKENS.CRV; MAINNET_TOKENS.cvxCRV] CURVE_POOLS.cvxcrv (n_Z 105000));
   (CURVE_POOLS.ethcrv,
    with_selectors
      (createCurveExchangePool [MAINNET_TOKENS.WETH; MAINNET_TOKENS.CRV] CURVE_POOLS.ethcrv (n_Z 350000))
      CurveFunctionSelectors.get_dy_uint256 CurveFunctionSelectors.exchange_underlying_uint256);
   (CURVE_POOLS.ethcvx,
    with_selectors
      (createCurveExchangePool [MAINNET_TOKENS.WETH; MAINNET_TOKENS.CVX] CURVE_POOLS.ethcvx (n_Z 350000))
      CurveFunctionSelectors.get_dy_uint256 CurveFunctionSelectors.exchange_underlying_uint256);
   (CURVE_POOLS.fei_tri,
    createCurveMetaTriPool [MAINNET_TOKENS.FEI] CURVE_POOLS.fei_tri (n_Z 340000));
   (CURVE_POOLS.rai_tri,
    createCurveMetaTriPool [MAINNET_TOKENS.RAI] CURVE_POOLS.rai_tri (n_Z 340000));
   (CURVE_POOLS.DOLA_tri,
    createCurveMetaTriPool [MAINNET_TOKENS.DOLA] CURVE_POOLS.DOLA_tri (n_Z 340000));
   (CURVE_POOLS.OUSD_tri,
    createCurveMetaTriPool [MAINNET_TOKENS.OUSD] CURVE_POOLS.OUSD_tri (n_Z 340000));
   (CURVE_POOLS.d3pool,
    createCurveExchangePool
      [MAINNET_TOKENS.FRAX; MAINNET_TOKENS.FEI; MAINNET_TOKENS.alUSD]
      CURVE_POOLS.d3pool (n_Z 176000));
   (CURVE_POOLS.triEURpool,
    createCurveExchangePool
      [MAINNET_TOKENS.agEUR; MAINNET_TOKENS.EURT; MAINNET_TOKENS.EURS]
      CURVE_POOLS.triEURpool (n_Z 176000));
   (CURVE_POOLS.ibEURsEUR,
    createCurveExchangePool [MAINNET_TOKENS.ibEUR; MAINNET_TOKENS.sEUR] CURVE_POOLS.ibEURsEUR (n_Z 176000));
   (CURVE_POOLS.btrflyweth,
    createCurveFactoryCryptoExchangePool
      [MAINNET_TOKENS.WETH; MAINNET_TOKENS.BTRFLY]
      CURVE_POOLS.btrflyweth (n_Z 250000));
   (CURVE_POOLS.wethyfi,
    createCurveFactoryCryptoExchangePool [MAINNET_TOKENS.WETH; MAINNET_TOKENS.YFI] CURVE_POOLS.wethyfi (n_Z 250000));
   (CURVE_POOLS.stgusdc,
    createCurveFactoryCryptoExchangePool [MAINNET_TOKENS.STG; MAINNET_TOKENS.USDC] CURVE_POOLS.stgusdc (n_Z 250000));
   (CURVE_POOLS.cvxfxs,
    createCurveFactoryCryptoExchangePool
      [MAINNET_TOKENS.FXS; MAINNET_TOKENS.cvxFXS]
      CURVE_POOLS.cvxfxs (n_Z 390000));
   (CURVE_POOLS.ycrvcrv,
    createCurveExchangePool [MAINNET_TOKENS.CRV; MAINNET_TOKENS.ynCRV] CURVE_POOLS.ycrvcrv (n_Z 450000));
   (CURVE_POOLS.bLUSD,
    createCurveFactoryCryptoExchangePool
      [MAINNET_TOKENS.bLUSD; MAINNET_TOKENS.LUSDCRV]
      CURVE_POOLS.bLUSD (n_Z 390000));
   (CURVE_POOLS.crvfrax,
    createCurveExchangePool [MAINNET_TOKENS.FRAX; MAINNET_TOKENS.USDC] CURVE_POOLS.crvfrax (n_Z 390000));
   (CURVE_POOLS.rsr,
    createCurveFactoryCryptoExchangePool [MAINNET_TOKENS.rsr; MAINNET_TOKENS.crvFRAX] CURVE_POOLS.rsr (n_Z 390000));
   (CURVE_POOLS.DOLAFRAX,
    createCurveExchangePool [MAINNET_TOKENS.DOLA; MAINNET_TOKENS.crvFRAX] CURVE_POOLS.DOLAFRAX (n_Z 260000))].

Definition CURVE_V2_MAINNET_INFOS : list CurveInfo := object_values
  [(CURVE_V2_POOLS.tricrypto,
    createCurveExchangeV2Pool
      [MAINNET_TOKENS.USDT; MAINNET_TOKENS.WBTC; MAINNET_TOKENS.WETH]
      CURVE_V2_POOLS.tricrypto (n_Z 300000));
   (CURVE_V2_POOLS.tricrypto2,
    createCurveExchangeV2Pool
      [MAINNET_TOKENS.USDT; MAINNET_TOKENS.WBTC; MAINNET_TOKENS.WETH]
      CURVE_V2_POOLS.tricrypto2 (n_Z 300000))].

Definition CURVE_POLYGON_INFOS : list CurveInfo := object_values
  [("aave_exchangeunderlying"%string,
    createCurveExchangeUnderlyingPool
      CURVE_POLYGON_ATRICRYPTO_UNDERLYING_TOKENS
      CURVE_POLYGON_POOLS.aave (n_Z 300000));
   ("aave_exchange"%string,
    createCurveExchangePool CURVE_POLYGON_ATRICRYPTO_TOKENS CURVE_POLYGON_POOLS.aave (n_Z 150000));
   (CURVE_POLYGON_POOLS.ren,
    createCurveExchangeUnderlyingPool
      [POLYGON_TOKENS.WBTC; POLYGON_TOKENS.renBTC]
      CURVE_POLYGON_POOLS.ren (n_Z 350000))].

Definition CURVE_V2_POLYGON_INFOS : list CurveInfo := object_values
  [(CURVE_V2_POLYGON_POOLS.atricrypto3,
    createCurveV2MetaTriPool
      [POLYGON_TOKENS.WBTC; POLYGON_TOKENS.WETH]
      CURVE_V2_POLYGON_POOLS.atricrypto3 (n_Z 300000))].

Definition CURVE_AVALANCHE_INFOS : list CurveInfo := object_values
  [("aave_exchangeunderlying"%string,
    createCurveExchangeUnderlyingPool
      [AVALANCHE_TOKENS.DAI; AVALANCHE_TOKENS.USDC; AVALANCHE_TOKENS.USDT]
      CURVE_AVALANCHE_POOLS.aave (n_Z 850000));
   ("aave_exchange"%string,
    createCurveExchangePool
      [AVALANCHE_TOKENS.aDAI; AVALANCHE_TOKENS.aUSDC; AVALANCHE_TOKENS.aUSDT]
      CURVE_AVALANCHE_POOLS.aave (n_Z 150000));
   (CURVE_AVALANCHE_POOLS.mim,
    createCurveExchangePool
      [AVALANCHE_TOKENS.MIM; AVALANCHE_TOKENS.USDT; AVALANCHE_TOKENS.USDC]
      CURVE_AVALANCHE_POOLS.mim (n_Z 150000));
   (CURVE_AVALANCHE_POOLS.USDC,
    createCurveExchangePool [AVALANCHE_TOKENS.USDC; AVALANCHE_TOKENS.nUSDC] CURVE_AVALANCHE_POOLS.USDC (n_Z 150000))].

Definition CURVE_V2_AVALANCHE_INFOS : list CurveInfo := object_values
  [(CURVE_V2_AVALANCHE_POOLS.atricrypto,
    {| curve_exchangeFunctionSelector := CurveFunctionSelectors.exchange_underlying_v2;
        curve_sellQuoteFunctionSelector := CurveFunctionSelectors.get_dy_underlying_v2;
        curve_buyQuoteFunctionSelector := CurveFunctionSelectors.None;
        curve_poolAddress := CURVE_V2_AVALANCHE_POOLS.atricrypto; curve_tokens := [AVALANCHE_TOKENS.DAI;
          AVALANCHE_TOKENS.USDC; AVALANCHE_TOKENS.USDT; AVALANCHE_TOKENS.WBTC; AVALANCHE_TOKENS.WETH];
        curve_metaTokens := None; curve_gasSchedule := n_Z 1300000 |})].

Definition CURVE_FANTOM_INFOS : list CurveInfo := object_values
  [(CURVE_FANTOM_POOLS.ren,
    createCurveExchangePool [FANTOM_TOKENS.WBTC; FANTOM_TOKENS.renBTC] CURVE_FANTOM_POOLS.ren (n_Z 171000));
   (CURVE_FANTOM_POOLS.twoPool,
    createCurveExchangePool [FANTOM_TOKENS.DAI; FANTOM_TOKENS.USDC] CURVE_FANTOM_POOLS.twoPool (n_Z 176000));
   (CURVE_FANTOM_POOLS.fUSDT,
    createCurveExchangeUnderlyingPool
      [FANTOM_TOKENS.fUSDT; FANTOM_TOKENS.DAI; FANTOM_TOKENS.USDC]
      CURVE_FANTOM_POOLS.fUSDT (n_Z 587000));
   (CURVE_FANTOM_POOLS.tri_v2,
    createCurveExchangePool
      [FANTOM_TOKENS.MIM; FANTOM_TOKENS.fUSDT; FANTOM_TOKENS.USDC]
      CURVE_FANTOM_POOLS.tri_v2 (n_Z 176000));
   (CURVE_FANTOM_POOLS.FRAX_twoPool,
    createCurveMetaTwoPoolFantom [FANTOM_TOKENS.FRAX] CURVE_FANTOM_POOLS.FRAX_twoPool (n_Z 411000))].

Definition CURVE_V2_FANTOM_INFOS : list CurveInfo := object_values
  [(CURVE_V2_FANTOM_POOLS.tricrypto,
    createCurveExchangeV2Pool
      [FANTOM_TOKENS.fUSDT; FANTOM_TOKENS.WBTC; FANTOM_TOKENS.WETH]
      CURVE_V2_FANTOM_POOLS.tricrypto (n_Z 300000))].

Definition CURVE_OPTIMISM_INFOS : list CurveInfo := object_values
  [(CURVE_OPTIMISM_POOLS.tri,
    createCurveExchangePool
      [OPTIMISM_TOKENS.DAI; OPTIMISM_TOKENS.USDC; OPTIMISM_TOKENS.USDT]
      CURVE_OPTIMISM_POOLS.tri (n_Z 150000))].

Definition CURVE_V2_ARBITRUM_INFOS : list CurveInfo := object_values
  [(CURVE_V2_ARBITRUM_POOLS.tri,
    createCurveExchangeV2Pool
      [ARBITRUM_TOKENS.USDT; ARBITRUM_TOKENS.WBTC; ARBITRUM_TOKENS.WETH]
      CURVE_V2_ARBITRUM_POOLS.tri (n_Z 600000));
   (CURVE_V2_ARBITRUM_POOLS.twoPool,
    createCurveExchangePool
      [ARBITRUM_TOKENS.USDC; ARBITRUM_TOKENS.USDT]
      CURVE_V2_ARBITRUM_POOLS.twoPool (n_Z 400000));
   (CURVE_V2_ARBITRUM_POOLS.MIM,
    createCurveMetaTwoPoolArbitrum [ARBITRUM_TOKENS.MIM] CURVE_V2_ARBITRUM_POOLS.MIM (n_Z 400000));
   (CURVE_V2_ARBITRUM_POOLS.fraxBP,
    createCurveExchangePool
      [ARBITRUM_TOKENS.FRAX; ARBITRUM_TOKENS.USDC]
      CURVE_V2_ARBITRUM_POOLS.fraxBP (n_Z 200000));
   (CURVE_V2_ARBITRUM_POOLS.vstFrax,
    createCurveExchangePool
      [ARBITRUM_TOKENS.VST; ARBITRUM_TOKENS.FRAX]
      CURVE_V2_ARBITRUM_POOLS.vstFrax (n_Z 200000))].

Definition BELT_BSC_INFOS : list CurveInfo := object_values
  [(BELT_POOLS.vPool,
    createCurveExchangeUnderlyingPool
      [BSC_TOKENS.DAI; BSC_TOKENS.USDC; BSC_TOKENS.USDT; BSC_TOKENS.BUSD]
      BELT_POOLS.vPool (n_Z 4490000))].

Definition ELLIPSIS_BSC_INFOS : list CurveInfo := object_values
  [(ELLIPSIS_POOLS.threePool,
    createCurveExchangePool
      [BSC_TOKENS.BUSD; BSC_TOKENS.USDC; BSC_TOKENS.USDT]
      ELLIPSIS_POOLS.threePool (n_Z 140000))].

Definition ACRYPTOS_BSC_INFOS : list CurveInfo := object_values
  [(ACRYPTOS_POOLS.acs4usd,
    createCurveExchangePool ACRYPTOS_ACS4USD_POOL_BSC_TOKENS ACRYPTOS_POOLS.acs4usd (n_Z 145000));
   (ACRYPTOS_POOLS.acs4vai,
    createAcryptosMetaUsdPool [BSC_TOKENS.VAI] ACRYPTOS_POOLS.acs4vai (n_Z 300000));
   (ACRYPTOS_POOLS.acs4ust,
    createAcryptosMetaUsdPool [BSC_TOKENS.UST] ACRYPTOS_POOLS.acs4ust (n_Z 300000));
   (ACRYPTOS_POOLS.acs3btc,
    createCurveExchangePool
      [BSC_TOKENS.BTCB; BSC_TOKENS.renBTC; BSC_TOKENS.pBTC]
      ACRYPTOS_POOLS.acs3btc (n_Z 145000))].

Definition SADDLE_MAINNET_INFOS : list CurveInfo := object_values
  [(SADDLE_MAINNET_POOLS.stablesV2,
    createSaddleSwapPool
      [MAINNET_TOKENS.DAI; MAINNET_TOKENS.USDC; MAINNET_TOKENS.USDT]
      SADDLE_MAINNET_POOLS.stablesV2 (n_Z 150000));
   (SADDLE_MAINNET_POOLS.alETH,
    createSaddleSwapPool
      [MAINNET_TOKENS.WETH; MAINNET_TOKENS.alETH; MAINNET_TOKENS.sETH]
      SADDLE_MAINNET_POOLS.alETH (n_Z 200000));
   (SADDLE_MAINNET_POOLS.fraxBP,
    createSaddleSwapPool [MAINNET_TOKENS.USDC; MAINNET_TOKENS.FRAX] SADDLE_MAINNET_POOLS.fraxBP (n_Z 150000));
   (SADDLE_MAINNET_POOLS.usx,
    createSaddleSwapPool [MAINNET_TOKENS.USDC; MAINNET_TOKENS.USX] SADDLE_MAINNET_POOLS.usx (n_Z 150000));
   (SADDLE_MAINNET_POOLS.susdMetaPoolV3,
    createSaddleMetaSwapPool
      [MAINNET_TOKENS.sUSD; MAINNET_TOKENS.DAI; MAINNET_TOKENS.USDC; MAINNET_TOKENS.USDT]
      SADDLE_MAINNET_POOLS.susdMetaPoolV3 (n_Z 370000));
   (SADDLE_MAINNET_POOLS.fraxAlusdMetaPool,
    createSaddleMetaSwapPool
      [MAINNET_TOKENS.alUSD; MAINNET_TOKENS.USDC; MAINNET_TOKENS.FRAX]
      SADDLE_MAINNET_POOLS.fraxAlusdMetaPool (n_Z 320000));
   (SADDLE_MAINNET_POOLS.fraxSusdMetaPool,
    createSaddleMetaSwapPool
      [MAINNET_TOKENS.sUSD; MAINNET_TOKENS.USDC; MAINNET_TOKENS.FRAX]
      SADDLE_MAINNET_POOLS.fraxSusdMetaPool (n_Z 370000))].

Definition SADDLE_OPTIMISM_INFOS : list CurveInfo := object_values
  [(SADDLE_OPTIMISM_POOLS.fraxBP,
    createSaddleSwapPool [OPTIMISM_TOKENS.USDC; OPTIMISM_TOKENS.FRAX] SADDLE_OPTIMISM_POOLS.fraxBP (n_Z 150000))].

Definition SADDLE_ARBITRUM_INFOS : list CurveInfo := object_values
  [(SADDLE_ARBITRUM_POOLS.fraxBP,
    createSaddleSwapPool [ARBITRUM_TOKENS.USDC; ARBITRUM_TOKENS.FRAX] SADDLE_ARBITRUM_POOLS.fraxBP (n_Z 200000));
   (SADDLE_ARBITRUM_POOLS.arbUSDPoolV2,
    createSaddleSwapPool
      [ARBITRUM_TOKENS.FRAX; ARBITRUM_TOKENS.USDC; ARBITRUM_TOKENS.USDT]
      SADDLE_ARBITRUM_POOLS.arbUSDPoolV2 (n_Z 200000))].

Definition IRONSWAP_POLYGON_INFOS : list CurveInfo := object_values
  [(IRONSWAP_POOLS.is3usd,
    {| curve_exchangeFunctionSelector := CurveFunctionSelectors.swap;
        curve_sellQuoteFunctionSelector := CurveFunctionSelectors.calculateSwap;
        curve_buyQuoteFunctionSelector := CurveFunctionSelectors.None;
        curve_poolAddress := IRONSWAP_POOLS.is3usd; curve_tokens := [POLYGON_TOKENS.USDC; POLYGON_TOKENS.USDT;
          POLYGON_TOKENS.DAI];
        curve_metaTokens := None; curve_gasSchedule := n_Z 150000 |})].

Definition NERVE_BSC_INFOS : list CurveInfo := object_values
  [(NERVE_POOLS.threePool,
    {| curve_exchangeFunctionSelector := CurveFunctionSelectors.swap;
        curve_sellQuoteFunctionSelector := CurveFunctionSelectors.calculateSwap;
        curve_buyQuoteFunctionSelector := CurveFunctionSelectors.None;
        curve_poolAddress := NERVE_POOLS.threePool; curve_tokens := [BSC_TOKENS.BUSD; BSC_TOKENS.USDT;
          BSC_TOKENS.USDC];
        curve_metaTokens := None; curve_gasSchedule := n_Z 140000 |})].

Definition SYNAPSE_BSC_INFOS : list CurveInfo := object_values
  [(SYNAPSE_BSC_POOLS.nUSDLP,
    {| curve_exchangeFunctionSelector := CurveFunctionSelectors.swap;
        curve_sellQuoteFunctionSelector := CurveFunctionSelectors.calculateSwap;
        curve_buyQuoteFunctionSelector := CurveFunctionSelectors.None;
        curve_poolAddress := SYNAPSE_BSC_POOLS.nUSDLP; curve_tokens := [BSC_TOKENS.nUSD; BSC_TOKENS.BUSD;
          BSC_TOKENS.USDC; BSC_TOKENS.USDT];
        curve_metaTokens := None; curve_gasSchedule := n_Z 140000 |})].

Definition SYNAPSE_FANTOM_INFOS : list CurveInfo := object_values
  [(SYNAPSE_FANTOM_POOLS.nUSDLP,
    {| curve_exchangeFunctionSelector := CurveFunctionSelectors.swap;
        curve_sellQuoteFunctionSelector := CurveFunctionSelectors.calculateSwap;
        curve_buyQuoteFunctionSelector := CurveFunctionSelectors.None;
        curve_poolAddress := SYNAPSE_FANTOM_POOLS.nUSDLP; curve_tokens := [FANTOM_TOKENS.nUSD; FANTOM_TOKENS.MIM;
          FANTOM_TOKENS.USDC; FANTOM_TOKENS.fUSDT];
        curve_metaTokens := None; curve_gasSchedule := n_Z 140000 |})].

Definition SYNAPSE_MAINNET_INFOS : list CurveInfo := object_values
  [(SYNAPSE_MAINNET_POOLS.nUSDLP,
    {| curve_exchangeFunctionSelector := CurveFunctionSelectors.swap;
        curve_sellQuoteFunctionSelector := CurveFunctionSelectors.calculateSwap;
        curve_buyQuoteFunctionSelector := CurveFunctionSelectors.None;
        curve_poolAddress := SYNAPSE_MAINNET_POOLS.nUSDLP; curve_tokens := [MAINNET_TOKENS.DAI; MAINNET_TOKENS.USDC;
          MAINNET_TOKENS.USDT];
        curve_metaTokens := None; curve_gasSchedule := n_Z 140000 |})].

Definition SYNAPSE_OPTIMISM_INFOS : list CurveInfo := object_values
  [(SYNAPSE_OPTIMISM_POOLS.nETHLP,
    {| curve_exchangeFunctionSelector := CurveFunctionSelectors.swap;
        curve_sellQuoteFunctionSelector := CurveFunctionSelectors.calculateSwap;
        curve_buyQuoteFunctionSelector := CurveFunctionSelectors.None;
        curve_poolAddress := SYNAPSE_OPTIMISM_POOLS.nETHLP; curve_tokens := [OPTIMISM_TOKENS.nETH;
          OPTIMISM_TOKENS.sWETH];
        curve_metaTokens := None; curve_gasSchedule := n_Z 140000 |})].

Definition SYNAPSE_POLYGON_INFOS : list CurveInfo := object_values
  [(SYNAPSE_POLYGON_POOLS.nUSDLP,
    {| curve_exchangeFunctionSelector := CurveFunctionSelectors.swap;
        curve_sellQuoteFunctionSelector := CurveFunctionSelectors.calculateSwap;
        curve_buyQuoteFunctionSelector := CurveFunctionSelectors.None;
        curve_poolAddress := SYNAPSE_POLYGON_POOLS.nUSDLP; curve_tokens := [POLYGON_TOKENS.nUSD; POLYGON_TOKENS.DAI;
          POLYGON_TOKENS.USDC; POLYGON_TOKENS.USDT];
        curve_metaTokens := None; curve_gasSchedule := n_Z 140000 |})].

Definition SYNAPSE_AVALANCHE_INFOS : list CurveInfo := object_values
  [(SYNAPSE_AVALANCHE_POOLS.nUSDLP,
    {| curve_exchangeFunctionSelector := CurveFunctionSelectors.swap;
        curve_sellQuoteFunctionSelector := CurveFunctionSelectors.calculateSwap;
        curve_buyQuoteFunctionSelector := CurveFunctionSelectors.None;
        curve_poolAddress := SYNAPSE_AVALANCHE_POOLS.nUSDLP; curve_tokens := [AVALANCHE_TOKENS.nUSD;
          AVALANCHE_TOKENS.DAI; AVALANCHE_TOKENS.USDC; AVALANCHE_TOKENS.USDT];
        curve_metaTokens := None; curve_gasSchedule := n_Z 140000 |});
   (SYNAPSE_AVALANCHE_POOLS.nETHLP,
    {| curve_exchangeFunctionSelector := CurveFunctionSelectors.swap;
        curve_sellQuoteFunctionSelector := CurveFunctionSelectors.calculateSwap;
        curve_buyQuoteFunctionSelector := CurveFunctionSelectors.None;
        curve_poolAddress := SYNAPSE_AVALANCHE_POOLS.nETHLP; curve_tokens := [AVALANCHE_TOKENS.nETH;
          AVALANCHE_TOKENS.aWETH];
        curve_metaTokens := None; curve_gasSchedule := n_Z 140000 |})].

Definition SYNAPSE_ARBITRUM_INFOS : list CurveInfo := object_values
  [(SYNAPSE_ARBITRUM_POOLS.nUSDLP,
    {| curve_exchangeFunctionSelector := CurveFunctionSelectors.swap;
        curve_sellQuoteFunctionSelector := CurveFunctionSelectors.calculateSwap;
        curve_buyQuoteFunctionSelector := CurveFunctionSelectors.None;
        curve_poolAddress := SYNAPSE_ARBITRUM_POOLS.nUSDLP; curve_tokens := [ARBITRUM_TOKENS.nUSD;
          ARBITRUM_TOKENS.MIM; ARBITRUM_TOKENS.USDC; ARBITRUM_TOKENS.USDT];
        curve_metaTokens := None; curve_gasSchedule := n_Z 200000 |});
   (SYNAPSE_ARBITRUM_POOLS.nETHLP,
    {| curve_exchangeFunctionSelector := CurveFunctionSelectors.swap;
        curve_sellQuoteFunctionSelector := CurveFunctionSelectors.calculateSwap;
        curve_buyQuoteFunctionSelector := CurveFunctionSelectors.None;
        curve_poolAddress := SYNAPSE_ARBITRUM_POOLS.nETHLP; curve_tokens := [ARBITRUM_TOKENS.nETH;
          ARBITRUM_TOKENS.WETH];
        curve_metaTokens := None; curve_gasSchedule := n_Z 175000 |})].

Definition FIREBIRDONESWAP_BSC_INFOS : list CurveInfo := object_values
  [(FIREBIRDONESWAP_BSC_POOLS.oneswap,
    {| curve_exchangeFunctionSelector := CurveFunctionSelectors.swap;
        curve_sellQuoteFunctionSelector := CurveFunctionSelectors.calculateSwap;
        curve_buyQuoteFunctionSelector := CurveFunctionSelectors.None;
        curve_poolAddress := FIREBIRDONESWAP_BSC_POOLS.oneswap; curve_tokens := [BSC_TOKENS.BUSD; BSC_TOKENS.USDT;
          BSC_TOKENS.DAI; BSC_TOKENS.USDC];
        curve_metaTokens := None; curve_gasSchedule := n_Z 100000 |})].

Definition FIREBIRDONESWAP_POLYGON_INFOS : list CurveInfo := object_values
  [(FIREBIRDONESWAP_POLYGON_POOLS.oneswap,
    {| curve_exchangeFunctionSelector := CurveFunctionSelectors.swap;
        curve_sellQuoteFunctionSelector := CurveFunctionSelectors.calculateSwap;
        curve_buyQuoteFunctionSelector := CurveFunctionSelectors.None;
        curve_poolAddress := FIREBIRDONESWAP_POLYGON_POOLS.oneswap; curve_tokens := [POLYGON_TOKENS.DAI;
          POLYGON_TOKENS.USDC; POLYGON_TOKENS.USDT];
        curve_metaTokens := None; curve_gasSchedule := n_Z 100000 |})].

Definition MOBIUSMONEY_CELO_INFOS : list CurveInfo := object_values
  [(MOBIUSMONEY_CELO_POOLS.usdc_optics_v2,
    with_pool MOBIUSMONEY_CELO_SHARED MOBIUSMONEY_CELO_POOLS.usdc_optics_v2 [CELO_TOKENS.cUSD; CELO_TOKENS.cUSDC_V2]);
   (MOBIUSMONEY_CELO_POOLS.weth_optics_v2,
    with_pool MOBIUSMONEY_CELO_SHARED MOBIUSMONEY_CELO_POOLS.weth_optics_v2 [CELO_TOKENS.cETH; CELO_TOKENS.oWETH]);
   (MOBIUSMONEY_CELO_POOLS.pusdc_optics_v2,
    with_pool MOBIUSMONEY_CELO_SHARED MOBIUSMONEY_CELO_POOLS.pusdc_optics_v2 [CELO_TOKENS.cUSD;
      CELO_TOKENS.pUSDC_V2]);
   (MOBIUSMONEY_CELO_POOLS.usdc_allbridge_solana,
    with_pool MOBIUSMONEY_CELO_SHARED MOBIUSMONEY_CELO_POOLS.usdc_allbridge_solana [CELO_TOKENS.cUSD;
      CELO_TOKENS.asUSDC]);
   (MOBIUSMONEY_CELO_POOLS.usdc_poly_optics,
    with_pool MOBIUSMONEY_CELO_SHARED MOBIUSMONEY_CELO_POOLS.usdc_poly_optics [CELO_TOKENS.cUSD; CELO_TOKENS.pUSD]);
   (MOBIUSMONEY_CELO_POOLS.dai_optics_v2,
    with_pool MOBIUSMONEY_CELO_SHARED MOBIUSMONEY_CELO_POOLS.dai_optics_v2 [CELO_TOKENS.cUSD; CELO_TOKENS.DAI])].

Definition PLATYPUS_AVALANCHE_INFOS : list TokenPool := object_values
  [(PLATYPUS_AVALANCHE_POOLS.usd,
    {| pool_poolAddress := PLATYPUS_AVALANCHE_POOLS.usd; pool_tokens := [AVALANCHE_TOKENS.USDT;
      AVALANCHE_TOKENS.USDC; AVALANCHE_TOKENS.DAI; AVALANCHE_TOKENS.nUSDC; AVALANCHE_TOKENS.USDt] |});
   (PLATYPUS_AVALANCHE_POOLS.yusd,
    {| pool_poolAddress := PLATYPUS_AVALANCHE_POOLS.yusd; pool_tokens := [AVALANCHE_TOKENS.YUSD;
      AVALANCHE_TOKENS.nUSDC] |});
   (PLATYPUS_AVALANCHE_POOLS.frax,
    {| pool_poolAddress := PLATYPUS_AVALANCHE_POOLS.frax; pool_tokens := [AVALANCHE_TOKENS.FRAX;
      AVALANCHE_TOKENS.nUSDC] |});
   (PLATYPUS_AVALANCHE_POOLS.mim,
    {| pool_poolAddress := PLATYPUS_AVALANCHE_POOLS.mim; pool_tokens := [AVALANCHE_TOKENS.MIM;
      AVALANCHE_TOKENS.nUSDC] |});
   (PLATYPUS_AVALANCHE_POOLS.sAVAX,
    {| pool_poolAddress := PLATYPUS_AVALANCHE_POOLS.sAVAX; pool_tokens := [AVALANCHE_TOKENS.WAVAX;
      AVALANCHE_TOKENS.sAVAX] |})].

Definition WOOFI_ROUTER_BY_CHAIN_ID : ChainId → string :=
  valueByChainId
    [(ChainId.BSC, "0xc90bfe9951a4efbf20aca5ecd9966b2bf8a01294"%string);
     (ChainId.Fantom, "0x382a9b0bc5d29e96c3a0b81ce9c64d6c8f150efb"%string);
     (ChainId.Avalanche, "0xc22fbb3133df781e6c25ea6acebe2d2bb8cea2f9"%string);
     (ChainId.Polygon, "0x817eb46d60762442da3d931ff51a30334ca39b74"%string);
     (ChainId.Arbitrum, "0x9aed3a8896a85fe9a8cac52c9b402d092b629a30"%string);
     (ChainId.Optimism, "0xeaf1ac8e89ea0ae13e0f03634a4ff23502527024"%string)]
    NULL_ADDRESS.

Definition UNISWAPV1_ROUTER_BY_CHAIN_ID : ChainId → string :=
  valueByChainId
    [(ChainId.Mainnet, "0xc0a47dfe034b400b47bdad5fecda2621de6c4d95"%string);
     (ChainId.Goerli, "0x6ce570d02d73d4c384b46135e87f8c592a8c86da"%string)]
    NULL_ADDRESS.

Definition UNISWAPV2_ROUTER_BY_CHAIN_ID : ChainId → string :=
  valueByChainId
    [(ChainId.Mainnet, "0xf164fc0ec4e93095b804a4795bbe1e041497b92a"%string);
     (ChainId.Goerli, "0xf164fc0ec4e93095b804a4795bbe1e041497b92a"%string)]
    NULL_ADDRESS.

Definition SUSHISWAP_ROUTER_BY_CHAIN_ID : ChainId → string :=
  valueByChainId
    [(ChainId.Mainnet, "0xd9e1ce17f2641f24ae83637ab66a2cca9c378b9f"%string);
     (ChainId.BSC, "0x1b02da8cb0d097eb8d57a175b88c7d8b47997506"%string);
     (ChainId.Goerli, "0x1b02da8cb0d097eb8d57a175b88c7d8b47997506"%string);
     (ChainId.Polygon, "0x1b02da8cb0d097eb8d57a175b88c7d8b47997506"%string);
     (ChainId.Avalanche, "0x1b02da8cb0d097eb8d57a175b88c7d8b47997506"%string);
     (ChainId.Fantom, "0x1b02da8cb0d097eb8d57a175b88c7d8b47997506"%string);
     (ChainId.Celo, "0x1421bde4b10e8dd459b3bcb598810b1337d56842"%string);
     (ChainId.Arbitrum, "0x1b02da8cb0d097eb8d57a175b88c7d8b47997506"%string)]
    NULL_ADDRESS.

Definition CRYPTO_COM_ROUTER_BY_CHAIN_ID : ChainId → string :=
  valueByChainId
    [(ChainId.Mainnet, "0xceb90e4c17d626be0facd78b79c9c87d7ca181b3"%string)]
    NULL_ADDRESS.

Definition SHIBASWAP_ROUTER_BY_CHAIN_ID : ChainId → string :=
  valueByChainId
    [(ChainId.Mainnet, "0x03f7724180aa6b939894b5ca4314783b0b36b329"%string)]
    NULL_ADDRESS.

Definition DYSTOPIA_ROUTER_BY_CHAIN_ID : ChainId → string :=
  valueByChainId
    [(ChainId.Polygon, "0xbe75dd16d029c6b32b7ad57a0fd9c1c20dd2862e"%string)]
    NULL_ADDRESS.

Definition KYBER_DMM_ROUTER_BY_CHAIN_ID : ChainId → string :=
  valueByChainId
    [(ChainId.Mainnet, "0x1c87257f5e8609940bc751a07bb085bb7f8cdbe6"%string);
     (ChainId.Polygon, "0x546c79662e028b661dfb4767664d0273184e4dd1"%string);
     (ChainId.BSC, "0x78df70615ffc8066cc0887917f2cd72092c86409"%string);
     (ChainId.Avalanche, "0x8efa5a9ad6d594cf76830267077b78ce0bc5a5f8"%string);
     (ChainId.Fantom, "0x5d5a5a0a465129848c2549669e12cdc2f8de039a"%string)]
    NULL_ADDRESS.

Definition BISWAP_ROUTER_BY_CHAIN_ID : ChainId → string :=
  valueByChainId
    [(ChainId.BSC, "0x3a6d8ca21d1cf76f653a67577fa0d27453350dd8"%string)]
    NULL_ADDRESS.

Definition MDEX_ROUTER_BY_CHAIN_ID : ChainId → string :=
  valueByChainId
    [(ChainId.BSC, "0x7dae51bd3e3376b8c7c4900e9107f12be3af1ba8"%string)]
    NULL_ADDRESS.

Definition KNIGHTSWAP_ROUTER_BY_CHAIN_ID : ChainId → string :=
  valueByChainId
    [(ChainId.BSC, "0x05e61e0cdcd2170a76f9568a110cee3afdd6c46f"%string)]
    NULL_ADDRESS.

Definition BANCOR_REGISTRY_BY_CHAIN_ID : ChainId → string :=
  valueByChainId
    [(ChainId.Mainnet, "0x52ae12abe5d8bd778bd5397f99ca900624cfadd4"%string)]
    NULL_ADDRESS.

Definition BANCORV3_NETWORK_BY_CHAIN_ID : ChainId → string :=
  valueByChainId
    [(ChainId.Mainnet, "0xeef417e1d5cc832e619ae18d2f140de2999dd4fb"%string)]
    NULL_ADDRESS.

Definition BANCORV3_NETWORK_INFO_BY_CHAIN_ID : ChainId → string :=
  valueByChainId
    [(ChainId.Mainnet, "0x8e303d296851b320e6a697bacb979d13c9d6e760"%string)]
    NULL_ADDRESS.

Definition AAVE_V3_L2_ENCODERS_BY_CHAIN_ID : ChainId → string :=
  valueByChainId
    [(ChainId.Arbitrum, "0x9abadecd08572e0ea5af4d47a9c7984a5aa503dc"%string);
     (ChainId.Optimism, "0x9abadecd08572e0ea5af4d47a9c7984a5aa503dc"%string)]
    NULL_ADDRESS.

Definition PANCAKESWAP_ROUTER_BY_CHAIN_ID : ChainId → string :=
  valueByChainId
    [(ChainId.BSC, "0x05ff2b0db69458a0750badebc4f9e13add608c7f"%string)]
    NULL_ADDRESS.

Definition PANCAKESWAPV2_ROUTER_BY_CHAIN_ID : ChainId → string :=
  valueByChainId
    [(ChainId.BSC, "0x10ed43c718714eb63d5aa57b78b54704e256024e"%string)]
    NULL_ADDRESS.

Definition BAKERYSWAP_ROUTER_BY_CHAIN_ID : ChainId → string :=
  valueByChainId
    [(ChainId.BSC, "0xcde540d7eafe93ac5fe6233bee57e1270d3e330f"%string)]
    NULL_ADDRESS.

Definition APESWAP_ROUTER_BY_CHAIN_ID : ChainId → string :=
  valueByChainId
    [(ChainId.BSC, "0xc0788a3ad43d79aa53b09c2eacc313a787d1d607"%string);
     (ChainId.Polygon, "0xc0788a3ad43d79aa53b09c2eacc313a787d1d607"%string)]
    NULL_ADDRESS.

Definition QUICKSWAP_ROUTER_BY_CHAIN_ID : ChainId → string :=
  valueByChainId
    [(ChainId.Polygon, "0xa5e0829caced8ffdd4de3c43696c57f7d7a678ff"%string)]
    NULL_ADDRESS.

Definition DFYN_ROUTER_BY_CHAIN_ID : ChainId → string :=
  valueByChainId
    [(ChainId.Polygon, "0xa102072a4c07f06ec3b4900fdc4c7b80b6c57429"%string)]
    NULL_ADDRESS.

Definition WAULTSWAP_ROUTER_BY_CHAIN_ID : ChainId → string :=
  valueByChainId
    [(ChainId.BSC, "0xd48745e39bbed146eec15b79cbf964884f9877c2"%string);
     (ChainId.Polygon, "0x3a1d87f206d12415f5b0a33e786967680aab4f6d"%string)]
    NULL_ADDRESS.

Definition MESHSWAP_ROUTER_BY_CHAIN_ID : ChainId → string :=
  valueByChainId
    [(ChainId.Polygon, "0x10f4a785f458bc144e3706575924889954946639"%string)]
    NULL_ADDRESS.

Definition PANGOLIN_ROUTER_BY_CHAIN_ID : ChainId → string :=
  valueByChainId
    [(ChainId.Avalanche, "0xe54ca86531e17ef3616d22ca28b0d458b6c89106"%string)]
    NULL_ADDRESS.

Definition TRADER_JOE_ROUTER_BY_CHAIN_ID : ChainId → string :=
  valueByChainId
    [(ChainId.Avalanche, "0x60ae616a2155ee3d9a68541ba4544862310933d4"%string)]
    NULL_ADDRESS.

Definition UBESWAP_ROUTER_BY_CHAIN_ID : ChainId → string :=
  valueByChainId
    [(ChainId.Celo, "0x7d28570135a2b1930f331c507f65039d4937f66c"%string)]
    NULL_ADDRESS.

Definition MORPHEUSSWAP_ROUTER_BY_CHAIN_ID : ChainId → string :=
  valueByChainId
    [(ChainId.Fantom, "0x8ac868293d97761a1fed6d4a01e9ff17c5594aa3"%string)]
    NULL_ADDRESS.

Definition SPIRITSWAP_ROUTER_BY_CHAIN_ID : ChainId → string :=
  valueByChainId
    [(ChainId.Fantom, "0x16327e3fbdaca3bcf7e38f5af2599d2ddc33ae52"%string)]
    NULL_ADDRESS.

Definition SPOOKYSWAP_ROUTER_BY_CHAIN_ID : ChainId → string :=
  valueByChainId
    [(ChainId.Fantom, "0xf491e7b69e4244ad4002bc14e878a34207e38c29"%string)]
    NULL_ADDRESS.

Definition GMX_ROUTER_BY_CHAIN_ID : ChainId → string :=
  valueByChainId
    [(ChainId.Avalanche, "0x5f719c2f1095f7b9fc68a68e35b51194f4b6abe8"%string);
     (ChainId.Arbitrum, "0xabbc5f99639c9b6bcb58544ddf04efa6802f4064"%string)]
    NULL_ADDRESS.

Definition GMX_READER_BY_CHAIN_ID : ChainId → string :=
  valueByChainId
    [(ChainId.Avalanche, "0x67b789d48c926006f5132bfce4e976f0a7a63d5d"%string);
     (ChainId.Arbitrum, "0x22199a49a999c351ef7927602cfb187ec3cae489"%string)]
    NULL_ADDRESS.

Definition GMX_VAULT_BY_CHAIN_ID : ChainId → string :=
  valueByChainId
    [(ChainId.Avalanche, "0x9ab2de34a33fb459b538c43f251eb825645e8595"%string);
     (ChainId.Arbitrum, "0x489ee077994b6658eafa855c308275ead8097c4a"%string)]
    NULL_ADDRESS.

Definition PLATYPUS_ROUTER_BY_CHAIN_ID : ChainId → string :=
  valueByChainId
    [(ChainId.Avalanche, "0x73256ec7575d999c360c1eec118ecbefd8da7d12"%string)]
    NULL_ADDRESS.

Definition YOSHI_ROUTER_BY_CHAIN_ID : ChainId → string :=
  valueByChainId
    [(ChainId.Fantom, "0xe4a4642b19c4d0cba965673cd51422b1eda0a78d"%string)]
    NULL_ADDRESS.

Definition VELODROME_ROUTER_BY_CHAIN_ID : ChainId → string :=
  valueByChainId
    [(ChainId.Optimism, "0xa132dab612db5cb9fc9ac426a0cc215a3423f9c9"%string)]
    NULL_ADDRESS.

Definition SYNTHETIX_READ_PROXY_BY_CHAIN_ID : ChainId → string :=
  valueByChainId
    [(ChainId.Mainnet, "0x4e3b31eb0e5cb73641ee1e65e7dcefe520ba3ef2"%string);
     (ChainId.Optimism, "0x1cb059b7e74fd21665968c908806143e744d5f30"%string)]
    NULL_ADDRESS.

Definition BALANCER_V2_VAULT_ADDRESS_BY_CHAIN : ChainId → string :=
  valueByChainId
    [(ChainId.Mainnet, "0xba12222222228d8ba445958a75a0704d566bf2c8"%string);
     (ChainId.Polygon, "0xba12222222228d8ba445958a75a0704d566bf2c8"%string);
     (ChainId.Arbitrum, "0xba12222222228d8ba445958a75a0704d566bf2c8"%string);
     (ChainId.Fantom, "0x20dd72ed959b6147912c2e529f0a0c651c33c9ce"%string);
     (ChainId.Optimism, "0xba12222222228d8ba445958a75a0704d566bf2c8"%string)]
    NULL_ADDRESS.

Definition MOONISWAP_REGISTRIES_BY_CHAIN_ID : ChainId → list string :=
  valueByChainId
    [(ChainId.BSC, ["0xd41b24bba51fac0e4827b6f94c0d6ddeb183cd64"%string])]
    [].

Definition DODOV2_FACTORIES_BY_CHAIN_ID : ChainId → list string :=
  valueByChainId
    [(ChainId.Mainnet, ["0x6b4fa0bc61eddc928e0df9c7f01e407bfcd3e5ef"%string;
      "0x72d220ce168c4f361dd4dee5d826a01ad8598f6c"%string; "0x6fddb76c93299d985f4d3fc7ac468f9a168577a4"%string]);
     (ChainId.BSC, ["0xafe0a75dffb395eaabd0a7e1bbbd0b11f8609eef"%string;
       "0x790b4a80fb1094589a3c0efc8740aa9b0c1733fb"%string; "0x0fb9815938ad069bf90e14fe6c596c514bede767"%string]);
     (ChainId.Polygon, ["0x95e887adf9eaa22cc1c6e3cb7f07adc95b4b25a8"%string;
       "0x79887f65f83bdf15bcc8736b5e5bcdb48fb8fe13"%string; "0x43c49f8dd240e1545f147211ec9f917376ac1e87"%string]);
     (ChainId.Arbitrum, ["0xa6cf3d163358af376ec5e8b7cc5e102a05fde63d"%string;
       "0xda4c4411c55b0785e501332354a036c04833b72b"%string; "0xc8fe2440744dcd733246a4db14093664defd5a53"%string])]
    [].

Definition DODOV1_CONFIG_BY_CHAIN_ID : ChainId → DodoConfig :=
  valueByChainId
    [(ChainId.Mainnet, {| dodo_registry := "0x3a97247df274a17c59a3bd12735ea3fcdfb49950"%string;
      dodo_helper := "0x533da777aedce766ceae696bf90f8541a4ba80eb"%string |});
     (ChainId.BSC, {| dodo_registry := "0xca459456a45e300aa7ef447dbb60f87cccb42828"%string;
       dodo_helper := "0x0f859706aee7fcf61d5a8939e8cb9dbb6c1eda33"%string |});
     (ChainId.Polygon, {| dodo_registry := "0x357c5e9cfa8b834edcef7c7aabd8f9db09119d11"%string;
       dodo_helper := "0xdfaf9584f5d229a9dbe5978523317820a8897c5a"%string |})]
    {| dodo_registry := NULL_ADDRESS; dodo_helper := NULL_ADDRESS |}.

Definition UNISWAPV3_CONFIG_BY_CHAIN_ID : ChainId → UniswapV3Config :=
  valueByChainId
    [(ChainId.Mainnet, {| uni3_factory := "0x1f98431c8ad98523631ae4a59f267346ea31f984"%string;
      uni3_router := "0xe592427a0aece92de3edee1f18e0157c05861564"%string |});
     (ChainId.Goerli, {| uni3_factory := "0x1f98431c8ad98523631ae4a59f267346ea31f984"%string;
       uni3_router := "0xe592427a0aece92de3edee1f18e0157c05861564"%string |});
     (ChainId.PolygonMumbai, {| uni3_factory := "0x1f98431c8ad98523631ae4a59f267346ea31f984"%string;
       uni3_router := "0xe592427a0aece92de3edee1f18e0157c05861564"%string |});
     (ChainId.Polygon, {| uni3_factory := "0x1f98431c8ad98523631ae4a59f267346ea31f984"%string;
       uni3_router := "0xe592427a0aece92de3edee1f18e0157c05861564"%string |});
     (ChainId.Optimism, {| uni3_factory := "0x1f98431c8ad98523631ae4a59f267346ea31f984"%string;
       uni3_router := "0xe592427a0aece92de3edee1f18e0157c05861564"%string |});
     (ChainId.Arbitrum, {| uni3_factory := "0x1f98431c8ad98523631ae4a59f267346ea31f984"%string;
       uni3_router := "0xe592427a0aece92de3edee1f18e0157c05861564"%string |})]
    {| uni3_factory := NULL_ADDRESS; uni3_router := NULL_ADDRESS |}.

Definition LIDO_INFO_BY_CHAIN : ChainId → LidoInfo :=
  valueByChainId
    [(ChainId.Mainnet, {| stEthToken := MAINNET_TOKENS.stETH; wethToken := MAINNET_TOKENS.WETH;
      wstEthToken := MAINNET_TOKENS.wstETH |})]
    {| stEthToken := NULL_ADDRESS; wethToken := NULL_ADDRESS; wstEthToken := NULL_ADDRESS |}.

Definition MSTABLE_POOLS_BY_CHAIN_ID : ChainId → list TokenPool :=
  valueByChainId
    [(ChainId.Mainnet, [{| pool_poolAddress := "0xe2f2a5c287993345a840db3b0845fbc70f5935a5"%string;
      pool_tokens := [MAINNET_TOKENS.DAI; MAINNET_TOKENS.USDC; MAINNET_TOKENS.USDT] |};
      {| pool_poolAddress := "0x945facb997494cc2570096c74b5f66a3507330a1"%string;
        pool_tokens := [MAINNET_TOKENS.WBTC; MAINNET_TOKENS.RenBTC; MAINNET_TOKENS.sBTC] |}]);
     (ChainId.Polygon, [{| pool_poolAddress := "0xe840b73e5287865eec17d250bfb1536704b43b21"%string;
       pool_tokens := [POLYGON_TOKENS.DAI; POLYGON_TOKENS.USDC; POLYGON_TOKENS.USDT] |};
      {| pool_poolAddress := NULL_ADDRESS; pool_tokens := [] |}])]
    [{| pool_poolAddress := NULL_ADDRESS; pool_tokens := [] |}; {| pool_poolAddress := NULL_ADDRESS;
      pool_tokens := [] |}].

Definition SHELL_POOLS_BY_CHAIN_ID : ChainId → list TokenPool :=
  valueByChainId
    [(ChainId.Mainnet, [{| pool_poolAddress := "0x8f26d7bab7a73309141a291525c965ecdea7bf42"%string;
      pool_tokens := [MAINNET_TOKENS.USDC; MAINNET_TOKENS.USDT; MAINNET_TOKENS.sUSD; MAINNET_TOKENS.DAI] |};
      {| pool_poolAddress := "0xc2d019b901f8d4fdb2b9a65b5d226ad88c66ee8d"%string;
        pool_tokens := [MAINNET_TOKENS.RenBTC; MAINNET_TOKENS.WBTC; MAINNET_TOKENS.sBTC] |}])]
    [{| pool_poolAddress := NULL_ADDRESS; pool_tokens := [] |}; {| pool_poolAddress := NULL_ADDRESS;
      pool_tokens := [] |}].

Definition COMPONENT_POOLS_BY_CHAIN_ID : ChainId → list TokenPool :=
  valueByChainId
    [(ChainId.Mainnet, [{| pool_poolAddress := "0x49519631b404e06ca79c9c7b0dc91648d86f08db"%string;
      pool_tokens := [MAINNET_TOKENS.USDP; MAINNET_TOKENS.USDC; MAINNET_TOKENS.USDT] |};
      {| pool_poolAddress := "0x6477960dd932d29518d7e8087d5ea3d11e606068"%string;
        pool_tokens := [MAINNET_TOKENS.USDP; MAINNET_TOKENS.DAI; MAINNET_TOKENS.sUSD] |}])]
    [{| pool_poolAddress := NULL_ADDRESS; pool_tokens := [] |}; {| pool_poolAddress := NULL_ADDRESS;
      pool_tokens := [] |}].

Definition WOOFI_SUPPORTED_TOKENS : list string :=
  [BSC_TOKENS.BUSD; BSC_TOKENS.WBNB; BSC_TOKENS.WOO; BSC_TOKENS.WETH; BSC_TOKENS.BTCB; AVALANCHE_TOKENS.nUSDC;
    AVALANCHE_TOKENS.WAVAX; AVALANCHE_TOKENS.BTCb; AVALANCHE_TOKENS.WETH; AVALANCHE_TOKENS.WOO; FANTOM_TOKENS.USDC;
      FANTOM_TOKENS.WFTM; FANTOM_TOKENS.WETH; FANTOM_TOKENS.WBTC; FANTOM_TOKENS.WOO; POLYGON_TOKENS.USDC;
        POLYGON_TOKENS.WMATIC; POLYGON_TOKENS.WBTC; POLYGON_TOKENS.WETH; POLYGON_TOKENS.WOO; ARBITRUM_TOKENS.ETH;
          ARBITRUM_TOKENS.USDC; ARBITRUM_TOKENS.WETH; ARBITRUM_TOKENS.WBTC; ARBITRUM_TOKENS.WOO; OPTIMISM_TOKENS.ETH;
            OPTIMISM_TOKENS.USDC; OPTIMISM_TOKENS.WETH; OPTIMISM_TOKENS.WBTC; OPTIMISM_TOKENS.OP].

Definition REBASING_TOKENS : list string := [MAINNET_TOKENS.stETH].

Definition SYNTHETIX_CURRENCY_KEYS_BY_CHAIN_ID : ChainId → gmap string string :=
  valueByChainId
    [(ChainId.Mainnet, list_to_map [(MAINNET_TOKENS.sAUD, "sAUD"%string); (MAINNET_TOKENS.sBTC, "sBTC"%string);
      (MAINNET_TOKENS.sCHF, "sCHF"%string); (MAINNET_TOKENS.sETH, "sETH"%string);
        (MAINNET_TOKENS.sEUR, "sEUR"%string); (MAINNET_TOKENS.sGBP, "sGBP"%string);
          (MAINNET_TOKENS.sJPY, "sJPY"%string); (MAINNET_TOKENS.sKRW, "sKRW"%string);
            (MAINNET_TOKENS.sUSD, "sUSD"%string)]);
     (ChainId.Optimism, list_to_map [(OPTIMISM_TOKENS.sAAVE, "sAAVE"%string);
       (OPTIMISM_TOKENS.sAVAX, "sAVAX"%string); (OPTIMISM_TOKENS.sBTC, "sBTC"%string);
         (OPTIMISM_TOKENS.sETH, "sETH"%string); (OPTIMISM_TOKENS.sEUR, "sEUR"%string);
           (OPTIMISM_TOKENS.sLINK, "sLINK"%string); (OPTIMISM_TOKENS.sMATIC, "sMATIC"%string);
             (OPTIMISM_TOKENS.sSOL, "sSOL"%string); (OPTIMISM_TOKENS.sUNI, "sUNI"%string);
               (OPTIMISM_TOKENS.sUSD, "sUSD"%string)])]
    ∅.

(** *** Tables with parameters *)
Section External.
Variable etherToken : ChainId → string.
Variable formatBytes32String : string → string.

Definition NATIVE_FEE_TOKEN_BY_CHAIN_ID : ChainId → string :=
  valueByChainId
    ((λ chain, (chain, etherToken chain)) <$>
       [ChainId.Mainnet; ChainId.BSC; ChainId.Ganache; ChainId.Goerli; ChainId.PolygonMumbai; ChainId.Polygon;
        ChainId.Avalanche; ChainId.Fantom; ChainId.Celo; ChainId.Optimism; ChainId.Arbitrum])
    NULL_ADDRESS.

Definition MAKER_PSM_INFO_BY_CHAIN_ID : ChainId → PsmInfo :=
  valueByChainId
    [(ChainId.Mainnet, {| psm_gemTokenAddress := "0xa0b86991c6218b36c1d19d4a2e9eb0ce3606eb48"%string;
                          ilkIdentifier := formatBytes32String "PSM-USDC-A";
                          psmAddress := "0x89b78cfa322f6c5de0abceecab66aee45393cc5a"%string |})]
    {| psm_gemTokenAddress := NULL_ADDRESS; ilkIdentifier := "0x"; psmAddress := NULL_ADDRESS |}.

Definition DEFAULT_INTERMEDIATE_TOKENS_BY_CHAIN_ID (chainId : ChainId) : list string :=
  match chainId with
  | ChainId.Mainnet => [MAINNET_TOKENS.WETH; MAINNET_TOKENS.USDT; MAINNET_TOKENS.DAI; MAINNET_TOKENS.USDC;
    MAINNET_TOKENS.WBTC]
  | ChainId.BSC => [BSC_TOKENS.WBNB; BSC_TOKENS.BUSD; BSC_TOKENS.DAI; BSC_TOKENS.USDC; BSC_TOKENS.WETH;
    BSC_TOKENS.USDT; BSC_TOKENS.WEX]
  | ChainId.Goerli => [etherToken ChainId.Goerli; "0x11fe4b6ae13d2a6055c8d9cf65c55bac32b5d844"%string;
    "0x07865c6e87b9f70255377e024ace6630c1eaa37f"%string]
  | ChainId.PolygonMumbai => [etherToken ChainId.PolygonMumbai; "0xe6b8a5cf854791412c1f6efc7caf629f5df1c747"%string]
  | ChainId.Polygon => [POLYGON_TOKENS.WMATIC; POLYGON_TOKENS.WETH; POLYGON_TOKENS.USDC; POLYGON_TOKENS.DAI;
    POLYGON_TOKENS.USDT; POLYGON_TOKENS.WBTC]
  | ChainId.Avalanche => [AVALANCHE_TOKENS.WAVAX; AVALANCHE_TOKENS.WETH; AVALANCHE_TOKENS.WBTC; AVALANCHE_TOKENS.DAI;
    AVALANCHE_TOKENS.USDT; AVALANCHE_TOKENS.USDC; AVALANCHE_TOKENS.nUSD; AVALANCHE_TOKENS.nETH;
      AVALANCHE_TOKENS.aWETH; AVALANCHE_TOKENS.MIM]
  | ChainId.Fantom => [FANTOM_TOKENS.WFTM; FANTOM_TOKENS.WETH; FANTOM_TOKENS.DAI; FANTOM_TOKENS.USDC;
    FANTOM_TOKENS.nUSD; FANTOM_TOKENS.nETH; FANTOM_TOKENS.MIM]
  | ChainId.Celo => [CELO_TOKENS.WCELO; CELO_TOKENS.mCUSD; CELO_TOKENS.WETHv1; CELO_TOKENS.amCUSD; CELO_TOKENS.WBTC;
    CELO_TOKENS.cUSD]
  | ChainId.Optimism => [OPTIMISM_TOKENS.WETH; OPTIMISM_TOKENS.DAI; OPTIMISM_TOKENS.USDC; OPTIMISM_TOKENS.USDT;
    OPTIMISM_TOKENS.nETH; OPTIMISM_TOKENS.sWETH]
  | ChainId.Arbitrum => [ARBITRUM_TOKENS.USDC; ARBITRUM_TOKENS.USDT; ARBITRUM_TOKENS.WETH; ARBITRUM_TOKENS.WBTC;
    ARBITRUM_TOKENS.FRAX; ARBITRUM_TOKENS.MIM]
  | ChainId.Ganache => []
  end.

(** The calls of the builders: the pairs first, then the complete subgraph. *)
Definition adjacentPairs (chainId : ChainId) : list (string * string) :=
  match chainId with
  | ChainId.Mainnet =>
      [(MAINNET_TOKENS.cvxCRV, MAINNET_TOKENS.CRV);
       (MAINNET_TOKENS.cvxFXS, MAINNET_TOKENS.FXS);
       (MAINNET_TOKENS.FEI, MAINNET_TOKENS.TRIBE);
       (MAINNET_TOKENS.FRAX, MAINNET_TOKENS.FXS);
       (MAINNET_TOKENS.FRAX, MAINNET_TOKENS.OHM);
       (MAINNET_TOKENS.OHMV2, MAINNET_TOKENS.BTRFLY);
       (MAINNET_TOKENS.stETH, MAINNET_TOKENS.wstETH);
       (MAINNET_TOKENS.cUSDC, MAINNET_TOKENS.USDC);
       (MAINNET_TOKENS.cDAI, MAINNET_TOKENS.DAI);
       (MAINNET_TOKENS.cWBTC, MAINNET_TOKENS.WBTC)]
  | ChainId.Polygon =>
      [(POLYGON_TOKENS.QUICK, POLYGON_TOKENS.ANY)]
  | ChainId.Avalanche =>
      [(AVALANCHE_TOKENS.aWETH, AVALANCHE_TOKENS.nETH);
       (AVALANCHE_TOKENS.MIM, AVALANCHE_TOKENS.MAG)]
  | _ => []
  end.
Definition adjacentSubgraph (chainId : ChainId) : list string :=
  match chainId with
  | ChainId.Mainnet =>
      [MAINNET_TOKENS.sBTC; MAINNET_TOKENS.sETH; MAINNET_TOKENS.sUSD; MAINNET_TOKENS.sEUR; MAINNET_TOKENS.sJPY;
        MAINNET_TOKENS.sGBP; MAINNET_TOKENS.sAUD; MAINNET_TOKENS.sKRW; MAINNET_TOKENS.sCHF]
  | ChainId.Optimism =>
      [OPTIMISM_TOKENS.sAAVE; OPTIMISM_TOKENS.sAVAX; OPTIMISM_TOKENS.sBTC; OPTIMISM_TOKENS.sETH;
        OPTIMISM_TOKENS.sEUR; OPTIMISM_TOKENS.sLINK; OPTIMISM_TOKENS.sMATIC; OPTIMISM_TOKENS.sSOL;
          OPTIMISM_TOKENS.sUNI; OPTIMISM_TOKENS.sUSD]
  | _ => []
  end.
Fixpoint addPairs (g : TokenAdjacencyGraph) (pairs : list (string * string)) : result TokenAdjacencyGraph :=
  match pairs with
  | [] => Ok g
  | (a, b) :: pairs' => g' ← addBidirectional g a b; addPairs g' pairs'
  end.
Definition DEFAULT_TOKEN_ADJACENCY_GRAPH_BY_CHAIN_ID (chainId : ChainId) : result TokenAdjacencyGraph :=
  g ← addPairs (newBuilder (DEFAULT_INTERMEDIATE_TOKENS_BY_CHAIN_ID chainId)) (adjacentPairs chainId);
  build <$> addCompleteSubgraph g (adjacentSubgraph chainId).

End External.
End Tables.

(** The tables by their names in the code, an object of pools as its values. *)
Definition chainTables (etherToken : ChainId → string) (formatBytes32String : string → string) : BridgeTables := {|
  UNISWAPV1_ROUTER_BY_CHAIN_ID := Tables.UNISWAPV1_ROUTER_BY_CHAIN_ID;
  UNISWAPV2_LIKE_ROUTER_BY_CHAIN_ID := λ source,
    match source with
    | ERC20BridgeSource.UniswapV2 => Tables.UNISWAPV2_ROUTER_BY_CHAIN_ID
    | ERC20BridgeSource.SushiSwap => Tables.SUSHISWAP_ROUTER_BY_CHAIN_ID
    | ERC20BridgeSource.CryptoCom => Tables.CRYPTO_COM_ROUTER_BY_CHAIN_ID
    | ERC20BridgeSource.PancakeSwap => Tables.PANCAKESWAP_ROUTER_BY_CHAIN_ID
    | ERC20BridgeSource.PancakeSwapV2 => Tables.PANCAKESWAPV2_ROUTER_BY_CHAIN_ID
    | ERC20BridgeSource.BakerySwap => Tables.BAKERYSWAP_ROUTER_BY_CHAIN_ID
    | ERC20BridgeSource.ApeSwap => Tables.APESWAP_ROUTER_BY_CHAIN_ID
    | ERC20BridgeSource.QuickSwap => Tables.QUICKSWAP_ROUTER_BY_CHAIN_ID
    | ERC20BridgeSource.Dfyn => Tables.DFYN_ROUTER_BY_CHAIN_ID
    | ERC20BridgeSource.WaultSwap => Tables.WAULTSWAP_ROUTER_BY_CHAIN_ID
    | ERC20BridgeSource.ShibaSwap => Tables.SHIBASWAP_ROUTER_BY_CHAIN_ID
    | ERC20BridgeSource.Pangolin => Tables.PANGOLIN_ROUTER_BY_CHAIN_ID
    | ERC20BridgeSource.TraderJoe => Tables.TRADER_JOE_ROUTER_BY_CHAIN_ID
    | ERC20BridgeSource.UbeSwap => Tables.UBESWAP_ROUTER_BY_CHAIN_ID
    | ERC20BridgeSource.MorpheusSwap => Tables.MORPHEUSSWAP_ROUTER_BY_CHAIN_ID
    | ERC20BridgeSource.SpookySwap => Tables.SPOOKYSWAP_ROUTER_BY_CHAIN_ID
    | ERC20BridgeSource.SpiritSwap => Tables.SPIRITSWAP_ROUTER_BY_CHAIN_ID
    | ERC20BridgeSource.BiSwap => Tables.BISWAP_ROUTER_BY_CHAIN_ID
    | ERC20BridgeSource.Yoshi => Tables.YOSHI_ROUTER_BY_CHAIN_ID
    | ERC20BridgeSource.MeshSwap => Tables.MESHSWAP_ROUTER_BY_CHAIN_ID
    | ERC20BridgeSource.MDex => Tables.MDEX_ROUTER_BY_CHAIN_ID
    | ERC20BridgeSource.KnightSwap => Tables.KNIGHTSWAP_ROUTER_BY_CHAIN_ID
    | _ => λ _, NULL_ADDRESS
    end;
  KYBER_DMM_ROUTER_BY_CHAIN_ID := Tables.KYBER_DMM_ROUTER_BY_CHAIN_ID;
  CURVE_MAINNET_INFOS := Tables.CURVE_MAINNET_INFOS;
  CURVE_POLYGON_INFOS := Tables.CURVE_POLYGON_INFOS;
  CURVE_FANTOM_INFOS := Tables.CURVE_FANTOM_INFOS;
  CURVE_AVALANCHE_INFOS := Tables.CURVE_AVALANCHE_INFOS;
  CURVE_OPTIMISM_INFOS := Tables.CURVE_OPTIMISM_INFOS;
  CURVE_V2_MAINNET_INFOS := Tables.CURVE_V2_MAINNET_INFOS;
  CURVE_V2_POLYGON_INFOS := Tables.CURVE_V2_POLYGON_INFOS;
  CURVE_V2_FANTOM_INFOS := Tables.CURVE_V2_FANTOM_INFOS;
  CURVE_V2_AVALANCHE_INFOS := Tables.CURVE_V2_AVALANCHE_INFOS;
  CURVE_V2_ARBITRUM_INFOS := Tables.CURVE_V2_ARBITRUM_INFOS;
  NERVE_BSC_INFOS := Tables.NERVE_BSC_INFOS;
  SYNAPSE_MAINNET_INFOS := Tables.SYNAPSE_MAINNET_INFOS;
  SYNAPSE_OPTIMISM_INFOS := Tables.SYNAPSE_OPTIMISM_INFOS;
  SYNAPSE_BSC_INFOS := Tables.SYNAPSE_BSC_INFOS;
  SYNAPSE_POLYGON_INFOS := Tables.SYNAPSE_POLYGON_INFOS;
  SYNAPSE_FANTOM_INFOS := Tables.SYNAPSE_FANTOM_INFOS;
  SYNAPSE_AVALANCHE_INFOS := Tables.SYNAPSE_AVALANCHE_INFOS;
  SYNAPSE_ARBITRUM_INFOS := Tables.SYNAPSE_ARBITRUM_INFOS;
  FIREBIRDONESWAP_BSC_INFOS := Tables.FIREBIRDONESWAP_BSC_INFOS;
  FIREBIRDONESWAP_POLYGON_INFOS := Tables.FIREBIRDONESWAP_POLYGON_INFOS;
  BELT_BSC_INFOS := Tables.BELT_BSC_INFOS;
  ELLIPSIS_BSC_INFOS := Tables.ELLIPSIS_BSC_INFOS;
  SADDLE_MAINNET_INFOS := Tables.SADDLE_MAINNET_INFOS;
  SADDLE_OPTIMISM_INFOS := Tables.SADDLE_OPTIMISM_INFOS;
  SADDLE_ARBITRUM_INFOS := Tables.SADDLE_ARBITRUM_INFOS;
  IRONSWAP_POLYGON_INFOS := Tables.IRONSWAP_POLYGON_INFOS;
  ACRYPTOS_BSC_INFOS := Tables.ACRYPTOS_BSC_INFOS;
  MOBIUSMONEY_CELO_INFOS := Tables.MOBIUSMONEY_CELO_INFOS;
  MSTABLE_POOLS_BY_CHAIN_ID := Tables.MSTABLE_POOLS_BY_CHAIN_ID;
  PLATYPUS_AVALANCHE_INFOS := Tables.PLATYPUS_AVALANCHE_INFOS;
  MOONISWAP_REGISTRIES_BY_CHAIN_ID := Tables.MOONISWAP_REGISTRIES_BY_CHAIN_ID;
  BALANCER_V2_VAULT_ADDRESS_BY_CHAIN := Tables.BALANCER_V2_VAULT_ADDRESS_BY_CHAIN;
  DODOV1_CONFIG_BY_CHAIN_ID := Tables.DODOV1_CONFIG_BY_CHAIN_ID;
  DODOV2_FACTORIES_BY_CHAIN_ID := Tables.DODOV2_FACTORIES_BY_CHAIN_ID;
  BANCOR_REGISTRY_BY_CHAIN_ID := Tables.BANCOR_REGISTRY_BY_CHAIN_ID;
  BANCORV3_NETWORK_BY_CHAIN_ID := Tables.BANCORV3_NETWORK_BY_CHAIN_ID;
  BANCORV3_NETWORK_INFO_BY_CHAIN_ID := Tables.BANCORV3_NETWORK_INFO_BY_CHAIN_ID;
  UNISWAPV3_CONFIG_BY_CHAIN_ID := Tables.UNISWAPV3_CONFIG_BY_CHAIN_ID;
  LIDO_INFO_BY_CHAIN := Tables.LIDO_INFO_BY_CHAIN;
  AAVE_V3_L2_ENCODERS_BY_CHAIN_ID := Tables.AAVE_V3_L2_ENCODERS_BY_CHAIN_ID;
  GMX_ROUTER_BY_CHAIN_ID := Tables.GMX_ROUTER_BY_CHAIN_ID;
  GMX_READER_BY_CHAIN_ID := Tables.GMX_READER_BY_CHAIN_ID;
  GMX_VAULT_BY_CHAIN_ID := Tables.GMX_VAULT_BY_CHAIN_ID;
  PLATYPUS_ROUTER_BY_CHAIN_ID := Tables.PLATYPUS_ROUTER_BY_CHAIN_ID;
  DYSTOPIA_ROUTER_BY_CHAIN_ID := Tables.DYSTOPIA_ROUTER_BY_CHAIN_ID;
  VELODROME_ROUTER_BY_CHAIN_ID := Tables.VELODROME_ROUTER_BY_CHAIN_ID;
  SYNTHETIX_READ_PROXY_BY_CHAIN_ID := Tables.SYNTHETIX_READ_PROXY_BY_CHAIN_ID;
  SYNTHETIX_CURRENCY_KEYS_BY_CHAIN_ID := Tables.SYNTHETIX_CURRENCY_KEYS_BY_CHAIN_ID;
  WOOFI_ROUTER_BY_CHAIN_ID := Tables.WOOFI_ROUTER_BY_CHAIN_ID;
  WOOFI_SUPPORTED_TOKENS := Tables.WOOFI_SUPPORTED_TOKENS;
  REBASING_TOKENS := Tables.REBASING_TOKENS;
  SHELL_POOLS_MAINNET := Tables.SHELL_POOLS_BY_CHAIN_ID ChainId.Mainnet;
  COMPONENT_POOLS_MAINNET := Tables.COMPONENT_POOLS_BY_CHAIN_ID ChainId.Mainnet;
  MAKER_PSM_INFO_BY_CHAIN_ID := Tables.MAKER_PSM_INFO_BY_CHAIN_ID formatBytes32String;
  NATIVE_FEE_TOKEN_BY_CHAIN_ID := Tables.NATIVE_FEE_TOKEN_BY_CHAIN_ID etherToken;
  MAINNET_TOKENS_WETH := MAINNET_TOKENS.WETH;
  AVALANCHE_TOKENS_MIM := AVALANCHE_TOKENS.MIM;
|}.

(** ** What the tables hold

    Everything below is about the literal tables, read by the code that reads
    them in the program. *)

Section Contents.
Context {B : BigNumberLib}.
Variable etherToken : ChainId → string.
Variable formatBytes32String : string → string.
#[local] Instance tables : BridgeTables := chainTables etherToken formatBytes32String.

(** *** Curve-like pools *)

(** The table of a source on a chain, which [getCurveLikeInfosForPair] filters
    by the pair. *)
Definition listedPools (chain : ChainId) (source : ERC20BridgeSource) : list CurveInfo :=
  match source, chain with
  | ERC20BridgeSource.Curve, ChainId.Mainnet => CURVE_MAINNET_INFOS
  | ERC20BridgeSource.Curve, ChainId.Polygon => CURVE_POLYGON_INFOS
  | ERC20BridgeSource.Curve, ChainId.Fantom => CURVE_FANTOM_INFOS
  | ERC20BridgeSource.Curve, ChainId.Avalanche => CURVE_AVALANCHE_INFOS
  | ERC20BridgeSource.Curve, ChainId.Optimism => CURVE_OPTIMISM_INFOS
  | ERC20BridgeSource.CurveV2, ChainId.Mainnet => CURVE_V2_MAINNET_INFOS
  | ERC20BridgeSource.CurveV2, ChainId.Polygon => CURVE_V2_POLYGON_INFOS
  | ERC20BridgeSource.CurveV2, ChainId.Fantom => CURVE_V2_FANTOM_INFOS
  | ERC20BridgeSource.CurveV2, ChainId.Avalanche => CURVE_V2_AVALANCHE_INFOS
  | ERC20BridgeSource.CurveV2, ChainId.Arbitrum => CURVE_V2_ARBITRUM_INFOS
  | ERC20BridgeSource.Nerve, ChainId.BSC => NERVE_BSC_INFOS
  | ERC20BridgeSource.Synapse, ChainId.Mainnet => SYNAPSE_MAINNET_INFOS
  | ERC20BridgeSource.Synapse, ChainId.Optimism => SYNAPSE_OPTIMISM_INFOS
  | ERC20BridgeSource.Synapse, ChainId.BSC => SYNAPSE_BSC_INFOS
  | ERC20BridgeSource.Synapse, ChainId.Polygon => SYNAPSE_POLYGON_INFOS
  | ERC20BridgeSource.Synapse, ChainId.Fantom => SYNAPSE_FANTOM_INFOS
  | ERC20BridgeSource.Synapse, ChainId.Avalanche => SYNAPSE_AVALANCHE_INFOS
  | ERC20BridgeSource.Synapse, ChainId.Arbitrum => SYNAPSE_ARBITRUM_INFOS
  | ERC20BridgeSource.FirebirdOneSwap, ChainId.BSC => FIREBIRDONESWAP_BSC_INFOS
  | ERC20BridgeSource.FirebirdOneSwap, ChainId.Polygon => FIREBIRDONESWAP_POLYGON_INFOS
  | ERC20BridgeSource.Belt, ChainId.BSC => BELT_BSC_INFOS
  | ERC20BridgeSource.Ellipsis, ChainId.BSC => ELLIPSIS_BSC_INFOS
  | ERC20BridgeSource.Saddle, ChainId.Mainnet => SADDLE_MAINNET_INFOS
  | ERC20BridgeSource.Saddle, ChainId.Optimism => SADDLE_OPTIMISM_INFOS
  | ERC20BridgeSource.Saddle, ChainId.Arbitrum => SADDLE_ARBITRUM_INFOS
  | ERC20BridgeSource.IronSwap, ChainId.Polygon => IRONSWAP_POLYGON_INFOS
  | ERC20BridgeSource.ACryptos, ChainId.BSC => ACRYPTOS_BSC_INFOS
  | ERC20BridgeSource.MobiusMoney, ChainId.Celo => MOBIUSMONEY_CELO_INFOS
  | _, _ => []
  end.

(** An address as the requests have it: 40 hexadecimal digits in lower case. *)
Definition is_lower_hex (c : Ascii.ascii) : bool :=
  let n := Ascii.nat_of_ascii c in ((48 <=? n) && (n <=? 57))%nat || ((97 <=? n) && (n <=? 102))%nat.
Definition is_address (s : string) : bool :=
  String.prefix "0x" s && (String.length s =? 42)%nat &&
  forallb is_lower_hex (drop 2 (String.list_ascii_of_string s)).

(** What a listed pool is: an existing contract with at least two tokens, all
    different, its meta tokens among them. *)
Definition proper_pool (c : CurveInfo) : bool :=
  isValidAddress (curve_poolAddress c) && forallb is_address (curve_poolAddress c :: curve_tokens c) &&
  bool_decide (NoDup (curve_tokens c)) && (2 <=? length (curve_tokens c))%nat &&
  match curve_metaTokens c with
  | None => true
  | Some l => negb (bool_decide (l = [])) && forallb (includes (curve_tokens c)) l
  end.

Lemma listed_pools_proper chain source : forallb proper_pool (listedPools chain source) = true.
Proof. destruct source; try reflexivity; destruct chain; vm_compute; reflexivity. Qed.

Lemma curve_like_listed chain taker maker source pools :
  curveLikePools chain taker maker source = Ok pools → pools = infosForPair (listedPools chain source) taker maker.
Proof. destruct source; try discriminate; intros [= <-]; by destruct chain. Qed.

Lemma listed_pool chain source pool :
  pool ∈ listedPools chain source → is_Some (curve_tokens pool !! 1%nat) ∧ NoDup (curve_tokens pool).
Proof.
  intros Hp. pose proof (listed_pools_proper chain source) as H. rewrite forallb_forall in H.
  apply list_elem_of_In, H in Hp. unfold proper_pool in Hp. rewrite !andb_true_iff in Hp.
  destruct Hp as [[[_ Hn%bool_decide_eq_true] Hl%Nat.leb_le] _]. split; [|done].
  apply lookup_lt_is_Some. lia.
Qed.

Lemma indexOf_lookup l x (k : nat) : NoDup l → x ∈ l → indexOf l x = Z.of_nat k ↔ l !! k = Some x.
Proof.
  intros Hn Hx. destruct (indexOf_from_spec 0 _ _ Hx) as (j & Hj & Hlj & _). unfold indexOf. rewrite Hj. split.
  - intros E. by assert (j = k) as <- by lia.
  - intros Hk. rewrite (NoDup_lookup l j k x Hn Hlj Hk). lia.
Qed.

(** The pools that are sampled for a pair of tokens are exactly the listed ones
    that hold both, with a meta token among the two where the pool has meta
    tokens, and their indices are those of the tokens in the pool; a source
    that is not like Curve throws. *)
Theorem sampled_pools_are_listed chain source taker maker :
  match getCurveLikeInfosForPair chain taker maker source with
  | Ok infos => ∀ pool (m t : nat),
      {| detailed_pool := pool; makerTokenIdx := Z.of_nat m; takerTokenIdx := Z.of_nat t |} ∈ infos ↔
      pool ∈ listedPools chain source ∧ curve_tokens pool !! m = Some maker ∧ curve_tokens pool !! t = Some taker ∧
      (∀ l, curve_metaTokens pool = Some l → maker ∈ l ∨ taker ∈ l)
  | Throw _ => listedPools chain source = []
  end.
Proof.
  unfold getCurveLikeInfosForPair. destruct (curveLikePools chain taker maker source) as [pools|e] eqn:E.
  - apply curve_like_listed in E as ->. cbn [result_fmap fmap]. intros pool m t. unfold infosForPair.
    rewrite list_elem_of_fmap. split.
    + intros (c & [= <- Hm Ht] & Hc). apply elem_of_bfilter in Hc as [Hc Hs%servesPair_iff].
      destruct Hs as (Hm' & Ht' & Hmeta), (listed_pool _ _ _ Hc) as [_ Hn]. split_and!; [done | | | done].
      * by apply indexOf_lookup.
      * by apply indexOf_lookup.
    + intros (Hc & Hm & Ht & Hmeta). destruct (listed_pool _ _ _ Hc) as [_ Hn]. exists pool. split.
      * f_equal; symmetry; by (apply indexOf_lookup; [done | by eapply list_elem_of_lookup_2 | done]).
      * apply elem_of_bfilter. split; [done|]. apply servesPair_iff.
        split_and!; [by eapply list_elem_of_lookup_2 | by eapply list_elem_of_lookup_2 | done].
  - cbn. destruct source; first [discriminate E | by destruct chain].
Qed.

(** Two entries of the table of Curve share the key of their pool: only the
    last one is left, so that the underlying tokens of the two Aave pools are
    never sampled there. *)
Theorem overwritten_pools c :
  c ∈ listedPools ChainId.Mainnet ERC20BridgeSource.Curve →
  (curve_poolAddress c = CURVE_POOLS.aave →
     curve_tokens c = [MAINNET_TOKENS.aDAI; MAINNET_TOKENS.aUSDC; MAINNET_TOKENS.aUSDT]) ∧
  (curve_poolAddress c = CURVE_POOLS.saave → curve_tokens c = [MAINNET_TOKENS.aDAI; MAINNET_TOKENS.aSUSD]).
Proof.
  intros Hc.
  assert (forallb (λ c,
    (negb (String.eqb (curve_poolAddress c) CURVE_POOLS.aave) ||
     bool_decide (curve_tokens c = [MAINNET_TOKENS.aDAI; MAINNET_TOKENS.aUSDC; MAINNET_TOKENS.aUSDT])) &&
    (negb (String.eqb (curve_poolAddress c) CURVE_POOLS.saave) ||
     bool_decide (curve_tokens c = [MAINNET_TOKENS.aDAI; MAINNET_TOKENS.aSUSD])))
    (listedPools ChainId.Mainnet ERC20BridgeSource.Curve) = true) as H by (vm_compute; reflexivity).
  rewrite forallb_forall in H. apply list_elem_of_In, H in Hc.
  rewrite andb_true_iff, !orb_true_iff, !negb_true_iff, !bool_decide_eq_true, !String.eqb_neq in Hc. tauto.
Qed.

(** *** Sources that are enabled *)

Context `{SC : !SamplerContract}.

Definition sourceFilterOf (side : MarketOperation) (chain : ChainId) : SourceFilters.t :=
  match side with
  | Sell => SELL_SOURCE_FILTER_BY_CHAIN_ID chain
  | Buy => BUY_SOURCE_FILTER_BY_CHAIN_ID chain
  end.

(** The pools of these sources are found by services at run time; orders and
    two-hop quotes are not sampled by a source's operations. *)
Definition foundAtRunTime : list ERC20BridgeSource :=
  [ERC20BridgeSource.Balancer; ERC20BridgeSource.BalancerV2; ERC20BridgeSource.Beethovenx;
   ERC20BridgeSource.AaveV2; ERC20BridgeSource.AaveV3; ERC20BridgeSource.Compound].
Definition notSampled : list ERC20BridgeSource := [ERC20BridgeSource.Native; ERC20BridgeSource.MultiHop].

(** The operations of a source for a pair, whatever the amounts. *)
Definition operationsOf (side : MarketOperation) (this : t) (source : ERC20BridgeSource) (taker maker : string)
    : list BN → list string → result (list SourceQuoteOperation) :=
  λ amounts intermediates,
    match side with
    | Sell => sellOperationsOf formatBytes32String this maker taker amounts intermediates source
    | Buy => buyOperationsOf formatBytes32String this maker taker amounts intermediates source
    end.

Definition has_operations (r : result (list SourceQuoteOperation)) : bool :=
  match r with Ok (_ :: _) => true | _ => false end.

(** A pair that a source serves on a chain. *)
Definition servedPair (chain : ChainId) (source : ERC20BridgeSource) : string * string :=
  match listedPools chain source with
  | c :: _ => match curve_metaTokens c with
              | None => (nth 0 (curve_tokens c) "", nth 1 (curve_tokens c) "")
              | Some meta => (nth 0 meta "", List.last (curve_tokens c) "")
              end
  | [] => match source with
          | ERC20BridgeSource.Shell | ERC20BridgeSource.MStable =>
              match chain with
              | ChainId.Polygon => (POLYGON_TOKENS.DAI, POLYGON_TOKENS.USDC)
              | _ => (MAINNET_TOKENS.USDC, MAINNET_TOKENS.USDT)
              end
          | ERC20BridgeSource.Component => (MAINNET_TOKENS.USDP, MAINNET_TOKENS.USDC)
          | ERC20BridgeSource.Lido => (MAINNET_TOKENS.WETH, MAINNET_TOKENS.stETH)
          | ERC20BridgeSource.Platypus => (AVALANCHE_TOKENS.USDT, AVALANCHE_TOKENS.USDC)
          | ERC20BridgeSource.WOOFi => (BSC_TOKENS.BUSD, BSC_TOKENS.WBNB)
          | ERC20BridgeSource.Synthetix =>
              match chain with
              | ChainId.Optimism => (OPTIMISM_TOKENS.sETH, OPTIMISM_TOKENS.sUSD)
              | _ => (MAINNET_TOKENS.sETH, MAINNET_TOKENS.sUSD)
              end
          | _ => ("0xa", "0xb")
          end
  end%string.

Lemma enabled_operations side chain source this amounts intermediates :
  SourceFilters.isAllowed (sourceFilterOf side chain) source = true →
  source ∉ foundAtRunTime ++ notSampled → (chain, source) ≠ (ChainId.Optimism, ERC20BridgeSource.CurveV2) →
  chainId this = chain →
  has_operations (operationsOf side this source (servedPair chain source).1 (servedPair chain source).2
    amounts intermediates) = true.
Proof.
  intros Ha Hs Ho Hc. destruct this. simpl in Hc. subst.
  assert (source ∈ bfilter (λ s, SourceFilters.isAllowed (sourceFilterOf side chain) s &&
                                 negb (includes (foundAtRunTime ++ notSampled) s)) ERC20BridgeSource.values) as Hin.
  { apply elem_of_bfilter. split; [apply ERC20BridgeSource.elem_of_values|].
    by rewrite Ha, (proj2 (includes_false _ _) Hs). }
  clear Ha Hs. destruct side, chain; vm_compute in Hin;
    repeat (apply elem_of_cons in Hin as [->|Hin]; [first [reflexivity | by destruct Ho]|]); by apply elem_of_nil in Hin.
Qed.

(** What the caches know of a pair for a source whose pools are found at run
    time.  A buy of a Balancer V2 like source pairs every way to quote with a
    way to fill. *)
Definition knownPools (side : MarketOperation) (this : t) (source : ERC20BridgeSource) (taker maker : string) : bool :=
  let swaps := balancerV2Swaps this taker maker in
  match source with
  | ERC20BridgeSource.Balancer =>
      SourceFilters.non_empty (IPoolsCache.getPoolAddressesForPair id (balancerCache this) taker maker)
  | ERC20BridgeSource.BalancerV2 | ERC20BridgeSource.Beethovenx =>
      match side with
      | Sell => SourceFilters.non_empty (swapInfoExactIn swaps)
      | Buy => SourceFilters.non_empty (swapInfoExactOut swaps) &&
               (length (swapInfoExactOut swaps) <=? length (swapInfoExactIn swaps))%nat
      end
  | ERC20BridgeSource.AaveV2 => bool_decide (is_Some (reserveOf (aaveV2ReservesCache this) taker maker))
  | ERC20BridgeSource.AaveV3 => bool_decide (is_Some (reserveOf (aaveV3ReservesCache this) taker maker))
  | ERC20BridgeSource.Compound => bool_decide (is_Some (cTokenOf this taker maker))
  | _ => false
  end.

(** Caches that know one pool of each kind, for the pair of "0xa" and "0xb". *)
Definition filledCaches (chain : ChainId) : t :=
  let swap := {| assets := []; swapSteps := [] |} in
  let reserve := {| AaveReservesCache.underlyingAsset := "0xa"; AaveReservesCache.aTokenId := "0xb";
                    AaveReservesCache.lendingPool := "0xp" |} in
  {| chainId := chain;
     balancerCache := IPoolsCache.AbstractPoolsCache (PoolsCache._cachePoolsForPair ∅ "0xa" "0xb" ["0xp"] 0);
     balancerV2Cache := Some (SwapInfoCache._cacheSwapInfoForPair ∅ "0xa" "0xb"
       {| swapInfoExactIn := [swap]; swapInfoExactOut := [swap] |} 0);
     tokenAdjacencyGraph := getEmptyGraph;
     aaveV2ReservesCache := Some (AaveReservesCache.addReserve ∅ reserve);
     aaveV3ReservesCache := Some (AaveReservesCache.addReserve ∅ reserve);
     compoundCTokenCache := Some (CompoundCTokenCache.addCToken "" ∅
       {| CompoundCTokenCache.token_address := "0xb"; CompoundCTokenCache.underlying_address := Some "0xa" |});
     _bancorService := None |}%string.

Lemma has_operations_fmap {A} (f : A → SourceQuoteOperation) l :
  has_operations (Ok (f <$> l)) = SourceFilters.non_empty l.
Proof. by destruct l. Qed.

Lemma has_operations_whenSome {A} (o : option A) (f : A → SourceQuoteOperation) :
  has_operations (Ok (whenSome o f)) = bool_decide (is_Some o).
Proof. destruct o; [by rewrite bool_decide_true by by eexists|]. rewrite bool_decide_false; [done|]. by intros []. Qed.

(** A list paired by position with another one: an entry without a partner
    throws. *)
Lemma has_operations_paired {A C} (l : list A) (k : list C) (f : A → C → SourceQuoteOperation) :
  has_operations (mapM (λ '(i, a), match k !! (i : nat) with
    | Some c => Ok (f a c) | None => Throw TypeError end) (imap pair l)) =
  SourceFilters.non_empty l && (length l <=? length k)%nat.
Proof.
  destruct (mapM _ (imap pair l)) as [ops|e] eqn:E.
  - apply (mapM_imap_ok (λ i a, match k !! i with Some c => Ok (f a c) | None => Throw TypeError end)) in E as [Hl H].
    destruct l as [|a l]; [by destruct ops|]. destruct ops as [|o ops]; [done|].
    destruct (lookup_lt_is_Some_2 (a :: l) (length l)) as [x Hx]; [simpl; lia|].
    destruct (H _ _ Hx) as (y & _ & Hy). destruct (k !! length l) as [c|] eqn:Ec; [|done].
    apply lookup_lt_Some in Ec. symmetry. by apply andb_true_iff, (conj eq_refl), Nat.leb_le.
  - destruct (Nat.leb_spec (length l) (length k)) as [Hle|Hgt]; [|by rewrite andb_false_r].
    destruct (mapM_all_ok (λ '(i, a), match k !! (i : nat) with
      | Some c => Ok (f a c) | None => Throw TypeError end) (imap pair l)) as [ops Ho]; [|by rewrite Ho in E].
    intros [i a] (j & a' & [= -> ->] & Hj)%elem_of_lookup_imap_1.
    apply lookup_lt_Some in Hj. destruct (lookup_lt_is_Some_2 k j) as [c ->]; [lia | by eexists].
Qed.

(** A source whose pools are found at run time is sampled for exactly the pairs
    that the caches know. *)
Lemma cached_operations side source this taker maker amounts intermediates :
  source ∈ foundAtRunTime →
  has_operations (operationsOf side this source taker maker amounts intermediates) =
  knownPools side this source taker maker.
Proof.
  intros H. unfold foundAtRunTime in H. rewrite !elem_of_cons, elem_of_nil in H.
  destruct H as [->|[->|[->|[->|[->|[->|[]]]]]]]; destruct side;
    cbn [operationsOf knownPools sellOperationsOf buyOperationsOf isBadTokenForSource BAD_TOKENS_BY_SOURCE
         includes existsb orb sellOperationsOf_rest buyOperationsOf_rest];
    first [apply has_operations_fmap | apply has_operations_whenSome | apply has_operations_paired].
Qed.

Lemma filled_caches side chain source :
  SourceFilters.isAllowed (sourceFilterOf side chain) source = true → source ∈ foundAtRunTime →
  knownPools side (filledCaches chain) source "0xa" "0xb" = true.
Proof.
  intros Ha Hs. assert (source ∈ bfilter (SourceFilters.isAllowed (sourceFilterOf side chain)) foundAtRunTime) as Hin
    by by apply elem_of_bfilter.
  clear Ha Hs. destruct side, chain; vm_compute in Hin;
    repeat (apply elem_of_cons in Hin as [->|Hin]; [vm_compute; reflexivity|]); by apply elem_of_nil in Hin.
Qed.

(** C31. What a source that is enabled on a chain is sampled for, by sells and
    by buys.  Limit orders and two-hop quotes are no business of these
    operations: their sources have none.  The six sources whose pools are
    found at run time are sampled for exactly the pairs that the caches know,
    and there are such caches on every chain that enables them.  Every other
    source is sampled for some pair of tokens whatever the caches, but for
    one, which has no table on its chain and is sampled for no pair. *)
Theorem enabled_sources_sampled side chain source :
  SourceFilters.isAllowed (sourceFilterOf side chain) source = true →
  let sampled this taker maker amounts intermediates :=
    has_operations (operationsOf side this source taker maker amounts intermediates) in
  if includes notSampled source
  then ∀ this taker maker amounts intermediates, sampled this taker maker amounts intermediates = false
  else if includes foundAtRunTime source
  then (∀ this taker maker amounts intermediates,
          sampled this taker maker amounts intermediates = knownPools side this source taker maker) ∧
       ∃ this taker maker, chainId this = chain ∧ knownPools side this source taker maker = true
  else if bool_decide ((chain, source) = (ChainId.Optimism, ERC20BridgeSource.CurveV2))
  then ∀ this taker maker amounts intermediates, chainId this = chain →
         sampled this taker maker amounts intermediates = false
  else ∃ taker maker, ∀ this amounts intermediates, chainId this = chain →
         sampled this taker maker amounts intermediates = true.
Proof.
  intros Ha sampled. destruct (includes notSampled source) eqn:En; [|destruct (includes foundAtRunTime source) eqn:Er].
  - apply includes_true in En. unfold notSampled in En. rewrite !elem_of_cons, elem_of_nil in En.
    by destruct En as [->|[->|[]]]; destruct side.
  - apply includes_true in Er. split; [intros; by apply cached_operations|].
    exists (filledCaches chain), "0xa"%string, "0xb"%string. split; [done | by apply filled_caches].
  - case_bool_decide as Ho.
    + injection Ho as -> ->. intros [] taker maker amounts intermediates Hc. simpl in Hc. subst. unfold sampled.
      destruct side; [|reflexivity]. cbn [operationsOf]. unfold sellOperationsOf.
      by destruct (isBadTokenForSource maker ERC20BridgeSource.CurveV2 || isBadTokenForSource taker _).
    + exists (servedPair chain source).1, (servedPair chain source).2.
      intros this amounts intermediates. apply enabled_operations; [done| |done].
      rewrite elem_of_app. intros [H|H]; apply includes_true in H; congruence.
Qed.

(** *** The tokens that two-hop routes go through *)

Lemma addPairs_ok g pairs :
  Forall (λ p, toLowerCase p.1 ≠ toLowerCase p.2) pairs → is_ok (Tables.addPairs g pairs) = true.
Proof.
  intros H. revert g. induction H as [|[a b] pairs Hab _ IH]; intros g; [done|]. cbn [Tables.addPairs].
  unfold addBidirectional. destruct (add_ok g a b Hab) as [g1 ->]. cbn [mbind result_bind].
  destruct (add_ok g1 b a ltac:(simpl in *; congruence)) as [g2 ->]. apply IH.
Qed.

Lemma addPairs_adjacent g pairs g' :
  Tables.addPairs g pairs = Ok g' →
  ∀ x y, y ∈ getAdjacentTokens g' x ↔
    y ∈ getAdjacentTokens g x ∨
    ∃ a b, ((a, b) ∈ pairs ∨ (b, a) ∈ pairs) ∧ toLowerCase x = toLowerCase a ∧ y = toLowerCase b.
Proof.
  revert g. induction pairs as [|[a b] pairs IH]; intros g H x y; cbn [Tables.addPairs] in H.
  - injection H as <-. split; [by left|]. intros [?|(? & ? & [?|?] & _)]; [done | set_solver..].
  - ok_inv H. apply addBidirectional_adjacent in E as [_ E]. rewrite (IH _ H x y), E.
    setoid_rewrite elem_of_cons. split.
    + intros [[?|[[? ?]|[? ?]]]|(a' & b' & ? & ? & ?)]; [by left | right; exists a, b | right; exists b, a | right; exists a', b'];
        naive_solver.
    + intros [?|(a' & b' & [[[= -> ->]|?]|[[= -> ->]|?]] & ? & ?)]; [by left; left | left; right; left | right; exists a', b'
        | left; right; right | right; exists a', b']; naive_solver.
Qed.

Lemma adjacent_pairs_differ chain :
  Forall (λ p, toLowerCase p.1 ≠ toLowerCase p.2) (Tables.adjacentPairs chain).
Proof. apply (bool_decide_eq_true_1 _). destruct chain; vm_compute; reflexivity. Qed.

(** Tokens that the builders connect: a pair, in either direction, or two of the
    complete subgraph. *)
Definition connected (chain : ChainId) (x y : string) : Prop :=
  ∃ a b, toLowerCase x = toLowerCase a ∧ y = toLowerCase b ∧
    ((a, b) ∈ Tables.adjacentPairs chain ∨ (b, a) ∈ Tables.adjacentPairs chain ∨
     a ∈ Tables.adjacentSubgraph chain ∧ b ∈ Tables.adjacentSubgraph chain ∧ toLowerCase a ≠ toLowerCase b).

Lemma default_graph_ok chain : is_ok (Tables.DEFAULT_TOKEN_ADJACENCY_GRAPH_BY_CHAIN_ID etherToken chain) = true.
Proof.
  unfold Tables.DEFAULT_TOKEN_ADJACENCY_GRAPH_BY_CHAIN_ID. set (g0 := newBuilder _).
  pose proof (addPairs_ok g0 _ (adjacent_pairs_differ chain)) as Hp.
  destruct (Tables.addPairs g0 _) as [g1|] eqn:E1; [|done]. cbn [mbind result_bind].
  destruct (complete_subgraph_adjacency g1 (Tables.adjacentSubgraph chain) g1) as [Hok _].
  destruct (addCompleteSubgraph g1 _); [done|]. apply Hok.
  apply (bool_decide_eq_true_1 _). destruct chain; vm_compute; reflexivity.
Qed.

(** C38. The graph of every chain is built without fail, and the tokens that a
    two-hop route of a pair may go through are the default tokens of the chain
    and those connected to either token of the pair, the two themselves
    excepted. *)
Theorem default_graphs_built chain :
  ∃ g, Tables.DEFAULT_TOKEN_ADJACENCY_GRAPH_BY_CHAIN_ID etherToken chain = Ok g ∧
    ∀ taker maker token,
      token ∈ getIntermediateTokens g taker maker ↔
      (token ∈ toLowerCase <$> Tables.DEFAULT_INTERMEDIATE_TOKENS_BY_CHAIN_ID etherToken chain ∨
       connected chain taker token ∨ connected chain maker token) ∧
      token ≠ toLowerCase taker ∧ token ≠ toLowerCase maker.
Proof.
  pose proof (default_graph_ok chain) as Hok. revert Hok. unfold Tables.DEFAULT_TOKEN_ADJACENCY_GRAPH_BY_CHAIN_ID.
  set (g0 := newBuilder _). destruct (Tables.addPairs g0 _) as [g1|] eqn:E1; [|done]. cbn [mbind result_bind].
  destruct (addCompleteSubgraph g1 _) as [g|] eqn:E2; [|done]. intros _.
  exists g. split; [done|]. intros taker maker token.
  assert (∀ x, token ∈ getAdjacentTokens g x ↔
    token ∈ toLowerCase <$> Tables.DEFAULT_INTERMEDIATE_TOKENS_BY_CHAIN_ID etherToken chain ∨ connected chain x token)
    as H.
  { intros x. rewrite (proj2 (complete_subgraph_adjacency g1 _ g) E2), (addPairs_adjacent _ _ _ E1).
    unfold connected, g0, getAdjacentTokens, newBuilder. cbn [_graph _defaultTokens]. rewrite lookup_empty. cbn [default]. unfold id. split.
    - intros [[?|(a & b & [?|?] & ? & ?)]|(a & b & ? & ? & ? & ? & ?)]; [by left | right; exists a, b; auto 10..].
    - intros [?|(a & b & ? & ? & [?|[?|(? & ? & ?)]])]; [auto | left; right; exists a, b; auto.. | right; exists a, b; auto 10]. }
  rewrite (proj1 (proj2 (intermediate_tokens_spec g taker maker))), !H. tauto.
Qed.
End Contents.

(** ** An instance *)
Import Concrete SamplerExamples.

Definition ex_etherToken (chain : ChainId) : string := "0xweth".

(** Curve is enabled for sells on Mainnet, and sampled there; so is Aave, for the
    pairs of the cache. *)
Lemma enabled_sources_sampled_witness :
  (∃ taker maker, ∀ (this : SamplerOperations.t (B := QBigNumber)) amounts intermediates, chainId this = ChainId.Mainnet →
    has_operations (operationsOf ex_etherToken ex_bytes32 Sell this ERC20BridgeSource.Curve taker maker amounts intermediates) = true) ∧
  (∀ (this : SamplerOperations.t (B := QBigNumber)) taker maker amounts intermediates,
    has_operations (operationsOf ex_etherToken ex_bytes32 Buy this ERC20BridgeSource.AaveV2 taker maker amounts intermediates) =
    bool_decide (is_Some (reserveOf (aaveV2ReservesCache this) taker maker))).
Proof.
  split.
  - apply (enabled_sources_sampled ex_etherToken ex_bytes32 Sell ChainId.Mainnet ERC20BridgeSource.Curve).
    vm_compute. reflexivity.
  - apply (enabled_sources_sampled ex_etherToken ex_bytes32 Buy ChainId.Mainnet ERC20BridgeSource.AaveV2).
    vm_compute. reflexivity.
Defined.
