(* ===== verification/BalancerPools.v ===== *)
(** * The pools of Balancer ([market_operation_utils/pools_cache])

    [BalancerPoolsCache] (version 1), [SubgraphPoolDataService] and
    [BalancerV2SwapInfoCache] (version 2): what they fetch, what they keep of it,
    and the loading of the top pools into the caches of [Caches].  The subgraph,
    the libraries that parse pools and propose routes, and the clock are
    parameters; the clock gives the time of each reading in turn. *)

From stdpp Require Import sorting.
From S2P Require Import Prelude JsLib JsNumber BigNum Types SourceFilters Constants PairUtils TokenGraph Caches.
From S2P Require Import BridgeSources Sampler SamplerOperations Tokens PoolTables.

Definition ONE_DAY_MS : Z := 24 * 60 * 60 * 1000.
(** [tokensList.filter((t) => t.toLowerCase() !== from.toLowerCase())]. *)
Definition othersOf (tokensList : list string) (from : string) : list string :=
  bfilter (λ t, negb (String.eqb (toLowerCase t) (toLowerCase from))) tokensList.
(** The pairs of the nested loops over the tokens of a pool. *)
Definition pairsOf (tokensList : list string) : list (string * string) :=
  tokensList ≫= λ from, pair from <$> othersOf tokensList from.

Lemma elem_of_pairsOf l a b : (a, b) ∈ pairsOf l ↔ a ∈ l ∧ b ∈ l ∧ toLowerCase b ≠ toLowerCase a.
Proof.
  unfold pairsOf, othersOf. rewrite list_elem_of_bind. split.
  - intros (x & (y & [= <- <-] & [Hy E]%elem_of_bfilter)%list_elem_of_fmap & Hx). split_and!; [done..|].
    by apply negb_true_iff, String.eqb_neq in E.
  - intros (Ha & Hb & Hne). exists a. split; [|done]. apply list_elem_of_fmap. exists b. split; [done|].
    apply elem_of_bfilter. split; [done|]. by apply negb_true_iff, String.eqb_neq.
Qed.

(** ** [BalancerPoolsCache] *)
Module BalancerPoolsCache.
Definition BALANCER_MAX_POOLS_FETCHED : Z := 3.
Definition BALANCER_TOP_POOLS_FETCHED : Z := 250.

Section BalancerPoolsCache.
Context {B : BigNumberLib} {Pool PoolData : Type}.
Variable balanceOut : Pool → BN.
(** The tokens of a pool of the response. *)
Variable tokensList : PoolData → list string.
(** [balancer-labs-sor-v1]. *)
Variable getPoolsWithTokens : string → string → result (list PoolData).
Variable parsePoolData : list PoolData → string → string → result (list Pool).

Definition create (chainId : ChainId) : IPoolsCache.t (Pool := Pool) :=
  if bool_decide (chainId = ChainId.Mainnet) then IPoolsCache.AbstractPoolsCache ∅ else IPoolsCache.NoOpPoolsCache.

(** By the balance of the maker token, the largest first. *)
Definition compareBalances (a b : Pool) : Z := n_sign (toNumber (minus (balanceOut b) (balanceOut a))).

(** [pools.length > this.maxPoolsFetched ? pools.slice(0, ...) : pools]. *)
Definition atMost (maxPoolsFetched : Z) (pools : list Pool) : list Pool :=
  if maxPoolsFetched <? Z.of_nat (length pools) then slice pools 0 maxPoolsFetched else pools.

Definition _fetchPoolsForPairAsync (maxPoolsFetched : Z) (takerToken makerToken : string) : list Pool :=
  match (poolData ← getPoolsWithTokens takerToken makerToken; parsePoolData poolData takerToken makerToken) with
  | Ok parsed => atMost maxPoolsFetched (JsLib.sort compareBalances parsed)
  | Throw _ => []
  end.

(** [_fetchTopPoolsAsync]: the pools of the response, none if it fails. *)
Definition _fetchTopPoolsAsync (response : result (list PoolData)) : list PoolData :=
  match response with Ok pools => pools | Throw _ => [] end.

(** The state of [_loadTopPoolsAsync]: the cache, [fromToPools], and how often
    the clock was read. *)
Record Loading : Type := {
  ld_cache : gmap string (PoolsCache.CacheValue (Pool := Pool));
  ld_fromToPools : gmap (string * string) (list Pool);
  ld_ticks : nat;
}.

Variable now : nat → Z.
Variable _cacheTimeMs : Z.

(** The body of the innermost loop; [fromToPools[from][to]] is empty when it is
    not there, and the array in the cache is the one that grows. *)
Definition loadPair (pool : PoolData) (st : Loading) (pair : string * string) : Loading :=
  let '(from, to) := pair in
  match parsePoolData [pool] from to with
  | Ok (p :: _) =>
      let pools := default [] (ld_fromToPools st !! pair) ++ [p] in
      {| ld_cache := PoolsCache._cachePoolsForPair (ld_cache st) from to pools (now (ld_ticks st) + _cacheTimeMs);
         ld_fromToPools := <[pair := pools]> (ld_fromToPools st);
         ld_ticks := S (ld_ticks st) |}
  | _ => st
  end.

Definition loadPool (st : Loading) (pool : PoolData) : Loading :=
  fold_left (loadPair pool) (pairsOf (tokensList pool)) st.

Definition _loadTopPoolsAsync (response : result (list PoolData)) (cache : PoolsCache.t) : PoolsCache.t :=
  ld_cache (fold_left loadPool (_fetchTopPoolsAsync response)
    {| ld_cache := cache; ld_fromToPools := ∅; ld_ticks := 0 |}).

(** *** What is fetched for a pair *)

(** Balances are integers of base units. *)
Definition whole_balance (p : Pool) : Prop := ∃ z, fin (balanceOut p) (inject_Z z).

Lemma compareBalances_spec a b x y :
  fin (balanceOut a) (inject_Z x) → fin (balanceOut b) (inject_Z y) → compareBalances a b <= 0 ↔ y <= x.
Proof.
  intros Ha Hb. unfold compareBalances.
  assert (ext_eq (toNumber (minus (balanceOut b) (balanceOut a))) (round64 (inject_Z y - inject_Z x))) as E.
  { pose proof (fin_minus _ _ _ _ Hb Ha) as H. unfold fin in H. by rewrite val_toNumber, H. }
  rewrite (n_sign_proper _ _ E). split; intros H.
  - apply Znot_gt_le. intros Hgt. assert (0 < n_sign (round64 (inject_Z y - inject_Z x))); [|lia].
    apply n_sign_round_pos. transitivity 1%Q; [vm_compute; discriminate|].
    assert (inject_Z (x + 1) <= inject_Z y)%Q as Hle by (rewrite <- Zle_Qle; lia).
    rewrite inject_Z_plus in Hle. change (inject_Z 1) with 1%Q in Hle. lra.
  - apply n_sign_round. rewrite Zle_Qle in H. lra.
Qed.

Lemma compareBalances_order : comparator_on compareBalances whole_balance.
Proof.
  split.
  - intros a b [x Hx] [y Hy]. rewrite (compareBalances_spec _ _ _ _ Hx Hy), (compareBalances_spec _ _ _ _ Hy Hx). lia.
  - intros a b c [x Hx] [y Hy] [z Hz].
    rewrite (compareBalances_spec _ _ _ _ Hx Hy), (compareBalances_spec _ _ _ _ Hy Hz), (compareBalances_spec _ _ _ _ Hx Hz). lia.
Qed.

Lemma atMost_take n pools : 0 <= n → atMost n pools = take (Z.to_nat n) pools.
Proof.
  intros Hn. unfold atMost. case_match eqn:E.
  - pose proof (slice_nonneg pools 0 (Z.to_nat n)) as H. rewrite Nat.add_0_l, Z2Nat.id in H by done.
    by rewrite drop_0 in H.
  - rewrite take_ge; [done|lia].
Qed.
(** At most the bound of the pools are kept, and no pool that is left out has
    more of the maker token than one that is kept. *)
Lemma fetched_pools_best n taker maker data parsed :
  0 <= n →
  getPoolsWithTokens taker maker = Ok data → parsePoolData data taker maker = Ok parsed →
  Forall whole_balance parsed →
  ∃ rest, _fetchPoolsForPairAsync n taker maker ++ rest ≡ₚ parsed ∧
    (length (_fetchPoolsForPairAsync n taker maker) = Nat.min (Z.to_nat n) (length parsed))%nat ∧
    ∀ a b x y, a ∈ _fetchPoolsForPairAsync n taker maker → b ∈ rest →
      fin (balanceOut a) (inject_Z x) → fin (balanceOut b) (inject_Z y) → y <= x.
Proof.
  intros Hn E1 E2 Hw. unfold _fetchPoolsForPairAsync. rewrite E1. cbn [mbind result_bind]. rewrite E2, atMost_take by done.
  pose proof (sort_perm compareBalances parsed) as Hp.
  pose proof (sort_sorted _ _ parsed compareBalances_order Hw) as Hs.
  set (sorted := JsLib.sort compareBalances parsed) in *. exists (drop (Z.to_nat n) sorted). split_and!.
  - by rewrite take_drop.
  - by rewrite length_take, Hp.
  - intros a b x y Ha Hb Hx Hy. rewrite <- (take_drop (Z.to_nat n) sorted) in Hs.
    apply StronglySorted_app in Hs as (Hab & _ & _).
    by apply (compareBalances_spec a b x y Hx Hy), Hab.
Qed.

(** *** What the top pools leave in the cache *)

Definition firstPool (pool : PoolData) (pair : string * string) : option Pool :=
  match parsePoolData [pool] pair.1 pair.2 with Ok (p :: _) => Some p | _ => None end.

(** The pools of a pair, in the order of the response. *)
Definition poolsOf (pools : list PoolData) (pair : string * string) : list Pool :=
  pools ≫= λ pool, omap (λ pair', if bool_decide (pair' = pair) then firstPool pool pair else None)
                     (pairsOf (tokensList pool)).

Definition plain_pair (pair : string * string) : Prop :=
  has_char dash pair.1 = false ∧ has_char dash pair.2 = false.

Lemma key_injective p q : plain_pair p → plain_pair q →
  PoolsCache._getKey p.1 p.2 = PoolsCache._getKey q.1 q.2 → p = q.
Proof.
  intros [Hp1 Hp2] [Hq1 Hq2] E. apply (f_equal (split_on dash)) in E. unfold PoolsCache._getKey in E.
  rewrite !dash_append, !split_on_app, !split_on_free in E by done. destruct p, q. simpl in *. by injection E as -> ->.
Qed.

(** One round of the innermost loop. *)
Lemma loadPair_lookup pool pair st pair' :
  ld_fromToPools (loadPair pool st pair) !! pair' =
    match firstPool pool pair with
    | Some p => if bool_decide (pair = pair') then Some (default [] (ld_fromToPools st !! pair) ++ [p])
                else ld_fromToPools st !! pair'
    | None => ld_fromToPools st !! pair'
    end.
Proof.
  unfold loadPair, firstPool. destruct pair as [from to]; cbn [fst snd].
  destruct (parsePoolData [pool] from to) as [[|p l]|]; [done | | done]. cbn [ld_fromToPools].
  case_bool_decide as E; [subst pair'; by rewrite lookup_insert_eq | by rewrite lookup_insert_ne].
Qed.

(** The cache holds what was collected, and otherwise what it held before. *)
Definition collected (cache0 : gmap string PoolsCache.CacheValue) (st : Loading) : Prop :=
  (∀ pair ps, ld_fromToPools st !! pair = Some ps → plain_pair pair ∧ ps ≠ [] ∧ ∃ i,
     ld_cache st !! PoolsCache._getKey pair.1 pair.2 =
       Some {| PoolsCache.expiresAt := now i + _cacheTimeMs; PoolsCache.pools := ps |}) ∧
  (∀ k, (∀ pair, is_Some (ld_fromToPools st !! pair) → PoolsCache._getKey pair.1 pair.2 ≠ k) →
     ld_cache st !! k = cache0 !! k).

Lemma loadPair_collected cache0 pool st pair :
  plain_pair pair → collected cache0 st → collected cache0 (loadPair pool st pair).
Proof.
  intros Hpl [H1 H2]. destruct (firstPool pool pair) as [p|] eqn:Ef.
  - assert (∃ i, ld_cache (loadPair pool st pair) = <[PoolsCache._getKey pair.1 pair.2 :=
      {| PoolsCache.expiresAt := now i + _cacheTimeMs;
         PoolsCache.pools := default [] (ld_fromToPools st !! pair) ++ [p] |}]> (ld_cache st)) as [i Ec].
    { exists (ld_ticks st). revert Ef. unfold loadPair, firstPool. destruct pair as [from to]; cbn [fst snd].
      destruct (parsePoolData [pool] from to) as [[|? ?]|]; [done | | done]. by intros [= ->]. }
    split.
    + intros pair' ps. rewrite loadPair_lookup, Ef, Ec. case_bool_decide as E.
      * subst pair'. intros [= <-]. split; [done|]. split; [by destruct (default _ _)|]. exists i. by rewrite lookup_insert_eq.
      * intros Hps. destruct (H1 pair' ps Hps) as (Hpl' & Hps' & j & Hj). split; [done|]. split; [done|]. exists j.
        rewrite lookup_insert_ne; [done|]. intros Hk. by apply E, key_injective.
    + intros k Hk. rewrite Ec, lookup_insert_ne.
      * apply H2. intros pair' Hs. apply Hk. rewrite loadPair_lookup, Ef. by case_bool_decide.
      * apply Hk. rewrite loadPair_lookup, Ef, bool_decide_eq_true_2 by done. by eexists.
  - assert (loadPair pool st pair = st) as ->; [|by split].
    revert Ef. unfold loadPair, firstPool. destruct pair as [from to]; cbn [fst snd].
    by destruct (parsePoolData [pool] from to) as [[|? ?]|].
Qed.

(** The pairs of one pool, and the pools of the response. *)
Lemma loadPairs_lookup pool pairs st pair :
  default [] (ld_fromToPools (fold_left (loadPair pool) pairs st) !! pair) =
    default [] (ld_fromToPools st !! pair)
    ++ omap (λ pair', if bool_decide (pair' = pair) then firstPool pool pair else None) pairs.
Proof.
  revert st. induction pairs as [|p l IH]; intros st; cbn [fold_left]; [by rewrite app_nil_r|].
  rewrite IH, loadPair_lookup. cbn [omap list_omap]. case_bool_decide as E.
  - subst p. destruct (firstPool pool pair); [|done]. cbn [from_option id]. by rewrite <- app_assoc.
  - by destruct (firstPool pool p).
Qed.

Lemma loadPools_lookup pools st pair :
  default [] (ld_fromToPools (fold_left loadPool pools st) !! pair) =
    default [] (ld_fromToPools st !! pair) ++ poolsOf pools pair.
Proof.
  revert st. induction pools as [|p l IH]; intros st; cbn [fold_left]; [by rewrite app_nil_r|].
  rewrite IH. unfold loadPool. rewrite loadPairs_lookup. unfold poolsOf. cbn [mbind list_bind]. by rewrite app_assoc.
Qed.

Lemma fold_collected {E} (f : Loading → E → Loading) cache0 l st :
  (∀ st e, e ∈ l → collected cache0 st → collected cache0 (f st e)) →
  collected cache0 st → collected cache0 (fold_left f l st).
Proof.
  revert st. induction l as [|e l IH]; intros st Hf Hc; [done|]. cbn [fold_left].
  apply IH; [|apply Hf; [by left | done]]. intros st' e' He'. apply Hf. by right.
Qed.

(** C13. After loading, a pair that some pool serves has exactly the pools of the
    response that serve it, in their order, with the expiry of the last of them;
    every other entry of the cache is as before.  A failing response changes
    nothing. *)
Lemma top_pools_loaded response cache0 pair :
  let pools := _fetchTopPoolsAsync response in
  (∀ pool t, pool ∈ pools → t ∈ tokensList pool → has_char dash t = false) →
  plain_pair pair →
  let cache := _loadTopPoolsAsync response cache0 in
  (poolsOf pools pair ≠ [] → ∃ i, PoolsCache._getValue cache pair.1 pair.2 =
     Some {| PoolsCache.expiresAt := now i + _cacheTimeMs; PoolsCache.pools := poolsOf pools pair |}) ∧
  (poolsOf pools pair = [] → PoolsCache._getValue cache pair.1 pair.2 = PoolsCache._getValue cache0 pair.1 pair.2).
Proof.
  intros pools Hpl Hp cache. unfold cache, _loadTopPoolsAsync. fold pools.
  set (st0 := {| ld_cache := cache0; ld_fromToPools := ∅; ld_ticks := 0 |}).
  pose proof (loadPools_lookup pools st0 pair) as Hl.
  assert (ld_fromToPools st0 !! pair = None) as E0 by done. rewrite E0 in Hl. cbn [default from_option app] in Hl.
  assert (collected cache0 (fold_left loadPool pools st0)) as [H1 H2].
  { apply fold_collected; [|by split]. intros st pool Hpool Hc. unfold loadPool.
    apply fold_collected; [|done]. intros st' [a b] (Ha & Hb & _)%elem_of_pairsOf. apply loadPair_collected.
    split; [by apply (Hpl pool) | by apply (Hpl pool)]. }
  unfold PoolsCache._getValue. split; intros Hne.
  - destruct (ld_fromToPools (fold_left loadPool pools st0) !! pair) as [ps|] eqn:Eps; cbn [default from_option] in Hl.
    + destruct (H1 pair ps Eps) as (_ & _ & i & Hi). exists i. rewrite <- Hl. exact Hi.
    + by symmetry in Hl.
  - apply H2. intros pair' [ps Hps] Ek. destruct (H1 pair' ps Hps) as (Hp' & Hne' & _).
    apply key_injective in Ek; [|done..]. subst pair'. rewrite Hps, Hne in Hl. by simpl in Hl.
Qed.
End BalancerPoolsCache.
End BalancerPoolsCache.

(** ** [SubgraphPoolDataService] *)
Module SubgraphPoolDataService.
(** The chains with a query, which is the same for all of them. *)
Definition QUERY_BY_CHAIN_ID (chainId : ChainId) : option string :=
  if bool_decide (chainId ∈ [ChainId.Mainnet; ChainId.Polygon; ChainId.Arbitrum; ChainId.Optimism; ChainId.Fantom])
  then Some "fetchTopPoolsWithLinear"%string else None.
Definition DEFAULT_MAX_POOLS_FETCHED : Z := 96.

Definition isSameAddress (address1 address2 : string) : bool :=
  String.eqb (toLowerCase address1) (toLowerCase address2).

Record Config : Type := {
  chainId : ChainId;
  subgraphUrl : option string;
  maxPoolsFetched : option Z;
  poolsToIgnore : option (list string);
}.

(** The fields that the constructor settles: zero pools mean the default. *)
Record t : Type := {
  _config : Config;
  _maxPoolsFetched : Z;
  _gqlQuery : option string;
}.
Definition new (config : Config) : t :=
  {| _config := config;
     _maxPoolsFetched := match maxPoolsFetched config with
                         | Some n => if n =? 0 then DEFAULT_MAX_POOLS_FETCHED else n
                         | None => DEFAULT_MAX_POOLS_FETCHED
                         end;
     _gqlQuery := QUERY_BY_CHAIN_ID (chainId config) |}.

Section GetPools.
Context {SubgraphPool : Type}.
Variable address : SubgraphPool → string.
(** [request(url, query, { maxPoolsFetched })]. *)
Variable request : string → string → Z → result (list SubgraphPool).

Definition isWanted (this : t) (p : SubgraphPool) : bool :=
  match poolsToIgnore (_config this) with
  | None => true
  | Some ignored => negb (existsb (λ addr, isSameAddress addr (address p)) ignored)
  end.

(** An empty URL or query is falsy. *)
Definition getPools (this : t) : list SubgraphPool :=
  match _gqlQuery this, subgraphUrl (_config this) with
  | Some query, Some url =>
      if String.eqb query "" || String.eqb url "" then []
      else match request url query (_maxPoolsFetched this) with
           | Ok pools => bfilter (isWanted this) pools
           | Throw _ => []
           end
  | _, _ => []
  end.

(** Whatever the subgraph answers, no ignored pool is among the pools, in
    whatever case its address is written, and every other pool of the answer is. *)
Lemma getPools_spec this p :
  p ∈ getPools this ↔
  ∃ url query pools, subgraphUrl (_config this) = Some url ∧ _gqlQuery this = Some query ∧
    url ≠ ""%string ∧ query ≠ ""%string ∧
    request url query (_maxPoolsFetched this) = Ok pools ∧ p ∈ pools ∧
    ∀ ignored a, poolsToIgnore (_config this) = Some ignored → a ∈ ignored → toLowerCase a ≠ toLowerCase (address p).
Proof.
  unfold getPools. destruct (_gqlQuery this) as [query|], (subgraphUrl (_config this)) as [url|]; cycle 1;
    [split; [by intros ?%elem_of_nil | by intros (? & ? & ? & [=] & _)]
    |split; [by intros ?%elem_of_nil | by intros (? & ? & ? & ? & [=] & _)]
    |split; [by intros ?%elem_of_nil | by intros (? & ? & ? & [=] & _)]|].
  assert (isWanted this p = true ↔ ∀ ignored a, poolsToIgnore (_config this) = Some ignored → a ∈ ignored →
    toLowerCase a ≠ toLowerCase (address p)) as Hw.
  { unfold isWanted. destruct (poolsToIgnore (_config this)) as [l|]; [|done]. rewrite negb_true_iff, <- not_true_iff_false.
    rewrite existsb_exists. unfold isSameAddress. split.
    - intros H ? a [= <-] Ha E. apply H. exists a. split; [by apply list_elem_of_In|]. by apply String.eqb_eq.
    - intros H (a & Ha%list_elem_of_In & E%String.eqb_eq). by apply (H l a). }
  destruct (String.eqb_spec query ""), (String.eqb_spec url ""); cbn [orb];
    try (split; [by intros ?%elem_of_nil | intros (? & ? & ? & [= <-] & [= <-] & ? & ? & _); done]).
  destruct (request url query (_maxPoolsFetched this)) as [pools|e] eqn:E.
  - rewrite elem_of_bfilter, Hw. split.
    + intros [Hp Hi]. by exists url, query, pools.
    + intros (? & ? & ? & [= <-] & [= <-] & _ & _ & E' & ? & ?). rewrite E in E'. injection E' as <-. done.
  - split; [by intros ?%elem_of_nil|]. intros (? & ? & ? & [= <-] & [= <-] & _ & _ & E' & _). by rewrite E in E'.
Qed.
End GetPools.
End SubgraphPoolDataService.

(** ** [BalancerV2SwapInfoCache] *)
Module BalancerV2.
Definition BALANCER_V2_SUBGRAPH_URL_BY_CHAIN : ChainId → option string :=
  valueByChainId
    [(ChainId.Mainnet, Some "https://api.thegraph.com/subgraphs/name/balancer-labs/balancer-v2"%string);
     (ChainId.Polygon, Some "https://api.thegraph.com/subgraphs/name/balancer-labs/balancer-polygon-v2"%string);
     (ChainId.Arbitrum, Some "https://api.thegraph.com/subgraphs/name/balancer-labs/balancer-arbitrum-v2"%string);
     (ChainId.Fantom, Some "https://api.thegraph.com/subgraphs/name/beethovenxfi/beethovenx"%string);
     (ChainId.Optimism, Some "https://api.thegraph.com/subgraphs/name/beethovenxfi/beethovenx-optimism"%string)]
    None.

(** [SorConfig & { poolsToIgnore }]; a connecting token is a symbol and an
    address, [wETHwstETH] an identifier and an address. *)
Record SorConfig : Type := {
  sor_chainId : ChainId;
  vault : string;
  weth : string;
  wETHwstETH : option (string * string);
  connectingTokens : list (string * string);
  sor_poolsToIgnore : option (list string);
  lbpRaisingTokens : option (list string);
}.

Definition SOR_CONFIG (chain : ChainId) : option SorConfig :=
  match chain with
  | ChainId.Mainnet => Some
      {| sor_chainId := ChainId.Mainnet;
         vault := "0xba12222222228d8ba445958a75a0704d566bf2c8";
         weth := "0xc02aaa39b223fe8d0a0e5c4f27ead9083c756cc2";
         wETHwstETH := Some ("0x32296969ef14eb0c6d29669c550d4a0449130230000200000000000000000080",
                             "0x32296969ef14eb0c6d29669c550d4a0449130230")%string;
         connectingTokens := [("wEth", "0xc02aaa39b223fe8d0a0e5c4f27ead9083c756cc2");
                              ("wstEth", "0x7f39c581f595b53c5cb19bd0b3f8da6c935e2ca0");
                              ("DOLA", "0x865377367054516e17014ccded1e7d814edc9ce4")]%string;
         sor_poolsToIgnore := Some ["0xbd482ffb3e6e50dc1c437557c3bea2b68f3683ee"]%string;
         lbpRaisingTokens := Some ["0x6b175474e89094c44da98b954eedeac495271d0f";
                                   "0xa0b86991c6218b36c1d19d4a2e9eb0ce3606eb48";
                                   "0xc02aaa39b223fe8d0a0e5c4f27ead9083c756cc2"]%string |}
  | ChainId.Polygon => Some
      {| sor_chainId := ChainId.Polygon;
         vault := "0xba12222222228d8ba445958a75a0704d566bf2c8";
         weth := "0x0d500b1d8e8ef31e21c99d1db9a6444d3adf1270";
         wETHwstETH := None;
         connectingTokens := [("weth", "0x0d500b1d8e8ef31e21c99d1db9a6444d3adf1270");
                              ("bbrz2", "0xe22483774bd8611be2ad2f4194078dac9159f4ba")]%string;
         sor_poolsToIgnore := Some ["0x600bd01b6526611079e12e1ff93aba7a3e34226f"]%string;
         lbpRaisingTokens := Some ["0x8f3cf7ad23cd3cadbd9735aff958023239c6a063";
                                   "0x2791bca1f2de4661ed88a30c99a7a9449aa84174";
                                   "0x0d500b1d8e8ef31e21c99d1db9a6444d3adf1270"]%string |}
  | ChainId.Arbitrum => Some
      {| sor_chainId := ChainId.Arbitrum;
         vault := "0xba12222222228d8ba445958a75a0704d566bf2c8";
         weth := "0x82af49447d8a07e3bd95bd0d56f35241523fbab1";
         wETHwstETH := None;
         connectingTokens := [("weth", "0x82af49447d8a07e3bd95bd0d56f35241523fbab1")]%string;
         sor_poolsToIgnore := None;
         lbpRaisingTokens := Some ["0xda10009cbd5d07dd0cecc66161fc93d7c9000da1";
                                   "0xff970a61a04b1ca14834a43f5de4533ebddb5cc8";
                                   "0x82af49447d8a07e3bd95bd0d56f35241523fbab1"]%string |}
  | ChainId.Goerli => Some
      {| sor_chainId := ChainId.Goerli;
         vault := "0x65748e8287ce4b9e6d83ee853431958851550311";
         weth := "0x9a1000d492d40bfccbc03f413a48f5b6516ec0fd";
         wETHwstETH := None;
         connectingTokens := [("weth", "0xdfcea9088c8a88a76ff74892c1457c17dfeef9c1")]%string;
         sor_poolsToIgnore := None;
         lbpRaisingTokens := None |}
  | ChainId.Optimism => Some
      {| sor_chainId := ChainId.Optimism;
         vault := "0xba12222222228d8ba445958a75a0704d566bf2c8";
         weth := "0x4200000000000000000000000000000000000006";
         wETHwstETH := None;
         connectingTokens := [("weth", "0x4200000000000000000000000000000000000006")]%string;
         sor_poolsToIgnore := None;
         lbpRaisingTokens := Some ["0xda10009cbd5d07dd0cecc66161fc93d7c9000da1";
                                   "0x7f5c764cbc14f9669b88837ca1490cca17c31607";
                                   "0x4200000000000000000000000000000000000006"]%string |}
  | ChainId.Fantom => Some
      {| sor_chainId := ChainId.Fantom;
         vault := "0x20dd72ed959b6147912c2e529f0a0c651c33c9ce";
         weth := "0x21be370d5312f44cb42ce377bc9b8a0cef1a4c83";
         wETHwstETH := None;
         connectingTokens := [("weth", "0x21be370d5312f44cb42ce377bc9b8a0cef1a4c83")]%string;
         sor_poolsToIgnore := None;
         lbpRaisingTokens := None |}
  | _ => None
  end.

(** The constructor builds the pool service; a member of [undefined] is a
    type error. *)
Definition new (chainId : ChainId) (subgraphUrl : option string) : result SubgraphPoolDataService.t :=
  match SOR_CONFIG chainId with
  | None => Throw TypeError
  | Some config => Ok (SubgraphPoolDataService.new
      {| SubgraphPoolDataService.chainId := chainId; SubgraphPoolDataService.subgraphUrl := subgraphUrl;
         SubgraphPoolDataService.maxPoolsFetched := None;
         SubgraphPoolDataService.poolsToIgnore := sor_poolsToIgnore config |})
  end.

(** What [SamplerOperations] builds for a chain: nothing without a vault. *)
Definition balancerV2Service (chainId : ChainId) : result (option SubgraphPoolDataService.t) :=
  if String.eqb (PoolTables.Tables.BALANCER_V2_VAULT_ADDRESS_BY_CHAIN chainId) NULL_ADDRESS then Ok None
  else Some <$> new chainId (BALANCER_V2_SUBGRAPH_URL_BY_CHAIN chainId).

(** *** Swaps of a pair *)
Definition _MAX_POOLS_PER_PATH : Z := 4.
Definition _MAX_CANDIDATE_PATHS_PER_PAIR : Z := 1.

Inductive SwapTypes : Type := SwapExactIn | SwapExactOut.

(** A step of the router; the amount is a string. *)
Record SwapV2 : Type := {
  v2_poolId : string;
  v2_assetInIndex : Z;
  v2_assetOutIndex : Z;
  v2_amount : string;
  v2_userData : string;
}.

Section SwapInfos.
Context {B : BigNumberLib} {Swap PoolDictionary SubgraphPool : Type}.
(** The numeral of a string, and the swap with another [swapAmount]. *)
Variable bn_of_string : string → BN.
Variable with_swapAmount : string → Swap → Swap.
(** [@balancer-labs/sor]; a path is its swaps. *)
Variable getTokenAddressesForSwap : list Swap → list string.
Variable formatSequence : SwapTypes → list Swap → list string → list SwapV2.
Variable getCandidatePathsFromDict : string → string → SwapTypes → PoolDictionary → Z → result (list (list Swap)).
Variable parseToPoolsDict : list SubgraphPool → Z → result PoolDictionary.
Variable tokensList : SubgraphPool → list string.

Definition stepOf (s : SwapV2) : BalancerBatchSwapStep :=
  {| step_poolId := v2_poolId s; step_assetInIndex := v2_assetInIndex s; step_assetOutIndex := v2_assetOutIndex s;
     step_amount := bn_of_string (v2_amount s); step_userData := v2_userData s |}.

(** The swaps of a path, whose amounts are overwritten by the query. *)
Definition swapInfoOf (type : SwapTypes) (path : list Swap) : BalancerSwapInfo :=
  let swaps := with_swapAmount "0" <$> path in
  let tokenAddresses := getTokenAddressesForSwap swaps in
  {| assets := tokenAddresses; swapSteps := stepOf <$> formatSequence type swaps tokenAddresses |}.

Definition formatSwaps (paths : list (list Swap)) : BalancerSwaps :=
  {| swapInfoExactIn := swapInfoOf SwapExactIn <$> paths; swapInfoExactOut := swapInfoOf SwapExactOut <$> paths |}.

Definition _getPoolPairSwapInfo (pools : PoolDictionary) (takerToken makerToken : string) : result BalancerSwaps :=
  paths ← getCandidatePathsFromDict takerToken makerToken SwapExactIn pools _MAX_POOLS_PER_PATH;
  Ok (if (length paths =? 0)%nat then EMPTY_BALANCER_SWAPS
      else formatSwaps (slice paths 0 _MAX_CANDIDATE_PATHS_PER_PAIR)).

(** [Math.floor(Date.now() / ONE_SECOND_MS)]. *)
Definition timestampOf (now : Z) : Z := now / 1000.

Definition _fetchSwapInfoForPairAsync (now : Z) (pools : list SubgraphPool) (takerToken makerToken : string) : BalancerSwaps :=
  match (dictionary ← parseToPoolsDict pools (timestampOf now);
         _getPoolPairSwapInfo dictionary takerToken makerToken) with
  | Ok swaps => swaps
  | Throw _ => EMPTY_BALANCER_SWAPS
  end.

(** The state of [_loadTopPoolsAsync]: the cache, the pairs that are done, and
    how often the clock was read. *)
Record Loading : Type := {
  ld_cache : gmap (string * string) (SwapInfoCache.CacheValue (BalancerSwaps := BalancerSwaps));
  ld_fromToSwapInfo : gmap (string * string) BalancerSwaps;
  ld_ticks : nat;
}.

Variable now : nat → Z.
Variable _cacheTimeMs : Z.

(** The clock is read before the pair is tried. *)
Definition loadPair (poolsDict : PoolDictionary) (st : Loading) (pair : string * string) : Loading :=
  let '(from, to) := pair in
  match ld_fromToSwapInfo st !! pair with
  | Some _ => st
  | None =>
      let expiresAt := now (ld_ticks st) + _cacheTimeMs in
      match _getPoolPairSwapInfo poolsDict from to with
      | Ok pairSwapInfo =>
          {| ld_cache := SwapInfoCache._cacheSwapInfoForPair (ld_cache st) from to pairSwapInfo expiresAt;
             ld_fromToSwapInfo := <[pair := pairSwapInfo]> (ld_fromToSwapInfo st);
             ld_ticks := S (ld_ticks st) |}
      | Throw _ =>
          {| ld_cache := ld_cache st; ld_fromToSwapInfo := ld_fromToSwapInfo st; ld_ticks := S (ld_ticks st) |}
      end
  end.

(** The loop yields before every pool: [others] is what the other tasks then do
    to the cache. *)
Variable others : SubgraphPool → SwapInfoCache.t (BalancerSwaps := BalancerSwaps) → SwapInfoCache.t (BalancerSwaps := BalancerSwaps).

Definition loadPool (poolsDict : PoolDictionary) (st : Loading) (pool : SubgraphPool) : Loading :=
  fold_left (loadPair poolsDict) (pairsOf (tokensList pool))
    {| ld_cache := others pool (ld_cache st); ld_fromToSwapInfo := ld_fromToSwapInfo st; ld_ticks := ld_ticks st |}.

(** The clock is read once for the time stamp of the dictionary. *)
Definition _loadTopPoolsAsync (pools : list SubgraphPool) (cache : SwapInfoCache.t) : result SwapInfoCache.t :=
  poolsDict ← parseToPoolsDict pools (timestampOf (now 0));
  Ok (ld_cache (fold_left (loadPool poolsDict) pools
        {| ld_cache := cache; ld_fromToSwapInfo := ∅; ld_ticks := 1 |})).

(** At most one path is taken per pair, and the two directions of a path have
    the same assets. *)
Lemma swap_info_shape dictionary taker maker swaps :
  _getPoolPairSwapInfo dictionary taker maker = Ok swaps →
  (length (swapInfoExactIn swaps) ≤ 1)%nat ∧
  assets <$> swapInfoExactIn swaps = assets <$> swapInfoExactOut swaps.
Proof.
  unfold _getPoolPairSwapInfo. intros (paths & _ & E)%result_bind_ok. injection E as <-.
  case_match; [by split; [simpl; lia|]|]. unfold formatSwaps. cbn [swapInfoExactIn swapInfoExactOut]. split.
  - rewrite length_fmap. pose proof (slice_nonneg paths 0 1) as Hs. change (Z.of_nat 0) with 0 in Hs.
    change (Z.of_nat (0 + 1)) with _MAX_CANDIDATE_PATHS_PER_PAIR in Hs. rewrite Hs, length_take. lia.
  - by rewrite <- !list_fmap_compose.
Qed.
(** An entry that is usable: one path at most, the same in both directions. *)
Definition shaped (cache : gmap (string * string) (SwapInfoCache.CacheValue (BalancerSwaps := BalancerSwaps))) : Prop :=
  map_Forall (λ _ v, (length (swapInfoExactIn (SwapInfoCache.balancerSwaps v)) ≤ 1)%nat ∧
    assets <$> swapInfoExactIn (SwapInfoCache.balancerSwaps v) =
    assets <$> swapInfoExactOut (SwapInfoCache.balancerSwaps v)) cache.

Lemma loadPair_shaped poolsDict st pair : shaped (ld_cache st) → shaped (ld_cache (loadPair poolsDict st pair)).
Proof.
  intros Hs. unfold loadPair. destruct pair as [from to]. destruct (ld_fromToSwapInfo st !! _); [done|].
  destruct (_getPoolPairSwapInfo poolsDict from to) as [swaps|e] eqn:E; [|done].
  unfold shaped, SwapInfoCache._cacheSwapInfoForPair, SwapInfoCache.t. cbn [ld_cache].
  apply map_Forall_insert_2; [|done]. by apply swap_info_shape in E.
Qed.

(** The loading keeps the entries usable while the other tasks do. *)
Lemma loading_shaped pools cache cache' :
  (∀ pool c, shaped c → shaped (others pool c)) →
  shaped cache → _loadTopPoolsAsync pools cache = Ok cache' → shaped cache'.
Proof.
  intros Ho Hc. unfold _loadTopPoolsAsync. intros (dict & _ & E)%result_bind_ok. injection E as <-.
  set (st := {| ld_cache := cache; ld_fromToSwapInfo := ∅; ld_ticks := 1 |}).
  assert (shaped (ld_cache st)) as Hst by done. clearbody st. revert st Hst.
  induction pools as [|pool l IH]; intros st Hst; [done|]. cbn [fold_left]. apply IH. unfold loadPool.
  set (st1 := {| ld_cache := others pool (ld_cache st); ld_fromToSwapInfo := _; ld_ticks := _ |}).
  assert (shaped (ld_cache st1)) as H1 by (by apply Ho). clearbody st1. revert st1 H1.
  induction (pairsOf (tokensList pool)) as [|p ps IHp]; intros st1 H1; [done|]. cbn [fold_left].
  by apply IHp, loadPair_shaped.
Qed.

(** *** What the loading leaves in the cache, undisturbed *)

(** What is done agrees with the cache, which is otherwise as before; only the
    pairs of [listed] are done. *)
Definition loaded (dict : PoolDictionary) (cache0 : gmap (string * string) SwapInfoCache.CacheValue)
    (listed : (string * string) → Prop) (st : Loading) : Prop :=
  ∀ pair, match ld_fromToSwapInfo st !! pair with
          | Some info => listed pair ∧ _getPoolPairSwapInfo dict pair.1 pair.2 = Ok info ∧ ∃ i, ld_cache st !! pair =
              Some {| SwapInfoCache.expiresAt := now i + _cacheTimeMs; SwapInfoCache.balancerSwaps := info |}
          | None => ld_cache st !! pair = cache0 !! pair
          end.

Lemma loadPair_loaded dict cache0 (listed : (string * string) → Prop) st p :
  listed p → loaded dict cache0 listed st → loaded dict cache0 listed (loadPair dict st p).
Proof.
  intros Hp Hl. unfold loadPair. destruct p as [from to].
  destruct (ld_fromToSwapInfo st !! (from, to)) eqn:En; [done|].
  destruct (_getPoolPairSwapInfo dict from to) as [info|e] eqn:Ei; [|done].
  intros pair. unfold SwapInfoCache._cacheSwapInfoForPair, SwapInfoCache.t. cbn [ld_cache ld_fromToSwapInfo].
  destruct (decide (pair = (from, to))) as [->|Hne].
  - rewrite !lookup_insert_eq. split_and!; [done..|]. by eexists.
  - rewrite !lookup_insert_ne by done. apply Hl.
Qed.

(** Done pairs stay done, and a pair that is tried is done unless it fails. *)
Lemma loadPair_done dict st p pair :
  is_Some (ld_fromToSwapInfo st !! pair) ∨
    (pair = p ∧ is_ok (_getPoolPairSwapInfo dict pair.1 pair.2) = true) →
  is_Some (ld_fromToSwapInfo (loadPair dict st p) !! pair).
Proof.
  unfold loadPair. destruct p as [from to]. destruct (ld_fromToSwapInfo st !! (from, to)) eqn:En.
  - intros [?|[-> _]]; [done|]. by rewrite En.
  - destruct (_getPoolPairSwapInfo dict from to) as [info|e] eqn:Ei; cbn [ld_fromToSwapInfo]; intros H.
    + destruct (decide (pair = (from, to))) as [->|Hne]; [rewrite lookup_insert_eq; by eexists|].
      rewrite lookup_insert_ne by done. by destruct H as [?|[? _]].
    + destruct H as [?|[-> E]]; [done|]. cbn [fst snd] in E. by rewrite Ei in E.
Qed.

Lemma loadPairs_step dict cache0 (listed : (string * string) → Prop) pairs st :
  (∀ p, p ∈ pairs → listed p) → loaded dict cache0 listed st →
  loaded dict cache0 listed (fold_left (loadPair dict) pairs st) ∧
  ∀ pair, is_Some (ld_fromToSwapInfo st !! pair) ∨
      (pair ∈ pairs ∧ is_ok (_getPoolPairSwapInfo dict pair.1 pair.2) = true) →
    is_Some (ld_fromToSwapInfo (fold_left (loadPair dict) pairs st) !! pair).
Proof.
  revert st. induction pairs as [|p l IH]; intros st Hp Hl; cbn [fold_left].
  - split; [done|]. intros pair [?|[?%elem_of_nil _]]; done.
  - destruct (IH (loadPair dict st p)) as [IH1 IH2].
    + intros q Hq. apply Hp. by right.
    + apply loadPair_loaded; [apply Hp; by left | done].
    + split; [done|]. intros pair H. apply IH2. destruct H as [H|[[->|H]%elem_of_cons E]].
      * left. apply loadPair_done. by left.
      * left. apply loadPair_done. by right.
      * by right.
Qed.

Lemma loadPools_step dict cache0 (listed : (string * string) → Prop) pools st :
  (∀ pool c, others pool c = c) →
  (∀ pool p, pool ∈ pools → p ∈ pairsOf (tokensList pool) → listed p) → loaded dict cache0 listed st →
  loaded dict cache0 listed (fold_left (loadPool dict) pools st) ∧
  ∀ pair, is_Some (ld_fromToSwapInfo st !! pair) ∨
      ((∃ pool, pool ∈ pools ∧ pair ∈ pairsOf (tokensList pool)) ∧
       is_ok (_getPoolPairSwapInfo dict pair.1 pair.2) = true) →
    is_Some (ld_fromToSwapInfo (fold_left (loadPool dict) pools st) !! pair).
Proof.
  intros Ho. revert st. induction pools as [|pool l IH]; intros st Hp Hl; cbn [fold_left].
  - split; [done|]. intros pair [?|[(? & ?%elem_of_nil & _) _]]; done.
  - destruct (loadPairs_step dict cache0 listed (pairsOf (tokensList pool))
      {| ld_cache := others pool (ld_cache st); ld_fromToSwapInfo := ld_fromToSwapInfo st; ld_ticks := ld_ticks st |})
      as [H1 H2].
    + intros p Hin. apply (Hp pool); [by left | done].
    + rewrite Ho. exact Hl.
    + destruct (IH (loadPool dict st pool)) as [IH1 IH2]; [|exact H1|].
      * intros q p Hq. apply Hp. by right.
      * split; [done|]. intros pair H. apply IH2.
        destruct H as [H|[(q & [->|Hq]%elem_of_cons & Hin) E]]; [left; apply H2; by left | left; apply H2; by right|].
        right. split; [by exists q | done].
Qed.

(** When nothing interferes, a pair that some pool lists has the swaps that its
    paths give, with a fresh expiry; a pair that fails, or that no pool lists,
    is as before. *)
Lemma swap_infos_loaded pools cache dict pair :
  (∀ pool c, others pool c = c) →
  parseToPoolsDict pools (timestampOf (now 0)) = Ok dict →
  ∃ cache', _loadTopPoolsAsync pools cache = Ok cache' ∧
    let listed := ∃ pool, pool ∈ pools ∧ pair ∈ pairsOf (tokensList pool) in
    (∀ info, listed → _getPoolPairSwapInfo dict pair.1 pair.2 = Ok info → ∃ i, cache' !! pair =
       Some {| SwapInfoCache.expiresAt := now i + _cacheTimeMs; SwapInfoCache.balancerSwaps := info |}) ∧
    (¬ listed ∨ is_ok (_getPoolPairSwapInfo dict pair.1 pair.2) = false → cache' !! pair = cache !! pair).
Proof.
  intros Ho E. eexists. split; [unfold _loadTopPoolsAsync; by rewrite E|]. intros listed.
  set (st := {| ld_cache := cache; ld_fromToSwapInfo := ∅; ld_ticks := 1 |}).
  destruct (loadPools_step dict cache (λ p, ∃ pool, pool ∈ pools ∧ p ∈ pairsOf (tokensList pool)) pools st) as [H1 H2];
    [done | by intros q p Hq Hp; exists q | done |].
  specialize (H1 pair). specialize (H2 pair). split.
  - intros info Hlist Ei. destruct H2 as [i Hi]; [right; split; [done | by rewrite Ei]|].
    rewrite Hi in H1. destruct H1 as (_ & Ei' & Hc). rewrite Ei in Ei'. by injection Ei' as <-.
  - intros H. destruct (ld_fromToSwapInfo _ !! pair) as [info|]; [|exact H1].
    destruct H1 as (Hl & Ei & _). destruct H as [H|H]; [done|]. by rewrite Ei in H.
Qed.
End SwapInfos.

(** Every chain with a vault has a service that asks a subgraph; the router's
    vault is the one that the samplers and the settlement use, and its wrapped
    token one of its connecting tokens and of the intermediate tokens. *)
Lemma vaults_configured (etherToken : ChainId → string) chainId :
  PoolTables.Tables.BALANCER_V2_VAULT_ADDRESS_BY_CHAIN chainId ≠ NULL_ADDRESS →
  ∃ service config url, balancerV2Service chainId = Ok (Some service) ∧
    SOR_CONFIG chainId = Some config ∧ sor_chainId config = chainId ∧
    vault config = PoolTables.Tables.BALANCER_V2_VAULT_ADDRESS_BY_CHAIN chainId ∧
    weth config ∈ PoolTables.Tables.DEFAULT_INTERMEDIATE_TOKENS_BY_CHAIN_ID etherToken chainId ∧
    weth config ∈ (snd <$> connectingTokens config) ∧
    SubgraphPoolDataService.subgraphUrl (SubgraphPoolDataService._config service) = Some url ∧
    is_Some (SubgraphPoolDataService._gqlQuery service).
Proof.
  intros Hv. unfold balancerV2Service. rewrite (proj2 (String.eqb_neq _ _) Hv).
  destruct chainId; try (by destruct Hv); do 3 eexists;
    (split_and!; [reflexivity | reflexivity | reflexivity | reflexivity | | | reflexivity | by eexists]);
    by apply (bool_decide_eq_true_1 _).
Qed.
End BalancerV2.

(** ** The caches of a chain ([sampler_operations.ts], the constructor) *)
Module ChainCaches.
Definition AAVE_V2_SUBGRAPH_URL_BY_CHAIN_ID : ChainId → option string :=
  valueByChainId
    [(ChainId.Mainnet, Some "https://api.thegraph.com/subgraphs/name/aave/protocol-v2"%string);
     (ChainId.Polygon, Some "https://api.thegraph.com/subgraphs/name/aave/aave-v2-matic"%string);
     (ChainId.Avalanche, Some "https://api.thegraph.com/subgraphs/name/aave/protocol-v2-avalanche"%string)]
    None.
Definition AAVE_V3_SUBGRAPH_URL_BY_CHAIN_ID : ChainId → option string :=
  valueByChainId
    [(ChainId.Polygon, Some "https://api.thegraph.com/subgraphs/name/aave/protocol-v3-polygon"%string);
     (ChainId.Avalanche, Some "https://api.thegraph.com/subgraphs/name/aave/protocol-v3-avalanche"%string);
     (ChainId.Arbitrum, Some "https://api.thegraph.com/subgraphs/name/aave/protocol-v3-arbitrum"%string);
     (ChainId.Optimism, Some "https://api.thegraph.com/subgraphs/name/aave/protocol-v3-optimism"%string)]
    None.
Definition COMPOUND_API_URL_BY_CHAIN_ID : ChainId → option string :=
  valueByChainId [(ChainId.Mainnet, Some "https://api.compound.finance/api/v2"%string)] None.

Section New.
Context {B : BigNumberLib}.

(** The Bancor service is there once its promise is fulfilled. *)
Definition new (chainId : ChainId) (graph : TokenAdjacencyGraph) : result SamplerOperations.t :=
  balancerV2 ← BalancerV2.balancerV2Service chainId;
  Ok {| SamplerOperations.chainId := chainId;
        balancerCache := BalancerPoolsCache.create chainId;
        balancerV2Cache := (λ _, ∅) <$> balancerV2;
        tokenAdjacencyGraph := graph;
        aaveV2ReservesCache := (λ _, ∅) <$> AAVE_V2_SUBGRAPH_URL_BY_CHAIN_ID chainId;
        aaveV3ReservesCache := (λ _, ∅) <$> AAVE_V3_SUBGRAPH_URL_BY_CHAIN_ID chainId;
        compoundCTokenCache := (λ _, ∅) <$> COMPOUND_API_URL_BY_CHAIN_ID chainId;
        _bancorService := None |}.

(** The operations of every chain can be built, with a cache for each protocol
    that its enabled sources need. *)
Lemma operations_built chainId graph :
  ∃ this, new chainId graph = Ok this ∧ SamplerOperations.chainId this = chainId ∧
    tokenAdjacencyGraph this = graph ∧
    (is_Some (balancerV2Cache this) ↔
     PoolTables.Tables.BALANCER_V2_VAULT_ADDRESS_BY_CHAIN chainId ≠ NULL_ADDRESS) ∧
    ∀ side, let enabled := SourceFilters.isAllowed (sourceFilterOf side chainId) in
      (enabled ERC20BridgeSource.BalancerV2 || enabled ERC20BridgeSource.Beethovenx = true → is_Some (balancerV2Cache this)) ∧
      (enabled ERC20BridgeSource.AaveV2 = true → is_Some (aaveV2ReservesCache this)) ∧
      (enabled ERC20BridgeSource.AaveV3 = true → is_Some (aaveV3ReservesCache this)) ∧
      (enabled ERC20BridgeSource.Compound = true → is_Some (compoundCTokenCache this)).
Proof.
  destruct chainId; eexists; (split; [reflexivity|]);
    (split_and!; [reflexivity | reflexivity | | intros []; split_and!; intros H; first [vm_compute in H; discriminate H | by eexists]]);
    (split; [intros [? H]; first [discriminate H | vm_compute; discriminate]
            | intros H; first [by destruct H | by eexists]]).
Qed.
End New.
End ChainCaches.

(** ** An instance *)
Module BalancerExamples.
(** A pool is its name, in the response with its tokens. *)
Definition ex_tokens (p : string * list string) : list string := p.2.
Definition ex_parse (pools : list (string * list string)) (from to : string) : result (list string) := Ok (fst <$> pools).
Definition ex_clock (tick : nat) : Z := 1000 + Z.of_nat tick.
Definition ex_response : result (list (string * list string)) :=
  Ok [("p1", ["0xa"; "0xb"]); ("p2", ["0xb"; "0xc"; "0xa"])]%string.
End BalancerExamples.
Import BalancerExamples.

(** Both pools serve the pair of their common tokens. *)
Lemma top_pools_loaded_witness :
  BalancerPoolsCache.poolsOf ex_tokens ex_parse (BalancerPoolsCache._fetchTopPoolsAsync ex_response) ("0xa", "0xb")%string
    = ["p1"; "p2"]%string ∧
  ∃ i, PoolsCache._getValue
    (BalancerPoolsCache._loadTopPoolsAsync ex_tokens ex_parse ex_clock 60000 ex_response ∅) "0xa" "0xb" =
    Some {| PoolsCache.expiresAt := ex_clock i + 60000; PoolsCache.pools := ["p1"; "p2"]%string |}.
Proof.
  split; [vm_compute; reflexivity|].
  apply (BalancerPoolsCache.top_pools_loaded ex_tokens ex_parse ex_clock 60000 ex_response ∅ ("0xa", "0xb")%string);
    [| by split | vm_compute; discriminate].
  intros pool t Hp Ht. repeat (apply elem_of_cons in Hp as [->|Hp];
    [cbn in Ht; repeat (apply elem_of_cons in Ht as [->|Ht]; [done|]); by apply elem_of_nil in Ht|]). by apply elem_of_nil in Hp.
Defined.
