(* ===== verification/SlippageModel.v ===== *)
(** * Slippage model ([utils/slippage_model_manager.ts],
    [utils/slippage_model_fill_adjustor.ts], [utils/s3_client.ts])

    The cache of slippage models loaded from a file, the slippage it predicts
    for the sources of a quote, and the adjustor that applies it to fills. *)

From S2P Require Import Prelude JsNumber BigNum Types Fills JsLib PairUtils.

(** ** The model cache *)

Record SlippageModel : Type := {
  token0 : string;
  token1 : string;
  source : string;
  slippageCoefficient : number;
  volumeCoefficient : number;
  intercept : number;
  token0PriceInUsd : number;
}.

Definition SlippageModelCacheForPair : Type := gmap string SlippageModel.
Definition SlippageModelCache : Type := gmap string SlippageModelCacheForPair.

Definition lowered (m : SlippageModel) : SlippageModel :=
  {| token0 := toLowerCase (token0 m); token1 := toLowerCase (token1 m); source := source m;
     slippageCoefficient := slippageCoefficient m; volumeCoefficient := volumeCoefficient m;
     intercept := intercept m; token0PriceInUsd := token0PriceInUsd m |}.

Definition pairKey (m : SlippageModel) : string := toKey (token0 m) (token1 m).

(** [pairKey.startsWith(token0.toLowerCase())]: the tokens are listed in order. *)
Definition validModel (m : SlippageModel) : bool :=
  String.prefix (toLowerCase (token0 m)) (pairKey m).

(** One iteration of [forEach]: an invalid model is logged and skipped. *)
Definition addModel (cache : SlippageModelCache) (m : SlippageModel) : SlippageModelCache :=
  if validModel m then
    <[pairKey m := <[source m := lowered m]> (default ∅ (cache !! pairKey m))]> cache
  else cache.

Definition createSlippageModelCache (slippageModelList : list SlippageModel)
    : SlippageModelCache :=
  fold_left addModel slippageModelList ∅.

(** ** [S3Client] over the responses of the service *)

(** [Date]s are milliseconds since the epoch. *)
Inductive HeadObjectResponse : Type :=
| HeadObject (LastModified : option Z)
| HeadObjectError (code : string).

Record GetObjectResponse : Type := {
  Body : option string;
  LastModified : option Z;
}.

(** [{exists, lastModified}]: [None] when the file does not exist. *)
Definition hasFileAsync (response : HeadObjectResponse) : result (option Z) :=
  match response with
  | HeadObject (Some lastModified) => Ok (Some lastModified)
  | HeadObject None => Throw (Error "Failed to get metadata of S3 object")
  | HeadObjectError code =>
      if String.eqb code "NotFound" then Ok None else Throw (Error code)
  end.

(** A request that fails throws: [None]. *)
Definition getFileContentAsync (response : option GetObjectResponse) : result (string * Z) :=
  match response with
  | Some {| Body := Some body; LastModified := Some lastModified |} => Ok (body, lastModified)
  | Some _ => Throw (Error "Failed to get content of S3 object")
  | None => Throw (Error "request failed")
  end.

(** ** [SlippageModelManager] *)
Module Manager.
Record t : Type := {
  _lastRefreshed : Z;
  _cachedSlippageModel : SlippageModelCache;
}.

Definition _resetCache : t := {| _lastRefreshed := 0; _cachedSlippageModel := ∅ |}.

(** [SLIPPAGE_MODEL_S3_FILE_VALID_INTERVAL_MS]: two hours. *)
Definition FILE_VALID_INTERVAL_MS : Z := 2 * 60 * 60 * 1000.

Inductive Decision : Type := Reset | Keep | Load.

(** The first half of [_refreshAsync], up to the second [await]: what to do
    with the metadata of the file at [refreshTime]. *)
Definition decide_refresh (st : t) (refreshTime : Z) (response : HeadObjectResponse) : Decision :=
  match hasFileAsync response with
  | Throw _ => Keep
  | Ok None => Reset
  | Ok (Some lastModified) =>
      if (lastModified <? refreshTime - FILE_VALID_INTERVAL_MS)%Z then Reset
      else if (lastModified <=? _lastRefreshed st)%Z then Keep
      else Load
  end.

Section Refresh.
(** [JSON.parse] followed by the schema validation. *)
Variable parseModels : string → result (list SlippageModel).

(** The second half, resumed with the content of the file; a failure keeps the
    cache. *)
Definition load (st : t) (response : option GetObjectResponse) : t :=
  match (file ← getFileContentAsync response;
         models ← parseModels file.1;
         mret (models, file.2)) with
  | Ok (models, lastRefreshed) =>
      {| _cachedSlippageModel := createSlippageModelCache models;
         _lastRefreshed := lastRefreshed |}
  | Throw _ => st
  end.

(** A refresh that nothing overtakes. *)
Definition _refreshAsync (bucket : option string) (st : t) (refreshTime : Z)
    (head : HeadObjectResponse) (object : option GetObjectResponse) : t :=
  match bucket with
  | None => st
  | Some _ =>
      match decide_refresh st refreshTime head with
      | Reset => _resetCache
      | Keep => st
      | Load => load st object
      end
  end.

(** The versions the bucket has held: the content modified at a time. *)
Variable versions : Z → option string.
Definition genuine (object : option GetObjectResponse) : Prop :=
  ∀ content lastModified,
    getFileContentAsync object = Ok (content, lastModified) → versions lastModified = Some content.

(** The manager with its refreshes in flight: a timer starts them, and each
    suspends while the content is fetched, so they may overtake one another. *)
Record system : Type := { manager : t; loading : nat }.

Inductive step : system → system → Prop :=
| step_reset s now head :
    decide_refresh (manager s) now head = Reset →
    step s {| manager := _resetCache; loading := loading s |}
| step_keep s now head :
    decide_refresh (manager s) now head = Keep → step s s
| step_load s now head :
    decide_refresh (manager s) now head = Load →
    step s {| manager := manager s; loading := S (loading s) |}
| step_content m n object :
    genuine object →
    step {| manager := m; loading := S n |} {| manager := load m object; loading := n |}.

Definition reachable (s : system) : Prop :=
  rtc step {| manager := _resetCache; loading := 0 |} s.

(** The cache of a manager: empty, or the models of the version it was loaded
    from. *)
Definition coherent (m : t) : Prop :=
  m = _resetCache ∨
  ∃ content models, versions (_lastRefreshed m) = Some content ∧
    parseModels content = Ok models ∧ _cachedSlippageModel m = createSlippageModelCache models.

Lemma load_coherent m object : coherent m → genuine object → coherent (load m object).
Proof.
  intros Hm Hg. unfold load. destruct (getFileContentAsync object) as [[content ts]|] eqn:Eo; [|done].
  cbn [mbind result_bind fst snd]. destruct (parseModels content) as [models|] eqn:Ep; [|done].
  right. exists content, models. simpl. split; [by apply Hg | done].
Qed.

Lemma reachable_coherent s : reachable s → coherent (manager s).
Proof.
  intros H. unfold reachable in H. remember {| manager := _resetCache; loading := 0 |} as s0.
  assert (coherent (manager s0)) as H0 by (subst s0; by left). clear Heqs0.
  induction H as [|x y z Hstep _ IH]; [done|]. apply IH.
  destruct Hstep; simpl in *; [by left | done | done | by apply load_coherent].
Qed.

(** C35. However its refreshes overtook one another, the manager converges: a
    refresh that sees the current version of the file, in date and not older
    than what was loaded, leaves exactly its models cached; one that sees the
    file missing or out of date empties the cache, and one that cannot reach
    the file, or reads an unparsable content, keeps the models it had, which
    are those of some version. *)
Theorem refresh_converges s bucket now head object :
  reachable s → genuine object →
  let m' := _refreshAsync (Some bucket) (manager s) now head object in
  coherent m' ∧
  (hasFileAsync head = Ok None → m' = _resetCache) ∧
  (∀ e, hasFileAsync head = Throw e → m' = manager s) ∧
  (∀ ts, hasFileAsync head = Ok (Some ts) → (ts < now - FILE_VALID_INTERVAL_MS)%Z → m' = _resetCache) ∧
  (∀ ts content models, hasFileAsync head = Ok (Some ts) → (now - FILE_VALID_INTERVAL_MS <= ts)%Z →
     (0 < ts)%Z → (_lastRefreshed (manager s) <= ts)%Z → versions ts = Some content →
     parseModels content = Ok models → getFileContentAsync object = Ok (content, ts) →
     _lastRefreshed m' = ts ∧ _cachedSlippageModel m' = createSlippageModelCache models).
Proof.
  intros Hs%reachable_coherent Hg m'. unfold m', _refreshAsync, decide_refresh. split_and!.
  - destruct (hasFileAsync head) as [[ts|]|]; [|by left | done].
    destruct (ts <? _)%Z; [by left|]. destruct (ts <=? _)%Z; [done | by apply load_coherent].
  - by intros ->.
  - by intros e ->.
  - intros ts -> Hlt. by rewrite (proj2 (Z.ltb_lt _ _) Hlt).
  - intros ts content models -> Hle Hpos Hlast Hv Hp Ho. rewrite (proj2 (Z.ltb_ge _ _) Hle).
    destruct (Z.leb_spec ts (_lastRefreshed (manager s))) as [Hts|Hts].
    + assert (_lastRefreshed (manager s) = ts) as E by lia. split; [done|].
      destruct Hs as [Hr|(c & ms & Hc & Hms & Hcache)]; [rewrite Hr in E; simpl in E; lia|].
      rewrite E in Hc. congruence.
    + unfold load. rewrite Ho. cbn [mbind result_bind fst snd]. by rewrite Hp.
Qed.
End Refresh.
End Manager.

(** ** Predictions *)

Section Prediction.
Context {B : BigNumberLib}.
(** [isNativeSymbolOrAddress(token, CHAIN_ID)] of [@0x/token-metadata] and the
    wrapped native token of the chain. *)
Variable isNativeSymbolOrAddress : string → bool.
Variable NATIVE_FEE_TOKEN : string.

Definition ONE_IN_BASE_POINTS : number := n_Z 10000.

(** [GetSwapQuoteResponseLiquiditySource]. *)
Record LiquiditySource : Type := { ls_name : string; ls_proportion : BN }.

Definition normalizeTokenAddress (token : string) : string :=
  if isNativeSymbolOrAddress token then toLowerCase NATIVE_FEE_TOKEN else toLowerCase token.

(** The declared result may be [null]; it never is. *)
Definition calculateExpectedSlippageForModel (token0Amount maxSlippageRate : BN)
    (slippageModel : SlippageModel) : option BN :=
  let volumeUsd := times token0Amount (of_number (token0PriceInUsd slippageModel)) in
  let volumeTerm := times volumeUsd (of_number (volumeCoefficient slippageModel)) in
  let slippageTerm :=
    times (times maxSlippageRate (of_number ONE_IN_BASE_POINTS))
      (of_number (slippageCoefficient slippageModel)) in
  let expectedSlippage :=
    bn_sum [slippageTerm; volumeTerm; of_number (intercept slippageModel)] in
  let expectedSlippageCap := times maxSlippageRate (of_number (n_Z (-1))) in
  Some (min2 (of_Z 0) (max2 expectedSlippage expectedSlippageCap)).

Definition isNativeSource (name : string) : bool :=
  String.eqb name "0x" ||
  String.eqb name (ERC20BridgeSource.to_string ERC20BridgeSource.Native).

Definition lookupModel (cache : SlippageModelCache) (buyToken sellToken name : string)
    : option SlippageModel :=
  cache !! toKey buyToken sellToken ≫= λ forPair, forPair !! name.

Definition _calculateSingleSourceExpectedSlippage (st : Manager.t) (buyToken sellToken : string)
    (buyAmount sellAmount : BN) (source : LiquiditySource) (maxSlippageRate : number)
    : option BN :=
  if isNativeSource (ls_name source) then Some (of_Z 0)
  else
    match lookupModel (Manager._cachedSlippageModel st) buyToken sellToken (ls_name source) with
    | None => None
    | Some slippageModel =>
        let token0Amount :=
          times (ls_proportion source)
            (if String.eqb (token0 slippageModel) (toLowerCase buyToken)
             then buyAmount else sellAmount) in
        match calculateExpectedSlippageForModel token0Amount (of_number maxSlippageRate)
                slippageModel with
        | None => None
        | Some expectedSlippageOfSource =>
            Some (times (ls_proportion source) expectedSlippageOfSource)
        end
    end.

(** The loop over the sources, from [expectedSlippage]. *)
Fixpoint expectedSlippageLoop (predict : LiquiditySource → option BN)
    (sources : list LiquiditySource) (expectedSlippage : BN) : option BN :=
  match sources with
  | [] => Some expectedSlippage
  | source :: sources' =>
      if isEqualTo (ls_proportion source) (of_Z 0)
      then expectedSlippageLoop predict sources' expectedSlippage
      else match predict source with
           | None => None
           | Some singleSourceSlippage =>
               expectedSlippageLoop predict sources' (plus expectedSlippage singleSourceSlippage)
           end
  end.

Definition calculateExpectedSlippage (st : Manager.t) (buyToken sellToken : string)
    (buyAmount sellAmount : BN) (sources : list LiquiditySource) (maxSlippageRate : number)
    : option BN :=
  let normalizedBuyToken := normalizeTokenAddress buyToken in
  let normalizedSellToken := normalizeTokenAddress sellToken in
  expectedSlippageLoop
    (λ source, _calculateSingleSourceExpectedSlippage st normalizedBuyToken normalizedSellToken
                 buyAmount sellAmount source maxSlippageRate)
    sources (of_Z 0).
End Prediction.

(** ** Fill adjustors ([FillAdjustor] of [asset-swapper/types.ts]) *)

Section Adjustors.
Context {B : BigNumberLib}.

Class FillAdjustor (A : Type) := adjustFills : A → MarketOperation → list Fill → list Fill.

Inductive IdentityFillAdjustor : Type := NewIdentityFillAdjustor.
#[global] Instance IdentityFillAdjustor_adjust : FillAdjustor IdentityFillAdjustor :=
  λ _ _ fills, fills.

Record SlippageModelFillAdjustor : Type := {
  isNativeToken : string → bool;
  nativeFeeToken : string;
  slippageModelManager : Manager.t;
  sellToken : string;
  buyToken : string;
  maxSlippageRate : number;
}.

Definition with_adjustedOutput (f : Fill) (adjustedOutput : BN) : Fill :=
  {| fill_source := fill_source f; fill_type := fill_type f; fill_fillData := fill_fillData f;
     fill_sourcePathId := fill_sourcePathId f; fill_flags := fill_flags f;
     fill_input := fill_input f; fill_output := fill_output f;
     fill_adjustedOutput := adjustedOutput; fill_gas := fill_gas f |}.

(** The adjusted output of a fill whose expected slippage is known. *)
Definition slippedAdjustedOutput (side : MarketOperation) (f : Fill) (expectedSlippage : BN) : BN :=
  let previousPenalty := absoluteValue (minus (fill_output f) (fill_adjustedOutput f)) in
  let slippageAdjustedOutput :=
    integerValue ROUND_UP (times (fill_output f) (plus (of_Z 1) expectedSlippage)) in
  let slippagePenalty := absoluteValue (minus (fill_output f) slippageAdjustedOutput) in
  integerValue ROUND_HALF_UP
    (adjustOutput side (fill_output f) (plus previousPenalty slippagePenalty)).

Definition expectedSlippageOfFill (a : SlippageModelFillAdjustor) (side : MarketOperation)
    (f : Fill) : option BN :=
  calculateExpectedSlippage (isNativeToken a) (nativeFeeToken a) (slippageModelManager a)
    (buyToken a) (sellToken a)
    (match side with Sell => fill_output f | Buy => fill_input f end)
    (match side with Sell => fill_input f | Buy => fill_output f end)
    [{| ls_name := ERC20BridgeSource.to_string (fill_source f); ls_proportion := of_Z 1 |}]
    (maxSlippageRate a).

#[global] Instance SlippageModelFillAdjustor_adjust : FillAdjustor SlippageModelFillAdjustor :=
  λ a side fills,
    (λ f, match expectedSlippageOfFill a side f with
          | None => f
          | Some expectedSlippage =>
              with_adjustedOutput f (slippedAdjustedOutput side f expectedSlippage)
          end) <$> fills.

(** The contract of an adjustor: it may only move the adjusted outputs. *)
Definition same_fill (f f' : Fill) : Prop :=
  f' = with_adjustedOutput f (fill_adjustedOutput f').

Class FillAdjustorLaws (A : Type) `{FillAdjustor A} := {
  adjustFills_same (a : A) side fills : Forall2 same_fill fills (adjustFills a side fills);
}.

#[global] Instance IdentityFillAdjustor_laws : FillAdjustorLaws IdentityFillAdjustor.
Proof.
  split. intros a side fills. change (adjustFills a side fills) with fills.
  induction fills as [|[] fills IH]; by constructor.
Qed.

#[global] Instance SlippageModelFillAdjustor_laws : FillAdjustorLaws SlippageModelFillAdjustor.
Proof.
  split. intros a side fills. unfold adjustFills, SlippageModelFillAdjustor_adjust.
  induction fills as [|f fills IH]; constructor; [|done].
  destruct (expectedSlippageOfFill a side f); [done | by destruct f].
Qed.
End Adjustors.

(** ** Cached models *)

Section CacheFacts.

Lemma lookupModel_add cache m a b name :
  lookupModel (addModel cache m) a b name =
  if validModel m && bool_decide (pairKey m = toKey a b) && bool_decide (source m = name)
  then Some (lowered m) else lookupModel cache a b name.
Proof.
  unfold addModel, lookupModel, SlippageModelCache, SlippageModelCacheForPair in *.
  destruct (validModel m); cbn [andb]; [|done].
  case_bool_decide as Ek; cbn [andb].
  - rewrite Ek, lookup_insert, decide_True by done. cbn [mbind option_bind]. case_bool_decide as En.
    + by rewrite En, lookup_insert, decide_True.
    + rewrite lookup_insert_ne by done. destruct (cache !! toKey a b); [done|].
      apply lookup_empty.
  - by rewrite lookup_insert_ne.
Qed.

(** The models of a list that the cache may hold for a pair and a source. *)
Definition models_of (l : list SlippageModel) (a b name : string) : list SlippageModel :=
  bfilter (λ m, validModel m && bool_decide (pairKey m = toKey a b) &&
                bool_decide (source m = name)) l.

Lemma cache_lookup_from l cache a b name :
  lookupModel (fold_left addModel l cache) a b name =
  match last (models_of l a b name) with
  | Some m => Some (lowered m)
  | None => lookupModel cache a b name
  end.
Proof.
  revert cache. induction l as [|m l IH]; intros cache; [done|]. simpl. rewrite IH, lookupModel_add.
  unfold models_of. simpl. case_if; [|done].
  rewrite last_cons. by destruct (last _).
Qed.

(** The model found for a pair and a source is the last valid one the file
    lists for them, whatever the order and the letter case of the pair; its
    first token is one of the two, so that the amount the prediction scales is
    the amount of that token. *)
Theorem cached_model_of_pair l a b name :
  Forall (λ m, has_char dash (token0 m) = false ∧ has_char dash (token1 m) = false) l →
  has_char dash a = false → has_char dash b = false →
  lookupModel (createSlippageModelCache l) a b name = lowered <$> last (models_of l a b name) ∧
  lookupModel (createSlippageModelCache l) b a name =
    lookupModel (createSlippageModelCache l) a b name ∧
  (∀ m, lookupModel (createSlippageModelCache l) a b name = Some m →
     (token0 m = toLowerCase a ∧ token1 m = toLowerCase b) ∨
     (token0 m = toLowerCase b ∧ token1 m = toLowerCase a)).
Proof.
  intros Hl Ha Hb. assert (lookupModel (createSlippageModelCache l) a b name =
    lowered <$> last (models_of l a b name)) as E.
  { unfold createSlippageModelCache. rewrite cache_lookup_from.
    by destruct (last (models_of l a b name)). }
  split; [done|]. split; [unfold lookupModel; by rewrite toKey_sym|]. intros m Hm.
  rewrite E in Hm. apply fmap_Some in Hm as (m0 & Hm0 & ->).
  apply last_Some_elem_of, elem_of_bfilter in Hm0 as [Hin Hv].
  apply andb_true_iff in Hv as [Hv _]. apply andb_true_iff in Hv as [_ Hk%bool_decide_eq_true].
  rewrite Forall_forall in Hl. destruct (Hl _ Hin) as [H0 H1].
  apply (pair_keys _ _ _ _ H0 H1 Ha Hb) in Hk. exact Hk.
Qed.
End CacheFacts.

(** ** Bounds of the predictions *)

Section PredictionFacts.
Context {B : BigNumberLib}.
Variable isNativeSymbolOrAddress : string → bool.
Variable NATIVE_FEE_TOKEN : string.

(** A finite number reads as a finite decimal. *)
Definition finite_number (n : number) : Prop := is_number n ∧ ∃ q, ext_eq n (EFin q).

Lemma finite_number_fin n : finite_number n → ∃ q, fin (of_number n) q.
Proof. intros [Hn [q Hq]]. destruct (val_of_number_fin n q Hn Hq) as (q' & H & _). by exists q'. Qed.

Lemma n_Z_finite z : (Z.abs z <= 2 ^ 53)%Z → fin (of_number (n_Z z)) (inject_Z z).
Proof. intros H. apply val_of_number_Z; [done | by apply n_Z_fin]. Qed.

Record finite_model (m : SlippageModel) : Prop := {
  fm_slippage : finite_number (slippageCoefficient m);
  fm_volume : finite_number (volumeCoefficient m);
  fm_intercept : finite_number (intercept m);
  fm_price : finite_number (token0PriceInUsd m);
}.

Lemma model_bounds amount rate m a r :
  fin amount a → fin rate r → (0 <= r)%Q → finite_model m →
  ∃ s q, calculateExpectedSlippageForModel amount rate m = Some s ∧ fin s q ∧ (- r <= q <= 0)%Q.
Proof.
  intros Ha Hr Hr0 [Hs Hv Hi Hp].
  apply finite_number_fin in Hs as [cs Hs], Hv as [cv Hv], Hi as [ci Hi], Hp as [cp Hp].
  eexists _, _. split; [reflexivity|]. split.
  - apply fin_min2; [apply (fin_Z 0)|]. apply fin_max2.
    + apply fin_bn_sum; [done|]. constructor; [|constructor; [|constructor; [exact Hi|constructor]]].
      * apply fin_times; [apply fin_times; [exact Hr | by apply n_Z_finite] | exact Hs].
      * apply fin_times; [by apply fin_times | exact Hv].
    + apply fin_times; [exact Hr | by apply n_Z_finite].
  - change (inject_Z (-1)) with (-1)%Q. change (inject_Z 0) with 0%Q.
    match goal with |- context [Qmax ?e _] => set (x := e) end.
    destruct (Q.max_spec x (r * -1)) as [[? E]|[? E]]; rewrite E;
      match goal with |- context [Qmin 0 ?y] =>
        destruct (Q.min_spec 0 y) as [[? E2]|[? E2]]; rewrite E2 end; lra.
Qed.

Definition finite_cache (c : SlippageModelCache) : Prop :=
  ∀ a b name m, lookupModel c a b name = Some m → finite_model m.

Lemma single_source_bounds st buy sell ba sa src rate b s r p :
  finite_cache (Manager._cachedSlippageModel st) →
  fin ba b → fin sa s → fin (of_number rate) r → (0 <= r)%Q →
  fin (ls_proportion src) p → (0 <= p)%Q →
  ∀ v, _calculateSingleSourceExpectedSlippage st buy sell ba sa src rate = Some v →
  ∃ q, fin v q ∧ (- (r * p) <= q <= 0)%Q.
Proof.
  intros Hc Hb Hs Hr Hr0 Hp Hp0 v H. unfold _calculateSingleSourceExpectedSlippage in H.
  destruct (isNativeSource (ls_name src)).
  { injection H as <-. exists 0%Q. split; [apply (fin_Z 0) | nra]. }
  destruct (lookupModel _ _ _ _) as [m|] eqn:Em; [|done].
  assert (∃ x, fin (times (ls_proportion src)
    (if String.eqb (token0 m) (toLowerCase buy) then ba else sa)) x) as [x Hx].
  { destruct (String.eqb _ _); eexists; apply fin_times; eassumption. }
  destruct (model_bounds _ _ _ _ _ Hx Hr Hr0 (Hc _ _ _ _ Em)) as (e & q & E & He & Hq).
  rewrite E in H. injection H as <-. exists (p * q)%Q. split; [by apply fin_times | nra].
Qed.

Lemma loop_bounds (predict : LiquiditySource → option BN) r sources ps :
  (∀ src p v, fin (ls_proportion src) p → (0 <= p)%Q → predict src = Some v →
     ∃ q, fin v q ∧ (- (r * p) <= q <= 0)%Q) →
  Forall2 (λ src p, fin (ls_proportion src) p ∧ (0 <= p)%Q) sources ps →
  ∀ acc a v, fin acc a → expectedSlippageLoop predict sources acc = Some v → (0 <= r)%Q →
  ∃ q, fin v q ∧ (a - r * Qsum ps <= q <= a)%Q.
Proof.
  intros Hpred Hps. induction Hps as [|src p sources ps [Hp Hp0] _ IH]; intros acc a v Hacc H Hr.
  - injection H as <-. exists a. split; [done|]. change (Qsum []) with 0%Q. lra.
  - rewrite Qsum_cons. cbn [expectedSlippageLoop] in H. destruct (isEqualTo _ _).
    + destruct (IH _ _ _ Hacc H Hr) as (q & Hq & Hb). exists q. split; [done|]. nra.
    + destruct (predict src) as [w|] eqn:Ew; [|done].
      destruct (Hpred _ _ _ Hp Hp0 Ew) as (y & Hy & Hyb).
      destruct (IH _ _ _ (fin_plus _ _ _ _ Hacc Hy) H Hr) as (q & Hq & Hb).
      exists q. split; [done|]. nra.
Qed.

Lemma expected_slippage_range st buy sell ba sa sources rate b s r ps v :
  finite_cache (Manager._cachedSlippageModel st) →
  fin ba b → fin sa s → fin (of_number rate) r → (0 <= r)%Q →
  Forall2 (λ src p, fin (ls_proportion src) p ∧ (0 <= p)%Q) sources ps →
  calculateExpectedSlippage isNativeSymbolOrAddress NATIVE_FEE_TOKEN st buy sell ba sa sources rate
    = Some v →
  ∃ q, fin v q ∧ (- (r * Qsum ps) <= q <= 0)%Q.
Proof.
  intros Hc Hb Hs Hr Hr0 Hps H. unfold calculateExpectedSlippage in H.
  eapply (loop_bounds _ r _ ps) in H as (q & Hq & Hb'); [| |exact Hps | apply (fin_Z 0) | done].
  2:{ intros src p w Hp Hp0. by apply (single_source_bounds st _ _ ba sa src rate b s r p). }
  exists q. split; [done|]. change (inject_Z 0) with 0%Q in Hb'. lra.
Qed.

Lemma loop_none (predict : LiquiditySource → option BN) sources acc :
  expectedSlippageLoop predict sources acc = None ↔
  ∃ src, src ∈ sources ∧ isEqualTo (ls_proportion src) (of_Z 0) = false ∧ predict src = None.
Proof.
  revert acc. induction sources as [|src sources IH]; intros acc; cbn [expectedSlippageLoop].
  - split; [done | intros (? & H & _); set_solver].
  - destruct (isEqualTo (ls_proportion src) (of_Z 0)) eqn:E.
    + rewrite IH. split; [intros (x & ? & ? & ?); exists x; split_and!; [by right | done..]|].
      intros (x & [->|Hx]%elem_of_cons & Hz & Hn); [congruence|]. exists x. auto.
    + destruct (predict src) as [w|] eqn:Ew.
      * rewrite IH. split; [intros (x & ? & ? & ?); exists x; split_and!; [by right | done..]|].
        intros (x & [->|Hx]%elem_of_cons & Hz & Hn); [congruence|]. exists x. auto.
      * split; [intros _; exists src; split_and!; [by left | done..] | done].
Qed.

(** The expected slippage of a quote never promises an improvement nor exceeds
    the maximal slippage rate, weighed by the proportions of the sources; it is
    unknown only when a source in use is not native and has no model for the
    pair. *)
Theorem expected_slippage_bounds st buy sell ba sa sources rate b s r ps :
  finite_cache (Manager._cachedSlippageModel st) →
  fin ba b → fin sa s → fin (of_number rate) r → (0 <= r)%Q →
  Forall2 (λ src p, fin (ls_proportion src) p ∧ (0 <= p)%Q) sources ps →
  match calculateExpectedSlippage isNativeSymbolOrAddress NATIVE_FEE_TOKEN st buy sell ba sa
          sources rate with
  | Some v => ∃ q, fin v q ∧ (- (r * Qsum ps) <= q <= 0)%Q
  | None => ∃ src, src ∈ sources ∧ isEqualTo (ls_proportion src) (of_Z 0) = false ∧
              isNativeSource (ls_name src) = false ∧
              lookupModel (Manager._cachedSlippageModel st)
                (normalizeTokenAddress isNativeSymbolOrAddress NATIVE_FEE_TOKEN buy)
                (normalizeTokenAddress isNativeSymbolOrAddress NATIVE_FEE_TOKEN sell)
                (ls_name src) = None
  end.
Proof.
  intros Hc Hb Hs Hr Hr0 Hps. destruct (calculateExpectedSlippage _ _ _ _ _ _ _ _ _) as [v|] eqn:E.
  - by apply (expected_slippage_range st buy sell ba sa sources rate b s r ps).
  - unfold calculateExpectedSlippage in E. apply loop_none in E as (src & Hin & Hz & Hn).
    exists src. split_and!; try done; unfold _calculateSingleSourceExpectedSlippage in Hn;
      destruct (isNativeSource (ls_name src)); try done.
    destruct (lookupModel _ _ _ _); [|done]. discriminate Hn.
Qed.
End PredictionFacts.

(** ** Adjusted fills *)

Section AdjustorFacts.
Context {B : BigNumberLib}.

Lemma slipped_output_bounds side f e o adj q r :
  int (fill_output f) o → int (fill_adjustedOutput f) adj → (0 <= o)%Z →
  fin e q → (- r <= q <= 0)%Q → (r <= 1)%Q →
  match side with Sell => (adj <= o)%Z | Buy => (o <= adj)%Z end →
  ∃ n, int (slippedAdjustedOutput side f e) n ∧
    match side with
    | Sell => (inject_Z adj - inject_Z o * r <= inject_Z n)%Q ∧ (n <= adj)%Z
    | Buy => (inject_Z n <= inject_Z adj + inject_Z o * r)%Q ∧ (adj <= n)%Z
    end.
Proof.
  intros Ho Ha Ho0 He Hq Hr Hside. unfold slippedAdjustedOutput.
  set (x := round_int ROUND_UP (inject_Z o * (1 + q))).
  assert (0 <= inject_Z o)%Q as Ho' by (change 0%Q with (inject_Z 0); by rewrite <- Zle_Qle).
  assert (int (integerValue ROUND_UP (times (fill_output f) (plus (of_Z 1) e))) x) as Hx.
  { apply fin_integerValue. apply fin_times; [exact Ho|]. apply fin_plus; [apply (fin_Z 1) | exact He]. }
  assert (0 <= x <= o)%Z as Hxo.
  { unfold x. split.
    - rewrite <- (round_int_Z ROUND_UP 0). apply round_int_mono. change (inject_Z 0) with 0%Q. nra.
    - rewrite <- (round_int_Z ROUND_UP o) at 2. apply round_int_mono. nra. }
  assert (inject_Z o * (1 + q) <= inject_Z x)%Q as Hup.
  { unfold x. apply round_up_bounds. nra. }
  assert (int (absoluteValue (minus (fill_output f)
    (integerValue ROUND_UP (times (fill_output f) (plus (of_Z 1) e))))) (o - x)) as Hpen.
  { pose proof (fin_absoluteValue _ _ (int_minus _ _ _ _ Ho Hx)) as H. unfold int.
    eapply fin_eq; [exact H|]. apply Qabs_pos. change 0%Q with (inject_Z 0). rewrite <- Zle_Qle. lia. }
  pose proof (fin_absoluteValue _ _ (int_minus _ _ _ _ Ho Ha)) as Hprev.
  destruct side; cbn [adjustOutput].
  - assert (int (absoluteValue (minus (fill_output f) (fill_adjustedOutput f))) (o - adj)) as Hp.
    { eapply fin_eq; [exact Hprev|]. apply Qabs_pos. change 0%Q with (inject_Z 0). rewrite <- Zle_Qle. lia. }
    exists (o - ((o - adj) + (o - x)))%Z. split.
    + apply int_integerValue, int_minus; [exact Ho | by apply int_plus].
    + split; [|lia]. replace (o - ((o - adj) + (o - x)))%Z with (adj - o + x)%Z by lia.
      unfold Z.sub. rewrite !inject_Z_plus, inject_Z_opp. nra.
  - assert (int (absoluteValue (minus (fill_output f) (fill_adjustedOutput f))) (adj - o)) as Hp.
    { eapply fin_eq; [exact Hprev|]. replace (adj - o)%Z with (- (o - adj))%Z by lia.
      rewrite inject_Z_opp. apply Qabs_neg. change 0%Q with (inject_Z 0). rewrite <- Zle_Qle. lia. }
    exists (o + ((adj - o) + (o - x)))%Z. split.
    + apply int_integerValue, int_plus; [exact Ho | by apply int_plus].
    + split; [|lia]. replace (o + ((adj - o) + (o - x)))%Z with (adj + o - x)%Z by lia.
      unfold Z.sub. rewrite !inject_Z_plus, inject_Z_opp. nra.
Qed.

(** Adjusting fills for slippage keeps everything of a fill but its adjusted
    output, which moves against the trade only, by at most the maximal
    slippage rate of the output, on top of the penalty the fill already had. *)
Theorem slippage_adjusts_against_user (a : SlippageModelFillAdjustor) side f r i o adj :
  finite_cache (Manager._cachedSlippageModel (slippageModelManager a)) →
  fin (of_number (maxSlippageRate a)) r → (0 <= r <= 1)%Q →
  int (fill_input f) i → int (fill_output f) o → (0 <= o)%Z →
  int (fill_adjustedOutput f) adj →
  match side with Sell => (adj <= o)%Z | Buy => (o <= adj)%Z end →
  ∃ f' n, adjustFills a side [f] = [f'] ∧ f' = with_adjustedOutput f (fill_adjustedOutput f') ∧
    int (fill_adjustedOutput f') n ∧
    match side with
    | Sell => (inject_Z adj - inject_Z o * r <= inject_Z n)%Q ∧ (n <= adj)%Z
    | Buy => (inject_Z n <= inject_Z adj + inject_Z o * r)%Q ∧ (adj <= n)%Z
    end.
Proof.
  intros Hc Hr Hr01 Hi Ho Ho0 Hadj Hside.
  unfold adjustFills, SlippageModelFillAdjustor_adjust. rewrite list_fmap_singleton.
  assert (0 <= inject_Z o)%Q as Ho' by (change 0%Q with (inject_Z 0); by rewrite <- Zle_Qle).
  destruct (expectedSlippageOfFill a side f) as [e|] eqn:E.
  - unfold expectedSlippageOfFill in E.
    eapply (expected_slippage_range _ _ _ _ _ _ _ _ _ (inject_Z (if isSell side then o else i))
      (inject_Z (if isSell side then i else o)) r [1%Q]) in E as (q & Hq & Hb); [| exact Hc | by destruct side | by destruct side | done | lra |].
    + change (Qsum [1%Q]) with (1 + 0)%Q in Hb.
      destruct (slipped_output_bounds side f e o adj q r) as (n & Hn & Hnb); try done; [lra..|].
      eexists _, n. split_and!; [reflexivity | done | exact Hn | exact Hnb].
    + repeat constructor; [apply (fin_Z 1) | discriminate].
  - exists f, adj. split_and!; [done | by destruct f | done |]. destruct side; split; try lia; nra.
Qed.
End AdjustorFacts.

(** ** Concrete models *)
Module SlippageExamples.
Import Concrete.

Definition model : SlippageModel :=
  {| token0 := "0xA"; token1 := "0xB"; source := "Curve";
     slippageCoefficient := EFin (- 1 # 4); volumeCoefficient := EFin (- 1 # 1024);
     intercept := n_Z 0; token0PriceInUsd := n_Z 1 |}.
Definition models : list SlippageModel := [model].
Definition manager : Manager.t :=
  {| Manager._lastRefreshed := 100; Manager._cachedSlippageModel := createSlippageModelCache models |}.
Definition parse (content : string) : result (list SlippageModel) :=
  if String.eqb content "file" then Ok models else Throw (Error "syntax").
Definition versions (ts : Z) : option string := if (ts =? 100)%Z then Some "file"%string else None.

Lemma finite_Q q : is_number (EFin q) → finite_number (EFin q).
Proof. intros H. split; [exact H|]. exists q. reflexivity. Qed.

Lemma finite_n_Z z : (Z.abs z <= 2 ^ 53)%Z → finite_number (n_Z z).
Proof. intros H. split; [apply n_Z_number|]. exists (inject_Z z). by apply n_Z_fin. Qed.

Lemma model_finite : finite_model (lowered model).
Proof.
  split.
  - apply finite_Q. vm_compute. constructor. reflexivity.
  - apply finite_Q. vm_compute. constructor. reflexivity.
  - by apply finite_n_Z.
  - by apply finite_n_Z.
Qed.

Lemma cache_finite : finite_cache (Manager._cachedSlippageModel manager).
Proof.
  intros a b name m H. unfold manager, createSlippageModelCache in H. simpl in H.
  rewrite lookupModel_add in H. destruct (_ && _).
  - injection H as <-. exact model_finite.
  - unfold lookupModel, SlippageModelCache in H. rewrite lookup_empty in H. discriminate H.
Qed.

Definition fill : Fill :=
  {| fill_source := ERC20BridgeSource.Curve; fill_type := FillQuoteTransformerOrderType.Bridge;
     fill_fillData := FDEmpty; fill_sourcePathId := ""; fill_flags := 0;
     fill_input := of_Z 1000; fill_output := of_Z 2000; fill_adjustedOutput := of_Z 1990;
     fill_gas := n_Z 0 |}.
Definition adjustor : SlippageModelFillAdjustor :=
  {| isNativeToken := λ _, false; nativeFeeToken := ""; slippageModelManager := manager;
     sellToken := "0xA"; buyToken := "0xB"; maxSlippageRate := EFin (1 # 64) |}.

Lemma rate_fin : fin (of_number (maxSlippageRate adjustor)) (1 # 64).
Proof. fin_now. Qed.
End SlippageExamples.

Import Concrete SlippageExamples.

Lemma refresh_converges_witness :
  ∃ s, Manager.reachable parse versions s ∧
    Manager._lastRefreshed (Manager._refreshAsync parse (Some "bucket"%string) (Manager.manager s) 1000
      (HeadObject (Some 100%Z)) (Some {| Body := Some "file"%string; LastModified := Some 100%Z |})) = 100%Z.
Proof.
  set (s := {| Manager.manager := Manager._resetCache; Manager.loading := 0 |}).
  assert (Manager.reachable parse versions s) as Hs by apply rtc_refl.
  assert (Manager.genuine versions (Some {| Body := Some "file"%string; LastModified := Some 100%Z |})) as Hg.
  { intros c t [= <- <-]. reflexivity. }
  pose proof (Manager.refresh_converges parse versions s "bucket" 1000 (HeadObject (Some 100%Z)) _ Hs Hg)
    as (_ & _ & _ & _ & H).
  exists s. split; [exact Hs|].
  destruct (H 100%Z "file"%string models) as [Ht _]; [reflexivity | discriminate | reflexivity
    | discriminate | reflexivity | reflexivity | reflexivity | exact Ht].
Defined.

Lemma cached_model_of_pair_witness :
  lookupModel (createSlippageModelCache models) "0xb" "0xa" "Curve" = Some (lowered model).
Proof.
  assert (Forall (λ m, has_char dash (token0 m) = false ∧ has_char dash (token1 m) = false) models) as Hl.
  { apply Forall_cons. split; [split; reflexivity | constructor]. }
  pose proof (cached_model_of_pair models "0xb" "0xa" "Curve" Hl eq_refl eq_refl) as (H & _ & _).
  rewrite H. vm_compute. reflexivity.
Defined.

Lemma expected_slippage_bounds_witness :
  ∃ v q, calculateExpectedSlippage (λ _, false) "" manager "0xB" "0xA" (of_Z 2000) (of_Z 1000)
           [{| ls_name := "Curve"; ls_proportion := of_Z 1 |}] (EFin (1 # 64)) = Some v ∧
    fin v q ∧ (- ((1 # 64) * (1 + 0)) <= q <= 0)%Q.
Proof.
  assert (0 <= 1 # 64)%Q as Hr by discriminate.
  assert (Forall2 (λ src p, fin (ls_proportion src) p ∧ (0 <= p)%Q)
    [{| ls_name := "Curve"; ls_proportion := of_Z 1 |}] [1%Q]) as Hp.
  { constructor; [split; [exact (fin_Z 1) | discriminate] | constructor]. }
  pose proof (expected_slippage_bounds (λ _, false) "" manager "0xB" "0xA" (of_Z 2000) (of_Z 1000) _
    (EFin (1 # 64)) 2000 1000 (1 # 64) _ cache_finite (fin_Z 2000) (fin_Z 1000) rate_fin Hr Hp) as H.
  assert (match calculateExpectedSlippage (λ _, false) "" manager "0xB" "0xA" (of_Z 2000) (of_Z 1000)
           [{| ls_name := "Curve"; ls_proportion := of_Z 1 |}] (EFin (1 # 64)) with
          | Some _ => true | None => false end = true) as K by (vm_compute; reflexivity).
  destruct (calculateExpectedSlippage _ _ _ _ _ _ _ _ _) as [v|]; [|discriminate K].
  destruct H as (q & Hq & Hb). exists v, q. split; [reflexivity|]. split; [exact Hq | exact Hb].
Defined.

Lemma slippage_adjusts_against_user_witness :
  ∃ f' n, adjustFills adjustor Sell [fill] = [f'] ∧ int (fill_adjustedOutput f') n ∧ (n <= 1990)%Z.
Proof.
  assert (0 <= 1 # 64 <= 1)%Q as Hr by (split; discriminate).
  assert (0 <= 2000)%Z as H0 by discriminate. assert (1990 <= 2000)%Z as H1 by discriminate.
  pose proof (slippage_adjusts_against_user adjustor Sell fill (1 # 64) 1000 2000 1990 cache_finite rate_fin
    Hr (fin_Z 1000) (fin_Z 2000) H0 (fin_Z 1990) H1) as (f' & n & Hf & _ & Hn & _ & Hle).
  exists f', n. split; [exact Hf|]. split; [exact Hn | exact Hle].
Defined.
