(* ===== verification/QuoteReport.v ===== *)
(** * Quote reports ([asset-swapper/utils/quote_report_generator.ts],
    [quote_requestor.ts])

    What was considered and what was delivered for a quote, in the short report
    of a firm quote and in the extended one that is published. *)

From stdpp Require Import pretty.
From S2P Require Import Prelude JsNumber BigNum Types Fills.

(** ** [QuoteRequestor] *)

(** [`${v}${r}${s}`], in [quote_requestor.ts] and [quote_report_generator.ts]. *)
Definition nativeDataToId (signature : Signature) : string :=
  pretty (sig_v signature) +:+ sig_r signature +:+ sig_s signature.

Module QuoteRequestor.
(** [_orderSignatureToMakerUri]. *)
Definition t : Type := gmap string string.
Definition new : t := ∅.
Definition getMakerUriForSignature (this : t) (signature : Signature) : option string :=
  this !! nativeDataToId signature.
Definition setMakerUriForSignature (this : t) (signature : Signature) (makerUri : string) : t :=
  <[nativeDataToId signature := makerUri]> this.
End QuoteRequestor.

Section QuoteReport.
Context {B : BigNumberLib}.

(** [V4RFQIndicativeQuoteMM]. *)
Record V4RFQIndicativeQuoteMM : Type := {
  ind_makerToken : string;
  ind_takerToken : string;
  ind_makerAmount : BN;
  ind_takerAmount : BN;
  ind_expiry : BN;
  ind_makerUri : string;
}.

(** [RawQuotes]. *)
Record RawQuotes : Type := {
  raw_nativeOrders : list NativeOrderWithFillableAmounts;
  raw_rfqtIndicativeQuotes : list V4RFQIndicativeQuoteMM;
  raw_twoHopQuotes : list (list DexSample);
  raw_dexQuotes : list (list DexSample);
}.

(** [ExtendedQuoteReportEntry]: an entry per kind of liquidity. *)
Inductive ReportEntry : Type :=
| BridgeQuoteReportEntry (makerAmount takerAmount : BN) (liquiditySource : ERC20BridgeSource)
    (fillData : FillData)
| MultiHopQuoteReportEntry (makerAmount takerAmount : BN) (fillData : FillData)
    (hopSources : ERC20BridgeSource * ERC20BridgeSource)
| NativeLimitOrderQuoteReportEntry (makerAmount takerAmount : BN) (fillableTakerAmount : option BN)
    (fillData : NativeOrderWithFillableAmounts)
| NativeRfqOrderQuoteReportEntry (makerAmount takerAmount : BN) (fillableTakerAmount : option BN)
    (makerUri : string) (comparisonPrice : option number) (fillData : NativeOrderWithFillableAmounts)
| IndicativeRfqOrderQuoteReportEntry (makerAmount takerAmount fillableTakerAmount : BN)
    (makerUri : string) (comparisonPrice : option number).

(** [order.isRFQ], undefined on the entries of other kinds. *)
Definition isRFQ (e : ReportEntry) : bool :=
  match e with
  | NativeRfqOrderQuoteReportEntry _ _ _ _ _ _ | IndicativeRfqOrderQuoteReportEntry _ _ _ _ _ => true
  | _ => false
  end.

Definition _isNativeOrderFromCollapsedFill (cf : Fill) : bool :=
  match fill_type cf with
  | FillQuoteTransformerOrderType.Bridge => false
  | _ => true
  end.

Definition _isRFQOrderfromType (orderType : FillQuoteTransformerOrderType) : bool :=
  match orderType with
  | FillQuoteTransformerOrderType.Rfq | FillQuoteTransformerOrderType.Otc => true
  | _ => false
  end.

Definition dexSampleToReportSource (ds : DexSample) (marketOperation : MarketOperation)
    : result ReportEntry :=
  match sample_source ds with
  | ERC20BridgeSource.Native => Throw (Error "Unexpected liquidity source Native")
  | liquiditySource =>
      Ok match marketOperation with
         | Buy => BridgeQuoteReportEntry (sample_input ds) (sample_output ds) liquiditySource
                    (sample_fillData ds)
         | Sell => BridgeQuoteReportEntry (sample_output ds) (sample_input ds) liquiditySource
                     (sample_fillData ds)
         end
  end.

Definition isDexSampleFilter (ds : DexSample) (amount : BN) : bool :=
  isEqualTo (sample_input ds) amount && gt (sample_output ds) (of_Z 0).

(** The hops are read as [firstHop.source] and [secondHop.source]. *)
Definition multiHopSampleToReportSource (ds : DexSample) (marketOperation : MarketOperation)
    : result ReportEntry :=
  match sample_fillData ds with
  | FDMultiHop (Some (first, _)) (Some (second, _)) _ =>
      Ok match marketOperation with
         | Buy => MultiHopQuoteReportEntry (sample_input ds) (sample_output ds)
                    (sample_fillData ds) (first, second)
         | Sell => MultiHopQuoteReportEntry (sample_output ds) (sample_input ds)
                     (sample_fillData ds) (first, second)
         end
  | _ => Throw TypeError
  end.

Section Report.
Variable marketOperation : MarketOperation.
Variable comparisonPrice : option BN.
Variable quoteRequestor : option QuoteRequestor.t.

Definition nativeOrderToReportEntry (type : FillQuoteTransformerOrderType)
    (fillData : NativeOrderWithFillableAmounts) (fillableAmount : option BN) : ReportEntry :=
  let makerAmount := order_makerAmount (native_order fillData) in
  let takerAmount := order_takerAmount (native_order fillData) in
  let isRFQ := _isRFQOrderfromType type in
  let rfqtMakerUri :=
    if isRFQ then
      quoteRequestor ≫= λ q, QuoteRequestor.getMakerUriForSignature q (native_signature fillData)
    else None in
  if isRFQ
  then NativeRfqOrderQuoteReportEntry makerAmount takerAmount fillableAmount
         (default "" rfqtMakerUri) (toNumber <$> comparisonPrice) fillData
  else NativeLimitOrderQuoteReportEntry makerAmount takerAmount fillableAmount fillData.

Definition indicativeQuoteToReportEntry (order : V4RFQIndicativeQuoteMM) : ReportEntry :=
  IndicativeRfqOrderQuoteReportEntry (ind_makerAmount order) (ind_takerAmount order)
    (ind_takerAmount order) (ind_makerUri order) (toNumber <$> comparisonPrice).

(** The entry of a native order that was considered. *)
Definition consideredOrder (order : NativeOrderWithFillableAmounts) : ReportEntry :=
  nativeOrderToReportEntry (native_type order) order (Some (fillableTakerAmount order)).

(** [_.fromPairs(nativeOrders.map((o) => [_nativeDataToId(o), o.fillableTakerAmount]))]. *)
Definition nativeOrderSignaturesToFillableAmounts
    (nativeOrders : list NativeOrderWithFillableAmounts) : gmap string BN :=
  fold_left (λ m o, <[nativeDataToId (native_signature o) := fillableTakerAmount o]> m) nativeOrders ∅.

(** A fill seen as a sample: the fields the entry is made of. *)
Definition sampleOfFill (f : Fill) : DexSample :=
  {| sample_source := fill_source f; sample_fillData := fill_fillData f;
     sample_input := fill_input f; sample_output := fill_output f |}.

(** The entry of a delivered fill. *)
Definition deliveredEntry (fillableAmounts : gmap string BN) (collapsedFill : Fill) : result ReportEntry :=
  if _isNativeOrderFromCollapsedFill collapsedFill then
    match fill_fillData collapsedFill with
    | FDNative o =>
        Ok (nativeOrderToReportEntry (fill_type collapsedFill) o
              (fillableAmounts !! nativeDataToId (native_signature o)))
    | _ => Throw TypeError
    end
  else dexSampleToReportSource (sampleOfFill collapsedFill) marketOperation.

(** [ReadonlyArray<Fill> | DexSample<MultiHopFillData>]. *)
Inductive LiquidityDelivered : Type :=
| DeliveredFills (fills : list Fill)
| DeliveredTwoHop (sample : DexSample).

Definition deliveredEntries (nativeOrders : list NativeOrderWithFillableAmounts)
    (liquidityDelivered : LiquidityDelivered) : result (list ReportEntry) :=
  match liquidityDelivered with
  | DeliveredFills fills =>
      mapM (deliveredEntry (nativeOrderSignaturesToFillableAmounts nativeOrders)) fills
  | DeliveredTwoHop sample => (λ e, [e]) <$> multiHopSampleToReportSource sample marketOperation
  end.

Record QuoteReport : Type := {
  sourcesConsidered : list ReportEntry;
  sourcesDelivered : list ReportEntry;
}.

Definition generateQuoteReport (nativeOrders : list NativeOrderWithFillableAmounts)
    (liquidityDelivered : LiquidityDelivered) : result QuoteReport :=
  let nativeOrderSourcesConsidered := consideredOrder <$> nativeOrders in
  delivered ← deliveredEntries nativeOrders liquidityDelivered;
  Ok {| sourcesConsidered := bfilter isRFQ nativeOrderSourcesConsidered;
        sourcesDelivered := delivered |}.

(** [ExtendedQuoteReportIndexedEntry]. *)
Record IndexedEntry : Type := {
  entry : ReportEntry;
  quoteEntryIndex : nat;
  isDelivered : bool;
}.

Record ExtendedQuoteReportSources : Type := {
  extended_considered : list IndexedEntry;
  extended_delivered : list IndexedEntry;
}.

Definition indexEntries (l : list ReportEntry) : list IndexedEntry :=
  imap (λ index quote, {| entry := quote; quoteEntryIndex := index; isDelivered := false |}) l.

Definition twoHopEntries (quotes : RawQuotes) : result (list ReportEntry) :=
  mapM (λ sample, multiHopSampleToReportSource sample marketOperation)
    (concat (raw_twoHopQuotes quotes)).

Definition dexEntries (quotes : RawQuotes) (amount : BN) : result (list ReportEntry) :=
  mapM (λ quote, dexSampleToReportSource quote marketOperation)
    (concat (bfilter (λ quote, isDexSampleFilter quote amount) <$> raw_dexQuotes quotes)).

Definition generateExtendedQuoteReportSources (quotes : RawQuotes)
    (liquidityDelivered : LiquidityDelivered) (amount : BN) : result ExtendedQuoteReportSources :=
  twoHops ← twoHopEntries quotes;
  dexes ← dexEntries quotes amount;
  let considered :=
    (consideredOrder <$> raw_nativeOrders quotes) ++
    (indicativeQuoteToReportEntry <$> raw_rfqtIndicativeQuotes quotes) ++ twoHops ++ dexes in
  delivered ← deliveredEntries (raw_nativeOrders quotes) liquidityDelivered;
  Ok {| extended_considered := indexEntries considered;
        extended_delivered := indexEntries delivered |}.

(** ** What a report says *)

(** The fills that the optimizer delivers. *)
Definition reportable (f : Fill) : Prop :=
  match fill_type f with
  | FillQuoteTransformerOrderType.Bridge => fill_source f ≠ ERC20BridgeSource.Native
  | _ => ∃ o, fill_fillData f = FDNative o
  end.

(** The last order with an identifier decides its fillable amount. *)
Lemma fillable_lookup_fold id orders (m : gmap string BN) :
  fold_left (λ m o, <[nativeDataToId (native_signature o) := fillableTakerAmount o]> m) orders m !! id =
  match last (bfilter (λ o, String.eqb (nativeDataToId (native_signature o)) id) orders) with
  | Some o => Some (fillableTakerAmount o)
  | None => m !! id
  end.
Proof.
  induction orders as [|o orders IH] using rev_ind; [done|].
  rewrite fold_left_app, bfilter_app. cbn [fold_left bfilter].
  destruct (String.eqb_spec (nativeDataToId (native_signature o)) id) as [<-|N].
  - by rewrite last_snoc, lookup_insert, decide_True by done.
  - by rewrite lookup_insert_ne, IH, app_nil_r by done.
Qed.

Lemma fillable_lookup id orders :
  nativeOrderSignaturesToFillableAmounts orders !! id =
  fillableTakerAmount <$> last (bfilter (λ o, String.eqb (nativeDataToId (native_signature o)) id) orders).
Proof.
  unfold nativeOrderSignaturesToFillableAmounts. rewrite fillable_lookup_fold. by destruct (last _).
Qed.

(** What the entry of a delivered fill holds. *)
Definition delivers (nativeOrders : list NativeOrderWithFillableAmounts) (f : Fill) (e : ReportEntry) : Prop :=
  (fill_type f = FillQuoteTransformerOrderType.Bridge ∧
   e = BridgeQuoteReportEntry (match marketOperation with Sell => fill_output f | Buy => fill_input f end)
         (match marketOperation with Sell => fill_input f | Buy => fill_output f end)
         (fill_source f) (fill_fillData f)) ∨
  (∃ o, fill_type f ≠ FillQuoteTransformerOrderType.Bridge ∧ fill_fillData f = FDNative o ∧
   e = nativeOrderToReportEntry (fill_type f) o
         (fillableTakerAmount <$>
            last (bfilter (λ o', String.eqb (nativeDataToId (native_signature o'))
                                   (nativeDataToId (native_signature o))) nativeOrders))).

Lemma dexSampleToReportSource_ok ds :
  sample_source ds ≠ ERC20BridgeSource.Native →
  dexSampleToReportSource ds marketOperation =
  Ok (BridgeQuoteReportEntry (match marketOperation with Sell => sample_output ds | Buy => sample_input ds end)
        (match marketOperation with Sell => sample_input ds | Buy => sample_output ds end)
        (sample_source ds) (sample_fillData ds)).
Proof.
  intros H. unfold dexSampleToReportSource. by destruct (sample_source ds) eqn:E, marketOperation.
Qed.

Lemma deliveredEntry_ok nativeOrders f :
  reportable f →
  ∃ e, deliveredEntry (nativeOrderSignaturesToFillableAmounts nativeOrders) f = Ok e ∧
       delivers nativeOrders f e.
Proof.
  unfold reportable, deliveredEntry, _isNativeOrderFromCollapsedFill, delivers. intros H.
  destruct (fill_type f) eqn:Et;
    [|destruct H as [o ->]; eexists; split; [reflexivity|]; right; exists o;
      split_and!; [done | done | by rewrite fillable_lookup]..].
  rewrite dexSampleToReportSource_ok by done. eexists. split; [reflexivity|]. by left.
Qed.

Lemma deliveredEntries_ok nativeOrders fills :
  Forall reportable fills →
  ∃ es, deliveredEntries nativeOrders (DeliveredFills fills) = Ok es ∧
        Forall2 (delivers nativeOrders) fills es.
Proof.
  intros H. unfold deliveredEntries. induction H as [|f fs Hf _ [es [E IH]]]; [by exists []|].
  destruct (deliveredEntry_ok nativeOrders f Hf) as (e & He & Hd). exists (e :: es).
  split; [|by constructor]. cbn [mapM]. rewrite He. simpl. by rewrite E.
Qed.

(** The short report of a path exists: it considers the RFQ orders among the
    native orders, in order, and delivers one entry per fill, with the amounts
    of the fill on the sides of the quote or those of the filled order, whose
    fillable amount is that of the last native order of its signature. *)
Theorem quote_report_complete nativeOrders fills :
  Forall reportable fills →
  ∃ r, generateQuoteReport nativeOrders (DeliveredFills fills) = Ok r ∧
    sourcesConsidered r =
      consideredOrder <$> bfilter (λ o, _isRFQOrderfromType (native_type o)) nativeOrders ∧
    Forall2 (delivers nativeOrders) fills (sourcesDelivered r).
Proof.
  intros H. unfold generateQuoteReport.
  destruct (deliveredEntries_ok nativeOrders fills H) as (es & -> & Hes). eexists.
  split_and!; [reflexivity | cbn [sourcesConsidered] | done].
  rewrite bfilter_fmap. f_equal. apply bfilter_ext. intros o.
  unfold consideredOrder, nativeOrderToReportEntry. by destruct (_isRFQOrderfromType _).
Qed.

(** The entry of a two-hop sample. *)
Definition twoHopEntry (s : DexSample) (e : ReportEntry) : Prop :=
  ∃ h1 fd1 h2 fd2 mid, sample_fillData s = FDMultiHop (Some (h1, fd1)) (Some (h2, fd2)) mid ∧
    e = MultiHopQuoteReportEntry (match marketOperation with Sell => sample_output s | Buy => sample_input s end)
          (match marketOperation with Sell => sample_input s | Buy => sample_output s end)
          (sample_fillData s) (h1, h2).

Lemma twoHopEntries_ok quotes :
  Forall (λ s, ∃ h1 h2 mid, sample_fillData s = FDMultiHop (Some h1) (Some h2) mid)
    (concat (raw_twoHopQuotes quotes)) →
  ∃ es, twoHopEntries quotes = Ok es ∧ Forall2 twoHopEntry (concat (raw_twoHopQuotes quotes)) es.
Proof.
  unfold twoHopEntries. intros H. induction H as [|s ss ([h1 fd1] & [h2 fd2] & mid & Hs) _ (es & E & IH)];
    [by exists []|].
  assert (∃ e, multiHopSampleToReportSource s marketOperation = Ok e ∧ twoHopEntry s e) as (e & He & Hse).
  { unfold multiHopSampleToReportSource, twoHopEntry. rewrite Hs. eexists. split; [reflexivity|].
    exists h1, fd1, h2, fd2, mid. split; [done|]. by destruct marketOperation. }
  exists (e :: es). split; [|by constructor]. cbn [mapM]. rewrite He. simpl. by rewrite E.
Qed.

(** The samples of the whole amount that found liquidity. *)
Definition wholeSamples (quotes : RawQuotes) (amount : BN) : list DexSample :=
  concat (bfilter (λ quote, isDexSampleFilter quote amount) <$> raw_dexQuotes quotes).

Definition dexEntry (s : DexSample) : ReportEntry :=
  BridgeQuoteReportEntry (match marketOperation with Sell => sample_output s | Buy => sample_input s end)
    (match marketOperation with Sell => sample_input s | Buy => sample_output s end)
    (sample_source s) (sample_fillData s).

Lemma dexEntries_ok quotes amount :
  Forall (λ s, sample_source s ≠ ERC20BridgeSource.Native) (concat (raw_dexQuotes quotes)) →
  dexEntries quotes amount = Ok (dexEntry <$> wholeSamples quotes amount).
Proof.
  intros H. unfold dexEntries. apply mapM_total. apply Forall_forall. intros s Hs.
  apply dexSampleToReportSource_ok.
  rewrite Forall_forall in H. apply H. unfold wholeSamples in Hs.
  apply list_elem_of_In, in_concat in Hs as (q & Hq & Hs).
  apply list_elem_of_In, list_elem_of_fmap in Hq as (q' & -> & Hq').
  apply list_elem_of_In, elem_of_bfilter in Hs as [Hs _].
  apply list_elem_of_In, in_concat. exists q'. split; by apply list_elem_of_In.
Qed.

Lemma entry_indexEntries l : entry <$> indexEntries l = l.
Proof.
  unfold indexEntries. apply list_eq. intros i. rewrite list_lookup_fmap, list_lookup_imap.
  by destruct (l !! i).
Qed.

Lemma indexEntries_lookup l i e :
  indexEntries l !! i = Some e → quoteEntryIndex e = i ∧ isDelivered e = false.
Proof.
  unfold indexEntries. rewrite list_lookup_imap. destruct (l !! i); [|done]. by intros [= <-].
Qed.

(** The extended report exists: it considers every native order, every
    indicative quote, every two-hop sample and the samples of the whole amount
    that found liquidity, and delivers one entry per fill.  The entries are
    numbered in order; none is marked as delivered, not even the delivered
    ones. *)
Theorem extended_report_complete quotes fills amount :
  Forall reportable fills →
  Forall (λ s, ∃ h1 h2 mid, sample_fillData s = FDMultiHop (Some h1) (Some h2) mid)
    (concat (raw_twoHopQuotes quotes)) →
  Forall (λ s, sample_source s ≠ ERC20BridgeSource.Native) (concat (raw_dexQuotes quotes)) →
  ∃ r hops, generateExtendedQuoteReportSources quotes (DeliveredFills fills) amount = Ok r ∧
    entry <$> extended_considered r =
      (consideredOrder <$> raw_nativeOrders quotes) ++
      (indicativeQuoteToReportEntry <$> raw_rfqtIndicativeQuotes quotes) ++ hops ++
      (dexEntry <$> wholeSamples quotes amount) ∧
    Forall2 twoHopEntry (concat (raw_twoHopQuotes quotes)) hops ∧
    Forall2 (delivers (raw_nativeOrders quotes)) fills (entry <$> extended_delivered r) ∧
    ∀ l, l = extended_considered r ∨ l = extended_delivered r →
      ∀ i e, l !! i = Some e → quoteEntryIndex e = i ∧ isDelivered e = false.
Proof.
  intros Hf Hh Hd. unfold generateExtendedQuoteReportSources.
  destruct (twoHopEntries_ok quotes Hh) as (hops & -> & Hhops). rewrite (dexEntries_ok quotes amount Hd).
  destruct (deliveredEntries_ok (raw_nativeOrders quotes) fills Hf) as (es & -> & Hes).
  cbn [mbind result_bind]. exists (Build_ExtendedQuoteReportSources
    (indexEntries ((consideredOrder <$> raw_nativeOrders quotes) ++
      (indicativeQuoteToReportEntry <$> raw_rfqtIndicativeQuotes quotes) ++ hops ++
      (dexEntry <$> wholeSamples quotes amount))) (indexEntries es)), hops.
  cbn [extended_considered extended_delivered]. rewrite !entry_indexEntries.
  split_and!; [done | done | done | done |].
  intros l [-> | ->] i e; apply indexEntries_lookup.
Qed.
End Report.
End QuoteReport.
