(* ===== verification/RfqClient.v ===== *)
(** * The RFQ client ([utils/rfq_client.ts], [rfq_client_mappers.ts],
    [alt_mm_implementation_utils.ts], [utils/alt_mm_utils.ts])

    Prices and signed quotes of market makers.  The HTTP client is a parameter:
    per endpoint, the answer to a request. *)

From S2P Require Import Prelude JsNumber BigNum Types JsLib PairUtils QuoteReport.

(** ** Alternative market makers *)

Record AltOffering : Type := {
  alt_id : string;
  baseAsset : string;
  quoteAsset : string;
  baseAssetDecimals : Z;
  quoteAssetDecimals : Z;
}.
(** Offerings by endpoint, in the order of the keys. *)
Definition AltRfqMakerAssetOfferings : Type := list (string * list AltOffering).

Definition offersPair (buyTokenAddress sellTokenAddress : string) (offering : AltOffering) : bool :=
  let same (a b : string) := String.eqb (toLowerCase a) (toLowerCase b) in
  (same buyTokenAddress (baseAsset offering) && same sellTokenAddress (quoteAsset offering)) ||
  (same sellTokenAddress (baseAsset offering) && same buyTokenAddress (quoteAsset offering)).

Definition getAltMarketInfo (offerings : list AltOffering) (buyTokenAddress sellTokenAddress : string)
    : option AltOffering :=
  head (bfilter (offersPair buyTokenAddress sellTokenAddress) offerings).

(** The loop over the endpoints in [getOptimizerResultAsync]. *)
Definition filterOfferings (offerings : AltRfqMakerAssetOfferings) (makerToken takerToken : string)
    : AltRfqMakerAssetOfferings :=
  omap (λ '(endpoint, l),
    (λ offering, (endpoint, [offering])) <$> getAltMarketInfo l makerToken takerToken) offerings.

Record AltRfqAsset : Type := { asset_address : string; asset_decimals : Z }.
Record AltRfqMarket : Type := { market_id : string; market_base : AltRfqAsset; market_quote : AltRfqAsset }.

Definition altMarketResponseToAltOfferings (items : list AltRfqMarket) (altRfqUrl : string)
    : AltRfqMakerAssetOfferings :=
  [(altRfqUrl,
    (λ market, {| alt_id := market_id market;
                  baseAsset := toLowerCase (asset_address (market_base market));
                  baseAssetDecimals := asset_decimals (market_base market);
                  quoteAsset := toLowerCase (asset_address (market_quote market));
                  quoteAssetDecimals := asset_decimals (market_quote market) |}) <$> items)].

Section RfqClient.
Context {B : BigNumberLib}.

(** ** Requests and answers *)

(** [RfqClientV1PriceRequest]; [RfqtV2Request] lacks the first and the fourth field. *)
Record RfqRequest : Type := {
  req_altRfqAssetOfferings : option AltRfqMakerAssetOfferings;
  req_assetFillAmount : BN;
  req_chainId : ChainId;
  req_comparisonPrice : option BN;
  req_integratorId : string;
  req_intentOnFilling : bool;
  req_makerToken : string;
  req_takerToken : string;
  req_marketOperation : MarketOperation;
  req_takerAddress : string;
  req_txOrigin : string;
}.

Record RfqClientV1Quote : Type := {
  v1_makerUri : string;
  v1_order : OrderFields;
  v1_signature : Signature;
}.

Record RfqtV2Quote : Type := {
  v2_fillableMakerAmount : BN;
  v2_fillableTakerAmount : BN;
  v2_fillableTakerFeeAmount : BN;
  v2_makerUri : string;
  v2_order : OrderFields;
  v2_signature : Signature;
}.

(** The answers as parsed JSON: amounts are strings. *)
Record RawOrder : Type := {
  raw_makerToken : string; raw_takerToken : string;
  raw_makerAmount : string; raw_takerAmount : string;
  raw_maker : string; raw_expiry : string;
}.
Record RawQuote : Type := {
  raw_signature : Signature; raw_makerUri : string; raw_order : RawOrder;
  raw_fillableMakerAmount : string; raw_fillableTakerAmount : string;
  raw_fillableTakerFeeAmount : string;
}.
Record RawPrice : Type := {
  rawp_makerToken : string; rawp_takerToken : string;
  rawp_makerAmount : string; rawp_takerAmount : string;
  rawp_expiry : string; rawp_makerUri : string;
}.

(** [response.data]: [None] when there is none, [Some None] when it lacks the
    list of prices or quotes. *)
Definition Body (A : Type) : Type := option (option (list A)).
Record HttpResponse (A : Type) : Type := { status : Z; data : Body A }.
Arguments status {A} _.
Arguments data {A} _.
Definition OK : Z := 200.

(** [new BigNumber(...)] of a decimal string. *)
Variable bn_of_string : string → BN.

(** [axiosInstance.post(`${rfqApiUrl}/...`, request)], per endpoint. *)
Class RfqApi : Type := {
  post_v1_prices : RfqRequest → result (HttpResponse RawPrice);
  post_v1_quotes : RfqRequest → result (HttpResponse RawQuote);
  post_v2_prices : RfqRequest → result (HttpResponse RawPrice);
  post_v2_quotes : RfqRequest → result (HttpResponse RawQuote);
}.

(** [order_expiry] of an OTC order holds its [expiryAndNonce]. *)
Definition toRfqOrder (obj : RawOrder) : OrderFields :=
  {| order_makerToken := raw_makerToken obj; order_takerToken := raw_takerToken obj;
     order_makerAmount := bn_of_string (raw_makerAmount obj);
     order_takerAmount := bn_of_string (raw_takerAmount obj);
     order_takerTokenFeeAmount := ZERO_AMOUNT;
     order_maker := raw_maker obj; order_expiry := bn_of_string (raw_expiry obj) |}.
Definition toOtcOrder (obj : RawOrder) : OrderFields := toRfqOrder obj.

Definition toPrice (q : RawPrice) : V4RFQIndicativeQuoteMM :=
  {| ind_makerToken := rawp_makerToken q; ind_takerToken := rawp_takerToken q;
     ind_makerAmount := bn_of_string (rawp_makerAmount q);
     ind_takerAmount := bn_of_string (rawp_takerAmount q);
     ind_expiry := bn_of_string (rawp_expiry q); ind_makerUri := rawp_makerUri q |}.

Definition toV1Quote (q : RawQuote) : RfqClientV1Quote :=
  {| v1_signature := raw_signature q; v1_makerUri := raw_makerUri q; v1_order := toRfqOrder (raw_order q) |}.
Definition toV2Quote (q : RawQuote) : RfqtV2Quote :=
  {| v2_fillableMakerAmount := bn_of_string (raw_fillableMakerAmount q);
     v2_fillableTakerAmount := bn_of_string (raw_fillableTakerAmount q);
     v2_fillableTakerFeeAmount := bn_of_string (raw_fillableTakerFeeAmount q);
     v2_signature := raw_signature q; v2_makerUri := raw_makerUri q;
     v2_order := toOtcOrder (raw_order q) |}.

Section Client.
Context {api : RfqApi}.

(** An answer that is refused, or an exception, leaves [none]. *)
Definition answerOr {A C} (response : result (HttpResponse A)) (none : C) (f : Body A → C) : C :=
  match response with
  | Throw _ => none
  | Ok r => if (status r =? OK)%Z then f (data r) else none
  end.

(** The prices are handed on as they come: their amounts are read by
    [new BigNumber] where they are used. *)
Definition getV1PricesAsync (request : RfqRequest) : Body V4RFQIndicativeQuoteMM :=
  answerOr (post_v1_prices request) (Some (Some [])) (λ d, (fmap (M := option) (fmap (M := list) toPrice)) <$> d).

(** [response.data?.quotes.map(...)]: missing quotes throw inside the [try]. *)
Definition getV1QuotesAsync (request : RfqRequest) : option (list RfqClientV1Quote) :=
  answerOr (post_v1_quotes request) (Some []) (λ d,
    match d with
    | None => None
    | Some None => Some []
    | Some (Some quotes) => Some (toV1Quote <$> quotes)
    end).

(** [response.data?.prices?.map(...)]. *)
Definition getV2PricesAsync (request : RfqRequest) : option (list V4RFQIndicativeQuoteMM) :=
  answerOr (post_v2_prices request) (Some []) (λ d, fmap (M := list) toPrice <$> (d ≫= id)).
Definition getV2QuotesAsync (request : RfqRequest) : option (list RfqtV2Quote) :=
  answerOr (post_v2_quotes request) (Some []) (λ d, fmap (M := list) toV2Quote <$> (d ≫= id)).
End Client.

(** ** [rfq_client_mappers.ts] *)

Record SignedNativeOrder : Type := {
  signed_type : FillQuoteTransformerOrderType;
  signed_order : OrderFields;
  signed_signature : Signature;
}.

Definition toSignedNativeOrder (quote : RfqClientV1Quote) : SignedNativeOrder :=
  {| signed_type := FillQuoteTransformerOrderType.Rfq; signed_order := v1_order quote;
     signed_signature := v1_signature quote |}.

Definition toSignedNativeOrderWithFillableAmounts (quote : RfqtV2Quote) : NativeOrderWithFillableAmounts :=
  {| native_type := FillQuoteTransformerOrderType.Otc; native_order := v2_order quote;
     native_signature := v2_signature quote;
     fillableTakerAmount := v2_fillableTakerAmount quote;
     fillableMakerAmount := v2_fillableMakerAmount quote;
     fillableTakerFeeAmount := v2_fillableTakerFeeAmount quote |}.

(** ** What a failing RFQ server costs *)

(** A request that fails, or that the server does not answer with 200, is the
    same as one without makers; quotes are missing only from an answer of 200
    whose body has no list of them. *)
Theorem rfq_failures_are_empty {api : RfqApi} request :
  (∀ e, post_v1_quotes request = Throw e → getV1QuotesAsync request = Some []) ∧
  (∀ e, post_v2_quotes request = Throw e → getV2QuotesAsync request = Some []) ∧
  (∀ e, post_v1_prices request = Throw e → getV1PricesAsync request = Some (Some [])) ∧
  (∀ e, post_v2_prices request = Throw e → getV2PricesAsync request = Some []) ∧
  (getV1QuotesAsync request = None ↔
   ∃ r, post_v1_quotes request = Ok r ∧ status r = OK ∧ data r = None) ∧
  (getV2QuotesAsync request = None ↔
   ∃ r, post_v2_quotes request = Ok r ∧ status r = OK ∧ (data r = None ∨ data r = Some None)) ∧
  (∀ r qs, post_v1_quotes request = Ok r → status r = OK → data r = Some (Some qs) →
   getV1QuotesAsync request = Some (toV1Quote <$> qs)) ∧
  (∀ r qs, post_v2_quotes request = Ok r → status r = OK → data r = Some (Some qs) →
   getV2QuotesAsync request = Some (toV2Quote <$> qs)).
Proof.
  unfold getV1QuotesAsync, getV2QuotesAsync, getV1PricesAsync, getV2PricesAsync, answerOr.
  split_and!; try (intros e ->; done).
  - destruct (post_v1_quotes request) as [[s d]|e]; [|naive_solver]. simpl.
    destruct (Z.eqb_spec s OK) as [->|N]; [|naive_solver]. destruct d as [[qs|]|]; naive_solver.
  - destruct (post_v2_quotes request) as [[s d]|e]; [|naive_solver]. simpl.
    destruct (Z.eqb_spec s OK) as [->|N]; [|naive_solver]. destruct d as [[qs|]|]; naive_solver.
  - by intros r qs -> -> ->.
  - by intros r qs -> -> ->.
Qed.

End RfqClient.

(** The offering of a pair is one of the listed ones, for the pair in either
    direction and any letter case, and none is listed only if no offering
    matches. *)
Theorem alt_market_of_pair offerings buy sell :
  getAltMarketInfo offerings buy sell = getAltMarketInfo offerings sell buy ∧
  (∀ o, getAltMarketInfo offerings buy sell = Some o →
     o ∈ offerings ∧
     ((toLowerCase buy = toLowerCase (baseAsset o) ∧ toLowerCase sell = toLowerCase (quoteAsset o)) ∨
      (toLowerCase sell = toLowerCase (baseAsset o) ∧ toLowerCase buy = toLowerCase (quoteAsset o)))) ∧
  (getAltMarketInfo offerings buy sell = None →
     Forall (λ o, offersPair buy sell o = false) offerings).
Proof.
  unfold getAltMarketInfo. split_and!.
  - f_equal. apply bfilter_ext. intros o. unfold offersPair. apply orb_comm.
  - intros o Ho. destruct (bfilter (offersPair buy sell) offerings) as [|x l] eqn:E; [done|].
    injection Ho as ->. assert (o ∈ bfilter (offersPair buy sell) offerings) as Hin by (rewrite E; by left).
    apply elem_of_bfilter in Hin as [Hin Hm]. split; [done|]. unfold offersPair in Hm.
    apply orb_true_iff in Hm. rewrite !andb_true_iff, !String.eqb_eq in Hm. naive_solver.
  - intros H. destruct (bfilter (offersPair buy sell) offerings) as [|x l] eqn:E; [|done].
    apply Forall_forall. intros o Ho. destruct (offersPair buy sell o) eqn:Eo; [|done].
    assert (o ∈ bfilter (offersPair buy sell) offerings) as Hin by (by apply elem_of_bfilter).
    rewrite E in Hin. by apply elem_of_nil in Hin.
Qed.
