(* ===== verification/RfqValidator.v ===== *)
(** * Validation of RFQ orders ([services/postgres_rfqt_firm_quote_validator.ts],
    [utils/rfq_blocked_address_utils.ts])

    How much of a signed quote its maker can still fill, from the balances that
    a worker caches in the database, and the cached list of blocked takers.
    The database is a parameter; times are milliseconds. *)

From stdpp Require Import pretty.
From S2P Require Import Prelude JsNumber BigNum Types JsLib PairUtils Fills.

(** ** The interface of a validator *)

Section Interface.
Context {B : BigNumberLib}.

(** [RfqFirmQuoteValidator]. *)
Class RfqFirmQuoteValidator : Type := {
  getRfqtTakerFillableAmountsAsync : list OrderFields → result (list BN);
}.

(** What a client may rely on: one amount per order, within the order. *)
Definition fillable_within (o : OrderFields) (a : BN) : Prop :=
  ∀ m t f, order_ok o m t f → ∃ x, int a x ∧ (0 <= x <= t)%Z.

Class RfqFirmQuoteValidatorLaws `{V : !RfqFirmQuoteValidator} : Prop := {
  validator_amounts orders amounts :
    getRfqtTakerFillableAmountsAsync orders = Ok amounts → Forall2 fillable_within orders amounts;
}.
End Interface.

(** ** [PostgresRfqtFirmQuoteValidator] *)

Section Validator.
Context {B : BigNumberLib}.

(** [MakerBalanceChainCacheEntity]. *)
Record MakerBalanceChainCacheEntity : Type := {
  tokenAddress : string;
  makerAddress : string;
  timeFirstSeen : option Z;
  balance : option BN;
  timeOfSample : option Z;
}.

Definition ZERO : BN := of_Z 0.

Section Postgres.
(** [chainCacheRepository.find], the insertion of new addresses (which skips the
    ones that are there), the time and the expiry threshold. *)
Variable find : string → list string → result (list MakerBalanceChainCacheEntity).
Variable insertAddresses : string → list string → result unit.
Variable nowUnix : Z.
Variable _cacheExpiryThresholdMs : Z.

Definition _calculateMakerBalanceFromResult (r : MakerBalanceChainCacheEntity) : BN :=
  match timeOfSample r with
  | None =>
      let timeFirstSeen := default 0%Z (timeFirstSeen r) in
      let msPassedSinceLastSeen := (nowUnix - timeFirstSeen)%Z in
      if (_cacheExpiryThresholdMs <? msPassedSinceLastSeen)%Z then ZERO
      else of_number (EInf false)
  | Some timeOfSample =>
      if (_cacheExpiryThresholdMs <? nowUnix - timeOfSample)%Z then ZERO
      else default ZERO (balance r)
  end.

Definition makerLookupOf (cacheResults : list MakerBalanceChainCacheEntity) : gmap string BN :=
  fold_left (λ makerLookup r, <[makerAddress r := _calculateMakerBalanceFromResult r]> makerLookup)
    cacheResults ∅.

(** The taker amount of one quote, given the maker's balance. *)
Definition takerFillableAmount (makerTokenBalanceForMaker : option BN) (quote : OrderFields) : BN :=
  match makerTokenBalanceForMaker with
  | None => order_takerAmount quote
  | Some makerBalance =>
      if gte makerBalance (order_makerAmount quote) then order_takerAmount quote
      else if lte (order_makerAmount quote) (of_Z 0) then ZERO
      else
        let partialFillableAmount :=
          integerValue ROUND_DOWN
            (div (times makerBalance (order_takerAmount quote)) (order_makerAmount quote)) in
        if isFinite partialFillableAmount then partialFillableAmount else ZERO
  end.

Definition balanceOf (makerLookup : gmap string BN) (quote : OrderFields) : option BN :=
  makerLookup !! toLowerCase (order_maker quote).

(** [(makerAddressesToAddToCache, takerFillableAmounts)]. *)
Definition _calculateTakerFillableAmountsFromQuotes (quotes : list OrderFields)
    (makerLookup : gmap string BN) : list string * list BN :=
  (uniq ((λ q, toLowerCase (order_maker q)) <$>
           bfilter (λ q, negb (bool_decide (is_Some (balanceOf makerLookup q)))) quotes),
   (λ q, takerFillableAmount (balanceOf makerLookup q) q) <$> quotes).

Definition postgres_getRfqtTakerFillableAmountsAsync (quotes : list OrderFields) : result (list BN) :=
  match uniq ((λ q, toLowerCase (order_makerToken q)) <$> quotes) with
  | [makerToken] =>
      let makerAddresses := uniq ((λ q, toLowerCase (order_maker q)) <$> quotes) in
      cacheResults ← find makerToken makerAddresses;
      let '(makerAddressesToAddToCache, takerFillableAmounts) :=
        _calculateTakerFillableAmountsFromQuotes quotes (makerLookupOf cacheResults) in
      match makerAddressesToAddToCache with
      | [] => Ok takerFillableAmounts
      | _ =>
          _ ← insertAddresses makerToken makerAddressesToAddToCache;
          Ok takerFillableAmounts
      end
  | _ => Ok ((λ _, ZERO) <$> quotes)
  end.

(** ** Balances *)

(** What is known of a maker: nothing, that all of its orders are to be taken
    as fillable, or an integer balance. *)
Inductive known_balance : option BN → option Z → Prop :=
| unknown_maker : known_balance None None
| unlimited b : val b = EInf false → known_balance (Some b) None
| has_balance b z : int b z → (0 <= z)%Z → known_balance (Some b) (Some z).

Definition entity_ok (r : MakerBalanceChainCacheEntity) : Prop :=
  ∀ b, balance r = Some b → ∃ z, int b z ∧ (0 <= z)%Z.

Lemma val_infinity : val (of_number (EInf false)) = EInf false.
Proof.
  pose proof (val_of_number_nonfin (EInf false) eq_refl) as H. by inversion H.
Qed.

Lemma balance_known r :
  entity_ok r → ∃ z, known_balance (Some (_calculateMakerBalanceFromResult r)) z.
Proof.
  intros Hr. assert (known_balance (Some ZERO) (Some 0%Z)) as H0
    by (constructor; [apply fin_Z | lia]).
  unfold _calculateMakerBalanceFromResult. destruct (timeOfSample r) as [sampled|].
  - case_match; [by eexists|]. destruct (balance r) as [b|] eqn:E; [|by eexists].
    destruct (Hr _ E) as (z & Hz & Hz0). eexists. by constructor.
  - case_match; [by eexists|]. eexists. apply unlimited, val_infinity.
Qed.

Lemma makerLookup_known rs k :
  Forall entity_ok rs → ∃ z, known_balance (makerLookupOf rs !! k) z.
Proof.
  unfold makerLookupOf. intros H. assert (∀ m : gmap string BN, (∃ z, known_balance (m !! k) z) →
    ∃ z, known_balance (fold_left (λ m r, <[makerAddress r := _calculateMakerBalanceFromResult r]> m) rs m !! k) z)
    as G.
  { induction H as [|r rs Hr _ IH]; intros m Hm; [done|]. cbn [fold_left]. apply IH.
    destruct (decide (makerAddress r = k)) as [<-|N].
    - rewrite lookup_insert, decide_True by done. by apply balance_known.
    - by rewrite lookup_insert_ne. }
  apply G. rewrite lookup_empty. eexists. constructor.
Qed.

(** The balance of a maker is that of one of its rows. *)
Lemma makerLookup_row rs k :
  (∀ b, makerLookupOf rs !! k = Some b → ∃ r, r ∈ rs ∧ makerAddress r = k ∧ b = _calculateMakerBalanceFromResult r) ∧
  ((∃ r, r ∈ rs ∧ makerAddress r = k) → is_Some (makerLookupOf rs !! k)).
Proof.
  unfold makerLookupOf. induction rs as [|r rs IH] using rev_ind.
  { cbn. split; [intros b; by rewrite lookup_empty | intros (r & Hr & _); by apply elem_of_nil in Hr]. }
  rewrite fold_left_app. cbn [fold_left]. destruct IH as [IH1 IH2]. destruct (decide (makerAddress r = k)) as [<-|N].
  - rewrite lookup_insert, decide_True by done. split; [|by eexists]. intros b [= <-]. exists r.
    split_and!; [|done..]. apply elem_of_app. right. by apply list_elem_of_singleton.
  - rewrite lookup_insert_ne by done. split.
    + intros b (r' & Hr' & H)%IH1. exists r'. split; [|exact H]. apply elem_of_app. by left.
    + intros (r' & Hr' & Hk). apply IH2. exists r'. split; [|exact Hk].
      apply elem_of_app in Hr' as [Hr'|Hr'%list_elem_of_singleton]; [exact Hr' | by subst].
Qed.

(** The largest taker amount whose share of the maker amount the balance covers. *)
Definition fillable (z : option Z) (m t : Z) : Z :=
  match z with
  | None => t
  | Some b => if (m <=? b)%Z then t else (b * t / m)%Z
  end.

Lemma gte_infinity a b x : val a = EInf false → fin b x → gte a b = true.
Proof.
  intros Ha Hb. unfold gte. rewrite lte_val, Ha. unfold fin in Hb. by inversion Hb.
Qed.

Lemma round_down_div_nonneg a b x y :
  int a x → int b y → (0 <= x)%Z → (0 < y <= 10 ^ Z.of_nat DECIMAL_PLACES)%Z →
  int (integerValue ROUND_DOWN (div a b)) (x / y).
Proof.
  intros Ha Hb Hx Hy. pose proof (int_floor_div a b x y Ha Hb Hy) as Hf.
  assert (fin (div a b) (rdiv (inject_Z x) (inject_Z y))) as Hd
    by (apply fin_div; [done..|]; apply int_nonzero; lia).
  assert (0 <= rdiv (inject_Z x) (inject_Z y))%Q as H0.
  { apply round_dp_nonneg. apply Qle_shift_div_l; [change 0%Q with (inject_Z 0); rewrite <- Zlt_Qlt; lia|].
    rewrite Qmult_0_l. change 0%Q with (inject_Z 0). rewrite <- Zle_Qle. lia. }
  unfold int in *. eapply fin_eq; [apply fin_integerValue; exact Hd|].
  eapply (fin_inj _ _ _ (fin_integerValue ROUND_FLOOR _ _ Hd)) in Hf. rewrite <- Hf.
  unfold round_int. by rewrite (proj2 (Qle_bool_iff _ _)).
Qed.

Lemma takerFillable_spec ob z o m t f :
  known_balance ob z → order_ok o m t f →
  int (takerFillableAmount ob o) (fillable z m t) ∧ (0 <= fillable z m t <= t)%Z ∧
  (∀ b, z = Some b → (fillable z m t * m / t <= b)%Z).
Proof.
  intros Hb Ho. pose proof (ok_maker _ _ _ _ Ho) as Hm. pose proof (ok_taker _ _ _ _ Ho) as Ht.
  pose proof (ok_m _ _ _ _ Ho). pose proof (ok_t _ _ _ _ Ho).
  destruct Hb as [|b Hi|b y Hz Hz0]; [| |rename y into z]; unfold takerFillableAmount, fillable.
  - split_and!; [done | lia | lia | done].
  - rewrite (gte_infinity b _ _ Hi Hm). split_and!; [done | lia | lia | done].
  - unfold gte. destruct (Z.leb_spec m z) as [Hle|Hlt].
    + rewrite (proj2 (lte_fin _ _ _ _ Hm Hz)) by (rewrite <- Zle_Qle; lia).
      split_and!; [done | lia | lia|]. intros ? [= <-]. rewrite Z.mul_comm, Z.div_mul by lia. lia.
    + rewrite (proj2 (lte_fin_false _ _ _ _ Hm Hz)) by (rewrite <- Zlt_Qlt; lia).
      rewrite (proj2 (lte_fin_false _ _ _ _ Hm (fin_Z 0)))
        by (rewrite <- Zlt_Qlt; lia).
      assert (int (integerValue ROUND_DOWN (div (times b (order_takerAmount o)) (order_makerAmount o)))
                (z * t / m)) as Hp.
      { apply round_down_div_nonneg; [by apply int_times | done | nia | done]. }
      rewrite (isFinite_fin _ _ Hp).
      assert (0 <= z * t / m)%Z by (apply Z.div_pos; nia).
      assert (z * t / m * m <= z * t)%Z by (pose proof (Z.mul_div_le (z * t) m); lia).
      split_and!; [done | done | |].
      * apply Z.div_le_upper_bound; nia.
      * intros ? [= <-]. apply Z.div_le_upper_bound; nia.
Qed.

(** What a validated amount is, from the cached balance of the maker. *)
Definition validated (cacheResults : list MakerBalanceChainCacheEntity) (o : OrderFields) (a : BN) : Prop :=
  ∃ z, known_balance (balanceOf (makerLookupOf cacheResults) o) z ∧
    ∀ m t f, order_ok o m t f →
      int a (fillable z m t) ∧ (0 <= fillable z m t <= t)%Z ∧
      ∀ b, z = Some b → (fillable z m t * m / t <= b)%Z.

Lemma amounts_validated cacheResults quotes :
  Forall entity_ok cacheResults →
  Forall2 (validated cacheResults) quotes
    (_calculateTakerFillableAmountsFromQuotes quotes (makerLookupOf cacheResults)).2.
Proof.
  intros H. cbn [snd _calculateTakerFillableAmountsFromQuotes]. apply Forall2_fmap_r, Forall_Forall2_diag, Forall_forall.
  intros q _. destruct (makerLookup_known _ (toLowerCase (order_maker q)) H) as [z Hz].
  exists z. split; [exact Hz|]. intros m t f Ho. by eapply takerFillable_spec.
Qed.

Lemma uniq_all_same {A} `{EqDecision A} (l : list A) x :
  l ≠ [] → Forall (λ y, y = x) l → uniq l = [x].
Proof.
  intros Hne H. destruct l as [|y l]; [done|]. apply Forall_cons in H as [-> H].
  unfold uniq. cbn [uniq_from]. rewrite (proj2 (includes_false [] x)) by (by intros ?%elem_of_nil).
  f_equal. assert (∀ seen, x ∈ seen → uniq_from seen l = []) as G.
  { clear Hne. induction H as [|y l' -> _ IH]; intros seen Hs; [done|]. cbn [uniq_from].
    rewrite (proj2 (includes_true seen x)) by done. by apply IH. }
  apply G. set_solver.
Qed.

(** A batch of one maker token is answered from the cached balances. *)
Lemma postgres_amounts quotes makerToken cacheResults :
  quotes ≠ [] → Forall (λ q, toLowerCase (order_makerToken q) = makerToken) quotes →
  find makerToken (uniq ((λ q, toLowerCase (order_maker q)) <$> quotes)) = Ok cacheResults →
  (∀ addresses, is_ok (insertAddresses makerToken addresses) = true) →
  postgres_getRfqtTakerFillableAmountsAsync quotes =
    Ok (_calculateTakerFillableAmountsFromQuotes quotes (makerLookupOf cacheResults)).2.
Proof.
  intros Hne Hmk Hf Hins. unfold postgres_getRfqtTakerFillableAmountsAsync.
  rewrite (uniq_all_same _ makerToken); [|by destruct quotes | by apply Forall_fmap].
  rewrite Hf. cbn [mbind result_bind].
  destruct (_calculateTakerFillableAmountsFromQuotes _ _) as [[|x l] amounts]; [done|].
  specialize (Hins (x :: l)). by destruct (insertAddresses _ _).
Qed.

(** A batch of one maker token is answered with an amount per order: all of it
    for a maker that is unknown, just added or whose balance covers the order,
    otherwise the largest amount whose maker amount the balance covers. *)
Theorem firm_quotes_fit_balances quotes makerToken cacheResults :
  quotes ≠ [] → Forall (λ q, toLowerCase (order_makerToken q) = makerToken) quotes →
  find makerToken (uniq ((λ q, toLowerCase (order_maker q)) <$> quotes)) = Ok cacheResults →
  Forall entity_ok cacheResults →
  (∀ addresses, is_ok (insertAddresses makerToken addresses) = true) →
  ∃ amounts, postgres_getRfqtTakerFillableAmountsAsync quotes = Ok amounts ∧
    Forall2 (validated cacheResults) quotes amounts.
Proof.
  intros Hne Hmk Hf Hok Hins. eexists. split; [by eapply postgres_amounts | by apply amounts_validated].
Qed.

(** A batch that mixes maker tokens is refused: nothing of it is fillable. *)
Theorem mixed_batches_unfillable quotes q1 q2 :
  q1 ∈ quotes → q2 ∈ quotes →
  toLowerCase (order_makerToken q1) ≠ toLowerCase (order_makerToken q2) →
  postgres_getRfqtTakerFillableAmountsAsync quotes = Ok (replicate (length quotes) ZERO).
Proof.
  intros H1 H2 Hne. unfold postgres_getRfqtTakerFillableAmountsAsync.
  assert ((λ _ : OrderFields, ZERO) <$> quotes = replicate (length quotes) ZERO) as <-.
  { clear. induction quotes as [|q qs IH]; [done|]. cbn. by rewrite <- IH. }
  destruct (uniq _) as [|x [|y l]] eqn:E; try done.
  exfalso. assert (∀ q, q ∈ quotes → toLowerCase (order_makerToken q) = x) as G.
  { intros q Hq. assert (toLowerCase (order_makerToken q) ∈ [x]) as Hx.
    { rewrite <- E. apply elem_of_uniq.
      by apply (list_elem_of_fmap_2 (λ q, toLowerCase (order_makerToken q))). }
    by apply list_elem_of_singleton in Hx. }
  apply Hne. by rewrite (G q1), (G q2).
Qed.

(** An order without a maker amount is meant to be refused, but the balance
    covers it, so it is reported as fillable for its whole taker amount. *)
Theorem empty_orders_reported_fillable r q b t :
  int (_calculateMakerBalanceFromResult r) b → (0 <= b)%Z →
  int (order_makerAmount q) 0 → int (order_takerAmount q) t →
  takerFillableAmount (Some (_calculateMakerBalanceFromResult r)) q = order_takerAmount q.
Proof.
  intros Hb H0 Hm Ht. unfold takerFillableAmount, gte.
  by rewrite (proj2 (lte_fin _ _ _ _ Hm Hb)) by (rewrite <- Zle_Qle; lia).
Qed.

(** A balance that the worker has not refreshed within the threshold counts as
    none, and so does an address that it has not sampled within it. *)
Theorem stale_balances_count_as_zero r :
  (∀ sampled, timeOfSample r = Some sampled → (_cacheExpiryThresholdMs < nowUnix - sampled)%Z →
     _calculateMakerBalanceFromResult r = ZERO) ∧
  (timeOfSample r = None →
     (_cacheExpiryThresholdMs < nowUnix - default 0%Z (timeFirstSeen r))%Z →
     _calculateMakerBalanceFromResult r = ZERO).
Proof.
  unfold _calculateMakerBalanceFromResult.
  split; [intros s -> H | intros -> H]; by rewrite (proj2 (Z.ltb_lt _ _) H).
Qed.

(** The validator keeps the promise of the interface. *)
#[local] Instance PostgresRfqtFirmQuoteValidator : RfqFirmQuoteValidator :=
  {| getRfqtTakerFillableAmountsAsync := postgres_getRfqtTakerFillableAmountsAsync |}.

Lemma postgres_validator_laws :
  (∀ token makers rs, find token makers = Ok rs → Forall entity_ok rs) → RfqFirmQuoteValidatorLaws.
Proof.
  intros Hfind. split. intros orders amounts H. cbn in H.
  unfold postgres_getRfqtTakerFillableAmountsAsync in H.
  assert (Forall2 fillable_within orders ((λ _, ZERO) <$> orders)) as Hz.
  { apply Forall2_fmap_r, Forall_Forall2_diag, Forall_forall. intros o _ m t f Ho. exists 0%Z.
    split; [apply fin_Z | pose proof (ok_t _ _ _ _ Ho); lia]. }
  destruct (uniq _) as [|makerToken [|y l]] in H; [by apply Ok_inj in H as <- | | by apply Ok_inj in H as <-].
  apply result_bind_ok in H as (rs & Hf & H). apply Hfind in Hf.
  pose proof (amounts_validated rs orders Hf) as Hv.
  destruct (_calculateTakerFillableAmountsFromQuotes orders (makerLookupOf rs)) as [add ams].
  assert (ams = amounts) as ->.
  { destruct add; [by apply Ok_inj in H|]. by apply result_bind_ok in H as (_ & _ & ->%Ok_inj). }
  eapply Forall2_impl; [exact Hv|]. intros o a (z & _ & Hs) m t f Ho.
  destruct (Hs _ _ _ Ho) as (Ha & Hr & _). by eexists.
Qed.
End Postgres.
End Validator.

(** ** [RfqBlockedAddressUtils] *)

Module RfqBlockedAddressUtils.
Definition MAX_SET_SIZE : nat := 5000.

(** The blocked addresses, the time until which they are current, and whether
    an update is running. *)
Record t : Type := { _blocked : gset string; _expiresAt : Z; _updating : bool }.

Definition new (initialBlockedSet : gset string) (now : Z) : t :=
  {| _blocked := initialBlockedSet; _expiresAt := now; _updating := false |}.

(** Whether the address is blocked, and the state with the update that the
    query may have started. *)
Definition isBlocked (now : Z) (address : string) (this : t) : bool * t :=
  let startsUpdate := (_expiresAt this <? now)%Z && negb (_updating this) in
  (bool_decide (toLowerCase address ∈ _blocked this),
   {| _blocked := _blocked this; _expiresAt := _expiresAt this;
      _updating := _updating this || startsUpdate |}).

(** The end of [_updateBlockedSetAsync], when the query of the table answers at
    [now]; a failing query rejects the promise that nobody awaits. *)
Definition completeUpdate (ttlMs now : Z) (answer : result (list string)) (this : t) : t :=
  match answer with
  | Throw _ => this
  | Ok addresses =>
      {| _blocked := list_to_set (toLowerCase <$> take MAX_SET_SIZE addresses);
         _expiresAt := (now + ttlMs)%Z; _updating := false |}
  end.

(** A run: queries at any time, and the answer of each update that a query has
    started; [pending] tells whether one is outstanding. *)
Inductive step (ttlMs : Z) : t * bool → t * bool → Prop :=
| query now address s pending :
    step ttlMs (s, pending)
      ((isBlocked now address s).2,
       pending || ((_expiresAt s <? now)%Z && negb (_updating s)))
| answers now answer s :
    step ttlMs (s, true) (completeUpdate ttlMs now answer s, false).

(** Updates never overlap: one is outstanding only while the flag is set. *)
Lemma pending_updating ttlMs s0 now s pending :
  rtc (step ttlMs) (new s0 now, false) (s, pending) → pending = true → _updating s = true.
Proof.
  intros H. cut (∀ x y, rtc (step ttlMs) x y → (x.2 = true → _updating x.1 = true) →
    (y.2 = true → _updating y.1 = true)).
  { intros G. apply (G _ _ H). done. }
  clear. induction 1 as [|x y z Hs _ IH]; [done|]. intros Hx. apply IH. clear IH.
  destruct Hs as [now address s pending | now answer s]; simpl in *; [|done].
  rewrite !orb_true_iff. tauto.
Qed.

(** A query answers from the set it has; a stale one starts an update, unless
    one is running, and an update that succeeds installs the addresses of the
    table, compared without letter case, until the time to live has passed. *)
Theorem blocked_addresses_refresh ttlMs now later s addresses address :
  (isBlocked now address s).1 = bool_decide (toLowerCase address ∈ _blocked s) ∧
  _blocked (isBlocked now address s).2 = _blocked s ∧
  ((_expiresAt s < now)%Z → _updating (isBlocked now address s).2 = true) ∧
  (let s' := completeUpdate ttlMs now (Ok addresses) s in
   _updating s' = false ∧
   ((length addresses <= MAX_SET_SIZE)%nat →
    (isBlocked later address s').1 = true ↔ toLowerCase address ∈ toLowerCase <$> addresses) ∧
   ((later <= now + ttlMs)%Z → _updating (isBlocked later address s').2 = false)).
Proof.
  split_and!; [done | done | |].
  - intros H. cbn. rewrite (proj2 (Z.ltb_lt _ _) H). cbn. by destruct (_updating s).
  - cbn -[MAX_SET_SIZE]. split_and!; [done | |].
    + intros Hl. rewrite take_ge by done. rewrite bool_decide_eq_true. by rewrite elem_of_list_to_set.
    + intros Hl. by rewrite (proj2 (Z.ltb_ge _ _)).
Qed.

(** A failing update leaves the flag set: from then on the blocked addresses
    never change again, whatever is queried. *)
Theorem failed_update_blocks_refresh ttlMs s0 start now e s s' pending' :
  rtc (step ttlMs) (new s0 start, false) (s, true) →
  rtc (step ttlMs) (completeUpdate ttlMs now (Throw e) s, false) (s', pending') →
  _blocked s' = _blocked s ∧ _updating s' = true.
Proof.
  intros Hs%pending_updating Hr; [|done]. cbn [completeUpdate] in Hr.
  cut (∀ x y, rtc (step ttlMs) x y → x.2 = false → _updating x.1 = true →
    y.2 = false ∧ _blocked y.1 = _blocked x.1 ∧ _updating y.1 = true).
  { intros G. destruct (G _ _ Hr eq_refl Hs) as (_ & H). exact H. }
  clear. induction 1 as [x|x y z Hs _ IH]; [done|]. intros Hp Hu.
  assert (y.2 = false ∧ _blocked y.1 = _blocked x.1 ∧ _updating y.1 = true) as (Hp' & Hb & Hu').
  { destruct Hs as [now address s pending | now answer s]; cbn [fst snd] in *; [|done].
    subst pending. cbn. rewrite Hu, andb_false_r. by split_and!. }
  rewrite <- Hb. by apply IH.
Qed.
End RfqBlockedAddressUtils.

(** ** Concrete runs *)
Import Concrete.

(** A maker that holds half of what its order gives. *)
Definition ex_entity : MakerBalanceChainCacheEntity :=
  {| tokenAddress := "0xm"; makerAddress := "0xmaker"; timeFirstSeen := Some 0%Z;
     balance := Some (of_Z 500); timeOfSample := Some 90%Z |}.
Definition ex_find (_ : string) (_ : list string) : result (list MakerBalanceChainCacheEntity) := Ok [ex_entity].
Definition ex_insert (_ : string) (_ : list string) : result unit := Ok tt.

Lemma firm_quotes_fit_balances_witness :
  ∃ a, postgres_getRfqtTakerFillableAmountsAsync ex_find ex_insert 100 60 [ex_order] = Ok [a] ∧
    validated 100 60 [ex_entity] ex_order a.
Proof.
  destruct (firm_quotes_fit_balances ex_find ex_insert 100 60 [ex_order]
    (toLowerCase (order_makerToken ex_order)) [ex_entity]) as (amounts & H1 & H2).
  - discriminate.
  - repeat constructor.
  - reflexivity.
  - repeat constructor. intros b [= <-]. exists 500%Z. split; [apply (fin_Z (B := QBigNumber)) | lia].
  - reflexivity.
  - apply Forall2_cons_inv_l in H2 as (a & rest & Ha & Hr & ->). apply Forall2_nil_inv_l in Hr as ->.
    exists a. split; [exact H1 | exact Ha].
Defined.

Lemma failed_update_blocks_refresh_witness :
  ∃ s s' : RfqBlockedAddressUtils.t,
    rtc (RfqBlockedAddressUtils.step 10) (RfqBlockedAddressUtils.new ∅ 0, false) (s, true) ∧
    rtc (RfqBlockedAddressUtils.step 10) (RfqBlockedAddressUtils.completeUpdate 10 6 (Throw TypeError) s, false) (s', false) ∧
    RfqBlockedAddressUtils._blocked s' = RfqBlockedAddressUtils._blocked s ∧
    RfqBlockedAddressUtils._updating s' = true.
Proof.
  set (s := (RfqBlockedAddressUtils.isBlocked 5 "0xa" (RfqBlockedAddressUtils.new ∅ 0)).2).
  set (s' := (RfqBlockedAddressUtils.isBlocked 50 "0xa" s).2).
  assert (rtc (RfqBlockedAddressUtils.step 10) (RfqBlockedAddressUtils.new ∅ 0, false) (s, true)) as H1.
  { apply rtc_once. apply (RfqBlockedAddressUtils.query 10 5 "0xa" (RfqBlockedAddressUtils.new ∅ 0) false). }
  assert (rtc (RfqBlockedAddressUtils.step 10)
    (RfqBlockedAddressUtils.completeUpdate 10 6 (Throw TypeError) s, false) (s', false)) as H2.
  { apply rtc_once. apply (RfqBlockedAddressUtils.query 10 50 "0xa" s false). }
  exists s, s'. split; [exact H1|]. split; [exact H2|].
  exact (RfqBlockedAddressUtils.failed_update_blocks_refresh 10 ∅ 0 6 TypeError s s' false H1 H2).
Defined.
