(* ===== verification/MarketOps.v ===== *)
(** * Market operations ([MOU/index.ts])

    From a request to the path that settles it: the sampled liquidity of the
    pair, the first routing over it, the RFQ quotes that are asked for against
    it, the second routing that mixes them in, and the reports. *)

From S2P Require Import Prelude JsNumber BigNum Types SourceFilters Fills Orders Constants.
From S2P Require Import JsLib PairUtils TokenGraph Caches BridgeSources Sampler SamplerOperations.
From S2P Require Import PathModel Optimizer SlippageModel QuoteReport RfqClient RfqValidator.

Section MarketOps.
Context {B : BigNumberLib} `{BT : !BridgeTables} `{SC : !SamplerContract}.

(** The collaborators outside the repository: ethers, the neon router, random
    identifiers, the unit conversion of Web3 and the decimal parser. *)
Variable formatBytes32String : string → string.
Variable route : PathOptimizer.OptimizerCapture → nat → result PathOptimizer.RouterArrays.
Variable hexUtils_random : nat → string.
Variable orderType_string : FillQuoteTransformerOrderType → string.
Variable toUnitAmount : BN → number → BN.
Variable bn_of_string : string → BN.

(** ** Options *)

(** [GetMarketOrdersRfqOpts]. *)
Record GetMarketOrdersRfqOpts : Type := {
  takerAddress : string;
  txOrigin : string;
  integratorId : string;
  intentOnFilling : bool;
  isIndicative : bool;
  nativeExclusivelyRFQ : bool;
  altRfqAssetOfferings : option AltRfqMakerAssetOfferings;
  quoteRequestor : option QuoteRequestor.t;
  rfqClient : option RfqApi;
  firmQuoteValidator : option RfqFirmQuoteValidator;
}.

(** [GetMarketOrdersOpts] with the defaults filled in; [nativeRfqFee] is what
    the fee schedule gives for [{ type: Rfq }], or the exception it throws. *)
Record GetMarketOrdersOpts {F : Type} : Type := {
  excludedSources : list ERC20BridgeSource;
  includedSources : list ERC20BridgeSource;
  numSamples : nat;
  sampleDistributionBase : number;
  neonRouterNumSamples : nat;
  feeSchedule : FeeSchedule;
  nativeRfqFee : result BN;
  exchangeProxyOverhead : ExchangeProxyOverhead;
  rfqt : option GetMarketOrdersRfqOpts;
  shouldGenerateQuoteReport : bool;
  fillAdjustor : F;
}.
#[global] Arguments GetMarketOrdersOpts F : clear implicits.

(** ** Results *)

Record MarketSideLiquidity : Type := {
  msl_side : MarketOperation;
  msl_inputAmount : BN;
  msl_inputToken : string;
  msl_outputToken : string;
  msl_outputAmountPerEth : BN;
  msl_inputAmountPerEth : BN;
  quoteSourceFilters : SourceFilters.t;
  makerTokenDecimals : number;
  takerTokenDecimals : number;
  quotes : RawQuotes;
  isRfqSupported : bool;
  blockNumber : number;
  samplerGasUsage : number;
}.

Record OptimizerResult : Type := {
  result_path : Path.t;
  marketSideLiquidity : MarketSideLiquidity;
  takerAmountPerEth : BN;
  makerAmountPerEth : BN;
}.

Record OptimizerResultWithReport : Type := {
  optimizerResult : OptimizerResult;
  quoteReport : option QuoteReport;
  extendedQuoteReportSources : ExtendedQuoteReportSources;
}.

Definition NoOptimalPath : js_error := Error "NO_OPTIMAL_PATH".

(** [constants.INVALID_SIGNATURE]. *)
Definition EMPTY_BYTES32 : string := "0x0000000000000000000000000000000000000000000000000000000000000000".
Definition INVALID_SIGNATURE : Signature := {| sig_v := 1; sig_r := EMPTY_BYTES32; sig_s := EMPTY_BYTES32 |}.

Definition ONE_ETHER : BN := of_Z (10 ^ 18).
Definition NATIVE_FEE_TOKEN_AMOUNT_BY_CHAIN_ID : ChainId → BN :=
  let tenth := times ONE_ETHER (of_number (round64 (1 # 10))) in
  valueByChainId [(ChainId.Mainnet, tenth); (ChainId.Optimism, tenth); (ChainId.Arbitrum, tenth)] ONE_ETHER.

Section MarketOperationUtils.
(** The fields of the class; the filters, the fee sources and the native token
    are those of the chain of the sampler. *)
Variable sampler : SamplerOperations.t.
Variable exchangeProxy : string.

Definition chain : ChainId := SamplerOperations.chainId sampler.
Definition _buySources : SourceFilters.t := BUY_SOURCE_FILTER_BY_CHAIN_ID chain.
Definition _sellSources : SourceFilters.t := SELL_SOURCE_FILTER_BY_CHAIN_ID chain.
Definition _feeSources : list ERC20BridgeSource := FEE_QUOTE_SOURCES_BY_CHAIN_ID chain.
Definition _nativeFeeToken : string := NATIVE_FEE_TOKEN_BY_CHAIN_ID chain.
Definition _nativeFeeTokenAmount : BN := NATIVE_FEE_TOKEN_AMOUNT_BY_CHAIN_ID chain.

(** ** Small steps *)

Definition isMicroSwap (inputAmount inputAmountPerNativeWei : BN) : bool :=
  match chain with
  | ChainId.Optimism =>
      let inputTokenValueInNativeWei := div inputAmount inputAmountPerNativeWei in
      gt (times _nativeFeeTokenAmount (of_number (round64 (1 # 100)))) inputTokenValueInNativeWei
  | _ => false
  end.

Definition computeGasUsed (gasLimit gasLeft : BN) : BN := minus gasLimit gasLeft.

Definition bothHops (q : DexSample) : bool :=
  match sample_fillData q with FDMultiHop (Some _) (Some _) _ => true | _ => false end.

Definition filterTwoHopQuotes (twoHopQuotesList : list (list DexSample)) (isMicroSwap : bool)
    : list (list DexSample) :=
  if isMicroSwap then []
  else bfilter SourceFilters.non_empty (bfilter bothHops <$> twoHopQuotesList).

Definition filterOutDexQuotes (dexQuotes : list (list DexSample)) (isMicroSwap : bool)
    : list (list DexSample) :=
  bfilter (λ samples, match samples with
                      | [] => false
                      | s :: _ => negb isMicroSwap || includes _feeSources (sample_source s)
                      end) dexQuotes.

(** [new SourceFilters().exclude(...).include(...)], merged into the chain's. *)
Definition quoteSourceFiltersOf {F} (sources : SourceFilters.t) (opts : GetMarketOrdersOpts F)
    : SourceFilters.t :=
  SourceFilters.merge sources
    (SourceFilters.include (SourceFilters.exclude SourceFilters.empty (excludedSources opts))
       (includedSources opts)).

(** [(_opts.rfqt && _opts.rfqt.txOrigin) || NULL_ADDRESS]. *)
Definition txOriginOf {F} (opts : GetMarketOrdersOpts F) : string :=
  match rfqt opts with
  | Some r => if String.eqb (txOrigin r) "" then NULL_ADDRESS else txOrigin r
  | None => NULL_ADDRESS
  end.

Definition bestNativeRate {F} (token : string) (opts : GetMarketOrdersOpts F)
    : result (BatchedOperation BN) :=
  getBestNativeTokenSellRate formatBytes32String sampler _feeSources token _nativeFeeToken
    _nativeFeeTokenAmount (feeSchedule opts).

Definition getTokenAmountPerWei {F} (tokenAddress : string) (opts : GetMarketOrdersOpts F) : result BN :=
  op ← bestNativeRate tokenAddress opts;
  rates ← executeBatchAsync [op];
  match rates with [rate] => Ok rate | _ => Throw TypeError end.

(** ** Liquidity *)

(** The answers of [executeAsync(...)], by kind. *)
Inductive Answer : Type :=
| AAmount (a : BN) | AAmounts (l : list BN) | AQuotes (q : list (list DexSample)) | ABool (b : bool).

Record MarketAnswers : Type := {
  ans_blockNumber : BN;
  ans_gasLimit : BN;
  ans_tokenDecimals : list BN;
  ans_orderFillableAmounts : list BN;
  ans_makerAmountPerEth : BN;
  ans_takerAmountPerEth : BN;
  ans_dexQuotes : list (list DexSample);
  ans_rawTwoHopQuotes : list (list DexSample);
  ans_isTxOriginContract : bool;
  ans_gasLeft : BN;
}.

(** The one call of the sampler, with the operations of the side. *)
Definition sampleMarket {F} (makerToken takerToken : string) (opts : GetMarketOrdersOpts F)
    (orderFillableAmounts : BatchedOperation (list BN))
    (quotes twoHopQuotes : result (BatchedOperation (list (list DexSample)))) : result MarketAnswers :=
  makerRate ← bestNativeRate makerToken opts;
  takerRate ← bestNativeRate takerToken opts;
  quotesOp ← quotes;
  twoHopOp ← twoHopQuotes;
  answers ← executeBatchAsync
    [op_map AAmount getBlockNumber; op_map AAmount getGasLeft;
     op_map AAmounts (getTokenDecimals [makerToken; takerToken]);
     op_map AAmounts orderFillableAmounts; op_map AAmount makerRate; op_map AAmount takerRate;
     op_map AQuotes quotesOp; op_map AQuotes twoHopOp;
     op_map ABool (isAddressContract (txOriginOf opts)); op_map AAmount getGasLeft];
  match answers with
  | [AAmount blockNumber; AAmount gasLimit; AAmounts tokenDecimals; AAmounts fillable;
     AAmount makerAmountPerEth; AAmount takerAmountPerEth; AQuotes dexQuotes; AQuotes twoHopQuotes;
     ABool isTxOriginContract; AAmount gasLeft] =>
      Ok {| ans_blockNumber := blockNumber; ans_gasLimit := gasLimit;
            ans_tokenDecimals := tokenDecimals; ans_orderFillableAmounts := fillable;
            ans_makerAmountPerEth := makerAmountPerEth; ans_takerAmountPerEth := takerAmountPerEth;
            ans_dexQuotes := dexQuotes; ans_rawTwoHopQuotes := twoHopQuotes;
            ans_isTxOriginContract := isTxOriginContract; ans_gasLeft := gasLeft |}
  | _ => Throw TypeError
  end.

Definition orderAndSignature (o : SignedNativeOrder) : OrderFields * Signature :=
  (signed_order o, signed_signature o).

Definition withFillableAmounts (o : SignedNativeOrder) (fa : FillableAmounts)
    : NativeOrderWithFillableAmounts :=
  {| native_order := signed_order o; native_type := signed_type o; native_signature := signed_signature o;
     fillableMakerAmount := fa_maker fa; fillableTakerAmount := fa_taker fa;
     fillableTakerFeeAmount := fa_takerFee fa |}.

(** [limitOrders.map((order, i) => ({ ...order, ...adjust(order, amounts[i]) }))]. *)
Definition limitOrdersWithFillableAmounts
    (adjust : OrderFields → FillQuoteTransformerOrderType → BN → FillableAmounts)
    (limitOrders : list SignedNativeOrder) (amounts : list BN) : result (list NativeOrderWithFillableAmounts) :=
  mapM (λ '(i, o), match amounts !! (i : nat) with
                   | Some a => Ok (withFillableAmounts o (adjust (signed_order o) (signed_type o) a))
                   | None => Throw TypeError
                   end) (imap pair limitOrders).

(** [tokenDecimals[i].toNumber()]. *)
Definition decimalsAt (tokenDecimals : list BN) (i : nat) : result number :=
  match tokenDecimals !! i with Some d => Ok (toNumber d) | None => Throw TypeError end.

Definition twoHopSources (filters : SourceFilters.t) : list ERC20BridgeSource :=
  if SourceFilters.isAllowed filters ERC20BridgeSource.MultiHop
  then SourceFilters.sources filters else [].

Definition getMarketSellLiquidity {F} (makerToken takerToken : string)
    (limitOrders : list SignedNativeOrder) (takerAmount : BN) (opts : GetMarketOrdersOpts F)
    : result MarketSideLiquidity :=
  let sampleAmounts := getSampleAmounts takerAmount (numSamples opts) (sampleDistributionBase opts) in
  let filters := quoteSourceFiltersOf _sellSources opts in
  a ← sampleMarket makerToken takerToken opts
        (getLimitOrderFillableTakerAmounts (orderAndSignature <$> limitOrders) exchangeProxy)
        (getSellQuotes formatBytes32String sampler (SourceFilters.sources filters) makerToken takerToken
           sampleAmounts)
        (getTwoHopSellQuotes formatBytes32String sampler (twoHopSources filters) makerToken takerToken
           [takerAmount]);
  let gasUsed := computeGasUsed (ans_gasLimit a) (ans_gasLeft a) in
  let micro := isMicroSwap takerAmount (ans_takerAmountPerEth a) in
  let isRfqSupported := bool_decide (is_Some (rfqt opts)) && negb (ans_isTxOriginContract a) in
  orders ← limitOrdersWithFillableAmounts getNativeAdjustedFillableAmountsFromTakerAmount
             limitOrders (ans_orderFillableAmounts a);
  makerDecimals ← decimalsAt (ans_tokenDecimals a) 0;
  takerDecimals ← decimalsAt (ans_tokenDecimals a) 1;
  Ok {| msl_side := Sell; msl_inputAmount := takerAmount; msl_inputToken := takerToken;
        msl_outputToken := makerToken; msl_outputAmountPerEth := ans_makerAmountPerEth a;
        msl_inputAmountPerEth := ans_takerAmountPerEth a; quoteSourceFilters := filters;
        makerTokenDecimals := makerDecimals; takerTokenDecimals := takerDecimals;
        quotes := {| raw_nativeOrders := orders; raw_rfqtIndicativeQuotes := [];
                     raw_twoHopQuotes := filterTwoHopQuotes (ans_rawTwoHopQuotes a) micro;
                     raw_dexQuotes := filterOutDexQuotes (ans_dexQuotes a) micro |};
        isRfqSupported := isRfqSupported; blockNumber := toNumber (ans_blockNumber a);
        samplerGasUsage := toNumber gasUsed |}.

Definition getMarketBuyLiquidity {F} (makerToken takerToken : string)
    (limitOrders : list SignedNativeOrder) (makerAmount : BN) (opts : GetMarketOrdersOpts F)
    : result MarketSideLiquidity :=
  let sampleAmounts := getSampleAmounts makerAmount (numSamples opts) (sampleDistributionBase opts) in
  let filters := quoteSourceFiltersOf _buySources opts in
  a ← sampleMarket makerToken takerToken opts
        (getLimitOrderFillableMakerAmounts (orderAndSignature <$> limitOrders) exchangeProxy)
        (getBuyQuotes formatBytes32String sampler (SourceFilters.sources filters) makerToken takerToken
           sampleAmounts)
        (getTwoHopBuyQuotes formatBytes32String sampler (twoHopSources filters) makerToken takerToken
           [makerAmount]);
  let gasUsed := computeGasUsed (ans_gasLimit a) (ans_gasLeft a) in
  let micro := isMicroSwap makerAmount (ans_makerAmountPerEth a) in
  let isRfqSupported := negb (ans_isTxOriginContract a) in
  orders ← limitOrdersWithFillableAmounts getNativeAdjustedFillableAmountsFromMakerAmount
             limitOrders (ans_orderFillableAmounts a);
  makerDecimals ← decimalsAt (ans_tokenDecimals a) 0;
  takerDecimals ← decimalsAt (ans_tokenDecimals a) 1;
  Ok {| msl_side := Buy; msl_inputAmount := makerAmount; msl_inputToken := makerToken;
        msl_outputToken := takerToken; msl_outputAmountPerEth := ans_takerAmountPerEth a;
        msl_inputAmountPerEth := ans_makerAmountPerEth a; quoteSourceFilters := filters;
        makerTokenDecimals := makerDecimals; takerTokenDecimals := takerDecimals;
        quotes := {| raw_nativeOrders := orders; raw_rfqtIndicativeQuotes := [];
                     raw_twoHopQuotes := filterTwoHopQuotes (ans_rawTwoHopQuotes a) micro;
                     raw_dexQuotes := filterOutDexQuotes (ans_dexQuotes a) micro |};
        isRfqSupported := isRfqSupported; blockNumber := toNumber (ans_blockNumber a);
        samplerGasUsage := toNumber gasUsed |}.

Definition getMarketLiquidity {F} (side : MarketOperation) (makerToken takerToken : string)
    (limitOrders : list SignedNativeOrder) (amount : BN) (opts : GetMarketOrdersOpts F)
    : result MarketSideLiquidity :=
  match side with
  | Sell => getMarketSellLiquidity makerToken takerToken limitOrders amount opts
  | Buy => getMarketBuyLiquidity makerToken takerToken limitOrders amount opts
  end.

(** [_refreshPoolCacheIfRequiredAsync]: the caches after the requests it starts
    at [now] have answered. *)
Definition _refreshPoolCacheIfRequiredAsync (poolCacheTimeMs poolTimeoutMs swapCacheTimeMs now done : Z)
    (pools : result (list string)) (swaps : result BalancerSwaps) (takerToken makerToken : string)
    : SamplerOperations.t :=
  {| SamplerOperations.chainId := SamplerOperations.chainId sampler;
     balancerCache :=
       if IPoolsCache.isFresh now (balancerCache sampler) takerToken makerToken
       then balancerCache sampler
       else (IPoolsCache.getFreshPoolsForPairAsync poolCacheTimeMs poolTimeoutMs now done pools
               (balancerCache sampler) takerToken makerToken).2;
     balancerV2Cache :=
       (λ cache, if SwapInfoCache.isFresh EMPTY_BALANCER_SWAPS now cache takerToken makerToken then cache
                 else (SwapInfoCache._getAndSaveFreshSwapInfoForPairAsync swapCacheTimeMs now done swaps
                         cache takerToken makerToken).2) <$> balancerV2Cache sampler;
     tokenAdjacencyGraph := tokenAdjacencyGraph sampler;
     aaveV2ReservesCache := aaveV2ReservesCache sampler;
     aaveV3ReservesCache := aaveV3ReservesCache sampler;
     compoundCTokenCache := compoundCTokenCache sampler;
     _bancorService := _bancorService sampler |}.

(** ** Routing *)

(** [GenerateOptimizedOrdersOpts]; the gas price is not read. *)
Record GenerateOptimizedOrdersOpts {F : Type} : Type := {
  gen_feeSchedule : FeeSchedule;
  gen_exchangeProxyOverhead : ExchangeProxyOverhead;
  gen_neonRouterNumSamples : nat;
  gen_fillAdjustor : F;
}.
#[global] Arguments GenerateOptimizedOrdersOpts F : clear implicits.

(** [new RfqOrder({ ...q })], with the default maker. *)
Definition augmentedIndicativeQuote (q : V4RFQIndicativeQuoteMM) : NativeOrderWithFillableAmounts :=
  {| native_order :=
       {| order_makerToken := ind_makerToken q; order_takerToken := ind_takerToken q;
          order_makerAmount := ind_makerAmount q; order_takerAmount := ind_takerAmount q;
          order_takerTokenFeeAmount := ZERO_AMOUNT; order_maker := NULL_ADDRESS;
          order_expiry := ind_expiry q |};
     native_signature := INVALID_SIGNATURE;
     fillableMakerAmount := ind_makerAmount q; fillableTakerAmount := ind_takerAmount q;
     fillableTakerFeeAmount := ZERO_AMOUNT; native_type := FillQuoteTransformerOrderType.Rfq |}.

Definition pathOptimizer {F} `{!FillAdjustor F} (liquidity : MarketSideLiquidity)
    (opts : GenerateOptimizedOrdersOpts F) : PathOptimizer.t :=
  {| PathOptimizer.pathContext :=
       {| ctx_side := msl_side liquidity; ctx_inputToken := msl_inputToken liquidity;
          ctx_outputToken := msl_outputToken liquidity |};
     PathOptimizer.chainId := chain;
     PathOptimizer.feeSchedule := gen_feeSchedule opts;
     PathOptimizer.neonRouterNumSamples := gen_neonRouterNumSamples opts;
     PathOptimizer.adjustFills := adjustFills (gen_fillAdjustor opts);
     PathOptimizer.pathPenaltyOpts :=
       {| Path.outputAmountPerEth := msl_outputAmountPerEth liquidity;
          Path.inputAmountPerEth := msl_inputAmountPerEth liquidity;
          Path.exchangeProxyOverhead := gen_exchangeProxyOverhead opts |};
     PathOptimizer.inputAmount := msl_inputAmount liquidity |}.

Definition generateOptimizedOrders {F} `{!FillAdjustor F} (liquidity : MarketSideLiquidity)
    (opts : GenerateOptimizedOrdersOpts F) : result OptimizerResult :=
  let q := quotes liquidity in
  optimalPath ← PathOptimizer.findOptimalPathFromSamples route hexUtils_random orderType_string
    (pathOptimizer liquidity opts) (raw_dexQuotes q) (raw_twoHopQuotes q)
    (raw_nativeOrders q ++ (augmentedIndicativeQuote <$> raw_rfqtIndicativeQuotes q));
  match optimalPath with
  | None => Throw NoOptimalPath
  | Some path =>
      Ok {| result_path := path; marketSideLiquidity := liquidity;
            takerAmountPerEth := match msl_side liquidity with
                                 | Sell => msl_inputAmountPerEth liquidity
                                 | Buy => msl_outputAmountPerEth liquidity end;
            makerAmountPerEth := match msl_side liquidity with
                                 | Sell => msl_outputAmountPerEth liquidity
                                 | Buy => msl_inputAmountPerEth liquidity end |}
  end.

Definition optimizerOptsOf {F G} (opts : GetMarketOrdersOpts F) (adjustor : G)
    : GenerateOptimizedOrdersOpts G :=
  {| gen_feeSchedule := feeSchedule opts; gen_exchangeProxyOverhead := exchangeProxyOverhead opts;
     gen_neonRouterNumSamples := neonRouterNumSamples opts; gen_fillAdjustor := adjustor |}.

Definition wholeOrderPriceOf {F} (liquidity : MarketSideLiquidity) (amount : BN)
    (opts : GetMarketOrdersOpts F) (r : OptimizerResult) : option BN :=
  getComparisonPrices toUnitAmount (Path.adjustedRate (result_path r)) amount
    {| liq_side := msl_side liquidity; liq_outputAmountPerEth := msl_outputAmountPerEth liquidity;
       liq_inputAmountPerEth := msl_inputAmountPerEth liquidity;
       liq_makerTokenDecimals := makerTokenDecimals liquidity;
       liq_takerTokenDecimals := takerTokenDecimals liquidity |}
    (nativeRfqFee opts) (λ flags, Ok (exchangeProxyOverhead opts flags)).

(** [(optimizerResult, wholeOrderPrice)]: a missing path is no error yet. *)
Definition getPhaseOneRoutingResult {F} (liquidity : MarketSideLiquidity) (amount : BN)
    (opts : GetMarketOrdersOpts F) : result (option OptimizerResult * option BN) :=
  match generateOptimizedOrders liquidity (optimizerOptsOf opts NewIdentityFillAdjustor) with
  | Ok r => Ok (Some r, wholeOrderPriceOf liquidity amount opts r)
  | Throw e => if decide (e = NoOptimalPath) then Ok (None, None) else Throw e
  end.

(** The quotes of the second phase: only the sources chosen in the first. *)
Definition phase1OptimalSources (phaseOne : option OptimizerResult) : list ERC20BridgeSource :=
  match phaseOne with
  | Some r => opt_source <$> Path.getOrders (result_path r)
  | None => []
  end.

Definition with_quotes (liquidity : MarketSideLiquidity) (q : RawQuotes) : MarketSideLiquidity :=
  {| msl_side := msl_side liquidity; msl_inputAmount := msl_inputAmount liquidity;
     msl_inputToken := msl_inputToken liquidity; msl_outputToken := msl_outputToken liquidity;
     msl_outputAmountPerEth := msl_outputAmountPerEth liquidity;
     msl_inputAmountPerEth := msl_inputAmountPerEth liquidity;
     quoteSourceFilters := quoteSourceFilters liquidity;
     makerTokenDecimals := makerTokenDecimals liquidity;
     takerTokenDecimals := takerTokenDecimals liquidity;
     quotes := q; isRfqSupported := isRfqSupported liquidity;
     blockNumber := blockNumber liquidity; samplerGasUsage := samplerGasUsage liquidity |}.

Definition phase2MarketSideLiquidity (liquidity : MarketSideLiquidity)
    (phaseOne : option OptimizerResult) : MarketSideLiquidity :=
  let q := quotes liquidity in
  with_quotes liquidity
    {| raw_nativeOrders := raw_nativeOrders q; raw_rfqtIndicativeQuotes := raw_rfqtIndicativeQuotes q;
       raw_twoHopQuotes := raw_twoHopQuotes q;
       raw_dexQuotes :=
         bfilter (λ q, match q with
                       | [] => false
                       | s :: _ => includes (phase1OptimalSources phaseOne) (sample_source s)
                       end) (raw_dexQuotes q) |}.

(** ** RFQ *)

(** The request for RFQ prices and quotes. *)
Definition rfqRequest (r : GetMarketOrdersRfqOpts) (makerToken takerToken : string) (amount : BN)
    (side : MarketOperation) (wholeOrderPrice : option BN) : RfqRequest :=
  {| req_altRfqAssetOfferings :=
       Some (filterOfferings (default [] (altRfqAssetOfferings r)) makerToken takerToken);
     req_assetFillAmount := amount; req_chainId := chain; req_comparisonPrice := wholeOrderPrice;
     req_integratorId := integratorId r; req_intentOnFilling := intentOnFilling r;
     req_makerToken := makerToken; req_takerToken := takerToken; req_marketOperation := side;
     req_takerAddress := takerAddress r; req_txOrigin := txOrigin r |}.

(** [[...v1Prices, ...v2Prices]]. *)
Definition indicativeQuotes (client : option RfqApi) (request : RfqRequest)
    : result (list V4RFQIndicativeQuoteMM) :=
  match client with
  | None => Ok []
  | Some api =>
      match getV1PricesAsync bn_of_string (api := api) request,
            getV2PricesAsync bn_of_string (api := api) request with
      | Some (Some v1Prices), Some v2Prices => Ok (v1Prices ++ v2Prices)
      | _, _ => Throw TypeError
      end
  end.

(** [(v1Quotes, v2Quotes)]. *)
Definition firmQuotes (client : option RfqApi) (request : RfqRequest)
    : result (list RfqClientV1Quote * list RfqtV2Quote) :=
  match client with
  | None => Ok ([], [])
  | Some api =>
      match getV1QuotesAsync bn_of_string (api := api) request,
            getV2QuotesAsync bn_of_string (api := api) request with
      | Some v1Quotes, Some v2Quotes => Ok (v1Quotes, v2Quotes)
      | _, _ => Throw TypeError
      end
  end.

(** [rfqt.quoteRequestor.setMakerUriForSignature] for every quote. *)
Definition registerMakers (requestor : QuoteRequestor.t) (v1Quotes : list RfqClientV1Quote)
    (v2Quotes : list RfqtV2Quote) : QuoteRequestor.t :=
  let requestor := fold_left (λ r q,
    QuoteRequestor.setMakerUriForSignature r (v1_signature q) (v1_makerUri q)) v1Quotes requestor in
  fold_left (λ r q,
    QuoteRequestor.setMakerUriForSignature r (v2_signature q) (v2_makerUri q)) v2Quotes requestor.

Definition v1TakerFillableAmounts (validator : option RfqFirmQuoteValidator)
    (v1FirmQuotes : list SignedNativeOrder) : result (list BN) :=
  match validator with
  | None => Ok ((λ o, order_takerAmount (signed_order o)) <$> v1FirmQuotes)
  | Some V => getRfqtTakerFillableAmountsAsync (RfqFirmQuoteValidator := V) (signed_order <$> v1FirmQuotes)
  end.

Definition v1QuoteWithFillableAmounts (order : SignedNativeOrder) (fillable : BN)
    : NativeOrderWithFillableAmounts :=
  withFillableAmounts order
    {| fa_taker := fillable; fa_maker := getNativeAdjustedMakerFillAmount (signed_order order) fillable;
       fa_takerFee := ZERO_AMOUNT |}.

(** The signed quotes with what can be filled of them. *)
Definition quotesWithOrderFillableAmounts (validator : option RfqFirmQuoteValidator)
    (v1Quotes : list RfqClientV1Quote) (v2Quotes : list RfqtV2Quote)
    : result (list NativeOrderWithFillableAmounts) :=
  let v1FirmQuotes := toSignedNativeOrder <$> v1Quotes in
  v1Amounts ← v1TakerFillableAmounts validator v1FirmQuotes;
  v1 ← mapM (λ '(i, o), match v1Amounts !! (i : nat) with
                        | Some a => Ok (v1QuoteWithFillableAmounts o a)
                        | None => Throw TypeError
                        end) (imap pair v1FirmQuotes);
  Ok (v1 ++ (toSignedNativeOrderWithFillableAmounts <$> v2Quotes)).

(** What the RFQ phase leaves: the liquidity with the quotes mixed in, the
    result, and the makers of the quotes. *)
Record RfqPhase : Type := {
  phase_liquidity : MarketSideLiquidity;
  phase_result : option OptimizerResult;
  phase_requestor : option QuoteRequestor.t;
}.

Definition indicativePhase {F} `{!FillAdjustor F} (opts : GetMarketOrdersOpts F)
    (r : GetMarketOrdersRfqOpts) (request : RfqRequest) (liquidity : MarketSideLiquidity)
    (phaseOne : option OptimizerResult) : result RfqPhase :=
  indicative ← indicativeQuotes (rfqClient r) request;
  match indicative with
  | [] => Ok {| phase_liquidity := liquidity; phase_result := phaseOne;
                phase_requestor := quoteRequestor r |}
  | _ =>
      let q := quotes liquidity in
      let liquidity := with_quotes liquidity
        {| raw_nativeOrders := raw_nativeOrders q; raw_rfqtIndicativeQuotes := indicative;
           raw_twoHopQuotes := raw_twoHopQuotes q; raw_dexQuotes := raw_dexQuotes q |} in
      optimizerResult ← generateOptimizedOrders (phase2MarketSideLiquidity liquidity phaseOne)
                          (optimizerOptsOf opts (fillAdjustor opts));
      Ok {| phase_liquidity := liquidity; phase_result := Some optimizerResult;
            phase_requestor := quoteRequestor r |}
  end.

Definition firmPhase {F} `{!FillAdjustor F} (opts : GetMarketOrdersOpts F)
    (r : GetMarketOrdersRfqOpts) (requestor : QuoteRequestor.t) (request : RfqRequest)
    (liquidity : MarketSideLiquidity) (phaseOne : option OptimizerResult) : result RfqPhase :=
  '(v1Quotes, v2Quotes) ← firmQuotes (rfqClient r) request;
  let requestor := registerMakers requestor v1Quotes v2Quotes in
  match v1Quotes, v2Quotes with
  | [], [] => Ok {| phase_liquidity := liquidity; phase_result := phaseOne;
                    phase_requestor := Some requestor |}
  | _, _ =>
      rfqOrders ← quotesWithOrderFillableAmounts (firmQuoteValidator r) v1Quotes v2Quotes;
      let q := quotes liquidity in
      let liquidity := with_quotes liquidity
        {| raw_nativeOrders := rfqOrders ++ raw_nativeOrders q;
           raw_rfqtIndicativeQuotes := raw_rfqtIndicativeQuotes q;
           raw_twoHopQuotes := raw_twoHopQuotes q; raw_dexQuotes := raw_dexQuotes q |} in
      optimizerResult ← generateOptimizedOrders (phase2MarketSideLiquidity liquidity phaseOne)
                          (optimizerOptsOf opts (fillAdjustor opts));
      Ok {| phase_liquidity := liquidity; phase_result := Some optimizerResult;
            phase_requestor := Some requestor |}
  end.

Definition rfqPhase {F} `{!FillAdjustor F} (makerToken takerToken : string) (amount : BN)
    (side : MarketOperation) (opts : GetMarketOrdersOpts F) (liquidity : MarketSideLiquidity)
    (phaseOne : option OptimizerResult) (wholeOrderPrice : option BN) : result RfqPhase :=
  let skip := Ok {| phase_liquidity := liquidity; phase_result := phaseOne;
                    phase_requestor := rfqt opts ≫= quoteRequestor |} in
  match rfqt opts with
  | None => skip
  | Some r =>
      match quoteRequestor r with
      | None => skip
      | Some requestor =>
          if isRfqSupported liquidity
             && SourceFilters.isAllowed (quoteSourceFilters liquidity) ERC20BridgeSource.Native
          then
            let request := rfqRequest r makerToken takerToken amount side wholeOrderPrice in
            if isIndicative r then indicativePhase opts r request liquidity phaseOne
            else firmPhase opts r requestor request liquidity phaseOne
          else skip
      end
  end.

(** ** The whole operation *)

Definition getOptimizerResultAsync {F} `{!FillAdjustor F} (makerToken takerToken : string)
    (limitOrders : list SignedNativeOrder) (amount : BN) (side : MarketOperation)
    (opts : GetMarketOrdersOpts F) : result OptimizerResultWithReport :=
  liquidity ← getMarketLiquidity side makerToken takerToken limitOrders amount opts;
  '(phaseOne, wholeOrderPrice) ← getPhaseOneRoutingResult liquidity amount opts;
  phase ← rfqPhase makerToken takerToken amount side opts liquidity phaseOne wholeOrderPrice;
  match phase_result phase with
  | None => Throw NoOptimalPath
  | Some r =>
      let delivered := DeliveredFills (Path.fills (result_path r)) in
      report ←
        (if shouldGenerateQuoteReport opts then
           Some <$> generateQuoteReport side wholeOrderPrice (phase_requestor phase)
                      (raw_nativeOrders (quotes (phase_liquidity phase))) delivered
         else Ok None);
      extended ← generateExtendedQuoteReportSources side wholeOrderPrice (phase_requestor phase)
                   (quotes (phase_liquidity phase)) delivered amount;
      Ok {| optimizerResult := r; quoteReport := report; extendedQuoteReportSources := extended |}
  end.

(** ** What is sampled *)

(** A list of answers that was given for operations of known kinds. *)
Lemma sampleMarket_answered {F} maker taker (opts : GetMarketOrdersOpts F) fillableOp quotesR twoHopR a :
  sampleMarket maker taker opts fillableOp quotesR twoHopR = Ok a →
  ∃ quotesOp twoHopOp, quotesR = Ok quotesOp ∧ twoHopR = Ok twoHopOp ∧
    answered quotesOp (ans_dexQuotes a) ∧ answered twoHopOp (ans_rawTwoHopQuotes a) ∧
    answered fillableOp (ans_orderFillableAmounts a).
Proof.
  intros H. unfold sampleMarket in H.
  apply result_bind_ok in H as (r1 & _ & H). apply result_bind_ok in H as (r2 & _ & H).
  apply result_bind_ok in H as (quotesOp & -> & H). apply result_bind_ok in H as (twoHopOp & -> & H).
  apply result_bind_ok in H as (answers & Hans & H). apply executeBatch_answered in Hans.
  exists quotesOp, twoHopOp. split; [done|]. split; [done|].
  repeat match type of Hans with
    | Forall2 _ (_ :: _) ?l => destruct l as [|? l]; [by inversion Hans|];
        apply Forall2_cons in Hans as [? Hans]
    | Forall2 _ [] _ => apply Forall2_nil_inv_l in Hans; subst
    end.
  repeat match goal with Ha : answered (op_map _ _) _ |- _ =>
    apply answered_map in Ha as (? & -> & ?) end.
  injection H as <-. done.
Qed.

(** A source that the quote filter lets be sampled. *)
Definition samplable (filters : SourceFilters.t) (s : ERC20BridgeSource) : Prop :=
  s ∈ SourceFilters.sources filters ∧ s ≠ ERC20BridgeSource.MultiHop ∧ s ≠ ERC20BridgeSource.Native.

Definition dex_allowed (filters : SourceFilters.t) (s : DexSample) : Prop :=
  samplable filters (sample_source s) ∧ sampled_shape (sample_source s) (sample_fillData s) = true.

Definition hops_allowed (filters : SourceFilters.t) (s : DexSample) : Prop :=
  sample_source s = ERC20BridgeSource.MultiHop ∧
  SourceFilters.isAllowed filters ERC20BridgeSource.MultiHop = true ∧
  ∃ h1 h2 mid, sample_fillData s = FDMultiHop (Some h1) (Some h2) mid ∧
    hop_fits (samplable filters) h1 ∧ hop_fits (samplable filters) h2.

(** The quotes of a side: the samples are allowed by the filter and keep the
    order of the amounts; a micro swap has no two-hop quotes and only samples
    of the fee sources. *)
Record allowed_quotes (filters : SourceFilters.t) (sampleAmounts : list BN) (micro : bool)
    (q : RawQuotes) : Prop := {
  allowed_dex : Forall (λ ss, ss ≠ [] ∧ sample_input <$> ss = take (length ss) sampleAmounts ∧
                  Forall (dex_allowed filters) ss) (raw_dexQuotes q);
  allowed_hops : Forall (λ ss, ss ≠ [] ∧ Forall (hops_allowed filters) ss) (raw_twoHopQuotes q);
  allowed_micro : micro = true → raw_twoHopQuotes q = [] ∧
    Forall (λ ss, Forall (λ s, sample_source s ∈ _feeSources) ss) (raw_dexQuotes q);
  no_indicative : raw_rfqtIndicativeQuotes q = [];
}.

Lemma fitting_weaken (P Q : ERC20BridgeSource → Prop) amounts quotes :
  (∀ s, P s → Q s) → Forall (fitting P amounts) quotes → Forall (fitting Q amounts) quotes.
Proof.
  intros HPQ H. eapply Forall_impl; [exact H|]. intros q [Hin (s & fd & Hall & Hq)].
  split; [done|]. exists s, fd. split; [done|]. destruct Hq as [?|[? ?]]; auto.
Qed.

Lemma filterOutDexQuotes_allowed filters amounts micro quotes :
  Forall (fitting (samplable filters) amounts) quotes →
  Forall (λ ss, ss ≠ [] ∧ sample_input <$> ss = take (length ss) amounts ∧ Forall (dex_allowed filters) ss)
    (filterOutDexQuotes quotes micro) ∧
  (micro = true → Forall (λ ss, Forall (λ s, sample_source s ∈ _feeSources) ss)
                    (filterOutDexQuotes quotes micro)).
Proof.
  intros H. rewrite Forall_forall in H.
  assert (∀ ss, ss ∈ filterOutDexQuotes quotes micro → ss ∈ quotes ∧ ∃ s ss', ss = s :: ss' ∧
    (micro = true → sample_source s ∈ _feeSources)) as G.
  { intros ss [Hs Hf]%elem_of_bfilter. split; [done|]. destruct ss as [|s ss']; [done|].
    exists s, ss'. split; [done|]. intros ->. by apply includes_true in Hf. }
  rewrite !Forall_forall. split.
  - intros ss (Hss & s & ss' & -> & _)%G. destruct (H _ Hss) as [Hin (src & fd & Hall & [?|[HP Hsh]])]; [done|].
    split_and!; [done | done |]. eapply Forall_impl; [exact Hall|]. intros x [Hx1 Hx2].
    unfold dex_allowed. by rewrite Hx1, Hx2.
  - intros -> ss (Hss & s & ss' & -> & Hm)%G. destruct (H _ Hss) as [Hin (src & fd & Hall & _)].
    eapply Forall_impl; [exact Hall|]. intros x [-> _].
    apply Forall_cons in Hall as [[<- _] _]. by apply Hm.
Qed.

Lemma filterTwoHopQuotes_allowed filters noAmount mids amounts micro quotes (P : ERC20BridgeSource → Prop) :
  (∀ s, P s → samplable filters s ∧ SourceFilters.isAllowed filters ERC20BridgeSource.MultiHop = true) →
  Forall (two_hop_fitting P noAmount mids amounts) quotes →
  Forall (λ ss, ss ≠ [] ∧ Forall (hops_allowed filters) ss) (filterTwoHopQuotes quotes micro) ∧
  (micro = true → filterTwoHopQuotes quotes micro = []).
Proof.
  intros HP H. unfold filterTwoHopQuotes. split; [|by intros ->]. destruct micro; [constructor|].
  apply Forall_forall. intros ss [Hss Hne]%elem_of_bfilter. apply SourceFilters.non_empty_true in Hne.
  split; [done|]. apply list_elem_of_fmap in Hss as (raw & -> & Hraw). rewrite Forall_forall in H.
  destruct (H _ Hraw) as [_ Hall]. rewrite Forall_forall in Hall. apply Forall_forall.
  intros s [Hs Hb]%elem_of_bfilter. unfold bothHops in Hb.
  destruct (Hall s Hs) as [Hsrc (mid & _ & [[Hfd _]|(h1 & h2 & Hfd & [Hp1 Hs1] & [Hp2 Hs2])])];
    [by rewrite Hfd in Hb|].
  split; [done|]. split; [by eapply HP|]. exists h1, h2, mid.
  split_and!; [done | split; [by apply HP | done] | split; [by apply HP | done]].
Qed.

(** The filter of a side and the amount whose value decides about micro swaps. *)
Definition sideSources (side : MarketOperation) : SourceFilters.t :=
  match side with Sell => _sellSources | Buy => _buySources end.

(** The orders keep their terms and their place. *)
Definition same_terms (o : SignedNativeOrder) (n : NativeOrderWithFillableAmounts) : Prop :=
  native_order n = signed_order o ∧ native_type n = signed_type o ∧ native_signature n = signed_signature o.

Lemma limitOrders_same_terms adjust limitOrders amounts ns :
  limitOrdersWithFillableAmounts adjust limitOrders amounts = Ok ns → Forall2 same_terms limitOrders ns.
Proof.
  intros H. unfold limitOrdersWithFillableAmounts in H.
  apply (mapM_imap_ok (λ i o, match amounts !! i with
    | Some a => Ok (withFillableAmounts o (adjust (signed_order o) (signed_type o) a))
    | None => Throw TypeError end)) in H as [Hlen H].
  apply Forall2_same_length_lookup. split; [done|]. intros i o n Ho Hn.
  destruct (H _ _ Ho) as (n' & Hn' & Hok). rewrite Hn in Hn'. injection Hn' as <-.
  destruct (amounts !! i); [|done]. by injection Hok as <-.
Qed.

Lemma twoHopSources_samplable filters s :
  s ∈ twoHopSources filters ∧ s ≠ ERC20BridgeSource.MultiHop ∧ s ≠ ERC20BridgeSource.Native →
  samplable filters s ∧ SourceFilters.isAllowed filters ERC20BridgeSource.MultiHop = true.
Proof.
  unfold twoHopSources, samplable. destruct (SourceFilters.isAllowed filters _); [done|].
  intros [H _]. by apply elem_of_nil in H.
Qed.

Lemma market_liquidity_allowed {F} side maker taker limitOrders amount (opts : GetMarketOrdersOpts F) l :
  getMarketLiquidity side maker taker limitOrders amount opts = Ok l →
  msl_side l = side ∧ msl_inputAmount l = amount ∧
  quoteSourceFilters l = quoteSourceFiltersOf (sideSources side) opts ∧
  allowed_quotes (quoteSourceFilters l)
    (getSampleAmounts amount (numSamples opts) (sampleDistributionBase opts))
    (isMicroSwap amount (msl_inputAmountPerEth l)) (quotes l) ∧
  Forall2 same_terms limitOrders (raw_nativeOrders (quotes l)).
Proof.
  destruct side; cbn [getMarketLiquidity]; intros H.
  - unfold getMarketSellLiquidity in H. apply result_bind_ok in H as (a & Ha & H). ok_inv H. injection H as <-.
    apply sampleMarket_answered in Ha as (q & th & Hq & Hth & Aq & Ath & _). cbn.
    eapply sell_batch_fits in Aq; [|exact Hq]. eapply two_hop_sell_batch_fits in Ath; [|exact Hth].
    eapply fitting_weaken in Aq;
      [apply filterOutDexQuotes_allowed with (micro := isMicroSwap amount (ans_takerAmountPerEth a)) in Aq as [D1 D2]
      |intros s (H1 & _ & H2); split; [exact H1 | exact H2]].
    eapply filterTwoHopQuotes_allowed with (micro := isMicroSwap amount (ans_takerAmountPerEth a)) in Ath as [T1 T2];
      [|intros s (H1 & _ & H2); apply twoHopSources_samplable; split; [exact H1 | exact H2]].
    split_and!; [done | done | done | split; cbn; [done | done | by split; auto | done] |].
    by eapply limitOrders_same_terms.
  - unfold getMarketBuyLiquidity in H. apply result_bind_ok in H as (a & Ha & H). ok_inv H. injection H as <-.
    apply sampleMarket_answered in Ha as (q & th & Hq & Hth & Aq & Ath & _). cbn.
    eapply buy_batch_fits in Aq; [|exact Hq]. eapply two_hop_buy_batch_fits in Ath; [|exact Hth].
    eapply fitting_weaken in Aq;
      [apply filterOutDexQuotes_allowed with (micro := isMicroSwap amount (ans_makerAmountPerEth a)) in Aq as [D1 D2]
      |intros s Hs; exact Hs].
    eapply filterTwoHopQuotes_allowed with (micro := isMicroSwap amount (ans_makerAmountPerEth a)) in Ath as [T1 T2];
      [|intros s Hs; by apply twoHopSources_samplable].
    split_and!; [done | done | done | split; cbn; [done | done | by split; auto | done] |].
    by eapply limitOrders_same_terms.
Qed.

(** ** What is routed *)

Lemma pathOptimizer_keeps {F} `{!FillAdjustor F} `{!FillAdjustorLaws F} liquidity
    (opts : GenerateOptimizedOrdersOpts F) :
  PathOptimizer.adjustor_keeps (pathOptimizer liquidity opts).
Proof.
  intros f f' H. cbn in H. pose proof (adjustFills_same (gen_fillAdjustor opts)
    (PathOptimizer.side (pathOptimizer liquidity opts)) [f]) as Hs.
  destruct (adjustFills _ _ [f]) as [|g gs]; [done|]. injection H as ->.
  apply Forall2_cons in Hs as [Hs _]. rewrite Hs. by split_and!.
Qed.

(** The native orders of the router: the signed ones and the indicative quotes
    dressed up as RFQ orders. *)
Definition routedOrders (q : RawQuotes) : list NativeOrderWithFillableAmounts :=
  raw_nativeOrders q ++ (augmentedIndicativeQuote <$> raw_rfqtIndicativeQuotes q).

(** A fill of the quotes [q]. *)
Definition fill_from (q : RawQuotes) (f : Fill) : Prop :=
  PathOptimizer.of_sample (concat (raw_dexQuotes q)) f ∨
  PathOptimizer.of_sample (bfilter PathOptimizer.isValidTwoHopSample (concat (raw_twoHopQuotes q))) f ∨
  PathOptimizer.of_order (routedOrders q) f.

Lemma optimized_orders_from {F} `{!FillAdjustor F} `{!FillAdjustorLaws F} liquidity
    (opts : GenerateOptimizedOrdersOpts F) r :
  generateOptimizedOrders liquidity opts = Ok r →
  Forall (fill_from (quotes liquidity)) (Path.fills (result_path r)) ∧ marketSideLiquidity r = liquidity.
Proof.
  intros H. unfold generateOptimizedOrders in H. apply result_bind_ok in H as (p & Hp & H).
  destruct p as [p|]; [|done]. injection H as <-. split; [|done].
  eapply PathOptimizer.optimal_path_origin; [apply pathOptimizer_keeps | exact Hp].
Qed.

Lemma phase_one_from {F} liquidity amount (opts : GetMarketOrdersOpts F) r price :
  getPhaseOneRoutingResult liquidity amount opts = Ok (Some r, price) →
  Forall (fill_from (quotes liquidity)) (Path.fills (result_path r)).
Proof.
  unfold getPhaseOneRoutingResult. destruct (generateOptimizedOrders _ _) as [r'|e] eqn:E.
  - intros [= -> _]. by apply optimized_orders_from in E as [? _].
  - by destruct (decide _).
Qed.

(** The second phase only drops sampled sources. *)
Lemma phase2_subset liquidity phaseOne f :
  fill_from (quotes (phase2MarketSideLiquidity liquidity phaseOne)) f → fill_from (quotes liquidity) f.
Proof.
  intros [(s & Hs & H)|H]; [left|by right]. exists s. split; [|done]. cbn in Hs.
  apply list_elem_of_In, in_concat in Hs as (ss & Hss & Hs). apply list_elem_of_In, in_concat.
  exists ss. split; [|done]. apply list_elem_of_In in Hss. apply list_elem_of_In.
  by apply elem_of_bfilter in Hss as [? _].
Qed.

(** In the second phase a sampled source is one that the first phase chose. *)
Definition chosen_in_phase_one (liquidity : MarketSideLiquidity) (phaseOne : option OptimizerResult)
    (f : Fill) : Prop :=
  PathOptimizer.of_sample (concat (raw_dexQuotes (quotes liquidity))) f →
  fill_source f ≠ ERC20BridgeSource.MultiHop → fill_source f ≠ ERC20BridgeSource.Native →
  fill_source f ∈ phase1OptimalSources phaseOne.

(** What the RFQ phase does to the quotes: it adds orders and indicative
    quotes, when the native source is allowed. *)
Definition extends (l l' : MarketSideLiquidity) : Prop :=
  quoteSourceFilters l' = quoteSourceFilters l ∧ msl_side l' = msl_side l ∧
  raw_dexQuotes (quotes l') = raw_dexQuotes (quotes l) ∧
  raw_twoHopQuotes (quotes l') = raw_twoHopQuotes (quotes l) ∧
  ∃ added, raw_nativeOrders (quotes l') = added ++ raw_nativeOrders (quotes l) ∧
    (l' = l ∨ SourceFilters.isAllowed (quoteSourceFilters l) ERC20BridgeSource.Native = true).

Lemma extends_refl l : extends l l.
Proof. split_and!; try done. exists []. auto. Qed.

(** The second routing over [l]. *)
Definition rerouted {F} `{!FillAdjustor F} (opts : GetMarketOrdersOpts F) (phaseOne : option OptimizerResult)
    (l : MarketSideLiquidity) (r : option OptimizerResult) : Prop :=
  ∃ r', r = Some r' ∧
    generateOptimizedOrders (phase2MarketSideLiquidity l phaseOne)
      (optimizerOptsOf opts (fillAdjustor opts)) = Ok r'.

Lemma rfqPhase_cases {F} `{!FillAdjustor F} maker taker amount side (opts : GetMarketOrdersOpts F)
    l phaseOne price ph :
  rfqPhase maker taker amount side opts l phaseOne price = Ok ph →
  extends l (phase_liquidity ph) ∧
  (phase_liquidity ph = l ∧ phase_result ph = phaseOne ∨
   SourceFilters.isAllowed (quoteSourceFilters l) ERC20BridgeSource.Native = true ∧
   is_Some (rfqt opts) ∧ isRfqSupported l = true ∧
   rerouted opts phaseOne (phase_liquidity ph) (phase_result ph)).
Proof.
  intros H. unfold rfqPhase in H.
  assert (∀ p, phase_liquidity p = l → phase_result p = phaseOne → Ok p = Ok ph →
    extends l (phase_liquidity ph) ∧ (phase_liquidity ph = l ∧ phase_result ph = phaseOne ∨
     SourceFilters.isAllowed (quoteSourceFilters l) ERC20BridgeSource.Native = true ∧
     is_Some (rfqt opts) ∧ isRfqSupported l = true ∧
     rerouted opts phaseOne (phase_liquidity ph) (phase_result ph))) as Hskip.
  { intros p Hl Hr <-%Ok_inj. rewrite Hl, Hr. split; [apply extends_refl | by left]. }
  destruct (rfqt opts) as [r|] eqn:Er; [|by eapply Hskip; [| |exact H]].
  destruct (quoteRequestor r) as [qr|] eqn:Eq; [|by eapply Hskip; [| |exact H]].
  destruct (isRfqSupported l && _) eqn:Ea; [|by eapply Hskip; [| |exact H]].
  apply andb_true_iff in Ea as [Hsup Hal]. destruct (isIndicative r).
  - unfold indicativePhase in H. apply result_bind_ok in H as (ind & _ & H).
    destruct ind as [|i ind]; [by eapply Hskip; [| |exact H]|].
    apply result_bind_ok in H as (o & Ho & H). apply Ok_inj in H as <-. split.
    + split_and!; try done. exists []. auto.
    + right. split_and!; try done. by exists o.
  - unfold firmPhase in H. apply result_bind_ok in H as ([v1 v2] & _ & H).
    destruct v1 as [|q1 v1], v2 as [|q2 v2]; try (by eapply Hskip; [| |exact H]);
      apply result_bind_ok in H as (rfq & _ & H); apply result_bind_ok in H as (o & Ho & H);
      apply Ok_inj in H as <-; (split; [split_and!; try done; exists rfq; auto | right; split_and!; try done; by exists o]).
Qed.

Lemma phase_result_from {F} `{!FillAdjustor F} `{!FillAdjustorLaws F} maker taker amount side
    (opts : GetMarketOrdersOpts F) l phaseOne price price' ph r :
  getPhaseOneRoutingResult l amount opts = Ok (phaseOne, price') →
  rfqPhase maker taker amount side opts l phaseOne price = Ok ph → phase_result ph = Some r →
  Forall (fill_from (quotes (phase_liquidity ph))) (Path.fills (result_path r)).
Proof.
  intros H1 H2 Hr. apply rfqPhase_cases in H2 as [_ [[-> E]|(_ & _ & _ & r' & E & Hg)]]; rewrite Hr in E.
  - subst phaseOne. by eapply phase_one_from.
  - injection E as <-. apply optimized_orders_from in Hg as [Hg _].
    eapply Forall_impl; [exact Hg|]. intros f. apply phase2_subset.
Qed.

(** A fill that the request allows: through a sampled source of the filter,
    through two of them, of one of the given orders, or, when the native
    source is allowed, of an RFQ order. *)
Definition allowed_fill (filters : SourceFilters.t) (limitOrders : list SignedNativeOrder) (f : Fill) : Prop :=
  (fill_type f = FillQuoteTransformerOrderType.Bridge ∧ samplable filters (fill_source f) ∧
     sampled_shape (fill_source f) (fill_fillData f) = true) ∨
  (fill_type f = FillQuoteTransformerOrderType.Bridge ∧ fill_source f = ERC20BridgeSource.MultiHop ∧
     SourceFilters.isAllowed filters ERC20BridgeSource.MultiHop = true ∧
     ∃ h1 h2 mid, fill_fillData f = FDMultiHop (Some h1) (Some h2) mid ∧
       hop_fits (samplable filters) h1 ∧ hop_fits (samplable filters) h2) ∨
  (fill_source f = ERC20BridgeSource.Native ∧ ∃ n, fill_fillData f = FDNative n ∧ fill_type f = native_type n ∧
     ((∃ o, o ∈ limitOrders ∧ same_terms o n) ∨
      SourceFilters.isAllowed filters ERC20BridgeSource.Native = true)).

Lemma fill_from_allowed filters amounts micro limitOrders l l' f :
  quoteSourceFilters l = filters → allowed_quotes filters amounts micro (quotes l) →
  Forall2 same_terms limitOrders (raw_nativeOrders (quotes l)) → extends l l' →
  fill_from (quotes l') f → allowed_fill filters limitOrders f.
Proof.
  intros Hf Hq Hn (_ & _ & Hd & Hh & added & Ha & Hl) H. destruct H as [H|[H|H]].
  - left. rewrite Hd in H. destruct H as (s & Hs & H1 & H2 & H3 & _).
    apply list_elem_of_In, in_concat in Hs as (ss & Hss & Hs).
    apply list_elem_of_In in Hss, Hs. pose proof (allowed_dex _ _ _ _ Hq) as Hall.
    rewrite Forall_forall in Hall. destruct (Hall _ Hss) as (_ & _ & G). rewrite Forall_forall in G.
    destruct (G _ Hs) as [G1 G2]. by rewrite H1, H2, H3.
  - right. left. rewrite Hh in H. destruct H as (s & [Hs _]%elem_of_bfilter & H1 & H2 & H3 & _).
    apply list_elem_of_In, in_concat in Hs as (ss & Hss & Hs).
    apply list_elem_of_In in Hss, Hs. pose proof (allowed_hops _ _ _ _ Hq) as Hall.
    rewrite Forall_forall in Hall. destruct (Hall _ Hss) as (_ & G). rewrite Forall_forall in G.
    destruct (G _ Hs) as (G1 & G2 & G3). by rewrite H1, H2, H3.
  - right. right. destruct H as (n & Hin & H1 & H2 & H3 & _). split; [done|]. exists n. split; [done|]. split; [done|].
    destruct Hl as [->|Hl]; [|right; by rewrite <- Hf].
    unfold routedOrders in Hin. rewrite (no_indicative _ _ _ _ Hq) in Hin. cbn in Hin. rewrite app_nil_r in Hin.
    left. apply Forall2_flip in Hn. eapply Forall2_elem_l in Hn as (o & Ho & Hs); [|exact Hin]. by exists o.
Qed.

(** ** Properties *)

(** C5. The liquidity that is sampled for a quote: every list of samples is
    non-empty, follows the sample amounts from the smallest on and is of one
    source that the chain and the request allow, with the fill data its bridge
    encodes; two-hop samples exist only when multi-hops are allowed and go
    through two allowed sources; a micro swap samples the fee sources only and
    has no two-hop quotes; and every limit order stays in its place with its
    terms. *)
Theorem sampled_liquidity_respects_request {F} side maker taker limitOrders amount
    (opts : GetMarketOrdersOpts F) l :
  getMarketLiquidity side maker taker limitOrders amount opts = Ok l →
  msl_side l = side ∧ msl_inputAmount l = amount ∧
  quoteSourceFilters l = quoteSourceFiltersOf (sideSources side) opts ∧
  allowed_quotes (quoteSourceFilters l)
    (getSampleAmounts amount (numSamples opts) (sampleDistributionBase opts))
    (isMicroSwap amount (msl_inputAmountPerEth l)) (quotes l) ∧
  Forall2 same_terms limitOrders (raw_nativeOrders (quotes l)).
Proof. apply market_liquidity_allowed. Qed.

Lemma optimizer_result_inv {F} `{!FillAdjustor F} maker taker limitOrders amount side
    (opts : GetMarketOrdersOpts F) r :
  getOptimizerResultAsync maker taker limitOrders amount side opts = Ok r →
  ∃ l phaseOne price ph, getMarketLiquidity side maker taker limitOrders amount opts = Ok l ∧
    getPhaseOneRoutingResult l amount opts = Ok (phaseOne, price) ∧
    rfqPhase maker taker amount side opts l phaseOne price = Ok ph ∧
    phase_result ph = Some (optimizerResult r).
Proof.
  intros H. unfold getOptimizerResultAsync in H. apply result_bind_ok in H as (l & Hl & H).
  apply result_bind_ok in H as ([p1 price] & Hp & H). apply result_bind_ok in H as (ph & Hph & H).
  destruct (phase_result ph) as [r'|] eqn:Er; [|done].
  apply result_bind_ok in H as (rep & _ & H). apply result_bind_ok in H as (ext & _ & H).
  apply Ok_inj in H as <-. by exists l, p1, price, ph.
Qed.

Lemma optimizer_result_allowed {F} `{!FillAdjustor F} `{!FillAdjustorLaws F} maker taker limitOrders
    amount side (opts : GetMarketOrdersOpts F) r :
  getOptimizerResultAsync maker taker limitOrders amount side opts = Ok r →
  Forall (allowed_fill (quoteSourceFiltersOf (sideSources side) opts) limitOrders)
    (Path.fills (result_path (optimizerResult r))).
Proof.
  intros (l & p1 & price & ph & Hl & Hp & Hph & Hr)%optimizer_result_inv.
  apply market_liquidity_allowed in Hl as (_ & _ & Hf & Hq & Hn).
  pose proof (phase_result_from _ _ _ _ _ _ _ _ _ _ _ Hp Hph Hr) as H.
  apply rfqPhase_cases in Hph as [Hx _]. eapply Forall_impl; [exact H|]. intros f.
  eapply fill_from_allowed; [exact Hf | rewrite <- Hf; exact Hq | exact Hn | exact Hx].
Qed.

(** The path of a result is created from its fills, for the side of the
    request, and its fills carry the flags of their sources. *)
Definition created_path (side : MarketOperation) (p : Path.t) : Prop :=
  ∃ ctx target o, Path.create ctx (Path.fills p) target o = Ok p ∧ ctx_side ctx = side ∧
    Forall Path.flags_ok (Path.fills p).

Lemma optimized_orders_created {F} `{!FillAdjustor F} `{!FillAdjustorLaws F} liquidity
    (opts : GenerateOptimizedOrdersOpts F) r :
  generateOptimizedOrders liquidity opts = Ok r → created_path (msl_side liquidity) (result_path r).
Proof.
  intros H. pose proof H as [Hf _]%optimized_orders_from. unfold generateOptimizedOrders in H.
  apply result_bind_ok in H as (p & Hp & H). destruct p as [p|]; [|done]. injection H as <-. cbn in Hf |- *.
  apply PathOptimizer.optimal_path_created in Hp. do 3 eexists. split; [exact Hp|]. split; [done|].
  eapply Forall_impl; [exact Hf|]. intros f [H|[H|H]];
    (eapply PathOptimizer.origin_flags_ok; [by left] || (eapply PathOptimizer.origin_flags_ok; by right)).
Unshelve. all: exact [].
Qed.

Lemma optimizer_result_created {F} `{!FillAdjustor F} `{!FillAdjustorLaws F} maker taker limitOrders
    amount side (opts : GetMarketOrdersOpts F) r :
  getOptimizerResultAsync maker taker limitOrders amount side opts = Ok r →
  created_path side (result_path (optimizerResult r)).
Proof.
  intros (l & p1 & price & ph & Hl & Hp & Hph & Hr)%optimizer_result_inv.
  apply market_liquidity_allowed in Hl as (<- & _).
  apply rfqPhase_cases in Hph as [(_ & <- & _) [[Hpl E]|(_ & _ & _ & r' & E & Hg)]]; rewrite Hr in E.
  - subst p1. unfold getPhaseOneRoutingResult in Hp.
    destruct (generateOptimizedOrders _ _) as [r'|e] eqn:Eg; [|by destruct (decide _)].
    injection Hp as -> _. rewrite Hpl. by eapply optimized_orders_created in Eg.
  - injection E as <-. by apply optimized_orders_created in Hg.
Qed.

(** Whatever the market, the RFQ makers and the router answer, a quote only
    fills what its request allows: a sampled source of the quote filter, two of
    them when multi-hops are allowed, one of the limit orders that were passed
    in, or an RFQ order when the native source is allowed. *)
Theorem result_fills_allowed {F} `{!FillAdjustor F} `{!FillAdjustorLaws F} maker taker limitOrders
    amount side (opts : GetMarketOrdersOpts F) r :
  getOptimizerResultAsync maker taker limitOrders amount side opts = Ok r →
  Forall (allowed_fill (quoteSourceFiltersOf (sideSources side) opts) limitOrders)
    (Path.fills (result_path (optimizerResult r))).
Proof. apply optimizer_result_allowed. Qed.

(** C17. RFQ is optional: without it, without support for it (the transaction
    origin is a contract, for instance) or when the native source is not
    allowed, the result is that of the first routing, and a request without
    any path fails with [NoOptimalPath]; any other error of the first routing
    is passed on whatever the RFQ options. *)
Theorem rfq_is_optional {F} `{!FillAdjustor F} maker taker limitOrders amount side
    (opts : GetMarketOrdersOpts F) l :
  getMarketLiquidity side maker taker limitOrders amount opts = Ok l →
  let result := getOptimizerResultAsync maker taker limitOrders amount side opts in
  let routed := generateOptimizedOrders l (optimizerOptsOf opts NewIdentityFillAdjustor) in
  (∀ e, routed = Throw e → e ≠ NoOptimalPath → result = Throw e) ∧
  (rfqt opts = None ∨ isRfqSupported l = false ∨
   SourceFilters.isAllowed (quoteSourceFilters l) ERC20BridgeSource.Native = false →
   (routed = Throw NoOptimalPath → result = Throw NoOptimalPath) ∧
   ∀ r r', routed = Ok r → result = Ok r' → optimizerResult r' = r).
Proof.
  intros Hl result routed. split.
  - intros e He Hne. unfold result, getOptimizerResultAsync. rewrite Hl. cbn [mbind result_bind].
    unfold getPhaseOneRoutingResult. fold routed. rewrite He. by rewrite decide_False by done.
  - intros Hskip. split.
    + intros Hr. unfold result, getOptimizerResultAsync. rewrite Hl. cbn [mbind result_bind].
      unfold getPhaseOneRoutingResult. fold routed. rewrite Hr, decide_True by done.
      cbn [mbind result_bind].
      assert (rfqPhase maker taker amount side opts l None None =
        Ok {| phase_liquidity := l; phase_result := None; phase_requestor := rfqt opts ≫= quoteRequestor |}) as ->;
        [|done].
      unfold rfqPhase. destruct (rfqt opts) as [ro|] eqn:Ero; [|done]. cbn.
      destruct (quoteRequestor ro) eqn:Eqr; cbn; [|done].
      destruct Hskip as [?|[-> | ->]]; [done | done|]. by rewrite andb_false_r.
    + intros r r' Hr (l' & p1 & price & ph & Hl' & Hp & Hph & Hres)%optimizer_result_inv.
      rewrite Hl in Hl'. apply Ok_inj in Hl' as <-.
      unfold getPhaseOneRoutingResult in Hp. fold routed in Hp. rewrite Hr in Hp. injection Hp as <- _.
      apply rfqPhase_cases in Hph as [_ [[_ E]|(Hal & [ro Hro] & Hsup & _)]]; [congruence|].
      destruct Hskip as [?|[?|?]]; congruence.
Qed.

(** C16. The second routing, which mixes the RFQ quotes in, keeps to the sources of
    the first: when it replaces the result, every sampled single source that
    it fills is the source of an order of the first path. *)
Theorem second_routing_keeps_sources {F} `{!FillAdjustor F} `{!FillAdjustorLaws F} maker taker amount
    side (opts : GetMarketOrdersOpts F) l phaseOne price ph :
  Forall (λ ss, ss ≠ [] ∧ ∃ source, Forall (λ s, sample_source s = source) ss) (raw_dexQuotes (quotes l)) →
  rfqPhase maker taker amount side opts l phaseOne price = Ok ph →
  phase_result ph = phaseOne ∨
  ∃ r, phase_result ph = Some r ∧
    Forall (λ f, fill_source f ∈ phase1OptimalSources phaseOne ∨
      PathOptimizer.of_sample (concat (raw_twoHopQuotes (quotes l))) f ∨
      PathOptimizer.of_order (routedOrders (quotes (phase_liquidity ph))) f) (Path.fills (result_path r)).
Proof.
  intros Hsrc ([_ (_ & Hd & Hh & _)] & [[_ ?]|(_ & _ & _ & r & Hr & Hg)])%rfqPhase_cases; [by left|].
  right. exists r. split; [done|]. apply optimized_orders_from in Hg as [Hg _].
  eapply Forall_impl; [exact Hg|]. intros f [H|[H|H]]; [left | right; left | by right; right].
  - destruct H as (s & Hs & -> & _). cbn in Hs. rewrite Hd in Hs.
    apply list_elem_of_In, in_concat in Hs as (ss & Hss & Hs).
    apply list_elem_of_In in Hss, Hs. apply elem_of_bfilter in Hss as [Hss Hinc].
    rewrite Forall_forall in Hsrc. destruct (Hsrc _ Hss) as [_ [source Hall]].
    destruct ss as [|s0 ss]; [done|]. apply includes_true in Hinc. rewrite Forall_forall in Hall.
    rewrite (Hall s Hs). rewrite (Hall s0) in Hinc by left. exact Hinc.
  - cbn in H. rewrite Hh in H. destruct H as (s & [Hs _]%elem_of_bfilter & H). by exists s.
Qed.



(** A token whose native rate could not be sampled, so is zero, is never a
    micro swap: its value counts as infinite, not as zero. *)
Theorem unknown_rates_are_never_micro inputAmount rate A :
  fin inputAmount A → (0 < A)%Q → fin rate 0 → isNegative rate = false →
  isMicroSwap inputAmount rate = false.
Proof.
  intros HA Hpos Hr Hn. unfold isMicroSwap. destruct chain; try done.
  unfold gt. rewrite lt_val. rewrite (val_div_zero _ _ _ _ HA Hr) by (try done; lra).
  rewrite (isNegative_fin _ _ HA) by lra. rewrite Hn.
  rewrite (proj2 (Qlt_bool_false _ _)) by lra. by destruct (val _) as [|[]|].
Qed.
End MarketOperationUtils.
End MarketOps.

(** ** A concrete request *)
Module MarketExamples.
Import Concrete SamplerExamples.

Definition rnd (n : nat) : string := String.concat "" (replicate n "x").
Definition otype (_ : FillQuoteTransformerOrderType) : string := "2".
Definition unit_amount (a : BN) (_ : number) : BN := a.
Definition parse (s : string) : BN := if String.eqb s "" then of_Z 0 else of_Z 90.

(** A router that gives everything to the first path. *)
Definition first_path (_ : PathOptimizer.OptimizerCapture) (_ : nat) : result PathOptimizer.RouterArrays :=
  Ok {| PathOptimizer.allInputs := λ i, nth i [n_Z 100] (n_Z 0);
        PathOptimizer.allOutputs := λ i, nth i [n_Z 900] (n_Z 0);
        PathOptimizer.vipInputs := λ _, n_Z 0; PathOptimizer.vipOutputs := λ _, n_Z 0 |}.

(** A maker that quotes one order. *)
Definition maker_order : RawOrder :=
  {| raw_makerToken := "0xa"; raw_takerToken := "0xb"; raw_makerAmount := "90"; raw_takerAmount := "90";
     raw_maker := "0xmaker"; raw_expiry := "90" |}.
Definition one_maker : RfqApi :=
  {| post_v1_prices := λ _, Throw TypeError; post_v2_prices := λ _, Throw TypeError;
     post_v1_quotes := λ _, Ok {| status := OK; data := Some (Some
       [{| raw_signature := INVALID_SIGNATURE; raw_makerUri := "https://maker"; raw_order := maker_order;
           raw_fillableMakerAmount := "90"; raw_fillableTakerAmount := "90"; raw_fillableTakerFeeAmount := "" |}]) |};
     post_v2_quotes := λ _, Throw TypeError |}.
Definition rfq_opts : GetMarketOrdersRfqOpts :=
  {| takerAddress := "0xtaker"; txOrigin := "0xtaker"; integratorId := "id"; intentOnFilling := true;
     isIndicative := false; nativeExclusivelyRFQ := false; altRfqAssetOfferings := None;
     quoteRequestor := Some QuoteRequestor.new; rfqClient := Some one_maker; firmQuoteValidator := None |}.

Definition opts_with (included : list ERC20BridgeSource) (rfq : option GetMarketOrdersRfqOpts)
    : GetMarketOrdersOpts IdentityFillAdjustor :=
  {| excludedSources := []; includedSources := included; numSamples := 3;
     sampleDistributionBase := n_Z 1; neonRouterNumSamples := 5; feeSchedule := ex_fees;
     nativeRfqFee := Ok (of_Z 1); exchangeProxyOverhead := λ _, of_Z 1; rfqt := rfq;
     shouldGenerateQuoteReport := true; fillAdjustor := NewIdentityFillAdjustor |}.
Definition onchain : GetMarketOrdersOpts IdentityFillAdjustor := opts_with [ERC20BridgeSource.UniswapV2] None.
Definition with_rfq : GetMarketOrdersOpts IdentityFillAdjustor :=
  opts_with [ERC20BridgeSource.UniswapV2; ERC20BridgeSource.Native] (Some rfq_opts).

Definition liquidity_of (opts : GetMarketOrdersOpts IdentityFillAdjustor) : result MarketSideLiquidity :=
  getMarketLiquidity ex_bytes32 ex_sampler "0xproxy" Sell "0xa" "0xb" [] (of_Z 100) opts.
Definition result_of (opts : GetMarketOrdersOpts IdentityFillAdjustor) : result OptimizerResultWithReport :=
  getOptimizerResultAsync ex_bytes32 first_path rnd otype unit_amount parse ex_sampler "0xproxy"
    "0xa" "0xb" [] (of_Z 100) Sell opts.
Definition phase_of (opts : GetMarketOrdersOpts IdentityFillAdjustor) (l : MarketSideLiquidity)
    (phaseOne : option OptimizerResult) (price : option BN) : result RfqPhase :=
  rfqPhase first_path rnd otype parse ex_sampler "0xa" "0xb" (of_Z 100) Sell opts l phaseOne price.
Definition phase_one_of (opts : GetMarketOrdersOpts IdentityFillAdjustor) (l : MarketSideLiquidity)
    : result (option OptimizerResult * option BN) :=
  getPhaseOneRoutingResult first_path rnd otype unit_amount ex_sampler l (of_Z 100) opts.
(** Two sources are sampled, and the first routing chooses the first of them. *)
Definition two_sources : GetMarketOrdersOpts IdentityFillAdjustor :=
  opts_with [ERC20BridgeSource.SushiSwap; ERC20BridgeSource.UniswapV2; ERC20BridgeSource.Native] (Some rfq_opts).
Definition one_source (ss : list DexSample) : bool :=
  match ss with
  | [] => false
  | s0 :: _ => forallb (λ s, bool_decide (sample_source s = sample_source s0)) ss
  end.
Definition sampled_from (source : ERC20BridgeSource) (l : MarketSideLiquidity) : bool :=
  existsb (λ s, bool_decide (sample_source s = source)) (concat (raw_dexQuotes (quotes l))).
(** The native orders that a routing had. *)
Definition routed_natives (r : option OptimizerResult) : nat :=
  match r with Some r => length (raw_nativeOrders (quotes (marketSideLiquidity r))) | None => 0 end.
End MarketExamples.
Import Concrete SamplerExamples MarketExamples.

Lemma sampled_liquidity_respects_request_witness :
  ∃ l, liquidity_of onchain = Ok l ∧ msl_inputAmount l = of_Z 100 ∧
    allowed_quotes ex_sampler (quoteSourceFilters l) (getSampleAmounts (of_Z 100) 3 (n_Z 1))
      (isMicroSwap ex_sampler (of_Z 100) (msl_inputAmountPerEth l)) (quotes l).
Proof.
  assert (is_ok (liquidity_of onchain) = true) as K by (vm_compute; reflexivity).
  destruct (liquidity_of onchain) as [l|] eqn:E; [|discriminate K]. exists l. split; [reflexivity|].
  destruct (sampled_liquidity_respects_request ex_bytes32 ex_sampler "0xproxy" Sell "0xa" "0xb" [] (of_Z 100)
    onchain l E) as (_ & H1 & _ & H2 & _). split; [exact H1 | exact H2].
Defined.

Lemma result_fills_allowed_witness :
  ∃ r, result_of with_rfq = Ok r ∧
    Forall (allowed_fill (quoteSourceFiltersOf (_sellSources ex_sampler) with_rfq) [])
      (Path.fills (result_path (optimizerResult r))).
Proof.
  assert (is_ok (result_of with_rfq) = true) as K by (vm_compute; reflexivity).
  destruct (result_of with_rfq) as [r|] eqn:E; [|discriminate K]. exists r. split; [reflexivity|].
  exact (result_fills_allowed ex_bytes32 first_path rnd otype unit_amount parse ex_sampler "0xproxy"
    "0xa" "0xb" [] (of_Z 100) Sell with_rfq r E).
Defined.

Lemma rfq_is_optional_witness :
  ∃ l r r', liquidity_of onchain = Ok l ∧
    generateOptimizedOrders first_path rnd otype ex_sampler l (optimizerOptsOf onchain NewIdentityFillAdjustor) = Ok r ∧
    result_of onchain = Ok r' ∧ optimizerResult r' = r.
Proof.
  assert (is_ok (liquidity_of onchain) && is_ok (result_of onchain) &&
    match liquidity_of onchain with
    | Ok l => is_ok (generateOptimizedOrders first_path rnd otype ex_sampler l (optimizerOptsOf onchain NewIdentityFillAdjustor))
    | _ => false end = true) as K by (vm_compute; reflexivity).
  destruct (liquidity_of onchain) as [l|] eqn:E; [|discriminate K].
  destruct (result_of onchain) as [r'|] eqn:Er'; [|discriminate K].
  destruct (generateOptimizedOrders first_path rnd otype ex_sampler l (optimizerOptsOf onchain NewIdentityFillAdjustor))
    as [r|] eqn:Er; [|discriminate K].
  exists l, r, r'. split; [reflexivity|]. split; [exact Er|]. split; [reflexivity|].
  destruct (rfq_is_optional ex_bytes32 first_path rnd otype unit_amount parse ex_sampler "0xproxy"
    "0xa" "0xb" [] (of_Z 100) Sell onchain l E) as [_ H].
  apply (H (or_introl eq_refl)); [exact Er | exact Er'].
Defined.

Lemma one_source_spec l :
  forallb one_source l = true → Forall (λ ss, ss ≠ [] ∧ ∃ source, Forall (λ s, sample_source s = source) ss) l.
Proof.
  intros H. apply Forall_forall. intros ss Hss%list_elem_of_In.
  rewrite forallb_forall in H. specialize (H _ Hss). destruct ss as [|s0 ss]; [discriminate H|].
  split; [done|]. exists (sample_source s0). apply Forall_forall. intros s Hs%list_elem_of_In.
  unfold one_source in H. rewrite forallb_forall in H. apply (bool_decide_eq_true_1 _), (H s Hs).
Qed.

Lemma second_routing_keeps_sources_witness :
  ∃ l phaseOne price ph r,
    liquidity_of two_sources = Ok l ∧ phase_one_of two_sources l = Ok (phaseOne, price) ∧
    phase_of two_sources l phaseOne price = Ok ph ∧ phase_result ph = Some r ∧
    sampled_from ERC20BridgeSource.SushiSwap l = true ∧ sampled_from ERC20BridgeSource.UniswapV2 l = true ∧
    phase1OptimalSources phaseOne = [ERC20BridgeSource.SushiSwap] ∧
    Forall (λ f, fill_source f ∈ phase1OptimalSources phaseOne ∨
      PathOptimizer.of_sample (concat (raw_twoHopQuotes (quotes l))) f ∨
      PathOptimizer.of_order (routedOrders (quotes (phase_liquidity ph))) f) (Path.fills (result_path r)).
Proof.
  assert (match liquidity_of two_sources with
          | Ok l => match phase_one_of two_sources l with
                    | Ok (phaseOne, price) =>
                        match phase_of two_sources l phaseOne price with
                        | Ok ph => sampled_from ERC20BridgeSource.SushiSwap l && sampled_from ERC20BridgeSource.UniswapV2 l
                            && forallb one_source (raw_dexQuotes (quotes l))
                            && bool_decide (phase1OptimalSources phaseOne = [ERC20BridgeSource.SushiSwap])
                            && bool_decide (routed_natives phaseOne = 0%nat)
                            && bool_decide (routed_natives (phase_result ph) = 1%nat)
                        | _ => false end
                    | _ => false end
          | _ => false end = true) as K by (vm_compute; reflexivity).
  destruct (liquidity_of two_sources) as [l|] eqn:E; [|discriminate K].
  destruct (phase_one_of two_sources l) as [[phaseOne price]|] eqn:E1; [|discriminate K].
  destruct (phase_of two_sources l phaseOne price) as [ph|] eqn:Ep; [|discriminate K].
  repeat match goal with H : _ && _ = true |- _ => apply andb_true_iff in H as [? ?] end.
  repeat match goal with H : bool_decide _ = true |- _ => apply bool_decide_eq_true in H end.
  destruct (second_routing_keeps_sources first_path rnd otype parse ex_sampler "0xa" "0xb" (of_Z 100) Sell two_sources
    l phaseOne price ph (one_source_spec (raw_dexQuotes (quotes l)) ltac:(assumption)) Ep) as [H'|(r & Hr & H')]; [congruence|].
  exists l, phaseOne, price, ph, r. split_and!; try assumption; try reflexivity.
Defined.




Lemma unknown_rates_are_never_micro_witness :
  isMicroSwap {| chainId := ChainId.Optimism; balancerCache := IPoolsCache.NoOpPoolsCache; balancerV2Cache := None;
     tokenAdjacencyGraph := tokenAdjacencyGraph ex_sampler; aaveV2ReservesCache := None;
     aaveV3ReservesCache := None; compoundCTokenCache := None; _bancorService := None |}
    (of_Z 100) (of_Z 0) = false.
Proof.
  apply (unknown_rates_are_never_micro _ (of_Z 100) (of_Z 0) (inject_Z 100)).
  - apply (fin_Z (B := QBigNumber)).
  - reflexivity.
  - apply (fin_Z (B := QBigNumber)).
  - reflexivity.
Defined.
