(* ===== verification/Quotes.v ===== *)
(** * Quotes and the interface of their paths ([asset-swapper/types.ts])

    What the consumers of a quote read: the quote, the options of the exchange
    proxy and the interface [IPath].  The interface comes with the laws its
    clients rely on, and [Path] of [path.ts] implements them. *)

From S2P Require Import Prelude JsNumber BigNum Types Fills Orders PathModel Simulation QuoteInfo.
From S2P Require Import QuoteReport.

Section Quotes.
Context {B : BigNumberLib}.

(** ** [IPath] *)

Class IPath (P : Type) := {
  hasTwoHop : P → bool;
  getOrdersByType : P → OptimizedOrdersByType;
  getOrders : P → list OptimizedOrder;
  getSlippedOrders : P → number → result (list OptimizedOrder);
  getSlippedOrdersByType : P → number → result OptimizedOrdersByType;
}.

#[global] Instance Path_IPath : IPath Path.t := {|
  hasTwoHop := Path.hasTwoHop;
  getOrdersByType := Path.getOrdersByType;
  getOrders := Path.getOrders;
  getSlippedOrders := Path.getSlippedOrders;
  getSlippedOrdersByType := Path.getSlippedOrdersByType;
|}.

(** An order and the worst order accepted for it: slippage only lowers the
    maker amount of a sell or raises the taker amount of a buy. *)
Definition slipped_of (side : MarketOperation) (o o' : OptimizedOrder) : Prop :=
  match side with
  | Sell => o' = Path.with_makerAmount o (opt_makerAmount o')
  | Buy => o' = Path.with_takerAmount o (opt_takerAmount o')
  end.

(** An order is a bridge order or a native one carrying its signed order. *)
Definition well_formed_order (o : OptimizedOrder) : Prop :=
  (opt_type o = FillQuoteTransformerOrderType.Bridge) ∨
  (opt_type o ≠ FillQuoteTransformerOrderType.Bridge ∧ opt_source o = ERC20BridgeSource.Native ∧
   ∃ n, opt_fillData o = FDNative n).

Record slipped_by_type (side : MarketOperation) (ty ty' : OptimizedOrdersByType) : Prop := {
  sb_native : nativeOrders ty' = nativeOrders ty;
  sb_bridge : Forall2 (slipped_of side) (bridgeOrders ty) (bridgeOrders ty');
  sb_twoHop : Forall2 (λ o o', slipped_of side (firstHopOrder o) (firstHopOrder o') ∧
                               slipped_of side (secondHopOrder o) (secondHopOrder o'))
                (twoHopOrders ty) (twoHopOrders ty');
}.

(** The laws a path of the side [side] keeps. *)
Record IPathLaws {P} `{!IPath P} (side : MarketOperation) (p : P) : Prop := {
  path_orders : getOrders p = Path.flatten (getOrdersByType p);
  path_twoHop : hasTwoHop p = true ↔ twoHopOrders (getOrdersByType p) ≠ [];
  path_well_formed : Forall well_formed_order (getOrders p);
  path_native : Forall (λ o, opt_type o ≠ FillQuoteTransformerOrderType.Bridge)
                  (nativeOrders (getOrdersByType p));
  path_bridge : Forall (λ o, opt_type o = FillQuoteTransformerOrderType.Bridge ∧
                             opt_source o ≠ ERC20BridgeSource.Native)
                  (bridgeOrders (getOrdersByType p));
  path_slipped s : getSlippedOrders p s = Path.flatten <$> getSlippedOrdersByType p s;
  path_slipped_by_type s ty :
    getSlippedOrdersByType p s = Ok ty → slipped_by_type side (getOrdersByType p) ty;
}.

(** ** Quotes *)

(** [MarketSellSwapQuote | MarketBuySwapQuote]. *)
Inductive QuoteType : Type :=
| MarketSell (takerTokenFillAmount : BN)
| MarketBuy (makerTokenFillAmount : BN).

Record SwapQuote {P : Type} : Type := {
  takerToken : string;
  makerToken : string;
  quote_gasPrice : BN;
  path : P;
  quote_bestCase : SwapQuoteInfo;
  quote_worstCase : SwapQuoteInfo;
  quote_sourceBreakdown : SwapQuoteSourceBreakdown;
  quote_report : option QuoteReport;
  quote_extendedReport : ExtendedQuoteReportSources;
  quote_makerTokenDecimals : number;
  quote_takerTokenDecimals : number;
  takerAmountPerEth : BN;
  makerAmountPerEth : BN;
  quote_blockNumber : number;
  quote_samplerGasUsage : number;
  quote_type : QuoteType;
}.
#[global] Arguments SwapQuote P : clear implicits.

Definition quote_side (t : QuoteType) : MarketOperation :=
  match t with MarketSell _ => Sell | MarketBuy _ => Buy end.

(** ** Exchange proxy options *)

Inductive AffiliateFeeType : Type := NoFee | PercentageFee | PositiveSlippageFee | GaslessFee.

Record AffiliateFeeAmount : Type := {
  feeType : AffiliateFeeType;
  recipient : string;
  buyTokenFeeAmount : BN;
  sellTokenFeeAmount : BN;
}.

Inductive MetaTransactionVersion : Type := V1 | V2.

Record ExchangeProxyContractOpts : Type := {
  isFromETH : bool;
  isToETH : bool;
  sellTokenAffiliateFees : list AffiliateFeeAmount;
  buyTokenAffiliateFees : list AffiliateFeeAmount;
  positiveSlippageFee : option AffiliateFeeAmount;
  refundReceiver : string;
  metaTransactionVersion : option MetaTransactionVersion;
  shouldSellEntireBalance : bool;
}.

Definition NULL_ADDRESS : string := "0x0000000000000000000000000000000000000000".

(** [constants.DEFAULT_EXCHANGE_PROXY_EXTENSION_CONTRACT_OPTS]. *)
Definition DEFAULT_EXCHANGE_PROXY_EXTENSION_CONTRACT_OPTS : ExchangeProxyContractOpts :=
  {| isFromETH := false; isToETH := false; sellTokenAffiliateFees := [];
     buyTokenAffiliateFees := []; positiveSlippageFee := None; refundReceiver := NULL_ADDRESS;
     metaTransactionVersion := None; shouldSellEntireBalance := false |}.

(** [Partial<ExchangeProxyContractOpts>]: the keys that are present. *)
Record PartialOpts : Type := {
  p_isFromETH : option bool;
  p_isToETH : option bool;
  p_sellTokenAffiliateFees : option (list AffiliateFeeAmount);
  p_buyTokenAffiliateFees : option (list AffiliateFeeAmount);
  p_positiveSlippageFee : option AffiliateFeeAmount;
  p_refundReceiver : option string;
  p_metaTransactionVersion : option MetaTransactionVersion;
  p_shouldSellEntireBalance : option bool;
}.

Definition optsWithDefaults (opts : PartialOpts) : ExchangeProxyContractOpts :=
  let d := DEFAULT_EXCHANGE_PROXY_EXTENSION_CONTRACT_OPTS in
  {| isFromETH := default (isFromETH d) (p_isFromETH opts);
     isToETH := default (isToETH d) (p_isToETH opts);
     sellTokenAffiliateFees := default (sellTokenAffiliateFees d) (p_sellTokenAffiliateFees opts);
     buyTokenAffiliateFees := default (buyTokenAffiliateFees d) (p_buyTokenAffiliateFees opts);
     positiveSlippageFee := p_positiveSlippageFee opts;
     refundReceiver := default (refundReceiver d) (p_refundReceiver opts);
     metaTransactionVersion := p_metaTransactionVersion opts;
     shouldSellEntireBalance := default (shouldSellEntireBalance d) (p_shouldSellEntireBalance opts) |}.
End Quotes.

(** ** [Path] keeps the laws *)

Section PathLaws.
Context {B : BigNumberLib}.

Lemma createSlipOrder_slipped s side o : slipped_of side o (Path.createSlipOrderFunction s side o).
Proof.
  unfold slipped_of, Path.createSlipOrderFunction.
  destruct (Path.isNative (opt_source o) || _), side; by destruct o.
Qed.

Lemma Forall2_fmap_self {A} (R : A → A → Prop) (g : A → A) l :
  (∀ x, R x (g x)) → Forall2 R l (g <$> l).
Proof. intros H. induction l; constructor; auto. Qed.

Lemma native_order_well_formed f side o :
  createNativeOptimizedOrder f side = Ok o →
  opt_type o ≠ FillQuoteTransformerOrderType.Bridge ∧ opt_source o = ERC20BridgeSource.Native ∧
  ∃ n, opt_fillData o = FDNative n.
Proof.
  unfold createNativeOptimizedOrder. destruct (fill_fillData f) eqn:E; try done.
  destruct (fill_type f); try done; intros [= <-]; simpl; (split; [done|]); (split; [done|]); eauto.
Qed.

Lemma bridge_order_type f mk tk side o :
  createBridgeOrder f mk tk side = Ok o → opt_type o = FillQuoteTransformerOrderType.Bridge.
Proof. unfold createBridgeOrder. intros H. ok_inv H. by injection H as <-. Qed.

Lemma two_hop_order_types f ctx o :
  createOrdersFromTwoHopSample f ctx = Ok o →
  opt_type (firstHopOrder o) = FillQuoteTransformerOrderType.Bridge ∧
  opt_type (secondHopOrder o) = FillQuoteTransformerOrderType.Bridge.
Proof.
  unfold createOrdersFromTwoHopSample. destruct (getMakerTakerTokens ctx) as [mk tk].
  destruct (fill_fillData f) as [| | | | | | | | | | |[[? ?]|] [[? ?]|] ?| | | | | | | | | | | | |]; try done.
  intros H. ok_inv H. injection H as <-. simpl.
  split; eapply bridge_order_type; eassumption.
Qed.

Lemma Forall2_right {A C} (R : A → C → Prop) (Q : C → Prop) l k :
  Forall2 R l k → (∀ x y, R x y → Q y) → Forall Q k.
Proof. induction 1; constructor; eauto. Qed.

Lemma two_hops_well_formed l :
  Forall (λ o, opt_type (firstHopOrder o) = FillQuoteTransformerOrderType.Bridge ∧
    opt_type (secondHopOrder o) = FillQuoteTransformerOrderType.Bridge) l →
  Forall well_formed_order (Path.flatTwoHop l).
Proof.
  induction 1 as [|o l [H1 H2] _ IH]; simpl; [constructor|].
  constructor; [by left|]. constructor; [by left | exact IH].
Qed.

Lemma bridge_orders_typed (p : Fill → bool) fs mk tk side os :
  Forall2 (λ f o, createBridgeOrder f mk tk side = Ok o)
    (bfilter (λ f, negb (Path.isNative (fill_source f)) && p f) fs) os →
  Forall (λ o, opt_type o = FillQuoteTransformerOrderType.Bridge ∧
               opt_source o ≠ ERC20BridgeSource.Native) os.
Proof.
  intros H. pose proof (bfilter_Forall (λ f, negb (Path.isNative (fill_source f)) && p f) fs) as Hp.
  induction H as [|f o l os Ho _ IH]; [constructor|]. apply Forall_cons in Hp as [Hf Hp].
  constructor; [|by apply IH]. split; [by eapply bridge_order_type|].
  unfold createBridgeOrder in Ho. ok_inv Ho. injection Ho as <-. simpl.
  apply andb_true_iff in Hf as [Hf%negb_true_iff%bool_decide_eq_false _]. done.
Qed.

Lemma Path_laws ctx fs target opts p :
  Path.create ctx fs target opts = Ok p → Forall Path.flags_ok fs →
  IPathLaws (ctx_side ctx) p.
Proof.
  intros Hc Hflags.
  assert (∀ s, Path.getSlippedOrders p s = Path.flatten <$> Path.getSlippedOrdersByType p s) as Hagree
    by (intros s; apply (Path.slipped_agree _ _ _ _ _ _ Hc)).
  pose proof (Path.hasTwoHop_orders _ _ _ _ _ Hc Hflags) as Htwo.
  apply Path.create_ok in Hc as (ty & Hty & ->). apply Path.createOrdersByType_ok in Hty as (Hn & Ht & Hb).
  assert (Forall (λ o, opt_type o ≠ FillQuoteTransformerOrderType.Bridge ∧
    opt_source o = ERC20BridgeSource.Native ∧ ∃ n, opt_fillData o = FDNative n) (nativeOrders ty)) as HN
    by (eapply Forall2_right; [exact Hn|]; intros f o Ho; exact (native_order_well_formed f _ o Ho)).
  assert (Forall (λ o, opt_type o = FillQuoteTransformerOrderType.Bridge ∧
    opt_source o ≠ ERC20BridgeSource.Native) (bridgeOrders ty)) as HB
    by exact (bridge_orders_typed (λ f, negb (Path.isMultiHop (fill_source f))) _ _ _ _ _ Hb).
  split; try done.
  - simpl. unfold Path.getOrders. simpl. rewrite !Forall_app. split_and!.
    + eapply Forall_impl; [exact HN|]. intros o Ho. by right.
    + eapply Forall_impl; [exact HB|]. intros o [Ho _]. by left.
    + assert (Forall (λ o, opt_type (firstHopOrder o) = FillQuoteTransformerOrderType.Bridge ∧
        opt_type (secondHopOrder o) = FillQuoteTransformerOrderType.Bridge) (twoHopOrders ty)) as HT
        by (eapply Forall2_right; [exact Ht|]; intros f o Ho; exact (two_hop_order_types f _ o Ho)).
      by apply two_hops_well_formed.
  - simpl. eapply Forall_impl; [exact HN|]. by intros o [? _].
  - intros s ty' H. simpl in H. unfold Path.getSlippedOrdersByType in H.
    destruct (Path.checkSlippage s); [|done]. injection H as <-. split; simpl; [done | |].
    + apply Forall2_fmap_self. intros o. apply createSlipOrder_slipped.
    + apply Forall2_fmap_self. intros o. split; apply createSlipOrder_slipped.
Qed.
End PathLaws.
