(* ===== verification/SwapQuoter.v ===== *)
(** * The swap quoter ([asset-swapper/swap_quoter.ts])

    From a request to a quote: the options of the request are checked and
    scaled by the gas price, the open orders of the pair are fetched and pruned,
    and the result of the market operations is turned into the quote that the
    consumers encode. *)

From S2P Require Import Prelude JsNumber BigNum Types SourceFilters Fills Orders Constants.
From S2P Require Import GasSchedule JsLib PairUtils Caches BridgeSources Sampler SamplerOperations.
From S2P Require Import PathModel Optimizer SlippageModel Simulation QuoteInfo QuoteReport.
From S2P Require Import RfqClient RfqValidator MarketOps Quotes.

#[local] Set Default Proof Using "Type".

(** ** The order book *)

Section Orderbook.
Context {B : BigNumberLib}.

(** [asset-swapper/types.ts]: a signed limit order with the taker it is for. *)
Record SignedLimitOrder : Type := {
  limit_taker : string;
  limit_signed : SignedNativeOrder;
}.

(** [abstract class Orderbook]. *)
Class Orderbook : Type := {
  getOrdersAsync : string → string → (SignedLimitOrder → bool) → result (list SignedLimitOrder);
}.

(** What the quoter relies on: an order book answers, with orders that the
    pruning function keeps. *)
Class OrderbookLaws `{OB : !Orderbook} : Prop := {
  orderbook_pruned makerToken takerToken pruneFn :
    ∃ orders, getOrdersAsync makerToken takerToken pruneFn = Ok orders ∧
      Forall (λ o, pruneFn o = true) orders;
}.
End Orderbook.

Section SwapQuoter.
Context {B : BigNumberLib} `{BT : !BridgeTables} `{SC : !SamplerContract} `{OB : !Orderbook}.

(** The collaborators outside the repository. *)
Variable formatBytes32String parseBytes32String : string → string.
Variable wethAddress : string.
Variable route : PathOptimizer.OptimizerCapture → nat → result PathOptimizer.RouterArrays.
Variable hexUtils_random : nat → string.
Variable orderType_string : FillQuoteTransformerOrderType → string.
Variable toUnitAmount : BN → number → BN.
Variable bn_of_string : string → BN.
(** [assert.isETHAddressHex] of [@0x/assert] and [LimitOrder.willExpire] of
    [@0x/protocol-utils]. *)
Variable isETHAddressHex : string → string → result unit.
Variable willExpire : OrderFields → number → bool.
(** The answer of the gas oracle and its field [fast]. *)
Context {GasPrices : Type}.
Variable fast : GasPrices → number.

(** ** Options and state *)

Inductive OrderPrunerPermittedFeeTypes : Type := NoFees | TakerDenominatedTakerFee.
#[global] Instance OrderPrunerPermittedFeeTypes_eq_dec : EqDecision OrderPrunerPermittedFeeTypes.
Proof. solve_decision. Defined.

Record SwapQuoterRfqOpts : Type := {
  integratorsWhitelist : list string;
  txOriginBlacklist : list string;
}.

(** The fields of the class that quotes read; the filters and the chain are
    those of the sampler. *)
Record t : Type := {
  _sampler : SamplerOperations.t;
  _exchangeProxy : string;
  expiryBufferMs : number;
  permittedOrderFeeTypes : list OrderPrunerPermittedFeeTypes;
  _rfqtOptions : option SwapQuoterRfqOpts;
  _integratorIdsSet : list string;
}.

Definition new (sampler : SamplerOperations.t) (exchangeProxy : string) (expiryBufferMs : number)
    (permittedOrderFeeTypes : list OrderPrunerPermittedFeeTypes) (rfqt : option SwapQuoterRfqOpts) : t :=
  {| _sampler := sampler; _exchangeProxy := exchangeProxy; expiryBufferMs := expiryBufferMs;
     permittedOrderFeeTypes := permittedOrderFeeTypes; _rfqtOptions := rfqt;
     _integratorIdsSet := uniq (default [] (integratorsWhitelist <$> rfqt)) |}.

(** [SwapQuoteRequestOpts] with the defaults merged in: the overhead of
    [req_market] is in gas, and its fees are not read. *)
Record SwapQuoteRequestOpts {F : Type} : Type := {
  req_gasPrice : option BN;
  req_bridgeSlippage : number;
  req_market : GetMarketOrdersOpts F;
}.
#[global] Arguments SwapQuoteRequestOpts F : clear implicits.

(** ** Prices *)

Definition getGasPriceEstimationOrThrowAsync (answer : result GasPrices)
    (gasPriceUtils : GasPriceUtils.t (GasPrices := GasPrices)) : result BN * GasPriceUtils.t :=
  let '(r, gasPriceUtils) := GasPriceUtils.getGasPriceEstimationOrThrowAsync answer gasPriceUtils in
  (gasPrices ← r;
   match gasPrices with Some g => Ok (of_number (fast g)) | None => Throw TypeError end, gasPriceUtils).

Section Quoter.
Variable this : t.

(** The two tests are those of [@0x/token-metadata]. *)
Definition getTokenAmountPerWei {F} (isNativeSymbolOrAddress isNativeWrappedSymbolOrAddress : string → bool)
    (tokenAddress : string) (opts : SwapQuoteRequestOpts F) : result BN :=
  if isNativeSymbolOrAddress tokenAddress || isNativeWrappedSymbolOrAddress tokenAddress
  then Ok (of_Z 1)
  else MarketOps.getTokenAmountPerWei formatBytes32String (_sampler this) tokenAddress (req_market opts).

(** [_.mapValues(DEFAULT_GAS_SCHEDULE, ...)].  An estimate that throws is given
    no gas here; what is routed never makes one throw ([fees_defined]). *)
Definition gasOf (source : ERC20BridgeSource) (fillData : FillData) : result number :=
  DEFAULT_GAS_SCHEDULE parseBytes32String wethAddress source fillData.
Definition scaledFeeSchedule (gasPrice : BN) : FeeSchedule := λ source fillData,
  let gas := match gasOf source fillData with Ok gas => gas | Throw _ => n_Z 0 end in
  {| est_gas := gas; est_fee := times gasPrice (of_number gas) |}.

(** ** RFQ options *)

Definition _isIntegratorIdWhitelisted (integratorId : string) : bool :=
  if String.eqb integratorId "" then false else bool_decide (integratorId ∈ _integratorIdsSet this).

Definition _isTxOriginBlacklisted (txOrigin : string) : bool :=
  if String.eqb txOrigin "" then false
  else bool_decide (toLowerCase txOrigin ∈ default [] (txOriginBlacklist <$> _rfqtOptions this)).

Definition NATIVE_EXCLUDED : js_error :=
  let quote := String (Ascii.ascii_of_nat 34) "" in
  Error ("Native liquidity cannot be excluded if " +:+ quote +:+ "rfqt.nativeExclusivelyRFQ" +:+ quote +:+ " is set").
Definition NO_TX_ORIGIN : js_error := Error "RFQ-T firm quote requests must specify a tx origin".

Definition _validateRfqtOpts (sourceFilters : SourceFilters.t) (rfqt : option GetMarketOrdersRfqOpts)
    : result (option GetMarketOrdersRfqOpts) :=
  match rfqt with
  | None => Ok None
  | Some r =>
      let nativeAllowed := SourceFilters.isAllowed sourceFilters ERC20BridgeSource.Native in
      if nativeExclusivelyRFQ r && negb nativeAllowed then Throw NATIVE_EXCLUDED
      else if negb (_isIntegratorIdWhitelisted (integratorId r)) then Ok None
      else if _isTxOriginBlacklisted (txOrigin r) then Ok None
      else if intentOnFilling r && _isIntegratorIdWhitelisted (integratorId r) && nativeAllowed
              && (String.eqb (txOrigin r) "" || String.eqb (txOrigin r) NULL_ADDRESS)
      then Throw NO_TX_ORIGIN
      else Ok (Some r)
  end.

(** ** Limit orders *)

Definition ONE_SECOND_MS : Z := 1000.

Definition _limitOrderPruningFn (limitOrder : SignedLimitOrder) : bool :=
  let order := signed_order (limit_signed limitOrder) in
  let isOpenOrder := String.eqb (limit_taker limitOrder) NULL_ADDRESS in
  let willOrderExpire := willExpire order (n_div (expiryBufferMs this) (n_Z ONE_SECOND_MS)) in
  let isFeeTypeAllowed :=
    includes (permittedOrderFeeTypes this) NoFees && isEqualTo (order_takerTokenFeeAmount order) ZERO_AMOUNT in
  isOpenOrder && negb willOrderExpire && isFeeTypeAllowed.

Definition quoteFilter {F} (side : MarketOperation) (opts : GetMarketOrdersOpts F) : SourceFilters.t :=
  SourceFilters.merge
    (match side with Sell => _sellSources (_sampler this) | Buy => _buySources (_sampler this) end)
    (SourceFilters.new [] (excludedSources opts) (includedSources opts)).

Definition getLimitOrders {F} (side : MarketOperation) (makerToken takerToken : string)
    (opts : GetMarketOrdersOpts F) : result (list SignedLimitOrder) :=
  if negb (SourceFilters.isAllowed (quoteFilter side opts) ERC20BridgeSource.Native)
     || match rfqt opts with Some r => nativeExclusivelyRFQ r | None => false end
  then Ok []
  else getOrdersAsync makerToken takerToken _limitOrderPruningFn.

(** ** Quotes *)

Definition with_quoting (r : GetMarketOrdersRfqOpts) (client : option RfqApi) : GetMarketOrdersRfqOpts :=
  {| takerAddress := takerAddress r; txOrigin := txOrigin r; integratorId := integratorId r;
     intentOnFilling := intentOnFilling r; isIndicative := isIndicative r;
     nativeExclusivelyRFQ := nativeExclusivelyRFQ r; altRfqAssetOfferings := altRfqAssetOfferings r;
     quoteRequestor := Some QuoteRequestor.new; rfqClient := client;
     firmQuoteValidator := firmQuoteValidator r |}.

(** [calcOpts]: the fees and the overhead in wei, the checked RFQ options with
    a requestor of their own. *)
Definition calcOpts {F} (opts : GetMarketOrdersOpts F) (gasPrice : BN)
    (rfqt : option GetMarketOrdersRfqOpts) (client : option RfqApi) : GetMarketOrdersOpts F :=
  {| excludedSources := excludedSources opts; includedSources := includedSources opts;
     numSamples := numSamples opts; sampleDistributionBase := sampleDistributionBase opts;
     neonRouterNumSamples := neonRouterNumSamples opts;
     feeSchedule := scaledFeeSchedule gasPrice;
     nativeRfqFee := Ok (times gasPrice (of_number (native_type_gas FillQuoteTransformerOrderType.Rfq)));
     exchangeProxyOverhead := λ flags, times gasPrice (exchangeProxyOverhead opts flags);
     rfqt := (λ r, with_quoting r client) <$> rfqt;
     shouldGenerateQuoteReport := shouldGenerateQuoteReport opts; fillAdjustor := fillAdjustor opts |}.

Definition createSwapQuote (result : OptimizerResultWithReport) (makerToken takerToken : string)
    (operation : MarketOperation) (assetFillAmount gasPrice : BN) (gasSchedule : GasSchedule)
    (slippage : number) : Prelude.result (SwapQuote Path.t) :=
  let r := optimizerResult result in
  info ← calculateQuoteInfo (result_path r) operation assetFillAmount gasPrice gasSchedule slippage;
  let liquidity := marketSideLiquidity r in
  Ok {| takerToken := takerToken; makerToken := makerToken; quote_gasPrice := gasPrice;
        path := result_path r;
        quote_bestCase := bestCaseQuoteInfo info; quote_worstCase := worstCaseQuoteInfo info;
        quote_sourceBreakdown := sourceBreakdown info;
        quote_report := quoteReport result;
        quote_extendedReport := extendedQuoteReportSources result;
        quote_makerTokenDecimals := makerTokenDecimals liquidity;
        quote_takerTokenDecimals := takerTokenDecimals liquidity;
        takerAmountPerEth := MarketOps.takerAmountPerEth r;
        makerAmountPerEth := MarketOps.makerAmountPerEth r;
        quote_blockNumber := blockNumber liquidity; quote_samplerGasUsage := samplerGasUsage liquidity;
        quote_type := match operation with
                      | Buy => MarketBuy assetFillAmount
                      | Sell => MarketSell assetFillAmount end |}.

(** [swapQuote.bestCaseQuoteInfo.gas += exchangeProxyOverhead], and the worst. *)
Definition add_gas (overhead : number) (i : SwapQuoteInfo) : SwapQuoteInfo :=
  {| takerAmount := takerAmount i; totalTakerAmount := totalTakerAmount i; makerAmount := makerAmount i;
     protocolFeeInWeiAmount := protocolFeeInWeiAmount i; gas := n_add (gas i) overhead;
     slippage := slippage i |}.
Definition with_gas_overhead (q : SwapQuote Path.t) (overhead : number) : SwapQuote Path.t :=
  {| takerToken := takerToken q; makerToken := makerToken q; quote_gasPrice := quote_gasPrice q;
     path := path q; quote_bestCase := add_gas overhead (quote_bestCase q);
     quote_worstCase := add_gas overhead (quote_worstCase q);
     quote_sourceBreakdown := quote_sourceBreakdown q; quote_report := quote_report q;
     quote_extendedReport := quote_extendedReport q;
     quote_makerTokenDecimals := quote_makerTokenDecimals q;
     quote_takerTokenDecimals := quote_takerTokenDecimals q;
     takerAmountPerEth := takerAmountPerEth q; makerAmountPerEth := makerAmountPerEth q;
     quote_blockNumber := quote_blockNumber q; quote_samplerGasUsage := quote_samplerGasUsage q;
     quote_type := quote_type q |}.

(** The rest of [getSwapQuoteAsync] once the gas price is known. *)
Definition quoteAt {F} `{!FillAdjustor F} (makerToken takerToken : string) (assetFillAmount : BN)
    (marketOperation : MarketOperation) (opts : SwapQuoteRequestOpts F) (client : option RfqApi)
    (gasPrice : BN) : result (SwapQuote Path.t) :=
  let market := req_market opts in
  let sourceFilters := SourceFilters.new [] (excludedSources market) (includedSources market) in
  validated ← _validateRfqtOpts sourceFilters (rfqt market);
  let calc := calcOpts market gasPrice validated client in
  limitOrders ← getLimitOrders marketOperation makerToken takerToken calc;
  result ← getOptimizerResultAsync formatBytes32String route hexUtils_random orderType_string toUnitAmount
             bn_of_string (_sampler this) (_exchangeProxy this) makerToken takerToken
             (limit_signed <$> limitOrders) assetFillAmount marketOperation calc;
  swapQuote ← createSwapQuote result makerToken takerToken marketOperation assetFillAmount gasPrice
                gasOf (req_bridgeSlippage opts);
  Ok (with_gas_overhead swapQuote
        (toNumber (exchangeProxyOverhead market (Path.sourceFlags (result_path (optimizerResult result)))))).

(** The gas price of the request, or that of the oracle. *)
Definition gasPriceOf {F} (opts : SwapQuoteRequestOpts F) (answer : result GasPrices)
    (gasPriceUtils : GasPriceUtils.t (GasPrices := GasPrices)) : result BN * GasPriceUtils.t :=
  match req_gasPrice opts with
  | Some gasPrice => (Ok gasPrice, gasPriceUtils)
  | None => getGasPriceEstimationOrThrowAsync answer gasPriceUtils
  end.

Definition getSwapQuoteAsync {F} `{!FillAdjustor F} (makerToken takerToken : string) (assetFillAmount : BN)
    (marketOperation : MarketOperation) (opts : SwapQuoteRequestOpts F) (client : option RfqApi)
    (answer : result GasPrices) (gasPriceUtils : GasPriceUtils.t (GasPrices := GasPrices))
    : result (SwapQuote Path.t) * GasPriceUtils.t :=
  match isETHAddressHex "makerToken" makerToken, isETHAddressHex "takerToken" takerToken with
  | Ok _, Ok _ =>
      let '(price, gasPriceUtils) := gasPriceOf opts answer gasPriceUtils in
      (gasPrice ← price; quoteAt makerToken takerToken assetFillAmount marketOperation opts client gasPrice,
       gasPriceUtils)
  | Ok _, Throw e | Throw e, _ => (Throw e, gasPriceUtils)
  end.

(** ** What is requested *)

(** A source that the chain quotes on a side and the request does not rule
    out. *)
Definition requested {F} (side : MarketOperation) (opts : GetMarketOrdersOpts F) (s : ERC20BridgeSource) : Prop :=
  SourceFilters.isAllowed (sideSources (_sampler this) side) s = true ∧ s ∉ excludedSources opts ∧
  (includedSources opts = [] ∨ s ∈ includedSources opts).

Lemma chain_filters_plain side : SourceFilters._includedSources (sideSources (_sampler this) side) = [].
Proof.
  unfold sideSources, _sellSources, _buySources, MarketOps.chain.
  by destruct side, (SamplerOperations.chainId (_sampler this)).
Qed.

Lemma filter_requested {F} side (opts : GetMarketOrdersOpts F) s :
  SourceFilters.isAllowed (quoteSourceFiltersOf (sideSources (_sampler this) side) opts) s = true ↔
  requested side opts s.
Proof. apply SourceFilters.quote_filter_isAllowed, chain_filters_plain. Qed.

Lemma quoteFilter_requested {F} side (opts : GetMarketOrdersOpts F) s :
  SourceFilters.isAllowed (quoteFilter side opts) s = true ↔ requested side opts s.
Proof.
  unfold quoteFilter, requested. replace (match side with Sell => _ | Buy => _ end)
    with (sideSources (_sampler this) side) by by destruct side.
  apply SourceFilters.request_filter_isAllowed, chain_filters_plain.
Qed.

Lemma samplable_requested {F} side (opts : GetMarketOrdersOpts F) s :
  samplable (quoteSourceFiltersOf (sideSources (_sampler this) side) opts) s → requested side opts s.
Proof. intros [[_ H]%SourceFilters.sources_spec _]. by apply filter_requested. Qed.

(** A fill of requested sources only, the hops of a multi-hop included. *)
Definition requested_fill {F} (side : MarketOperation) (opts : GetMarketOrdersOpts F) (f : Fill) : Prop :=
  requested side opts (fill_source f) ∧
  (fill_source f = ERC20BridgeSource.MultiHop → ∃ h1 h2 mid,
     fill_fillData f = FDMultiHop (Some h1) (Some h2) mid ∧
     requested side opts h1.1 ∧ requested side opts h2.1).

Lemma allowed_fill_requested {F} side (opts : GetMarketOrdersOpts F) limitOrders f :
  (limitOrders ≠ [] → requested side opts ERC20BridgeSource.Native) →
  allowed_fill (quoteSourceFiltersOf (sideSources (_sampler this) side) opts) limitOrders f →
  requested_fill side opts f.
Proof.
  intros Hn [(_ & Hs & _)|[(_ & Hs & Hm & h1 & h2 & mid & Hfd & [H1 _] & [H2 _])|(Hs & n & _ & _ & Ho)]].
  - split; [by apply samplable_requested|]. intros E. destruct Hs as (_ & Hs & _). congruence.
  - split; [rewrite Hs; by apply filter_requested|]. intros _. exists h1, h2, mid.
    split; [done|]. split; by apply samplable_requested.
  - unfold requested_fill. rewrite Hs. split; [|done]. destruct Ho as [(o & Ho & _)|Ho].
    + apply Hn. intros ->. by apply elem_of_nil in Ho.
    + by apply filter_requested.
Qed.

Lemma limit_orders_requested {F} side maker taker (opts : GetMarketOrdersOpts F) orders :
  getLimitOrders side maker taker opts = Ok orders → orders ≠ [] →
  requested side opts ERC20BridgeSource.Native.
Proof.
  unfold getLimitOrders. destruct (SourceFilters.isAllowed _ _) eqn:E; [|by intros [= <-]].
  intros _ _. by apply quoteFilter_requested.
Qed.

(** A quote that is made has a gas price, and comes from the market
    operations at that price. *)
Lemma swap_quote_inv {F} `{!FillAdjustor F} maker taker amount side (opts : SwapQuoteRequestOpts F)
    client answer utils q utils' :
  getSwapQuoteAsync maker taker amount side opts client answer utils = (Ok q, utils') →
  ∃ gasPrice validated orders r overhead q0,
    (gasPriceOf opts answer utils).1 = Ok gasPrice ∧
    getLimitOrders side maker taker (calcOpts (req_market opts) gasPrice validated client) = Ok orders ∧
    getOptimizerResultAsync formatBytes32String route hexUtils_random orderType_string toUnitAmount bn_of_string
      (_sampler this) (_exchangeProxy this) maker taker (limit_signed <$> orders) amount side
      (calcOpts (req_market opts) gasPrice validated client) = Ok r ∧
    createSwapQuote r maker taker side amount gasPrice gasOf (req_bridgeSlippage opts) = Ok q0 ∧
    q = with_gas_overhead q0 overhead.
Proof.
  unfold getSwapQuoteAsync. destruct (isETHAddressHex _ maker); [|done].
  destruct (isETHAddressHex _ taker); [|done]. destruct (gasPriceOf opts answer utils) as [price utils''].
  intros H. apply pair_equal_spec in H as [H _]. apply result_bind_ok in H as (gasPrice & -> & H).
  unfold quoteAt in H. apply result_bind_ok in H as (validated & _ & H).
  apply result_bind_ok in H as (orders & Ho & H). apply result_bind_ok in H as (r & Hr & H).
  apply result_bind_ok in H as (q0 & Hq & H). apply Ok_inj in H as <-.
  exists gasPrice, validated, orders, r. eexists _, q0. split; [done|]. split; [exact Ho|]. split; [exact Hr|].
  split; [exact Hq | reflexivity].
Qed.

Lemma createSwapQuote_path r maker taker side amount gasPrice slippage q :
  createSwapQuote r maker taker side amount gasPrice gasOf slippage = Ok q →
  path q = result_path (optimizerResult r) ∧ makerToken q = maker ∧ takerToken q = taker ∧
  quote_gasPrice q = gasPrice ∧
  quote_type q = match side with Buy => MarketBuy amount | Sell => MarketSell amount end.
Proof. unfold createSwapQuote. intros H. apply result_bind_ok in H as (i & _ & H). by apply Ok_inj in H as <-. Qed.

(** ** Properties *)

(** What every quote keeps: its fills and orders are of requested sources, and
    it is for the tokens, the side and the amount asked, with a lawful path. *)
Lemma swap_quote_fills {F} `{!FillAdjustor F} `{!FillAdjustorLaws F} maker taker amount side
    (opts : SwapQuoteRequestOpts F) client answer utils q utils' :
  getSwapQuoteAsync maker taker amount side opts client answer utils = (Ok q, utils') →
  Forall (requested_fill side (req_market opts)) (Path.fills (path q)).
Proof.
  intros (gasPrice & validated & orders & r & o & q0 & _ & Ho & Hr & Hq & ->)%swap_quote_inv.
  apply createSwapQuote_path in Hq as (Hp & _). cbn. rewrite Hp. apply optimizer_result_allowed in Hr; [|done].
  eapply Forall_impl; [exact Hr|]. intros f Hf.
  apply (allowed_fill_requested side (calcOpts (req_market opts) gasPrice validated client)) in Hf; [exact Hf|].
  intros Hne. apply (limit_orders_requested _ _ _ _ _ Ho). intros ->. by apply Hne.
Qed.

Lemma swap_quote_created {F} `{!FillAdjustor F} `{!FillAdjustorLaws F} maker taker amount side
    (opts : SwapQuoteRequestOpts F) client answer utils q utils' :
  getSwapQuoteAsync maker taker amount side opts client answer utils = (Ok q, utils') →
  makerToken q = maker ∧ takerToken q = taker ∧
  quote_type q = match side with Buy => MarketBuy amount | Sell => MarketSell amount end ∧
  IPathLaws side (path q) ∧
  ∃ ctx target po, Path.create ctx (Path.fills (path q)) target po = Ok (path q).
Proof.
  intros (gasPrice & validated & orders & r & o & q0 & _ & Ho & Hr & Hq & ->)%swap_quote_inv.
  apply createSwapQuote_path in Hq as (Hp & Hm & Ht & _ & Hty). cbn. rewrite Hp.
  apply optimizer_result_created in Hr as (ctx & target & po & Hc & <- & Hf); [|done].
  split_and!; [done | done | done | by eapply Path_laws | by exists ctx, target, po].
Qed.

Lemma swap_quote_orders {F} `{!FillAdjustor F} `{!FillAdjustorLaws F} maker taker amount side
    (opts : SwapQuoteRequestOpts F) client answer utils q utils' :
  getSwapQuoteAsync maker taker amount side opts client answer utils = (Ok q, utils') →
  Forall (λ o, requested side (req_market opts) (opt_source o)) (Path.getOrders (path q)).
Proof.
  intros H. pose proof (swap_quote_fills _ _ _ _ _ _ _ _ _ _ H) as Hf.
  apply swap_quote_created in H as (_ & _ & _ & _ & ctx & target & po & Hc).
  eapply Forall_impl; [by eapply Path.orders_of_fills|]. intros o (f & Hin & Ho). rewrite Forall_forall in Hf.
  destruct (Hf f Hin) as [Hs Hh]. destruct Ho as [(_ & Eo)|(Hm & h1 & h2 & mid & Hfd & Ho)]; [by rewrite Eo|].
  destruct (Hh Hm) as (h1' & h2' & mid' & Hfd' & Hr1 & Hr2). rewrite Hfd in Hfd'. injection Hfd' as <- <- <-.
  by destruct Ho as [Eo|Eo]; rewrite Eo.
Qed.

(** C3. End to end, a quote goes through requested sources only: whatever the
    sampler contract, the order book, the RFQ makers, the gas oracle and the
    router answer, the source of every fill of the quote's path is one that the
    chain supports on that side, that the request does not exclude and that its
    inclusion list, when given, has; so are the two hops of a multi-hop. *)
Theorem swap_quote_respects_sources {F} `{!FillAdjustor F} `{!FillAdjustorLaws F} maker taker amount side
    (opts : SwapQuoteRequestOpts F) client answer utils q utils' :
  getSwapQuoteAsync maker taker amount side opts client answer utils = (Ok q, utils') →
  Forall (requested_fill side (req_market opts)) (Path.fills (path q)).
Proof. apply swap_quote_fills. Qed.

(** A quote is for the tokens, the side and the amount of its request, and its
    path keeps the laws that its consumers rely on: the orders by kind, the
    two-hop flag and the slipped orders agree with each other. *)
Theorem swap_quote_path_laws {F} `{!FillAdjustor F} `{!FillAdjustorLaws F} maker taker amount side
    (opts : SwapQuoteRequestOpts F) client answer utils q utils' :
  getSwapQuoteAsync maker taker amount side opts client answer utils = (Ok q, utils') →
  makerToken q = maker ∧ takerToken q = taker ∧
  quote_type q = match side with Buy => MarketBuy amount | Sell => MarketSell amount end ∧
  IPathLaws side (path q).
Proof. by intros (? & ? & ? & ? & _)%swap_quote_created. Qed.

(** What a request without RFQ liquidity fetches from the order book: nothing
    when the native source is not requested or only RFQ is wanted; otherwise
    open orders without a fee that do not expire within the buffer. *)
Theorem limit_orders_pruned {F} {Laws : OrderbookLaws} side maker taker (opts : GetMarketOrdersOpts F) :
  ∃ orders, getLimitOrders side maker taker opts = Ok orders ∧
    (¬ requested side opts ERC20BridgeSource.Native ∨
     (∃ r, rfqt opts = Some r ∧ nativeExclusivelyRFQ r = true) → orders = []) ∧
    Forall (λ o, limit_taker o = NULL_ADDRESS ∧
      willExpire (signed_order (limit_signed o)) (n_div (expiryBufferMs this) (n_Z ONE_SECOND_MS)) = false ∧
      isEqualTo (order_takerTokenFeeAmount (signed_order (limit_signed o))) ZERO_AMOUNT = true) orders.
Proof.
  unfold getLimitOrders. destruct (negb _ || _) eqn:E; [exists []; by split_and!|].
  apply orb_false_iff in E as [Hn%negb_false_iff He]. apply quoteFilter_requested in Hn.
  destruct (orderbook_pruned maker taker _limitOrderPruningFn) as (orders & -> & Hp). exists orders.
  split; [done|]. split.
  - intros [?|(r & Hr & Hx)]; [done|]. rewrite Hr in He. congruence.
  - eapply Forall_impl; [exact Hp|]. intros o Ho. unfold _limitOrderPruningFn in Ho.
    apply andb_true_iff in Ho as [[H1%String.eqb_eq H2%negb_true_iff]%andb_true_iff [_ H3]%andb_true_iff]. done.
Qed.

(** The RFQ options of a request, on every branch: they are refused when only
    RFQ is wanted and the native source is ruled out; dropped for an unknown
    integrator or a blacklisted origin; refused for a firm quote without an
    origin; and otherwise kept as they are. *)
Theorem rfq_options_checked filters r :
  let native := SourceFilters.isAllowed filters ERC20BridgeSource.Native in
  let known := integratorId r ≠ "" ∧ integratorId r ∈ _integratorIdsSet this in
  let banned := txOrigin r ≠ "" ∧ toLowerCase (txOrigin r) ∈ default [] (txOriginBlacklist <$> _rfqtOptions this) in
  let anonymous := txOrigin r = "" ∨ txOrigin r = NULL_ADDRESS in
  _validateRfqtOpts filters (Some r) =
    if decide (nativeExclusivelyRFQ r = true ∧ native = false) then Throw NATIVE_EXCLUDED
    else if decide (¬ known ∨ banned) then Ok None
    else if decide (intentOnFilling r = true ∧ native = true ∧ anonymous) then Throw NO_TX_ORIGIN
    else Ok (Some r).
Proof.
  intros native known banned anonymous. unfold _validateRfqtOpts. fold native.
  assert (_isIntegratorIdWhitelisted (integratorId r) = bool_decide known) as Hk by apply unless_empty.
  assert (_isTxOriginBlacklisted (txOrigin r) = bool_decide banned) as Hb by apply unless_empty.
  assert (String.eqb (txOrigin r) "" || String.eqb (txOrigin r) NULL_ADDRESS = bool_decide anonymous) as Ha.
  { unfold anonymous. apply eq_true_iff_eq. rewrite orb_true_iff, bool_decide_eq_true, !String.eqb_eq. done. }
  rewrite Hk, Hb, Ha.
  rewrite (decide_if _ (nativeExclusivelyRFQ r && negb native)) by (by rewrite andb_true_iff, negb_true_iff).
  rewrite (decide_if _ (negb (bool_decide known) || bool_decide banned))
    by (rewrite orb_true_iff, negb_true_iff, bool_decide_eq_false, bool_decide_eq_true; done).
  rewrite (decide_if _ (intentOnFilling r && native && bool_decide anonymous))
    by (rewrite !andb_true_iff, bool_decide_eq_true; symmetry; apply and_assoc).
  destruct (nativeExclusivelyRFQ r && negb native); [done|].
  destruct (bool_decide known); [|done]. cbn [negb orb]. rewrite andb_true_r.
  by destruct (bool_decide banned).
Qed.

(** The fees of a quote are defined wherever the routing reads them: the gas
    schedule has an estimate for every sample of the market, the two-hop ones
    included, and for every native order. *)
Theorem fees_defined {F} side maker taker limitOrders amount (opts : GetMarketOrdersOpts F) l :
  getMarketLiquidity formatBytes32String (_sampler this) (_exchangeProxy this) side maker taker limitOrders
    amount opts = Ok l →
  Forall (Forall (λ s, is_ok (gasOf (sample_source s) (sample_fillData s)) = true)) (raw_dexQuotes (quotes l)) ∧
  Forall (Forall (λ s, is_ok (gasOf (sample_source s) (sample_fillData s)) = true)) (raw_twoHopQuotes (quotes l)) ∧
  ∀ o, is_ok (gasOf ERC20BridgeSource.Native (FDNative o)) = true.
Proof.
  intros (_ & _ & _ & [Hd Hh _ _] & _)%market_liquidity_allowed.
  assert (∀ f h, hop_fits (samplable f) h → is_ok (gasOf h.1 h.2) = true) as Hop.
  { intros f h [(_ & Hm & _) Hs]. by apply single_gas_defined. }
  split_and!; [| |done].
  - eapply Forall_impl; [exact Hd|]. intros ss (_ & _ & H). eapply Forall_impl; [exact H|].
    intros s [(_ & Hm & _) Hs]. by apply single_gas_defined.
  - eapply Forall_impl; [exact Hh|]. intros ss (_ & H). eapply Forall_impl; [exact H|].
    intros s (-> & _ & [s1 fd1] & [s2 fd2] & mid & -> & H1 & H2).
    apply two_hop_gas_defined; [exact (Hop _ _ H1) | exact (Hop _ _ H2)].
Qed.
End Quoter.
End SwapQuoter.

(** ** A concrete quote *)
Module QuoterExamples.
Import Concrete SamplerExamples MarketExamples.

(** An order book of one open order and one that is for a single taker. *)
Definition book_order (taker : string) : SignedLimitOrder :=
  {| limit_taker := taker;
     limit_signed := {| signed_type := FillQuoteTransformerOrderType.Limit;
       signed_order := toRfqOrder parse maker_order; signed_signature := INVALID_SIGNATURE |} |}.
#[export] Instance ex_book : Orderbook :=
  {| getOrdersAsync := λ _ _ prune, Ok (bfilter prune [book_order NULL_ADDRESS; book_order "0xme"]) |}.
#[export] Instance ex_book_laws : OrderbookLaws.
Proof. split. intros m t prune. eexists. split; [reflexivity | apply bfilter_Forall]. Qed.

Definition ex_quoter : t :=
  new ex_sampler "0xproxy" (n_Z 120000) [NoFees] (Some {| integratorsWhitelist := ["id"]; txOriginBlacklist := [] |}).
Definition no_assert (_ _ : string) : result unit := Ok tt.
Definition never_expires (_ : OrderFields) (_ : number) : bool := false.
Definition ex_request (market : GetMarketOrdersOpts IdentityFillAdjustor) : SwapQuoteRequestOpts IdentityFillAdjustor :=
  {| req_gasPrice := None; req_bridgeSlippage := n_Z 0; req_market := market |}.
(** Two hundred gwei from the oracle. *)
Definition quote_of (market : GetMarketOrdersOpts IdentityFillAdjustor)
    : result (SwapQuote Path.t) * GasPriceUtils.t (GasPrices := number) :=
  getSwapQuoteAsync ex_bytes32 ex_bytes32 "0xweth" first_path rnd otype unit_amount parse no_assert
    never_expires id ex_quoter "0xa" "0xb" (of_Z 100) Sell (ex_request market) (Some one_maker)
    (Ok (n_Z 200)) GasPriceUtils.new.
End QuoterExamples.
Import Concrete SamplerExamples MarketExamples QuoterExamples.

Lemma swap_quote_respects_sources_witness :
  ∃ q utils, quote_of with_rfq = (Ok q, utils) ∧
    Forall (requested_fill ex_quoter Sell with_rfq) (Path.fills (path q)).
Proof.
  assert (is_ok (quote_of with_rfq).1 = true) as K by (vm_compute; reflexivity).
  destruct (quote_of with_rfq) as [[q|] utils] eqn:E; [|discriminate K]. exists q, utils. split; [reflexivity|].
  exact (swap_quote_respects_sources ex_bytes32 ex_bytes32 "0xweth" first_path rnd otype unit_amount parse no_assert
    never_expires id ex_quoter "0xa" "0xb" (of_Z 100) Sell (ex_request with_rfq) (Some one_maker)
    (Ok (n_Z 200)) GasPriceUtils.new q utils E).
Defined.

Lemma swap_quote_path_laws_witness :
  ∃ q utils, quote_of onchain = (Ok q, utils) ∧ quote_type q = MarketSell (of_Z 100) ∧ IPathLaws Sell (path q).
Proof.
  assert (is_ok (quote_of onchain).1 = true) as K by (vm_compute; reflexivity).
  destruct (quote_of onchain) as [[q|] utils] eqn:E; [|discriminate K]. exists q, utils. split; [reflexivity|].
  destruct (swap_quote_path_laws ex_bytes32 ex_bytes32 "0xweth" first_path rnd otype unit_amount parse no_assert
    never_expires id ex_quoter "0xa" "0xb" (of_Z 100) Sell (ex_request onchain) (Some one_maker)
    (Ok (n_Z 200)) GasPriceUtils.new q utils E) as (_ & _ & H1 & H2). split; [exact H1 | exact H2].
Defined.

Lemma limit_orders_pruned_witness :
  ∃ orders, getLimitOrders never_expires ex_quoter Sell "0xa" "0xb" (opts_with [] None) = Ok orders ∧
    Forall (λ o, limit_taker o = NULL_ADDRESS) orders.
Proof.
  destruct (limit_orders_pruned never_expires ex_quoter Sell "0xa" "0xb" (opts_with [] None)) as (orders & H & _ & Hp).
  exists orders. split; [exact H|]. eapply Forall_impl; [exact Hp|]. intros o (Ho & _). exact Ho.
Defined.

Lemma fees_defined_witness :
  ∃ l, liquidity_of (opts_with [ERC20BridgeSource.UniswapV2; ERC20BridgeSource.MultiHop] None) = Ok l ∧ raw_twoHopQuotes (quotes l) ≠ [] ∧
    Forall (Forall (λ s, is_ok (gasOf ex_bytes32 "0xweth" (sample_source s) (sample_fillData s)) = true))
      (raw_twoHopQuotes (quotes l)).
Proof.
  assert (match liquidity_of (opts_with [ERC20BridgeSource.UniswapV2; ERC20BridgeSource.MultiHop] None) with
          | Ok l => SourceFilters.non_empty (raw_twoHopQuotes (quotes l)) | _ => false end = true) as K
    by (vm_compute; reflexivity).
  destruct (liquidity_of (opts_with [ERC20BridgeSource.UniswapV2; ERC20BridgeSource.MultiHop] None)) as [l|] eqn:E; [|discriminate K]. exists l. split; [reflexivity|].
  split; [by apply SourceFilters.non_empty_true|].
  destruct (fees_defined ex_bytes32 ex_bytes32 "0xweth" ex_quoter Sell "0xa" "0xb" [] (of_Z 100)
    (opts_with [ERC20BridgeSource.UniswapV2; ERC20BridgeSource.MultiHop] None) l E) as (_ & H & _). exact H.
Defined.
