(* ===== verification/Orderbook.v ===== *)
(** * The order book ([services/orderbook_service.ts], [utils/order_utils.ts],
    [utils/pagination_utils.ts], [utils/order_watcher.ts], [orderbook/])

    Limit orders of the database: how they are read and written, compared,
    filtered by their expiry, paged and handed to the swap quoter.  The database
    is the class [OrderDatabase] of what the services call; [OrderDatabaseLaws]
    is what a query answers over the rows of a table. *)

From Stdlib Require Import Ascii Sorted.
From S2P Require Import Prelude JsLib JsNumber BigNum Types Fills Orders PairUtils BridgeSources RfqClient SwapQuoter.

#[local] Set Default Proof Using "Type".

(** ** Collaborators *)

(** Reading and printing decimals; integers are printed in full. *)
Class BigNumberStrings {B : BigNumberLib} : Type := {
  bn_of_string : string → BN;
  bn_toString : BN → string;
  bn_of_toString a z : int a z → int (bn_of_string (bn_toString a)) z;
}.

(** [assert.isNumber] and [assert.isString] of [@0x/assert]; [None] is [NaN]
    and [undefined]. *)
Class Assertions : Type := {
  isNumber : string → option Z → result unit;
  isString : string → option string → result unit;
}.
Class AssertionLaws `{!Assertions} : Prop := {
  isNumber_ok name z : isNumber name (Some z) = Ok tt;
  isNumber_nan name : is_ok (isNumber name None) = false;
  isString_ok name s : isString name (Some s) = Ok tt;
  isString_undefined name : is_ok (isString name None) = false;
}.

(** ** Orders *)

Record OrderSignature : Type := { signatureType : Z; ecSignature : Signature }.

Module OrderEventEndState.
Inductive t : Type :=
| Added | Filled | FullyFilled | Cancelled | Expired | Invalid | Unexpired | Unfunded
| FillabilityIncreased | StoppedWatching.
#[global] Instance t_eq_dec : EqDecision t.
Proof. solve_decision. Defined.

Definition to_string (s : t) : string :=
  match s with
  | Added => "ADDED" | Filled => "FILLED" | FullyFilled => "FULLY_FILLED" | Cancelled => "CANCELLED"
  | Expired => "EXPIRED" | Invalid => "INVALID" | Unexpired => "UNEXPIRED" | Unfunded => "UNFUNDED"
  | FillabilityIncreased => "FILLABILITY_INCREASED" | StoppedWatching => "STOPPED_WATCHING"
  end.
End OrderEventEndState.
Notation OrderEventEndState := OrderEventEndState.t.

(** A row of [valid_signed_orders_v4] or [persistent_signed_orders_v4]; only
    the latter has a state. *)
Record OrderEntity : Type := {
  ent_hash : string;
  ent_makerToken : string;
  ent_takerToken : string;
  ent_makerAmount : string;
  ent_takerAmount : string;
  ent_maker : string;
  ent_taker : string;
  ent_pool : string;
  ent_expiry : string;
  ent_salt : string;
  ent_verifyingContract : string;
  ent_takerTokenFeeAmount : string;
  ent_sender : string;
  ent_feeRecipient : string;
  ent_signature : string;
  ent_remainingFillableTakerAmount : string;
  ent_orderState : option OrderEventEndState;
  ent_createdAt : option string;
}.

(** ** Queries *)

Inductive Table : Type := SignedOrders | PersistentOrders.

Inductive Condition : Type :=
| Equal (v : string)
| In (vs : list string)
| MoreThanOrEqual (z : Z).

(** A clause constrains columns; a row matches a list of clauses when it
    matches one of them. *)
Definition Where : Type := list (string * Condition).
Record FindOptions : Type := {
  fo_where : list Where;
  fo_skip : Z;
  fo_take : option Z;
  fo_byHash : bool;
}.

Class OrderDatabase : Type := {
  db_find : Table → FindOptions → result (list OrderEntity);
  db_count : Table → list Where → result Z;
  db_findOne : Table → string → result (option OrderEntity);
  db_save : Table → list OrderEntity → result unit;
}.

(** The columns of the entities, by property name. *)
Definition column (e : OrderEntity) (name : string) : option string :=
  assoc_get
    [("hash", Some (ent_hash e)); ("makerToken", Some (ent_makerToken e));
     ("takerToken", Some (ent_takerToken e)); ("makerAmount", Some (ent_makerAmount e));
     ("takerAmount", Some (ent_takerAmount e)); ("maker", Some (ent_maker e));
     ("taker", Some (ent_taker e)); ("pool", Some (ent_pool e)); ("expiry", Some (ent_expiry e));
     ("salt", Some (ent_salt e)); ("verifyingContract", Some (ent_verifyingContract e));
     ("takerTokenFeeAmount", Some (ent_takerTokenFeeAmount e)); ("sender", Some (ent_sender e));
     ("feeRecipient", Some (ent_feeRecipient e)); ("signature", Some (ent_signature e));
     ("remainingFillableTakerAmount", Some (ent_remainingFillableTakerAmount e));
     ("createdAt", ent_createdAt e);
     ("orderState", OrderEventEndState.to_string <$> ent_orderState e)]%string name ≫= id.

(** [getMetadata(SignedOrderV4Entity).columns.map((x) => x.propertyName)]. *)
Definition columnNames : list string :=
  ["hash"; "makerToken"; "takerToken"; "makerAmount"; "takerAmount"; "maker"; "taker"; "pool";
   "expiry"; "salt"; "verifyingContract"; "takerTokenFeeAmount"; "sender"; "feeRecipient";
   "signature"; "remainingFillableTakerAmount"; "createdAt"]%string.

(** [at_least]: how the database compares the text of a column with a number. *)
Definition satisfies (at_least : string → Z → bool) (e : OrderEntity) (c : string * Condition) : bool :=
  match column e c.1, c.2 with
  | None, _ => false
  | Some v, Equal w => String.eqb v w
  | Some v, In ws => includes ws v
  | Some v, MoreThanOrEqual z => at_least v z
  end.
Definition matches (at_least : string → Z → bool) (ws : list Where) (e : OrderEntity) : bool :=
  existsb (forallb (satisfies at_least e)) ws.

(** What a query answers, over the [rows] of a table. *)
Class OrderDatabaseLaws `{!OrderDatabase} (rows : Table → list OrderEntity)
    (at_least : string → Z → bool) : Prop := {
  db_find_rows t o rs :
    db_find t o = Ok rs → (0 <= fo_skip o)%Z → (0 <= default 0 (fo_take o))%Z →
    ∃ l, l ≡ₚ bfilter (matches at_least (fo_where o)) (rows t) ∧
      (fo_byHash o = true → StronglySorted (λ a b, String.leb (ent_hash a) (ent_hash b) = true) l) ∧
      rs = let l := drop (Z.to_nat (fo_skip o)) l in
           match fo_take o with Some n => take (Z.to_nat n) l | None => l end;
  db_count_rows t w n :
    db_count t w = Ok n → n = Z.of_nat (length (bfilter (matches at_least w) (rows t)));
  db_findOne_rows t h r :
    db_findOne t h = Ok r →
    match r with
    | Some e => e ∈ rows t ∧ ent_hash e = h
    | None => Forall (λ e, ent_hash e ≠ h) (rows t)
    end;
}.

Section Orderbook.
Context {B : BigNumberLib} `{BS : !BigNumberStrings} `{AS : !Assertions} `{DB : !OrderDatabase}.

(** The configuration of the service. *)
Variable CHAIN_ID : ChainId.
Variables SRA_ORDER_EXPIRATION_BUFFER_SECONDS MAX_PER_PAGE : Z.
Variable SRA_PERSISTENT_ORDER_POSTING_WHITELISTED_API_KEYS : list string.

(** [SignedLimitOrder] of [types.ts]. *)
Record LimitOrder : Type := {
  lo_makerToken : string;
  lo_takerToken : string;
  lo_makerAmount : BN;
  lo_takerAmount : BN;
  lo_takerTokenFeeAmount : BN;
  lo_maker : string;
  lo_taker : string;
  lo_sender : string;
  lo_feeRecipient : string;
  lo_pool : string;
  lo_expiry : BN;
  lo_salt : BN;
  lo_chainId : ChainId;
  lo_verifyingContract : string;
  lo_signature : OrderSignature;
}.

Record SRAOrderMetaData : Type := {
  orderHash : string;
  remainingFillableTakerAmount : BN;
  state : option OrderEventEndState;
  createdAt : option string;
}.

Record SRAOrder : Type := { order : LimitOrder; metaData : SRAOrderMetaData }.

(** ** [orderUtils] *)

Definition isIgnoredOrder (addressesToIgnore : list string) (apiOrder : SRAOrder) : bool :=
  let o := order apiOrder in
  existsb (λ a, includes [toLowerCase (lo_maker o); toLowerCase (lo_makerToken o);
                          toLowerCase (lo_takerToken o)] (toLowerCase a)) addressesToIgnore.

(** [now] is [Date.now()], in milliseconds. *)
Definition isFreshOrder (now : Z) (apiOrder : SRAOrder) (expirationBufferSeconds : Z) : bool :=
  let dateNowSeconds := n_div (n_Z now) (n_Z 1000) in
  ext_lt (n_add dateNowSeconds (n_Z expirationBufferSeconds)) (toNumber (lo_expiry (order apiOrder))).

Definition groupByFreshness (now : Z) (apiOrders : list SRAOrder) (expirationBufferSeconds : Z)
    : list SRAOrder * list SRAOrder :=
  fold_left (λ acc o,
    if isFreshOrder now o expirationBufferSeconds then (acc.1 ++ [o], acc.2) else (acc.1, acc.2 ++ [o]))
    apiOrders ([], []).

(** [a.comparedTo(b)]; a sort reads [null], its answer on NaN, as zero. *)
Definition comparedTo (a b : BN) : Z := if gt a b then 1 else if lt a b then -1 else 0.

Definition compareOrderByFeeRatio (orderA orderB : LimitOrder) : Z :=
  let orderAFeePrice := div (lo_takerTokenFeeAmount orderA) (lo_takerAmount orderA) in
  let orderBFeePrice := div (lo_takerTokenFeeAmount orderB) (lo_takerAmount orderB) in
  if negb (isEqualTo orderAFeePrice orderBFeePrice) then comparedTo orderBFeePrice orderAFeePrice
  else comparedTo (lo_expiry orderA) (lo_expiry orderB).

Definition compareAskOrder (orderA orderB : LimitOrder) : Z :=
  let orderAPrice := div (lo_takerAmount orderA) (lo_makerAmount orderA) in
  let orderBPrice := div (lo_takerAmount orderB) (lo_makerAmount orderB) in
  if negb (isEqualTo orderAPrice orderBPrice) then comparedTo orderAPrice orderBPrice
  else compareOrderByFeeRatio orderA orderB.

Definition compareBidOrder (orderA orderB : LimitOrder) : Z :=
  let orderAPrice := div (lo_makerAmount orderA) (lo_takerAmount orderA) in
  let orderBPrice := div (lo_makerAmount orderB) (lo_takerAmount orderB) in
  if negb (isEqualTo orderAPrice orderBPrice) then comparedTo orderBPrice orderAPrice
  else compareOrderByFeeRatio orderA orderB.

Definition comma : ascii := ",".

(** [const [signatureTypeStr, r, s, vStr] = signatureStr.split(',')]. *)
Definition deserializeSignature (signatureStr : string) : result OrderSignature :=
  let parts := split_on comma signatureStr in
  let signatureType := parts !! 0%nat ≫= parseInt in
  let v := parts !! 3%nat ≫= parseInt in
  let r := parts !! 1%nat in
  let s := parts !! 2%nat in
  _ ← isNumber "signatureType" signatureType;
  _ ← isNumber "signatureV" v;
  _ ← isString "signatureR" r;
  _ ← isString "signatureS" s;
  match signatureType, v, r, s with
  | Some signatureType, Some v, Some r, Some s =>
      Ok {| signatureType := signatureType; ecSignature := {| sig_v := v; sig_r := r; sig_s := s |} |}
  | _, _, _, _ => Throw TypeError
  end.

Definition serializeSignature (s : OrderSignature) : string :=
  string_of_Z (signatureType s) +:+ "," +:+ sig_r (ecSignature s) +:+ "," +:+ sig_s (ecSignature s)
    +:+ "," +:+ string_of_Z (sig_v (ecSignature s)).

Definition deserializeOrder (e : OrderEntity) : result LimitOrder :=
  signature ← deserializeSignature (ent_signature e);
  Ok {| lo_makerToken := ent_makerToken e; lo_takerToken := ent_takerToken e;
        lo_makerAmount := bn_of_string (ent_makerAmount e);
        lo_takerAmount := bn_of_string (ent_takerAmount e);
        lo_takerTokenFeeAmount := bn_of_string (ent_takerTokenFeeAmount e);
        lo_maker := ent_maker e; lo_taker := ent_taker e; lo_sender := ent_sender e;
        lo_feeRecipient := ent_feeRecipient e; lo_pool := ent_pool e;
        lo_expiry := bn_of_string (ent_expiry e); lo_salt := bn_of_string (ent_salt e);
        lo_chainId := CHAIN_ID; lo_verifyingContract := ent_verifyingContract e;
        lo_signature := signature |}.

Definition deserializeOrderToSRAOrder (e : OrderEntity) : result SRAOrder :=
  order ← deserializeOrder e;
  Ok {| order := order;
        metaData := {| orderHash := ent_hash e;
                       remainingFillableTakerAmount := bn_of_string (ent_remainingFillableTakerAmount e);
                       state := ent_orderState e; createdAt := ent_createdAt e |} |}.

(** The columns that both kinds of entity share. *)
Definition entityOf (apiOrder : SRAOrder) (orderState : option OrderEventEndState) : OrderEntity :=
  let o := order apiOrder in
  {| ent_signature := serializeSignature (lo_signature o); ent_sender := lo_sender o;
     ent_maker := lo_maker o; ent_taker := lo_taker o;
     ent_makerAmount := bn_toString (lo_makerAmount o); ent_takerAmount := bn_toString (lo_takerAmount o);
     ent_makerToken := lo_makerToken o; ent_takerToken := lo_takerToken o;
     ent_takerTokenFeeAmount := bn_toString (lo_takerTokenFeeAmount o);
     ent_salt := bn_toString (lo_salt o); ent_verifyingContract := lo_verifyingContract o;
     ent_feeRecipient := lo_feeRecipient o; ent_pool := lo_pool o;
     ent_expiry := bn_toString (lo_expiry o); ent_hash := orderHash (metaData apiOrder);
     ent_remainingFillableTakerAmount := bn_toString (remainingFillableTakerAmount (metaData apiOrder));
     ent_orderState := orderState; ent_createdAt := None |}.
Definition serializeOrder (apiOrder : SRAOrder) : OrderEntity := entityOf apiOrder None.
Definition serializePersistentOrder (apiOrder : SRAOrder) : OrderEntity :=
  entityOf apiOrder (Some (default OrderEventEndState.Added (state (metaData apiOrder)))).

(** ** [paginationUtils] *)

Record PaginatedCollection {A : Type} : Type := {
  total : Z; page : Z; perPage : Z; records : list A;
}.
#[global] Arguments PaginatedCollection A : clear implicits.

Definition paginateSerialize {A} (collection : list A) (total page perPage : Z) : PaginatedCollection A :=
  {| total := total; page := page; perPage := perPage; records := collection |}.

Definition paginate {A} (records : list A) (page perPage : Z) : PaginatedCollection A :=
  paginateSerialize (slice records ((page - 1) * perPage) (page * perPage))
    (Z.of_nat (length records)) page perPage.

Definition DEFAULT_PAGE : Z := 1.
Definition DEFAULT_PER_PAGE : Z := 20.

(** The query parameters as read by [Number(...)], when they are integers. *)
Definition parsePaginationConfig (queryPage queryPerPage : option Z) : result (Z * Z) :=
  let page := default DEFAULT_PAGE queryPage in
  let perPage := default DEFAULT_PER_PAGE queryPerPage in
  if (perPage >? MAX_PER_PAGE)%Z then
    Throw (ValidationError [{| field := "perPage"; code := ValidationErrorCodes.ValueOutOfRange;
      reason := "perPage should be less or equal to " +:+ string_of_Z MAX_PER_PAGE |}])
  else Ok (page, perPage).

(** ** [OrderBookService] *)

Definition isAllowedPersistentOrders (apiKey : string) : bool :=
  includes SRA_PERSISTENT_ORDER_POSTING_WHITELISTED_API_KEYS apiKey.

Definition getOrderByHashIfExistsAsync (orderHash : string) : result (option SRAOrder) :=
  signed ← db_findOne SignedOrders orderHash;
  entity ← match signed with
           | Some e => Ok (Some e)
           | None => db_findOne PersistentOrders orderHash
           end;
  match entity with
  | None => Ok None
  | Some e => Some <$> deserializeOrderToSRAOrder e
  end.

(** [find(SignedOrderV4Entity, { where })]. *)
Definition findSigned (w : Where) : result (list OrderEntity) :=
  db_find SignedOrders {| fo_where := [w]; fo_skip := 0; fo_take := None; fo_byHash := false |}.

(** [.filter(orderUtils.isFreshOrder)]: the callback's second argument, the
    buffer, is the index of the order. *)
Definition filterFresh (now : Z) (orders : list SRAOrder) : list SRAOrder :=
  snd <$> bfilter (λ '(i, o), isFreshOrder now o (Z.of_nat i)) (imap pair orders).

Definition sideOrders (now : Z) (compare : LimitOrder → LimitOrder → Z) (entities : list OrderEntity)
    : result (list SRAOrder) :=
  orders ← mapM deserializeOrderToSRAOrder entities;
  Ok (sort (λ a b, compare (order a) (order b)) (filterFresh now orders)).

Record OrderbookResponse : Type := {
  bids : PaginatedCollection SRAOrder;
  asks : PaginatedCollection SRAOrder;
}.

Definition isPair (takerToken makerToken : string) (o : OrderEntity) : bool :=
  String.eqb (ent_takerToken o) takerToken && String.eqb (ent_makerToken o) makerToken.

Definition getOrderBookAsync (now : Z) (page perPage : Z) (baseToken quoteToken : string)
    : result OrderbookResponse :=
  entities ← findSigned [("takerToken", In [baseToken; quoteToken]);
                         ("makerToken", In [baseToken; quoteToken])];
  bidOrders ← sideOrders now compareBidOrder (bfilter (isPair baseToken quoteToken) entities);
  askOrders ← sideOrders now compareAskOrder (bfilter (isPair quoteToken baseToken) entities);
  Ok {| bids := paginate bidOrders page perPage; asks := paginate askOrders page perPage |}.

(** The fields that are given, by column name. *)
Definition FieldFilters : Type := list (string * string).
Record AdditionalFilters : Type := { isUnfillable : option bool; trader : option string }.

Definition MAKER_REQUIRED : js_error :=
  ValidationError [{| field := "maker"; code := ValidationErrorCodes.RequiredField;
                      reason := "MAKER_ADDRESS_REQUIRED_TO_FETCH_UNFILLABLE_ORDERS" |}].

(** [{ ...filter, [name]: condition }]. *)
Definition with_condition (w : Where) (name : string) (c : Condition) : Where :=
  assoc_update w name (λ _, c).

Definition clausesOf (orderFieldFilters : FieldFilters) (additional : AdditionalFilters) : list Where :=
  let orderFilter := prod_map id Equal <$> bfilter (λ kv, includes columnNames kv.1) orderFieldFilters in
  match trader additional with
  | None => [orderFilter]
  | Some t =>
      if String.eqb t "" then [orderFilter]
      else [with_condition orderFilter "maker" (Equal t); with_condition orderFilter "taker" (Equal t)]
  end.

Definition REMOVED_STATES : list OrderEventEndState :=
  [OrderEventEndState.Cancelled; OrderEventEndState.Expired; OrderEventEndState.FullyFilled;
   OrderEventEndState.Invalid; OrderEventEndState.StoppedWatching; OrderEventEndState.Unfunded].

(** [minExpiryTime]; the seconds of [now] are floored. *)
Definition minExpiryTime (now : Z) : Z := now / 1000 + SRA_ORDER_EXPIRATION_BUFFER_SECONDS.
Definition unexpiredClauses (now : Z) (clauses : list Where) : list Where :=
  (λ w, with_condition w "expiry" (MoreThanOrEqual (minExpiryTime now))) <$> clauses.
Definition removedClauses (clauses : list Where) : list Where :=
  (λ w, with_condition w "orderState" (In (OrderEventEndState.to_string <$> REMOVED_STATES))) <$> clauses.

(** [Promise.all([count, find])] of a page of a table. *)
Definition countAndFind (t : Table) (page perPage : Z) (clauses : list Where) : result (Z * list SRAOrder) :=
  count ← db_count t clauses;
  entities ← db_find t {| fo_where := clauses; fo_skip := (page - 1) * perPage; fo_take := Some perPage;
                          fo_byHash := true |};
  orders ← mapM deserializeOrderToSRAOrder entities;
  Ok (count, orders).

Definition getOrdersAsync (now : Z) (page perPage : Z) (orderFieldFilters : FieldFilters)
    (additional : AdditionalFilters) : result (PaginatedCollection SRAOrder) :=
  let unfillable := bool_decide (isUnfillable additional = Some true) in
  _ ← throw_unless (negb (unfillable && negb (bool_decide ("maker" ∈ orderFieldFilters.*1)))) MAKER_REQUIRED;
  let clauses := clausesOf orderFieldFilters additional in
  '(signedOrderCount, apiOrders) ← countAndFind SignedOrders page perPage (unexpiredClauses now clauses);
  '(persistentOrdersCount, persistentOrders) ←
    (if unfillable then countAndFind PersistentOrders page perPage (removedClauses clauses)
     else Ok (0%Z, []));
  Ok (paginateSerialize (apiOrders ++ persistentOrders) (signedOrderCount + persistentOrdersCount) page perPage).

Definition getBatchOrdersAsync (now : Z) (page perPage : Z) (makerTokens takerTokens : list string)
    : result (PaginatedCollection SRAOrder) :=
  entities ← findSigned [("makerToken", In makerTokens); ("takerToken", In takerTokens)];
  apiOrders ← mapM deserializeOrderToSRAOrder entities;
  let '(fresh, _) := groupByFreshness now apiOrders SRA_ORDER_EXPIRATION_BUFFER_SECONDS in
  Ok (paginate fresh page perPage).

(** ** Posting orders *)

(** A failed request of axios: the response with its data, if there was one,
    and whether the request was made. *)
Record AxiosError : Type := {
  err_response : option (option (list ValidationErrorItem));
  err_request : bool;
}.

(** [OrderWatcher.postOrdersAsync], given how the request ends. *)
Definition postOrdersAsync (answer : option AxiosError) : result unit :=
  match answer with
  | None => Ok tt
  | Some err =>
      match err_response err with
      | None => Throw TypeError
      | Some (Some validationErrors) => Throw (ValidationError validationErrors)
      | Some None =>
          if err_request err then Throw (InternalServerError "failed to submit order to order-watcher")
          else Throw (InternalServerError "failed to prepare the order-watcher request")
      end
  end.

Definition addOrdersAsync (post : list LimitOrder → option AxiosError) (signedOrders : list LimitOrder)
    : result unit :=
  postOrdersAsync (post signedOrders).
Definition addOrderAsync (post : list LimitOrder → option AxiosError) (signedOrder : LimitOrder) : result unit :=
  addOrdersAsync post [signedOrder].

(** The accepted orders are those that are in the database afterwards.
    [getHash] is that of [@0x/protocol-utils]. *)
Definition addPersistentOrdersAsync (getHash : LimitOrder → string)
    (post : list LimitOrder → option AxiosError) (signedOrders : list LimitOrder) : result unit :=
  _ ← postOrdersAsync (post signedOrders);
  addedOrders ← findSigned [("hash", In (getHash <$> signedOrders))];
  db_save PersistentOrders addedOrders.

(** ** The order book of the swap quoter ([asset_swapper_orderbook.ts]) *)

Definition apiOrderToOrderbookOrder (apiOrder : SRAOrder) : SignedLimitOrder :=
  let o := order apiOrder in
  {| limit_taker := lo_taker o;
     limit_signed :=
       {| signed_type := FillQuoteTransformerOrderType.Limit;
          signed_order :=
            {| order_makerToken := lo_makerToken o; order_takerToken := lo_takerToken o;
               order_makerAmount := lo_makerAmount o; order_takerAmount := lo_takerAmount o;
               order_takerTokenFeeAmount := lo_takerTokenFeeAmount o; order_maker := lo_maker o;
               order_expiry := lo_expiry o |};
          signed_signature := ecSignature (lo_signature o) |} |}.

(** A failing request is an empty order book. *)
Definition assetSwapperOrders (now : Z) (makerToken takerToken : string)
    (pruneFn : SignedLimitOrder → bool) : list SignedLimitOrder :=
  let apiOrders :=
    match getOrdersAsync now DEFAULT_PAGE DEFAULT_PER_PAGE
            [("makerToken", makerToken); ("takerToken", takerToken)]%string
            {| isUnfillable := None; trader := None |} with
    | Ok c => records c
    | Throw _ => []
    end in
  bfilter pruneFn (apiOrderToOrderbookOrder <$> apiOrders).

Definition AssetSwapperOrderbook (now : Z) : Orderbook :=
  {| SwapQuoter.getOrdersAsync makerToken takerToken pruneFn :=
       Ok (assetSwapperOrders now makerToken takerToken pruneFn) |}.

(** [no_op_orderbook.ts]. *)
Definition NoOpOrderbook : Orderbook := {| SwapQuoter.getOrdersAsync _ _ _ := Ok [] |}.

(** ** Pages *)

Lemma paginate_spec {A} (l : list A) (p n : nat) :
  (0 < p)%nat →
  records (paginate l (Z.of_nat p) (Z.of_nat n)) = take n (drop ((p - 1) * n) l).
Proof.
  intros Hp. simpl. destruct p as [|p]; [lia|].
  replace ((Z.of_nat (S p) - 1) * Z.of_nat n)%Z with (Z.of_nat ((S p - 1) * n)) by nia.
  replace (Z.of_nat (S p) * Z.of_nat n)%Z with (Z.of_nat ((S p - 1) * n + n)) by nia.
  apply slice_nonneg.
Qed.

(** The first [k] pages of [n] records, one after the other. *)
Definition pages {A} (l : list A) (n k : nat) : list A :=
  concat ((λ p, records (paginate l (Z.of_nat (S p)) (Z.of_nat n))) <$> seq 0 k).

(** Reading page after page gives every record once, in order: the first [k]
    pages are the first [k * n] records. *)
Theorem pages_cover {A} (l : list A) n k : pages l n k = take (k * n) l.
Proof.
  unfold pages. induction k as [|k IH]; [done|].
  rewrite seq_S, fmap_app, concat_app, IH. cbn [fmap list_fmap concat]. rewrite app_nil_r.
  rewrite paginate_spec by lia. replace ((S (0 + k) - 1) * n)%nat with (k * n)%nat by nia.
  rewrite take_take_drop. f_equal. lia.
Qed.

(** ** Order of the book *)

(** Amounts that orders of the exchange have: a positive price and a fee. *)
Definition sane (o : LimitOrder) : Prop :=
  ∃ m t f e, fin (lo_makerAmount o) m ∧ (0 < m)%Q ∧ fin (lo_takerAmount o) t ∧ (0 < t)%Q ∧
    fin (lo_takerTokenFeeAmount o) f ∧ fin (lo_expiry o) e.

Definition bidPrice (o : LimitOrder) : BN := div (lo_makerAmount o) (lo_takerAmount o).
Definition askPrice (o : LimitOrder) : BN := div (lo_takerAmount o) (lo_makerAmount o).
Definition feePrice (o : LimitOrder) : BN := div (lo_takerTokenFeeAmount o) (lo_takerAmount o).

(** Of two orders of the same price the one with the higher fee ratio comes
    first, then the one that expires earlier. *)
Definition fee_before (a b : LimitOrder) : bool :=
  lt (feePrice b) (feePrice a) ||
  isEqualTo (feePrice a) (feePrice b) && lte (lo_expiry a) (lo_expiry b).
(** The best bid pays most, the best ask asks least. *)
Definition bid_before (a b : LimitOrder) : bool :=
  lt (bidPrice b) (bidPrice a) || isEqualTo (bidPrice a) (bidPrice b) && fee_before a b.
Definition ask_before (a b : LimitOrder) : bool :=
  lt (askPrice a) (askPrice b) || isEqualTo (askPrice a) (askPrice b) && fee_before a b.

(** A lexicographic key: the price (negated for bids), the fee ratio and the
    expiry. *)
Definition key_le (k l : Q * Q * Q) : Prop :=
  let '(p, f, e) := k in let '(p', f', e') := l in
  (p < p' ∨ p == p' ∧ (f' < f ∨ f' == f ∧ e <= e'))%Q.

Lemma key_le_total k l : key_le k l ∨ key_le l k.
Proof.
  destruct k as [[p f] e], l as [[p' f'] e']. simpl.
  destruct (Q_dec p p') as [[H|H]|H]; [by auto | by auto |].
  destruct (Q_dec f f') as [[Hf|Hf]|Hf]; [right; right; split; [lra|auto] | left; right; auto |].
  destruct (Qlt_le_dec e e'); [left; right | right; right]; split; try lra; right; split; lra.
Qed.

Lemma orders_key_trans k l m : key_le k l → key_le l m → key_le k m.
Proof.
  destruct k as [[p f] e], l as [[p' f'] e'], m as [[p'' f''] e'']. simpl.
  intros [H|[H [H2|[H2 H3]]]] [G|[G [G2|[G2 G3]]]]; try (left; lra); right; split; try lra;
    (left; lra) || (right; split; lra).
Qed.

Lemma comparedTo_fin a b p q :
  fin a p → fin b q → (comparedTo a b <= 0)%Z ↔ (p <= q)%Q.
Proof.
  intros Ha Hb. unfold comparedTo, gt. destruct (lt b a) eqn:E.
  - apply (lt_fin _ _ _ _ Hb Ha) in E. split; [lia|lra].
  - apply (lt_fin_false _ _ _ _ Hb Ha) in E. destruct (lt a b); split; (lia || done).
Qed.

(** A comparator of decimals that falls back on another one for equal ones. *)
Lemma then_compare x y p q (c : Z) (K : Prop) :
  fin x p → fin y q → ((c <= 0)%Z ↔ K) →
  ((if negb (isEqualTo x y) then comparedTo x y else c) <= 0)%Z ↔ (p < q ∨ p == q ∧ K)%Q.
Proof.
  intros Hx Hy Hc. destruct (isEqualTo x y) eqn:E; simpl.
  - apply (eq_fin _ _ _ _ Hx Hy) in E. rewrite Hc. split; [by auto|]. intros [?|[]]; [lra|done].
  - apply (eq_fin_false _ _ _ _ Hx Hy) in E. rewrite (comparedTo_fin _ _ _ _ Hx Hy).
    split; [intros H; left; lra|]. intros [?|[? _]]; [lra|done].
Qed.

Lemma then_compare_swap x y p q (c : Z) (K : Prop) :
  fin x p → fin y q → ((c <= 0)%Z ↔ K) →
  ((if negb (isEqualTo x y) then comparedTo y x else c) <= 0)%Z ↔ (q < p ∨ q == p ∧ K)%Q.
Proof.
  intros Hx Hy Hc. replace (isEqualTo x y) with (isEqualTo y x); [by apply then_compare|].
  apply eq_true_iff_eq. rewrite (eq_fin _ _ _ _ Hy Hx), (eq_fin _ _ _ _ Hx Hy). split; lra.
Qed.

(** The test of the specification says the same. *)
Lemma then_before x y p q (b : bool) (K : Prop) :
  fin x p → fin y q → (b = true ↔ K) →
  lt x y || isEqualTo x y && b = true ↔ (p < q ∨ p == q ∧ K)%Q.
Proof.
  intros Hx Hy Hb. by rewrite orb_true_iff, andb_true_iff, (lt_fin _ _ _ _ Hx Hy), (eq_fin _ _ _ _ Hx Hy), Hb.
Qed.

Lemma then_before_swap x y p q (b : bool) (K : Prop) :
  fin x p → fin y q → (b = true ↔ K) →
  lt y x || isEqualTo x y && b = true ↔ (q < p ∨ q == p ∧ K)%Q.
Proof.
  intros Hx Hy Hb.
  rewrite orb_true_iff, andb_true_iff, (lt_fin _ _ _ _ Hy Hx), (eq_fin _ _ _ _ Hx Hy), Hb.
  split; (intros [?|[? ?]]; [by left | right; split; [lra|done]]).
Qed.

Lemma fin_price x y p q : fin x p → fin y q → (0 < q)%Q → fin (div x y) (rdiv p q).
Proof. intros Hx Hy Hq. apply fin_div; [done|done|lra]. Qed.

(** The keys of an order, for bids and for asks. *)
Definition bid_keyed (o : LimitOrder) (k : Q * Q * Q) : Prop :=
  let '(p, f, e) := k in fin (bidPrice o) (- p) ∧ fin (feePrice o) f ∧ fin (lo_expiry o) e.
Definition ask_keyed (o : LimitOrder) (k : Q * Q * Q) : Prop :=
  let '(p, f, e) := k in fin (askPrice o) p ∧ fin (feePrice o) f ∧ fin (lo_expiry o) e.

Lemma sane_keyed o : sane o → (∃ k, bid_keyed o k) ∧ (∃ k, ask_keyed o k).
Proof.
  intros (m & t & f & e & Hm & Hm0 & Ht & Ht0 & Hf & He). split.
  - exists (- rdiv m t, rdiv f t, e)%Q. simpl. split_and!; [|by apply fin_price|done].
    eapply fin_eq; [by apply fin_price|]. lra.
  - exists (rdiv t m, rdiv f t, e)%Q. simpl. split_and!; [by apply fin_price|by apply fin_price|done].
Qed.

Lemma fee_keyed a b fa fb ea eb :
  fin (feePrice a) fa → fin (feePrice b) fb → fin (lo_expiry a) ea → fin (lo_expiry b) eb →
  ((compareOrderByFeeRatio a b <= 0)%Z ↔ (fb < fa ∨ fb == fa ∧ ea <= eb)%Q) ∧
  (fee_before a b = true ↔ (fb < fa ∨ fb == fa ∧ ea <= eb)%Q).
Proof.
  intros Ha Hb Hea Heb. split.
  - apply then_compare_swap; [done|done|by apply comparedTo_fin].
  - apply then_before_swap; [done|done|by apply lte_fin].
Qed.

Lemma bid_keys a b k l :
  bid_keyed a k → bid_keyed b l →
  ((compareBidOrder a b <= 0)%Z ↔ key_le k l) ∧ (bid_before a b = true ↔ key_le k l).
Proof.
  destruct k as [[p f] e], l as [[p' f'] e']. intros (Hp & Hf & He) (Hp' & Hf' & He').
  destruct (fee_keyed a b _ _ _ _ Hf Hf' He He') as [Hc Hb].
  assert (∀ K, (- p' < - p ∨ - p' == - p ∧ K ↔ p < p' ∨ p == p' ∧ K)%Q) as Hneg
    by (intros K; split; (intros [?|[? ?]]; [left; lra | right; split; [lra|done]])).
  split; etrans; [by apply then_compare_swap | apply Hneg | by apply then_before_swap | apply Hneg].
Qed.

Lemma ask_keys a b k l :
  ask_keyed a k → ask_keyed b l →
  ((compareAskOrder a b <= 0)%Z ↔ key_le k l) ∧ (ask_before a b = true ↔ key_le k l).
Proof.
  destruct k as [[p f] e], l as [[p' f'] e']. intros (Hp & Hf & He) (Hp' & Hf' & He').
  destruct (fee_keyed a b _ _ _ _ Hf Hf' He He') as [Hc Hb].
  split; [by apply then_compare | by apply then_before].
Qed.

(** A comparator decided by such keys orders the elements that have one, and
    sorts them as a test decided by them says. *)
Lemma sort_by_keys {A} (cmp : A → A → Z) (before : A → A → bool) (keyed : A → Q * Q * Q → Prop) l :
  (∀ a b k m, keyed a k → keyed b m →
     ((cmp a b <= 0)%Z ↔ key_le k m) ∧ (before a b = true ↔ key_le k m)) →
  Forall (λ a, ∃ k, keyed a k) l → StronglySorted (λ a b, before a b = true) (sort cmp l).
Proof.
  intros H Hl.
  assert (comparator_on cmp (λ a, ∃ k, keyed a k)) as Hc.
  { split.
    - intros a b [k Hk] [m Hm]. destruct (H _ _ _ _ Hk Hm) as [-> _], (H _ _ _ _ Hm Hk) as [-> _].
      apply key_le_total.
    - intros a b c [k Hk] [m Hm] [n Hn]. destruct (H _ _ _ _ Hk Hm) as [-> _],
        (H _ _ _ _ Hm Hn) as [-> _], (H _ _ _ _ Hk Hn) as [-> _]. apply orders_key_trans. }
  pose proof (sort_sorted _ _ _ Hc Hl) as Hs. pose proof (sort_perm cmp l) as Hp.
  rewrite <- Hp in Hl. clear Hp. revert Hl Hs. generalize (sort cmp l) as m.
  induction m as [|a m IH]; intros Hl Hs; constructor.
  - apply StronglySorted_inv in Hs as [Hs _]. apply Forall_cons in Hl as [_ Hl]. by apply IH.
  - apply StronglySorted_inv in Hs as [_ Hs]. apply Forall_cons in Hl as [[k Hk] Hl].
    rewrite Forall_forall in Hs, Hl. apply Forall_forall. intros b Hb.
    destruct (Hl b Hb) as [n Hn]. destruct (H _ _ _ _ Hk Hn) as [E1 E2]. by apply E2, E1, Hs.
Qed.

(** ** The order book of a pair *)

(** An order is kept when it does not expire within as many seconds as its
    position in the answer of the query. *)
Lemma elem_of_filterFresh now orders o :
  o ∈ filterFresh now orders ↔ ∃ i : nat, orders !! i = Some o ∧ isFreshOrder now o (Z.of_nat i) = true.
Proof.
  unfold filterFresh. rewrite list_elem_of_fmap. split.
  - intros ([i o'] & -> & H). apply elem_of_bfilter in H as [H Hf].
    apply list_elem_of_lookup in H as [j Hj]. rewrite list_lookup_imap in Hj.
    destruct (orders !! j) as [x|] eqn:E; [|done]. injection Hj as -> ->. by exists i.
  - intros (i & Hi & Hf). exists (i, o). split; [done|]. apply elem_of_bfilter. split; [|done].
    apply list_elem_of_lookup. exists i. by rewrite list_lookup_imap, Hi.
Qed.

(** One side of the book, best first: of the orders of the pair, in the order
    in which the query found them, those that do not expire within as many
    seconds as their position. *)
Definition serves_side (now : Z) (rows : list OrderEntity) (takerToken makerToken : string)
    (before : LimitOrder → LimitOrder → bool) (l : list SRAOrder) : Prop :=
  ∃ entities orders,
    entities ≡ₚ bfilter (isPair takerToken makerToken) rows ∧
    mapM deserializeOrderToSRAOrder entities = Ok orders ∧
    l ≡ₚ filterFresh now orders ∧
    (∀ o, o ∈ l ↔ ∃ i : nat, orders !! i = Some o ∧ isFreshOrder now o (Z.of_nat i) = true) ∧
    StronglySorted (λ a b, before (order a) (order b) = true) l.

Lemma deserialized_order e o : deserializeOrderToSRAOrder e = Ok o → deserializeOrder e = Ok (order o).
Proof. unfold deserializeOrderToSRAOrder. intros (o' & -> & <-%Ok_inj)%result_bind_ok. done. Qed.

Lemma filterFresh_subset now orders o : o ∈ filterFresh now orders → o ∈ orders.
Proof. intros (i & Hi & _)%elem_of_filterFresh. by eapply list_elem_of_lookup_2. Qed.

(** Every row holds an order of the exchange. *)
Definition sane_rows (rows : list OrderEntity) : Prop :=
  Forall (λ e, ∀ o, deserializeOrder e = Ok o → sane o) rows.

Lemma side_served now rows taker maker compare before (keyed : LimitOrder → Q * Q * Q → Prop) entities l :
  (∀ a b k m, keyed a k → keyed b m →
     ((compare a b <= 0)%Z ↔ key_le k m) ∧ (before a b = true ↔ key_le k m)) →
  (∀ o, sane o → ∃ k, keyed o k) → sane_rows rows →
  entities ≡ₚ bfilter (isPair taker maker) rows →
  sideOrders now compare entities = Ok l → serves_side now rows taker maker before l.
Proof.
  intros Hkeys Hsane Hrows Hperm H. unfold sideOrders in H.
  apply result_bind_ok in H as (orders & Ho & <-%Ok_inj).
  exists entities, orders. split; [done|]. split; [done|]. split; [apply sort_perm|].
  split; [intros o; rewrite sort_perm; apply elem_of_filterFresh|].
  apply (sort_by_keys _ (λ a b, before (order a) (order b)) (λ o, keyed (order o))).
  { intros a b k m. apply Hkeys. }
  apply Forall_forall. intros o Hin%filterFresh_subset. apply Hsane.
  apply mapM_ok in Ho. apply list_elem_of_lookup in Hin as [i Hi].
  destruct (Forall2_lookup_r _ _ _ _ _ Ho Hi) as (e & He & Hd). apply deserialized_order in Hd.
  apply list_elem_of_lookup_2 in He. rewrite Hperm in He. apply elem_of_bfilter in He as [He _].
  unfold sane_rows in Hrows. rewrite Forall_forall in Hrows. by eapply Hrows.
Qed.

Lemma isPair_queried at_least taker maker tokens e :
  isPair taker maker e = true → taker ∈ tokens → maker ∈ tokens →
  matches at_least [[("takerToken", In tokens); ("makerToken", In tokens)]] e = true.
Proof.
  unfold isPair. rewrite andb_true_iff, !String.eqb_eq. intros [<- <-] H1 H2.
  apply includes_true in H1, H2. unfold matches, satisfies. cbn [existsb forallb fst snd].
  change (column e "takerToken") with (Some (ent_takerToken e)).
  change (column e "makerToken") with (Some (ent_makerToken e)).
  cbv iota. by rewrite H1, H2.
Qed.

(** C36. The bids and the asks of a pair, best price first, then the higher fee
    ratio, then the earlier expiry, of which the asked page is returned.  A
    side does not hold all orders that are fresh by the configured expiration
    buffer: the order at position [i] among those that the query found for the
    side is left out exactly when it expires within [i] seconds, since the
    filter passes the index as the buffer. *)
Theorem order_book_sorted rows at_least {L : OrderDatabaseLaws rows at_least} now p n base quote book :
  sane_rows (rows SignedOrders) →
  getOrderBookAsync now p n base quote = Ok book →
  ∃ bidOrders askOrders,
    bids book = paginate bidOrders p n ∧ asks book = paginate askOrders p n ∧
    serves_side now (rows SignedOrders) base quote bid_before bidOrders ∧
    serves_side now (rows SignedOrders) quote base ask_before askOrders.
Proof.
  intros Hsane H. unfold getOrderBookAsync in H.
  apply result_bind_ok in H as (entities & He & H). apply result_bind_ok in H as (b & Hb & H).
  apply result_bind_ok in H as (a & Ha & <-%Ok_inj). exists b, a. split; [done|]. split; [done|].
  apply db_find_rows in He as (l & Hl & _ & ->); [|done|done].
  assert (∀ taker maker, taker ∈ [base; quote] → maker ∈ [base; quote] →
    bfilter (isPair taker maker) l ≡ₚ bfilter (isPair taker maker) (rows SignedOrders)) as Hpair.
  { intros taker maker Ht Hm. rewrite Hl, bfilter_bfilter; [done|]. intros e He. by apply (isPair_queried _ taker maker). }
  split.
  - eapply side_served; [apply bid_keys | intros o Ho; apply (sane_keyed o Ho) | done | | exact Hb].
    apply Hpair; set_solver.
  - eapply side_served; [apply ask_keys | intros o Ho; apply (sane_keyed o Ho) | done | | exact Ha].
    apply Hpair; set_solver.
Qed.

(** ** Reading back what is written *)

Lemma append_comma a b : a +:+ "," +:+ b = a +:+ String comma b.
Proof. done. Qed.

Lemma signature_roundtrip `{AL : !AssertionLaws} s :
  has_char comma (sig_r (ecSignature s)) = false → has_char comma (sig_s (ecSignature s)) = false →
  deserializeSignature (serializeSignature s) = Ok s.
Proof.
  intros Hr Hs. unfold deserializeSignature, serializeSignature. rewrite !append_comma.
  rewrite split_on_app by (by apply string_of_Z_free). rewrite !split_on_app by done.
  rewrite split_on_free by (by apply string_of_Z_free).
  cbn [lookup list_lookup mbind option_bind]. rewrite !parseInt_string_of_Z, !isNumber_ok, !isString_ok.
  simpl. by destruct s as [t [v r s]].
Qed.

(** The same integer. *)
Definition same_amount (a b : BN) : Prop := ∃ z, int a z ∧ int b z.
Definition integral (a : BN) : Prop := ∃ z, int a z.

Lemma amount_roundtrip a : integral a → same_amount (bn_of_string (bn_toString a)) a.
Proof. intros [z Hz]. exists z. split; [by apply bn_of_toString | done]. Qed.

Record same_order (a b : LimitOrder) : Prop := {
  same_makerToken : lo_makerToken a = lo_makerToken b;
  same_takerToken : lo_takerToken a = lo_takerToken b;
  same_makerAmount : same_amount (lo_makerAmount a) (lo_makerAmount b);
  same_takerAmount : same_amount (lo_takerAmount a) (lo_takerAmount b);
  same_takerTokenFeeAmount : same_amount (lo_takerTokenFeeAmount a) (lo_takerTokenFeeAmount b);
  same_maker : lo_maker a = lo_maker b;
  same_taker : lo_taker a = lo_taker b;
  same_sender : lo_sender a = lo_sender b;
  same_feeRecipient : lo_feeRecipient a = lo_feeRecipient b;
  same_pool : lo_pool a = lo_pool b;
  same_expiry : same_amount (lo_expiry a) (lo_expiry b);
  same_salt : same_amount (lo_salt a) (lo_salt b);
  same_chainId : lo_chainId a = lo_chainId b;
  same_verifyingContract : lo_verifyingContract a = lo_verifyingContract b;
  same_signature : lo_signature a = lo_signature b;
}.

(** An order that the database can hold: its amounts are integers, its
    signature has no separator in it, and it is for the chain of the service. *)
Record storable (o : SRAOrder) : Prop := {
  storable_amounts : Forall integral
    [lo_makerAmount (order o); lo_takerAmount (order o); lo_takerTokenFeeAmount (order o);
     lo_expiry (order o); lo_salt (order o); remainingFillableTakerAmount (metaData o)];
  storable_r : has_char comma (sig_r (ecSignature (lo_signature (order o)))) = false;
  storable_s : has_char comma (sig_s (ecSignature (lo_signature (order o)))) = false;
  storable_chain : lo_chainId (order o) = CHAIN_ID;
}.

Definition restored (o' o : SRAOrder) (st : option OrderEventEndState) : Prop :=
  same_order (order o') (order o) ∧ orderHash (metaData o') = orderHash (metaData o) ∧
  same_amount (remainingFillableTakerAmount (metaData o')) (remainingFillableTakerAmount (metaData o)) ∧
  state (metaData o') = st.

Lemma entity_roundtrip `{AL : !AssertionLaws} o st :
  storable o → ∃ o', deserializeOrderToSRAOrder (entityOf o st) = Ok o' ∧ restored o' o st.
Proof.
  intros [Ha Hr Hs Hc]. repeat setoid_rewrite Forall_cons in Ha.
  destruct Ha as (H1 & H2 & H3 & H4 & H5 & H6 & _).
  unfold deserializeOrderToSRAOrder, deserializeOrder, entityOf. simpl.
  rewrite signature_roundtrip by done. simpl. eexists. split; [reflexivity|].
  split; [|split; [done|]]; [|split; [by apply amount_roundtrip|done]].
  split; simpl; try done; by apply amount_roundtrip.
Qed.

(** C37. What is stored of an order is read back as the order; a stored order has
    no state, a persistent one has that of the order or is new. *)
Theorem orders_roundtrip `{AL : !AssertionLaws} o :
  storable o →
  (∃ o', deserializeOrderToSRAOrder (serializeOrder o) = Ok o' ∧ restored o' o None) ∧
  (∃ o', deserializeOrderToSRAOrder (serializePersistentOrder o) = Ok o' ∧
     restored o' o (Some (default OrderEventEndState.Added (state (metaData o))))).
Proof. intros H. split; by apply entity_roundtrip. Qed.

(** ** Pages of orders *)

Lemma countAndFind_spec rows at_least {L : OrderDatabaseLaws rows at_least} t p n clauses c orders :
  (1 <= p)%Z → (0 <= n)%Z → countAndFind t p n clauses = Ok (c, orders) →
  c = Z.of_nat (length (bfilter (matches at_least clauses) (rows t))) ∧
  (Z.of_nat (length orders) <= n)%Z ∧
  Forall (λ o, ∃ e, e ∈ rows t ∧ matches at_least clauses e = true ∧
    deserializeOrderToSRAOrder e = Ok o) orders.
Proof.
  intros Hp Hn H. unfold countAndFind in H.
  apply result_bind_ok in H as (c' & Hc & H). apply result_bind_ok in H as (es & He & H).
  apply result_bind_ok in H as (os & Ho & [= <- <-]%Ok_inj).
  split; [by eapply db_count_rows|].
  apply db_find_rows in He as (l & Hl & _ & ->); [|simpl; nia|done]. simpl in *.
  split.
  - apply mapM_ok_length in Ho. rewrite Ho, length_take. lia.
  - apply mapM_ok in Ho. apply Forall_forall. intros o Hin. apply list_elem_of_lookup in Hin as [i Hi].
    destruct (Forall2_lookup_r _ _ _ _ _ Ho Hi) as (e & He & Hd). exists e.
    apply list_elem_of_lookup_2 in He. apply elem_of_take in He as (j & He & _).
    rewrite lookup_drop in He. apply list_elem_of_lookup_2 in He. rewrite Hl in He.
    apply elem_of_bfilter in He as [? ?]. done.
Qed.

Lemma with_condition_elem w name c : (name, c) ∈ with_condition w name c.
Proof.
  unfold with_condition. induction w as [|[k d] w IH]; simpl; [by left|].
  case_bool_decide as E; [subst; by left | by right].
Qed.

Lemma with_condition_other w name c k d : (k, d) ∈ w → k ≠ name → (k, d) ∈ with_condition w name c.
Proof.
  unfold with_condition. induction w as [|[k' d'] w IH]; simpl; [by intros ?%elem_of_nil|].
  intros [[= <- <-]|Hin]%elem_of_cons Hne.
  - rewrite bool_decide_eq_false_2 by done. by left.
  - case_bool_decide; right; auto.
Qed.

Lemma matches_elem at_least ws e :
  matches at_least ws e = true → ∃ w, w ∈ ws ∧ ∀ c, c ∈ w → satisfies at_least e c = true.
Proof.
  unfold matches. intros (w & Hw & H)%existsb_exists. exists w. split; [by apply list_elem_of_In|].
  intros c Hc. rewrite forallb_forall in H. by apply H, list_elem_of_In.
Qed.

(** A row that matches what is asked, up to the conditions that the service
    adds under [name]. *)
Definition asked (filters : FieldFilters) (additional : AdditionalFilters) (name : string)
    (e : OrderEntity) : Prop :=
  (∀ k v, (k, v) ∈ filters → k ∈ columnNames → k ≠ name →
     default "" (trader additional) = "" ∨ k ≠ "maker" ∧ k ≠ "taker" → column e k = Some v) ∧
  (∀ t, trader additional = Some t → t ≠ "" → ent_maker e = t ∨ ent_taker e = t).

Lemma matches_asked at_least filters additional name c e :
  name ≠ "maker" → name ≠ "taker" →
  matches at_least ((λ w, with_condition w name c) <$> clausesOf filters additional) e = true →
  satisfies at_least e (name, c) = true ∧ asked filters additional name e.
Proof.
  intros Hm Ht (w & (w0 & -> & Hw0)%list_elem_of_fmap & Hall)%matches_elem.
  split; [apply Hall, with_condition_elem|].
  set (base := prod_map id Equal <$> bfilter (λ kv, includes columnNames kv.1) filters) in *.
  assert (∀ k v, (k, v) ∈ filters → k ∈ columnNames → (k, Equal v) ∈ base) as Hbase.
  { intros k v Hin Hk. apply list_elem_of_fmap. exists (k, v). split; [done|].
    apply elem_of_bfilter. split; [done|]. by apply includes_true. }
  assert (∀ k v, (k, Equal v) ∈ w0 → k ≠ name → column e k = Some v) as Hcol.
  { intros k v Hin Hne. specialize (Hall _ (with_condition_other _ name c _ _ Hin Hne)).
    unfold satisfies in Hall. simpl in Hall. destruct (column e k) as [u|]; [|done].
    apply String.eqb_eq in Hall. by subst. }
  unfold asked, clausesOf in *. destruct (trader additional) as [t|]; simpl in *.
  - destruct (String.eqb_spec t "") as [Et|Hne].
    + apply list_elem_of_singleton in Hw0. subst w0. split; [by auto|]. intros t' [= <-]. by rewrite Et.
    + apply elem_of_cons in Hw0 as [Hw0|Hw0]; [|apply list_elem_of_singleton in Hw0]; subst w0; split.
      * intros k v Hin Hk Hkn [?|[??]]; [done|]. apply Hcol; [|done]. apply with_condition_other; auto.
      * intros t' [= Et] _. subst t'. left.
        specialize (Hcol "maker" t (with_condition_elem _ _ _) ltac:(congruence)). by injection Hcol.
      * intros k v Hin Hk Hkn [?|[??]]; [done|]. apply Hcol; [|done]. apply with_condition_other; auto.
      * intros t' [= Et] _. subst t'. right.
        specialize (Hcol "taker" t (with_condition_elem _ _ _) ltac:(congruence)). by injection Hcol.
  - apply list_elem_of_singleton in Hw0. subst w0. split; [by auto|done].
Qed.

(** A page of the orders that match the request: the unexpired ones, and, when
    unfillable ones are asked for (of a maker), the persistent ones in a removed
    state.  The total counts both tables, and the page holds at most [perPage]
    orders of each. *)
Theorem orders_page rows at_least {L : OrderDatabaseLaws rows at_least} now p n filters additional c :
  (1 <= p)%Z → (0 <= n)%Z → getOrdersAsync now p n filters additional = Ok c →
  let unexpired e := asked filters additional "expiry" e ∧
    at_least (ent_expiry e) (minExpiryTime now) = true in
  let removed e := asked filters additional "orderState" e ∧
    ∃ s, ent_orderState e = Some s ∧ s ∈ REMOVED_STATES in
  let counted t clauses := Z.of_nat (length (bfilter (matches at_least clauses) (rows t))) in
  let signed := counted SignedOrders (unexpiredClauses now (clausesOf filters additional)) in
  let persistent := counted PersistentOrders (removedClauses (clausesOf filters additional)) in
  page c = p ∧ perPage c = n ∧
  if bool_decide (isUnfillable additional = Some true)
  then "maker" ∈ filters.*1 ∧ total c = signed + persistent ∧
    (Z.of_nat (length (records c)) <= 2 * n)%Z ∧
    Forall (λ o, ∃ e, deserializeOrderToSRAOrder e = Ok o ∧
      (e ∈ rows SignedOrders ∧ unexpired e ∨ e ∈ rows PersistentOrders ∧ removed e)) (records c)
  else total c = signed ∧ (Z.of_nat (length (records c)) <= n)%Z ∧
    Forall (λ o, ∃ e, deserializeOrderToSRAOrder e = Ok o ∧ e ∈ rows SignedOrders ∧ unexpired e) (records c).
Proof.
  intros Hp Hn H unexpired removed counted signed persistent. unfold getOrdersAsync in H.
  apply result_bind_ok in H as (u & Hu & H).
  apply result_bind_ok in H as ([c1 os1] & H1 & H). apply result_bind_ok in H as ([c2 os2] & H2 & <-%Ok_inj).
  apply (countAndFind_spec rows at_least) in H1 as (-> & Hl1 & F1); [|done|done].
  assert (Forall (λ o, ∃ e, deserializeOrderToSRAOrder e = Ok o ∧ e ∈ rows SignedOrders ∧ unexpired e) os1) as F1'.
  { eapply Forall_impl; [exact F1|]. intros o (e & He & Hm & Hd). exists e. split; [done|]. split; [done|].
    by apply matches_asked in Hm as [? ?]. }
  split; [done|]. split; [done|]. case_bool_decide as E; simpl in Hu, H2 |- *.
  - apply (countAndFind_spec rows at_least) in H2 as (-> & Hl2 & F2); [|done|done]. split.
    { case_bool_decide; [done|]. discriminate Hu. }
    split; [done|]. split; [rewrite length_app; lia|]. apply Forall_app. split.
    + eapply Forall_impl; [exact F1'|]. intros o (e & ? & ? & ?). exists e. auto.
    + eapply Forall_impl; [exact F2|]. intros o (e & He & Hm & Hd). exists e. split; [done|]. right. split; [done|].
      apply matches_asked in Hm as [Hs ?]; [|done|done]. split; [done|].
      unfold satisfies in Hs. simpl in Hs. unfold column in Hs. simpl in Hs.
      destruct (ent_orderState e) as [s|]; [|done]. exists s. split; [done|]. simpl in Hs.
      by destruct s; try (vm_compute in Hs; discriminate Hs); set_solver.
  - injection H2 as <- <-. rewrite app_nil_r, Z.add_0_r. done.
Qed.

(** ** Freshness *)

Lemma group_acc now buffer orders acc :
  fold_left (λ acc o,
    if isFreshOrder now o buffer then (acc.1 ++ [o], acc.2) else (acc.1, acc.2 ++ [o])) orders acc =
  (acc.1 ++ bfilter (λ o, isFreshOrder now o buffer) orders,
   acc.2 ++ bfilter (λ o, negb (isFreshOrder now o buffer)) orders).
Proof.
  revert acc. induction orders as [|o orders IH]; intros [f e]; simpl; [by rewrite !app_nil_r|].
  rewrite IH. destruct (isFreshOrder now o buffer); simpl; by rewrite <- app_assoc.
Qed.

(** Batches of orders drop those that expire within the configured buffer; the
    order book instead keeps the order at position [i] of the query exactly when
    it does not expire within [i] seconds, whatever the buffer. *)
Theorem freshness_buffers now buffer orders :
  groupByFreshness now orders buffer =
    (bfilter (λ o, isFreshOrder now o buffer) orders,
     bfilter (λ o, negb (isFreshOrder now o buffer)) orders) ∧
  (∀ o, o ∈ filterFresh now orders ↔
     ∃ i : nat, orders !! i = Some o ∧ isFreshOrder now o (Z.of_nat i) = true).
Proof.
  split; [apply group_acc | intros o; apply elem_of_filterFresh].
Qed.

(** ** Posting *)

(** Every way that posting to the order watcher ends: a request without an
    answer throws a type error, as the handler reads the missing response. *)
Theorem posting_errors (post : list LimitOrder → option AxiosError) orders :
  match post orders with
  | None => addOrdersAsync post orders = Ok tt
  | Some e =>
      match err_response e with
      | Some (Some items) => addOrdersAsync post orders = Throw (ValidationError items)
      | Some None => ∃ m, addOrdersAsync post orders = Throw (InternalServerError m)
      | None => addOrdersAsync post orders = Throw TypeError
      end
  end ∧
  (∀ getHash, addPersistentOrdersAsync getHash post orders = Ok tt →
     post orders = None ∧ ∃ added,
       findSigned [("hash", In (getHash <$> orders))] = Ok added ∧ db_save PersistentOrders added = Ok tt).
Proof.
  unfold addPersistentOrdersAsync, addOrdersAsync, postOrdersAsync. split.
  - destruct (post orders) as [[[[items|]|] []]|]; simpl; eauto.
  - intros getHash H. destruct (post orders) as [[[[items|]|] []]|]; try discriminate H.
    split; [done|]. simpl in H. apply result_bind_ok in H as (added & Hf & Hs). eauto.
Qed.

(** ** The limit orders of the swap quoter *)

#[global] Instance AssetSwapperOrderbook_laws now : OrderbookLaws (OB := AssetSwapperOrderbook now).
Proof. split. intros maker taker prune. eexists. split; [reflexivity | apply bfilter_Forall]. Qed.

#[global] Instance NoOpOrderbook_laws : OrderbookLaws (OB := NoOpOrderbook).
Proof. split. intros maker taker prune. by exists []. Qed.

(** The quoter gets at most a page of limit orders, whatever the table holds:
    unexpired rows of the pair that the pruning function keeps; a failing query
    leaves it without any. *)
Theorem quoter_orders_of_pair rows at_least {L : OrderDatabaseLaws rows at_least} now maker taker prune :
  let orders := assetSwapperOrders now maker taker prune in
  (length orders <= 20)%nat ∧
  Forall (λ o, prune o = true ∧ signed_type (limit_signed o) = FillQuoteTransformerOrderType.Limit ∧
    ∃ e s, e ∈ rows SignedOrders ∧ ent_makerToken e = maker ∧ ent_takerToken e = taker ∧
      at_least (ent_expiry e) (minExpiryTime now) = true ∧
      deserializeOrderToSRAOrder e = Ok s ∧ o = apiOrderToOrderbookOrder s) orders.
Proof.
  unfold assetSwapperOrders, getOrdersAsync. simpl.
  destruct (countAndFind _ _ _ _) as [[c os]|e] eqn:E; simpl; [|split; [lia|constructor]].
  apply (countAndFind_spec rows at_least) in E as (_ & Hl & F); [|done|done]. split.
  - etrans; [eapply sublist_length, bfilter_sublist|]. rewrite length_fmap, app_nil_r.
    unfold DEFAULT_PER_PAGE in Hl. lia.
  - apply Forall_forall. intros o [Hin Hp]%elem_of_bfilter. rewrite app_nil_r in Hin.
    apply list_elem_of_fmap in Hin as (s & -> & Hs). rewrite Forall_forall in F.
    destruct (F s Hs) as (e & He & Hm & Hd).
    apply (matches_asked at_least [("makerToken", maker); ("takerToken", taker)]
      {| isUnfillable := None; trader := None |} "expiry") in Hm as [Hx [Hf _]]; [|done|done].
    split; [done|]. split; [done|]. exists e, s. split; [done|].
    specialize (Hf "makerToken"%string maker) as Hmk. specialize (Hf "takerToken"%string taker) as Htk.
    split_and!; try done; [injection Hmk | injection Htk]; try done; try set_solver; by left.
Qed.
End Orderbook.

(** ** Concrete runs *)

Module OrderbookExamples.
Import Concrete.

Definition read_decimal (s : string) : ext :=
  match parseInt s with Some z => EFin (inject_Z z) | None => ENaN end.
Definition print_decimal (x : ext) : string :=
  match x with EFin q => string_of_Z (Qfloor q) | _ => "NaN" end.
Lemma read_print (a : ext) z : ext_eq a (EFin (inject_Z z)) → ext_eq (read_decimal (print_decimal a)) (EFin (inject_Z z)).
Proof.
  intros Ha%ext_eq_unfold. destruct a as [| |q]; try done. unfold read_decimal, print_decimal.
  rewrite parseInt_string_of_Z, Ha, Qfloor_Z. by constructor.
Qed.
#[export] Instance ex_strings : BigNumberStrings (B := QBigNumber) :=
  {| bn_of_string := read_decimal : string → BN (BigNumberLib := QBigNumber);
     bn_toString := print_decimal : BN (BigNumberLib := QBigNumber) → string; bn_of_toString := read_print |}.

#[export] Instance ex_assertions : Assertions :=
  {| isNumber _ n := match n with Some _ => Ok tt | None => Throw (Error "not a number") end;
     isString _ s := match s with Some _ => Ok tt | None => Throw (Error "not a string") end |}.
#[export] Instance ex_assertions_laws : AssertionLaws.
Proof. by split. Qed.

(** Two bids and an ask, and an order that was cancelled. *)
Definition row (hash taker maker takerAmount makerAmount expiry : string)
    (st : option OrderEventEndState) : OrderEntity :=
  {| ent_hash := hash; ent_makerToken := maker; ent_takerToken := taker; ent_makerAmount := makerAmount;
     ent_takerAmount := takerAmount; ent_maker := "0xmaker"; ent_taker := NULL_ADDRESS; ent_pool := "0x";
     ent_expiry := expiry; ent_salt := "1"; ent_verifyingContract := "0xproxy";
     ent_takerTokenFeeAmount := "0"; ent_sender := NULL_ADDRESS; ent_feeRecipient := NULL_ADDRESS;
     ent_signature := "2,0xr,0xs,27"; ent_remainingFillableTakerAmount := takerAmount;
     ent_orderState := st; ent_createdAt := None |}.
Definition ex_rows (t : Table) : list OrderEntity :=
  match t with
  | SignedOrders => [row "0x1" "0xbase" "0xquote" "100" "300" "1700000100" None;
                     row "0x2" "0xbase" "0xquote" "100" "400" "1700000100" None;
                     row "0x3" "0xquote" "0xbase" "500" "100" "1700000100" None]
  | PersistentOrders => [row "0x0" "0xbase" "0xquote" "1" "3" "1600000000" (Some OrderEventEndState.Cancelled)]
  end.

(** The columns are text, and so is their comparison. *)
Definition text_at_least (v : string) (z : Z) : bool := String.leb (string_of_Z z) v.

Definition by_hash (a b : OrderEntity) : Z := if String.leb (ent_hash a) (ent_hash b) then 0 else 1.
Definition ex_find (rows : Table → list OrderEntity) (t : Table) (o : FindOptions) : list OrderEntity :=
  let l := bfilter (matches text_at_least (fo_where o)) (rows t) in
  let l := drop (Z.to_nat (fo_skip o)) (if fo_byHash o then sort by_hash l else l) in
  match fo_take o with Some n => take (Z.to_nat n) l | None => l end.
#[export] Instance ex_db : OrderDatabase :=
  {| db_find t o := Ok (ex_find ex_rows t o);
     db_count t w := Ok (Z.of_nat (length (bfilter (matches text_at_least w) (ex_rows t))));
     db_findOne t h := Ok (head (bfilter (λ e, String.eqb (ent_hash e) h) (ex_rows t)));
     db_save _ _ := Ok tt |}.

Lemma by_hash_le a b : (by_hash a b <= 0)%Z ↔ String.leb (ent_hash a) (ent_hash b) = true.
Proof. unfold by_hash. destruct (String.leb _ _); split; (done || lia). Qed.

Lemma by_hash_comparator : comparator_on by_hash (λ _, True).
Proof.
  split.
  - intros a b _ _. rewrite !by_hash_le. apply String.leb_total.
  - intros a b c _ _ _. rewrite !by_hash_le. intros H1 H2.
    apply Is_true_true. eapply (transitivity (R := String.le)); apply Is_true_true; done.
Qed.

Lemma hash_sorted l : StronglySorted (λ a b, String.leb (ent_hash a) (ent_hash b) = true) (sort by_hash l).
Proof.
  assert (StronglySorted (λ a b, (by_hash a b <= 0)%Z) (sort by_hash l)) as H
    by (eapply sort_sorted; [apply by_hash_comparator | by apply Forall_true]).
  induction H as [|a m _ IH Hm]; constructor; [done|].
  eapply Forall_impl; [exact Hm|]. intros b. apply by_hash_le.
Qed.

#[export] Instance ex_db_laws : OrderDatabaseLaws ex_rows text_at_least.
Proof.
  split.
  - intros t o rs <-%Ok_inj _ _. unfold ex_find.
    eexists (if fo_byHash o then sort by_hash _ else _). split; [|split]; [| |reflexivity].
    + destruct (fo_byHash o); [apply sort_perm | done].
    + intros ->. apply (hash_sorted (bfilter (matches text_at_least (fo_where o)) (ex_rows t))).
  - by intros t w n <-%Ok_inj.
  - intros t h r <-%Ok_inj. destruct (bfilter _ (ex_rows t)) as [|e l] eqn:E; simpl.
    + apply Forall_forall. intros e He Hh. assert (e ∈ []) as []%elem_of_nil. rewrite <- E.
      apply elem_of_bfilter. split; [done|]. by apply String.eqb_eq.
    + assert (e ∈ e :: l) as He by (by left). rewrite <- E in He. apply elem_of_bfilter in He as [? He].
      split; [done|]. by apply String.eqb_eq.
Qed.

Definition ex_now : Z := 1700000000000.

Lemma row_sane hash taker maker ta ma expiry st o t m e :
  parseInt ta = Some t → (0 < t)%Z → parseInt ma = Some m → (0 < m)%Z → parseInt expiry = Some e →
  deserializeOrder ChainId.Goerli (row hash taker maker ta ma expiry st) = Ok o → sane o.
Proof.
  intros Ht Ht0 Hm Hm0 He H. unfold deserializeOrder in H. apply result_bind_ok in H as (s & _ & <-%Ok_inj).
  exists (inject_Z m), (inject_Z t), (inject_Z 0), (inject_Z e). simpl. unfold read_decimal. rewrite Ht, Hm, He.
  split_and!; try (apply (fin_Z (B := QBigNumber)));
    change 0%Q with (inject_Z 0); by rewrite <- Zlt_Qlt.
Qed.

Definition ex_order : SRAOrder :=
  {| order := {| lo_makerToken := "0xquote"; lo_takerToken := "0xbase"; lo_makerAmount := of_Z 300;
       lo_takerAmount := of_Z 100; lo_takerTokenFeeAmount := of_Z 0; lo_maker := "0xmaker";
       lo_taker := NULL_ADDRESS; lo_sender := NULL_ADDRESS; lo_feeRecipient := NULL_ADDRESS; lo_pool := "0x";
       lo_expiry := of_Z 1700000100; lo_salt := of_Z 1; lo_chainId := ChainId.Goerli;
       lo_verifyingContract := "0xproxy";
       lo_signature := {| signatureType := 2; ecSignature := {| sig_v := 27; sig_r := "0xr"; sig_s := "0xs" |} |} |};
     metaData := {| orderHash := "0x1"; remainingFillableTakerAmount := of_Z 100; state := None; createdAt := None |} |}.
End OrderbookExamples.
Import Concrete OrderbookExamples.

Lemma order_book_sorted_witness :
  ∃ book bidOrders, getOrderBookAsync ChainId.Goerli ex_now 1 20 "0xbase" "0xquote" = Ok book ∧
    bids book = paginate bidOrders 1 20 ∧
    serves_side ChainId.Goerli ex_now (ex_rows SignedOrders) "0xbase" "0xquote" bid_before bidOrders.
Proof.
  assert (is_ok (getOrderBookAsync ChainId.Goerli ex_now 1 20 "0xbase" "0xquote") = true) as K
    by (vm_compute; reflexivity).
  destruct (getOrderBookAsync ChainId.Goerli ex_now 1 20 "0xbase" "0xquote") as [book|] eqn:E; [|discriminate K].
  destruct (order_book_sorted ChainId.Goerli ex_rows text_at_least ex_now 1 20 "0xbase" "0xquote" book)
    as (b & a & H1 & _ & H2 & _); [|exact E|].
  - repeat (constructor; [intros o; eapply row_sane; (vm_compute; reflexivity)|]). constructor.
  - exists book, b. split; [reflexivity|]. split; [exact H1 | exact H2].
Defined.

Lemma orders_roundtrip_witness :
  ∃ o', deserializeOrderToSRAOrder ChainId.Goerli (serializeOrder ex_order) = Ok o' ∧
    restored o' ex_order None.
Proof.
  apply (orders_roundtrip ChainId.Goerli ex_order). split; try reflexivity.
  repeat (constructor; [eexists; apply (fin_Z (B := QBigNumber))|]). constructor.
Defined.

(** A page for one order holds two. *)
Lemma orders_page_witness :
  ∃ c, getOrdersAsync ChainId.Goerli 60 ex_now 1 1 [("maker", "0xmaker"); ("takerToken", "0xbase")]%string
         {| isUnfillable := Some true; trader := None |} = Ok c ∧
    length (records c) = 2%nat ∧ (Z.of_nat (length (records c)) <= 2 * 1)%Z.
Proof.
  assert (match getOrdersAsync ChainId.Goerli 60 ex_now 1 1 [("maker", "0xmaker"); ("takerToken", "0xbase")]%string
            {| isUnfillable := Some true; trader := None |} with
          | Ok c => Nat.eqb (length (records c)) 2 | Throw _ => false end = true) as K
    by (vm_compute; reflexivity).
  destruct (getOrdersAsync _ _ _ _ _ _ _) as [c|] eqn:E; [|discriminate K]. exists c. split; [reflexivity|].
  split; [by apply Nat.eqb_eq|].
  destruct (orders_page ChainId.Goerli 60 ex_rows text_at_least ex_now 1 1 _ _ c ltac:(done) ltac:(done) E)
    as (_ & _ & _ & _ & H & _). exact H.
Defined.
