(* ===== verification/OrderFeed.v ===== *)
(** * The order feed ([services/websocket_service.ts],
    [utils/order_watcher_utils.ts]) and the order handlers
    ([handlers/sra_handlers.ts])

    Clients subscribe over a websocket and get the updates of the order watcher;
    orders are posted over HTTP.  The service is a state machine over the events
    of its sockets; what it sends is the output of a step. *)

From Stdlib Require Import Ascii.
From S2P Require Import Prelude JsLib JsNumber BigNum Types BridgeSources Orderbook.

#[local] Set Default Proof Using "Type".

(** ** Events of the order watcher *)

Definition upper_ascii (c : ascii) : ascii :=
  let n := nat_of_ascii c in
  if (97 <=? n)%nat && (n <=? 122)%nat then ascii_of_nat (n - 32) else c.
Fixpoint toUpperCase (s : string) : string :=
  match s with
  | EmptyString => EmptyString
  | String c s' => String (upper_ascii c) (toUpperCase s')
  end.

(** The member of the enumeration with a name; other names have none. *)
Definition state_of_string (s : string) : option OrderEventEndState :=
  head (bfilter (λ st, String.eqb (OrderEventEndState.to_string st) s)
    [OrderEventEndState.Added; OrderEventEndState.Filled; OrderEventEndState.FullyFilled;
     OrderEventEndState.Cancelled; OrderEventEndState.Expired; OrderEventEndState.Invalid;
     OrderEventEndState.Unexpired; OrderEventEndState.Unfunded;
     OrderEventEndState.FillabilityIncreased; OrderEventEndState.StoppedWatching]).

Section OrderFeed.
Context {B : BigNumberLib} `{BS : !BigNumberStrings}.

Record OrderWatcherEvent : Type := {
  ev_takerTokenFeeAmount : string;
  ev_sender : string;
  ev_feeRecipient : string;
  ev_makerToken : string;
  ev_takerToken : string;
  ev_makerAmount : string;
  ev_takerAmount : string;
  ev_maker : string;
  ev_taker : string;
  ev_pool : string;
  ev_expiry : string;
  ev_salt : string;
  ev_chainId : ChainId;
  ev_verifyingContract : string;
  ev_signature : OrderSignature;
  ev_orderHash : string;
  ev_remainingFillableTakerAmount : string;
  ev_state : string;
}.

Definition orderWatcherEventToSRAOrder (event : OrderWatcherEvent) : SRAOrder :=
  {| order :=
       {| lo_makerToken := ev_makerToken event; lo_takerToken := ev_takerToken event;
          lo_makerAmount := bn_of_string (ev_makerAmount event);
          lo_takerAmount := bn_of_string (ev_takerAmount event);
          lo_takerTokenFeeAmount := bn_of_string (ev_takerTokenFeeAmount event);
          lo_maker := ev_maker event; lo_taker := ev_taker event; lo_sender := ev_sender event;
          lo_feeRecipient := ev_feeRecipient event; lo_pool := ev_pool event;
          lo_expiry := bn_of_string (ev_expiry event); lo_salt := bn_of_string (ev_salt event);
          lo_chainId := ev_chainId event; lo_verifyingContract := ev_verifyingContract event;
          lo_signature := ev_signature event |};
     metaData :=
       {| orderHash := ev_orderHash event;
          remainingFillableTakerAmount := bn_of_string (ev_remainingFillableTakerAmount event);
          state := state_of_string (toUpperCase (ev_state event)); createdAt := None |} |}.

(** ** State *)

(** A socket of a client, by identity. *)
Definition Socket : Type := nat.

Record OrdersChannelSubscriptionOpts : Type := {
  sub_makerToken : option string;
  sub_takerToken : option string;
}.
(** [ALL_SUBSCRIPTION_OPTS] is [None]. *)
Definition Subscription : Type := option OrdersChannelSubscriptionOpts.

Record OrderChannelRequest : Type := {
  requestId : string;
  req_type : string;
  payload : option OrdersChannelSubscriptionOpts;
}.

(** The fields that the service keeps on a socket. *)
Record WrappedWebSocket : Type := { isAlive : bool; requestIds : list string }.

(** [clients] are the open connections of the server; the two maps are keyed by
    request. *)
Record t : Type := {
  clients : list (Socket * WrappedWebSocket);
  _requestIdToSocket : list (string * Socket);
  _requestIdToSubscriptionOpts : list (string * Subscription);
}.

Definition new : t :=
  {| clients := []; _requestIdToSocket := []; _requestIdToSubscriptionOpts := [] |}.

(** What a step does to the sockets. *)
Inductive Output : Type :=
| SendUpdate (ws : Socket) (requestId : string) (o : SRAOrder)
| SendError (ws : Socket) (e : js_error)
| Terminate (ws : Socket)
| Ping (ws : Socket).

Definition map_set {V} (m : list (string * V)) (k : string) (v : V) : list (string * V) :=
  assoc_update m k (λ _, v).
Definition map_delete {V} (m : list (string * V)) (k : string) : list (string * V) :=
  bfilter (λ e, negb (String.eqb e.1 k)) m.

(** An update of the fields of an open socket. *)
Definition on_socket (s : t) (ws : Socket) (f : WrappedWebSocket → WrappedWebSocket) : t :=
  {| clients := (λ c, if Nat.eqb c.1 ws then (c.1, f c.2) else c) <$> clients s;
     _requestIdToSocket := _requestIdToSocket s;
     _requestIdToSubscriptionOpts := _requestIdToSubscriptionOpts s |}.

(** ** Handlers *)

Definition mismatches (wanted : option string) (actual : string) : bool :=
  match wanted with
  | None => false
  | Some w => negb (String.eqb w "") && negb (String.eqb (toLowerCase actual) (toLowerCase w))
  end.

Definition _matchesOrdersChannelSubscription (o : LimitOrder) (opts : Subscription) : bool :=
  match opts with
  | None => true
  | Some opts =>
      negb (mismatches (sub_takerToken opts) (lo_takerToken o) || mismatches (sub_makerToken opts) (lo_makerToken o))
  end.

(** The names that every object literal has from [Object.prototype]: reading one
    that the object does not have itself finds an object or a function. *)
Definition OBJECT_PROTOTYPE : list string :=
  ["constructor"; "__defineGetter__"; "__defineSetter__"; "hasOwnProperty"; "__lookupGetter__";
   "__lookupSetter__"; "isPrototypeOf"; "propertyIsEnumerable"; "toString"; "valueOf"; "__proto__";
   "toLocaleString"]%string.

(** The keys of [requestIdToOrders] for one order, as they are written.  Its sets
    hold that order alone.  An inherited member is found in place of a set that
    is missing, and has no [add]. *)
Fixpoint requestIdsOf (o : LimitOrder) (subscriptions : list (string * Subscription)) (ids : list string)
    : result (list string) :=
  match subscriptions with
  | [] => Ok ids
  | (requestId, subscriptionOpts) :: subscriptions =>
      if _matchesOrdersChannelSubscription o subscriptionOpts then
        if includes ids requestId then requestIdsOf o subscriptions ids
        else if includes OBJECT_PROTOTYPE requestId then Throw TypeError
        else requestIdsOf o subscriptions (ids ++ [requestId])
      else requestIdsOf o subscriptions ids
  end.

(** [Object.entries] lists the keys that are array indices first, by their value,
    and the other ones as they were written. *)
Definition arrayIndex (k : string) : option Z :=
  match parseInt k with
  | Some z => if String.eqb (string_of_Z z) k && (0 <=? z)%Z && (z <? 2 ^ 32 - 1)%Z then Some z else None
  | None => None
  end.
Definition isArrayIndex (k : string) : bool := match arrayIndex k with Some _ => true | None => false end.
Definition entryKeys (keys : list string) : list string :=
  sort (λ a b, (default 0 (arrayIndex a) - default 0 (arrayIndex b))%Z) (bfilter isArrayIndex keys) ++
  bfilter (λ k, negb (isArrayIndex k)) keys.

(** One order: to every request whose subscription it matches. *)
Definition sendOrder (s : t) (o : SRAOrder) : result (list Output) :=
  ids ← requestIdsOf (order o) (_requestIdToSubscriptionOpts s) [];
  Ok (omap (λ requestId, (λ ws, SendUpdate ws requestId o) <$> assoc_get (_requestIdToSocket s) requestId)
        (entryKeys ids)).

(** An exception keeps what was sent before it, and loses the rest. *)
Fixpoint sendOrders (s : t) (apiOrders : list SRAOrder) : list Output * result unit :=
  match apiOrders with
  | [] => ([], Ok tt)
  | o :: apiOrders =>
      match sendOrder s o with
      | Throw e => ([], Throw e)
      | Ok out => let r := sendOrders s apiOrders in (out ++ r.1, r.2)
      end
  end.

Definition orderUpdate (s : t) (apiOrders : list SRAOrder) : list Output * result unit :=
  match clients s with
  | [] => ([], Ok tt)
  | _ => sendOrders s apiOrders
  end.

(** A message of the order watcher: nothing without a value, nothing when it
    does not parse; an exception of the update is logged. *)
Definition eachMessage (parse : string → option OrderWatcherEvent) (s : t) (value : option string)
    : list Output :=
  match value ≫= parse with
  | Some event => (orderUpdate s [orderWatcherEventToSRAOrder event]).1
  | None => []
  end.

Definition _processConnection (s : t) (ws : Socket) : t :=
  {| clients := clients s ++ [(ws, {| isAlive := true; requestIds := [] |})];
     _requestIdToSocket := _requestIdToSocket s;
     _requestIdToSubscriptionOpts := _requestIdToSubscriptionOpts s |}.

(** [payload === undefined || _.isEmpty(payload)]. *)
Definition subscriptionOf (payload : option OrdersChannelSubscriptionOpts) : Subscription :=
  match payload with
  | Some {| sub_makerToken := None; sub_takerToken := None |} | None => None
  | Some opts => Some opts
  end.

Definition MalformedJSONError : js_error := ApiError "MalformedJSONError".
Definition NotImplementedError : js_error := ApiError "NotImplementedError".

(** [validateSchema] is the check against [sraOrdersChannelSubscribeSchema];
    [message] is [None] when the data is no JSON. *)
Definition _processMessage (validateSchema : OrderChannelRequest → result unit) (s : t) (ws : Socket)
    (message : option OrderChannelRequest) : result t :=
  match message with
  | None => Throw MalformedJSONError
  | Some m =>
      _ ← validateSchema m;
      if String.eqb (req_type m) "subscribe" then
        let s := on_socket s ws (λ w, {| isAlive := isAlive w;
                   requestIds := if includes (requestIds w) (requestId m) then requestIds w
                                 else requestIds w ++ [requestId m] |}) in
        Ok {| clients := clients s;
              _requestIdToSocket := map_set (_requestIdToSocket s) (requestId m) ws;
              _requestIdToSubscriptionOpts :=
                map_set (_requestIdToSubscriptionOpts s) (requestId m) (subscriptionOf (payload m)) |}
      else Throw NotImplementedError
  end.

(** A failing message answers the error and terminates the socket. *)
Definition _messageHandler (validateSchema : OrderChannelRequest → result unit) (s : t) (ws : Socket)
    (message : option OrderChannelRequest) : t * list Output :=
  match _processMessage validateSchema s ws message with
  | Ok s' => (s', [])
  | Throw e => (s, [SendError ws e; Terminate ws])
  end.

Definition _pongHandler (s : t) (ws : Socket) : t :=
  on_socket s ws (λ w, {| isAlive := true; requestIds := requestIds w |}).

Definition socket (s : t) (ws : Socket) : option WrappedWebSocket :=
  snd <$> head (bfilter (λ c, Nat.eqb c.1 ws) (clients s)).

(** The socket has left the server's clients. *)
Definition _closeHandler (s : t) (ws : Socket) : t :=
  let ids := default [] (requestIds <$> socket s ws) in
  {| clients := bfilter (λ c, negb (Nat.eqb c.1 ws)) (clients s);
     _requestIdToSocket := fold_left map_delete ids (_requestIdToSocket s);
     _requestIdToSubscriptionOpts := fold_left map_delete ids (_requestIdToSubscriptionOpts s) |}.

Definition _cleanupConnections (s : t) : t * list Output :=
  ({| clients := (λ c, if isAlive c.2 then (c.1, {| isAlive := false; requestIds := requestIds c.2 |}) else c)
                   <$> clients s;
      _requestIdToSocket := _requestIdToSocket s;
      _requestIdToSubscriptionOpts := _requestIdToSubscriptionOpts s |},
   (λ c, if isAlive c.2 then Ping c.1 else Terminate c.1) <$> clients s).

(** Every client is terminated, and both maps are cleared. *)
Definition destroyAsync (s : t) : t * list Output :=
  ({| clients := clients s; _requestIdToSocket := []; _requestIdToSubscriptionOpts := [] |},
   (λ c, Terminate c.1) <$> clients s).

(** ** The invariant *)

(** The two maps have the same keys, and a request leads to an open socket that
    knows the request. *)
Record wf (s : t) : Prop := {
  wf_clients : NoDup (clients s).*1;
  wf_requests : NoDup (_requestIdToSocket s).*1;
  wf_keys : (_requestIdToSubscriptionOpts s).*1 = (_requestIdToSocket s).*1;
  wf_open r ws : assoc_get (_requestIdToSocket s) r = Some ws →
    ∃ w, (ws, w) ∈ clients s ∧ r ∈ requestIds w;
}.

Lemma map_delete_keys {V} (m : list (string * V)) k :
  (map_delete m k).*1 = bfilter (λ r, negb (String.eqb r k)) m.*1.
Proof. unfold map_delete. by rewrite bfilter_fmap. Qed.

Lemma map_delete_get {V} (m : list (string * V)) k r v :
  assoc_get (map_delete m k) r = Some v → r ≠ k ∧ assoc_get m r = Some v.
Proof.
  unfold map_delete. induction m as [|[k' v'] m IH]; simpl; [done|].
  destruct (String.eqb_spec k' k) as [->|Hk]; simpl.
  - intros [Hr H]%IH. by rewrite bool_decide_eq_false_2.
  - case_bool_decide as E; [subst; by auto|done].
Qed.

Lemma deleted_get {V} ids (m : list (string * V)) r v :
  assoc_get (fold_left map_delete ids m) r = Some v → r ∉ ids ∧ assoc_get m r = Some v.
Proof.
  revert m. induction ids as [|k ids IH]; intros m H; simpl in H; [split; [apply not_elem_of_nil|done]|].
  apply IH in H as [Hr [Hk H]%map_delete_get]. split; [|done]. by apply not_elem_of_cons.
Qed.

Lemma deleted_keys {V W} ids (m : list (string * V)) (n : list (string * W)) :
  m.*1 = n.*1 → (fold_left map_delete ids m).*1 = (fold_left map_delete ids n).*1.
Proof.
  revert m n. induction ids as [|k ids IH]; intros m n H; [done|]. apply IH. by rewrite !map_delete_keys, H.
Qed.

Lemma deleted_NoDup {V} ids (m : list (string * V)) :
  NoDup m.*1 → NoDup (fold_left map_delete ids m).*1.
Proof.
  revert m. induction ids as [|k ids IH]; intros m H; [done|]. apply IH. rewrite map_delete_keys.
  eapply sublist_NoDup; [exact H | apply bfilter_sublist].
Qed.

Lemma on_socket_clients s ws f : (clients (on_socket s ws f)).*1 = (clients s).*1.
Proof.
  simpl. rewrite <- list_fmap_compose. apply list_fmap_ext. intros i [x w] _. simpl. by destruct (Nat.eqb x ws).
Qed.

(** An update that forgets no request keeps the invariant. *)
Lemma on_socket_open s ws f ws' w :
  (∀ w, requestIds w ⊆ requestIds (f w)) → (ws', w) ∈ clients s →
  ∃ w', (ws', w') ∈ clients (on_socket s ws f) ∧ requestIds w ⊆ requestIds w' ∧
    (ws' = ws → w' = f w).
Proof.
  intros Hf Hin. exists (if Nat.eqb ws' ws then f w else w). split.
  - simpl. apply list_elem_of_fmap. exists (ws', w). split; [|done]. simpl. by destruct (Nat.eqb ws' ws).
  - destruct (Nat.eqb_spec ws' ws); [by auto|]. split; [done|]. by intros ->.
Qed.

Lemma elem_fst {A C} (a : A) (l : list (A * C)) : a ∈ l.*1 ↔ ∃ c, (a, c) ∈ l.
Proof.
  rewrite list_elem_of_fmap. split.
  - intros ([x c] & -> & H). by exists c.
  - intros [c H]. by exists (a, c).
Qed.

Lemma wf_new : wf new.
Proof. split; simpl; try constructor. done. Qed.

Lemma wf_connect s ws : wf s → ws ∉ (clients s).*1 → wf (_processConnection s ws).
Proof.
  intros [Hc Hr Hk Ho] Hws. split; simpl; try done.
  - rewrite fmap_app. apply NoDup_app. split; [done|]. split; [|apply NoDup_singleton]. set_solver.
  - intros r ws' (w & Hin & Hw)%Ho. exists w. split; [|done]. apply elem_of_app. by left.
Qed.

Lemma wf_on_socket s ws f : wf s → (∀ w, requestIds w ⊆ requestIds (f w)) → wf (on_socket s ws f).
Proof.
  intros [Hc Hr Hk Ho] Hf. split; [by rewrite on_socket_clients | done | done|].
  intros r ws' (w & Hin & Hw)%Ho. destruct (on_socket_open s ws f ws' w Hf Hin) as (w' & ? & Hsub & _).
  exists w'. split; [done|]. by apply Hsub.
Qed.

Lemma wf_message validateSchema s ws m s' :
  wf s → ws ∈ (clients s).*1 → _processMessage validateSchema s ws m = Ok s' → wf s'.
Proof.
  intros Hwf Hws H. unfold _processMessage in H. destruct m as [m|]; [|done].
  apply result_bind_ok in H as (u & _ & H). destruct (String.eqb _ _); [|done]. apply Ok_inj in H as <-.
  set (f := λ w, {| isAlive := isAlive w;
    requestIds := if includes (requestIds w) (requestId m) then requestIds w else requestIds w ++ [requestId m] |}).
  assert (∀ w, requestIds w ⊆ requestIds (f w)) as Hf
    by (intros w; unfold f; simpl; destruct (includes _ _); set_solver).
  assert (∀ w, requestId m ∈ requestIds (f w)) as Hid.
  { intros w. unfold f. simpl. destruct (includes _ _) eqn:E; [by apply includes_true in E | set_solver]. }
  pose proof (wf_on_socket s ws f Hwf Hf) as Hwf'. destruct Hwf' as [Hc Hr Hk Ho].
  split; [done | by apply assoc_update_NoDup | |].
  - simpl. unfold map_set. rewrite !assoc_update_keys. simpl in Hk. by rewrite Hk.
  - intros r ws' H. simpl in H. unfold map_set in H. destruct (decide (r = requestId m)) as [->|Hne].
    + rewrite assoc_get_update in H. injection H as <-. apply elem_fst in Hws as [w Hw].
      destruct (on_socket_open s ws f ws w Hf Hw) as (w' & Hin & _ & E). exists w'. split; [exact Hin|].
      rewrite (E eq_refl). apply Hid.
    + rewrite assoc_get_update_ne in H by done. by apply Ho.
Qed.

Lemma socket_elem s ws w : NoDup (clients s).*1 → (ws, w) ∈ clients s → socket s ws = Some w.
Proof.
  unfold socket. induction (clients s) as [|[x v] l IH]; [by intros _ ?%elem_of_nil|].
  rewrite fmap_cons. intros [Hx Hnd]%NoDup_cons [[= -> ->]|Hin]%elem_of_cons; simpl.
  - by rewrite Nat.eqb_refl.
  - destruct (Nat.eqb_spec x ws) as [->|_]; [|by apply IH]. destruct Hx. apply elem_fst. by exists w.
Qed.

Lemma wf_close s ws : wf s → wf (_closeHandler s ws).
Proof.
  intros [Hc Hr Hk Ho]. split; simpl.
  - eapply sublist_NoDup; [exact Hc|]. apply (fmap_sublist fst), bfilter_sublist.
  - by apply deleted_NoDup.
  - by apply deleted_keys.
  - intros r ws' [Hni H]%deleted_get. destruct (Ho _ _ H) as (w & Hin & Hw). exists w. split; [|done].
    apply elem_of_bfilter. split; [done|]. simpl. destruct (Nat.eqb_spec ws' ws) as [->|]; [|done].
    exfalso. apply Hni. by rewrite (socket_elem _ _ _ Hc Hin).
Qed.

(** The sweep of one client. *)
Definition swept (c : Socket * WrappedWebSocket) : Socket * WrappedWebSocket :=
  if isAlive c.2 then (c.1, {| isAlive := false; requestIds := requestIds c.2 |}) else c.

Lemma swept_spec c :
  (swept c).1 = c.1 ∧ requestIds (swept c).2 = requestIds c.2 ∧ isAlive (swept c).2 = false.
Proof. unfold swept. destruct c as [ws w]. simpl. by destruct (isAlive w) eqn:E. Qed.

Lemma wf_cleanup s : wf s → wf (_cleanupConnections s).1.
Proof.
  intros [Hc Hr Hk Ho]. split; simpl; [|done|done|].
  - rewrite <- list_fmap_compose. erewrite list_fmap_ext; [exact Hc|].
    intros i c _. apply swept_spec.
  - intros r ws (w & Hin & Hw)%Ho. destruct (swept_spec (ws, w)) as (E1 & E2 & _).
    exists (swept (ws, w)).2. split; [|by rewrite E2]. apply list_elem_of_fmap. exists (ws, w).
    split; [|done]. fold (swept (ws, w)). simpl in E1. rewrite <- E1 at 1. by destruct (swept (ws, w)).
Qed.

(** ** The service as a state machine *)

Section Machine.
Variable validateSchema : OrderChannelRequest → result unit.
Variable parseEvent : string → option OrderWatcherEvent.

Inductive Event : Type :=
| Connect (ws : Socket)
| Message (ws : Socket) (message : option OrderChannelRequest)
| Pong (ws : Socket)
| Close (ws : Socket)
| Tick
| OrderEvent (value : option string).

Definition handle (s : t) (e : Event) : t * list Output :=
  match e with
  | Connect ws => (_processConnection s ws, [])
  | Message ws m => _messageHandler validateSchema s ws m
  | Pong ws => (_pongHandler s ws, [])
  | Close ws => (_closeHandler s ws, [])
  | Tick => _cleanupConnections s
  | OrderEvent v => (s, eachMessage parseEvent s v)
  end.

(** Sockets are fresh when they connect, and have events while they are
    connected; a terminated socket closes in an event of its own. *)
Definition enabled (s : t) (e : Event) : Prop :=
  match e with
  | Connect ws => ws ∉ (clients s).*1
  | Message ws _ | Pong ws | Close ws => ws ∈ (clients s).*1
  | Tick | OrderEvent _ => True
  end.

(** [run s es s']: the events [es] lead from [s] to [s']. *)
Inductive run : t → list Event → t → Prop :=
| RunNil s : run s [] s
| RunCons s e es s' : enabled s e → run (handle s e).1 es s' → run s (e :: es) s'.

Definition reachable (s : t) : Prop := ∃ es, run new es s.

Lemma wf_handle s e : wf s → enabled s e → wf (handle s e).1.
Proof.
  intros Hwf He. destruct e as [ws|ws m|ws|ws| |v]; simpl in *.
  - by apply wf_connect.
  - unfold _messageHandler. destruct (_processMessage _ _ _ _) as [s'|err] eqn:E; [|done].
    by eapply wf_message.
  - apply wf_on_socket; [done|]. intros w r Hr. exact Hr.
  - by apply wf_close.
  - by apply wf_cleanup.
  - done.
Qed.

Lemma run_wf s es s' : run s es s' → wf s → wf s'.
Proof. induction 1 as [|s e es s' He _ IH]; [done|]. intros Hwf. by apply IH, wf_handle. Qed.

Lemma reachable_wf s : reachable s → wf s.
Proof. intros [es H]. eapply run_wf; [exact H | apply wf_new]. Qed.

(** ** Who gets an update *)

Lemma assoc_get_elem {V} (m : list (string * V)) k v :
  NoDup m.*1 → (k, v) ∈ m ↔ assoc_get m k = Some v.
Proof.
  induction m as [|[k' v'] m IH]; simpl; [split; [by intros ?%elem_of_nil|done]|].
  intros [Hk Hnd]%NoDup_cons. rewrite elem_of_cons.
  case_bool_decide as E.
  - subst. split; [|intros [= ->]; by left]. intros [[= ->]|Hin]; [done|].
    destruct Hk. apply elem_fst. by exists v.
  - rewrite <- (IH Hnd). split; [intros [[=]|?]; congruence || done | by right].
Qed.

(** The requests that an order matches. *)
Definition matching (s : t) (o : SRAOrder) : list string :=
  fst <$> bfilter (λ e, _matchesOrdersChannelSubscription (order o) e.2) (_requestIdToSubscriptionOpts s).

Lemma requestIdsOf_spec o subs ids :
  NoDup subs.*1 → (∀ r, r ∈ ids → r ∉ subs.*1) →
  let matched := fst <$> bfilter (λ e, _matchesOrdersChannelSubscription o e.2) subs in
  requestIdsOf o subs ids =
    if existsb (includes OBJECT_PROTOTYPE) matched then Throw TypeError else Ok (ids ++ matched).
Proof.
  revert ids. induction subs as [|[r opts] subs IH]; intros ids Hnd Hids; cbn [requestIdsOf bfilter fst snd].
  { simpl. by rewrite app_nil_r. }
  rewrite fmap_cons in Hnd. apply NoDup_cons in Hnd as [Hr Hnd]. cbn [fst] in Hr.
  assert (∀ r', r' ∈ ids → r' ∉ subs.*1) as Hids'.
  { intros r' H' H. apply (Hids r' H'). rewrite fmap_cons. by right. }
  destruct (_matchesOrdersChannelSubscription o opts); [|by apply IH].
  assert (includes ids r = false) as ->.
  { apply includes_false. intros H. apply (Hids r H). rewrite fmap_cons. by left. }
  rewrite fmap_cons. cbn [fst existsb]. destruct (includes OBJECT_PROTOTYPE r); [done|]. cbn [orb].
  rewrite IH; [by rewrite <- app_assoc | done |].
  intros r' [H|H%list_elem_of_singleton]%elem_of_app; [by apply Hids' | by subst].
Qed.

Lemma bfilter_negb_perm {A} (p : A → bool) l : bfilter p l ++ bfilter (λ x, negb (p x)) l ≡ₚ l.
Proof.
  induction l as [|x l IH]; [done|]. cbn [bfilter]. destruct (p x); cbn [negb]; [by simpl; rewrite IH|].
  by rewrite <- Permutation_middle, IH.
Qed.

Lemma entryKeys_perm keys : entryKeys keys ≡ₚ keys.
Proof. unfold entryKeys. by rewrite sort_perm, bfilter_negb_perm. Qed.

(** The update of an order by an open request. *)
Definition update_of (s : t) (o : SRAOrder) (r : string) : option Output :=
  (λ ws, SendUpdate ws r o) <$> assoc_get (_requestIdToSocket s) r.

Lemma sendOrder_spec s o :
  NoDup (_requestIdToSubscriptionOpts s).*1 →
  if existsb (includes OBJECT_PROTOTYPE) (matching s o) then sendOrder s o = Throw TypeError
  else ∃ out, sendOrder s o = Ok out ∧ out ≡ₚ omap (update_of s o) (matching s o).
Proof.
  intros Hnd. unfold sendOrder. rewrite (requestIdsOf_spec (order o) _ [] Hnd); [|by intros r ?%elem_of_nil].
  fold (matching s o). destruct (existsb _ _); [done|]. eexists. split; [reflexivity|].
  apply omap_Permutation, entryKeys_perm.
Qed.

Lemma matching_NoDup s o : NoDup (_requestIdToSubscriptionOpts s).*1 → NoDup (matching s o).
Proof. intros H. eapply sublist_NoDup; [exact H | apply (fmap_sublist fst), bfilter_sublist]. Qed.

Lemma updates_NoDup s o l : NoDup l → NoDup (omap (update_of s o) l).
Proof.
  induction 1 as [|r l Hr _ IH]; [constructor|]. cbn [omap list_omap].
  destruct (update_of s o r) as [x|] eqn:E; [|done]. constructor; [|done].
  intros (r' & Hr' & E')%list_elem_of_omap. unfold update_of in E, E'.
  destruct (assoc_get _ r) as [ws|]; [|done]. destruct (assoc_get _ r') as [ws'|]; [|done].
  injection E as <-. injection E' as _ ->. done.
Qed.

(** Without open sockets there are no requests either. *)
Lemma orderUpdate_one s o :
  wf s →
  orderUpdate s [o] = match sendOrder s o with Ok out => (out, Ok tt) | Throw e => ([], Throw e) end.
Proof.
  intros [_ Hr Hk Ho]. unfold orderUpdate. destruct (clients s) as [|c l] eqn:Ec.
  - unfold sendOrder. destruct (_requestIdToSubscriptionOpts s) as [|[r opts] m] eqn:Es; [done|].
    exfalso. assert (r ∈ (_requestIdToSocket s).*1) as (ws & Hin)%elem_fst by (rewrite <- Hk; by left).
    apply (assoc_get_elem _ _ _ Hr) in Hin. destruct (Ho _ _ Hin) as (w & Hw & _). by apply elem_of_nil in Hw.
  - cbn [sendOrders]. destruct (sendOrder s o); cbn; [by rewrite app_nil_r | done].
Qed.

(** C39. The updates of an order: one for every request whose subscription matches
    it, to the open socket that made the request, and nothing else; unless a
    matching request is named like an inherited member of objects
    ([constructor], for instance): then the update throws, and no subscriber
    gets it. *)
Theorem updates_reach_subscribers s o :
  reachable s →
  let subscribed r := ∃ opts, (r, opts) ∈ _requestIdToSubscriptionOpts s ∧
    _matchesOrdersChannelSubscription (order o) opts = true in
  let '(out, outcome) := orderUpdate s [o] in
  ((∃ r, subscribed r ∧ r ∈ OBJECT_PROTOTYPE) ∧ out = [] ∧ outcome = Throw TypeError) ∨
  ((∀ r, subscribed r → r ∉ OBJECT_PROTOTYPE) ∧ outcome = Ok tt ∧ NoDup out ∧
   Forall (λ x, ∃ ws r w, x = SendUpdate ws r o ∧ subscribed r ∧ (ws, w) ∈ clients s ∧ r ∈ requestIds w) out ∧
   (∀ r, subscribed r → ∃ ws, SendUpdate ws r o ∈ out)).
Proof.
  intros Hwf%reachable_wf subscribed. rewrite (orderUpdate_one s o Hwf). destruct Hwf as [Hc Hr Hk Ho].
  assert (NoDup (_requestIdToSubscriptionOpts s).*1) as Hnd by (by rewrite Hk).
  assert (∀ r, r ∈ matching s o ↔ subscribed r) as Hm.
  { intros r. unfold matching, subscribed. rewrite elem_fst. by setoid_rewrite elem_of_bfilter. }
  pose proof (sendOrder_spec s o Hnd) as H. destruct (existsb _ (matching s o)) eqn:Ex.
  - rewrite H. left. split; [|done]. apply existsb_exists in Ex as (r & Hin%list_elem_of_In & Hp%includes_true).
    exists r. split; [by apply Hm | done].
  - destruct H as (out & -> & Hp). right. split_and!; [| done | | |].
    + intros r Hs%Hm Hin%includes_true. apply not_true_iff_false in Ex. apply Ex, existsb_exists.
      exists r. by rewrite <- list_elem_of_In.
    + rewrite Hp. by apply updates_NoDup, matching_NoDup.
    + apply Forall_forall. intros x. rewrite Hp. intros (r & Hin%Hm & E)%list_elem_of_omap.
      unfold update_of in E. destruct (assoc_get _ r) as [ws|] eqn:Es; [|done]. injection E as <-.
      destruct (Ho _ _ Es) as (w & ? & ?). by exists ws, r, w.
    + intros r Hs. destruct (Hs) as (opts & Hin & _).
      assert (r ∈ (_requestIdToSocket s).*1) as (ws & Hws)%elem_fst
        by (rewrite <- Hk; apply elem_fst; by exists opts).
      apply (assoc_get_elem _ _ _ Hr) in Hws. exists ws. rewrite Hp. apply list_elem_of_omap.
      exists r. split; [by apply Hm|]. unfold update_of. by rewrite Hws.
Qed.

(** ** Requests that are taken over *)

Lemma map_delete_none {V} (m : list (string * V)) k : assoc_get (map_delete m k) k = None.
Proof. destruct (assoc_get (map_delete m k) k) eqn:E; [|done]. by apply map_delete_get in E as [? _]. Qed.

Lemma deleted_none {V} ids (m : list (string * V)) r :
  r ∈ ids → assoc_get (fold_left map_delete ids m) r = None.
Proof.
  intros Hr. destruct (assoc_get _ _) eqn:E; [|done]. by apply deleted_get in E as [? _].
Qed.

Lemma subscribed ws (s : t) (m : OrderChannelRequest) :
  wf s → ws ∈ (clients s).*1 → validateSchema m = Ok tt → req_type m = "subscribe"%string →
  ∃ s', handle s (Message ws (Some m)) = (s', []) ∧ (clients s').*1 = (clients s).*1 ∧
    (∃ w, (ws, w) ∈ clients s' ∧ requestId m ∈ requestIds w) ∧
    (∀ ws' w r, (ws', w) ∈ clients s → r ∈ requestIds w →
       ∃ w', (ws', w') ∈ clients s' ∧ r ∈ requestIds w').
Proof.
  intros Hwf Hws Hv Ht. simpl. unfold _messageHandler, _processMessage. rewrite Hv, Ht. simpl.
  eexists. split; [reflexivity|]. cbn [clients].
  set (f := λ w, {| isAlive := isAlive w;
    requestIds := if includes (requestIds w) (requestId m) then requestIds w else requestIds w ++ [requestId m] |}).
  assert (∀ w, requestIds w ⊆ requestIds (f w) ∧ requestId m ∈ requestIds (f w)) as Hf.
  { intros w. unfold f. simpl. destruct (includes _ _) eqn:E; [apply includes_true in E|]; set_solver. }
  split; [apply (on_socket_clients s ws f)|]. split.
  - apply elem_fst in Hws as [w Hw].
    destruct (on_socket_open s ws f ws w (λ w, proj1 (Hf w)) Hw) as (w' & Hin & _ & E).
    exists w'. split; [exact Hin|]. rewrite (E eq_refl). apply Hf.
  - intros ws' w r Hin Hr.
    destruct (on_socket_open s ws f ws' w (λ w, proj1 (Hf w)) Hin) as (w' & Hin' & Hsub & _).
    exists w'. split; [exact Hin'|]. by apply Hsub.
Qed.

(** A client whose request id was used by another one loses its subscription
    when the other one leaves: it stays connected, and no update of its request
    is sent any more. *)
Theorem taken_over_request_is_dropped s a b m m' o :
  reachable s → a ≠ b → a ∈ (clients s).*1 → b ∈ (clients s).*1 →
  validateSchema m = Ok tt → validateSchema m' = Ok tt →
  req_type m = "subscribe"%string → req_type m' = "subscribe"%string → requestId m = requestId m' →
  ∃ s', run s [Message a (Some m); Message b (Some m'); Close a] s' ∧
    (∃ w, (b, w) ∈ clients s' ∧ requestId m' ∈ requestIds w) ∧
    ∀ ws, SendUpdate ws (requestId m') o ∉ (orderUpdate s' [o]).1.
Proof.
  intros Hs%reachable_wf Hab Ha Hb Hm Hm' Ht Ht' Hid.
  destruct (subscribed a s m Hs Ha Hm Ht) as (s1 & E1 & C1 & Wa & _).
  assert (wf s1) as Hs1.
  { pose proof (wf_handle s (Message a (Some m)) Hs Ha) as H. by rewrite E1 in H. }
  assert (b ∈ (clients s1).*1) as Hb1 by (by rewrite C1).
  destruct (subscribed b s1 m' Hs1 Hb1 Hm' Ht') as (s2 & E2 & C2 & Wb & Keep).
  assert (wf s2) as Hs2.
  { pose proof (wf_handle s1 (Message b (Some m')) Hs1 Hb1) as H.
    by rewrite E2 in H. }
  assert (a ∈ (clients s2).*1) as Ha2 by (by rewrite C2, C1).
  exists (_closeHandler s2 a). split; [|split].
  - apply RunCons; [exact Ha|]. rewrite E1. cbn [fst].
    apply RunCons; [exact Hb1|]. rewrite E2. cbn [fst]. apply RunCons; [exact Ha2|]. constructor.
  - destruct Wb as (w & Hin & Hw). exists w. split; [|done]. simpl. apply elem_of_bfilter. split; [done|].
    simpl. destruct (Nat.eqb_spec b a); [by subst|done].
  - destruct Wa as (wa & Hwa & Hra). destruct (Keep _ _ _ Hwa Hra) as (wa' & Hwa' & Hra').
    intros ws Hout. rewrite orderUpdate_one in Hout by (by apply wf_close).
    pose proof (wf_close s2 a Hs2) as [_ Hr' Hk' _].
    pose proof (sendOrder_spec (_closeHandler s2 a) o ltac:(by rewrite Hk')) as Hsend.
    destruct (existsb _ _); [rewrite Hsend in Hout; by apply elem_of_nil in Hout|].
    destruct Hsend as (out & E & Hp). rewrite E in Hout. cbn [fst] in Hout. rewrite Hp in Hout.
    apply list_elem_of_omap in Hout as (r & _ & Hget). unfold update_of in Hget. simpl in Hget.
    rewrite (socket_elem _ _ _ (wf_clients _ Hs2) Hwa') in Hget. simpl in Hget.
    destruct (assoc_get _ r) eqn:Eg; [|done]. injection Hget as _ Hid'.
    rewrite Hid', <- Hid, deleted_none in Eg by done. done.
Qed.

(** ** Silent clients *)

Definition about (ws : Socket) (e : Event) : Prop := e = Pong ws ∨ e = Close ws.

Definition silent (ws : Socket) (s : t) : Prop := ∃ w, (ws, w) ∈ clients s ∧ isAlive w = false.

Lemma handle_silent ws s e : enabled s e → ¬ about ws e → silent ws s → silent ws (handle s e).1.
Proof.
  intros He Hn (w & Hin & Ha). unfold about in Hn.
  destruct e as [ws'|ws' m|ws'|ws'| |v]; simpl in *.
  - exists w. split; [|done]. simpl. apply elem_of_app. by left.
  - unfold _messageHandler, _processMessage. destruct m as [m|]; simpl; [|by exists w].
    destruct (validateSchema m); simpl; [|by exists w]. destruct (String.eqb _ _); simpl; [|by exists w].
    unfold silent. cbn [clients on_socket]. setoid_rewrite list_elem_of_fmap.
    destruct (decide (ws = ws')) as [->|Hne].
    + eexists. split; [exists (ws', w); split; [|exact Hin]; simpl; by rewrite Nat.eqb_refl|]. exact Ha.
    + exists w. split; [|done]. exists (ws, w). split; [|done]. simpl. by destruct (Nat.eqb_spec ws ws').
  - exists w. split; [|done]. simpl. apply list_elem_of_fmap. exists (ws, w). split; [|done]. simpl.
    destruct (Nat.eqb_spec ws ws'); [|done]. subst. destruct Hn. by left.
  - exists w. split; [|done]. simpl. apply elem_of_bfilter. split; [done|]. simpl.
    destruct (Nat.eqb_spec ws ws'); [|done]. subst. destruct Hn. by right.
  - exists w. split; [|done]. simpl. apply list_elem_of_fmap. exists (ws, w). split; [|done]. simpl. by rewrite Ha.
  - by exists w.
Qed.

(** C40. A client that does not answer the ping of one sweep is terminated in the
    next one, whatever else happens in between. *)
Theorem silent_clients_terminated s es s' ws :
  ws ∈ (clients s).*1 → run (handle s Tick).1 es s' → Forall (λ e, ¬ about ws e) es →
  Terminate ws ∈ (handle s' Tick).2.
Proof.
  intros (w & Hin)%elem_fst Hrun Hq.
  assert (silent ws (handle s Tick).1) as Hs.
  { exists (swept (ws, w)).2. destruct (swept_spec (ws, w)) as (E1 & _ & E3). split; [|done].
    simpl. apply list_elem_of_fmap. exists (ws, w). split; [|done]. fold (swept (ws, w)).
    simpl in E1. rewrite <- E1 at 1. by destruct (swept (ws, w)). }
  induction Hrun as [s1|s1 e es s' He _ IH].
  - destruct Hs as (v & Hv & Ha). simpl. apply list_elem_of_fmap. exists (ws, v). split; [simpl; by rewrite Ha|done].
  - apply Forall_cons in Hq as [He' Hq]. apply IH; [done|]. by apply handle_silent.
Qed.
End Machine.

(** ** The order handlers *)

Section Handlers.
(** The tokens of [WHITELISTED_TOKENS]; [None] is the wildcard. *)
Variable WHITELISTED_TOKENS : option (list string).

(** The body of a request, as JSON. *)
Record RawLimitOrder : Type := {
  raw_taker : option string;
  raw_feeRecipient : option string;
  raw_pool : option string;
  raw_makerToken : string;
  raw_takerToken : string;
  raw_makerAmount : string;
  raw_takerAmount : string;
  raw_takerTokenFeeAmount : option string;
  raw_maker : string;
  raw_expiry : string;
  raw_salt : string;
  raw_chainId : ChainId;
  raw_verifyingContract : string;
  raw_signature : OrderSignature;
}.

Definition EMPTY_POOL : string := "0x0000000000000000000000000000000000000000000000000000000000000000".

(** The sender is always the null address. *)
Definition unmarshallOrder (raw : RawLimitOrder) : LimitOrder :=
  {| lo_makerToken := raw_makerToken raw; lo_takerToken := raw_takerToken raw;
     lo_makerAmount := bn_of_string (raw_makerAmount raw);
     lo_takerAmount := bn_of_string (raw_takerAmount raw);
     lo_takerTokenFeeAmount :=
       match raw_takerTokenFeeAmount raw with
       | Some fee => if String.eqb fee "" then of_Z 0 else bn_of_string fee
       | None => of_Z 0
       end;
     lo_maker := raw_maker raw; lo_taker := default NULL_ADDRESS (raw_taker raw);
     lo_sender := NULL_ADDRESS; lo_feeRecipient := default NULL_ADDRESS (raw_feeRecipient raw);
     lo_pool := default EMPTY_POOL (raw_pool raw);
     lo_expiry := bn_of_string (raw_expiry raw); lo_salt := bn_of_string (raw_salt raw);
     lo_chainId := raw_chainId raw; lo_verifyingContract := raw_verifyingContract raw;
     lo_signature := raw_signature raw |}.
Definition unmarshallOrders (raws : list RawLimitOrder) : list LimitOrder := unmarshallOrder <$> raws.

Definition validateAssetTokenOrThrow (allowedTokens : list string) (tokenAddress fieldName : string) : result unit :=
  throw_unless (includes allowedTokens tokenAddress)
    (ValidationError [{| field := fieldName; code := ValidationErrorCodes.ValueOutOfRange;
                         reason := tokenAddress +:+ " not supported" |}]).

Definition validateTokens (o : LimitOrder) : result unit :=
  match WHITELISTED_TOKENS with
  | None => Ok tt
  | Some allowedTokens =>
      _ ← validateAssetTokenOrThrow allowedTokens (lo_makerToken o) "makerToken";
      validateAssetTokenOrThrow allowedTokens (lo_takerToken o) "takerToken"
  end.

(** What a handler does, in order: the response, and what is posted. *)
Inductive Effect : Type :=
| RespondOk
| AddOrders (orders : list LimitOrder)
| AddPersistentOrders (orders : list LimitOrder).

(** [add] is the call of the order book, with the effect it stands for. *)
Definition respondAround (skip : bool) (effect : Effect) (add : result unit) : list Effect * result unit :=
  if skip then ([RespondOk; effect], add)
  else match add with
       | Ok _ => ([effect; RespondOk], Ok tt)
       | Throw e => ([effect], Throw e)
       end.

(** The handlers of [postOrder] and [postOrders]; [valid] is the check of the
    body against the schema. *)
Definition postOrdersHandler (valid : result unit) (skipConfirmation : bool) (raws : list RawLimitOrder)
    (post : list LimitOrder → option AxiosError) : list Effect * result unit :=
  let signedOrders := unmarshallOrders raws in
  match _ ← valid; mapM validateTokens signedOrders with
  | Throw e => ([], Throw e)
  | Ok _ => respondAround skipConfirmation (AddOrders signedOrders) (addOrdersAsync post signedOrders)
  end.
Definition postOrderHandler (valid : result unit) (skipConfirmation : bool) (raw : RawLimitOrder)
    (post : list LimitOrder → option AxiosError) : list Effect * result unit :=
  postOrdersHandler valid skipConfirmation [raw] post.

Definition InvalidAPIKeyError : js_error := ApiError "InvalidAPIKeyError".

(** [allowed] is [isAllowedPersistentOrders] of the order book. *)
Definition postPersistentOrderHandler (isValidUUID allowed : string → bool) (valid : result unit)
    (apiKey : option string) (skipConfirmation : bool) (raw : RawLimitOrder)
    (addPersistent : list LimitOrder → result unit) : list Effect * result unit :=
  if match apiKey with Some k => isValidUUID k && allowed k | None => false end then
    let signedOrder := unmarshallOrder raw in
    match _ ← valid; validateTokens signedOrder with
    | Throw e => ([], Throw e)
    | Ok _ => respondAround skipConfirmation (AddPersistentOrders [signedOrder]) (addPersistent [signedOrder])
    end
  else ([], Throw InvalidAPIKeyError).

(** Tokens that the configuration lets be posted. *)
Definition whitelisted (o : LimitOrder) : Prop :=
  ∀ allowed, WHITELISTED_TOKENS = Some allowed → lo_makerToken o ∈ allowed ∧ lo_takerToken o ∈ allowed.

Lemma validateTokens_ok o : validateTokens o = Ok tt ↔ whitelisted o.
Proof.
  unfold validateTokens, whitelisted. destruct WHITELISTED_TOKENS as [allowed|]; [|done].
  unfold validateAssetTokenOrThrow, throw_unless.
  destruct (includes allowed (lo_makerToken o)) eqn:E1; simpl.
  - apply includes_true in E1. destruct (includes allowed (lo_takerToken o)) eqn:E2.
    + apply includes_true in E2. split; [|done]. by intros _ ? [= <-].
    + apply includes_false in E2. split; [done|]. intros H. by destruct (H _ eq_refl) as [_ ?].
  - apply includes_false in E1. split; [done|]. intros H. by destruct (H _ eq_refl) as [? _].
Qed.

Lemma respondAround_elem skip effect add x :
  x ∈ (respondAround skip effect add).1 → x = RespondOk ∨ x = effect.
Proof. unfold respondAround. destruct skip, add; simpl; rewrite ?elem_of_cons, ?elem_of_nil; tauto. Qed.

(** Orders are posted only when the body is valid and every token is
    whitelisted, always from the null sender; the success is answered after
    posting, and before it only when the client skips the confirmation. *)
Theorem posted_orders_whitelisted valid skip raws post :
  let r := postOrdersHandler valid skip raws post in
  let orders := unmarshallOrders raws in
  Forall (λ o, lo_sender o = NULL_ADDRESS) orders ∧
  (AddOrders orders ∈ r.1 ↔ valid = Ok tt ∧ Forall whitelisted orders) ∧
  (∀ orders', AddOrders orders' ∈ r.1 → orders' = orders) ∧
  (r.2 = Ok tt → AddOrders orders ∈ r.1 ∧ RespondOk ∈ r.1 ∧ post orders = None) ∧
  (RespondOk ∈ r.1 → skip = true ∨ r.2 = Ok tt).
Proof.
  intros r orders. split; [by apply Forall_fmap, Forall_true|].
  assert (is_ok (_ ← valid; mapM validateTokens orders) = true ↔ valid = Ok tt ∧ Forall whitelisted orders) as Hv.
  { destruct valid as [[]|e]; simpl; [|split; [done|by intros []]]. split.
    - intros H. split; [done|]. destruct (mapM validateTokens orders) as [us|] eqn:E; [|done].
      apply mapM_ok in E. apply Forall_forall. intros o Ho.
      destruct (Forall2_elem_l _ _ _ _ E Ho) as ([] & _ & H'). by apply validateTokens_ok.
    - intros [_ H]. rewrite (mapM_total _ (λ _, tt)); [done|].
      eapply Forall_impl; [exact H|]. intros o. apply validateTokens_ok. }
  unfold r, postOrdersHandler. fold orders. destruct (_ ← valid; mapM validateTokens orders) as [us|e]; simpl in Hv |- *.
  - assert (addOrdersAsync post orders = Ok tt → post orders = None) as Hp.
    { unfold addOrdersAsync, postOrdersAsync. by destruct (post orders) as [[[[|]|] []]|]. }
    unfold respondAround. destruct skip, (addOrdersAsync post orders) as [[]|e] eqn:E; simpl;
      rewrite ?elem_of_cons, ?elem_of_nil; split_and!; try (by intuition); try (by intros; intuition).
    all: intros orders' H; rewrite ?elem_of_cons, ?elem_of_nil in H; repeat destruct H as [H|H]; (done || by injection H).
  - rewrite !elem_of_nil. split_and!; try done; [|by intros ? ?%elem_of_nil].
    split; [done|]. intros H. by apply Hv in H.
Qed.

(** Persistent orders also need a key that is a UUID and whitelisted. *)
Theorem persistent_orders_need_key isValidUUID allowed valid apiKey skip raw add :
  let r := postPersistentOrderHandler isValidUUID allowed valid apiKey skip raw add in
  (∀ orders, AddPersistentOrders orders ∈ r.1 →
     (∃ k, apiKey = Some k ∧ isValidUUID k = true ∧ allowed k = true) ∧ valid = Ok tt ∧
     orders = [unmarshallOrder raw] ∧ whitelisted (unmarshallOrder raw)).
Proof.
  intros r orders. unfold r, postPersistentOrderHandler.
  destruct apiKey as [k|]; [|by intros ?%elem_of_nil].
  destruct (isValidUUID k) eqn:E1; [|by intros ?%elem_of_nil].
  destruct (allowed k) eqn:E2; [|by intros ?%elem_of_nil]. cbn [andb].
  destruct valid as [[]|e]; simpl; [|by intros ?%elem_of_nil].
  destruct (validateTokens _) as [[]|e] eqn:E3; [|by intros ?%elem_of_nil]. intros H.
  split; [by exists k|]. split; [done|]. split; [|by apply validateTokens_ok].
  apply respondAround_elem in H as [H|H]; [done | by injection H].
Qed.
End Handlers.
End OrderFeed.

Module FeedExamples.
Import Concrete OrderbookExamples.

Definition accept (_ : OrderChannelRequest) : result unit := Ok tt.
Definition no_events (_ : string) : option OrderWatcherEvent := None.
Definition subscribe (makerToken : option string) : OrderChannelRequest :=
  {| requestId := "r"; req_type := "subscribe";
     payload := Some {| sub_makerToken := makerToken; sub_takerToken := None |} |}.

(** Two clients, the first of which subscribes to the orders of a token. *)
Definition connected : t := (handle accept no_events (handle accept no_events new (Connect 0%nat)).1 (Connect 1%nat)).1.
Definition subscribed_one : t :=
  (handle accept no_events connected (Message 0%nat (Some (subscribe (Some "0xQUOTE"%string))))).1.

Lemma connected_reachable : reachable accept no_events connected.
Proof.
  exists [Connect 0%nat; Connect 1%nat]. apply RunCons; [apply not_elem_of_nil|].
  apply RunCons; [vm_compute; intros H; by inversion H as [|? ? ? H']; inversion H'|]. constructor.
Qed.

Lemma subscribed_reachable : reachable accept no_events subscribed_one.
Proof.
  exists [Connect 0%nat; Connect 1%nat; Message 0%nat (Some (subscribe (Some "0xQUOTE"%string)))].
  apply RunCons; [apply not_elem_of_nil|].
  apply RunCons; [vm_compute; intros H; by inversion H as [|? ? ? H']; inversion H'|].
  apply RunCons; [by left|]. constructor.
Qed.
End FeedExamples.
Import Concrete OrderbookExamples FeedExamples.

Lemma updates_reach_subscribers_witness :
  ∃ ws, SendUpdate ws "r" ex_order ∈ (orderUpdate subscribed_one [ex_order]).1 ∧
    (orderUpdate subscribed_one [ex_order]).2 = Ok tt.
Proof.
  pose proof (updates_reach_subscribers accept no_events subscribed_one ex_order subscribed_reachable) as H.
  destruct (orderUpdate subscribed_one [ex_order]) as [out outcome].
  assert ("r"%string ∉ OBJECT_PROTOTYPE) as Hr by by apply (bool_decide_eq_true_1 _).
  destruct H as [[(r & (opts & Hin%list_elem_of_singleton & _) & Hp) _]|(_ & Hok & _ & _ & H)].
  - injection Hin as -> _. by destruct Hr.
  - destruct (H "r"%string) as [ws Hws]; [by eexists; split; [by left | reflexivity]|].
    exists ws. split; [exact Hws | exact Hok].
Defined.

(** A client that names its request [constructor] silences every one. *)
Example inherited_name_silences :
  let s := (handle accept no_events subscribed_one (Message 1%nat (Some
    {| requestId := "constructor"; req_type := "subscribe"; payload := None |}))).1 in
  orderUpdate s [ex_order] = ([], Throw TypeError).
Proof. reflexivity. Qed.

Lemma taken_over_request_is_dropped_witness :
  ∃ s', run accept no_events connected
    [Message 0%nat (Some (subscribe None)); Message 1%nat (Some (subscribe None)); Close 0%nat] s' ∧
    ∀ ws, SendUpdate ws "r" ex_order ∉ (orderUpdate s' [ex_order]).1.
Proof.
  destruct (taken_over_request_is_dropped accept no_events connected 0%nat 1%nat (subscribe None) (subscribe None)
    ex_order connected_reachable) as (s' & Hr & _ & H); try reflexivity; [done | by left | by right; left |].
  exists s'. split; [exact Hr | exact H].
Defined.

Lemma silent_clients_terminated_witness :
  Terminate 1%nat ∈ (handle accept no_events
    (handle accept no_events (handle accept no_events connected Tick).1 (Pong 0%nat)).1 Tick).2.
Proof.
  apply (silent_clients_terminated accept no_events connected [Pong 0%nat]).
  - by right; left.
  - apply RunCons; [by left|]. constructor.
  - constructor; [by intros [[=]|]|constructor].
Defined.
