(* ===== verification/TransformERC20.v ===== *)
(** * The transformer route of a quote

    [quote_consumers/quote_consumer_utils.ts], [feature_rules/abstract_feature_rule.ts]
    and [feature_rules/transform_erc20_rule.ts]: which features of the exchange
    proxy a quote is compatible with, the data of the FillQuoteTransformer, and
    the calldata of [transformERC20], the most general way to settle a quote. *)

From S2P Require Import Prelude JsNumber BigNum Types Fills Orders Constants PathModel Simulation QuoteInfo QuoteReport Quotes.

Section Consumer.
Context {B : BigNumberLib}.

(** ** Calldata

    A call is kept as the method and the structured arguments handed to it; the
    encoders of [protocol-utils] and the ABI encoding of the contract wrapper
    are the parameter [encode_call] of [calldataHexString]. *)

Inductive FillQuoteTransformerSide : Type := FQT_Sell | FQT_Buy.

Record FQTBridgeOrder : Type := {
  fb_source : string;
  fb_takerTokenAmount : BN;
  fb_makerTokenAmount : BN;
  fb_bridgeData : string;
}.

Record FQTNativeOrder : Type := {
  fn_order : OrderFields;
  fn_signature : Signature;
  fn_maxTakerTokenFillAmount : BN;
}.

Record FQTOrders : Type := {
  fq_bridgeOrders : list FQTBridgeOrder;
  fq_limitOrders : list FQTNativeOrder;
  fq_rfqOrders : list FQTNativeOrder;
  fq_otcOrders : list FQTNativeOrder;
  fq_fillSequence : list FillQuoteTransformerOrderType;
}.

Record TokenFee : Type := { tf_token : string; tf_amount : BN; tf_recipient : string }.

Inductive TransformerData : Type :=
| AffiliateFeeData (fees : list TokenFee)
| WethData (token : string) (amount : BN)
| FillQuoteData (side : FillQuoteTransformerSide) (sellToken buyToken : string)
    (orders : FQTOrders) (refundReceiver : string) (fillAmount : BN)
| PositiveSlippageFeeData (token : string) (bestCaseAmount : BN) (recipient : string)
| PayTakerData (tokens : list string) (amounts : list BN).

Record TransformerNonces : Type := {
  wethTransformer : Z;
  payTakerTransformer : Z;
  fillQuoteTransformer : Z;
  affiliateFeeTransformer : Z;
  positiveSlippageFeeTransformer : Z;
}.

Record ERC20Transformation : Type := { deploymentNonce : Z; tr_data : TransformerData }.

Record CurveLiquidityProviderData : Type := {
  curveAddress : string;
  exchangeFunctionSelector : string;
  fromCoinIdx : BN;
  toCoinIdx : BN;
}.

(** [MultiplexSubcall] with the data of a subcall. *)
Inductive SubcallData : Type :=
| SubRfq (order : OrderFields) (signature : Signature)
| SubOtc (order : OrderFields) (signature : Signature)
| SubUniswapV2 (tokens : list string) (isSushi : bool)
| SubUniswapV3 (path : string)
| SubTransformERC20 (transformations : list ERC20Transformation).

(** A subcall of a batch fill; those of a multi-hop have no amount. *)
Record BatchSubcall : Type := { sub_sellAmount : BN; sub_data : SubcallData }.

(** The methods of [IZeroExContract] the consumer calls. *)
Inductive ProxyCall : Type :=
| transformERC20 (inputToken outputToken : string) (inputTokenAmount minOutputTokenAmount : BN)
    (transformations : list ERC20Transformation)
| sellToUniswap (tokens : list string) (sellAmount minBuyAmount : BN) (isSushi : bool)
| sellEthForTokenToUniswapV3 (path : string) (minBuyAmount : BN) (recipient : string)
| sellTokenForEthToUniswapV3 (path : string) (sellAmount minBuyAmount : BN) (recipient : string)
| sellTokenForTokenToUniswapV3 (path : string) (sellAmount minBuyAmount : BN) (recipient : string)
| sellToPancakeSwap (tokens : list string) (sellAmount minBuyAmount : BN) (fork : Z)
| sellToLiquidityProvider (inputToken outputToken provider recipient : string)
    (sellAmount minBuyAmount : BN) (auxiliaryData : CurveLiquidityProviderData)
| fillRfqOrder (order : OrderFields) (signature : Signature) (takerTokenFillAmount : BN)
| batchFillRfqOrders (orders : list OrderFields) (signatures : list Signature)
    (takerTokenFillAmounts : list BN) (revertIfIncomplete : bool)
| fillOtcOrderWithEth (order : OrderFields) (signature : Signature)
| fillOtcOrderForEth (order : OrderFields) (signature : Signature) (takerTokenFillAmount : BN)
| fillOtcOrder (order : OrderFields) (signature : Signature) (takerTokenFillAmount : BN)
| multiplexBatchSellEthForToken (outputToken : string) (calls : list BatchSubcall) (minBuyAmount : BN)
| multiplexBatchSellTokenForEth (inputToken : string) (calls : list BatchSubcall)
    (sellAmount minBuyAmount : BN)
| multiplexBatchSellTokenForToken (inputToken outputToken : string) (calls : list BatchSubcall)
    (sellAmount minBuyAmount : BN)
| multiplexMultiHopSellEthForToken (tokens : list string) (calls : list SubcallData) (minBuyAmount : BN)
| multiplexMultiHopSellTokenForEth (tokens : list string) (calls : list SubcallData)
    (sellAmount minBuyAmount : BN)
| multiplexMultiHopSellTokenForToken (tokens : list string) (calls : list SubcallData)
    (sellAmount minBuyAmount : BN).

Record CalldataInfo : Type := {
  call : ProxyCall;
  ethAmount : BN;
  toAddress : string;
  allowanceTarget : string;
  gasOverhead : BN;
}.

Definition calldataHexString (encode_call : ProxyCall → string) (info : CalldataInfo) : string :=
  encode_call (call info).

(** ** [quote_consumer_utils.ts] *)

Definition requiresTransformERC20 (opts : ExchangeProxyContractOpts) : bool :=
  bool_decide (metaTransactionVersion opts ≠ None) ||
  existsb (λ f, gt (buyTokenFeeAmount f) (of_Z 0) || gt (sellTokenFeeAmount f) (of_Z 0))
    (sellTokenAffiliateFees opts ++ buyTokenAffiliateFees opts) ||
  shouldSellEntireBalance opts.

Definition MULTIPLEX_BATCH_FILL_SOURCES : list ERC20BridgeSource :=
  [ERC20BridgeSource.UniswapV2; ERC20BridgeSource.SushiSwap; ERC20BridgeSource.Native;
   ERC20BridgeSource.UniswapV3].
Definition MULTIPLEX_MULTIHOP_FILL_SOURCES : list ERC20BridgeSource :=
  [ERC20BridgeSource.UniswapV2; ERC20BridgeSource.SushiSwap; ERC20BridgeSource.UniswapV3].

Definition isMultiplexBatchFillCompatible {P} `{!IPath P} (quote : SwapQuote P)
    (opts : ExchangeProxyContractOpts) : bool :=
  if requiresTransformERC20 opts then false
  else if hasTwoHop (path quote) then false
  else if includes (opt_type <$> getOrders (path quote)) FillQuoteTransformerOrderType.Limit
  then false
  else forallb (λ source, includes MULTIPLEX_BATCH_FILL_SOURCES source)
         (opt_source <$> getOrders (path quote)).

Definition isMultiplexMultiHopFillCompatible {P} `{!IPath P} (path : P)
    (opts : ExchangeProxyContractOpts) : bool :=
  if requiresTransformERC20 opts then false
  else
    let byType := getOrdersByType path in
    if negb (length (bridgeOrders byType) =? 0)%nat || negb (length (nativeOrders byType) =? 0)%nat
    then false
    else match twoHopOrders byType with
         | [o] => includes MULTIPLEX_MULTIHOP_FILL_SOURCES (opt_source (firstHopOrder o)) &&
                  includes MULTIPLEX_MULTIHOP_FILL_SOURCES (opt_source (secondHopOrder o))
         | _ => false
         end.

Definition isDirectSwapCompatible {P} `{!IPath P} (path : P) (opts : ExchangeProxyContractOpts)
    (directSources : list ERC20BridgeSource) : bool :=
  if requiresTransformERC20 opts then false
  else match getOrders path with
       | [order] => includes directSources (opt_source order)
       | _ => false
       end.

Definition getMaxQuoteSlippageRate {P} (quote : SwapQuote P) : number :=
  slippage (quote_worstCase quote).

Definition isBuyQuote {P} (quote : SwapQuote P) : bool :=
  match quote_type quote with MarketBuy _ => true | MarketSell _ => false end.

(** [encodeBridgeSourceId] and the ABI encoder of [orders.ts]. *)
Variable encodeBridgeSourceId : BridgeProtocol → string → string.
Variable abi_encode : list AbiType.t → list AbiValue → string.

(** [order.fillData.order] and [order.fillData.signature]: encoding them when
    they are undefined throws. *)
Definition nativeOrderOf (o : OptimizedOrder) : result FQTNativeOrder :=
  match opt_fillData o with
  | FDNative n => Ok {| fn_order := native_order n; fn_signature := native_signature n;
                        fn_maxTakerTokenFillAmount := opt_takerAmount o |}
  | _ => Throw TypeError
  end.

Definition emptyFQTOrders : FQTOrders :=
  {| fq_bridgeOrders := []; fq_limitOrders := []; fq_rfqOrders := []; fq_otcOrders := [];
     fq_fillSequence := [] |}.

(** One iteration of the loop over the orders: a push on one of the lists and
    on the fill sequence. *)
Definition addFQTOrder (d : FQTOrders) (o : OptimizedOrder) : result FQTOrders :=
  match opt_type o with
  | FillQuoteTransformerOrderType.Bridge =>
      bridgeData ← createBridgeDataForBridgeOrder abi_encode o;
      source ← getErc20BridgeSourceToBridgeSource encodeBridgeSourceId (opt_source o);
      mret {| fq_bridgeOrders := fq_bridgeOrders d ++
                [{| fb_bridgeData := bridgeData; fb_makerTokenAmount := opt_makerAmount o;
                    fb_takerTokenAmount := opt_takerAmount o; fb_source := source |}];
              fq_limitOrders := fq_limitOrders d; fq_rfqOrders := fq_rfqOrders d;
              fq_otcOrders := fq_otcOrders d;
              fq_fillSequence := fq_fillSequence d ++ [opt_type o] |}
  | FillQuoteTransformerOrderType.Limit =>
      n ← nativeOrderOf o;
      mret {| fq_bridgeOrders := fq_bridgeOrders d; fq_limitOrders := fq_limitOrders d ++ [n];
              fq_rfqOrders := fq_rfqOrders d; fq_otcOrders := fq_otcOrders d;
              fq_fillSequence := fq_fillSequence d ++ [opt_type o] |}
  | FillQuoteTransformerOrderType.Rfq =>
      n ← nativeOrderOf o;
      mret {| fq_bridgeOrders := fq_bridgeOrders d; fq_limitOrders := fq_limitOrders d;
              fq_rfqOrders := fq_rfqOrders d ++ [n]; fq_otcOrders := fq_otcOrders d;
              fq_fillSequence := fq_fillSequence d ++ [opt_type o] |}
  | FillQuoteTransformerOrderType.Otc =>
      n ← nativeOrderOf o;
      mret {| fq_bridgeOrders := fq_bridgeOrders d; fq_limitOrders := fq_limitOrders d;
              fq_rfqOrders := fq_rfqOrders d; fq_otcOrders := fq_otcOrders d ++ [n];
              fq_fillSequence := fq_fillSequence d ++ [opt_type o] |}
  end.

Fixpoint addFQTOrders (d : FQTOrders) (orders : list OptimizedOrder) : result FQTOrders :=
  match orders with
  | [] => Ok d
  | o :: orders' => d' ← addFQTOrder d o; addFQTOrders d' orders'
  end.

Definition getFQTTransformerDataFromOptimizedOrders (orders : list OptimizedOrder)
    : result FQTOrders :=
  addFQTOrders emptyFQTOrders orders.

(** ** [AbstractFeatureRule] *)

Record SwapContext : Type := {
  sc_sellToken : string;
  sc_buyToken : string;
  sc_sellAmount : BN;
  sc_minBuyAmount : BN;
  sc_ethAmount : BN;
  sc_maxSlippage : number;
}.

(** [BigNumber.max(bestCaseQuoteInfo.totalTakerAmount, worstCaseQuoteInfo.totalTakerAmount)]. *)
Definition quote_sellAmount {P} (quote : SwapQuote P) : BN :=
  max2 (totalTakerAmount (quote_bestCase quote)) (totalTakerAmount (quote_worstCase quote)).

Definition getSwapContext {P} (quote : SwapQuote P) (opts : ExchangeProxyContractOpts)
    : SwapContext :=
  let sellAmount := quote_sellAmount quote in
  {| sc_sellToken := takerToken quote;
     sc_buyToken := makerToken quote;
     sc_sellAmount := sellAmount;
     sc_minBuyAmount := makerAmount (quote_worstCase quote);
     sc_ethAmount := plus (protocolFeeInWeiAmount (quote_worstCase quote))
                       (if isFromETH opts then sellAmount else of_Z 0);
     sc_maxSlippage := getMaxQuoteSlippageRate quote |}.

(** ** [TransformERC20Rule] *)

(** The chain, the exchange proxy, the transformer nonces, and the addresses of
    the ether token and of [NATIVE_FEE_TOKEN_BY_CHAIN_ID]. *)
Record Deployment : Type := {
  chainId : ChainId;
  exchangeProxy : string;
  transformerNonces : TransformerNonces;
  etherToken : string;
  nativeFeeToken : string;
  ETH_TOKEN_ADDRESS : string;
}.

Definition POSITIVE_SLIPPAGE_FEE_TRANSFORMER_GAS : BN := of_Z 30000.

Section Rule.
Context {P : Type} `{!IPath P}.
Variable this : Deployment.

(** [refundReceiver || NULL_ADDRESS]. *)
Definition refundReceiverOr (receiver : string) : string :=
  if String.eqb receiver "" then NULL_ADDRESS else receiver.

(** [!isBuyQuote(quote) && shouldSellEntireBalance ? MAX_UINT256 : amount]. *)
Definition fillAmountOrAll (quote : SwapQuote P) (opts : ExchangeProxyContractOpts) (amount : BN)
    : BN :=
  if negb (isBuyQuote quote) && shouldSellEntireBalance opts then MAX_UINT256 else amount.

Definition twoHopTransformations (quote : SwapQuote P) (opts : ExchangeProxyContractOpts)
    (o : TwoHopOrder) : result (list ERC20Transformation) :=
  let intermediateToken := opt_makerToken (firstHopOrder o) in
  first ← getFQTTransformerDataFromOptimizedOrders [firstHopOrder o];
  second ← getFQTTransformerDataFromOptimizedOrders [secondHopOrder o];
  mret [{| deploymentNonce := fillQuoteTransformer (transformerNonces this);
           tr_data := FillQuoteData FQT_Sell (takerToken quote) intermediateToken first
             (refundReceiverOr (refundReceiver opts))
             (fillAmountOrAll quote opts (opt_takerAmount (firstHopOrder o))) |};
        {| deploymentNonce := fillQuoteTransformer (transformerNonces this);
           tr_data := FillQuoteData FQT_Sell intermediateToken (makerToken quote) second
             (refundReceiverOr (refundReceiver opts)) MAX_UINT256 |}].

Definition createTwoHopTransformations (quote : SwapQuote P) (opts : ExchangeProxyContractOpts)
    : result (list ERC20Transformation) :=
  slipped ← getSlippedOrdersByType (path quote) (sc_maxSlippage (getSwapContext quote opts));
  pairs ← mapM (twoHopTransformations quote opts) (twoHopOrders slipped);
  mret (concat pairs).

Definition getTwoHopFillAmount (side : MarketOperation) (orders : list TwoHopOrder) : BN :=
  match side with
  | Sell => bn_sum (of_Z 0 :: ((λ o, opt_takerAmount (firstHopOrder o)) <$> orders))
  | Buy => bn_sum (of_Z 0 :: ((λ o, opt_makerAmount (secondHopOrder o)) <$> orders))
  end.

Definition getNonTwoHopFillAmount (quote : SwapQuote P) : BN :=
  let twoHopFillAmount :=
    getTwoHopFillAmount (quote_side (quote_type quote))
      (twoHopOrders (getOrdersByType (path quote))) in
  match quote_type quote with
  | MarketBuy makerTokenFillAmount => minus makerTokenFillAmount twoHopFillAmount
  | MarketSell takerTokenFillAmount => minus takerTokenFillAmount twoHopFillAmount
  end.

Definition createNonTwoHopTransformation (quote : SwapQuote P) (opts : ExchangeProxyContractOpts)
    : result (option ERC20Transformation) :=
  slipped ← getSlippedOrdersByType (path quote) (sc_maxSlippage (getSwapContext quote opts));
  let fillAmount := getNonTwoHopFillAmount quote in
  match nativeOrders slipped ++ bridgeOrders slipped with
  | [] => mret None
  | nonTwoHopOrders =>
      data ← getFQTTransformerDataFromOptimizedOrders nonTwoHopOrders;
      mret (Some
        {| deploymentNonce := fillQuoteTransformer (transformerNonces this);
           tr_data := FillQuoteData (if isBuyQuote quote then FQT_Buy else FQT_Sell)
             (takerToken quote) (makerToken quote) data
             (refundReceiverOr (refundReceiver opts)) (fillAmountOrAll quote opts fillAmount) |})
  end.

Definition createFillQuoteTransformations (quote : SwapQuote P) (opts : ExchangeProxyContractOpts)
    : result (list ERC20Transformation) :=
  twoHop ← createTwoHopTransformations quote opts;
  nonTwoHop ← createNonTwoHopTransformation quote opts;
  mret (twoHop ++ option_list nonTwoHop).

Definition getIntermediateTokens (orders : list TwoHopOrder) : list string :=
  (λ o, opt_makerToken (firstHopOrder o)) <$> orders.

Definition createPayTakerTransformation (quote : SwapQuote P) (opts : ExchangeProxyContractOpts)
    : ERC20Transformation :=
  {| deploymentNonce := payTakerTransformer (transformerNonces this);
     tr_data := PayTakerData
       (takerToken quote :: getIntermediateTokens (twoHopOrders (getOrdersByType (path quote))) ++
        (if isToETH opts then [] else [ETH_TOKEN_ADDRESS this])) [] |}.

(** The sell token fees and the sell amount they leave. *)
Definition sellTokenFeeTransformations (quote : SwapQuote P) (opts : ExchangeProxyContractOpts)
    : list ERC20Transformation :=
  match sellTokenAffiliateFees opts with
  | [] => []
  | fees =>
      [{| deploymentNonce := affiliateFeeTransformer (transformerNonces this);
          tr_data := AffiliateFeeData
            ((λ fee, {| tf_token := if isFromETH opts then ETH_TOKEN_ADDRESS this else takerToken quote;
                        tf_amount := sellTokenFeeAmount fee; tf_recipient := recipient fee |})
             <$> bfilter (λ fee, gt (sellTokenFeeAmount fee) (of_Z 0)) fees) |}]
  end.

Definition adjustedSellAmount (quote : SwapQuote P) (opts : ExchangeProxyContractOpts) : BN :=
  let sellAmount := quote_sellAmount quote in
  match sellTokenAffiliateFees opts, metaTransactionVersion opts with
  | [], _ => sellAmount
  | fees, Some V1 =>
      plus sellAmount (fold_left (λ total fee, plus total (sellTokenFeeAmount fee)) fees (of_Z 0))
  | _, _ => sellAmount
  end.

Definition wrapTransformations (opts : ExchangeProxyContractOpts) (sellAmount : BN)
    : list ERC20Transformation :=
  if isFromETH opts && negb (bool_decide (chainId this = ChainId.Celo)) then
    [{| deploymentNonce := wethTransformer (transformerNonces this);
        tr_data := WethData (ETH_TOKEN_ADDRESS this)
          (if shouldSellEntireBalance opts then MAX_UINT256 else sellAmount) |}]
  else [].

Definition unwrapTransformations (opts : ExchangeProxyContractOpts) : list ERC20Transformation :=
  if isToETH opts && negb (bool_decide (chainId this = ChainId.Celo)) then
    [{| deploymentNonce := wethTransformer (transformerNonces this);
        tr_data := WethData (nativeFeeToken this) MAX_UINT256 |}]
  else [].

(** What the loop over the buy token fees updates. *)
Record FeeState : Type := {
  fs_transformations : list ERC20Transformation;
  fs_gasOverhead : BN;
  fs_minBuyAmount : BN;
}.

Definition bestCaseAmountWithSurplus (quote : SwapQuote P) : BN :=
  let best := makerAmount (quote_bestCase quote) in
  max2 (integerValue ROUND_HALF_UP
          (plus best (times (times POSITIVE_SLIPPAGE_FEE_TRANSFORMER_GAS (quote_gasPrice quote))
                        (makerAmountPerEth quote))))
       best.

(** A percentage or gasless fee: one transfer, taken from the minimum. *)
Definition payBuyTokenFee (quote : SwapQuote P) (opts : ExchangeProxyContractOpts) (s : FeeState)
    (fee : AffiliateFeeAmount) : FeeState :=
  if gt (buyTokenFeeAmount fee) (of_Z 0) then
    {| fs_transformations := fs_transformations s ++
         [{| deploymentNonce := affiliateFeeTransformer (transformerNonces this);
             tr_data := AffiliateFeeData
               [{| tf_token := if isToETH opts then ETH_TOKEN_ADDRESS this else makerToken quote;
                   tf_amount := buyTokenFeeAmount fee; tf_recipient := recipient fee |}] |}];
       fs_gasOverhead := fs_gasOverhead s;
       fs_minBuyAmount := max2 (of_Z 0) (minus (fs_minBuyAmount s) (buyTokenFeeAmount fee)) |}
  else s.

Definition addBuyTokenFee (quote : SwapQuote P) (opts : ExchangeProxyContractOpts) (s : FeeState)
    (fee : AffiliateFeeAmount) : FeeState :=
  if String.eqb (recipient fee) NULL_ADDRESS then s
  else match feeType fee with
  | NoFee => s
  | PositiveSlippageFee =>
      {| fs_transformations := fs_transformations s ++
           [{| deploymentNonce := positiveSlippageFeeTransformer (transformerNonces this);
               tr_data := PositiveSlippageFeeData
                 (if isToETH opts then ETH_TOKEN_ADDRESS this else makerToken quote)
                 (bestCaseAmountWithSurplus quote) (recipient fee) |}];
         fs_gasOverhead := plus POSITIVE_SLIPPAGE_FEE_TRANSFORMER_GAS (fs_gasOverhead s);
         fs_minBuyAmount := fs_minBuyAmount s |}
  | PercentageFee | GaslessFee => payBuyTokenFee quote opts s fee
  end.

Definition buyTokenFees (opts : ExchangeProxyContractOpts) : list AffiliateFeeAmount :=
  buyTokenAffiliateFees opts ++ option_list (positiveSlippageFee opts).

Definition createTransformERC20Calldata (quote : SwapQuote P) (opts : ExchangeProxyContractOpts)
    : result CalldataInfo :=
  let ctx := getSwapContext quote opts in
  let sellAmount := adjustedSellAmount quote opts in
  fqt ← createFillQuoteTransformations quote opts;
  let before :=
    sellTokenFeeTransformations quote opts ++ wrapTransformations opts sellAmount ++
    fqt ++ unwrapTransformations opts in
  let s := fold_left (addBuyTokenFee quote opts) (buyTokenFees opts)
             {| fs_transformations := before; fs_gasOverhead := ZERO_AMOUNT;
                fs_minBuyAmount := sc_minBuyAmount ctx |} in
  let TO_ETH_ADDRESS :=
    if bool_decide (chainId this = ChainId.Celo) then etherToken this else ETH_TOKEN_ADDRESS this in
  mret {| call := transformERC20
            (if isFromETH opts then ETH_TOKEN_ADDRESS this else takerToken quote)
            (if isToETH opts then TO_ETH_ADDRESS else makerToken quote)
            (if shouldSellEntireBalance opts then MAX_UINT256 else sellAmount)
            (fs_minBuyAmount s)
            (fs_transformations s ++ [createPayTakerTransformation quote opts]);
          ethAmount := sc_ethAmount ctx;
          toAddress := exchangeProxy this;
          allowanceTarget := exchangeProxy this;
          gasOverhead := fs_gasOverhead s |}.
End Rule.
End Consumer.

(** ** The data of the FillQuoteTransformer *)

Section FQTFacts.
Context {B : BigNumberLib}.
Variable encodeBridgeSourceId : BridgeProtocol → string → string.
Variable abi_encode : list AbiType.t → list AbiValue → string.

Definition of_type (type : FillQuoteTransformerOrderType) (o : OptimizedOrder) : bool :=
  bool_decide (opt_type o = type).

(** A bridge order of the transformer settles an order of the path. *)
Definition encodes_bridge (o : OptimizedOrder) (b : FQTBridgeOrder) : Prop :=
  createBridgeDataForBridgeOrder abi_encode o = Ok (fb_bridgeData b) ∧
  getErc20BridgeSourceToBridgeSource encodeBridgeSourceId (opt_source o) = Ok (fb_source b) ∧
  fb_makerTokenAmount b = opt_makerAmount o ∧ fb_takerTokenAmount b = opt_takerAmount o.

Record encodes_orders (orders : list OptimizedOrder) (d : FQTOrders) : Prop := {
  eo_sequence : fq_fillSequence d = opt_type <$> orders;
  eo_bridge : Forall2 encodes_bridge
    (bfilter (of_type FillQuoteTransformerOrderType.Bridge) orders) (fq_bridgeOrders d);
  eo_limit : Forall2 (λ o n, nativeOrderOf o = Ok n)
    (bfilter (of_type FillQuoteTransformerOrderType.Limit) orders) (fq_limitOrders d);
  eo_rfq : Forall2 (λ o n, nativeOrderOf o = Ok n)
    (bfilter (of_type FillQuoteTransformerOrderType.Rfq) orders) (fq_rfqOrders d);
  eo_otc : Forall2 (λ o n, nativeOrderOf o = Ok n)
    (bfilter (of_type FillQuoteTransformerOrderType.Otc) orders) (fq_otcOrders d);
}.

Lemma addFQTOrder_encodes orders d o d' :
  encodes_orders orders d → addFQTOrder encodeBridgeSourceId abi_encode d o = Ok d' →
  encodes_orders (orders ++ [o]) d'.
Proof.
  intros [Hs Hb Hl Hr Ho] H. unfold addFQTOrder in H.
  destruct (opt_type o) eqn:Et; ok_inv H; injection H as <-;
    (split; cbn [fq_fillSequence fq_bridgeOrders fq_limitOrders fq_rfqOrders fq_otcOrders];
     [rewrite fmap_app, Hs; cbn; by rewrite Et | ..]);
    rewrite bfilter_app; cbn [bfilter]; unfold of_type; rewrite Et; simpl;
    rewrite ?app_nil_r; try done; apply Forall2_app; try done; repeat constructor; done.
Qed.

Lemma addFQTOrders_encodes orders pre d d' :
  encodes_orders pre d → addFQTOrders encodeBridgeSourceId abi_encode d orders = Ok d' →
  encodes_orders (pre ++ orders) d'.
Proof.
  revert pre d. induction orders as [|o orders IH]; intros pre d Hd H.
  - injection H as <-. by rewrite app_nil_r.
  - simpl in H. ok_inv H. rewrite cons_middle, app_assoc. eapply IH; [|exact H].
    by eapply addFQTOrder_encodes.
Qed.

Lemma fqt_encodes orders d :
  getFQTTransformerDataFromOptimizedOrders encodeBridgeSourceId abi_encode orders = Ok d →
  encodes_orders orders d.
Proof.
  intros H. apply (addFQTOrders_encodes orders [] emptyFQTOrders d); [|exact H].
  split; simpl; done || constructor.
Qed.

(** The FillQuoteTransformer is given every order once: the fill sequence lists
    the types of the orders, and each of the four lists holds the orders of its
    type, in order, with the amounts the order settles. *)
Theorem fqt_orders_complete orders d :
  getFQTTransformerDataFromOptimizedOrders encodeBridgeSourceId abi_encode orders = Ok d →
  encodes_orders orders d ∧
  (length (fq_bridgeOrders d) + length (fq_limitOrders d) + length (fq_rfqOrders d) +
   length (fq_otcOrders d) = length orders)%nat.
Proof.
  intros H%fqt_encodes. split; [exact H|]. destruct H as [_ Hb Hl Hr Ho].
  apply Forall2_length in Hb, Hl, Hr, Ho. rewrite <- Hb, <- Hl, <- Hr, <- Ho. clear.
  induction orders as [|o orders IH]; [done|]. cbn [bfilter]. unfold of_type in *.
  destruct (opt_type o); simpl; lia.
Qed.
End FQTFacts.

(** ** The transformations of a quote *)

Section RuleFacts.
Context {B : BigNumberLib} {P : Type} `{!IPath P}.
Variable encodeBridgeSourceId : BridgeProtocol → string → string.
Variable abi_encode : list AbiType.t → list AbiValue → string.
Variable this : Deployment.
Notation fillQuoteTransformations :=
  (createFillQuoteTransformations encodeBridgeSourceId abi_encode this).

(** The token a transformation sells to the pools, and the tokens the last one
    pays back. *)
Definition sold_token (t : ERC20Transformation) : option string :=
  match tr_data t with FillQuoteData _ sell _ _ _ _ => Some sell | _ => None end.
Definition bought_token (t : ERC20Transformation) : option string :=
  match tr_data t with FillQuoteData _ _ buy _ _ _ => Some buy | _ => None end.
Definition fill_amount (t : ERC20Transformation) : option BN :=
  match tr_data t with FillQuoteData _ _ _ _ _ amount => Some amount | _ => None end.
Definition fill_orders (t : ERC20Transformation) : option FQTOrders :=
  match tr_data t with FillQuoteData _ _ _ orders _ _ => Some orders | _ => None end.

(** The two transformations of a two-hop order and of its slipped form: the
    first sells the taker amount of the first hop for the intermediate token,
    the second sells all of it for the maker token. *)
Inductive hop_pair (quote : SwapQuote P) (opts : ExchangeProxyContractOpts)
    (o o' : TwoHopOrder) : list ERC20Transformation → Prop :=
| hop_pair_intro t1 t2 d1 d2 :
    sold_token t1 = Some (takerToken quote) →
    bought_token t1 = Some (opt_makerToken (firstHopOrder o)) →
    fill_amount t1 = Some (fillAmountOrAll quote opts (opt_takerAmount (firstHopOrder o'))) →
    fill_orders t1 = Some d1 →
    encodes_orders encodeBridgeSourceId abi_encode [firstHopOrder o'] d1 →
    sold_token t2 = Some (opt_makerToken (firstHopOrder o)) →
    bought_token t2 = Some (makerToken quote) →
    fill_amount t2 = Some MAX_UINT256 →
    fill_orders t2 = Some d2 →
    encodes_orders encodeBridgeSourceId abi_encode [secondHopOrder o'] d2 →
    hop_pair quote opts o o' [t1; t2].

Inductive single_hop (quote : SwapQuote P) (opts : ExchangeProxyContractOpts)
    (orders : list OptimizedOrder) : option ERC20Transformation → Prop :=
| single_hop_none : orders = [] → single_hop quote opts orders None
| single_hop_some t d :
    orders ≠ [] →
    sold_token t = Some (takerToken quote) → bought_token t = Some (makerToken quote) →
    fill_amount t = Some (fillAmountOrAll quote opts (getNonTwoHopFillAmount quote)) →
    fill_orders t = Some d → encodes_orders encodeBridgeSourceId abi_encode orders d →
    single_hop quote opts orders (Some t).

Lemma slipped_of_makerToken side o o' : slipped_of side o o' → opt_makerToken o' = opt_makerToken o.
Proof. by destruct side; intros ->. Qed.

Lemma twoHopTransformations_pair quote opts side o o' ts :
  slipped_of side (firstHopOrder o) (firstHopOrder o') →
  twoHopTransformations encodeBridgeSourceId abi_encode this quote opts o' = Ok ts →
  hop_pair quote opts o o' ts.
Proof.
  intros Hs%slipped_of_makerToken H. unfold twoHopTransformations in H. ok_inv H. injection H as <-.
  apply fqt_encodes in E, E0.
  by eapply hop_pair_intro; try reflexivity; cbn [sold_token bought_token tr_data]; rewrite ?Hs.
Qed.

Lemma createFillQuoteTransformations_spec quote opts side ts :
  IPathLaws side (path quote) → fillQuoteTransformations quote opts = Ok ts →
  ∃ slipped pairs single,
    getSlippedOrdersByType (path quote) (getMaxQuoteSlippageRate quote) = Ok slipped ∧
    slipped_by_type side (getOrdersByType (path quote)) slipped ∧
    ts = concat pairs ++ option_list single ∧
    Forall2 (λ oo, hop_pair quote opts oo.1 oo.2)
      (zip (twoHopOrders (getOrdersByType (path quote))) (twoHopOrders slipped)) pairs ∧
    length (twoHopOrders slipped) = length (twoHopOrders (getOrdersByType (path quote))) ∧
    single_hop quote opts (nativeOrders slipped ++ bridgeOrders slipped) single.
Proof.
  intros Hlaws H. unfold createFillQuoteTransformations, createTwoHopTransformations,
    createNonTwoHopTransformation in H. cbn [getSwapContext sc_maxSlippage] in H.
  destruct (getSlippedOrdersByType _ _) as [slipped|] eqn:Es; [|discriminate H].
  cbn [mbind result_bind] in H. pose proof (path_slipped_by_type _ _ Hlaws _ _ Es) as Hsl.
  destruct (mapM _ (twoHopOrders slipped)) as [pairs|] eqn:Ep; [|discriminate H].
  cbn [mbind result_bind mret result_ret] in H.
  destruct (match _ ++ _ with [] => _ | _ => _ end) as [single|] eqn:E1 in H; [|discriminate H].
  injection H as <-. exists slipped, pairs, single. split_and!; try done.
  - apply mapM_ok in Ep. destruct Hsl as [_ _ Ht]. clear -Ht Ep.
    revert pairs Ep. induction Ht as [|o o' l l' [Ho _] _ IH]; intros pairs Ep.
    { inversion Ep; constructor. }
    inversion Ep as [|? ts ? pairs' Hts Hp]; subst. constructor; [|by apply IH].
    by eapply twoHopTransformations_pair.
  - destruct Hsl as [_ _ Ht]. by apply Forall2_length in Ht.
  - destruct (nativeOrders slipped ++ bridgeOrders slipped) as [|o l] eqn:El.
    + injection E1 as <-. by constructor.
    + ok_inv E1. injection E1 as <-. apply fqt_encodes in E. by econstructor.
Qed.

Lemma firstHop_takerAmount o o' :
  slipped_of Sell o o' → opt_takerAmount o' = opt_takerAmount o.
Proof. by intros ->. Qed.

Lemma pairs_sell_amounts quote opts slipped pairs qs :
  isBuyQuote quote = true ∨ shouldSellEntireBalance opts = false →
  slipped_by_type Sell (getOrdersByType (path quote)) slipped →
  Forall2 (λ oo, hop_pair quote opts oo.1 oo.2)
    (zip (twoHopOrders (getOrdersByType (path quote))) (twoHopOrders slipped)) pairs →
  Forall2 (λ o q, fin (opt_takerAmount (firstHopOrder o)) q)
    (twoHopOrders (getOrdersByType (path quote))) qs →
  ∃ amounts, Forall2 (λ pair a, (head pair ≫= fill_amount) = Some a) pairs amounts ∧
             Forall2 fin amounts qs.
Proof.
  intros Hall [_ _ Ht] Hp Hq.
  assert (∀ a, fillAmountOrAll quote opts a = a) as Hfill.
  { intros a. unfold fillAmountOrAll. destruct Hall as [-> | ->]; [done|]. by rewrite andb_false_r. }
  revert pairs qs Hp Hq. induction Ht as [|o o' l l' [Ho _] _ IH]; intros pairs qs Hp Hq.
  - inversion Hp; inversion Hq; subst. exists []. split; constructor.
  - inversion Hp as [|? ? ? pairs' Hpair Hp']; subst. inversion Hq as [|? q ? qs' Hq1 Hq']; subst.
    destruct (IH _ _ Hp' Hq') as (amounts & H1 & H2). simpl in Hpair. inversion Hpair; subst.
    exists (opt_takerAmount (firstHopOrder o') :: amounts). split; constructor; try done.
    + simpl. etrans; [eassumption|]. by rewrite Hfill.
    + by rewrite (firstHop_takerAmount _ _ Ho).
Qed.

(** C9. The transformations of a sell settle the whole path and nothing else: two
    chained ones per two-hop order, the second selling all the intermediate
    tokens the first bought, and one for all the other orders; the amounts they
    take from the seller are those of the first hops and, for the other orders,
    exactly what is left of the amount of the quote. *)
Theorem sell_transformations_cover quote opts ts amount A qs :
  IPathLaws Sell (path quote) → quote_type quote = MarketSell amount →
  shouldSellEntireBalance opts = false → fin amount A →
  Forall2 (λ o q, fin (opt_takerAmount (firstHopOrder o)) q)
    (twoHopOrders (getOrdersByType (path quote))) qs →
  fillQuoteTransformations quote opts = Ok ts →
  ∃ slipped pairs single amounts,
    getSlippedOrdersByType (path quote) (getMaxQuoteSlippageRate quote) = Ok slipped ∧
    ts = concat pairs ++ option_list single ∧
    Forall2 (λ oo, hop_pair quote opts oo.1 oo.2)
      (zip (twoHopOrders (getOrdersByType (path quote))) (twoHopOrders slipped)) pairs ∧
    length pairs = length (twoHopOrders (getOrdersByType (path quote))) ∧
    single_hop quote opts (nativeOrders slipped ++ bridgeOrders slipped) single ∧
    Forall2 (λ pair a, (head pair ≫= fill_amount) = Some a) pairs amounts ∧ Forall2 fin amounts qs ∧
    (∀ t, single = Some t → ∃ a, fill_amount t = Some a ∧ fin a (A - Qsum qs)).
Proof.
  intros Hlaws Hty Hall HA Hqs H.
  destruct (createFillQuoteTransformations_spec quote opts Sell ts Hlaws H)
    as (slipped & pairs & single & Hs & Hsl & -> & Hpairs & Hlen & Hsingle).
  destruct (pairs_sell_amounts quote opts slipped pairs qs (or_intror Hall) Hsl Hpairs Hqs)
    as (amounts & Ham & Hfin).
  exists slipped, pairs, single, amounts. split_and!; try done.
  - apply Forall2_length in Hpairs. rewrite length_zip in Hpairs. lia.
  - intros t ->. inversion Hsingle as [|? d Hne _ _ Hamt _ _]; subst.
    eexists. split; [exact Hamt|]. unfold fillAmountOrAll. rewrite Hall, andb_false_r.
    unfold getNonTwoHopFillAmount. rewrite Hty. cbn [quote_side]. apply fin_minus; [exact HA|].
    eapply fin_eq; [apply (fin_bn_sum _ (0%Q :: qs)); [done|]|].
    + constructor; [apply (fin_Z 0)|]. apply Forall2_fmap_l. exact Hqs.
    + rewrite Qsum_cons. lra.
Qed.

(** ** The fees of a meta-transaction *)

(** One transformation that pays every transfer in a token; none without transfers. *)
Definition fee_transformations (token : string) (transfers : list AffiliateFeeAmount) : list ERC20Transformation :=
  match transfers with
  | [] => []
  | _ => [{| deploymentNonce := affiliateFeeTransformer (transformerNonces this);
             tr_data := AffiliateFeeData
               ((λ f, {| tf_token := token; tf_amount := sellTokenFeeAmount f; tf_recipient := recipient f |})
                <$> transfers) |}]
  end.

Lemma sell_fees_paid (quote : SwapQuote P) opts qs :
  isFromETH opts = false →
  Forall2 (λ f q, fin (sellTokenFeeAmount f) q) (sellTokenAffiliateFees opts) qs → Forall (λ q, 0 < q)%Q qs →
  sellTokenFeeTransformations this quote opts = fee_transformations (takerToken quote) (sellTokenAffiliateFees opts).
Proof.
  intros He Hq Hp. unfold sellTokenFeeTransformations, fee_transformations. rewrite He.
  assert (bfilter (λ fee, gt (sellTokenFeeAmount fee) (of_Z 0)) (sellTokenAffiliateFees opts)
    = sellTokenAffiliateFees opts) as E.
  { apply bfilter_all, Forall_forall. intros f Hf. destruct (Forall2_elem_l _ _ _ _ Hq Hf) as (q & Hin & Hfin).
    rewrite Forall_forall in Hp. apply Hp in Hin. by apply (lt_fin _ _ _ _ (fin_Z 0) Hfin). }
  destruct (sellTokenAffiliateFees opts); [done|]. by rewrite E.
Qed.

Lemma fin_fees_total l qs a t :
  Forall2 (λ f q, fin (sellTokenFeeAmount f) q) l qs → fin a t →
  fin (fold_left (λ total fee, plus total (sellTokenFeeAmount fee)) l a) (t + Qsum qs).
Proof.
  intros Hq. revert a t. induction Hq as [|f q l qs Hf _ IH]; intros a t Ha; cbn [fold_left].
  - eapply fin_eq; [exact Ha|]. change (Qsum []) with 0%Q. by rewrite Qplus_0_r.
  - eapply fin_eq; [apply IH, fin_plus; [exact Ha | exact Hf]|]. rewrite Qsum_cons. lra.
Qed.

Lemma adjusted_v1 (quote : SwapQuote P) opts qs t :
  metaTransactionVersion opts = Some V1 →
  Forall2 (λ f q, fin (sellTokenFeeAmount f) q) (sellTokenAffiliateFees opts) qs → fin (quote_sellAmount quote) t →
  fin (adjustedSellAmount quote opts) (t + Qsum qs).
Proof.
  intros Hv Hq Ht. unfold adjustedSellAmount. rewrite Hv.
  destruct (sellTokenAffiliateFees opts) as [|f l].
  - inversion Hq; subst. eapply fin_eq; [exact Ht|]. change (Qsum []) with 0%Q. by rewrite Qplus_0_r.
  - eapply fin_eq; [apply fin_plus; [exact Ht | apply (fin_fees_total _ _ _ 0%Q Hq (fin_Z 0))] | lra].
Qed.

(** What is paid for the bought tokens comes after what was there. *)
Lemma buy_fees_appended (quote : SwapQuote P) opts fees s :
  ∃ ts, fs_transformations (fold_left (addBuyTokenFee this quote opts) fees s) = fs_transformations s ++ ts.
Proof.
  revert s. induction fees as [|fee fees IH]; intros s; cbn [fold_left].
  - exists []. by rewrite app_nil_r.
  - destruct (IH (addBuyTokenFee this quote opts s fee)) as [ts ->].
    assert (∃ us, fs_transformations (addBuyTokenFee this quote opts s fee) = fs_transformations s ++ us) as [us ->].
    { unfold addBuyTokenFee, payBuyTokenFee. destruct (String.eqb _ _); [|destruct (feeType fee)];
        repeat (destruct (gt _ _)); cbn [fs_transformations];
        try (by eexists; reflexivity); exists []; by rewrite app_nil_r. }
    exists (us ++ ts). by rewrite app_assoc.
Qed.

(** The call of a meta-transaction of the first version that does not sell ether:
    it takes what the quote takes with the transfers, pays them first, and then
    fills the quote. *)
Definition pays_and_fills (quote : SwapQuote P) (opts : ExchangeProxyContractOpts) (transfers : list AffiliateFeeAmount)
    (qs : list Q) (c : ProxyCall) : Prop :=
  ∃ output amountIn minimum fills rest,
    c = transformERC20 (takerToken quote) output amountIn minimum
          (fee_transformations (takerToken quote) transfers ++ fills ++ rest) ∧
    fillQuoteTransformations quote opts = Ok fills ∧
    ∀ t, fin (quote_sellAmount quote) t → fin amountIn (t + Qsum qs).

Lemma v1_pays_and_fills (quote : SwapQuote P) opts qs info :
  metaTransactionVersion opts = Some V1 → isFromETH opts = false → shouldSellEntireBalance opts = false →
  Forall2 (λ f q, fin (sellTokenFeeAmount f) q) (sellTokenAffiliateFees opts) qs → Forall (λ q, 0 < q)%Q qs →
  createTransformERC20Calldata encodeBridgeSourceId abi_encode this quote opts = Ok info →
  pays_and_fills quote opts (sellTokenAffiliateFees opts) qs (call info).
Proof.
  intros Hv He Ha Hq Hp H. unfold createTransformERC20Calldata in H.
  apply result_bind_ok in H as (fills & Hf & H). apply Ok_inj in H as <-. cbn [call]. rewrite He, Ha.
  destruct (buy_fees_appended quote opts (buyTokenFees opts)
    {| fs_transformations := sellTokenFeeTransformations this quote opts ++
         wrapTransformations this opts (adjustedSellAmount quote opts) ++ fills ++ unwrapTransformations this opts;
       fs_gasOverhead := ZERO_AMOUNT; fs_minBuyAmount := sc_minBuyAmount (getSwapContext quote opts) |}) as [ts Ets].
  rewrite Ets. cbn [fs_transformations]. eexists _, _, _, fills, _. split_and!.
  - rewrite (sell_fees_paid quote opts qs He Hq Hp). unfold wrapTransformations. rewrite He. cbn [andb app].
    rewrite <- !app_assoc. reflexivity.
  - exact Hf.
  - intros t Ht. by apply adjusted_v1.
Qed.

(** ** The calldata *)

(** What a buy token fee takes from the minimum the taker accepts. *)
Definition charged_fee (fee : AffiliateFeeAmount) (q : Q) : Q :=
  if String.eqb (recipient fee) NULL_ADDRESS then 0
  else match feeType fee with PercentageFee | GaslessFee => Qmax 0 q | _ => 0 end%Q.

Definition pays_surplus (fee : AffiliateFeeAmount) : bool :=
  negb (String.eqb (recipient fee) NULL_ADDRESS) &&
  match feeType fee with PositiveSlippageFee => true | _ => false end.

Record fee_state (s : FeeState) (m c : Q) (n : nat) : Prop := {
  st_min : fin (fs_minBuyAmount s) (Qmax 0 (m - c));
  st_gas : fin (fs_gasOverhead s) (30000 * inject_Z (Z.of_nat n));
}.

Lemma Qmax_step a q : (0 <= q)%Q → (Qmax 0 (Qmax 0 a - q) == Qmax 0 (a - q))%Q.
Proof.
  intros Hq. destruct (Q.max_spec 0 a) as [[? E]|[? E]]; rewrite E; [reflexivity|].
  rewrite !Q.max_l by lra. reflexivity.
Qed.

Lemma addBuyTokenFee_state (quote : SwapQuote P) opts s fee m c n q :
  fee_state s m c n → fin (buyTokenFeeAmount fee) q →
  fee_state (addBuyTokenFee this quote opts s fee) m (c + charged_fee fee q)
    (if pays_surplus fee then S n else n) ∧
  omap sold_token (fs_transformations (addBuyTokenFee this quote opts s fee)) =
    omap sold_token (fs_transformations s).
Proof.
  intros [Hm Hg] Hq. unfold addBuyTokenFee, charged_fee, pays_surplus.
  destruct (String.eqb (recipient fee) NULL_ADDRESS).
  { split; [|done]. split; [|exact Hg]. eapply fin_eq; [exact Hm|]. by rewrite Qplus_0_r. }
  assert (fee_state (payBuyTokenFee this quote opts s fee) m (c + Qmax 0 q) n ∧
    omap sold_token (fs_transformations (payBuyTokenFee this quote opts s fee)) =
    omap sold_token (fs_transformations s)) as Hpay.
  { unfold payBuyTokenFee, gt. destruct (lt (of_Z 0) (buyTokenFeeAmount fee)) eqn:E.
    - apply (lt_fin _ _ _ _ (fin_Z 0) Hq) in E. change (inject_Z 0) with 0%Q in E.
      split; [|by cbn [fs_transformations]; rewrite omap_app, app_nil_r]. split; [|exact Hg]. cbn [fs_minBuyAmount].
      eapply fin_eq; [apply fin_max2; [apply (fin_Z 0) | apply fin_minus; [exact Hm | exact Hq]]|].
      change (inject_Z 0) with 0%Q. rewrite Qmax_step by lra. rewrite (Q.max_r 0 q) by lra.
      apply Q.max_compat; [reflexivity | lra].
    - apply (lt_fin_false _ _ _ _ (fin_Z 0) Hq) in E. change (inject_Z 0) with 0%Q in E.
      split; [|done]. split; [|exact Hg]. eapply fin_eq; [exact Hm|].
      rewrite (Q.max_l 0 q) by lra. apply Q.max_compat; [reflexivity | lra]. }
  assert (fee_state s m (c + 0) n) as H0.
  { split; [|exact Hg]. eapply fin_eq; [exact Hm|]. by rewrite Qplus_0_r. }
  destruct (feeType fee); cbn [negb andb]; [by split | exact Hpay | | exact Hpay].
  split; [|by cbn [fs_transformations]; rewrite omap_app, app_nil_r].
  split; [exact (st_min _ _ _ _ H0)|]. cbn [fs_gasOverhead].
  eapply fin_eq; [apply fin_plus; [apply (fin_Z 30000) | exact Hg]|].
  rewrite Nat2Z.inj_succ, <- Z.add_1_r, inject_Z_plus.
  change (inject_Z 30000) with 30000%Q. change (inject_Z 1) with 1%Q. lra.
Qed.

Lemma addBuyTokenFees_state (quote : SwapQuote P) opts fees qs s m c n :
  Forall2 (λ fee q, fin (buyTokenFeeAmount fee) q) fees qs → fee_state s m c n →
  let s' := fold_left (addBuyTokenFee this quote opts) fees s in
  fee_state s' m (c + Qsum (zip_with charged_fee fees qs)) (n + length (bfilter pays_surplus fees)) ∧
  omap sold_token (fs_transformations s') = omap sold_token (fs_transformations s).
Proof.
  intros Hq. revert s c n. induction Hq as [|fee q fees qs Hfee _ IH]; intros s c n Hs; cbn [fold_left zip_with bfilter length].
  - split; [|done]. rewrite Nat.add_0_r. destruct Hs as [Hm Hg]. split; [|exact Hg].
    eapply fin_eq; [exact Hm|]. change (Qsum []) with 0%Q. by rewrite Qplus_0_r.
  - destruct (addBuyTokenFee_state quote opts s fee m c n q Hs Hfee) as [H1 E1].
    destruct (IH _ _ _ H1) as [[Hm Hg] E2]. split; [|by rewrite E2].
    split.
    + eapply fin_eq; [exact Hm|]. rewrite Qsum_cons. apply Q.max_compat; [reflexivity | lra].
    + eapply fin_eq; [exact Hg|]. destruct (pays_surplus fee); simpl;
        [by rewrite Nat.add_succ_r | reflexivity].
Qed.

Lemma hop_pairs_sold (quote : SwapQuote P) opts hops slipped pairs tok :
  length slipped = length hops →
  Forall2 (λ oo, hop_pair quote opts oo.1 oo.2) (zip hops slipped) pairs →
  tok ∈ omap sold_token (concat pairs) → tok = takerToken quote ∨ tok ∈ getIntermediateTokens hops.
Proof.
  revert slipped pairs. induction hops as [|o hops IH]; intros [|o' slipped] pairs Hl Hp Hin;
    try discriminate Hl.
  { inversion Hp; subst. simpl in Hin. set_solver. }
  inversion Hp as [|? pair ? pairs' Hpair Hp']; subst. simpl in Hpair.
  change (concat (pair :: pairs')) with (pair ++ concat pairs') in Hin.
  rewrite omap_app, elem_of_app in Hin. unfold getIntermediateTokens. rewrite fmap_cons.
  destruct Hin as [Hin|Hin].
  - inversion Hpair as [t1 t2 ? ? Hs1 ? ? ? ? Hs2]; subst. simpl in Hin. rewrite Hs1, Hs2 in Hin. set_solver.
  - injection Hl as Hl. destruct (IH _ _ Hl Hp' Hin); [by left | right; set_solver].
Qed.

Lemma fillQuoteTransformations_sold quote opts side ts tok :
  IPathLaws side (path quote) → fillQuoteTransformations quote opts = Ok ts →
  tok ∈ omap sold_token ts →
  tok = takerToken quote ∨ tok ∈ getIntermediateTokens (twoHopOrders (getOrdersByType (path quote))).
Proof.
  intros Hlaws H Hin.
  destruct (createFillQuoteTransformations_spec quote opts side ts Hlaws H)
    as (slipped & pairs & single & _ & _ & -> & Hpairs & Hlen & Hsingle).
  rewrite omap_app, elem_of_app in Hin. destruct Hin as [Hin|Hin].
  - by eapply hop_pairs_sold.
  - inversion Hsingle as [|t ? ? Hs]; subst; simpl in Hin; [set_solver|]. rewrite Hs in Hin.
    left. set_solver.
Qed.

Lemma sellTokenFee_sold (quote : SwapQuote P) opts :
  omap sold_token (sellTokenFeeTransformations this quote opts) = [].
Proof. unfold sellTokenFeeTransformations. by destruct (sellTokenAffiliateFees opts). Qed.

Lemma wrap_sold opts amount : omap sold_token (wrapTransformations this opts amount) = [].
Proof. unfold wrapTransformations. by destruct (isFromETH opts && _). Qed.

Lemma unwrap_sold opts : omap sold_token (unwrapTransformations this opts) = [].
Proof. unfold unwrapTransformations. by destruct (isToETH opts && _). Qed.

(** C10. The calldata of [transformERC20]: the minimum the taker accepts is the worst
    case less the percentage and gasless fees, never negative; a positive
    slippage fee adds its gas; and the transformations end with one that pays
    back every token any of them sells, so that nothing the taker sent is left
    behind. *)
Theorem transformERC20_calldata quote opts info side m qs :
  IPathLaws side (path quote) →
  createTransformERC20Calldata encodeBridgeSourceId abi_encode this quote opts = Ok info →
  fin (makerAmount (quote_worstCase quote)) m → (0 <= m)%Q →
  Forall2 (λ fee q, fin (buyTokenFeeAmount fee) q) (buyTokenFees opts) qs →
  ∃ input output amount minimum ts nonce tokens,
    call info = transformERC20 input output amount minimum
      (ts ++ [{| deploymentNonce := nonce; tr_data := PayTakerData tokens [] |}]) ∧
    fin minimum (Qmax 0 (m - Qsum (zip_with charged_fee (buyTokenFees opts) qs))) ∧
    fin (gasOverhead info)
      (30000 * inject_Z (Z.of_nat (length (bfilter pays_surplus (buyTokenFees opts))))) ∧
    (∀ tok, tok ∈ omap sold_token ts → tok ∈ tokens) ∧
    takerToken quote ∈ tokens ∧ (isToETH opts = false → ETH_TOKEN_ADDRESS this ∈ tokens).
Proof.
  intros Hlaws H Hm Hm0 Hq. unfold createTransformERC20Calldata in H.
  ok_inv H. injection H as <-.
  set (s0 := {| fs_transformations := _; fs_gasOverhead := _; fs_minBuyAmount := _ |}).
  assert (fee_state s0 m 0 0) as Hs0.
  { split; [|by apply fin_ZERO]. eapply fin_eq; [exact Hm|]. rewrite Q.max_r by lra. lra. }
  destruct (addBuyTokenFees_state quote opts (buyTokenFees opts) qs s0 m 0 0 Hq Hs0) as [[Hmin Hgas] Esold].
  eexists _, _, _, _, _, _, _. cbn [call gasOverhead]. split; [reflexivity|]. split.
  { eapply fin_eq; [exact Hmin|]. apply Q.max_compat; [reflexivity | lra]. }
  split; [exact Hgas|]. split.
  - intros tok. rewrite Esold. unfold s0. cbn [fs_transformations].
    rewrite !omap_app, sellTokenFee_sold, wrap_sold, unwrap_sold, app_nil_r. cbn [app]. intros Hin.
    destruct (fillQuoteTransformations_sold _ _ _ _ _ Hlaws E Hin) as [->|Hmid]; [set_solver|].
    set_solver.
  - split; [set_solver|]. intros ->. set_solver.
Qed.
End RuleFacts.

(** ** Concrete quotes *)
Module TransformExamples.
Import Concrete.

Definition encodeId (_ : BridgeProtocol) (name : string) : string := name.
Definition encode (_ : list AbiType.t) (_ : list AbiValue) : string := "0x".
Definition deployment : Deployment :=
  {| chainId := ChainId.Mainnet; exchangeProxy := "0xEP";
     transformerNonces := {| wethTransformer := 1; payTakerTransformer := 2; fillQuoteTransformer := 3;
       affiliateFeeTransformer := 4; positiveSlippageFeeTransformer := 5 |};
     etherToken := "0xWETH"; nativeFeeToken := "0xWETH"; ETH_TOKEN_ADDRESS := "0xETH" |}.
Definition info (taker maker : Z) : SwapQuoteInfo :=
  {| takerAmount := of_Z taker; totalTakerAmount := of_Z taker; makerAmount := of_Z maker;
     protocolFeeInWeiAmount := of_Z 0; gas := n_Z 0; slippage := n_Z 0 |}.
Definition quote_of (p : Path.t) (amount maker : Z) : SwapQuote Path.t :=
  {| takerToken := "0xA"; makerToken := "0xB"; quote_gasPrice := of_Z 1; path := p;
     quote_bestCase := info amount maker; quote_worstCase := info amount maker;
     quote_sourceBreakdown := {| singleSource := []; multihop := [] |}; quote_report := None;
     quote_extendedReport := {| extended_considered := []; extended_delivered := [] |};
     quote_makerTokenDecimals := n_Z 18; quote_takerTokenDecimals := n_Z 18;
     takerAmountPerEth := of_Z 0; makerAmountPerEth := of_Z 0; quote_blockNumber := n_Z 1;
     quote_samplerGasUsage := n_Z 0; quote_type := MarketSell (of_Z amount) |}.

(** Sixty through a pool and fifty through two hops. *)
Definition quote1 : SwapQuote Path.t := quote_of PathExamples.path1 110 1050.
Definition fee (amount : Z) : AffiliateFeeAmount :=
  {| feeType := PercentageFee; recipient := "0xF"; buyTokenFeeAmount := of_Z amount;
     sellTokenFeeAmount := of_Z 0 |}.
Definition opts_with (fees : list AffiliateFeeAmount) : ExchangeProxyContractOpts :=
  {| isFromETH := false; isToETH := false; sellTokenAffiliateFees := [];
     buyTokenAffiliateFees := fees; positiveSlippageFee := None; refundReceiver := NULL_ADDRESS;
     metaTransactionVersion := None; shouldSellEntireBalance := false |}.

Lemma laws1 : IPathLaws Sell (path quote1).
Proof.
  apply (Path_laws PathExamples.ctx PathExamples.fills1 (of_Z 100) PathExamples.opts).
  - reflexivity.
  - repeat constructor; vm_compute; reflexivity.
Qed.
End TransformExamples.

Import Concrete TransformExamples.

Lemma fqt_orders_complete_witness :
  ∃ d, getFQTTransformerDataFromOptimizedOrders encodeId encode (Path.getOrders PathExamples.path1) = Ok d ∧
    (length (fq_bridgeOrders d) + length (fq_limitOrders d) + length (fq_rfqOrders d) +
     length (fq_otcOrders d) = 3)%nat.
Proof.
  assert (is_ok (getFQTTransformerDataFromOptimizedOrders encodeId encode
    (Path.getOrders PathExamples.path1)) = true) as K by (vm_compute; reflexivity).
  assert (length (Path.getOrders PathExamples.path1) = 3%nat) as L by (vm_compute; reflexivity).
  destruct (getFQTTransformerDataFromOptimizedOrders encodeId encode _) as [d|] eqn:E; [|discriminate K].
  exists d. split; [reflexivity|].
  pose proof (fqt_orders_complete encodeId encode _ d E) as [_ H]. rewrite L in H. exact H.
Defined.

Lemma sell_transformations_cover_witness :
  ∃ ts pairs single, createFillQuoteTransformations encodeId encode deployment quote1 (opts_with []) = Ok ts ∧
    ts = concat pairs ++ option_list single ∧
    (∀ t, single = Some t → ∃ a, fill_amount t = Some a ∧ fin a (110 - (50 + 0))).
Proof.
  assert (is_ok (createFillQuoteTransformations encodeId encode deployment quote1 (opts_with [])) = true)
    as K by (vm_compute; reflexivity).
  destruct (createFillQuoteTransformations encodeId encode deployment quote1 (opts_with [])) as [ts|] eqn:E;
    [|discriminate K].
  assert (Forall2 (λ o q, fin (opt_takerAmount (firstHopOrder o)) q)
    (twoHopOrders (getOrdersByType (path quote1))) [50%Q]) as Hq.
  { constructor; [exact (fin_Z 50) | constructor]. }
  pose proof (sell_transformations_cover encodeId encode deployment quote1 (opts_with []) ts (of_Z 110) 110
    [50%Q] laws1 eq_refl eq_refl (fin_Z 110) Hq E) as (sl & pairs & single & am & _ & Hts & _ & _ & _ & _ & _ & H).
  exists ts, pairs, single. split; [reflexivity|]. split; [exact Hts | exact H].
Defined.

Lemma transformERC20_calldata_witness :
  ∃ info minimum input output amount ts,
    createTransformERC20Calldata encodeId encode deployment quote1 (opts_with [fee 50]) = Ok info ∧
    call info = transformERC20 input output amount minimum ts ∧
    fin minimum (Qmax 0 (1050 - (Qmax 0 50 + 0))).
Proof.
  assert (is_ok (createTransformERC20Calldata encodeId encode deployment quote1 (opts_with [fee 50])) = true)
    as K by (vm_compute; reflexivity).
  destruct (createTransformERC20Calldata encodeId encode deployment quote1 (opts_with [fee 50])) as [i|] eqn:E;
    [|discriminate K].
  assert (Forall2 (λ f q, fin (buyTokenFeeAmount f) q) (buyTokenFees (opts_with [fee 50])) [50%Q]) as Hq.
  { constructor; [exact (fin_Z 50) | constructor]. }
  assert (0 <= 1050)%Q as H0 by discriminate.
  pose proof (transformERC20_calldata encodeId encode deployment quote1 (opts_with [fee 50]) i Sell 1050 [50%Q]
    laws1 E (fin_Z 1050) H0 Hq) as (input & output & amount & minimum & ts & nonce & tokens & Hcall & Hmin & _).
  eexists i, minimum, input, output, amount, _. split; [reflexivity|]. split; [exact Hcall | exact Hmin].
Defined.
