(* ===== verification/QuoteConsumer.v ===== *)
(** * Quote consumer ([quote_consumers/exchange_proxy_swap_quote_consumer.ts],
    [feature_rules/uniswap_v2_rule.ts], [feature_rules/feature_rule_registry.ts])

    Which feature of the exchange proxy settles a quote, and the call that does:
    the direct routes of single orders, RFQ and OTC fills, the multiplex batch
    and multi-hop fills, and the transformer for everything else. *)

From S2P Require Import Prelude JsNumber BigNum Types Fills Orders Constants PathModel Simulation QuoteInfo Quotes TransformERC20.

Section QuoteConsumer.
Context {B : BigNumberLib} {P : Type} `{!IPath P}.
Variable encodeBridgeSourceId : BridgeProtocol → string → string.
Variable abi_encode : list AbiType.t → list AbiValue → string.
Variable this : Deployment.

(** The result of a route that does not go through the transformer. *)
Definition directCalldata (c : ProxyCall) (ethAmount : BN) : CalldataInfo :=
  {| call := c; ethAmount := ethAmount; toAddress := exchangeProxy this;
     allowanceTarget := exchangeProxy this; gasOverhead := ZERO_AMOUNT |}.

(** [slippedOrders[0]]: reading a field of [undefined] throws. *)
Definition firstOrder (orders : list OptimizedOrder) : result OptimizedOrder :=
  match orders with o :: _ => Ok o | [] => Throw TypeError end.

(** [fillData.tokenAddressPath] and [fillData.path] of the fill data the source
    has; an undefined path cannot be mapped, nor encoded. *)
Definition tokenAddressPathOf (fd : FillData) : result (list string) :=
  match fd with FDUniswapV2 tokens _ => Ok tokens | _ => Throw TypeError end.
Definition uniswapV3PathOf (fd : FillData) : result string :=
  match fd with FDFinalTickDEXMultiPath _ _ path _ => Ok path | _ => Throw TypeError end.

(** [tokenAddressPath.map((a, i) => ...)]: the native token at either end. *)
Definition withETH (opts : ExchangeProxyContractOpts) (tokens : list string) : list string :=
  imap (λ i a,
    if (i =? 0)%nat && isFromETH opts then ETH_TOKEN_ADDRESS this
    else if (i =? length tokens - 1)%nat && isToETH opts then ETH_TOKEN_ADDRESS this
    else a) tokens.

Definition ethAmountOfSell (opts : ExchangeProxyContractOpts) (sellAmount : BN) : BN :=
  if isFromETH opts then sellAmount else ZERO_AMOUNT.

(** ** [UniswapV2Rule] *)

Definition UNISWAP_V2_SOURCES : list ERC20BridgeSource :=
  [ERC20BridgeSource.UniswapV2; ERC20BridgeSource.SushiSwap].

Definition uniswapV2_isCompatible (quote : SwapQuote P) (opts : ExchangeProxyContractOpts) : bool :=
  if negb (bool_decide (chainId this = ChainId.Mainnet)) then false
  else isDirectSwapCompatible (path quote) opts UNISWAP_V2_SOURCES.

Definition uniswapV2_createCalldata (quote : SwapQuote P) (opts : ExchangeProxyContractOpts)
    : result CalldataInfo :=
  let ctx := getSwapContext quote opts in
  slippedOrders ← getSlippedOrders (path quote) (sc_maxSlippage ctx);
  slippedOrder ← firstOrder slippedOrders;
  tokens ← tokenAddressPathOf (opt_fillData slippedOrder);
  mret (directCalldata
    (sellToUniswap (withETH opts tokens) (sc_sellAmount ctx) (sc_minBuyAmount ctx)
       (bool_decide (opt_source slippedOrder = ERC20BridgeSource.SushiSwap)))
    (ethAmountOfSell opts (sc_sellAmount ctx))).

(** ** The multiplex fills *)

Definition isNonRfqOtc (o : OptimizedOrder) : bool :=
  negb (bool_decide (opt_type o = FillQuoteTransformerOrderType.Rfq)) &&
  negb (bool_decide (opt_type o = FillQuoteTransformerOrderType.Otc)).

(** The loop over the orders; the default case settles all the remaining ones. *)
Fixpoint batchSubcalls (quote : SwapQuote P) (slippedOrders : list OptimizedOrder)
    : result (list BatchSubcall) :=
  match slippedOrders with
  | [] => Ok []
  | order :: rest =>
      match opt_source order with
      | ERC20BridgeSource.Native =>
          if isNonRfqOtc order
          then Throw (Error "Multiplex batch fill only supported for RFQ native orders and OTC Orders")
          else
            n ← nativeOrderOf order;
            let data :=
              if bool_decide (opt_type order = FillQuoteTransformerOrderType.Otc)
              then SubOtc (fn_order n) (fn_signature n) else SubRfq (fn_order n) (fn_signature n) in
            subcalls ← batchSubcalls quote rest;
            mret ({| sub_sellAmount := opt_takerAmount order; sub_data := data |} :: subcalls)
      | ERC20BridgeSource.UniswapV2 | ERC20BridgeSource.SushiSwap =>
          tokens ← tokenAddressPathOf (opt_fillData order);
          subcalls ← batchSubcalls quote rest;
          mret ({| sub_sellAmount := opt_takerAmount order;
                   sub_data := SubUniswapV2 tokens
                     (bool_decide (opt_source order = ERC20BridgeSource.SushiSwap)) |} :: subcalls)
      | ERC20BridgeSource.UniswapV3 =>
          path ← uniswapV3PathOf (opt_fillData order);
          subcalls ← batchSubcalls quote rest;
          mret ({| sub_sellAmount := opt_takerAmount order; sub_data := SubUniswapV3 path |} :: subcalls)
      | _ =>
          fqtData ← getFQTTransformerDataFromOptimizedOrders encodeBridgeSourceId abi_encode
                      (order :: rest);
          mret [{| sub_sellAmount := bn_sum (opt_takerAmount <$> (order :: rest));
                   sub_data := SubTransformERC20
                     [{| deploymentNonce := fillQuoteTransformer (transformerNonces this);
                         tr_data := FillQuoteData FQT_Sell (takerToken quote) (makerToken quote) fqtData
                                      NULL_ADDRESS MAX_UINT256 |};
                      {| deploymentNonce := payTakerTransformer (transformerNonces this);
                         tr_data := PayTakerData [takerToken quote] [] |}] |}]
      end
  end.

Definition encodeMultiplexBatchFillCalldata (quote : SwapQuote P) (opts : ExchangeProxyContractOpts)
    : result ProxyCall :=
  slippedOrders ← getSlippedOrders (path quote) (getMaxQuoteSlippageRate quote);
  subcalls ← batchSubcalls quote slippedOrders;
  let worst := quote_worstCase quote in
  mret (if isFromETH opts then
          multiplexBatchSellEthForToken (makerToken quote) subcalls (makerAmount worst)
        else if isToETH opts then
          multiplexBatchSellTokenForEth (takerToken quote) subcalls (totalTakerAmount worst)
            (makerAmount worst)
        else
          multiplexBatchSellTokenForToken (takerToken quote) (makerToken quote) subcalls
            (totalTakerAmount worst) (makerAmount worst)).

Definition hopSubcall (order : OptimizedOrder) : result SubcallData :=
  match opt_source order with
  | ERC20BridgeSource.UniswapV2 | ERC20BridgeSource.SushiSwap =>
      tokens ← tokenAddressPathOf (opt_fillData order);
      mret (SubUniswapV2 tokens (bool_decide (opt_source order = ERC20BridgeSource.SushiSwap)))
  | ERC20BridgeSource.UniswapV3 =>
      path ← uniswapV3PathOf (opt_fillData order);
      mret (SubUniswapV3 path)
  | _ => Throw (Error "Multiplex multi-hop unsupported source")
  end.

Definition encodeMultiplexMultiHopFillCalldata (quote : SwapQuote P)
    (opts : ExchangeProxyContractOpts) : result ProxyCall :=
  slipped ← getSlippedOrdersByType (path quote) (getMaxQuoteSlippageRate quote);
  match nativeOrders slipped, bridgeOrders slipped, twoHopOrders slipped with
  | [], [], [o] =>
      let tokens := [takerToken quote; opt_makerToken (firstHopOrder o); makerToken quote] in
      subcalls ← mapM hopSubcall [firstHopOrder o; secondHopOrder o];
      let worst := quote_worstCase quote in
      mret (if isFromETH opts then
              multiplexMultiHopSellEthForToken tokens subcalls (makerAmount worst)
            else if isToETH opts then
              multiplexMultiHopSellTokenForEth tokens subcalls (totalTakerAmount worst)
                (makerAmount worst)
            else
              multiplexMultiHopSellTokenForToken tokens subcalls (totalTakerAmount worst)
                (makerAmount worst))
  | [], [], _ => Throw (Error "multiplexMultiHop only supports single multihop order ")
  | _, _, _ => Throw (Error "non-multihop should not go through multiplexMultihop")
  end.

(** ** The routes, in the order they are tried *)

Definition uniswapV3Call (opts : ExchangeProxyContractOpts) (path : string)
    (sellAmount minBuyAmount : BN) : ProxyCall :=
  if isFromETH opts then sellEthForTokenToUniswapV3 path minBuyAmount NULL_ADDRESS
  else if isToETH opts then sellTokenForEthToUniswapV3 path sellAmount minBuyAmount NULL_ADDRESS
  else sellTokenForTokenToUniswapV3 path sellAmount minBuyAmount NULL_ADDRESS.

Definition PANCAKE_SWAP_FORKS : list ERC20BridgeSource :=
  [ERC20BridgeSource.PancakeSwap; ERC20BridgeSource.PancakeSwapV2; ERC20BridgeSource.BakerySwap;
   ERC20BridgeSource.SushiSwap; ERC20BridgeSource.ApeSwap].

(** [PANCAKE_SWAP_FORKS.indexOf(source)]. *)
Definition pancakeFork (source : ERC20BridgeSource) : Z :=
  match list_find (λ s, s = source) PANCAKE_SWAP_FORKS with
  | Some (i, _) => Z.of_nat i
  | None => -1
  end.

Definition CURVE_LIQUIDITY_PROVIDER_BY_CHAIN_ID : ChainId → string :=
  valueByChainId [(ChainId.Mainnet, "0x561b94454b65614ae3db0897b74303f4acf7cc75"%string)] NULL_ADDRESS.

Definition curveDataOf (fd : FillData) : result CurveLiquidityProviderData :=
  match fd with
  | FDCurve fromTokenIdx toTokenIdx pool =>
      Ok {| curveAddress := curve_poolAddress pool;
            exchangeFunctionSelector := curve_exchangeFunctionSelector pool;
            fromCoinIdx := of_Z fromTokenIdx; toCoinIdx := of_Z toTokenIdx |}
  | _ => Throw TypeError
  end.

(** Taker amounts are not clipped to what is sold: each order takes what is left. *)
Fixpoint rfqFillAmounts (orders : list OptimizedOrder) (remaining : BN) : list BN :=
  match orders with
  | [] => []
  | o :: orders' =>
      let fillAmount := min2 (opt_takerAmount o) remaining in
      fillAmount :: rfqFillAmounts orders' (minus remaining fillAmount)
  end.

Definition rfqCall (slippedOrders : list OptimizedOrder) (sellAmount : BN) : result ProxyCall :=
  data ← mapM nativeOrderOf slippedOrders;
  let amounts := rfqFillAmounts slippedOrders sellAmount in
  mret match data, amounts with
       | [d], [a] => fillRfqOrder (fn_order d) (fn_signature d) a
       | _, _ => batchFillRfqOrders (fn_order <$> data) (fn_signature <$> data) amounts true
       end.

Definition otcCall (opts : ExchangeProxyContractOpts) (order : OptimizedOrder) (sellAmount : BN)
    : result ProxyCall :=
  d ← nativeOrderOf order;
  mret (if isFromETH opts then fillOtcOrderWithEth (fn_order d) (fn_signature d)
        else if isToETH opts then fillOtcOrderForEth (fn_order d) (fn_signature d) sellAmount
        else fillOtcOrder (fn_order d) (fn_signature d) sellAmount).

Definition all_of_type (type : FillQuoteTransformerOrderType) (orders : list OptimizedOrder) : bool :=
  forallb (λ o, bool_decide (opt_type o = type)) orders.

Definition isChain (c : ChainId) : bool := bool_decide (chainId this = c).

Definition otcRoute (opts : ExchangeProxyContractOpts) (slippedOrders : list OptimizedOrder)
    (sellAmount : BN) : result (option CalldataInfo) :=
  match slippedOrders with
  | [order] =>
      if (isChain ChainId.Mainnet || isChain ChainId.Polygon || isChain ChainId.PolygonMumbai) &&
         all_of_type FillQuoteTransformerOrderType.Otc slippedOrders &&
         negb (requiresTransformERC20 opts)
      then c ← otcCall opts order sellAmount;
           mret (Some (directCalldata c (ethAmountOfSell opts sellAmount)))
      else mret None
  | _ => mret None
  end.

Definition getCalldata (quote : SwapQuote P) (opts : ExchangeProxyContractOpts)
    : result CalldataInfo :=
  let sellAmount := quote_sellAmount quote in
  let minBuyAmount := makerAmount (quote_worstCase quote) in
  let protocolFee := protocolFeeInWeiAmount (quote_worstCase quote) in
  let ethAmount := if isFromETH opts then plus protocolFee sellAmount else protocolFee in
  slippedOrders ← getSlippedOrders (path quote) (getMaxQuoteSlippageRate quote);
  if uniswapV2_isCompatible quote opts then uniswapV2_createCalldata quote opts
  else if isChain ChainId.Mainnet &&
          isDirectSwapCompatible (path quote) opts [ERC20BridgeSource.UniswapV3] then
    order ← firstOrder slippedOrders;
    path ← uniswapV3PathOf (opt_fillData order);
    mret (directCalldata (uniswapV3Call opts path sellAmount minBuyAmount)
            (ethAmountOfSell opts sellAmount))
  else if isChain ChainId.BSC && isDirectSwapCompatible (path quote) opts PANCAKE_SWAP_FORKS then
    order ← firstOrder slippedOrders;
    tokens ← tokenAddressPathOf (opt_fillData order);
    mret (directCalldata
            (sellToPancakeSwap (withETH opts tokens) sellAmount minBuyAmount
               (pancakeFork (opt_source order)))
            (ethAmountOfSell opts sellAmount))
  else if isChain ChainId.Mainnet &&
          isDirectSwapCompatible (path quote) opts [ERC20BridgeSource.Curve] &&
          negb (includes [takerToken quote; makerToken quote] (nativeFeeToken this)) then
    order ← firstOrder slippedOrders;
    curve ← curveDataOf (opt_fillData order);
    mret (directCalldata
            (sellToLiquidityProvider
               (if isFromETH opts then ETH_TOKEN_ADDRESS this else takerToken quote)
               (if isToETH opts then ETH_TOKEN_ADDRESS this else makerToken quote)
               (CURVE_LIQUIDITY_PROVIDER_BY_CHAIN_ID (chainId this)) NULL_ADDRESS
               sellAmount minBuyAmount curve)
            (ethAmountOfSell opts sellAmount))
  else if (isChain ChainId.Mainnet || isChain ChainId.Polygon) && negb (isToETH opts) &&
          negb (isFromETH opts) &&
          all_of_type FillQuoteTransformerOrderType.Rfq slippedOrders &&
          negb (requiresTransformERC20 opts) then
    c ← rfqCall slippedOrders sellAmount;
    mret (directCalldata c ZERO_AMOUNT)
  else
    otc ← otcRoute opts slippedOrders sellAmount;
    match otc with
    | Some info => mret info
    | None =>
        if isChain ChainId.Mainnet && isMultiplexBatchFillCompatible quote opts then
          c ← encodeMultiplexBatchFillCalldata quote opts;
          mret (directCalldata c ethAmount)
        else if isChain ChainId.Mainnet && isMultiplexMultiHopFillCompatible (path quote) opts then
          c ← encodeMultiplexMultiHopFillCalldata quote opts;
          mret (directCalldata c ethAmount)
        else createTransformERC20Calldata encodeBridgeSourceId abi_encode this quote opts
    end.

Definition getCalldataOrThrow (quote : SwapQuote P) (opts : PartialOpts) : result CalldataInfo :=
  getCalldata quote (optsWithDefaults opts).
End QuoteConsumer.

(** ** Routes *)

Section RouteFacts.
Context {B : BigNumberLib} {P : Type} `{!IPath P}.
Variable encodeBridgeSourceId : BridgeProtocol → string → string.
Variable abi_encode : list AbiType.t → list AbiValue → string.
Variable this : Deployment.
Notation getCalldata := (getCalldata encodeBridgeSourceId abi_encode this).
Notation transformCalldata := (createTransformERC20Calldata encodeBridgeSourceId abi_encode this).

(** Quotes with fees, of meta-transactions or for the whole balance are settled
    by the transformer alone: no other feature would pay the fees. *)
Theorem fees_need_transformer (quote : SwapQuote P) opts :
  requiresTransformERC20 opts = true →
  getCalldata quote opts =
    (_ ← getSlippedOrders (path quote) (getMaxQuoteSlippageRate quote);
     transformCalldata quote opts).
Proof.
  intros Hr. unfold QuoteConsumer.getCalldata, uniswapV2_isCompatible, isDirectSwapCompatible,
    isMultiplexBatchFillCompatible, isMultiplexMultiHopFillCompatible, otcRoute.
  rewrite Hr. destruct (getSlippedOrders _ _) as [os|]; [|done]. cbn [mbind result_bind].
  rewrite !andb_false_r. cbn [andb]. destruct (negb (bool_decide _)); cbn [andb];
    destruct os as [|o [|]]; reflexivity.
Qed.

(** The minimal output a call enforces; RFQ and OTC fills settle at the signed
    price instead. *)
Definition minBuy (c : ProxyCall) : option BN :=
  match c with
  | transformERC20 _ _ _ m _ | sellToUniswap _ _ m _ | sellEthForTokenToUniswapV3 _ m _
  | sellTokenForEthToUniswapV3 _ _ m _ | sellTokenForTokenToUniswapV3 _ _ m _
  | sellToPancakeSwap _ _ m _ | sellToLiquidityProvider _ _ _ _ _ m _
  | multiplexBatchSellEthForToken _ _ m | multiplexBatchSellTokenForEth _ _ _ m
  | multiplexBatchSellTokenForToken _ _ _ _ m | multiplexMultiHopSellEthForToken _ _ m
  | multiplexMultiHopSellTokenForEth _ _ _ m | multiplexMultiHopSellTokenForToken _ _ _ m => Some m
  | fillRfqOrder _ _ _ | batchFillRfqOrders _ _ _ _ | fillOtcOrderWithEth _ _
  | fillOtcOrderForEth _ _ _ | fillOtcOrder _ _ _ => None
  end.

(** What a route other than the transformer promises. *)
Record guarded (quote : SwapQuote P) (opts : ExchangeProxyContractOpts) (info : CalldataInfo) : Prop := {
  gd_plain : requiresTransformERC20 opts = false;
  gd_target : toAddress info = exchangeProxy this ∧ allowanceTarget info = exchangeProxy this;
  gd_min : match minBuy (call info) with
           | Some m => m = makerAmount (quote_worstCase quote)
           | None => ∃ os, getSlippedOrders (path quote) (getMaxQuoteSlippageRate quote) = Ok os ∧
               (all_of_type FillQuoteTransformerOrderType.Rfq os = true ∨
                all_of_type FillQuoteTransformerOrderType.Otc os = true)
           end;
  gd_eth : isFromETH opts = false →
           ethAmount info = ZERO_AMOUNT ∨
           ethAmount info = protocolFeeInWeiAmount (quote_worstCase quote);
}.

Lemma direct_guarded quote opts c eth :
  requiresTransformERC20 opts = false → minBuy c = Some (makerAmount (quote_worstCase quote)) →
  (isFromETH opts = false →
   eth = ZERO_AMOUNT ∨ eth = protocolFeeInWeiAmount (quote_worstCase quote)) →
  guarded quote opts (directCalldata this c eth).
Proof. intros Hr Hm He. split; [done | done | | done]. simpl. by rewrite Hm. Qed.

Lemma direct_compatible_plain (p : P) opts l :
  isDirectSwapCompatible p opts l = true → requiresTransformERC20 opts = false.
Proof. unfold isDirectSwapCompatible. by destruct (requiresTransformERC20 opts). Qed.

Lemma ethAmountOfSell_eth opts x y :
  isFromETH opts = false → ethAmountOfSell opts x = ZERO_AMOUNT ∨ ethAmountOfSell opts x = y.
Proof. unfold ethAmountOfSell. intros ->. by left. Qed.

Lemma uniswapV3Call_min opts p s m : minBuy (uniswapV3Call opts p s m) = Some m.
Proof. unfold uniswapV3Call. by destruct (isFromETH opts), (isToETH opts). Qed.

Lemma rfqCall_min os s c : rfqCall os s = Ok c → minBuy c = None.
Proof.
  unfold rfqCall. intros H. ok_inv H. injection H as <-.
  destruct a as [|? [|]], (rfqFillAmounts os s) as [|? [|]]; done.
Qed.

Lemma otcRoute_guarded quote opts os sell info :
  getSlippedOrders (path quote) (getMaxQuoteSlippageRate quote) = Ok os →
  otcRoute this opts os sell = Ok (Some info) → guarded quote opts info.
Proof.
  intros Hos H. unfold otcRoute in H. destruct os as [|o [|? ?]]; try discriminate H.
  destruct (_ && _ && _) eqn:E; [|discriminate H].
  apply andb_true_iff in E as [E Hr%negb_true_iff]. apply andb_true_iff in E as [_ Hall].
  ok_inv H. injection H as <-. split; [done | done | |].
  - unfold otcCall in E. ok_inv E. injection E as <-. simpl.
    destruct (isFromETH opts); [|destruct (isToETH opts)]; simpl; eauto.
  - apply ethAmountOfSell_eth.
Qed.

Lemma batch_guarded quote opts c :
  encodeMultiplexBatchFillCalldata encodeBridgeSourceId abi_encode this quote opts = Ok c →
  minBuy c = Some (makerAmount (quote_worstCase quote)).
Proof.
  unfold encodeMultiplexBatchFillCalldata. intros H. ok_inv H. injection H as <-.
  by destruct (isFromETH opts), (isToETH opts).
Qed.

Lemma multihop_guarded quote opts c :
  encodeMultiplexMultiHopFillCalldata quote opts = Ok c →
  minBuy c = Some (makerAmount (quote_worstCase quote)).
Proof.
  unfold encodeMultiplexMultiHopFillCalldata. intros H. apply result_bind_ok in H as (sl & _ & H).
  destruct (nativeOrders sl), (bridgeOrders sl); try discriminate H.
  destruct (twoHopOrders sl) as [|o [|? ?]]; try discriminate H. ok_inv H. injection H as <-.
  by destruct (isFromETH opts), (isToETH opts).
Qed.

(** C27. Whatever route settles a quote, the taker is guarded: outside of the
    transformer and of fills at a signed price, the call enforces the worst case
    of the quote as its minimal output, it is sent to the exchange proxy, and no
    ether is attached unless ether is sold or protocol fees are due. *)
Theorem routes_guard_taker (quote : SwapQuote P) opts info :
  getCalldata quote opts = Ok info →
  transformCalldata quote opts = Ok info ∨ guarded quote opts info.
Proof.
  intros H. unfold QuoteConsumer.getCalldata in H. apply result_bind_ok in H as (os & Hos & H).
  destruct (uniswapV2_isCompatible this quote opts) eqn:E1.
  { right. unfold uniswapV2_isCompatible in E1. destruct (negb _); [discriminate E1|].
    unfold uniswapV2_createCalldata in H. ok_inv H. injection H as <-.
    by apply direct_guarded; [eapply direct_compatible_plain | | apply ethAmountOfSell_eth]. }
  destruct (_ && isDirectSwapCompatible (path quote) opts [ERC20BridgeSource.UniswapV3]) eqn:E2.
  { right. apply andb_true_iff in E2 as [_ E2]. ok_inv H. injection H as <-.
    apply direct_guarded; [by eapply direct_compatible_plain | apply uniswapV3Call_min
      | apply ethAmountOfSell_eth]. }
  destruct (_ && isDirectSwapCompatible (path quote) opts PANCAKE_SWAP_FORKS) eqn:E3.
  { right. apply andb_true_iff in E3 as [_ E3]. ok_inv H. injection H as <-.
    by apply direct_guarded; [eapply direct_compatible_plain | | apply ethAmountOfSell_eth]. }
  destruct (_ && isDirectSwapCompatible (path quote) opts [ERC20BridgeSource.Curve] && _) eqn:E4.
  { right. apply andb_true_iff in E4 as [E4 _]. apply andb_true_iff in E4 as [_ E4].
    ok_inv H. injection H as <-.
    by apply direct_guarded; [eapply direct_compatible_plain | | apply ethAmountOfSell_eth]. }
  destruct (_ && _ && _ && _ && _) eqn:E5.
  { right. apply andb_true_iff in E5 as [E5 Hr%negb_true_iff]. apply andb_true_iff in E5 as [_ Hall].
    ok_inv H. injection H as <-. apply rfqCall_min in E. split; [done | done | | by left].
    simpl. rewrite E. eauto. }
  apply result_bind_ok in H as (otc & Hotc & H).
  destruct otc as [info'|].
  { injection H as <-. right. by eapply otcRoute_guarded. }
  destruct (_ && isMultiplexBatchFillCompatible quote opts) eqn:E6.
  { right. apply andb_true_iff in E6 as [_ E6]. ok_inv H. injection H as <-.
    apply direct_guarded; [|by eapply batch_guarded | by intros ->; right].
    unfold isMultiplexBatchFillCompatible in E6. by destruct (requiresTransformERC20 opts). }
  destruct (_ && isMultiplexMultiHopFillCompatible (path quote) opts) eqn:E7; [|by left].
  right. apply andb_true_iff in E7 as [_ E7]. ok_inv H. injection H as <-.
  apply direct_guarded; [|by eapply multihop_guarded | by intros ->; right].
  unfold isMultiplexMultiHopFillCompatible in E7. by destruct (requiresTransformERC20 opts).
Qed.

(** ** RFQ and multiplex fills *)

(** The amounts an RFQ fill takes from the orders: never more than an order
    offers, and in total what is sold, or all the orders if they offer less. *)
Theorem rfq_fills_sell_amount orders ts remaining S :
  Forall2 (λ o t, fin (opt_takerAmount o) t ∧ (0 <= t)%Q) orders ts →
  fin remaining S → (0 <= S)%Q →
  ∃ qs, Forall2 fin (rfqFillAmounts orders remaining) qs ∧
    Forall2 (λ q t, 0 <= q <= t)%Q qs ts ∧ (Qsum qs == Qmin S (Qsum ts))%Q.
Proof.
  intros H. revert remaining S. induction H as [|o t orders ts [Ht Ht0] Hts IH]; intros remaining S HS HS0.
  - exists []. split; [constructor|]. split; [constructor|]. symmetry. by apply Q.min_r.
  - pose proof (fin_min2 _ _ _ _ Ht HS) as Hm.
    destruct (IH (minus remaining (min2 (opt_takerAmount o) remaining)) (S - Qmin t S)%Q)
      as (qs & Hqs & Hb & Hsum).
    { by apply fin_minus. }
    { pose proof (Q.le_min_r t S). lra. }
    exists (Qmin t S :: qs). split; [by constructor|]. split.
    + constructor; [|done]. split; [by apply Q.min_glb | apply Q.le_min_l].
    + rewrite !Qsum_cons, Hsum.
      destruct (Q.min_spec t S) as [[? E]|[? E]]; rewrite E.
      * destruct (Q.min_spec (S - t) (Qsum ts)) as [[? E2]|[? E2]],
          (Q.min_spec S (t + Qsum ts)) as [[? E3]|[? E3]]; rewrite E2, E3; lra.
      * assert (0 <= Qsum ts)%Q.
        { apply Qsum_nonneg. clear -Hts. induction Hts as [|? ? ? ? [_ ?]]; by constructor. }
        rewrite (Q.min_l (S - S)), (Q.min_l S) by lra. lra.
Qed.

(** A subcall settles an order: the pool or the signed order is the order's. *)
Definition subcall_settles (o : OptimizedOrder) (d : SubcallData) : Prop :=
  match opt_source o, d with
  | ERC20BridgeSource.Native, SubRfq order _ =>
      opt_type o = FillQuoteTransformerOrderType.Rfq ∧
      ∃ n, opt_fillData o = FDNative n ∧ order = native_order n
  | ERC20BridgeSource.Native, SubOtc order _ =>
      opt_type o = FillQuoteTransformerOrderType.Otc ∧
      ∃ n, opt_fillData o = FDNative n ∧ order = native_order n
  | ERC20BridgeSource.UniswapV2, SubUniswapV2 tokens false
  | ERC20BridgeSource.SushiSwap, SubUniswapV2 tokens true =>
      ∃ router, opt_fillData o = FDUniswapV2 tokens router
  | ERC20BridgeSource.UniswapV3, SubUniswapV3 p =>
      ∃ router tokens gas, opt_fillData o = FDFinalTickDEXMultiPath router tokens p gas
  | _, _ => False
  end.

(** The fill data of the multiplex sources has the shape of its source. *)
Definition multiplex_data (o : OptimizedOrder) : bool :=
  match opt_source o with
  | ERC20BridgeSource.UniswapV2 | ERC20BridgeSource.SushiSwap => is_ok (tokenAddressPathOf (opt_fillData o))
  | ERC20BridgeSource.UniswapV3 => is_ok (uniswapV3PathOf (opt_fillData o))
  | _ => true
  end.

(** An order a batch subcall can settle. *)
Record batchable (o : OptimizedOrder) : Prop := {
  ba_source : opt_source o ∈ MULTIPLEX_BATCH_FILL_SOURCES;
  ba_data : multiplex_data o = true;
  ba_native : opt_source o = ERC20BridgeSource.Native →
    (opt_type o = FillQuoteTransformerOrderType.Rfq ∨ opt_type o = FillQuoteTransformerOrderType.Otc) ∧
    ∃ n, opt_fillData o = FDNative n;
}.

Lemma batchSubcalls_total (quote : SwapQuote P) os :
  Forall batchable os →
  ∃ subcalls, batchSubcalls encodeBridgeSourceId abi_encode this quote os = Ok subcalls ∧
    Forall2 (λ o c, sub_sellAmount c = opt_takerAmount o ∧ subcall_settles o (sub_data c)) os subcalls.
Proof.
  induction 1 as [|o os [Hsrc Hdata Hnat] _ (subcalls & IH & Hall)].
  { exists []. split; [done | constructor]. }
  unfold multiplex_data in Hdata. unfold MULTIPLEX_BATCH_FILL_SOURCES in Hsrc.
  rewrite !elem_of_cons, elem_of_nil in Hsrc. cbn [batchSubcalls].
  destruct Hsrc as [E|[E|[E|[E|[]]]]]; rewrite E in *; cbn [is_ok] in Hdata.
  - destruct (opt_fillData o) eqn:Ed; try discriminate Hdata. cbn. rewrite IH. eexists.
    split; [reflexivity|]. constructor; [|done]. split; [done|]. unfold subcall_settles. rewrite E. simpl. eauto.
  - destruct (opt_fillData o) eqn:Ed; try discriminate Hdata. cbn. rewrite IH. eexists.
    split; [reflexivity|]. constructor; [|done]. split; [done|]. unfold subcall_settles. rewrite E. simpl. eauto.
  - destruct (Hnat eq_refl) as [[Et|Et] [n Hn]]; unfold isNonRfqOtc, nativeOrderOf; rewrite Et, Hn; cbn;
      rewrite IH; (eexists; split; [reflexivity|]; constructor; [|done]; split; [done|];
      unfold subcall_settles; rewrite E; simpl; eauto).
  - destruct (opt_fillData o) eqn:Ed; try discriminate Hdata. cbn. rewrite IH. eexists.
    split; [reflexivity|]. constructor; [|done]. split; [done|]. unfold subcall_settles. rewrite E. simpl. eauto.
Qed.

Lemma slipped_batchable side o o' : slipped_of side o o' → batchable o → batchable o'.
Proof. intros Hs [H1 H2 H3]. destruct side; rewrite Hs; by split. Qed.

Lemma compatible_batchable (quote : SwapQuote P) opts side :
  IPathLaws side (path quote) → isMultiplexBatchFillCompatible quote opts = true →
  Forall (λ o, multiplex_data o = true) (getOrders (path quote)) →
  twoHopOrders (getOrdersByType (path quote)) = [] ∧
  Forall batchable (nativeOrders (getOrdersByType (path quote)) ++ bridgeOrders (getOrdersByType (path quote))).
Proof.
  intros Hlaws H Hdata. unfold isMultiplexBatchFillCompatible in H.
  destruct (requiresTransformERC20 opts); [discriminate H|].
  destruct (hasTwoHop (path quote)) eqn:Eth; [discriminate H|].
  destruct (includes _ _) eqn:El; [discriminate H|]. apply includes_false in El.
  assert (twoHopOrders (getOrdersByType (path quote)) = []) as E0.
  { destruct (twoHopOrders _) eqn:E; [done|].
    assert (hasTwoHop (path quote) = true) by (apply (path_twoHop _ _ Hlaws); by rewrite E). congruence. }
  split; [done|]. pose proof (path_orders _ _ Hlaws) as Ho. unfold Path.flatten in Ho.
  rewrite E0 in Ho. simpl in Ho. rewrite app_nil_r in Ho. rewrite <- Ho.
  apply Forall_forall. intros o Hin.
  assert (opt_type o ≠ FillQuoteTransformerOrderType.Limit) as Hnl.
  { intros E. apply El. rewrite <- E. by apply (list_elem_of_fmap_2 opt_type). }
  split.
  - apply includes_true. eapply forallb_forall in H; [exact H|]. apply list_elem_of_In.
    by apply (list_elem_of_fmap_2 opt_source).
  - rewrite Forall_forall in Hdata. by apply Hdata.
  - intros Hn. pose proof (path_well_formed _ _ Hlaws) as Hwf. rewrite Forall_forall in Hwf.
    destruct (Hwf o Hin) as [Hb|(Hb & _ & n & Hfd)].
    + exfalso. rewrite Ho in Hin. apply elem_of_app in Hin as [Hin|Hin].
      * pose proof (path_native _ _ Hlaws) as Hp. rewrite Forall_forall in Hp. by apply (Hp o).
      * pose proof (path_bridge _ _ Hlaws) as Hp. rewrite Forall_forall in Hp. by apply (Hp o).
    + split; [|by exists n]. destruct (opt_type o); try done; [by left | by right].
Qed.

Lemma Forall2_Forall_l {A C} (R : A → C → Prop) (Q : A → Prop) (Q' : C → Prop) l k :
  Forall2 R l k → Forall Q l → (∀ x y, R x y → Q x → Q' y) → Forall Q' k.
Proof. intros H. induction H; inversion 1; subst; constructor; eauto. Qed.

(** C28. A quote that passes the test for a batch fill is encoded without fail, and
    without the transformer: one subcall per order, for the taker amount of the
    order and at the pool or the signed order it settles. *)
Theorem batch_fill_complete (quote : SwapQuote P) opts side os :
  IPathLaws side (path quote) → isMultiplexBatchFillCompatible quote opts = true →
  Forall (λ o, multiplex_data o = true) (getOrders (path quote)) →
  getSlippedOrders (path quote) (getMaxQuoteSlippageRate quote) = Ok os →
  ∃ subcalls, batchSubcalls encodeBridgeSourceId abi_encode this quote os = Ok subcalls ∧
    Forall2 (λ o c, sub_sellAmount c = opt_takerAmount o ∧ subcall_settles o (sub_data c)) os subcalls ∧
    is_ok (encodeMultiplexBatchFillCalldata encodeBridgeSourceId abi_encode this quote opts) = true.
Proof.
  intros Hlaws Hc Hdata Hos. destruct (compatible_batchable quote opts side Hlaws Hc Hdata) as [E0 Hb].
  assert (Forall batchable os) as Hbos.
  { rewrite (path_slipped _ _ Hlaws) in Hos. apply result_fmap_ok in Hos as (ty & Hty & ->).
    destruct (path_slipped_by_type _ _ Hlaws _ _ Hty) as [Hn Hbr Ht].
    rewrite E0 in Ht. apply Forall2_nil_inv_l in Ht. unfold Path.flatten. rewrite Ht, Hn. simpl.
    rewrite app_nil_r. apply Forall_app in Hb as [Hb1 Hb2]. apply Forall_app. split; [done|].
    eapply Forall2_Forall_l; [exact Hbr | exact Hb2|]. intros o o'. apply slipped_batchable. }
  destruct (batchSubcalls_total quote os Hbos) as (subcalls & Hs & Hall).
  exists subcalls. split_and!; [done | done|]. unfold encodeMultiplexBatchFillCalldata.
  rewrite Hos. cbn [mbind result_bind]. by rewrite Hs.
Qed.
End RouteFacts.

(** ** Concrete quotes *)
Module ConsumerExamples.
Import Concrete TransformExamples.

(** A hundred through one pool. *)
Definition quote2 : SwapQuote Path.t := quote_of PathExamples.path2 100 900.

Lemma laws2 : IPathLaws Sell (path quote2).
Proof.
  apply (Path_laws PathExamples.ctx PathExamples.fills2 (of_Z 100) PathExamples.opts).
  - reflexivity.
  - repeat constructor; vm_compute; reflexivity.
Qed.
End ConsumerExamples.

Import Concrete TransformExamples ConsumerExamples.

Lemma fees_need_transformer_witness :
  getCalldata encodeId encode deployment quote2 (opts_with [fee 50]) =
  (_ ← getSlippedOrders (path quote2) (getMaxQuoteSlippageRate quote2);
   createTransformERC20Calldata encodeId encode deployment quote2 (opts_with [fee 50])).
Proof.
  assert (requiresTransformERC20 (opts_with [fee 50]) = true) as K by (vm_compute; reflexivity).
  exact (fees_need_transformer encodeId encode deployment quote2 (opts_with [fee 50]) K).
Defined.

Lemma routes_guard_taker_witness :
  ∃ info, getCalldata encodeId encode deployment quote2 (opts_with []) = Ok info ∧
    (createTransformERC20Calldata encodeId encode deployment quote2 (opts_with []) = Ok info ∨
     guarded deployment quote2 (opts_with []) info).
Proof.
  assert (is_ok (getCalldata encodeId encode deployment quote2 (opts_with [])) = true) as K
    by (vm_compute; reflexivity).
  destruct (getCalldata encodeId encode deployment quote2 (opts_with [])) as [i|] eqn:E; [|discriminate K].
  exists i. split; [reflexivity|].
  exact (routes_guard_taker encodeId encode deployment quote2 (opts_with []) i E).
Defined.

Lemma rfq_fills_sell_amount_witness :
  ∃ qs, Forall2 fin (rfqFillAmounts (Path.getOrders PathExamples.path2) (of_Z 70)) qs ∧
    (Qsum qs == Qmin 70 (100 + 0))%Q.
Proof.
  assert (Forall2 (λ o t, fin (opt_takerAmount o) t ∧ (0 <= t)%Q)
    (Path.getOrders PathExamples.path2) [100%Q]) as H.
  { constructor; [split; [exact (fin_Z 100) | discriminate] | constructor]. }
  assert (0 <= 70)%Q as H0 by discriminate.
  pose proof (rfq_fills_sell_amount _ [100%Q] (of_Z 70) 70 H (fin_Z 70) H0) as (qs & H1 & _ & H2).
  exists qs. split; [exact H1 | exact H2].
Defined.

Lemma batch_fill_complete_witness :
  is_ok (encodeMultiplexBatchFillCalldata encodeId encode deployment quote2 (opts_with [])) = true.
Proof.
  assert (isMultiplexBatchFillCompatible quote2 (opts_with []) = true) as K by (vm_compute; reflexivity).
  assert (Forall (λ o, multiplex_data o = true) (getOrders (path quote2))) as Hd.
  { apply Forall_cons. split; [reflexivity | constructor]. }
  assert (is_ok (getSlippedOrders (path quote2) (getMaxQuoteSlippageRate quote2)) = true) as Hs
    by (vm_compute; reflexivity).
  destruct (getSlippedOrders (path quote2) (getMaxQuoteSlippageRate quote2)) as [os|] eqn:E; [|discriminate Hs].
  pose proof (batch_fill_complete encodeId encode deployment quote2 (opts_with []) Sell os laws2 K Hd E)
    as (subcalls & _ & _ & H).
  exact H.
Defined.
