(* ===== verification/RequestParsing.v ===== *)
(** * Reading requests ([utils/parse_utils.ts], [handlers/swap_handlers.ts])

    The integrators of the configuration ([config.ts]), the parsers of the
    source filters and of the affiliate fee, and the parameters of a
    [/swap/price] or [/swap/quote] request.  A query is a record of the optional
    strings that the parsers read; [undefined] is [None].  The JSON schema
    validator and the token lists are parameters. *)

From Stdlib Require Import Ascii.
From S2P Require Import Prelude JsLib JsNumber BigNum Types FeeCalculator Orders PathModel QuoteInfo.
From S2P Require Import QuoteReport Quotes.

(** ** [Number.parseFloat] *)

Fixpoint drop_digits (s : string) : string :=
  match s with
  | String c s' => if is_digit c then drop_digits s' else s
  | EmptyString => EmptyString
  end.

Definition digits_value (s : string) : Z := default 0 (parse_digits s).

(** An exponent part that is not complete is not read. *)
Definition exponent_part (s : string) : Z :=
  match s with
  | String c s' =>
      if Ascii.eqb c "e"%char || Ascii.eqb c "E"%char then
        match s' with
        | String d t =>
            if Ascii.eqb d "-"%char then - digits_value t
            else if Ascii.eqb d "+"%char then digits_value t else digits_value s'
        | EmptyString => 0
        end
      else 0
  | EmptyString => 0
  end.

Definition parse_unsigned_float (s : string) : number :=
  if String.prefix "Infinity" s then EInf false
  else
    let whole := digit_prefix s in
    let rest := drop_digits s in
    let '(fraction, rest) :=
      match rest with
      | String c t => if Ascii.eqb c "."%char then (digit_prefix t, drop_digits t) else (EmptyString, rest)
      | EmptyString => (EmptyString, rest)
      end in
    let digits := whole +:+ fraction in
    if String.eqb digits "" then ENaN
    else round64 (inject_Z (digits_value digits)
                  * inject_Z 10 ^ (exponent_part rest - Z.of_nat (String.length fraction))).

Definition parseFloat (s : string) : number :=
  match skip_spaces s with
  | String c s' =>
      if Ascii.eqb c "-"%char then ext_opp (parse_unsigned_float s')
      else if Ascii.eqb c "+"%char then parse_unsigned_float s'
      else parse_unsigned_float (String c s')
  | EmptyString => ENaN
  end.

(** [Number.parseFloat(s as string)] of an optional parameter: [undefined]
    is read as the string of that name. *)
Definition parseFloatParam (s : option string) : number := parseFloat (default "undefined" s).
(** [x || 0]. *)
Definition or_zero (x : number) : number := if n_truthy x then x else n_Z 0.

(** A truthy optional string: neither absent nor empty. *)
Definition truthy (s : option string) : bool :=
  match s with Some s => negb (String.eqb s "") | None => false end.
Definition is_param (s : option string) (v : string) : bool :=
  match s with Some s => String.eqb s v | None => false end.

Lemma truthy_some s : truthy s = true → ∃ x, s = Some x ∧ x ≠ ""%string.
Proof. destruct s as [x|]; [|done]. simpl. destruct (String.eqb_spec x ""); [done|]. by exists x. Qed.

(** ** Integrators ([config.ts]) *)

Record Integrator : Type := {
  int_apiKeys : list string;
  int_integratorId : string;
  int_label : string;
  int_rfqt : bool;
  int_slippageModel : option bool;
  int_positiveSlippagePercent : option number;
  int_feeRecipient : option string;
}.

Inductive KeyBy : Type := ByApiKeys | ByIntegratorId.

Section Config.
Variable INTEGRATORS_ACL : list Integrator.

Definition mapKeys (keyBy : KeyBy) (i : Integrator) : list string :=
  match keyBy with ByApiKeys => int_apiKeys i | ByIntegratorId => [int_integratorId i] end.

Definition transformIntegratorsAcl (integrators : list Integrator) (keyBy : KeyBy) : gmap string Integrator :=
  fold_left (λ result i, fold_left (λ result k, <[k := i]> result) (mapKeys keyBy i) result) integrators ∅.

Definition getIntegratorByIdOrThrow (integratorId : string) : result Integrator :=
  match transformIntegratorsAcl INTEGRATORS_ACL ByIntegratorId !! integratorId with
  | Some i => Ok i
  | None => Throw (Error ("Integrator " +:+ integratorId +:+ " does not exist."))
  end.

Definition getIntegratorIdForApiKey (apiKey : string) : option string :=
  int_integratorId <$> transformIntegratorsAcl INTEGRATORS_ACL ByApiKeys !! apiKey.

Definition getIntegratorIdFromLabel (label : string) : option string :=
  int_integratorId <$> head (bfilter (λ i, String.eqb (int_label i) label) INTEGRATORS_ACL).
Definition MATCHA_INTEGRATOR_ID : option string := getIntegratorIdFromLabel "Matcha".

(** The default order of strings. *)
Definition compare_strings (a b : string) : Z :=
  match String.compare a b with Lt => -1 | Eq => 0 | Gt => 1 end.
Definition RFQT_API_KEY_WHITELIST : list string :=
  JsLib.sort compare_strings (concat (int_apiKeys <$> bfilter int_rfqt INTEGRATORS_ACL)).

Lemma inner_insert_lookup (i : Integrator) (ks : list string) (m : gmap string Integrator) (k : string) :
  fold_left (λ result k, <[k := i]> result) ks m !! k = if bool_decide (k ∈ ks) then Some i else m !! k.
Proof.
  revert m. induction ks as [|k' ks IH]; intros m; [done|]. cbn [fold_left]. rewrite IH.
  destruct (bool_decide_reflect (k ∈ ks)) as [H|H].
  - rewrite bool_decide_eq_true_2; [done|]. by right.
  - destruct (decide (k = k')) as [->|Hne].
    + rewrite lookup_insert_eq, bool_decide_eq_true_2; [done|]. by left.
    + rewrite lookup_insert_ne by done. rewrite bool_decide_eq_false_2; [done|]. by rewrite elem_of_cons; intros [?|?].
Qed.

(** An entry of the map is an integrator under one of its keys, and every key
    of an integrator has an entry. *)
Lemma transform_acc keyBy integrators (m : gmap string Integrator) (k : string) :
  let m' := fold_left (λ result i, fold_left (λ result k, <[k := i]> result) (mapKeys keyBy i) result) integrators m in
  (∀ i, m' !! k = Some i → m !! k = Some i ∨ (i ∈ integrators ∧ k ∈ mapKeys keyBy i)) ∧
  (is_Some (m !! k) ∨ (∃ i, i ∈ integrators ∧ k ∈ mapKeys keyBy i) → is_Some (m' !! k)).
Proof.
  revert m. induction integrators as [|i0 l IH]; intros m; cbn [fold_left].
  - split; [auto|]. intros [?|(i & H & _)]; [done|]. by apply elem_of_nil in H.
  - destruct (IH (fold_left (λ result k, <[k := i0]> result) (mapKeys keyBy i0) m)) as [IH1 IH2].
    rewrite inner_insert_lookup in IH1, IH2. split.
    + intros i Hi. destruct (IH1 i Hi) as [H|[H1 H2]]; [|by right; split; [right|]].
      case_bool_decide as Hk; [|by left]. injection H as <-. right. split; [by left|done].
    + intros H. apply IH2. case_bool_decide as Hk; [left; by eexists|].
      destruct H as [H|(i & [->|H1]%elem_of_cons & H2)]; [by left | done | right; by exists i].
Qed.

Lemma transform_elem keyBy k i :
  transformIntegratorsAcl INTEGRATORS_ACL keyBy !! k = Some i → i ∈ INTEGRATORS_ACL ∧ k ∈ mapKeys keyBy i.
Proof. intros H. by destruct (proj1 (transform_acc keyBy INTEGRATORS_ACL ∅ k) i H). Qed.

Lemma transform_total keyBy k i :
  i ∈ INTEGRATORS_ACL → k ∈ mapKeys keyBy i → is_Some (transformIntegratorsAcl INTEGRATORS_ACL keyBy !! k).
Proof. intros H1 H2. apply (proj2 (transform_acc keyBy INTEGRATORS_ACL ∅ k)). right. by exists i. Qed.

(** The integrator of a key is found by its id. *)
Lemma integrator_of_key k id :
  getIntegratorIdForApiKey k = Some id →
  (∃ i, i ∈ INTEGRATORS_ACL ∧ k ∈ int_apiKeys i ∧ int_integratorId i = id) ∧
  ∃ i, getIntegratorByIdOrThrow id = Ok i ∧ i ∈ INTEGRATORS_ACL ∧ int_integratorId i = id.
Proof.
  unfold getIntegratorIdForApiKey. intros (i & Hi & ->)%fmap_Some_1.
  apply transform_elem in Hi as [Hi Hk]. split; [by exists i|].
  destruct (transform_total ByIntegratorId (int_integratorId i) i Hi) as [j Hj]; [by left|].
  unfold getIntegratorByIdOrThrow. rewrite Hj. exists j. split; [done|].
  apply transform_elem in Hj as [Hj Hk']. split; [done|]. by apply list_elem_of_singleton in Hk'.
Qed.
End Config.

(** ** [parseUtils] *)

Module ValidationErrorReasons.
Definition PercentageOutOfRange : string := "MUST_BE_LESS_THAN_OR_EQUAL_TO_ONE".
Definition ConflictingFilteringArguments : string := "CONFLICTING_FILTERING_ARGUMENTS".
Definition ArgumentNotYetSupported : string := "ARGUMENT_NOT_YET_SUPPORTED".
Definition InvalidApiKey : string := "INVALID_API_KEY".
Definition TakerAddressInvalid : string := "TAKER_ADDRESS_INVALID".
Definition RequiresIntentOnFilling : string := "REQUIRES_INTENT_ON_FILLING".
Definition FeeRecipientMissing : string := "FEE_RECIPIENT_MISSING".
Definition MinSlippageTooLow : string := "MINIMUM_SLIPPAGE_IS_TOO_LOW".
Definition PriceImpactTooHigh : string := "PRICE_IMPACT_TOO_HIGH".
Definition InvalidGaslessFeeType : string := "INVALID_GASLESS_FEE_TYPE".
Definition InvalidMetaTransactionVersion : string := "INVALID_META_TRANSACTION_VERSION".
End ValidationErrorReasons.

Definition validation_item (field : string) (code : ValidationErrorCodes.t) (reason : string) : ValidationErrorItem :=
  {| field := field; code := code; reason := reason |}.
(** A [ValidationError] of one item. *)
Definition invalid (field : string) (code : ValidationErrorCodes.t) (reason : string) : js_error :=
  ValidationError [validation_item field code reason].

Inductive Endpoint : Type := Price | Quote.
#[global] Instance Endpoint_eq_dec : EqDecision Endpoint.
Proof. solve_decision. Defined.

Record ParseRequestForExcludedSourcesParams : Type := {
  pe_takerAddress : option string;
  pe_excludedSources : option string;
  pe_includedSources : option string;
  pe_intentOnFilling : option string;
  pe_apiKey : option string;
}.

Record ParseRequestForExcludedSourcesResult : Type := {
  res_excludedSources : list ERC20BridgeSource;
  res_includedSources : list ERC20BridgeSource;
  res_nativeExclusivelyRFQT : bool;
}.

(** The member with a string value; other strings are not members. *)
Definition source_of_string (s : string) : option ERC20BridgeSource :=
  head (bfilter (λ source, String.eqb (ERC20BridgeSource.to_string source) s) ERC20BridgeSource.values).

(** The keys of an object keep the order in which they were first assigned. *)
Definition parseStringArrForERC20BridgeSources (sources : list string) : list ERC20BridgeSource :=
  uniq (omap source_of_string ((λ source, if String.eqb source "0x" then "Native"%string else source) <$> sources)).

(** [ids ? ids.split(',') : []]. *)
Definition splitIds (ids : option string) : list string :=
  match ids with
  | Some s => if String.eqb s "" then [] else split_on ","%char s
  | None => []
  end.

Definition parseRequestForExcludedSources (request : ParseRequestForExcludedSourcesParams)
    (validApiKeys : list string) (endpoint : Endpoint) : result ParseRequestForExcludedSourcesResult :=
  let excludedIds := splitIds (pe_excludedSources request) in
  let includedIds := splitIds (pe_includedSources request) in
  if negb (bool_decide (excludedIds = [])) && negb (bool_decide (includedIds = []))
  then Throw (ValidationError
    [validation_item "excludedSources" ValidationErrorCodes.IncorrectFormat
       ValidationErrorReasons.ConflictingFilteringArguments;
     validation_item "includedSources" ValidationErrorCodes.IncorrectFormat
       ValidationErrorReasons.ConflictingFilteringArguments])
  else if negb (bool_decide (excludedIds = [])) then
    Ok {| res_excludedSources := parseStringArrForERC20BridgeSources excludedIds;
          res_includedSources := [];
          res_nativeExclusivelyRFQT :=
            includes excludedIds "Mesh" && negb (includes excludedIds "0x") && negb (includes excludedIds "Native") |}
  else if includes includedIds "RFQT" then
    match pe_takerAddress request, pe_apiKey request with
    | None, _ => Throw (invalid "takerAddress" ValidationErrorCodes.RequiredField
                          ValidationErrorReasons.TakerAddressInvalid)
    | Some _, None => Throw (invalid "0x-api-key" ValidationErrorCodes.RequiredField
                               ValidationErrorReasons.InvalidApiKey)
    | Some _, Some apiKey =>
        if negb (includes validApiKeys apiKey)
        then Throw (invalid "0x-api-key" ValidationErrorCodes.FieldInvalid ValidationErrorReasons.InvalidApiKey)
        else if bool_decide (endpoint = Quote) && negb (is_param (pe_intentOnFilling request) "true")
        then Throw (invalid "intentOnFilling" ValidationErrorCodes.RequiredField
                      ValidationErrorReasons.RequiresIntentOnFilling)
        else Ok {| res_excludedSources := [];
                   res_includedSources := parseStringArrForERC20BridgeSources ("0x"%string :: includedIds);
                   res_nativeExclusivelyRFQT := negb (includes includedIds "0x") && negb (includes includedIds "Native") |}
    end
  else Ok {| res_excludedSources := [];
             res_includedSources := parseStringArrForERC20BridgeSources includedIds;
             res_nativeExclusivelyRFQT := false |}.

(** A field with a comma is a list. *)
Definition parseAssetDatasStringFromQueryParam (field : string) : string + list string :=
  if has_char ","%char field then inr (split_on ","%char field) else inl field.

(** [AffiliateFee]: a union whose gasless and positive slippage members have no
    percentages; [getBuyTokenPercentageFeeOrZero] does not read theirs. *)
Record AffiliateFee : Type := {
  af_feeType : AffiliateFeeType;
  af_recipient : string;
  af_sellTokenPercentageFee : number;
  af_buyTokenPercentageFee : number;
}.
#[global] Instance AffiliateFeeType_eq_dec : EqDecision AffiliateFeeType.
Proof. solve_decision. Defined.

Record FeeQuery : Type := {
  fq_feeRecipient : option string;
  fq_sellTokenPercentageFee : option string;
  fq_buyTokenPercentageFee : option string;
  fq_feeType : option string;
}.

Definition parseAffiliateFeeOptions (req : FeeQuery) : result AffiliateFee :=
  let sellTokenPercentageFee := or_zero (parseFloatParam (fq_sellTokenPercentageFee req)) in
  let buyTokenPercentageFee := or_zero (parseFloatParam (fq_buyTokenPercentageFee req)) in
  if ext_lt (n_Z 0) sellTokenPercentageFee
  then Throw (invalid "sellTokenPercentageFee" ValidationErrorCodes.UnsupportedOption
                ValidationErrorReasons.ArgumentNotYetSupported)
  else if ext_lt (n_Z 1) buyTokenPercentageFee
  then Throw (invalid "buyTokenPercentageFee" ValidationErrorCodes.ValueOutOfRange
                ValidationErrorReasons.PercentageOutOfRange)
  else
    let feeType :=
      if ext_lt (n_Z 0) buyTokenPercentageFee then PercentageFee
      else if is_param (fq_feeType req) "GASLESS_FEE" then GaslessFee else NoFee in
    if negb (bool_decide (feeType = NoFee)) && bool_decide (fq_feeRecipient req = None)
    then Throw (invalid "feeRecipient" ValidationErrorCodes.UnsupportedOption
                  ValidationErrorReasons.FeeRecipientMissing)
    else if truthy (fq_feeRecipient req)
    then Ok {| af_feeType := feeType; af_recipient := default "" (fq_feeRecipient req);
               af_sellTokenPercentageFee := sellTokenPercentageFee;
               af_buyTokenPercentageFee := buyTokenPercentageFee |}
    else Ok {| af_feeType := feeType; af_recipient := NULL_ADDRESS;
               af_sellTokenPercentageFee := n_Z 0; af_buyTokenPercentageFee := n_Z 0 |}.

(** ** The parameters of a swap ([types.ts]) *)

Section Params.
Context {B : BigNumberLib}.

(** The options that a request gives for RFQ.  The type of the code declares
    [nativeExclusivelyRFQ]; what the handler sets is [nativeExclusivelyRFQT],
    a key that nothing reads. *)
Record RfqtParams : Type := {
  rp_intentOnFilling : bool;
  rp_isIndicative : bool;
  rp_nativeExclusivelyRFQ : option bool;
  rp_nativeExclusivelyRFQT : bool;
}.

Record GetSwapQuoteParams : Type := {
  gp_endpoint : Endpoint;
  gp_sellToken : string;
  gp_buyToken : string;
  gp_sellAmount : option BN;
  gp_buyAmount : option BN;
  gp_takerAddress : option string;
  gp_apiKey : option string;
  gp_gasPrice : option BN;
  gp_slippagePercentage : option number;
  gp_excludedSources : list ERC20BridgeSource;
  gp_includedSources : option (list ERC20BridgeSource);
  gp_affiliateAddress : option string;
  gp_affiliateFee : AffiliateFee;
  gp_priceImpactProtectionPercentage : number;
  gp_rfqt : option RfqtParams;
  gp_skipValidation : bool;
  gp_shouldSellEntireBalance : bool;
  gp_isWrap : bool;
  gp_isUnwrap : bool;
  gp_isETHSell : bool;
  gp_isETHBuy : bool;
  gp_metaTransactionVersion : option MetaTransactionVersion;
  gp_integrator : option Integrator;
  gp_enableSlippageProtection : option bool;
  gp_feeConfigs : option FeeConfigs;
  gp_isDebugEnabled : bool;
}.

(** The query parameters and the [0x-api-key] header of a request. *)
Record SwapQuery : Type := {
  sq_sellToken : option string;
  sq_buyToken : option string;
  sq_sellAmount : option string;
  sq_buyAmount : option string;
  sq_takerAddress : option string;
  sq_affiliateAddress : option string;
  sq_gasPrice : option string;
  sq_slippagePercentage : option string;
  sq_priceImpactProtectionPercentage : option string;
  sq_excludedSources : option string;
  sq_includedSources : option string;
  sq_intentOnFilling : option string;
  sq_skipValidation : option string;
  sq_shouldSellEntireBalance : option string;
  sq_debug : option string;
  sq_enableSlippageProtection : option string;
  sq_fee : FeeQuery;
}.

(** [constants.ts] *)
Definition DEFAULT_QUOTE_SLIPPAGE_PERCENTAGE : number := round64 (1 # 100).
Definition DEFAULT_PRICE_IMPACT_PROTECTION_PERCENTAGE : number := n_Z 1.
Definition DEFAULT_ENABLE_SLIPPAGE_PROTECTION : bool := true.

Definition parseOptionalBooleanParam (param : option string) (defaultValue : bool) : bool :=
  match param with
  | None => defaultValue
  | Some s => if String.eqb s "" then defaultValue else String.eqb s "true"
  end.

(** The configuration and the collaborators outside the repository: the schema
    validator, [@0x/token-metadata] (which may throw on a missing token) and the
    decimal parser. *)
Variable INTEGRATORS_ACL : list Integrator.
Variable NATIVE_FEE_TOKEN : string.
Variable validateSchema : SwapQuery → result unit.
Variable isNativeSymbolOrAddress : option string → result bool.
Variable isNativeWrappedSymbolOrAddress : string → result bool.
Variable findTokenAddressOrThrow : option string → string + string.
Variable bn_of_string : string → BN.

(** [inl] is the address, [inr] the message of the exception. *)
Definition findTokenAddressOrThrowApiError (address : option string) (field : string) : result string :=
  match findTokenAddressOrThrow address with
  | inl token => Ok token
  | inr message => Throw (invalid field ValidationErrorCodes.ValueOutOfRange message)
  end.

(** Both tokens of a request are to blame. *)
Definition invalid_tokens (code : ValidationErrorCodes.t) (reason : string) : js_error :=
  ValidationError ((λ field, validation_item field code reason) <$> ["buyToken"; "sellToken"]%string).

(** Tokens, in lower case, and whether the native token is sold or bought. *)
Record SwapTokens : Type := {
  tk_sellToken : string; tk_buyToken : string;
  tk_isNativeSell : bool; tk_isNativeBuy : bool; tk_isWrap : bool; tk_isUnwrap : bool;
}.

Definition parseTokens (q : SwapQuery) : result SwapTokens :=
  isNativeSell ← isNativeSymbolOrAddress (sq_sellToken q);
  isNativeBuy ← isNativeSymbolOrAddress (sq_buyToken q);
  sellToken ← findTokenAddressOrThrowApiError
    (if isNativeSell : bool then Some NATIVE_FEE_TOKEN else sq_sellToken q) "sellToken";
  buyToken ← findTokenAddressOrThrowApiError
    (if isNativeBuy : bool then Some NATIVE_FEE_TOKEN else sq_buyToken q) "buyToken";
  let sellToken := toLowerCase sellToken in
  let buyToken := toLowerCase buyToken in
  isWrap ← (if isNativeSell : bool then isNativeWrappedSymbolOrAddress buyToken else Ok false);
  sellsWrapped ← isNativeWrappedSymbolOrAddress sellToken;
  let isUnwrap := sellsWrapped && isNativeBuy in
  if negb isUnwrap && negb isWrap && String.eqb sellToken buyToken
  then Throw (invalid_tokens ValidationErrorCodes.RequiredField "buyToken and sellToken must be different")
  else if String.eqb sellToken NULL_ADDRESS || String.eqb buyToken NULL_ADDRESS
  then Throw (invalid_tokens ValidationErrorCodes.FieldInvalid "Invalid token combination")
  else Ok {| tk_sellToken := sellToken; tk_buyToken := buyToken;
             tk_isNativeSell := isNativeSell; tk_isNativeBuy := isNativeBuy;
             tk_isWrap := isWrap; tk_isUnwrap := isUnwrap |}.

(** A percentage parameter with its default; more than one is refused. *)
Definition parsePercentage (param : option string) (defaultValue : number) (field : string) : result number :=
  let percentage := match param with None => defaultValue | Some s => parseFloat s end in
  if ext_lt (n_Z 1) percentage
  then Throw (invalid field ValidationErrorCodes.ValueOutOfRange ValidationErrorReasons.PercentageOutOfRange)
  else Ok percentage.

(** [skipValidation]: quotes of Matcha are always validated. *)
Definition parseSkipValidation (q : SwapQuery) (endpoint : Endpoint) (integratorId : option string) : bool :=
  let defaultSkipValidation := bool_decide (endpoint = Price) in
  let skipValidation :=
    match sq_skipValidation q with None => defaultSkipValidation | Some s => String.eqb s "true" end in
  if bool_decide (endpoint = Quote) && negb (bool_decide (integratorId = None))
     && bool_decide (integratorId = MATCHA_INTEGRATOR_ID INTEGRATORS_ACL)
  then false else skipValidation.

Definition parseRfqt (q : SwapQuery) (endpoint : Endpoint) (apiKey : option string)
    (nativeExclusivelyRFQT : bool) : option RfqtParams :=
  if truthy apiKey then
    match endpoint with
    | Quote =>
        if truthy (sq_takerAddress q)
        then Some {| rp_intentOnFilling := is_param (sq_intentOnFilling q) "true"; rp_isIndicative := false;
                     rp_nativeExclusivelyRFQ := None; rp_nativeExclusivelyRFQT := nativeExclusivelyRFQT |}
        else None
    | Price => Some {| rp_intentOnFilling := false; rp_isIndicative := true;
                       rp_nativeExclusivelyRFQ := None; rp_nativeExclusivelyRFQT := nativeExclusivelyRFQT |}
    end
  else None.

Definition isAllExcluded (excludedSources : list ERC20BridgeSource) : bool :=
  forallb (includes excludedSources) ERC20BridgeSource.values.

Definition parseSwapQuoteRequestParams (q : SwapQuery) (apiKey : option string) (endpoint : Endpoint)
    : result GetSwapQuoteParams :=
  _ ← validateSchema q;
  let integratorId := if truthy apiKey then apiKey ≫= getIntegratorIdForApiKey INTEGRATORS_ACL else None in
  tokens ← parseTokens q;
  slippagePercentage ← parsePercentage (sq_slippagePercentage q) DEFAULT_QUOTE_SLIPPAGE_PERCENTAGE "slippagePercentage";
  priceImpact ← parsePercentage (sq_priceImpactProtectionPercentage q) DEFAULT_PRICE_IMPACT_PROTECTION_PERCENTAGE
    "priceImpactProtectionPercentage";
  sources ← parseRequestForExcludedSources
    {| pe_takerAddress := sq_takerAddress q; pe_excludedSources := sq_excludedSources q;
       pe_includedSources := sq_includedSources q; pe_intentOnFilling := sq_intentOnFilling q;
       pe_apiKey := apiKey |} (RFQT_API_KEY_WHITELIST INTEGRATORS_ACL) endpoint;
  if isAllExcluded (res_excludedSources sources)
  then Throw (invalid "excludedSources" ValidationErrorCodes.ValueOutOfRange "Request excluded all sources")
  else
    affiliateFee ← parseAffiliateFeeOptions (sq_fee q);
    integrator ← (if truthy integratorId
                  then Some <$> getIntegratorByIdOrThrow INTEGRATORS_ACL (default "" integratorId) else Ok None);
    Ok {| gp_endpoint := endpoint; gp_sellToken := tk_sellToken tokens; gp_buyToken := tk_buyToken tokens;
          gp_sellAmount := bn_of_string <$> sq_sellAmount q; gp_buyAmount := bn_of_string <$> sq_buyAmount q;
          gp_takerAddress := sq_takerAddress q; gp_apiKey := apiKey; gp_gasPrice := bn_of_string <$> sq_gasPrice q;
          gp_slippagePercentage := Some slippagePercentage;
          gp_excludedSources := res_excludedSources sources;
          gp_includedSources := Some (res_includedSources sources);
          gp_affiliateAddress := sq_affiliateAddress q; gp_affiliateFee := affiliateFee;
          gp_priceImpactProtectionPercentage := priceImpact;
          gp_rfqt := parseRfqt q endpoint apiKey (res_nativeExclusivelyRFQT sources);
          gp_skipValidation := parseSkipValidation q endpoint integratorId;
          gp_shouldSellEntireBalance := is_param (sq_shouldSellEntireBalance q) "true";
          gp_isWrap := tk_isWrap tokens; gp_isUnwrap := tk_isUnwrap tokens;
          gp_isETHSell := tk_isNativeSell tokens; gp_isETHBuy := tk_isNativeBuy tokens;
          gp_metaTransactionVersion := None; gp_integrator := integrator;
          gp_enableSlippageProtection :=
            Some (parseOptionalBooleanParam (sq_enableSlippageProtection q) DEFAULT_ENABLE_SLIPPAGE_PROTECTION);
          gp_feeConfigs := None; gp_isDebugEnabled := is_param (sq_debug q) "true" |}.
End Params.

(** ** What is read *)

Lemma source_of_to_string s : source_of_string (ERC20BridgeSource.to_string s) = Some s.
Proof. by destruct s. Qed.

Lemma source_of_string_some s source : source_of_string s = Some source → ERC20BridgeSource.to_string source = s.
Proof.
  unfold source_of_string. intros H%head_Some_elem_of. by apply elem_of_bfilter in H as [_ H%String.eqb_eq].
Qed.

(** The sources of a list of ids: those that an id names, once each. *)
Lemma parsed_sources ids :
  NoDup (parseStringArrForERC20BridgeSources ids) ∧
  ∀ s, s ∈ parseStringArrForERC20BridgeSources ids ↔
    ERC20BridgeSource.to_string s ∈ ids ∨ (s = ERC20BridgeSource.Native ∧ "0x"%string ∈ ids).
Proof.
  unfold parseStringArrForERC20BridgeSources. split; [apply NoDup_uniq|]. intros s.
  rewrite elem_of_uniq, list_elem_of_omap. split.
  - intros (x & (id & -> & Hid)%list_elem_of_fmap & Hx). destruct (String.eqb_spec id "0x") as [->|Hne].
    + right. split; [by injection Hx|done].
    + left. by rewrite (source_of_string_some _ _ Hx).
  - intros [H|[-> H]].
    + exists (ERC20BridgeSource.to_string s). split; [|apply source_of_to_string].
      apply list_elem_of_fmap. exists (ERC20BridgeSource.to_string s). split; [|done]. by destruct s.
    + exists "Native"%string. split; [|done]. apply list_elem_of_fmap. by exists "0x"%string.
Qed.

Definition is_validation_error (e : js_error) : Prop := ∃ items, e = ValidationError items.

Lemma invalid_is_validation_error f c r : is_validation_error (invalid f c r).
Proof. by eexists. Qed.

#[export] Hint Resolve invalid_is_validation_error : requests.
#[export] Hint Extern 1 (is_validation_error (ValidationError _)) => eexists; reflexivity : requests.

(** What the source filters of a request come to: at most one of the lists is
    used, and only requests that ask for RFQ alone, with a taker, a known key
    and, for a quote, the intent to fill, leave out the open orders. *)
Lemma parsed_filters r keys endpoint :
  match parseRequestForExcludedSources r keys endpoint with
  | Ok res =>
      (res_excludedSources res = [] ∨ res_includedSources res = []) ∧
      (res_nativeExclusivelyRFQT res = true → splitIds (pe_excludedSources r) = [] →
       ERC20BridgeSource.Native ∈ res_includedSources res ∧
       ∃ taker key, pe_takerAddress r = Some taker ∧ pe_apiKey r = Some key ∧ key ∈ keys ∧
         (endpoint = Quote → pe_intentOnFilling r = Some "true"%string))
  | Throw e => is_validation_error e
  end.
Proof.
  unfold parseRequestForExcludedSources. case_bool_decide as E1; cbn [negb andb].
  2:{ destruct (negb _); [auto with requests|]. split; [by right | done]. }
  destruct (includes _ "RFQT"); [|by (split; [left|])].
  destruct (pe_takerAddress r) as [taker|]; [|auto with requests].
  destruct (pe_apiKey r) as [key|]; [|auto with requests].
  destruct (includes keys key) eqn:Ek; cbn [negb]; [|auto with requests]. apply includes_true in Ek.
  destruct (bool_decide (endpoint = Quote) && _) eqn:Ei; [auto with requests|].
  split; [by left|]. intros _ _. split.
  - apply parsed_sources. right. split; [done | by left].
  - exists taker, key. split_and!; try done. intros ->. rewrite bool_decide_eq_true_2 in Ei by done.
    apply negb_false_iff in Ei. unfold is_param in Ei.
    destruct (pe_intentOnFilling r) as [s|]; [|done]. by apply String.eqb_eq in Ei as ->.
Qed.

(** The fee of a request: nothing is charged on the sold token, at most all of
    what is bought, and a fee needs a recipient. *)
Definition valid_fee (fee : AffiliateFee) : Prop :=
  ext_lt (n_Z 0) (af_sellTokenPercentageFee fee) = false ∧
  ext_lt (n_Z 1) (af_buyTokenPercentageFee fee) = false ∧
  (af_feeType fee = NoFee → ext_lt (n_Z 0) (af_buyTokenPercentageFee fee) = false) ∧
  (af_feeType fee = PercentageFee → af_recipient fee ≠ NULL_ADDRESS →
   ext_lt (n_Z 0) (af_buyTokenPercentageFee fee) = true) ∧
  af_feeType fee ≠ PositiveSlippageFee ∧ af_recipient fee ≠ ""%string.

Lemma parsed_fee req :
  match parseAffiliateFeeOptions req with
  | Ok fee => valid_fee fee
  | Throw e => is_validation_error e
  end.
Proof.
  unfold parseAffiliateFeeOptions. destruct (ext_lt (n_Z 0) (or_zero (parseFloatParam (fq_sellTokenPercentageFee req)))) eqn:E1;
    [auto with requests|].
  set (pct := or_zero (parseFloatParam (fq_buyTokenPercentageFee req))).
  destruct (ext_lt (n_Z 1) pct) eqn:E2; [auto with requests|].
  set (ty := if ext_lt (n_Z 0) pct then PercentageFee
             else if is_param (fq_feeType req) "GASLESS_FEE" then GaslessFee else NoFee).
  assert ((ty = NoFee → ext_lt (n_Z 0) pct = false) ∧ (ty = PercentageFee → ext_lt (n_Z 0) pct = true) ∧
          ty ≠ PositiveSlippageFee) as (H1 & H2 & H3).
  { unfold ty. by destruct (ext_lt (n_Z 0) pct), (is_param (fq_feeType req) "GASLESS_FEE"). }
  destruct (negb (bool_decide (ty = NoFee)) && _); [auto with requests|].
  destruct (truthy (fq_feeRecipient req)) eqn:E4; unfold valid_fee; simpl.
  - apply truthy_some in E4 as (x & -> & Hx). simpl. split_and!; auto.
  - split_and!; done.
Qed.

Section ParamsFacts.
Context {B : BigNumberLib}.
Variable INTEGRATORS_ACL : list Integrator.
Variable NATIVE_FEE_TOKEN : string.
Variable validateSchema : SwapQuery → result unit.
Variable isNativeSymbolOrAddress : option string → result bool.
Variable isNativeWrappedSymbolOrAddress : string → result bool.
Variable findTokenAddressOrThrow : option string → string + string.
Variable bn_of_string : string → BN.

Local Notation parse := (parseSwapQuoteRequestParams INTEGRATORS_ACL NATIVE_FEE_TOKEN validateSchema
  isNativeSymbolOrAddress isNativeWrappedSymbolOrAddress findTokenAddressOrThrow bn_of_string).
Local Notation tokensOf := (parseTokens NATIVE_FEE_TOKEN isNativeSymbolOrAddress isNativeWrappedSymbolOrAddress
  findTokenAddressOrThrow).

(** The documented behaviour of the collaborators: a request that the schema
    accepts has tokens to look at, and the schema validator throws validation
    errors only. *)
Record RequestCollaborators : Prop := {
  schema_errors q e : validateSchema q = Throw e → is_validation_error e;
  native_total t : ∃ b, isNativeSymbolOrAddress t = Ok b;
  wrapped_total t : ∃ b, isNativeWrappedSymbolOrAddress t = Ok b;
}.

Lemma parsed_tokens q :
  RequestCollaborators →
  match tokensOf q with
  | Ok tk =>
      (tk_isWrap tk = false → tk_isUnwrap tk = false → tk_sellToken tk ≠ tk_buyToken tk) ∧
      tk_sellToken tk ≠ NULL_ADDRESS ∧ tk_buyToken tk ≠ NULL_ADDRESS ∧
      toLowerCase (tk_sellToken tk) = tk_sellToken tk ∧ toLowerCase (tk_buyToken tk) = tk_buyToken tk
  | Throw e => is_validation_error e
  end.
Proof.
  intros [_ Hn Hw]. unfold parseTokens, findTokenAddressOrThrowApiError.
  destruct (Hn (sq_sellToken q)) as [ns ->], (Hn (sq_buyToken q)) as [nb ->]. simpl.
  destruct (findTokenAddressOrThrow (if ns then _ else _)) as [sell|m]; simpl; [|auto with requests].
  destruct (findTokenAddressOrThrow (if nb then _ else _)) as [buy|m]; simpl; [|auto with requests].
  destruct (Hw (toLowerCase buy)) as [wb Eb], (Hw (toLowerCase sell)) as [ws Es]. rewrite Eb, Es.
  assert (∃ w, (if ns then Ok wb else Ok false) = Ok w) as [w ->] by (destruct ns; by eexists). simpl.
  destruct (negb _ && negb w && _) eqn:E1; [unfold invalid_tokens; auto with requests|].
  destruct (_ || _) eqn:E2; [unfold invalid_tokens; auto with requests|].
  apply orb_false_iff in E2 as [E2%String.eqb_neq E3%String.eqb_neq].
  cbn [tk_sellToken tk_buyToken tk_isWrap tk_isUnwrap]. rewrite !toLowerCase_idem. split_and!; try done.
  intros -> E4. rewrite E4 in E1. by apply String.eqb_neq in E1.
Qed.

Lemma parsed_percentage param d f :
  ext_lt (n_Z 1) d = false →
  match parsePercentage param d f with
  | Ok x => ext_lt (n_Z 1) x = false
  | Throw e => is_validation_error e
  end.
Proof.
  intros Hd. unfold parsePercentage. set (x := match param with None => d | Some s => parseFloat s end).
  destruct (ext_lt (n_Z 1) x) eqn:E; [apply invalid_is_validation_error | exact E].
Qed.

(** The parameters of a request that is accepted. *)
Record well_formed_params (p : GetSwapQuoteParams) : Prop := {
  wp_tokens : gp_isWrap p = false → gp_isUnwrap p = false → gp_sellToken p ≠ gp_buyToken p;
  wp_sellToken : gp_sellToken p ≠ NULL_ADDRESS;
  wp_buyToken : gp_buyToken p ≠ NULL_ADDRESS;
  wp_slippage : ∃ s, gp_slippagePercentage p = Some s ∧ ext_lt (n_Z 1) s = false;
  wp_priceImpact : ext_lt (n_Z 1) (gp_priceImpactProtectionPercentage p) = false;
  wp_filters : gp_excludedSources p = [] ∨ gp_includedSources p = Some [];
  wp_excluded : ∃ s, s ∉ gp_excludedSources p;
  wp_fee : valid_fee (gp_affiliateFee p);
  wp_integrator i : gp_integrator p = Some i → ∃ key j, gp_apiKey p = Some key ∧
    i ∈ INTEGRATORS_ACL ∧ j ∈ INTEGRATORS_ACL ∧ key ∈ int_apiKeys j ∧ int_integratorId j = int_integratorId i;
  wp_rfqt r : gp_rfqt p = Some r → truthy (gp_apiKey p) = true ∧
    (rp_isIndicative r = true ↔ gp_endpoint p = Price) ∧
    (rp_intentOnFilling r = true → gp_endpoint p = Quote ∧ truthy (gp_takerAddress p) = true);
  wp_noMetaTransaction : gp_metaTransactionVersion p = None ∧ gp_feeConfigs p = None;
}.

Lemma parseRfqt_some q endpoint apiKey native r :
  parseRfqt q endpoint apiKey native = Some r →
  truthy apiKey = true ∧ (rp_isIndicative r = true ↔ endpoint = Price) ∧
  (rp_intentOnFilling r = true → endpoint = Quote ∧ truthy (sq_takerAddress q) = true) ∧
  rp_nativeExclusivelyRFQ r = None.
Proof.
  unfold parseRfqt. destruct (truthy apiKey), endpoint, (truthy (sq_takerAddress q)); intros H; try done;
    injection H as <-; simpl; split_and!; done.
Qed.

Lemma not_all_excluded l : isAllExcluded l = false → ∃ s : ERC20BridgeSource, s ∉ l.
Proof.
  unfold isAllExcluded.
  intros H. destruct (list_find (λ s, includes l s = false) ERC20BridgeSource.values) as [[i s]|] eqn:E.
  - apply list_find_Some in E as (_ & E & _). exists s. by apply includes_false in E.
  - exfalso. apply not_true_iff_false in H. apply H. apply forallb_forall. intros s Hs.
    rewrite <- list_elem_of_In in Hs. apply list_find_None in E. rewrite Forall_forall in E.
    specialize (E s Hs). by apply not_false_is_true.
Qed.

(** A source that a list of ids names. *)
Definition named_by (param : option string) (s : ERC20BridgeSource) : Prop :=
  ERC20BridgeSource.to_string s ∈ splitIds param ∨ (s = ERC20BridgeSource.Native ∧ "0x"%string ∈ splitIds param).

Lemma parsed_named param s : s ∈ parseStringArrForERC20BridgeSources (splitIds param) ↔ named_by param s.
Proof. apply (proj2 (parsed_sources _)). Qed.

(** What a query says about its sources is what is asked of the service: RFQ
    liquidity, which is not a source, stands for the native one. *)
Lemma parsed_query_sources q apiKey endpoint p :
  parse q apiKey endpoint = Ok p →
  (∀ s, s ∈ gp_excludedSources p ↔ named_by (sq_excludedSources q) s) ∧
  ∃ included, gp_includedSources p = Some included ∧
    ∀ s, s ∈ included ↔ named_by (sq_includedSources q) s ∨
      (s = ERC20BridgeSource.Native ∧ "RFQT"%string ∈ splitIds (sq_includedSources q)).
Proof.
  unfold parseSwapQuoteRequestParams. intros H. apply result_bind_ok in H as (_ & _ & H). cbv zeta in H.
  apply result_bind_ok in H as (tk & _ & H). apply result_bind_ok in H as (slip & _ & H).
  apply result_bind_ok in H as (pi & _ & H). apply result_bind_ok in H as (res & Hr & H).
  destruct (isAllExcluded _); [done|]. apply result_bind_ok in H as (fee & _ & H).
  apply result_bind_ok in H as (oi & _ & H). apply Ok_inj in H as <-. cbn [gp_excludedSources gp_includedSources].
  unfold parseRequestForExcludedSources in Hr.
  cbn [pe_excludedSources pe_includedSources pe_takerAddress pe_apiKey pe_intentOnFilling] in Hr.
  destruct (negb _ && negb _) eqn:Eb; [done|]. destruct (bool_decide (splitIds (sq_excludedSources q) = [])) eqn:Ee.
  - apply bool_decide_eq_true in Ee. cbn [negb] in Hr.
    assert (∀ s, s ∈ [] ↔ named_by (sq_excludedSources q) s) as Hex
      by (intros s; unfold named_by; rewrite Ee, !elem_of_nil; tauto).
    destruct (includes (splitIds (sq_includedSources q)) "RFQT") eqn:Ei.
    + apply includes_true in Ei. destruct (sq_takerAddress q) as [taker|]; [|done]. destruct apiKey as [key|]; [|done].
      destruct (negb (includes _ _)); [done|]. destruct (bool_decide _ && _); [done|]. apply Ok_inj in Hr as <-.
      split; [exact Hex|]. eexists. split; [reflexivity|]. intros s. cbn [res_includedSources].
      rewrite (proj2 (parsed_sources _)), !elem_of_cons. unfold named_by.
      assert (ERC20BridgeSource.to_string s ≠ "0x"%string) by by destruct s. tauto.
    + apply includes_false in Ei. apply Ok_inj in Hr as <-. split; [exact Hex|]. eexists. split; [reflexivity|].
      intros s. cbn [res_includedSources]. rewrite parsed_named. tauto.
  - apply andb_false_iff in Eb as [Eb|Eb]; [by destruct (bool_decide (splitIds (sq_excludedSources q) = []))|].
    apply negb_false_iff, bool_decide_eq_true in Eb. cbn [negb] in Hr. apply Ok_inj in Hr as <-.
    split; [intros s; apply parsed_named|]. eexists. split; [reflexivity|]. intros s. cbn [res_includedSources].
    unfold named_by. rewrite Eb, !elem_of_nil. tauto.
Qed.

(** A request is either read into well formed parameters or refused with a
    validation error; in particular the integrator of a known key is always
    found. *)
Theorem parsed_request q apiKey endpoint :
  RequestCollaborators →
  match parse q apiKey endpoint with
  | Ok p => well_formed_params p
  | Throw e => is_validation_error e
  end.
Proof.
  intros Hc. unfold parseSwapQuoteRequestParams.
  destruct (validateSchema q) as [[]|e] eqn:Ev; simpl; [|by eapply schema_errors].
  set (integratorId := if truthy apiKey then _ else _).
  pose proof (parsed_tokens q Hc) as Ht. destruct (parseTokens _ _ _ _ q) as [tk|e]; simpl; [|done].
  pose proof (parsed_percentage (sq_slippagePercentage q) DEFAULT_QUOTE_SLIPPAGE_PERCENTAGE "slippagePercentage" eq_refl) as Hs.
  destruct (parsePercentage _ _ "slippagePercentage") as [s|e]; simpl; [|done].
  pose proof (parsed_percentage (sq_priceImpactProtectionPercentage q) DEFAULT_PRICE_IMPACT_PROTECTION_PERCENTAGE
    "priceImpactProtectionPercentage" eq_refl) as Hp.
  destruct (parsePercentage _ _ "priceImpactProtectionPercentage") as [pi|e]; simpl; [|done].
  set (r := {| pe_takerAddress := _ |}). pose proof (parsed_filters r (RFQT_API_KEY_WHITELIST INTEGRATORS_ACL) endpoint) as Hf.
  destruct (parseRequestForExcludedSources r _ endpoint) as [res|e]; simpl; [|done].
  destruct (isAllExcluded _) eqn:Ea; [auto with requests|].
  pose proof (parsed_fee (sq_fee q)) as Hfee. destruct (parseAffiliateFeeOptions _) as [fee|e]; simpl; [|done].
  assert (∃ oi, (if truthy integratorId then Some <$> getIntegratorByIdOrThrow INTEGRATORS_ACL (default "" integratorId)
      else Ok None) = Ok oi ∧ ∀ i, oi = Some i → ∃ key j, apiKey = Some key ∧ i ∈ INTEGRATORS_ACL ∧
      j ∈ INTEGRATORS_ACL ∧ key ∈ int_apiKeys j ∧ int_integratorId j = int_integratorId i) as (oi & -> & Hi).
  { destruct (truthy integratorId) eqn:Et; [|by exists None]. apply truthy_some in Et as (id & Eid & _).
    rewrite Eid. change (default ""%string (Some id)) with id. unfold integratorId in Eid. destruct (truthy apiKey); [|done].
    destruct apiKey as [key|]; [|done]. apply integrator_of_key in Eid as ((j & Hj & Hk & Ej) & i & -> & Hi & Ei).
    exists (Some i). split; [done|]. intros ? [= <-]. exists key, j. split_and!; try done. congruence. }
  simpl. destruct Ht as (T1 & T2 & T3 & _ & _), Hf as [F _].
  split; simpl; try done; [by exists s | by destruct F as [->| ->]; [left | right] | by apply not_all_excluded |].
  intros r' (H1 & H2 & H3 & _)%parseRfqt_some. done.
Qed.
End ParamsFacts.

(** ** An example *)

Module RequestExamples.
Import Concrete.

Definition integrator : Integrator := {|
  int_apiKeys := ["key"%string]; int_integratorId := "id"; int_label := "label"; int_rfqt := true;
  int_slippageModel := None; int_positiveSlippagePercent := None; int_feeRecipient := None |}.

(** A quote of RFQ liquidity only, with a fee of a tenth. *)
Definition query : SwapQuery := {|
  sq_sellToken := Some "ETH"%string; sq_buyToken := Some "0xDAI"%string; sq_sellAmount := Some "1000"%string;
  sq_buyAmount := None; sq_takerAddress := Some "0xtaker"%string; sq_affiliateAddress := None; sq_gasPrice := None;
  sq_slippagePercentage := Some "0.03"%string; sq_priceImpactProtectionPercentage := None;
  sq_excludedSources := None; sq_includedSources := Some "RFQT"%string; sq_intentOnFilling := Some "true"%string;
  sq_skipValidation := Some "true"%string; sq_shouldSellEntireBalance := None; sq_debug := None;
  sq_enableSlippageProtection := None;
  sq_fee := {| fq_feeRecipient := Some "0xfee"%string; fq_sellTokenPercentageFee := None;
               fq_buyTokenPercentageFee := Some "0.1"%string; fq_feeType := None |} |}.

Definition isNative (t : option string) : result bool := Ok (bool_decide (t = Some "ETH"%string)).
Definition isWrapped (t : string) : result bool := Ok (String.eqb t "0xweth").
Definition find (t : option string) : string + string :=
  match t with Some t => inl t | None => inr "no token"%string end.
Definition read (s : string) : ext := EFin (inject_Z (default 0 (parseInt s))).

Definition parsed (q : SwapQuery) : result (GetSwapQuoteParams (B := QBigNumber)) :=
  parseSwapQuoteRequestParams (B := QBigNumber) [integrator] "0xWETH" (λ _, Ok tt) isNative isWrapped find read
    q (Some "key"%string) Quote.

Lemma collaborators : RequestCollaborators (λ _, Ok tt) isNative isWrapped.
Proof. split; [done | by eexists | by eexists]. Qed.

(** The request is read, without its wish for RFQ liquidity only. *)
Example rfqt_flag_lost :
  match parsed query with
  | Ok p => match gp_rfqt p with
            | Some r => rp_nativeExclusivelyRFQT r && bool_decide (rp_nativeExclusivelyRFQ r = None)
            | None => false
            end
  | Throw _ => false
  end = true.
Proof. vm_compute. reflexivity. Qed.

Example floats :
  (ext_eqb (parseFloat " 12.5e1x") (n_Z 125) && ext_eqb (parseFloat "-.5") (EFin (-1 # 2))
   && ext_is_nan (parseFloat "e5") && ext_eqb (parseFloat "3.") (n_Z 3) && ext_eqb (parseFloat "0.1") (round64 (1 # 10))) = true.
Proof. vm_compute. reflexivity. Qed.

Lemma parsed_request_witness :
  ∃ p, parsed query = Ok p ∧ well_formed_params (B := QBigNumber) [integrator] p.
Proof.
  pose proof (parsed_request (B := QBigNumber) [integrator] "0xWETH" (λ _, Ok tt) isNative isWrapped find read
    query (Some "key"%string) Quote collaborators) as H.
  assert (is_ok (parsed query) = true) as Hok by (vm_compute; reflexivity).
  unfold parsed in Hok |- *. destruct (parseSwapQuoteRequestParams _ _ _ _ _ _ _ _ _ _) as [p|e]; [|discriminate Hok].
  by exists p.
Defined.
End RequestExamples.
