(* ===== verification/ServiceUtils.v ===== *)
(** * Helpers of the services ([utils/service_utils.ts], [utils/number_utils.ts],
    [utils/quote_comparison_utils.ts], [options.ts])

    The affiliate data appended to the calldata, with the unique id that the
    handlers and the quote reports read back from it; the sources of a response;
    the fees on the bought token; the choice of the best firm quote; and the
    overhead of the exchange proxy for each combination of sources. *)

From Stdlib Require Import Ascii Sorted.
From S2P Require Import Prelude JsLib JsNumber BigNum Types SourceFilters Fills Orders Constants FeeCalculator.
From S2P Require Import PathModel Simulation QuoteInfo QuoteReport RfqClient Quotes RequestParsing.

#[local] Set Default Proof Using "Type".

(** ** Hexadecimal strings *)

Definition hex_digit (d : Z) : ascii :=
  ascii_of_nat (Z.to_nat (if (d <? 10)%Z then 48 + d else 87 + d)).

(** The digits of a number below [16 ^ fuel], the last one first. *)
Fixpoint hex_digits (fuel : nat) (z : Z) (acc : string) : string :=
  match fuel with
  | O => acc
  | S fuel =>
      if (z <? 16)%Z then String (hex_digit z) acc
      else hex_digits fuel (z / 16) (String (hex_digit (z mod 16)) acc)
  end.
(** Sixty-four digits are those of a [uint256]. *)
Definition hex_string (z : Z) : string := hex_digits 64 z "".

Fixpoint zeros (n : nat) : string := match n with O => "" | S n => String "0" (zeros n) end.
(** A word of calldata: left padded to 32 bytes. *)
Definition pad64 (s : string) : string := zeros (64 - String.length s) +:+ s.

Lemma hex_digits_length fuel z acc k :
  (16 ^ Z.of_nat k <= z < 16 ^ Z.of_nat (S k))%Z → (k < fuel)%nat →
  String.length (hex_digits fuel z acc) = (S k + String.length acc)%nat.
Proof.
  revert z acc k. induction fuel as [|fuel IH]; intros z acc k Hz Hk; [lia|]. cbn [hex_digits].
  destruct (Z.ltb_spec z 16) as [Hlt|Hge].
  - assert (k = O) as ->; [|done]. destruct k; [done|]. exfalso.
    rewrite Nat2Z.inj_succ, Z.pow_succ_r in Hz by lia.
    assert (1 <= 16 ^ Z.of_nat k)%Z by (pose proof (Z.pow_pos_nonneg 16 (Z.of_nat k)); lia). lia.
  - destruct k as [|k]; [change (16 ^ Z.of_nat 1)%Z with 16%Z in Hz; lia|].
    rewrite (IH _ _ k); [cbn [String.length]; lia | | lia].
    rewrite !Nat2Z.inj_succ, !Z.pow_succ_r in Hz by lia. rewrite Nat2Z.inj_succ, Z.pow_succ_r by lia. split.
    + apply Z.div_le_lower_bound; lia.
    + apply Z.div_lt_upper_bound; lia.
Qed.

(** The value of a digit, and of a string of them after [acc]. *)
Definition hex_value (c : ascii) : option Z :=
  let n := Z.of_nat (Ascii.nat_of_ascii c) in
  if (48 <=? n)%Z && (n <=? 57)%Z then Some (n - 48)%Z
  else if (97 <=? n)%Z && (n <=? 102)%Z then Some (n - 87)%Z
  else if (65 <=? n)%Z && (n <=? 70)%Z then Some (n - 55)%Z else None.

Lemma sixteen (P : Z → Prop) : (∀ d, (0 <= d < 16)%Z → P d) ↔
  P 0%Z ∧ P 1%Z ∧ P 2%Z ∧ P 3%Z ∧ P 4%Z ∧ P 5%Z ∧ P 6%Z ∧ P 7%Z ∧ P 8%Z ∧ P 9%Z ∧
  P 10%Z ∧ P 11%Z ∧ P 12%Z ∧ P 13%Z ∧ P 14%Z ∧ P 15%Z.
Proof.
  split; [intros H; split_and!; apply H; lia|]. intros H d Hd.
  assert (d = 0 ∨ d = 1 ∨ d = 2 ∨ d = 3 ∨ d = 4 ∨ d = 5 ∨ d = 6 ∨ d = 7 ∨ d = 8 ∨ d = 9 ∨ d = 10 ∨ d = 11 ∨
    d = 12 ∨ d = 13 ∨ d = 14 ∨ d = 15)%Z as Hd' by lia.
  decompose [and] H. repeat (destruct Hd' as [->|Hd']; [done|]). by subst.
Qed.

Lemma hex_value_digit d : (0 <= d < 16)%Z → hex_value (hex_digit d) = Some d.
Proof. revert d. apply sixteen. split_and!; reflexivity. Qed.

Fixpoint hex_value_after (acc : Z) (s : string) : Z :=
  match s with
  | String c s' => hex_value_after (16 * acc + default 0%Z (hex_value c)) s'
  | EmptyString => acc
  end.

Fixpoint all_chars (P : ascii → Prop) (s : string) : Prop :=
  match s with EmptyString => True | String c s' => P c ∧ all_chars P s' end.

Lemma all_chars_app P s t : all_chars P s → all_chars P t → all_chars P (s +:+ t).
Proof. induction s; simpl; [done|]. intros [? ?] ?. split; auto. Qed.

Lemma length_append (s t : string) : String.length (s +:+ t) = (String.length s + String.length t)%nat.
Proof. induction s as [|a s IH]; [done|]. rewrite append_cons. simpl. by rewrite IH. Qed.

Definition nonzero_hex (c : ascii) : Prop := ∃ d : Z, (1 <= d <= 15)%Z ∧ c = hex_digit d.
Definition is_hex (c : ascii) : Prop := ∃ d : Z, (0 <= d < 16)%Z ∧ c = hex_digit d.

Lemma append_nil (s : string) : s +:+ "" = s.
Proof. induction s as [|a s IH]; [done|]. by rewrite append_cons, IH. Qed.

Lemma hex_digits_value s fuel acc t :
  all_chars is_hex s → (1 <= acc)%Z →
  hex_digits (S fuel + String.length s) (hex_value_after acc s) t = hex_digits (S fuel) acc (s +:+ t).
Proof.
  revert fuel acc. induction s as [|c s IH]; intros fuel acc Hs Ha; [by rewrite Nat.add_0_r|].
  destruct Hs as [(d & Hd & ->) Hs]. cbn [hex_value_after String.length]. rewrite hex_value_digit by done.
  change (default 0%Z (Some d)) with d. replace (S fuel + S (String.length s))%nat with (S (S fuel) + String.length s)%nat by lia.
  rewrite IH by (done || lia). rewrite append_cons. cbn [hex_digits]. destruct (Z.ltb_spec (16 * acc + d) 16); [lia|].
  replace ((16 * acc + d) / 16)%Z with acc by (apply (Z.div_unique_pos _ _ _ d); lia).
  by replace ((16 * acc + d) mod 16)%Z with d by (apply (Z.mod_unique_pos _ _ acc); lia).
Qed.

Lemma nonzero_hex_is_hex s : all_chars nonzero_hex s → all_chars is_hex s.
Proof.
  induction s as [|c s IH]; [done|]. intros [(d & Hd & ->) Hs]. split; [exists d; split; [lia | done] | by apply IH].
Qed.

(** A number of at most 64 digits is printed as it was read. *)
Lemma hex_string_value c s :
  nonzero_hex c → all_chars is_hex s → (String.length s <= 63)%nat →
  hex_string (hex_value_after 0 (String c s)) = String c s.
Proof.
  intros (d & Hd & ->) Hs Hl. cbn [hex_value_after]. rewrite hex_value_digit by lia.
  change (16 * 0 + default 0%Z (Some d))%Z with d.
  unfold hex_string. replace 64%nat with (S (63 - String.length s) + String.length s)%nat by lia.
  rewrite hex_digits_value by (done || lia). cbn [hex_digits]. rewrite (proj2 (Z.ltb_lt _ _)) by lia.
  by rewrite append_nil.
Qed.

Lemma hex_digits_hex fuel z t : (0 <= z)%Z → all_chars is_hex t → all_chars is_hex (hex_digits fuel z t).
Proof.
  revert z t. induction fuel as [|fuel IH]; intros z t Hz Ht; [done|]. cbn [hex_digits].
  destruct (Z.ltb_spec z 16).
  - split; [by exists z | done].
  - apply IH; [by apply Z.div_pos|]. split; [|done]. exists (z mod 16)%Z. split; [apply Z.mod_pos_bound; lia | done].
Qed.

(** ** Random digits ([numberUtils])

    A value of [Math.random()] is an argument. *)

Definition n_floor (x : number) : number :=
  match x with EFin q => EFin (inject_Z (Qfloor q)) | _ => x end.

Definition randomNumberInclusive (random : number) (minimumSpecified maximumSpecified : number) : number :=
  let min := n_ceil minimumSpecified in
  let max := n_floor maximumSpecified in
  n_add (n_floor (n_mul random (n_add (n_sub max min) (n_Z 1)))) min.

(** [n.toString(16)] of a small integer. *)
Definition n_hex (n : number) : string :=
  match n with EFin q => hex_string (Qfloor q) | _ => "" end.

(** One draw per digit. *)
Definition randomHexNumberOfLength (draws : list number) : string :=
  fold_left (λ res r, res +:+ n_hex (randomNumberInclusive r (n_Z 1) (n_Z 15))) draws "".

(** What [Math.random()] returns: at least 0 and below 1, at the precision of
    a [number]. *)
Definition random_value (r : number) : Prop :=
  ∃ q, ext_eq r (EFin q) ∧ (0 <= q <= 1 - pow2 (-53))%Q.

(** A draw between 1 and 15 inclusive: one hexadecimal digit, never zero. *)
Lemma random_digit r :
  random_value r → ∃ d : Z, (1 <= d <= 15)%Z ∧ ext_eq (randomNumberInclusive r (n_Z 1) (n_Z 15)) (EFin (inject_Z d)).
Proof.
  intros (q & Hq & H0 & H1). unfold randomNumberInclusive.
  change (n_floor (n_Z 15)) with (EFin 15). change (n_ceil (n_Z 1)) with (EFin 1).
  set (n := n_add (n_sub (EFin 15) (EFin 1)) (n_Z 1)). assert (ext_eq n (EFin 15)) as Hn by (vm_compute; by constructor).
  assert (ext_eq (n_mul r n) (round64 (q * 15))) as Hm.
  { unfold n_mul. rewrite Hq, Hn. simpl. apply round64_proper, Qred_correct. }
  pose proof (pow2_pos (-53)). destruct (round64_le_pow2 (q * 15) 4) as (x & Hx & Hx0 & _); [change (pow2 4) with 16%Q; lra | lia |].
  assert (x <= 15 - pow2 (-49))%Q as Hup.
  { eapply (round64_mono (q * 15) ((1 - pow2 (-53)) * 15)); [lra | exact Hx |].
    vm_compute. by constructor. }
  assert (pow2 (-49) > 0)%Q as Hp by apply pow2_pos.
  assert (ext_eq (n_floor (n_mul r n)) (EFin (inject_Z (Qfloor x)))) as Hf.
  { rewrite Hx in Hm. apply ext_eq_unfold in Hm. apply ext_eq_unfold.
    destruct (n_mul r n) as [| |y]; [done..|]. simpl. by rewrite Hm. }
  assert (0 <= Qfloor x <= 14)%Z as Hb.
  { pose proof (Qfloor_bounds x) as [H2 H3]. split.
    - rewrite <- (Qfloor_Z 0). by apply Qfloor_resp_le.
    - assert (inject_Z (Qfloor x) < inject_Z 15)%Q as H4 by (change (inject_Z 15) with 15%Q; lra).
      rewrite <- Zlt_Qlt in H4. lia. }
  exists (Qfloor x + 1)%Z. split; [lia|]. apply n_int_add; [exact Hf | by constructor | lia].
Qed.


Lemma n_hex_digit n d : (1 <= d <= 15)%Z → ext_eq n (EFin (inject_Z d)) → n_hex n = String (hex_digit d) "".
Proof.
  intros Hd H. apply ext_eq_unfold in H. destruct n as [| |q]; [done..|]. unfold n_hex. rewrite H, Qfloor_Z.
  unfold hex_string. cbn [hex_digits]. destruct (Z.ltb_spec d 16); [done|lia].
Qed.

(** The characters of a random number: as many as there are draws, all of them
    non-zero hexadecimal digits. *)
Lemma random_number_digits draws :
  Forall random_value draws →
  all_chars nonzero_hex (randomHexNumberOfLength draws) ∧
  String.length (randomHexNumberOfLength draws) = length draws.
Proof.
  intros H. unfold randomHexNumberOfLength.
  assert (∀ acc, all_chars nonzero_hex acc →
    all_chars nonzero_hex (fold_left (λ res r, res +:+ n_hex (randomNumberInclusive r (n_Z 1) (n_Z 15))) draws acc) ∧
    String.length (fold_left (λ res r, res +:+ n_hex (randomNumberInclusive r (n_Z 1) (n_Z 15))) draws acc) =
      (String.length acc + length draws)%nat) as Hacc; [|by apply (Hacc "")].
  induction H as [|r draws Hr _ IH]; intros acc Ha; cbn [fold_left]; [split; [done|simpl; lia]|].
  destruct (random_digit r Hr) as (d & Hd & E). rewrite (n_hex_digit _ d Hd E).
  destruct (IH (acc +:+ String (hex_digit d) "")) as [H1 H2].
  - apply all_chars_app; [done|]. simpl. split; [by exists d | done].
  - split; [done|]. rewrite H2, length_append. simpl. lia.
Qed.

(** ** Substrings *)

(** [s.indexOf(t)]: the first occurrence, or [-1]. *)
Definition indexOf (s t : string) : Z :=
  match String.index 0 t s with Some n => Z.of_nat n | None => -1 end.

Fixpoint drop_string (n : nat) (s : string) : string :=
  match n, s with S n, String _ s' => drop_string n s' | _, _ => s end.
Fixpoint take_string (n : nat) (s : string) : string :=
  match n, s with S n, String c s' => String c (take_string n s') | _, _ => EmptyString end.
(** [s.slice(i, j)] for [0 <= i <= j]. *)
Definition slice_string (s : string) (i j : nat) : string := take_string (j - i) (drop_string i s).

Lemma drop_string_app s t n : drop_string (String.length s + n) (s +:+ t) = drop_string n t.
Proof. induction s as [|a s IH]; [done|]. rewrite append_cons. simpl. done. Qed.

Lemma take_string_app s t : take_string (String.length s) (s +:+ t) = s.
Proof. induction s as [|a s IH]; [by destruct t|]. rewrite append_cons. simpl. by rewrite IH. Qed.

Lemma prefix_app t s u : String.prefix t s = true → String.prefix t (s +:+ u) = true.
Proof.
  revert s. induction t as [|a t IH]; intros s; [by destruct s, u|]. destruct s as [|b s]; [done|].
  rewrite append_cons. simpl. destruct (ascii_dec a b); [apply IH | done].
Qed.

Lemma prefix_short t s u :
  (String.length t <= String.length s)%nat → String.prefix t (s +:+ u) = String.prefix t s.
Proof.
  revert s. induction t as [|a t IH]; intros s Hl; [by destruct s, u|].
  destruct s as [|b s]; [simpl in Hl; lia|]. rewrite append_cons. simpl in Hl |- *.
  destruct (ascii_dec a b); [apply IH; lia | done].
Qed.

Lemma index_room t s n : String.index 0 t s = Some n → (n + String.length t <= String.length s)%nat.
Proof.
  revert n. induction s as [|b s IH]; intros n H.
  - destruct t; [|done]. by injection H as <-.
  - cbn [String.index] in H. destruct (String.prefix t (String b s)) eqn:E.
    + injection H as <-. clear IH. revert E. generalize (String b s). revert t.
      induction t as [|a t IH]; intros s' E; [simpl; lia|]. destruct s' as [|c s']; [done|].
      simpl in E |- *. destruct (ascii_dec a c); [|done]. specialize (IH _ E). lia.
    + destruct (String.index 0 t s) as [m|]; [|done]. injection H as <-. specialize (IH m eq_refl). simpl. lia.
Qed.

(** The first occurrence does not depend on what follows it. *)
Lemma index_app t s u n : String.index 0 t s = Some n → String.index 0 t (s +:+ u) = Some n.
Proof.
  revert n. induction s as [|b s IH]; intros n H.
  - destruct t; [|done]. injection H as <-. by destruct u.
  - pose proof (index_room _ _ _ H) as Hr. rewrite append_cons. cbn [String.index] in H |- *.
    rewrite <- append_cons, prefix_short by lia. destruct (String.prefix t (String b s)); [done|].
    destruct (String.index 0 t s) as [m|]; [|done]. by rewrite (IH m eq_refl).
Qed.

(** ** Attribution *)

Definition AFFILIATE_DATA_SELECTOR : string := "869584cd".

Section Attribution.
Context {B : BigNumberLib}.

(** [bn.toString(16)], [new BigNumber(s, 16)], [`${bn}`] and the encoder of the
    method [ZeroExAPIAffiliate(address,uint256)]. *)
Class AffiliateEncoding : Type := {
  bn_toHex : BN → string;
  bn_ofHex : string → BN;
  bn_toDecimal : BN → string;
  encodeAffiliate : string → BN → string;
}.

(** Integers are printed in full, and the encoder writes the selector and two
    words, the second one being the number in hexadecimal. *)
Class AffiliateEncodingLaws `{!AffiliateEncoding} : Prop := {
  toHex_int a z : int a z → (0 <= z < 2 ^ 256)%Z → bn_toHex a = hex_string z;
  toDecimal_int a z : int a z → (0 <= z < 10 ^ 15)%Z → bn_toDecimal a = string_of_Z z;
  encode_words address c h :
    String.length address = 42%nat → nonzero_hex c → all_chars is_hex h → (String.length h <= 63)%nat →
    encodeAffiliate address (bn_ofHex (String c h)) =
      "0x" +:+ AFFILIATE_DATA_SELECTOR +:+ pad64 (toLowerCase (drop_string 2 address)) +:+ pad64 (String c h);
}.

Context `{AE : !AffiliateEncoding}.
(** [config.FEE_RECIPIENT_ADDRESS]. *)
Variable FEE_RECIPIENT_ADDRESS : string.

Record AttributedCallData : Type := { affiliatedData : string; decodedUniqueId : string }.

(** [now] is [Date.now()], in milliseconds. *)
Definition timestampInSeconds (now : Z) : BN :=
  integerValue ROUND_HALF_UP (of_number (n_div (n_Z now) (n_Z 1000))).

Definition attributeCallData (now : Z) (draws : list number) (data : string) (affiliateAddress : option string)
    : AttributedCallData :=
  let affiliateAddressOrDefault :=
    if truthy affiliateAddress then default "" affiliateAddress else FEE_RECIPIENT_ADDRESS in
  let timestamp := timestampInSeconds now in
  let hexTimestamp := bn_toHex timestamp in
  let randomNumber := randomHexNumberOfLength draws in
  let uniqueIdentifier := bn_ofHex (randomNumber +:+ hexTimestamp) in
  let encodedAffiliateData := encodeAffiliate affiliateAddressOrDefault uniqueIdentifier in
  {| affiliatedData := data +:+ drop_string 2 encodedAffiliateData;
     decodedUniqueId := randomNumber +:+ "-" +:+ bn_toDecimal timestamp |}.

(** [getQuoteIdFromSwapQuote] of the handlers; a negative bound of [slice]
    counts from the end. *)
Definition getQuoteIdFromSwapQuote (data : string) : string :=
  let bytesPos := indexOf data AFFILIATE_DATA_SELECTOR in
  let startingIndex := Z.to_nat (bytesPos + 118) in
  slice_string data startingIndex (startingIndex + 10).

(** [getTimestampFromUniqueId] of the quote reports; [None] is [NaN]. *)
Definition getTimestampFromUniqueId (decodedUniqueId : string) : option Z :=
  parseInt (drop_string (Z.to_nat (indexOf decodedUniqueId "-" + 1)) decodedUniqueId).

(** From 1978 to 2106 the seconds have eight hexadecimal digits. *)
Definition eight_digit_time (now : Z) : Prop := (2 ^ 28 * 1000 <= now <= (2 ^ 32 - 1) * 1000)%Z.

Lemma timestamp_int now :
  eight_digit_time now → ∃ z, int (timestampInSeconds now) z ∧ (2 ^ 28 <= z <= 2 ^ 32 - 1)%Z.
Proof.
  intros [H1 H2]. unfold timestampInSeconds.
  pose proof (n_Z_fin now ltac:(lia)) as Hn. apply ext_eq_unfold in Hn.
  destruct (n_Z now) as [| |x]; [done..|].
  assert (inject_Z (2 ^ 28) <= x / 1000 <= inject_Z (2 ^ 32 - 1))%Q as Hx.
  { rewrite Hn. rewrite Zle_Qle, inject_Z_mult in H1, H2. change (inject_Z 1000) with 1000%Q in H1, H2.
    split; [apply Qle_shift_div_l; [done|exact H1] | apply Qle_shift_div_r; [done|exact H2]]. }
  change (n_div (EFin x) (n_Z 1000)) with (round64 (x / 1000)).
  destruct (round64_le_pow2 (x / 1000) 32) as (r & Hr & _); [|lia|].
  { change (pow2 32) with (inject_Z (2 ^ 32)). assert (inject_Z (2 ^ 32 - 1) <= inject_Z (2 ^ 32))%Q by (rewrite <- Zle_Qle; lia).
    assert (0 <= inject_Z (2 ^ 28))%Q by done. lra. }
  assert (inject_Z (2 ^ 28) <= r <= inject_Z (2 ^ 32 - 1))%Q as Hb.
  { split.
    - apply (round64_mono (inject_Z (2 ^ 28)) (x / 1000)); [apply Hx | apply round64_Z; lia | exact Hr].
    - apply (round64_mono (x / 1000) (inject_Z (2 ^ 32 - 1))); [apply Hx | exact Hr | apply round64_Z; lia]. }
  destruct (fin_of_number_between (round64 (x / 1000)) r (2 ^ 28) (2 ^ 32 - 1)) as (q & Hq & Hqb); [|done|lia|lia|done|].
  { change (round64 (x / 1000)) with (ext_round64 (EFin (x / 1000))). apply ext_round64_number. }
  exists (round_int ROUND_HALF_UP q). split; [by apply fin_integerValue|].
  destruct Hqb as [Q1%(round_int_mono ROUND_HALF_UP) Q2%(round_int_mono ROUND_HALF_UP)].
  by rewrite !round_int_Z in Q1, Q2.
Qed.

Lemma index_char c s t :
  has_char c s = false → String.index 0 (String c "") (s +:+ String c t) = Some (String.length s).
Proof.
  induction s as [|a s IH]; intros H.
  - change (EmptyString +:+ String c t) with (String c t). cbn [String.index].
    assert (String.prefix (String c "") (String c t) = true) as ->; [|done].
    simpl. by destruct (ascii_dec c c), t.
  - rewrite has_char_cons in H. apply orb_false_iff in H as [Ha H]. rewrite append_cons. cbn [String.index].
    assert (String.prefix (String c "") (String a (s +:+ String c t)) = false) as ->.
    { simpl. destruct (ascii_dec c a) as [->|]; [|done]. by rewrite Ascii.eqb_refl in Ha. }
    by rewrite IH.
Qed.

Lemma nonzero_hex_no_dash s : all_chars nonzero_hex s → has_char "-"%char s = false.
Proof.
  induction s as [|a s IH]; [done|]. intros [(d & Hd & ->) H]. rewrite has_char_cons, (IH H), orb_false_r.
  assert (d = 1 ∨ d = 2 ∨ d = 3 ∨ d = 4 ∨ d = 5 ∨ d = 6 ∨ d = 7 ∨ d = 8 ∨ d = 9 ∨ d = 10 ∨ d = 11 ∨ d = 12 ∨
    d = 13 ∨ d = 14 ∨ d = 15)%Z as E by lia.
  by repeat destruct E as [->|E]; [..|subst].
Qed.

Lemma zeros_length n : String.length (zeros n) = n.
Proof. induction n; simpl; auto. Qed.

Lemma pad64_length s : (String.length s <= 64)%nat → String.length (pad64 s) = 64%nat.
Proof. intros H. unfold pad64. rewrite length_append, zeros_length. lia. Qed.

Lemma toLowerCase_length s : String.length (toLowerCase s) = String.length s.
Proof. induction s; simpl; auto. Qed.

Lemma drop_string_length n s : String.length (drop_string n s) = (String.length s - n)%nat.
Proof. revert s. induction n; intros [|a s]; simpl; auto. Qed.

Lemma append_assoc (s t u : string) : (s +:+ t) +:+ u = s +:+ (t +:+ u).
Proof. induction s as [|a s IH]; [done|]. by rewrite !append_cons, IH. Qed.

(** The address that is attributed. *)
Definition attributedTo (affiliateAddress : option string) : string :=
  if truthy affiliateAddress then default "" affiliateAddress else FEE_RECIPIENT_ADDRESS.

(** The calldata that is attributed: the given one, the selector, the address,
    and the unique id at the end of the last word. *)
Lemma attributed_data {L : AffiliateEncodingLaws} now draws data address :
  String.length (attributedTo address) = 42%nat → eight_digit_time now →
  length draws = 10%nat → Forall random_value draws →
  ∃ word1 hexTimestamp t, int (timestampInSeconds now) t ∧ String.length word1 = 64%nat ∧
    affiliatedData (attributeCallData now draws data address) =
      data +:+ (AFFILIATE_DATA_SELECTOR +:+ word1 +:+ zeros 46 +:+ randomHexNumberOfLength draws +:+ hexTimestamp) ∧
    decodedUniqueId (attributeCallData now draws data address) =
      randomHexNumberOfLength draws +:+ "-" +:+ string_of_Z t.
Proof.
  intros Ha Ht Hl Hd. destruct (timestamp_int now Ht) as (t & Hi & Hb).
  destruct (random_number_digits draws Hd) as [Hc Hlen]. rewrite Hl in Hlen.
  exists (pad64 (toLowerCase (drop_string 2 (attributedTo address)))), (hex_string t), t.
  split; [done|]. split.
  { apply pad64_length. rewrite toLowerCase_length, drop_string_length, Ha. lia. }
  unfold attributeCallData. fold (attributedTo address). cbn [affiliatedData decodedUniqueId].
  assert (0 <= t < 2 ^ 256)%Z as Ht256 by (split; [lia | apply (Z.le_lt_trans _ (2 ^ 32)); [lia | reflexivity]]).
  rewrite (toHex_int _ t Hi Ht256), (toDecimal_int _ t Hi) by lia. split; [|done]. f_equal.
  set (R := randomHexNumberOfLength draws) in *. destruct R as [|c R'] eqn:E; [simpl in Hlen; lia|].
  destruct Hc as [Hc HR]. simpl in Hlen. rewrite append_cons.
  assert (String.length (hex_string t) = 8%nat) as H8.
  { unfold hex_string. rewrite (hex_digits_length _ _ _ 7); [done | cbn; lia | lia]. }
  assert (String.length (R' +:+ hex_string t) = 17%nat) as H17 by (rewrite length_append, H8; lia).
  rewrite encode_words; [|done | done | | lia].
  2: { apply all_chars_app; [by apply nonzero_hex_is_hex | apply hex_digits_hex; [lia | done]]. }
  change (drop_string 2 ("0x" +:+ ?s)) with s. f_equal. f_equal. unfold pad64 at 1. simpl String.length.
  by rewrite H17.
Qed.

(** The quote id that the handlers read from the calldata of a quote is the
    random number that was put there, and the time that the quote reports read
    from the unique id is that of the quote, provided that the selector does
    not happen to occur earlier in the calldata. *)
Theorem unique_id_roundtrip {L : AffiliateEncodingLaws} now draws data address :
  String.length (attributedTo address) = 42%nat → eight_digit_time now →
  length draws = 10%nat → Forall random_value draws →
  indexOf (data +:+ AFFILIATE_DATA_SELECTOR) AFFILIATE_DATA_SELECTOR = Z.of_nat (String.length data) →
  let a := attributeCallData now draws data address in
  getQuoteIdFromSwapQuote (affiliatedData a) = randomHexNumberOfLength draws ∧
  ∃ t, int (timestampInSeconds now) t ∧ getTimestampFromUniqueId (decodedUniqueId a) = Some t.
Proof.
  intros Ha Ht Hl Hd Hi. destruct (attributed_data now draws data address Ha Ht Hl Hd) as (w & hx & t & Hit & Hw & E1 & E2).
  destruct (random_number_digits draws Hd) as [Hc Hlen]. rewrite Hl in Hlen. intros a. split.
  - unfold a. rewrite E1. unfold getQuoteIdFromSwapQuote.
    assert (indexOf (data +:+ (AFFILIATE_DATA_SELECTOR +:+ w +:+ zeros 46 +:+ randomHexNumberOfLength draws +:+ hx))
      AFFILIATE_DATA_SELECTOR = Z.of_nat (String.length data)) as ->.
    { rewrite <- append_assoc. unfold indexOf in Hi |- *.
      destruct (String.index 0 _ (data +:+ AFFILIATE_DATA_SELECTOR)) as [n|] eqn:E; [|lia]. by rewrite (index_app _ _ _ _ E). }
    replace (Z.to_nat (Z.of_nat (String.length data) + 118)) with (String.length data + 118)%nat by lia.
    unfold slice_string. replace (String.length data + 118 + 10 - (String.length data + 118))%nat with 10%nat by lia.
    rewrite drop_string_app. set (R := randomHexNumberOfLength draws) in *.
    rewrite <- (append_assoc w), <- (append_assoc AFFILIATE_DATA_SELECTOR).
    set (front := AFFILIATE_DATA_SELECTOR +:+ (w +:+ zeros 46)).
    assert (String.length front = 118%nat) as Hf by (unfold front; rewrite !length_append, Hw, zeros_length; reflexivity).
    rewrite <- Hf, <- (Nat.add_0_r (String.length front)), drop_string_app, <- Hlen. apply take_string_app.
  - exists t. split; [done|]. unfold a. rewrite E2. unfold getTimestampFromUniqueId, indexOf.
    change ("-" +:+ string_of_Z t) with (String "-"%char (string_of_Z t)).
    rewrite index_char by (by apply nonzero_hex_no_dash).
    replace (Z.to_nat (Z.of_nat (String.length (randomHexNumberOfLength draws)) + 1))
      with (String.length (randomHexNumberOfLength draws) + 1)%nat by lia.
    rewrite drop_string_app. apply parseInt_string_of_Z.
Qed.
End Attribution.

(** ** Fees and sources of a response *)

Section ServiceUtils.
Context {B : BigNumberLib}.

(** [constants.ts] *)
Definition TX_BASE_GAS : BN := of_Z 21000.
Definition AFFILIATE_FEE_TRANSFORMER_GAS : BN := of_Z 15000.
Definition POSITIVE_SLIPPAGE_FEE_TRANSFORMER_GAS : BN := of_Z 30000.
Definition PERCENTAGE_SIG_DIGITS : nat := 4.

Definition getBuyTokenPercentageFeeOrZero (affiliateFee : AffiliateFee) : number :=
  match af_feeType affiliateFee with
  | GaslessFee | PositiveSlippageFee => n_Z 0
  | NoFee | PercentageFee => af_buyTokenPercentageFee affiliateFee
  end.

(** The configuration: the chain and [GASLESS_SWAP_FEE_ENABLED]. *)
Variable CHAIN_ID : ChainId.
Variable GASLESS_SWAP_FEE_ENABLED : bool.
(** [new BigNumber(a.toPrecision(n))]. *)
Variable toPrecision : nat → BN → BN.

(** [GetSwapQuoteResponseLiquiditySource]. *)
Record ResponseSource : Type := {
  rs_name : string;
  rs_proportion : BN;
  rs_intermediateToken : option string;
  rs_hops : option (list string);
}.

Definition toExternalFormat (source : ERC20BridgeSource) : string :=
  if decide (source = ERC20BridgeSource.Native) then "0x" else ERC20BridgeSource.to_string source.

(** [{ ...zeros, ...singleSource }]: a key keeps its first position. *)
Definition spread (zeros breakdown : BySource) : BySource :=
  fold_left (λ m e, assoc_update m e.1 (λ _, e.2)) breakdown zeros.

Definition convertToLiquiditySources (sourceBreakdown : SwapQuoteSourceBreakdown) : list ResponseSource :=
  let allSingleSources :=
    bfilter (λ s, negb (bool_decide (s = ERC20BridgeSource.MultiHop)))
      (SourceFilters.sources (SELL_SOURCE_FILTER_BY_CHAIN_ID CHAIN_ID)) in
  let defaultSingleSourceBreakdown := (λ s, (s, of_Z 0)) <$> uniq allSingleSources in
  let singleSourceBreakdown := spread defaultSingleSourceBreakdown (singleSource sourceBreakdown) in
  ((λ e : ERC20BridgeSource * BN,
     {| rs_name := toExternalFormat e.1; rs_proportion := toPrecision PERCENTAGE_SIG_DIGITS e.2;
        rs_intermediateToken := None; rs_hops := None |}) <$> singleSourceBreakdown) ++
  ((λ b,
     {| rs_name := ERC20BridgeSource.to_string ERC20BridgeSource.MultiHop;
        rs_proportion := toPrecision PERCENTAGE_SIG_DIGITS (mb_proportion b);
        rs_intermediateToken := Some (mb_intermediateToken b);
        rs_hops := Some (toExternalFormat <$> mb_hops b) |}) <$> multihop sourceBreakdown).

Record AffiliateFeeAmounts : Type := {
  fa_sellTokenFeeAmount : BN;
  fa_buyTokenFeeAmount : BN;
  fa_gasCost : BN;
}.

(** Whether a fee is charged on what is bought. *)
Definition noBuyTokenFee (fee : AffiliateFee) : bool :=
  bool_decide (af_feeType fee = NoFee) || String.eqb (af_recipient fee) NULL_ADDRESS
  || String.eqb (af_recipient fee) "".

Definition getBuyTokenFeeAmounts {P} (quote : SwapQuote P) (fee : AffiliateFee) : AffiliateFeeAmounts :=
  if noBuyTokenFee fee
  then {| fa_sellTokenFeeAmount := ZERO; fa_buyTokenFeeAmount := ZERO; fa_gasCost := ZERO |}
  else if decide (af_feeType fee = GaslessFee) then
    {| fa_sellTokenFeeAmount := ZERO;
       fa_buyTokenFeeAmount :=
         if GASLESS_SWAP_FEE_ENABLED
         then integerValue ROUND_DOWN
                (times (times (makerAmountPerEth quote) (quote_gasPrice quote))
                       (of_number (gas (quote_worstCase quote))))
         else ZERO;
       fa_gasCost := AFFILIATE_FEE_TRANSFORMER_GAS |}
  else
    let minBuyAmount := makerAmount (quote_worstCase quote) in
    let percentage := getBuyTokenPercentageFeeOrZero fee in
    {| fa_sellTokenFeeAmount := ZERO;
       fa_buyTokenFeeAmount :=
         integerValue ROUND_DOWN
           (div (times minBuyAmount (of_number percentage)) (of_number (n_add percentage (n_Z 1))));
       fa_gasCost := if decide (af_feeType fee = PercentageFee) then AFFILIATE_FEE_TRANSFORMER_GAS
                     else POSITIVE_SLIPPAGE_FEE_TRANSFORMER_GAS |}.

(** ** The overhead of the exchange proxy ([options.ts]) *)

Definition FILL_QUOTE_TRANSFORMER_GAS_OVERHEAD : BN := of_Z 150000.
Definition EXCHANGE_PROXY_OVERHEAD_NO_VIP (_ : Z) : BN := FILL_QUOTE_TRANSFORMER_GAS_OVERHEAD.

Definition or_flags (l : list Z) : Z := fold_left Z.lor l 0%Z.
Definition MULTIPLEX_BATCH_FILL_SOURCE_FLAGS : Z :=
  or_flags [source_flag ERC20BridgeSource.UniswapV2; source_flag ERC20BridgeSource.SushiSwap; RfqOrder_flag;
            source_flag ERC20BridgeSource.UniswapV3; OtcOrder_flag].
Definition MULTIPLEX_MULTIHOP_FILL_SOURCE_FLAGS : Z :=
  or_flags [source_flag ERC20BridgeSource.UniswapV2; source_flag ERC20BridgeSource.SushiSwap;
            source_flag ERC20BridgeSource.UniswapV3].

Definition EXCHANGE_PROXY_OVERHEAD_FULLY_FEATURED (sourceFlags : Z) : BN :=
  if includes (source_flag <$> [ERC20BridgeSource.UniswapV2; ERC20BridgeSource.SushiSwap]) sourceFlags
  then TX_BASE_GAS
  else if includes (source_flag <$> [ERC20BridgeSource.SushiSwap; ERC20BridgeSource.PancakeSwap;
                      ERC20BridgeSource.PancakeSwapV2; ERC20BridgeSource.BakerySwap; ERC20BridgeSource.ApeSwap])
                   sourceFlags && bool_decide (CHAIN_ID = ChainId.BSC)
  then TX_BASE_GAS
  else if (source_flag ERC20BridgeSource.UniswapV3 =? sourceFlags)%Z then plus TX_BASE_GAS (of_Z 5000)
  else if (source_flag ERC20BridgeSource.Curve =? sourceFlags)%Z then plus TX_BASE_GAS (of_Z 40000)
  else if (RfqOrder_flag =? sourceFlags)%Z then plus TX_BASE_GAS (of_Z 5000)
  else if (OtcOrder_flag =? sourceFlags)%Z then TX_BASE_GAS
  else if (Z.lor MULTIPLEX_BATCH_FILL_SOURCE_FLAGS sourceFlags =? MULTIPLEX_BATCH_FILL_SOURCE_FLAGS)%Z
  then if (Z.land sourceFlags OtcOrder_flag =? OtcOrder_flag)%Z then plus TX_BASE_GAS (of_Z 10000)
       else plus TX_BASE_GAS (of_Z 15000)
  else if (Z.lor MULTIPLEX_MULTIHOP_FILL_SOURCE_FLAGS sourceFlags =?
           Z.lor MULTIPLEX_MULTIHOP_FILL_SOURCE_FLAGS (source_flag ERC20BridgeSource.MultiHop))%Z
  then plus TX_BASE_GAS (of_Z 25000)
  else FILL_QUOTE_TRANSFORMER_GAS_OVERHEAD.
End ServiceUtils.

(** ** The best quote ([utils/quote_comparison_utils.ts]) *)

Section QuoteComparison.
Context {B : BigNumberLib}.

(** [V4RFQIndicativeQuote | SignedNativeOrder], told apart by [order]. *)
Inductive AnyQuote : Type :=
| IndicativeQuote (q : V4RFQIndicativeQuoteMM)
| SignedQuote (o : SignedNativeOrder).

(** [OtcOrder.parseExpiryAndNonce(_).expiry] of [@0x/protocol-utils]. *)
Variable parseExpiry : BN → BN.

Definition getTakerToken (quote : AnyQuote) : string :=
  match quote with IndicativeQuote q => ind_takerToken q | SignedQuote o => order_takerToken (signed_order o) end.
Definition getMakerToken (quote : AnyQuote) : string :=
  match quote with IndicativeQuote q => ind_makerToken q | SignedQuote o => order_makerToken (signed_order o) end.
Definition getTakerAmount (quote : AnyQuote) : BN :=
  match quote with IndicativeQuote q => ind_takerAmount q | SignedQuote o => order_takerAmount (signed_order o) end.
Definition getMakerAmount (quote : AnyQuote) : BN :=
  match quote with IndicativeQuote q => ind_makerAmount q | SignedQuote o => order_makerAmount (signed_order o) end.
Definition isOtcOrder (order : SignedNativeOrder) : bool :=
  bool_decide (signed_type order = FillQuoteTransformerOrderType.Otc).
Definition getExpiry (quote : AnyQuote) : BN :=
  match quote with
  | IndicativeQuote q => ind_expiry q
  | SignedQuote o => if isOtcOrder o then parseExpiry (order_expiry (signed_order o)) else order_expiry (signed_order o)
  end.

Definition quotePrice (q : AnyQuote) : BN := div (getMakerAmount q) (getTakerAmount q).
Definition compareQuotes (a b : AnyQuote) : Z := n_sign (toNumber (minus (quotePrice b) (quotePrice a))).

Definition isUsableQuote (now : Z) (isSelling : bool) (takerToken makerToken : string) (assetFillAmount : BN)
    (validityWindowMs : number) (q : AnyQuote) : bool :=
  let expirationCutoff := div (plus (of_number (n_Z now)) (of_number validityWindowMs)) (of_Z 1000) in
  String.eqb (getTakerToken q) takerToken && String.eqb (getMakerToken q) makerToken
  && gte (if isSelling then getTakerAmount q else getMakerAmount q) assetFillAmount
  && gte (getExpiry q) expirationCutoff.

Definition getBestQuote (now : Z) (quotes : list AnyQuote) (isSelling : bool) (takerToken makerToken : string)
    (assetFillAmount : BN) (validityWindowMs : number) : option AnyQuote :=
  head (JsLib.sort compareQuotes
    (bfilter (isUsableQuote now isSelling takerToken makerToken assetFillAmount validityWindowMs) quotes)).

(** Quotes of the exchange: positive finite amounts. *)
Definition priced (q : AnyQuote) : Prop :=
  ∃ m t, fin (getMakerAmount q) m ∧ fin (getTakerAmount q) t ∧ (0 < t)%Q.

(** A difference of prices that is not zero is not rounded away: prices have
    at most 78 decimals. *)
Lemma price_difference p q r s :
  (DECIMAL_PLACES <= 78)%nat → (0 < rdiv p q - rdiv r s)%Q → (pow2 (-1074) <= rdiv p q - rdiv r s)%Q.
Proof.
  intros Hd. unfold rdiv, round_dp. pose proof (pow10_pos DECIMAL_PLACES) as Hp.
  set (x := round_int _ _). set (y := round_int _ (r / s * _)). intros H.
  assert (inject_Z x / pow10 DECIMAL_PLACES - inject_Z y / pow10 DECIMAL_PLACES ==
          inject_Z (x - y) / pow10 DECIMAL_PLACES)%Q as E.
  { unfold Z.sub. rewrite inject_Z_plus, inject_Z_opp. field. lra. }
  rewrite E in H |- *. assert (0 < x - y)%Z as Hxy.
  { apply (Qmult_lt_r 0 _ _ Hp) in H. unfold Qdiv in H. rewrite <- Qmult_assoc, (Qmult_comm (/ _)), Qmult_inv_r in H by lra.
    rewrite Qmult_0_l, Qmult_1_r in H. rewrite Zlt_Qlt. exact H. }
  apply Qle_shift_div_l; [done|]. transitivity (pow2 (-1074) * pow10 78)%Q.
  - rewrite !(Qmult_comm (pow2 _)). apply Qmult_le_compat_r; [|apply Qlt_le_weak, pow2_pos].
    unfold pow10. rewrite <- Zle_Qle. apply Z.pow_le_mono_r; lia.
  - transitivity 1%Q; [vm_compute; discriminate|]. change 1%Q with (inject_Z 1). rewrite <- Zle_Qle. lia.
Qed.

(** The price that a quote is compared by. *)
Definition price_is (q : AnyQuote) (p : Q) : Prop := fin (quotePrice q) p.

Lemma priced_price q : priced q → ∃ m t, price_is q (rdiv m t).
Proof. intros (m & t & Hm & Ht & H0). exists m, t. apply fin_div; [done..|lra]. Qed.

Lemma compareQuotes_price a b m t m' t' :
  (DECIMAL_PLACES <= 78)%nat → price_is a (rdiv m t) → price_is b (rdiv m' t') →
  (compareQuotes a b <= 0)%Z ↔ (rdiv m' t' <= rdiv m t)%Q.
Proof.
  intros Hd Ha Hb. unfold compareQuotes.
  assert (ext_eq (toNumber (minus (quotePrice b) (quotePrice a))) (round64 (rdiv m' t' - rdiv m t))) as E.
  { pose proof (fin_minus _ _ _ _ Hb Ha) as H. unfold fin in H. by rewrite val_toNumber, H. }
  rewrite (n_sign_proper _ _ E). split; intros H.
  - apply Qnot_lt_le. intros Hlt. assert (0 < n_sign (round64 (rdiv m' t' - rdiv m t)))%Z; [|lia].
    apply n_sign_round_pos, price_difference; [done | lra].
  - apply n_sign_round. lra.
Qed.

Lemma compareQuotes_order : (DECIMAL_PLACES <= 78)%nat → comparator_on compareQuotes priced.
Proof.
  intros Hd. split.
  - intros x y (m & t & Hx)%priced_price (m' & t' & Hy)%priced_price.
    rewrite (compareQuotes_price _ _ _ _ _ _ Hd Hx Hy), (compareQuotes_price _ _ _ _ _ _ Hd Hy Hx).
    destruct (Qlt_le_dec (rdiv m t) (rdiv m' t')); [right; lra | by left].
  - intros x y z (m & t & Hx)%priced_price (m' & t' & Hy)%priced_price (m2 & t2 & Hz)%priced_price.
    rewrite (compareQuotes_price _ _ _ _ _ _ Hd Hx Hy), (compareQuotes_price _ _ _ _ _ _ Hd Hy Hz),
      (compareQuotes_price _ _ _ _ _ _ Hd Hx Hz). lra.
Qed.

(** The quote that is chosen is for the pair, covers the amount, is valid long
    enough, and no such quote has a better price; none is chosen only when
    there is none. *)
Theorem best_quote_is_best now quotes isSelling taker maker amount window :
  (DECIMAL_PLACES <= 78)%nat → Forall priced quotes →
  match getBestQuote now quotes isSelling taker maker amount window with
  | Some q => q ∈ quotes ∧ isUsableQuote now isSelling taker maker amount window q = true ∧
      ∀ q' p p', q' ∈ quotes → isUsableQuote now isSelling taker maker amount window q' = true →
        price_is q p → price_is q' p' → (p' <= p)%Q
  | None => Forall (λ q, isUsableQuote now isSelling taker maker amount window q = false) quotes
  end.
Proof.
  intros Hd Hp. unfold getBestQuote.
  set (usable := bfilter _ quotes). assert (Forall priced usable) as Hu.
  { apply Forall_forall. intros q [Hq _]%elem_of_bfilter. by eapply Forall_forall in Hq. }
  pose proof (JsLib.sort_perm compareQuotes usable) as Hperm.
  pose proof (JsLib.sort_sorted compareQuotes priced usable (compareQuotes_order Hd) Hu) as Hs.
  destruct (JsLib.sort compareQuotes usable) as [|q l] eqn:E; simpl.
  - apply Permutation_nil in Hperm. apply Forall_forall. intros q Hq. apply not_true_iff_false. intros H.
    assert (q ∈ usable) as Hin by (by apply elem_of_bfilter). rewrite Hperm in Hin. by apply elem_of_nil in Hin.
  - assert (q ∈ usable) as Hq by (rewrite <- Hperm; by left). pose proof Hq as [Hq1 Hq2]%elem_of_bfilter.
    split_and!; [done..|]. intros q' p p' Hq' Hu' Hprice Hprice'.
    assert (q' ∈ q :: l) as Hin by (rewrite Hperm; by apply elem_of_bfilter).
    rewrite Forall_forall in Hp.
    destruct (priced_price q (Hp q Hq1)) as (m & t & P1), (priced_price q' (Hp q' Hq')) as (m' & t' & P2).
    rewrite (fin_inj _ _ _ Hprice P1), (fin_inj _ _ _ Hprice' P2).
    apply elem_of_cons in Hin as [->|Hin]; [rewrite (fin_inj _ _ _ P2 P1); apply Qle_refl|].
    apply StronglySorted_inv in Hs as [_ Hall]. rewrite Forall_forall in Hall.
    by apply (compareQuotes_price q q' _ _ _ _ Hd P1 P2), Hall.
Qed.
End QuoteComparison.

(** ** The sources of a response *)

Lemma external_format_parsed s :
  source_of_string (if String.eqb (toExternalFormat s) "0x" then "Native"%string else toExternalFormat s) = Some s.
Proof. by destruct s. Qed.

Lemma uniq_from_NoDup {A} `{EqDecision A} (seen l : list A) :
  NoDup l → (∀ x, x ∈ l → x ∉ seen) → uniq_from seen l = l.
Proof.
  revert seen. induction l as [|x l IH]; intros seen Hd Hs; [done|]. apply NoDup_cons in Hd as [Hx Hd]. simpl.
  destruct (includes seen x) eqn:E; [apply includes_true in E; exfalso; apply (Hs x); [by left | done]|].
  f_equal. apply IH; [done|]. intros y Hy [->|H]%elem_of_cons; [done|]. apply (Hs y); [by right | done].
Qed.

Lemma split_concat l :
  l ≠ [] → Forall (λ s, has_char ","%char s = false) l → split_on ","%char (String.concat "," l) = l.
Proof.
  intros Hne Hl. destruct l as [|s l]; [done|]. clear Hne. revert s Hl.
  induction l as [|t l IH]; intros s [Hs Hl]%Forall_cons; [by apply split_on_free|].
  change (String.concat "," (s :: t :: l)) with (s +:+ String ","%char (String.concat "," (t :: l))).
  by rewrite split_on_app, IH.
Qed.

(** The names of sources that the API reports can be sent back as a filter:
    they are read as those sources. *)
Theorem reported_sources_roundtrip (l : list ERC20BridgeSource) :
  NoDup l →
  parseStringArrForERC20BridgeSources (splitIds (Some (String.concat "," (toExternalFormat <$> l)))) = l.
Proof.
  intros Hd. destruct (decide (l = [])) as [->|Hne]; [done|].
  assert (splitIds (Some (String.concat "," (toExternalFormat <$> l))) = toExternalFormat <$> l) as ->.
  { unfold splitIds. destruct (String.eqb_spec (String.concat "," (toExternalFormat <$> l)) "") as [E|_].
    - exfalso. destruct l as [|s [|t l]]; [done | by destruct s | by destruct s].
    - apply split_concat; [by destruct l|]. apply Forall_fmap, Forall_true. by intros []. }
  unfold parseStringArrForERC20BridgeSources, uniq.
  assert (omap source_of_string ((λ source, if String.eqb source "0x" then "Native"%string else source)
    <$> (toExternalFormat <$> l)) = l) as ->.
  { clear. induction l as [|s l IH]; [done|]. rewrite !fmap_cons. cbn [omap list_omap].
    rewrite external_format_parsed. by f_equal. }
  apply uniq_from_NoDup; [done|]. by intros x _ ?%elem_of_nil.
Qed.


(** ** Concrete encodings *)
Module UtilsExamples.
Import Concrete.

Definition integer_of (a : BN (BigNumberLib := QBigNumber)) : Z :=
  match val a with EFin q => Qfloor q | _ => 0%Z end.

#[export] Instance ex_encoding : AffiliateEncoding (B := QBigNumber) := {|
  bn_toHex := λ a, hex_string (integer_of a);
  bn_ofHex := λ s, of_Z (hex_value_after 0 s);
  bn_toDecimal := λ a, string_of_Z (integer_of a);
  encodeAffiliate := λ address id,
    "0x" +:+ AFFILIATE_DATA_SELECTOR +:+ pad64 (toLowerCase (drop_string 2 address)) +:+ pad64 (hex_string (integer_of id));
|}.

Lemma integer_of_int a z : int (B := QBigNumber) a z → integer_of a = z.
Proof.
  unfold int, fin, integer_of. intros H%ext_eq_unfold. destruct (val a) as [| |q]; [done..|].
  rewrite H. apply Qfloor_Z.
Qed.

#[export] Instance ex_encoding_laws : AffiliateEncodingLaws (B := QBigNumber).
Proof.
  split; unfold bn_toHex, bn_toDecimal, bn_ofHex, encodeAffiliate, ex_encoding.
  - intros a z H _. by rewrite (integer_of_int _ _ H).
  - intros a z H _. by rewrite (integer_of_int _ _ H).
  - intros address c h _ Hc Hh Hl. rewrite (integer_of_int _ _ (fin_Z (B := QBigNumber) _)).
    by rewrite hex_string_value.
Qed.

(** 2022-12-31, and ten draws that give [8888888888]. *)
Definition now : Z := 1672500000000.
Definition draws : list number := repeat (EFin (1 # 2)) 10.
Definition taker : string := "0x1111111111111111111111111111111111111111".
End UtilsExamples.

Import Concrete UtilsExamples.

Lemma unique_id_roundtrip_witness :
  let a := attributeCallData (B := QBigNumber) NULL_ADDRESS now draws "0x415565b0" (Some taker) in
  getQuoteIdFromSwapQuote (affiliatedData a) = "8888888888"%string ∧
  ∃ t, int (timestampInSeconds now) t ∧ getTimestampFromUniqueId (decodedUniqueId a) = Some t.
Proof.
  intros a. assert (randomHexNumberOfLength draws = "8888888888"%string) as E by (vm_compute; reflexivity).
  rewrite <- E. apply (unique_id_roundtrip (B := QBigNumber) NULL_ADDRESS now draws "0x415565b0" (Some taker)).
  - reflexivity.
  - split; vm_compute; discriminate.
  - reflexivity.
  - assert (random_value (EFin (1 # 2))) as H.
    { exists (1 # 2)%Q. split; [reflexivity|]. split; vm_compute; discriminate. }
    exact (Forall_cons_2 _ _ _ H (Forall_cons_2 _ _ _ H (Forall_cons_2 _ _ _ H (Forall_cons_2 _ _ _ H
      (Forall_cons_2 _ _ _ H (Forall_cons_2 _ _ _ H (Forall_cons_2 _ _ _ H (Forall_cons_2 _ _ _ H
      (Forall_cons_2 _ _ _ H (Forall_cons_2 _ _ _ H (Forall_nil_2 _))))))))))).
  - reflexivity.
Defined.

Lemma reported_sources_roundtrip_witness :
  parseStringArrForERC20BridgeSources (splitIds (Some "0x,Uniswap_V3,Curve"%string)) =
    [ERC20BridgeSource.Native; ERC20BridgeSource.UniswapV3; ERC20BridgeSource.Curve].
Proof.
  apply (reported_sources_roundtrip [ERC20BridgeSource.Native; ERC20BridgeSource.UniswapV3; ERC20BridgeSource.Curve]).
  repeat constructor; rewrite ?elem_of_cons, elem_of_nil; intros H; repeat destruct H as [H|H]; discriminate || done.
Defined.

Lemma best_quote_is_best_witness :
  let quote amount := IndicativeQuote {| ind_makerToken := "0xb"; ind_takerToken := "0xa"; ind_makerAmount := of_Z amount;
    ind_takerAmount := of_Z 100; ind_expiry := of_Z 2000; ind_makerUri := "u" |} in
  match getBestQuote (λ e, e) 1000 [quote 90; quote 95]%Z true "0xa" "0xb" (of_Z 100) (n_Z 1000) with
  | Some q => ∀ p, price_is q p → (95 # 100 <= p)%Q
  | None => False
  end.
Proof.
  intros quote. assert (∀ m, priced (quote m)) as Hp.
  { intros m. exists (inject_Z m), 100%Q.
    split; [apply (fin_Z (B := QBigNumber)) | split; [apply (fin_Z (B := QBigNumber)) | reflexivity]]. }
  pose proof (best_quote_is_best (λ e, e) 1000 [quote 90; quote 95]%Z true "0xa" "0xb" (of_Z 100) (n_Z 1000)
    ltac:(simpl; lia) (Forall_cons_2 _ _ _ (Hp 90%Z) (Forall_cons_2 _ _ _ (Hp 95%Z) (Forall_nil_2 _)))) as H.
  assert (isUsableQuote (λ e, e) 1000 true "0xa" "0xb" (of_Z 100) (n_Z 1000) (quote 95%Z) = true) as K
    by (vm_compute; reflexivity).
  destruct (getBestQuote _ _ _ _ _ _ _ _) as [q|].
  - destruct H as (_ & _ & H). intros p Hq. refine (H (quote 95%Z) p (95 # 100) _ K Hq _).
    + right. left.
    + by fin_now.
  - apply Forall_cons in H as [_ [H _]%Forall_cons]. congruence.
Defined.
