(* ===== verification/Pricing.v ===== *)
(** * The prices of a response ([services/swap_service.ts])

    [_getSwapQuotePrice] and [_calculateEstimatedPriceImpactPercent]: what a
    quote promises per unit, rounded against the user, and how far its price is
    from the rates of its tokens.  The conversion to units is a parameter. *)

From S2P Require Import Prelude JsNumber BigNum Types Orders PathModel Simulation QuoteInfo FeeCalculator Quotes.
From S2P Require Import QuoteReport SwapQuoter ServiceUtils RequestParsing.

#[local] Set Default Proof Using "Type".

(** ** Prices *)

Section Prices.
Context {B : BigNumberLib}.
(** [Web3Wrapper.toUnitAmount]. *)
Variable toUnitAmount : BN → number → BN.

(** [a.decimalPlaces(n, rm)]: a [number] that is not an index throws. *)
Definition decimalPlaces_number (a : BN) (n : number) (rm : rounding_mode) : result BN :=
  match n with
  | EFin q =>
      if Qeq_bool q (inject_Z (Qfloor q)) && (0 <=? Qfloor q)%Z && (Qfloor q <=? 10 ^ 9)%Z
      then Ok (decimalPlaces (Z.to_nat (Qfloor q)) rm a)
      else Throw (Error "[BigNumber Error] Argument out of range")
  | _ => Throw (Error "[BigNumber Error] Argument not a number")
  end.

Record QuotePrices : Type := { price : BN; guaranteedPrice : BN }.

(** A price of one side, rounded against the user. *)
Definition priceOf (isSelling : bool) (unitMakerAmount unitTakerAmount affiliateFeeUnitMakerAmount : BN)
    (buyTokenDecimals sellTokenDecimals : number) : result BN :=
  if isSelling
  then decimalPlaces_number (div (minus unitMakerAmount affiliateFeeUnitMakerAmount) unitTakerAmount)
         buyTokenDecimals ROUND_FLOOR
  else decimalPlaces_number (div unitTakerAmount (minus unitMakerAmount affiliateFeeUnitMakerAmount))
         sellTokenDecimals ROUND_CEIL.

Definition _getSwapQuotePrice {P} (buyAmount : option BN) (buyTokenDecimals sellTokenDecimals : number)
    (swapQuote : SwapQuote P) (affiliateFee : AffiliateFee) (sellTokenFeeAmount : BN) : result QuotePrices :=
  let best := quote_bestCase swapQuote in
  let worst := quote_worstCase swapQuote in
  let unitMakerAmount := toUnitAmount (makerAmount best) buyTokenDecimals in
  let unitTakerAmount := toUnitAmount (plus (totalTakerAmount best) sellTokenFeeAmount) sellTokenDecimals in
  let guaranteedUnitMakerAmount := toUnitAmount (makerAmount worst) buyTokenDecimals in
  let guaranteedUnitTakerAmount :=
    toUnitAmount (plus (totalTakerAmount worst) sellTokenFeeAmount) sellTokenDecimals in
  let affiliateFeeUnitMakerAmount :=
    times guaranteedUnitMakerAmount (of_number (getBuyTokenPercentageFeeOrZero affiliateFee)) in
  let isSelling := bool_decide (buyAmount = None) in
  price ← priceOf isSelling unitMakerAmount unitTakerAmount affiliateFeeUnitMakerAmount
            buyTokenDecimals sellTokenDecimals;
  guaranteedPrice ← priceOf isSelling guaranteedUnitMakerAmount guaranteedUnitTakerAmount
            affiliateFeeUnitMakerAmount buyTokenDecimals sellTokenDecimals;
  Ok {| price := price; guaranteedPrice := guaranteedPrice |}.

(** [None] is [null]: the impact cannot be estimated. *)
Definition _calculateEstimatedPriceImpactPercent (price sellTokenToEthRate buyTokenToEthRate : BN)
    (marketSide : MarketOperation) : option BN :=
  if isZero sellTokenToEthRate || isZero buyTokenToEthRate then None
  else
    let normalizedPrice := match marketSide with Sell => price | Buy => div (of_Z 1) price end in
    let actualPriceToEstimatedPriceRatio := div normalizedPrice (div buyTokenToEthRate sellTokenToEthRate) in
    let estimatedPriceImpactPercentage :=
      decimalPlaces 4 ROUND_CEIL (times (minus (of_Z 1) actualPriceToEstimatedPriceRatio) (of_Z 100)) in
    if lte estimatedPriceImpactPercentage (of_Z 0) then Some ZERO_AMOUNT
    else Some estimatedPriceImpactPercentage.
End Prices.

Section PriceFacts.
Context {B : BigNumberLib}.

Lemma decimalPlaces_number_ok a n rm b :
  decimalPlaces_number a n rm = Ok b → ∃ k, n_int n (Z.of_nat k) ∧ b = decimalPlaces k rm a.
Proof.
  unfold decimalPlaces_number. destruct n as [| |q]; [done..|]. destruct (_ && _ && _) eqn:E; [|done].
  apply andb_true_iff in E as [[E1%Qeq_bool_eq E2%Z.leb_le]%andb_true_iff _]. intros [= <-].
  exists (Z.to_nat (Qfloor q)). split; [|done]. unfold n_int. rewrite Z2Nat.id by done. by apply ext_eq_fin_iff.
Qed.

Lemma decimalPlaces_number_index a n rm k :
  n_int n (Z.of_nat k) → (Z.of_nat k <= 10 ^ 9)%Z → decimalPlaces_number a n rm = Ok (decimalPlaces k rm a).
Proof.
  intros H Hk. apply ext_eq_unfold in H. destruct n as [| |q]; [done..|]. unfold decimalPlaces_number.
  assert (Qfloor q = Z.of_nat k) as Ef by (rewrite H; apply Qfloor_Z).
  rewrite Ef. assert (Qeq_bool q (inject_Z (Z.of_nat k)) = true) as -> by by apply Qeq_bool_iff.
  rewrite (proj2 (Z.leb_le _ _)) by lia. rewrite (proj2 (Z.leb_le _ _)) by lia. by rewrite Nat2Z.id.
Qed.

Lemma round_dp_floor dp q : (round_dp dp ROUND_FLOOR q <= q)%Q.
Proof.
  unfold round_dp. pose proof (pow10_pos dp). apply Qle_shift_div_r; [done|]. apply round_floor_bounds.
Qed.

Lemma round_dp_ceil dp q : (q <= round_dp dp ROUND_CEIL q)%Q.
Proof.
  unfold round_dp. pose proof (pow10_pos dp). apply Qle_shift_div_l; [done|]. apply round_ceil_bounds.
Qed.

(** The precision of a division: half a unit in its last place. *)
Definition half_unit : Q := (1 # 2) / pow10 DECIMAL_PLACES.

Lemma half_unit_pos : (0 < half_unit)%Q.
Proof. unfold half_unit. apply Qlt_shift_div_l; [apply pow10_pos|]. lra. Qed.

Lemma rdiv_close p q : (p / q - half_unit <= rdiv p q <= p / q + half_unit)%Q.
Proof.
  pose proof (round_dp_dist DECIMAL_PLACES (p / q)) as H. apply Qabs_Qle_condition in H.
  unfold rdiv, half_unit. lra.
Qed.

(** The price of a sell never promises more, and that of a buy never less,
    than the amounts give, up to the precision of the division. *)
Lemma sell_price_bound m t f m' t' f' bd sd p :
  fin m m' → fin t t' → fin f f' → (0 < t')%Q → priceOf true m t f bd sd = Ok p →
  ∃ q, fin p q ∧ (q * t' <= m' - f' + half_unit * t')%Q.
Proof.
  intros Hm Ht Hf H0 (k & _ & ->)%decimalPlaces_number_ok.
  assert (¬ t' == 0)%Q as Hne by lra.
  eexists. split; [apply fin_decimalPlaces, fin_div; [by apply fin_minus | exact Ht | done]|].
  pose proof (round_dp_floor k (rdiv (m' - f') t')). pose proof (rdiv_close (m' - f') t') as [_ Hc].
  assert (round_dp k ROUND_FLOOR (rdiv (m' - f') t') <= (m' - f') / t' + half_unit)%Q as Hq by lra.
  apply (Qmult_le_compat_r _ _ t') in Hq; [|lra]. rewrite Qmult_plus_distr_l in Hq.
  unfold Qdiv in Hq. rewrite <- Qmult_assoc, (Qmult_comm (/ t')), Qmult_inv_r, Qmult_1_r in Hq by done. exact Hq.
Qed.

Lemma buy_price_bound m t f m' t' f' bd sd p :
  fin m m' → fin t t' → fin f f' → (0 < m' - f')%Q → priceOf false m t f bd sd = Ok p →
  ∃ q, fin p q ∧ (t' <= (q + half_unit) * (m' - f'))%Q.
Proof.
  intros Hm Ht Hf H0 (k & _ & ->)%decimalPlaces_number_ok.
  assert (¬ m' - f' == 0)%Q as Hne by lra.
  eexists. split; [apply fin_decimalPlaces, fin_div; [exact Ht | by apply fin_minus | done]|].
  pose proof (round_dp_ceil k (rdiv t' (m' - f'))). pose proof (rdiv_close t' (m' - f')) as [Hc _].
  assert (t' / (m' - f') <= round_dp k ROUND_CEIL (rdiv t' (m' - f')) + half_unit)%Q as Hq by lra.
  apply (Qmult_le_compat_r _ _ (m' - f')) in Hq; [|lra].
  unfold Qdiv in Hq at 1. rewrite <- Qmult_assoc, (Qmult_comm (/ _)), Qmult_inv_r, Qmult_1_r in Hq by done. exact Hq.
Qed.

(** The fee that is taken from what is bought: nothing, or at most the given
    share of the guaranteed amount, up to the precision of the division. *)
Definition fee_share (fee : AffiliateFee) (s : Q) : Prop :=
  fin (of_number (getBuyTokenPercentageFeeOrZero fee)) s ∧ (0 <= s <= 1)%Q.

Lemma share_number fee x :
  ext_eq (getBuyTokenPercentageFeeOrZero fee) (EFin x) → is_number (getBuyTokenPercentageFeeOrZero fee) →
  (0 <= x <= 1)%Q →
  (∃ s, fee_share fee s) ∧
  ∃ d, fin (of_number (n_add (getBuyTokenPercentageFeeOrZero fee) (n_Z 1))) d ∧ (1 <= d <= 2)%Q.
Proof.
  intros Hx Hn Hb. split.
  - destruct (fin_of_number_between _ x 0 1 Hn Hx) as (s & Hs & Hsb); [lia | lia | exact Hb |].
    exists s. split; [exact Hs | exact Hsb].
  - pose proof (n_add_fin _ _ _ _ Hx (n_Z_fin 1 ltac:(lia))) as Ha.
    destruct (round64_le_pow2 (x + inject_Z 1) 1) as (r & Hr & _ & Hr2); [change (pow2 1) with 2%Q; change (inject_Z 1) with 1%Q; lra | lia |].
    assert (1 <= r)%Q as Hr1.
    { apply (round64_ge_pow2 (x + inject_Z 1) 0); [change (pow2 0) with 1%Q; change (inject_Z 1) with 1%Q; lra | lia | exact Hr]. }
    rewrite Hr in Ha. destruct (fin_of_number_between _ r 1 2 (ext_round64_number _) Ha) as (d & Hd & Hdb); [lia | lia | |].
    { change (pow2 1) with 2%Q in Hr2. split; [exact Hr1 | exact Hr2]. }
    exists d. split; [exact Hd | exact Hdb].
Qed.

Lemma half_unit_lt_1 : (half_unit < 1)%Q.
Proof.
  unfold half_unit. pose proof (pow10_pos DECIMAL_PLACES) as Hp. apply Qlt_shift_div_r; [done|].
  assert (1 <= pow10 DECIMAL_PLACES)%Q; [|lra]. unfold pow10. change 1%Q with (inject_Z 1). rewrite <- Zle_Qle. lia.
Qed.

(** The fee that [s] of the guaranteed amount [M] makes is at most [s] of it, up
    to the precision of the division, and at most all of it. *)
Lemma share_charged m s d M s' d' :
  fin m (inject_Z M) → fin s s' → fin d d' → (0 <= M)%Z → (0 <= s' <= 1)%Q → (1 <= d')%Q →
  ∃ b, fin (integerValue ROUND_DOWN (div (times m s) d)) (inject_Z b) ∧ (0 <= b <= M)%Z ∧
    (inject_Z b <= inject_Z M * s' + half_unit)%Q.
Proof.
  intros Hm Hs Hd HM Hs' Hd'. assert (¬ d' == 0)%Q as Hne by lra.
  pose proof (fin_integerValue ROUND_DOWN _ _ (fin_div _ _ _ _ (fin_times _ _ _ _ Hm Hs) Hd Hne)) as Hb.
  eexists. split; [exact Hb|].
  set (x := (inject_Z M * s')%Q). assert (0 <= inject_Z M)%Q as HM0.
  { change 0%Q with (inject_Z 0). by rewrite <- Zle_Qle. }
  assert (0 <= x <= inject_Z M)%Q as Hx by (unfold x; split; nra).
  assert (0 <= x / d' <= x)%Q as Hq.
  { split; [apply Qle_shift_div_l; lra | apply Qle_shift_div_r; nra]. }
  assert (0 <= rdiv x d' <= x + half_unit)%Q as Hr.
  { split; [apply round_dp_nonneg; lra|]. pose proof (rdiv_close x d') as [_ ?]. lra. }
  pose proof (round_down_bounds _ (proj1 Hr)) as [Hb0 Hb1]. pose proof half_unit_lt_1.
  split; [|lra]. split.
  - rewrite Zle_Qle. exact Hb0.
  - apply Z.lt_succ_r. rewrite Zlt_Qlt. unfold Z.succ. rewrite inject_Z_plus. change (inject_Z 1) with 1%Q. lra.
Qed.

(** A fee whose share is between nothing and everything of what is bought. *)
Record proper_share (fee : AffiliateFee) (s : Q) : Prop := {
  ps_share : fin (of_number (getBuyTokenPercentageFeeOrZero fee)) s;
  ps_bounds : (0 <= s <= 1)%Q;
  ps_divisor : ∃ d, fin (of_number (n_add (getBuyTokenPercentageFeeOrZero fee) (n_Z 1))) d ∧ (1 <= d)%Q;
}.

Lemma proper_share_of_number fee x :
  is_number (getBuyTokenPercentageFeeOrZero fee) → ext_eq (getBuyTokenPercentageFeeOrZero fee) (EFin x) →
  (0 <= x <= 1)%Q → ∃ s, proper_share fee s.
Proof.
  intros Hn Hx Hb. destruct (share_number fee x Hx Hn Hb) as [(s & Hs & Hsb) (d & Hd & Hdb)].
  exists s. split; [done | done | exists d; split; [done | apply Hdb]].
Qed.

(** The fee [b] on the bought token that the price of a quote counts, of a
    guaranteed amount [M]: the one that is charged, but for a gasless fee,
    which is charged on top. *)
Definition fee_in_price {P} (gasless : bool) (quote : SwapQuote P) (fee : AffiliateFee) (M b : Z) : Prop :=
  (0 <= b <= M)%Z ∧
  if bool_decide (af_feeType fee = GaslessFee) then b = 0%Z
  else fin (fa_buyTokenFeeAmount (getBuyTokenFeeAmounts gasless quote fee)) (inject_Z b).

Lemma buy_fee_charged {P} gasless (quote : SwapQuote P) fee s M :
  proper_share fee s → fin (makerAmount (quote_worstCase quote)) (inject_Z M) → (0 <= M)%Z →
  ∃ b, fee_in_price gasless quote fee M b ∧ (inject_Z b <= inject_Z M * s + half_unit)%Q.
Proof.
  intros [Hs Hb (d & Hd & Hd1)] Hm HM. unfold fee_in_price, getBuyTokenFeeAmounts.
  assert (0 <= inject_Z M * s + half_unit)%Q as H0.
  { pose proof half_unit_pos.
    assert (0 <= inject_Z M)%Q by (change 0%Q with (inject_Z 0); by rewrite <- Zle_Qle). nra. }
  case_bool_decide as Hg; [exists 0%Z; split_and!; [lia | lia | done | exact H0]|].
  destruct (noBuyTokenFee fee).
  - exists 0%Z. split_and!; [lia | lia | apply fin_Z | exact H0].
  - rewrite decide_False by done.
    destruct (share_charged _ _ _ _ _ d Hm Hs Hd HM Hb Hd1) as (b & ? & ? & ?). by exists b.
Qed.

Section Guaranteed.
Variable toUnitAmount : BN → number → BN.
(** [Web3Wrapper.toUnitAmount] divides by the power of ten. *)
Hypothesis toUnitAmount_val : ∀ a n z k,
  fin a (inject_Z z) → n_int n (Z.of_nat k) → (k <= DECIMAL_PLACES)%nat →
  fin (toUnitAmount a n) (inject_Z z / pow10 k).

(** What is left of the guaranteed amount, in units. *)
Lemma left_after_share M b s k :
  (inject_Z b <= inject_Z M * s + half_unit)%Q →
  (inject_Z M / pow10 k - inject_Z M / pow10 k * s <= (inject_Z (M - b) + half_unit) / pow10 k)%Q.
Proof.
  intros H. pose proof (pow10_pos k) as Hp.
  assert (inject_Z M / pow10 k - inject_Z M / pow10 k * s == (inject_Z M - inject_Z M * s) / pow10 k)%Q as ->
    by (field; lra).
  unfold Z.sub. rewrite inject_Z_plus, inject_Z_opp. apply Qmult_le_compat_r; [lra|].
  apply Qlt_le_weak, Qinv_lt_0_compat, Hp.
Qed.

(** C29. The guaranteed price keeps its word, for a fee whose share of the bought
    token is between nothing and all of it (less than all, when buying).  With
    [M] units of the bought token guaranteed for [T] of the sold one, fees on
    the latter included, and [b] the fee on the former: the seller that pays
    [T] receives at least the guaranteed price of it, and the buyer pays at
    most the guaranteed price of what it receives; up to the precision of a
    division.  A gasless fee is not in the price: then the price holds for
    what is received before the fee. *)
Theorem guaranteed_price_kept {P} gasless buyAmount bd sd kb ks (quote : SwapQuote P) fee sellFee prices s M T :
  proper_share fee s → n_int bd (Z.of_nat kb) → n_int sd (Z.of_nat ks) →
  (kb <= DECIMAL_PLACES)%nat → (ks <= DECIMAL_PLACES)%nat →
  fin (makerAmount (quote_worstCase quote)) (inject_Z M) → (0 < M)%Z →
  fin (plus (totalTakerAmount (quote_worstCase quote)) sellFee) (inject_Z T) → (0 < T)%Z →
  (buyAmount = None ∨ s < 1)%Q →
  _getSwapQuotePrice toUnitAmount buyAmount bd sd quote fee sellFee = Ok prices →
  ∃ p b, fin (guaranteedPrice prices) p ∧ fee_in_price gasless quote fee M b ∧
    let paid := (inject_Z T / pow10 ks)%Q in
    let received := ((inject_Z (M - b) + half_unit) / pow10 kb)%Q in
    match buyAmount with
    | None => (p * paid <= received + half_unit * paid)%Q
    | Some _ => (paid <= (p + half_unit) * received)%Q
    end.
Proof using toUnitAmount_val.
  intros Hf Hbd Hsd Hkb Hks HM HM0 HT HT0 Hside H.
  destruct (buy_fee_charged gasless quote fee s M Hf HM ltac:(lia)) as (b & Hb & Hbs).
  pose proof (toUnitAmount_val _ _ _ _ HM Hbd Hkb) as Hm. pose proof (toUnitAmount_val _ _ _ _ HT Hsd Hks) as Ht.
  pose proof (fin_times _ _ _ _ Hm (ps_share _ _ Hf)) as Hfee. pose proof (left_after_share M b s kb Hbs) as Hleft.
  pose proof (pow10_pos kb) as Hpb. pose proof (pow10_pos ks) as Hps.
  assert (0 < inject_Z T / pow10 ks)%Q as Ht0.
  { apply Qlt_shift_div_l; [done|]. rewrite Qmult_0_l. change 0%Q with (inject_Z 0). by rewrite <- Zlt_Qlt. }
  unfold _getSwapQuotePrice in H. ok_inv H. injection H as <-. cbn [guaranteedPrice].
  destruct buyAmount as [ba|]; simpl bool_decide in *.
  - destruct Hside as [?|Hs]; [done|].
    assert (0 < inject_Z M / pow10 kb - inject_Z M / pow10 kb * s)%Q as Hleft0.
    { assert (0 < inject_Z M / pow10 kb)%Q; [|nra].
      apply Qlt_shift_div_l; [done|]. rewrite Qmult_0_l. change 0%Q with (inject_Z 0). by rewrite <- Zlt_Qlt. }
    match goal with Hp : priceOf _ (toUnitAmount (makerAmount (quote_worstCase _)) _) _ _ _ _ = _ |- _ =>
      eapply buy_price_bound in Hp as (q & Hq & Hqb); [| exact Hm | exact Ht | exact Hfee | exact Hleft0] end.
    exists q, b. split; [exact Hq|]. split; [exact Hb|]. cbv zeta.
    eapply Qle_trans; [exact Hqb|]. rewrite !(Qmult_comm (q + half_unit)). apply Qmult_le_compat_r; [exact Hleft|].
    apply Qnot_lt_le. intros Hneg. nra.
  - match goal with Hp : priceOf _ (toUnitAmount (makerAmount (quote_worstCase _)) _) _ _ _ _ = _ |- _ =>
      eapply sell_price_bound in Hp as (q & Hq & Hqb); [| exact Hm | exact Ht | exact Hfee | exact Ht0] end.
    exists q, b. split; [exact Hq|]. split; [exact Hb|]. cbv zeta. lra.
Qed.
End Guaranteed.
End PriceFacts.

(** ** A conversion to units *)
Section Units.
Context {B : BigNumberLib}.

(** [amount.div(new BigNumber(10).pow(decimals))]. *)
Definition divide_by_base (a : BN) (n : number) : BN :=
  match n with EFin q => div a (pow (of_Z 10) (Qfloor q)) | _ => a end.

Lemma round_dp_exact dp rm z k :
  (k <= dp)%nat → (round_dp dp rm (inject_Z z / pow10 k) == inject_Z z / pow10 k)%Q.
Proof.
  intros Hk. unfold round_dp. pose proof (pow10_pos dp) as Hd. pose proof (pow10_pos k) as Hp.
  assert (inject_Z z / pow10 k * pow10 dp == inject_Z (z * 10 ^ Z.of_nat (dp - k)))%Q as E.
  { assert (pow10 dp == pow10 k * inject_Z (10 ^ Z.of_nat (dp - k)))%Q as ->.
    { unfold pow10. rewrite <- inject_Z_mult, <- Z.pow_add_r by lia.
      by replace (Z.of_nat k + Z.of_nat (dp - k))%Z with (Z.of_nat dp) by lia. }
    rewrite inject_Z_mult. field. lra. }
  assert (round_int rm (inject_Z z / pow10 k * pow10 dp) = round_int rm (inject_Z (z * 10 ^ Z.of_nat (dp - k)))) as ->.
  { apply Z.le_antisymm; apply round_int_mono; rewrite E; apply Qle_refl. }
  rewrite round_int_Z, <- E. field. split; lra.
Qed.

Lemma divide_by_base_val a n z k :
  fin a (inject_Z z) → n_int n (Z.of_nat k) → (k <= DECIMAL_PLACES)%nat →
  fin (divide_by_base a n) (inject_Z z / pow10 k).
Proof.
  intros Ha Hn Hk. apply ext_eq_unfold in Hn. destruct n as [| |q]; [done..|]. unfold divide_by_base.
  assert (Qfloor q = Z.of_nat k) as -> by (rewrite Hn; apply Qfloor_Z).
  assert (fin (pow (of_Z 10) (Z.of_nat k)) (pow10 k)) as Hp.
  { eapply fin_eq; [apply fin_pow; [apply fin_Z | lia]|]. unfold pow10. symmetry. apply Zpower_Qpower. lia. }
  eapply fin_eq; [apply fin_div; [exact Ha | exact Hp |]|].
  - pose proof (pow10_pos k). lra.
  - by apply round_dp_exact.
Qed.
End Units.

Module PricingExamples.
Import Concrete.

Definition info (taker maker : Z) : SwapQuoteInfo :=
  {| takerAmount := of_Z taker; totalTakerAmount := of_Z taker; makerAmount := of_Z maker;
     protocolFeeInWeiAmount := of_Z 0; gas := n_Z 0; slippage := n_Z 0 |}.
(** Expected 1060 for 110, guaranteed 1050 for it. *)
Definition quote : SwapQuote unit :=
  {| takerToken := "0xA"; makerToken := "0xB"; quote_gasPrice := of_Z 1; path := tt;
     quote_bestCase := info 110 1060; quote_worstCase := info 110 1050;
     quote_sourceBreakdown := {| singleSource := []; multihop := [] |}; quote_report := None;
     quote_extendedReport := {| extended_considered := []; extended_delivered := [] |};
     quote_makerTokenDecimals := n_Z 3; quote_takerTokenDecimals := n_Z 2;
     takerAmountPerEth := of_Z 0; makerAmountPerEth := of_Z 0; quote_blockNumber := n_Z 1;
     quote_samplerGasUsage := n_Z 0; quote_type := MarketSell (of_Z 110) |}.
Definition fee : AffiliateFee :=
  {| af_recipient := "0xF"; af_feeType := PercentageFee; af_buyTokenPercentageFee := EFin (1 # 2);
     af_sellTokenPercentageFee := n_Z 0 |}.

Lemma fee_share : proper_share fee (1 # 2).
Proof.
  split; [by fin_now | lra | exists (3 # 2)%Q; split; [by fin_now | lra]].
Qed.
End PricingExamples.

Import Concrete PricingExamples.

Lemma guaranteed_price_kept_witness :
  ∃ prices p b, _getSwapQuotePrice divide_by_base None (n_Z 3) (n_Z 2) quote fee (of_Z 0) = Ok prices ∧
    fin (guaranteedPrice prices) p ∧ fin (fa_buyTokenFeeAmount (getBuyTokenFeeAmounts true quote fee)) (inject_Z b) ∧
    (p * (inject_Z 110 / pow10 2) <= (inject_Z (1050 - b) + half_unit) / pow10 3 + half_unit * (inject_Z 110 / pow10 2))%Q.
Proof.
  assert (is_ok (_getSwapQuotePrice divide_by_base None (n_Z 3) (n_Z 2) quote fee (of_Z 0)) = true) as K
    by (vm_compute; reflexivity).
  destruct (_getSwapQuotePrice _ _ _ _ _ _ _) as [prices|] eqn:E; [|discriminate K]. clear K.
  destruct (guaranteed_price_kept divide_by_base divide_by_base_val true None (n_Z 3) (n_Z 2) 3 2 quote fee (of_Z 0)
    prices (1 # 2) 1050 110 fee_share) as (p & b & Hp & [_ Hb] & H).
  - by apply n_int_Z.
  - by apply n_int_Z.
  - simpl. lia.
  - simpl. lia.
  - apply (fin_Z (B := QBigNumber)).
  - lia.
  - fin_now.
  - lia.
  - by left.
  - exact E.
  - exists prices, p, b. split_and!; [reflexivity | exact Hp | exact Hb | exact H].
Defined.
