(* ===== verification/GasEstimation.v ===== *)
(** * Gas estimates ([utils/utils.ts], [_estimateGasOrThrowRevertErrorAsync])

    The gas of calldata, and the estimate of a transaction by the node: the call
    of a fake taker or, on Ganache, the estimate and the call; what a revert or
    an exception becomes.  The node and the decoders of reverts are classes. *)

From Stdlib Require Import Ascii.
From S2P Require Import Prelude JsLib JsNumber BigNum Types FeeCalculator RequestParsing ServiceUtils.

#[local] Set Default Proof Using "Type".

Definition InsufficientFundsError : js_error := ApiError "InsufficientFundsError".
Definition GasEstimationError : js_error := ApiError "GasEstimationError".
Definition ServiceDisabledError : js_error := ApiError "ServiceDisabledError".

(** ** Gas ([utils/utils.ts]) *)

(** [Buffer.from(s, 'hex')] stops at the first pair that is not one of digits. *)
Fixpoint bytes_of_hex (s : string) : list Z :=
  match s with
  | String a (String b s') =>
      match hex_value a, hex_value b with
      | Some x, Some y => (16 * x + y)%Z :: bytes_of_hex s'
      | _, _ => []
      end
  | _ => []
  end.

(** [s.replace(/0x/g, '')]. *)
Fixpoint remove_0x (s : string) : string :=
  match s with
  | String a s' =>
      match s' with
      | String b s'' =>
          if Ascii.eqb a "0"%char && Ascii.eqb b "x"%char then remove_0x s'' else String a (remove_0x s')
      | EmptyString => s
      end
  | EmptyString => EmptyString
  end.

Definition calculateCallDataGas (bytes : string) : number :=
  fold_left (λ gas b, n_add gas (if (b =? 0)%Z then n_Z 4 else n_Z 16)) (bytes_of_hex (remove_0x bytes)) (n_Z 21000).

Section GasEstimation.
Context {B : BigNumberLib}.

(** A transaction as it is estimated. *)
Record TxData : Type := {
  tx_to : string; tx_data : string; tx_from : string; tx_value : BN; tx_gasPrice : BN;
}.
(** What the fake taker reports of a call. *)
Record CallResult : Type := { success : bool; resultData : string; gasUsed : BN }.
(** An exception of the node: its message and, maybe, its data. *)
Record NodeError : Type := { message : string; data : option string }.

(** The node, with the fake taker in place of the user's account, and on
    Ganache: the estimate, then the call with that gas. *)
Class Node : Type := {
  fakeTaker_execute : TxData → CallResult + NodeError;
  estimateGasAsync : TxData → option number;
  callAsync : TxData → number → string + NodeError;
}.
(** [RevertError.decode] and [decodeThrownErrorAsRevertError]; [None] is an
    exception of theirs. *)
Class RevertDecoder : Type := {
  RevertError_decode : string → option string;
  decodeThrownErrorAsRevertError : NodeError → option string;
}.

Context `{N : !Node} `{RD : !RevertDecoder}.
Variable CHAIN_ID : ChainId.
(** [/insufficient funds/.test] and [/execution reverted/.test]. *)
Definition contains (needle s : string) : bool := (0 <=? indexOf s needle)%Z.

Definition DEFAULT_VALIDATION_GAS_LIMIT : number := n_Z 10000000.

(** The first [try]: the result of the call and, on Ganache, what it
    returned. *)
Definition callOrError (txData : TxData) : (CallResult * option string) + NodeError :=
  if decide (CHAIN_ID = ChainId.Ganache) then
    let estimate := estimateGasAsync txData in
    let gas := default DEFAULT_VALIDATION_GAS_LIMIT estimate in
    match callAsync txData gas with
    | inl raw =>
        inl ({| success := negb (bool_decide (estimate = None)); resultData := raw; gasUsed := of_number gas |}, Some raw)
    | inr e => inr e
    end
  else match fakeTaker_execute txData with inl r => inl (r, None) | inr e => inr e end.

(** The exceptions that end the estimate; after any other one it goes on, on
    Ganache with the success of the gas estimate. *)
Definition errorOf (e : NodeError) : option js_error :=
  if contains "insufficient funds" (message e) then Some InsufficientFundsError
  else if contains "execution reverted" (message e) && truthy (data e) then
    match RevertError_decode (default "" (data e)) with
    | Some r => Some (RevertError r)
    | None => Some (Error (message e))
    end
  else RevertError <$> decodeThrownErrorAsRevertError e.

Definition _estimateGasOrThrowRevertErrorAsync (txData : TxData) : result BN :=
  match callOrError txData with
  | inr e =>
      match errorOf e with
      | Some err => Throw err
      | None =>
          (* [callResult] is the initial one, with [NULL_BYTES]; on Ganache the
             gas estimate may have set its success *)
          if bool_decide (CHAIN_ID = ChainId.Ganache) && negb (bool_decide (estimateGasAsync txData = None))
          then Ok (plus ZERO (of_number (calculateCallDataGas (tx_data txData))))
          else match RevertError_decode "0x" with
               | Some r => Throw (RevertError r)
               | None => Throw GasEstimationError
               end
      end
  | inl (callResult, ganacheRaw) =>
      let revertError :=
        if truthy ganacheRaw then RevertError_decode (default "" ganacheRaw)
        else if success callResult then None else RevertError_decode (resultData callResult) in
      match revertError with
      | Some r => Throw (RevertError r)
      | None =>
          if success callResult then Ok (plus (gasUsed callResult) (of_number (calculateCallDataGas (tx_data txData))))
          else Throw GasEstimationError
      end
  end.
End GasEstimation.

(** ** The gas of calldata is that of EIP-2028 *)

Fixpoint hex_of_bytes (bs : list Z) : string :=
  match bs with
  | [] => EmptyString
  | b :: bs' => String (hex_digit (b / 16)) (String (hex_digit (b mod 16)) (hex_of_bytes bs'))
  end.
Definition is_byte (b : Z) : Prop := (0 <= b < 256)%Z.
(** Four for a zero byte and sixteen for any other one. *)
Definition byte_gas (b : Z) : Z := if (b =? 0)%Z then 4 else 16.
Definition intrinsic_gas (bs : list Z) : Z := (21000 + foldr Z.add 0 (byte_gas <$> bs))%Z.

Lemma hex_digit_not_x d : (0 <= d < 16)%Z → Ascii.eqb (hex_digit d) "x"%char = false.
Proof. revert d. apply sixteen. split_and!; reflexivity. Qed.

Lemma byte_halves b : is_byte b → (0 <= b / 16 < 16)%Z ∧ (0 <= b mod 16 < 16)%Z.
Proof. intros H. split; [|apply Z.mod_pos_bound; lia]. split; [apply Z.div_pos | apply Z.div_lt_upper_bound]; unfold is_byte in H; lia. Qed.

Lemma bytes_of_hex_of_bytes bs : Forall is_byte bs → bytes_of_hex (hex_of_bytes bs) = bs.
Proof.
  induction 1 as [|b bs [H1 H2]%byte_halves _ IH]; [done|]. cbn [hex_of_bytes bytes_of_hex].
  rewrite !hex_value_digit, IH by done. f_equal. symmetry. apply Z.div_mod. lia.
Qed.

(** No ["0x"] where no character is an [x]. *)
Lemma remove_0x_free s : all_chars (λ c, Ascii.eqb c "x"%char = false) s → remove_0x s = s.
Proof.
  induction s as [|a s IH]; [done|]. intros [Ha Hs]. cbn [remove_0x]. destruct s as [|b s]; [done|].
  pose proof Hs as [Hb _]. rewrite Hb, andb_false_r. by rewrite IH.
Qed.
Lemma hex_of_bytes_free bs : Forall is_byte bs → all_chars (λ c, Ascii.eqb c "x"%char = false) (hex_of_bytes bs).
Proof.
  induction 1 as [|b bs [H1 H2]%byte_halves _ IH]; [done|]. cbn. split_and!; [by apply hex_digit_not_x..|done].
Qed.

(** The gas that the service adds for calldata is the intrinsic gas of a
    transaction with it: 21000, four for every zero byte and sixteen for every
    other. *)
Theorem calldata_gas_is_intrinsic bs :
  Forall is_byte bs → (Z.of_nat (length bs) <= 2 ^ 48)%Z →
  n_int (calculateCallDataGas ("0x" +:+ hex_of_bytes bs)) (intrinsic_gas bs).
Proof.
  intros Hb Hl. unfold calculateCallDataGas.
  change (remove_0x ("0x" +:+ hex_of_bytes bs)) with (remove_0x (hex_of_bytes bs)).
  rewrite remove_0x_free by by apply hex_of_bytes_free. rewrite bytes_of_hex_of_bytes by done.
  unfold intrinsic_gas. assert (∀ n z, n_int n z → (0 <= z)%Z → (z + 16 * Z.of_nat (length bs) <= 2 ^ 53)%Z →
    n_int (fold_left (λ gas b, n_add gas (if (b =? 0)%Z then n_Z 4 else n_Z 16)) bs n)
      (z + foldr Z.add 0 (byte_gas <$> bs))) as H.
  { clear. induction bs as [|b bs IH]; intros n z Hn Hz Hbound; cbn [fold_left fmap list_fmap foldr length] in *.
    - by rewrite Z.add_0_r.
    - rewrite Z.add_assoc. assert (n_int (if (b =? 0)%Z then n_Z 4 else n_Z 16) (byte_gas b)) as Hg
        by (unfold byte_gas; destruct (b =? 0)%Z; apply n_int_Z; lia).
      assert (0 <= byte_gas b <= 16)%Z by (unfold byte_gas; destruct (b =? 0)%Z; lia).
      apply IH; [apply n_int_add; [done | done | lia] | lia | lia]. }
  apply H; [by apply n_int_Z | lia | lia].
Qed.

Lemma calldata_gas_is_intrinsic_witness :
  n_int (calculateCallDataGas "0x0010ff00") (21000 + 4 + 16 + 16 + 4).
Proof.
  apply (calldata_gas_is_intrinsic [0; 16; 255; 0]%Z); [|vm_compute; discriminate].
  repeat constructor; vm_compute; (done || discriminate).
Defined.
