(* ===== verification/SwapService.v ===== *)
(** * The swap service ([services/swap_service.ts])

    From the parameters of a request to the response: the options of the quoter,
    the fees on the sold and on the bought token, the transaction, its gas, the
    prices that are promised and the checks on them; and the quotes that wrap or
    unwrap the native token.  The quoter is the class [Quoter] of what the
    service calls, with its laws; [SwapQuoter] implements it.  The consumer of
    the quotes is that of [QuoteConsumer].  Calls of the node are parameters. *)

From S2P Require Import Prelude JsLib JsNumber BigNum Types SourceFilters Fills Orders Constants GasSchedule.
From S2P Require Import PathModel Optimizer Simulation QuoteInfo FeeCalculator Caches BridgeSources.
From S2P Require Import SlippageModel QuoteReport RfqClient RfqValidator MarketOps Quotes SwapQuoter.
From S2P Require Import TransformERC20 QuoteConsumer RequestParsing ServiceUtils Pricing GasEstimation.

#[local] Set Default Proof Using "Type".

(** ** What the service relies on *)

Section Quoter.
Context {B : BigNumberLib}.

(** The quoter of quotes with paths [P] for fill adjustors [F]; [Q] is its
    state. *)
Class Quoter (Q P F : Type) : Type := {
  quoter_getSwapQuoteAsync :
    string → string → BN → MarketOperation → SwapQuoteRequestOpts F → Async Q (SwapQuote P);
  quoter_getTokenAmountPerWei : string → Async Q BN;
  quoter_getGasPriceEstimationOrThrowAsync : Async Q BN;
}.

(** A source that the options of a request allow. *)
Definition allowed_source {F} (opts : GetMarketOrdersOpts F) (s : ERC20BridgeSource) : Prop :=
  s ∉ MarketOps.excludedSources opts ∧
  (MarketOps.includedSources opts = [] ∨ s ∈ MarketOps.includedSources opts).

(** A quote is for the tokens, the side and the amount it was asked for, and
    its orders are of allowed sources. *)
Class QuoterLaws (Q P F : Type) `{!IPath P} `{!Quoter Q P F} : Prop := {
  quote_asked maker taker amount side opts q quote q' :
    quoter_getSwapQuoteAsync maker taker amount side opts q = (Ok quote, q') →
    makerToken quote = maker ∧ takerToken quote = taker ∧
    quote_type quote = match side with Buy => MarketBuy amount | Sell => MarketSell amount end ∧
    IPathLaws side (path quote) ∧
    Forall (λ o, allowed_source (req_market opts) (opt_source o)) (getOrders (path quote));
}.

(** The fill adjustors that a request may have. *)
Definition RequestFillAdjustor : Type := SlippageModelFillAdjustor + IdentityFillAdjustor.
#[global] Instance RequestFillAdjustor_adjust : FillAdjustor RequestFillAdjustor := λ a,
  match a with inl a => adjustFills a | inr a => adjustFills a end.
#[global] Instance RequestFillAdjustor_laws : FillAdjustorLaws RequestFillAdjustor.
Proof.
  split. intros [a|a] side fills.
  - exact (adjustFills_same (A := SlippageModelFillAdjustor) a side fills).
  - exact (adjustFills_same (A := IdentityFillAdjustor) a side fills).
Qed.
End Quoter.

#[global] Instance MetaTransactionVersion_eq_dec : EqDecision MetaTransactionVersion.
Proof. solve_decision. Defined.

(** ** The service *)

Section Service.
Context {B : BigNumberLib} {Q P : Type} `{!IPath P} `{QU : !Quoter Q P RequestFillAdjustor}.
Context `{N : !Node} `{RD : !RevertDecoder} `{AE : !AffiliateEncoding}.
(** The encoders of the calldata, the unit conversion of Web3, [toPrecision],
    the token list and the calldata of the wrapped native token. *)
Variable encodeBridgeSourceId : BridgeProtocol → string → string.
Variable abi_encode : list AbiType.t → list AbiValue → string.
Variable encode_call : ProxyCall → string.
Variable toUnitAmount : BN → number → BN.
Variable toPrecision : nat → BN → BN.
Variable isNativeSymbolOrAddress : string → bool.
Variable weth_withdraw : BN → string.
Variable weth_deposit : string.

(** The configuration: [config.ts] and the addresses of the deployment. *)
Record Config : Type := {
  deployment : Deployment;
  GASLESS_SWAP_FEE_ENABLED : bool;
  ZERO_EX_FEE_TOKENS : list string;
  ZERO_EX_FEE_RECIPIENT_ADDRESS : string;
  FEE_RECIPIENT_ADDRESS : string;
  SAMPLE_DISTRIBUTION_BASE : number;
  (** the decimals of [getTokenMetadataIfExists('WETH', CHAIN_ID)] *)
  wethDecimals : option number;
  ALT_RFQ_MM_ENDPOINT : option string;
  ALT_RFQ_MM_API_KEY : option string;
}.
Variable cfg : Config.
Definition CHAIN_ID : ChainId := TransformERC20.chainId (deployment cfg).

(** The service; [isRfqtEnabled] is that of its RFQ client. *)
Record t : Type := {
  _firmQuoteValidator : option RfqFirmQuoteValidator;
  slippageModelManager : option Manager.t;
  isRfqtEnabled : bool;
}.
Variable this : t.

(** The quoter's state and the cache of the alternative RFQ markets. *)
Record ServiceState : Type := {
  svc_quoter : Q;
  _altRfqMarketsCache : ResultCache.t (T := AltRfqMakerAssetOfferings);
}.
Definition on_quoter {A} (m : Async Q A) : Async ServiceState A := λ s,
  let '(r, q) := m (svc_quoter s) in (r, {| svc_quoter := q; _altRfqMarketsCache := _altRfqMarketsCache s |}).

Lemma on_quoter_ok {A} (m : Async Q A) s a s' :
  on_quoter m s = (Ok a, s') ↔
  ∃ q, m (svc_quoter s) = (Ok a, q) ∧ s' = {| svc_quoter := q; _altRfqMarketsCache := _altRfqMarketsCache s |}.
Proof.
  unfold on_quoter. destruct (m (svc_quoter s)) as [r q]. split.
  - intros [= -> <-]. by exists q.
  - by intros (q' & [= -> <-] & ->).
Qed.

(** What a request meets: the time, the random draws and the answer of the
    markets endpoint, with the time of that answer. *)
Record Env : Type := {
  now : Z;
  draws : list number;
  altMarkets : result (list AltRfqMarket);
  altAnswered : Z;
}.
Variable env : Env.

(** [constants.ts] *)
Definition AVG_MULTIPLEX_TRANFORM_ERC_20_GAS : BN := of_Z 933000.
Definition TRANSFER_GAS : BN := of_Z 27000.
Definition TRANSFER_FROM_GAS : BN := of_Z 32000.
Definition GAS_LIMIT_BUFFER_MULTIPLIER : number := n_add (round64 (1 # 10)) (n_Z 1).
Definition ONE_MINUTE_MS : Z := 60000.
Definition UNWRAP_GAS_BY_CHAIN_ID : ChainId → BN :=
  valueByChainId [(ChainId.Fantom, of_Z 37000)] (of_Z 25000).
Definition UNWRAP_QUOTE_GAS : BN := plus TX_BASE_GAS (UNWRAP_GAS_BY_CHAIN_ID CHAIN_ID).
Definition WRAP_QUOTE_GAS : BN := UNWRAP_QUOTE_GAS.
Definition CHAIN_HAS_VIPS (chain : ChainId) : bool :=
  includes [ChainId.Mainnet; ChainId.BSC] chain.

Definition _getAltMarketOfferingsAsync : Async ServiceState AltRfqMakerAssetOfferings := λ s,
  let fetched : result AltRfqMakerAssetOfferings :=
    match ALT_RFQ_MM_ENDPOINT cfg, ALT_RFQ_MM_API_KEY cfg with
    | Some endpoint, Some _ =>
        match altMarkets env with
        | Ok items => Ok (altMarketResponseToAltOfferings items endpoint)
        | Throw _ => Ok []
        end
    | _, _ => Ok []
    end in
  let '(r, cache) := ResultCache.getResultAsync (λ _, false) (ONE_MINUTE_MS * 360) (now env) (altAnswered env)
                       fetched (_altRfqMarketsCache s) "undefined" in
  (ResultCache.cached <$> r, {| svc_quoter := svc_quoter s; _altRfqMarketsCache := cache |}).

(** *** Fees on the sold token *)

Record SellTokenFees : Type := {
  sellTokenFees : option Fees;
  sellTokenFeeAmount : BN;
  sellTokenFeeOnChainTransfers : list AffiliateFeeAmount;
  sellTokenFeeOnChainTransferGas : BN;
}.
Definition noSellTokenFees : SellTokenFees :=
  {| sellTokenFees := None; sellTokenFeeAmount := ZERO; sellTokenFeeOnChainTransfers := [];
     sellTokenFeeOnChainTransferGas := ZERO |}.

Definition toSellTokenFee (transfer : OnChainTransfer) : AffiliateFeeAmount :=
  {| feeType := GaslessFee; recipient := tr_feeRecipient transfer;
     buyTokenFeeAmount := ZERO; Quotes.sellTokenFeeAmount := tr_feeAmount transfer |}.

(** The fees of [calculateFees] as the service charges them. *)
Definition sellFeesOf (fees : option Fees * OnChainFees) : SellTokenFees :=
  {| sellTokenFees := fees.1;
     sellTokenFeeAmount := totalOnChainFeeAmount fees.2;
     sellTokenFeeOnChainTransfers :=
       bfilter (λ f, gt (Quotes.sellTokenFeeAmount f) ZERO) (toSellTokenFee <$> onChainTransfers fees.2);
     sellTokenFeeOnChainTransferGas := onChainTransfersGas fees.2 |}.

Definition _getSellTokenFees (marketSide : MarketOperation) (feeConfigs : option FeeConfigs) (sellToken : string)
    (sellAmount : BN) (sellTokenAmountPerWei : option BN) (gasPrice quoteGasEstimate gasPerOnChainTransfer : BN)
    : Async Q SellTokenFees :=
  perWei ← (match sellTokenAmountPerWei, marketSide, feeConfigs ≫= fc_gasFee with
            | None, Sell, Some _ => amount ← quoter_getTokenAmountPerWei sellToken; mret (Some amount)
            | _, _, _ => mret sellTokenAmountPerWei
            end : Async Q (option BN));
  calculated ← lift (calculateFees {|
    o_feeConfigs := feeConfigs; o_sellToken := sellToken; o_sellTokenAmount := sellAmount;
    o_sellTokenAmountPerWei := perWei; o_gasPrice := gasPrice; o_quoteGasEstimate := quoteGasEstimate;
    o_gasPerOnChainTransfer := gasPerOnChainTransfer |});
  let fees := sellFeesOf calculated in
  match marketSide with
  | Sell => if lte sellAmount (sellTokenFeeAmount fees)
            then lift (Throw InsufficientFundsError) else mret fees
  | Buy => mret fees
  end.

Definition gasPerOnChainTransferOf (version : MetaTransactionVersion) : BN :=
  match version with V1 => TRANSFER_GAS | V2 => TRANSFER_FROM_GAS end.

Definition marketSideOf (params : GetSwapQuoteParams) : MarketOperation :=
  match gp_sellAmount params with Some _ => Sell | None => Buy end.

(** The fees of a meta-transaction that sells, charged before the quote, and
    the gas price they are computed at. *)
Definition prepareSellTokenFees (params : GetSwapQuoteParams) : Async Q (SellTokenFees * option BN) :=
  match gp_metaTransactionVersion params, gp_sellAmount params with
  | Some version, Some sellAmount =>
      gasPrice ← (match gp_gasPrice params with
                  | Some gasPrice => mret gasPrice
                  | None => quoter_getGasPriceEstimationOrThrowAsync
                  end : Async Q BN);
      fees ← _getSellTokenFees Sell (gp_feeConfigs params) (gp_sellToken params) sellAmount None gasPrice
               AVG_MULTIPLEX_TRANFORM_ERC_20_GAS (gasPerOnChainTransferOf version);
      mret (fees, Some gasPrice)
  | _, _ => mret (noSellTokenFees, gp_gasPrice params)
  end.

(** The fees of a meta-transaction that buys, known with the quote. *)
Definition settleSellTokenFees (params : GetSwapQuoteParams) (prepared : SellTokenFees) (swapQuote : SwapQuote P)
    : Async Q SellTokenFees :=
  match gp_metaTransactionVersion params, marketSideOf params with
  | Some version, Buy =>
      _getSellTokenFees Buy (gp_feeConfigs params) (gp_sellToken params)
        (totalTakerAmount (quote_bestCase swapQuote)) (Some (takerAmountPerEth swapQuote)) (quote_gasPrice swapQuote)
        (of_number (gas (quote_worstCase swapQuote))) (gasPerOnChainTransferOf version)
  | _, _ => mret prepared
  end.

(** *** The options of the quoter *)

(** [DEFAULT_GET_MARKET_ORDERS_OPTS], which [_.merge] fills in for options that
    are [undefined].  The default fees are nil. *)
Definition DEFAULT_BRIDGE_SLIPPAGE : number := round64 (5 # 1000).
Variable formatGas : ERC20BridgeSource → FillData → result number.
Definition DEFAULT_FEE_SCHEDULE : FeeSchedule := λ source fillData,
  {| est_gas := match formatGas source fillData with Ok gas => gas | Throw _ => n_Z 0 end; est_fee := ZERO_AMOUNT |}.
Definition NUM_SAMPLES : nat := 40.

(** [_rfqt]; the address of an absent taker is the empty string. *)
Definition rfqtOptions (params : GetSwapQuoteParams) (integrator : Integrator)
    (offerings : AltRfqMakerAssetOfferings) : GetMarketOrdersRfqOpts :=
  let given {A} (f : RfqtParams → A) (d : A) := match gp_rfqt params with Some r => f r | None => d end in
  {| MarketOps.takerAddress := NULL_ADDRESS;
     MarketOps.txOrigin := default "" (gp_takerAddress params);
     MarketOps.integratorId := int_integratorId integrator;
     MarketOps.intentOnFilling := given rp_intentOnFilling false;
     MarketOps.isIndicative := given rp_isIndicative false;
     MarketOps.nativeExclusivelyRFQ := default false (given rp_nativeExclusivelyRFQ None);
     MarketOps.altRfqAssetOfferings := Some offerings;
     MarketOps.quoteRequestor := None; MarketOps.rfqClient := None;
     MarketOps.firmQuoteValidator := _firmQuoteValidator this |}.

(** RFQ needs an integrator and a forwarder transaction, a taker or an
    indicative request. *)
Definition shouldEnableRfqt (params : GetSwapQuoteParams) : option Integrator :=
  if gp_isETHSell params || negb (bool_decide (gp_takerAddress params = None))
     || match gp_rfqt params with Some r => rp_isIndicative r | None => false end
  then gp_integrator params else None.

Definition getRfqtOptions (params : GetSwapQuoteParams) : Async ServiceState (option GetMarketOrdersRfqOpts) :=
  match shouldEnableRfqt params with
  | Some integrator =>
      offerings ← _getAltMarketOfferingsAsync;
      mret (Some (rfqtOptions params integrator offerings))
  | None => mret None
  end.

(** Whether a quote may not use the optimised routes of the exchange proxy. *)
Definition withoutVIP (params : GetSwapQuoteParams) : bool :=
  negb (bool_decide (gp_metaTransactionVersion params = None)) || gp_shouldSellEntireBalance params
  || bool_decide (af_feeType (gp_affiliateFee params) = PercentageFee) || negb (CHAIN_HAS_VIPS CHAIN_ID).

Definition fillAdjustorOf (params : GetSwapQuoteParams) : RequestFillAdjustor :=
  match slippageModelManager this with
  | Some manager =>
      if default false (gp_enableSlippageProtection params) then
        let slippage := default ENaN (gp_slippagePercentage params) in
        inl {| SlippageModel.isNativeToken := isNativeSymbolOrAddress;
               SlippageModel.nativeFeeToken := TransformERC20.nativeFeeToken (deployment cfg);
               SlippageModel.slippageModelManager := manager;
               SlippageModel.sellToken := gp_sellToken params; SlippageModel.buyToken := gp_buyToken params;
               SlippageModel.maxSlippageRate :=
                 if n_truthy slippage then slippage else DEFAULT_QUOTE_SLIPPAGE_PERCENTAGE |}
      else inr NewIdentityFillAdjustor
  | None => inr NewIdentityFillAdjustor
  end.

(** [shouldGenerateQuoteReport] is [undefined] without RFQ parameters, so that
    the default of the quoter, [true], holds. *)
Definition assetSwapperOpts (params : GetSwapQuoteParams) (rfqt : option GetMarketOrdersRfqOpts)
    (gasPrice : option BN) : SwapQuoteRequestOpts RequestFillAdjustor :=
  {| req_gasPrice := gasPrice;
     req_bridgeSlippage := default DEFAULT_BRIDGE_SLIPPAGE (gp_slippagePercentage params);
     req_market :=
       {| MarketOps.excludedSources := gp_excludedSources params;
          MarketOps.includedSources := default [] (gp_includedSources params);
          MarketOps.numSamples := NUM_SAMPLES;
          MarketOps.sampleDistributionBase := SAMPLE_DISTRIBUTION_BASE cfg;
          MarketOps.neonRouterNumSamples := S NUM_SAMPLES;
          MarketOps.feeSchedule := DEFAULT_FEE_SCHEDULE;
          MarketOps.nativeRfqFee := Ok ZERO_AMOUNT;
          MarketOps.exchangeProxyOverhead :=
            if withoutVIP params then EXCHANGE_PROXY_OVERHEAD_NO_VIP
            else EXCHANGE_PROXY_OVERHEAD_FULLY_FEATURED CHAIN_ID;
          MarketOps.rfqt := rfqt;
          MarketOps.shouldGenerateQuoteReport := match gp_rfqt params with Some r => rp_intentOnFilling r | None => true end;
          MarketOps.fillAdjustor := fillAdjustorOf params |} |}.

(** The amount that is quoted. *)
Definition amountOf (params : GetSwapQuoteParams) (fees : SellTokenFees) : result BN :=
  match gp_sellAmount params, gp_buyAmount params with
  | Some sellAmount, _ => Ok (minus sellAmount (sellTokenFeeAmount fees))
  | None, Some buyAmount =>
      Ok (integerValue ROUND_DOWN (times buyAmount
            (of_number (n_add (getBuyTokenPercentageFeeOrZero (gp_affiliateFee params)) (n_Z 1)))))
  | None, None => Throw TypeError
  end.

(** *** The transaction *)

(** The default positive slippage fee, for allowed pairs. *)
Definition positiveSlippageFeeOf (params : GetSwapQuoteParams) : option AffiliateFeeAmount :=
  let percent := gp_integrator params ≫= int_positiveSlippagePercent in
  let isPairAllowed := includes (ZERO_EX_FEE_TOKENS cfg) (toLowerCase (gp_buyToken params))
                       && includes (ZERO_EX_FEE_TOKENS cfg) (toLowerCase (gp_sellToken params)) in
  let isEnabled := match percent with None => true | Some percent => ext_lt (n_Z 0) percent end in
  if isPairAllowed && isEnabled then
    let feeRecipient := gp_integrator params ≫= int_feeRecipient in
    Some {| feeType := PositiveSlippageFee;
            recipient := if truthy feeRecipient then default "" feeRecipient else ZERO_EX_FEE_RECIPIENT_ADDRESS cfg;
            buyTokenFeeAmount := ZERO; Quotes.sellTokenFeeAmount := ZERO |}
  else None.

Definition buyTokenFeesOf (params : GetSwapQuoteParams) (buyTokenFee : BN) : list AffiliateFeeAmount :=
  [{| recipient := af_recipient (gp_affiliateFee params); feeType := af_feeType (gp_affiliateFee params);
      buyTokenFeeAmount := buyTokenFee; Quotes.sellTokenFeeAmount := ZERO |}].

Record PartialTransaction : Type := {
  pt_to : string; pt_value : BN; pt_data : string; pt_decodedUniqueId : string; pt_gasOverhead : BN;
}.

Definition consumerOpts (params : GetSwapQuoteParams) (buyTokenFees sellFees : list AffiliateFeeAmount) : PartialOpts :=
  {| p_isFromETH := Some (gp_isETHSell params); p_isToETH := Some (gp_isETHBuy params);
     p_sellTokenAffiliateFees := Some sellFees; p_buyTokenAffiliateFees := Some buyTokenFees;
     p_positiveSlippageFee := positiveSlippageFeeOf params; p_refundReceiver := None;
     p_metaTransactionVersion := gp_metaTransactionVersion params;
     p_shouldSellEntireBalance := Some (gp_shouldSellEntireBalance params) |}.

Definition getSwapQuotePartialTransaction (params : GetSwapQuoteParams) (swapQuote : SwapQuote P)
    (buyTokenFees sellFees : list AffiliateFeeAmount) : result PartialTransaction :=
  info ← getCalldataOrThrow encodeBridgeSourceId abi_encode (deployment cfg) swapQuote
           (consumerOpts params buyTokenFees sellFees);
  let attributed := attributeCallData (FEE_RECIPIENT_ADDRESS cfg) (now env) (draws env)
                      (calldataHexString encode_call info) (gp_affiliateAddress params) in
  Ok {| pt_to := toAddress info; pt_value := ethAmount info; pt_data := affiliatedData attributed;
        pt_decodedUniqueId := decodedUniqueId attributed; pt_gasOverhead := gasOverhead info |}.

(** *** Gas *)

Definition fauxGasEstimate (swapQuote : SwapQuote P) (affiliateFeeGasCost : BN) (fees : SellTokenFees) : BN :=
  plus (plus (of_number (gas (quote_worstCase swapQuote))) affiliateFeeGasCost) (sellTokenFeeOnChainTransferGas fees).

(** An estimate of the node, with what it does not see and a buffer. *)
Definition realGasEstimate (params : GetSwapQuoteParams) (estimate gasOverhead transferGas : BN) : BN :=
  let estimate := plus estimate gasOverhead in
  let estimate := if bool_decide (gp_metaTransactionVersion params = Some V2) then plus estimate transferGas else estimate in
  integerValue ROUND_HALF_UP (times estimate (of_number GAS_LIMIT_BUFFER_MULTIPLIER)).

(** Whether the node is asked: RFQ orders cannot be filled on [/price]. *)
Definition shouldEstimateGas (params : GetSwapQuoteParams) (swapQuote : SwapQuote P) : bool :=
  truthy (gp_takerAddress params) && negb (gp_skipValidation params) &&
  (bool_decide (gp_endpoint params = Quote) ||
   bool_decide (assoc_get (singleSource (quote_sourceBreakdown swapQuote)) ERC20BridgeSource.Native = None)).

Definition conservativeGasEstimate (params : GetSwapQuoteParams) (swapQuote : SwapQuote P)
    (tx : PartialTransaction) (affiliateFeeGasCost : BN) (fees : SellTokenFees) : result BN :=
  let faux := fauxGasEstimate swapQuote affiliateFeeGasCost fees in
  if shouldEstimateGas params swapQuote then
    match _estimateGasOrThrowRevertErrorAsync CHAIN_ID
            {| tx_to := pt_to tx; tx_data := pt_data tx; tx_from := default "" (gp_takerAddress params);
               tx_value := pt_value tx; tx_gasPrice := quote_gasPrice swapQuote |} with
    | Ok estimate =>
        Ok (max2 faux (realGasEstimate params estimate (pt_gasOverhead tx) (sellTokenFeeOnChainTransferGas fees)))
    | Throw e => if decide (gp_endpoint params = Quote) then Throw e else Ok faux
    end
  else Ok faux.

(** *** The response *)

Record GetSwapQuoteResponse : Type := {
  rsp_chainId : ChainId;
  rsp_price : BN;
  rsp_guaranteedPrice : BN;
  rsp_estimatedPriceImpact : option BN;
  rsp_to : string;
  rsp_data : string;
  rsp_value : BN;
  rsp_gas : BN;
  rsp_estimatedGas : BN;
  rsp_from : option string;
  rsp_gasPrice : BN;
  rsp_protocolFee : BN;
  rsp_minimumProtocolFee : BN;
  rsp_buyTokenAddress : string;
  rsp_sellTokenAddress : string;
  rsp_buyAmount : BN;
  rsp_sellAmount : BN;
  rsp_sources : list ResponseSource;
  rsp_orders : list OptimizedOrder;
  rsp_allowanceTarget : string;
  rsp_decodedUniqueId : string;
  rsp_extendedQuoteReportSources : option ExtendedQuoteReportSources;
  rsp_sellTokenToEthRate : BN;
  rsp_buyTokenToEthRate : BN;
  rsp_quoteReport : option QuoteReport;
  rsp_blockNumber : option number;
  rsp_debugData : option (number * number);
  rsp_fees : option Fees;
  (** [None] is absent, [Some None] is [null] *)
  rsp_expectedSlippage : option (option BN);
}.

(** [new BigNumber(10).pow(n)]: an exponent that is not an integer throws. *)
Definition pow10_number (n : number) : result BN :=
  match n with
  | EFin q => if Qeq_bool q (inject_Z (Qfloor q)) then Ok (pow (of_Z 10) (Qfloor q))
              else Throw (Error "[BigNumber Error] Exponent not an integer")
  | _ => Throw (Error "[BigNumber Error] Exponent not an integer")
  end.

(** A rate per wei in units of the token. *)
Definition rateToEth (tokenAmountPerEth : BN) (tokenDecimals : number) : result BN :=
  match wethDecimals cfg with
  | None => Throw TypeError
  | Some weth =>
      scale ← pow10_number (n_sub weth tokenDecimals);
      decimalPlaces_number (times tokenAmountPerEth scale) tokenDecimals ROUND_HALF_UP
  end.

(** The quote as a response; the prediction of its slippage comes last. *)
Definition responseOf (params : GetSwapQuoteParams) (swapQuote : SwapQuote P) (fees : SellTokenFees)
    (buyTokenFee : BN) (tx : PartialTransaction) (gasEstimate : BN) : result GetSwapQuoteResponse :=
  prices ← _getSwapQuotePrice toUnitAmount (gp_buyAmount params) (quote_makerTokenDecimals swapQuote)
    (quote_takerTokenDecimals swapQuote) swapQuote (gp_affiliateFee params) (sellTokenFeeAmount fees);
  sellTokenToEthRate ← rateToEth (takerAmountPerEth swapQuote) (quote_takerTokenDecimals swapQuote);
  buyTokenToEthRate ← rateToEth (makerAmountPerEth swapQuote) (quote_makerTokenDecimals swapQuote);
  let best := quote_bestCase swapQuote in
  let worst := quote_worstCase swapQuote in
  let protocolFee := protocolFeeInWeiAmount worst in
  let feeToken := if decide (gp_metaTransactionVersion params = None) then gp_buyToken params else gp_sellToken params in
  let eth := TransformERC20.ETH_TOKEN_ADDRESS (deployment cfg) in
  Ok {| rsp_chainId := CHAIN_ID; rsp_price := price prices; rsp_guaranteedPrice := guaranteedPrice prices;
        rsp_estimatedPriceImpact :=
          _calculateEstimatedPriceImpactPercent (price prices) sellTokenToEthRate buyTokenToEthRate (marketSideOf params);
        rsp_to := pt_to tx; rsp_data := pt_data tx;
        rsp_value := if gp_isETHSell params then plus protocolFee (takerAmount worst) else protocolFee;
        rsp_gas := gasEstimate; rsp_estimatedGas := gasEstimate; rsp_from := gp_takerAddress params;
        rsp_gasPrice := quote_gasPrice swapQuote; rsp_protocolFee := protocolFee;
        rsp_minimumProtocolFee := min2 protocolFee (protocolFeeInWeiAmount best);
        rsp_buyTokenAddress := if gp_isETHBuy params then eth else gp_buyToken params;
        rsp_sellTokenAddress := if gp_isETHSell params then eth else gp_sellToken params;
        rsp_buyAmount := minus (makerAmount best) buyTokenFee;
        rsp_sellAmount := plus (totalTakerAmount best) (sellTokenFeeAmount fees);
        rsp_sources := convertToLiquiditySources CHAIN_ID toPrecision (quote_sourceBreakdown swapQuote);
        rsp_orders := getOrders (path swapQuote);
        rsp_allowanceTarget :=
          if gp_isETHSell params then NULL_ADDRESS else TransformERC20.exchangeProxy (deployment cfg);
        rsp_decodedUniqueId := pt_decodedUniqueId tx;
        rsp_extendedQuoteReportSources := Some (quote_extendedReport swapQuote);
        rsp_sellTokenToEthRate := sellTokenToEthRate; rsp_buyTokenToEthRate := buyTokenToEthRate;
        rsp_quoteReport := quote_report swapQuote; rsp_blockNumber := Some (quote_blockNumber swapQuote);
        rsp_debugData := if gp_isDebugEnabled params
                         then Some (quote_samplerGasUsage swapQuote, quote_blockNumber swapQuote) else None;
        rsp_fees := if String.eqb feeToken (gp_sellToken params) then sellTokenFees fees else None;
        rsp_expectedSlippage := None |}.

(** The checks of a response. *)
Definition checkResponse (params : GetSwapQuoteParams) (r : GetSwapQuoteResponse) : result unit :=
  if lte (rsp_buyAmount r) (of_Z 0) then Throw InsufficientFundsError
  else
    let limit := of_number (n_mul (gp_priceImpactProtectionPercentage params) (n_Z 100)) in
    match rsp_estimatedPriceImpact r with
    | Some impact =>
        if bool_decide (gp_endpoint params = Quote) && gt impact limit
        then Throw (invalid "priceImpactProtectionPercentage" ValidationErrorCodes.ValueOutOfRange
                      ValidationErrorReasons.PriceImpactTooHigh)
        else Ok tt
    | None => Ok tt
    end.

Definition with_expectedSlippage (r : GetSwapQuoteResponse) (s : option (option BN)) : GetSwapQuoteResponse :=
  {| rsp_chainId := rsp_chainId r; rsp_price := rsp_price r; rsp_guaranteedPrice := rsp_guaranteedPrice r;
     rsp_estimatedPriceImpact := rsp_estimatedPriceImpact r; rsp_to := rsp_to r; rsp_data := rsp_data r;
     rsp_value := rsp_value r; rsp_gas := rsp_gas r; rsp_estimatedGas := rsp_estimatedGas r; rsp_from := rsp_from r;
     rsp_gasPrice := rsp_gasPrice r; rsp_protocolFee := rsp_protocolFee r;
     rsp_minimumProtocolFee := rsp_minimumProtocolFee r; rsp_buyTokenAddress := rsp_buyTokenAddress r;
     rsp_sellTokenAddress := rsp_sellTokenAddress r; rsp_buyAmount := rsp_buyAmount r;
     rsp_sellAmount := rsp_sellAmount r; rsp_sources := rsp_sources r; rsp_orders := rsp_orders r;
     rsp_allowanceTarget := rsp_allowanceTarget r; rsp_decodedUniqueId := rsp_decodedUniqueId r;
     rsp_extendedQuoteReportSources := rsp_extendedQuoteReportSources r;
     rsp_sellTokenToEthRate := rsp_sellTokenToEthRate r; rsp_buyTokenToEthRate := rsp_buyTokenToEthRate r;
     rsp_quoteReport := rsp_quoteReport r; rsp_blockNumber := rsp_blockNumber r; rsp_debugData := rsp_debugData r;
     rsp_fees := rsp_fees r; rsp_expectedSlippage := s |}.

(** Whether the integrator or the request wants a prediction, and what the
    model says. *)
Definition expectedSlippageOf (params : GetSwapQuoteParams) (r : GetSwapQuoteResponse) : option (option BN) :=
  if bool_decide (gp_integrator params ≫= int_slippageModel = Some true)
     || default false (gp_enableSlippageProtection params)
  then Some (match slippageModelManager this with
             | Some manager =>
                 calculateExpectedSlippage isNativeSymbolOrAddress (TransformERC20.nativeFeeToken (deployment cfg))
                   manager (gp_buyToken params) (gp_sellToken params) (rsp_buyAmount r) (rsp_sellAmount r)
                   ((λ s, {| ls_name := rs_name s; ls_proportion := rs_proportion s |}) <$> rsp_sources r)
                   (default ENaN (gp_slippagePercentage params))
             | None => None
             end)
  else None.

(** What is done with a quote. *)
Definition finishQuote (params : GetSwapQuoteParams) (swapQuote : SwapQuote P) (fees : SellTokenFees)
    : result GetSwapQuoteResponse :=
  let buyFees := getBuyTokenFeeAmounts (GASLESS_SWAP_FEE_ENABLED cfg) swapQuote (gp_affiliateFee params) in
  tx ← getSwapQuotePartialTransaction params swapQuote (buyTokenFeesOf params (fa_buyTokenFeeAmount buyFees))
         (sellTokenFeeOnChainTransfers fees);
  gasEstimate ← conservativeGasEstimate params swapQuote tx (fa_gasCost buyFees) fees;
  response ← responseOf params swapQuote fees (fa_buyTokenFeeAmount buyFees) tx gasEstimate;
  _ ← checkResponse params response;
  Ok (with_expectedSlippage response (expectedSlippageOf params response)).

(** [_.isEqual(includedSources, ['RFQT'])]. *)
Definition onlyRfqt (params : GetSwapQuoteParams) : bool :=
  bool_decide (fmap (M := list) ERC20BridgeSource.to_string <$> gp_includedSources params = Some ["RFQT"%string]).

Definition calculateSwapQuoteAsync (params : GetSwapQuoteParams) : Async ServiceState GetSwapQuoteResponse :=
  if match gp_rfqt params with Some _ => true | None => false end && onlyRfqt params && negb (isRfqtEnabled this)
  then lift (Throw ServiceDisabledError)
  else
    rfqt ← getRfqtOptions params;
    prepared ← on_quoter (prepareSellTokenFees params);
    amount ← lift (amountOf params prepared.1);
    swapQuote ← on_quoter (quoter_getSwapQuoteAsync (gp_buyToken params) (gp_sellToken params) amount
                  (marketSideOf params) (assetSwapperOpts params rfqt prepared.2));
    fees ← on_quoter (settleSellTokenFees params prepared.1 swapQuote);
    lift (finishQuote params swapQuote fees).

(** *** Wrapping and unwrapping *)

Definition _getSwapQuoteForNativeWrappedAsync (params : GetSwapQuoteParams) (isUnwrap : bool)
    : Async ServiceState GetSwapQuoteResponse :=
  match (match gp_buyAmount params with Some a => Some a | None => gp_sellAmount params end) with
  | None => lift (Throw (Error "sellAmount or buyAmount required"))
  | Some amount =>
      let data := if isUnwrap then weth_withdraw amount else weth_deposit in
      let attributed := attributeCallData (FEE_RECIPIENT_ADDRESS cfg) (now env) (draws env) data
                          (gp_affiliateAddress params) in
      gasPrice ← (match gp_gasPrice params with
                  | Some gasPrice => mret gasPrice
                  | None => on_quoter quoter_getGasPriceEstimationOrThrowAsync
                  end : Async ServiceState BN);
      let gasEstimate := if isUnwrap then UNWRAP_QUOTE_GAS else WRAP_QUOTE_GAS in
      let eth := TransformERC20.ETH_TOKEN_ADDRESS (deployment cfg) in
      mret {| rsp_chainId := CHAIN_ID; rsp_price := of_Z 1; rsp_guaranteedPrice := of_Z 1; rsp_estimatedPriceImpact := Some ZERO_AMOUNT;
              rsp_to := TransformERC20.nativeFeeToken (deployment cfg); rsp_data := affiliatedData attributed;
              rsp_value := if isUnwrap then ZERO else amount; rsp_gas := gasEstimate; rsp_estimatedGas := gasEstimate;
              rsp_from := gp_takerAddress params; rsp_gasPrice := gasPrice; rsp_protocolFee := ZERO;
              rsp_minimumProtocolFee := ZERO;
              rsp_buyTokenAddress := if isUnwrap then eth else gp_buyToken params;
              rsp_sellTokenAddress := if isUnwrap then gp_sellToken params else eth;
              rsp_buyAmount := amount; rsp_sellAmount := amount; rsp_sources := []; rsp_orders := [];
              rsp_allowanceTarget := NULL_ADDRESS; rsp_decodedUniqueId := decodedUniqueId attributed;
              rsp_extendedQuoteReportSources := None; rsp_sellTokenToEthRate := of_Z 1; rsp_buyTokenToEthRate := of_Z 1;
              rsp_quoteReport := None; rsp_blockNumber := None; rsp_debugData := None; rsp_fees := None;
              rsp_expectedSlippage := None |}
  end.
Definition getSwapQuoteForWrapAsync (params : GetSwapQuoteParams) : Async ServiceState GetSwapQuoteResponse :=
  _getSwapQuoteForNativeWrappedAsync params false.
Definition getSwapQuoteForUnwrapAsync (params : GetSwapQuoteParams) : Async ServiceState GetSwapQuoteResponse :=
  _getSwapQuoteForNativeWrappedAsync params true.

(** ** How a quote comes about *)

(** The steps of a quote that is answered. *)
Lemma calculate_inv params s r s' :
  calculateSwapQuoteAsync params s = (Ok r, s') →
  ∃ rfqt fees0 gasPrice amount quote fees s1 q1 q2 q3,
    getRfqtOptions params s = (Ok rfqt, s1) ∧
    prepareSellTokenFees params (svc_quoter s1) = (Ok (fees0, gasPrice), q1) ∧
    amountOf params fees0 = Ok amount ∧
    quoter_getSwapQuoteAsync (gp_buyToken params) (gp_sellToken params) amount (marketSideOf params)
      (assetSwapperOpts params rfqt gasPrice) q1 = (Ok quote, q2) ∧
    settleSellTokenFees params fees0 quote q2 = (Ok fees, q3) ∧
    finishQuote params quote fees = Ok r.
Proof.
  unfold calculateSwapQuoteAsync. destruct (_ && _ && _); [done|].
  intros (rfqt & s1 & Hr & H)%async_bind_ok. apply async_bind_ok in H as ([fees0 gasPrice] & s2 & Hp & H).
  apply async_bind_ok in H as (amount & s3 & [Ha ->]%lift_ok & H).
  apply async_bind_ok in H as (quote & s4 & Hq & H). apply async_bind_ok in H as (fees & s5 & Hf & H).
  apply lift_ok in H as [H _].
  apply on_quoter_ok in Hp as (q1 & Hp & ->), Hq as (q2 & Hq & ->), Hf as (q3 & Hf & ->).
  exists rfqt, fees0, gasPrice, amount, quote, fees, s1, q1, q2, q3. done.
Qed.

Lemma finish_inv params quote fees r :
  finishQuote params quote fees = Ok r →
  let buyFees := getBuyTokenFeeAmounts (GASLESS_SWAP_FEE_ENABLED cfg) quote (gp_affiliateFee params) in
  ∃ tx gasEstimate response,
    getSwapQuotePartialTransaction params quote (buyTokenFeesOf params (fa_buyTokenFeeAmount buyFees))
      (sellTokenFeeOnChainTransfers fees) = Ok tx ∧
    conservativeGasEstimate params quote tx (fa_gasCost buyFees) fees = Ok gasEstimate ∧
    responseOf params quote fees (fa_buyTokenFeeAmount buyFees) tx gasEstimate = Ok response ∧
    checkResponse params response = Ok tt ∧
    r = with_expectedSlippage response (expectedSlippageOf params response).
Proof.
  unfold finishQuote. intros H. apply result_bind_ok in H as (tx & Ht & H). apply result_bind_ok in H as (g & Hg & H).
  apply result_bind_ok in H as (response & Hr & H). apply result_bind_ok in H as ([] & Hc & H).
  apply Ok_inj in H as <-. by exists tx, g, response.
Qed.

(** ** The fees of a meta-transaction that sells *)

(** The transfers that are made pay what is charged, in positive amounts. *)
Lemma positive_transfers l qs :
  Forall2 (λ t q, fin (tr_feeAmount t) q) l qs → Forall (λ q, 0 <= q)%Q qs →
  ∃ qs', Forall2 (λ f q, fin (Quotes.sellTokenFeeAmount f) q)
           (bfilter (λ f, gt (Quotes.sellTokenFeeAmount f) ZERO) (toSellTokenFee <$> l)) qs' ∧
    Forall (λ q, 0 < q)%Q qs' ∧ (Qsum qs' == Qsum qs)%Q.
Proof.
  induction 1 as [|t q l qs Hq _ IH]; intros Hn.
  - exists []. split_and!; [constructor | constructor | done].
  - apply Forall_cons in Hn as [H0 (qs' & Hf & Hp & Hs)%IH]. rewrite fmap_cons. cbn [bfilter].
    change (Quotes.sellTokenFeeAmount (toSellTokenFee t)) with (tr_feeAmount t).
    destruct (gt (tr_feeAmount t) ZERO) eqn:E; unfold gt in E.
    + apply (lt_fin _ _ _ _ (fin_Z 0) Hq) in E. exists (q :: qs').
      split_and!; [by constructor | by constructor |]. rewrite !Qsum_cons, Hs. reflexivity.
    + apply (lt_fin_false _ _ _ _ (fin_Z 0) Hq) in E. change (inject_Z 0) with 0%Q in E. exists qs'.
      split_and!; [done | done |]. rewrite Qsum_cons, Hs. lra.
Qed.

Lemma sell_fees_settled opts calculated :
  proper_opts opts → calculateFees opts = Ok calculated →
  let fees := sellFeesOf calculated in
  ∃ qs, Forall2 (λ f q, fin (Quotes.sellTokenFeeAmount f) q) (sellTokenFeeOnChainTransfers fees) qs ∧
    Forall (λ q, 0 < q)%Q qs ∧ fin (sellTokenFeeAmount fees) (Qsum qs).
Proof.
  intros Hp H fees. destruct calculated as [[f|] oc].
  - pose proof (computed_nonneg _ _ _ Hp H) as Hn. apply calculateFees_inv in H as (c & _ & _ & _ & _ & ->).
    destruct (on_chain_total f (o_gasPerOnChainTransfer opts) Hn) as (qs & Hqs & H0 & Ht).
    destruct (positive_transfers _ _ Hqs H0) as (qs' & Hf & Hpos & Hs).
    exists qs'. split_and!; [exact Hf | exact Hpos |]. eapply fin_eq; [exact Ht | by rewrite Hs].
  - unfold calculateFees in H. destruct (o_feeConfigs opts); [ok_inv H; done|]. apply Ok_inj in H. injection H as <-.
    exists []. split_and!; [constructor | constructor | apply (fin_Z 0)].
Qed.

(** What a request that sells by meta-transaction needs for its fees: proper
    shares, and prices that are not negative. *)
Record proper_sale (params : GetSwapQuoteParams) : Prop := {
  sale_configs : ∀ c, gp_feeConfigs params = Some c → proper_configs c;
  sale_gasPrice : ∀ g, gp_gasPrice params = Some g → nonneg g;
  sale_oracle : ∀ q g q', quoter_getGasPriceEstimationOrThrowAsync q = (Ok g, q') → nonneg g;
  sale_rates : ∀ token q w q', quoter_getTokenAmountPerWei token q = (Ok w, q') → nonneg w;
}.

(** The transfers of a sale are those of the fee calculator that pay something. *)
Definition transfers_of (params : GetSwapQuoteParams) (sell : BN) (transfers : list AffiliateFeeAmount) : Prop :=
  ∃ opts fees charges, calculateFees opts = Ok (fees, charges) ∧
    o_feeConfigs opts = gp_feeConfigs params ∧ o_sellToken opts = gp_sellToken params ∧ o_sellTokenAmount opts = sell ∧
    ((λ f, (recipient f, Quotes.sellTokenFeeAmount f)) <$> transfers) =
    ((λ t, (tr_feeRecipient t, tr_feeAmount t)) <$> bfilter (λ t, gt (tr_feeAmount t) (of_Z 0)) (onChainTransfers charges)).

Lemma transfers_paid l :
  ((λ f, (recipient f, Quotes.sellTokenFeeAmount f)) <$>
     bfilter (λ f, gt (Quotes.sellTokenFeeAmount f) ZERO) (toSellTokenFee <$> l)) =
  ((λ t, (tr_feeRecipient t, tr_feeAmount t)) <$> bfilter (λ t, gt (tr_feeAmount t) (of_Z 0)) l).
Proof. rewrite bfilter_fmap, <- list_fmap_compose. reflexivity. Qed.

Lemma prepared_sale params version sell S q fees gasPrice q' :
  proper_sale params → gp_metaTransactionVersion params = Some version → gp_sellAmount params = Some sell →
  fin sell S → (0 <= S)%Q → prepareSellTokenFees params q = (Ok (fees, gasPrice), q') →
  ∃ qs, transfers_of params sell (sellTokenFeeOnChainTransfers fees) ∧
    Forall2 (λ f x, fin (Quotes.sellTokenFeeAmount f) x) (sellTokenFeeOnChainTransfers fees) qs ∧
    Forall (λ x, 0 < x)%Q qs ∧ fin (sellTokenFeeAmount fees) (Qsum qs) ∧ (Qsum qs < S)%Q.
Proof.
  intros [Hc Hg Ho Hr] Hv Hs HS H0 H. unfold prepareSellTokenFees in H. rewrite Hv, Hs in H.
  apply async_bind_ok in H as (price & q1 & Hprice & H).
  apply async_bind_ok in H as (fees' & q2 & Hf & [[= -> ->] ->]%async_ret_ok).
  assert (nonneg price) as Hp.
  { destruct (gp_gasPrice params) as [g|]; [apply async_ret_ok in Hprice as [-> _]; by apply Hg | by eapply Ho]. }
  unfold _getSellTokenFees in Hf. apply async_bind_ok in Hf as (perWei & q3 & Hw & Hf).
  apply async_bind_ok in Hf as (calculated & q4 & [Hcalc ->]%lift_ok & Hf). pose proof Hcalc as Hcharged.
  apply sell_fees_settled in Hcalc as (qs & Hqs & Hpos & Ht).
  - destruct (lte sell _) eqn:E; [done|]. apply async_ret_ok in Hf as [-> _]. exists qs.
    split_and!; [| exact Hqs | exact Hpos | exact Ht | by apply (lte_fin_false _ _ _ _ HS Ht) in E].
    destruct calculated as [f charges]. eexists _, f, charges. split; [exact Hcharged|].
    split_and!; [reflexivity.. | apply transfers_paid].
  - split; cbn [o_feeConfigs o_sellTokenAmount o_sellTokenAmountPerWei o_gasPrice o_quoteGasEstimate o_gasPerOnChainTransfer].
    + exact Hc.
    + by exists S.
    + intros w ->. destruct (gp_feeConfigs params ≫= fc_gasFee); [|by apply async_ret_ok in Hw as [? _]].
      apply async_bind_ok in Hw as (w' & q5 & Hw & [[= ->] _]%async_ret_ok). by eapply Hr.
    + exact Hp.
    + by apply nonneg_Z.
    + destruct version; by apply nonneg_Z.
Qed.

(** The transaction of a meta-transaction of the first version that does not sell
    ether pays the transfers and fills the quote. *)
Lemma v1_transaction params quote buyFees transfers qs tx :
  gp_metaTransactionVersion params = Some V1 → gp_isETHSell params = false → gp_shouldSellEntireBalance params = false →
  Forall2 (λ f x, fin (Quotes.sellTokenFeeAmount f) x) transfers qs → Forall (λ x, 0 < x)%Q qs →
  getSwapQuotePartialTransaction params quote buyFees transfers = Ok tx →
  ∃ c, pays_and_fills encodeBridgeSourceId abi_encode (deployment cfg) quote
         (optsWithDefaults (consumerOpts params buyFees transfers)) transfers qs c ∧
    pt_data tx = affiliatedData (attributeCallData (FEE_RECIPIENT_ADDRESS cfg) (now env) (draws env)
                                   (encode_call c) (gp_affiliateAddress params)).
Proof.
  intros Hv He Ha Hq Hp H. unfold getSwapQuotePartialTransaction, getCalldataOrThrow in H.
  apply result_bind_ok in H as (info & Hi & [= <-]).
  rewrite fees_need_transformer in Hi by (unfold requiresTransformERC20; cbn; by rewrite Hv).
  apply result_bind_ok in Hi as (slipped & _ & Hi).
  eapply (v1_pays_and_fills _ _ _ _ _ qs) in Hi; [|assumption..]. by exists (call info).
Qed.

(** A meta-transaction that sells spends exactly the amount of the request: the
    amount that is quoted is positive and, with the transfers that pay the
    fees on chain, each of them positive, makes up the amount to sell; these
    transfers are those of the transaction, and the amount that is answered is
    what the quote takes with the fees. *)
Theorem meta_transaction_sell_conserved params s r s' version sell S :
  proper_sale params → gp_metaTransactionVersion params = Some version → gp_sellAmount params = Some sell →
  fin sell S → (0 <= S)%Q → calculateSwapQuoteAsync params s = (Ok r, s') →
  ∃ rfqt gasPrice amount quote transfers buyFees tx q q' A qs,
    quoter_getSwapQuoteAsync (gp_buyToken params) (gp_sellToken params) amount Sell
      (assetSwapperOpts params rfqt gasPrice) q = (Ok quote, q') ∧
    getSwapQuotePartialTransaction params quote buyFees transfers = Ok tx ∧ rsp_data r = pt_data tx ∧
    transfers_of params sell transfers ∧ fin amount A ∧ (0 < A)%Q ∧
    Forall2 (λ f x, fin (Quotes.sellTokenFeeAmount f) x) transfers qs ∧ Forall (λ x, 0 < x)%Q qs ∧
    (A + Qsum qs == S)%Q ∧
    (∀ t, fin (totalTakerAmount (quote_bestCase quote)) t → fin (rsp_sellAmount r) (t + Qsum qs)).
Proof.
  intros Hsale Hv Hs HS H0 H.
  apply calculate_inv in H as (rfqt & fees0 & price & amount & quote & fees & s1 & q1 & q2 & q3 & _ & Hp & Ha & Hq & Hf & H).
  destruct (prepared_sale _ _ _ _ _ _ _ _ Hsale Hv Hs HS H0 Hp) as (qs & Hof & Hqs & Hpos & Ht & Hlt).
  assert (marketSideOf params = Sell) as Hside by (unfold marketSideOf; by rewrite Hs).
  unfold settleSellTokenFees in Hf. rewrite Hside, Hv in Hf. apply async_ret_ok in Hf as [-> _].
  rewrite Hside in Hq. unfold amountOf in Ha. rewrite Hs in Ha. apply Ok_inj in Ha as <-.
  apply finish_inv in H as (tx & g & response & Htx & _ & Hr & _ & ->).
  unfold responseOf in Hr. ok_inv Hr. apply Ok_inj in Hr as <-.
  exists rfqt, price. eexists. exists quote. eexists _, _. exists tx, q1, q2, (S - Qsum qs)%Q, qs. split_and!.
  - exact Hq.
  - exact Htx.
  - done.
  - exact Hof.
  - by apply fin_minus.
  - lra.
  - exact Hqs.
  - exact Hpos.
  - lra.
  - intros t Hbest. by apply fin_plus.
Qed.

(** ** What is answered *)

Lemma response_inv params s r s' :
  calculateSwapQuoteAsync params s = (Ok r, s') →
  ∃ rfqt gasPrice amount quote fees q q' tx response,
    quoter_getSwapQuoteAsync (gp_buyToken params) (gp_sellToken params) amount (marketSideOf params)
      (assetSwapperOpts params rfqt gasPrice) q = (Ok quote, q') ∧
    let buyFees := getBuyTokenFeeAmounts (GASLESS_SWAP_FEE_ENABLED cfg) quote (gp_affiliateFee params) in
    conservativeGasEstimate params quote tx (fa_gasCost buyFees) fees = Ok (rsp_gas r) ∧
    rsp_orders r = getOrders (path quote) ∧
    rsp_buyAmount r = minus (makerAmount (quote_bestCase quote)) (fa_buyTokenFeeAmount buyFees) ∧
    checkResponse params response = Ok tt ∧ rsp_buyAmount response = rsp_buyAmount r ∧
    rsp_estimatedPriceImpact response = rsp_estimatedPriceImpact r.
Proof.
  intros (rfqt & fees0 & price & amount & quote & fees & s1 & q1 & q2 & q3 & _ & _ & _ & Hq & _ & H)%calculate_inv.
  apply finish_inv in H as (tx & g & response & _ & Hg & Hr & Hc & ->).
  unfold responseOf in Hr. ok_inv Hr. apply Ok_inj in Hr as <-.
  exists rfqt, price, amount, quote, fees, q1, q2, tx. eexists. split; [exact Hq|]. split; [exact Hg|].
  do 2 (split; [reflexivity|]). split; [exact Hc | split; reflexivity].
Qed.

(** The sources that a request allows. *)
Definition request_allows (params : GetSwapQuoteParams) (s : ERC20BridgeSource) : Prop :=
  s ∉ gp_excludedSources params ∧
  ∀ included, gp_includedSources params = Some included → included ≠ [] → s ∈ included.

Lemma answered_orders {QL : QuoterLaws Q P RequestFillAdjustor} params s r s' :
  calculateSwapQuoteAsync params s = (Ok r, s') →
  Forall (λ o, request_allows params (opt_source o)) (rsp_orders r).
Proof.
  intros (rfqt & price & amount & quote & fees & q & q' & tx & response & Hq & _ & Ho & _)%response_inv.
  rewrite Ho. apply quote_asked in Hq as (_ & _ & _ & _ & Hs). eapply Forall_impl; [exact Hs|].
  intros o [Hex Hin]. split; [exact Hex|]. intros included Hinc Hne. cbn in Hin. rewrite Hinc in Hin.
  by destruct Hin.
Qed.

(** C11. What is answered is worth its while: something is bought after the fees
    and, on [/quote], at an estimated price impact within the protection of the
    request; and it is bought through sources that the request does not exclude
    and, when it includes some, of these only. *)
Theorem answered_quote_checked {QL : QuoterLaws Q P RequestFillAdjustor} params s r s' :
  calculateSwapQuoteAsync params s = (Ok r, s') →
  lte (rsp_buyAmount r) (of_Z 0) = false ∧
  (gp_endpoint params = Quote → ∀ impact, rsp_estimatedPriceImpact r = Some impact →
     gt impact (of_number (n_mul (gp_priceImpactProtectionPercentage params) (n_Z 100))) = false) ∧
  Forall (λ o, request_allows params (opt_source o)) (rsp_orders r).
Proof.
  intros H. pose proof (answered_orders _ _ _ _ H) as Ho.
  apply response_inv in H as (rfqt & price & amount & quote & fees & q & q' & tx & response & _ & _ & _ & _ & Hc & Hb & Hi).
  unfold checkResponse in Hc. rewrite Hb, Hi in Hc. destruct (lte (rsp_buyAmount r) _); [done|].
  split_and!; [done | | exact Ho]. intros He impact Himp. rewrite Himp, He in Hc. cbn [bool_decide andb] in Hc.
  destruct (gt impact _); [|done]. by rewrite bool_decide_eq_true_2 in Hc.
Qed.

(** A call that reverts or cannot be made fails a request only where the user
    asked to check it: on [/quote], with a taker and the validation on. *)
Theorem estimate_errors_only_on_quote params quote tx cost fees e :
  conservativeGasEstimate params quote tx cost fees = Throw e ↔
  gp_endpoint params = Quote ∧ truthy (gp_takerAddress params) = true ∧ gp_skipValidation params = false ∧
  _estimateGasOrThrowRevertErrorAsync CHAIN_ID
    {| tx_to := pt_to tx; tx_data := pt_data tx; tx_from := default "" (gp_takerAddress params);
       tx_value := pt_value tx; tx_gasPrice := quote_gasPrice quote |} = Throw e.
Proof.
  unfold conservativeGasEstimate, shouldEstimateGas.
  destruct (truthy _); [|split; [done | by intros (_ & ? & _)]].
  destruct (gp_skipValidation params); [split; [done | by intros (_ & _ & ? & _)]|]. cbn [andb negb].
  destruct (decide (gp_endpoint params = Quote)) as [He|He].
  - rewrite bool_decide_eq_true_2 by done. cbn [orb].
    destruct (_estimateGasOrThrowRevertErrorAsync _ _) as [g|err].
    + split; [done | by intros (_ & _ & _ & ?)].
    + split; [by intros [= ->] | by intros (_ & _ & _ & [= ->])].
  - split; [|by intros (? & _)]. rewrite bool_decide_eq_false_2 by done. cbn [orb].
    destruct (bool_decide _); [|done]. by destruct (_estimateGasOrThrowRevertErrorAsync _ _).
Qed.

Lemma multiplier_bounds : ∃ m, fin (of_number GAS_LIMIT_BUFFER_MULTIPLIER) m ∧ (1 <= m <= 2)%Q.
Proof.
  assert (ext_eq GAS_LIMIT_BUFFER_MULTIPLIER (EFin (2476979795053773 # 2251799813685248))) as H
    by (vm_compute; reflexivity).
  destruct (fin_of_number_between _ _ 1 2 ltac:(apply ext_round64_number) H) as (m & Hm & Hb); [lia | lia | |].
  - split; vm_compute; discriminate.
  - by exists m.
Qed.

(** What the node is asked to estimate. *)
Definition nodeEstimate (params : GetSwapQuoteParams) (quote : SwapQuote P) (tx : PartialTransaction) : result BN :=
  _estimateGasOrThrowRevertErrorAsync CHAIN_ID
    {| tx_to := pt_to tx; tx_data := pt_data tx; tx_from := default "" (gp_takerAddress params);
       tx_value := pt_value tx; tx_gasPrice := quote_gasPrice quote |}.
Definition transferGasOf (params : GetSwapQuoteParams) (t : Z) : Z :=
  match gp_metaTransactionVersion params with Some V2 => t | _ => 0 end.

Lemma realGasEstimate_bound params estimate overhead transferGas e o t :
  fin estimate (inject_Z e) → fin overhead (inject_Z o) → fin transferGas (inject_Z t) →
  (0 <= e)%Z → (0 <= o)%Z → (0 <= t)%Z →
  ∃ x, fin (realGasEstimate params estimate overhead transferGas) x ∧
    (inject_Z (e + o + transferGasOf params t) <= x)%Q.
Proof.
  intros He Ho Ht He0 Ho0 Ht0. destruct multiplier_bounds as (m & Hm & Hm1).
  set (total := (e + o + transferGasOf params t)%Z).
  assert (0 <= total)%Z as Htotal by (unfold total, transferGasOf; destruct (gp_metaTransactionVersion params) as [[]|]; lia).
  unfold realGasEstimate. cbv zeta. set (seen := if bool_decide _ then _ else _).
  assert (fin seen (inject_Z total)) as Hseen.
  { unfold seen, total, transferGasOf. rewrite !inject_Z_plus.
    destruct (gp_metaTransactionVersion params) as [[]|]; simpl.
    - eapply fin_eq; [by apply fin_plus|]. change (inject_Z 0) with 0%Q. lra.
    - by apply fin_plus; [apply fin_plus|].
    - eapply fin_eq; [by apply fin_plus|]. change (inject_Z 0) with 0%Q. lra. }
  eexists. split; [by apply fin_integerValue, fin_times|].
  rewrite <- Zle_Qle. etrans; [apply Z.eq_le_incl; symmetry; apply (round_int_Z ROUND_HALF_UP)|].
  apply round_int_mono.
  assert (0 <= inject_Z total)%Q by (change 0%Q with (inject_Z 0); by rewrite <- Zle_Qle). nra.
Qed.

(** The gas that is answered covers the estimate of the quote with its fees
    and, when the node was asked and answered, what it saw, the overhead of the
    transaction and, for a meta-transaction of the second version, the
    transfers of the fees. *)
Theorem gas_covers_estimates params quote tx cost fees g faux o t :
  conservativeGasEstimate params quote tx cost fees = Ok g →
  fin (fauxGasEstimate quote cost fees) faux →
  (∀ estimate, nodeEstimate params quote tx = Ok estimate → ∃ e, fin estimate (inject_Z e) ∧ (0 <= e)%Z) →
  fin (pt_gasOverhead tx) (inject_Z o) → (0 <= o)%Z →
  fin (sellTokenFeeOnChainTransferGas fees) (inject_Z t) → (0 <= t)%Z →
  ∃ x, fin g x ∧ (faux <= x)%Q ∧
    ∀ estimate e, shouldEstimateGas params quote = true → nodeEstimate params quote tx = Ok estimate →
      fin estimate (inject_Z e) → (inject_Z (e + o + transferGasOf params t) <= x)%Q.
Proof.
  intros H Hf Hn Ho Ho0 Ht Ht0. unfold conservativeGasEstimate in H. fold (nodeEstimate params quote tx) in H.
  destruct (shouldEstimateGas params quote).
  2: { apply Ok_inj in H as <-. exists faux. split_and!; [exact Hf | lra | done]. }
  destruct (nodeEstimate params quote tx) as [est|err].
  2: { destruct (decide _); [done|]. apply Ok_inj in H as <-. exists faux. split_and!; [exact Hf | lra | done]. }
  apply Ok_inj in H as <-. destruct (Hn est eq_refl) as (e & He & He0).
  destruct (realGasEstimate_bound params est _ _ e o t He Ho Ht He0 Ho0 Ht0) as (x & Hx & Hle).
  exists (Qmax faux x). split_and!.
  - by apply fin_max2.
  - apply Q.le_max_l.
  - intros estimate e' _ [= <-] He'. assert (e' = e) as ->.
    { pose proof (fin_inj _ _ _ He' He) as E. by apply (proj1 (inject_Z_injective e' e)) in E. }
    eapply Qle_trans; [exact Hle | apply Q.le_max_r].
Qed.
End Service.

(** ** A concrete service *)
Module ServiceExamples.
Import Concrete UtilsExamples FeeExamples TransformExamples ConsumerExamples.

(** A quoter that has one path: a hundred of [0xA] for nine hundred of [0xB]. *)
Definition offered {F} (opts : SwapQuoteRequestOpts F) : bool :=
  let m := req_market opts in
  forallb (λ o, negb (includes (MarketOps.excludedSources m) (opt_source o)) &&
    (bool_decide (MarketOps.includedSources m = []) || includes (MarketOps.includedSources m) (opt_source o)))
    (getOrders (path quote2)).
Definition quote_for (amount : BN) : SwapQuote Path.t :=
  {| takerToken := "0xA"; makerToken := "0xB"; quote_gasPrice := of_Z 1; path := path quote2;
     quote_bestCase := quote_bestCase quote2; quote_worstCase := quote_worstCase quote2;
     quote_sourceBreakdown := quote_sourceBreakdown quote2; quote_report := None;
     quote_extendedReport := quote_extendedReport quote2;
     quote_makerTokenDecimals := n_Z 18; quote_takerTokenDecimals := n_Z 18;
     takerAmountPerEth := of_Z 0; makerAmountPerEth := of_Z 0; quote_blockNumber := n_Z 1;
     quote_samplerGasUsage := n_Z 0; quote_type := MarketSell amount |}.
#[export] Instance ex_quoter {F} : Quoter unit Path.t F := {|
  quoter_getSwapQuoteAsync := λ maker taker amount side opts,
    if String.eqb maker "0xB" && String.eqb taker "0xA" && bool_decide (side = Sell) && offered opts
    then mret (quote_for amount) else lift (Throw (Error "NO_OPTIMAL_PATH"));
  quoter_getTokenAmountPerWei := λ _, mret (of_Z 2);
  quoter_getGasPriceEstimationOrThrowAsync := mret (of_Z 3);
|}.
#[export] Instance ex_quoter_laws {F} : QuoterLaws unit Path.t F.
Proof.
  split. intros maker taker amount side opts q quote q'.
  unfold quoter_getSwapQuoteAsync, ex_quoter. destruct (_ && _ && _ && _) eqn:E; [|done]. intros [= <- _].
  apply andb_true_iff in E as [[[E1%String.eqb_eq E2%String.eqb_eq]%andb_true_iff E3%bool_decide_eq_true]%andb_true_iff Eo].
  subst. split_and!; [done | done | done | exact laws2 |].
  apply Forall_forall. intros o Ho. unfold offered in Eo.
  apply forallb_forall with (x := o) in Eo; [|by apply list_elem_of_In].
  apply andb_true_iff in Eo as [Ex%negb_true_iff Ei]. split.
  - intros Hin. apply includes_true in Hin. congruence.
  - apply orb_true_iff in Ei as [Ei%bool_decide_eq_true|Ei%includes_true]; auto.
Qed.

#[export] Instance ex_node : Node := {|
  fakeTaker_execute := λ _, inl {| success := true; resultData := "0x"; gasUsed := of_Z 100000 |};
  estimateGasAsync := λ _, None;
  callAsync := λ _ _, inl "0x"%string |}.
#[export] Instance ex_decoder : RevertDecoder :=
  {| RevertError_decode := λ _, None; decodeThrownErrorAsRevertError := λ _, None |}.

Definition ex_cfg : Config := {|
  SwapService.deployment := TransformExamples.deployment; GASLESS_SWAP_FEE_ENABLED := true; ZERO_EX_FEE_TOKENS := [];
  ZERO_EX_FEE_RECIPIENT_ADDRESS := NULL_ADDRESS; FEE_RECIPIENT_ADDRESS := NULL_ADDRESS;
  SAMPLE_DISTRIBUTION_BASE := n_Z 1; wethDecimals := Some (n_Z 18); ALT_RFQ_MM_ENDPOINT := None;
  ALT_RFQ_MM_API_KEY := None |}.
Definition ex_service : t := {| _firmQuoteValidator := None; slippageModelManager := None; isRfqtEnabled := true |}.
Definition ex_env : Env := {| SwapService.now := UtilsExamples.now; SwapService.draws := UtilsExamples.draws; altMarkets := Ok []; altAnswered := 0 |}.
Definition ex_state : ServiceState := {| svc_quoter := (); _altRfqMarketsCache := ∅ |}.

(** A [/quote] that sells 112, of which the integrator takes an eighth if the
    quote is a meta-transaction. *)
Definition ex_params (version : option MetaTransactionVersion) : GetSwapQuoteParams := {|
  gp_endpoint := Quote; gp_sellToken := "0xA"; gp_buyToken := "0xB"; gp_sellAmount := Some (of_Z 112);
  gp_buyAmount := None; gp_takerAddress := Some UtilsExamples.taker; gp_apiKey := None; gp_gasPrice := None;
  gp_slippagePercentage := Some (EFin 0); gp_excludedSources := [ERC20BridgeSource.Curve];
  gp_includedSources := None; gp_affiliateAddress := None;
  gp_affiliateFee := {| af_feeType := NoFee; af_recipient := NULL_ADDRESS; af_sellTokenPercentageFee := n_Z 0;
                        af_buyTokenPercentageFee := n_Z 0 |};
  gp_priceImpactProtectionPercentage := n_Z 1; gp_rfqt := None; gp_skipValidation := false;
  gp_shouldSellEntireBalance := false; gp_isWrap := false; gp_isUnwrap := false; gp_isETHSell := false;
  gp_isETHBuy := false; gp_metaTransactionVersion := version; gp_integrator := None;
  gp_enableSlippageProtection := None;
  gp_feeConfigs := Some {| fc_integratorFee := Some FeeExamples.integrator; fc_zeroExFee := None; fc_gasFee := None |};
  gp_isDebugEnabled := false |}.
Definition ex_encode_call (_ : ProxyCall) : string := "0x415565b0".
Definition ex_gas (_ : ERC20BridgeSource) (_ : FillData) : result number := Ok (n_Z 0).
Definition ex_quote (version : option MetaTransactionVersion) : Async ServiceState GetSwapQuoteResponse :=
  calculateSwapQuoteAsync encodeId TransformExamples.encode ex_encode_call divide_by_base (λ _ a, a) (λ _, false)
    ex_cfg ex_service ex_env ex_gas (ex_params version).

Lemma ex_sale version : proper_sale (ex_params version).
Proof.
  split.
  - intros c [= <-]. split; [|done]. intros c [= <-]. exists (1 # 8)%Q. split; [fin_now | discriminate].
  - done.
  - intros q g q' [= <- _]. by apply (nonneg_Z (B := QBigNumber)).
  - intros token q w q' [= <- _]. by apply (nonneg_Z (B := QBigNumber)).
Qed.
End ServiceExamples.

Import Concrete UtilsExamples ServiceExamples.

Lemma meta_transaction_sell_conserved_witness :
  ∃ r s' A qs, ex_quote (Some V1) ex_state = (Ok r, s') ∧ (0 < A)%Q ∧ Forall (λ x, 0 < x)%Q qs ∧ (A + Qsum qs == 112)%Q.
Proof.
  assert (is_ok (ex_quote (Some V1) ex_state).1 = true) as K by (vm_compute; reflexivity).
  destruct (ex_quote (Some V1) ex_state) as [[r|] s'] eqn:E; [|discriminate K]. clear K. unfold ex_quote in E.
  destruct (meta_transaction_sell_conserved TransformExamples.encodeId TransformExamples.encode ex_encode_call divide_by_base (λ _ a, a)
    (λ _, false) ex_cfg ex_service ex_env ex_gas (ex_params (Some V1)) ex_state r s' V1 (of_Z 112) 112
    (ex_sale (Some V1)) eq_refl eq_refl (fin_Z (B := QBigNumber) 112) ltac:(discriminate) E)
    as (_ & _ & _ & _ & _ & _ & _ & _ & _ & A & qs & _ & _ & _ & _ & _ & HA & _ & Hqs & Hsum & _).
  exists r, s', A, qs. split_and!; [reflexivity | exact HA | exact Hqs | exact Hsum].
Defined.

Lemma answered_quote_checked_witness :
  ∃ r s', ex_quote None ex_state = (Ok r, s') ∧ lte (rsp_buyAmount r) (of_Z 0) = false ∧
    Forall (λ o, opt_source o ∉ [ERC20BridgeSource.Curve]) (rsp_orders r).
Proof.
  assert (is_ok (ex_quote None ex_state).1 = true) as K by (vm_compute; reflexivity).
  destruct (ex_quote None ex_state) as [[r|] s'] eqn:E; [|discriminate K]. clear K. unfold ex_quote in E.
  destruct (answered_quote_checked TransformExamples.encodeId TransformExamples.encode ex_encode_call divide_by_base (λ _ a, a)
    (λ _, false) ex_cfg ex_service ex_env ex_gas (ex_params None) ex_state r s' E) as (H1 & _ & H2).
  exists r, s'. split_and!; [reflexivity | exact H1 |]. eapply Forall_impl; [exact H2|]. intros o [H _]. exact H.
Defined.

Lemma gas_covers_estimates_witness :
  let tx := {| pt_to := "0xEP"; pt_value := of_Z 0; pt_data := "0x00"; pt_decodedUniqueId := ""; pt_gasOverhead := of_Z 7 |} in
  ∃ g x, conservativeGasEstimate ex_cfg (ex_params None) (quote_for (of_Z 112)) tx (of_Z 0) noSellTokenFees = Ok g ∧
    fin g x ∧ (121011 <= x)%Q.
Proof.
  intros tx.
  assert (match conservativeGasEstimate ex_cfg (ex_params None) (quote_for (of_Z 112)) tx (of_Z 0) noSellTokenFees,
            nodeEstimate ex_cfg (ex_params None) (quote_for (of_Z 112)) tx with
          | Ok _, Ok e => isEqualTo e (of_Z 121004) | _, _ => false end = true) as K by (vm_compute; reflexivity).
  destruct (conservativeGasEstimate _ _ _ _ _ _) as [g|] eqn:E; [|discriminate K].
  destruct (nodeEstimate _ _ _ _) as [e|] eqn:En; [|discriminate K]. apply isEqualTo_Z in K.
  destruct (gas_covers_estimates ex_cfg (ex_params None) (quote_for (of_Z 112)) tx (of_Z 0) noSellTokenFees g 0 7 0 E)
    as (x & Hx & _ & H).
  - fin_now.
  - intros estimate He. rewrite En in He. injection He as <-. exists 121004%Z. split; [exact K | lia].
  - apply (fin_Z (B := QBigNumber)).
  - lia.
  - apply (fin_Z (B := QBigNumber)).
  - lia.
  - exists g, x. split_and!; [reflexivity | exact Hx |]. exact (H e 121004%Z eq_refl En K).
Defined.
