(* ===== verification/SwapHandlers.v ===== *)
(** * The handlers of [/swap] ([handlers/swap_handlers.ts])

    A request becomes the parameters of [RequestParsing], a quote of the service
    (the class [ISwapService]), the cost of its calldata on the first layer
    ([utils/l2_gas_utils.ts]), the response, and a report for the queue
    ([utils/quote_report_utils.ts]); what the service throws becomes an error of
    the API.  Metrics and logs are left out; the compressor, the printing of
    amounts and of fill data, and the order of locales are parameters. *)

From Stdlib Require Import Ascii.
From S2P Require Import Prelude JsLib JsNumber BigNum Types SourceFilters Fills Orders Constants FeeCalculator.
From S2P Require Import Caches QuoteReport RequestParsing ServiceUtils GasEstimation SwapService.

#[local] Set Default Proof Using "Type".

(** ** Gas prices ([GasPrices]) and the first layer *)

Record GasPrices : Type := { fast : number; l1CalldataPricePerUnit : option number }.
(** [{ ...defaultGasPrices, ...estimation }]. *)
Definition spreadGasPrices (defaults estimation : GasPrices) : GasPrices :=
  {| fast := fast estimation;
     l1CalldataPricePerUnit :=
       match l1CalldataPricePerUnit estimation with
       | Some p => Some p
       | None => l1CalldataPricePerUnit defaults
       end |}.

Section L1Gas.
(** The length of the calldata after brotli of quality zero. *)
Variable brotliLength : list Z → nat.

Definition ARBITRUM_FIXED_COST_ESTIMATE : number := n_Z 140.
Definition TX_DATA_NON_ZERO_GAS_EIP2028 : number := n_Z 16.
Definition L1_GAS_COST_BUFFER : number := round64 (115 # 100).
Definition DEFAULT_ARBITRUM_L1_CALLDATA_PRICE_PER_UNIT : number := n_Z 6250000000.

Definition getByteCountAfterBrotli0 (calldata : string) : number :=
  let calldataWithoutPrefix := if String.prefix "0x" calldata then drop_string 2 calldata else calldata in
  n_Z (Z.of_nat (brotliLength (bytes_of_hex calldataWithoutPrefix))).

Definition getArbitrumPosterDataCost (calldata : string) (l1CalldataPricePerUnit : number) : number :=
  let l1ByteCount := n_add (getByteCountAfterBrotli0 calldata) ARBITRUM_FIXED_COST_ESTIMATE in
  let units := n_mul l1ByteCount TX_DATA_NON_ZERO_GAS_EIP2028 in
  n_mul units l1CalldataPricePerUnit.

Definition estimateArbitrumL1CalldataGasCost (l2GasPrice : number) (l1CalldataPricePerUnit : option number)
    (calldata : string) : number :=
  let given := default ENaN l1CalldataPricePerUnit in
  let price := if n_truthy given then given else DEFAULT_ARBITRUM_L1_CALLDATA_PRICE_PER_UNIT in
  let posterDataCost := n_mul (getArbitrumPosterDataCost calldata price) L1_GAS_COST_BUFFER in
  n_ceil (n_div posterDataCost l2GasPrice).
End L1Gas.

(** ** Quote reports *)

Section Reports.
Context {B : BigNumberLib}.
Variable bn_toString : BN → string.
(** [JSON.stringify] of the fill data, without the sampler contract. *)
Variable stringifyFillData : IndexedEntry → string.

Inductive SubmissionBy : Type := Taker | GaslessSwapAmm.
#[global] Instance SubmissionBy_eq_dec : EqDecision SubmissionBy.
Proof. solve_decision. Defined.

Record ExtendedQuoteReportLogOptions : Type := {
  lo_quoteId : option string;
  lo_sellAmount : option BN;
  lo_buyAmount : option BN;
  lo_buyTokenAddress : string;
  lo_sellTokenAddress : string;
  lo_integratorId : option string;
  lo_taker : option string;
  lo_slippage : option number;
  lo_blockNumber : option number;
  lo_estimatedGas : BN;
  lo_enableSlippageProtection : option bool;
  lo_expectedSlippage : option (option BN);
  lo_estimatedPriceImpact : option BN;
  lo_priceImpactProtectionPercentage : number;
  lo_quoteReportSources : ExtendedQuoteReportSources;
  lo_submissionBy : SubmissionBy;
  lo_decodedUniqueId : string;
}.

(** An entry with its fill data as a string. *)
Definition jsonifyFillData (source : IndexedEntry) : IndexedEntry * string := (source, stringifyFillData source).

Record ExtendedQuoteReport : Type := {
  qr_quoteId : option string;
  qr_taker : option string;
  (** [None] is [NaN] *)
  qr_timestamp : option Z;
  qr_firmQuoteReport : bool;
  qr_submissionBy : SubmissionBy;
  qr_buyAmount : option string;
  qr_sellAmount : option string;
  qr_buyTokenAddress : string;
  qr_sellTokenAddress : string;
  qr_integratorId : option string;
  qr_slippageBips : option number;
  qr_decodedUniqueId : option string;
  qr_sourcesConsidered : list (IndexedEntry * string);
  qr_sourcesDelivered : list (IndexedEntry * string);
  qr_blockNumber : option number;
  qr_estimatedGas : string;
  qr_enableSlippageProtection : option bool;
  qr_expectedSlippage : option string;
  qr_estimatedPriceImpact : option string;
  qr_priceImpactProtectionPercentage : number;
}.

Definition BIPS_IN_INT : number := n_Z 10000.

(** The report that is sent, if any; a failure to send it is only logged. *)
Definition publishQuoteReport (KAFKA_TOPIC_QUOTE_REPORT : option string) (now : Z)
    (logOpts : ExtendedQuoteReportLogOptions) (isFirmQuote : bool) : option ExtendedQuoteReport :=
  if truthy KAFKA_TOPIC_QUOTE_REPORT then
    Some {|
      qr_quoteId := lo_quoteId logOpts; qr_taker := lo_taker logOpts;
      qr_timestamp := match lo_submissionBy logOpts with
                      | Taker => getTimestampFromUniqueId (lo_decodedUniqueId logOpts)
                      | GaslessSwapAmm => Some now
                      end;
      qr_firmQuoteReport := isFirmQuote; qr_submissionBy := lo_submissionBy logOpts;
      qr_buyAmount := bn_toString <$> lo_buyAmount logOpts; qr_sellAmount := bn_toString <$> lo_sellAmount logOpts;
      qr_buyTokenAddress := lo_buyTokenAddress logOpts; qr_sellTokenAddress := lo_sellTokenAddress logOpts;
      qr_integratorId := lo_integratorId logOpts;
      qr_slippageBips := match lo_slippage logOpts with
                         | Some s => if n_truthy s then Some (n_mul s BIPS_IN_INT) else None
                         | None => None
                         end;
      qr_decodedUniqueId := Some (lo_decodedUniqueId logOpts);
      qr_sourcesConsidered := jsonifyFillData <$> extended_considered (lo_quoteReportSources logOpts);
      qr_sourcesDelivered := jsonifyFillData <$> extended_delivered (lo_quoteReportSources logOpts);
      qr_blockNumber := lo_blockNumber logOpts; qr_estimatedGas := bn_toString (lo_estimatedGas logOpts);
      qr_enableSlippageProtection := lo_enableSlippageProtection logOpts;
      qr_expectedSlippage := bn_toString <$> mjoin (lo_expectedSlippage logOpts);
      qr_estimatedPriceImpact := bn_toString <$> lo_estimatedPriceImpact logOpts;
      qr_priceImpactProtectionPercentage := n_mul (lo_priceImpactProtectionPercentage logOpts) (n_Z 100) |}
  else None.
End Reports.

(** ** Errors *)

Definition isAPIError (e : js_error) : bool :=
  match e with ValidationError _ | InternalServerError _ | ApiError _ => true | _ => false end.
Definition RevertAPIError : js_error := ApiError "RevertAPIError".
(** The message of an exception; those of the engine are not modelled. *)
Definition messageOf (e : js_error) : string := match e with Error m => m | _ => "" end.

Definition InsufficientAssetLiquidity : string := "INSUFFICIENT_ASSET_LIQUIDITY".
Definition AssetUnavailable : string := "ASSET_UNAVAILABLE".
Definition lacksLiquidity (message : string) : bool :=
  String.prefix InsufficientAssetLiquidity message || String.prefix "NO_OPTIMAL_PATH" message.

(** What the [catch] of the handlers throws, up to its last line, which is
    [otherwise]; [amountField] is the amount that was asked for. *)
Definition toApiError (amountField : string) (otherwise : js_error → js_error) (e : js_error) : js_error :=
  if isAPIError e then e
  else match e with
       | RevertError _ => RevertAPIError
       | _ =>
           let errorMessage := messageOf e in
           if lacksLiquidity errorMessage
           then invalid amountField ValidationErrorCodes.ValueOutOfRange InsufficientAssetLiquidity
           else if String.prefix AssetUnavailable errorMessage
           then invalid "token" ValidationErrorCodes.ValueOutOfRange errorMessage
           else otherwise e
       end.

(** ** Responses *)

Inductive HttpStatus : Type := OK | UNAUTHORIZED.
Record HttpResponse {A : Type} : Type := { status : HttpStatus; body : option A }.
Arguments HttpResponse A : clear implicits.

(** The service, as its clients see it. *)
Section Interface.
Context {B : BigNumberLib}.
Class ISwapService (S : Type) : Type := {
  swap_calculateSwapQuoteAsync : GetSwapQuoteParams → Async S GetSwapQuoteResponse;
  swap_getSwapQuoteForWrapAsync : GetSwapQuoteParams → Async S GetSwapQuoteResponse;
  swap_getSwapQuoteForUnwrapAsync : GetSwapQuoteParams → Async S GetSwapQuoteResponse;
}.
End Interface.

(** ** The handlers *)

Section Handlers.
Context {B : BigNumberLib} {S : Type} `{SV : !ISwapService S}.
Variable CHAIN_ID : ChainId.
Variable brotliLength : list Z → nat.
Variable bn_toString : BN → string.
Variable stringifyFillData : IndexedEntry → string.
Variable localeCompare : string → string → Z.
(** Whether Kafka is configured, and the topic of the reports. *)
Variable kafkaProducer : bool.
Variable KAFKA_TOPIC_QUOTE_REPORT : option string.
Variable RFQT_REGISTRY_PASSWORDS : list string.
Variable RFQT_INTEGRATOR_IDS : list string.
(** The gas prices that the process holds. *)
Variable gasUtils : S → GasPriceUtils.t (GasPrices := GasPrices).

Definition getLiquiditySources : HttpResponse (list string) :=
  {| status := OK;
     body := Some (JsLib.sort localeCompare
       (toExternalFormat <$> SourceFilters.sources (SELL_SOURCE_FILTER_BY_CHAIN_ID CHAIN_ID))) |}.

(** *** The registry of RFQ integrators *)

Definition is_line_terminator (c : ascii) : bool := Ascii.eqb c "010"%char || Ascii.eqb c "013"%char.
(** [\s], of a header of Latin-1 characters. *)
Definition regex_space (c : ascii) : bool := is_space c || Nat.eqb (Ascii.nat_of_ascii c) 160.

(** [auth.match(/^Bearer\s(.{36})$/)]. *)
Definition bearerToken (auth : string) : option string :=
  if String.prefix "Bearer" auth then
    match drop_string 6 auth with
    | String c token =>
        if regex_space c && Nat.eqb (String.length token) 36
           && forallb (λ c, negb (is_line_terminator c)) (String.list_ascii_of_string token)
        then Some token else None
    | EmptyString => None
    end
  else None.

Definition getRfqRegistry (auth : option string) : HttpResponse (list string) :=
  match auth ≫= bearerToken with
  | Some authToken =>
      if includes RFQT_REGISTRY_PASSWORDS authToken then {| status := OK; body := Some RFQT_INTEGRATOR_IDS |}
      else {| status := UNAUTHORIZED; body := None |}
  | None => {| status := UNAUTHORIZED; body := None |}
  end.

(** *** Quotes *)

(** 0.1 gwei. *)
Definition DEFAULT_ARBITRUM_GAS_PRICES : GasPrices := {| fast := n_Z 100000000; l1CalldataPricePerUnit := None |}.

Definition with_gas (q : GetSwapQuoteResponse) (gas estimatedGas : BN) : GetSwapQuoteResponse :=
  {| rsp_chainId := rsp_chainId q; rsp_price := rsp_price q; rsp_guaranteedPrice := rsp_guaranteedPrice q;
     rsp_estimatedPriceImpact := rsp_estimatedPriceImpact q; rsp_to := rsp_to q; rsp_data := rsp_data q;
     rsp_value := rsp_value q; rsp_gas := gas; rsp_estimatedGas := estimatedGas; rsp_from := rsp_from q;
     rsp_gasPrice := rsp_gasPrice q; rsp_protocolFee := rsp_protocolFee q;
     rsp_minimumProtocolFee := rsp_minimumProtocolFee q; rsp_buyTokenAddress := rsp_buyTokenAddress q;
     rsp_sellTokenAddress := rsp_sellTokenAddress q; rsp_buyAmount := rsp_buyAmount q;
     rsp_sellAmount := rsp_sellAmount q; rsp_sources := rsp_sources q; rsp_orders := rsp_orders q;
     rsp_allowanceTarget := rsp_allowanceTarget q; rsp_decodedUniqueId := rsp_decodedUniqueId q;
     rsp_extendedQuoteReportSources := rsp_extendedQuoteReportSources q;
     rsp_sellTokenToEthRate := rsp_sellTokenToEthRate q; rsp_buyTokenToEthRate := rsp_buyTokenToEthRate q;
     rsp_quoteReport := rsp_quoteReport q; rsp_blockNumber := rsp_blockNumber q; rsp_debugData := rsp_debugData q;
     rsp_fees := rsp_fees q; rsp_expectedSlippage := rsp_expectedSlippage q |}.

(** The cost of the calldata on the first layer. *)
Definition addL1Gas (utils : GasPriceUtils.t (GasPrices := GasPrices)) (swapQuote : GetSwapQuoteResponse)
    : GetSwapQuoteResponse :=
  if decide (CHAIN_ID = ChainId.Arbitrum) then
    let gasPrices := GasPriceUtils.getGasPriceEstimationOrDefault spreadGasPrices DEFAULT_ARBITRUM_GAS_PRICES utils in
    let l1GasCostEstimate := of_number (estimateArbitrumL1CalldataGasCost brotliLength (fast gasPrices)
                               (l1CalldataPricePerUnit gasPrices) (rsp_data swapQuote)) in
    with_gas swapQuote (plus (rsp_gas swapQuote) l1GasCostEstimate) (plus (rsp_estimatedGas swapQuote) l1GasCostEstimate)
  else swapQuote.

Definition routed (params : GetSwapQuoteParams) : Async S GetSwapQuoteResponse :=
  if gp_isUnwrap params then swap_getSwapQuoteForUnwrapAsync params
  else if gp_isWrap params then swap_getSwapQuoteForWrapAsync params
  else swap_calculateSwapQuoteAsync params.

Definition amountFieldOf (params : GetSwapQuoteParams) : string :=
  match gp_sellAmount params with Some _ => "sellAmount" | None => "buyAmount" end.
Definition toInternalError (e : js_error) : js_error := InternalServerError (messageOf e).

Definition _getSwapQuoteAsync (params : GetSwapQuoteParams) : Async S GetSwapQuoteResponse :=
  try_catch
    (swapQuote ← routed params; (λ s, (Ok (addL1Gas (gasUtils s) swapQuote), s)) : Async S GetSwapQuoteResponse)
    (λ e, lift (Throw (toApiError (amountFieldOf params) toInternalError e))).

(** *** Responses *)

(** [_.omit(quote, 'quoteReport', 'extendedQuoteReportSources', 'blockNumber')];
    no order has the field [fills] that is omitted of them. *)
Definition quoteResponseOf (q : GetSwapQuoteResponse) : GetSwapQuoteResponse :=
  {| rsp_chainId := rsp_chainId q; rsp_price := rsp_price q; rsp_guaranteedPrice := rsp_guaranteedPrice q;
     rsp_estimatedPriceImpact := rsp_estimatedPriceImpact q; rsp_to := rsp_to q; rsp_data := rsp_data q;
     rsp_value := rsp_value q; rsp_gas := rsp_gas q; rsp_estimatedGas := rsp_estimatedGas q; rsp_from := rsp_from q;
     rsp_gasPrice := rsp_gasPrice q; rsp_protocolFee := rsp_protocolFee q;
     rsp_minimumProtocolFee := rsp_minimumProtocolFee q; rsp_buyTokenAddress := rsp_buyTokenAddress q;
     rsp_sellTokenAddress := rsp_sellTokenAddress q; rsp_buyAmount := rsp_buyAmount q;
     rsp_sellAmount := rsp_sellAmount q; rsp_sources := rsp_sources q; rsp_orders := rsp_orders q;
     rsp_allowanceTarget := rsp_allowanceTarget q; rsp_decodedUniqueId := rsp_decodedUniqueId q;
     rsp_extendedQuoteReportSources := None;
     rsp_sellTokenToEthRate := rsp_sellTokenToEthRate q; rsp_buyTokenToEthRate := rsp_buyTokenToEthRate q;
     rsp_quoteReport := None; rsp_blockNumber := None; rsp_debugData := rsp_debugData q;
     rsp_fees := rsp_fees q; rsp_expectedSlippage := rsp_expectedSlippage q |}.

Record GetSwapPriceResponse : Type := {
  pr_chainId : ChainId;
  pr_price : BN;
  pr_estimatedPriceImpact : option BN;
  pr_value : BN;
  pr_gasPrice : BN;
  pr_gas : BN;
  pr_estimatedGas : BN;
  pr_protocolFee : BN;
  pr_minimumProtocolFee : BN;
  pr_buyTokenAddress : string;
  pr_buyAmount : BN;
  pr_sellTokenAddress : string;
  pr_sellAmount : BN;
  pr_sources : list ResponseSource;
  pr_allowanceTarget : string;
  pr_sellTokenToEthRate : BN;
  pr_buyTokenToEthRate : BN;
  pr_expectedSlippage : option (option BN);
}.
Definition priceResponseOf (q : GetSwapQuoteResponse) : GetSwapPriceResponse :=
  {| pr_chainId := rsp_chainId q; pr_price := rsp_price q; pr_estimatedPriceImpact := rsp_estimatedPriceImpact q;
     pr_value := rsp_value q; pr_gasPrice := rsp_gasPrice q; pr_gas := rsp_gas q; pr_estimatedGas := rsp_estimatedGas q;
     pr_protocolFee := rsp_protocolFee q; pr_minimumProtocolFee := rsp_minimumProtocolFee q;
     pr_buyTokenAddress := rsp_buyTokenAddress q; pr_buyAmount := rsp_buyAmount q;
     pr_sellTokenAddress := rsp_sellTokenAddress q; pr_sellAmount := rsp_sellAmount q; pr_sources := rsp_sources q;
     pr_allowanceTarget := rsp_allowanceTarget q; pr_sellTokenToEthRate := rsp_sellTokenToEthRate q;
     pr_buyTokenToEthRate := rsp_buyTokenToEthRate q; pr_expectedSlippage := rsp_expectedSlippage q |}.

(** The report of a quote; [now] is read only for other submitters. *)
Definition reportOf (params : GetSwapQuoteParams) (quote : GetSwapQuoteResponse) (isFirmQuote : bool) (now : Z)
    : option ExtendedQuoteReport :=
  match rsp_extendedQuoteReportSources quote with
  | Some quoteReportSources =>
      if kafkaProducer then
        publishQuoteReport bn_toString stringifyFillData KAFKA_TOPIC_QUOTE_REPORT now
          {| lo_quoteId := Some (getQuoteIdFromSwapQuote (rsp_data quote)); lo_taker := gp_takerAddress params;
             lo_quoteReportSources := quoteReportSources; lo_submissionBy := Taker;
             lo_decodedUniqueId := rsp_decodedUniqueId quote;
             lo_buyTokenAddress := rsp_buyTokenAddress quote; lo_sellTokenAddress := rsp_sellTokenAddress quote;
             lo_buyAmount := gp_buyAmount params; lo_sellAmount := gp_sellAmount params;
             lo_integratorId := int_integratorId <$> gp_integrator params; lo_blockNumber := rsp_blockNumber quote;
             lo_slippage := gp_slippagePercentage params; lo_estimatedGas := rsp_estimatedGas quote;
             lo_enableSlippageProtection := gp_enableSlippageProtection params;
             lo_expectedSlippage := rsp_expectedSlippage quote;
             lo_estimatedPriceImpact := rsp_estimatedPriceImpact quote;
             lo_priceImpactProtectionPercentage := gp_priceImpactProtectionPercentage params |} isFirmQuote
      else None
  | None => None
  end.

(** A handler answers, and may publish a report; the parameters are those that
    the request was parsed to. *)
Definition getQuoteAsync (parsed : result GetSwapQuoteParams) (now : Z)
    : Async S (HttpResponse GetSwapQuoteResponse * option ExtendedQuoteReport) :=
  params ← lift parsed;
  quote ← _getSwapQuoteAsync params;
  mret ({| status := OK; body := Some (quoteResponseOf quote) |}, reportOf params quote true now).
Definition getQuotePriceAsync (parsed : result GetSwapQuoteParams) (now : Z)
    : Async S (HttpResponse GetSwapPriceResponse * option ExtendedQuoteReport) :=
  params ← lift parsed;
  quote ← _getSwapQuoteAsync params;
  mret ({| status := OK; body := Some (priceResponseOf quote) |}, reportOf params quote false now).

(** ** Facts *)

Lemma api_error_of amountField otherwise e :
  (∀ e', isAPIError e' = false → isAPIError (otherwise e') = true) →
  isAPIError (toApiError amountField otherwise e) = true.
Proof.
  intros Ho. unfold toApiError. destruct (isAPIError e) eqn:E; [done|].
  destruct e as [m| | | | |]; try done.
  - destruct (lacksLiquidity (messageOf (Error m))); [done|]. destruct (String.prefix AssetUnavailable (messageOf (Error m))); [done|].
    by apply Ho.
  - by apply Ho.
Qed.

(** C14. What a quote throws is an error of the API, whatever the service throws: an
    error of its own as it is, a revert as one, a lack of liquidity as an error
    of the amount that was asked for; and the service has failed. *)
Theorem quote_errors_are_api_errors params s e s' :
  _getSwapQuoteAsync params s = (Throw e, s') →
  isAPIError e = true ∧
  ∃ e0, routed params s = (Throw e0, s') ∧
    (isAPIError e0 = true → e = e0) ∧
    (∀ r, e0 = RevertError r → e = RevertAPIError) ∧
    (∀ m, e0 = Error m → lacksLiquidity m = true →
       e = invalid (if gp_sellAmount params then "sellAmount" else "buyAmount")
             ValidationErrorCodes.ValueOutOfRange InsufficientAssetLiquidity).
Proof.
  unfold _getSwapQuoteAsync, try_catch, mbind, Async_bind.
  destruct (routed params s) as [[q|e0] s1] eqn:E; [done|]. intros [= <- <-]. split.
  - by apply api_error_of.
  - exists e0. split; [done|]. split_and!.
    + intros H. unfold toApiError. by rewrite H.
    + by intros r ->.
    + intros m -> H. unfold toApiError. simpl. rewrite H. unfold amountFieldOf. by destruct (gp_sellAmount params).
Qed.

(** Only on Arbitrum is the gas of a quote changed, and only by the cost of its
    calldata. *)
Lemma quoted_response params s q s' :
  _getSwapQuoteAsync params s = (Ok q, s') →
  ∃ q0, routed params s = (Ok q0, s') ∧ q = addL1Gas (gasUtils s') q0 ∧ rsp_orders q = rsp_orders q0 ∧
    rsp_buyAmount q = rsp_buyAmount q0 ∧ rsp_sellAmount q = rsp_sellAmount q0 ∧ rsp_data q = rsp_data q0.
Proof.
  unfold _getSwapQuoteAsync, try_catch, mbind, Async_bind.
  destruct (routed params s) as [[q0|e0] s1] eqn:E; [|done]. intros [= <- <-]. exists q0.
  unfold addL1Gas. by destruct (decide _).
Qed.

Lemma prefix_split p s : String.prefix p s = true → s = p +:+ drop_string (String.length p) s.
Proof.
  revert s. induction p as [|a p IH]; intros s H; [done|]. destruct s as [|b s]; [done|]. simpl in H.
  destruct (ascii_dec a b) as [->|]; [|done]. rewrite append_cons. cbn [String.length drop_string]. by rewrite <- IH.
Qed.

Lemma bearer_token auth token :
  bearerToken auth = Some token ↔
  ∃ c, auth = ("Bearer" +:+ String c token) ∧ regex_space c = true ∧ String.length token = 36%nat ∧
    Forall (λ c, is_line_terminator c = false) (String.list_ascii_of_string token).
Proof.
  unfold bearerToken. split.
  - destruct (String.prefix "Bearer" auth) eqn:Ep; [|done].
    destruct (drop_string 6 auth) as [|c t] eqn:Ed; [done|]. destruct (_ && _) eqn:E; [|done]. intros [= ->].
    apply andb_true_iff in E as [[Ec El%Nat.eqb_eq]%andb_true_iff Ef]. exists c. split_and!; [| done | done |].
    + rewrite (prefix_split _ _ Ep). change (String.length "Bearer") with 6%nat. by rewrite Ed.
    + apply Forall_forall. intros a Ha. rewrite forallb_forall in Ef. apply list_elem_of_In, Ef in Ha.
      by apply negb_true_iff in Ha.
  - intros (c & -> & Hc & Hl & Hf). change (String.prefix "Bearer" ("Bearer" +:+ String c token)) with
      (String.prefix "" (String c token)). change (drop_string 6 ("Bearer" +:+ String c token)) with (String c token).
    cbn [String.prefix]. rewrite Hc, Hl. cbn [andb Nat.eqb].
    assert (forallb (λ c, negb (is_line_terminator c)) (String.list_ascii_of_string token) = true) as ->; [|done].
    apply forallb_forall. intros a Ha%list_elem_of_In. rewrite Forall_forall in Hf. by rewrite (Hf a Ha).
Qed.

(** The registry of integrators is answered to exactly those who bear one of
    its passwords of 36 characters, on one line; to nobody else. *)
Theorem registry_needs_password auth :
  (status (getRfqRegistry auth) = OK ∧ body (getRfqRegistry auth) = Some RFQT_INTEGRATOR_IDS ↔
   ∃ c token, auth = Some ("Bearer" +:+ String c token) ∧ regex_space c = true ∧ String.length token = 36%nat ∧
     Forall (λ c, is_line_terminator c = false) (String.list_ascii_of_string token) ∧ token ∈ RFQT_REGISTRY_PASSWORDS) ∧
  (status (getRfqRegistry auth) = UNAUTHORIZED → body (getRfqRegistry auth) = None).
Proof.
  unfold getRfqRegistry. destruct (auth ≫= bearerToken) as [token|] eqn:E.
  - destruct auth as [a|]; [|done]. apply bearer_token in E as (c & -> & Hc & Hl & Hf).
    destruct (includes _ _) eqn:Ei; simpl; (split; [split|done]).
    + intros _. exists c, token. apply includes_true in Ei. done.
    + done.
    + by intros [? _].
    + intros (c' & t' & [= <- <-] & _ & _ & _ & Hin%includes_true). congruence.
  - simpl. split; [split|done]; [by intros [? _]|].
    intros (c & token & -> & Hc & Hl & Hf & _). exfalso.
    assert (bearerToken ("Bearer" +:+ String c token) = Some token) as H by (apply bearer_token; by exists c).
    change (Some ?a ≫= bearerToken) with (bearerToken a) in E. congruence.
Qed.
End Handlers.

(** ** A concrete service *)
Module HandlerExamples.
Import Concrete UtilsExamples ServiceExamples.

(** A service that finds no path, and whose wrapping is disabled. *)
#[export] Instance ex_swapService : ISwapService unit := {|
  swap_calculateSwapQuoteAsync := λ _, lift (Throw (Error "NO_OPTIMAL_PATH"));
  swap_getSwapQuoteForWrapAsync := λ _, lift (Throw ServiceDisabledError);
  swap_getSwapQuoteForUnwrapAsync := λ _, lift (Throw ServiceDisabledError);
|}.
Definition ex_answer : result GetSwapQuoteResponse * unit :=
  _getSwapQuoteAsync ChainId.Mainnet (λ _, 100%nat) (λ _, GasPriceUtils.new) (ex_params None) ().
End HandlerExamples.
Import Concrete UtilsExamples ServiceExamples HandlerExamples.

Lemma quote_errors_are_api_errors_witness :
  ex_answer.1 = Throw (invalid "sellAmount" ValidationErrorCodes.ValueOutOfRange InsufficientAssetLiquidity).
Proof.
  destruct ex_answer as [[q|e] s'] eqn:E; [discriminate E|]. unfold ex_answer in E.
  apply quote_errors_are_api_errors in E as (_ & e0 & Hr & _ & _ & Hm). injection Hr as He.
  cbn [fst]. f_equal. exact (Hm "NO_OPTIMAL_PATH"%string (eq_sym He) eq_refl).
Defined.
