(* ===== verification/MetaTransactions.v ===== *)
(** * Meta-transactions ([services/meta_transaction_service.ts],
    [handlers/meta_transaction_handlers.ts])

    A request is parsed (tokens, slippage, sources, and in version two the fees
    that integrator and 0x charge), quoted by the swap service as a
    meta-transaction, and answered as one that the taker has to sign.  The hash
    of a meta-transaction, its salt and the schema are parameters; logs are left
    out.  The reports that are published are kept as a log, because they are sent
    even when the handler fails afterwards. *)

From Stdlib Require Import Ascii.
From S2P Require Import Prelude JsLib JsNumber BigNum Types SourceFilters Fills Orders Constants FeeCalculator.
From S2P Require Import PathModel QuoteInfo QuoteReport Quotes TransformERC20 QuoteConsumer RequestParsing ServiceUtils Pricing GasEstimation SwapService SwapHandlers.

#[local] Set Default Proof Using "Type".

(** ** Requests *)

Section Requests.
Context {B : BigNumberLib}.

(** The fee of a body: nothing of it is validated by the schema. *)
Record FeeConfigBody : Type := {
  fb_type : option string;
  fb_feeRecipient : option string;
  fb_billingType : option string;
  fb_volumePercentage : option string;
  fb_integratorSharePercentage : option string;
}.
Record FeeConfigsBody : Type := {
  fb_integratorFee : option FeeConfigBody;
  fb_zeroExFee : option FeeConfigBody;
  fb_gasFee : option FeeConfigBody;
}.

(** The query of version one and the body of version two. *)
Record MetaTransactionRequest : Type := {
  mr_affiliateAddress : option string;
  mr_fee : FeeQuery;
  mr_buyAmount : option string;
  mr_buyToken : option string;
  mr_integratorId : option string;
  mr_quoteUniqueId : option string;
  mr_sellAmount : option string;
  mr_sellToken : option string;
  mr_takerAddress : option string;
  mr_slippagePercentage : option string;
  mr_priceImpactProtectionPercentage : option string;
  mr_excludedSources : option string;
  mr_includedSources : option string;
  mr_metaTransactionVersion : option string;
  mr_feeConfigs : option FeeConfigsBody;
}.

Record MetaTransactionV1QuoteRequestParams : Type := {
  mp_takerAddress : string;
  mp_sellTokenAddress : string;
  mp_buyTokenAddress : string;
  mp_sellAmount : option BN;
  mp_buyAmount : option BN;
  mp_slippagePercentage : number;
  mp_excludedSources : list ERC20BridgeSource;
  mp_includedSources : option (list ERC20BridgeSource);
  mp_affiliateFee : AffiliateFee;
  mp_affiliateAddress : option string;
  mp_integratorId : option string;
  mp_quoteUniqueId : option string;
  mp_priceImpactProtectionPercentage : number;
}.
Record MetaTransactionV2QuoteRequestParams : Type := {
  v2_params : MetaTransactionV1QuoteRequestParams;
  v2_metaTransactionVersion : MetaTransactionVersion;
  v2_feeConfigs : option FeeConfigs;
}.

(** What the handlers add to the parameters of a request. *)
Record QuoteParams (R : Type) : Type := {
  mq_request : R;
  mq_from : string;
  mq_isETHBuy : bool;
  mq_isETHSell : bool;
}.
#[global] Arguments mq_request {R}.
#[global] Arguments mq_from {R}.
#[global] Arguments mq_isETHBuy {R}.
#[global] Arguments mq_isETHSell {R}.

(** The collaborators of the parser, as in [RequestParsing], and the
    configured smallest slippage. *)
Variable validateSchema : MetaTransactionRequest → result unit.
Variable isNativeSymbolOrAddress : option string → result bool.
Variable findTokenAddressOrThrow : option string → string + string.
Variable bn_of_string : string → BN.
Variable META_TX_MIN_ALLOWED_SLIPPAGE : number.

(** [new BigNumber(s)]: nothing is not a number. *)
Definition bn_of_param (s : option string) : BN :=
  match s with Some s => bn_of_string s | None => of_number ENaN end.

Definition parseSlippage (param : option string) : result number :=
  let given := parseFloatParam param in
  let slippagePercentage := if n_truthy given then given else DEFAULT_QUOTE_SLIPPAGE_PERCENTAGE in
  if ext_le (n_Z 1) slippagePercentage
  then Throw (invalid "slippagePercentage" ValidationErrorCodes.ValueOutOfRange ValidationErrorReasons.PercentageOutOfRange)
  else if ext_lt slippagePercentage META_TX_MIN_ALLOWED_SLIPPAGE
  then Throw (invalid "slippagePercentage" ValidationErrorCodes.ValueOutOfRange ValidationErrorReasons.MinSlippageTooLow)
  else Ok slippagePercentage.

Definition parsePriceImpact (param : option string) : number :=
  match param with None => DEFAULT_PRICE_IMPACT_PROTECTION_PERCENTAGE | Some s => parseFloat s end.

Definition parseSources (param : option string) : option (list ERC20BridgeSource) :=
  (λ s, parseStringArrForERC20BridgeSources (split_on ","%char s)) <$> param.

(** [param.toLowerCase()]. *)
Definition lowerParam (param : option string) : result string :=
  match param with Some s => Ok (toLowerCase s) | None => Throw TypeError end.

(** What the two versions share; [extra] is parsed after the taker. *)
Definition parseRequest {C} (extra : result C) (affiliateFee : AffiliateFee) (req : MetaTransactionRequest)
    : result (MetaTransactionV1QuoteRequestParams * C) :=
  buyTokenAddress ← findTokenAddressOrThrowApiError findTokenAddressOrThrow (mr_buyToken req) "buyToken";
  sellTokenAddress ← findTokenAddressOrThrowApiError findTokenAddressOrThrow (mr_sellToken req) "sellToken";
  takerAddress ← lowerParam (mr_takerAddress req);
  extra ← extra;
  slippagePercentage ← parseSlippage (mr_slippagePercentage req);
  Ok ({| mp_takerAddress := takerAddress; mp_sellTokenAddress := sellTokenAddress;
        mp_buyTokenAddress := buyTokenAddress; mp_sellAmount := bn_of_string <$> mr_sellAmount req;
        mp_buyAmount := bn_of_string <$> mr_buyAmount req; mp_slippagePercentage := slippagePercentage;
        mp_excludedSources := default [] (parseSources (mr_excludedSources req));
        mp_includedSources := parseSources (mr_includedSources req); mp_affiliateFee := affiliateFee;
        mp_affiliateAddress := mr_affiliateAddress req; mp_integratorId := mr_integratorId req;
        mp_quoteUniqueId := mr_quoteUniqueId req;
        mp_priceImpactProtectionPercentage := parsePriceImpact (mr_priceImpactProtectionPercentage req) |},
      extra).

Definition parseV1RequestParams (req : MetaTransactionRequest) : result MetaTransactionV1QuoteRequestParams :=
  affiliateFee ← parseAffiliateFeeOptions (mr_fee req);
  fst <$> parseRequest (Ok tt) affiliateFee req.

(** *** Fees *)

Definition invalidFee (code : ValidationErrorCodes.t) (reason : string) : js_error := invalid "feeConfigs" code reason.

(** What the code reads of a billing type is whether it is on chain. *)
Definition billingOf (fee : FeeConfigBody) : FeeConfigBase :=
  {| c_feeRecipient := fb_feeRecipient fee;
     c_billingType := if is_param (fb_billingType fee) "on-chain" then OnChain else OffChain |}.

(** A percentage of one or more is refused. *)
Definition parseFeePercentage (param : option string) : result BN :=
  let percentage := bn_of_param param in
  if gte percentage (of_Z 1)
  then Throw (invalidFee ValidationErrorCodes.ValueOutOfRange ValidationErrorReasons.PercentageOutOfRange)
  else Ok percentage.

Definition wrongFeeType : js_error := invalidFee ValidationErrorCodes.IncorrectFormat ValidationErrorReasons.InvalidGaslessFeeType.

Definition parseIntegratorFee (fee : FeeConfigBody) : result VolumeBasedFeeConfig :=
  if is_param (fb_type fee) "volume" then
    volumePercentage ← parseFeePercentage (fb_volumePercentage fee);
    Ok {| vc_base := billingOf fee; vc_volumePercentage := volumePercentage |}
  else Throw wrongFeeType.

Definition parseZeroExFee (integratorFee : option VolumeBasedFeeConfig) (fee : FeeConfigBody) : result ZeroExFeeConfig :=
  if is_param (fb_type fee) "volume" then
    feePercentage ← parseFeePercentage (fb_volumePercentage fee);
    Ok (ZVolumeConfig {| vc_base := billingOf fee; vc_volumePercentage := feePercentage |})
  else if is_param (fb_type fee) "integrator_share" then
    match integratorFee with
    | None => Throw wrongFeeType
    | Some _ =>
        feePercentage ← parseFeePercentage (fb_integratorSharePercentage fee);
        Ok (ZShareConfig {| sc_base := billingOf fee; sc_integratorSharePercentage := feePercentage |})
    end
  else Throw wrongFeeType.

Definition parseGasFee (fee : FeeConfigBody) : result GasFeeConfig :=
  if is_param (fb_type fee) "gas" then Ok {| gc_base := billingOf fee |} else Throw wrongFeeType.

(** A member that is there is parsed. *)
Definition optionally {A C} (f : A → result C) (o : option A) : result (option C) :=
  match o with Some a => Some <$> f a | None => Ok None end.

Definition _parseFeeConfigs (feeConfigs : option FeeConfigsBody) : result (option FeeConfigs) :=
  optionally (λ feeConfigs,
    integratorFee ← optionally parseIntegratorFee (fb_integratorFee feeConfigs);
    zeroExFee ← optionally (parseZeroExFee integratorFee) (fb_zeroExFee feeConfigs);
    gasFee ← optionally parseGasFee (fb_gasFee feeConfigs);
    Ok {| fc_integratorFee := integratorFee; fc_zeroExFee := zeroExFee; fc_gasFee := gasFee |}) feeConfigs.

Definition parseVersion (param : option string) : result MetaTransactionVersion :=
  if is_param param "v1" then Ok V1
  else if is_param param "v2" then Ok V2
  else Throw (invalid "metaTransactionVersion" ValidationErrorCodes.IncorrectFormat
                ValidationErrorReasons.InvalidMetaTransactionVersion).

Definition noAffiliateFee : AffiliateFee :=
  {| af_feeType := NoFee; af_recipient := NULL_ADDRESS; af_sellTokenPercentageFee := n_Z 0;
     af_buyTokenPercentageFee := n_Z 0 |}.

Definition parseV2RequestBody (req : MetaTransactionRequest) : result MetaTransactionV2QuoteRequestParams :=
  '(params, metaTransactionVersion) ← parseRequest (parseVersion (mr_metaTransactionVersion req)) noAffiliateFee req;
  feeConfigs ← _parseFeeConfigs (mr_feeConfigs req);
  Ok {| v2_params := params; v2_metaTransactionVersion := metaTransactionVersion; v2_feeConfigs := feeConfigs |}.

End Requests.

(** ** The service *)

Section Service.
Context {B : BigNumberLib} {S : Type} `{SV : !ISwapService S}.
Variable bn_toString : BN → string.
Variable stringifyFillData : IndexedEntry → string.
Variable kafkaProducer : bool.
Variable KAFKA_TOPIC_QUOTE_REPORT : option string.
(** The chain, its wrapped token, the exchange proxy, and who is paid the fee of
    a first version. *)
Variable CHAIN_ID : ChainId.
Variable wrappedNativeToken : string.
Variable _exchangeProxyAddress : string.
Variable FEE_RECIPIENT_ADDRESS : string.

(** What is signed: [ExchangeProxyMetaTransaction] and [MetaTransaction], which
    have the same fields. *)
Record MetaTransaction : Type := {
  mt_callData : string;
  mt_minGasPrice : BN;
  mt_maxGasPrice : BN;
  mt_expirationTimeSeconds : BN;
  mt_salt : BN;
  mt_signer : string;
  mt_sender : string;
  mt_feeAmount : BN;
  mt_feeToken : string;
  mt_value : BN;
  mt_chainId : ChainId;
  mt_verifyingContract : string;
}.
(** The hashes of the two libraries. *)
Variable getExchangeProxyMetaTransactionHash : MetaTransaction → string.
Variable getHash : MetaTransaction → string.

(** The swap service and the reports that were published. *)
Record MetaState : Type := { mt_swap : S; mt_published : list ExtendedQuoteReport }.
Definition on_swap {A} (m : Async S A) : Async MetaState A := λ s,
  let '(r, swap) := m (mt_swap s) in (r, {| mt_swap := swap; mt_published := mt_published s |}).
Definition publish (report : option ExtendedQuoteReport) : Async MetaState unit := λ s,
  (Ok tt, {| mt_swap := mt_swap s; mt_published := mt_published s ++ option_list report |}).

(** What a request meets: the clock when the report and when the meta-transaction
    is made, in milliseconds, and the salt. *)
Record Moment : Type := { reportedAt : Z; createdAt : Z; drawnSalt : BN }.
Variable moment : Moment.

Definition ONE_GWEI : BN := of_Z 1000000000.
Definition normalizeGasPrice (gasPrice : BN) : BN :=
  times (integerValue ROUND_UP (div gasPrice ONE_GWEI)) ONE_GWEI.

Definition META_TX_EXPIRATION_BUFFER_MS : Z := 600000.
Definition createExpirationTime : BN :=
  integerValue ROUND_CEIL (div (of_Z (createdAt moment + META_TX_EXPIRATION_BUFFER_MS)) (of_Z 1000)).

(** [MetaTransactionV1QuoteResult] and [MetaTransactionV2QuoteResult]: the first
    version has no fees. *)
Record MetaTransactionQuoteResult : Type := {
  mqr_chainId : ChainId;
  mqr_price : BN;
  mqr_estimatedPriceImpact : option BN;
  mqr_gasPrice : BN;
  mqr_protocolFee : BN;
  mqr_sources : list ResponseSource;
  mqr_buyAmount : BN;
  mqr_sellAmount : BN;
  mqr_estimatedGas : BN;
  mqr_allowanceTarget : string;
  mqr_sellTokenToEthRate : BN;
  mqr_buyTokenToEthRate : BN;
  mqr_callData : string;
  mqr_minimumProtocolFee : BN;
  mqr_buyTokenAddress : string;
  mqr_sellTokenAddress : string;
  mqr_taker : string;
  mqr_fees : option Fees;
}.

(** *** Quotes of the swap service *)

(** The options that both versions ask the swap service with. *)
Definition quoteParams (params : QuoteParams MetaTransactionV1QuoteRequestParams) (endpoint : Endpoint)
    (version : MetaTransactionVersion) (affiliateFee : AffiliateFee) (feeConfigs : option FeeConfigs)
    : GetSwapQuoteParams :=
  let request := mq_request params in
  {| gp_endpoint := endpoint; gp_sellToken := mp_sellTokenAddress request;
     gp_buyToken := if mq_isETHBuy params then wrappedNativeToken else mp_buyTokenAddress request;
     gp_sellAmount := mp_sellAmount request; gp_buyAmount := mp_buyAmount request;
     gp_takerAddress := Some (mp_takerAddress request); gp_apiKey := None; gp_gasPrice := None;
     gp_slippagePercentage := Some (mp_slippagePercentage request);
     gp_excludedSources := mp_excludedSources request; gp_includedSources := mp_includedSources request;
     gp_affiliateAddress := mp_affiliateAddress request; gp_affiliateFee := affiliateFee;
     gp_priceImpactProtectionPercentage := mp_priceImpactProtectionPercentage request; gp_rfqt := None;
     gp_skipValidation := true; gp_shouldSellEntireBalance := false; gp_isWrap := false; gp_isUnwrap := false;
     gp_isETHSell := mq_isETHSell params; gp_isETHBuy := mq_isETHBuy params;
     gp_metaTransactionVersion := Some version; gp_integrator := None; gp_enableSlippageProtection := None;
     gp_feeConfigs := feeConfigs; gp_isDebugEnabled := false |}.

(** The report of a quote, which carries the id of the request if it has one. *)
Definition metaReportOf (request : MetaTransactionV1QuoteRequestParams) (quote : GetSwapQuoteResponse)
    : option ExtendedQuoteReport :=
  match rsp_extendedQuoteReportSources quote with
  | Some quoteReportSources =>
      if kafkaProducer then
        publishQuoteReport bn_toString stringifyFillData KAFKA_TOPIC_QUOTE_REPORT (reportedAt moment)
          {| lo_quoteId := Some (getQuoteIdFromSwapQuote (rsp_data quote)); lo_taker := Some (mp_takerAddress request);
             lo_quoteReportSources := quoteReportSources; lo_submissionBy := GaslessSwapAmm;
             lo_decodedUniqueId := if truthy (mp_quoteUniqueId request) then default ""%string (mp_quoteUniqueId request)
                                   else rsp_decodedUniqueId quote;
             lo_buyTokenAddress := rsp_buyTokenAddress quote; lo_sellTokenAddress := rsp_sellTokenAddress quote;
             lo_buyAmount := mp_buyAmount request; lo_sellAmount := mp_sellAmount request;
             lo_integratorId := mp_integratorId request; lo_blockNumber := rsp_blockNumber quote;
             lo_slippage := Some (mp_slippagePercentage request); lo_estimatedGas := rsp_estimatedGas quote;
             lo_enableSlippageProtection := Some false; lo_expectedSlippage := rsp_expectedSlippage quote;
             lo_estimatedPriceImpact := rsp_estimatedPriceImpact quote;
             lo_priceImpactProtectionPercentage := mp_priceImpactProtectionPercentage request |} true
      else None
  | None => None
  end.

Definition resultOf (request : MetaTransactionV1QuoteRequestParams) (quote : GetSwapQuoteResponse)
    (fees : option Fees) : MetaTransactionQuoteResult :=
  {| mqr_chainId := rsp_chainId quote; mqr_price := rsp_price quote;
     mqr_estimatedPriceImpact := rsp_estimatedPriceImpact quote; mqr_gasPrice := rsp_gasPrice quote;
     mqr_protocolFee := rsp_protocolFee quote; mqr_sources := rsp_sources quote;
     mqr_buyAmount := rsp_buyAmount quote; mqr_sellAmount := rsp_sellAmount quote;
     mqr_estimatedGas := rsp_estimatedGas quote; mqr_allowanceTarget := rsp_allowanceTarget quote;
     mqr_sellTokenToEthRate := rsp_sellTokenToEthRate quote; mqr_buyTokenToEthRate := rsp_buyTokenToEthRate quote;
     mqr_callData := rsp_data quote; mqr_minimumProtocolFee := rsp_protocolFee quote;
     mqr_buyTokenAddress := mp_buyTokenAddress request; mqr_sellTokenAddress := mp_sellTokenAddress request;
     mqr_taker := mp_takerAddress request; mqr_fees := fees |}.

(** A quote, reported if it is firm. *)
Definition reportedQuote (request : MetaTransactionV1QuoteRequestParams) (swapParams : GetSwapQuoteParams)
    : Async MetaState GetSwapQuoteResponse :=
  quote ← on_swap (swap_calculateSwapQuoteAsync swapParams);
  _ ← (match gp_endpoint swapParams with
       | Quote => publish (metaReportOf request quote)
       | Price => mret tt
       end : Async MetaState unit);
  mret quote.

(** The fee of the first version; its percentages are absent, and not read. *)
Definition gaslessFee : AffiliateFee :=
  {| af_feeType := GaslessFee; af_recipient := FEE_RECIPIENT_ADDRESS; af_sellTokenPercentageFee := n_Z 0;
     af_buyTokenPercentageFee := n_Z 0 |}.
Definition _getMetaTransactionQuoteAsync (params : QuoteParams MetaTransactionV1QuoteRequestParams)
    (endpoint : Endpoint) : Async MetaState MetaTransactionQuoteResult :=
  quote ← reportedQuote (mq_request params) (quoteParams params endpoint V1 gaslessFee None);
  mret (resultOf (mq_request params) quote None).

Definition v1_of (params : QuoteParams MetaTransactionV2QuoteRequestParams)
    : QuoteParams MetaTransactionV1QuoteRequestParams :=
  {| mq_request := v2_params (mq_request params); mq_from := mq_from params; mq_isETHBuy := mq_isETHBuy params;
     mq_isETHSell := mq_isETHSell params |}.
Definition v2SwapParams (params : QuoteParams MetaTransactionV2QuoteRequestParams) (endpoint : Endpoint)
    : GetSwapQuoteParams :=
  let request := mq_request params in
  quoteParams (v1_of params) endpoint (v2_metaTransactionVersion request) (mp_affiliateFee (v2_params request))
    (v2_feeConfigs request).
Definition _getMetaTransactionV2QuoteAsync (params : QuoteParams MetaTransactionV2QuoteRequestParams)
    (endpoint : Endpoint) : Async MetaState MetaTransactionQuoteResult :=
  let request := v2_params (mq_request params) in
  quote ← reportedQuote request (v2SwapParams params endpoint);
  mret (resultOf request quote (rsp_fees quote)).

(** *** Meta-transactions *)

Definition MAX_GAS_PRICE : BN := pow (of_Z 2) 48.

(** The gas price is not read. *)
Definition _generateExchangeProxyMetaTransaction (callData takerAddress : string) (_gasPrice protocolFee : BN)
    : MetaTransaction :=
  {| mt_callData := callData; mt_minGasPrice := of_Z 1; mt_maxGasPrice := MAX_GAS_PRICE;
     mt_expirationTimeSeconds := createExpirationTime; mt_salt := drawnSalt moment; mt_signer := takerAddress;
     mt_sender := NULL_ADDRESS; mt_feeAmount := ZERO; mt_feeToken := NULL_ADDRESS; mt_value := protocolFee;
     mt_chainId := CHAIN_ID; mt_verifyingContract := _exchangeProxyAddress |}.
Definition _generateMetaTransactionV1 (callData takerAddress : string) (protocolFee : BN) : MetaTransaction :=
  {| mt_callData := callData; mt_minGasPrice := ZERO; mt_maxGasPrice := MAX_GAS_PRICE;
     mt_expirationTimeSeconds := createExpirationTime; mt_salt := drawnSalt moment; mt_signer := takerAddress;
     mt_sender := NULL_ADDRESS; mt_feeAmount := ZERO; mt_feeToken := NULL_ADDRESS; mt_value := protocolFee;
     mt_chainId := CHAIN_ID; mt_verifyingContract := _exchangeProxyAddress |}.

(** What the answers of both versions share. *)
Record CommonQuoteFields : Type := {
  cq_chainId : ChainId;
  cq_price : BN;
  cq_estimatedPriceImpact : option BN;
  cq_sellTokenAddress : string;
  cq_buyTokenAddress : string;
  cq_buyAmount : BN;
  cq_sellAmount : BN;
  cq_sources : list ResponseSource;
  cq_gasPrice : BN;
  cq_estimatedGas : BN;
  cq_gas : BN;
  cq_protocolFee : BN;
  cq_minimumProtocolFee : BN;
  cq_value : BN;
  cq_allowanceTarget : string;
  cq_sellTokenToEthRate : BN;
  cq_buyTokenToEthRate : BN;
  cq_fees : option Fees;
}.
Definition commonQuoteFields (request : MetaTransactionV1QuoteRequestParams) (quote : MetaTransactionQuoteResult)
    : CommonQuoteFields :=
  {| cq_chainId := mqr_chainId quote; cq_price := mqr_price quote;
     cq_estimatedPriceImpact := mqr_estimatedPriceImpact quote;
     cq_sellTokenAddress := mp_sellTokenAddress request; cq_buyTokenAddress := mp_buyTokenAddress request;
     cq_buyAmount := mqr_buyAmount quote; cq_sellAmount := mqr_sellAmount quote; cq_sources := mqr_sources quote;
     cq_gasPrice := mqr_gasPrice quote; cq_estimatedGas := mqr_estimatedGas quote; cq_gas := mqr_estimatedGas quote;
     cq_protocolFee := mqr_protocolFee quote; cq_minimumProtocolFee := mqr_minimumProtocolFee quote;
     cq_value := mqr_protocolFee quote; cq_allowanceTarget := mqr_allowanceTarget quote;
     cq_sellTokenToEthRate := mqr_sellTokenToEthRate quote; cq_buyTokenToEthRate := mqr_buyTokenToEthRate quote;
     cq_fees := mqr_fees quote |}.

(** [MetaTransactionV1QuoteResponse] and [MetaTransactionV2QuoteResponse], whose
    trade is of the one kind there is. *)
Record MetaTransactionQuoteResponse : Type := {
  mtr_common : CommonQuoteFields;
  mtr_metaTransaction : MetaTransaction;
  mtr_metaTransactionHash : string;
}.

Definition getMetaTransactionV1PriceAsync (params : QuoteParams MetaTransactionV1QuoteRequestParams)
    : Async MetaState MetaTransactionQuoteResult := _getMetaTransactionQuoteAsync params Price.
Definition getMetaTransactionV1QuoteAsync (params : QuoteParams MetaTransactionV1QuoteRequestParams)
    : Async MetaState MetaTransactionQuoteResponse :=
  quote ← _getMetaTransactionQuoteAsync params Quote;
  let metaTransaction := _generateExchangeProxyMetaTransaction (mqr_callData quote) (mqr_taker quote)
                           (normalizeGasPrice (mqr_gasPrice quote)) ZERO in
  mret {| mtr_common := commonQuoteFields (mq_request params) quote; mtr_metaTransaction := metaTransaction;
          mtr_metaTransactionHash := getExchangeProxyMetaTransactionHash metaTransaction |}.

Definition getMetaTransactionV2PriceAsync (params : QuoteParams MetaTransactionV2QuoteRequestParams)
    : Async MetaState MetaTransactionQuoteResult := _getMetaTransactionV2QuoteAsync params Price.
Definition getMetaTransactionV2QuoteAsync (params : QuoteParams MetaTransactionV2QuoteRequestParams)
    : Async MetaState MetaTransactionQuoteResponse :=
  quote ← _getMetaTransactionV2QuoteAsync params Quote;
  match v2_metaTransactionVersion (mq_request params) with
  | V1 =>
      let metaTransaction := _generateMetaTransactionV1 (mqr_callData quote) (mqr_taker quote) ZERO in
      mret {| mtr_common := commonQuoteFields (v2_params (mq_request params)) quote;
              mtr_metaTransaction := metaTransaction; mtr_metaTransactionHash := getHash metaTransaction |}
  | V2 => lift (Throw (Error "metaTransactionVersion v2 is not supported"))
  end.
End Service.

(** ** What the handlers ask of the service ([IMetaTransactionService]) *)

Section Interface.
Context {B : BigNumberLib}.
Class IMetaTransactionService (S : Type) : Type := {
  meta_getMetaTransactionV1PriceAsync :
    QuoteParams MetaTransactionV1QuoteRequestParams → Async S MetaTransactionQuoteResult;
  meta_getMetaTransactionV1QuoteAsync :
    QuoteParams MetaTransactionV1QuoteRequestParams → Async S MetaTransactionQuoteResponse;
  meta_getMetaTransactionV2PriceAsync :
    QuoteParams MetaTransactionV2QuoteRequestParams → Async S MetaTransactionQuoteResult;
  meta_getMetaTransactionV2QuoteAsync :
    QuoteParams MetaTransactionV2QuoteRequestParams → Async S MetaTransactionQuoteResponse;
}.
End Interface.

(** ** The handlers *)

Section Handlers.
Context {B : BigNumberLib} {S : Type} `{MS : !IMetaTransactionService S}.
Variable validateSchema : MetaTransactionRequest → result unit.
Variable isNativeSymbolOrAddress : option string → result bool.
Variable findTokenAddressOrThrow : option string → string + string.
Variable bn_of_string : string → BN.
Variable META_TX_MIN_ALLOWED_SLIPPAGE : number.

Definition EthSellNotSupportedError : js_error := ApiError "EthSellNotSupportedError".

(** The native token is not sold: it has no allowance. *)
Definition refuseEthSell (sellTokenAddress : string) : result unit :=
  isETHSell ← isNativeSymbolOrAddress (Some sellTokenAddress);
  if isETHSell : bool then Throw EthSellNotSupportedError else Ok tt.

Definition withTokens {R} (request : R) (taker : string) (isETHBuy : bool) : QuoteParams R :=
  {| mq_request := request; mq_from := taker; mq_isETHBuy := isETHBuy; mq_isETHSell := false |}.

Definition metaAmountField (request : MetaTransactionV1QuoteRequestParams) : string :=
  match mp_buyAmount request with Some _ => "buyAmount" | None => "sellAmount" end.

(** The [catch] of the quotes passes the exception on, that of the prices makes it
    an error of the API. *)
Definition answer {A} (request : MetaTransactionV1QuoteRequestParams) (otherwise : js_error → js_error)
    (m : Async S A) : Async S (HttpResponse A) :=
  try_catch (a ← m; mret {| status := OK; body := Some a |})
    (λ e, lift (Throw (toApiError (metaAmountField request) otherwise e))).

(** The price is the result of the quote with its fee and its gas. *)
Record MetaTransactionPriceResponse : Type := {
  mpr_result : MetaTransactionQuoteResult;
  mpr_value : BN;
  mpr_gas : BN;
}.
Definition metaPriceOf (calculation : MetaTransactionQuoteResult) : MetaTransactionPriceResponse :=
  {| mpr_result := calculation; mpr_value := mqr_protocolFee calculation; mpr_gas := mqr_estimatedGas calculation |}.

Local Notation parseV1 := (parseV1RequestParams findTokenAddressOrThrow bn_of_string META_TX_MIN_ALLOWED_SLIPPAGE).
Local Notation parseV2 := (parseV2RequestBody findTokenAddressOrThrow bn_of_string META_TX_MIN_ALLOWED_SLIPPAGE).

Definition getV1QuoteAsync (req : MetaTransactionRequest) : Async S (HttpResponse MetaTransactionQuoteResponse) :=
  _ ← lift (validateSchema req);
  params ← lift (parseV1 req);
  isETHBuy ← lift (isNativeSymbolOrAddress (Some (mp_buyTokenAddress params)));
  _ ← lift (refuseEthSell (mp_sellTokenAddress params));
  answer params id
    (meta_getMetaTransactionV1QuoteAsync (withTokens params (mp_takerAddress params) isETHBuy)).

Definition getV1PriceAsync (req : MetaTransactionRequest) : Async S (HttpResponse MetaTransactionPriceResponse) :=
  _ ← lift (validateSchema req);
  params ← lift (parseV1 req);
  _ ← lift (refuseEthSell (mp_sellTokenAddress params));
  isETHBuy ← lift (isNativeSymbolOrAddress (Some (mp_buyTokenAddress params)));
  answer params toInternalError
    (calculation ← meta_getMetaTransactionV1PriceAsync (withTokens params (mp_takerAddress params) isETHBuy);
     mret (metaPriceOf calculation)).

Definition getV2QuoteAsync (req : MetaTransactionRequest) : Async S (HttpResponse MetaTransactionQuoteResponse) :=
  _ ← lift (validateSchema req);
  params ← lift (parseV2 req);
  let request := v2_params params in
  isETHBuy ← lift (isNativeSymbolOrAddress (Some (mp_buyTokenAddress request)));
  _ ← lift (refuseEthSell (mp_sellTokenAddress request));
  answer request id
    (meta_getMetaTransactionV2QuoteAsync (withTokens params (mp_takerAddress request) isETHBuy)).

Definition getV2PriceAsync (req : MetaTransactionRequest) : Async S (HttpResponse MetaTransactionPriceResponse) :=
  _ ← lift (validateSchema req);
  params ← lift (parseV2 req);
  let request := v2_params params in
  _ ← lift (refuseEthSell (mp_sellTokenAddress request));
  isETHBuy ← lift (isNativeSymbolOrAddress (Some (mp_buyTokenAddress request)));
  answer request toInternalError
    (calculation ← meta_getMetaTransactionV2PriceAsync (withTokens params (mp_takerAddress request) isETHBuy);
     mret (metaPriceOf calculation)).
End Handlers.


(** ** What is parsed *)

Section ParsedFees.
Context {B : BigNumberLib}.
Variable bn_of_string : string → BN.
Implicit Types fee : FeeConfigBody.

(** A number below one, or none. *)
Definition below_one (b : BN) : Prop := gte b (of_Z 1) = false.

Lemma fee_percentage_ok param b :
  parseFeePercentage bn_of_string param = Ok b ↔ b = bn_of_param bn_of_string param ∧ below_one b.
Proof.
  unfold parseFeePercentage, below_one. destruct (gte _ _) eqn:E; split; try done.
  - intros [-> H]. congruence.
  - by intros [= <-].
  - by intros [-> _].
Qed.
Lemma fee_percentage_error param e :
  parseFeePercentage bn_of_string param = Throw e → is_validation_error e.
Proof. unfold parseFeePercentage. destruct (gte _ _); [intros [= <-]; unfold invalidFee; auto with requests | done]. Qed.
Lemma wrong_fee_type_error : is_validation_error wrongFeeType.
Proof. unfold wrongFeeType, invalidFee. auto with requests. Qed.
#[local] Hint Resolve fee_percentage_error wrong_fee_type_error : requests.

Lemma integrator_fee_parsed fee :
  match parseIntegratorFee bn_of_string fee with
  | Ok c => fb_type fee = Some "volume"%string ∧ vc_base c = billingOf fee ∧
            vc_volumePercentage c = bn_of_param bn_of_string (fb_volumePercentage fee) ∧ below_one (vc_volumePercentage c)
  | Throw e => is_validation_error e
  end.
Proof.
  unfold parseIntegratorFee. destruct (is_param _ _) eqn:Et; [|auto with requests].
  destruct (parseFeePercentage _ _) as [b|e] eqn:E; simpl; [|eauto with requests].
  apply fee_percentage_ok in E as [-> Hb]. split_and!; try done.
  destruct (fb_type fee) as [t|]; [|done]. by apply String.eqb_eq in Et as ->.
Qed.

(** What a 0x fee of a request comes to; a share is of an integrator fee. *)
Definition zero_ex_of (integratorFee : option VolumeBasedFeeConfig) fee (c : ZeroExFeeConfig) : Prop :=
  match c with
  | ZVolumeConfig c => fb_type fee = Some "volume"%string ∧ vc_base c = billingOf fee ∧
      vc_volumePercentage c = bn_of_param bn_of_string (fb_volumePercentage fee) ∧ below_one (vc_volumePercentage c)
  | ZShareConfig c => fb_type fee = Some "integrator_share"%string ∧ sc_base c = billingOf fee ∧
      is_Some integratorFee ∧
      sc_integratorSharePercentage c = bn_of_param bn_of_string (fb_integratorSharePercentage fee) ∧
      below_one (sc_integratorSharePercentage c)
  end.
Lemma zero_ex_fee_parsed integratorFee fee :
  match parseZeroExFee bn_of_string integratorFee fee with
  | Ok c => zero_ex_of integratorFee fee c
  | Throw e => is_validation_error e
  end.
Proof.
  unfold parseZeroExFee, is_param. destruct (fb_type fee) as [t|] eqn:Et; [|auto with requests].
  destruct (String.eqb t "volume") eqn:E1; [|destruct (String.eqb t "integrator_share") eqn:E2; [|auto with requests]].
  - apply String.eqb_eq in E1 as ->. destruct (parseFeePercentage _ _) as [b|e] eqn:E; simpl; [|eauto with requests].
    apply fee_percentage_ok in E as [-> Hb]. by rewrite Et.
  - apply String.eqb_eq in E2 as ->. destruct integratorFee as [i|]; [|auto with requests].
    destruct (parseFeePercentage _ _) as [b|e] eqn:E; simpl; [|eauto with requests].
    apply fee_percentage_ok in E as [-> Hb]. rewrite Et. split_and!; done || by eexists.
Qed.

(** The fee configs that a body is read as. *)
Record fees_of (body : FeeConfigsBody) (cfg : FeeConfigs) : Prop := {
  fo_integrator : match fb_integratorFee body, fc_integratorFee cfg with
    | Some fee, Some c => fb_type fee = Some "volume"%string ∧ vc_base c = billingOf fee ∧
        vc_volumePercentage c = bn_of_param bn_of_string (fb_volumePercentage fee) ∧ below_one (vc_volumePercentage c)
    | None, None => True | _, _ => False end;
  fo_zeroEx : match fb_zeroExFee body, fc_zeroExFee cfg with
    | Some fee, Some c => zero_ex_of (fc_integratorFee cfg) fee c
    | None, None => True | _, _ => False end;
  fo_gas : match fb_gasFee body, fc_gasFee cfg with
    | Some fee, Some c => fb_type fee = Some "gas"%string ∧ gc_base c = billingOf fee
    | None, None => True | _, _ => False end;
}.

Lemma fee_configs_read body :
  match _parseFeeConfigs bn_of_string (Some body) with
  | Ok (Some cfg) => fees_of body cfg
  | Ok None => False
  | Throw e => is_validation_error e
  end.
Proof.
  unfold _parseFeeConfigs. cbn [optionally].
  assert (match optionally (parseIntegratorFee bn_of_string) (fb_integratorFee body) with
    | Ok o => match fb_integratorFee body, o with
        | Some fee, Some c => fb_type fee = Some "volume"%string ∧ vc_base c = billingOf fee ∧
           vc_volumePercentage c = bn_of_param bn_of_string (fb_volumePercentage fee) ∧ below_one (vc_volumePercentage c)
        | None, None => True | _, _ => False end
    | Throw e => is_validation_error e end) as Hi.
  { destruct (fb_integratorFee body) as [fee|]; [|done]. simpl. pose proof (integrator_fee_parsed fee) as H.
    by destruct (parseIntegratorFee _ _). }
  destruct (optionally (parseIntegratorFee bn_of_string) _) as [i|]; simpl; [|done].
  assert (match optionally (parseZeroExFee bn_of_string i) (fb_zeroExFee body) with
    | Ok o => match fb_zeroExFee body, o with
        | Some fee, Some c => zero_ex_of i fee c | None, None => True | _, _ => False end
    | Throw e => is_validation_error e end) as Hz.
  { destruct (fb_zeroExFee body) as [fee|]; [|done]. simpl. pose proof (zero_ex_fee_parsed i fee) as H.
    by destruct (parseZeroExFee _ _ _). }
  destruct (optionally (parseZeroExFee bn_of_string i) _) as [z|]; simpl; [|done].
  destruct (fb_gasFee body) as [g|] eqn:Eg; simpl; [|by split; cbn; rewrite ?Eg].
  unfold parseGasFee, is_param. destruct (fb_type g) as [t|] eqn:Et; simpl; [|auto with requests].
  destruct (String.eqb t "gas") eqn:E; simpl; [|auto with requests]. apply String.eqb_eq in E as ->.
  split; cbn; rewrite ?Eg; done.
Qed.

(** C34. What a body is read as is its own, a share never lacks its integrator fee,
    so that the fees of a request can always be calculated (given the rate that
    a gas fee is converted at), and all that is refused is an error of the
    request. *)
Theorem parsed_fees_calculated body :
  match _parseFeeConfigs bn_of_string (Some body) with
  | Ok (Some cfg) =>
      fees_of body cfg ∧
      ∀ opts, o_feeConfigs opts = Some cfg → (is_Some (fb_gasFee body) → is_Some (o_sellTokenAmountPerWei opts)) →
        is_ok (calculateFees opts) = true
  | Ok None => False
  | Throw e => is_validation_error e
  end.
Proof.
  pose proof (fee_configs_read body) as H. destruct (_parseFeeConfigs _ _) as [[cfg|]|e]; [|done..].
  split; [exact H|]. destruct H as [Hi Hz Hg]. intros opts Ho Hw. unfold calculateFees. rewrite Ho.
  assert (is_Some (fc_integratorFee cfg) → is_Some (_calculateIntegratorFee (fc_integratorFee cfg) (o_sellToken opts)
    (o_sellTokenAmount opts))) as Hsome by (intros [c ->]; by eexists).
  set (i := _calculateIntegratorFee _ _ _) in *. clearbody i.
  assert (∃ z, _calculateZeroExFee (fc_zeroExFee cfg) (o_sellToken opts) (o_sellTokenAmount opts) i = Ok z) as [z ->].
  { unfold _calculateZeroExFee. destruct (fc_zeroExFee cfg) as [[c|c]|]; [by eexists| |by eexists].
    destruct (fb_zeroExFee body) as [fee|]; [|done]. destruct Hz as (_ & _ & Hshare & _).
    destruct (Hsome Hshare) as [f ->]. by eexists. }
  cbn [mbind result_bind]. unfold _calculateGasFee. destruct (fc_gasFee cfg); [|done].
  destruct (fb_gasFee body); [|done]. by destruct (Hw ltac:(by eexists)) as [w ->].
Qed.

(** The percentages of a body are numbers that are not negative. *)
Definition nonneg_percentages (body : FeeConfigsBody) : Prop := ∀ fee,
  fb_integratorFee body = Some fee ∨ fb_zeroExFee body = Some fee →
  (fb_type fee = Some "volume"%string → nonneg (bn_of_param bn_of_string (fb_volumePercentage fee))) ∧
  (fb_type fee = Some "integrator_share"%string → nonneg (bn_of_param bn_of_string (fb_integratorSharePercentage fee))).

Lemma below_one_fin b x : below_one b → fin b x → (x < 1)%Q.
Proof. intros H Hx. eapply (lte_fin_false (of_Z 1) b 1 x); [apply (fin_Z 1) | exact Hx | exact H]. Qed.

Lemma proper_parsed body cfg : fees_of body cfg → nonneg_percentages body → proper_configs cfg.
Proof.
  intros [Hi Hz _] Hn. split.
  - intros c Hc. rewrite Hc in Hi. destruct (fb_integratorFee body) as [fee|] eqn:E; [|done].
    destruct Hi as (Ht & _ & -> & _). by apply Hn; [left|].
  - intros c Hc. rewrite Hc in Hz. destruct (fb_zeroExFee body) as [fee|] eqn:E; [|done].
    destruct (Hn fee (or_intror E)) as [Hv Hs]. destruct c as [c|c].
    + destruct Hz as (Ht & _ & Hp & _). unfold proper_zeroEx. rewrite Hp. by apply Hv.
    + destruct Hz as (Ht & _ & _ & Hp & Hb). destruct (Hs Ht) as (x & Hx & H0). rewrite <- Hp in Hx. exists x. split; [exact Hx|].
      split; [exact H0|]. apply Qlt_le_weak. by eapply below_one_fin.
Qed.
End ParsedFees.

(** ** What is answered *)

Section Answers.
Context {B : BigNumberLib} {S : Type} `{SV : !ISwapService S}.
Variable bn_toString : BN → string.
Variable stringifyFillData : IndexedEntry → string.
Variable kafkaProducer : bool.
Variable KAFKA_TOPIC_QUOTE_REPORT : option string.
Variable CHAIN_ID : ChainId.
Variable wrappedNativeToken exchangeProxyAddress FEE_RECIPIENT_ADDRESS : string.
Variable exchangeProxyHash v1Hash : MetaTransaction → string.
Variable moment : Moment.

Local Notation reported request quote :=
  (metaReportOf bn_toString stringifyFillData kafkaProducer KAFKA_TOPIC_QUOTE_REPORT moment request quote).
Local Notation asked request params :=
  (reportedQuote bn_toString stringifyFillData kafkaProducer KAFKA_TOPIC_QUOTE_REPORT moment request params).

(** A quote is that of the swap service; if it is firm its report is published. *)
Lemma reported_quote request params s r s' :
  asked request params s = (r, s') →
  swap_calculateSwapQuoteAsync params (mt_swap s) = (r, mt_swap s') ∧
  mt_published s' = mt_published s ++
    match r, gp_endpoint params with Ok quote, Quote => option_list (reported request quote) | _, _ => [] end.
Proof.
  unfold reportedQuote, on_swap, mbind, Async_bind.
  destruct (swap_calculateSwapQuoteAsync params (mt_swap s)) as [[quote|e] sw]; simpl.
  - destruct (gp_endpoint params); intros [= <- <-]; simpl; [by rewrite app_nil_r | done].
  - intros [= <- <-]. by rewrite app_nil_r.
Qed.

Lemma expiration_time :
  (3 <= DECIMAL_PLACES)%nat →
  ∃ e, int (createExpirationTime moment) e ∧ (createdAt moment + 600000 <= 1000 * e < createdAt moment + 601000)%Z.
Proof.
  intros Hdp. unfold createExpirationTime, META_TX_EXPIRATION_BUFFER_MS. eexists. split.
  - apply int_ceil_div; [apply fin_Z | apply fin_Z |].
    split; [done|]. change 1000%Z with (10 ^ 3)%Z. apply Z.pow_le_mono_r; lia.
  - cbv beta. pose proof (Z.mod_pos_bound (- (createdAt moment + 600000)) 1000 eq_refl) as Hb.
    pose proof (Z.div_mod (- (createdAt moment + 600000)) 1000 ltac:(done)) as Hd. lia.
Qed.

(** What the taker signs. *)
Record signed_by_taker (request : MetaTransactionV1QuoteRequestParams) (callData : string) (mt : MetaTransaction)
    : Prop := {
  st_signer : mt_signer mt = mp_takerAddress request;
  st_callData : mt_callData mt = callData;
  st_target : mt_chainId mt = CHAIN_ID ∧ mt_verifyingContract mt = exchangeProxyAddress;
  st_anyone : mt_sender mt = NULL_ADDRESS;
  st_free : int (mt_feeAmount mt) 0 ∧ int (mt_value mt) 0;
  st_gasPrice : ∃ low, int (mt_minGasPrice mt) low ∧ (low <= 1)%Z ∧ int (mt_maxGasPrice mt) (2 ^ 48);
  st_expires : ∃ e, int (mt_expirationTimeSeconds mt) e ∧
    (createdAt moment + 600000 <= 1000 * e < createdAt moment + 601000)%Z;
}.
Lemma generated_signed request callData low mt :
  (3 <= DECIMAL_PLACES)%nat → int (mt_minGasPrice mt) low → (low <= 1)%Z →
  mt = {| mt_callData := callData; mt_minGasPrice := mt_minGasPrice mt; mt_maxGasPrice := MAX_GAS_PRICE;
          mt_expirationTimeSeconds := createExpirationTime moment; mt_salt := drawnSalt moment;
          mt_signer := mp_takerAddress request; mt_sender := NULL_ADDRESS; mt_feeAmount := ZERO;
          mt_feeToken := NULL_ADDRESS; mt_value := ZERO; mt_chainId := CHAIN_ID;
          mt_verifyingContract := exchangeProxyAddress |} →
  signed_by_taker request callData mt.
Proof.
  intros Hdp Hl Hle ->. cbn in Hl. split; cbn; try done.
  - split; apply fin_Z.
  - exists low. split_and!; [done | done |]. unfold MAX_GAS_PRICE, int.
    eapply fin_eq; [apply fin_pow; [apply fin_Z | lia] | reflexivity].
  - by apply expiration_time.
Qed.

Local Notation v1Quote := (getMetaTransactionV1QuoteAsync bn_toString stringifyFillData kafkaProducer
  KAFKA_TOPIC_QUOTE_REPORT CHAIN_ID wrappedNativeToken exchangeProxyAddress FEE_RECIPIENT_ADDRESS exchangeProxyHash moment).
Local Notation v2Quote := (getMetaTransactionV2QuoteAsync bn_toString stringifyFillData kafkaProducer
  KAFKA_TOPIC_QUOTE_REPORT CHAIN_ID wrappedNativeToken exchangeProxyAddress v1Hash moment).

(** What an answer tells of the quote behind it. *)
Definition answers (request : MetaTransactionV1QuoteRequestParams) (quote : GetSwapQuoteResponse)
    (response : MetaTransactionQuoteResponse) : Prop :=
  signed_by_taker request (rsp_data quote) (mtr_metaTransaction response) ∧
  cq_sellAmount (mtr_common response) = rsp_sellAmount quote ∧
  cq_buyAmount (mtr_common response) = rsp_buyAmount quote ∧
  cq_price (mtr_common response) = rsp_price quote ∧
  cq_sellTokenAddress (mtr_common response) = mp_sellTokenAddress request ∧
  cq_buyTokenAddress (mtr_common response) = mp_buyTokenAddress request.

(** C12. A quote of either version that is answered is a meta-transaction that the
    taker signs and anyone may send: the call of the quote that the swap service
    made for the request, to the exchange proxy of the chain, without a fee or
    value, for at least the ten minutes of the buffer and at most a second more;
    its amounts are those of the quote, whose report is published. *)
Theorem answered_meta_transaction :
  (3 <= DECIMAL_PLACES)%nat →
  (∀ params s response s', v1Quote params s = (Ok response, s') →
     ∃ quote, swap_calculateSwapQuoteAsync
         (quoteParams wrappedNativeToken params Quote V1 (gaslessFee FEE_RECIPIENT_ADDRESS) None) (mt_swap s)
         = (Ok quote, mt_swap s') ∧
       answers (mq_request params) quote response ∧
       mtr_metaTransactionHash response = exchangeProxyHash (mtr_metaTransaction response) ∧
       mt_published s' = mt_published s ++ option_list (reported (mq_request params) quote)) ∧
  (∀ params s response s', v2Quote params s = (Ok response, s') →
     v2_metaTransactionVersion (mq_request params) = V1 ∧
     ∃ quote, swap_calculateSwapQuoteAsync (v2SwapParams wrappedNativeToken params Quote) (mt_swap s)
         = (Ok quote, mt_swap s') ∧
       answers (v2_params (mq_request params)) quote response ∧ cq_fees (mtr_common response) = rsp_fees quote ∧
       mtr_metaTransactionHash response = v1Hash (mtr_metaTransaction response) ∧
       mt_published s' = mt_published s ++ option_list (reported (v2_params (mq_request params)) quote)).
Proof.
  intros Hdp. split; intros params s response s' H.
  - unfold getMetaTransactionV1QuoteAsync in H.
    apply async_bind_ok in H as (result & s1 & (quote & s2 & Hq & [-> ->]%async_ret_ok)%async_bind_ok & [-> ->]%async_ret_ok).
    apply reported_quote in Hq as [Hq Hr]. exists quote.
    split; [exact Hq|]. split; [|by split]. split; [|done].
    eapply (generated_signed _ _ 1); [done | apply fin_Z | done | done].
  - unfold getMetaTransactionV2QuoteAsync in H.
    apply async_bind_ok in H as (result & s1 & (quote & s2 & Hq & [-> ->]%async_ret_ok)%async_bind_ok & H).
    apply reported_quote in Hq as [Hq Hr].
    destruct (v2_metaTransactionVersion (mq_request params)); [|done]. apply async_ret_ok in H as [-> ->].
    split; [done|]. exists quote.
    split; [exact Hq|]. split; [|by split_and!]. split; [|done].
    eapply (generated_signed _ _ 0); [done | apply fin_Z | done | done].
Qed.
(** A second-version meta-transaction is never answered, although a request may
    ask for one and gets its price: once the quote is there its report is
    published and the request fails. *)
Theorem v2_meta_transactions_unsupported params s r s' :
  v2_metaTransactionVersion (mq_request params) = V2 → v2Quote params s = (r, s') →
  ∃ e, r = Throw e ∧
    ∀ quote, (swap_calculateSwapQuoteAsync (v2SwapParams wrappedNativeToken params Quote) (mt_swap s)).1 = Ok quote →
      e = Error "metaTransactionVersion v2 is not supported" ∧
      mt_published s' = mt_published s ++ option_list (reported (v2_params (mq_request params)) quote).
Proof.
  intros Hv H. unfold getMetaTransactionV2QuoteAsync, _getMetaTransactionV2QuoteAsync, mbind, Async_bind in H.
  destruct (asked _ _ s) as [r1 s1] eqn:E. apply reported_quote in E as [Hq Hr]. rewrite Hq. rewrite Hv in H. cbn in H.
  destruct r1 as [quote|e]; cbn in H; injection H as <- <-; eexists; (split; [reflexivity|]); cbn.
  - intros quote' [= <-]. by split.
  - done.
Qed.
End Answers.

(** ** What is refused *)

Section Refusals.
Context {B : BigNumberLib} {S : Type} `{MS : !IMetaTransactionService S}.
Variable validateSchema : MetaTransactionRequest → result unit.
Variable isNativeSymbolOrAddress : option string → result bool.
Variable findTokenAddressOrThrow : option string → string + string.
Variable bn_of_string : string → BN.
Variable META_TX_MIN_ALLOWED_SLIPPAGE : number.

(** The documented behaviour of the collaborators: the schema requires a taker
    and is violated with validation errors, and every token is native or not. *)
Record MetaCollaborators : Prop := {
  mc_errors req e : validateSchema req = Throw e → is_validation_error e;
  mc_taker req : validateSchema req = Ok tt → is_Some (mr_takerAddress req);
  mc_native t : ∃ b, isNativeSymbolOrAddress t = Ok b;
}.

Local Notation parseV1 := (parseV1RequestParams findTokenAddressOrThrow bn_of_string META_TX_MIN_ALLOWED_SLIPPAGE).
Local Notation parseV2 := (parseV2RequestBody findTokenAddressOrThrow bn_of_string META_TX_MIN_ALLOWED_SLIPPAGE).

Lemma validation_is_api e : is_validation_error e → isAPIError e = true.
Proof. by intros [items ->]. Qed.

Lemma slippage_parsed param :
  match parseSlippage META_TX_MIN_ALLOWED_SLIPPAGE param with
  | Ok x => ext_le (n_Z 1) x = false ∧ ext_lt x META_TX_MIN_ALLOWED_SLIPPAGE = false
  | Throw e => is_validation_error e
  end.
Proof.
  unfold parseSlippage. set (x := if n_truthy _ then _ else _). destruct (ext_le (n_Z 1) x) eqn:E1; [auto with requests|].
  destruct (ext_lt x META_TX_MIN_ALLOWED_SLIPPAGE) eqn:E2; [auto with requests | done].
Qed.

Lemma token_error address field e :
  findTokenAddressOrThrowApiError findTokenAddressOrThrow address field = Throw e → is_validation_error e.
Proof.
  unfold findTokenAddressOrThrowApiError. destruct (findTokenAddressOrThrow address); [done|].
  intros [= <-]. auto with requests.
Qed.

Lemma request_error {C} (extra : result C) fee req e :
  is_Some (mr_takerAddress req) → (∀ e, extra = Throw e → is_validation_error e) →
  parseRequest findTokenAddressOrThrow bn_of_string META_TX_MIN_ALLOWED_SLIPPAGE extra fee req = Throw e →
  is_validation_error e.
Proof.
  intros [taker Ht] He H. unfold parseRequest in H. rewrite Ht in H.
  destruct (findTokenAddressOrThrowApiError _ (mr_buyToken req) _) as [b|e'] eqn:E1; cbn in H;
    [|injection H as <-; by eapply token_error].
  destruct (findTokenAddressOrThrowApiError _ (mr_sellToken req) _) as [t|e'] eqn:E2; cbn in H;
    [|injection H as <-; by eapply token_error].
  destruct extra as [c|e']; cbn in H; [|injection H as <-; by apply He].
  pose proof (slippage_parsed (mr_slippagePercentage req)) as Hs. destruct (parseSlippage _ _) as [x|e'']; cbn in H; [done|].
  by injection H as <-.
Qed.

Lemma v1_params_error req e : is_Some (mr_takerAddress req) → parseV1 req = Throw e → is_validation_error e.
Proof.
  intros Ht H. unfold parseV1RequestParams in H. pose proof (parsed_fee (mr_fee req)) as Hf.
  destruct (parseAffiliateFeeOptions _) as [fee|e']; cbn in H; [|by injection H as <-].
  destruct (parseRequest _ _ _ _ _ _) as [p|e'] eqn:E; cbn in H; [done|]. injection H as <-.
  by eapply (request_error (Ok tt)).
Qed.
Lemma v2_params_error req e : is_Some (mr_takerAddress req) → parseV2 req = Throw e → is_validation_error e.
Proof.
  intros Ht H. unfold parseV2RequestBody in H.
  destruct (parseRequest _ _ _ _ _ _) as [[p v]|e'] eqn:E; cbn in H.
  - destruct (mr_feeConfigs req) as [body|]; [|done]. pose proof (fee_configs_read bn_of_string body) as Hf.
    destruct (_parseFeeConfigs _ _); cbn in H; [done|]. by injection H as <-.
  - injection H as <-. eapply (request_error (parseVersion (mr_metaTransactionVersion req))); [done | | exact E].
    intros e. unfold parseVersion. destruct (is_param _ _); [done|]. destruct (is_param _ _); [done|].
    intros [= <-]. auto with requests.
Qed.

Lemma answer_error {A} request otherwise (m : Async S A) s e s' :
  answer request otherwise m s = (Throw e, s') →
  ∃ e0, m s = (Throw e0, s') ∧ e = toApiError (metaAmountField request) otherwise e0.
Proof.
  unfold answer, try_catch, mbind, Async_bind. destruct (m s) as [[a|e0] s1]; [done|]. intros [= <- <-]. by eexists.
Qed.
Lemma lift_bind_error {A C} (r : result A) (f : A → Async S C) s e s' :
  (lift r ≫= f) s = (Throw e, s') → r = Throw e ∨ ∃ a, r = Ok a ∧ f a s = (Throw e, s').
Proof. unfold mbind, Async_bind, lift. destruct r as [a|e0]; [by right; exists a | intros [= -> ->]; by left]. Qed.

Lemma refused_sell token e : MetaCollaborators → refuseEthSell isNativeSymbolOrAddress token = Throw e → isAPIError e = true.
Proof.
  intros [_ _ Hn] H. unfold refuseEthSell in H. destruct (Hn (Some token)) as [b Eb]. rewrite Eb in H.
  destruct b; [by injection H as <-|done].
Qed.

(** What comes before the service: the schema, the parser and the tokens. *)
Definition checked {P} (parse : MetaTransactionRequest → result P) (req : MetaTransactionRequest) (e : js_error) : Prop :=
  validateSchema req = Throw e ∨ (validateSchema req = Ok tt ∧ parse req = Throw e) ∨
  (∃ token, isNativeSymbolOrAddress (Some token) = Throw e) ∨ ∃ token, refuseEthSell isNativeSymbolOrAddress token = Throw e.
Lemma checked_api {P} (parse : MetaTransactionRequest → result P) req e :
  MetaCollaborators → (∀ e, is_Some (mr_takerAddress req) → parse req = Throw e → is_validation_error e) →
  checked parse req e → isAPIError e = true.
Proof.
  intros HC Hp [H|[[H1 H]|[[token H]|[token H]]]].
  - eapply validation_is_api, mc_errors; [exact HC | exact H].
  - apply validation_is_api. by eapply Hp; [eapply mc_taker|].
  - destruct (mc_native HC (Some token)) as [b Eb]. congruence.
  - by eapply refused_sell.
Qed.

Ltac refuse H :=
  apply lift_bind_error in H; let a := fresh "a" in let Hr := fresh "Hr" in let Ht := fresh "Ht" in
  destruct H as [Hr|(a & Hr & Ht)]; [solve [left; unfold checked; try destruct a; eauto 6] | rename Ht into H; cbv beta zeta in H].

Local Notation v1Quote := (getV1QuoteAsync validateSchema isNativeSymbolOrAddress findTokenAddressOrThrow bn_of_string META_TX_MIN_ALLOWED_SLIPPAGE).
Local Notation v1Price := (getV1PriceAsync validateSchema isNativeSymbolOrAddress findTokenAddressOrThrow bn_of_string META_TX_MIN_ALLOWED_SLIPPAGE).
Local Notation v2Quote := (getV2QuoteAsync validateSchema isNativeSymbolOrAddress findTokenAddressOrThrow bn_of_string META_TX_MIN_ALLOWED_SLIPPAGE).
Local Notation v2Price := (getV2PriceAsync validateSchema isNativeSymbolOrAddress findTokenAddressOrThrow bn_of_string META_TX_MIN_ALLOWED_SLIPPAGE).

(** How a handler fails: before the service, or with what the service throws. *)
Lemma handler_errors req s e s' :
  (v1Price req s = (Throw e, s') → checked parseV1 req e ∨ ∃ params e0, e = toApiError (metaAmountField params) toInternalError e0) ∧
  (v2Price req s = (Throw e, s') → checked parseV2 req e ∨ ∃ params e0, e = toApiError (metaAmountField params) toInternalError e0) ∧
  (v1Quote req s = (Throw e, s') → checked parseV1 req e ∨ ∃ params q e0,
     meta_getMetaTransactionV1QuoteAsync q s = (Throw e0, s') ∧ e = toApiError (metaAmountField params) id e0) ∧
  (v2Quote req s = (Throw e, s') → checked parseV2 req e ∨ ∃ params q e0,
     meta_getMetaTransactionV2QuoteAsync q s = (Throw e0, s') ∧ e = toApiError (metaAmountField params) id e0).
Proof.
  split_and!; intros H;
    [unfold getV1PriceAsync in H | unfold getV2PriceAsync in H | unfold getV1QuoteAsync in H | unfold getV2QuoteAsync in H];
    refuse H; destruct a; refuse H; refuse H; refuse H; right; apply answer_error in H as (e0 & He & ->); eauto 6.
Qed.

Lemma passed_on field e : isAPIError (toApiError field id e) = true ∨ toApiError field id e = e.
Proof.
  unfold toApiError. destruct (isAPIError e) eqn:E; [by left|]. destruct e; auto;
    destruct (lacksLiquidity _); auto; destruct (String.prefix _ _); auto.
Qed.

(** A price fails with an error of the API only; a quote with one, or with what
    the service has thrown. *)
Theorem meta_transaction_errors req s e s' :
  MetaCollaborators →
  (v1Price req s = (Throw e, s') ∨ v2Price req s = (Throw e, s') → isAPIError e = true) ∧
  (v1Quote req s = (Throw e, s') → isAPIError e = true ∨
     ∃ params, meta_getMetaTransactionV1QuoteAsync params s = (Throw e, s')) ∧
  (v2Quote req s = (Throw e, s') → isAPIError e = true ∨
     ∃ params, meta_getMetaTransactionV2QuoteAsync params s = (Throw e, s')).
Proof.
  intros HC. destruct (handler_errors req s e s') as (H1 & H2 & H3 & H4).
  assert (∀ e, checked parseV1 req e → isAPIError e = true) as C1
    by (intros e0; apply (checked_api _ _ _ HC); intros; by eapply v1_params_error).
  assert (∀ e, checked parseV2 req e → isAPIError e = true) as C2
    by (intros e0; apply (checked_api _ _ _ HC); intros; by eapply v2_params_error).
  split_and!.
  - intros [H|H]; [destruct (H1 H) as [C|(p & e0 & ->)] | destruct (H2 H) as [C|(p & e0 & ->)]]; auto; by apply api_error_of.
  - intros H. destruct (H3 H) as [C|(p & q & e0 & Hq & ->)]; [auto|].
    destruct (passed_on (metaAmountField p) e0) as [E|E]; [by left | right; exists q; by rewrite E].
  - intros H. destruct (H4 H) as [C|(p & q & e0 & Hq & ->)]; [auto|].
    destruct (passed_on (metaAmountField p) e0) as [E|E]; [by left | right; exists q; by rewrite E].
Qed.

(** A sale of the native token is refused before anything is quoted or
    published. *)
Theorem native_sells_refused req s :
  MetaCollaborators → validateSchema req = Ok tt →
  (∀ p, parseV1 req = Ok p → isNativeSymbolOrAddress (Some (mp_sellTokenAddress p)) = Ok true →
     v1Quote req s = (Throw EthSellNotSupportedError, s) ∧ v1Price req s = (Throw EthSellNotSupportedError, s)) ∧
  (∀ p, parseV2 req = Ok p → isNativeSymbolOrAddress (Some (mp_sellTokenAddress (v2_params p))) = Ok true →
     v2Quote req s = (Throw EthSellNotSupportedError, s) ∧ v2Price req s = (Throw EthSellNotSupportedError, s)).
Proof.
  intros HC Hs. split; intros p Hp Hn; unfold getV1QuoteAsync, getV1PriceAsync, getV2QuoteAsync, getV2PriceAsync,
    mbind, Async_bind, lift, refuseEthSell; rewrite Hs, Hp; cbv iota beta zeta; rewrite Hn.
  - destruct (mc_native HC (Some (mp_buyTokenAddress p))) as [b ->]. done.
  - destruct (mc_native HC (Some (mp_buyTokenAddress (v2_params p)))) as [b ->]. done.
Qed.
End Refusals.

(** ** Over the swap service *)

Section Composed.
Context {B : BigNumberLib} {Q P : Type} `{!IPath P} `{QU : !Quoter Q P RequestFillAdjustor}.
Context `{N : !Node} `{RD : !RevertDecoder} `{AE : !AffiliateEncoding}.

(** The collaborators of the swap service, as in [SwapService]. *)
Variable encodeBridgeSourceId : BridgeProtocol → string → string.
Variable abi_encode : list AbiType.t → list AbiValue → string.
Variable encode_call : ProxyCall → string.
Variable toUnitAmount : BN → number → BN.
Variable toPrecision : nat → BN → BN.
Variable isNativeToken : string → bool.
Variable weth_withdraw : BN → string.
Variable weth_deposit : string.
Variable cfg : Config.
Variable this : SwapService.t.
Variable env : Env.
Variable formatGas : ERC20BridgeSource → FillData → result number.

#[local] Instance quotedSwapService : ISwapService (ServiceState (Q := Q)) := {|
  swap_calculateSwapQuoteAsync :=
    calculateSwapQuoteAsync encodeBridgeSourceId abi_encode encode_call toUnitAmount toPrecision isNativeToken
      cfg this env formatGas;
  swap_getSwapQuoteForWrapAsync := getSwapQuoteForWrapAsync weth_withdraw weth_deposit cfg env;
  swap_getSwapQuoteForUnwrapAsync := getSwapQuoteForUnwrapAsync weth_withdraw weth_deposit cfg env;
|}.

Variable bn_toString : BN → string.
Variable stringifyFillData : IndexedEntry → string.
Variable kafkaProducer : bool.
Variable KAFKA_TOPIC_QUOTE_REPORT : option string.
Variable wrappedNativeToken : string.
Variable findTokenAddressOrThrow : option string → string + string.
Variable bn_of_string : string → BN.
Variable META_TX_MIN_ALLOWED_SLIPPAGE : number.
Variable moment : Moment.

Local Notation parseV2 := (parseV2RequestBody findTokenAddressOrThrow bn_of_string META_TX_MIN_ALLOWED_SLIPPAGE).
Local Notation v2Quoted := (_getMetaTransactionV2QuoteAsync bn_toString stringifyFillData kafkaProducer
  KAFKA_TOPIC_QUOTE_REPORT wrappedNativeToken moment).

Lemma parsed_v2 req p :
  parseV2 req = Ok p →
  mp_sellAmount (v2_params p) = bn_of_string <$> mr_sellAmount req ∧
  match mr_feeConfigs req, v2_feeConfigs p with
  | Some body, Some fees => fees_of bn_of_string body fees
  | None, None => True | _, _ => False end.
Proof.
  intros ([params version] & Hr & (fees & Hf & [= <-])%result_bind_ok)%result_bind_ok. split.
  - unfold parseRequest in Hr.
    do 5 (apply result_bind_ok in Hr as (? & _ & Hr)). by injection Hr as <- _.
  - cbn. destruct (mr_feeConfigs req) as [body|].
    + pose proof (fee_configs_read bn_of_string body) as H. rewrite Hf in H. by destruct fees.
    + by injection Hf as <-.
Qed.

(** The quote that is asked for a request that sells, and its transaction. *)
Lemma quoted_sale req p isETHBuy endpoint s r s' text sold :
  parseV2 req = Ok p → mr_sellAmount req = Some text → fin (bn_of_string text) sold → (0 <= sold)%Q →
  (∀ body, mr_feeConfigs req = Some body → nonneg_percentages bn_of_string body) →
  (∀ q g q', quoter_getGasPriceEstimationOrThrowAsync q = (Ok g, q') → nonneg g) →
  (∀ token q w q', quoter_getTokenAmountPerWei token q = (Ok w, q') → nonneg w) →
  v2Quoted (withTokens p (mp_takerAddress (v2_params p)) isETHBuy) endpoint s = (Ok r, s') →
  let params := v2SwapParams wrappedNativeToken (withTokens p (mp_takerAddress (v2_params p)) isETHBuy) endpoint in
  ∃ rfqt gasPrice amount quote transfers buyFees tx q q' A qs,
    quoter_getSwapQuoteAsync (gp_buyToken params) (mp_sellTokenAddress (v2_params p)) amount Sell
      (assetSwapperOpts isNativeToken cfg this formatGas params rfqt gasPrice) q = (Ok quote, q') ∧
    getSwapQuotePartialTransaction encodeBridgeSourceId abi_encode encode_call cfg env params quote buyFees transfers
      = Ok tx ∧ mqr_callData r = pt_data tx ∧
    transfers_of params (bn_of_string text) transfers ∧ fin amount A ∧ (0 < A)%Q ∧
    Forall2 (λ f x, fin (Quotes.sellTokenFeeAmount f) x) transfers qs ∧ Forall (λ x, 0 < x)%Q qs ∧
    (A + Qsum qs == sold)%Q ∧
    (∀ t, fin (totalTakerAmount (quote_bestCase quote)) t → fin (mqr_sellAmount r) (t + Qsum qs)).
Proof.
  intros Hp Ht Hs H0 Hn Ho Hr H. apply parsed_v2 in Hp as [Hsell Hfees]. rewrite Ht in Hsell.
  apply async_bind_ok in H as (quote & s1 & Hq & [-> ->]%async_ret_ok).
  apply reported_quote in Hq as [Hq _]. intros params.
  assert (proper_sale params) as Hsale.
  { split; [|done|exact Ho|exact Hr]. intros c Hc. change (v2_feeConfigs p = Some c) in Hc. rewrite Hc in Hfees.
    destruct (mr_feeConfigs req) as [body|]; [|done]. by eapply proper_parsed, Hn. }
  exact (meta_transaction_sell_conserved _ _ _ _ _ _ _ _ _ _ _ _ _ _ _ _ _ Hsale eq_refl Hsell Hs H0 Hq).
Qed.

(** C2. End to end, a request for a meta-transaction of the first version that sells,
    whose percentages are not negative and which is charged at a gas price and a
    rate that are not: what the quoter is asked to sell is positive and, with the
    fees that the body charges on chain, each of them positive, makes up the
    amount of the request; the call that the taker signs takes what the quote
    takes with these fees, in the token of the request, pays each of them to its
    recipient before anything else, and then fills the quote; and the amount
    that is answered is what the quote takes with the fees. *)
Theorem request_sell_conserved {QL : QuoterLaws Q P RequestFillAdjustor} req p isETHBuy endpoint s r s' text sold :
  parseV2 req = Ok p → v2_metaTransactionVersion p = V1 →
  mr_sellAmount req = Some text → fin (bn_of_string text) sold → (0 <= sold)%Q →
  (∀ body, mr_feeConfigs req = Some body → nonneg_percentages bn_of_string body) →
  (∀ q g q', quoter_getGasPriceEstimationOrThrowAsync q = (Ok g, q') → nonneg g) →
  (∀ token q w q', quoter_getTokenAmountPerWei token q = (Ok w, q') → nonneg w) →
  v2Quoted (withTokens p (mp_takerAddress (v2_params p)) isETHBuy) endpoint s = (Ok r, s') →
  let params := v2SwapParams wrappedNativeToken (withTokens p (mp_takerAddress (v2_params p)) isETHBuy) endpoint in
  ∃ rfqt gasPrice amount quote transfers c q q' A qs output amountIn minimum opts fills rest,
    quoter_getSwapQuoteAsync (gp_buyToken params) (mp_sellTokenAddress (v2_params p)) amount Sell
      (assetSwapperOpts isNativeToken cfg this formatGas params rfqt gasPrice) q = (Ok quote, q') ∧
    transfers_of params (bn_of_string text) transfers ∧ fin amount A ∧ (0 < A)%Q ∧
    Forall2 (λ f x, fin (Quotes.sellTokenFeeAmount f) x) transfers qs ∧ Forall (λ x, 0 < x)%Q qs ∧
    (A + Qsum qs == sold)%Q ∧
    mqr_callData r = affiliatedData (attributeCallData (FEE_RECIPIENT_ADDRESS cfg) (now env) (draws env) (encode_call c)
                                       (mp_affiliateAddress (v2_params p))) ∧
    c = transformERC20 (mp_sellTokenAddress (v2_params p)) output amountIn minimum
          (fee_transformations (deployment cfg) (mp_sellTokenAddress (v2_params p)) transfers ++ fills ++ rest) ∧
    createFillQuoteTransformations encodeBridgeSourceId abi_encode (deployment cfg) quote opts = Ok fills ∧
    shouldSellEntireBalance opts = false ∧
    (∀ t, fin (quote_sellAmount quote) t → fin amountIn (t + Qsum qs)) ∧
    (∀ t, fin (totalTakerAmount (quote_bestCase quote)) t → fin (mqr_sellAmount r) (t + Qsum qs)).
Proof.
  intros Hp Hv Ht Hs H0 Hn Ho Hr H params.
  destruct (quoted_sale _ _ isETHBuy endpoint _ _ _ _ _ Hp Ht Hs H0 Hn Ho Hr H)
    as (rfqt & gasPrice & amount & quote & transfers & buyFees & tx & q & q' & A & qs & Hq & Htx & Hd & Hof & HA & Hpos & Hqs & Hgt
        & Hsum & Hsell).
  assert (gp_metaTransactionVersion params = Some V1) as Hv1
    by (change (Some (v2_metaTransactionVersion p) = Some V1); by rewrite Hv).
  destruct (v1_transaction encodeBridgeSourceId abi_encode encode_call cfg env params quote buyFees transfers qs tx Hv1 eq_refl eq_refl Hqs Hgt Htx)
    as (c & (output & amountIn & minimum & fills & rest & Hc & Hf & Hin) & Hdata).
  pose proof (quote_asked _ _ _ _ _ _ _ _ Hq) as (_ & Htok & _). rewrite Htok in Hc.
  eexists rfqt, gasPrice, amount, quote, transfers, c, q, q', A, qs, output, amountIn, minimum, _, fills, rest.
  split_and!; [exact Hq | exact Hof | exact HA | exact Hpos | exact Hqs | exact Hgt | exact Hsum | by rewrite Hd | exact Hc | exact Hf
    | reflexivity | exact Hin | exact Hsell].
Qed.
End Composed.

(** ** Concrete requests *)
Module MetaExamples.
Import Concrete UtilsExamples TransformExamples ServiceExamples.

(** A reader of the few numbers that occur here. *)
Definition read (s : string) : BN :=
  if String.eqb s "112" then of_Z 112
  else if String.eqb s "0.125" then div (of_Z 1) (of_Z 8)
  else if String.eqb s "-0.125" then div (of_Z (-1)) (of_Z 8)
  else of_number ENaN.
Definition volume_fee (percentage : string) : FeeConfigBody :=
  {| fb_type := Some "volume"%string; fb_feeRecipient := Some "0x1"%string; fb_billingType := Some "on-chain"%string;
     fb_volumePercentage := Some percentage; fb_integratorSharePercentage := None |}.
Definition share_fee (percentage : string) : FeeConfigBody :=
  {| fb_type := Some "integrator_share"%string; fb_feeRecipient := Some "0x2"%string;
     fb_billingType := Some "on-chain"%string; fb_volumePercentage := None;
     fb_integratorSharePercentage := Some percentage |}.
Definition body (share : string) : FeeConfigsBody :=
  {| fb_integratorFee := Some (volume_fee "0.125"); fb_zeroExFee := Some (share_fee share); fb_gasFee := None |}.

(** 112 of [0xA] for [0xB], an eighth of which is the integrator's. *)
Definition ex_request (version : string) : MetaTransactionRequest :=
  {| mr_affiliateAddress := None;
     mr_fee := {| fq_feeRecipient := None; fq_sellTokenPercentageFee := None; fq_buyTokenPercentageFee := None;
                  fq_feeType := None |};
     mr_buyAmount := None; mr_buyToken := Some "0xB"%string; mr_integratorId := Some "id"%string;
     mr_quoteUniqueId := None; mr_sellAmount := Some "112"%string; mr_sellToken := Some "0xA"%string;
     mr_takerAddress := Some taker; mr_slippagePercentage := None; mr_priceImpactProtectionPercentage := None;
     mr_excludedSources := Some "Curve"%string; mr_includedSources := None;
     mr_metaTransactionVersion := Some version; mr_feeConfigs := Some (body "0.125") |}.
Definition ex_find (token : option string) : string + string :=
  match token with Some t => inl t | None => inr "no token"%string end.
Definition ex_slippage : number := round64 (1 # 1000).
Definition ex_parse (version : string) : result MetaTransactionV2QuoteRequestParams :=
  parseV2RequestBody ex_find read ex_slippage (ex_request version).
Definition ex_moment : Moment := {| reportedAt := UtilsExamples.now; createdAt := UtilsExamples.now + 5; drawnSalt := of_Z 7 |}.
#[export] Instance ex_swaps : ISwapService (ServiceState (Q := unit)) :=
  quotedSwapService encodeId TransformExamples.encode ex_encode_call divide_by_base (λ _ a, a) (λ _, false)
    (λ _, "0x"%string) "0x" ex_cfg ex_service ex_env ex_gas.
Definition ex_meta_state : MetaState := {| mt_swap := ex_state; mt_published := [] |}.
Definition params_of (version : string) : QuoteParams MetaTransactionV2QuoteRequestParams :=
  match ex_parse version with
  | Ok p => withTokens p taker false
  | Throw _ => {| mq_request := {| v2_params := {| mp_takerAddress := ""; mp_sellTokenAddress := "";
      mp_buyTokenAddress := ""; mp_sellAmount := None; mp_buyAmount := None; mp_slippagePercentage := n_Z 0;
      mp_excludedSources := []; mp_includedSources := None; mp_affiliateFee := noAffiliateFee;
      mp_affiliateAddress := None; mp_integratorId := None; mp_quoteUniqueId := None;
      mp_priceImpactProtectionPercentage := n_Z 1 |}; v2_metaTransactionVersion := V1; v2_feeConfigs := None |};
      mq_from := ""; mq_isETHBuy := false; mq_isETHSell := false |}
  end.
Notation ex_v2 version :=
  (_getMetaTransactionV2QuoteAsync (λ _, "0"%string) (λ _, "{}"%string) true (Some "reports"%string) "0xweth" ex_moment
    (params_of version) Quote ex_meta_state).
Notation ex_v2_quote version :=
  (getMetaTransactionV2QuoteAsync (λ _, "0"%string) (λ _, "{}"%string) true (Some "reports"%string) ChainId.Mainnet "0xweth"
    "0xproxy" (λ _, "0xhash"%string) ex_moment (params_of version) ex_meta_state).

(** A chain whose native token is [0xA], and a service that is down. *)
Definition ex_native (token : option string) : result bool := Ok (bool_decide (token = Some "0xA"%string)).
Definition ex_schema (req : MetaTransactionRequest) : result unit :=
  match mr_takerAddress req with
  | Some _ => Ok tt
  | None => Throw (invalid "takerAddress" ValidationErrorCodes.RequiredField "required")
  end.
#[export] Instance ex_down : IMetaTransactionService unit := {|
  meta_getMetaTransactionV1PriceAsync := λ _, lift (Throw (Error "down"));
  meta_getMetaTransactionV1QuoteAsync := λ _, lift (Throw (Error "down"));
  meta_getMetaTransactionV2PriceAsync := λ _, lift (Throw (Error "down"));
  meta_getMetaTransactionV2QuoteAsync := λ _, lift (Throw (Error "down"));
|}.
Lemma ex_collaborators : MetaCollaborators ex_schema ex_native.
Proof.
  split.
  - intros req e. unfold ex_schema. destruct (mr_takerAddress req); [done|]. intros [= <-]. auto with requests.
  - intros req. unfold ex_schema. destruct (mr_takerAddress req); [by eexists | done].
  - intros t. by eexists.
Qed.
Lemma ex_collaborators_none : MetaCollaborators ex_schema (λ _, Ok false).
Proof. destruct ex_collaborators as [H1 H2 _]. split; [exact H1 | exact H2 | by eexists]. Qed.

(** The one path that is quoted takes a hundred. *)
Lemma ex_quote_totals {F} maker taker amount side opts q quote q' :
  quoter_getSwapQuoteAsync (Q := unit) (P := Path.t) (F := F) maker taker amount side opts q = (Ok quote, q') →
  fin (totalTakerAmount (quote_bestCase quote)) 100 ∧ fin (quote_sellAmount quote) 100.
Proof.
  unfold quoter_getSwapQuoteAsync, ex_quoter. destruct (_ && _ && _ && _); [|done]. intros [= <- _]. split; fin_now.
Qed.
End MetaExamples.
Import Concrete UtilsExamples ServiceExamples MetaExamples.

(** A share that is negative is accepted: of 112, an eighth is 14, but the
    integrator is paid 16. *)
Example negative_share_overpays :
  match _parseFeeConfigs read (Some (body "-0.125")) with
  | Ok (Some cfg) =>
      match calculateFees {| o_feeConfigs := Some cfg; o_sellToken := "0xA"; o_sellTokenAmount := of_Z 112;
                             o_sellTokenAmountPerWei := None; o_gasPrice := of_Z 1; o_quoteGasEstimate := of_Z 0;
                             o_gasPerOnChainTransfer := of_Z 0 |} with
      | Ok (Some fees, charges) =>
          match integratorFee fees, onChainTransfers charges with
          | Some fee, [transfer] => isEqualTo (feeAmount (vf_base fee)) (of_Z 14) && isEqualTo (tr_feeAmount transfer) (of_Z 16)
          | _, _ => false
          end
      | _ => false
      end
  | _ => false
  end = true.
Proof. vm_compute. reflexivity. Qed.

Lemma answered_meta_transaction_witness :
  ∃ response s' quote, ex_v2_quote "v1" = (Ok response, s') ∧
    mt_callData (mtr_metaTransaction response) = rsp_data quote ∧ mt_signer (mtr_metaTransaction response) = taker.
Proof.
  assert (is_ok (ex_v2_quote "v1").1 = true) as K by (vm_compute; reflexivity).
  assert (mp_takerAddress (v2_params (mq_request (params_of "v1"))) = taker) as T by (vm_compute; reflexivity).
  destruct (ex_v2_quote "v1") as [[response|] s'] eqn:E; [|discriminate K].
  destruct (proj2 (answered_meta_transaction (λ _, "0"%string) (λ _, "{}"%string) true (Some "reports"%string)
    ChainId.Mainnet "0xweth" "0xproxy" "0xfee" (λ _, "0xhash"%string) (λ _, "0xhash"%string) ex_moment ltac:(cbn; lia))
    _ _ _ _ E) as (_ & quote & _ & ([Hs Hc _ _ _ _ _] & _) & _).
  exists response, s', quote. split_and!; [reflexivity | exact Hc | exact (eq_trans Hs T)].
Defined.

Lemma v2_meta_transactions_unsupported_witness : ∃ e, (ex_v2_quote "v2").1 = Throw e.
Proof.
  assert (v2_metaTransactionVersion (mq_request (params_of "v2")) = V2) as V by (vm_compute; reflexivity).
  destruct (ex_v2_quote "v2") as [r s'] eqn:E.
  destruct (v2_meta_transactions_unsupported _ _ _ _ _ _ _ _ _ _ _ _ _ V E) as (e & -> & _). by exists e.
Defined.

Lemma request_sell_conserved_witness :
  ∃ p r s' A qs c output amountIn minimum transfers rest, ex_parse "v1" = Ok p ∧
    _getMetaTransactionV2QuoteAsync (λ _, "0"%string) (λ _, "{}"%string) true (Some "reports"%string) "0xweth" ex_moment
      (withTokens p (mp_takerAddress (v2_params p)) false) Quote ex_meta_state = (Ok r, s') ∧
    (0 < A)%Q ∧ Forall (λ x, 0 < x)%Q qs ∧ (A + Qsum qs == 112)%Q ∧ (Qsum qs == 14)%Q ∧
    Forall2 (λ f x, fin (Quotes.sellTokenFeeAmount f) x) transfers qs ∧
    mqr_callData r = affiliatedData (attributeCallData NULL_ADDRESS UtilsExamples.now UtilsExamples.draws (ex_encode_call c)
      (mp_affiliateAddress (v2_params p))) ∧
    c = transformERC20 "0xA" output amountIn minimum
          (fee_transformations TransformExamples.deployment "0xA" transfers ++ rest) ∧
    fin amountIn 114.
Proof.
  assert (match ex_parse "v1" with
    | Ok p => bool_decide (v2_metaTransactionVersion p = V1) && String.eqb (mp_sellTokenAddress (v2_params p)) "0xA" &&
        match (_getMetaTransactionV2QuoteAsync (λ _, "0"%string) (λ _, "{}"%string) true (Some "reports"%string)
          "0xweth" ex_moment (withTokens p (mp_takerAddress (v2_params p)) false) Quote ex_meta_state).1 with
        | Ok r => isEqualTo (mqr_sellAmount r) (of_Z 114) | Throw _ => false end
    | Throw _ => false end = true) as K by (vm_compute; reflexivity).
  destruct (ex_parse "v1") as [p|] eqn:Ep; [|discriminate K]. exists p.
  apply andb_true_iff in K as [[Kv%bool_decide_eq_true Kt%String.eqb_eq]%andb_true_iff K].
  destruct (_getMetaTransactionV2QuoteAsync _ _ _ _ _ _ _ _ _) as [[r|] s'] eqn:E; [|discriminate K].
  apply isEqualTo_Z in K.
  destruct (request_sell_conserved TransformExamples.encodeId TransformExamples.encode ex_encode_call divide_by_base (λ _ a, a) (λ _, false)
    (λ _, "0x"%string) "0x" ex_cfg ex_service ex_env ex_gas (λ _, "0"%string) (λ _, "{}"%string) true (Some "reports"%string)
    "0xweth" ex_find read ex_slippage ex_moment (ex_request "v1") p false Quote ex_meta_state r s' "112" 112 Ep Kv eq_refl
    (fin_Z (B := QBigNumber) 112) ltac:(discriminate))
    as (rfqt & gasPrice & amount & quote & transfers & c & q & q' & A & qs & output & amountIn & minimum & _ & fills & rest &
        Hq & _ & _ & HA & Hf & Hqs & Hsum & Hd & Hc & _ & _ & Hin & Hsell).
  - intros b [= <-] fee [[= <-]|[= <-]].
    + split; [|done]. intros _. exists (1 # 8)%Q. split; [fin_now | discriminate].
    + split; [done|]. intros _. exists (1 # 8)%Q. split; [fin_now | discriminate].
  - intros q g q' [= <- _]. by apply (nonneg_Z (B := QBigNumber)).
  - intros token q w q' [= <- _]. by apply (nonneg_Z (B := QBigNumber)).
  - exact E.
  - destruct (ex_quote_totals _ _ _ _ _ _ _ _ Hq) as [Hbest Hsold]. rewrite Kt in Hc.
    pose proof (fin_inj _ _ _ (Hsell _ Hbest) K) as Htotal. change (inject_Z 114) with 114%Q in Htotal.
    exists r, s', A, qs, c, output, amountIn, minimum, transfers, (fills ++ rest). split_and!;
      [reflexivity | reflexivity | exact HA | exact Hqs | exact Hsum | lra | exact Hf | exact Hd | exact Hc |].
    exact (fin_eq _ _ _ (Hin _ Hsold) Htotal).
Defined.

Lemma meta_transaction_errors_witness :
  ∃ e s', getV2PriceAsync ex_schema (λ _, Ok false) ex_find read ex_slippage (ex_request "v1") () = (Throw e, s') ∧
    e = InternalServerError "down" ∧ isAPIError e = true.
Proof.
  assert (match (getV2PriceAsync ex_schema (λ _, Ok false) ex_find read ex_slippage (ex_request "v1") ()).1 with
          | Throw e => bool_decide (e = InternalServerError "down") | Ok _ => false end = true) as K by (vm_compute; reflexivity).
  destruct (getV2PriceAsync ex_schema (λ _, Ok false) ex_find read ex_slippage (ex_request "v1") ()) as [[a|e] s'] eqn:E;
    [discriminate K|]. apply bool_decide_eq_true in K. exists e, s'. split; [reflexivity|]. split; [exact K|].
  exact (proj1 (meta_transaction_errors _ _ _ _ _ _ _ _ _ ex_collaborators_none) (or_intror E)).
Defined.

Lemma native_sells_refused_witness :
  (getV1QuoteAsync ex_schema ex_native ex_find read ex_slippage (ex_request "v1") ()).1 = Throw EthSellNotSupportedError.
Proof.
  assert (match parseV1RequestParams ex_find read ex_slippage (ex_request "v1") with
          | Ok p => String.eqb (mp_sellTokenAddress p) "0xA" | Throw _ => false end = true) as K by (vm_compute; reflexivity).
  destruct (parseV1RequestParams ex_find read ex_slippage (ex_request "v1")) as [p|] eqn:E; [|discriminate K].
  apply String.eqb_eq in K.
  destruct (proj1 (native_sells_refused ex_schema ex_native ex_find read ex_slippage (ex_request "v1") () ex_collaborators eq_refl)
    p E) as [H _]; [rewrite K; reflexivity|]. by rewrite H.
Defined.


