(* ===== verification/HttpLayer.v ===== *)
(** * Around the handlers ([utils/schema_utils.ts], [errors.ts], [middleware])

    The schema check of a request and the errors it throws, the error handler of
    the servers with the codes of this API, and the normalisation of the
    addresses of a query.  The JSON schema validator, the recogniser of addresses
    and the base class of the error handler are libraries, and parameters. *)

From Stdlib Require Import Ascii.
From S2P Require Import Prelude JsLib JsNumber BigNum Types RequestParsing GasEstimation SwapHandlers MetaTransactions.

(** ** [schema_utils.ts] *)

(** An [ErrorObject] of the validator; [missingProperty] is the parameter of a
    [required] error. *)
Record ValidationErrorObject : Type := {
  keyword : string;
  dataPath : string;
  missingProperty : string;
  message : option string;
  description : option string;
}.

(** [s.replace('.', '')] removes the first dot. *)
Fixpoint replace_dot (s : string) : string :=
  match s with
  | EmptyString => EmptyString
  | String c s' => if Ascii.eqb c "."%char then s' else String c (replace_dot s')
  end.

Definition formatKeywords : list string :=
  ["type"; "anyOf"; "allOf"; "oneOf"; "additionalProperties"; "minProperties"; "maxProperties"; "pattern";
   "format"; "uniqueItems"; "items"; "dependencies"]%string.
Definition rangeKeywords : list string :=
  ["minimum"; "maximum"; "minLength"; "maxLength"; "minItems"; "maxItems"; "enum"; "const"]%string.

(** An item and, when it is not empty, its description. *)
Notation DescribedItem := (ValidationErrorItem * option string)%type (only parsing).

Definition schemaValidationErrorToValidationErrorItem (e : ValidationErrorObject) : result DescribedItem :=
  let described field code : result DescribedItem :=
    Ok (validation_item field code (default "" (message e)), if truthy (description e) then description e else None) in
  if includes formatKeywords (keyword e) then
    described (replace_dot (dataPath e)) ValidationErrorCodes.IncorrectFormat
  else if includes rangeKeywords (keyword e) then
    described (replace_dot (dataPath e)) ValidationErrorCodes.ValueOutOfRange
  else if String.eqb (keyword e) "required" then
    described (missingProperty e) ValidationErrorCodes.RequiredField
  else if String.eqb (keyword e) "not" then
    described (replace_dot (dataPath e)) ValidationErrorCodes.UnsupportedOption
  else Throw (Error ("Unknown schema validation error name: " +:+ keyword e)).

(** The keywords that have an item. *)
Definition knownKeyword (k : string) : bool :=
  includes (formatKeywords ++ rangeKeywords ++ ["required"; "not"]%string) k.

Section Schema.
Context {Instance_ Schema : Type}.
(** [schemaValidator.validate(instance, schema).errors]. *)
Variable validate : Instance_ → Schema → option (list ValidationErrorObject).

Definition validateSchema (instance : Instance_) (schema : Schema) : result unit :=
  match validate instance schema with
  | None | Some [] => Ok tt
  | Some errors =>
      validationErrorItems ← mapM schemaValidationErrorToValidationErrorItem errors;
      Throw (ValidationError (fst <$> validationErrorItems))
  end.
End Schema.

(** ** [errors.ts] *)

Module APIErrorCodes.
Inductive t : Type :=
| OrderSubmissionDisabled | UnableToSubmitOnBehalfOfTaker | ServiceDisabled | InsufficientFundsError
| EthSellNotSupported | GasEstimationFailed.
#[global] Instance t_eq_dec : EqDecision t.
Proof. solve_decision. Defined.

Definition values : list t :=
  [OrderSubmissionDisabled; UnableToSubmitOnBehalfOfTaker; ServiceDisabled; InsufficientFundsError;
   EthSellNotSupported; GasEstimationFailed].

Definition number_of (c : t) : Z :=
  match c with
  | OrderSubmissionDisabled => 102
  | UnableToSubmitOnBehalfOfTaker => 106
  | ServiceDisabled => 108
  | InsufficientFundsError => 109
  | EthSellNotSupported => 110
  | GasEstimationFailed => 111
  end.

(** The code of a number: [Object.values(APIErrorCodes).includes(number)]. *)
Definition of_number (z : Z) : option t := head (bfilter (λ c, number_of c =? z) values).
End APIErrorCodes.

Definition apiErrorCodesToReasons (c : APIErrorCodes.t) : string :=
  match c with
  | APIErrorCodes.OrderSubmissionDisabled => "Order submission disabled"
  | APIErrorCodes.UnableToSubmitOnBehalfOfTaker => "Unable to submit transaction on behalf of taker"
  | APIErrorCodes.ServiceDisabled => "Service disabled"
  | APIErrorCodes.InsufficientFundsError => "Insufficient funds for transaction"
  | APIErrorCodes.EthSellNotSupported => "ETH selling is not supported"
  | APIErrorCodes.GasEstimationFailed => "Gas estimation failed"
  end.

(** The code of the error classes of the file. *)
Definition codeOfClass (e : js_error) : option APIErrorCodes.t :=
  if bool_decide (e = InsufficientFundsError) then Some APIErrorCodes.InsufficientFundsError
  else if bool_decide (e = EthSellNotSupportedError) then Some APIErrorCodes.EthSellNotSupported
  else if bool_decide (e = GasEstimationError) then Some APIErrorCodes.GasEstimationFailed
  else if bool_decide (e = ServiceDisabledError) then Some APIErrorCodes.ServiceDisabled
  else None.

Record ExpiredOrderError : Type := {
  eo_currentThreshold : number;
  eo_details : option string;
  eo_expiry : number;
  eo_expiredForSeconds : number;
}.
(** [new ExpiredOrderError(order, currentThreshold, details)] at time [now]. *)
Definition newExpiredOrderError {B : BigNumberLib} (now expiry currentThreshold : number) (details : option string) :
  ExpiredOrderError :=
  {| eo_currentThreshold := currentThreshold; eo_details := details; eo_expiry := expiry;
     eo_expiredForSeconds := n_sub (n_div now (n_Z 1000)) expiry |}.

(** ** [middleware/error_handling.ts] *)

Record ErrorResponse {Body : Type} : Type := { statusCode : Z; errorBody : Body }.
Arguments ErrorResponse Body : clear implicits.

Section ErrorHandling.
(** The classes of [@0x/api-utils] and its error handler: their status and code,
    and what the handler answers; [coded code reason] is a body. *)
Context {Body : Type}.
Variable coded : Z → string → Body.
Variable baseStatusCode : js_error → Z.
Variable baseGeneralErrorCode : js_error → option Z.
Variable superGenerateError : js_error → ErrorResponse Body.

Definition statusCodeOf (e : js_error) : Z :=
  match codeOfClass e with Some _ => 400 | None => baseStatusCode e end.
Definition generalErrorCodeOf (e : js_error) : option Z :=
  match codeOfClass e with Some c => Some (APIErrorCodes.number_of c) | None => baseGeneralErrorCode e end.

Definition isAPIBadRequestError (e : js_error) : bool := statusCodeOf e =? 400.

Definition generateError (err : js_error) : ErrorResponse Body :=
  match (if isAPIError err && isAPIBadRequestError err
         then generalErrorCodeOf err ≫= APIErrorCodes.of_number else None) with
  | Some code =>
      {| statusCode := statusCodeOf err;
         errorBody := coded (APIErrorCodes.number_of code) (apiErrorCodesToReasons code) |}
  | None => superGenerateError err
  end.
End ErrorHandling.

(** ** [utils/address_utils.ts], [middleware/address_normalizer.ts] *)

Section Addresses.
Variable isAddress : string → bool.

(** The entries of [normalized]. *)
Definition normalizedEntries (obj : gmap string string) : gmap string string :=
  omap (λ value, if negb (String.eqb value "") && isAddress value then Some (toLowerCase value) else None) obj.

(** [{...obj, ...normalized}]. *)
Definition objectETHAddressNormalizer (obj : gmap string string) : gmap string string :=
  normalizedEntries obj ∪ obj.

(** A request keeps everything but its query. *)
Definition addressNormalizer {Request Next : Type} (query : Request → gmap string string)
  (set_query : gmap string string → Request → Request) (next : Request → Next) (req : Request) : Next :=
  next (set_query (objectETHAddressNormalizer (query req)) req).
End Addresses.

(** ** [handlers/root_handler.ts] *)
Definition rootHandler : string :=
  "This is the root of the 0x API. Visit https://0x.org/docs/api for documentation.".

(** ** The schema check *)

Lemma includes_spec (l : list string) (x : string) : includes l x = true ↔ x ∈ l.
Proof. unfold includes. by rewrite bool_decide_eq_true. Qed.

(** A known keyword has an item, with the field that the error is about. *)
Lemma item_of_error e :
  match schemaValidationErrorToValidationErrorItem e with
  | Ok (item, _) =>
      knownKeyword (keyword e) = true ∧
      field item = (if String.eqb (keyword e) "required" then missingProperty e else replace_dot (dataPath e)) ∧
      reason item = default ""%string (message e) ∧
      code item ∈ [ValidationErrorCodes.IncorrectFormat; ValidationErrorCodes.ValueOutOfRange;
                   ValidationErrorCodes.RequiredField; ValidationErrorCodes.UnsupportedOption]
  | Throw err =>
      knownKeyword (keyword e) = false ∧ err = Error ("Unknown schema validation error name: " +:+ keyword e)
  end.
Proof.
  unfold schemaValidationErrorToValidationErrorItem, knownKeyword.
  assert (∀ k, includes (formatKeywords ++ rangeKeywords ++ ["required"; "not"]%string) k =
    includes formatKeywords k || (includes rangeKeywords k || (String.eqb k "required" || String.eqb k "not"))) as Hk.
  { intros k. apply Bool.eq_iff_eq_true. rewrite !orb_true_iff, !includes_spec, !elem_of_app, !String.eqb_eq.
    rewrite elem_of_cons, list_elem_of_singleton. tauto. }
  rewrite Hk. destruct (includes formatKeywords (keyword e)) eqn:E1; cbn [orb].
  { assert (String.eqb (keyword e) "required" = false) as ->
      by (apply String.eqb_neq; intros E; by rewrite E in E1).
    split_and!; [done..|]. by left. }
  destruct (includes rangeKeywords (keyword e)) eqn:E2; cbn [orb].
  { assert (String.eqb (keyword e) "required" = false) as ->
      by (apply String.eqb_neq; intros E; by rewrite E in E2).
    split_and!; [done..|]. by right; left. }
  destruct (String.eqb (keyword e) "required") eqn:E3; cbn [orb].
  { split_and!; [done..|]. by right; right; left. }
  destruct (String.eqb (keyword e) "not") eqn:E4; [|done].
  split_and!; [done..|]. by do 3 right; left.
Qed.

Section SchemaLaws.
Context {Instance_ Schema : Type}.
Variable validate : Instance_ → Schema → option (list ValidationErrorObject).

Local Notation errorsOf i s := (default [] (validate i s)).

Lemma validateSchema_none i s : errorsOf i s = [] → validateSchema validate i s = Ok tt.
Proof. unfold validateSchema. by destruct (validate i s) as [[]|]. Qed.

Lemma validateSchema_some i s :
  errorsOf i s ≠ [] →
  validateSchema validate i s =
    items ← mapM schemaValidationErrorToValidationErrorItem (errorsOf i s);
    Throw (ValidationError (fst <$> items)).
Proof. unfold validateSchema. by destruct (validate i s) as [[]|]. Qed.

(** A request is refused exactly when the validator has an error.  It is then
    refused with an item for each of them, in their order, when all keywords are
    known, and with a plain error otherwise. *)
Lemma schema_refusals i s :
  (validateSchema validate i s = Ok tt ↔ errorsOf i s = []) ∧
  (errorsOf i s ≠ [] → forallb (λ e, knownKeyword (keyword e)) (errorsOf i s) = true →
   ∃ items, validateSchema validate i s = Throw (ValidationError items) ∧
     Forall2 (λ e item, ∃ d, schemaValidationErrorToValidationErrorItem e = Ok (item, d)) (errorsOf i s) items) ∧
  (forallb (λ e, knownKeyword (keyword e)) (errorsOf i s) = false →
   ∃ e, e ∈ errorsOf i s ∧ knownKeyword (keyword e) = false ∧
     validateSchema validate i s = Throw (Error ("Unknown schema validation error name: " +:+ keyword e))).
Proof.
  split_and!.
  - split; [|apply validateSchema_none]. intros E. apply dec_stable. intros Hne.
    rewrite validateSchema_some in E by done. by apply result_bind_ok in E as (x & _ & ?).
  - intros Hne Hk. rewrite validateSchema_some by done. assert (∃ items, mapM schemaValidationErrorToValidationErrorItem (errorsOf i s) = Ok items ∧
      Forall2 (λ e item, ∃ d, schemaValidationErrorToValidationErrorItem e = Ok (item, d)) (errorsOf i s) (fst <$> items))
      as (items & E & HF).
    { clear Hne. induction (errorsOf i s) as [|e l IH]; [exists []; by split|].
      cbn [forallb] in Hk. apply andb_true_iff in Hk as [Hk1 Hk2]. destruct (IH Hk2) as (items & E & HF).
      pose proof (item_of_error e) as He.
      destruct (schemaValidationErrorToValidationErrorItem e) as [[it d]|err] eqn:Ee; [|by destruct He; congruence].
      exists ((it, d) :: items). cbn [mapM]. rewrite Ee. cbn. rewrite E. split; [done|].
      constructor; [by exists d | done]. }
    exists (fst <$> items). by rewrite E.
  - intros Hk. assert (∃ e, e ∈ errorsOf i s ∧ knownKeyword (keyword e) = false ∧
      mapM schemaValidationErrorToValidationErrorItem (errorsOf i s) =
        Throw (Error ("Unknown schema validation error name: " +:+ keyword e))) as (e & He & Hf & E).
    { induction (errorsOf i s) as [|e l IH]; [done|]. cbn [forallb] in Hk. cbn [mapM].
      pose proof (item_of_error e) as He.
      destruct (schemaValidationErrorToValidationErrorItem e) as [[it d]|err] eqn:Ee; cbn [mbind result_bind].
      - destruct He as [Hke _]. rewrite Hke in Hk. destruct (IH Hk) as (e' & H1 & H2 & ->).
        exists e'. split_and!; [by right | done..].
      - destruct He as [Hke ->]. exists e. split_and!; [by left | done..]. }
    exists e. split_and!; [done..|]. rewrite validateSchema_some, E; [done|].
    intros E0. rewrite E0 in He. by apply elem_of_nil in He.
Qed.
End SchemaLaws.

(** With a validator that reports keywords with an item only, the schema check
    of the swap endpoints is as their parser expects it. *)
Lemma schema_collaborator {Schema : Type} (validate : SwapQuery → Schema → option (list ValidationErrorObject))
  (schema : Schema) isNativeSymbolOrAddress isNativeWrappedSymbolOrAddress :
  (∀ q, forallb (λ e, knownKeyword (keyword e)) (default [] (validate q schema)) = true) →
  (∀ t, ∃ b, isNativeSymbolOrAddress t = Ok b) →
  (∀ t, ∃ b, isNativeWrappedSymbolOrAddress t = Ok b) →
  RequestCollaborators (λ q, validateSchema validate q schema) isNativeSymbolOrAddress isNativeWrappedSymbolOrAddress.
Proof.
  intros Hk Hn Hw. split; [|done..]. intros q e E.
  destruct (schema_refusals validate q schema) as (H1 & H2 & _).
  destruct (decide (default [] (validate q schema) = [])) as [E0|Hne]; [by rewrite (proj2 H1 E0) in E|].
  destruct (H2 Hne (Hk q)) as (items & E2 & _). exists items. by rewrite E2 in E; injection E.
Qed.

(** ** The error handler *)

Lemma of_number_of c : APIErrorCodes.of_number (APIErrorCodes.number_of c) = Some c.
Proof. by destruct c. Qed.

Lemma class_is_api e c : codeOfClass e = Some c → isAPIError e = true.
Proof.
  unfold codeOfClass. intros H. by repeat (case_bool_decide; [subst e; reflexivity|]).
Qed.

Section ErrorLaws.
Context {Body : Type}.
Variable coded : Z → string → Body.
Variable baseStatusCode : js_error → Z.
Variable baseGeneralErrorCode : js_error → option Z.
Variable superGenerateError : js_error → ErrorResponse Body.

(** The codes of the library's classes are not those of this API. *)
Hypothesis base_codes_apart : ∀ e z,
  codeOfClass e = None → baseGeneralErrorCode e = Some z → APIErrorCodes.of_number z = None.

Lemma error_answers e :
  generateError coded baseStatusCode baseGeneralErrorCode superGenerateError e =
    match codeOfClass e with
    | Some c => {| statusCode := 400; errorBody := coded (APIErrorCodes.number_of c) (apiErrorCodesToReasons c) |}
    | None => superGenerateError e
    end.
Proof using base_codes_apart.
  unfold generateError, isAPIBadRequestError, statusCodeOf, generalErrorCodeOf.
  destruct (codeOfClass e) as [c|] eqn:E.
  - rewrite (class_is_api e c E). cbn [andb Z.eqb Pos.eqb mbind option_bind]. by rewrite of_number_of.
  - destruct (_ && _); [|done]. destruct (baseGeneralErrorCode e) as [z|] eqn:Ez; [|done].
    cbn [mbind option_bind]. by rewrite (base_codes_apart e z E Ez).
Qed.
End ErrorLaws.

(** Clients can tell the errors apart. *)
Lemma reasons_injective c1 c2 :
  APIErrorCodes.number_of c1 = APIErrorCodes.number_of c2 ∨ apiErrorCodesToReasons c1 = apiErrorCodesToReasons c2 → c1 = c2.
Proof. by destruct c1, c2; intros [|]. Qed.

(** ** The address normaliser *)

Lemma normalized_lookup isAddress obj (k : string) :
  objectETHAddressNormalizer isAddress obj !! k =
    (λ value, if negb (String.eqb value "") && isAddress value then toLowerCase value else value) <$> obj !! k.
Proof.
  unfold objectETHAddressNormalizer, normalizedEntries. rewrite lookup_union, lookup_omap.
  destruct (obj !! k) as [v|]; [|done]. simpl. by destruct (negb _ && _).
Qed.

(** The normaliser keeps the parameters, only rewrites addresses, and those to
    lower case; applied again it changes nothing. *)
Lemma normalizer_spec isAddress obj :
  dom (objectETHAddressNormalizer isAddress obj) = dom obj ∧
  (∀ k value, obj !! k = Some value → isAddress value = false →
     objectETHAddressNormalizer isAddress obj !! k = Some value) ∧
  (∀ k value, obj !! k = Some value → isAddress value = true →
     objectETHAddressNormalizer isAddress obj !! k = Some (toLowerCase value)) ∧
  objectETHAddressNormalizer isAddress (objectETHAddressNormalizer isAddress obj) = objectETHAddressNormalizer isAddress obj.
Proof.
  split_and!.
  - apply set_eq. intros k. by rewrite !elem_of_dom, normalized_lookup, fmap_is_Some.
  - intros k v Hk Ha. rewrite normalized_lookup, Hk. simpl. by rewrite Ha, andb_false_r.
  - intros k v Hk Ha. rewrite normalized_lookup, Hk. simpl. rewrite Ha, andb_true_r.
    by destruct (String.eqb_spec v "") as [->|].
  - apply map_eq. intros k. rewrite !normalized_lookup. destruct (obj !! k) as [v|]; [|done]. simpl. f_equal.
    destruct (negb (String.eqb v "") && isAddress v) eqn:E; [|by rewrite E].
    rewrite toLowerCase_idem. by case_match.
Qed.
