(* ===== verification/RpcSubprovider.v ===== *)
(** * The JSON RPC subprovider ([rpc_subprovider.ts])

    One request to the Ethereum node: the headers, the choice of a node, and the
    reading of its response.  The callback [end] and the rejection of the promise
    are the observable outcome of the handler.  Compression, [fetch] and the JSON
    parser are libraries, and arguments.  The metrics are left out. *)

From S2P Require Import Prelude JsLib JsNumber BigNum Types.

(** ** The constructor *)

Record RPCSubprovider : Type := {
  _rpcUrls : list string;
  _requestTimeoutMs : number;
  _shouldCompressRequest : bool;
}.
(** [Array.isArray(rpcUrl) ? rpcUrl : [rpcUrl]]. *)
Definition newRPCSubprovider (rpcUrl : string + list string) (requestTimeoutMs : number) (shouldCompressRequest : bool) :
  RPCSubprovider :=
  {| _rpcUrls := match rpcUrl with inl url => [url] | inr urls => urls end;
     _requestTimeoutMs := requestTimeoutMs; _shouldCompressRequest := shouldCompressRequest |}.

(** ** Requests *)

Definition headersOf (p : RPCSubprovider) : list (string * string) :=
  [("Accept", "application/json"); ("Accept-Encoding", "gzip, deflate"); ("Connection", "keep-alive");
   ("Content-Type", "application/json")]%string
  ++ (if _shouldCompressRequest p then [("Content-Encoding", "gzip")]%string else []).

(** [this._rpcUrls[Math.floor(Math.random() * this._rpcUrls.length)]]. *)
Definition pickUrl (random : number) (urls : list string) : option string :=
  match n_mul random (n_Z (Z.of_nat (length urls))) with
  | EFin q => if 0 <=? Qfloor q then urls !! Z.to_nat (Qfloor q) else None
  | _ => None
  end.

Section Requests.
(** A payload, its bytes, and a JSON value. *)
Context {Payload Bytes Json : Type}.

(** [{ error, result }] of a response; an [error] that is falsy is absent. *)
Record RpcData : Type := { data_error : option Json; data_result : Json }.

Inductive JsonRpcError : Type :=
| InternalError (cause : js_error + string)
| MethodNotFound
| ServerError (error : Json).

(** [end(error)] and [end(null, result)]. *)
Inductive EndCall : Type := EndError (e : JsonRpcError) | EndResult (r : Json).

Record Response : Type := {
  ok : bool;
  http_status : Z;
  (** [response.text()] can be rejected: the body is still being received. *)
  text : result string;
}.

(** What the handler calls and how its promise settles. *)
Record Outcome : Type := { ends : list EndCall; settled : result unit }.
Definition answered (e : EndCall) : Outcome := {| ends := [e]; settled := Ok tt |}.
Definition rejected (e : js_error) : Outcome := {| ends := []; settled := Throw e |}.

Variable stringify : Payload → Bytes.
Variable gzip : Bytes → result Bytes.
Variable fetch : option string → list (string * string) → Bytes → number → result Response.
(** The parsed text; [null] has no members. *)
Variable parseJson : string → result (option RpcData).

Definition _encodeRequestPayloadAsync (p : RPCSubprovider) (finalPayload : Payload) : result Bytes :=
  let body := stringify finalPayload in
  if _shouldCompressRequest p then gzip body else Ok body.

Definition gatewayTimeout : js_error :=
  Error "Gateway timeout. The request took too long to process. This can happen when querying logs over too wide a block range.".

(** A response that is not [ok]. *)
Definition answerOfStatus (statusCode : Z) (text : string) : EndCall :=
  if statusCode =? 405 then EndError MethodNotFound
  else if statusCode =? 504 then EndError (InternalError (inl gatewayTimeout))
  else EndError (InternalError (inr text)).

(** Only the parser is inside the [try]. *)
Definition answerOfBody (text : string) : Outcome :=
  match parseJson text with
  | Throw err => answered (EndError (InternalError (inl err)))
  | Ok None => rejected TypeError
  | Ok (Some data) =>
      match data_error data with
      | Some e => answered (EndError (ServerError e))
      | None => answered (EndResult (data_result data))
      end
  end.

Definition handleRequest (p : RPCSubprovider) (random : number) (finalPayload : Payload) : Outcome :=
  let headers := headersOf p in
  let rpcUrl := pickUrl random (_rpcUrls p) in
  match _encodeRequestPayloadAsync p finalPayload with
  | Throw e => rejected e
  | Ok body =>
      match fetch rpcUrl headers body (_requestTimeoutMs p) with
      | Throw err => answered (EndError (InternalError (inl err)))
      | Ok response =>
          match text response with
          | Throw e => rejected e
          | Ok text =>
              if negb (ok response) then answered (answerOfStatus (http_status response) text)
              else answerOfBody text
          end
      end
  end.

(** What the node sent is received: its status and its text. *)
Definition received (p : RPCSubprovider) (random : number) (payload : Payload) (response : Response) : Prop :=
  ∃ body, _encodeRequestPayloadAsync p payload = Ok body ∧
    fetch (pickUrl random (_rpcUrls p)) (headersOf p) body (_requestTimeoutMs p) = Ok response.

(** A request is answered at most once, with a result only when the node sent
    one without an error. *)
Lemma answers_are_the_nodes p random payload :
  let outcome := handleRequest p random payload in
  (length (ends outcome) ≤ 1)%nat ∧
  ∀ r, EndResult r ∈ ends outcome → ∃ response t data,
    received p random payload response ∧ ok response = true ∧ text response = Ok t ∧
    parseJson t = Ok (Some data) ∧ data_error data = None ∧ data_result data = r.
Proof.
  unfold handleRequest. destruct (_encodeRequestPayloadAsync p payload) as [body|e] eqn:Ee;
    [|split; [simpl; lia | by intros r ?%elem_of_nil]].
  destruct (fetch _ _ body _) as [response|err] eqn:Ef;
    [|split; [simpl; lia | intros r [=]%list_elem_of_singleton]].
  destruct (text response) as [t|e] eqn:Et; [|split; [simpl; lia | by intros r ?%elem_of_nil]].
  destruct (ok response) eqn:Eo; cbn [negb].
  - unfold answerOfBody. destruct (parseJson t) as [[data|]|err] eqn:Ej;
      [|split; [simpl; lia | by intros r ?%elem_of_nil] | split; [simpl; lia | intros r [=]%list_elem_of_singleton]].
    destruct (data_error data) eqn:Ed; (split; [simpl; lia|]); intros r [= ->]%list_elem_of_singleton.
    exists response, t, data. split_and!; try done. by exists body.
  - split; [simpl; lia|]. intros r [=]%list_elem_of_singleton. revert H0. unfold answerOfStatus.
    by destruct (_ =? 405); [|destruct (_ =? 504)].
Qed.

(** It is left without an answer exactly when its body could not be compressed,
    the text of the response not received, or this was [null]. *)
Lemma unanswered_requests p random payload :
  ends (handleRequest p random payload) = [] ↔
  is_ok (_encodeRequestPayloadAsync p payload) = false ∨
  ∃ response, received p random payload response ∧
    (is_ok (text response) = false ∨
     ok response = true ∧ ∃ t, text response = Ok t ∧ parseJson t = Ok None).
Proof.
  unfold handleRequest, received. destruct (_encodeRequestPayloadAsync p payload) as [body|e]; [|split; [by left | done]].
  split.
  - intros H. right. destruct (fetch _ _ body _) as [response|err] eqn:Ef; [|discriminate H]. exists response. split; [by exists body|].
    destruct (text response) as [t|e]; [right | by left]. destruct (ok response); [|done]. split; [done|].
    exists t. split; [done|]. revert H. cbn [negb]. unfold answerOfBody.
    destruct (parseJson t) as [[data|]|]; [by destruct (data_error data) | done | done].
  - intros [?|(response & (body' & [= <-] & ->) & [Ht|(-> & t & -> & Ej)])]; [done| |].
    + by destruct (text response).
    + cbn [negb]. unfold answerOfBody. by rewrite Ej.
Qed.
End Requests.
