(* ===== verification/SraHandlers.v ===== *)
(** * The order book endpoints ([handlers/sra_handlers.ts], [utils/hash_utils.ts])

    The handlers that read: the root, the fee recipients, the order
    configuration, an order by its hash, the orders of a query and the two sides
    of a pair; those that post are in [OrderFeed].  With them the log of expired
    orders and the rest of [orderUtils].  A query is its parameters in order;
    [Number] reads the numerals of a page.  The schema checks and the hash
    function are parameters. *)

From S2P Require Import Prelude JsLib JsNumber BigNum Types BridgeSources Orderbook HttpLayer.

Section Handlers.
Context {B : BigNumberLib} `{BS : !BigNumberStrings} `{AS : !Assertions} `{DB : !OrderDatabase}.
Variable CHAIN_ID : ChainId.
Variable FEE_RECIPIENT_ADDRESS : string.
Variable TAKER_FEE_UNIT_AMOUNT : BN.
Variable SRA_ORDER_EXPIRATION_BUFFER_SECONDS MAX_PER_PAGE : Z.
(** [Number(...)] of a numeral, and the checks of the two queries and of the
    order configuration. *)
Variable Number : string → Z.
Variable sraOrdersQuery sraOrderbookQuery : FieldFilters → result unit.
Variable sraOrderConfigPayload : result unit.

Definition SRA_DOCS_URL : string := "https://0x.org/docs/api#sra".
Definition rootMessage : string :=
  "This is the root of the Standard Relayer API. Visit " +:+ SRA_DOCS_URL +:+ " for details about this API.".

Definition pageOf (query : FieldFilters) : result (Z * Z) :=
  parsePaginationConfig MAX_PER_PAGE (Number <$> assoc_get query "page") (Number <$> assoc_get query "perPage").

Definition feeRecipients (query : FieldFilters) : result (PaginatedCollection string) :=
  '(page, perPage) ← pageOf query;
  let normalizedFeeRecipient := toLowerCase FEE_RECIPIENT_ADDRESS in
  Ok (paginate [normalizedFeeRecipient] page perPage).

Record OrderConfigResponse : Type := {
  oc_sender : string;
  oc_feeRecipient : string;
  oc_takerTokenFeeAmount : BN;
}.
(** [orderUtils.getOrderConfig] gives the same answer, whatever the order. *)
Definition getOrderConfig : OrderConfigResponse :=
  {| oc_sender := NULL_ADDRESS; oc_feeRecipient := toLowerCase FEE_RECIPIENT_ADDRESS;
     oc_takerTokenFeeAmount := TAKER_FEE_UNIT_AMOUNT |}.
Definition orderConfig : result OrderConfigResponse := _ ← sraOrderConfigPayload; Ok getOrderConfig.

Definition NotFoundError : js_error := ApiError "NotFoundError".
Definition getOrderByHashAsync (orderHash : string) : result SRAOrder :=
  orderIfExists ← getOrderByHashIfExistsAsync CHAIN_ID orderHash;
  match orderIfExists with None => Throw NotFoundError | Some o => Ok o end.

(** [new SignedOrderV4Entity(req.query)] keeps every parameter; the order book
    looks at those that are columns. *)
Definition ordersAsync (now : Z) (query : FieldFilters) : result (PaginatedCollection SRAOrder) :=
  _ ← sraOrdersQuery query;
  let additionalFilters :=
    {| isUnfillable := Some (match assoc_get query "unfillable" with Some s => String.eqb s "true" | None => false end);
       trader := match assoc_get query "trader" with Some t => if String.eqb t "" then None else Some t | None => None end |} in
  '(page, perPage) ← pageOf query;
  getOrdersAsync CHAIN_ID SRA_ORDER_EXPIRATION_BUFFER_SECONDS now page perPage query additionalFilters.

(** [(req.query.baseToken as string).toLowerCase()]. *)
Definition tokenParam (query : FieldFilters) (name : string) : result string :=
  match assoc_get query name with Some t => Ok (toLowerCase t) | None => Throw TypeError end.

Definition orderbookAsync (now : Z) (query : FieldFilters) : result OrderbookResponse :=
  _ ← sraOrderbookQuery query;
  '(page, perPage) ← pageOf query;
  baseToken ← tokenParam query "baseToken";
  quoteToken ← tokenParam query "quoteToken";
  getOrderBookAsync CHAIN_ID now page perPage baseToken quoteToken.
End Handlers.

(** ** The log of expired orders ([logErrorOnExpiredOrders]) *)

Section Expired.
Context {B : BigNumberLib}.

(** The error that is logged: the first order that the search finds. *)
Definition logErrorOnExpiredOrders (now : Z) (MAX_ORDER_EXPIRATION_BUFFER_SECONDS : Z) (expired : list SRAOrder)
    (details : option string) : option ExpiredOrderError :=
  let maxExpirationTimeSeconds := n_add (n_div (n_Z now) (n_Z 1000)) (n_Z MAX_ORDER_EXPIRATION_BUFFER_SECONDS) in
  (λ o, newExpiredOrderError (n_Z now) (toNumber (lo_expiry (order o))) (n_Z MAX_ORDER_EXPIRATION_BUFFER_SECONDS) details)
    <$> head (bfilter (λ o, ext_lt maxExpirationTimeSeconds (toNumber (lo_expiry (order o)))) expired).

(** A later deadline is a later number of seconds. *)
Lemma deadline_mono now m1 m2 :
  0 <= now <= 2 ^ 52 → 0 <= m1 <= m2 → m2 <= 2 ^ 52 →
  ∃ r1 r2, ext_eq (n_add (n_div (n_Z now) (n_Z 1000)) (n_Z m1)) (EFin r1) ∧
    ext_eq (n_add (n_div (n_Z now) (n_Z 1000)) (n_Z m2)) (EFin r2) ∧ (r1 <= r2)%Q.
Proof.
  intros Hn Hm H2. assert (∃ d, ext_eq (n_div (n_Z now) (n_Z 1000)) (EFin d) ∧ (0 <= d <= pow2 52)%Q) as (d & Hd & Hd2).
  { pose proof (n_Z_fin now ltac:(lia)) as En. pose proof (n_Z_fin 1000 ltac:(lia)) as Ek.
    destruct (n_Z now) as [| |p]; [by apply ext_eq_unfold in En..|].
    destruct (n_Z 1000) as [| |q]; [by apply ext_eq_unfold in Ek..|]. rewrite ext_eq_fin_iff in En, Ek.
    unfold n_div. assert (Qeq_bool q 0 = false) as -> by (apply not_true_iff_false; rewrite Qeq_bool_iff, Ek; vm_compute; discriminate).
    apply round64_le_pow2; [|lia]. rewrite En, Ek.
    assert (0 <= inject_Z now <= pow2 52)%Q as [H0 H1].
    { rewrite pow2_nonneg_Z by lia. change 0%Q with (inject_Z 0). rewrite <- !Zle_Qle. lia. }
    pose proof (pow2_pos 52). change (inject_Z 1000) with 1000%Q. split; [apply Qle_shift_div_l; lra | apply Qle_shift_div_r; lra]. }
  assert (∀ m, 0 <= m <= 2 ^ 52 → ∃ r, ext_eq (n_add (n_div (n_Z now) (n_Z 1000)) (n_Z m)) (round64 (d + inject_Z m)) ∧
    ext_eq (round64 (d + inject_Z m)) (EFin r)) as Hr.
  { intros m Hm'. destruct (round64_le_pow2 (d + inject_Z m) 53) as (r & Er & _); [|lia|].
    - assert (0 <= inject_Z m <= pow2 52)%Q.
      { rewrite pow2_nonneg_Z by lia. change 0%Q with (inject_Z 0). rewrite <- !Zle_Qle. lia. }
      assert (pow2 53 == 2 * pow2 52)%Q by (vm_compute; reflexivity). lra.
    - exists r. split; [|done]. apply n_add_fin; [done | apply n_Z_fin; lia]. }
  destruct (Hr m1 ltac:(lia)) as (r1 & E1 & F1), (Hr m2 ltac:(lia)) as (r2 & E2 & F2).
  exists r1, r2. split_and!; [by rewrite E1 | by rewrite E2 |].
  eapply round64_mono; [|exact F1|exact F2]. assert (inject_Z m1 <= inject_Z m2)%Q by (rewrite <- Zle_Qle; lia). lra.
Qed.

(** C21. The check looks for orders that expire later than the threshold, among
    those that expire sooner: however long ago an order expired, nothing is
    ever logged. *)
Lemma expired_orders_never_logged now buffer threshold orders details :
  0 <= now <= 2 ^ 52 → 0 <= buffer <= threshold → threshold <= 2 ^ 52 →
  logErrorOnExpiredOrders now threshold (groupByFreshness now orders buffer).2 details = None.
Proof.
  intros Hn Hb Ht. unfold logErrorOnExpiredOrders, groupByFreshness. rewrite group_acc. cbn [snd app].
  rewrite bfilter_none; [done|]. apply Forall_forall. intros o [_ Ho]%elem_of_bfilter.
  apply negb_true_iff in Ho. unfold isFreshOrder in Ho.
  destruct (deadline_mono now buffer threshold Hn Hb Ht) as (r1 & r2 & E1 & E2 & Hr).
  rewrite E1 in Ho. rewrite E2. destruct (toNumber _) as [|[]|e]; [done|done| by simpl in Ho |].
  apply not_true_iff_false. apply not_true_iff_false in Ho. intros H. apply Ho.
  unfold ext_lt in *. cbn [ext_le ext_eqb] in *. rewrite andb_true_iff, negb_true_iff, Qle_bool_iff in *.
  destruct H as [H1 H2]. apply not_true_iff_false in H2. rewrite Qeq_bool_iff in H2. split; [lra|].
  apply not_true_iff_false. rewrite Qeq_bool_iff. lra.
Qed.
End Expired.

(** ** The rest of [orderUtils] and [paginationUtils] *)

Definition paginateDBFilters (page perPage : Z) : Z * Z := ((page - 1) * perPage, perPage).

Section Unsigned.
Context {B : BigNumberLib} `{BS : !BigNumberStrings}.
(** The columns of an order that is not signed, as the filters of a query. *)
Definition serializeUnsignedLimitOrder (o : LimitOrder) : FieldFilters :=
  [("sender", lo_sender o); ("maker", lo_maker o); ("taker", lo_taker o);
   ("makerAmount", bn_toString (lo_makerAmount o)); ("takerAmount", bn_toString (lo_takerAmount o));
   ("makerToken", lo_makerToken o); ("takerToken", lo_takerToken o);
   ("takerTokenFeeAmount", bn_toString (lo_takerTokenFeeAmount o)); ("salt", bn_toString (lo_salt o));
   ("verifyingContract", lo_verifyingContract o); ("feeRecipient", lo_feeRecipient o);
   ("pool", lo_pool o); ("expiry", bn_toString (lo_expiry o))]%string.

(** A query for an order matches the row that the order is stored as. *)
Lemma unsigned_order_found o md :
  Forall (λ kv, column (serializeOrder {| order := o; metaData := md |}) kv.1 = Some kv.2) (serializeUnsignedLimitOrder o).
Proof. by repeat constructor. Qed.
End Unsigned.

(** ** [hash_utils.ts] *)

Section Hashes.
Context {B : BigNumberLib}.
(** The SHA-1 of a message, as a number below 2^160. *)
Variable sha1 : string → Z.
Definition MAX_SHA1 : BN := of_Z (2 ^ 160).

Definition isHashSmallEnough (message : string) (threshold : number) : bool :=
  if ext_le (n_Z 1) threshold then true
  else if ext_eqb threshold (n_Z 0) then false
  else lt (of_Z (sha1 message)) (times MAX_SHA1 (of_number threshold)).
End Hashes.

(** ** An instance *)
Import Concrete OrderbookExamples.

(** An order that expired an hour ago is not fresh, and is not logged. *)
Lemma expired_orders_never_logged_witness :
  isFreshOrder (B := QBigNumber) (ex_now + 3600000) ex_order 10 = false ∧
  0 <= ex_now + 3600000 <= 2 ^ 52 ∧ 0 <= 10 <= 180 ∧
  logErrorOnExpiredOrders (B := QBigNumber) (ex_now + 3600000) 180
    (groupByFreshness (ex_now + 3600000) [ex_order] 10).2 None = None.
Proof.
  split; [vm_compute; reflexivity|]. split; [by vm_compute|]. split; [by vm_compute|].
  apply (expired_orders_never_logged (ex_now + 3600000) 10 180 [ex_order] None); by vm_compute.
Defined.
