(* ===== verification/Config.v ===== *)
(** * The configuration ([config.ts])

    The reading of environment variables, and the constants that are read from
    them, in the order of the file.  A constant whose variable is malformed
    throws, and so does the module.  An environment is a map of strings; the
    file system, the JSON parser, the schema check of the integrators, and the
    recognisers of addresses, URLs and UUIDs are libraries, and parameters. *)

From Stdlib Require Import Ascii.
From S2P Require Import Prelude JsLib JsNumber BigNum Types Constants RequestParsing HttpLayer.

Module EnvVarType.
Inductive t : Type :=
| AddressList | StringList | Integer | Float | Port | KeepAliveTimeout | ChainId | ETHAddressHex | UnitAmount
| Url | UrlList | WhitelistAllTokens | Boolean | NonEmptyString | APIKeys | PrivateKeys | RfqMakerAssetOfferings
| RateLimitConfig | JsonStringList.
#[global] Instance t_eq_dec : EqDecision t.
Proof. solve_decision. Defined.
Definition index (ty : t) : Z :=
  match ty with
  | AddressList => 0 | StringList => 1 | Integer => 2 | Float => 3 | Port => 4 | KeepAliveTimeout => 5
  | ChainId => 6 | ETHAddressHex => 7 | UnitAmount => 8 | Url => 9 | UrlList => 10 | WhitelistAllTokens => 11
  | Boolean => 12 | NonEmptyString => 13 | APIKeys => 14 | PrivateKeys => 15 | RfqMakerAssetOfferings => 16
  | RateLimitConfig => 17 | JsonStringList => 18
  end.
End EnvVarType.

(** [s.trim()] is empty. *)
Fixpoint is_blank (s : string) : bool :=
  match s with EmptyString => true | String c s' => is_space c && is_blank s' end.

(** [parseInt(value, 10)] as a number. *)
Definition n_parseInt (value : string) : number :=
  match parseInt value with Some z => n_Z z | None => ENaN end.

(** A value of a constant, which the code types [any]. *)
Inductive EnvValue {B : BigNumberLib} {Json : Type} : Type :=
| VUndefined
| VNumber (x : number)
| VUnit (a : BN)
| VText (s : string)
| VTexts (l : list string)
| VBool (b : bool)
| VJson (j : Json).
Arguments EnvValue {B} Json.

Section Config.
Context {B : BigNumberLib} {Json : Type}.
Local Notation Value := (EnvValue Json).

Variable isETHAddressHex isUri validateUUID : string → bool.
(** The error of a failed [assert] about a variable. *)
Variable assertionError : string → string → js_error.
Variable parseJson : string → result Json.

Definition check_named (ok : string → bool) (name value : string) : result unit :=
  throw_unless (ok value) (assertionError name value).
(** [`${name}[${i}]`]. *)
Definition nameAt (name : string) (i : nat) : string := name +:+ "[" +:+ string_of_Z (Z.of_nat i) +:+ "]".
Definition check_all (ok : string → bool) (name : string) (values : list string) : result unit :=
  (λ _, tt) <$> mapM (λ '(i, v), check_named ok (nameAt name i) v) (imap pair values).

Definition comma : ascii := ",".

Definition assertEnvVarType (name : string) (value : option string) (expectedType : EnvVarType.t) : result Value :=
  match value with
  | None => Throw (Error (name +:+ " is not defined"))
  | Some value =>
      match expectedType with
      | EnvVarType.Port =>
          let x := n_parseInt value in
          let isWithinRange := ext_le (n_Z 0) x && ext_le x (n_Z 65535) in
          if ext_is_nan x || negb isWithinRange
          then Throw (Error (name +:+ " must be between 0 to 65535, found " +:+ value +:+ "."))
          else Ok (VNumber x)
      | EnvVarType.ChainId | EnvVarType.KeepAliveTimeout | EnvVarType.Integer =>
          let x := n_parseInt value in
          if ext_is_nan x then Throw (Error (name +:+ " must be a valid integer, found " +:+ value +:+ ".")) else Ok (VNumber x)
      | EnvVarType.Float =>
          let x := parseFloat value in
          if ext_is_nan x then Throw (Error (name +:+ " must be a valid float, found " +:+ value)) else Ok (VNumber x)
      | EnvVarType.ETHAddressHex => _ ← check_named isETHAddressHex name value; Ok (VText value)
      | EnvVarType.Url => _ ← check_named isUri name value; Ok (VText value)
      | EnvVarType.UrlList =>
          let urlList := split_on comma value in
          _ ← check_all isUri name urlList; Ok (VTexts urlList)
      | EnvVarType.Boolean => Ok (VBool (String.eqb value "true"))
      | EnvVarType.UnitAmount =>
          let a := of_number (parseFloat value) in
          if ext_is_nan (val a) || isNegative a then Throw (Error (name +:+ " must be valid number greater than 0.")) else Ok (VUnit a)
      | EnvVarType.AddressList =>
          let addressList := toLowerCase <$> split_on comma value in
          _ ← check_all isETHAddressHex name addressList; Ok (VTexts addressList)
      | EnvVarType.StringList => Ok (VTexts (split_on comma value))
      | EnvVarType.WhitelistAllTokens => Ok (VText "*")
      | EnvVarType.NonEmptyString =>
          if String.eqb value "" then Throw (Error (name +:+ " must be supplied")) else Ok (VText value)
      | EnvVarType.APIKeys =>
          let apiKeys := bfilter (λ key, negb (is_blank key)) (split_on comma value) in
          match head (bfilter (λ key, negb (validateUUID key)) apiKeys) with
          | Some apiKey => Throw (Error ("API Key " +:+ apiKey +:+ " isn't UUID compliant"))
          | None => Ok (VTexts apiKeys)
          end
      | EnvVarType.JsonStringList => VJson <$> parseJson value
      | EnvVarType.PrivateKeys | EnvVarType.RfqMakerAssetOfferings | EnvVarType.RateLimitConfig =>
          Throw (Error ("Unrecognised EnvVarType: " +:+ string_of_Z (EnvVarType.index expectedType)
                        +:+ " encountered for variable " +:+ name +:+ "."))
      end
  end.
End Config.

(** ** The environment *)
Section Environment.
Context {B : BigNumberLib} {Json : Type}.
Variable isETHAddressHex isUri validateUUID : string → bool.
Variable assertionError : string → string → js_error.
Variable parseJson : string → result Json.
Variable env : string → option string.
(** The content of a file that exists. *)
Variable fs : string → option string.
(** [`${e}`], and the errors of a value against [integratorsAclSchema]. *)
Variable string_of_error : js_error → string.
Variable integratorErrors : EnvValue Json → option (list ValidationErrorObject).
(** A value read as integrators, and a JSON value as strings: anything but an array of
    strings has no [toLowerCase] to map. *)
Variable integratorsOf : EnvValue Json → list Integrator.
Variable stringsOf : Json → result (list string).
(** The addresses of the tokens of a chain, by its number. *)
Variable tokenAddresses : number → list string.
Local Notation Value := (EnvValue Json).
Local Notation assertEnv := (assertEnvVarType isETHAddressHex isUri validateUUID assertionError parseJson).

(** [_.isEmpty(process.env.NAME)]. *)
Definition isEmpty (name : string) : bool := negb (truthy (env name)).

(** [_.isEmpty(process.env.NAME) ? fallback : assertEnvVarType(...)]. *)
Definition envOr (name : string) (ty : EnvVarType.t) (fallback : Value) : result Value :=
  if isEmpty name then Ok fallback else assertEnv name (env name) ty.

Definition resolveEnvVar (envVar : string) (envVarType : EnvVarType.t) (fallback : Value) : result Value :=
  match env envVar with
  | None => Ok fallback
  | Some raw =>
      if String.eqb raw "" then Ok fallback
      else match fs raw with
           | Some content => VJson <$> parseJson content
           | None => assertEnv envVar (env envVar) envVarType
           end
  end.

Definition INTEGRATORS_ACL : result (list Integrator) :=
  match (integrators ← resolveEnvVar "INTEGRATORS_ACL" EnvVarType.JsonStringList (VTexts []);
         _ ← validateSchema (λ v (_ : unit), integratorErrors v) integrators tt;
         Ok (integratorsOf integrators)) with
  | Ok integrators => Ok integrators
  | Throw e => Throw (Error ("INTEGRATORS_ACL was defined but is not valid JSON per the schema: " +:+ string_of_error e))
  end.

Definition LOG_LEVEL : result Value := envOr "LOG_LEVEL" EnvVarType.NonEmptyString (VText "info").
Definition HTTP_PORT : result Value := envOr "HTTP_PORT" EnvVarType.Port (VNumber (n_Z 3000)).
Definition HEALTHCHECK_HTTP_PORT : result Value :=
  port ← HTTP_PORT; envOr "HEALTHCHECK_HTTP_PORT" EnvVarType.Port port.
Definition HTTP_KEEP_ALIVE_TIMEOUT : result Value :=
  envOr "HTTP_KEEP_ALIVE_TIMEOUT" EnvVarType.KeepAliveTimeout (VNumber (n_Z (76 * 1000))).
Definition HTTP_HEADERS_TIMEOUT : result Value :=
  envOr "HTTP_HEADERS_TIMEOUT" EnvVarType.KeepAliveTimeout (VNumber (n_Z (77 * 1000))).
(** [ChainId.Mainnet] is 1. *)
Definition CHAIN_ID : result Value := envOr "CHAIN_ID" EnvVarType.ChainId (VNumber (n_Z 1)).
Definition WHITELISTED_TOKENS : result Value :=
  chainId ← CHAIN_ID;
  envOr "WHITELIST_ALL_TOKENS" EnvVarType.WhitelistAllTokens
    (VTexts (match chainId with VNumber c => tokenAddresses c | _ => [] end)).
Definition DB_ORDERS_UPDATE_CHUNK_SIZE : Z := 300.
Definition ETHEREUM_RPC_URL : result Value := assertEnv "ETHEREUM_RPC_URL" (env "ETHEREUM_RPC_URL") EnvVarType.UrlList.
Definition RPC_REQUEST_TIMEOUT : result Value := envOr "RPC_REQUEST_TIMEOUT" EnvVarType.Integer (VNumber (n_Z 5000)).
Definition ENABLE_RPC_REQUEST_COMPRESSION : result Value :=
  envOr "ENABLE_RPC_REQUEST_COMPRESSION" EnvVarType.Boolean (VBool false).
Definition SLIPPAGE_MODEL_S3_BUCKET_NAME : result Value :=
  envOr "SLIPPAGE_MODEL_S3_BUCKET_NAME" EnvVarType.NonEmptyString VUndefined.
Definition SLIPPAGE_MODEL_S3_API_VERSION : string := "2006-03-01".
Definition SLIPPAGE_MODEL_S3_FILE_VALID_INTERVAL_MS : Z := 60 * 60 * 1000 * 2.
Definition SLIPPAGE_MODEL_REFRESH_INTERVAL_MS : Z := 60 * 1000 * 1.
Definition META_TX_MIN_ALLOWED_SLIPPAGE : result Value :=
  envOr "META_TX_MIN_ALLOWED_SLIPPAGE" EnvVarType.Float (VNumber (round64 (1 # 1000))).
Definition ORDER_WATCHER_URL : result Value := envOr "ORDER_WATCHER_URL" EnvVarType.Url (VText "http://127.0.0.1:8080").
Definition ORDER_WATCHER_KAFKA_TOPIC : result Value :=
  envOr "ORDER_WATCHER_KAFKA_TOPIC" EnvVarType.NonEmptyString (VText "order_watcher_events").
Definition KAFKA_BROKERS : result Value := envOr "KAFKA_BROKERS" EnvVarType.StringList VUndefined.
Definition KAFKA_CONSUMER_GROUP_ID : result Value :=
  envOr "KAFKA_CONSUMER_GROUP_ID" EnvVarType.NonEmptyString VUndefined.
Definition WEBSOCKET_ORDER_UPDATES_PATH : result Value :=
  envOr "WEBSOCKET_ORDER_UPDATES_PATH" EnvVarType.NonEmptyString (VText "/orderbook/v1").
Definition NULL_ADDRESS : string := "0x0000000000000000000000000000000000000000".
Definition FEE_RECIPIENT_ADDRESS : result Value :=
  envOr "FEE_RECIPIENT_ADDRESS" EnvVarType.ETHAddressHex (VText NULL_ADDRESS).
Definition ZERO_EX_FEE_RECIPIENT_ADDRESS : result Value :=
  resolveEnvVar "ZERO_EX_FEE_RECIPIENT_ADDRESS" EnvVarType.ETHAddressHex (VText NULL_ADDRESS).

(** [new Set(list.map((addr) => addr.toLowerCase()))]. *)
Definition lowerSet (v : Value) : result (gset string) :=
  list_to_set <$> (fmap (M := list) toLowerCase <$>
    match v with VJson j => stringsOf j | VTexts l => Ok l | _ => Throw TypeError end).
Definition ZERO_EX_FEE_TOKENS : result (gset string) :=
  resolveEnvVar "ZERO_EX_FEE_TOKENS" EnvVarType.JsonStringList (VTexts []) ≫= lowerSet.
Definition TAKER_FEE_UNIT_AMOUNT : result Value := envOr "TAKER_FEE_UNIT_AMOUNT" EnvVarType.UnitAmount (VUnit (of_Z 0)).
Definition MAX_ORDER_EXPIRATION_BUFFER_SECONDS : result Value :=
  envOr "MAX_ORDER_EXPIRATION_BUFFER_SECONDS" EnvVarType.KeepAliveTimeout (VNumber (n_Z (3 * 60))).
Definition SRA_ORDER_EXPIRATION_BUFFER_SECONDS : result Value :=
  envOr "SRA_ORDER_EXPIRATION_BUFFER_SECONDS" EnvVarType.KeepAliveTimeout (VNumber (n_Z 10)).
Definition POSTGRES_URI : result Value := envOr "POSTGRES_URI" EnvVarType.Url VUndefined.
Definition POSTGRES_READ_REPLICA_URIS : result Value := envOr "POSTGRES_READ_REPLICA_URIS" EnvVarType.UrlList VUndefined.
Definition LOGGER_INCLUDE_TIMESTAMP : result Value := envOr "LOGGER_INCLUDE_TIMESTAMP" EnvVarType.Boolean (VBool true).
Definition RFQT_REGISTRY_PASSWORDS : result Value :=
  resolveEnvVar "RFQT_REGISTRY_PASSWORDS" EnvVarType.JsonStringList (VTexts []).
Definition RFQT_INTEGRATORS : result (list Integrator) := bfilter int_rfqt <$> INTEGRATORS_ACL.
Definition RFQT_INTEGRATOR_IDS : result (list string) :=
  (λ l, int_integratorId <$> bfilter int_rfqt l) <$> INTEGRATORS_ACL.
Definition RFQ_API_URL : result Value := resolveEnvVar "RFQ_API_URL" EnvVarType.NonEmptyString (VText "").
Definition ENABLE_RFQT_TX_ORIGIN_BLACKLIST : bool := negb (isEmpty "RFQT_TX_ORIGIN_BLACKLIST").
Definition RFQT_TX_ORIGIN_BLACKLIST : result (gset string) :=
  resolveEnvVar "RFQT_TX_ORIGIN_BLACKLIST" EnvVarType.JsonStringList (VTexts []) ≫= lowerSet.
Definition ALT_RFQ_MM_ENDPOINT : result Value := envOr "ALT_RFQ_MM_ENDPOINT" EnvVarType.Url VUndefined.
Definition ALT_RFQ_MM_API_KEY : result Value := envOr "ALT_RFQ_MM_API_KEY" EnvVarType.NonEmptyString VUndefined.
Definition RFQT_REQUEST_MAX_RESPONSE_MS : result Value :=
  envOr "RFQT_REQUEST_MAX_RESPONSE_MS" EnvVarType.Integer (VNumber (n_Z 600)).
(** Only an absent variable means no keys. *)
Definition SRA_PERSISTENT_ORDER_POSTING_WHITELISTED_API_KEYS : result Value :=
  match env "SRA_PERSISTENT_ORDER_POSTING_WHITELISTED_API_KEYS" with
  | None => Ok (VTexts [])
  | value => assertEnv "SRA_PERSISTENT_ORDER_POSTING_WHITELISTED_API_KEYS" value EnvVarType.APIKeys
  end.
Definition ENABLE_PROMETHEUS_METRICS : result Value := envOr "ENABLE_PROMETHEUS_METRICS" EnvVarType.Boolean (VBool false).
Definition PROMETHEUS_PORT : result Value := envOr "PROMETHEUS_PORT" EnvVarType.Port (VNumber (n_Z 8080)).
Definition ZERO_EX_GAS_API_URL : result Value :=
  envOr "ZERO_EX_GAS_API_URL" EnvVarType.Url (VText "https://gas.api.0x.org/source/median").
Definition KAFKA_TOPIC_QUOTE_REPORT : result Value := envOr "KAFKA_TOPIC_QUOTE_REPORT" EnvVarType.NonEmptyString VUndefined.
Definition SENTRY_ENABLED : result Value := envOr "SENTRY_ENABLED" EnvVarType.Boolean (VBool false).
Definition SENTRY_ENVIRONMENT : result Value := envOr "SENTRY_ENVIRONMENT" EnvVarType.NonEmptyString (VText "development").
Definition SENTRY_DSN : result Value := envOr "SENTRY_DSN" EnvVarType.Url VUndefined.
Definition SENTRY_SAMPLE_RATE : result Value := envOr "SENTRY_SAMPLE_RATE" EnvVarType.Float (VNumber (round64 (1 # 10))).
Definition SENTRY_TRACES_SAMPLE_RATE : result Value :=
  envOr "SENTRY_TRACES_SAMPLE_RATE" EnvVarType.Float (VNumber (round64 (1 # 10))).
Definition GASLESS_SWAP_FEE_ENABLED : result Value := envOr "GASLESS_SWAP_FEE_ENABLED" EnvVarType.Boolean (VBool false).
Definition MAX_PER_PAGE : Z := 1000.
Definition PROTOCOL_FEE_MULTIPLIER : BN := of_Z 0.
Definition SAMPLE_DISTRIBUTION_BASE : result Value := envOr "SAMPLE_DISTRIBUTION_BASE" EnvVarType.Float (VNumber (n_Z 1)).

(** What the module reads, in its order; a name stands for its constant. *)
Definition constants : list (string * result Value) :=
  [("LOG_LEVEL", LOG_LEVEL); ("HTTP_PORT", HTTP_PORT); ("HEALTHCHECK_HTTP_PORT", HEALTHCHECK_HTTP_PORT);
   ("HTTP_KEEP_ALIVE_TIMEOUT", HTTP_KEEP_ALIVE_TIMEOUT); ("HTTP_HEADERS_TIMEOUT", HTTP_HEADERS_TIMEOUT);
   ("CHAIN_ID", CHAIN_ID); ("WHITELISTED_TOKENS", WHITELISTED_TOKENS); ("ETHEREUM_RPC_URL", ETHEREUM_RPC_URL);
   ("RPC_REQUEST_TIMEOUT", RPC_REQUEST_TIMEOUT); ("ENABLE_RPC_REQUEST_COMPRESSION", ENABLE_RPC_REQUEST_COMPRESSION);
   ("SLIPPAGE_MODEL_S3_BUCKET_NAME", SLIPPAGE_MODEL_S3_BUCKET_NAME);
   ("META_TX_MIN_ALLOWED_SLIPPAGE", META_TX_MIN_ALLOWED_SLIPPAGE); ("ORDER_WATCHER_URL", ORDER_WATCHER_URL);
   ("ORDER_WATCHER_KAFKA_TOPIC", ORDER_WATCHER_KAFKA_TOPIC); ("KAFKA_BROKERS", KAFKA_BROKERS);
   ("KAFKA_CONSUMER_GROUP_ID", KAFKA_CONSUMER_GROUP_ID); ("WEBSOCKET_ORDER_UPDATES_PATH", WEBSOCKET_ORDER_UPDATES_PATH);
   ("FEE_RECIPIENT_ADDRESS", FEE_RECIPIENT_ADDRESS); ("ZERO_EX_FEE_RECIPIENT_ADDRESS", ZERO_EX_FEE_RECIPIENT_ADDRESS);
   ("TAKER_FEE_UNIT_AMOUNT", TAKER_FEE_UNIT_AMOUNT);
   ("MAX_ORDER_EXPIRATION_BUFFER_SECONDS", MAX_ORDER_EXPIRATION_BUFFER_SECONDS);
   ("SRA_ORDER_EXPIRATION_BUFFER_SECONDS", SRA_ORDER_EXPIRATION_BUFFER_SECONDS); ("POSTGRES_URI", POSTGRES_URI);
   ("POSTGRES_READ_REPLICA_URIS", POSTGRES_READ_REPLICA_URIS); ("LOGGER_INCLUDE_TIMESTAMP", LOGGER_INCLUDE_TIMESTAMP);
   ("RFQT_REGISTRY_PASSWORDS", RFQT_REGISTRY_PASSWORDS); ("RFQ_API_URL", RFQ_API_URL);
   ("ALT_RFQ_MM_ENDPOINT", ALT_RFQ_MM_ENDPOINT); ("ALT_RFQ_MM_API_KEY", ALT_RFQ_MM_API_KEY);
   ("RFQT_REQUEST_MAX_RESPONSE_MS", RFQT_REQUEST_MAX_RESPONSE_MS);
   ("SRA_PERSISTENT_ORDER_POSTING_WHITELISTED_API_KEYS", SRA_PERSISTENT_ORDER_POSTING_WHITELISTED_API_KEYS);
   ("ENABLE_PROMETHEUS_METRICS", ENABLE_PROMETHEUS_METRICS); ("PROMETHEUS_PORT", PROMETHEUS_PORT);
   ("ZERO_EX_GAS_API_URL", ZERO_EX_GAS_API_URL); ("KAFKA_TOPIC_QUOTE_REPORT", KAFKA_TOPIC_QUOTE_REPORT);
   ("SENTRY_ENABLED", SENTRY_ENABLED); ("SENTRY_ENVIRONMENT", SENTRY_ENVIRONMENT); ("SENTRY_DSN", SENTRY_DSN);
   ("SENTRY_SAMPLE_RATE", SENTRY_SAMPLE_RATE); ("SENTRY_TRACES_SAMPLE_RATE", SENTRY_TRACES_SAMPLE_RATE);
   ("GASLESS_SWAP_FEE_ENABLED", GASLESS_SWAP_FEE_ENABLED); ("SAMPLE_DISTRIBUTION_BASE", SAMPLE_DISTRIBUTION_BASE)]%string.

(** [defaultHttpServiceConfig]. *)
Record HttpServiceConfig : Type := {
  httpPort : Value;
  healthcheckHttpPort : Value;
  healthcheckPath : string;
  ethereumRpcUrl : Value;
  httpKeepAliveTimeout : Value;
  httpHeadersTimeout : Value;
  enablePrometheusMetrics : Value;
  prometheusPort : Value;
  prometheusPath : string;
  kafkaBrokers : Value;
  kafkaConsumerGroupId : Value;
  rpcRequestTimeout : Value;
  shouldCompressRequest : Value;
}.

Definition defaultHttpServiceConfig : result HttpServiceConfig :=
  httpPort ← HTTP_PORT;
  healthcheckHttpPort ← HEALTHCHECK_HTTP_PORT;
  httpKeepAliveTimeout ← HTTP_KEEP_ALIVE_TIMEOUT;
  httpHeadersTimeout ← HTTP_HEADERS_TIMEOUT;
  ethereumRpcUrl ← ETHEREUM_RPC_URL;
  rpcRequestTimeout ← RPC_REQUEST_TIMEOUT;
  shouldCompressRequest ← ENABLE_RPC_REQUEST_COMPRESSION;
  kafkaBrokers ← KAFKA_BROKERS;
  kafkaConsumerGroupId ← KAFKA_CONSUMER_GROUP_ID;
  enablePrometheusMetrics ← ENABLE_PROMETHEUS_METRICS;
  prometheusPort ← PROMETHEUS_PORT;
  Ok {| httpPort := httpPort; healthcheckHttpPort := healthcheckHttpPort; healthcheckPath := "/healthz";
        ethereumRpcUrl := ethereumRpcUrl; httpKeepAliveTimeout := httpKeepAliveTimeout;
        httpHeadersTimeout := httpHeadersTimeout; enablePrometheusMetrics := enablePrometheusMetrics;
        prometheusPort := prometheusPort; prometheusPath := "/metrics"; kafkaBrokers := kafkaBrokers;
        kafkaConsumerGroupId := kafkaConsumerGroupId; rpcRequestTimeout := rpcRequestTimeout;
        shouldCompressRequest := shouldCompressRequest |}.
End Environment.

(** ** What the values are *)

Lemma n_Z_le_inv z k : (Z.abs k < 2 ^ 53)%Z → ext_le (n_Z z) (n_Z k) = true → z <= k.
Proof.
  intros Hk H. apply Znot_gt_le. intros Hgt.
  pose proof (n_Z_fin k ltac:(lia)) as Ek. pose proof (n_Z_fin (k + 1) ltac:(lia)) as Ek1.
  rewrite Ek in H. pose proof (round64_nonfinite (inject_Z z)) as Hn. fold (n_Z z) in Hn.
  destruct (n_Z z) as [|[]|r] eqn:E; [done | | done |].
  - assert (z < 0)%Z as Hz by (by rewrite Zlt_Qlt). pose proof (n_Z_fin z ltac:(lia)) as Ez.
    rewrite E in Ez. by apply ext_eq_unfold in Ez.
  - assert (inject_Z (k + 1) <= r)%Q as Hr.
    { apply (round64_mono (inject_Z (k + 1)) (inject_Z z)); [rewrite <- Zle_Qle; lia | exact Ek1 |].
      change (ext_eq (n_Z z) (EFin r)). by rewrite E. }
    simpl in H. apply Qle_bool_iff in H. rewrite inject_Z_plus in Hr. change (inject_Z 1) with 1%Q in Hr. lra.
Qed.

Lemma n_Z_ge_inv z k : (Z.abs k < 2 ^ 53)%Z → ext_le (n_Z k) (n_Z z) = true → k <= z.
Proof.
  intros Hk H. apply Znot_gt_le. intros Hgt.
  pose proof (n_Z_fin k ltac:(lia)) as Ek. pose proof (n_Z_fin (k - 1) ltac:(lia)) as Ek1.
  rewrite Ek in H. pose proof (round64_nonfinite (inject_Z z)) as Hn. fold (n_Z z) in Hn.
  destruct (n_Z z) as [|[]|r] eqn:E; [done | done | |].
  - assert (0 < z)%Z as Hz by (by rewrite Zlt_Qlt). pose proof (n_Z_fin z ltac:(lia)) as Ez.
    rewrite E in Ez. by apply ext_eq_unfold in Ez.
  - assert (r <= inject_Z (k - 1))%Q as Hr.
    { apply (round64_mono (inject_Z z) (inject_Z (k - 1))); [rewrite <- Zle_Qle; lia | | exact Ek1].
      change (ext_eq (n_Z z) (EFin r)). by rewrite E. }
    simpl in H. apply Qle_bool_iff in H. unfold Z.sub in Hr. rewrite inject_Z_plus in Hr.
    change (inject_Z (- (1))) with (-1)%Q in Hr. lra.
Qed.

Section Typing.
Context {B : BigNumberLib} {Json : Type}.
Variable isETHAddressHex isUri validateUUID : string → bool.
Variable assertionError : string → string → js_error.
Variable parseJson : string → result Json.
Local Notation assertEnv := (assertEnvVarType isETHAddressHex isUri validateUUID assertionError parseJson).

(** The value that a text is read as, by the type of its variable.  An address
    keeps the case it is written in, but in a list of addresses; only blank
    keys are left out of a list of keys, which may leave none. *)
Definition well_typed (ty : EnvVarType.t) (text : string) (v : EnvValue Json) : Prop :=
  match ty with
  | EnvVarType.Port => ∃ z, parseInt text = Some z ∧ v = VNumber (n_Z z) ∧ 0 <= z <= 65535
  | EnvVarType.ChainId | EnvVarType.KeepAliveTimeout | EnvVarType.Integer =>
      ∃ z, parseInt text = Some z ∧ v = VNumber (n_Z z)
  | EnvVarType.Float => v = VNumber (parseFloat text) ∧ ext_is_nan (parseFloat text) = false
  | EnvVarType.ETHAddressHex => v = VText text ∧ isETHAddressHex text = true
  | EnvVarType.Url => v = VText text ∧ isUri text = true
  | EnvVarType.UrlList =>
      ∃ l, v = VTexts l ∧ l = split_on comma text ∧ l ≠ [] ∧ Forall (λ s, isUri s = true) l
  | EnvVarType.Boolean => v = VBool (String.eqb text "true")
  | EnvVarType.UnitAmount =>
      ∃ a, v = VUnit a ∧ a = of_number (parseFloat text) ∧ ext_is_nan (val a) = false ∧ isNegative a = false
  | EnvVarType.AddressList =>
      ∃ l, v = VTexts l ∧ l = toLowerCase <$> split_on comma text ∧ l ≠ [] ∧ Forall (λ s, isETHAddressHex s = true) l
  | EnvVarType.StringList => ∃ l, v = VTexts l ∧ l = split_on comma text ∧ l ≠ []
  | EnvVarType.WhitelistAllTokens => v = VText "*"
  | EnvVarType.NonEmptyString => v = VText text ∧ text ≠ ""%string
  | EnvVarType.APIKeys =>
      ∃ l, v = VTexts l ∧ l = bfilter (λ s, negb (is_blank s)) (split_on comma text) ∧
        Forall (λ s, validateUUID s = true) l
  | EnvVarType.JsonStringList => ∃ j, parseJson text = Ok j ∧ v = VJson j
  | EnvVarType.PrivateKeys | EnvVarType.RfqMakerAssetOfferings | EnvVarType.RateLimitConfig => False
  end.

Lemma check_all_ok (p : string → bool) name l :
  check_all assertionError p name l = Ok tt → Forall (λ s, p s = true) l.
Proof.
  unfold check_all. intros (u & H & _)%result_fmap_ok. revert u H. generalize 0%nat as n.
  assert (∀ (n : nat) u, mapM (λ '(i, v), check_named assertionError p (nameAt name i) v)
    (imap (λ i v, ((n + i)%nat, v)) l) = Ok u → Forall (λ s, p s = true) l) as Hg.
  { induction l as [|a l IH]; intros n u; [by constructor|]. cbn [imap mapM].
    intros (x & Hx & (y & Hy & _)%result_bind_ok)%result_bind_ok. constructor.
    - unfold check_named, throw_unless in Hx. by destruct (p a).
    - apply (IH (S n) y). rewrite <- Hy. f_equal. unfold compose. apply imap_ext. intros i z _. f_equal. lia. }
  intros _ u H. by apply (Hg 0%nat u).
Qed.

Lemma split_on_nonempty c s : split_on c s ≠ [].
Proof. induction s as [|a s IH]; [done|]. rewrite split_on_cons. destruct (Ascii.eqb a c); [done|]. by destruct (split_on c s). Qed.

Lemma check_all_pass (p : string → bool) name l :
  forallb p l = true → check_all assertionError p name l = Ok tt.
Proof.
  intros Hl. unfold check_all.
  assert (∀ n : nat, ∃ u, mapM (λ '(i, v), check_named assertionError p (nameAt name i) v)
    (imap (λ i v, ((n + i)%nat, v)) l) = Ok u) as Hg.
  { induction l as [|a l IH]; intros n; [by eexists|]. cbn [forallb] in Hl. apply andb_true_iff in Hl as [Ha Hl].
    cbn [imap mapM]. unfold check_named, throw_unless. rewrite Ha. cbn [mbind result_bind].
    destruct (IH Hl (S n)) as [u Hu]. exists (() :: u).
    assert (imap ((λ (i : nat) v, ((n + i)%nat, v)) ∘ S) l = imap (λ i v, ((S n + i)%nat, v)) l) as ->.
    { apply imap_ext. intros i z _. unfold compose. f_equal. lia. }
    unfold check_named, throw_unless in Hu. by rewrite Hu. }
  destruct (Hg 0%nat) as [u Hu]. change (imap pair l) with (imap (λ i v, ((0 + i)%nat, v)) l). by rewrite Hu.
Qed.

Lemma check_all_iff (p : string → bool) name l :
  check_all assertionError p name l = Ok tt ↔ Forall (λ s, p s = true) l.
Proof.
  split; [apply check_all_ok|]. intros H. apply check_all_pass, forallb_forall. intros s Hs%list_elem_of_In.
  rewrite Forall_forall in H. by apply H.
Qed.

Lemma n_Z_not_nan z : ext_is_nan (n_Z z) = false.
Proof. unfold n_Z, round64. by repeat case_if. Qed.

Lemma port_range z : ext_le (n_Z 0) (n_Z z) && ext_le (n_Z z) (n_Z 65535) = true ↔ 0 <= z <= 65535.
Proof.
  rewrite andb_true_iff. split.
  - intros [H1 H2]. split; [by apply (n_Z_ge_inv z 0) | by apply (n_Z_le_inv z 65535)].
  - intros Hz. rewrite (n_Z_fin z), (n_Z_fin 0), (n_Z_fin 65535) by lia. simpl.
    split; apply Qle_bool_iff; rewrite <- Zle_Qle; lia.
Qed.

Lemma bad_keys_none l :
  head (bfilter (λ key, negb (validateUUID key)) l) = None ↔ Forall (λ s, validateUUID s = true) l.
Proof.
  induction l as [|k l IH]; cbn [bfilter]; [by split; [constructor|]|]. rewrite Forall_cons.
  destruct (validateUUID k); cbn [negb head]; [rewrite IH; tauto|]. split; [done | by intros [? _]].
Qed.

Lemma checked (x : result unit) (v w : EnvValue Json) (P : Prop) :
  (x = Ok tt ↔ P) → ((_ ← x; Ok w) = Ok v) ↔ v = w ∧ P.
Proof.
  intros <-. destruct x as [[]|e]; cbn; (split; [|]); [by intros [= ->] | by intros [-> _] | done | by intros [_ ?]].
Qed.

Lemma check_named_iff (p : string → bool) name s : check_named assertionError p name s = Ok tt ↔ p s = true.
Proof. unfold check_named, throw_unless. by destruct (p s). Qed.

Lemma parsed_integer (text : string) (v : EnvValue Json) e :
  (if ext_is_nan (n_parseInt text) then Throw e else Ok (VNumber (n_parseInt text))) = Ok v ↔
  ∃ z, parseInt text = Some z ∧ v = VNumber (n_Z z).
Proof.
  unfold n_parseInt. destruct (parseInt text) as [z|]; cbn [ext_is_nan]; [|split; [done | by intros (? & ? & _)]].
  rewrite n_Z_not_nan. split; [intros [= <-]; by exists z | by intros (? & [= <-] & ->)].
Qed.

Lemma env_value_typed name value ty v :
  assertEnv name value ty = Ok v ↔ ∃ text, value = Some text ∧ well_typed ty text v.
Proof.
  destruct value as [text|]; [|split; [done | by intros (? & ? & _)]].
  transitivity (well_typed ty text v); [|split; [by exists text | by intros (? & [= <-] & ?)]].
  unfold assertEnvVarType. destruct ty; cbn [well_typed]; try apply parsed_integer; try by split.
  - rewrite (checked _ _ _ _ (check_all_iff _ _ _)). split.
    + intros [-> H]. eexists. split_and!; [done | done | | exact H]. intros H0%fmap_nil_inv. by apply split_on_nonempty in H0.
    + by intros (l & -> & -> & _ & H).
  - split; [intros [= <-]; eexists; split_and!; [done | done | apply split_on_nonempty] | by intros (l & -> & -> & _)].
  - destruct (ext_is_nan (parseFloat text)); split; [done | by intros [_ ?] | by intros [= <-] | by intros [-> _]].
  - unfold n_parseInt. destruct (parseInt text) as [z|]; cbn [ext_is_nan orb]; [|split; [done | by intros (? & ? & _)]].
    rewrite n_Z_not_nan. cbn [orb]. pose proof (port_range z) as Hr.
    destruct (ext_le (n_Z 0) (n_Z z) && ext_le (n_Z z) (n_Z 65535)); cbn [negb].
    + split; [intros [= <-]; exists z; split_and!; try done; by apply Hr | by intros (? & [= <-] & -> & _)].
    + split; [done | intros (? & [= <-] & -> & H%Hr); done].
  - rewrite (checked _ _ _ _ (check_named_iff _ _ _)). done.
  - destruct (ext_is_nan (val (of_number (parseFloat text)))) eqn:E1; cbn [orb];
      [split; [done | intros (a & _ & -> & H & _); congruence]|].
    destruct (isNegative (of_number (parseFloat text))) eqn:E2;
      [split; [done | intros (a & _ & -> & _ & H); congruence]|].
    split; [intros [= <-]; by eexists | by intros (a & -> & -> & _)].
  - rewrite (checked _ _ _ _ (check_named_iff _ _ _)). done.
  - rewrite (checked _ _ _ _ (check_all_iff _ _ _)). split.
    + intros [-> H]. eexists. split_and!; [done | done | apply split_on_nonempty | exact H].
    + by intros (l & -> & -> & _ & H).
  - split; [by intros [= <-] | by intros ->].
  - split; [by intros [= <-] | by intros ->].
  - destruct (String.eqb_spec text ""); split; [done | by intros [_ ?] | by intros [= <-] | by intros [-> _]].
  - pose proof (bad_keys_none (bfilter (λ key, negb (is_blank key)) (split_on comma text))) as Hk.
    destruct (head _) as [k|]; split.
    + done.
    + intros (l & _ & -> & H). by apply Hk in H.
    + intros [= <-]. eexists. split_and!; [done | done | by apply Hk].
    + by intros (l & -> & -> & _).
  - destruct (parseJson text) as [j|e]; cbn; split; [intros [= <-]; by exists j | by intros (? & [= <-] & ->) | done | by intros (? & ? & _)].
Qed.

(** C32. A variable of the environment is read exactly when it is set and its
    text is one of its type, and then has the value of that text: ports are
    between 0 and 65535, integers and floats are numbers, addresses and URLs
    are such, as they are written, the addresses of a list in lower case, unit
    amounts are numbers that are not negative, and keys are UUIDs, blank ones
    being left out, so that no key may be left; a JSON text may be any
    value. *)
Theorem env_values_typed name value ty v :
  assertEnv name value ty = Ok v ↔ ∃ text, value = Some text ∧ well_typed ty text v.
Proof. apply env_value_typed. Qed.
End Typing.

Section Loading.
Context {B : BigNumberLib} {Json : Type}.
Variable isETHAddressHex isUri validateUUID : string → bool.
Variable assertionError : string → string → js_error.
Variable parseJson : string → result Json.
Variable tokenAddresses : number → list string.
Variable fs : string → option string.
Local Notation assertEnv := (assertEnvVarType isETHAddressHex isUri validateUUID assertionError parseJson).
Local Notation "'read' c e" := (c isETHAddressHex isUri validateUUID assertionError parseJson e)
  (at level 10, c at level 9, e at level 9).
Local Notation httpConfig := (defaultHttpServiceConfig isETHAddressHex isUri validateUUID assertionError parseJson).

Lemma envOr_cases env name ty fallback v :
  envOr isETHAddressHex isUri validateUUID assertionError parseJson env name ty fallback = Ok v →
  v = fallback ∨ ∃ text, well_typed isETHAddressHex isUri validateUUID parseJson ty text v.
Proof.
  unfold envOr. destruct (isEmpty env name); [intros [= <-]; by left|].
  intros (text & _ & H)%env_value_typed. right. by exists text.
Qed.

Definition is_port (v : EnvValue Json) : Prop := ∃ z, v = VNumber (n_Z z) ∧ 0 <= z <= 65535.

(** Whatever the environment, a configuration that loads listens on ports; the
    health check has the port of the service unless it has one of its own; and
    there is a node to ask. *)
Lemma service_configured env config :
  httpConfig env = Ok config →
  is_port (httpPort config) ∧ is_port (healthcheckHttpPort config) ∧ is_port (prometheusPort config) ∧
  (isEmpty env "HEALTHCHECK_HTTP_PORT" = true → healthcheckHttpPort config = httpPort config) ∧
  ∃ urls, ethereumRpcUrl config = VTexts urls ∧ urls ≠ [] ∧ Forall (λ s, isUri s = true) urls.
Proof.
  unfold defaultHttpServiceConfig, HEALTHCHECK_HTTP_PORT.
  intros (port & Hp & (health & (port' & Hp' & Hh)%result_bind_ok & H)%result_bind_ok)%result_bind_ok.
  rewrite Hp in Hp'. injection Hp' as <-.
  assert (is_port port) as Hport.
  { apply envOr_cases in Hp as [-> | (text & z & _ & H')]; [|by exists z]. exists 3000. by split; [|lia]. }
  assert (is_port health) as Hhealth by (by apply envOr_cases in Hh as [-> | (text & z & _ & H')]; [|exists z]).
  assert (isEmpty env "HEALTHCHECK_HTTP_PORT" = true → health = port) as Hdef.
  { intros He. unfold envOr in Hh. rewrite He in Hh. by injection Hh. }
  repeat match type of H with _ ≫= _ = Ok _ => apply result_bind_ok in H as (? & ? & H) end.
  injection H as <-. cbn. split_and!; try done.
  - match goal with Hq : PROMETHEUS_PORT _ _ _ _ _ _ = Ok _ |- _ => apply envOr_cases in Hq as [-> | (text & z & _ & H')] end; [|by exists z].
    exists 8080. by split; [|lia].
  - match goal with Hq : ETHEREUM_RPC_URL _ _ _ _ _ _ = Ok _ |- _ =>
      apply env_value_typed in Hq as (text & _ & l & Hl & _ & Hne & Hall) end. by exists l.
Qed.

Lemma envOr_unset env name ty fallback :
  env name = None →
  envOr isETHAddressHex isUri validateUUID assertionError parseJson env name ty fallback = Ok fallback.
Proof. unfold envOr, isEmpty. by intros ->. Qed.

Lemma resolveEnvVar_unset env name ty fallback :
  env name = None →
  resolveEnvVar isETHAddressHex isUri validateUUID assertionError parseJson env fs name ty fallback = Ok fallback.
Proof. unfold resolveEnvVar. by intros ->. Qed.

#[local] Hint Unfold
  LOG_LEVEL HTTP_PORT HEALTHCHECK_HTTP_PORT HTTP_KEEP_ALIVE_TIMEOUT HTTP_HEADERS_TIMEOUT CHAIN_ID
  WHITELISTED_TOKENS ETHEREUM_RPC_URL RPC_REQUEST_TIMEOUT ENABLE_RPC_REQUEST_COMPRESSION
  SLIPPAGE_MODEL_S3_BUCKET_NAME META_TX_MIN_ALLOWED_SLIPPAGE ORDER_WATCHER_URL ORDER_WATCHER_KAFKA_TOPIC
  KAFKA_BROKERS KAFKA_CONSUMER_GROUP_ID WEBSOCKET_ORDER_UPDATES_PATH FEE_RECIPIENT_ADDRESS
  ZERO_EX_FEE_RECIPIENT_ADDRESS TAKER_FEE_UNIT_AMOUNT MAX_ORDER_EXPIRATION_BUFFER_SECONDS
  SRA_ORDER_EXPIRATION_BUFFER_SECONDS POSTGRES_URI POSTGRES_READ_REPLICA_URIS LOGGER_INCLUDE_TIMESTAMP
  RFQT_REGISTRY_PASSWORDS RFQ_API_URL ALT_RFQ_MM_ENDPOINT ALT_RFQ_MM_API_KEY RFQT_REQUEST_MAX_RESPONSE_MS
  SRA_PERSISTENT_ORDER_POSTING_WHITELISTED_API_KEYS ENABLE_PROMETHEUS_METRICS PROMETHEUS_PORT
  ZERO_EX_GAS_API_URL KAFKA_TOPIC_QUOTE_REPORT SENTRY_ENABLED SENTRY_ENVIRONMENT SENTRY_DSN SENTRY_SAMPLE_RATE
  SENTRY_TRACES_SAMPLE_RATE GASLESS_SWAP_FEE_ENABLED SAMPLE_DISTRIBUTION_BASE
  : constants.

(** With nothing set but the URLs of the nodes, the configuration loads; without
    them it does not. *)
Lemma minimal_environment env :
  (∀ name, name ≠ "ETHEREUM_RPC_URL"%string → env name = None) →
  match env "ETHEREUM_RPC_URL"%string with
  | None => mapM snd (constants isETHAddressHex isUri validateUUID assertionError parseJson env fs tokenAddresses)
              = Throw (Error "ETHEREUM_RPC_URL is not defined")
  | Some urls => forallb isUri (split_on comma urls) = true →
      is_ok (mapM snd (constants isETHAddressHex isUri validateUUID assertionError parseJson env fs tokenAddresses)) = true
  end.
Proof.
  intros Hn. unfold constants. autounfold with constants.
  repeat (rewrite envOr_unset by (by apply Hn)). repeat (rewrite resolveEnvVar_unset by (by apply Hn)).
  rewrite (Hn "SRA_PERSISTENT_ORDER_POSTING_WHITELISTED_API_KEYS"%string) by done.
  cbn [mbind result_bind mapM mret result_ret snd]. repeat (rewrite envOr_unset by (by apply Hn)).
  destruct (env "ETHEREUM_RPC_URL"%string) as [urls|]; cbn [assertEnvVarType mbind result_bind]; [|done].
  intros Hu. rewrite (check_all_pass _ _ _ _ Hu). reflexivity.
Qed.
End Loading.

(** ** An instance *)
Module ConfigExamples.
Definition ex_never : string → bool := λ _, false.
Definition ex_error (name value : string) : js_error := Error name.
Definition ex_json (text : string) : result Z := Ok 0.
End ConfigExamples.
Import Concrete ConfigExamples.

(** A port is read, one that is too large is refused. *)
Lemma env_values_typed_witness :
  let assertEnv := assertEnvVarType (B := QBigNumber) ex_never ex_never ex_never ex_error ex_json in
  assertEnv "HTTP_PORT" (Some "8080") EnvVarType.Port = Ok (VNumber (n_Z 8080)) ∧
  (∀ v, assertEnv "HTTP_PORT" (Some "65536") EnvVarType.Port ≠ Ok v).
Proof.
  intros assertEnv. split.
  - apply (env_values_typed ex_never ex_never ex_never ex_error ex_json "HTTP_PORT" (Some "8080"%string)).
    exists "8080"%string. split; [reflexivity|]. exists 8080. split; [vm_compute; reflexivity|]. split; [reflexivity | lia].
  - intros v H.
    apply (env_values_typed ex_never ex_never ex_never ex_error ex_json "HTTP_PORT" (Some "65536"%string)) in H
      as (text & [= <-] & z & Hz & _ & Hr). vm_compute in Hz. injection Hz as <-. lia.
Defined.
