(* ===== verification/Server.v ===== *)
(** * The servers ([runners/], [routers/], [db_connection.ts], [sentry.ts])

    The routes of the four runners as the calls that set up an Express
    application, in their order, and the start-up that builds what they depend
    on.  Express, the database driver, Kafka and the contract deployment are
    libraries: a set-up is the list of calls it makes, and their results are
    arguments. *)

From S2P Require Import Prelude JsLib JsNumber BigNum Types RequestParsing Config.

(** ** Routes *)

Inductive Method : Type := GET | POST.
#[global] Instance Method_eq_dec : EqDecision Method.
Proof. solve_decision. Defined.

(** The handlers, by their names. *)
Inductive Handler : Type :=
| rootHandler
| SwapRoot | getRfqRegistry | getQuoteAsync | getQuotePriceAsync | getLiquiditySources
| MetaTransactionRoot | getV1PriceAsync | getV1QuoteAsync | getV2PriceAsync | getV2QuoteAsync
| SRARoot | orderbookAsync | ordersAsync | feeRecipients | orderConfig | postOrderAsync | postOrdersAsync
| postPersistentOrderAsync | getOrderByHashAsync.
#[global] Instance Handler_eq_dec : EqDecision Handler.
Proof. solve_decision. Defined.

Record Route : Type := { rt_method : Method; rt_path : string; rt_handler : Handler }.
Definition get (path : string) (h : Handler) : Route := {| rt_method := GET; rt_path := path; rt_handler := h |}.
Definition post (path : string) (h : Handler) : Route := {| rt_method := POST; rt_path := path; rt_handler := h |}.
#[global] Instance Route_eq_dec : EqDecision Route.
Proof. solve_decision. Defined.

Definition createSwapRouter : list Route :=
  [get "" SwapRoot; get "/rfq/registry" getRfqRegistry; get "/quote" getQuoteAsync;
   get "/price" getQuotePriceAsync; get "/sources" getLiquiditySources].
Definition createMetaTransactionV1Router : list Route :=
  [get "" MetaTransactionRoot; get "/price" getV1PriceAsync; get "/quote" getV1QuoteAsync].
Definition createMetaTransactionV2Router : list Route :=
  [get "" MetaTransactionRoot; post "/price" getV2PriceAsync; post "/quote" getV2QuoteAsync].
(** The routes that the order book and the relayer API share. *)
Definition orderRoutes : list Route :=
  [get "/fee_recipients" feeRecipients; post "/order_config" orderConfig; post "/order" postOrderAsync;
   post "/orders" postOrdersAsync; post "/order/persistent" postPersistentOrderAsync;
   get "/order/:orderHash" getOrderByHashAsync].
Definition createOrderBookRouter : list Route :=
  [get "/" orderbookAsync; get "/orders" ordersAsync] ++ orderRoutes.
Definition createSRARouter : list Route :=
  [get "/" SRARoot; get "/orders" ordersAsync; get "/orderbook" orderbookAsync] ++ orderRoutes.

Definition SRA_PATH : string := "/sra/v4".
Definition SWAP_PATH : string := "/swap/v1".
Definition META_TRANSACTION_V1_PATH : string := "/meta_transaction/v1".
Definition META_TRANSACTION_V2_PATH : string := "/meta_transaction/v2".
Definition METRICS_PATH : string := "/metrics".
Definition ORDERBOOK_PATH : string := "/orderbook/v1".
Definition HEALTHCHECK_PATH : string := "/healthz".
Definition DEFAULT_CACHE_AGE_SECONDS : Z := 13.

(** ** Runners *)

(** A call of a set-up. *)
Inductive Call : Type :=
| SentryInit (paths : list string)
| UseMetrics
| UseAddressNormalizer
| UseCacheControl (seconds : Z)
| CreateDefaultServer
| RouteTo (r : Route)
| Mount (prefix : string) (routes : list Route)
| UseErrorHandler
| StartWebsocketService
| LogError (message : string)
| Exit (status : Z)
| Listen.
#[global] Instance Call_eq_dec : EqDecision Call.
Proof. solve_decision. Defined.

(** What a runner finds among its dependencies. *)
Record AppDependencies : Type := {
  kafkaClient : bool;
  orderBookService : bool;
  swapService : bool;
  metaTransactionService : bool;
  hasSentry : bool;
}.

Section Runners.
Variable deps : AppDependencies.

Definition sentry (paths : list string) : list Call := if hasSentry deps then [SentryInit paths] else [].
Definition metaTransactionRouters : list Call :=
  [Mount META_TRANSACTION_V1_PATH createMetaTransactionV1Router; Mount META_TRANSACTION_V2_PATH createMetaTransactionV2Router].
Definition orderRouters : list Call :=
  [Mount SRA_PATH createSRARouter; Mount ORDERBOOK_PATH createOrderBookRouter].

(** [http_service_runner.ts]. *)
Definition runHttpServiceAsync : list Call :=
  sentry [SRA_PATH; ORDERBOOK_PATH; META_TRANSACTION_V1_PATH; META_TRANSACTION_V2_PATH; SWAP_PATH]
  ++ [CreateDefaultServer; RouteTo (get "/" rootHandler); UseAddressNormalizer]
  ++ (if orderBookService deps then orderRouters else [])
  ++ (if metaTransactionService deps then metaTransactionRouters
      else [LogError "API running without meta transactions service"])
  ++ (if swapService deps then [Mount SWAP_PATH createSwapRouter] else [LogError "API running without swap service"])
  ++ [UseErrorHandler]
  ++ (if kafkaClient deps then [StartWebsocketService] else [])
  ++ [Listen].

(** A process that exits makes no further call. *)
Definition orExit (available : bool) (message : string) (calls : list Call) : list Call :=
  if available then calls else [LogError message; Exit 1].

(** [http_swap_service_runner.ts]. *)
Definition runSwapServiceAsync : list Call :=
  sentry [SWAP_PATH]
  ++ [UseAddressNormalizer; UseCacheControl DEFAULT_CACHE_AGE_SECONDS; CreateDefaultServer; RouteTo (get "/" rootHandler)]
  ++ orExit (swapService deps) "Could not run swap service, exiting"
       [Mount SWAP_PATH createSwapRouter; UseErrorHandler; Listen].

(** [http_meta_transaction_service_runner.ts]. *)
Definition runMetaTransactionServiceAsync : list Call :=
  sentry [META_TRANSACTION_V1_PATH; META_TRANSACTION_V2_PATH]
  ++ [CreateDefaultServer; RouteTo (get "/" rootHandler)]
  ++ orExit (metaTransactionService deps) "Could not run meta transaction service, exiting"
       (metaTransactionRouters ++ [UseErrorHandler; Listen]).

(** [http_sra_service_runner.ts]. *)
Definition runSraServiceAsync (useMetricsMiddleware : bool) : list Call :=
  sentry [SRA_PATH; ORDERBOOK_PATH]
  ++ (if useMetricsMiddleware then [UseMetrics] else [])
  ++ [UseAddressNormalizer; UseCacheControl DEFAULT_CACHE_AGE_SECONDS; CreateDefaultServer; RouteTo (get "/" rootHandler)]
  ++ orExit (orderBookService deps) "OrderBookService dependency is missing, exiting"
       (orderRouters ++ [UseErrorHandler]
        ++ orExit (kafkaClient deps) "Could not establish kafka connection, exiting" [StartWebsocketService; Listen]).
End Runners.

(** The routes that a set-up serves, with their full paths. *)
Definition routesOf (calls : list Call) : list (Method * string * Handler) :=
  calls ≫= λ c, match c with
                | RouteTo r => [(rt_method r, rt_path r, rt_handler r)]
                | Mount prefix routes => (λ r, (rt_method r, prefix +:+ rt_path r, rt_handler r)) <$> routes
                | _ => []
                end.

Definition is_mount (c : Call) : bool := match c with Mount _ _ => true | _ => false end.

(** [before a b calls]: every call of [b] has one of [a] in front of it. *)
Fixpoint before (a b : Call → bool) (calls : list Call) : bool :=
  match calls with
  | [] => true
  | c :: calls' => a c || negb (b c) && before a b calls'
  end.
Definition is_call (c : Call) (c' : Call) : bool := bool_decide (c = c').

(** The calls of a runner that serves its API: the error handler is behind every
    router, and the server listens last. *)
Definition well_formed_setup (calls : list Call) : bool :=
  before (is_call UseErrorHandler) (is_call Listen) calls
  && before (is_call UseErrorHandler) is_mount (reverse calls)
  && (negb (existsb (is_call Listen) calls) || bool_decide (last calls = Some Listen))
  && bool_decide (NoDup (fst <$> routesOf calls)).

(** Every runner: a route is served by one handler, errors of all routers are
    handled, and nothing is set up once the server listens. *)
Lemma setups_well_formed deps useMetrics :
  forallb well_formed_setup
    [runHttpServiceAsync deps; runSwapServiceAsync deps; runMetaTransactionServiceAsync deps;
     runSraServiceAsync deps useMetrics] = true.
Proof. destruct deps as [[] [] [] [] []], useMetrics; vm_compute; reflexivity. Qed.

(** A standalone runner serves its API or exits, as its service is there; the
    combined one always listens and serves what there is. *)
Lemma runners_serve deps useMetrics :
  (Listen ∈ runHttpServiceAsync deps) ∧
  (Listen ∈ runSwapServiceAsync deps ↔ swapService deps = true) ∧
  (Listen ∈ runMetaTransactionServiceAsync deps ↔ metaTransactionService deps = true) ∧
  (Listen ∈ runSraServiceAsync deps useMetrics ↔ orderBookService deps = true ∧ kafkaClient deps = true) ∧
  ((GET, "/swap/v1/quote"%string, getQuoteAsync) ∈ routesOf (runHttpServiceAsync deps) ↔ swapService deps = true) ∧
  ((GET, "/meta_transaction/v1/quote"%string, getV1QuoteAsync) ∈ routesOf (runHttpServiceAsync deps) ↔
     metaTransactionService deps = true) ∧
  ((POST, "/sra/v4/order"%string, postOrderAsync) ∈ routesOf (runHttpServiceAsync deps) ↔ orderBookService deps = true).
Proof.
  assert (∀ {A} `{EqDecision A} (x : A) (l : list A) (b : bool), bool_decide (x ∈ l) = b → x ∈ l ↔ b = true) as Hd.
  { intros A Hdec x l b <-. by rewrite bool_decide_eq_true. }
  destruct deps as [k o s m h]. split_and!.
  - by apply (bool_decide_eq_true_1 _); destruct k, o, s, m, h.
  - refine (Hd _ _ _ _ _ _); by destruct k, o, s, m, h.
  - refine (Hd _ _ _ _ _ _); by destruct k, o, s, m, h.
  - rewrite <- andb_true_iff. refine (Hd _ _ _ _ _ _); by destruct k, o, s, m, h, useMetrics.
  - refine (Hd _ _ _ _ _ _); by destruct k, o, s, m, h.
  - refine (Hd _ _ _ _ _ _); by destruct k, o, s, m, h.
  - refine (Hd _ _ _ _ _ _); by destruct k, o, s, m, h.
Qed.

(** The addresses of a query are normalised in front of every router, except in
    the runner of meta-transactions alone, which never does. *)
Lemma normalized_queries deps useMetrics :
  forallb (before (is_call UseAddressNormalizer) is_mount)
    [runHttpServiceAsync deps; runSwapServiceAsync deps; runSraServiceAsync deps useMetrics] = true ∧
  existsb (is_call UseAddressNormalizer) (runMetaTransactionServiceAsync deps) = false.
Proof. destruct deps as [[] [] [] [] []], useMetrics; by split; vm_compute. Qed.

(** ** Start-up ([db_connection.ts], [runners/utils.ts]) *)

Section Startup.
Context {Addresses Connection OrmConfig SlippageModelManager SwapService MetaTransactionService : Type}.
(** Another sampler address in the addresses of a chain. *)
Variable with_sampler : string → Addresses → Addresses.
Variable getContractAddressesForChainOrThrow : ChainId → result Addresses.
(** The chain of the node, and what the deployment of the sampler gives. *)
Variable getChainIdAsync : result ChainId.
Variable deployFrom0xArtifactAsync : result string.
Variable createConnection : OrmConfig → result Connection.
Variable ormConfig : option OrmConfig.

(** The module variables, and how many samplers were deployed. *)
Record Globals : Type := {
  contractAddresses_ : option Addresses;
  connection : option Connection;
  deployments : nat;
}.
Local Notation Task := (Async Globals).

(** [getDBConnection]: one connection, made when it is first asked for. *)
Definition getDBConnection : Task (option Connection) := λ g,
  match connection g, ormConfig with
  | Some c, _ => (Ok (Some c), g)
  | None, None => (Ok None, g)
  | None, Some config =>
      match createConnection config with
      | Ok c => (Ok (Some c), {| contractAddresses_ := contractAddresses_ g; connection := Some c; deployments := deployments g |})
      | Throw e => (Throw e, g)
      end
  end.

Definition getDBConnectionOrThrow : Task Connection :=
  c ← getDBConnection;
  match c with Some c => mret c | None => lift (Throw (Error "Could not get a DB connection")) end.

(** The message shows the chain of the node, which is not modelled. *)
Definition incorrectChainId : js_error := Error "Incorrect Chain Id".

Definition deploySamplerContractAsync (chainId : ChainId) : Task string := λ g,
  match getChainIdAsync with
  | Throw e => (Throw e, g)
  | Ok _chainId =>
      if negb (bool_decide (_chainId = chainId)) then (Throw incorrectChainId, g)
      else match deployFrom0xArtifactAsync with
           | Ok sampler => (Ok sampler, {| contractAddresses_ := contractAddresses_ g; connection := connection g;
                                           deployments := S (deployments g) |})
           | Throw e => (Throw e, g)
           end
  end.

Definition remember (a : Addresses) : Task Addresses := λ g,
  (Ok a, {| contractAddresses_ := Some a; connection := connection g; deployments := deployments g |}).

Definition getContractAddressesForNetworkOrThrowAsync (chainId : ChainId) : Task Addresses := λ g,
  match contractAddresses_ g with
  | Some a => (Ok a, g)
  | None =>
      (contractAddresses ← lift (getContractAddressesForChainOrThrow chainId);
       contractAddresses ←
         (if bool_decide (chainId = ChainId.Ganache)
          then sampler ← deploySamplerContractAsync chainId; mret (with_sampler sampler contractAddresses)
          else mret contractAddresses);
       remember contractAddresses) g
  end.

(** The order book of a quoter: that of the service, or the empty one. *)
Inductive OrderbookKind : Type := NoOpOrderbook | AssetSwapperOrderbook (c : Connection).
Definition createOrderbook (orderBookService : option Connection) : OrderbookKind :=
  match orderBookService with None => NoOpOrderbook | Some c => AssetSwapperOrderbook c end.

(** What the swap service is built with. *)
Record SwapServiceArgs : Type := {
  ssa_orderbook : OrderbookKind;
  ssa_contractAddresses : Addresses;
  ssa_firmQuoteValidator : option Connection;
  ssa_rfqDynamicBlacklist : option Connection;
  ssa_slippageModelManager : SlippageModelManager;
}.
Variable initializeSlippageModelManager : result SlippageModelManager.
Variable newSwapService : SwapServiceArgs → result SwapService.
Variable newMetaTransactionService : SwapService → Addresses → result MetaTransactionService.
(** [config.kafkaBrokers !== undefined], [SENTRY_ENABLED], [CHAIN_ID],
    [ENABLE_RFQT_TX_ORIGIN_BLACKLIST]. *)
Variable kafkaBrokersSet sentryEnabled blacklistEnabled : bool.
Variable CHAIN_ID : ChainId.

Record Dependencies : Type := {
  dep_contractAddresses : Addresses;
  dep_connection : option Connection;
  dep_kafkaClient : bool;
  dep_orderBookService : option Connection;
  dep_swapService : option SwapService;
  dep_metaTransactionService : option MetaTransactionService;
  dep_hasSentry : bool;
}.

(** The [try] of the services: what was assigned before it threw stays. *)
Definition createServices (contractAddresses : Addresses) (connection : option Connection) :
  option SwapService * option MetaTransactionService :=
  match initializeSlippageModelManager with
  | Throw _ => (None, None)
  | Ok slippageModelManager =>
      match newSwapService
          {| ssa_orderbook := createOrderbook connection; ssa_contractAddresses := contractAddresses;
             ssa_firmQuoteValidator := connection;
             ssa_rfqDynamicBlacklist := if blacklistEnabled then connection else None;
             ssa_slippageModelManager := slippageModelManager |} with
      | Throw _ => (None, None)
      | Ok swapService =>
          match newMetaTransactionService swapService contractAddresses with
          | Throw _ => (Some swapService, None)
          | Ok metaTransactionService => (Some swapService, Some metaTransactionService)
          end
      end
  end.

Definition getDefaultAppDependenciesAsync : Task Dependencies :=
  contractAddresses ← getContractAddressesForNetworkOrThrowAsync CHAIN_ID;
  connection ← getDBConnection;
  let services := createServices contractAddresses connection in
  mret {| dep_contractAddresses := contractAddresses; dep_connection := connection; dep_kafkaClient := kafkaBrokersSet;
          dep_orderBookService := connection; dep_swapService := services.1; dep_metaTransactionService := services.2;
          dep_hasSentry := sentryEnabled |}.

(** [destroyCallback]: the connections that it closes. *)
Definition destroyCallback (d : Dependencies) : list Connection :=
  match dep_connection d with Some c => [c] | None => [] end.

(** What the runners see of the dependencies. *)
Definition appDependencies (d : Dependencies) : AppDependencies :=
  {| kafkaClient := dep_kafkaClient d; orderBookService := bool_decide (is_Some (dep_orderBookService d));
     swapService := bool_decide (is_Some (dep_swapService d));
     metaTransactionService := bool_decide (is_Some (dep_metaTransactionService d)); hasSentry := dep_hasSentry d |}.

(** The addresses are determined once: a later call answers with them, whatever
    chain it asks for, and deploys nothing; a sampler is deployed for Ganache
    only, and only on a node of that chain. *)
Lemma addresses_once chainId g a g' :
  getContractAddressesForNetworkOrThrowAsync chainId g = (Ok a, g') →
  (∀ chainId', getContractAddressesForNetworkOrThrowAsync chainId' g' = (Ok a, g')) ∧
  connection g' = connection g ∧
  (deployments g' = deployments g ∨
   deployments g' = S (deployments g) ∧ contractAddresses_ g = None ∧ chainId = ChainId.Ganache ∧
     getChainIdAsync = Ok chainId ∧ ∃ sampler base, deployFrom0xArtifactAsync = Ok sampler ∧
       getContractAddressesForChainOrThrow chainId = Ok base ∧ a = with_sampler sampler base).
Proof.
  unfold getContractAddressesForNetworkOrThrowAsync at 1. destruct (contractAddresses_ g) as [a0|] eqn:Eg.
  - intros [= <- <-]. split_and!; [|done|by left]. intros c. unfold getContractAddressesForNetworkOrThrowAsync. by rewrite Eg.
  - intros (base & s1 & (Eb & ->)%lift_ok & (a1 & s2 & H1 & H2)%async_bind_ok)%async_bind_ok.
    unfold remember in H2. injection H2 as <- <-. split_and!; [done | |].
    + case_bool_decide; [|by apply async_ret_ok in H1 as [_ ->]].
      apply async_bind_ok in H1 as (sampler & s3 & Hd & (_ & ->)%async_ret_ok). revert Hd. unfold deploySamplerContractAsync.
      destruct getChainIdAsync; [|done]. destruct (negb _); [done|]. destruct deployFrom0xArtifactAsync; [|done].
      by intros [= <- <-].
    + cbn [deployments]. case_bool_decide as Ec; [|apply async_ret_ok in H1 as [_ ->]; by left].
      apply async_bind_ok in H1 as (sampler & s3 & Hd & (-> & ->)%async_ret_ok). revert Hd. unfold deploySamplerContractAsync.
      destruct getChainIdAsync as [c|]; [|done]. case_bool_decide as Ecc; [|done]. cbn [negb].
      destruct deployFrom0xArtifactAsync as [smp|]; [|done]. intros [= <- <-]. right. cbn [deployments]. subst c.
      split_and!; try done. by exists smp, base.
Qed.

Lemma addresses_kept chainId g a g' :
  getContractAddressesForNetworkOrThrowAsync chainId g = (Ok a, g') → contractAddresses_ g' = Some a.
Proof.
  unfold getContractAddressesForNetworkOrThrowAsync. destruct (contractAddresses_ g) as [a0|] eqn:Eg.
  - intros [= <- <-]. done.
  - intros (base & s1 & _ & (a1 & s2 & _ & H2)%async_bind_ok)%async_bind_ok. unfold remember in H2. by injection H2 as <- <-.
Qed.

(** A connection that is there is kept; the addresses are not touched. *)
Lemma connection_kept g c g' :
  getDBConnection g = (Ok c, g') →
  contractAddresses_ g' = contractAddresses_ g ∧ connection g' = c ∧ getDBConnection g' = (Ok c, g') ∧
  (ormConfig = None → c = connection g).
Proof.
  unfold getDBConnection at 1. destruct (connection g) as [c1|] eqn:E.
  - intros [= <- <-]. unfold getDBConnection. by rewrite E.
  - destruct ormConfig as [config|] eqn:Eo.
    + destruct (createConnection config) as [c1|] eqn:Ec; [|done]. intros [= <- <-]. by split_and!.
    + intros [= <- <-]. unfold getDBConnection. by rewrite E, Eo.
Qed.

(** The application that starts: services need each other in turn, an order
    book needs the database, and starting again gives the same connection and
    addresses. *)
Lemma started_application g d g' :
  getDefaultAppDependenciesAsync g = (Ok d, g') →
  (is_Some (dep_metaTransactionService d) → is_Some (dep_swapService d)) ∧
  dep_orderBookService d = dep_connection d ∧
  (ormConfig = None → dep_connection d = connection g) ∧
  connection g' = dep_connection d ∧ contractAddresses_ g' = Some (dep_contractAddresses d) ∧
  getDefaultAppDependenciesAsync g' = (Ok d, g').
Proof.
  unfold getDefaultAppDependenciesAsync at 1.
  intros (a & g1 & Ha & (c & g2 & Hc & (-> & ->)%async_ret_ok)%async_bind_ok)%async_bind_ok.
  pose proof (addresses_kept _ _ _ _ Ha) as Hk. apply addresses_once in Ha as (_ & Hconn & _).
  apply connection_kept in Hc as (Hk2 & Hc2 & Hagain & Hnone). rewrite Hk in Hk2. rewrite Hconn in Hnone.
  cbn [dep_metaTransactionService dep_swapService dep_orderBookService dep_connection dep_contractAddresses].
  split_and!; try done.
  - unfold createServices. destruct initializeSlippageModelManager; [|by intros []].
    destruct (newSwapService _) as [sw|]; [|by intros []]. by destruct (newMetaTransactionService sw a).
  - unfold getDefaultAppDependenciesAsync, mbind, Async_bind, getContractAddressesForNetworkOrThrowAsync.
    rewrite Hk2, Hagain. done.
Qed.
End Startup.
