(* ===== verification/Process.v ===== *)
(** * The process ([index.ts], [app.ts], [ormconfig.ts], [sentry.ts],
    [utils/provider_utils.ts], [entities/transformers.ts])

    What starts the single-instance deployment: the provider, the configuration
    of the database, the dependencies and the routes; which requests are traced;
    and how decimals are kept in the database.  The provider engine, Sentry and
    the database driver are libraries: what is handed to them is kept. *)

From S2P Require Import Prelude JsLib JsNumber BigNum Types Fills Orderbook RpcSubprovider Config Server.

(** ** Tracing *)

(** [String.prototype.includes]. *)
Definition str_includes (s sub : string) : bool := match String.index 0 sub s with Some _ => true | None => false end.

(** [tracesSampler]; the name of a transaction that is missing includes nothing. *)
Definition tracesSampler (paths : list string) (tracesSampleRate : number) (name : option string) : number :=
  let named (path : string) := match name with Some n => str_includes n path | None => false end in
  if named HEALTHCHECK_PATH then n_Z 0
  else if existsb named paths then tracesSampleRate
  else n_Z 0.

(** The health check is never traced, a request is traced at the given rate when
    its name contains a path of the runner, and nothing else is. *)
Lemma traced_requests paths rate name :
  tracesSampler paths rate name = n_Z 0 ∨ tracesSampler paths rate name = rate ∧
    ∃ n path, name = Some n ∧ path ∈ paths ∧ str_includes n path = true ∧ str_includes n HEALTHCHECK_PATH = false.
Proof.
  unfold tracesSampler. destruct name as [n|]; [|destruct (existsb _ paths) eqn:E; [|by left]].
  - destruct (str_includes n HEALTHCHECK_PATH) eqn:Eh; [by left|]. destruct (existsb _ paths) eqn:E; [|by left].
    right. split; [done|]. apply existsb_exists in E as (path & Hp%list_elem_of_In & Hi). by exists n, path.
  - by apply existsb_exists in E as (? & _ & ?).
Qed.
(** A request below a path of the runners is traced. *)
Lemma runner_paths_traced rate :
  let paths := [SRA_PATH; ORDERBOOK_PATH; META_TRANSACTION_V1_PATH; META_TRANSACTION_V2_PATH; SWAP_PATH] in
  Forall (λ path, tracesSampler paths rate (Some ("GET " +:+ path +:+ "/quote")) = rate) paths.
Proof. by repeat constructor. Qed.

(** ** The database *)

Inductive Replication : Type :=
| SingleUrl (url : string)
| MasterAndReplicas (master : string) (slaves : list string).
Record ConnectionOptions : Type := {
  co_type : string;
  co_entities : list string;
  co_synchronize : bool;
  co_logging : bool;
  co_max : Z;
  co_statement_timeout : Z;
  co_migrations : list string;
  co_urls : Replication;
}.
Definition entities : list string :=
  ["BlockedAddressEntity"; "PersistentSignedOrderEntity"; "KeyValueEntity"; "MakerBalanceChainCacheEntity";
   "SignedOrderV4Entity"; "PersistentSignedOrderV4Entity"; "RfqMakerPairs"; "RfqMakerPairsUpdateTimeHash";
   "OrderWatcherSignedOrderEntity"]%string.
(** An empty list of replicas is still a list, and truthy. *)
Definition ormConfig (POSTGRES_URI : option string) (POSTGRES_READ_REPLICA_URIS : option (list string)) : option ConnectionOptions :=
  (λ uri, {| co_type := "postgres"; co_entities := entities; co_synchronize := false; co_logging := true; co_max := 15;
             co_statement_timeout := 10000; co_migrations := ["./__build__/migrations/*.js"%string];
             co_urls := match POSTGRES_READ_REPLICA_URIS with
                        | Some replicas => MasterAndReplicas uri replicas
                        | None => SingleUrl uri end |}) <$> POSTGRES_URI.

(** [BigNumberTransformer]: a column holds the text of a decimal, or null. *)
Section Transformer.
Context {B : BigNumberLib} `{BS : !BigNumberStrings}.
Definition from (value : option string) : option BN := bn_of_string <$> value.
Definition to (value : option BN) : option string := bn_toString <$> value.
Lemma transformer_roundtrip a z : int a z → ∃ b, from (to (Some a)) = Some b ∧ int b z.
Proof. intros H. eexists. split; [done | by apply bn_of_toString]. Qed.
End Transformer.

(** ** The start *)

(** The providers that the engine is given: one, for requests of the node. *)
Definition createWeb3Provider (rpcHost : string) (timeout : option number) (shouldCompressRequest : option bool) : list RPCSubprovider :=
  [newRPCSubprovider (inl rpcHost) (default (n_Z 5000) timeout) (default false shouldCompressRequest)].

Section Main.
Context {Addresses Connection SlippageModelManager SwapService MetaTransactionService : Type}.
Variable with_sampler : string → Addresses → Addresses.
Variable getContractAddressesForChainOrThrow : ChainId → result Addresses.
Variable getChainIdAsync : result ChainId.
Variable deployFrom0xArtifactAsync : result string.
Variable createConnection : ConnectionOptions → result Connection.
Variable initializeSlippageModelManager : result SlippageModelManager.
Variable newSwapService : @SwapServiceArgs Addresses Connection SlippageModelManager → result SwapService.
Variable newMetaTransactionService : SwapService → Addresses → result MetaTransactionService.
Variable kafkaBrokersSet sentryEnabled blacklistEnabled : bool.
Variable CHAIN_ID : ChainId.
Variable POSTGRES_URI : option string.
Variable POSTGRES_READ_REPLICA_URIS : option (list string).

Local Notation Globals := (@Globals Addresses Connection).

(** [getAppAsync]: the calls that set up the application. *)
Definition getAppAsync (dependencies : AppDependencies) : list Call := runHttpServiceAsync dependencies.

(** [index.ts]: what is rejected is logged, and no server listens. *)
Definition main : Async Globals (list Call) := λ g,
  match getDefaultAppDependenciesAsync with_sampler getContractAddressesForChainOrThrow getChainIdAsync deployFrom0xArtifactAsync
    createConnection (ormConfig POSTGRES_URI POSTGRES_READ_REPLICA_URIS) initializeSlippageModelManager newSwapService
    newMetaTransactionService kafkaBrokersSet sentryEnabled blacklistEnabled CHAIN_ID g with
  | (Ok dependencies, g) => (Ok (getAppAsync (appDependencies dependencies)), g)
  | (Throw e, g) => (Throw e, g)
  end.

Definition serves (prefix : string) (calls : list Call) : bool :=
  existsb (λ c, match c with Mount p _ => String.eqb p prefix | _ => false end) calls.

Lemma app_serves deps :
  serves SRA_PATH (getAppAsync deps) = orderBookService deps ∧ serves ORDERBOOK_PATH (getAppAsync deps) = orderBookService deps ∧
  serves SWAP_PATH (getAppAsync deps) = swapService deps ∧
  serves META_TRANSACTION_V1_PATH (getAppAsync deps) = metaTransactionService deps ∧
  serves META_TRANSACTION_V2_PATH (getAppAsync deps) = metaTransactionService deps.
Proof. destruct deps as [[] [] [] [] []]; by split_and!. Qed.

(** A process that starts serves the order book exactly when there is a database,
    and meta-transactions only beside swaps. *)
Theorem process_serves g calls g' :
  Server.connection g = None → main g = (Ok calls, g') →
  serves SRA_PATH calls = bool_decide (is_Some POSTGRES_URI) ∧
  serves ORDERBOOK_PATH calls = serves SRA_PATH calls ∧
  (serves META_TRANSACTION_V1_PATH calls = true → serves SWAP_PATH calls = true) ∧
  serves META_TRANSACTION_V2_PATH calls = serves META_TRANSACTION_V1_PATH calls.
Proof.
  intros Hg. unfold main. destruct (getDefaultAppDependenciesAsync _ _ _ _ _ _ _ _ _ _ _ _ _ g) as [[d|e] g1] eqn:E; [|done].
  intros [= <- <-]. destruct (app_serves (appDependencies d)) as (-> & -> & -> & -> & ->).
  pose proof E as E'. apply started_application in E' as (Hmeta & Hob & Hnone & _).
  cbn [appDependencies orderBookService swapService metaTransactionService]. split_and!; [|done| |done].
  - rewrite Hob. apply bool_decide_ext. split; intros H.
    + destruct POSTGRES_URI; [done|]. rewrite (Hnone eq_refl), Hg in H. done.
    + unfold getDefaultAppDependenciesAsync in E. apply async_bind_ok in E as (a & g2 & Ha & (c & g3 & Hc & (-> & _)%async_ret_ok)%async_bind_ok).
      apply addresses_once in Ha as (_ & Hconn & _). rewrite Hg in Hconn. cbn [dep_connection].
      revert Hc. unfold getDBConnection. rewrite Hconn. destruct H as [uri Hu]. unfold ormConfig. rewrite Hu. cbn [fmap option_fmap option_map].
      destruct (createConnection _); [|done]. intros [= <- _]. by eexists.
  - rewrite !bool_decide_eq_true. exact Hmeta.
Qed.
End Main.
