(* ===== verification/RfqWorker.v ===== *)
(** * The worker that caches the balances of RFQ makers
    ([runners/rfq_maker_balance_cache_runner.ts], the contract
    [contracts/src/BalanceChecker.sol]) and the last look of a maker
    ([utils/quote_server_client.ts], [utils/rfq_dyanmic_blacklist.ts])

    The worker polls for blocks, and on a new one asks the contract for the
    balances of the makers in the table, in chunks, and stores them; the table
    is what [RfqValidator] reads.  The node, the table and the clock are the
    inputs of an iteration; metrics and logs are left out. *)

From Stdlib Require Import Sorting.Sorted.
From Equations Require Import Equations.
From S2P Require Import Prelude JsLib JsNumber BigNum Types Orders Fills PairUtils Caches Orderbook RfqValidator.

#[local] Set Default Proof Using "Type".

(** ** Chunks ([_.chunk] of lodash) *)

Section Chunk.
Context {A : Type} (k : nat).

(** In pieces of [k + 1]. *)
Equations? pieces (l : list A) : list (list A) by wf (length l) Nat.lt :=
  pieces [] := [];
  pieces (x :: l) := (x :: take k l) :: pieces (drop k l).
Proof. simpl. rewrite length_drop. lia. Qed.

Lemma concat_pieces l : concat (pieces l) = l.
Proof. funelim (pieces l); [done|]. cbn [concat]. rewrite H. cbn. f_equal. apply take_drop. Qed.
Lemma piece_sizes l : Forall (λ c, c ≠ [] ∧ (length c <= S k)%nat) (pieces l).
Proof. funelim (pieces l); constructor; [|done]. split; [done|]. cbn. rewrite length_take. lia. Qed.
End Chunk.

(** Lists of one length are cut at the same places. *)
Lemma pieces_aligned {A C} k (l : list A) (l' : list C) :
  length l = length l' → Forall2 (λ c c', length c = length c') (pieces k l) (pieces k l').
Proof.
  revert l'. funelim (pieces k l); intros l' Hl; destruct l' as [|y l']; try done; simp pieces; constructor.
  - cbn in *. rewrite !length_take. lia.
  - apply H. cbn in Hl. rewrite !length_drop. lia.
Qed.

Definition chunk {A} (l : list A) (size : nat) : list (list A) := match size with O => [] | S k => pieces k l end.

Example chunk_odd : chunk [1; 2; 3; 4; 5]%nat 2 = [[1; 2]; [3; 4]; [5]]%nat.
Proof. vm_compute. reflexivity. Qed.

(** ** [_.zip]: a missing element is [undefined] *)
Fixpoint zip_padded {A C} (l : list A) (l' : list C) : list (option A * option C) :=
  match l, l' with
  | [], [] => []
  | x :: l, [] => (Some x, None) :: zip_padded l []
  | [], y :: l' => (None, Some y) :: ((λ y, (None, Some y)) <$> l')
  | x :: l, y :: l' => (Some x, Some y) :: zip_padded l l'
  end.
Lemma zip_padded_same {A C} (l : list A) (l' : list C) :
  length l = length l' → zip_padded l l' = zip_with (λ x y, (Some x, Some y)) l l'.
Proof. revert l'. induction l as [|x l IH]; intros [|y l'] Hl; try done. cbn. f_equal. apply IH. by injection Hl. Qed.

(** ** The contract *)

Module BalanceChecker.
Definition ETH_ADDRESS : string := "0xeeeeeeeeeeeeeeeeeeeeeeeeeeeeeeeeeeeeeeee".

(** What a call sees of the chain: an account's ether, and the answers of the
    tokens, which may revert.  Amounts are [uint256]. *)
Record Chain : Type := {
  ether : string → Z;
  balanceOf : string → string → result Z;
  allowance : string → string → string → result Z;
}.

Definition Reverted : js_error := RevertError "".
Definition isEth (token : string) : bool := String.eqb (toLowerCase token) ETH_ADDRESS.

(** [for (uint256 i = 0; i < users.length; i++) addrBalances[i] = body(i)], an
    array of zeros to begin with. *)
Fixpoint forLoop (body : nat → result Z) (todo i : nat) (addrBalances : list Z) : result (list Z) :=
  match todo with
  | O => Ok addrBalances
  | S todo => v ← body i; forLoop body todo (S i) (<[i := v]> addrBalances)
  end.
Definition filled (body : nat → result Z) (n : nat) : result (list Z) := forLoop body n 0 (replicate n 0%Z).

Section Contract.
Variable chain : Chain.

(** [users[i]], within bounds. *)
Definition at_index (l : list string) (i : nat) : string := default "" (l !! i).

Definition balances (users tokens : list string) : result (list Z) :=
  if (length users =? length tokens)%nat then
    filled (λ i, if isEth (at_index tokens i) then Ok (ether chain (at_index users i))
                 else balanceOf chain (at_index tokens i) (at_index users i)) (length users)
  else Throw Reverted.

Definition getMinOfBalancesOrAllowances (users tokens : list string) (spender : string) : result (list Z) :=
  if (length users =? length tokens)%nat then
    filled (λ i, if isEth (at_index tokens i) then Ok (ether chain (at_index users i))
                 else
                   balance ← balanceOf chain (at_index tokens i) (at_index users i);
                   allowance ← allowance chain (at_index tokens i) (at_index users i) spender;
                   if (allowance <? balance)%Z then Ok allowance else Ok balance) (length users)
  else Throw Reverted.

Definition allowances (owners spenders tokens : list string) : result (list Z) :=
  if (length owners =? length spenders)%nat && (length owners =? length tokens)%nat then
    filled (λ i, if isEth (at_index tokens i) then Ok 0%Z
                 else allowance chain (at_index tokens i) (at_index owners i) (at_index spenders i)) (length owners)
  else Throw Reverted.

(** *** What the loops compute *)

(** What an owner can pay with: its ether, or what a token lets a spender take. *)
Definition spendable (token owner spender : string) : result Z :=
  if isEth token then Ok (ether chain owner)
  else
    balance ← balanceOf chain token owner;
    allowance ← allowance chain token owner spender;
    Ok (allowance `min` balance)%Z.

Lemma forLoop_spec body todo i addrs done_ :
  length addrs = (i + todo)%nat → length done_ = i → take i addrs = done_ →
  forLoop body todo i addrs = app done_ <$> mapM body (seq i todo).
Proof.
  revert i addrs done_. induction todo as [|todo IH]; intros i addrs dn Hl Hd Ht; cbn [forLoop seq mapM].
  - cbn. rewrite app_nil_r, <- Ht, take_ge; [done | lia].
  - destruct (body i) as [v|e]; cbn [mbind result_bind]; [|done].
    rewrite (IH (S i) _ (dn ++ [v])).
    + destruct (mapM body (seq (S i) todo)) as [vs|]; cbn; [|done]. by rewrite <- app_assoc.
    + rewrite length_insert. lia.
    + rewrite length_app. cbn. lia.
    + rewrite (take_S_r _ i v).
      * by rewrite take_insert_ge, Ht by lia.
      * rewrite list_lookup_insert, decide_True; [done | split; [done | lia]].
Qed.

Lemma filled_spec body n : filled body n = mapM body (seq 0 n).
Proof.
  unfold filled. rewrite (forLoop_spec _ _ _ _ []); [|by rewrite length_replicate | done | done].
  by destruct (mapM body (seq 0 n)).
Qed.

(** A traversal of the indices of a list is one of its elements. *)
Lemma mapM_indices {A} (f : nat → result Z) (g : A → result Z) (l : list A) i :
  (∀ j x, l !! j = Some x → f (i + j)%nat = g x) → mapM f (seq i (length l)) = mapM g l.
Proof.
  revert i. induction l as [|x l IH]; intros i H; [done|]. cbn [length seq mapM].
  rewrite <- (H 0%nat x eq_refl), Nat.add_0_r. rewrite (IH (S i)); [done|].
  intros j y Hj. rewrite <- (H (S j) y Hj). f_equal. lia.
Qed.

Lemma filled_pointwise body (g : string * string → result Z) users tokens :
  length users = length tokens →
  (∀ i user token, users !! i = Some user → tokens !! i = Some token → body i = g (user, token)) →
  filled body (length users) = mapM g (zip users tokens).
Proof.
  intros Hl H. rewrite filled_spec. assert (length (zip users tokens) = length users) as <-
    by (rewrite length_zip_with; lia).
  apply mapM_indices. intros j [user token] Hj. cbn. apply lookup_zip_with_Some in Hj as (? & ? & [= <- <-] & Hu & Ht).
  by apply H.
Qed.

Lemma spendable_pairs users tokens spender :
  length users = length tokens →
  getMinOfBalancesOrAllowances users tokens spender =
    mapM (λ '(user, token), spendable token user spender) (zip users tokens).
Proof.
  intros Hl. unfold getMinOfBalancesOrAllowances. rewrite Hl, Nat.eqb_refl, <- Hl. apply filled_pointwise; [done|].
  intros i user token Hu Ht. unfold at_index, spendable. rewrite Hu, Ht. cbn [default]. unfold id.
  destruct (isEth token); [done|]. destruct (balanceOf chain token user) as [b|]; cbn; [|done].
  destruct (allowance chain token user spender) as [a|]; cbn; [|done].
  destruct (Z.ltb_spec a b); f_equal; lia.
Qed.

(** C19. The loops of the contract compute, position by position, the balance of a
    user, what it can be made to spend (the lesser of balance and allowance, or
    its ether), and the allowance (none for ether); lists that do not match, and
    a token that reverts, revert the whole call. *)
Theorem checker_pointwise users spenders tokens spender :
  balances users tokens =
    (if decide (length users = length tokens)
     then mapM (λ '(user, token), if isEth token then Ok (ether chain user) else balanceOf chain token user)
            (zip users tokens)
     else Throw Reverted) ∧
  getMinOfBalancesOrAllowances users tokens spender =
    (if decide (length users = length tokens)
     then mapM (λ '(user, token), spendable token user spender) (zip users tokens)
     else Throw Reverted) ∧
  allowances users spenders tokens =
    (if decide (length users = length spenders ∧ length users = length tokens)
     then mapM (λ '(owner, (spender, token)), if isEth token then Ok 0%Z else allowance chain token owner spender)
            (zip users (zip spenders tokens))
     else Throw Reverted).
Proof.
  split_and!.
  - unfold balances. destruct (Nat.eqb_spec (length users) (length tokens)) as [Hl|Hl]; case_decide; try done.
    apply filled_pointwise; [done|]. intros i user token Hu Ht. unfold at_index. by rewrite Hu, Ht.
  - case_decide as Hl; [by apply spendable_pairs|]. unfold getMinOfBalancesOrAllowances.
    by rewrite (proj2 (Nat.eqb_neq _ _) Hl).
  - unfold allowances. destruct (Nat.eqb_spec (length users) (length spenders)) as [Hs|Hs];
      destruct (Nat.eqb_spec (length users) (length tokens)) as [Ht|Ht]; cbn [andb];
      case_decide as Hd; try done; try (destruct Hd; done); try (by destruct Hd).
    rewrite filled_spec. assert (length (zip users (zip spenders tokens)) = length users) as <-
      by (rewrite !length_zip_with; lia).
    apply mapM_indices. intros j [owner [sp token]] Hj. cbn.
    apply lookup_zip_with_Some in Hj as (? & ? & [= <- <-] & Hu & Hj).
    apply lookup_zip_with_Some in Hj as (? & ? & [= <- <-] & Hsp & Htk).
    unfold at_index. by rewrite Hu, Hsp, Htk.
Qed.
End Contract.
End BalanceChecker.

(** ** The worker *)

Section Worker.
Context {B : BigNumberLib}.
Import BalanceChecker.
Variable bn_toString : BN → string.
Variable bn_of_string : string → BN.
(** The answers of a contract at the random address, without the override. *)
Variable deployed : nat → list string → list string → string → result (list Z).

(** Milliseconds, and the limits. *)
Definition ONE_SECOND_MS : Z := 1000.
Definition DELAY_WHEN_NEW_BLOCK_FOUND : Z := ONE_SECOND_MS * 5.
Definition DELAY_WHEN_NEW_BLOCK_NOT_FOUND : Z := ONE_SECOND_MS.
Definition RFQ_FIRM_QUOTE_CACHE_EXPIRY : Z := 60000 * 2.
Definition CACHE_MAKER_TOKENS_FOR_MS : Z := RFQ_FIRM_QUOTE_CACHE_EXPIRY / 4.
Definition MAX_BALANCE_CHECKS_PER_CALL : nat := 1000.
Definition MAX_REQUEST_ERRORS : nat := 10.
Definition MAX_CACHE_RFQ_BALANCES_ERRORS : nat := 10.
Definition RFQ_ALLOWANCE_TARGET : string := "0xdef1c0ded9bec7f1a1670819833240f027b25eff".

Record BalancesCallInput : Type := { addresses : list string; tokens : list string }.

(** [makerTokens.reduce(...)]: a maker and a token per row. *)
Definition splitValues (makerTokens : list MakerBalanceChainCacheEntity) : BalancesCallInput :=
  fold_left (λ acc makerToken,
    {| addresses := addresses acc ++ [makerAddress makerToken]; tokens := tokens acc ++ [tokenAddress makerToken] |})
    makerTokens {| addresses := []; tokens := [] |}.

(** What a refresh meets: the time of the look-up and of its answer, the rows of
    the table, the time of the samples, the chain that each of the concurrent
    calls sees, and the answer of the table when it stores. *)
Record Refresh : Type := {
  lookedUpAt : Z; rowsReadAt : Z;
  rows : result (list MakerBalanceChainCacheEntity);
  updateTime : Z;
  chainOf : nat → Chain;
  stored : result unit;
}.

(** The call for one pair of chunks. *)
Definition balancesOfChunk (refresh : Refresh) (codeOverride : bool) (i : nat) (addressesChunk tokensChunk : list string)
    : result (list Z) :=
  if codeOverride then getMinOfBalancesOrAllowances (chainOf refresh i) addressesChunk tokensChunk RFQ_ALLOWANCE_TARGET
  else deployed i addressesChunk tokensChunk RFQ_ALLOWANCE_TARGET.

Definition getErc20BalancesAsync (refresh : Refresh) (codeOverride : bool) (input : BalancesCallInput)
    : result (list string) :=
  let addressesChunkedArray := chunk (addresses input) MAX_BALANCE_CHECKS_PER_CALL in
  let tokensChunkedArray := chunk (tokens input) MAX_BALANCE_CHECKS_PER_CALL in
  balances ← mapM (λ '(i, chunks), match chunks with
      | (Some addressesChunk, Some tokensChunk) => balancesOfChunk refresh codeOverride i addressesChunk tokensChunk
      | _ => Throw TypeError
      end) (imap pair (zip_padded addressesChunkedArray tokensChunkedArray));
  Ok ((λ bal, bn_toString (of_Z bal)) <$> concat balances).

(** The entities that are stored. *)
Definition entitiesOf (input : BalancesCallInput) (balances : list string) (updateTime : Z)
    : list MakerBalanceChainCacheEntity :=
  imap (λ i addr,
    {| tokenAddress := default "" (tokens input !! i); makerAddress := addr; timeFirstSeen := None;
       balance := Some (match balances !! i with Some b => bn_of_string b | None => of_number ENaN end);
       timeOfSample := Some updateTime |}) (addresses input).

Definition MakerTokenCache : Type := ResultCache.t (T := list MakerBalanceChainCacheEntity).
Definition getMakerTokensAsync (refresh : Refresh) (cache : MakerTokenCache)
    : result (list MakerBalanceChainCacheEntity) * MakerTokenCache :=
  let '(r, cache) := ResultCache.getResultAsync (λ _, false) CACHE_MAKER_TOKENS_FOR_MS (lookedUpAt refresh)
                       (rowsReadAt refresh) (rows refresh) cache "undefined" in
  (ResultCache.cached <$> r, cache).

(** The rows that the table holds afterwards are those stored, if it answers. *)
Definition cacheRfqBalancesAsync (refresh : Refresh) (codeOverride : bool) (cache : MakerTokenCache)
    : result (list MakerBalanceChainCacheEntity) * MakerTokenCache :=
  let '(makerTokens, cache) := getMakerTokensAsync refresh cache in
  ((makerTokens ← makerTokens;
    let balancesCallInput := splitValues makerTokens in
    erc20Balances ← getErc20BalancesAsync refresh codeOverride balancesCallInput;
    let toSave := entitiesOf balancesCallInput erc20Balances (updateTime refresh) in
    _ ← stored refresh;
    Ok toSave), cache).

(** *** The loop *)

Record RunnerState : Type := {
  blockRequestErrors : nat;
  cacheRfqBalanceErrors : nat;
  lastBlockSeen : Z;
  makerTokenCache : MakerTokenCache;
}.
Definition starting : RunnerState :=
  {| blockRequestErrors := 0; cacheRfqBalanceErrors := 0; lastBlockSeen := -1; makerTokenCache := ∅ |}.

Definition tooManyBlockErrors : js_error :=
  Error "too many bad Web3 requests to fetch blocks (reached limit of 10)".
Definition tooManyCacheErrors : js_error :=
  Error "too many errors from calling cacheRfqBalancesAsync (reached limit of 10)".
Definition limitReached (s : RunnerState) : option js_error :=
  if (MAX_REQUEST_ERRORS <=? blockRequestErrors s)%nat then Some tooManyBlockErrors
  else if (MAX_CACHE_RFQ_BALANCES_ERRORS <=? cacheRfqBalanceErrors s)%nat then Some tooManyCacheErrors
  else None.

(** What happened in an iteration. *)
Inductive Event : Type :=
| BlockRequestFailed
| CachingFailed (block : Z)
| Cached (block : Z) (entities : list MakerBalanceChainCacheEntity)
| NoNewBlock.
Definition delayAfter (e : Event) : option Z :=
  match e with
  | Cached _ _ => Some DELAY_WHEN_NEW_BLOCK_FOUND
  | NoNewBlock => Some DELAY_WHEN_NEW_BLOCK_NOT_FOUND
  | BlockRequestFailed | CachingFailed _ => None
  end.

(** An iteration meets the answer for the newest block, and a refresh. *)
Definition iteration (input : result Z * Refresh) (s : RunnerState) : Event * RunnerState :=
  match input.1 with
  | Throw _ =>
      (BlockRequestFailed,
       {| blockRequestErrors := S (blockRequestErrors s); cacheRfqBalanceErrors := cacheRfqBalanceErrors s;
          lastBlockSeen := lastBlockSeen s; makerTokenCache := makerTokenCache s |})
  | Ok newBlock =>
      if (lastBlockSeen s <? newBlock)%Z then
        let '(r, cache) := cacheRfqBalancesAsync input.2 true (makerTokenCache s) in
        match r with
        | Throw _ =>
            (CachingFailed newBlock,
             {| blockRequestErrors := blockRequestErrors s; cacheRfqBalanceErrors := S (cacheRfqBalanceErrors s);
                lastBlockSeen := lastBlockSeen s; makerTokenCache := cache |})
        | Ok entities =>
            (Cached newBlock entities,
             {| blockRequestErrors := blockRequestErrors s; cacheRfqBalanceErrors := cacheRfqBalanceErrors s;
                lastBlockSeen := newBlock; makerTokenCache := cache |})
        end
      else (NoNewBlock, s)
  end.

(** [while (true)], over the inputs it meets: what happened, and the exception
    that ended it before it met them all. *)
Fixpoint runRfqBalanceCacheAsync (inputs : list (result Z * Refresh)) (s : RunnerState)
    : list Event * option js_error :=
  match limitReached s with
  | Some e => ([], Some e)
  | None =>
      match inputs with
      | [] => ([], None)
      | input :: inputs =>
          let '(event, s) := iteration input s in
          let '(events, thrown) := runRfqBalanceCacheAsync inputs s in (event :: events, thrown)
      end
  end.

(** ** What is stored *)

Lemma split_values rows :
  splitValues rows = {| addresses := makerAddress <$> rows; tokens := tokenAddress <$> rows |}.
Proof.
  unfold splitValues.
  assert (∀ acc, fold_left (λ acc makerToken,
      {| addresses := addresses acc ++ [makerAddress makerToken]; tokens := tokens acc ++ [tokenAddress makerToken] |}) rows acc
    = {| addresses := addresses acc ++ (makerAddress <$> rows); tokens := tokens acc ++ (tokenAddress <$> rows) |}) as H.
  { induction rows as [|r rows IH]; intros [a t]; cbn; [by rewrite !app_nil_r|]. rewrite IH. cbn. by rewrite <- !app_assoc. }
  by rewrite H.
Qed.

(** What the chain that some call of the refresh sees lets the target take. *)
Definition sampled (refresh : Refresh) (maker token : string) (b : Z) : Prop :=
  ∃ k, spendable (chainOf refresh k) token maker RFQ_ALLOWANCE_TARGET = Ok b.

Lemma pieces_zipped {A C D} (P : A * C → D → Prop) (ca : list (list A)) (ct : list (list C)) (bss : list (list D)) :
  Forall2 (λ c c', length c = length c') ca ct →
  Forall2 (λ p bs, Forall2 P (zip p.1 p.2) bs) (zip ca ct) bss →
  Forall2 P (zip (concat ca) (concat ct)) (concat bss).
Proof.
  intros Hl. revert bss. induction Hl as [|a t ca ct Hat Hl IH]; intros bss H.
  - apply Forall2_nil_inv_l in H as ->. constructor.
  - apply Forall2_cons_inv_l in H as (bs & bss' & Hbs & Hbss & ->). cbn [concat].
    rewrite zip_with_app by done. apply Forall2_app; [exact Hbs | by apply IH].
Qed.

Lemma sampled_balances refresh input balances :
  length (addresses input) = length (tokens input) →
  getErc20BalancesAsync refresh true input = Ok balances →
  ∃ bs, balances = (λ b, bn_toString (of_Z b)) <$> bs ∧
    Forall2 (λ p b, sampled refresh p.1 p.2 b) (zip (addresses input) (tokens input)) bs.
Proof.
  unfold getErc20BalancesAsync. intros Hl H. apply result_bind_ok in H as (bss & H & [= <-]).
  exists (concat bss). split; [done|]. unfold chunk, MAX_BALANCE_CHECKS_PER_CALL in H.
  pose proof (pieces_aligned 999 _ _ Hl) as Ha.
  rewrite <- (concat_pieces 999 (addresses input)), <- (concat_pieces 999 (tokens input)).
  set (ca := pieces 999 (addresses input)) in *. set (ct := pieces 999 (tokens input)) in *.
  rewrite zip_padded_same in H by (by eapply Forall2_length). apply pieces_zipped; [exact Ha|].
  apply mapM_ok in H. apply Forall2_same_length_lookup. split.
  { apply Forall2_length in H. rewrite length_imap, length_zip_with in H. by rewrite length_zip_with. }
  intros i [a t] bs Hi Hb. apply lookup_zip_with_Some in Hi as (? & ? & [= <- <-] & Hia & Hit).
  assert (imap pair (zip_with (λ x y, (Some x, Some y)) ca ct) !! i = Some (i, (Some a, Some t))) as Hp
    by (by rewrite list_lookup_imap, lookup_zip_with, Hia, Hit).
  pose proof (Forall2_lookup_lr _ _ _ _ _ _ H Hp Hb) as Hc. cbn in Hc. unfold balancesOfChunk in Hc.
  rewrite spendable_pairs in Hc by (exact (Forall2_lookup_lr _ _ _ _ _ _ Ha Hia Hit)).
  apply mapM_ok in Hc. eapply Forall2_impl; [exact Hc|]. intros [user token] b Hs. by exists i.
Qed.

(** A row of the table, as it is stored after a refresh. *)
Record refreshed (refresh : Refresh) (row e : MakerBalanceChainCacheEntity) : Prop := {
  re_token : tokenAddress e = tokenAddress row;
  re_maker : makerAddress e = makerAddress row;
  re_time : timeOfSample e = Some (updateTime refresh);
  re_balance : ∃ b z, balance e = Some b ∧ int b z ∧ sampled refresh (makerAddress row) (tokenAddress row) z;
}.
Lemma refreshed_rows refresh cache es cache' :
  (∀ z, int (bn_of_string (bn_toString (of_Z z))) z) →
  cacheRfqBalancesAsync refresh true cache = (Ok es, cache') →
  ∃ makerTokens, getMakerTokensAsync refresh cache = (Ok makerTokens, cache') ∧
    Forall2 (refreshed refresh) makerTokens es ∧ stored refresh = Ok tt.
Proof.
  intros Htext H. unfold cacheRfqBalancesAsync in H. destruct (getMakerTokensAsync refresh cache) as [r c].
  injection H as H <-. apply result_bind_ok in H as (makerTokens & -> & H).
  apply result_bind_ok in H as (balances & Hb & H). apply result_bind_ok in H as ([] & Hs & [= <-]).
  exists makerTokens. split; [done|]. split; [|done]. rewrite split_values in *.
  apply sampled_balances in Hb as (bs & -> & Hb); [|cbn; by rewrite !length_fmap]. cbn in Hb.
  assert (zip (makerAddress <$> makerTokens) (tokenAddress <$> makerTokens) =
          (λ r, (makerAddress r, tokenAddress r)) <$> makerTokens) as E
    by (clear; induction makerTokens as [|r l IH]; [done|]; cbn; by f_equal).
  rewrite E in Hb. unfold entitiesOf. cbn [addresses tokens]. apply Forall2_same_length_lookup. split.
  { by rewrite length_imap, length_fmap. }
  intros i row e Hrow He. rewrite list_lookup_imap, !list_lookup_fmap, Hrow in He.
  cbn in He. injection He as <-.
  assert (((λ r, (makerAddress r, tokenAddress r)) <$> makerTokens) !! i = Some (makerAddress row, tokenAddress row)) as Hp
    by (by rewrite list_lookup_fmap, Hrow).
  destruct (Forall2_lookup_l _ _ _ _ _ Hb Hp) as (z & Hz & Hsz).
  split; cbn; [done | done | done |]. rewrite Hz. cbn. eexists _, z. split; [done|]. split; [apply Htext | exact Hsz].
Qed.

(** ** The loop *)

Definition failed_request (e : Event) : bool := match e with BlockRequestFailed => true | _ => false end.
Definition failed_caching (e : Event) : bool := match e with CachingFailed _ => true | _ => false end.
Definition times_of (p : Event → bool) (events : list Event) : nat := length (bfilter p events).
Lemma times_of_cons p e events : times_of p (e :: events) = ((if p e then 1 else 0) + times_of p events)%nat.
Proof. unfold times_of, bfilter. cbn. by destruct (p e). Qed.

Local Notation run := runRfqBalanceCacheAsync.

Lemma limit_reached s :
  limitReached s = if (10 <=? blockRequestErrors s)%nat then Some tooManyBlockErrors
                   else if (10 <=? cacheRfqBalanceErrors s)%nat then Some tooManyCacheErrors else None.
Proof. reflexivity. Qed.
Lemma run_counts inputs s events thrown :
  (blockRequestErrors s <= 10 ∧ cacheRfqBalanceErrors s <= 10 ∧ blockRequestErrors s + cacheRfqBalanceErrors s <= 19)%nat →
  run inputs s = (events, thrown) →
  let b := (blockRequestErrors s + times_of failed_request events)%nat in
  let c := (cacheRfqBalanceErrors s + times_of failed_caching events)%nat in
  (b <= 10 ∧ c <= 10 ∧ b + c <= 19)%nat ∧
  thrown = (if (10 <=? b)%nat then Some tooManyBlockErrors else if (10 <=? c)%nat then Some tooManyCacheErrors else None) ∧
  (thrown = None → length events = length inputs).
Proof.
  revert s events thrown. induction inputs as [|input inputs IH]; intros s events thrown (Hs1 & Hs2 & Hs3);
    cbn [runRfqBalanceCacheAsync]; rewrite (limit_reached s);
    destruct (Nat.leb_spec 10 (blockRequestErrors s)) as [Hb|Hb].
  1, 3: intros [= <- <-]; cbn -[Nat.leb]; rewrite !Nat.add_0_r, (proj2 (Nat.leb_le _ _) Hb); by split_and!.
  all: destruct (Nat.leb_spec 10 (cacheRfqBalanceErrors s)) as [Hc|Hc].
  1, 3: intros [= <- <-]; cbn -[Nat.leb]; rewrite !Nat.add_0_r, (proj2 (Nat.leb_gt _ _) Hb), (proj2 (Nat.leb_le _ _) Hc); by split_and!.
  - intros [= <- <-]. cbn -[Nat.leb]. rewrite !Nat.add_0_r, (proj2 (Nat.leb_gt _ _) Hb), (proj2 (Nat.leb_gt _ _) Hc). by split_and!.
  - destruct (iteration input s) as [event s1] eqn:Ei.
    destruct (run inputs s1) as [events1 thrown1] eqn:Er. intros [= <- <-].
    assert (blockRequestErrors s1 = (blockRequestErrors s + if failed_request event then 1 else 0)%nat ∧
      cacheRfqBalanceErrors s1 = (cacheRfqBalanceErrors s + if failed_caching event then 1 else 0)%nat ∧
      negb (failed_request event && failed_caching event) = true) as (Eb & Ec & Hone).
    { unfold iteration in Ei. destruct input.1; [|injection Ei as <- <-; cbn; lia].
      destruct (_ <? _)%Z; [|injection Ei as <- <-; cbn; lia].
      destruct (cacheRfqBalancesAsync _ _ _) as [[es|e] cache]; injection Ei as <- <-; cbn; lia. }
    apply IH in Er.
    + rewrite Eb, Ec, <- !(Nat.add_assoc (_ s)) in Er. cbn [length]. rewrite !times_of_cons.
      destruct Er as (H1 & H2 & H3). split; [lia|]. split; [exact H2|]. intros Hn. by rewrite H3.
    + rewrite Eb, Ec. destruct (failed_request event), (failed_caching event); cbn in *; try done; lia.
Qed.

(** C20. The worker lives until the tenth failure to learn the newest block, or the
    tenth failure to refresh, however many refreshes succeed in between, and
    ends with the exception that says which: it survives at most 18 failures,
    so that where nothing succeeds any more it ends. *)
Theorem worker_ends_at_tenth_failure inputs events thrown :
  run inputs starting = (events, thrown) →
  (thrown = None ↔ (times_of failed_request events < 10 ∧ times_of failed_caching events < 10)%nat) ∧
  (thrown = Some tooManyBlockErrors ↔ times_of failed_request events = 10%nat) ∧
  (thrown = Some tooManyCacheErrors ↔ times_of failed_caching events = 10%nat) ∧
  (thrown = None → length events = length inputs) ∧
  ((forall e, e ∈ events → failed_request e || failed_caching e = true) → thrown = None → (length inputs <= 18)%nat).
Proof.
  intros H. apply run_counts in H as ((H1 & H2 & H3) & Ht & Hl); [|cbn; lia]. cbn [starting blockRequestErrors cacheRfqBalanceErrors] in *.
  rewrite !Nat.add_0_l in *.
  assert ((∀ e, e ∈ events → failed_request e || failed_caching e = true) →
    (length events <= times_of failed_request events + times_of failed_caching events)%nat) as Hall.
  { clear. induction events as [|e events IH]; intros H; [done|]. rewrite !times_of_cons.
    specialize (IH (λ e' He, H e' (list_elem_of_further _ _ _ He))). specialize (H e (list_elem_of_here _ _)). cbn.
    destruct (failed_request e), (failed_caching e); cbn in *; try done; lia. }
  destruct (Nat.leb_spec 10 (times_of failed_request events)) as [Hb|Hb];
    [|destruct (Nat.leb_spec 10 (times_of failed_caching events)) as [Hc|Hc]]; rewrite Ht in *.
  - split_and!; try done; split; try done; lia.
  - split_and!; try done; split; try done; lia.
  - split_and!; try done; try (split; [done | lia]).
    intros Hf _. specialize (Hall Hf). rewrite (Hl eq_refl) in Hall. lia.
Qed.

(** *** Blocks *)

Definition cached_blocks (events : list Event) : list Z :=
  omap (λ e, match e with Cached b _ => Some b | _ => None end) events.

Lemma run_blocks inputs s events thrown :
  run inputs s = (events, thrown) → StronglySorted Z.lt (lastBlockSeen s :: cached_blocks events).
Proof.
  revert s events thrown. induction inputs as [|input inputs IH]; intros s events thrown; cbn [runRfqBalanceCacheAsync];
    destruct (limitReached s); try (intros [= <- <-]; by repeat constructor).
  destruct (iteration input s) as [event s1] eqn:Ei. destruct (run inputs s1) as [events1 thrown1] eqn:Er.
  intros [= <- <-]. apply IH in Er. unfold iteration in Ei.
  destruct input.1 as [b|e]; [|by injection Ei as <- <-].
  destruct (Z.ltb_spec (lastBlockSeen s) b) as [Hb|Hb]; [|by injection Ei as <- <-].
  destruct (cacheRfqBalancesAsync _ _ _) as [[es|e] cache]; injection Ei as <- <-; [|exact Er].
  cbn. constructor; [exact Er|]. constructor; [exact Hb|]. apply StronglySorted_inv in Er as [_ Hall].
  eapply Forall_impl; [exact Hall|]. cbn. lia.
Qed.

(** Balances are cached in the order of the blocks, for no block twice and for
    none before one that was seen; a block whose refresh fails is tried again. *)
Theorem blocks_cached_in_order inputs events thrown :
  run inputs starting = (events, thrown) →
  StronglySorted Z.lt (cached_blocks events) ∧ Forall (Z.le 0) (cached_blocks events) ∧
  ∀ input s block, (iteration input s).1 = CachingFailed block → lastBlockSeen (iteration input s).2 = lastBlockSeen s.
Proof.
  intros H. apply run_blocks in H as H1. apply StronglySorted_inv in H1 as [H1 H2]. split; [exact H1|]. split.
  - eapply Forall_impl; [exact H2|]. cbn. lia.
  - intros input s block. unfold iteration. destruct input.1; [|done]. destruct (_ <? _)%Z; [|done].
    by destruct (cacheRfqBalancesAsync _ _ _) as [[es|e] cache].
Qed.

(** *** From the chain to firm quotes *)

Section Quotes.
(** The table, as the validator queries it, and its time and threshold. *)
Variable find : string → list string → result (list MakerBalanceChainCacheEntity).
Variable insertAddresses : string → list string → result unit.
Variable nowUnix threshold : Z.

(** C15. End to end, from a refresh to the validation of firm quotes: a quote of a
    maker whose row was refreshed is found fillable for exactly what the maker's
    balance and allowance, as some call of the refresh saw them, cover, and for
    nothing when the refresh is older than the threshold. *)
Theorem firm_quotes_covered refresh cache es cache' quotes makerToken rs amounts :
  (∀ z, int (bn_of_string (bn_toString (of_Z z))) z) →
  (∀ k token owner b, spendable (chainOf refresh k) token owner RFQ_ALLOWANCE_TARGET = Ok b → (0 <= b)%Z) →
  cacheRfqBalancesAsync refresh true cache = (Ok es, cache') →
  quotes ≠ [] → Forall (λ q, toLowerCase (order_makerToken q) = makerToken) quotes →
  find makerToken (uniq ((λ q, toLowerCase (order_maker q)) <$> quotes)) = Ok rs →
  Forall (λ r, r ∈ es ∧ tokenAddress r = makerToken) rs →
  (∀ addresses, is_ok (insertAddresses makerToken addresses) = true) →
  postgres_getRfqtTakerFillableAmountsAsync find insertAddresses nowUnix threshold quotes = Ok amounts →
  Forall2 (λ q a, ∀ m t f, order_ok q m t f → (∃ r, r ∈ rs ∧ makerAddress r = toLowerCase (order_maker q)) →
    ∃ x, int a x ∧ (0 <= x <= t)%Z ∧
      if (threshold <? nowUnix - updateTime refresh)%Z then x = 0%Z
      else ∃ b, sampled refresh (toLowerCase (order_maker q)) makerToken b ∧
        x = (if (m <=? b)%Z then t else (b * t / m)%Z) ∧ (x * m / t <= b)%Z) quotes amounts.
Proof.
  intros Htext Hpos Hc Hne Hmk Hf Hrs Hins H. rewrite (postgres_amounts _ _ _ _ _ makerToken rs) in H by done.
  apply Ok_inj in H as <-. cbn [snd _calculateTakerFillableAmountsFromQuotes].
  apply Forall2_fmap_r, Forall_Forall2_diag, Forall_forall. intros q _ m t f Ho Hrow.
  apply refreshed_rows in Hc as (rows' & _ & Hre & _); [|exact Htext].
  destruct (makerLookup_row nowUnix threshold rs (toLowerCase (order_maker q))) as [Hb Hsome].
  destruct (Hsome Hrow) as [bal Hbal]. destruct (Hb bal Hbal) as (r & Hr & Hmaker & ->).
  rewrite Forall_forall in Hrs. destruct (Hrs r Hr) as [Hes Htoken].
  apply list_elem_of_lookup_1 in Hes as [i Hi]. destruct (Forall2_lookup_r _ _ _ _ _ Hre Hi) as (row & _ & [Et Em Eti Eb]).
  destruct Eb as (b & z & Eb & Hz & Hs). rewrite <- Et, <- Em, Htoken, Hmaker in Hs.
  unfold RfqValidator.balanceOf. rewrite Hbal.
  assert (known_balance (Some (_calculateMakerBalanceFromResult nowUnix threshold r))
    (Some (if (threshold <? nowUnix - updateTime refresh)%Z then 0%Z else z))) as Hk.
  { unfold _calculateMakerBalanceFromResult. rewrite Eti, Eb.
    destruct (threshold <? nowUnix - updateTime refresh)%Z; constructor; [apply fin_Z | lia | exact Hz|].
    destruct Hs as [k Hs]. by eapply Hpos. }
  destruct (takerFillable_spec _ _ _ _ _ _ Hk Ho) as (Hx & Hr' & Hcov).
  eexists. split; [exact Hx|]. split; [exact Hr'|].
  pose proof (ok_m _ _ _ _ Ho). pose proof (ok_t _ _ _ _ Ho).
  destruct (threshold <? nowUnix - updateTime refresh)%Z.
  - unfold fillable. destruct (Z.leb_spec m 0); [lia | by rewrite Z.mul_0_l, Z.div_0_l by lia].
  - exists z. split_and!; [exact Hs | done | by apply Hcov].
Qed.
End Quotes.
End Worker.

(** ** The last look ([QuoteServerClient]) *)

Section LastLook.
Context {B : BigNumberLib}.

Record Fee : Type := { fee_amount : BN; fee_token : string; fee_type : string }.
Record SubmitRequest : Type := { sr_fee : Fee; sr_orderHash : string; sr_takerTokenFillAmount : BN }.
(** The body of a response; [None] is a member that is missing, or is not of the
    type that is compared. *)
Record SubmitReceipt : Type := {
  rc_fee : option (string * string * string);
  rc_signedOrderHash : option string;
  rc_takerTokenFillAmount : option string;
  rc_proceedWithFill : option bool;
}.

(** The request, the validator of the schema, and amounts: their text, its
    reading, and whether two are the same object by content ([_.isEqual]). *)
Variable post : string → SubmitRequest → result SubmitReceipt.
Variable schemaErrors : SubmitReceipt → list string.
Variable bn_toString : BN → string.
Variable bn_of_string : string → BN.
Variable bn_isEqual : BN → BN → bool.

Definition isEqualFee (a b : Fee) : bool :=
  bn_isEqual (fee_amount a) (fee_amount b) && String.eqb (fee_token a) (fee_token b) &&
  String.eqb (fee_type a) (fee_type b).

(** The body of the [try]. *)
Definition lastLook (makerUri : string) (payload : SubmitRequest) : result bool :=
  data ← post (makerUri +:+ "/submit") payload;
  match schemaErrors data with
  | _ :: _ as errors => Throw (Error ("Error from validator: " +:+ String.concat "," errors))
  | [] =>
      match rc_fee data with
      | None => Throw TypeError
      | Some (amount, token, type) =>
          let responseFee := {| fee_amount := bn_of_string amount; fee_token := token; fee_type := type |} in
          if negb (isEqualFee responseFee (sr_fee payload)) then Throw (Error "Fee in response is not equal to fee in request")
          else if negb (bool_decide (rc_signedOrderHash data = Some (sr_orderHash payload)))
          then Throw (Error ("Requested trade for order hash " +:+ sr_orderHash payload +:+ " - received response for order hash "
            +:+ default "undefined" (rc_signedOrderHash data)))
          else if negb (bool_decide (rc_takerTokenFillAmount data = Some (bn_toString (sr_takerTokenFillAmount payload))))
          then Throw (Error "takerTokenFillableAmount in response is not equal to takerTokenFillableAmount in request")
          else Ok (bool_decide (rc_proceedWithFill data = Some true))
      end
  end.
Definition confirmLastLookAsync (makerUri : string) (payload : SubmitRequest) : bool :=
  match lastLook makerUri payload with Ok b => b | Throw _ => false end.

(** A maker confirms exactly with a valid receipt for the order, the amount and
    the fee of the request that says to proceed; whatever else happens, no
    answer included, is a refusal. *)
Theorem last_look_confirms makerUri payload :
  confirmLastLookAsync makerUri payload = true ↔
  ∃ data amount token type, post (makerUri +:+ "/submit") payload = Ok data ∧ schemaErrors data = [] ∧
    rc_fee data = Some (amount, token, type) ∧
    bn_isEqual (bn_of_string amount) (fee_amount (sr_fee payload)) = true ∧
    token = fee_token (sr_fee payload) ∧ type = fee_type (sr_fee payload) ∧
    rc_signedOrderHash data = Some (sr_orderHash payload) ∧
    rc_takerTokenFillAmount data = Some (bn_toString (sr_takerTokenFillAmount payload)) ∧
    rc_proceedWithFill data = Some true.
Proof.
  unfold confirmLastLookAsync, lastLook. destruct (post _ _) as [data|e]; cbn; [|split; [done | by intros (? & ? & ? & ? & ? & _)]].
  destruct (schemaErrors data) eqn:Es; [|split; [done|]; intros (d & ? & ? & ? & [= <-] & Hd & _); congruence].
  destruct (rc_fee data) as [[[amount token] type]|] eqn:Ef;
    [|split; [done|]; intros (d & ? & ? & ? & [= <-] & _ & Hd & _); congruence].
  unfold isEqualFee. cbn [fee_amount fee_token fee_type]. split.
  - destruct (bn_isEqual _ _) eqn:E1; cbn [andb negb]; [|done].
    destruct (String.eqb_spec token (fee_token (sr_fee payload))); cbn [andb negb]; [|done].
    destruct (String.eqb_spec type (fee_type (sr_fee payload))); cbn [andb negb]; [|done].
    repeat case_bool_decide; cbn [negb]; try done. intros _. exists data, amount, token, type. by split_and!.
  - intros (d & a & tk & ty & [= <-] & _ & Hf & Ha & -> & -> & Ho & Hta & Hp). rewrite Ef in Hf. injection Hf as -> -> ->.
    rewrite Ha, !String.eqb_refl, Ho, Hta, Hp. cbn [andb negb]. by rewrite !bool_decide_true.
Qed.
End LastLook.

(** ** The dynamic blacklist ([RfqDynamicBlacklist]) *)

Module RfqDynamicBlacklist.
Import RfqBlockedAddressUtils.
Definition t : Type := RfqBlockedAddressUtils.t.

Definition new (initialBlockedSet : gset string) (now : Z) : t := RfqBlockedAddressUtils.new initialBlockedSet now.
Definition create (ENABLE_RFQT_TX_ORIGIN_BLACKLIST connected : bool) (RFQT_TX_ORIGIN_BLACKLIST : gset string) (now : Z)
    : option t :=
  if negb ENABLE_RFQT_TX_ORIGIN_BLACKLIST || negb connected then None else Some (new RFQT_TX_ORIGIN_BLACKLIST now).
Definition has (now : Z) (value : string) (this : t) : bool * t := isBlocked now value this.
Definition with_blocked (blocked : gset string) (this : t) : t :=
  {| _blocked := blocked; _expiresAt := _expiresAt this; _updating := _updating this |}.
Definition add (value : string) (this : t) : t := with_blocked ({[value]} ∪ _blocked this) this.
Definition clear (this : t) : t := with_blocked ∅ this.
Definition delete (value : string) (this : t) : bool * t :=
  (bool_decide (value ∈ _blocked this), with_blocked (_blocked this ∖ {[value]}) this).

(** What was added is found, under any letter case, only if it was added in
    lower case, and what was deleted is gone, only if it was deleted in lower
    case: the set keeps the text as it is, the look-up lowers it. *)
Theorem blacklist_reads_lower_case now value query this :
  ((has now query (add value this)).1 = true ↔ toLowerCase query = value ∨ (has now query this).1 = true) ∧
  ((has now query (delete value this).2).1 = true ↔ (has now query this).1 = true ∧ toLowerCase query ≠ value) ∧
  (has now query (clear this)).1 = false.
Proof.
  unfold has, isBlocked, add, delete, clear, with_blocked. cbn [fst snd _blocked]. rewrite !bool_decide_eq_true.
  split_and!; [| | by apply bool_decide_eq_false; apply not_elem_of_empty].
  - rewrite elem_of_union, elem_of_singleton. done.
  - rewrite elem_of_difference, elem_of_singleton. done.
Qed.
Example added_in_upper_case_is_not_found : (has 0 "0xA" (add "0xA" (new ∅ 0))).1 = false.
Proof. vm_compute. reflexivity. Qed.
End RfqDynamicBlacklist.

(** ** Concrete runs *)
Module WorkerExamples.
Import Concrete OrderbookExamples BalanceChecker.

Definition print : BN (BigNumberLib := QBigNumber) → string := print_decimal.
Definition read : string → BN (BigNumberLib := QBigNumber) := read_decimal.

(** Every maker holds 700 of every token, and lets the target take 500. *)
Definition ex_chain : Chain :=
  {| ether := λ _, 0%Z; BalanceChecker.balanceOf := λ _ _, Ok 700%Z; allowance := λ _ _ _, Ok 500%Z |}.
Definition ex_refresh : Refresh :=
  {| lookedUpAt := 10; rowsReadAt := 20; rows := Ok [ex_entity]; updateTime := 30; chainOf := λ _, ex_chain; stored := Ok tt |}.
Definition no_contract (_ : nat) (_ _ : list string) (_ : string) : result (list Z) := Throw TypeError.
Definition ex_run (inputs : list (result Z * Refresh)) : list Event * option js_error :=
  runRfqBalanceCacheAsync print read no_contract inputs starting.
End WorkerExamples.
Import Concrete OrderbookExamples WorkerExamples.

Lemma worker_ends_at_tenth_failure_witness :
  ∃ events, ex_run (replicate 12 (Throw TypeError, ex_refresh)) = (events, Some tooManyBlockErrors) ∧
    times_of failed_request events = 10%nat.
Proof.
  assert ((ex_run (replicate 12 (Throw TypeError, ex_refresh))).2 = Some tooManyBlockErrors) as K by (vm_compute; reflexivity).
  destruct (ex_run (replicate 12 (Throw TypeError, ex_refresh))) as [events thrown] eqn:E. cbn [snd] in K. subst thrown.
  exists events. split; [reflexivity|]. unfold ex_run in E.
  exact (proj1 (proj1 (proj2 (worker_ends_at_tenth_failure _ _ _ _ _ _ E))) eq_refl).
Defined.

Lemma blocks_cached_in_order_witness :
  ∃ events thrown, ex_run [(Ok 7%Z, ex_refresh); (Ok 7%Z, ex_refresh); (Ok 9%Z, ex_refresh)] = (events, thrown) ∧
    cached_blocks events = [7; 9]%Z ∧ StronglySorted Z.lt (cached_blocks events).
Proof.
  assert (bool_decide (cached_blocks (ex_run [(Ok 7%Z, ex_refresh); (Ok 7%Z, ex_refresh); (Ok 9%Z, ex_refresh)]).1 = [7; 9]%Z)
    = true) as K by (vm_compute; reflexivity).
  destruct (ex_run _) as [events thrown] eqn:E. exists events, thrown. split; [reflexivity|].
  split; [by apply bool_decide_eq_true in K|]. unfold ex_run in E. exact (proj1 (blocks_cached_in_order _ _ _ _ _ _ E)).
Defined.

Lemma firm_quotes_covered_witness :
  ∃ es cache fresh stale,
    cacheRfqBalancesAsync print read no_contract ex_refresh true ∅ = (Ok es, cache) ∧
    postgres_getRfqtTakerFillableAmountsAsync (λ _ _, Ok es) ex_insert 40 60 [Fills.ex_order] = Ok fresh ∧
    postgres_getRfqtTakerFillableAmountsAsync (λ _ _, Ok es) ex_insert 400 60 [Fills.ex_order] = Ok stale ∧
    Forall (λ a, ∃ x b, int a x ∧ sampled ex_refresh "0xmaker" "0xm" b ∧
      x = (if (1000 <=? b)%Z then 300%Z else (b * 300 / 1000)%Z)) fresh ∧
    Forall (λ a, int a 0) stale.
Proof.
  assert (match cacheRfqBalancesAsync print read no_contract ex_refresh true ∅ with
          | (Ok es, _) => bool_decide ((tokenAddress <$> es) = ["0xm"%string]) && bool_decide ((makerAddress <$> es) = ["0xmaker"%string]) &&
              is_ok (postgres_getRfqtTakerFillableAmountsAsync (λ _ _, Ok es) ex_insert 40 60 [Fills.ex_order]) &&
              is_ok (postgres_getRfqtTakerFillableAmountsAsync (λ _ _, Ok es) ex_insert 400 60 [Fills.ex_order])
          | _ => false end = true) as K by (vm_compute; reflexivity).
  destruct (cacheRfqBalancesAsync print read no_contract ex_refresh true ∅) as [[es|] cache] eqn:E; [|discriminate K].
  apply andb_true_iff in K as [[[K1%bool_decide_eq_true K2%bool_decide_eq_true]%andb_true_iff K3]%andb_true_iff K4].
  destruct (postgres_getRfqtTakerFillableAmountsAsync (λ _ _, Ok es) ex_insert 40 60 [Fills.ex_order]) as [fresh|] eqn:Ef; [|discriminate K3].
  destruct (postgres_getRfqtTakerFillableAmountsAsync (λ _ _, Ok es) ex_insert 400 60 [Fills.ex_order]) as [stale|] eqn:Es; [|discriminate K4].
  exists es, cache, fresh, stale. split; [reflexivity|]. split; [exact Ef|]. split; [exact Es|].
  destruct es as [|e [|e' es]]; try discriminate K1. injection K1 as K1. injection K2 as K2.
  assert (∀ now amounts, postgres_getRfqtTakerFillableAmountsAsync (λ _ _, Ok [e]) ex_insert now 60 [Fills.ex_order] = Ok amounts →
    Forall (λ a, ∃ x, int a x ∧ (0 <= x <= 300)%Z ∧
      if (60 <? now - updateTime ex_refresh)%Z then x = 0%Z
      else ∃ b, sampled ex_refresh "0xmaker" "0xm" b ∧
        x = (if (1000 <=? b)%Z then 300%Z else (b * 300 / 1000)%Z) ∧ (x * 1000 / 300 <= b)%Z) amounts) as H.
  { intros now amounts Ha.
    pose proof (firm_quotes_covered print read no_contract (λ _ _, Ok [e]) ex_insert now 60 ex_refresh ∅ [e] cache
      [Fills.ex_order] "0xm" [e] amounts) as G. eapply Forall2_cons_inv_l in G as (a & rest & G & Gr & ->).
    - apply Forall2_nil_inv_l in Gr as ->. constructor; [|constructor]. refine (G 1000%Z 300%Z 7%Z _ _).
      + split; try (apply (fin_Z (B := QBigNumber))); vm_compute; intuition congruence.
      + exists e. split; [by apply list_elem_of_singleton | rewrite K2; reflexivity].
    - intros z. apply read_print, (fin_Z (B := QBigNumber)).
    - intros k token owner b. unfold BalanceChecker.spendable. cbn. destruct (BalanceChecker.isEth token); intros [= <-]; lia.
    - exact E.
    - discriminate.
    - repeat constructor.
    - reflexivity.
    - constructor; [|constructor]. split; [by apply list_elem_of_singleton | exact K1].
    - reflexivity.
    - exact Ha. }
  pose proof (H _ _ Ef) as Hf. pose proof (H _ _ Es) as Hs.
  split; (eapply Forall_impl; [first [exact Hf | exact Hs]|]); cbn.
  - intros a (x & Hx & _ & b & Hsb & Hb & _). exists x, b. split_and!; [exact Hx | exact Hsb | exact Hb].
  - intros a (x & Hx & _ & ->). exact Hx.
Defined.


