(* ===== verification/QuoterSetup.v ===== *)
(** * Setting up the quoter ([options.ts], [asset-swapper/constants.ts], the
    constructors of [asset-swapper/swap_quoter.ts] and [services/swap_service.ts],
    [MOU/bancor_service.ts])

    The options of the quoter as the objects that are spread over one another,
    the overrides of the sampler's call, and the layers of the options of a
    request.  A key that an object may lack is an [option]; a key whose value may
    be [undefined] as well is an [option] of one.  The artifacts, the provider,
    the assertions and the Bancor SDK are libraries, and parameters. *)

From S2P Require Import Prelude JsLib JsNumber BigNum Types SourceFilters Fills Orders Constants GasSchedule PathModel.
From S2P Require Import Optimizer Simulation QuoteInfo FeeCalculator Caches BridgeSources TokenGraph Tokens PoolTables BalancerPools.
From S2P Require Import SlippageModel QuoteReport RfqClient RfqValidator MarketOps Quotes SwapQuoter RequestParsing ServiceUtils.
From S2P Require Import SwapService RfqWorker.

#[local] Set Default Proof Using "Type".

(** ** The paths of Bancor ([bancor_service.ts]) *)

Module BancorService.
Section BancorService.
(** The keys of the graph of the SDK's blockchain, whose reading may throw, and
    its search of paths; a token that is not found is [undefined]. *)
Variable graph : result (list string).
Variable getPathsFunc : option string → option string → result (list (list string)).

Definition NATIVE_PLACEHOLDER : string := "0xeeeeeeeeeeeeeeeeeeeeeeeeeeeeeeeeeeeeeeee".
Definition findToken (tokenAddress : string) (keys : list string) : option string :=
  if String.eqb (toLowerCase tokenAddress) (toLowerCase MAINNET_TOKENS.WETH) then Some NATIVE_PLACEHOLDER
  else head (bfilter (λ k, String.eqb (toLowerCase k) (toLowerCase tokenAddress)) keys).

Definition getPaths (_fromToken _toToken : string) : list (list string) :=
  match (keys ← graph;
         getPathsFunc (findToken _fromToken keys) (findToken _toToken keys)) with
  | Ok paths => paths
  | Throw _ => []
  end.

(** A token is found in whatever case it is written, as the graph spells it. *)
Lemma findToken_spec tokenAddress g t :
  findToken tokenAddress g = Some t →
  t = NATIVE_PLACEHOLDER ∧ toLowerCase tokenAddress = toLowerCase MAINNET_TOKENS.WETH ∨
  t ∈ g ∧ toLowerCase t = toLowerCase tokenAddress.
Proof.
  unfold findToken. destruct (String.eqb_spec (toLowerCase tokenAddress) (toLowerCase MAINNET_TOKENS.WETH)) as [E|_].
  - intros [= <-]. by left.
  - intros H%head_Some_elem_of. apply elem_of_bfilter in H as [H E%String.eqb_eq]. by right.
Qed.
Lemma findToken_case a b g : toLowerCase a = toLowerCase b → findToken a g = findToken b g.
Proof. unfold findToken. by intros ->. Qed.
End BancorService.
End BancorService.

Section Setup.
Context {B : BigNumberLib}.
(** [BlockParam] with [BlockParamLiteral.Latest], and the addresses of a
    deployment. *)
Context {BlockParam Addresses : Type}.
Variable Latest : BlockParam.
Variable exchangeProxy erc20BridgeSampler : Addresses → string.

(** ** The options of the quoter *)

(** The code that replaces that of an address in a call; a missing artifact is
    [undefined]. *)
Record SamplerOverrides : Type := {
  overrides : list (string * option string);
  block : BlockParam;
  to : option string;
}.
(** [{...base, ...o}] and [_.assign(base, o)]. *)
Definition assignOverrides (base : SamplerOverrides) (o : option SamplerOverrides) : SamplerOverrides :=
  match o with
  | None => base
  | Some o => {| overrides := overrides o; block := block o;
                 to := match to o with Some t => Some t | None => to base end |}
  end.

(** A [Set], or an object of the same interface. *)
Inductive TxOriginBlacklist : Type :=
| BlockedSet (s : gset string)
| DynamicBlacklist (d : RfqDynamicBlacklist.t).
Definition blockedNow (b : TxOriginBlacklist) : gset string :=
  match b with BlockedSet s => s | DynamicBlacklist d => RfqBlockedAddressUtils._blocked d end.

Record QuoterRfqOpts : Type := {
  rq_integratorsWhitelist : list Integrator;
  rq_txOriginBlacklist : TxOriginBlacklist;
}.

Record SwapQuoterOpts : Type := {
  sqo_chainId : ChainId;
  sqo_orderRefreshIntervalMs : number;
  sqo_expiryBufferMs : number;
  sqo_permittedOrderFeeTypes : list OrderPrunerPermittedFeeTypes;
  sqo_contractAddresses : option Addresses;
  sqo_samplerGasLimit : option number;
  sqo_zeroExGasApiUrl : option string;
  sqo_rfqt : option QuoterRfqOpts;
  sqo_samplerOverrides : option SamplerOverrides;
  sqo_tokenAdjacencyGraph : option TokenAdjacencyGraph;
}.
Record PartialSwapQuoterOpts : Type := {
  psq_chainId : option ChainId;
  psq_orderRefreshIntervalMs : option number;
  psq_expiryBufferMs : option number;
  psq_permittedOrderFeeTypes : option (list OrderPrunerPermittedFeeTypes);
  psq_contractAddresses : option (option Addresses);
  psq_samplerGasLimit : option (option number);
  psq_zeroExGasApiUrl : option (option string);
  psq_rfqt : option (option QuoterRfqOpts);
  psq_samplerOverrides : option (option SamplerOverrides);
  psq_tokenAdjacencyGraph : option (option TokenAdjacencyGraph);
}.
(** [{...base, ...o}]: a key of [o] wins, [undefined] or not. *)
Definition spreadOpts (base : SwapQuoterOpts) (o : PartialSwapQuoterOpts) : SwapQuoterOpts :=
  {| sqo_chainId := default (sqo_chainId base) (psq_chainId o);
     sqo_orderRefreshIntervalMs := default (sqo_orderRefreshIntervalMs base) (psq_orderRefreshIntervalMs o);
     sqo_expiryBufferMs := default (sqo_expiryBufferMs base) (psq_expiryBufferMs o);
     sqo_permittedOrderFeeTypes := default (sqo_permittedOrderFeeTypes base) (psq_permittedOrderFeeTypes o);
     sqo_contractAddresses := default (sqo_contractAddresses base) (psq_contractAddresses o);
     sqo_samplerGasLimit := default (sqo_samplerGasLimit base) (psq_samplerGasLimit o);
     sqo_zeroExGasApiUrl := default (sqo_zeroExGasApiUrl base) (psq_zeroExGasApiUrl o);
     sqo_rfqt := default (sqo_rfqt base) (psq_rfqt o);
     sqo_samplerOverrides := default (sqo_samplerOverrides base) (psq_samplerOverrides o);
     sqo_tokenAdjacencyGraph := default (sqo_tokenAdjacencyGraph base) (psq_tokenAdjacencyGraph o) |}.

(** *** [asset-swapper/constants.ts] *)

Definition ZERO_EX_GAS_API_URL : string := "https://gas.api.0x.org/source/median".
Definition PROTOCOL_FEE_UTILS_POLLING_INTERVAL_IN_MS : Z := 6000.
(** The two [DEFAULT_ORDER_PRUNER_OPTS]. *)
Definition PRUNER_EXPIRY_BUFFER_MS : number := n_Z 120000.
Definition PRUNER_FEE_TYPES : list OrderPrunerPermittedFeeTypes := [NoFees].

Variable etherToken : ChainId → string.
Definition DEFAULT_SWAP_QUOTER_OPTS : result SwapQuoterOpts :=
  graph ← Tables.DEFAULT_TOKEN_ADJACENCY_GRAPH_BY_CHAIN_ID etherToken ChainId.Mainnet;
  Ok {| sqo_chainId := ChainId.Mainnet;
        sqo_orderRefreshIntervalMs := n_Z 10000;
        sqo_expiryBufferMs := PRUNER_EXPIRY_BUFFER_MS;
        sqo_permittedOrderFeeTypes := PRUNER_FEE_TYPES;
        sqo_contractAddresses := None;
        sqo_samplerGasLimit := Some (n_Z 500000000);
        sqo_zeroExGasApiUrl := Some ZERO_EX_GAS_API_URL;
        sqo_rfqt := Some {| rq_integratorsWhitelist := []; rq_txOriginBlacklist := BlockedSet ∅ |};
        sqo_samplerOverrides := None;
        sqo_tokenAdjacencyGraph := Some graph |}.

(** *** [options.ts] *)

Variable CHAIN_ID : ChainId.
Variable RFQT_INTEGRATORS : list Integrator.
Variable RFQT_TX_ORIGIN_BLACKLIST : gset string.
Variable GAS_API_URL : string.
Definition QUOTE_ORDER_EXPIRATION_BUFFER_MS : number := n_mul (n_Z 1000) (n_Z 60).

Definition SAMPLER_OVERRIDES : option SamplerOverrides :=
  match CHAIN_ID with
  | ChainId.Ganache => Some {| overrides := []; block := Latest; to := None |}
  | _ => None
  end.
Definition SWAP_QUOTER_RFQT_OPTS : QuoterRfqOpts :=
  {| rq_integratorsWhitelist := RFQT_INTEGRATORS; rq_txOriginBlacklist := BlockedSet RFQT_TX_ORIGIN_BLACKLIST |}.
(** Its [rfqt] is the object [SWAP_QUOTER_RFQT_OPTS] itself, which is an argument
    because it does not stay as it is. *)
Definition SWAP_QUOTER_OPTS (rfqt : QuoterRfqOpts) : result PartialSwapQuoterOpts :=
  graph ← Tables.DEFAULT_TOKEN_ADJACENCY_GRAPH_BY_CHAIN_ID etherToken CHAIN_ID;
  Ok {| psq_chainId := Some CHAIN_ID;
        psq_orderRefreshIntervalMs := None;
        psq_expiryBufferMs := Some QUOTE_ORDER_EXPIRATION_BUFFER_MS;
        psq_permittedOrderFeeTypes := Some [NoFees];
        psq_contractAddresses := None;
        psq_samplerGasLimit := None;
        psq_zeroExGasApiUrl := Some (Some GAS_API_URL);
        psq_rfqt := Some (Some rfqt);
        psq_samplerOverrides := Some SAMPLER_OVERRIDES;
        psq_tokenAdjacencyGraph := Some (Some graph) |}.

(** ** The constructor of the quoter *)

Context {Provider GasPrices : Type}.
Variable standardizeOrThrow : Provider → result Provider.
(** [assert.isValidOrderbook] and [assert.isNumber]. *)
Variable isValidOrderbook : result unit.
Variable isNumber : string → result unit.
Variable getContractAddressesForChainOrThrow : ChainId → result Addresses.
(** The deployed bytecode of the two artifacts. *)
Variable samplerBytecode uniV3MultiQuoterBytecode : option string.

Definition SAMPLER_ADDRESS : string := "0x5555555555555555555555555555555555555555".
Definition UNISWAP_V3_MULTIQUOTER_ADDRESS : string := "0x5555555555555555555555555555555555555556".

(** [GasPriceUtils.getInstance]: one instance per URL. *)
Definition getInstance (zeroExGasApiUrl : option string) (_instances : gmap string (GasPriceUtils.t (GasPrices := GasPrices)))
    : GasPriceUtils.t (GasPrices := GasPrices) * gmap string (GasPriceUtils.t (GasPrices := GasPrices)) :=
  let url := default ZERO_EX_GAS_API_URL zeroExGasApiUrl in
  match _instances !! url with
  | Some instance => (instance, _instances)
  | None => (GasPriceUtils.new, <[url := GasPriceUtils.new]> _instances)
  end.

Definition samplerAddressOf (o : option SamplerOverrides) : string :=
  match o ≫= to with Some t => if String.eqb t "" then SAMPLER_ADDRESS else t | None => SAMPLER_ADDRESS end.
Definition defaultCodeOverrides (chainId : ChainId) (samplerAddress : string) : list (string * option string) :=
  let sampler := if truthy samplerBytecode then [(samplerAddress, samplerBytecode)] else [] in
  if SourceFilters.isAllowed (SELL_SOURCE_FILTER_BY_CHAIN_ID chainId) ERC20BridgeSource.UniswapV3
     || SourceFilters.isAllowed (BUY_SOURCE_FILTER_BY_CHAIN_ID chainId) ERC20BridgeSource.UniswapV3
  then assoc_update sampler UNISWAP_V3_MULTIQUOTER_ADDRESS (λ _, uniV3MultiQuoterBytecode)
  else sampler.

(** What the class keeps: the quoter, and how the sampler contract is called,
    where the gas prices come from, and whether Bancor is asked for paths. *)
Record Built : Type := {
  built_quoter : SwapQuoter.t;
  built_contractAddresses : Addresses;
  built_samplerAddress : string;
  built_samplerGas : option number;
  built_samplerOverrides : SamplerOverrides;
  built_gasPriceUtils : GasPriceUtils.t (GasPrices := GasPrices);
  built_bancor : bool;
}.

Definition quoterRfqOpts (r : QuoterRfqOpts) : SwapQuoterRfqOpts :=
  {| integratorsWhitelist := int_integratorId <$> rq_integratorsWhitelist r;
     txOriginBlacklist := elements (blockedNow (rq_txOriginBlacklist r)) |}.

Local Notation Instances := (gmap string (GasPriceUtils.t (GasPrices := GasPrices))).

(** The checks, and the addresses: what can throw before anything is made. *)
Definition checkedAddresses (provider : Provider) (options : PartialSwapQuoterOpts) (chainId : ChainId) : result Addresses :=
  _ ← standardizeOrThrow provider;
  _ ← isValidOrderbook;
  _ ← isNumber "chainId";
  _ ← isNumber "expiryBufferMs";
  match psq_contractAddresses options with
  | Some (Some addresses) => Ok addresses
  | _ => getContractAddressesForChainOrThrow chainId
  end.

Definition newSwapQuoter (provider : Provider) (options : PartialSwapQuoterOpts) : Async Instances Built :=
  opts ← lift ((λ d, spreadOpts d options) <$> DEFAULT_SWAP_QUOTER_OPTS);
  let chainId := sqo_chainId opts in
  addresses ← lift (checkedAddresses provider options chainId);
  gasPriceUtils ← (λ s, let '(i, s) := getInstance (default None (psq_zeroExGasApiUrl options)) s in (Ok i, s));
  let given := default None (psq_samplerOverrides options) in
  let samplerAddress := samplerAddressOf given in
  let samplerOverrides :=
    assignOverrides {| overrides := defaultCodeOverrides chainId samplerAddress; block := Latest; to := None |} given in
  sampler ← lift (ChainCaches.new chainId (default getEmptyGraph (sqo_tokenAdjacencyGraph opts)));
  mret {| built_quoter := SwapQuoter.new sampler (exchangeProxy addresses) (sqo_expiryBufferMs opts)
                            (sqo_permittedOrderFeeTypes opts) (quoterRfqOpts <$> sqo_rfqt opts);
          built_contractAddresses := addresses;
          built_samplerAddress := samplerAddress;
          built_samplerGas := sqo_samplerGasLimit opts;
          built_samplerOverrides := samplerOverrides;
          built_gasPriceUtils := gasPriceUtils;
          built_bancor := bool_decide (chainId = ChainId.Mainnet) |}.

(** ** The constructor of the service *)

(** The options that it makes; the blacklist is written into the object of the
    RFQ options, which the module shares between all services. *)
Definition serviceOpts (contractAddresses : Addresses) (rfqDynamicBlacklist : option RfqDynamicBlacklist.t)
    : Async QuoterRfqOpts PartialSwapQuoterOpts := λ shared,
  let shared := match rfqDynamicBlacklist with
                | Some d => {| rq_integratorsWhitelist := rq_integratorsWhitelist shared; rq_txOriginBlacklist := DynamicBlacklist d |}
                | None => shared end in
  let ganache (o : option SamplerOverrides) :=
    if bool_decide (CHAIN_ID = ChainId.Ganache)
    then Some (assignOverrides {| overrides := []; block := Latest; to := Some (erc20BridgeSampler contractAddresses) |} o)
    else o in
  ((λ o, {| psq_chainId := psq_chainId o; psq_orderRefreshIntervalMs := psq_orderRefreshIntervalMs o;
            psq_expiryBufferMs := psq_expiryBufferMs o; psq_permittedOrderFeeTypes := psq_permittedOrderFeeTypes o;
            psq_contractAddresses := Some (Some contractAddresses);
            psq_samplerGasLimit := psq_samplerGasLimit o; psq_zeroExGasApiUrl := psq_zeroExGasApiUrl o;
            psq_rfqt := psq_rfqt o;
            psq_samplerOverrides := Some (ganache (default None (psq_samplerOverrides o)));
            psq_tokenAdjacencyGraph := psq_tokenAdjacencyGraph o |}) <$> SWAP_QUOTER_OPTS shared, shared).

(** The quoter that a service makes for itself. *)
Record Modules : Type := { rfqOpts : QuoterRfqOpts; instances : Instances }.
Definition newServiceQuoter (provider : Provider) (contractAddresses : Addresses)
    (rfqDynamicBlacklist : option RfqDynamicBlacklist.t) : Async Modules Built := λ s,
  match serviceOpts contractAddresses rfqDynamicBlacklist (rfqOpts s) with
  | (Ok options, shared) =>
      let '(r, i) := newSwapQuoter provider options (instances s) in (r, {| rfqOpts := shared; instances := i |})
  | (Throw e, shared) => (Throw e, {| rfqOpts := shared; instances := instances s |})
  end.

(** *** What a service gets *)

Hypothesis provider_ok : ∀ p, is_ok (standardizeOrThrow p) = true.
Hypothesis orderbook_ok : is_ok isValidOrderbook = true.
Hypothesis number_ok : ∀ name, is_ok (isNumber name) = true.

Lemma service_opts addresses blacklist shared :
  ∃ o graph, serviceOpts addresses blacklist shared = (Ok o, (serviceOpts addresses blacklist shared).2) ∧
    psq_chainId o = Some CHAIN_ID ∧ psq_contractAddresses o = Some (Some addresses) ∧
    psq_rfqt o = Some (Some (serviceOpts addresses blacklist shared).2) ∧
    psq_tokenAdjacencyGraph o = Some (Some graph) ∧
    Tables.DEFAULT_TOKEN_ADJACENCY_GRAPH_BY_CHAIN_ID etherToken CHAIN_ID = Ok graph ∧
    psq_expiryBufferMs o = Some QUOTE_ORDER_EXPIRATION_BUFFER_MS ∧ psq_permittedOrderFeeTypes o = Some [NoFees] ∧
    psq_zeroExGasApiUrl o = Some (Some GAS_API_URL) ∧ psq_samplerGasLimit o = None ∧
    psq_samplerOverrides o = Some (if bool_decide (CHAIN_ID = ChainId.Ganache)
      then Some {| overrides := []; block := Latest; to := Some (erc20BridgeSampler addresses) |} else None).
Proof.
  pose proof (default_graph_ok etherToken CHAIN_ID) as Hg. unfold serviceOpts, SWAP_QUOTER_OPTS.
  destruct (Tables.DEFAULT_TOKEN_ADJACENCY_GRAPH_BY_CHAIN_ID etherToken CHAIN_ID) as [graph|] eqn:E; [|done].
  do 2 eexists. split_and!; try reflexivity. cbn [psq_samplerOverrides default].
  case_bool_decide as Ec; unfold SAMPLER_OVERRIDES; [by rewrite Ec | by destruct CHAIN_ID].
Qed.

(** The calls of the sampler: on Ganache its deployed contract as it is, on every
    other chain the fixed address with the bytecode of the artifact, and the
    quoter of UniswapV3 exactly where a side of the chain uses that source. *)
Definition samplerCalled (addresses : Addresses) (address : string) (o : SamplerOverrides) : Prop :=
  if bool_decide (CHAIN_ID = ChainId.Ganache)
  then address = (if String.eqb (erc20BridgeSampler addresses) "" then SAMPLER_ADDRESS else erc20BridgeSampler addresses) ∧
       overrides o = []
  else address = SAMPLER_ADDRESS ∧
       assoc_get (overrides o) SAMPLER_ADDRESS = (if truthy samplerBytecode then Some samplerBytecode else None) ∧
       assoc_get (overrides o) UNISWAP_V3_MULTIQUOTER_ADDRESS =
         (if existsb (λ side, SourceFilters.isAllowed (sourceFilterOf side CHAIN_ID) ERC20BridgeSource.UniswapV3) [Sell; Buy]
          then Some uniV3MultiQuoterBytecode else None).

Lemma code_overrides chainId :
  assoc_get (defaultCodeOverrides chainId SAMPLER_ADDRESS) SAMPLER_ADDRESS =
    (if truthy samplerBytecode then Some samplerBytecode else None) ∧
  assoc_get (defaultCodeOverrides chainId SAMPLER_ADDRESS) UNISWAP_V3_MULTIQUOTER_ADDRESS =
    (if existsb (λ side, SourceFilters.isAllowed (sourceFilterOf side chainId) ERC20BridgeSource.UniswapV3) [Sell; Buy]
     then Some uniV3MultiQuoterBytecode else None).
Proof.
  unfold defaultCodeOverrides. cbn [existsb sourceFilterOf]. rewrite orb_false_r.
  destruct (_ || _); destruct (truthy samplerBytecode); by split; vm_compute.
Qed.

Lemma getInstance_kept url (s : Instances) :
  (getInstance url s).2 !! default ZERO_EX_GAS_API_URL url = Some (getInstance url s).1 ∧
  ∀ u i, s !! u = Some i → (getInstance url s).2 !! u = Some i.
Proof.
  unfold getInstance. destruct (s !! _) as [i|] eqn:E; cbn [fst snd]; [done|]. split; [by rewrite lookup_insert_eq|].
  intros u i Hu. rewrite lookup_insert_ne; [done|]. intros <-. congruence.
Qed.

(** A service always gets its quoter: for the chain of the configuration and the
    addresses that it is given, with the buffer and the fees of [options.ts], the
    sampler called as above, the shared instance of the gas prices, and the
    blacklist that the shared RFQ options hold by then. *)
Theorem service_quoter_built provider addresses blacklist s :
  ∃ built s', newServiceQuoter provider addresses blacklist s = (Ok built, s') ∧
    let quoter := built_quoter built in
    SamplerOperations.chainId (_sampler quoter) = CHAIN_ID ∧ _exchangeProxy quoter = exchangeProxy addresses ∧
    Tables.DEFAULT_TOKEN_ADJACENCY_GRAPH_BY_CHAIN_ID etherToken CHAIN_ID =
      Ok (SamplerOperations.tokenAdjacencyGraph (_sampler quoter)) ∧
    SwapQuoter.expiryBufferMs quoter = QUOTE_ORDER_EXPIRATION_BUFFER_MS ∧
    SwapQuoter.permittedOrderFeeTypes quoter = [NoFees] ∧
    samplerCalled addresses (built_samplerAddress built) (built_samplerOverrides built) ∧
    instances s' !! GAS_API_URL = Some (built_gasPriceUtils built) ∧
    rq_txOriginBlacklist (rfqOpts s') =
      match blacklist with Some d => DynamicBlacklist d | None => rq_txOriginBlacklist (rfqOpts s) end ∧
    _rfqtOptions quoter = Some (quoterRfqOpts (rfqOpts s')).
Proof using orderbook_ok provider_ok number_ok.
  destruct (service_opts addresses blacklist (rfqOpts s))
    as (o & graph & Eo & Hchain & Haddr & Hrfq & Hg & Egraph & Hexp & Hfee & Hurl & Hgas & Hover).
  unfold newServiceQuoter. rewrite Eo.
  pose proof (default_graph_ok etherToken ChainId.Mainnet) as Hm.
  unfold newSwapQuoter, DEFAULT_SWAP_QUOTER_OPTS, mbind, Async_bind, lift, mret, Async_ret.
  destruct (Tables.DEFAULT_TOKEN_ADJACENCY_GRAPH_BY_CHAIN_ID etherToken ChainId.Mainnet) as [gm|]; [|done].
  cbn [result_bind fmap result_fmap sqo_chainId spreadOpts sqo_tokenAdjacencyGraph sqo_expiryBufferMs
       sqo_permittedOrderFeeTypes sqo_rfqt sqo_samplerGasLimit].
  unfold checkedAddresses, mbind, result_bind. rewrite Hchain, Haddr, Hg, Hexp, Hfee, Hrfq, Hurl, Hover.
  pose proof (provider_ok provider) as H1. destruct (standardizeOrThrow provider); [|done].
  destruct isValidOrderbook; [|done].
  pose proof (number_ok "chainId") as H2. destruct (isNumber "chainId"); [|done].
  pose proof (number_ok "expiryBufferMs") as H3. destruct (isNumber "expiryBufferMs"); [|done].
  unfold default, id. cbn [from_option]. pose proof (getInstance_kept (Some GAS_API_URL) (instances s)) as [Hi _].
  destruct (getInstance (Some GAS_API_URL) (instances s)) as [i s'].
  destruct (ChainCaches.operations_built CHAIN_ID graph) as (sampler & -> & Hsc & Hsg & _).
  do 2 eexists. split; [reflexivity|].
  split_and!; try done.
  - by rewrite Egraph, <- Hsg.
  - unfold samplerCalled. cbn [built_samplerAddress built_samplerOverrides]. case_bool_decide; cbn [samplerAddressOf assignOverrides].
    + by split.
    + split; [done | apply code_overrides].
  - by destruct blacklist.
Qed.

(** The object that a service writes its blacklist into is the one of the module:
    a later service without a blacklist has it too. *)
Lemma blacklist_shared provider addresses d s built s' provider' addresses' :
  newServiceQuoter provider addresses (Some d) s = (Ok built, s') →
  ∃ built' s'', newServiceQuoter provider' addresses' None s' = (Ok built', s'') ∧
    txOriginBlacklist <$> _rfqtOptions (built_quoter built') = Some (elements (RfqBlockedAddressUtils._blocked d)).
Proof using orderbook_ok provider_ok number_ok.
  intros E. destruct (service_quoter_built provider addresses (Some d) s) as (b1 & s1 & E1 & _ & _ & _ & _ & _ & _ & _ & Hb & _).
  rewrite E in E1. injection E1 as <- <-.
  destruct (service_quoter_built provider' addresses' None s') as (b2 & s2 & E2 & _ & _ & _ & _ & _ & _ & _ & Hb2 & Hr).
  exists b2, s2. split; [done|]. rewrite Hr. cbn [fmap option_fmap option_map quoterRfqOpts txOriginBlacklist]. by rewrite Hb2, Hb.
Qed.
End Setup.

(** ** The options of a request

    [options.ts] has the options of every request, the service spreads those of
    one over them, and the quoter merges the result into its defaults. *)

Section RequestOptions.
Context {B : BigNumberLib}.

(** [Partial<SwapQuoteRequestOpts>]: [_.merge] skips a key that is missing and
    one that is [undefined] alike. *)
Record PartialRequestOpts : Type := {
  po_excludedSources : option (list ERC20BridgeSource);
  po_includedSources : option (list ERC20BridgeSource);
  po_bridgeSlippage : option number;
  po_numSamples : option nat;
  po_sampleDistributionBase : option number;
  po_neonRouterNumSamples : option nat;
  po_exchangeProxyOverhead : option (Z → BN);
  po_rfqt : option GetMarketOrdersRfqOpts;
  po_shouldGenerateQuoteReport : option bool;
  po_fillAdjustor : option RequestFillAdjustor;
  po_gasPrice : option BN;
}.

(** [_.merge({}, defaults, options)].  The fees are never given; the requestor,
    the client and the native fee are set by the quoter. *)
Definition mergeRequestOpts (d : SwapQuoteRequestOpts RequestFillAdjustor) (o : PartialRequestOpts)
    : SwapQuoteRequestOpts RequestFillAdjustor :=
  let m := req_market d in
  {| req_gasPrice := match po_gasPrice o with Some g => Some g | None => req_gasPrice d end;
     req_bridgeSlippage := default (req_bridgeSlippage d) (po_bridgeSlippage o);
     req_market :=
       {| MarketOps.excludedSources := default (MarketOps.excludedSources m) (po_excludedSources o);
          MarketOps.includedSources := default (MarketOps.includedSources m) (po_includedSources o);
          MarketOps.numSamples := default (MarketOps.numSamples m) (po_numSamples o);
          MarketOps.sampleDistributionBase := default (MarketOps.sampleDistributionBase m) (po_sampleDistributionBase o);
          MarketOps.neonRouterNumSamples := default (MarketOps.neonRouterNumSamples m) (po_neonRouterNumSamples o);
          MarketOps.feeSchedule := MarketOps.feeSchedule m;
          MarketOps.nativeRfqFee := MarketOps.nativeRfqFee m;
          MarketOps.exchangeProxyOverhead := default (MarketOps.exchangeProxyOverhead m) (po_exchangeProxyOverhead o);
          MarketOps.rfqt := match po_rfqt o with Some r => Some r | None => MarketOps.rfqt m end;
          MarketOps.shouldGenerateQuoteReport :=
            default (MarketOps.shouldGenerateQuoteReport m) (po_shouldGenerateQuoteReport o);
          MarketOps.fillAdjustor := default (MarketOps.fillAdjustor m) (po_fillAdjustor o) |} |}.

Variable formatGas : ERC20BridgeSource → FillData → result number.
(** [DEFAULT_GET_MARKET_ORDERS_OPTS]. *)
Definition DEFAULT_SWAP_QUOTE_REQUEST_OPTS : SwapQuoteRequestOpts RequestFillAdjustor :=
  {| req_gasPrice := None;
     req_bridgeSlippage := round64 (5 # 1000);
     req_market :=
       {| MarketOps.excludedSources := []; MarketOps.includedSources := [];
          MarketOps.numSamples := 40; MarketOps.sampleDistributionBase := n_Z 1;
          MarketOps.neonRouterNumSamples := 41;
          MarketOps.feeSchedule := SwapService.DEFAULT_FEE_SCHEDULE formatGas;
          MarketOps.nativeRfqFee := Ok ZERO_AMOUNT;
          MarketOps.exchangeProxyOverhead := λ _, ZERO_AMOUNT;
          MarketOps.rfqt := None; MarketOps.shouldGenerateQuoteReport := true;
          MarketOps.fillAdjustor := inr NewIdentityFillAdjustor |} |}.

Variable CHAIN_ID : ChainId.
Variable SAMPLE_DISTRIBUTION_BASE : number.
Definition ASSET_SWAPPER_MARKET_ORDERS_OPTS : PartialRequestOpts :=
  {| po_excludedSources := None; po_includedSources := None;
     po_bridgeSlippage := Some DEFAULT_QUOTE_SLIPPAGE_PERCENTAGE;
     po_numSamples := Some NUM_SAMPLES;
     po_sampleDistributionBase := Some SAMPLE_DISTRIBUTION_BASE;
     po_neonRouterNumSamples := Some (NUM_SAMPLES + 1)%nat;
     po_exchangeProxyOverhead := Some (EXCHANGE_PROXY_OVERHEAD_FULLY_FEATURED CHAIN_ID);
     po_rfqt := None; po_shouldGenerateQuoteReport := Some true; po_fillAdjustor := None; po_gasPrice := None |}.
Definition with_overhead (overhead : Z → BN) (o : PartialRequestOpts) : PartialRequestOpts :=
  {| po_excludedSources := po_excludedSources o; po_includedSources := po_includedSources o;
     po_bridgeSlippage := po_bridgeSlippage o; po_numSamples := po_numSamples o;
     po_sampleDistributionBase := po_sampleDistributionBase o; po_neonRouterNumSamples := po_neonRouterNumSamples o;
     po_exchangeProxyOverhead := Some overhead; po_rfqt := po_rfqt o;
     po_shouldGenerateQuoteReport := po_shouldGenerateQuoteReport o; po_fillAdjustor := po_fillAdjustor o;
     po_gasPrice := po_gasPrice o |}.
Definition ASSET_SWAPPER_MARKET_ORDERS_OPTS_NO_VIP : PartialRequestOpts :=
  with_overhead EXCHANGE_PROXY_OVERHEAD_NO_VIP ASSET_SWAPPER_MARKET_ORDERS_OPTS.

(** The object literal of [calculateSwapQuoteAsync]: every key after the spread
    replaces that of the options it starts from. *)
Definition requestOpts (base : PartialRequestOpts) (params : GetSwapQuoteParams) (rfqt : option GetMarketOrdersRfqOpts)
    (gasPrice : option BN) (adjustor : RequestFillAdjustor) : PartialRequestOpts :=
  {| po_excludedSources := Some (gp_excludedSources params ++ default [] (po_excludedSources base));
     po_includedSources := gp_includedSources params;
     po_bridgeSlippage := gp_slippagePercentage params;
     po_numSamples := po_numSamples base;
     po_sampleDistributionBase := po_sampleDistributionBase base;
     po_neonRouterNumSamples := po_neonRouterNumSamples base;
     po_exchangeProxyOverhead := po_exchangeProxyOverhead base;
     po_rfqt := rfqt;
     po_shouldGenerateQuoteReport := rp_intentOnFilling <$> gp_rfqt params;
     po_fillAdjustor := Some adjustor;
     po_gasPrice := gasPrice |}.
End RequestOptions.

(** Spreading and merging the layers gives the options that the service is
    modelled with; the slippage and the report of [options.ts] are always
    replaced, by [undefined] too, and then by the defaults of the quoter. *)
Theorem request_options_merged {B : BigNumberLib} isNative cfg (this : SwapService.t) formatGas params rfqt gasPrice :
  mergeRequestOpts (DEFAULT_SWAP_QUOTE_REQUEST_OPTS formatGas)
    (requestOpts
       (if withoutVIP cfg params
        then ASSET_SWAPPER_MARKET_ORDERS_OPTS_NO_VIP (SwapService.CHAIN_ID cfg) (SAMPLE_DISTRIBUTION_BASE cfg)
        else ASSET_SWAPPER_MARKET_ORDERS_OPTS (SwapService.CHAIN_ID cfg) (SAMPLE_DISTRIBUTION_BASE cfg))
       params rfqt gasPrice (fillAdjustorOf isNative cfg this params))
  = assetSwapperOpts isNative cfg this formatGas params rfqt gasPrice.
Proof.
  unfold assetSwapperOpts, mergeRequestOpts, requestOpts. destruct (withoutVIP cfg params);
    cbn [ASSET_SWAPPER_MARKET_ORDERS_OPTS_NO_VIP ASSET_SWAPPER_MARKET_ORDERS_OPTS with_overhead
         po_excludedSources default]; rewrite app_nil_r;
    by destruct gasPrice, rfqt, (gp_rfqt params), (gp_slippagePercentage params), (gp_includedSources params).
Qed.
