(* ===== verification/SwapStack.v ===== *)
(** * The composed service

    The swap quoter implements what the swap service relies on ([Quoter] and its
    laws), the swap service implements what the handlers rely on
    ([ISwapService]); the endpoint [/quote] of the whole is the parser of a
    request, the handler, the service and the quoter with its sampler, order
    book, RFQ makers and router. *)

From S2P Require Import Prelude JsLib JsNumber BigNum Types SourceFilters Fills Orders Constants GasSchedule.
From S2P Require Import PathModel Optimizer Simulation QuoteInfo FeeCalculator Caches BridgeSources Sampler.
From S2P Require Import SamplerOperations SlippageModel QuoteReport RfqClient RfqValidator MarketOps Quotes SwapQuoter.
From S2P Require Import TransformERC20 QuoteConsumer RequestParsing ServiceUtils Pricing GasEstimation SwapService SwapHandlers.

#[local] Set Default Proof Using "Type".

Section Stack.
Context {B : BigNumberLib} `{BT : !BridgeTables} `{SC : !SamplerContract} `{OB : !Orderbook}.
Context `{N : !Node} `{RD : !RevertDecoder} `{AE : !AffiliateEncoding}.

(** The collaborators of the quoter, as in [SwapQuoter]. *)
Variable formatBytes32String parseBytes32String : string → string.
Variable wethAddress : string.
Variable route : PathOptimizer.OptimizerCapture → nat → result PathOptimizer.RouterArrays.
Variable hexUtils_random : nat → string.
Variable orderType_string : FillQuoteTransformerOrderType → string.
Variable toUnitAmount : BN → number → BN.
Variable bn_of_string : string → BN.
Variable isETHAddressHex : string → string → result unit.
Variable willExpire : OrderFields → number → bool.
Variable isNativeSymbolOrAddress isNativeWrappedSymbolOrAddress : string → bool.
Variable swapQuoter : SwapQuoter.t.
(** The RFQ client, and the answer of the gas oracle when it is asked. *)
Variable rfqClient : option RfqApi.
Variable oracle : result GasPrices.
(** [DEFAULT_GET_MARKET_ORDERS_OPTS], of [getTokenAmountPerWei(token, {})]. *)
Variable defaults : SwapQuoteRequestOpts RequestFillAdjustor.

Local Notation OracleState := (GasPriceUtils.t (GasPrices := GasPrices)).
Local Notation quoted := (SwapQuoter.getSwapQuoteAsync formatBytes32String parseBytes32String wethAddress route
  hexUtils_random orderType_string toUnitAmount bn_of_string isETHAddressHex willExpire fast swapQuoter).

(** A quote of the swap quoter, with the makers' client and the oracle that it
    is built with. *)
Definition askQuoter (maker taker : string) (amount : BN) (side : MarketOperation)
    (opts : SwapQuoteRequestOpts RequestFillAdjustor) : Async OracleState (SwapQuote Path.t) :=
  quoted maker taker amount side opts rfqClient oracle.

Lemma quoter_answers maker taker amount side opts utils quote utils' :
  askQuoter maker taker amount side opts utils = (Ok quote, utils') →
  makerToken quote = maker ∧ takerToken quote = taker ∧
  quote_type quote = match side with Buy => MarketBuy amount | Sell => MarketSell amount end ∧
  IPathLaws side (path quote) ∧
  Forall (λ o, allowed_source (req_market opts) (opt_source o)) (getOrders (path quote)).
Proof.
  intros H. unfold askQuoter in H. pose proof H as Hc. eapply swap_quote_created in Hc as (Hm & Ht & Hty & Hp & _); [|exact _].
  split_and!; [exact Hm | exact Ht | exact Hty | exact Hp |].
  eapply Forall_impl; [eapply swap_quote_orders, H; exact _|]. intros o (_ & Hex & Hin). by split.
Qed.

#[local] Instance swapQuoter_Quoter : Quoter OracleState Path.t RequestFillAdjustor := {|
  quoter_getSwapQuoteAsync := askQuoter;
  quoter_getTokenAmountPerWei := λ token,
    lift (SwapQuoter.getTokenAmountPerWei formatBytes32String swapQuoter isNativeSymbolOrAddress
            isNativeWrappedSymbolOrAddress token defaults);
  quoter_getGasPriceEstimationOrThrowAsync := λ utils,
    SwapQuoter.getGasPriceEstimationOrThrowAsync fast oracle utils;
|}.

#[local] Instance swapQuoter_laws : QuoterLaws OracleState Path.t RequestFillAdjustor.
Proof. split. exact quoter_answers. Qed.

(** C4. The swap quoter keeps the promises that the service relies on. *)
Theorem swap_quoter_refines_quoter maker taker amount side opts utils quote utils' :
  askQuoter maker taker amount side opts utils = (Ok quote, utils') →
  makerToken quote = maker ∧ takerToken quote = taker ∧
  quote_type quote = match side with Buy => MarketBuy amount | Sell => MarketSell amount end ∧
  IPathLaws side (path quote) ∧
  Forall (λ o, allowed_source (req_market opts) (opt_source o)) (getOrders (path quote)).
Proof. apply quoter_answers. Qed.

(** *** The endpoint *)

(** The collaborators of the service, as in [SwapService], and of the handlers,
    as in [SwapHandlers]. *)
Variable encodeBridgeSourceId : BridgeProtocol → string → string.
Variable abi_encode : list AbiType.t → list AbiValue → string.
Variable encode_call : ProxyCall → string.
Variable toPrecision : nat → BN → BN.
Variable weth_withdraw : BN → string.
Variable weth_deposit : string.
Variable cfg : Config.
Variable service : SwapService.t.
Variable env : Env.
Variable formatGas : ERC20BridgeSource → FillData → result number.
Variable brotliLength : list Z → nat.
Variable bn_toString : BN → string.
Variable stringifyFillData : IndexedEntry → string.
Variable kafkaProducer : bool.
Variable KAFKA_TOPIC_QUOTE_REPORT : option string.

Local Notation State := (ServiceState (Q := OracleState)).

#[local] Instance swapService : ISwapService State := {|
  swap_calculateSwapQuoteAsync :=
    calculateSwapQuoteAsync encodeBridgeSourceId abi_encode encode_call toUnitAmount toPrecision
      isNativeSymbolOrAddress cfg service env formatGas;
  swap_getSwapQuoteForWrapAsync := getSwapQuoteForWrapAsync weth_withdraw weth_deposit cfg env;
  swap_getSwapQuoteForUnwrapAsync := getSwapQuoteForUnwrapAsync weth_withdraw weth_deposit cfg env;
|}.

(** The parser's view of the tokens. *)
Variable INTEGRATORS_ACL : list Integrator.
Variable validateSchema : SwapQuery → result unit.
Variable isNative : option string → result bool.
Variable isWrapped : string → result bool.
Variable findTokenAddressOrThrow : option string → string + string.

(** [/quote]. *)
Definition quoteEndpoint (query : SwapQuery) (apiKey : option string) (now : Z)
    : Async State (HttpResponse GetSwapQuoteResponse * option ExtendedQuoteReport) :=
  getQuoteAsync (CHAIN_ID cfg) brotliLength bn_toString stringifyFillData kafkaProducer KAFKA_TOPIC_QUOTE_REPORT
    svc_quoter
    (parseSwapQuoteRequestParams INTEGRATORS_ACL (TransformERC20.nativeFeeToken (deployment cfg)) validateSchema
       isNative isWrapped findTokenAddressOrThrow bn_of_string query apiKey Quote) now.

Lemma wrapped_no_orders unwrap params s r s' :
  _getSwapQuoteForNativeWrappedAsync (Q := OracleState) (P := Path.t) weth_withdraw weth_deposit cfg env params unwrap s
    = (Ok r, s') → rsp_orders r = [].
Proof.
  unfold _getSwapQuoteForNativeWrappedAsync. destruct (match gp_buyAmount params with Some a => Some a | None => _ end); [|done].
  cbv zeta. intros (gasPrice & s1 & _ & [-> _]%async_ret_ok)%async_bind_ok. done.
Qed.

Lemma routed_orders params s r s' :
  routed params s = (Ok r, s') → Forall (λ o, request_allows params (opt_source o)) (rsp_orders r).
Proof.
  unfold routed. destruct (gp_isUnwrap params); [intros H%wrapped_no_orders; rewrite H; constructor|].
  destruct (gp_isWrap params); [intros H%wrapped_no_orders; rewrite H; constructor|].
  exact (answered_orders encodeBridgeSourceId abi_encode encode_call toUnitAmount toPrecision isNativeSymbolOrAddress
    cfg service env formatGas params s r s').
Qed.

(** C1. End to end, from the text of a query to the orders of the answer: whatever
    the chain, the makers, the order book, the oracle and the router say, no
    order of a quote is of a source that the query excludes, and when the query
    includes a known source (RFQ liquidity standing for the native one), all of
    them are of sources it includes. *)
Theorem quote_endpoint_respects_query query apiKey now s response report s' :
  quoteEndpoint query apiKey now s = (Ok (response, report), s') →
  ∃ quote, response = {| status := OK; body := Some quote |} ∧
    Forall (λ o,
      let included s := named_by (sq_includedSources query) s ∨
        (s = ERC20BridgeSource.Native ∧ "RFQT"%string ∈ splitIds (sq_includedSources query)) in
      ¬ named_by (sq_excludedSources query) (opt_source o) ∧
      ((∃ s, included s) → included (opt_source o))) (rsp_orders quote).
Proof.
  intros (params & s1 & [Hp ->]%lift_ok & H)%async_bind_ok.
  apply async_bind_ok in H as (quote & s2 & Hq & [[= -> ->] _]%async_ret_ok).
  eexists. split; [reflexivity|]. cbn [rsp_orders quoteResponseOf].
  apply quoted_response in Hq as (q0 & Hr & _ & -> & _). apply routed_orders in Hr.
  apply parsed_query_sources in Hp as (Hex & included & Hinc & Hin).
  eapply Forall_impl; [exact Hr|]. intros o [H1 H2]. cbv zeta. split; [by rewrite <- Hex|].
  intros (x & Hx). rewrite <- Hin in Hx |- *. apply (H2 included Hinc). intros ->. by apply elem_of_nil in Hx.
Qed.
End Stack.

(** ** A concrete stack *)
Module StackExamples.
Import Concrete SamplerExamples MarketExamples QuoterExamples UtilsExamples ServiceExamples.

(** A contract whose pools give 22 more per sample of the forty, 880 for all. *)
#[export] Instance stack_contract : SamplerContract :=
  {| encodeInput := encodeInput;
     decodeOutput := λ r function data,
       match r return result (denote r) with
       | RList RAmount =>
           Ok (if String.eqb function "getTokenDecimals" then [of_Z 18; of_Z 6]
               else (λ i, of_Z (22 * (Z.of_nat i + 1))) <$> seq 0 40)
       | r => decodeOutput r function data
       end;
     batchCallAsync := batchCallAsync |}.

Definition ex_defaults : SwapQuoteRequestOpts RequestFillAdjustor :=
  {| req_gasPrice := None; req_bridgeSlippage := n_Z 0;
     req_market := {|
       MarketOps.excludedSources := []; MarketOps.includedSources := [ERC20BridgeSource.UniswapV2]; MarketOps.numSamples := 40;
       MarketOps.sampleDistributionBase := n_Z 1; MarketOps.neonRouterNumSamples := 41;
       MarketOps.feeSchedule := DEFAULT_FEE_SCHEDULE ex_gas; MarketOps.nativeRfqFee := Ok ZERO_AMOUNT;
       MarketOps.exchangeProxyOverhead := λ _, ZERO_AMOUNT; MarketOps.rfqt := None;
       MarketOps.shouldGenerateQuoteReport := true; MarketOps.fillAdjustor := inr NewIdentityFillAdjustor |} |}.

(** A hundred of [0xa] for [0xb], of Uniswap only. *)
Definition ex_query : SwapQuery := {|
  sq_sellToken := Some "0xa"%string; sq_buyToken := Some "0xb"%string; sq_sellAmount := Some "100"%string;
  sq_buyAmount := None; sq_takerAddress := None; sq_affiliateAddress := None; sq_gasPrice := None;
  sq_slippagePercentage := None; sq_priceImpactProtectionPercentage := None;
  sq_excludedSources := None; sq_includedSources := Some "Uniswap_V2"%string; sq_intentOnFilling := None;
  sq_skipValidation := Some "true"%string; sq_shouldSellEntireBalance := None; sq_debug := None;
  sq_enableSlippageProtection := None;
  sq_fee := {| fq_feeRecipient := None; fq_sellTokenPercentageFee := None; fq_buyTokenPercentageFee := None;
               fq_feeType := None |} |}.

Definition ex_endpoint : Async (ServiceState (Q := GasPriceUtils.t (GasPrices := GasPrices))) _ :=
  quoteEndpoint ex_bytes32 ex_bytes32 "0xweth" first_path rnd otype unit_amount parse no_assert never_expires
    (λ _, false) (λ _, false) QuoterExamples.ex_quoter None (Ok {| fast := n_Z 200; l1CalldataPricePerUnit := None |})
    ex_defaults TransformExamples.encodeId TransformExamples.encode ex_encode_call (λ _ a, a) (λ _, "0x"%string) "0x"
    ex_cfg ex_service ex_env ex_gas (λ _, 100%nat) (λ _, "0"%string) (λ _, "{}"%string) false None
    [] (λ _, Ok tt) (λ _, Ok false) (λ _, Ok false) (λ t, match t with Some t => inl t | None => inr "no token"%string end)
    ex_query None 0%Z.
Definition ex_quoted : Async (GasPriceUtils.t (GasPrices := GasPrices)) (SwapQuote Path.t) :=
  askQuoter ex_bytes32 ex_bytes32 "0xweth" first_path rnd otype unit_amount parse no_assert
    never_expires QuoterExamples.ex_quoter None (Ok {| fast := n_Z 200; l1CalldataPricePerUnit := None |})
    "0xb" "0xa" (of_Z 100) Sell ex_defaults.
Definition ex_stack_state : ServiceState (Q := GasPriceUtils.t (GasPrices := GasPrices)) :=
  {| svc_quoter := GasPriceUtils.new; _altRfqMarketsCache := ∅ |}.
End StackExamples.

Import Concrete SamplerExamples MarketExamples QuoterExamples UtilsExamples ServiceExamples StackExamples.

Lemma quote_endpoint_respects_query_witness :
  ∃ quote report s', ex_endpoint ex_stack_state = (Ok ({| status := OK; body := Some quote |}, report), s') ∧
    rsp_orders quote ≠ [] ∧ Forall (λ o, opt_source o = ERC20BridgeSource.UniswapV2) (rsp_orders quote).
Proof.
  assert (match (ex_endpoint ex_stack_state).1 with
          | Ok ({| body := Some q |}, _) => SourceFilters.non_empty (rsp_orders q) | _ => false end = true) as K
    by (vm_compute; reflexivity).
  destruct (ex_endpoint ex_stack_state) as [[[response report]|] s'] eqn:E; [|discriminate K].
  pose proof E as E2. unfold ex_endpoint in E2.
  apply quote_endpoint_respects_query in E2 as (quote & -> & Ho).
  exists quote, report, s'. split; [reflexivity|]. split; [by apply SourceFilters.non_empty_true|].
  eapply Forall_impl; [exact Ho|]. intros o [_ Hin].
  assert (splitIds (sq_includedSources ex_query) = ["Uniswap_V2"%string]) as Hs by (vm_compute; reflexivity).
  unfold named_by in Hin. rewrite Hs in Hin. setoid_rewrite list_elem_of_singleton in Hin.
  destruct Hin as [[Hn|[_ [=]]]|[_ [=]]].
  - exists ERC20BridgeSource.UniswapV2. left. left. reflexivity.
  - destruct (opt_source o); try discriminate Hn. reflexivity.
Defined.

Lemma swap_quoter_refines_quoter_witness :
  ∃ q utils, ex_quoted GasPriceUtils.new = (Ok q, utils) ∧ takerToken q = "0xa"%string ∧ IPathLaws Sell (path q).
Proof.
  assert (is_ok (ex_quoted GasPriceUtils.new).1 = true) as K by (vm_compute; reflexivity).
  destruct (ex_quoted GasPriceUtils.new) as [[q|] utils] eqn:E; [|discriminate K]. exists q, utils. split; [reflexivity|].
  unfold ex_quoted in E. apply swap_quoter_refines_quoter in E as (_ & Ht & _ & Hp & _). split; [exact Ht | exact Hp].
Defined.
